(* ===== verification/_CoqProject ===== *)
-Q . S2P
Prelude.v
Mmu.v
Hardware.v
Memory.v
Bytes.v
Kernel.v
Spinlock.v
Kalloc.v
Cprintf.v
Kbd.v
Vm.v
Proc.v
Trapinit.v
Thread.v
Sleeplock.v
Blockdev.v
Portio.v
Apic.v
Mp.v
Ide.v
Memide.v
Bio.v
Log.v
Txn.v
Fs.v
FsBlocks.v
FsData.v
FsFiles.v
FsDir.v
Pipe.v
File.v
ProcLife.v
Console.v
Sysfile.v
Exec.v
Syscall.v
Frame.v
Isolation.v
Ulock.v
Umalloc.v
Mkfs.v
User.v
Ulib.v
Grep.v
Utils.v
Sh.v
Runcmd.v
