(* ===== verification/Prelude.v ===== *)
(** * xv6-threading: a verification development

    The repository is the teaching kernel xv6 for the x86 with kernel threads
    added: [clone] and [join], mutexes, a barrier and a lottery scheduler.  This
    library models its C code (under [src/xv6-public]) and proves what makes the
    parts correct.

    ** The program and its model

    The kernel is one C program whose functions share global tables.  The model
    keeps that shape.  [Kernel] declares the record [K] of all globals (process
    table, mutex table, caches, log, file table, pipes, console), physical memory,
    the disk and the registers of the CPU.  C functions are functions of the monad
    [M A := oracle → K → res A]: they return ([Ret]), stop in [panic] ([Panic]) or
    wait for ever ([Blocked]).  The oracle is a list of the state changes other
    CPUs and processes make: one is consumed whenever the code gives up the CPU
    ([sched]) or finds a lock taken.  A theorem quantifies over it, so it holds
    for all interleavings at those points; between them the locks of the code
    exclude others, which the entries of the oracle are constrained to respect
    where a theorem needs it.

    Integers are [Z]; the conversions [u32], [s32], [u8] of this file are written
    where C wraps.  A pointer into a table is its index, a pointer to a page its
    address.  Code that copies to or from user or kernel memory takes a [sink] or
    a [source] (see [Fs]).

    The files, bottom up, with what they model:

    - [Mmu], [Hardware], [Memory], [Bytes]: the macros of [param.h], [mmu.h],
      [memlayout.h]; segment and gate descriptors as bit fields, trap numbers, and
      the record of the accesses to devices; byte memory and [string.c]; integers
      inside disk blocks.
    - [Kernel], [Spinlock]: the state and the monad; [pushcli], [popcli],
      [acquire], [release] of [spinlock.c].
    - [Kalloc]: [kalloc.c], the free list threaded through the free pages.
    - [Cprintf], [Kbd], [Console]: [console.c] and [kbd.c].
    - [Vm], [Trapinit]: [vm.c], two-level page tables in memory, the segments
      and the task state; the interrupt table of [trap.c].
    - [Proc], [Thread], [ProcLife]: [proc.c] with threads, mutexes, the barrier
      and the lottery scheduler.
    - [Sleeplock], [Blockdev]: [sleeplock.c]; the class [BlockDev] of a disk
      driver's operations, and the class [BlockDevOk] of what the buffer cache
      relies on.
    - [Portio], [Apic], [Mp], [Ide]: input and output; [ioapic.c], [picirq.c],
      [lapic.c]; [mp.c]; [ide.c].  Devices are not in the sources: every access
      is recorded in [k_io], and what the hardware answers is a function of the
      record, an argument of the code (class [Machine]).  What its documentation
      promises are the classes [AtaDisk], [AtaSound], [IoApicChip] and [Clock],
      each with an instance.
    - [Memide], [Bio]: [memide.c]; [bio.c].  The drivers of [memide.c] and, with a
      drive that answers requests by interrupts, of [ide.c] are instances of
      [BlockDevOk].
    - [Log], [Txn]: [log.c] and the way [fs.c] uses it.
    - [Fs], [FsBlocks], [FsData], [FsFiles], [FsDir]: [fs.c]; the class [Devsw]
      is the device switch, which [Console] fills.
    - [Pipe], [File], [Sysfile], [Exec], [Syscall]: [pipe.c], [file.c],
      [sysfile.c], [exec.c], [syscall.c], [sysproc.c], [trap.c].
    - [Frame], [Isolation]: no code of their own; what every function that a trap
      can reach leaves alone, and what follows for whole traps.
    - [Ulock], [Umalloc]: the locks of [ulib.c] under every interleaving of their
      memory accesses; the allocator of [umalloc.c].
    - [Mkfs]: [mkfs.c], the program that builds the file-system image.
    - [User], [Ulib]: the system calls of [user.h] as user programs see them; the
      rest of [ulib.c] and [printf.c].  A user program is a function of the monad
      [U S A := S → ures S A] over a state [S] with an instance of the class [Os],
      which answers its calls; it returns, exits, is stopped by a fault, or has
      more to do when its fuel ends.  Theorems about what a program prints use the
      instance [stdio], open files given by their contents, whose reads may be
      short; those about descriptors use the instance [fdtab] of [Runcmd].
    - [Grep], [Utils], [Sh], [Runcmd]: [grep.c]; [wc.c], [ls.c], [echo.c],
      [kill.c], [ln.c], [mkdir.c], [rm.c], [zombie.c], [init.c]; the parser of
      [sh.c]; running commands in [sh.c].

    ** What is proved

    - Memory: [kalloc] and [kfree] refine a stack of pages; [allocuvm] and
      [deallocuvm] map and free exactly the range asked for, also when memory runs
      out; [memmove], [memset] and [safestrcpy] do what their names say.
    - Locks and processes: critical sections restore the interrupt state; misuse
      panics; [sleep] has no window in which a wakeup is lost; process ids are
      unique; the lottery's draw.
    - Whole traps: whatever trap is handled and however the handler ends, other
      processes keep their memory, registers and files; a handler that returns has
      released its locks and ended its transactions; a failed [exec] changes no
      process.
    - Hardware: the interrupt table leads every trap to its vector, and user code
      can raise only system calls; segments and the task state; which interrupts
      are open and who gets them; the processors of the firmware's table; the
      date.
    - Threads: [mutex_lock] waits until the mutex is free; the barrier holds
      until it is full, and never again; [mutex_init] can take a held mutex away.
    - Disk: the IDE driver serves its queue in order and leaves buffer and block
      in agreement, unless the drive reports an error, which it ignores;
      [bread] and [bwrite] agree with the disk; [commit] is atomic over
      a crash at any point; [end_op] makes a transaction durable.
    - Files: block allocation, [readi], [writei], [iget], [dirlookup], [dirlink]
      and the splitting of paths, against the contents of the files and the free
      bitmap.  These theorems are about the kernel's view of the disk ([view]),
      which the log makes durable.
    - Interfaces to users: pipes refine a bounded queue; the console refines a
      line editor; the keyboard yields characters of a byte; system-call arguments
      are checked.
    - User side: both kinds of user lock exclude, the ticket lock in order;
      [malloc] and [free] keep a heap of disjoint blocks; [thread_create] gives
      [clone] a stack inside such a block; [mkfs] builds an image the kernel's
      invariants hold of.  The shell's parser accepts exactly a grammar, its
      strings are the words of the line, and a pipeline is wired as it should be;
      [grep]'s matcher decides the language of its pattern, and [grep] and [wc]
      print what they should of a file; [gets] reads a line; [atoi] reads what
      [printf] writes.

    ** Bounds

    Loops that are not structural carry a bound.  Where it could matter it is
    proved to be enough ([namex_bound_enough], [kill_line_spec], the page loops of
    [Vm]); otherwise it is the bound of the C loop itself.  A wait loop
    ([forever]) uses the length of the oracle: every turn that continues has
    consumed an entry.  A loop that polls a device has the bound [patience] of the
    machine, within which the documentation's classes promise an answer.  The shell's parser has fuel [parse_fuel], proved to be
    enough for every line ([parsecmd_grammar]); the read loops of user programs
    have a bound of the caller's, and their theorems say how much is enough.

    ** Not modelled

    - The serial line, the order of initialisation and the boot code ([uart.c],
      [main.c], [bootmain.c] and the assembly files).
    - [swtch] and the trap entry are assembly; switching away is an entry of the
      oracle.
    - The processor's memory ordering: memory is sequentially consistent.
    - [cat.c], which is commented out as a whole, and the test programs
      ([usertests.c], [forktest.c], [stressfs.c] and the [test_] files), which are
      scenarios run on the kernel. *)

From stdpp Require Import base numbers list gmap strings.
From Stdlib Require Import Ascii.
#[global] Open Scope Z_scope.

(** ** Machine integers

    A C [uint] is a [Z] in [0, 2^32), an [int] a [Z] in [-2^31, 2^31), a
    [uchar] a [Z] in [0, 256); [u32], [s32] and [u8] are the conversions. *)

Definition u32 (x : Z) : Z := x mod 4294967296.
Definition s32 (x : Z) : Z := (x + 2147483648) mod 4294967296 - 2147483648.
Definition u8 (x : Z) : Z := x mod 256.
Definition u16 (x : Z) : Z := x mod 65536.
Definition s16 (x : Z) : Z := (x + 32768) mod 65536 - 32768.
Definition s8 (x : Z) : Z := (x + 128) mod 256 - 128.

(** The bytes of a string literal, without the terminating NUL. *)
Fixpoint str (s : string) : list Z :=
  match s with
  | EmptyString => []
  | String c s => Z.of_N (N_of_ascii c) :: str s
  end.

Definition nl : string := String "010" EmptyString.

Create HintDb wrap.

(** [lia] with division and remainder by constants. *)
Ltac lia_mod := Z.to_euclidean_division_equations; lia.

Lemma u32_range x : 0 ≤ u32 x < 4294967296.
Proof. unfold u32. lia_mod. Qed.

Lemma s32_range x : -2147483648 ≤ s32 x < 2147483648.
Proof. unfold s32. lia_mod. Qed.

Lemma u8_range x : 0 ≤ u8 x < 256.
Proof. unfold u8. lia_mod. Qed.

Lemma u32_small x : 0 ≤ x < 4294967296 → u32 x = x.
Proof. unfold u32. lia_mod. Qed.

Lemma s32_small x : -2147483648 ≤ x < 2147483648 → s32 x = x.
Proof. unfold s32. lia_mod. Qed.

Lemma u8_small x : 0 ≤ x < 256 → u8 x = x.
Proof. unfold u8. lia_mod. Qed.

Lemma u32_idem x : u32 (u32 x) = u32 x.
Proof. apply u32_small, u32_range. Qed.

Lemma s32_idem x : s32 (s32 x) = s32 x.
Proof. apply s32_small, s32_range. Qed.

Lemma u8_idem x : u8 (u8 x) = u8 x.
Proof. apply u8_small, u8_range. Qed.

Lemma u32_s32 x : u32 (s32 x) = u32 x.
Proof. unfold u32, s32. lia_mod. Qed.

Lemma s32_u32 x : s32 (u32 x) = s32 x.
Proof. unfold u32, s32. lia_mod. Qed.

#[export] Hint Rewrite u32_idem s32_idem u8_idem u32_s32 s32_u32 : wrap.
#[export] Hint Resolve u32_range s32_range u8_range : wrap.

(** ** Tactics *)

(** Case analysis on the boolean tests a C condition is translated to. *)
Ltac case_test :=
  match goal with
  | |- context [Z.eqb ?a ?b] => destruct (Z.eqb_spec a b)
  | |- context [Z.ltb ?a ?b] => destruct (Z.ltb_spec a b)
  | |- context [Z.leb ?a ?b] => destruct (Z.leb_spec a b)
  | |- context [bool_decide ?P] => destruct (bool_decide_reflect P)
  end.

Ltac case_test_in H :=
  match type of H with
  | context [Z.eqb ?a ?b] => destruct (Z.eqb_spec a b)
  | context [Z.ltb ?a ?b] => destruct (Z.ltb_spec a b)
  | context [Z.leb ?a ?b] => destruct (Z.leb_spec a b)
  | context [bool_decide ?P] => destruct (bool_decide_reflect P)
  end.

(** ** Bit masks as arithmetic *)

Lemma land_low_mask x n : 0 ≤ n → Z.land x (2 ^ n - 1) = x mod 2 ^ n.
Proof. intros. rewrite <- Z.land_ones, Z.ones_equiv, Z.sub_1_r by lia. done. Qed.

Lemma land_ones_shiftl x m n :
  0 ≤ m → 0 ≤ n →
  Z.land x (Z.shiftl (Z.ones m) n) = Z.shiftl (Z.land (Z.shiftr x n) (Z.ones m)) n.
Proof.
  intros Hm Hn. apply Z.bits_inj'. intros i Hi.
  rewrite Z.land_spec, !Z.shiftl_spec by lia.
  destruct (decide (n ≤ i)).
  - rewrite Z.land_spec, Z.shiftr_spec by lia. by rewrite Z.sub_add.
  - rewrite !(Z.testbit_neg_r _ (i - n)) by lia. apply andb_false_r.
Qed.

(** Or-ing numbers that occupy disjoint bit ranges is addition. *)
Lemma lor_disjoint hi lo n :
  0 ≤ n → 0 ≤ lo < 2 ^ n → Z.lor (Z.shiftl hi n) lo = hi * 2 ^ n + lo.
Proof.
  intros Hn Hlo. rewrite <- Z.lxor_lor, <- Z.add_nocarry_lxor;
    [by rewrite Z.shiftl_mul_pow2 by lia| |].
  all: apply Z.bits_inj'; intros i Hi; rewrite Z.land_spec, Z.shiftl_spec, Z.bits_0 by lia;
    destruct (decide (n ≤ i)); [|by rewrite Z.testbit_neg_r by lia].
  all: replace lo with (lo mod 2 ^ n) by (apply Z.mod_small; lia);
    rewrite Z.mod_pow2_bits_high by lia; apply andb_false_r.
Qed.

Lemma mod_divide_eq (d n : Z) : 0 < d → (d | n) → n mod d = 0.
Proof. intros ? [q ->]. apply Z.mod_mul. lia. Qed.

(** A mask of one bit. *)
Lemma land_pow2 x n : 0 ≤ n → Z.land x (2 ^ n) = if Z.testbit x n then 2 ^ n else 0.
Proof.
  intros Hn. apply Z.bits_inj'. intros i Hi. rewrite Z.land_spec, Z.pow2_bits_eqb by lia.
  destruct (Z.eqb_spec n i) as [->|Hne].
  - destruct (Z.testbit x i); [|by rewrite Z.bits_0]. by rewrite Z.pow2_bits_true.
  - rewrite andb_false_r. destruct (Z.testbit x n); [|by rewrite Z.bits_0].
    by rewrite Z.pow2_bits_false.
Qed.

Lemma land_bit x n : 0 ≤ n → negb (Z.land x (2 ^ n) =? 0) = Z.testbit x n.
Proof.
  intros Hn. rewrite land_pow2 by done. destruct (Z.testbit x n); [|done].
  pose proof (Z.pow_pos_nonneg 2 n ltac:(lia) Hn). by rewrite (proj2 (Z.eqb_neq _ _)) by lia.
Qed.

(** ** Lists *)

Lemma insert_middle {A} (pre l X : list A) x y : <[(length pre + length l)%nat := y]> (pre ++ l ++ x :: X) = pre ++ l ++ y :: X.
Proof. rewrite insert_app_r, <- (Nat.add_0_r (length l)), insert_app_r. done. Qed.

Lemma fmap_alter_same {A B} (g : A → B) (f : A → A) (i : nat) (l : list A) : (∀ x, g (f x) = g x) → g <$> alter f i l = g <$> l.
Proof. intros Hg. revert i. induction l as [|x l IH]; intros [|i]; cbn; [done|done|by rewrite Hg|]. f_equal. apply IH. Qed.
