(* ===== verification/Mmu.v ===== *)
(** * Constants and address-space macros ([param.h], [fs.h], [stat.h], [fcntl.h],
    [mmu.h], [memlayout.h])

    The page-table index macros, the rounding macros and the address
    conversions of the kernel, with their arithmetic meaning. *)

From stdpp Require Import base numbers list.
From S2P Require Import Prelude.

(** ** Constants *)

Definition NPROC : nat := 64.
Definition KSTACKSIZE : Z := 4096.
Definition NOFILE : nat := 16.
Definition MAX_MUTEXES : nat := 5.
Definition NFILE : nat := 100.
Definition NINODE : nat := 50.
Definition NDEV : Z := 10.
Definition ROOTDEV : Z := 1.
Definition MAXARG : nat := 32.
Definition MAXOPBLOCKS : nat := 10.
Definition LOGSIZE : nat := MAXOPBLOCKS * 3.
Definition NBUF : nat := MAXOPBLOCKS * 3.
Definition FSSIZE : Z := 1000.

Definition ROOTINO : Z := 1.
Definition BSIZE : Z := 512.
Definition NDIRECT : Z := 12.
Definition NINDIRECT : Z := BSIZE / 4.
Definition MAXFILE : Z := NDIRECT + NINDIRECT.
Definition DIRSIZ : nat := 14.

Definition T_DIR : Z := 1.
Definition T_FILE : Z := 2.
Definition T_DEV : Z := 3.

Definition O_RDONLY : Z := 0x000.
Definition O_WRONLY : Z := 0x001.
Definition O_RDWR : Z := 0x002.
Definition O_CREATE : Z := 0x200.

Definition EXTMEM : Z := 0x100000.
Definition PHYSTOP : Z := 0xE000000.
Definition DEVSPACE : Z := 0xFE000000.
Definition KERNBASE : Z := 0x80000000.
Definition KERNLINK : Z := KERNBASE + EXTMEM.

Definition PGSIZE : Z := 4096.
Definition NPDENTRIES : nat := 1024.
Definition PTXSHIFT : Z := 12.
Definition PDXSHIFT : Z := 22.

Definition PTE_P : Z := 0x001.
Definition PTE_W : Z := 0x002.
Definition PTE_U : Z := 0x004.

(** ** Macros *)

Definition V2P (a : Z) : Z := u32 (u32 a - KERNBASE).
Definition P2V (a : Z) : Z := u32 (a + KERNBASE).

Definition PDX (va : Z) : Z := Z.land (Z.shiftr (u32 va) PDXSHIFT) 0x3FF.
Definition PTX (va : Z) : Z := Z.land (Z.shiftr (u32 va) PTXSHIFT) 0x3FF.

Definition PGADDR (d t o : Z) : Z :=
  u32 (Z.lor (Z.lor (Z.shiftl d PDXSHIFT) (Z.shiftl t PTXSHIFT)) o).

Definition PGROUNDUP (sz : Z) : Z := Z.land (u32 (sz + PGSIZE - 1)) (u32 (Z.lnot (PGSIZE - 1))).
Definition PGROUNDDOWN (a : Z) : Z := Z.land (u32 a) (u32 (Z.lnot (PGSIZE - 1))).

Definition PTE_ADDR (pte : Z) : Z := Z.land (u32 pte) (u32 (Z.lnot 0xFFF)).
Definition PTE_FLAGS (pte : Z) : Z := Z.land (u32 pte) 0xFFF.

(** ** Arithmetic meaning of the macros *)

Lemma high_mask x : 0 ≤ x < 4294967296 → Z.land x (u32 (Z.lnot 4095)) = x - x mod 4096.
Proof.
  intros Hx. change (u32 (Z.lnot 4095)) with (Z.shiftl (Z.ones 20) 12).
  rewrite land_ones_shiftl, Z.land_ones, Z.shiftl_mul_pow2, Z.shiftr_div_pow2 by lia.
  change (2 ^ 12) with 4096. change (2 ^ 20) with 1048576. lia_mod.
Qed.

Lemma PGROUNDDOWN_eq a : PGROUNDDOWN a = u32 a - u32 a mod 4096.
Proof. apply high_mask, u32_range. Qed.

Lemma PGROUNDUP_eq sz : PGROUNDUP sz = u32 (sz + 4095) - u32 (sz + 4095) mod 4096.
Proof. unfold PGROUNDUP, PGSIZE. rewrite <- high_mask by apply u32_range. do 2 f_equal. lia. Qed.

Lemma PTE_ADDR_eq pte : PTE_ADDR pte = u32 pte - u32 pte mod 4096.
Proof. apply high_mask, u32_range. Qed.

Lemma PTE_FLAGS_eq pte : PTE_FLAGS pte = u32 pte mod 4096.
Proof. apply (land_low_mask _ 12). lia. Qed.

Lemma PDX_eq va : PDX va = u32 va / 4194304.
Proof.
  unfold PDX, PDXSHIFT. rewrite (land_low_mask _ 10), Z.shiftr_div_pow2 by lia.
  change (2 ^ 22) with 4194304. change (2 ^ 10) with 1024.
  pose proof (u32_range va). lia_mod.
Qed.

Lemma PTX_eq va : PTX va = (u32 va / 4096) mod 1024.
Proof.
  unfold PTX, PTXSHIFT. rewrite (land_low_mask _ 10), Z.shiftr_div_pow2 by lia. done.
Qed.

Lemma PDX_range va : 0 ≤ PDX va < 1024.
Proof. rewrite PDX_eq. pose proof (u32_range va). lia_mod. Qed.

Lemma PTX_range va : 0 ≤ PTX va < 1024.
Proof. rewrite PTX_eq. lia_mod. Qed.

Lemma PGADDR_eq d t o :
  0 ≤ d < 1024 → 0 ≤ t < 1024 → 0 ≤ o < 4096 →
  PGADDR d t o = d * 4194304 + t * 4096 + o.
Proof.
  intros Hd Ht Ho. unfold PGADDR, PDXSHIFT, PTXSHIFT.
  rewrite <- Z.lor_assoc, (lor_disjoint t o 12) by lia.
  rewrite (lor_disjoint d _ 22) by lia. rewrite u32_small; lia.
Qed.
