(* ===== verification/Hardware.v ===== *)
(** * What the hardware reads: descriptors ([mmu.h]), trap numbers ([traps.h]) and
    device accesses ([x86.h])

    The segment and gate descriptors of [mmu.h] are records with the bit-fields
    of the C structures; [pack] lays bit-fields out the way the compiler does,
    and the [desc_] and [gate_] functions read the 64 bits of a descriptor the
    way the processor does.  The last part has the record of accesses to
    devices and the variables of the device drivers. *)

From stdpp Require Import base numbers list gmap.
From S2P Require Import Prelude Mmu.

(** ** Bit-fields *)

(** Bit-fields fill a word from its lowest bit, each cut to its width. *)
Fixpoint pack (fields : list (Z * Z)) : Z :=
  match fields with
  | [] => 0
  | (w, v) :: fields => v mod 2 ^ w + 2 ^ w * pack fields
  end.

Definition width (fields : list (Z * Z)) : Z := foldr (λ f n, f.1 + n) 0 fields.

(** Bits [lo], ..., [lo + n - 1] of a word. *)
Definition slice (z lo n : Z) : Z := (z / 2 ^ lo) mod 2 ^ n.

Lemma width_pos fields : Forall (λ f, 0 ≤ f.1) fields → 0 ≤ width fields.
Proof. unfold width. induction 1; cbn; lia. Qed.

Lemma slice_skip w v fields lo n :
  0 ≤ w → 0 ≤ lo → slice (pack ((w, v) :: fields)) (w + lo) n = slice (pack fields) lo n.
Proof.
  intros Hw Hlo. unfold slice. cbn [pack]. rewrite Z.pow_add_r by done.
  assert (0 < 2 ^ w) by (by apply Z.pow_pos_nonneg). assert (0 < 2 ^ lo) by (by apply Z.pow_pos_nonneg).
  rewrite <- Z.div_div by lia. rewrite (Z.mul_comm (2 ^ w)), Z.div_add, (Z.div_small (v mod 2 ^ w)) by (try apply Z.mod_pos_bound; lia).
  done.
Qed.

Lemma slice_here w v fields : 0 ≤ w → slice (pack ((w, v) :: fields)) 0 w = v mod 2 ^ w.
Proof.
  intros Hw. unfold slice. cbn [pack]. assert (0 < 2 ^ w) by (by apply Z.pow_pos_nonneg).
  rewrite Z.div_1_r, Z.mul_comm, Z.mod_add, Z.mod_mod by lia. done.
Qed.

(** A bit-field is found where the widths of those before it put it. *)
Lemma slice_field fields i w v :
  Forall (λ f, 0 ≤ f.1) fields → fields !! i = Some (w, v) →
  slice (pack fields) (width (take i fields)) w = v mod 2 ^ w.
Proof.
  intros Hf. revert i. induction Hf as [|[w' v'] fields Hw Hf IH]; intros i Hi; [done|].
  destruct i as [|i]; cbn [lookup take width foldr fst] in *.
  - injection Hi as -> ->. by apply slice_here.
  - rewrite slice_skip; [by apply IH|done|]. by apply width_pos, Forall_take.
Qed.

(** ** Segment descriptors *)

Definition SEG_KCODE : Z := 1.
Definition SEG_KDATA : Z := 2.
Definition SEG_UCODE : Z := 3.
Definition SEG_UDATA : Z := 4.
Definition SEG_TSS : Z := 5.
Definition NSEGS : nat := 6.

Definition DPL_USER : Z := 3.
Definition STA_X : Z := 0x8.
Definition STA_W : Z := 0x2.
Definition STA_R : Z := 0x2.
Definition STS_T32A : Z := 0x9.
Definition STS_IG32 : Z := 0xE.
Definition STS_TG32 : Z := 0xF.

Record segdesc := mk_segdesc {
  lim_15_0 : Z;  (* Low bits of segment limit *)
  base_15_0 : Z;  (* Low bits of segment base address *)
  base_23_16 : Z;  (* Middle bits of segment base address *)
  sd_type : Z;  (* Segment type (see STS_ constants) *)
  sd_s : Z;  (* 0 = system, 1 = application *)
  sd_dpl : Z;  (* Descriptor Privilege Level *)
  sd_p : Z;  (* Present *)
  lim_19_16 : Z;  (* High bits of segment limit *)
  sd_avl : Z;  (* Unused (available for software use) *)
  sd_rsv1 : Z;  (* Reserved *)
  sd_db : Z;  (* 0 = 16-bit segment, 1 = 32-bit segment *)
  sd_g : Z;  (* Granularity: limit scaled by 4K when set *)
  base_31_24 : Z;  (* High bits of segment base address *)
}.

Definition zero_segdesc : segdesc := mk_segdesc 0 0 0 0 0 0 0 0 0 0 0 0 0.

(** Normal segment. *)
Definition SEG (type base lim dpl : Z) : segdesc :=
  mk_segdesc (Z.land (Z.shiftr lim 12) 0xffff) (Z.land (u32 base) 0xffff)
    (Z.land (Z.shiftr (u32 base) 16) 0xff) type 1 dpl 1
    (Z.shiftr (u32 lim) 28) 0 0 1 1 (Z.shiftr (u32 base) 24).

Definition SEG16 (type base lim dpl : Z) : segdesc :=
  mk_segdesc (Z.land lim 0xffff) (Z.land (u32 base) 0xffff)
    (Z.land (Z.shiftr (u32 base) 16) 0xff) type 1 dpl 1
    (Z.shiftr (u32 lim) 16) 0 0 1 0 (Z.shiftr (u32 base) 24).

Definition set_sd_s (v : Z) (d : segdesc) : segdesc :=
  mk_segdesc (lim_15_0 d) (base_15_0 d) (base_23_16 d) (sd_type d) v (sd_dpl d) (sd_p d)
    (lim_19_16 d) (sd_avl d) (sd_rsv1 d) (sd_db d) (sd_g d) (base_31_24 d).

(** The eight bytes of a descriptor. *)
Definition segdesc_fields (d : segdesc) : list (Z * Z) :=
  [(16, lim_15_0 d); (16, base_15_0 d); (8, base_23_16 d); (4, sd_type d); (1, sd_s d);
   (2, sd_dpl d); (1, sd_p d); (4, lim_19_16 d); (1, sd_avl d); (1, sd_rsv1 d); (1, sd_db d);
   (1, sd_g d); (8, base_31_24 d)].
Definition segdesc_word (d : segdesc) : Z := pack (segdesc_fields d).

(** What the processor takes from them. *)
Definition desc_base (z : Z) : Z := slice z 16 16 + 2 ^ 16 * slice z 32 8 + 2 ^ 24 * slice z 56 8.
Definition desc_limit (z : Z) : Z :=
  let lim := slice z 0 16 + 2 ^ 16 * slice z 48 4 in
  if slice z 55 1 =? 1 then lim * 4096 + 4095 else lim.
Definition desc_type (z : Z) : Z := slice z 40 4.
Definition desc_s (z : Z) : Z := slice z 44 1.
Definition desc_dpl (z : Z) : Z := slice z 45 2.
Definition desc_present (z : Z) : Z := slice z 47 1.

(** ** Gate descriptors for interrupts and traps *)

Record gatedesc := mk_gatedesc {
  off_15_0 : Z;  (* low 16 bits of offset in segment *)
  gd_cs : Z;  (* code segment selector *)
  gd_args : Z;  (* # args, 0 for interrupt/trap gates *)
  gd_rsv1 : Z;  (* reserved(should be zero I guess) *)
  gd_type : Z;  (* type(STS_{IG32,TG32}) *)
  gd_s : Z;  (* must be 0 (system) *)
  gd_dpl : Z;  (* descriptor(meaning new) privilege level *)
  gd_p : Z;  (* Present *)
  off_31_16 : Z;  (* high bits of offset in segment *)
}.

Definition zero_gatedesc : gatedesc := mk_gatedesc 0 0 0 0 0 0 0 0 0.

(** Set up a normal interrupt/trap gate descriptor. *)
Definition SETGATE (istrap : bool) (sel off d : Z) : gatedesc :=
  mk_gatedesc (Z.land (u32 off) 0xffff) sel 0 0 (if istrap then STS_TG32 else STS_IG32) 0 d 1
    (Z.shiftr (u32 off) 16).

Definition gatedesc_fields (d : gatedesc) : list (Z * Z) :=
  [(16, off_15_0 d); (16, gd_cs d); (5, gd_args d); (3, gd_rsv1 d); (4, gd_type d); (1, gd_s d);
   (2, gd_dpl d); (1, gd_p d); (16, off_31_16 d)].
Definition gatedesc_word (d : gatedesc) : Z := pack (gatedesc_fields d).

Definition gate_offset (z : Z) : Z := slice z 0 16 + 2 ^ 16 * slice z 48 16.
Definition gate_selector (z : Z) : Z := slice z 16 16.
Definition gate_type (z : Z) : Z := slice z 40 4.
Definition gate_s (z : Z) : Z := slice z 44 1.
Definition gate_dpl (z : Z) : Z := slice z 45 2.
Definition gate_present (z : Z) : Z := slice z 47 1.

(** ** Reading back what the macros write *)

(** Field [i] of a descriptor, at the bits where the processor looks. *)
Lemma seg_slice d i w v lo :
  segdesc_fields d !! i = Some (w, v) → width (take i (segdesc_fields d)) = lo → slice (segdesc_word d) lo w = v mod 2 ^ w.
Proof. intros Hi <-. apply slice_field; [|done]. repeat constructor; cbn; lia. Qed.

Lemma gate_slice d i w v lo :
  gatedesc_fields d !! i = Some (w, v) → width (take i (gatedesc_fields d)) = lo → slice (gatedesc_word d) lo w = v mod 2 ^ w.
Proof. intros Hi <-. apply slice_field; [|done]. repeat constructor; cbn; lia. Qed.

Ltac seg_slices :=
  rewrite !(seg_slice _ 0 16 _ 0 eq_refl eq_refl), !(seg_slice _ 1 16 _ 16 eq_refl eq_refl), !(seg_slice _ 2 8 _ 32 eq_refl eq_refl),
    !(seg_slice _ 3 4 _ 40 eq_refl eq_refl), !(seg_slice _ 4 1 _ 44 eq_refl eq_refl), !(seg_slice _ 5 2 _ 45 eq_refl eq_refl),
    !(seg_slice _ 6 1 _ 47 eq_refl eq_refl), !(seg_slice _ 7 4 _ 48 eq_refl eq_refl), !(seg_slice _ 11 1 _ 55 eq_refl eq_refl),
    !(seg_slice _ 12 8 _ 56 eq_refl eq_refl).

(** The three parts of a base address. *)
Lemma split_word x :
  Z.land (u32 x) 0xffff mod 2 ^ 16 + 2 ^ 16 * (Z.land (Z.shiftr (u32 x) 16) 0xff mod 2 ^ 8) +
  2 ^ 24 * (Z.shiftr (u32 x) 24 mod 2 ^ 8) = u32 x.
Proof.
  rewrite (land_low_mask _ 16 ltac:(lia)), (land_low_mask _ 8 ltac:(lia)), !Z.shiftr_div_pow2 by lia.
  pose proof (u32_range x). change (2 ^ 8) with 256. change (2 ^ 16) with 65536. change (2 ^ 24) with 16777216. lia_mod.
Qed.

Lemma split_half x :
  Z.land (u32 x) 0xffff mod 2 ^ 16 + 2 ^ 16 * (Z.shiftr (u32 x) 16 mod 2 ^ 16) = u32 x.
Proof.
  rewrite (land_low_mask _ 16 ltac:(lia)), !Z.shiftr_div_pow2 by lia.
  pose proof (u32_range x). change (2 ^ 16) with 65536. lia_mod.
Qed.

(** A segment of [SEG] starts at [base] and ends at [lim], rounded up to the end
    of its page. *)
Lemma SEG_reads type base lim dpl :
  0 ≤ lim < 2 ^ 32 → 0 ≤ type < 16 → 0 ≤ dpl < 4 →
  let z := segdesc_word (SEG type base lim dpl) in
  desc_base z = u32 base ∧ desc_limit z = lim / 4096 * 4096 + 4095 ∧ desc_type z = type ∧ desc_s z = 1 ∧
  desc_dpl z = dpl ∧ desc_present z = 1.
Proof.
  intros Hl Ht Hd z. unfold desc_base, desc_limit, desc_type, desc_s, desc_dpl, desc_present, z.
  seg_slices.
  cbn [SEG lim_15_0 base_15_0 base_23_16 sd_type sd_s sd_dpl sd_p lim_19_16 sd_g base_31_24].
  rewrite split_word, (Z.mod_small type), (Z.mod_small dpl) by (cbn; lia).
  split; [done|]. split; [|done]. change (1 mod 2 ^ 1 =? 1) with true. cbn iota.
  rewrite u32_small by (change 4294967296 with (2 ^ 32); done). rewrite (land_low_mask _ 16 ltac:(lia)), !Z.shiftr_div_pow2 by lia.
  change (2 ^ 32) with 4294967296 in Hl. change (2 ^ 12) with 4096. change (2 ^ 4) with 16. change (2 ^ 16) with 65536. change (2 ^ 28) with 268435456.
  lia_mod.
Qed.

Lemma SEG16_reads type base lim dpl s :
  0 ≤ lim < 2 ^ 20 → 0 ≤ type < 16 → 0 ≤ dpl < 4 → 0 ≤ s < 2 →
  let z := segdesc_word (set_sd_s s (SEG16 type base lim dpl)) in
  desc_base z = u32 base ∧ desc_limit z = lim ∧ desc_type z = type ∧ desc_s z = s ∧ desc_dpl z = dpl ∧ desc_present z = 1.
Proof.
  intros Hl Ht Hd Hs z. unfold desc_base, desc_limit, desc_type, desc_s, desc_dpl, desc_present, z.
  seg_slices.
  cbn [SEG16 set_sd_s lim_15_0 base_15_0 base_23_16 sd_type sd_s sd_dpl sd_p lim_19_16 sd_g base_31_24].
  rewrite split_word, (Z.mod_small type), (Z.mod_small dpl), (Z.mod_small s) by (cbn; lia).
  split; [done|]. split; [|done]. change (0 mod 2 ^ 1 =? 1) with false. cbn iota.
  change (2 ^ 20) with 1048576 in Hl. rewrite u32_small by lia. rewrite (land_low_mask _ 16 ltac:(lia)), !Z.shiftr_div_pow2 by lia.
  change (2 ^ 4) with 16. change (2 ^ 16) with 65536. lia_mod.
Qed.

Lemma SETGATE_reads istrap sel off d :
  0 ≤ sel < 2 ^ 16 → 0 ≤ d < 4 →
  let z := gatedesc_word (SETGATE istrap sel off d) in
  gate_offset z = u32 off ∧ gate_selector z = sel ∧ gate_type z = (if istrap then STS_TG32 else STS_IG32) ∧ gate_s z = 0 ∧
  gate_dpl z = d ∧ gate_present z = 1.
Proof.
  intros Hs Hd z. unfold gate_offset, gate_selector, gate_type, gate_s, gate_dpl, gate_present, z.
  rewrite (gate_slice _ 0 16 _ 0 eq_refl eq_refl), (gate_slice _ 1 16 _ 16 eq_refl eq_refl), (gate_slice _ 4 4 _ 40 eq_refl eq_refl),
    (gate_slice _ 5 1 _ 44 eq_refl eq_refl), (gate_slice _ 6 2 _ 45 eq_refl eq_refl), (gate_slice _ 7 1 _ 47 eq_refl eq_refl),
    (gate_slice _ 8 16 _ 48 eq_refl eq_refl).
  cbn [SETGATE off_15_0 gd_cs gd_type gd_s gd_dpl gd_p off_31_16].
  rewrite split_half, (Z.mod_small sel), (Z.mod_small d) by (cbn in *; lia). by destruct istrap.
Qed.

(** ** Trap numbers ([traps.h]) *)

Definition T_SYSCALL : Z := 64.
Definition T_IRQ0 : Z := 32.
Definition IRQ_TIMER : Z := 0.
Definition IRQ_KBD : Z := 1.
Definition IRQ_COM1 : Z := 4.
Definition IRQ_IDE : Z := 14.
Definition IRQ_ERROR : Z := 19.
Definition IRQ_SPURIOUS : Z := 31.

(** ** Accesses to devices *)

(** An access to an I/O port or to a device register in memory.  [insl] and
    [outsl] move whole buffers. *)
Inductive ioev :=
| Outb (port v : Z) | Inb (port : Z)
| Outsl (port : Z) (data : list Z) | Insl (port cnt : Z)
| Store (a v : Z) | Loaded (a : Z).

(** The accesses so far, the latest first, and the variables of [ide.c],
    [uart.c], [mp.c], [lapic.c] and [console.c] that concern devices. *)
Record io := mk_io {
  io_trace : list ioev;
  io_havedisk1 : bool;
  io_uart : bool;  (* is there a uart? *)
  io_ioapicid : Z;
  io_lapic : Z;  (* address of the local APIC, 0 before mpinit *)
  io_crt : list Z;  (* CGA memory *)
}.

Definition set_io_trace (v : list ioev) (r : io) : io :=
  mk_io v (io_havedisk1 r) (io_uart r) (io_ioapicid r) (io_lapic r) (io_crt r).
Definition set_io_havedisk1 (v : bool) (r : io) : io :=
  mk_io (io_trace r) v (io_uart r) (io_ioapicid r) (io_lapic r) (io_crt r).
Definition set_io_uart (v : bool) (r : io) : io :=
  mk_io (io_trace r) (io_havedisk1 r) v (io_ioapicid r) (io_lapic r) (io_crt r).
Definition set_io_ioapicid (v : Z) (r : io) : io :=
  mk_io (io_trace r) (io_havedisk1 r) (io_uart r) v (io_lapic r) (io_crt r).
Definition set_io_lapic (v : Z) (r : io) : io :=
  mk_io (io_trace r) (io_havedisk1 r) (io_uart r) (io_ioapicid r) v (io_crt r).
Definition set_io_crt (v : list Z) (r : io) : io :=
  mk_io (io_trace r) (io_havedisk1 r) (io_uart r) (io_ioapicid r) (io_lapic r) v.

(** The byte last written to a port. *)
Fixpoint latch (t : list ioev) (port : Z) : option Z :=
  match t with
  | [] => None
  | Outb p v :: t => if p =? port then Some v else latch t port
  | _ :: t => latch t port
  end.
