(* ===== verification/Memory.v ===== *)
(** * Byte memory and the C string library ([string.c])

    Physical memory is a finite map from addresses to bytes, read as zero
    where nothing was stored; a 32-bit access is four little-endian bytes.
    [memset], [memmove] and [memcmp] work on addresses, because their
    behaviour depends on alignment and aliasing; the NUL-terminated routines
    work on the byte arrays they are called with, a read or write past the
    end of an array being [None]. *)

From stdpp Require Import base numbers list gmap.
From S2P Require Import Prelude.

Notation mem := (gmap Z Z).

(** ** Loads and stores *)

Definition ld8 (m : mem) (a : Z) : Z := u8 (default 0 (m !! a)).
Definition st8 (m : mem) (a v : Z) : mem := <[a := u8 v]> m.

Definition ld32 (m : mem) (a : Z) : Z :=
  ld8 m a + 256 * ld8 m (a + 1) + 65536 * ld8 m (a + 2) + 16777216 * ld8 m (a + 3).

Definition st32 (m : mem) (a v : Z) : mem :=
  st8 (st8 (st8 (st8 m a v) (a + 1) (v / 256)) (a + 2) (v / 65536)) (a + 3) (v / 16777216).

Lemma ld8_range m a : 0 ≤ ld8 m a < 256.
Proof. apply u8_range. Qed.

Lemma ld8_st8 m a v b : ld8 (st8 m a v) b = if a =? b then u8 v else ld8 m b.
Proof.
  unfold ld8, st8. rewrite lookup_insert. case_test; case_decide; simplify_eq; [|done].
  apply u8_idem.
Qed.

Lemma ld32_range m a : 0 ≤ ld32 m a < 4294967296.
Proof.
  unfold ld32. pose proof (ld8_range m a). pose proof (ld8_range m (a + 1)).
  pose proof (ld8_range m (a + 2)). pose proof (ld8_range m (a + 3)). lia.
Qed.

Lemma ld8_st32 m a v b :
  ld8 (st32 m a v) b =
  if b =? a then u8 v else if b =? a + 1 then u8 (v / 256)
  else if b =? a + 2 then u8 (v / 65536) else if b =? a + 3 then u8 (v / 16777216)
  else ld8 m b.
Proof. unfold st32. rewrite !ld8_st8. repeat case_test; lia || done. Qed.

Lemma ld32_st32_eq m a v : ld32 (st32 m a v) a = u32 v.
Proof.
  unfold ld32. rewrite !ld8_st32.
  repeat (case_test; try lia). unfold u8, u32. lia_mod.
Qed.

Lemma ld32_st32_ne m a v b : a + 4 ≤ b ∨ b + 4 ≤ a → ld32 (st32 m a v) b = ld32 m b.
Proof. intros H. unfold ld32. rewrite !ld8_st32. repeat (case_test; try lia). Qed.

Lemma ld32_ext m m' a :
  (∀ x, a ≤ x < a + 4 → ld8 m x = ld8 m' x) → ld32 m a = ld32 m' a.
Proof. intros H. unfold ld32. rewrite !H by lia. done. Qed.

(** ** [memset] *)

Fixpoint stosb (m : mem) (dst c : Z) (n : nat) : mem :=
  match n with
  | O => m
  | S n => stosb (st8 m dst c) (dst + 1) c n
  end.

Fixpoint stosl (m : mem) (dst w : Z) (n : nat) : mem :=
  match n with
  | O => m
  | S n => stosl (st32 m dst w) (dst + 4) w n
  end.

Definition memset (m : mem) (dst c n : Z) : mem :=
  if (dst mod 4 =? 0) && (n mod 4 =? 0) then
    let c := Z.land c 0xFF in
    stosl m dst
      (Z.lor (Z.lor (Z.lor (Z.shiftl c 24) (Z.shiftl c 16)) (Z.shiftl c 8)) c)
      (Z.to_nat (n / 4))
  else stosb m dst c (Z.to_nat n).

Lemma ld8_stosb m dst c n x :
  ld8 (stosb m dst c n) x =
  if (dst <=? x) && (x <? dst + Z.of_nat n) then u8 c else ld8 m x.
Proof.
  revert m dst. induction n as [|n IH]; intros m dst; cbn [stosb].
  - repeat case_test; done || lia.
  - rewrite IH, ld8_st8. repeat case_test; cbn; done || lia.
Qed.

Lemma ld8_stosl m dst w n x :
  ld8 (stosl m dst w n) x =
  if (dst <=? x) && (x <? dst + 4 * Z.of_nat n)
  then u8 (w / 256 ^ ((x - dst) mod 4)) else ld8 m x.
Proof.
  revert m dst. induction n as [|n IH]; intros m dst; cbn [stosl].
  - repeat case_test; done || lia.
  - rewrite IH, ld8_st32.
    destruct (Z.leb_spec (dst + 4) x) as [H4|H4].
    + replace ((x - (dst + 4)) mod 4) with ((x - dst) mod 4)
        by (replace (x - dst) with (x - (dst + 4) + 1 * 4) by lia; apply Z.mod_add; lia).
      repeat case_test; cbn; done || lia.
    + destruct (decide (dst ≤ x)) as [Hd|Hd]; [|repeat case_test; cbn; done || lia].
      rewrite (Z.mod_small (x - dst) 4) by lia.
      assert (x = dst ∨ x = dst + 1 ∨ x = dst + 2 ∨ x = dst + 3) as Hx by lia.
      destruct Hx as [->|[->|[->| ->]]];
        rewrite ?Z.sub_diag, ?Z.add_simpl_l, ?Z.pow_0_r, ?Z.div_1_r;
        repeat case_test; cbn; done || lia.
Qed.

(** The word [memset] stores has the byte in each of its four positions. *)
Lemma memset_word_byte c i :
  0 ≤ i < 4 →
  u8 (Z.lor (Z.lor (Z.lor (Z.shiftl (u8 c) 24) (Z.shiftl (u8 c) 16))
               (Z.shiftl (u8 c) 8)) (u8 c) / 256 ^ i) = u8 c.
Proof.
  intros Hi. pose proof (u8_range c) as Hc.
  rewrite <- !Z.lor_assoc, (lor_disjoint _ (u8 c) 8), (lor_disjoint _ _ 16),
    (lor_disjoint _ _ 24) by lia.
  assert (i = 0 ∨ i = 1 ∨ i = 2 ∨ i = 3) as Hi' by lia.
  rewrite <- (u8_small (u8 c)) at 5 by done. unfold u8 at 1 6.
  destruct Hi' as [->|[->|[->| ->]]]; cbn [Z.pow Z.pow_pos Pos.iter Z.mul Pos.mul];
    cbn; lia_mod.
Qed.

Lemma ld8_memset m dst c n x :
  0 ≤ n →
  ld8 (memset m dst c n) x = if (dst <=? x) && (x <? dst + n) then u8 c else ld8 m x.
Proof.
  intros Hn. unfold memset.
  destruct ((dst mod 4 =? 0) && (n mod 4 =? 0)) eqn:E.
  - apply andb_true_iff in E as [_ En%Z.eqb_eq].
    change 0xFF with (2 ^ 8 - 1). rewrite land_low_mask by lia. change (c mod 2 ^ 8) with (u8 c).
    rewrite ld8_stosl, Z2Nat.id, memset_word_byte by lia_mod.
    replace (4 * (n / 4)) with n by lia_mod. done.
  - rewrite ld8_stosb, Z2Nat.id by lia. done.
Qed.

Lemma ld32_memset_zero m dst n a :
  0 ≤ n → dst ≤ a → a + 4 ≤ dst + n → ld32 (memset m dst 0 n) a = 0.
Proof.
  intros. unfold ld32. rewrite !ld8_memset by lia.
  repeat (case_test; try lia). done.
Qed.

Lemma ld32_memset_out m dst c n a :
  0 ≤ n → a + 4 ≤ dst ∨ dst + n ≤ a → ld32 (memset m dst c n) a = ld32 m a.
Proof.
  intros ??. apply ld32_ext. intros x Hx. rewrite ld8_memset by lia.
  repeat (case_test; try lia); done.
Qed.

(** ** [memmove], [memcmp] *)

Fixpoint copy_forward (m : mem) (d s : Z) (n : nat) : mem :=
  match n with
  | O => m
  | S n => copy_forward (st8 m d (ld8 m s)) (d + 1) (s + 1) n
  end.

(** [d] and [s] point one past the bytes still to be copied. *)
Fixpoint copy_backward (m : mem) (d s : Z) (n : nat) : mem :=
  match n with
  | O => m
  | S n => copy_backward (st8 m (d - 1) (ld8 m (s - 1))) (d - 1) (s - 1) n
  end.

Definition memmove (m : mem) (dst src n : Z) : mem :=
  if (src <? dst) && (dst <? src + n)
  then copy_backward m (dst + n) (src + n) (Z.to_nat n)
  else copy_forward m dst src (Z.to_nat n).

Definition memcpy (m : mem) (dst src n : Z) : mem := memmove m dst src n.

Fixpoint memcmp (m : mem) (s1 s2 : Z) (n : nat) : Z :=
  match n with
  | O => 0
  | S n =>
      if ld8 m s1 =? ld8 m s2 then memcmp m (s1 + 1) (s2 + 1) n
      else ld8 m s1 - ld8 m s2
  end.

Lemma ld8_copy_forward m d s n x :
  ¬ (s < d < s + Z.of_nat n) →
  ld8 (copy_forward m d s n) x =
  if (d <=? x) && (x <? d + Z.of_nat n) then ld8 m (s + (x - d)) else ld8 m x.
Proof.
  revert m d s. induction n as [|n IH]; intros m d s Hov; cbn [copy_forward].
  - repeat case_test; done || lia.
  - rewrite IH by lia. rewrite !ld8_st8.
    destruct (Z.eqb_spec d x) as [->|Hdx].
    + rewrite Z.sub_diag, Z.add_0_r.
      repeat case_test; cbn; try lia; apply u8_small, ld8_range.
    + replace (s + 1 + (x - (d + 1))) with (s + (x - d)) by lia.
      repeat case_test; cbn; done || lia.
Qed.

Lemma ld8_copy_backward m d s n x :
  s < d →
  ld8 (copy_backward m d s n) x =
  if (d - Z.of_nat n <=? x) && (x <? d) then ld8 m (s + (x - d)) else ld8 m x.
Proof.
  revert m d s. induction n as [|n IH]; intros m d s Hov; cbn [copy_backward].
  - repeat case_test; done || lia.
  - rewrite IH by lia. rewrite !ld8_st8.
    destruct (Z.eqb_spec (d - 1) x) as [<-|Hdx].
    + replace (s + (d - 1 - d)) with (s - 1) by lia.
      repeat case_test; cbn; try lia; apply u8_small, ld8_range.
    + replace (s - 1 + (x - (d - 1))) with (s + (x - d)) by lia.
      repeat case_test; cbn; done || lia.
Qed.

Lemma ld8_memmove m dst src n x :
  0 ≤ n →
  ld8 (memmove m dst src n) x =
  if (dst <=? x) && (x <? dst + n) then ld8 m (src + (x - dst)) else ld8 m x.
Proof.
  intros Hn. unfold memmove. destruct ((src <? dst) && (dst <? src + n)) eqn:E.
  - apply andb_true_iff in E as [?%Z.ltb_lt ?%Z.ltb_lt].
    rewrite ld8_copy_backward, Z2Nat.id by lia.
    replace (src + n + (x - (dst + n))) with (src + (x - dst)) by lia.
    by replace (dst + n - n) with dst by lia.
  - apply andb_false_iff in E as [?%Z.ltb_ge|?%Z.ltb_ge];
      by rewrite ld8_copy_forward, Z2Nat.id by lia.
Qed.

Lemma memcmp_zero m s1 s2 n :
  memcmp m s1 s2 n = 0 ↔ ∀ i, 0 ≤ i < Z.of_nat n → ld8 m (s1 + i) = ld8 m (s2 + i).
Proof.
  revert s1 s2. induction n as [|n IH]; intros s1 s2; cbn [memcmp]; [split; [lia|done]|].
  case_test.
  - rewrite IH. split; intros H i Hi.
    + destruct (decide (i = 0)) as [->|]; [by rewrite !Z.add_0_r|].
      specialize (H (i - 1) ltac:(lia)).
      by replace (s1 + 1 + (i - 1)) with (s1 + i) in H by lia;
        replace (s2 + 1 + (i - 1)) with (s2 + i) in H by lia.
    + specialize (H (i + 1) ltac:(lia)).
      by replace (s1 + (i + 1)) with (s1 + 1 + i) in H by lia;
        replace (s2 + (i + 1)) with (s2 + 1 + i) in H by lia.
  - split; [lia|]. intros H. specialize (H 0 ltac:(lia)). rewrite !Z.add_0_r in H. lia.
Qed.

(** ** NUL-terminated strings *)

(** [strncmp p q n]; [None] when it would read past either array. *)
Fixpoint strncmp (p q : list Z) (n : nat) {struct n} : option Z :=
  match n with
  | O => Some 0
  | S n =>
      match p, q with
      | a :: p', b :: q' =>
          if negb (a =? 0) && (a =? b) then strncmp p' q' n else Some (a - b)
      | _, _ => None
      end
  end.

(** The second loop of [strncpy]: [n] NULs. *)
Fixpoint pad_nul (s : list Z) (n : nat) {struct n} : option (list Z) :=
  match n with
  | O => Some s
  | S n => match s with
           | _ :: s' => cons 0 <$> pad_nul s' n
           | [] => None
           end
  end.

Fixpoint strncpy (s t : list Z) (n : nat) {struct n} : option (list Z) :=
  match n with
  | O => Some s
  | S n =>
      match s, t with
      | _ :: s', c :: t' =>
          cons c <$> (if c =? 0 then pad_nul s' n else strncpy s' t' n)
      | _, _ => None
      end
  end.

(** The loop of [safestrcpy] with [n - 1] bytes of room left for characters;
    on leaving it, [*s = 0]. *)
Fixpoint safestrcpy_loop (s t : list Z) (n : nat) {struct n} : option (list Z) :=
  match n with
  | O => match s with _ :: s' => Some (0 :: s') | [] => None end
  | S n =>
      match s, t with
      | _ :: s', c :: t' =>
          cons c <$> (if c =? 0 then match s' with _ :: s'' => Some (0 :: s'') | [] => None end
                      else safestrcpy_loop s' t' n)
      | _, _ => None
      end
  end.

Definition safestrcpy (s t : list Z) (n : Z) : option (list Z) :=
  if n <=? 0 then Some s else safestrcpy_loop s t (Z.to_nat (n - 1)).

(** Also [strlen]; [None] when the array has no NUL. *)
Fixpoint strlen (s : list Z) : option Z :=
  match s with
  | [] => None
  | c :: s' => if c =? 0 then Some 0 else Z.succ <$> strlen s'
  end.

(** The string an array of at most [n] bytes holds: the bytes before the
    first NUL. *)
Fixpoint cstr (n : nat) (s : list Z) {struct n} : list Z :=
  match n, s with
  | S n, c :: s' => if c =? 0 then [] else c :: cstr n s'
  | _, _ => []
  end.

Lemma strncmp_zero p q n r :
  strncmp p q n = Some r → r = 0 ↔ cstr n p = cstr n q.
Proof.
  revert p q. induction n as [|n IH]; intros p q H; cbn in *; [injection H as <-; split; reflexivity|].
  destruct p as [|a p], q as [|b q]; try done.
  destruct (Z.eqb_spec a 0), (Z.eqb_spec b 0), (Z.eqb_spec a b); cbn in *; simplify_eq;
    try (split; (lia || done)); try lia.
  - rewrite IH by done. split; [by intros ->|by intros [= ?]].
  - split; [lia|congruence].
Qed.

Lemma pad_nul_spec s n :
  (n ≤ length s)%nat → pad_nul s n = Some (replicate n 0 ++ drop n s).
Proof.
  revert s. induction n as [|n IH]; intros [|c s] Hn; cbn in *; try done; [lia|].
  rewrite IH by lia. done.
Qed.

(** [strncpy] always fills exactly [n] bytes: the string, padded with NULs. *)
Lemma strncpy_spec s t n :
  (n ≤ length s)%nat → (n ≤ length t ∨ (length (cstr n t) < length t))%nat →
  strncpy s t n =
  Some (cstr n t ++ replicate (n - length (cstr n t)) 0 ++ drop n s).
Proof.
  revert s t. induction n as [|n IH]; intros [|c s] [|b t] Hs Ht; cbn in *; try done; try lia.
  case_test; cbn in *.
  - rewrite pad_nul_spec by lia. by subst.
  - rewrite IH by (lia || (destruct Ht; lia)). done.
Qed.

Lemma cstr_app_pad n t k rest :
  cstr n (cstr n t ++ replicate (S k) 0 ++ rest) = cstr n t.
Proof.
  revert t. induction n as [|n IH]; intros [|c t]; cbn in *; try done.
  case_test; cbn; [done|]. rewrite (proj2 (Z.eqb_neq c 0)) by done. by rewrite IH.
Qed.

Lemma cstr_app n a b : 0 ∉ a → (length a ≤ n)%nat → cstr n (a ++ b) = a ++ cstr (n - length a) b.
Proof.
  revert n. induction a as [|c a IH]; intros n Ha Hn; cbn [app length] in *; [by rewrite Nat.sub_0_r|]. destruct n as [|n]; [lia|].
  apply not_elem_of_cons in Ha as [Hc Ha]. cbn [cstr]. rewrite (proj2 (Z.eqb_neq c 0)), IH by (congruence || done || lia). done.
Qed.

Lemma cstr_stop n l rest : 0 ∉ l → (length l < n)%nat → cstr n (l ++ 0 :: rest) = l.
Proof.
  intros Hl Hn. rewrite cstr_app by (done || lia). destruct (n - length l)%nat eqn:E; [lia|]. apply app_nil_r.
Qed.

(** A field that is closed by a NUL. *)
Lemma cstr_field n t rest : (length t < n)%nat → cstr n (t ++ 0 :: rest) = cstr (length t) t.
Proof.
  revert n. induction t as [|c t IH]; intros [|n] Hn; cbn [app length cstr] in *; try lia; [done|]. case_test; [done|]. f_equal. apply IH. lia.
Qed.

Lemma cstr_length n t : (length (cstr n t) ≤ n)%nat.
Proof. revert t. induction n as [|n IH]; intros [|c t]; cbn; try lia. case_test; cbn; [lia|].
  specialize (IH t). lia. Qed.

Lemma cstr_no_nul n t : Forall (λ c, c ≠ 0) (cstr n t).
Proof.
  revert t. induction n; intros [|c t]; cbn; try by constructor. case_test; by constructor.
Qed.

Lemma safestrcpy_loop_spec s t n :
  (S n ≤ length s)%nat → (n ≤ length t ∨ length (cstr n t) < length t)%nat →
  ∃ s', safestrcpy_loop s t n = Some s' ∧ length s' = length s ∧
        cstr (S n) s' = cstr n t ∧ 0 ∈ take (S n) s'.
Proof.
  revert s t. induction n as [|n IH]; intros [|a s] t Hs Ht; cbn in Hs; try lia.
  { eexists; split; [done|]. cbn. split_and!; [done..|set_solver]. }
  destruct t as [|c t]; cbn in Ht; [lia|]. cbn [safestrcpy_loop].
  destruct (Z.eqb_spec c 0) as [->|Hc].
  - destruct s as [|b s]; cbn in Hs; [lia|].
    eexists; split; [done|]. cbn. split_and!; [done..|set_solver].
  - cbn in Ht. destruct (IH s t ltac:(lia) ltac:(lia)) as (s' & -> & Hlen & Hstr & Hnul).
    eexists; split; [done|]. cbn [cstr length fmap option_fmap option_map].
    rewrite (proj2 (Z.eqb_neq c 0)) by done. split_and!; [by rewrite Hlen| |].
    + by rewrite <- Hstr.
    + cbn. right. done.
Qed.

Lemma strlen_cstr s n : strlen s = Some n → cstr (length s) s = take (Z.to_nat n) s ∧ 0 ≤ n < Z.of_nat (length s).
Proof.
  revert n. induction s as [|c s IH]; intros n H; cbn in *; [done|].
  destruct (Z.eqb_spec c 0) as [->|]; simplify_eq; [split; [done|lia]|].
  destruct (strlen s) as [k|] eqn:E; simplify_eq/=. destruct (IH k eq_refl) as [-> ?].
  split; [|lia]. by replace (Z.to_nat (Z.succ k)) with (S (Z.to_nat k)) by lia.
Qed.

(** ** Properties *)

(** [memmove] moves [n] bytes correctly whether or not the regions
    overlap: afterwards the destination holds what the source held before, and
    every other byte of memory is unchanged. *)
Theorem memmove_moves m dst src n x :
  0 ≤ n →
  ld8 (memmove m dst src n) x =
  if (dst <=? x) && (x <? dst + n) then ld8 m (src + (x - dst)) else ld8 m x.
Proof. apply ld8_memmove. Qed.

(** Shifting three bytes by one place, an overlap. *)
Lemma memmove_moves_witness :
  ld8 (memmove (<[2 := 30]> (<[1 := 20]> (<[0 := 10]> ∅))) 1 0 3) 3 = 30.
Proof. rewrite (memmove_moves _ 1 0 3 3); [reflexivity|lia]. Defined.

(** [memset] sets exactly the [n] bytes it is asked to, also on the fast
    path that stores words when address and length are multiples of four. *)
Theorem memset_sets m dst c n x :
  0 ≤ n →
  ld8 (memset m dst c n) x = if (dst <=? x) && (x <? dst + n) then u8 c else ld8 m x.
Proof. apply ld8_memset. Qed.

Lemma memset_sets_witness :
  ld8 (memset ∅ 4096 (-1) 8) 4103 = 255 ∧ ld8 (memset ∅ 4096 (-1) 8) 4104 = 0.
Proof. split; rewrite memset_sets; reflexivity || lia. Defined.

(** [safestrcpy] with a positive size leaves a NUL-terminated string in the
    destination: the source's string, cut to [n - 1] bytes, within the array. *)
Theorem safestrcpy_terminates s t n :
  (S n ≤ length s)%nat → (n ≤ length t ∨ length (cstr n t) < length t)%nat →
  ∃ s', safestrcpy s t (Z.of_nat (S n)) = Some s' ∧ length s' = length s ∧
        cstr (S n) s' = cstr n t ∧ 0 ∈ take (S n) s'.
Proof.
  intros Hs Ht. unfold safestrcpy. rewrite (proj2 (Z.leb_gt _ _)) by lia.
  replace (Z.to_nat (Z.of_nat (S n) - 1)) with n by lia. by apply safestrcpy_loop_spec.
Qed.

(** Six bytes copied to an array of four. *)
Lemma safestrcpy_terminates_witness :
  ∃ s', safestrcpy [9; 9; 9; 9] [104; 101; 108; 108; 111; 0] 4 = Some s' ∧ cstr 4 s' = [104; 101; 108].
Proof.
  destruct (safestrcpy_terminates [9; 9; 9; 9] [104; 101; 108; 108; 111; 0] 3) as (s' & E & _ & C & _).
  - cbn. lia.
  - left. cbn. lia.
  - exists s'. split; [exact E|exact C].
Defined.
