(* ===== verification/Bytes.v ===== *)
(** * Integers in byte arrays

    The disk structures (log header, super block, inodes, directory entries,
    indirect blocks) are accessed by casting a buffer's data; here they are read
    from and written to lists of bytes, little endian. *)

From stdpp Require Import base numbers list.
From S2P Require Import Prelude.

Definition byte_at (l : list Z) (i : nat) : Z := u8 (default 0 (l !! i)).

Definition get16 (l : list Z) (i : nat) : Z := byte_at l i + 256 * byte_at l (i + 1).
Definition get32 (l : list Z) (i : nat) : Z :=
  byte_at l i + 256 * byte_at l (i + 1) + 65536 * byte_at l (i + 2) + 16777216 * byte_at l (i + 3).

Definition bytes16 (v : Z) : list Z := [u8 v; u8 (v / 256)].
Definition bytes32 (v : Z) : list Z := [u8 v; u8 (v / 256); u8 (v / 65536); u8 (v / 16777216)].

(** Overwriting part of an array. *)
Definition put16 (l : list Z) (i : nat) (v : Z) : list Z := list_inserts i (bytes16 v) l.
Definition put32 (l : list Z) (i : nat) (v : Z) : list Z := list_inserts i (bytes32 v) l.

Lemma length_put32 l i v : length (put32 l i v) = length l.
Proof. apply length_inserts. Qed.
Lemma length_put16 l i v : length (put16 l i v) = length l.
Proof. apply length_inserts. Qed.

(** Reading back what was stored at [i]. *)
Lemma byte_at_inserts_in l i s j :
  (i ≤ j < i + length s)%nat → (j < length l)%nat →
  byte_at (list_inserts i s l) j = u8 (default 0 (s !! (j - i)%nat)).
Proof. intros Hj Hl. unfold byte_at. by rewrite list_lookup_inserts by lia. Qed.

Lemma byte_at_inserts_out l i s j :
  (j < i ∨ i + length s ≤ j)%nat → byte_at (list_inserts i s l) j = byte_at l j.
Proof.
  intros Hj. unfold byte_at. destruct Hj as [Hj|Hj].
  - by rewrite list_lookup_inserts_lt by lia.
  - by rewrite list_lookup_inserts_ge by lia.
Qed.

Lemma get32_put32_eq l i v : (i + 4 ≤ length l)%nat → get32 (put32 l i v) i = u32 v.
Proof.
  intros Hl. unfold get32, put32. rewrite !byte_at_inserts_in by (cbn; lia).
  replace (i - i)%nat with 0%nat by lia. replace (i + 1 - i)%nat with 1%nat by lia.
  replace (i + 2 - i)%nat with 2%nat by lia. replace (i + 3 - i)%nat with 3%nat by lia.
  cbn. rewrite !u8_idem. unfold u8, u32. lia_mod.
Qed.

Lemma get32_put32_ne l i j v : (j + 4 ≤ i ∨ i + 4 ≤ j)%nat → get32 (put32 l i v) j = get32 l j.
Proof. intros Hj. unfold get32, put32. rewrite !byte_at_inserts_out by (cbn; lia). done. Qed.

Lemma get16_put16_eq l i v : (i + 2 ≤ length l)%nat → get16 (put16 l i v) i = u16 v.
Proof.
  intros Hl. unfold get16, put16. rewrite !byte_at_inserts_in by (cbn; lia).
  replace (i - i)%nat with 0%nat by lia. replace (i + 1 - i)%nat with 1%nat by lia.
  cbn. rewrite !u8_idem. unfold u8, u16. lia_mod.
Qed.

Lemma get16_put16_ne l i j v : (j + 2 ≤ i ∨ i + 2 ≤ j)%nat → get16 (put16 l i v) j = get16 l j.
Proof. intros Hj. unfold get16, put16. rewrite !byte_at_inserts_out by (cbn; lia). done. Qed.

Lemma get16_put32_ne l i j v : (j + 2 ≤ i ∨ i + 4 ≤ j)%nat → get16 (put32 l i v) j = get16 l j.
Proof. intros Hj. unfold get16, put32. rewrite !byte_at_inserts_out by (cbn; lia). done. Qed.

Lemma get32_put16_ne l i j v : (j + 4 ≤ i ∨ i + 2 ≤ j)%nat → get32 (put16 l i v) j = get32 l j.
Proof. intros Hj. unfold get32, put16. rewrite !byte_at_inserts_out by (cbn; lia). done. Qed.

Lemma get32_range l i : 0 ≤ get32 l i < 4294967296.
Proof.
  unfold get32, byte_at. pose proof (u8_range (default 0 (l !! i))). pose proof (u8_range (default 0 (l !! (i + 1)%nat))).
  pose proof (u8_range (default 0 (l !! (i + 2)%nat))). pose proof (u8_range (default 0 (l !! (i + 3)%nat))). lia.
Qed.
