(* ===== verification/Kernel.v ===== *)
(** * The kernel's data and the monad of kernel code

    One record [K] holds the C globals of the kernel together with physical
    memory, the disk and the registers of the CPU that executes.  Structures
    of the sources are records with the sources' fields (prefixed), enums are
    inductive types, pointers into a static table are indices of that table
    ([None] for the null pointer), and pointers to pages are addresses.

    Kernel code is a function of an [oracle] and a state.  The oracle lists
    what the rest of the system does each time the code gives the CPU away:
    when it sleeps, or spins on a lock another CPU holds.  Code that has to
    wait and finds the oracle empty is [Blocked].  [panic] is an outcome. *)

From stdpp Require Import base numbers list gmap strings countable.
From S2P Require Import Prelude Mmu Hardware Memory.

(** ** Identifiers of locks and sleep channels *)

(** The sleep-locks are embedded in buffers and in cached inodes. *)
Inductive slid := SLBuf (b : nat) | SLInode (i : nat).

(** The spin-locks: [ptable.lock], [mtable.lock], ..., the barrier's [lock],
    a pipe's lock and the lock inside a sleep-lock. *)
Inductive lockid :=
  LPtable | LMtable | LKmem | LBcache | LFtable | LIcache | LLog | LIde
| LCons | LTicks | LBarrier | LPipe (p : Z) | LSleep (s : slid).

(** A channel is the address a process sleeps on. *)
Inductive chan :=
  CProc (p : nat) | CMutex (m : nat) | CBarrier | CTicks | CPipeR (p : Z) | CPipeW (p : Z)
| CLog | CSleep (s : slid) | CBuf (b : nat) | CInput.

#[global] Instance slid_eq_dec : EqDecision slid.
Proof. solve_decision. Defined.
#[global] Instance lockid_eq_dec : EqDecision lockid.
Proof. solve_decision. Defined.
#[global] Instance chan_eq_dec : EqDecision chan.
Proof. solve_decision. Defined.

Definition lockid_encode (l : lockid) : nat * Z :=
  match l with
  | LPtable => (0%nat, 0) | LMtable => (0%nat, 1) | LKmem => (0%nat, 2)
  | LBcache => (0%nat, 3) | LFtable => (0%nat, 4) | LIcache => (0%nat, 5)
  | LLog => (0%nat, 6) | LIde => (0%nat, 7) | LCons => (0%nat, 8)
  | LTicks => (0%nat, 9) | LBarrier => (0%nat, 10)
  | LPipe p => (1%nat, p)
  | LSleep (SLBuf b) => (2%nat, Z.of_nat b)
  | LSleep (SLInode i) => (3%nat, Z.of_nat i)
  end.

Definition lockid_decode (c : nat * Z) : option lockid :=
  match c with
  | (0%nat, z) =>
      [LPtable; LMtable; LKmem; LBcache; LFtable; LIcache; LLog; LIde; LCons; LTicks; LBarrier]
      !! Z.to_nat z
  | (1%nat, p) => Some (LPipe p)
  | (2%nat, z) => Some (LSleep (SLBuf (Z.to_nat z)))
  | (3%nat, z) => Some (LSleep (SLInode (Z.to_nat z)))
  | _ => None
  end.

#[global] Instance lockid_countable : Countable lockid.
Proof.
  apply (inj_countable lockid_encode lockid_decode).
  intros []; cbn; try done. destruct s; cbn; by rewrite Nat2Z.id.
Defined.

(** ** CPUs and hardware registers *)

(** [struct cpu] of [proc.h], less the saved scheduler context and the parts of the
    task state that nobody uses. *)
Record cpu := mk_cpu {
  c_apicid : Z;  (* Local APIC ID *)
  c_esp0 : Z;  (* ts.esp0 *)
  c_ncli : Z;  (* Depth of pushcli nesting *)
  c_intena : bool;  (* Were interrupts enabled before pushcli? *)
  c_proc : option nat;  (* The process running on this cpu or null *)
  c_ss0 : Z;  (* ts.ss0 *)
  c_iomb : Z;  (* ts.iomb *)
  c_gdt : list segdesc;  (* x86 global descriptor table *)
  c_started : bool;  (* Has the CPU started? *)
}.

Definition set_c_apicid (v : Z) (r : cpu) : cpu :=
  {| c_apicid := v; c_esp0 := r.(c_esp0); c_ncli := r.(c_ncli); c_intena := r.(c_intena);
     c_proc := r.(c_proc); c_ss0 := r.(c_ss0); c_iomb := r.(c_iomb); c_gdt := r.(c_gdt);
     c_started := r.(c_started) |}.
Definition set_c_esp0 (v : Z) (r : cpu) : cpu :=
  {| c_apicid := r.(c_apicid); c_esp0 := v; c_ncli := r.(c_ncli); c_intena := r.(c_intena);
     c_proc := r.(c_proc); c_ss0 := r.(c_ss0); c_iomb := r.(c_iomb); c_gdt := r.(c_gdt);
     c_started := r.(c_started) |}.
Definition set_c_ncli (v : Z) (r : cpu) : cpu :=
  {| c_apicid := r.(c_apicid); c_esp0 := r.(c_esp0); c_ncli := v; c_intena := r.(c_intena);
     c_proc := r.(c_proc); c_ss0 := r.(c_ss0); c_iomb := r.(c_iomb); c_gdt := r.(c_gdt);
     c_started := r.(c_started) |}.
Definition set_c_intena (v : bool) (r : cpu) : cpu :=
  {| c_apicid := r.(c_apicid); c_esp0 := r.(c_esp0); c_ncli := r.(c_ncli); c_intena := v;
     c_proc := r.(c_proc); c_ss0 := r.(c_ss0); c_iomb := r.(c_iomb); c_gdt := r.(c_gdt);
     c_started := r.(c_started) |}.
Definition set_c_proc (v : option nat) (r : cpu) : cpu :=
  {| c_apicid := r.(c_apicid); c_esp0 := r.(c_esp0); c_ncli := r.(c_ncli);
     c_intena := r.(c_intena); c_proc := v; c_ss0 := r.(c_ss0); c_iomb := r.(c_iomb);
     c_gdt := r.(c_gdt); c_started := r.(c_started) |}.
Definition set_c_ss0 (v : Z) (r : cpu) : cpu :=
  {| c_apicid := r.(c_apicid); c_esp0 := r.(c_esp0); c_ncli := r.(c_ncli);
     c_intena := r.(c_intena); c_proc := r.(c_proc); c_ss0 := v; c_iomb := r.(c_iomb);
     c_gdt := r.(c_gdt); c_started := r.(c_started) |}.
Definition set_c_iomb (v : Z) (r : cpu) : cpu :=
  {| c_apicid := r.(c_apicid); c_esp0 := r.(c_esp0); c_ncli := r.(c_ncli);
     c_intena := r.(c_intena); c_proc := r.(c_proc); c_ss0 := r.(c_ss0); c_iomb := v;
     c_gdt := r.(c_gdt); c_started := r.(c_started) |}.
Definition set_c_gdt (v : list segdesc) (r : cpu) : cpu :=
  {| c_apicid := r.(c_apicid); c_esp0 := r.(c_esp0); c_ncli := r.(c_ncli);
     c_intena := r.(c_intena); c_proc := r.(c_proc); c_ss0 := r.(c_ss0); c_iomb := r.(c_iomb);
     c_gdt := v; c_started := r.(c_started) |}.
Definition set_c_started (v : bool) (r : cpu) : cpu :=
  {| c_apicid := r.(c_apicid); c_esp0 := r.(c_esp0); c_ncli := r.(c_ncli);
     c_intena := r.(c_intena); c_proc := r.(c_proc); c_ss0 := r.(c_ss0); c_iomb := r.(c_iomb);
     c_gdt := r.(c_gdt); c_started := v |}.

(** The executing CPU's registers, the per-CPU table, and the spin-locks.  A
    lock absent from [h_locks] has [locked = 0] and [cpu = 0]; a present one has
    [locked = 1] and the [cpu] pointer given. *)
Record hw := mk_hw {
  h_apicid : Z;  (* APIC id of the executing CPU *)
  h_IF : bool;  (* its interrupt flag *)
  h_cr3 : Z;  (* its page-table base *)
  h_cpus : list cpu;  (* cpus[0..ncpu) *)
  h_locks : gmap lockid (option nat);  (* see below *)
  h_tr : Z;  (* its task register *)
  h_gdtr : Z * Z;  (* its descriptor table: address, size - 1 *)
  h_idtr : Z * Z;  (* its interrupt table: address, size - 1 *)
}.

Definition set_h_apicid (v : Z) (r : hw) : hw :=
  {| h_apicid := v; h_IF := r.(h_IF); h_cr3 := r.(h_cr3); h_cpus := r.(h_cpus);
     h_locks := r.(h_locks); h_tr := r.(h_tr); h_gdtr := r.(h_gdtr); h_idtr := r.(h_idtr) |}.
Definition set_h_IF (v : bool) (r : hw) : hw :=
  {| h_apicid := r.(h_apicid); h_IF := v; h_cr3 := r.(h_cr3); h_cpus := r.(h_cpus);
     h_locks := r.(h_locks); h_tr := r.(h_tr); h_gdtr := r.(h_gdtr); h_idtr := r.(h_idtr) |}.
Definition set_h_cr3 (v : Z) (r : hw) : hw :=
  {| h_apicid := r.(h_apicid); h_IF := r.(h_IF); h_cr3 := v; h_cpus := r.(h_cpus);
     h_locks := r.(h_locks); h_tr := r.(h_tr); h_gdtr := r.(h_gdtr); h_idtr := r.(h_idtr) |}.
Definition set_h_cpus (v : list cpu) (r : hw) : hw :=
  {| h_apicid := r.(h_apicid); h_IF := r.(h_IF); h_cr3 := r.(h_cr3); h_cpus := v;
     h_locks := r.(h_locks); h_tr := r.(h_tr); h_gdtr := r.(h_gdtr); h_idtr := r.(h_idtr) |}.
Definition set_h_locks (v : gmap lockid (option nat)) (r : hw) : hw :=
  {| h_apicid := r.(h_apicid); h_IF := r.(h_IF); h_cr3 := r.(h_cr3); h_cpus := r.(h_cpus);
     h_locks := v; h_tr := r.(h_tr); h_gdtr := r.(h_gdtr); h_idtr := r.(h_idtr) |}.
Definition set_h_tr (v : Z) (r : hw) : hw :=
  {| h_apicid := r.(h_apicid); h_IF := r.(h_IF); h_cr3 := r.(h_cr3); h_cpus := r.(h_cpus);
     h_locks := r.(h_locks); h_tr := v; h_gdtr := r.(h_gdtr); h_idtr := r.(h_idtr) |}.
Definition set_h_gdtr (v : Z * Z) (r : hw) : hw :=
  {| h_apicid := r.(h_apicid); h_IF := r.(h_IF); h_cr3 := r.(h_cr3); h_cpus := r.(h_cpus);
     h_locks := r.(h_locks); h_tr := r.(h_tr); h_gdtr := v; h_idtr := r.(h_idtr) |}.
Definition set_h_idtr (v : Z * Z) (r : hw) : hw :=
  {| h_apicid := r.(h_apicid); h_IF := r.(h_IF); h_cr3 := r.(h_cr3); h_cpus := r.(h_cpus);
     h_locks := r.(h_locks); h_tr := r.(h_tr); h_gdtr := r.(h_gdtr); h_idtr := v |}.

(** ** Processes *)

Inductive procstate := UNUSED | EMBRYO | SLEEPING | RUNNABLE | RUNNING | ZOMBIE.
#[global] Instance procstate_eq_dec : EqDecision procstate.
Proof. solve_decision. Defined.

(** [struct trapframe] of [x86.h], less its padding. *)
Record trapframe := mk_tf {
  tf_edi : Z;
  tf_esi : Z;
  tf_ebp : Z;
  tf_oesp : Z;
  tf_ebx : Z;
  tf_edx : Z;
  tf_ecx : Z;
  tf_eax : Z;
  tf_gs : Z;
  tf_fs : Z;
  tf_es : Z;
  tf_ds : Z;
  tf_trapno : Z;
  tf_err : Z;
  tf_eip : Z;
  tf_cs : Z;
  tf_eflags : Z;
  tf_esp : Z;
  tf_ss : Z;
}.

Definition set_tf_edi (v : Z) (r : trapframe) : trapframe :=
  {| tf_edi := v; tf_esi := r.(tf_esi); tf_ebp := r.(tf_ebp); tf_oesp := r.(tf_oesp);
     tf_ebx := r.(tf_ebx); tf_edx := r.(tf_edx); tf_ecx := r.(tf_ecx); tf_eax := r.(tf_eax);
     tf_gs := r.(tf_gs); tf_fs := r.(tf_fs); tf_es := r.(tf_es); tf_ds := r.(tf_ds);
     tf_trapno := r.(tf_trapno); tf_err := r.(tf_err); tf_eip := r.(tf_eip);
     tf_cs := r.(tf_cs); tf_eflags := r.(tf_eflags); tf_esp := r.(tf_esp);
     tf_ss := r.(tf_ss) |}.
Definition set_tf_esi (v : Z) (r : trapframe) : trapframe :=
  {| tf_edi := r.(tf_edi); tf_esi := v; tf_ebp := r.(tf_ebp); tf_oesp := r.(tf_oesp);
     tf_ebx := r.(tf_ebx); tf_edx := r.(tf_edx); tf_ecx := r.(tf_ecx); tf_eax := r.(tf_eax);
     tf_gs := r.(tf_gs); tf_fs := r.(tf_fs); tf_es := r.(tf_es); tf_ds := r.(tf_ds);
     tf_trapno := r.(tf_trapno); tf_err := r.(tf_err); tf_eip := r.(tf_eip);
     tf_cs := r.(tf_cs); tf_eflags := r.(tf_eflags); tf_esp := r.(tf_esp);
     tf_ss := r.(tf_ss) |}.
Definition set_tf_ebp (v : Z) (r : trapframe) : trapframe :=
  {| tf_edi := r.(tf_edi); tf_esi := r.(tf_esi); tf_ebp := v; tf_oesp := r.(tf_oesp);
     tf_ebx := r.(tf_ebx); tf_edx := r.(tf_edx); tf_ecx := r.(tf_ecx); tf_eax := r.(tf_eax);
     tf_gs := r.(tf_gs); tf_fs := r.(tf_fs); tf_es := r.(tf_es); tf_ds := r.(tf_ds);
     tf_trapno := r.(tf_trapno); tf_err := r.(tf_err); tf_eip := r.(tf_eip);
     tf_cs := r.(tf_cs); tf_eflags := r.(tf_eflags); tf_esp := r.(tf_esp);
     tf_ss := r.(tf_ss) |}.
Definition set_tf_oesp (v : Z) (r : trapframe) : trapframe :=
  {| tf_edi := r.(tf_edi); tf_esi := r.(tf_esi); tf_ebp := r.(tf_ebp); tf_oesp := v;
     tf_ebx := r.(tf_ebx); tf_edx := r.(tf_edx); tf_ecx := r.(tf_ecx); tf_eax := r.(tf_eax);
     tf_gs := r.(tf_gs); tf_fs := r.(tf_fs); tf_es := r.(tf_es); tf_ds := r.(tf_ds);
     tf_trapno := r.(tf_trapno); tf_err := r.(tf_err); tf_eip := r.(tf_eip);
     tf_cs := r.(tf_cs); tf_eflags := r.(tf_eflags); tf_esp := r.(tf_esp);
     tf_ss := r.(tf_ss) |}.
Definition set_tf_ebx (v : Z) (r : trapframe) : trapframe :=
  {| tf_edi := r.(tf_edi); tf_esi := r.(tf_esi); tf_ebp := r.(tf_ebp); tf_oesp := r.(tf_oesp);
     tf_ebx := v; tf_edx := r.(tf_edx); tf_ecx := r.(tf_ecx); tf_eax := r.(tf_eax);
     tf_gs := r.(tf_gs); tf_fs := r.(tf_fs); tf_es := r.(tf_es); tf_ds := r.(tf_ds);
     tf_trapno := r.(tf_trapno); tf_err := r.(tf_err); tf_eip := r.(tf_eip);
     tf_cs := r.(tf_cs); tf_eflags := r.(tf_eflags); tf_esp := r.(tf_esp);
     tf_ss := r.(tf_ss) |}.
Definition set_tf_edx (v : Z) (r : trapframe) : trapframe :=
  {| tf_edi := r.(tf_edi); tf_esi := r.(tf_esi); tf_ebp := r.(tf_ebp); tf_oesp := r.(tf_oesp);
     tf_ebx := r.(tf_ebx); tf_edx := v; tf_ecx := r.(tf_ecx); tf_eax := r.(tf_eax);
     tf_gs := r.(tf_gs); tf_fs := r.(tf_fs); tf_es := r.(tf_es); tf_ds := r.(tf_ds);
     tf_trapno := r.(tf_trapno); tf_err := r.(tf_err); tf_eip := r.(tf_eip);
     tf_cs := r.(tf_cs); tf_eflags := r.(tf_eflags); tf_esp := r.(tf_esp);
     tf_ss := r.(tf_ss) |}.
Definition set_tf_ecx (v : Z) (r : trapframe) : trapframe :=
  {| tf_edi := r.(tf_edi); tf_esi := r.(tf_esi); tf_ebp := r.(tf_ebp); tf_oesp := r.(tf_oesp);
     tf_ebx := r.(tf_ebx); tf_edx := r.(tf_edx); tf_ecx := v; tf_eax := r.(tf_eax);
     tf_gs := r.(tf_gs); tf_fs := r.(tf_fs); tf_es := r.(tf_es); tf_ds := r.(tf_ds);
     tf_trapno := r.(tf_trapno); tf_err := r.(tf_err); tf_eip := r.(tf_eip);
     tf_cs := r.(tf_cs); tf_eflags := r.(tf_eflags); tf_esp := r.(tf_esp);
     tf_ss := r.(tf_ss) |}.
Definition set_tf_eax (v : Z) (r : trapframe) : trapframe :=
  {| tf_edi := r.(tf_edi); tf_esi := r.(tf_esi); tf_ebp := r.(tf_ebp); tf_oesp := r.(tf_oesp);
     tf_ebx := r.(tf_ebx); tf_edx := r.(tf_edx); tf_ecx := r.(tf_ecx); tf_eax := v;
     tf_gs := r.(tf_gs); tf_fs := r.(tf_fs); tf_es := r.(tf_es); tf_ds := r.(tf_ds);
     tf_trapno := r.(tf_trapno); tf_err := r.(tf_err); tf_eip := r.(tf_eip);
     tf_cs := r.(tf_cs); tf_eflags := r.(tf_eflags); tf_esp := r.(tf_esp);
     tf_ss := r.(tf_ss) |}.
Definition set_tf_gs (v : Z) (r : trapframe) : trapframe :=
  {| tf_edi := r.(tf_edi); tf_esi := r.(tf_esi); tf_ebp := r.(tf_ebp); tf_oesp := r.(tf_oesp);
     tf_ebx := r.(tf_ebx); tf_edx := r.(tf_edx); tf_ecx := r.(tf_ecx); tf_eax := r.(tf_eax);
     tf_gs := v; tf_fs := r.(tf_fs); tf_es := r.(tf_es); tf_ds := r.(tf_ds);
     tf_trapno := r.(tf_trapno); tf_err := r.(tf_err); tf_eip := r.(tf_eip);
     tf_cs := r.(tf_cs); tf_eflags := r.(tf_eflags); tf_esp := r.(tf_esp);
     tf_ss := r.(tf_ss) |}.
Definition set_tf_fs (v : Z) (r : trapframe) : trapframe :=
  {| tf_edi := r.(tf_edi); tf_esi := r.(tf_esi); tf_ebp := r.(tf_ebp); tf_oesp := r.(tf_oesp);
     tf_ebx := r.(tf_ebx); tf_edx := r.(tf_edx); tf_ecx := r.(tf_ecx); tf_eax := r.(tf_eax);
     tf_gs := r.(tf_gs); tf_fs := v; tf_es := r.(tf_es); tf_ds := r.(tf_ds);
     tf_trapno := r.(tf_trapno); tf_err := r.(tf_err); tf_eip := r.(tf_eip);
     tf_cs := r.(tf_cs); tf_eflags := r.(tf_eflags); tf_esp := r.(tf_esp);
     tf_ss := r.(tf_ss) |}.
Definition set_tf_es (v : Z) (r : trapframe) : trapframe :=
  {| tf_edi := r.(tf_edi); tf_esi := r.(tf_esi); tf_ebp := r.(tf_ebp); tf_oesp := r.(tf_oesp);
     tf_ebx := r.(tf_ebx); tf_edx := r.(tf_edx); tf_ecx := r.(tf_ecx); tf_eax := r.(tf_eax);
     tf_gs := r.(tf_gs); tf_fs := r.(tf_fs); tf_es := v; tf_ds := r.(tf_ds);
     tf_trapno := r.(tf_trapno); tf_err := r.(tf_err); tf_eip := r.(tf_eip);
     tf_cs := r.(tf_cs); tf_eflags := r.(tf_eflags); tf_esp := r.(tf_esp);
     tf_ss := r.(tf_ss) |}.
Definition set_tf_ds (v : Z) (r : trapframe) : trapframe :=
  {| tf_edi := r.(tf_edi); tf_esi := r.(tf_esi); tf_ebp := r.(tf_ebp); tf_oesp := r.(tf_oesp);
     tf_ebx := r.(tf_ebx); tf_edx := r.(tf_edx); tf_ecx := r.(tf_ecx); tf_eax := r.(tf_eax);
     tf_gs := r.(tf_gs); tf_fs := r.(tf_fs); tf_es := r.(tf_es); tf_ds := v;
     tf_trapno := r.(tf_trapno); tf_err := r.(tf_err); tf_eip := r.(tf_eip);
     tf_cs := r.(tf_cs); tf_eflags := r.(tf_eflags); tf_esp := r.(tf_esp);
     tf_ss := r.(tf_ss) |}.
Definition set_tf_trapno (v : Z) (r : trapframe) : trapframe :=
  {| tf_edi := r.(tf_edi); tf_esi := r.(tf_esi); tf_ebp := r.(tf_ebp); tf_oesp := r.(tf_oesp);
     tf_ebx := r.(tf_ebx); tf_edx := r.(tf_edx); tf_ecx := r.(tf_ecx); tf_eax := r.(tf_eax);
     tf_gs := r.(tf_gs); tf_fs := r.(tf_fs); tf_es := r.(tf_es); tf_ds := r.(tf_ds);
     tf_trapno := v; tf_err := r.(tf_err); tf_eip := r.(tf_eip); tf_cs := r.(tf_cs);
     tf_eflags := r.(tf_eflags); tf_esp := r.(tf_esp); tf_ss := r.(tf_ss) |}.
Definition set_tf_err (v : Z) (r : trapframe) : trapframe :=
  {| tf_edi := r.(tf_edi); tf_esi := r.(tf_esi); tf_ebp := r.(tf_ebp); tf_oesp := r.(tf_oesp);
     tf_ebx := r.(tf_ebx); tf_edx := r.(tf_edx); tf_ecx := r.(tf_ecx); tf_eax := r.(tf_eax);
     tf_gs := r.(tf_gs); tf_fs := r.(tf_fs); tf_es := r.(tf_es); tf_ds := r.(tf_ds);
     tf_trapno := r.(tf_trapno); tf_err := v; tf_eip := r.(tf_eip); tf_cs := r.(tf_cs);
     tf_eflags := r.(tf_eflags); tf_esp := r.(tf_esp); tf_ss := r.(tf_ss) |}.
Definition set_tf_eip (v : Z) (r : trapframe) : trapframe :=
  {| tf_edi := r.(tf_edi); tf_esi := r.(tf_esi); tf_ebp := r.(tf_ebp); tf_oesp := r.(tf_oesp);
     tf_ebx := r.(tf_ebx); tf_edx := r.(tf_edx); tf_ecx := r.(tf_ecx); tf_eax := r.(tf_eax);
     tf_gs := r.(tf_gs); tf_fs := r.(tf_fs); tf_es := r.(tf_es); tf_ds := r.(tf_ds);
     tf_trapno := r.(tf_trapno); tf_err := r.(tf_err); tf_eip := v; tf_cs := r.(tf_cs);
     tf_eflags := r.(tf_eflags); tf_esp := r.(tf_esp); tf_ss := r.(tf_ss) |}.
Definition set_tf_cs (v : Z) (r : trapframe) : trapframe :=
  {| tf_edi := r.(tf_edi); tf_esi := r.(tf_esi); tf_ebp := r.(tf_ebp); tf_oesp := r.(tf_oesp);
     tf_ebx := r.(tf_ebx); tf_edx := r.(tf_edx); tf_ecx := r.(tf_ecx); tf_eax := r.(tf_eax);
     tf_gs := r.(tf_gs); tf_fs := r.(tf_fs); tf_es := r.(tf_es); tf_ds := r.(tf_ds);
     tf_trapno := r.(tf_trapno); tf_err := r.(tf_err); tf_eip := r.(tf_eip); tf_cs := v;
     tf_eflags := r.(tf_eflags); tf_esp := r.(tf_esp); tf_ss := r.(tf_ss) |}.
Definition set_tf_eflags (v : Z) (r : trapframe) : trapframe :=
  {| tf_edi := r.(tf_edi); tf_esi := r.(tf_esi); tf_ebp := r.(tf_ebp); tf_oesp := r.(tf_oesp);
     tf_ebx := r.(tf_ebx); tf_edx := r.(tf_edx); tf_ecx := r.(tf_ecx); tf_eax := r.(tf_eax);
     tf_gs := r.(tf_gs); tf_fs := r.(tf_fs); tf_es := r.(tf_es); tf_ds := r.(tf_ds);
     tf_trapno := r.(tf_trapno); tf_err := r.(tf_err); tf_eip := r.(tf_eip);
     tf_cs := r.(tf_cs); tf_eflags := v; tf_esp := r.(tf_esp); tf_ss := r.(tf_ss) |}.
Definition set_tf_esp (v : Z) (r : trapframe) : trapframe :=
  {| tf_edi := r.(tf_edi); tf_esi := r.(tf_esi); tf_ebp := r.(tf_ebp); tf_oesp := r.(tf_oesp);
     tf_ebx := r.(tf_ebx); tf_edx := r.(tf_edx); tf_ecx := r.(tf_ecx); tf_eax := r.(tf_eax);
     tf_gs := r.(tf_gs); tf_fs := r.(tf_fs); tf_es := r.(tf_es); tf_ds := r.(tf_ds);
     tf_trapno := r.(tf_trapno); tf_err := r.(tf_err); tf_eip := r.(tf_eip);
     tf_cs := r.(tf_cs); tf_eflags := r.(tf_eflags); tf_esp := v; tf_ss := r.(tf_ss) |}.
Definition set_tf_ss (v : Z) (r : trapframe) : trapframe :=
  {| tf_edi := r.(tf_edi); tf_esi := r.(tf_esi); tf_ebp := r.(tf_ebp); tf_oesp := r.(tf_oesp);
     tf_ebx := r.(tf_ebx); tf_edx := r.(tf_edx); tf_ecx := r.(tf_ecx); tf_eax := r.(tf_eax);
     tf_gs := r.(tf_gs); tf_fs := r.(tf_fs); tf_es := r.(tf_es); tf_ds := r.(tf_ds);
     tf_trapno := r.(tf_trapno); tf_err := r.(tf_err); tf_eip := r.(tf_eip);
     tf_cs := r.(tf_cs); tf_eflags := r.(tf_eflags); tf_esp := r.(tf_esp); tf_ss := v |}.

(** [struct context] of [proc.h]. *)
Record context := mk_ctx {
  x_edi : Z;
  x_esi : Z;
  x_ebx : Z;
  x_ebp : Z;
  x_eip : Z;
}.

(** [struct proc] of [proc.h].  The trap frame and the context, which the code
    reaches through pointers into the kernel stack, are fields. *)
Record proc := mk_proc {
  p_sz : Z;  (* Size of process memory (bytes) *)
  p_pgdir : Z;  (* Page table *)
  p_kstack : Z;  (* Bottom of kernel stack *)
  p_state : procstate;
  p_pid : Z;
  p_parent : option nat;  (* Parent process *)
  p_tf : trapframe;  (* *tf *)
  p_context : context;  (* *context *)
  p_chan : option chan;  (* If non-zero, sleeping on chan *)
  p_killed : bool;  (* If non-zero, have been killed *)
  p_ofile : list (option nat);  (* Open files *)
  p_cwd : option nat;  (* Current directory *)
  p_name : list Z;  (* 16 bytes *)
  p_ustack : Z;  (* User stack for the thread *)
  p_refs : Z;  (* address of the thread count *)
  p_tickets : Z;
}.

Definition set_p_sz (v : Z) (r : proc) : proc :=
  {| p_sz := v; p_pgdir := r.(p_pgdir); p_kstack := r.(p_kstack); p_state := r.(p_state);
     p_pid := r.(p_pid); p_parent := r.(p_parent); p_tf := r.(p_tf);
     p_context := r.(p_context); p_chan := r.(p_chan); p_killed := r.(p_killed);
     p_ofile := r.(p_ofile); p_cwd := r.(p_cwd); p_name := r.(p_name);
     p_ustack := r.(p_ustack); p_refs := r.(p_refs); p_tickets := r.(p_tickets) |}.
Definition set_p_pgdir (v : Z) (r : proc) : proc :=
  {| p_sz := r.(p_sz); p_pgdir := v; p_kstack := r.(p_kstack); p_state := r.(p_state);
     p_pid := r.(p_pid); p_parent := r.(p_parent); p_tf := r.(p_tf);
     p_context := r.(p_context); p_chan := r.(p_chan); p_killed := r.(p_killed);
     p_ofile := r.(p_ofile); p_cwd := r.(p_cwd); p_name := r.(p_name);
     p_ustack := r.(p_ustack); p_refs := r.(p_refs); p_tickets := r.(p_tickets) |}.
Definition set_p_kstack (v : Z) (r : proc) : proc :=
  {| p_sz := r.(p_sz); p_pgdir := r.(p_pgdir); p_kstack := v; p_state := r.(p_state);
     p_pid := r.(p_pid); p_parent := r.(p_parent); p_tf := r.(p_tf);
     p_context := r.(p_context); p_chan := r.(p_chan); p_killed := r.(p_killed);
     p_ofile := r.(p_ofile); p_cwd := r.(p_cwd); p_name := r.(p_name);
     p_ustack := r.(p_ustack); p_refs := r.(p_refs); p_tickets := r.(p_tickets) |}.
Definition set_p_state (v : procstate) (r : proc) : proc :=
  {| p_sz := r.(p_sz); p_pgdir := r.(p_pgdir); p_kstack := r.(p_kstack); p_state := v;
     p_pid := r.(p_pid); p_parent := r.(p_parent); p_tf := r.(p_tf);
     p_context := r.(p_context); p_chan := r.(p_chan); p_killed := r.(p_killed);
     p_ofile := r.(p_ofile); p_cwd := r.(p_cwd); p_name := r.(p_name);
     p_ustack := r.(p_ustack); p_refs := r.(p_refs); p_tickets := r.(p_tickets) |}.
Definition set_p_pid (v : Z) (r : proc) : proc :=
  {| p_sz := r.(p_sz); p_pgdir := r.(p_pgdir); p_kstack := r.(p_kstack);
     p_state := r.(p_state); p_pid := v; p_parent := r.(p_parent); p_tf := r.(p_tf);
     p_context := r.(p_context); p_chan := r.(p_chan); p_killed := r.(p_killed);
     p_ofile := r.(p_ofile); p_cwd := r.(p_cwd); p_name := r.(p_name);
     p_ustack := r.(p_ustack); p_refs := r.(p_refs); p_tickets := r.(p_tickets) |}.
Definition set_p_parent (v : option nat) (r : proc) : proc :=
  {| p_sz := r.(p_sz); p_pgdir := r.(p_pgdir); p_kstack := r.(p_kstack);
     p_state := r.(p_state); p_pid := r.(p_pid); p_parent := v; p_tf := r.(p_tf);
     p_context := r.(p_context); p_chan := r.(p_chan); p_killed := r.(p_killed);
     p_ofile := r.(p_ofile); p_cwd := r.(p_cwd); p_name := r.(p_name);
     p_ustack := r.(p_ustack); p_refs := r.(p_refs); p_tickets := r.(p_tickets) |}.
Definition set_p_tf (v : trapframe) (r : proc) : proc :=
  {| p_sz := r.(p_sz); p_pgdir := r.(p_pgdir); p_kstack := r.(p_kstack);
     p_state := r.(p_state); p_pid := r.(p_pid); p_parent := r.(p_parent); p_tf := v;
     p_context := r.(p_context); p_chan := r.(p_chan); p_killed := r.(p_killed);
     p_ofile := r.(p_ofile); p_cwd := r.(p_cwd); p_name := r.(p_name);
     p_ustack := r.(p_ustack); p_refs := r.(p_refs); p_tickets := r.(p_tickets) |}.
Definition set_p_context (v : context) (r : proc) : proc :=
  {| p_sz := r.(p_sz); p_pgdir := r.(p_pgdir); p_kstack := r.(p_kstack);
     p_state := r.(p_state); p_pid := r.(p_pid); p_parent := r.(p_parent); p_tf := r.(p_tf);
     p_context := v; p_chan := r.(p_chan); p_killed := r.(p_killed); p_ofile := r.(p_ofile);
     p_cwd := r.(p_cwd); p_name := r.(p_name); p_ustack := r.(p_ustack); p_refs := r.(p_refs);
     p_tickets := r.(p_tickets) |}.
Definition set_p_chan (v : option chan) (r : proc) : proc :=
  {| p_sz := r.(p_sz); p_pgdir := r.(p_pgdir); p_kstack := r.(p_kstack);
     p_state := r.(p_state); p_pid := r.(p_pid); p_parent := r.(p_parent); p_tf := r.(p_tf);
     p_context := r.(p_context); p_chan := v; p_killed := r.(p_killed); p_ofile := r.(p_ofile);
     p_cwd := r.(p_cwd); p_name := r.(p_name); p_ustack := r.(p_ustack); p_refs := r.(p_refs);
     p_tickets := r.(p_tickets) |}.
Definition set_p_killed (v : bool) (r : proc) : proc :=
  {| p_sz := r.(p_sz); p_pgdir := r.(p_pgdir); p_kstack := r.(p_kstack);
     p_state := r.(p_state); p_pid := r.(p_pid); p_parent := r.(p_parent); p_tf := r.(p_tf);
     p_context := r.(p_context); p_chan := r.(p_chan); p_killed := v; p_ofile := r.(p_ofile);
     p_cwd := r.(p_cwd); p_name := r.(p_name); p_ustack := r.(p_ustack); p_refs := r.(p_refs);
     p_tickets := r.(p_tickets) |}.
Definition set_p_ofile (v : list (option nat)) (r : proc) : proc :=
  {| p_sz := r.(p_sz); p_pgdir := r.(p_pgdir); p_kstack := r.(p_kstack);
     p_state := r.(p_state); p_pid := r.(p_pid); p_parent := r.(p_parent); p_tf := r.(p_tf);
     p_context := r.(p_context); p_chan := r.(p_chan); p_killed := r.(p_killed); p_ofile := v;
     p_cwd := r.(p_cwd); p_name := r.(p_name); p_ustack := r.(p_ustack); p_refs := r.(p_refs);
     p_tickets := r.(p_tickets) |}.
Definition set_p_cwd (v : option nat) (r : proc) : proc :=
  {| p_sz := r.(p_sz); p_pgdir := r.(p_pgdir); p_kstack := r.(p_kstack);
     p_state := r.(p_state); p_pid := r.(p_pid); p_parent := r.(p_parent); p_tf := r.(p_tf);
     p_context := r.(p_context); p_chan := r.(p_chan); p_killed := r.(p_killed);
     p_ofile := r.(p_ofile); p_cwd := v; p_name := r.(p_name); p_ustack := r.(p_ustack);
     p_refs := r.(p_refs); p_tickets := r.(p_tickets) |}.
Definition set_p_name (v : list Z) (r : proc) : proc :=
  {| p_sz := r.(p_sz); p_pgdir := r.(p_pgdir); p_kstack := r.(p_kstack);
     p_state := r.(p_state); p_pid := r.(p_pid); p_parent := r.(p_parent); p_tf := r.(p_tf);
     p_context := r.(p_context); p_chan := r.(p_chan); p_killed := r.(p_killed);
     p_ofile := r.(p_ofile); p_cwd := r.(p_cwd); p_name := v; p_ustack := r.(p_ustack);
     p_refs := r.(p_refs); p_tickets := r.(p_tickets) |}.
Definition set_p_ustack (v : Z) (r : proc) : proc :=
  {| p_sz := r.(p_sz); p_pgdir := r.(p_pgdir); p_kstack := r.(p_kstack);
     p_state := r.(p_state); p_pid := r.(p_pid); p_parent := r.(p_parent); p_tf := r.(p_tf);
     p_context := r.(p_context); p_chan := r.(p_chan); p_killed := r.(p_killed);
     p_ofile := r.(p_ofile); p_cwd := r.(p_cwd); p_name := r.(p_name); p_ustack := v;
     p_refs := r.(p_refs); p_tickets := r.(p_tickets) |}.
Definition set_p_refs (v : Z) (r : proc) : proc :=
  {| p_sz := r.(p_sz); p_pgdir := r.(p_pgdir); p_kstack := r.(p_kstack);
     p_state := r.(p_state); p_pid := r.(p_pid); p_parent := r.(p_parent); p_tf := r.(p_tf);
     p_context := r.(p_context); p_chan := r.(p_chan); p_killed := r.(p_killed);
     p_ofile := r.(p_ofile); p_cwd := r.(p_cwd); p_name := r.(p_name);
     p_ustack := r.(p_ustack); p_refs := v; p_tickets := r.(p_tickets) |}.
Definition set_p_tickets (v : Z) (r : proc) : proc :=
  {| p_sz := r.(p_sz); p_pgdir := r.(p_pgdir); p_kstack := r.(p_kstack);
     p_state := r.(p_state); p_pid := r.(p_pid); p_parent := r.(p_parent); p_tf := r.(p_tf);
     p_context := r.(p_context); p_chan := r.(p_chan); p_killed := r.(p_killed);
     p_ofile := r.(p_ofile); p_cwd := r.(p_cwd); p_name := r.(p_name);
     p_ustack := r.(p_ustack); p_refs := r.(p_refs); p_tickets := v |}.

(** ** User mutexes *)

Inductive mutexstate := LOCKED | UNLOCKED.
#[global] Instance mutexstate_eq_dec : EqDecision mutexstate.
Proof. solve_decision. Defined.

(** [struct mutex_struct] of [proc.h]. *)
Record mutex_struct := mk_mutex {
  m_id : Z;
  m_state : mutexstate;
}.

Definition set_m_id (v : Z) (r : mutex_struct) : mutex_struct :=
  {| m_id := v; m_state := r.(m_state) |}.
Definition set_m_state (v : mutexstate) (r : mutex_struct) : mutex_struct :=
  {| m_id := r.(m_id); m_state := v |}.

(** ** Sleep-locks, buffers, the log *)

(** [struct sleeplock], less the inner spin-lock ([LSleep]). *)
Record sleeplock := mk_sl {
  sl_locked : bool;  (* Is the lock held? *)
  sl_pid : Z;  (* Process holding lock *)
}.

Definition set_sl_locked (v : bool) (r : sleeplock) : sleeplock :=
  {| sl_locked := v; sl_pid := r.(sl_pid) |}.
Definition set_sl_pid (v : Z) (r : sleeplock) : sleeplock :=
  {| sl_locked := r.(sl_locked); sl_pid := v |}.

(** [struct buf] of [buf.h]; the LRU list and the disk queue, which the code
    threads through buffers, are lists of buffer indices in the state. *)
Record buf := mk_buf {
  b_flags : Z;
  b_dev : Z;
  b_blockno : Z;
  b_lock : sleeplock;
  b_refcnt : Z;
  b_data : list Z;  (* BSIZE bytes *)
}.

Definition set_b_flags (v : Z) (r : buf) : buf :=
  {| b_flags := v; b_dev := r.(b_dev); b_blockno := r.(b_blockno); b_lock := r.(b_lock);
     b_refcnt := r.(b_refcnt); b_data := r.(b_data) |}.
Definition set_b_dev (v : Z) (r : buf) : buf :=
  {| b_flags := r.(b_flags); b_dev := v; b_blockno := r.(b_blockno); b_lock := r.(b_lock);
     b_refcnt := r.(b_refcnt); b_data := r.(b_data) |}.
Definition set_b_blockno (v : Z) (r : buf) : buf :=
  {| b_flags := r.(b_flags); b_dev := r.(b_dev); b_blockno := v; b_lock := r.(b_lock);
     b_refcnt := r.(b_refcnt); b_data := r.(b_data) |}.
Definition set_b_lock (v : sleeplock) (r : buf) : buf :=
  {| b_flags := r.(b_flags); b_dev := r.(b_dev); b_blockno := r.(b_blockno); b_lock := v;
     b_refcnt := r.(b_refcnt); b_data := r.(b_data) |}.
Definition set_b_refcnt (v : Z) (r : buf) : buf :=
  {| b_flags := r.(b_flags); b_dev := r.(b_dev); b_blockno := r.(b_blockno);
     b_lock := r.(b_lock); b_refcnt := v; b_data := r.(b_data) |}.
Definition set_b_data (v : list Z) (r : buf) : buf :=
  {| b_flags := r.(b_flags); b_dev := r.(b_dev); b_blockno := r.(b_blockno);
     b_lock := r.(b_lock); b_refcnt := r.(b_refcnt); b_data := v |}.

(** [struct log] of [log.c]. *)
Record log_t := mk_log {
  lg_start : Z;
  lg_size : Z;
  lg_outstanding : Z;  (* how many FS sys calls are executing *)
  lg_committing : bool;  (* in commit(), please wait *)
  lg_dev : Z;
  lg_n : Z;  (* lh.n *)
  lg_block : list Z;  (* lh.block[LOGSIZE] *)
}.

Definition set_lg_start (v : Z) (r : log_t) : log_t :=
  {| lg_start := v; lg_size := r.(lg_size); lg_outstanding := r.(lg_outstanding);
     lg_committing := r.(lg_committing); lg_dev := r.(lg_dev); lg_n := r.(lg_n);
     lg_block := r.(lg_block) |}.
Definition set_lg_size (v : Z) (r : log_t) : log_t :=
  {| lg_start := r.(lg_start); lg_size := v; lg_outstanding := r.(lg_outstanding);
     lg_committing := r.(lg_committing); lg_dev := r.(lg_dev); lg_n := r.(lg_n);
     lg_block := r.(lg_block) |}.
Definition set_lg_outstanding (v : Z) (r : log_t) : log_t :=
  {| lg_start := r.(lg_start); lg_size := r.(lg_size); lg_outstanding := v;
     lg_committing := r.(lg_committing); lg_dev := r.(lg_dev); lg_n := r.(lg_n);
     lg_block := r.(lg_block) |}.
Definition set_lg_committing (v : bool) (r : log_t) : log_t :=
  {| lg_start := r.(lg_start); lg_size := r.(lg_size); lg_outstanding := r.(lg_outstanding);
     lg_committing := v; lg_dev := r.(lg_dev); lg_n := r.(lg_n); lg_block := r.(lg_block) |}.
Definition set_lg_dev (v : Z) (r : log_t) : log_t :=
  {| lg_start := r.(lg_start); lg_size := r.(lg_size); lg_outstanding := r.(lg_outstanding);
     lg_committing := r.(lg_committing); lg_dev := v; lg_n := r.(lg_n);
     lg_block := r.(lg_block) |}.
Definition set_lg_n (v : Z) (r : log_t) : log_t :=
  {| lg_start := r.(lg_start); lg_size := r.(lg_size); lg_outstanding := r.(lg_outstanding);
     lg_committing := r.(lg_committing); lg_dev := r.(lg_dev); lg_n := v;
     lg_block := r.(lg_block) |}.
Definition set_lg_block (v : list Z) (r : log_t) : log_t :=
  {| lg_start := r.(lg_start); lg_size := r.(lg_size); lg_outstanding := r.(lg_outstanding);
     lg_committing := r.(lg_committing); lg_dev := r.(lg_dev); lg_n := r.(lg_n);
     lg_block := v |}.

(** ** Inodes, files, pipes *)

(** [struct superblock] of [fs.h]. *)
Record superblock := mk_sb {
  sb_size : Z;
  sb_nblocks : Z;
  sb_ninodes : Z;
  sb_nlog : Z;
  sb_logstart : Z;
  sb_inodestart : Z;
  sb_bmapstart : Z;
}.

(** [struct inode] of [file.h]. *)
Record inode := mk_inode {
  i_dev : Z;
  i_inum : Z;
  i_ref : Z;  (* Reference count *)
  i_lock : sleeplock;
  i_valid : bool;  (* inode has been read from disk? *)
  i_type : Z;
  i_major : Z;
  i_minor : Z;
  i_nlink : Z;
  i_size : Z;
  i_addrs : list Z;  (* NDIRECT+1 block numbers *)
}.

Definition set_i_dev (v : Z) (r : inode) : inode :=
  {| i_dev := v; i_inum := r.(i_inum); i_ref := r.(i_ref); i_lock := r.(i_lock);
     i_valid := r.(i_valid); i_type := r.(i_type); i_major := r.(i_major);
     i_minor := r.(i_minor); i_nlink := r.(i_nlink); i_size := r.(i_size);
     i_addrs := r.(i_addrs) |}.
Definition set_i_inum (v : Z) (r : inode) : inode :=
  {| i_dev := r.(i_dev); i_inum := v; i_ref := r.(i_ref); i_lock := r.(i_lock);
     i_valid := r.(i_valid); i_type := r.(i_type); i_major := r.(i_major);
     i_minor := r.(i_minor); i_nlink := r.(i_nlink); i_size := r.(i_size);
     i_addrs := r.(i_addrs) |}.
Definition set_i_ref (v : Z) (r : inode) : inode :=
  {| i_dev := r.(i_dev); i_inum := r.(i_inum); i_ref := v; i_lock := r.(i_lock);
     i_valid := r.(i_valid); i_type := r.(i_type); i_major := r.(i_major);
     i_minor := r.(i_minor); i_nlink := r.(i_nlink); i_size := r.(i_size);
     i_addrs := r.(i_addrs) |}.
Definition set_i_lock (v : sleeplock) (r : inode) : inode :=
  {| i_dev := r.(i_dev); i_inum := r.(i_inum); i_ref := r.(i_ref); i_lock := v;
     i_valid := r.(i_valid); i_type := r.(i_type); i_major := r.(i_major);
     i_minor := r.(i_minor); i_nlink := r.(i_nlink); i_size := r.(i_size);
     i_addrs := r.(i_addrs) |}.
Definition set_i_valid (v : bool) (r : inode) : inode :=
  {| i_dev := r.(i_dev); i_inum := r.(i_inum); i_ref := r.(i_ref); i_lock := r.(i_lock);
     i_valid := v; i_type := r.(i_type); i_major := r.(i_major); i_minor := r.(i_minor);
     i_nlink := r.(i_nlink); i_size := r.(i_size); i_addrs := r.(i_addrs) |}.
Definition set_i_type (v : Z) (r : inode) : inode :=
  {| i_dev := r.(i_dev); i_inum := r.(i_inum); i_ref := r.(i_ref); i_lock := r.(i_lock);
     i_valid := r.(i_valid); i_type := v; i_major := r.(i_major); i_minor := r.(i_minor);
     i_nlink := r.(i_nlink); i_size := r.(i_size); i_addrs := r.(i_addrs) |}.
Definition set_i_major (v : Z) (r : inode) : inode :=
  {| i_dev := r.(i_dev); i_inum := r.(i_inum); i_ref := r.(i_ref); i_lock := r.(i_lock);
     i_valid := r.(i_valid); i_type := r.(i_type); i_major := v; i_minor := r.(i_minor);
     i_nlink := r.(i_nlink); i_size := r.(i_size); i_addrs := r.(i_addrs) |}.
Definition set_i_minor (v : Z) (r : inode) : inode :=
  {| i_dev := r.(i_dev); i_inum := r.(i_inum); i_ref := r.(i_ref); i_lock := r.(i_lock);
     i_valid := r.(i_valid); i_type := r.(i_type); i_major := r.(i_major); i_minor := v;
     i_nlink := r.(i_nlink); i_size := r.(i_size); i_addrs := r.(i_addrs) |}.
Definition set_i_nlink (v : Z) (r : inode) : inode :=
  {| i_dev := r.(i_dev); i_inum := r.(i_inum); i_ref := r.(i_ref); i_lock := r.(i_lock);
     i_valid := r.(i_valid); i_type := r.(i_type); i_major := r.(i_major);
     i_minor := r.(i_minor); i_nlink := v; i_size := r.(i_size); i_addrs := r.(i_addrs) |}.
Definition set_i_size (v : Z) (r : inode) : inode :=
  {| i_dev := r.(i_dev); i_inum := r.(i_inum); i_ref := r.(i_ref); i_lock := r.(i_lock);
     i_valid := r.(i_valid); i_type := r.(i_type); i_major := r.(i_major);
     i_minor := r.(i_minor); i_nlink := r.(i_nlink); i_size := v; i_addrs := r.(i_addrs) |}.
Definition set_i_addrs (v : list Z) (r : inode) : inode :=
  {| i_dev := r.(i_dev); i_inum := r.(i_inum); i_ref := r.(i_ref); i_lock := r.(i_lock);
     i_valid := r.(i_valid); i_type := r.(i_type); i_major := r.(i_major);
     i_minor := r.(i_minor); i_nlink := r.(i_nlink); i_size := r.(i_size); i_addrs := v |}.

Inductive fdtype := FD_NONE | FD_PIPE | FD_INODE.
#[global] Instance fdtype_eq_dec : EqDecision fdtype.
Proof. solve_decision. Defined.

(** [struct file] of [file.h]. *)
Record file := mk_file {
  f_type : fdtype;
  f_ref : Z;  (* reference count *)
  f_readable : bool;
  f_writable : bool;
  f_pipe : Z;  (* address of the pipe *)
  f_ip : option nat;
  f_off : Z;
}.

Definition set_f_type (v : fdtype) (r : file) : file :=
  {| f_type := v; f_ref := r.(f_ref); f_readable := r.(f_readable);
     f_writable := r.(f_writable); f_pipe := r.(f_pipe); f_ip := r.(f_ip);
     f_off := r.(f_off) |}.
Definition set_f_ref (v : Z) (r : file) : file :=
  {| f_type := r.(f_type); f_ref := v; f_readable := r.(f_readable);
     f_writable := r.(f_writable); f_pipe := r.(f_pipe); f_ip := r.(f_ip);
     f_off := r.(f_off) |}.
Definition set_f_readable (v : bool) (r : file) : file :=
  {| f_type := r.(f_type); f_ref := r.(f_ref); f_readable := v; f_writable := r.(f_writable);
     f_pipe := r.(f_pipe); f_ip := r.(f_ip); f_off := r.(f_off) |}.
Definition set_f_writable (v : bool) (r : file) : file :=
  {| f_type := r.(f_type); f_ref := r.(f_ref); f_readable := r.(f_readable); f_writable := v;
     f_pipe := r.(f_pipe); f_ip := r.(f_ip); f_off := r.(f_off) |}.
Definition set_f_pipe (v : Z) (r : file) : file :=
  {| f_type := r.(f_type); f_ref := r.(f_ref); f_readable := r.(f_readable);
     f_writable := r.(f_writable); f_pipe := v; f_ip := r.(f_ip); f_off := r.(f_off) |}.
Definition set_f_ip (v : option nat) (r : file) : file :=
  {| f_type := r.(f_type); f_ref := r.(f_ref); f_readable := r.(f_readable);
     f_writable := r.(f_writable); f_pipe := r.(f_pipe); f_ip := v; f_off := r.(f_off) |}.
Definition set_f_off (v : Z) (r : file) : file :=
  {| f_type := r.(f_type); f_ref := r.(f_ref); f_readable := r.(f_readable);
     f_writable := r.(f_writable); f_pipe := r.(f_pipe); f_ip := r.(f_ip); f_off := v |}.

(** [struct pipe] of [pipe.c], less its lock ([LPipe]). *)
Record pipe := mk_pipe {
  pi_data : list Z;  (* PIPESIZE bytes *)
  pi_nread : Z;  (* number of bytes read *)
  pi_nwrite : Z;  (* number of bytes written *)
  pi_readopen : bool;  (* read fd is still open *)
  pi_writeopen : bool;  (* write fd is still open *)
}.

Definition set_pi_data (v : list Z) (r : pipe) : pipe :=
  {| pi_data := v; pi_nread := r.(pi_nread); pi_nwrite := r.(pi_nwrite);
     pi_readopen := r.(pi_readopen); pi_writeopen := r.(pi_writeopen) |}.
Definition set_pi_nread (v : Z) (r : pipe) : pipe :=
  {| pi_data := r.(pi_data); pi_nread := v; pi_nwrite := r.(pi_nwrite);
     pi_readopen := r.(pi_readopen); pi_writeopen := r.(pi_writeopen) |}.
Definition set_pi_nwrite (v : Z) (r : pipe) : pipe :=
  {| pi_data := r.(pi_data); pi_nread := r.(pi_nread); pi_nwrite := v;
     pi_readopen := r.(pi_readopen); pi_writeopen := r.(pi_writeopen) |}.
Definition set_pi_readopen (v : bool) (r : pipe) : pipe :=
  {| pi_data := r.(pi_data); pi_nread := r.(pi_nread); pi_nwrite := r.(pi_nwrite);
     pi_readopen := v; pi_writeopen := r.(pi_writeopen) |}.
Definition set_pi_writeopen (v : bool) (r : pipe) : pipe :=
  {| pi_data := r.(pi_data); pi_nread := r.(pi_nread); pi_nwrite := r.(pi_nwrite);
     pi_readopen := r.(pi_readopen); pi_writeopen := v |}.

(** ** Console, linker symbols *)

(** The [input] and [cons] structures of [console.c] and the characters
    written so far. *)
Record console := mk_cons {
  in_buf : list Z;  (* INPUT_BUF bytes *)
  in_r : Z;  (* Read index *)
  in_w : Z;  (* Write index *)
  in_e : Z;  (* Edit index *)
  cons_locking : bool;
  cons_panicked : bool;
  cons_out : list Z;  (* what consputc was called with, latest last *)
}.

Definition set_in_buf (v : list Z) (r : console) : console :=
  {| in_buf := v; in_r := r.(in_r); in_w := r.(in_w); in_e := r.(in_e);
     cons_locking := r.(cons_locking); cons_panicked := r.(cons_panicked);
     cons_out := r.(cons_out) |}.
Definition set_in_r (v : Z) (r : console) : console :=
  {| in_buf := r.(in_buf); in_r := v; in_w := r.(in_w); in_e := r.(in_e);
     cons_locking := r.(cons_locking); cons_panicked := r.(cons_panicked);
     cons_out := r.(cons_out) |}.
Definition set_in_w (v : Z) (r : console) : console :=
  {| in_buf := r.(in_buf); in_r := r.(in_r); in_w := v; in_e := r.(in_e);
     cons_locking := r.(cons_locking); cons_panicked := r.(cons_panicked);
     cons_out := r.(cons_out) |}.
Definition set_in_e (v : Z) (r : console) : console :=
  {| in_buf := r.(in_buf); in_r := r.(in_r); in_w := r.(in_w); in_e := v;
     cons_locking := r.(cons_locking); cons_panicked := r.(cons_panicked);
     cons_out := r.(cons_out) |}.
Definition set_cons_locking (v : bool) (r : console) : console :=
  {| in_buf := r.(in_buf); in_r := r.(in_r); in_w := r.(in_w); in_e := r.(in_e);
     cons_locking := v; cons_panicked := r.(cons_panicked); cons_out := r.(cons_out) |}.
Definition set_cons_panicked (v : bool) (r : console) : console :=
  {| in_buf := r.(in_buf); in_r := r.(in_r); in_w := r.(in_w); in_e := r.(in_e);
     cons_locking := r.(cons_locking); cons_panicked := v; cons_out := r.(cons_out) |}.
Definition set_cons_out (v : list Z) (r : console) : console :=
  {| in_buf := r.(in_buf); in_r := r.(in_r); in_w := r.(in_w); in_e := r.(in_e);
     cons_locking := r.(cons_locking); cons_panicked := r.(cons_panicked); cons_out := v |}.

(** Addresses the linker provides. *)
Record link := mk_link {
  ln_end : Z;  (* end *)
  ln_data : Z;  (* data *)
  ln_forkret : Z;
  ln_trapret : Z;
  ln_cpus : Z;  (* cpus *)
  ln_idt : Z;  (* idt *)
  ln_vectors : list Z;  (* vectors of vectors.S *)
  ln_mpenter : Z;
  ln_entrypgdir : Z;
  ln_entryother : list Z;  (* the bytes from _binary_entryother_start *)
}.

(** ** The kernel state *)

(** The globals of the kernel. *)
Record K := mk_K {
  k_hw : hw;
  k_link : link;
  k_mem : mem;  (* memory by kernel virtual address *)
  k_use_lock : bool;  (* kmem.use_lock *)
  k_freelist : Z;  (* kmem.freelist *)
  k_kpgdir : Z;
  k_ptable : list proc;  (* ptable.proc *)
  k_initproc : option nat;
  k_nextpid : Z;
  k_mtable : list mutex_struct;  (* mtable.mutex *)
  k_nextmid : Z;
  k_count : Z;  (* count of the barrier *)
  k_proc_count : Z;
  k_rand : Z * Z * Z * Z;  (* z1, z2, z3, z4 of random *)
  k_first : bool;  (* first of forkret *)
  k_ticks : Z;
  k_pipes : gmap Z pipe;  (* pipes by page address *)
  k_ftable : list file;  (* ftable.file *)
  k_icache : list inode;  (* icache.inode *)
  k_sb : superblock;
  k_bcache : list buf;  (* bcache.buf *)
  k_lru : list nat;  (* from bcache.head.next to bcache.head.prev *)
  k_log : log_t;
  k_disk : gmap Z (list Z);  (* blocks of the root disk *)
  k_writes : list (Z * list Z);  (* the writes the disk has performed, in order *)
  k_idequeue : list nat;
  k_cons : console;
  k_idt : list gatedesc;  (* idt of trap.c *)
  k_io : io;  (* devices and their drivers *)
}.

Definition set_k_hw (v : hw) (r : K) : K :=
  {| k_hw := v; k_link := r.(k_link); k_mem := r.(k_mem); k_use_lock := r.(k_use_lock);
     k_freelist := r.(k_freelist); k_kpgdir := r.(k_kpgdir); k_ptable := r.(k_ptable);
     k_initproc := r.(k_initproc); k_nextpid := r.(k_nextpid); k_mtable := r.(k_mtable);
     k_nextmid := r.(k_nextmid); k_count := r.(k_count); k_proc_count := r.(k_proc_count);
     k_rand := r.(k_rand); k_first := r.(k_first); k_ticks := r.(k_ticks);
     k_pipes := r.(k_pipes); k_ftable := r.(k_ftable); k_icache := r.(k_icache);
     k_sb := r.(k_sb); k_bcache := r.(k_bcache); k_lru := r.(k_lru); k_log := r.(k_log);
     k_disk := r.(k_disk); k_writes := r.(k_writes); k_idequeue := r.(k_idequeue);
     k_cons := r.(k_cons); k_idt := r.(k_idt); k_io := r.(k_io) |}.
Definition set_k_link (v : link) (r : K) : K :=
  {| k_hw := r.(k_hw); k_link := v; k_mem := r.(k_mem); k_use_lock := r.(k_use_lock);
     k_freelist := r.(k_freelist); k_kpgdir := r.(k_kpgdir); k_ptable := r.(k_ptable);
     k_initproc := r.(k_initproc); k_nextpid := r.(k_nextpid); k_mtable := r.(k_mtable);
     k_nextmid := r.(k_nextmid); k_count := r.(k_count); k_proc_count := r.(k_proc_count);
     k_rand := r.(k_rand); k_first := r.(k_first); k_ticks := r.(k_ticks);
     k_pipes := r.(k_pipes); k_ftable := r.(k_ftable); k_icache := r.(k_icache);
     k_sb := r.(k_sb); k_bcache := r.(k_bcache); k_lru := r.(k_lru); k_log := r.(k_log);
     k_disk := r.(k_disk); k_writes := r.(k_writes); k_idequeue := r.(k_idequeue);
     k_cons := r.(k_cons); k_idt := r.(k_idt); k_io := r.(k_io) |}.
Definition set_k_mem (v : mem) (r : K) : K :=
  {| k_hw := r.(k_hw); k_link := r.(k_link); k_mem := v; k_use_lock := r.(k_use_lock);
     k_freelist := r.(k_freelist); k_kpgdir := r.(k_kpgdir); k_ptable := r.(k_ptable);
     k_initproc := r.(k_initproc); k_nextpid := r.(k_nextpid); k_mtable := r.(k_mtable);
     k_nextmid := r.(k_nextmid); k_count := r.(k_count); k_proc_count := r.(k_proc_count);
     k_rand := r.(k_rand); k_first := r.(k_first); k_ticks := r.(k_ticks);
     k_pipes := r.(k_pipes); k_ftable := r.(k_ftable); k_icache := r.(k_icache);
     k_sb := r.(k_sb); k_bcache := r.(k_bcache); k_lru := r.(k_lru); k_log := r.(k_log);
     k_disk := r.(k_disk); k_writes := r.(k_writes); k_idequeue := r.(k_idequeue);
     k_cons := r.(k_cons); k_idt := r.(k_idt); k_io := r.(k_io) |}.
Definition set_k_use_lock (v : bool) (r : K) : K :=
  {| k_hw := r.(k_hw); k_link := r.(k_link); k_mem := r.(k_mem); k_use_lock := v;
     k_freelist := r.(k_freelist); k_kpgdir := r.(k_kpgdir); k_ptable := r.(k_ptable);
     k_initproc := r.(k_initproc); k_nextpid := r.(k_nextpid); k_mtable := r.(k_mtable);
     k_nextmid := r.(k_nextmid); k_count := r.(k_count); k_proc_count := r.(k_proc_count);
     k_rand := r.(k_rand); k_first := r.(k_first); k_ticks := r.(k_ticks);
     k_pipes := r.(k_pipes); k_ftable := r.(k_ftable); k_icache := r.(k_icache);
     k_sb := r.(k_sb); k_bcache := r.(k_bcache); k_lru := r.(k_lru); k_log := r.(k_log);
     k_disk := r.(k_disk); k_writes := r.(k_writes); k_idequeue := r.(k_idequeue);
     k_cons := r.(k_cons); k_idt := r.(k_idt); k_io := r.(k_io) |}.
Definition set_k_freelist (v : Z) (r : K) : K :=
  {| k_hw := r.(k_hw); k_link := r.(k_link); k_mem := r.(k_mem); k_use_lock := r.(k_use_lock);
     k_freelist := v; k_kpgdir := r.(k_kpgdir); k_ptable := r.(k_ptable);
     k_initproc := r.(k_initproc); k_nextpid := r.(k_nextpid); k_mtable := r.(k_mtable);
     k_nextmid := r.(k_nextmid); k_count := r.(k_count); k_proc_count := r.(k_proc_count);
     k_rand := r.(k_rand); k_first := r.(k_first); k_ticks := r.(k_ticks);
     k_pipes := r.(k_pipes); k_ftable := r.(k_ftable); k_icache := r.(k_icache);
     k_sb := r.(k_sb); k_bcache := r.(k_bcache); k_lru := r.(k_lru); k_log := r.(k_log);
     k_disk := r.(k_disk); k_writes := r.(k_writes); k_idequeue := r.(k_idequeue);
     k_cons := r.(k_cons); k_idt := r.(k_idt); k_io := r.(k_io) |}.
Definition set_k_kpgdir (v : Z) (r : K) : K :=
  {| k_hw := r.(k_hw); k_link := r.(k_link); k_mem := r.(k_mem); k_use_lock := r.(k_use_lock);
     k_freelist := r.(k_freelist); k_kpgdir := v; k_ptable := r.(k_ptable);
     k_initproc := r.(k_initproc); k_nextpid := r.(k_nextpid); k_mtable := r.(k_mtable);
     k_nextmid := r.(k_nextmid); k_count := r.(k_count); k_proc_count := r.(k_proc_count);
     k_rand := r.(k_rand); k_first := r.(k_first); k_ticks := r.(k_ticks);
     k_pipes := r.(k_pipes); k_ftable := r.(k_ftable); k_icache := r.(k_icache);
     k_sb := r.(k_sb); k_bcache := r.(k_bcache); k_lru := r.(k_lru); k_log := r.(k_log);
     k_disk := r.(k_disk); k_writes := r.(k_writes); k_idequeue := r.(k_idequeue);
     k_cons := r.(k_cons); k_idt := r.(k_idt); k_io := r.(k_io) |}.
Definition set_k_ptable (v : list proc) (r : K) : K :=
  {| k_hw := r.(k_hw); k_link := r.(k_link); k_mem := r.(k_mem); k_use_lock := r.(k_use_lock);
     k_freelist := r.(k_freelist); k_kpgdir := r.(k_kpgdir); k_ptable := v;
     k_initproc := r.(k_initproc); k_nextpid := r.(k_nextpid); k_mtable := r.(k_mtable);
     k_nextmid := r.(k_nextmid); k_count := r.(k_count); k_proc_count := r.(k_proc_count);
     k_rand := r.(k_rand); k_first := r.(k_first); k_ticks := r.(k_ticks);
     k_pipes := r.(k_pipes); k_ftable := r.(k_ftable); k_icache := r.(k_icache);
     k_sb := r.(k_sb); k_bcache := r.(k_bcache); k_lru := r.(k_lru); k_log := r.(k_log);
     k_disk := r.(k_disk); k_writes := r.(k_writes); k_idequeue := r.(k_idequeue);
     k_cons := r.(k_cons); k_idt := r.(k_idt); k_io := r.(k_io) |}.
Definition set_k_initproc (v : option nat) (r : K) : K :=
  {| k_hw := r.(k_hw); k_link := r.(k_link); k_mem := r.(k_mem); k_use_lock := r.(k_use_lock);
     k_freelist := r.(k_freelist); k_kpgdir := r.(k_kpgdir); k_ptable := r.(k_ptable);
     k_initproc := v; k_nextpid := r.(k_nextpid); k_mtable := r.(k_mtable);
     k_nextmid := r.(k_nextmid); k_count := r.(k_count); k_proc_count := r.(k_proc_count);
     k_rand := r.(k_rand); k_first := r.(k_first); k_ticks := r.(k_ticks);
     k_pipes := r.(k_pipes); k_ftable := r.(k_ftable); k_icache := r.(k_icache);
     k_sb := r.(k_sb); k_bcache := r.(k_bcache); k_lru := r.(k_lru); k_log := r.(k_log);
     k_disk := r.(k_disk); k_writes := r.(k_writes); k_idequeue := r.(k_idequeue);
     k_cons := r.(k_cons); k_idt := r.(k_idt); k_io := r.(k_io) |}.
Definition set_k_nextpid (v : Z) (r : K) : K :=
  {| k_hw := r.(k_hw); k_link := r.(k_link); k_mem := r.(k_mem); k_use_lock := r.(k_use_lock);
     k_freelist := r.(k_freelist); k_kpgdir := r.(k_kpgdir); k_ptable := r.(k_ptable);
     k_initproc := r.(k_initproc); k_nextpid := v; k_mtable := r.(k_mtable);
     k_nextmid := r.(k_nextmid); k_count := r.(k_count); k_proc_count := r.(k_proc_count);
     k_rand := r.(k_rand); k_first := r.(k_first); k_ticks := r.(k_ticks);
     k_pipes := r.(k_pipes); k_ftable := r.(k_ftable); k_icache := r.(k_icache);
     k_sb := r.(k_sb); k_bcache := r.(k_bcache); k_lru := r.(k_lru); k_log := r.(k_log);
     k_disk := r.(k_disk); k_writes := r.(k_writes); k_idequeue := r.(k_idequeue);
     k_cons := r.(k_cons); k_idt := r.(k_idt); k_io := r.(k_io) |}.
Definition set_k_mtable (v : list mutex_struct) (r : K) : K :=
  {| k_hw := r.(k_hw); k_link := r.(k_link); k_mem := r.(k_mem); k_use_lock := r.(k_use_lock);
     k_freelist := r.(k_freelist); k_kpgdir := r.(k_kpgdir); k_ptable := r.(k_ptable);
     k_initproc := r.(k_initproc); k_nextpid := r.(k_nextpid); k_mtable := v;
     k_nextmid := r.(k_nextmid); k_count := r.(k_count); k_proc_count := r.(k_proc_count);
     k_rand := r.(k_rand); k_first := r.(k_first); k_ticks := r.(k_ticks);
     k_pipes := r.(k_pipes); k_ftable := r.(k_ftable); k_icache := r.(k_icache);
     k_sb := r.(k_sb); k_bcache := r.(k_bcache); k_lru := r.(k_lru); k_log := r.(k_log);
     k_disk := r.(k_disk); k_writes := r.(k_writes); k_idequeue := r.(k_idequeue);
     k_cons := r.(k_cons); k_idt := r.(k_idt); k_io := r.(k_io) |}.
Definition set_k_nextmid (v : Z) (r : K) : K :=
  {| k_hw := r.(k_hw); k_link := r.(k_link); k_mem := r.(k_mem); k_use_lock := r.(k_use_lock);
     k_freelist := r.(k_freelist); k_kpgdir := r.(k_kpgdir); k_ptable := r.(k_ptable);
     k_initproc := r.(k_initproc); k_nextpid := r.(k_nextpid); k_mtable := r.(k_mtable);
     k_nextmid := v; k_count := r.(k_count); k_proc_count := r.(k_proc_count);
     k_rand := r.(k_rand); k_first := r.(k_first); k_ticks := r.(k_ticks);
     k_pipes := r.(k_pipes); k_ftable := r.(k_ftable); k_icache := r.(k_icache);
     k_sb := r.(k_sb); k_bcache := r.(k_bcache); k_lru := r.(k_lru); k_log := r.(k_log);
     k_disk := r.(k_disk); k_writes := r.(k_writes); k_idequeue := r.(k_idequeue);
     k_cons := r.(k_cons); k_idt := r.(k_idt); k_io := r.(k_io) |}.
Definition set_k_count (v : Z) (r : K) : K :=
  {| k_hw := r.(k_hw); k_link := r.(k_link); k_mem := r.(k_mem); k_use_lock := r.(k_use_lock);
     k_freelist := r.(k_freelist); k_kpgdir := r.(k_kpgdir); k_ptable := r.(k_ptable);
     k_initproc := r.(k_initproc); k_nextpid := r.(k_nextpid); k_mtable := r.(k_mtable);
     k_nextmid := r.(k_nextmid); k_count := v; k_proc_count := r.(k_proc_count);
     k_rand := r.(k_rand); k_first := r.(k_first); k_ticks := r.(k_ticks);
     k_pipes := r.(k_pipes); k_ftable := r.(k_ftable); k_icache := r.(k_icache);
     k_sb := r.(k_sb); k_bcache := r.(k_bcache); k_lru := r.(k_lru); k_log := r.(k_log);
     k_disk := r.(k_disk); k_writes := r.(k_writes); k_idequeue := r.(k_idequeue);
     k_cons := r.(k_cons); k_idt := r.(k_idt); k_io := r.(k_io) |}.
Definition set_k_proc_count (v : Z) (r : K) : K :=
  {| k_hw := r.(k_hw); k_link := r.(k_link); k_mem := r.(k_mem); k_use_lock := r.(k_use_lock);
     k_freelist := r.(k_freelist); k_kpgdir := r.(k_kpgdir); k_ptable := r.(k_ptable);
     k_initproc := r.(k_initproc); k_nextpid := r.(k_nextpid); k_mtable := r.(k_mtable);
     k_nextmid := r.(k_nextmid); k_count := r.(k_count); k_proc_count := v;
     k_rand := r.(k_rand); k_first := r.(k_first); k_ticks := r.(k_ticks);
     k_pipes := r.(k_pipes); k_ftable := r.(k_ftable); k_icache := r.(k_icache);
     k_sb := r.(k_sb); k_bcache := r.(k_bcache); k_lru := r.(k_lru); k_log := r.(k_log);
     k_disk := r.(k_disk); k_writes := r.(k_writes); k_idequeue := r.(k_idequeue);
     k_cons := r.(k_cons); k_idt := r.(k_idt); k_io := r.(k_io) |}.
Definition set_k_rand (v : Z * Z * Z * Z) (r : K) : K :=
  {| k_hw := r.(k_hw); k_link := r.(k_link); k_mem := r.(k_mem); k_use_lock := r.(k_use_lock);
     k_freelist := r.(k_freelist); k_kpgdir := r.(k_kpgdir); k_ptable := r.(k_ptable);
     k_initproc := r.(k_initproc); k_nextpid := r.(k_nextpid); k_mtable := r.(k_mtable);
     k_nextmid := r.(k_nextmid); k_count := r.(k_count); k_proc_count := r.(k_proc_count);
     k_rand := v; k_first := r.(k_first); k_ticks := r.(k_ticks); k_pipes := r.(k_pipes);
     k_ftable := r.(k_ftable); k_icache := r.(k_icache); k_sb := r.(k_sb);
     k_bcache := r.(k_bcache); k_lru := r.(k_lru); k_log := r.(k_log); k_disk := r.(k_disk);
     k_writes := r.(k_writes); k_idequeue := r.(k_idequeue); k_cons := r.(k_cons);
     k_idt := r.(k_idt); k_io := r.(k_io) |}.
Definition set_k_first (v : bool) (r : K) : K :=
  {| k_hw := r.(k_hw); k_link := r.(k_link); k_mem := r.(k_mem); k_use_lock := r.(k_use_lock);
     k_freelist := r.(k_freelist); k_kpgdir := r.(k_kpgdir); k_ptable := r.(k_ptable);
     k_initproc := r.(k_initproc); k_nextpid := r.(k_nextpid); k_mtable := r.(k_mtable);
     k_nextmid := r.(k_nextmid); k_count := r.(k_count); k_proc_count := r.(k_proc_count);
     k_rand := r.(k_rand); k_first := v; k_ticks := r.(k_ticks); k_pipes := r.(k_pipes);
     k_ftable := r.(k_ftable); k_icache := r.(k_icache); k_sb := r.(k_sb);
     k_bcache := r.(k_bcache); k_lru := r.(k_lru); k_log := r.(k_log); k_disk := r.(k_disk);
     k_writes := r.(k_writes); k_idequeue := r.(k_idequeue); k_cons := r.(k_cons);
     k_idt := r.(k_idt); k_io := r.(k_io) |}.
Definition set_k_ticks (v : Z) (r : K) : K :=
  {| k_hw := r.(k_hw); k_link := r.(k_link); k_mem := r.(k_mem); k_use_lock := r.(k_use_lock);
     k_freelist := r.(k_freelist); k_kpgdir := r.(k_kpgdir); k_ptable := r.(k_ptable);
     k_initproc := r.(k_initproc); k_nextpid := r.(k_nextpid); k_mtable := r.(k_mtable);
     k_nextmid := r.(k_nextmid); k_count := r.(k_count); k_proc_count := r.(k_proc_count);
     k_rand := r.(k_rand); k_first := r.(k_first); k_ticks := v; k_pipes := r.(k_pipes);
     k_ftable := r.(k_ftable); k_icache := r.(k_icache); k_sb := r.(k_sb);
     k_bcache := r.(k_bcache); k_lru := r.(k_lru); k_log := r.(k_log); k_disk := r.(k_disk);
     k_writes := r.(k_writes); k_idequeue := r.(k_idequeue); k_cons := r.(k_cons);
     k_idt := r.(k_idt); k_io := r.(k_io) |}.
Definition set_k_pipes (v : gmap Z pipe) (r : K) : K :=
  {| k_hw := r.(k_hw); k_link := r.(k_link); k_mem := r.(k_mem); k_use_lock := r.(k_use_lock);
     k_freelist := r.(k_freelist); k_kpgdir := r.(k_kpgdir); k_ptable := r.(k_ptable);
     k_initproc := r.(k_initproc); k_nextpid := r.(k_nextpid); k_mtable := r.(k_mtable);
     k_nextmid := r.(k_nextmid); k_count := r.(k_count); k_proc_count := r.(k_proc_count);
     k_rand := r.(k_rand); k_first := r.(k_first); k_ticks := r.(k_ticks); k_pipes := v;
     k_ftable := r.(k_ftable); k_icache := r.(k_icache); k_sb := r.(k_sb);
     k_bcache := r.(k_bcache); k_lru := r.(k_lru); k_log := r.(k_log); k_disk := r.(k_disk);
     k_writes := r.(k_writes); k_idequeue := r.(k_idequeue); k_cons := r.(k_cons);
     k_idt := r.(k_idt); k_io := r.(k_io) |}.
Definition set_k_ftable (v : list file) (r : K) : K :=
  {| k_hw := r.(k_hw); k_link := r.(k_link); k_mem := r.(k_mem); k_use_lock := r.(k_use_lock);
     k_freelist := r.(k_freelist); k_kpgdir := r.(k_kpgdir); k_ptable := r.(k_ptable);
     k_initproc := r.(k_initproc); k_nextpid := r.(k_nextpid); k_mtable := r.(k_mtable);
     k_nextmid := r.(k_nextmid); k_count := r.(k_count); k_proc_count := r.(k_proc_count);
     k_rand := r.(k_rand); k_first := r.(k_first); k_ticks := r.(k_ticks);
     k_pipes := r.(k_pipes); k_ftable := v; k_icache := r.(k_icache); k_sb := r.(k_sb);
     k_bcache := r.(k_bcache); k_lru := r.(k_lru); k_log := r.(k_log); k_disk := r.(k_disk);
     k_writes := r.(k_writes); k_idequeue := r.(k_idequeue); k_cons := r.(k_cons);
     k_idt := r.(k_idt); k_io := r.(k_io) |}.
Definition set_k_icache (v : list inode) (r : K) : K :=
  {| k_hw := r.(k_hw); k_link := r.(k_link); k_mem := r.(k_mem); k_use_lock := r.(k_use_lock);
     k_freelist := r.(k_freelist); k_kpgdir := r.(k_kpgdir); k_ptable := r.(k_ptable);
     k_initproc := r.(k_initproc); k_nextpid := r.(k_nextpid); k_mtable := r.(k_mtable);
     k_nextmid := r.(k_nextmid); k_count := r.(k_count); k_proc_count := r.(k_proc_count);
     k_rand := r.(k_rand); k_first := r.(k_first); k_ticks := r.(k_ticks);
     k_pipes := r.(k_pipes); k_ftable := r.(k_ftable); k_icache := v; k_sb := r.(k_sb);
     k_bcache := r.(k_bcache); k_lru := r.(k_lru); k_log := r.(k_log); k_disk := r.(k_disk);
     k_writes := r.(k_writes); k_idequeue := r.(k_idequeue); k_cons := r.(k_cons);
     k_idt := r.(k_idt); k_io := r.(k_io) |}.
Definition set_k_sb (v : superblock) (r : K) : K :=
  {| k_hw := r.(k_hw); k_link := r.(k_link); k_mem := r.(k_mem); k_use_lock := r.(k_use_lock);
     k_freelist := r.(k_freelist); k_kpgdir := r.(k_kpgdir); k_ptable := r.(k_ptable);
     k_initproc := r.(k_initproc); k_nextpid := r.(k_nextpid); k_mtable := r.(k_mtable);
     k_nextmid := r.(k_nextmid); k_count := r.(k_count); k_proc_count := r.(k_proc_count);
     k_rand := r.(k_rand); k_first := r.(k_first); k_ticks := r.(k_ticks);
     k_pipes := r.(k_pipes); k_ftable := r.(k_ftable); k_icache := r.(k_icache); k_sb := v;
     k_bcache := r.(k_bcache); k_lru := r.(k_lru); k_log := r.(k_log); k_disk := r.(k_disk);
     k_writes := r.(k_writes); k_idequeue := r.(k_idequeue); k_cons := r.(k_cons);
     k_idt := r.(k_idt); k_io := r.(k_io) |}.
Definition set_k_bcache (v : list buf) (r : K) : K :=
  {| k_hw := r.(k_hw); k_link := r.(k_link); k_mem := r.(k_mem); k_use_lock := r.(k_use_lock);
     k_freelist := r.(k_freelist); k_kpgdir := r.(k_kpgdir); k_ptable := r.(k_ptable);
     k_initproc := r.(k_initproc); k_nextpid := r.(k_nextpid); k_mtable := r.(k_mtable);
     k_nextmid := r.(k_nextmid); k_count := r.(k_count); k_proc_count := r.(k_proc_count);
     k_rand := r.(k_rand); k_first := r.(k_first); k_ticks := r.(k_ticks);
     k_pipes := r.(k_pipes); k_ftable := r.(k_ftable); k_icache := r.(k_icache);
     k_sb := r.(k_sb); k_bcache := v; k_lru := r.(k_lru); k_log := r.(k_log);
     k_disk := r.(k_disk); k_writes := r.(k_writes); k_idequeue := r.(k_idequeue);
     k_cons := r.(k_cons); k_idt := r.(k_idt); k_io := r.(k_io) |}.
Definition set_k_lru (v : list nat) (r : K) : K :=
  {| k_hw := r.(k_hw); k_link := r.(k_link); k_mem := r.(k_mem); k_use_lock := r.(k_use_lock);
     k_freelist := r.(k_freelist); k_kpgdir := r.(k_kpgdir); k_ptable := r.(k_ptable);
     k_initproc := r.(k_initproc); k_nextpid := r.(k_nextpid); k_mtable := r.(k_mtable);
     k_nextmid := r.(k_nextmid); k_count := r.(k_count); k_proc_count := r.(k_proc_count);
     k_rand := r.(k_rand); k_first := r.(k_first); k_ticks := r.(k_ticks);
     k_pipes := r.(k_pipes); k_ftable := r.(k_ftable); k_icache := r.(k_icache);
     k_sb := r.(k_sb); k_bcache := r.(k_bcache); k_lru := v; k_log := r.(k_log);
     k_disk := r.(k_disk); k_writes := r.(k_writes); k_idequeue := r.(k_idequeue);
     k_cons := r.(k_cons); k_idt := r.(k_idt); k_io := r.(k_io) |}.
Definition set_k_log (v : log_t) (r : K) : K :=
  {| k_hw := r.(k_hw); k_link := r.(k_link); k_mem := r.(k_mem); k_use_lock := r.(k_use_lock);
     k_freelist := r.(k_freelist); k_kpgdir := r.(k_kpgdir); k_ptable := r.(k_ptable);
     k_initproc := r.(k_initproc); k_nextpid := r.(k_nextpid); k_mtable := r.(k_mtable);
     k_nextmid := r.(k_nextmid); k_count := r.(k_count); k_proc_count := r.(k_proc_count);
     k_rand := r.(k_rand); k_first := r.(k_first); k_ticks := r.(k_ticks);
     k_pipes := r.(k_pipes); k_ftable := r.(k_ftable); k_icache := r.(k_icache);
     k_sb := r.(k_sb); k_bcache := r.(k_bcache); k_lru := r.(k_lru); k_log := v;
     k_disk := r.(k_disk); k_writes := r.(k_writes); k_idequeue := r.(k_idequeue);
     k_cons := r.(k_cons); k_idt := r.(k_idt); k_io := r.(k_io) |}.
Definition set_k_disk (v : gmap Z (list Z)) (r : K) : K :=
  {| k_hw := r.(k_hw); k_link := r.(k_link); k_mem := r.(k_mem); k_use_lock := r.(k_use_lock);
     k_freelist := r.(k_freelist); k_kpgdir := r.(k_kpgdir); k_ptable := r.(k_ptable);
     k_initproc := r.(k_initproc); k_nextpid := r.(k_nextpid); k_mtable := r.(k_mtable);
     k_nextmid := r.(k_nextmid); k_count := r.(k_count); k_proc_count := r.(k_proc_count);
     k_rand := r.(k_rand); k_first := r.(k_first); k_ticks := r.(k_ticks);
     k_pipes := r.(k_pipes); k_ftable := r.(k_ftable); k_icache := r.(k_icache);
     k_sb := r.(k_sb); k_bcache := r.(k_bcache); k_lru := r.(k_lru); k_log := r.(k_log);
     k_disk := v; k_writes := r.(k_writes); k_idequeue := r.(k_idequeue); k_cons := r.(k_cons);
     k_idt := r.(k_idt); k_io := r.(k_io) |}.
Definition set_k_writes (v : list (Z * list Z)) (r : K) : K :=
  {| k_hw := r.(k_hw); k_link := r.(k_link); k_mem := r.(k_mem); k_use_lock := r.(k_use_lock);
     k_freelist := r.(k_freelist); k_kpgdir := r.(k_kpgdir); k_ptable := r.(k_ptable);
     k_initproc := r.(k_initproc); k_nextpid := r.(k_nextpid); k_mtable := r.(k_mtable);
     k_nextmid := r.(k_nextmid); k_count := r.(k_count); k_proc_count := r.(k_proc_count);
     k_rand := r.(k_rand); k_first := r.(k_first); k_ticks := r.(k_ticks);
     k_pipes := r.(k_pipes); k_ftable := r.(k_ftable); k_icache := r.(k_icache);
     k_sb := r.(k_sb); k_bcache := r.(k_bcache); k_lru := r.(k_lru); k_log := r.(k_log);
     k_disk := r.(k_disk); k_writes := v; k_idequeue := r.(k_idequeue); k_cons := r.(k_cons);
     k_idt := r.(k_idt); k_io := r.(k_io) |}.
Definition set_k_idequeue (v : list nat) (r : K) : K :=
  {| k_hw := r.(k_hw); k_link := r.(k_link); k_mem := r.(k_mem); k_use_lock := r.(k_use_lock);
     k_freelist := r.(k_freelist); k_kpgdir := r.(k_kpgdir); k_ptable := r.(k_ptable);
     k_initproc := r.(k_initproc); k_nextpid := r.(k_nextpid); k_mtable := r.(k_mtable);
     k_nextmid := r.(k_nextmid); k_count := r.(k_count); k_proc_count := r.(k_proc_count);
     k_rand := r.(k_rand); k_first := r.(k_first); k_ticks := r.(k_ticks);
     k_pipes := r.(k_pipes); k_ftable := r.(k_ftable); k_icache := r.(k_icache);
     k_sb := r.(k_sb); k_bcache := r.(k_bcache); k_lru := r.(k_lru); k_log := r.(k_log);
     k_disk := r.(k_disk); k_writes := r.(k_writes); k_idequeue := v; k_cons := r.(k_cons);
     k_idt := r.(k_idt); k_io := r.(k_io) |}.
Definition set_k_cons (v : console) (r : K) : K :=
  {| k_hw := r.(k_hw); k_link := r.(k_link); k_mem := r.(k_mem); k_use_lock := r.(k_use_lock);
     k_freelist := r.(k_freelist); k_kpgdir := r.(k_kpgdir); k_ptable := r.(k_ptable);
     k_initproc := r.(k_initproc); k_nextpid := r.(k_nextpid); k_mtable := r.(k_mtable);
     k_nextmid := r.(k_nextmid); k_count := r.(k_count); k_proc_count := r.(k_proc_count);
     k_rand := r.(k_rand); k_first := r.(k_first); k_ticks := r.(k_ticks);
     k_pipes := r.(k_pipes); k_ftable := r.(k_ftable); k_icache := r.(k_icache);
     k_sb := r.(k_sb); k_bcache := r.(k_bcache); k_lru := r.(k_lru); k_log := r.(k_log);
     k_disk := r.(k_disk); k_writes := r.(k_writes); k_idequeue := r.(k_idequeue); k_cons := v;
     k_idt := r.(k_idt); k_io := r.(k_io) |}.
Definition set_k_idt (v : list gatedesc) (r : K) : K :=
  {| k_hw := r.(k_hw); k_link := r.(k_link); k_mem := r.(k_mem); k_use_lock := r.(k_use_lock);
     k_freelist := r.(k_freelist); k_kpgdir := r.(k_kpgdir); k_ptable := r.(k_ptable);
     k_initproc := r.(k_initproc); k_nextpid := r.(k_nextpid); k_mtable := r.(k_mtable);
     k_nextmid := r.(k_nextmid); k_count := r.(k_count); k_proc_count := r.(k_proc_count);
     k_rand := r.(k_rand); k_first := r.(k_first); k_ticks := r.(k_ticks);
     k_pipes := r.(k_pipes); k_ftable := r.(k_ftable); k_icache := r.(k_icache);
     k_sb := r.(k_sb); k_bcache := r.(k_bcache); k_lru := r.(k_lru); k_log := r.(k_log);
     k_disk := r.(k_disk); k_writes := r.(k_writes); k_idequeue := r.(k_idequeue);
     k_cons := r.(k_cons); k_idt := v; k_io := r.(k_io) |}.
Definition set_k_io (v : io) (r : K) : K :=
  {| k_hw := r.(k_hw); k_link := r.(k_link); k_mem := r.(k_mem); k_use_lock := r.(k_use_lock);
     k_freelist := r.(k_freelist); k_kpgdir := r.(k_kpgdir); k_ptable := r.(k_ptable);
     k_initproc := r.(k_initproc); k_nextpid := r.(k_nextpid); k_mtable := r.(k_mtable);
     k_nextmid := r.(k_nextmid); k_count := r.(k_count); k_proc_count := r.(k_proc_count);
     k_rand := r.(k_rand); k_first := r.(k_first); k_ticks := r.(k_ticks);
     k_pipes := r.(k_pipes); k_ftable := r.(k_ftable); k_icache := r.(k_icache);
     k_sb := r.(k_sb); k_bcache := r.(k_bcache); k_lru := r.(k_lru); k_log := r.(k_log);
     k_disk := r.(k_disk); k_writes := r.(k_writes); k_idequeue := r.(k_idequeue);
     k_cons := r.(k_cons); k_idt := r.(k_idt); k_io := v |}.

(** ** The monad *)

(** What the rest of the system does while this thread of control waits. *)
Definition oracle := list (K → K).

Inductive res (A : Type) :=
| Ret (a : A) (o : oracle) (k : K)
| Panic (msg : string) (k : K)
| Blocked (k : K).
Arguments Ret {A} a o k.
Arguments Panic {A} msg k.
Arguments Blocked {A} k.

Definition M (A : Type) := oracle → K → res A.

Definition ret {A} (a : A) : M A := λ o k, Ret a o k.
Definition bind {A B} (m : M A) (f : A → M B) : M B := λ o k,
  match m o k with
  | Ret a o k => f a o k
  | Panic msg k => Panic msg k
  | Blocked k => Blocked k
  end.
Definition panic {A} (msg : string) : M A := λ _ k, Panic msg k.
Definition reads {A} (f : K → A) : M A := λ o k, Ret (f k) o k.
Definition modify (f : K → K) : M unit := λ o k, Ret tt o (f k).

(** Give the CPU away until the rest of the system lets this code go on. *)
Definition wait_others : M unit := λ o k,
  match o with
  | [] => Blocked k
  | env :: o => Ret tt o (env k)
  end.

Declare Scope kernel_scope.
Delimit Scope kernel_scope with kernel.
Notation "'let!' x ':=' m 'in' f" := (bind m (λ x, f))
  (at level 200, x binder, right associativity) : kernel_scope.
Notation "m ;;; f" := (bind m (λ _, f))
  (at level 199, right associativity) : kernel_scope.
#[global] Open Scope kernel_scope.

Definition when (b : bool) (m : M unit) : M unit := if b then m else ret tt.

(** [for(;;)] around a body that leaves the loop with a value or goes round
    again after having waited.  Every turn uses up a part of the oracle, so the
    fuel is enough ([forever_unfold]). *)
Fixpoint loop_n {A} (n : nat) (body : M (option A)) : M A :=
  match n with
  | O => panic "out of fuel"
  | S n =>
      let! r := body in
      match r with
      | Some a => ret a
      | None => loop_n n body
      end
  end.

Definition forever {A} (body : M (option A)) : M A :=
  λ o k, loop_n (S (length o)) body o k.

(** ** Laws of the monad *)

Create HintDb kernel.

Lemma bind_ret {A B} (a : A) (f : A → M B) o k : bind (ret a) f o k = f a o k.
Proof. done. Qed.

Lemma bind_assoc {A B C} (m : M A) (f : A → M B) (g : B → M C) o k :
  bind (bind m f) g o k = bind m (λ x, bind (f x) g) o k.
Proof. unfold bind. by destruct (m o k). Qed.

Lemma bind_reads {A B} (g : K → A) (f : A → M B) o k : bind (reads g) f o k = f (g k) o k.
Proof. done. Qed.

Lemma bind_modify {B} g (f : unit → M B) o k : bind (modify g) f o k = f tt o (g k).
Proof. done. Qed.

Lemma bind_panic {A B} msg (f : A → M B) o k : bind (panic msg) f o k = Panic msg k.
Proof. done. Qed.

(** Rewriting the first action of a sequence by its specification. *)
Lemma bind_step {A B} (m : M A) (f : A → M B) o k a o' k' :
  m o k = Ret a o' k' → bind m f o k = f a o' k'.
Proof. unfold bind. by intros ->. Qed.

Lemma bind_ext {A B} (m : M A) (f g : A → M B) o k :
  (∀ a o k, f a o k = g a o k) → bind m f o k = bind m g o k.
Proof. intros H. unfold bind. destruct (m o k); [apply H|done|done]. Qed.

(** A specified prefix of a sequence. *)
Lemma bind_prefix2 {A B C} (m1 : M A) (m2 : M B) (f : B → M C) o k b o' k' :
  (m1 ;;; m2) o k = Ret b o' k' → (m1 ;;; let! x := m2 in f x) o k = f b o' k'.
Proof. unfold bind. destruct (m1 o k); [|done|done]. by intros ->. Qed.
Lemma bind_prefix3 {A B C D} (m1 : M A) (m2 : M B) (m3 : M C) (f : C → M D) o k c o' k' :
  (m1 ;;; m2 ;;; m3) o k = Ret c o' k' → (m1 ;;; m2 ;;; let! x := m3 in f x) o k = f c o' k'.
Proof. unfold bind. destruct (m1 o k) as [a o1 k1| |]; [|done|done]. by apply bind_prefix2. Qed.

Definition waits {A} (body : M (option A)) : Prop :=
  ∀ o k o' k', body o k = Ret None o' k' → (length o' < length o)%nat.

Lemma loop_n_fuel {A} (body : M (option A)) n m o k :
  waits body → (length o < n)%nat → (length o < m)%nat →
  loop_n n body o k = loop_n m body o k.
Proof.
  intros Hw. revert m o k. induction n as [|n IH]; intros [|m] o k Hn Hm; try lia.
  cbn [loop_n]. unfold bind. destruct (body o k) as [[a|] o' k'|msg k'|k'] eqn:E; try done.
  apply Hw in E. apply IH; lia.
Qed.

Lemma forever_unfold {A} (body : M (option A)) o k :
  waits body →
  forever body o k =
  match body o k with
  | Ret (Some a) o' k' => Ret a o' k'
  | Ret None o' k' => forever body o' k'
  | Panic msg k' => Panic msg k'
  | Blocked k' => Blocked k'
  end.
Proof.
  intros Hw. unfold forever. cbn [loop_n]. unfold bind.
  destruct (body o k) as [[a|] o' k'|msg k'|k'] eqn:E; try done.
  change (loop_n (length o) body o' k' = loop_n (S (length o')) body o' k').
  apply loop_n_fuel; [done|by apply Hw in E|lia].
Qed.

Lemma forever_once {A} (body : M (option A)) o k a o' k' :
  body o k = Ret (Some a) o' k' → forever body o k = Ret a o' k'.
Proof. intros Hb. unfold forever. cbn [loop_n]. unfold bind. by rewrite Hb. Qed.

#[export] Hint Rewrite @bind_ret @bind_reads @bind_modify @bind_panic : kernel.

(** *** How much of the oracle an action uses

    [shrinks]: never adds to it; [uses]: takes at least one entry; [gives]: a
    loop body that always leaves the loop. *)

Definition shrinks {A} (m : M A) : Prop :=
  ∀ o k a o' k', m o k = Ret a o' k' → (length o' ≤ length o)%nat.
Definition uses {A} (m : M A) : Prop :=
  ∀ o k a o' k', m o k = Ret a o' k' → (length o' < length o)%nat.
Definition gives {A} (body : M (option A)) : Prop :=
  ∀ o k o' k', body o k ≠ Ret None o' k'.

Create HintDb oracle.

Lemma shrinks_ret {A} (a : A) : shrinks (ret a).
Proof. intros o k b o' k' [=]. by subst. Qed.
Lemma shrinks_reads {A} (f : K → A) : shrinks (reads f).
Proof. intros o k b o' k' [=]. by subst. Qed.
Lemma shrinks_modify f : shrinks (modify f).
Proof. intros o k b o' k' [=]. by subst. Qed.
Lemma shrinks_panic {A} msg : shrinks (@panic A msg).
Proof. intros o k b o' k' [=]. Qed.
Lemma uses_panic {A} msg : uses (@panic A msg).
Proof. intros o k b o' k' [=]. Qed.
Lemma uses_wait_others : uses wait_others.
Proof. intros [|env o] k b o' k' [=]. subst. cbn. lia. Qed.
Lemma uses_shrinks {A} (m : M A) : uses m → shrinks m.
Proof. intros Hm o k a o' k' E. apply Hm in E. lia. Qed.

Lemma shrinks_bind {A B} (m : M A) (f : A → M B) :
  shrinks m → (∀ a, shrinks (f a)) → shrinks (bind m f).
Proof.
  intros Hm Hf o k b o' k'. unfold bind. destruct (m o k) as [a o1 k1| |] eqn:E; try done.
  intros E'. apply Hm in E. apply Hf in E'. lia.
Qed.
Lemma uses_bind_l {A B} (m : M A) (f : A → M B) :
  uses m → (∀ a, shrinks (f a)) → uses (bind m f).
Proof.
  intros Hm Hf o k b o' k'. unfold bind. destruct (m o k) as [a o1 k1| |] eqn:E; try done.
  intros E'. apply Hm in E. apply Hf in E'. lia.
Qed.
Lemma uses_bind_r {A B} (m : M A) (f : A → M B) :
  shrinks m → (∀ a, uses (f a)) → uses (bind m f).
Proof.
  intros Hm Hf o k b o' k'. unfold bind. destruct (m o k) as [a o1 k1| |] eqn:E; try done.
  intros E'. apply Hm in E. apply Hf in E'. lia.
Qed.

Lemma gives_some {A} (a : A) : gives (ret (Some a)).
Proof. done. Qed.
Lemma gives_bind {A B} (m : M A) (f : A → M (option B)) : (∀ a, gives (f a)) → gives (bind m f).
Proof. intros Hf o k o' k'. unfold bind. destruct (m o k); try done. apply Hf. Qed.
Lemma waits_gives {A} (body : M (option A)) : gives body → waits body.
Proof. intros Hb o k o' k' E. by apply Hb in E. Qed.
Lemma waits_uses {A} (body : M (option A)) : uses body → waits body.
Proof. intros Hb o k o' k' E. by apply Hb in E. Qed.
Lemma waits_bind {A B} (m : M A) (f : A → M (option B)) :
  shrinks m → (∀ a, waits (f a)) → waits (bind m f).
Proof.
  intros Hm Hf o k o' k'. unfold bind. destruct (m o k) as [a o1 k1| |] eqn:E; try done.
  intros E'. apply Hm in E. apply Hf in E'. lia.
Qed.

#[export] Hint Resolve shrinks_ret shrinks_reads shrinks_modify shrinks_panic uses_panic
  uses_wait_others gives_some : oracle.

(** Follow the structure of an action. *)
Ltac oracle_step :=
  match goal with
  | |- shrinks (bind _ _) => apply shrinks_bind; [|intros ?]
  | |- gives (bind _ _) => apply gives_bind; intros ?
  | |- shrinks (when ?b _) => destruct b; cbn [when]
  | |- ?P (match ?x with _ => _ end) => destruct x
  | |- ?P (let '_ := ?x in _) => destruct x
  | |- _ => solve [eauto 2 with oracle]
  | |- shrinks _ => apply uses_shrinks; solve [eauto 2 with oracle]
  end.
Ltac solve_shrinks := repeat oracle_step.

(** ** The globals as their initialisers leave them

    Everything is zero but for the variables with an initialiser: [nextpid],
    [nextmid], the seeds of [random] and [first] of [forkret].  The linker
    symbols, the CPUs and the contents of the disk are given. *)

Definition zero_tf : trapframe := mk_tf 0 0 0 0 0 0 0 0 0 0 0 0 0 0 0 0 0 0 0.
Definition zero_ctx : context := mk_ctx 0 0 0 0 0.
Definition zero_sl : sleeplock := mk_sl false 0.
Definition zero_proc : proc :=
  {| p_sz := 0; p_pgdir := 0; p_kstack := 0; p_state := UNUSED; p_pid := 0; p_parent := None;
     p_tf := zero_tf; p_context := zero_ctx; p_chan := None; p_killed := false;
     p_ofile := replicate NOFILE None; p_cwd := None; p_name := replicate 16 0;
     p_ustack := 0; p_refs := 0; p_tickets := 0 |}.
Definition zero_buf : buf := mk_buf 0 0 0 zero_sl 0 (replicate (Z.to_nat BSIZE) 0).
Definition zero_inode : inode := mk_inode 0 0 0 zero_sl false 0 0 0 0 0 (replicate 13 0).
Definition zero_file : file := mk_file FD_NONE 0 false false 0 None 0.

(** [idt] and the screen before anything is written. *)
Definition blank_idt : list gatedesc := replicate 256 zero_gatedesc.
Definition blank_crt : list Z := replicate 2000 0.
#[global] Opaque blank_idt blank_crt.

Definition K_start (ln : link) (cpus : list cpu) (disk : gmap Z (list Z)) : K :=
  {| k_hw := mk_hw 0 false 0 cpus ∅ 0 (0, 0) (0, 0); k_link := ln; k_mem := ∅; k_use_lock := false;
     k_freelist := 0; k_kpgdir := 0; k_ptable := replicate NPROC zero_proc;
     k_initproc := None; k_nextpid := 1;
     k_mtable := replicate MAX_MUTEXES (mk_mutex 0 LOCKED); k_nextmid := 1;
     k_count := 0; k_proc_count := 0; k_rand := (12345, 12345, 12345, 12345);
     k_first := true; k_ticks := 0; k_pipes := ∅; k_ftable := replicate NFILE zero_file;
     k_icache := replicate NINODE zero_inode; k_sb := mk_sb 0 0 0 0 0 0 0;
     k_bcache := replicate NBUF zero_buf; k_lru := []; k_log := mk_log 0 0 0 false 0 0 (replicate LOGSIZE 0);
     k_disk := disk; k_writes := []; k_idequeue := [];
     k_cons := mk_cons (replicate 128 0) 0 0 0 false false [];
     k_idt := blank_idt; k_io := mk_io [] false false 0 0 blank_crt |}.

(** A machine with one CPU that runs the process in slot 0, used to instantiate
    the hypotheses of theorems. *)
Definition demo_vectors : list Z := (λ i : nat, KERNLINK + 0x6000 + 8 * Z.of_nat i) <$> seq 0 256.
#[global] Opaque demo_vectors.
Definition demo_link : link := mk_link (KERNLINK + 0x100000) (KERNLINK + 0x8000) (KERNLINK + 0x3c00) (KERNLINK + 0x5c00)
  (KERNLINK + 0x12800) (KERNLINK + 0x14c80) demo_vectors (KERNLINK + 0x3090) (KERNLINK + 0x9000) [].
Definition demo_cpu : cpu := mk_cpu 0 0 0 false (Some 0%nat) 0 0 (replicate NSEGS zero_segdesc) true.
Definition demo_proc : proc := set_p_tickets 1 (set_p_pid 1 (set_p_state RUNNING zero_proc)).
Definition K_demo (disk : gmap Z (list Z)) : K :=
  let k := K_start demo_link [demo_cpu] disk in
  set_k_io (set_io_havedisk1 true (k_io k))
    (set_k_nextpid 2 (set_k_ptable (<[0%nat := demo_proc]> (k_ptable k)) k)).
