(* ===== verification/Spinlock.v ===== *)
(** * Interrupt nesting and spin-locks ([spinlock.c], [mycpu] and [myproc] of [proc.c])

    [pushcli]/[popcli] and [acquire]/[release] are translated line by line;
    [hw_push], [hw_pop], [hw_acq] and [hw_rel] are what they do to the
    hardware state when they do not panic, and the lemmas say when that is.
    The call-stack record kept for debugging ([pcs]) is left out. *)

From stdpp Require Import base numbers list gmap strings.
From S2P Require Import Prelude Mmu Hardware Memory Kernel.

Implicit Types (k : K) (h : hw) (lk : lockid) (o : oracle).

(** ** Translated code *)

(** The [for] loop of [mycpu]: the first CPU with the executing CPU's APIC id. *)
Definition hw_cpu (h : hw) : option (nat * cpu) :=
  list_find (λ c, c_apicid c = h_apicid h) (h_cpus h).

Definition mycpu : M nat :=
  let! ie := reads (λ k, h_IF (k_hw k)) in
  if ie : bool then panic "mycpu called with interrupts enabled"
  else
    let! c := reads (λ k, hw_cpu (k_hw k)) in
    match c with
    | Some (i, _) => ret i
    | None => panic "unknown apicid"
    end.

Definition cpuid : M nat := mycpu.

Definition cpu_read {A} (f : cpu → A) (d : A) (i : nat) : M A :=
  reads (λ k, match h_cpus (k_hw k) !! i with Some c => f c | None => d end).

Definition cpu_write (f : cpu → cpu) (i : nat) : M unit :=
  modify (λ k, set_k_hw (set_h_cpus (alter f i (h_cpus (k_hw k))) (k_hw k)) k).

Definition cli : M unit := modify (λ k, set_k_hw (set_h_IF false (k_hw k)) k).
Definition sti : M unit := modify (λ k, set_k_hw (set_h_IF true (k_hw k)) k).

Definition pushcli : M unit :=
  let! eflags := reads (λ k, h_IF (k_hw k)) in
  cli ;;;
  let! c := mycpu in
  let! n := cpu_read c_ncli 0 c in
  when (n =? 0) (let! c := mycpu in cpu_write (set_c_intena eflags) c) ;;;
  let! c := mycpu in
  cpu_write (λ c, set_c_ncli (c_ncli c + 1) c) c.

Definition popcli : M unit :=
  let! ie := reads (λ k, h_IF (k_hw k)) in
  if ie : bool then panic "popcli - interruptible"
  else
    let! c := mycpu in
    cpu_write (λ c, set_c_ncli (c_ncli c - 1) c) c ;;;
    let! n := cpu_read c_ncli 0 c in
    if n <? 0 then panic "popcli"
    else
      let! c := mycpu in
      let! ena := cpu_read c_intena false c in
      when ((n =? 0) && ena) sti.

Definition myproc : M (option nat) :=
  pushcli ;;;
  let! c := mycpu in
  let! p := cpu_read c_proc None c in
  popcli ;;;
  ret p.

Definition holding (lk : lockid) : M bool :=
  pushcli ;;;
  let! l := reads (λ k, h_locks (k_hw k) !! lk) in
  let! r := match l with
            | None => ret false
            | Some owner => let! c := mycpu in ret (bool_decide (owner = Some c))
            end in
  popcli ;;;
  ret r.

Definition initlock (lk : lockid) : M unit :=
  modify (λ k, set_k_hw (set_h_locks (delete lk (h_locks (k_hw k))) (k_hw k)) k).

(** [while(xchg(&lk->locked, 1) != 0);] the other CPUs run while we spin. *)
Fixpoint spin (lk : lockid) (o : oracle) (k : K) : res unit :=
  match h_locks (k_hw k) !! lk with
  | None => Ret tt o (set_k_hw (set_h_locks (<[lk := None]> (h_locks (k_hw k))) (k_hw k)) k)
  | Some _ =>
      match o with
      | [] => Blocked k
      | env :: o => spin lk o (env k)
      end
  end.

Definition acquire (lk : lockid) : M unit :=
  pushcli ;;;
  let! held := holding lk in
  if held : bool then panic "acquire"
  else
    spin lk ;;;
    let! c := mycpu in
    modify (λ k, set_k_hw (set_h_locks (<[lk := Some c]> (h_locks (k_hw k))) (k_hw k)) k).

Definition release (lk : lockid) : M unit :=
  let! held := holding lk in
  if held : bool then
    modify (λ k, set_k_hw (set_h_locks (delete lk (h_locks (k_hw k))) (k_hw k)) k) ;;;
    popcli
  else panic "release".

(** ** What the operations do to the hardware state *)

Definition hw_upd (f : cpu → cpu) (h : hw) : hw :=
  match hw_cpu h with
  | Some (i, _) => set_h_cpus (alter f i (h_cpus h)) h
  | None => h
  end.

Definition cpu_push (ie : bool) (c : cpu) : cpu :=
  set_c_ncli (c_ncli c + 1) (if c_ncli c =? 0 then set_c_intena ie c else c).

Definition hw_push (h : hw) : hw := set_h_IF false (hw_upd (cpu_push (h_IF h)) h).

Definition hw_pop (h : hw) : hw :=
  match hw_cpu h with
  | Some (i, c) =>
      set_h_IF ((c_ncli c - 1 =? 0) && c_intena c)
        (hw_upd (λ c, set_c_ncli (c_ncli c - 1) c) h)
  | None => h
  end.

Definition hw_acq (lk : lockid) (h : hw) : hw :=
  let h := hw_push h in
  set_h_locks (<[lk := fst <$> hw_cpu h]> (h_locks h)) h.

Definition hw_rel (lk : lockid) (h : hw) : hw :=
  hw_pop (set_h_locks (delete lk (h_locks h)) h).

Arguments hw_cpu : simpl never.
Arguments hw_upd : simpl never.
Arguments hw_push : simpl never.
Arguments hw_pop : simpl never.
Arguments hw_acq : simpl never.
Arguments hw_rel : simpl never.

(** The invariant of the nesting counter: interrupts are off inside a
    nesting, and outside one [intena] is the current interrupt flag. *)
Definition irq_ok (h : hw) : Prop :=
  ∃ i c, hw_cpu h = Some (i, c) ∧ 0 ≤ c_ncli c ∧
         (c_ncli c = 0 → c_intena c = h_IF h) ∧ (0 < c_ncli c → h_IF h = false).

(** The process the executing CPU runs. *)
Definition hw_proc (h : hw) : option nat :=
  match hw_cpu h with Some (_, c) => c_proc c | None => None end.

Definition hw_ncli (h : hw) : Z :=
  match hw_cpu h with Some (_, c) => c_ncli c | None => 0 end.

(** The executing CPU holds [lk]. *)
Definition hw_holds (lk : lockid) (h : hw) : Prop :=
  ∃ i c, hw_cpu h = Some (i, c) ∧ h_locks h !! lk = Some (Some i).

(** ** Finding the CPU is stable under updates of its fields *)

Lemma list_find_alter {A} (P : A → Prop) `{!∀ x, Decision (P x)} (f : A → A) l i x :
  (∀ x, P (f x) ↔ P x) → list_find P l = Some (i, x) →
  list_find P (alter f i l) = Some (i, f x).
Proof.
  intros Hf. rewrite !list_find_Some. intros (Hi & HP & Hbefore). split_and!.
  - by rewrite list_lookup_alter_eq, Hi.
  - by apply Hf.
  - intros j y Hj Hlt. rewrite list_lookup_alter_ne in Hj by lia. eauto.
Qed.

Lemma hw_cpu_lookup h i c : hw_cpu h = Some (i, c) → h_cpus h !! i = Some c.
Proof. by intros [? _]%list_find_Some. Qed.

Lemma hw_cpu_alter h f i c :
  (∀ c, c_apicid (f c) = c_apicid c) → hw_cpu h = Some (i, c) →
  hw_cpu (set_h_cpus (alter f i (h_cpus h)) h) = Some (i, f c).
Proof. intros Hf Hc. apply list_find_alter; [|done]. intros x. by rewrite Hf. Qed.

Lemma hw_cpu_set_IF b h : hw_cpu (set_h_IF b h) = hw_cpu h.
Proof. done. Qed.

Lemma hw_cpu_set_locks l h : hw_cpu (set_h_locks l h) = hw_cpu h.
Proof. done. Qed.

Lemma mycpu_spec o k i c :
  h_IF (k_hw k) = false → hw_cpu (k_hw k) = Some (i, c) → mycpu o k = Ret i o k.
Proof. intros HIF Hc. unfold mycpu. rewrite bind_reads, HIF, bind_reads, Hc. done. Qed.

Lemma cpu_push_apicid ie c : c_apicid (cpu_push ie c) = c_apicid c.
Proof. unfold cpu_push. by case_test. Qed.

Lemma set_k_hw_id k : set_k_hw (k_hw k) k = k.
Proof. by destruct k. Qed.

Lemma set_k_hw_twice h h' k : set_k_hw h (set_k_hw h' k) = set_k_hw h k.
Proof. done. Qed.

Lemma k_hw_set h k : k_hw (set_k_hw h k) = h.
Proof. done. Qed.

#[export] Hint Rewrite set_k_hw_id set_k_hw_twice k_hw_set : kernel.

(** Rewrite the first action of the goal by a specification. *)
Ltac kstep_with spec := rewrite (bind_step _ _ _ _ _ _ _ spec).
Ltac kstep := repeat progress (autorewrite with kernel; cbn [when negb]).

Lemma alter_alter_eq {A} (f g : A → A) i (l : list A) :
  alter f i (alter g i l) = alter (λ x, f (g x)) i l.
Proof.
  apply list_eq. intros j. destruct (decide (i = j)) as [->|].
  - rewrite !list_lookup_alter_eq. by destruct (l !! j).
  - by rewrite !list_lookup_alter_ne by done.
Qed.

Lemma alter_id_at {A} (f : A → A) i (l : list A) x :
  l !! i = Some x → f x = x → alter f i l = l.
Proof.
  intros Hi Hf. apply list_eq. intros j. destruct (decide (i = j)) as [->|].
  - by rewrite list_lookup_alter_eq, Hi; cbn; rewrite Hf.
  - by rewrite list_lookup_alter_ne by done.
Qed.

Lemma alter_out {A} (f : A → A) i (l : list A) : (length l ≤ i)%nat → alter f i l = l.
Proof.
  intros Hi. apply list_eq. intros j. destruct (decide (i = j)) as [->|].
  - rewrite list_lookup_alter_eq. by rewrite lookup_ge_None_2.
  - by rewrite list_lookup_alter_ne by done.
Qed.

Lemma alter_ext_at {A} (f g : A → A) i (l : list A) x :
  l !! i = Some x → f x = g x → alter f i l = alter g i l.
Proof. intros Hi Hf. apply list_alter_ext; [|done]. intros y Hy. by simplify_eq. Qed.

Lemma pushcli_spec o k i c :
  hw_cpu (k_hw k) = Some (i, c) → pushcli o k = Ret tt o (set_k_hw (hw_push (k_hw k)) k).
Proof.
  intros Hc. unfold pushcli, cli. kstep.
  set (k1 := set_k_hw (set_h_IF false (k_hw k)) k).
  assert (mycpu o k1 = Ret i o k1) as Hme by (by eapply mycpu_spec).
  kstep_with Hme. unfold cpu_read. rewrite bind_reads.
  replace (h_cpus (k_hw k1) !! i) with (Some c) by (symmetry; by apply hw_cpu_lookup in Hc).
  assert (hw_push (k_hw k) = set_h_IF false (set_h_cpus (alter (cpu_push (h_IF (k_hw k))) i
            (h_cpus (k_hw k))) (k_hw k))) as -> by (unfold hw_push, hw_upd; by rewrite Hc).
  destruct (Z.eqb_spec (c_ncli c) 0) as [Hn|Hn]; cbn [when].
  - unfold cpu_write. rewrite bind_assoc. kstep_with Hme. rewrite bind_modify.
    set (k2 := set_k_hw _ k1).
    assert (mycpu o k2 = Ret i o k2) as Hme2.
    { eapply mycpu_spec; [done|]. by apply hw_cpu_alter. }
    kstep_with Hme2. unfold modify, k2, k1, set_h_cpus, set_h_IF. cbn.
    rewrite alter_alter_eq, !set_k_hw_twice. do 3 f_equal.
    eapply alter_ext_at; [by apply hw_cpu_lookup|]. unfold cpu_push, set_c_ncli. cbn.
    by rewrite Hn.
  - kstep. kstep_with Hme. unfold cpu_write, modify, k1, set_h_cpus, set_h_IF. cbn.
    rewrite !set_k_hw_twice. do 3 f_equal. eapply alter_ext_at; [by apply hw_cpu_lookup|].
    unfold cpu_push. by rewrite (proj2 (Z.eqb_neq _ _) Hn).
Qed.

Lemma popcli_spec o k i c :
  hw_cpu (k_hw k) = Some (i, c) → h_IF (k_hw k) = false → 0 < c_ncli c →
  popcli o k = Ret tt o (set_k_hw (hw_pop (k_hw k)) k).
Proof.
  intros Hc HIF Hn. unfold popcli. rewrite bind_reads, HIF.
  kstep_with (mycpu_spec o k i c HIF Hc). unfold cpu_write. rewrite bind_modify.
  set (k1 := set_k_hw _ k).
  assert (hw_cpu (k_hw k1) = Some (i, set_c_ncli (c_ncli c - 1) c)) as Hc1
    by (by apply (hw_cpu_alter _ (λ c, set_c_ncli (c_ncli c - 1) c))).
  unfold cpu_read. rewrite bind_reads. rewrite (hw_cpu_lookup _ _ _ Hc1). cbn [c_ncli set_c_ncli].
  destruct (Z.ltb_spec (c_ncli c - 1) 0) as [?|_]; [lia|].
  kstep_with (mycpu_spec o k1 i _ HIF Hc1).
  rewrite bind_reads, (hw_cpu_lookup _ _ _ Hc1). cbn [c_intena set_c_ncli].
  unfold hw_pop, hw_upd. rewrite Hc. fold k1.
  destruct ((c_ncli c - 1 =? 0) && c_intena c); cbn [when]; [done|].
  unfold ret, k1, set_h_IF, set_h_cpus. cbn. by rewrite HIF.
Qed.

Lemma hw_cpu_push h i c :
  hw_cpu h = Some (i, c) → hw_cpu (hw_push h) = Some (i, cpu_push (h_IF h) c).
Proof.
  intros Hc. unfold hw_push, hw_upd. rewrite Hc, hw_cpu_set_IF.
  apply hw_cpu_alter; [|done]. intros. apply cpu_push_apicid.
Qed.

Lemma hw_pop_push h : irq_ok h → hw_pop (hw_push h) = h.
Proof.
  intros (i & c & Hc & Hn & H0 & Hpos). unfold hw_pop.
  rewrite (hw_cpu_push _ _ _ Hc). unfold hw_upd at 1. rewrite (hw_cpu_push _ _ _ Hc).
  unfold hw_push, hw_upd. rewrite Hc. destruct h as [a IF cr3 cpus locks].
  unfold set_h_IF, set_h_cpus. cbn in *. f_equal.
  - unfold cpu_push. destruct (Z.eqb_spec (c_ncli c) 0); cbn.
    + by replace (c_ncli c + 1 - 1 =? 0) with true by lia.
    + rewrite Hpos by lia. by replace (c_ncli c + 1 - 1 =? 0) with false by lia.
  - rewrite alter_alter_eq. apply list_find_Some in Hc as [Hc _].
    eapply alter_id_at; [done|].
    unfold cpu_push. destruct (Z.eqb_spec (c_ncli c) 0) as [E|E]; destruct c; cbn in *;
      unfold set_c_ncli, set_c_intena; cbn; f_equal; try lia. by rewrite H0.
Qed.

Lemma irq_ok_push h : irq_ok h → irq_ok (hw_push h).
Proof.
  intros (i & c & Hc & Hn & H0 & Hpos). eexists _, _. split; [by apply hw_cpu_push|].
  assert (c_ncli (cpu_push (h_IF h) c) = c_ncli c + 1) as -> by (unfold cpu_push; by case_test).
  split_and!; [lia..|]. done.
Qed.

Lemma hw_ncli_push h : irq_ok h → hw_ncli (hw_push h) = hw_ncli h + 1.
Proof.
  intros (i & c & Hc & _). unfold hw_ncli. rewrite (hw_cpu_push _ _ _ Hc), Hc.
  unfold cpu_push. by case_test.
Qed.

Lemma hw_proc_push h : hw_proc (hw_push h) = hw_proc h.
Proof.
  unfold hw_proc. destruct (hw_cpu h) as [[i c]|] eqn:Hc.
  - rewrite (hw_cpu_push _ _ _ Hc). unfold cpu_push. by case_test.
  - unfold hw_push, hw_upd. by rewrite Hc, hw_cpu_set_IF, Hc.
Qed.

(** ** Specifications *)

Lemma irq_ok_cpu h : irq_ok h → ∃ i c, hw_cpu h = Some (i, c).
Proof. intros (i & c & ? & _). eauto. Qed.

(** A balanced [pushcli]/[popcli] around a read leaves the state unchanged. *)
Lemma popcli_after_push o k :
  irq_ok (k_hw k) → popcli o (set_k_hw (hw_push (k_hw k)) k) = Ret tt o k.
Proof.
  intros Hok. pose proof Hok as (i & c & Hc & Hn & _).
  rewrite (popcli_spec _ _ i (cpu_push (h_IF (k_hw k)) c)).
  - autorewrite with kernel. by rewrite hw_pop_push, set_k_hw_id.
  - by apply hw_cpu_push.
  - done.
  - unfold cpu_push. case_test; cbn; lia.
Qed.

Lemma myproc_spec o k : irq_ok (k_hw k) → myproc o k = Ret (hw_proc (k_hw k)) o k.
Proof.
  intros Hok. pose proof Hok as (i & c & Hc & _). unfold myproc.
  kstep_with (pushcli_spec o k i c Hc). set (k1 := set_k_hw _ k).
  assert (hw_cpu (k_hw k1) = Some (i, cpu_push (h_IF (k_hw k)) c)) as Hc1 by (by apply hw_cpu_push).
  kstep_with (mycpu_spec o k1 i _ eq_refl Hc1). unfold cpu_read. rewrite bind_reads.
  rewrite (hw_cpu_lookup _ _ _ Hc1). kstep_with (popcli_after_push o k Hok).
  unfold ret, hw_proc. rewrite Hc. unfold cpu_push. by case_test.
Qed.

Definition hw_holdsb (lk : lockid) (h : hw) : bool :=
  match h_locks h !! lk, hw_cpu h with
  | Some owner, Some (i, _) => bool_decide (owner = Some i)
  | _, _ => false
  end.

Lemma holding_spec lk o k : irq_ok (k_hw k) → holding lk o k = Ret (hw_holdsb lk (k_hw k)) o k.
Proof.
  intros Hok. pose proof Hok as (i & c & Hc & _). unfold holding.
  kstep_with (pushcli_spec o k i c Hc). set (k1 := set_k_hw _ k).
  assert (hw_cpu (k_hw k1) = Some (i, cpu_push (h_IF (k_hw k)) c)) as Hc1 by (by apply hw_cpu_push).
  assert (h_locks (k_hw k1) = h_locks (k_hw k)) as Hl
    by (unfold k1, hw_push, hw_upd; cbn; by rewrite Hc).
  rewrite bind_reads, Hl. unfold hw_holdsb. rewrite Hc.
  destruct (h_locks (k_hw k) !! lk) as [owner|].
  - rewrite bind_assoc. kstep_with (mycpu_spec o k1 i _ eq_refl Hc1). rewrite bind_ret.
    by kstep_with (popcli_after_push o k Hok).
  - rewrite bind_ret. by kstep_with (popcli_after_push o k Hok).
Qed.

Lemma hw_holdsb_spec lk h : hw_holdsb lk h = true ↔ hw_holds lk h.
Proof.
  unfold hw_holdsb, hw_holds. split.
  - destruct (h_locks h !! lk) as [w|] eqn:E; [|done].
    destruct (hw_cpu h) as [[i c]|] eqn:E'; [|done]. rewrite bool_decide_eq_true. naive_solver.
  - intros (i & c & -> & ->). by rewrite bool_decide_eq_true.
Qed.

Lemma h_locks_push h : h_locks (hw_push h) = h_locks h.
Proof. unfold hw_push, hw_upd. by destruct (hw_cpu h) as [[]|]. Qed.

Lemma acquire_spec lk o k :
  irq_ok (k_hw k) → h_locks (k_hw k) !! lk = None →
  acquire lk o k = Ret tt o (set_k_hw (hw_acq lk (k_hw k)) k).
Proof.
  intros Hok Hfree. pose proof Hok as (i & c & Hc & _). unfold acquire.
  kstep_with (pushcli_spec o k i c Hc). set (k1 := set_k_hw _ k).
  assert (irq_ok (k_hw k1)) as Hok1 by (by apply irq_ok_push).
  assert (h_locks (k_hw k1) !! lk = None) as Hfree1 by (unfold k1; by rewrite k_hw_set, h_locks_push).
  kstep_with (holding_spec lk o k1 Hok1). unfold hw_holdsb. rewrite Hfree1.
  assert (spin lk o k1 = Ret tt o (set_k_hw (set_h_locks (<[lk := None]> (h_locks (k_hw k1)))
    (k_hw k1)) k1)) as Hspin by (destruct o; cbn [spin]; by rewrite Hfree1).
  kstep_with Hspin. set (k2 := set_k_hw _ k1).
  assert (hw_cpu (k_hw k2) = Some (i, cpu_push (h_IF (k_hw k)) c)) as Hc2 by (by apply hw_cpu_push).
  kstep_with (mycpu_spec o k2 i _ eq_refl Hc2).
  unfold modify, hw_acq, k2, k1, set_h_locks. rewrite (hw_cpu_push _ _ _ Hc). cbn.
  by rewrite insert_insert_eq.
Qed.

(** A CPU that takes a lock it already holds panics instead of deadlocking. *)
Lemma acquire_held_panics lk o k :
  irq_ok (k_hw k) → hw_holds lk (k_hw k) →
  acquire lk o k = Panic "acquire" (set_k_hw (hw_push (k_hw k)) k).
Proof.
  intros Hok (i & c & Hc & Hl). unfold acquire.
  kstep_with (pushcli_spec o k i c Hc).
  kstep_with (holding_spec lk o (set_k_hw (hw_push (k_hw k)) k) (irq_ok_push _ Hok)).
  replace (hw_holdsb _ _) with true; [done|]. symmetry. apply hw_holdsb_spec.
  exists i, (cpu_push (h_IF (k_hw k)) c). split; [by apply hw_cpu_push|].
  by rewrite k_hw_set, h_locks_push.
Qed.

Lemma release_spec lk o k :
  irq_ok (k_hw k) → 0 < hw_ncli (k_hw k) → hw_holds lk (k_hw k) →
  release lk o k = Ret tt o (set_k_hw (hw_rel lk (k_hw k)) k).
Proof.
  intros Hok Hn Hh. pose proof Hok as (i & c & Hc & Hn' & H0 & Hp). unfold release.
  kstep_with (holding_spec lk o k Hok). rewrite (proj2 (hw_holdsb_spec _ _) Hh).
  rewrite bind_modify. set (k1 := set_k_hw _ k).
  unfold hw_ncli in Hn. rewrite Hc in Hn.
  rewrite (popcli_spec _ _ i c); [done| |cbn; auto|done].
  unfold k1. by rewrite k_hw_set, hw_cpu_set_locks.
Qed.

(** Releasing a lock the CPU does not hold panics. *)
Lemma release_not_held_panics lk o k :
  irq_ok (k_hw k) → ¬ hw_holds lk (k_hw k) → release lk o k = Panic "release" k.
Proof.
  intros Hok Hh. unfold release. kstep_with (holding_spec lk o k Hok).
  destruct (hw_holdsb lk (k_hw k)) eqn:E; [|done]. by apply hw_holdsb_spec in E.
Qed.

Lemma hw_cpu_acq lk h i c :
  hw_cpu h = Some (i, c) → hw_cpu (hw_acq lk h) = Some (i, cpu_push (h_IF h) c).
Proof. intros Hc. unfold hw_acq. rewrite hw_cpu_set_locks. by apply hw_cpu_push. Qed.

Lemma irq_ok_acq lk h : irq_ok h → irq_ok (hw_acq lk h).
Proof. intros Hok. apply irq_ok_push in Hok as (i & c & ? & ?). by exists i, c. Qed.

Lemma hw_holds_acq lk h : irq_ok h → hw_holds lk (hw_acq lk h).
Proof.
  intros (i & c & Hc & _). exists i, (cpu_push (h_IF h) c). split; [by apply hw_cpu_acq|].
  unfold hw_acq. rewrite (hw_cpu_push _ _ _ Hc). cbn. apply lookup_insert_eq.
Qed.

Lemma hw_ncli_acq lk h : irq_ok h → hw_ncli (hw_acq lk h) = hw_ncli h + 1.
Proof.
  intros Hok. rewrite <- (hw_ncli_push h Hok). unfold hw_ncli, hw_acq.
  by rewrite hw_cpu_set_locks.
Qed.

Lemma hw_ncli_nonneg h : irq_ok h → 0 ≤ hw_ncli h.
Proof. intros (i & c & Hc & ? & _). unfold hw_ncli. by rewrite Hc. Qed.

Lemma hw_proc_acq lk h : hw_proc (hw_acq lk h) = hw_proc h.
Proof. rewrite <- (hw_proc_push h). unfold hw_proc, hw_acq. by rewrite hw_cpu_set_locks. Qed.

Lemma hw_rel_acq lk h : irq_ok h → h_locks h !! lk = None → hw_rel lk (hw_acq lk h) = h.
Proof.
  intros Hok Hfree. unfold hw_rel, hw_acq. cbn. rewrite delete_insert_id
    by (by rewrite h_locks_push).
  replace (set_h_locks _ _) with (hw_push h); [by apply hw_pop_push|].
  by destruct (hw_push h).
Qed.

Lemma release_acquired lk o k k' :
  irq_ok (k_hw k) → h_locks (k_hw k) !! lk = None → k_hw k' = hw_acq lk (k_hw k) →
  release lk o k' = Ret tt o (set_k_hw (k_hw k) k').
Proof.
  intros Hok Hfree Hk'. rewrite release_spec; rewrite ?Hk'.
  - by rewrite hw_rel_acq.
  - by apply irq_ok_acq.
  - rewrite hw_ncli_acq by done. pose proof (hw_ncli_nonneg _ Hok). lia.
  - by apply hw_holds_acq.
Qed.

(** A critical section whose body leaves the hardware state alone is the
    body: interrupts, nesting depth and lock are as before it. *)
Lemma critical_section {A B} lk (body : M A) (r : A → M B) o k a o' k' :
  irq_ok (k_hw k) → h_locks (k_hw k) !! lk = None →
  body o (set_k_hw (hw_acq lk (k_hw k)) k) = Ret a o' (set_k_hw (hw_acq lk (k_hw k)) k') →
  (acquire lk ;;; let! x := body in release lk ;;; r x) o k = r a o' (set_k_hw (k_hw k) k').
Proof.
  intros Hok Hfree Hb. kstep_with (acquire_spec lk o k Hok Hfree). kstep_with Hb.
  by rewrite (bind_step _ _ _ _ _ _ _ (release_acquired lk o' k
    (set_k_hw (hw_acq lk (k_hw k)) k') Hok Hfree eq_refl)).
Qed.

(** *** Locks taken in one order and released in another *)

Lemma h_locks_acq lk h : irq_ok h → h_locks (hw_acq lk h) = <[lk := fst <$> hw_cpu h]> (h_locks h).
Proof.
  intros (i & c & Hc & _). unfold hw_acq. cbn. by rewrite (hw_cpu_push _ _ _ Hc), Hc, h_locks_push.
Qed.

Lemma hw_cpu_pop h i c :
  hw_cpu h = Some (i, c) → hw_cpu (hw_pop h) = Some (i, set_c_ncli (c_ncli c - 1) c).
Proof.
  intros Hc. unfold hw_pop. rewrite Hc, hw_cpu_set_IF. unfold hw_upd. rewrite Hc.
  by apply (hw_cpu_alter _ (λ c, set_c_ncli (c_ncli c - 1) c)).
Qed.

Lemma hw_cpu_rel lk h i c :
  hw_cpu h = Some (i, c) → hw_cpu (hw_rel lk h) = Some (i, set_c_ncli (c_ncli c - 1) c).
Proof. intros Hc. unfold hw_rel. by apply hw_cpu_pop. Qed.

Lemma h_locks_rel lk h : h_locks (hw_rel lk h) = delete lk (h_locks h).
Proof.
  unfold hw_rel, hw_pop, hw_upd. rewrite hw_cpu_set_locks. by destruct (hw_cpu h) as [[]|].
Qed.

Lemma irq_ok_rel lk h : irq_ok h → 0 < hw_ncli h → irq_ok (hw_rel lk h).
Proof.
  intros (i & c & Hc & Hn & H0 & Hpos) Hlt. unfold hw_ncli in Hlt. rewrite Hc in Hlt.
  eexists _, _. split; [by apply hw_cpu_rel|]. unfold hw_rel, hw_pop. rewrite hw_cpu_set_locks, Hc. cbn.
  split_and!; [lia| |]; intros ?.
  - by replace (c_ncli c - 1 =? 0) with true by lia.
  - by replace (c_ncli c - 1 =? 0) with false by lia.
Qed.

Lemma hw_ncli_rel lk h : irq_ok h → hw_ncli (hw_rel lk h) = hw_ncli h - 1.
Proof. intros (i & c & Hc & _). unfold hw_ncli. by rewrite (hw_cpu_rel _ _ _ _ Hc), Hc. Qed.

Lemma hw_proc_rel lk h : irq_ok h → hw_proc (hw_rel lk h) = hw_proc h.
Proof. intros (i & c & Hc & _). unfold hw_proc. by rewrite (hw_cpu_rel _ _ _ _ Hc), Hc. Qed.

Lemma hw_holds_acq_ne lk lk' h : irq_ok h → lk ≠ lk' → hw_holds lk h → hw_holds lk (hw_acq lk' h).
Proof.
  intros Hok Hne (i & c & Hc & Hl). eexists i, _. split; [by apply hw_cpu_acq|].
  by rewrite h_locks_acq, lookup_insert_ne by done.
Qed.

Lemma hw_holds_rel_ne lk lk' h : lk ≠ lk' → hw_holds lk h → hw_holds lk (hw_rel lk' h).
Proof.
  intros Hne (i & c & Hc & Hl). eexists i, _. split; [by apply hw_cpu_rel|].
  by rewrite h_locks_rel, lookup_delete_ne by done.
Qed.

(** *** The oracle is used only while spinning *)

Lemma shrinks_mycpu : shrinks mycpu.
Proof. unfold mycpu. solve_shrinks. Qed.
#[export] Hint Resolve shrinks_mycpu : oracle.

Lemma shrinks_pushcli : shrinks pushcli.
Proof. unfold pushcli, cli, cpu_read, cpu_write. solve_shrinks. Qed.
Lemma shrinks_popcli : shrinks popcli.
Proof. unfold popcli, sti, cpu_read, cpu_write. solve_shrinks. Qed.
#[export] Hint Resolve shrinks_pushcli shrinks_popcli : oracle.

Lemma shrinks_myproc : shrinks myproc.
Proof. unfold myproc, cpu_read. solve_shrinks. Qed.
Lemma shrinks_holding lk : shrinks (holding lk).
Proof. unfold holding. solve_shrinks. Qed.
#[export] Hint Resolve shrinks_myproc shrinks_holding : oracle.

Lemma shrinks_spin lk : shrinks (spin lk).
Proof.
  intros o. induction o as [|env o IH]; intros k a o' k'; cbn [spin];
    destruct (h_locks (k_hw k) !! lk); intros E; simplify_eq; try done.
  apply IH in E. cbn. lia.
Qed.
#[export] Hint Resolve shrinks_spin : oracle.

Lemma shrinks_acquire lk : shrinks (acquire lk).
Proof. unfold acquire. solve_shrinks. Qed.
Lemma shrinks_release lk : shrinks (release lk).
Proof. unfold release. solve_shrinks. Qed.
#[export] Hint Resolve shrinks_acquire shrinks_release : oracle.

#[export] Hint Resolve irq_ok_push irq_ok_acq hw_holds_acq irq_ok_rel : kernel.

Lemma demo_irq_ok disk : irq_ok (k_hw (K_demo disk)).
Proof. exists 0%nat, demo_cpu. split; [done|]. cbn. split_and!; done || lia. Qed.

(** ** Properties *)

(** A critical section that touches neither the locks nor the interrupt
    state behaves as its body: [acquire] and [release] restore the interrupt
    flag, the nesting depth and the lock, whatever was nested around them. *)
Theorem critical_section_restores {A} lk (body : M A) o k a o' k' :
  irq_ok (k_hw k) → h_locks (k_hw k) !! lk = None →
  body o (set_k_hw (hw_acq lk (k_hw k)) k) = Ret a o' (set_k_hw (hw_acq lk (k_hw k)) k') →
  (acquire lk ;;; let! x := body in release lk ;;; ret x) o k = Ret a o' (set_k_hw (k_hw k) k').
Proof. apply critical_section. Qed.

Lemma critical_section_restores_witness :
  (acquire LKmem ;;; let! x := reads k_nextpid in release LKmem ;;; ret x) [] (K_demo ∅) =
  Ret 2 [] (K_demo ∅).
Proof.
  rewrite (critical_section_restores LKmem (reads k_nextpid) [] (K_demo ∅) 2 [] (K_demo ∅)).
  - reflexivity.
  - apply demo_irq_ok.
  - reflexivity.
  - reflexivity.
Defined.

(** The lock discipline is checked at run time: acquiring a lock this CPU
    already holds panics (it would wait for itself for ever), and so does
    releasing a lock it does not hold. *)
Theorem lock_misuse_panics lk o k :
  irq_ok (k_hw k) →
  (hw_holds lk (k_hw k) → acquire lk o k = Panic "acquire" (set_k_hw (hw_push (k_hw k)) k)) ∧
  (¬ hw_holds lk (k_hw k) → release lk o k = Panic "release" k).
Proof. split; [by apply acquire_held_panics|by apply release_not_held_panics]. Qed.

Lemma lock_misuse_panics_witness : release LKmem [] (K_demo ∅) = Panic "release" (K_demo ∅).
Proof.
  apply (lock_misuse_panics LKmem [] (K_demo ∅)).
  - apply demo_irq_ok.
  - intros (i & c & _ & Hl). by vm_compute in Hl.
Defined.
