(* ===== verification/Kalloc.v ===== *)
(** * The physical page allocator ([kalloc.c])

    The free list is threaded through the free pages themselves, as in the
    code: the first word of a free page is the address of the next one.
    [free_ok k l] says that the list in memory is [l]; [kalloc] pops it,
    [kfree] pushes on it after checking its argument, [freerange] fills it. *)

From stdpp Require Import base numbers list gmap strings.
From S2P Require Import Prelude Mmu Hardware Memory Kernel Spinlock.

Implicit Types (k : K) (o : oracle) (l : list Z).

(** ** Translated code *)

Definition kfree_ok (k : K) (v : Z) : bool :=
  negb (negb (u32 v mod PGSIZE =? 0) || (v <? ln_end (k_link k)) || (PHYSTOP <=? V2P v)).

Definition kfree (v : Z) : M unit :=
  let! ok := reads (λ k, kfree_ok k v) in
  if negb ok then panic "kfree"
  else
    (* Fill with junk to catch dangling refs. *)
    modify (λ k, set_k_mem (memset (k_mem k) v 1 PGSIZE) k) ;;;
    let! ul := reads k_use_lock in
    when ul (acquire LKmem) ;;;
    modify (λ k, set_k_freelist v (set_k_mem (st32 (k_mem k) v (k_freelist k)) k)) ;;;
    let! ul := reads k_use_lock in
    when ul (release LKmem).

Definition kalloc : M Z :=
  let! ul := reads k_use_lock in
  when ul (acquire LKmem) ;;;
  let! r := reads k_freelist in
  when (negb (r =? 0)) (modify (λ k, set_k_freelist (ld32 (k_mem k) r) k)) ;;;
  let! ul := reads k_use_lock in
  when ul (release LKmem) ;;;
  ret r.

Fixpoint freerange_loop (fuel : nat) (p vend : Z) : M unit :=
  if p + PGSIZE <=? vend then
    match fuel with
    | O => panic "out of fuel"
    | S fuel => kfree p ;;; freerange_loop fuel (p + PGSIZE) vend
    end
  else ret tt.

Definition freerange (vstart vend : Z) : M unit :=
  let p := PGROUNDUP vstart in
  freerange_loop (Z.to_nat ((vend - p) / PGSIZE)) p vend.

Definition kinit1 (vstart vend : Z) : M unit :=
  initlock LKmem ;;;
  modify (set_k_use_lock false) ;;;
  freerange vstart vend.

Definition kinit2 (vstart vend : Z) : M unit :=
  freerange vstart vend ;;;
  modify (set_k_use_lock true).

(** ** The free list in memory *)

(** Following the [next] words from [a] visits exactly the pages [l]. *)
Fixpoint flist (m : mem) (a : Z) (l : list Z) : Prop :=
  match l with
  | [] => a = 0
  | p :: l => a = p ∧ flist m (ld32 m p) l
  end.

Definition page_ok (k : K) (p : Z) : Prop :=
  p mod 4096 = 0 ∧ KERNBASE ≤ p < KERNBASE + PHYSTOP ∧ ln_end (k_link k) ≤ p.

Definition free_ok (k : K) (l : list Z) : Prop :=
  flist (k_mem k) (k_freelist k) l ∧ Forall (page_ok k) l ∧ NoDup l.

(** The allocator's lock can be taken. *)
Definition kmem_ready (k : K) : Prop := irq_ok (k_hw k) ∧ h_locks (k_hw k) !! LKmem = None.

Lemma kfree_ok_page k v :
  0 ≤ v < 4294967296 → kfree_ok k v = true ↔ page_ok k v.
Proof.
  intros Hv. unfold kfree_ok, page_ok, V2P, PGSIZE. rewrite (u32_small v) by done.
  rewrite negb_true_iff, !orb_false_iff, negb_false_iff, Z.eqb_eq, Z.ltb_ge, Z.leb_gt.
  unfold u32, KERNBASE, PHYSTOP. split; [intros [[??]?]|intros (?&?&?)]; split_and!; lia_mod.
Qed.

Lemma page_ok_range k p : page_ok k p → 0 < p ∧ p + 4096 ≤ 4294967296.
Proof. unfold page_ok, KERNBASE, PHYSTOP. lia. Qed.

(** Distinct pages do not overlap. *)
Lemma pages_disjoint p q : p mod 4096 = 0 → q mod 4096 = 0 → p ≠ q → p + 4096 ≤ q ∨ q + 4096 ≤ p.
Proof. intros. lia_mod. Qed.

Lemma flist_ext m m' a l :
  flist m a l → (∀ p, p ∈ l → ld32 m' p = ld32 m p) → flist m' a l.
Proof.
  revert a. induction l as [|p l IH]; intros a; cbn; [done|].
  intros [-> H] He. split; [done|]. rewrite He by set_solver. apply IH; [done|]. set_solver.
Qed.

(** ** Specifications *)

Definition kalloc_st (k : K) : K :=
  if k_freelist k =? 0 then k else set_k_freelist (ld32 (k_mem k) (k_freelist k)) k.

Lemma kalloc_run o k : kmem_ready k → kalloc o k = Ret (k_freelist k) o (kalloc_st k).
Proof.
  intros [Hok Hl]. unfold kalloc, kalloc_st. rewrite bind_reads. destruct (k_use_lock k) eqn:Hu; kstep.
  - kstep_with (acquire_spec LKmem o k Hok Hl). kstep. cbn [k_freelist set_k_hw].
    destruct (Z.eqb_spec (k_freelist k) 0) as [E|E]; cbn [negb when]; kstep;
      cbn [k_use_lock set_k_freelist set_k_hw]; rewrite Hu; cbn [when].
    + kstep_with (release_acquired LKmem o k (set_k_hw (hw_acq LKmem (k_hw k)) k) Hok Hl eq_refl).
      kstep. done.
    + kstep_with (release_acquired LKmem o k (set_k_freelist
        (ld32 (k_mem (set_k_hw (hw_acq LKmem (k_hw k)) k)) (k_freelist k))
        (set_k_hw (hw_acq LKmem (k_hw k)) k)) Hok Hl eq_refl).
      unfold ret. by destruct k.
  - destruct (Z.eqb_spec (k_freelist k) 0) as [E|E]; cbn [negb when]; kstep;
      cbn [k_use_lock set_k_freelist]; by rewrite Hu.
Qed.

(** [kalloc] pops the list; on an empty one it returns the null pointer. *)
Lemma kalloc_spec o k l :
  kmem_ready k → free_ok k l →
  ∃ k', kalloc o k = Ret (hd 0 l) o k' ∧ free_ok k' (tail l) ∧
        k' = set_k_freelist (k_freelist k') k.
Proof.
  intros Hr (Hf & Hp & Hnd). rewrite kalloc_run by done. exists (kalloc_st k).
  unfold kalloc_st. destruct l as [|p l]; cbn in Hf; [rewrite Hf|destruct Hf as [Hf Hf']].
  - split; [done|]. split; [|by destruct k]. split; [done|]. split; constructor.
  - rewrite Hf. apply Forall_cons in Hp as [Hpp Hp]. apply NoDup_cons in Hnd as [Hnp Hnd].
    destruct (Z.eqb_spec p 0) as [E|E]; [apply page_ok_range in Hpp; lia|].
    split_and!; [done| |done]. split; [done|]. split; [done|]. done.
Qed.

Definition kfree_st (v : Z) (k : K) : K :=
  set_k_freelist v (set_k_mem (st32 (memset (k_mem k) v 1 PGSIZE) v (k_freelist k)) k).

Lemma kfree_run o k v :
  kmem_ready k → kfree_ok k v = true → kfree v o k = Ret tt o (kfree_st v k).
Proof.
  intros [Hok Hl] Hv. unfold kfree, kfree_st. rewrite bind_reads, Hv. cbn [negb]. kstep.
  cbn [k_use_lock set_k_mem]. destruct (k_use_lock k) eqn:Hu; cbn [when].
  - set (k1 := set_k_mem _ k). kstep_with (acquire_spec LKmem o k1 Hok Hl). kstep.
    cbn [k_use_lock set_k_mem set_k_freelist set_k_hw k_hw k1]. rewrite Hu. cbn [when].
    rewrite (release_acquired LKmem o k); [|done..]. unfold k1. by destruct k.
  - kstep. cbn [k_use_lock set_k_mem set_k_freelist]. rewrite Hu. done.
Qed.

Lemma kfree_panics o k v : kfree_ok k v = false → kfree v o k = Panic "kfree" k.
Proof. intros Hv. unfold kfree. by rewrite bind_reads, Hv. Qed.

(** Freeing a page leaves every other page of memory unchanged. *)
Lemma kfree_st_mem v k x :
  x < v ∨ v + 4096 ≤ x → ld8 (k_mem (kfree_st v k)) x = ld8 (k_mem k) x.
Proof.
  intros Hx. unfold kfree_st. cbn. rewrite ld8_st32, ld8_memset by (unfold PGSIZE; lia).
  unfold PGSIZE. repeat (case_test; try lia); done.
Qed.

Lemma kfree_st_free v k l :
  page_ok k v → v ∉ l → free_ok k l → free_ok (kfree_st v k) (v :: l).
Proof.
  intros Hv Hnin (Hf & Hp & Hnd). pose proof (page_ok_range _ _ Hv) as Hr.
  split; [|split; [|by constructor]].
  - cbn [flist kfree_st set_k_freelist k_freelist]. split; [done|].
    eapply flist_ext.
    + unfold kfree_st. cbn. rewrite ld32_st32_eq.
      assert (u32 (k_freelist k) = k_freelist k) as ->; [|done].
      destruct l as [|p l]; cbn in Hf; [by rewrite Hf|]. destruct Hf as [-> _].
      apply Forall_cons in Hp as [Hp _]. apply page_ok_range in Hp. apply u32_small. lia.
    + intros p Hpl. apply ld32_ext. intros x Hx. apply kfree_st_mem.
      rewrite Forall_forall in Hp. pose proof (Hp p Hpl) as (Hpa & _). destruct Hv as (Hva & _).
      assert (p ≠ v) by set_solver. pose proof (pages_disjoint p v Hpa Hva ltac:(done)). lia.
  - constructor; [done|]. eapply Forall_impl; [done|]. done.
Qed.

(** [kfree] checks its argument and pushes the page. *)
Lemma kfree_spec o k l v :
  kmem_ready k → free_ok k l → page_ok k v → v ∉ l →
  kfree v o k = Ret tt o (kfree_st v k) ∧ free_ok (kfree_st v k) (v :: l).
Proof.
  intros Hr Hf Hv Hn. split; [|by apply kfree_st_free].
  apply kfree_run; [done|]. apply kfree_ok_page; [|done]. apply page_ok_range in Hv. lia.
Qed.

(** ** Filling the list *)

Fixpoint page_seq (p : Z) (n : nat) : list Z :=
  match n with
  | O => []
  | S n => p :: page_seq (p + 4096) n
  end.

Lemma elem_of_page_seq x p n :
  x ∈ page_seq p n ↔ ∃ i, 0 ≤ i < Z.of_nat n ∧ x = p + 4096 * i.
Proof.
  revert p. induction n as [|n IH]; intros p; cbn [page_seq].
  - rewrite elem_of_nil. split; [done|intros (i & ? & _); lia].
  - rewrite elem_of_cons, IH. split.
    + intros [->|(i & ? & ->)]; [exists 0|exists (i + 1)]; lia.
    + intros (i & ? & ->). destruct (decide (i = 0)) as [->|]; [left; lia|].
      right. exists (i - 1). lia.
Qed.

Lemma freerange_loop_spec n p vend o k l :
  kmem_ready k → free_ok k l → p + 4096 * Z.of_nat n ≤ vend < p + 4096 * Z.of_nat n + 4096 →
  Forall (page_ok k) (page_seq p n) → (∀ x, x ∈ page_seq p n → x ∉ l) →
  ∃ k', freerange_loop n p vend o k = Ret tt o k' ∧ free_ok k' (rev (page_seq p n) ++ l) ∧
        k_hw k' = k_hw k ∧ k_link k' = k_link k.
Proof.
  revert p k l. induction n as [|n IH]; intros p k l Hr Hf Hend Hok Hnin.
  - exists k. cbn [freerange_loop]. unfold PGSIZE.
    destruct (Z.leb_spec (p + 4096) vend); [lia|]. done.
  - cbn [page_seq] in Hok, Hnin. apply Forall_cons in Hok as [Hp Hok].
    assert (p ∉ l) as Hpl by (apply Hnin; set_solver).
    destruct (kfree_spec o k l p Hr Hf Hp Hpl) as [Hrun Hf1].
    destruct (IH (p + 4096) (kfree_st p k) (p :: l)) as (k' & Hrun' & Hf' & Hhw & Hln); [done..|lia|done| |].
    { intros x Hx. rewrite not_elem_of_cons. split; [|set_solver].
      apply elem_of_page_seq in Hx as (i & ? & ->). lia. }
    exists k'. cbn [freerange_loop]. unfold PGSIZE at 1.
    destruct (Z.leb_spec (p + 4096) vend); [|lia].
    kstep_with Hrun. split_and!; [done| |done..].
    cbn [page_seq rev]. by rewrite <- app_assoc.
Qed.

(** Whole pages between [vstart] and [vend]. *)
Definition range_pages (vstart vend : Z) : list Z :=
  page_seq (PGROUNDUP vstart) (Z.to_nat ((vend - PGROUNDUP vstart) / 4096)).

Lemma freerange_spec vstart vend o k l :
  kmem_ready k → free_ok k l → PGROUNDUP vstart ≤ vend →
  Forall (page_ok k) (range_pages vstart vend) → (∀ x, x ∈ range_pages vstart vend → x ∉ l) →
  ∃ k', freerange vstart vend o k = Ret tt o k' ∧ free_ok k' (rev (range_pages vstart vend) ++ l) ∧
        k_hw k' = k_hw k ∧ k_link k' = k_link k.
Proof.
  intros Hr Hf Hle Hok Hnin. unfold freerange, range_pages, PGSIZE in *.
  apply freerange_loop_spec; [done..| |done|done]. rewrite Z2Nat.id; lia_mod.
Qed.

(** ** The allocator as a stack of pages *)

(** A client's requests and what the allocator answers. *)
Inductive page_op := PAlloc | PFree (v : Z).

Fixpoint run_ops (ops : list page_op) : M (list Z) :=
  match ops with
  | [] => ret []
  | PAlloc :: ops => let! p := kalloc in let! l := run_ops ops in ret (p :: l)
  | PFree v :: ops => kfree v ;;; run_ops ops
  end.

(** The abstract allocator: the list of free pages.  [None] for a client that
    frees what is not a page it may free. *)
Fixpoint spec_ops (k : K) (ops : list page_op) (l : list Z) : option (list Z * list Z) :=
  match ops with
  | [] => Some ([], l)
  | PAlloc :: ops => prod_map (cons (hd 0 l)) id <$> spec_ops k ops (tail l)
  | PFree v :: ops =>
      if kfree_ok k (u32 v) && (v =? u32 v) && negb (bool_decide (v ∈ l)) then spec_ops k ops (v :: l)
      else None
  end.

Lemma spec_ops_link k k' ops l : k_link k' = k_link k → spec_ops k' ops l = spec_ops k ops l.
Proof.
  intros E. revert l. induction ops as [|[|v] ops IH]; intros l; cbn [spec_ops]; [done|by rewrite IH|].
  unfold kfree_ok. rewrite E. by rewrite IH.
Qed.

Lemma run_ops_spec ops o k l rs l' :
  kmem_ready k → free_ok k l → spec_ops k ops l = Some (rs, l') →
  ∃ k', run_ops ops o k = Ret rs o k' ∧ free_ok k' l'.
Proof.
  revert k l rs. induction ops as [|[|v] ops IH]; intros k l rs Hr Hf Hs; cbn [spec_ops run_ops] in *.
  - simplify_eq. by exists k.
  - destruct (spec_ops k ops (tail l)) as [[rs1 l1]|] eqn:E; simplify_eq/=.
    destruct (kalloc_spec o k l Hr Hf) as (k1 & Hrun & Hf1 & Hk1). kstep_with Hrun.
    destruct (IH k1 (tail l) rs1) as (k' & Hrun' & Hf'); [by rewrite Hk1|done| |].
    { rewrite <- E. apply spec_ops_link. by rewrite Hk1. }
    kstep_with Hrun'. by exists k'.
  - destruct (kfree_ok k (u32 v)) eqn:Hok; [|done]. destruct (Z.eqb_spec v (u32 v)) as [Hv|]; [|done].
    destruct (bool_decide_reflect (v ∈ l)) as [|Hn]; [done|]. cbn [andb negb] in Hs.
    rewrite <- Hv in Hok. pose proof (u32_range v). apply kfree_ok_page in Hok; [|lia].
    destruct (kfree_spec o k l v Hr Hf Hok Hn) as [Hrun Hf1]. kstep_with Hrun.
    apply (IH (kfree_st v k) (v :: l)); [done|done|]. by rewrite (spec_ops_link k).
Qed.

(** C6: The page allocator implements a stack of free pages: every sequence of
    allocations and legal frees gives the answers of the abstract list (the most
    recently freed page first, the null pointer when there is none), and the
    linked list in memory stays well formed, without duplicates. *)
Theorem allocator_refines_stack ops o k l rs l' :
  kmem_ready k → free_ok k l → spec_ops k ops l = Some (rs, l') →
  ∃ k', run_ops ops o k = Ret rs o k' ∧ free_ok k' l'.
Proof. apply run_ops_spec. Qed.

Definition demo_page : Z := KERNBASE + 0x400000.

Lemma demo_kmem_ready disk : kmem_ready (K_demo disk).
Proof. split; [apply demo_irq_ok|done]. Qed.

Lemma demo_free_ok disk : free_ok (K_demo disk) [].
Proof. split_and!; [done|constructor|constructor]. Qed.

Lemma allocator_refines_stack_witness :
  ∃ k', run_ops [PFree demo_page; PFree (demo_page + 4096); PAlloc; PAlloc; PAlloc] [] (K_demo ∅) =
        Ret [demo_page + 4096; demo_page; 0] [] k' ∧ free_ok k' [].
Proof.
  apply (allocator_refines_stack _ [] (K_demo ∅) []).
  - apply demo_kmem_ready.
  - apply demo_free_ok.
  - vm_compute. reflexivity.
Defined.

(** [freerange] makes exactly the whole pages between its bounds free, each
    once, without disturbing what was free before. *)
Theorem freerange_frees_all_pages vstart vend o k l :
  kmem_ready k → free_ok k l → PGROUNDUP vstart ≤ vend →
  Forall (page_ok k) (range_pages vstart vend) → (∀ x, x ∈ range_pages vstart vend → x ∉ l) →
  ∃ k', freerange vstart vend o k = Ret tt o k' ∧ free_ok k' (rev (range_pages vstart vend) ++ l) ∧
        k_hw k' = k_hw k ∧ k_link k' = k_link k.
Proof. apply freerange_spec. Qed.

Lemma freerange_frees_all_pages_witness :
  ∃ k', freerange (demo_page + 1) (demo_page + 3 * 4096) [] (K_demo ∅) = Ret tt [] k' ∧
        free_ok k' [demo_page + 2 * 4096; demo_page + 4096].
Proof.
  destruct (freerange_frees_all_pages (demo_page + 1) (demo_page + 3 * 4096) [] (K_demo ∅) [])
    as (k' & Hrun & Hf & _).
  - apply demo_kmem_ready.
  - apply demo_free_ok.
  - vm_compute. discriminate.
  - repeat constructor; vm_compute; congruence.
  - set_solver.
  - exists k'. split; [exact Hrun|exact Hf].
Defined.
