(* ===== verification/Cprintf.v ===== *)
(** * Formatted kernel output ([printint], [cprintf], [consputc] of [console.c])

    The console is the sequence of characters [consputc] was given.  The
    serial port and the CGA memory behind it are not modelled. *)

From stdpp Require Import base numbers list gmap strings.
From S2P Require Import Prelude Mmu Hardware Memory Kernel Spinlock.

(** ** Translated code *)

Definition BACKSPACE : Z := 0x100.

(** After a panic on another CPU the caller spins for ever. *)
Definition consputc (c : Z) : M unit := λ o k,
  if cons_panicked (k_cons k) then Blocked k
  else Ret tt o (set_k_cons (set_cons_out (cons_out (k_cons k) ++ [c]) (k_cons k)) k).

Fixpoint consputs (s : list Z) : M unit :=
  match s with
  | [] => ret tt
  | c :: s => consputc c ;;; consputs s
  end.

Definition digits : list Z := str "0123456789abcdef".

(** The [do ... while] loop that fills [buf], least significant digit first. *)
Fixpoint int_digits (digits : list Z) (fuel : nat) (x base : Z) : list Z :=
  match fuel with
  | O => []
  | S fuel =>
      default 0 (digits !! Z.to_nat (x mod base)) ::
      (if x / base =? 0 then [] else int_digits digits fuel (x / base) base)
  end.

(** The contents of [buf] when it is printed backwards. *)
Definition int_buf (xx base : Z) (sign : bool) : list Z :=
  let neg := sign && (xx <? 0) in
  let x := u32 (if neg then - xx else xx) in
  int_digits digits 32 x base ++ (if neg then [45] else []).

Definition printint (xx base : Z) (sign : bool) : M unit :=
  consputs (rev (int_buf xx base sign)).

(** The variable arguments: words and string pointers. *)
Inductive carg := AInt (x : Z) | AStr (s : option (list Z)).

(** The loop over the format; using an argument at the wrong type or past
    the last one is undefined behaviour. *)
Fixpoint cprintf_loop (fmt : list Z) (args : list carg) : M unit :=
  match fmt with
  | [] => ret tt
  | c :: fmt =>
      if negb (c =? 37) then consputc c ;;; cprintf_loop fmt args
      else
        match fmt with
        | [] => ret tt
        | c :: fmt =>
            if c =? 100 then
              match args with
              | AInt x :: args => printint (s32 x) 10 true ;;; cprintf_loop fmt args
              | _ => panic "cprintf: undefined argument"
              end
            else if (c =? 120) || (c =? 112) then
              match args with
              | AInt x :: args => printint (s32 x) 16 false ;;; cprintf_loop fmt args
              | _ => panic "cprintf: undefined argument"
              end
            else if c =? 115 then
              match args with
              | AStr s :: args =>
                  consputs (default (str "(null)") s) ;;; cprintf_loop fmt args
              | _ => panic "cprintf: undefined argument"
              end
            else if c =? 37 then consputc 37 ;;; cprintf_loop fmt args
            else consputc 37 ;;; consputc c ;;; cprintf_loop fmt args
        end
  end.

Definition cprintf (fmt : string) (args : list carg) : M unit :=
  let! locking := reads (λ k, cons_locking (k_cons k)) in
  when locking (acquire LCons) ;;;
  cprintf_loop (str fmt) args ;;;
  when locking (release LCons).

(** ** Facts *)

(** The console can be written to. *)
Definition cons_ready (k : K) : Prop :=
  irq_ok (k_hw k) ∧ h_locks (k_hw k) !! LCons = None ∧ cons_panicked (k_cons k) = false.

Definition put_out (s : list Z) (k : K) : K :=
  set_k_cons (set_cons_out (cons_out (k_cons k) ++ s) (k_cons k)) k.

Lemma consputs_run s o k :
  cons_panicked (k_cons k) = false → consputs s o k = Ret tt o (put_out s k).
Proof.
  revert k. induction s as [|c s IH]; intros k Hp; cbn [consputs].
  - unfold ret, put_out. rewrite app_nil_r. destruct k.
    by match goal with c : console |- _ => destruct c end.
  - unfold bind, consputc. rewrite Hp, IH by done. unfold put_out. cbn. by rewrite <- app_assoc.
Qed.

(** What a plain message prints. *)
Lemma cprintf_loop_plain s o k :
  37 ∉ s → cons_panicked (k_cons k) = false → cprintf_loop s [] o k = Ret tt o (put_out s k).
Proof.
  intros Hs Hp. rewrite <- consputs_run by done. clear Hp. revert k.
  induction s as [|c s IH]; intros k; cbn [cprintf_loop consputs]; [done|].
  rewrite not_elem_of_cons in Hs. destruct Hs as [Hc Hs].
  rewrite (proj2 (Z.eqb_neq c 37)) by done. cbn [negb]. unfold bind, consputc.
  destruct (cons_panicked (k_cons k)); [done|]. by apply IH.
Qed.

Lemma cprintf_plain fmt o k :
  37 ∉ str fmt → cons_ready k → cprintf fmt [] o k = Ret tt o (put_out (str fmt) k).
Proof.
  intros Hs (Hok & Hl & Hp). unfold cprintf. rewrite bind_reads.
  destruct (cons_locking (k_cons k)); kstep.
  - kstep_with (acquire_spec LCons o k Hok Hl).
    kstep_with (cprintf_loop_plain (str fmt) o (set_k_hw (hw_acq LCons (k_hw k)) k) Hs Hp).
    rewrite (release_acquired LCons o k); [|done..]. unfold put_out. by destruct k.
  - kstep_with (cprintf_loop_plain (str fmt) o k Hs Hp). done.
Qed.

(** *** Printed numbers read back *)

(** The value of a digit, in upper or lower case. *)
Definition digit_val (c : Z) : Z := if c <? 65 then c - 48 else if c <? 97 then c - 55 else c - 87.

(** The table gives each number below sixteen its digit. *)
Definition digit_table (ds : list Z) : Prop := digit_val <$> ds = seqZ 0 16.

Fixpoint undigits (base : Z) (l : list Z) : Z :=
  match l with
  | [] => 0
  | c :: l => digit_val c + base * undigits base l
  end.

Lemma digit_val_digit ds d :
  digit_table ds → 0 ≤ d < 16 → digit_val (default 0 (ds !! Z.to_nat d)) = d.
Proof.
  intros Hds Hd. assert ((digit_val <$> ds) !! Z.to_nat d = Some d) as H.
  { unfold digit_table in Hds. rewrite Hds, lookup_seqZ. lia. }
  rewrite list_lookup_fmap in H. by destruct (ds !! Z.to_nat d); simplify_eq/=.
Qed.

Lemma digits_table : digit_table digits.
Proof. reflexivity. Qed.

Lemma int_digits_value ds fuel x base :
  digit_table ds → 2 ≤ base ≤ 16 → 0 ≤ x < base ^ Z.of_nat fuel → undigits base (int_digits ds fuel x base) = x.
Proof.
  intros Hds. revert x. induction fuel as [|fuel IH]; intros x Hb Hx.
  - rewrite Z.pow_0_r in Hx. cbn. lia.
  - cbn [int_digits undigits]. rewrite digit_val_digit by (done || (pose proof (Z.mod_pos_bound x base); lia)).
    rewrite Nat2Z.inj_succ, Z.pow_succ_r in Hx by lia.
    destruct (Z.eqb_spec (x / base) 0) as [E|E].
    + cbn. pose proof (Z.div_mod x base ltac:(lia)). lia.
    + rewrite IH; [pose proof (Z.div_mod x base ltac:(lia)); lia|done|].
      split; [apply Z.div_pos; lia|]. apply Z.div_lt_upper_bound; lia.
Qed.

Lemma int_digits_length ds fuel x base n :
  2 ≤ base → 0 ≤ x < base ^ Z.of_nat n → (0 < n)%nat → (length (int_digits ds fuel x base) ≤ n)%nat.
Proof.
  intros Hb. revert x n. induction fuel as [|fuel IH]; intros x n Hx Hn; cbn [int_digits length]; [lia|].
  destruct (Z.eqb_spec (x / base) 0) as [E|E]; cbn [length]; [lia|].
  destruct n as [|n]; [lia|]. rewrite Nat2Z.inj_succ, Z.pow_succ_r in Hx by lia.
  destruct n as [|n].
  { rewrite Z.pow_0_r in Hx. rewrite Z.div_small in E; lia. }
  specialize (IH (x / base) (S n)). cut (length (int_digits ds fuel (x / base) base) ≤ S n)%nat; [lia|].
  apply IH; [|lia]. split; [apply Z.div_pos; lia|]. apply Z.div_lt_upper_bound; lia.
Qed.

(** [printint] prints its number: read back, the digits it puts in [buf]
    give the value (as unsigned, or negated after a minus sign), and in the two
    bases the kernel uses they fit in the sixteen bytes of [buf]. *)
Theorem printint_prints_number xx base sign :
  base = 10 ∨ base = 16 → -2147483648 ≤ xx < 2147483648 →
  ∃ ds, int_buf xx base sign = ds ++ (if sign && (xx <? 0) then [45] else []) ∧
    undigits base ds = (if sign && (xx <? 0) then - xx else u32 xx) ∧
    (length (int_buf xx base sign) ≤ 16)%nat.
Proof.
  intros Hb Hx. eexists. split; [done|].
  assert (u32 (if sign && (xx <? 0) then - xx else xx) = if sign && (xx <? 0) then - xx else u32 xx) as E.
  { destruct sign, (Z.ltb_spec xx 0); cbn; [apply u32_small; lia|done..]. }
  pose proof (u32_range (if sign && (xx <? 0) then - xx else xx)) as Hr.
  assert (2 ≤ base ≤ 16) as Hb' by lia.
  assert (∀ x, 0 ≤ x < 4294967296 → 0 ≤ x < base ^ Z.of_nat 32 ∧ 0 ≤ x < base ^ Z.of_nat 10) as Hp.
  { intros x [? Hx1]. split; (split; [done|]); (eapply Z.lt_le_trans; [exact Hx1|]);
      destruct Hb as [-> | ->]; vm_compute; discriminate. }
  apply Hp in Hr as [H32 H10]. split.
  - by rewrite int_digits_value, E by (done || apply digits_table).
  - unfold int_buf. rewrite length_app.
    pose proof (int_digits_length digits 32 _ base 10 (proj1 Hb') H10 ltac:(lia)) as Hl.
    destruct (sign && (xx <? 0)); cbn [length]; lia.
Qed.

Lemma printint_prints_number_witness :
  int_buf (-42) 10 true = [50; 52; 45] ∧ undigits 10 [50; 52] = 42.
Proof.
  destruct (printint_prints_number (-42) 10 true) as (ds & E & V & _).
  - by left.
  - lia.
  - change (int_buf (-42) 10 true) with [50; 52; 45] in *. split; [reflexivity|reflexivity].
Defined.
