(* ===== verification/Kbd.v ===== *)
(** * The keyboard ([kbd.c], [kbd.h])

    A pure automaton: the static variable [shift] is its state, what the two
    ports give is its input. *)

From stdpp Require Import base numbers list gmap strings.
From S2P Require Import Prelude Cprintf.

Definition KBS_DIB : Z := 0x01.
Definition NO : Z := 0.
Definition SHIFT : Z := 1.
Definition CTL : Z := 2.
Definition ALT : Z := 4.
Definition CAPSLOCK : Z := 8.
Definition NUMLOCK : Z := 16.
Definition SCROLLLOCK : Z := 32.
Definition E0ESC : Z := 64.

(** ** Translated tables *)

(** An array with designated initialisers. *)
Definition designated (l : list (Z * Z)) (i : Z) : Z :=
  match list_find (λ p, p.1 = i) l with
  | Some (_, p) => p.2
  | None => 0
  end.

Definition shiftcode : Z → Z :=
  designated [(0x1D, CTL); (0x2A, SHIFT); (0x36, SHIFT); (0x38, ALT); (0x9D, CTL); (0xB8, ALT)].
Definition togglecode : Z → Z :=
  designated [(0x3A, CAPSLOCK); (0x45, NUMLOCK); (0x46, SCROLLLOCK)].

(** The keys after an escape, the same in the three maps but for two. *)
Definition escaped (enter div : Z) : Z → Z :=
  designated [(0x9C, enter); (0xB5, div); (0xC8, 0xE2); (0xD0, 0xE3); (0xC9, 0xE6); (0xD1, 0xE7);
              (0xCB, 0xE4); (0xCD, 0xE5); (0x97, 0xE0); (0xCF, 0xE1); (0xD2, 0xE8); (0xD3, 0xE9)].

(** Positional entries, then the designated ones. *)
Definition keymap (l : list Z) (rest : Z → Z) (i : Z) : Z := default (rest i) (l !! Z.to_nat i).

Definition normalmap : Z → Z :=
  keymap ([NO; 27] ++ str "1234567890-=" ++ [8; 9] ++ str "qwertyuiop[]" ++ [10; NO] ++
          str "asdfghjkl;" ++ [39; 96; NO; 92] ++ str "zxcvbnm,./" ++ [NO] ++ str "*" ++ [NO; 32] ++
          replicate 13 NO ++ str "789-456+1230." ++ replicate 4 NO)
    (escaped 10 47).

Definition shiftmap : Z → Z :=
  keymap ([NO; 27] ++ str "!@#$%^&*()_+" ++ [8; 9] ++ str "QWERTYUIOP{}" ++ [10; NO] ++
          str "ASDFGHJKL:" ++ [34; 126; NO; 124] ++ str "ZXCVBNM<>?" ++ [NO] ++ str "*" ++ [NO; 32] ++
          replicate 13 NO ++ str "789-456+1230." ++ replicate 4 NO)
    (escaped 10 47).

(** [C(x)], in a [uchar]. *)
Definition C (x : Z) : Z := u8 (x - 64).

Definition ctlmap : Z → Z :=
  keymap (replicate 16 NO ++ (C <$> str "QWERTYUIOP") ++ [NO; NO; 13; NO] ++ (C <$> str "ASDFGHJKL") ++
          replicate 4 NO ++ (C <$> [92; 90; 88; 67; 86; 66; 78; 77]) ++ [NO; NO; C 47; NO; NO])
    (escaped 13 (C 47)).

Definition charcode (i : Z) : Z → Z :=
  if i =? 0 then normalmap else if i =? 1 then shiftmap else ctlmap.

(** ** Translated code *)

Definition clear (x mask : Z) : Z := Z.land x (u32 (Z.lnot mask)).

(** A key press that is not an escape: the new [shift] and the character. *)
Definition keydown (shift data : Z) : Z * Z :=
  let shift := Z.lor shift (shiftcode data) in
  let shift := Z.lxor shift (togglecode data) in
  let c := charcode (Z.land shift (Z.lor CTL SHIFT)) data in
  let c :=
    if Z.land shift CAPSLOCK =? 0 then c
    else if (97 <=? c) && (c <=? 122) then c - 32
    else if (65 <=? c) && (c <=? 90) then c + 32 else c in
  (shift, c).

(** [st] and [data] are what the status and the data port give. *)
Definition kbdgetc (shift st data : Z) : Z * Z :=
  if Z.land st KBS_DIB =? 0 then (shift, -1)
  else if data =? 0xE0 then (Z.lor shift E0ESC, 0)
  else if negb (Z.land data 0x80 =? 0) then
    let data := if Z.land shift E0ESC =? 0 then Z.land data 0x7F else data in
    (clear shift (Z.lor (shiftcode data) E0ESC), 0)
  else if negb (Z.land shift E0ESC =? 0) then keydown (clear shift E0ESC) (Z.lor data 0x80)
  else keydown shift data.

(** The characters a sequence of port readings gives [consoleintr], up to the
    first reading without data. *)
Fixpoint kbd_chars (shift : Z) (ports : list (Z * Z)) : Z * list Z :=
  match ports with
  | [] => (shift, [])
  | (st, data) :: ports =>
      let '(shift, c) := kbdgetc shift st data in
      if c <? 0 then (shift, []) else let '(shift, cs) := kbd_chars shift ports in (shift, c :: cs)
  end.

(** ** Facts *)

(** The variable [shift] never has another bit than the seven defined ones. *)
Definition shift_ok (s : Z) : Prop := 0 ≤ s < 128.
Definition byte (c : Z) : Prop := 0 ≤ c < 256.
#[local] Instance byte_dec c : Decision (byte c).
Proof. unfold byte. apply _. Defined.

(** Seven bits stay seven bits. *)
Lemma bits_bound n x : 0 ≤ n → (0 ≤ x < 2 ^ n ↔ 0 ≤ x ∧ ∀ i, n ≤ i → Z.testbit x i = false).
Proof.
  intros Hn. split.
  - intros Hx. split; [lia|]. intros i Hi. destruct (decide (x = 0)) as [->|]; [apply Z.testbit_0_l|].
    apply Z.bits_above_log2; [lia|]. assert (Z.log2 x < n) by (apply Z.log2_lt_pow2; lia). lia.
  - intros [Hx Hb]. split; [done|]. destruct (decide (x = 0)) as [->|]; [by apply Z.pow_pos_nonneg|].
    apply Z.log2_lt_pow2; [lia|]. destruct (Z.lt_ge_cases (Z.log2 x) n) as [|H]; [done|].
    specialize (Hb _ H). rewrite Z.bit_log2 in Hb by lia. done.
Qed.

Lemma shift_ok_bits s : shift_ok s ↔ 0 ≤ s ∧ ∀ i, 7 ≤ i → Z.testbit s i = false.
Proof. apply (bits_bound 7). lia. Qed.

Lemma shift_ok_lor s t : shift_ok s → shift_ok t → shift_ok (Z.lor s t).
Proof.
  rewrite !shift_ok_bits. intros [? Hs] [? Ht]. split; [by apply Z.lor_nonneg|]. intros i Hi. by rewrite Z.lor_spec, Hs, Ht.
Qed.
Lemma shift_ok_lxor s t : shift_ok s → shift_ok t → shift_ok (Z.lxor s t).
Proof.
  rewrite !shift_ok_bits. intros [? Hs] [? Ht]. split; [by apply Z.lxor_nonneg|]. intros i Hi. by rewrite Z.lxor_spec, Hs, Ht.
Qed.
Lemma shift_ok_clear s m : shift_ok s → shift_ok (clear s m).
Proof.
  rewrite !shift_ok_bits. intros [? Hs]. split; [apply Z.land_nonneg; by left|]. intros i Hi. unfold clear. by rewrite Z.land_spec, Hs.
Qed.

Lemma designated_all (P : Z → Prop) l i : P 0 → Forall (λ p, P p.2) l → P (designated l i).
Proof.
  intros H0 Hl. unfold designated. destruct (list_find _ l) as [[j p]|] eqn:E; [|done].
  apply list_find_Some in E as [E _]. exact (Forall_lookup_1 _ _ _ _ Hl E).
Qed.
Lemma keymap_all (P : Z → Prop) l rest i : Forall P l → P (rest i) → P (keymap l rest i).
Proof.
  intros Hl Hr. unfold keymap. destruct (l !! Z.to_nat i) as [c|] eqn:E; [|done]. exact (Forall_lookup_1 _ _ _ _ Hl E).
Qed.

Lemma shiftcode_ok i : shift_ok (shiftcode i).
Proof. apply (designated_all shift_ok); [done|]. by repeat constructor. Qed.
Lemma togglecode_ok i : shift_ok (togglecode i).
Proof. apply (designated_all shift_ok); [done|]. by repeat constructor. Qed.

Lemma charcode_byte i d : byte (charcode i d).
Proof.
  assert (∀ enter div, byte enter → byte div → byte (escaped enter div d)) as He.
  { intros enter div H1 H2. apply (designated_all byte); [done|]. repeat (apply Forall_cons; split; [done|]). by apply Forall_nil. }
  unfold charcode. repeat case_match; apply (keymap_all byte); try (apply (bool_decide_unpack _); vm_compute; exact I); by apply He.
Qed.

Lemma keydown_typed shift data : shift_ok shift → shift_ok (keydown shift data).1 ∧ byte (keydown shift data).2.
Proof.
  intros Hs. unfold keydown. cbn zeta. set (s := Z.lxor _ _). cbn [fst snd]. split.
  - apply shift_ok_lxor; [|apply togglecode_ok]. by apply shift_ok_lor; [|apply shiftcode_ok].
  - pose proof (charcode_byte (Z.land s (Z.lor CTL SHIFT)) data) as Hc. set (c := charcode _ _) in *. unfold byte in *.
    destruct (_ =? 0); [done|]. destruct (Z.leb_spec 97 c), (Z.leb_spec c 122), (Z.leb_spec 65 c), (Z.leb_spec c 90); cbn [andb]; lia.
Qed.

Lemma kbdgetc_typed shift st data :
  shift_ok shift → shift_ok (kbdgetc shift st data).1 ∧ ((kbdgetc shift st data).2 = -1 ∨ byte (kbdgetc shift st data).2).
Proof.
  intros Hs. unfold kbdgetc. destruct (_ =? 0); [split; [done|by left]|]. destruct (_ =? _).
  { split; [by apply shift_ok_lor|right; done]. }
  destruct (negb _); [split; [by apply shift_ok_clear|by right]|].
  destruct (negb _).
  - destruct (keydown_typed (clear shift E0ESC) (Z.lor data 128)) as [H1 H2]; [by apply shift_ok_clear|]. auto.
  - destruct (keydown_typed shift data Hs) as [H1 H2]. auto.
Qed.


