(* ===== verification/Vm.v ===== *)
(** * Page tables ([vm.c])

    Page directories and page tables are pages of memory, walked with the
    index macros of [mmu.h].  [pt_lookup] is what the hardware finds for an
    address; [pt_ok] is the invariant of a page table in use: its pages are
    distinct, aligned and not on the free list. *)

From stdpp Require Import base numbers list gmap strings.
From S2P Require Import Prelude Mmu Hardware Memory Kernel Spinlock Kalloc Cprintf.

Implicit Types (k : K) (o : oracle).

(** ** Translated code *)

Definition present (pte : Z) : bool := negb (Z.land pte PTE_P =? 0).

Definition rd32 (a : Z) : M Z := reads (λ k, ld32 (k_mem k) a).
Definition wr32 (a v : Z) : M unit := modify (λ k, set_k_mem (st32 (k_mem k) a v) k).
Definition kmemset (a c n : Z) : M unit := modify (λ k, set_k_mem (memset (k_mem k) a c n) k).
Definition kmemmove (d s n : Z) : M unit := modify (λ k, set_k_mem (memmove (k_mem k) d s n) k).

Definition walkpgdir (pgdir va : Z) (alloc : bool) : M Z :=
  let pde := pgdir + 4 * PDX va in
  let! e := rd32 pde in
  if present e then ret (P2V (PTE_ADDR e) + 4 * PTX va)
  else if negb alloc then ret 0
  else
    let! pgtab := kalloc in
    if pgtab =? 0 then ret 0
    else
      (* Make sure all those PTE_P bits are zero. *)
      kmemset pgtab 0 PGSIZE ;;;
      wr32 pde (Z.lor (Z.lor (Z.lor (V2P pgtab) PTE_P) PTE_W) PTE_U) ;;;
      ret (pgtab + 4 * PTX va).

Fixpoint mappages_loop (fuel : nat) (pgdir a last pa perm : Z) : M Z :=
  let! pte := walkpgdir pgdir a true in
  if pte =? 0 then ret (-1)
  else
    let! e := rd32 pte in
    if present e then panic "remap"
    else
      wr32 pte (Z.lor (Z.lor pa perm) PTE_P) ;;;
      if a =? last then ret 0
      else
        match fuel with
        | O => panic "out of fuel"
        | S fuel => mappages_loop fuel pgdir (u32 (a + PGSIZE)) last (u32 (pa + PGSIZE)) perm
        end.

Definition mappages (pgdir va size pa perm : Z) : M Z :=
  let a := PGROUNDDOWN va in
  let last := PGROUNDDOWN (u32 (va + size - 1)) in
  mappages_loop (Z.to_nat (u32 (last - a) / PGSIZE)) pgdir a last pa perm.

Fixpoint deallocuvm_loop (fuel : nat) (pgdir a oldsz : Z) : M unit :=
  if a <? oldsz then
    match fuel with
    | O => panic "out of fuel"
    | S fuel =>
        let! pte := walkpgdir pgdir a false in
        if pte =? 0 then
          deallocuvm_loop fuel pgdir
            (u32 (u32 (PGADDR (PDX a + 1) 0 0 - PGSIZE) + PGSIZE)) oldsz
        else
          let! e := rd32 pte in
          (if present e then
             let pa := PTE_ADDR e in
             if pa =? 0 then panic "kfree"
             else kfree (P2V pa) ;;; wr32 pte 0
           else ret tt) ;;;
          deallocuvm_loop fuel pgdir (u32 (a + PGSIZE)) oldsz
    end
  else ret tt.

Definition deallocuvm (pgdir oldsz newsz : Z) : M Z :=
  if oldsz <=? newsz then ret oldsz
  else
    let a := PGROUNDUP newsz in
    deallocuvm_loop (Z.to_nat (oldsz / PGSIZE + 1)) pgdir a oldsz ;;;
    ret newsz.

Fixpoint allocuvm_loop (fuel : nat) (pgdir a oldsz newsz : Z) : M Z :=
  if a <? newsz then
    match fuel with
    | O => panic "out of fuel"
    | S fuel =>
        let! m := kalloc in
        if m =? 0 then
          cprintf ("allocuvm out of memory" +:+ nl) [] ;;;
          deallocuvm pgdir newsz oldsz ;;;
          ret 0
        else
          kmemset m 0 PGSIZE ;;;
          let! r := mappages pgdir a PGSIZE (V2P m) (Z.lor PTE_W PTE_U) in
          if r <? 0 then
            cprintf ("allocuvm out of memory (2)" +:+ nl) [] ;;;
            deallocuvm pgdir newsz oldsz ;;;
            kfree m ;;;
            ret 0
          else allocuvm_loop fuel pgdir (u32 (a + PGSIZE)) oldsz newsz
    end
  else ret newsz.

Definition allocuvm (pgdir oldsz newsz : Z) : M Z :=
  if KERNBASE <=? newsz then ret 0
  else if newsz <? oldsz then ret oldsz
  else
    allocuvm_loop (Z.to_nat (newsz / PGSIZE + 1)) pgdir (PGROUNDUP oldsz) oldsz newsz.

(** The loop of [freevm] over the page directory. *)
Fixpoint freevm_tables (n : nat) (pgdir : Z) (i : Z) : M unit :=
  match n with
  | O => ret tt
  | S n =>
      let! e := rd32 (pgdir + 4 * i) in
      when (present e) (kfree (P2V (PTE_ADDR e))) ;;;
      freevm_tables n pgdir (i + 1)
  end.

Definition freevm (pgdir : Z) : M unit :=
  if pgdir =? 0 then panic "freevm: no pgdir"
  else
    deallocuvm pgdir KERNBASE 0 ;;;
    freevm_tables NPDENTRIES pgdir 0 ;;;
    kfree pgdir.

(** [kmap]: virtual address, physical start and end, permissions. *)
Definition kmap (k : K) : list (Z * Z * Z * Z) :=
  let data := ln_data (k_link k) in
  [ (KERNBASE, 0, EXTMEM, PTE_W);
    (KERNLINK, V2P KERNLINK, V2P data, 0);
    (data, V2P data, PHYSTOP, PTE_W);
    (DEVSPACE, DEVSPACE, 0, PTE_W) ].

Fixpoint setupkvm_loop (l : list (Z * Z * Z * Z)) (pgdir : Z) : M Z :=
  match l with
  | [] => ret pgdir
  | (virt, phys_start, phys_end, perm) :: l =>
      let! r := mappages pgdir virt (u32 (phys_end - phys_start)) phys_start perm in
      if r <? 0 then freevm pgdir ;;; ret 0 else setupkvm_loop l pgdir
  end.

Definition setupkvm : M Z :=
  let! pgdir := kalloc in
  if pgdir =? 0 then ret 0
  else
    kmemset pgdir 0 PGSIZE ;;;
    if DEVSPACE <? P2V PHYSTOP then panic "PHYSTOP too high"
    else
      let! l := reads kmap in
      setupkvm_loop l pgdir.

Definition lcr3 (v : Z) : M unit := modify (λ k, set_k_hw (set_h_cr3 v (k_hw k)) k).

Definition SIZEOF_TASKSTATE : Z := 104.
Definition SIZEOF_CPU : Z := 176.

(** [cpus[cpuid()].gdt] and the register that points at it. *)
Definition lgdt (p size : Z) : M unit := modify (λ k, set_k_hw (set_h_gdtr (u32 p, u16 (size - 1)) (k_hw k)) k).

Definition SIZEOF_SEGDESC : Z := 8.

(** [&cpus[c].gdt], after the task state. *)
Definition gdt_addr (cpus : Z) (c : nat) : Z := cpus + SIZEOF_CPU * Z.of_nat c + 8 + SIZEOF_TASKSTATE.

(** The descriptors [seginit] stores. *)
Definition kernel_gdt (g : list segdesc) : list segdesc :=
  let g := <[Z.to_nat SEG_KCODE := SEG (Z.lor STA_X STA_R) 0 0xffffffff 0]> g in
  let g := <[Z.to_nat SEG_KDATA := SEG STA_W 0 0xffffffff 0]> g in
  let g := <[Z.to_nat SEG_UCODE := SEG (Z.lor STA_X STA_R) 0 0xffffffff DPL_USER]> g in
  <[Z.to_nat SEG_UDATA := SEG STA_W 0 0xffffffff DPL_USER]> g.

Definition seginit : M unit :=
  let! c := cpuid in
  cpu_write (λ r, set_c_gdt (kernel_gdt (c_gdt r)) r) c ;;;
  let! cpus := reads (λ k, ln_cpus (k_link k)) in
  lgdt (gdt_addr cpus c) (Z.of_nat NSEGS * SIZEOF_SEGDESC).

Definition switchkvm : M unit :=
  let! p := reads k_kpgdir in
  lcr3 (V2P p).

Definition kvmalloc : M unit :=
  let! p := setupkvm in
  modify (set_k_kpgdir p) ;;;
  switchkvm.

Definition ltr (sel : Z) : M unit := modify (λ k, set_k_hw (set_h_tr (u16 sel) (k_hw k)) k).

(** [&cpus[c].ts], the field after the padded [apicid] and the pointer [scheduler]. *)
Definition ts_addr (cpus : Z) (c : nat) : Z := cpus + SIZEOF_CPU * Z.of_nat c + 8.

(** The assignments of [switchuvm] to the fields of [mycpu()]. *)
Definition load_tss (ts esp0 : Z) (r : cpu) : cpu :=
  let r := set_c_gdt (<[Z.to_nat SEG_TSS := SEG16 STS_T32A ts (SIZEOF_TASKSTATE - 1) 0]> (c_gdt r)) r in
  let r := set_c_gdt (alter (set_sd_s 0) (Z.to_nat SEG_TSS) (c_gdt r)) r in
  let r := set_c_ss0 (u16 (Z.shiftl SEG_KDATA 3)) r in
  let r := set_c_esp0 esp0 r in
  set_c_iomb (u16 0xFFFF) r.

Definition switchuvm (p : option nat) : M unit :=
  match p with
  | None => panic "switchuvm: no process"
  | Some i =>
      let! q := reads (λ k, k_ptable k !! i) in
      match q with
      | None => panic "bad process pointer"
      | Some q =>
          if p_kstack q =? 0 then panic "switchuvm: no kstack"
          else if p_pgdir q =? 0 then panic "switchuvm: no pgdir"
          else
            pushcli ;;;
            let! c := mycpu in
            let! cpus := reads (λ k, ln_cpus (k_link k)) in
            cpu_write (load_tss (ts_addr cpus c) (u32 (p_kstack q + KSTACKSIZE))) c ;;;
            ltr (Z.shiftl SEG_TSS 3) ;;;
            lcr3 (V2P (p_pgdir q)) ;;;
            popcli
      end
  end.

(** Storing the bytes of a kernel buffer. *)
Fixpoint st_bytes (m : mem) (a : Z) (l : list Z) : mem :=
  match l with
  | [] => m
  | c :: l => st_bytes (st8 m a c) (a + 1) l
  end.

Definition inituvm (pgdir : Z) (init : list Z) : M unit :=
  if PGSIZE <=? Z.of_nat (length init) then panic "inituvm: more than a page"
  else
    let! m := kalloc in
    kmemset m 0 PGSIZE ;;;
    mappages pgdir 0 PGSIZE (V2P m) (Z.lor PTE_W PTE_U) ;;;
    modify (λ k, set_k_mem (st_bytes (k_mem k) m init) k).

Definition clearpteu (pgdir uva : Z) : M unit :=
  let! pte := walkpgdir pgdir uva false in
  if pte =? 0 then panic "clearpteu"
  else
    let! e := rd32 pte in
    wr32 pte (Z.land e (u32 (Z.lnot PTE_U))).

Fixpoint copyuvm_loop (fuel : nat) (pgdir d i sz : Z) : M Z :=
  if i <? sz then
    match fuel with
    | O => panic "out of fuel"
    | S fuel =>
        let! pte := walkpgdir pgdir i false in
        if pte =? 0 then panic "copyuvm: pte should exist"
        else
          let! e := rd32 pte in
          if negb (present e) then panic "copyuvm: page not present"
          else
            let pa := PTE_ADDR e in
            let flags := PTE_FLAGS e in
            let! m := kalloc in
            if m =? 0 then freevm d ;;; ret 0
            else
              kmemmove m (P2V pa) PGSIZE ;;;
              let! r := mappages d i PGSIZE (V2P m) flags in
              if r <? 0 then kfree m ;;; freevm d ;;; ret 0
              else copyuvm_loop fuel pgdir d (u32 (i + PGSIZE)) sz
    end
  else ret d.

Definition copyuvm (pgdir sz : Z) : M Z :=
  let! d := setupkvm in
  if d =? 0 then ret 0
  else copyuvm_loop (Z.to_nat (sz / PGSIZE + 1)) pgdir d 0 sz.

(** *** Accesses of the kernel through the current page table

    A kernel access below [KERNBASE] goes through the page table in [cr3];
    without a mapping it is a fault in the kernel, on which [trap] panics. *)

Definition pt_lookup (m : mem) (pgdir va : Z) : Z :=
  let e := ld32 m (pgdir + 4 * PDX va) in
  if present e then ld32 m (P2V (PTE_ADDR e) + 4 * PTX va) else 0.

Definition translate (k : K) (va : Z) : option Z :=
  if KERNBASE <=? va then Some va
  else
    let e := pt_lookup (k_mem k) (P2V (h_cr3 (k_hw k))) va in
    if present e then Some (P2V (PTE_ADDR e) + va mod PGSIZE) else None.

Definition vrd8 (va : Z) : M Z :=
  let! a := reads (λ k, translate k va) in
  match a with
  | Some a => reads (λ k, ld8 (k_mem k) a)
  | None => panic "trap"
  end.

Definition vwr8 (va v : Z) : M unit :=
  let! a := reads (λ k, translate k va) in
  match a with
  | Some a => modify (λ k, set_k_mem (st8 (k_mem k) a v) k)
  | None => panic "trap"
  end.

Definition vrd32 (va : Z) : M Z :=
  let! b0 := vrd8 va in
  let! b1 := vrd8 (va + 1) in
  let! b2 := vrd8 (va + 2) in
  let! b3 := vrd8 (va + 3) in
  ret (b0 + 256 * b1 + 65536 * b2 + 16777216 * b3).

Definition vwr32 (va v : Z) : M unit :=
  vwr8 va v ;;; vwr8 (va + 1) (v / 256) ;;;
  vwr8 (va + 2) (v / 65536) ;;; vwr8 (va + 3) (v / 16777216).

(** [pte] is dereferenced without a null check, so for an address that has
    no page table the first word of user memory is read. *)
Definition uva2ka (pgdir uva : Z) : M Z :=
  let! pte := walkpgdir pgdir uva false in
  let! e := vrd32 pte in
  if negb (present e) then ret 0
  else
    let! e := vrd32 pte in
    if Z.land e PTE_U =? 0 then ret 0
    else
      let! e := vrd32 pte in
      ret (P2V (PTE_ADDR e)).

Fixpoint copyout_loop (fuel : nat) (pgdir va : Z) (buf : list Z) : M Z :=
  match buf with
  | [] => ret 0
  | _ =>
      match fuel with
      | O => panic "out of fuel"
      | S fuel =>
          let va0 := PGROUNDDOWN va in
          let! pa0 := uva2ka pgdir va0 in
          if pa0 =? 0 then ret (-1)
          else
            let n := Z.min (PGSIZE - (va - va0)) (Z.of_nat (length buf)) in
            modify (λ k, set_k_mem
              (st_bytes (k_mem k) (pa0 + (va - va0)) (take (Z.to_nat n) buf)) k) ;;;
            copyout_loop fuel pgdir (u32 (va0 + PGSIZE)) (drop (Z.to_nat n) buf)
      end
  end.

Definition copyout (pgdir va : Z) (buf : list Z) : M Z :=
  copyout_loop (length buf) pgdir va buf.

(** ** Page-table entries *)

Lemma present_eq e : present e = (e mod 2 =? 1).
Proof.
  unfold present, PTE_P. change 0x001 with (2 ^ 1 - 1). rewrite land_low_mask by lia.
  change (2 ^ 1) with 2. pose proof (Z.mod_pos_bound e 2). repeat case_test; lia || done.
Qed.

Definition kpage (p : Z) : Prop := p mod 4096 = 0 ∧ KERNBASE ≤ p < KERNBASE + PHYSTOP.

Lemma page_ok_kpage k p : page_ok k p → kpage p.
Proof. intros (? & ? & _). done. Qed.

Lemma V2P_kpage p : kpage p → V2P p = p - KERNBASE.
Proof. unfold kpage, V2P, KERNBASE, PHYSTOP. intros [? ?].
  rewrite (u32_small p), u32_small by lia. done.
Qed.

(** An entry that refers to page [p] with flag bits [f]. *)
Lemma pte_make p f :
  kpage p → 0 ≤ f < 4096 → Z.lor (V2P p) f = p - KERNBASE + f.
Proof.
  intros Hp Hf. rewrite V2P_kpage by done. destruct Hp as [Ha Hr].
  replace (p - KERNBASE) with (Z.shiftl ((p - KERNBASE) / 4096) 12).
  - rewrite lor_disjoint by lia. rewrite Z.shiftl_mul_pow2 by lia. done.
  - rewrite Z.shiftl_mul_pow2 by lia. change (2 ^ 12) with 4096. unfold KERNBASE. lia_mod.
Qed.

Lemma pte_frame p f :
  kpage p → 0 ≤ f < 4096 → P2V (PTE_ADDR (p - KERNBASE + f)) = p.
Proof.
  intros [Ha Hr] Hf. rewrite PTE_ADDR_eq. unfold P2V, KERNBASE, PHYSTOP, u32 in *. lia_mod.
Qed.

Lemma pte_flags p f : kpage p → 0 ≤ f < 4096 → PTE_FLAGS (p - KERNBASE + f) = f.
Proof. intros [Ha Hr] Hf. rewrite PTE_FLAGS_eq. unfold KERNBASE, PHYSTOP, u32 in *. lia_mod. Qed.

Lemma pte_present p f : kpage p → 0 ≤ f < 4096 → f mod 2 = 1 → present (p - KERNBASE + f) = true.
Proof. intros [Ha Hr] Hf H1. rewrite present_eq. unfold KERNBASE in *. case_test; [done|lia_mod]. Qed.

Lemma pte_range p f : kpage p → 0 ≤ f < 4096 → u32 (p - KERNBASE + f) = p - KERNBASE + f.
Proof. intros [Ha Hr] Hf. apply u32_small. unfold KERNBASE, PHYSTOP in *. lia. Qed.

(** ** The invariant of a page table *)

Definition pde (m : mem) (pgdir d : Z) : Z := ld32 m (pgdir + 4 * d).
Definition pt_tab (m : mem) (pgdir d : Z) : Z := P2V (PTE_ADDR (pde m pgdir d)).

(** The pages of the table are distinct pages, none of them in [avoid]. *)
Record pt_ok (m : mem) (pgdir : Z) (avoid : list Z) : Prop := {
  pt_dir : kpage pgdir;
  pt_dir_avoid : pgdir ∉ avoid;
  pt_tab_page d : 0 ≤ d < 1024 → present (pde m pgdir d) = true → kpage (pt_tab m pgdir d);
  pt_tab_dir d : 0 ≤ d < 1024 → present (pde m pgdir d) = true → pt_tab m pgdir d ≠ pgdir;
  pt_tab_avoid d : 0 ≤ d < 1024 → present (pde m pgdir d) = true → pt_tab m pgdir d ∉ avoid;
  pt_tab_inj d d' : 0 ≤ d < 1024 → 0 ≤ d' < 1024 → d ≠ d' →
    present (pde m pgdir d) = true → present (pde m pgdir d') = true →
    pt_tab m pgdir d ≠ pt_tab m pgdir d'
}.

Definition in_page (x p : Z) : Prop := p ≤ x < p + 4096.

(** The byte at [x] belongs to the page table. *)
Definition in_pt (m : mem) (pgdir x : Z) : Prop :=
  in_page x pgdir ∨
  ∃ d, 0 ≤ d < 1024 ∧ present (pde m pgdir d) = true ∧ in_page x (pt_tab m pgdir d).

Lemma in_page_disjoint x p q : p mod 4096 = 0 → q mod 4096 = 0 → in_page x p → in_page x q → p = q.
Proof. unfold in_page. intros. lia_mod. Qed.

Lemma pde_ext m m' pgdir d :
  0 ≤ d < 1024 → (∀ x, in_page x pgdir → ld8 m' x = ld8 m x) → pde m' pgdir d = pde m pgdir d.
Proof. intros Hd He. apply ld32_ext. intros x Hx. apply He. unfold in_page. lia. Qed.

(** Memory outside the pages of the table does not matter to it. *)
Lemma pt_lookup_ext m m' pgdir va :
  (∀ x, in_pt m pgdir x → ld8 m' x = ld8 m x) → pt_lookup m' pgdir va = pt_lookup m pgdir va.
Proof.
  intros He. pose proof (PDX_range va). pose proof (PTX_range va).
  assert (pde m' pgdir (PDX va) = pde m pgdir (PDX va)) as Hpde
    by (apply pde_ext; [done|]; intros; apply He; by left).
  unfold pt_lookup. change (ld32 m' (pgdir + 4 * PDX va)) with (pde m' pgdir (PDX va)).
  rewrite Hpde. change (ld32 m (pgdir + 4 * PDX va)) with (pde m pgdir (PDX va)).
  destruct (present (pde m pgdir (PDX va))) eqn:Hp; [|done].
  apply ld32_ext. intros x Hx. apply He. right. exists (PDX va). split_and!; [lia..|done|].
  unfold in_page, pt_tab. lia.
Qed.

Lemma pt_ok_ext m m' pgdir avoid :
  (∀ x, in_page x pgdir → ld8 m' x = ld8 m x) → pt_ok m pgdir avoid → pt_ok m' pgdir avoid.
Proof.
  intros He [H1 H2 H3 H4 H5 H6].
  assert (∀ d, 0 ≤ d < 1024 → pde m' pgdir d = pde m pgdir d) as Hpde by (intros; by apply pde_ext).
  assert (∀ d, 0 ≤ d < 1024 → pt_tab m' pgdir d = pt_tab m pgdir d) as Htab
    by (intros; unfold pt_tab; by rewrite Hpde).
  split; [done..| | | |].
  - intros d Hd. rewrite Hpde, Htab by done. auto.
  - intros d Hd. rewrite Hpde, Htab by done. auto.
  - intros d Hd. rewrite Hpde, Htab by done. auto.
  - intros d d' Hd Hd' ?. rewrite !Hpde, !Htab by done. auto.
Qed.

Lemma pt_ok_avoid m pgdir avoid avoid' :
  (∀ p, p ∈ avoid' → p ∈ avoid) → pt_ok m pgdir avoid → pt_ok m pgdir avoid'.
Proof. intros Hs [H1 H2 H3 H4 H5 H6]. split; [done|naive_solver|done|done|naive_solver|done]. Qed.

(** ** Slots *)

(** The page an address lies in. *)
Definition vpn (va : Z) : Z := u32 va / 4096.

Lemma vpn_eq va va' : vpn va = vpn va' ↔ PDX va = PDX va' ∧ PTX va = PTX va'.
Proof.
  rewrite !PDX_eq, !PTX_eq. unfold vpn.
  pose proof (u32_range va). pose proof (u32_range va'). lia_mod.
Qed.

Definition pte_slot (m : mem) (pgdir va pte : Z) : Prop :=
  present (pde m pgdir (PDX va)) = true ∧ pte = pt_tab m pgdir (PDX va) + 4 * PTX va.

Lemma slot_lookup m pgdir va pte : pte_slot m pgdir va pte → ld32 m pte = pt_lookup m pgdir va.
Proof.
  intros [Hp ->]. unfold pt_lookup. unfold pde in Hp. by rewrite Hp.
Qed.

Lemma slot_in_tab m pgdir avoid va pte x :
  pt_ok m pgdir avoid → pte_slot m pgdir va pte → pte ≤ x < pte + 4 →
  in_page x (pt_tab m pgdir (PDX va)).
Proof. intros Hok [Hp ->] Hx. pose proof (PTX_range va). unfold in_page. lia. Qed.

Lemma slot_pos m pgdir avoid va pte :
  pt_ok m pgdir avoid → pte_slot m pgdir va pte → KERNBASE ≤ pte ∧ pte mod 4 = 0.
Proof.
  intros Hok [Hp ->]. pose proof (PTX_range va). pose proof (PDX_range va).
  destruct (pt_tab_page _ _ _ Hok (PDX va)) as [Ha Hr]; [lia|done|]. split; [lia|]. lia_mod.
Qed.

(** Storing an entry changes the mapping of its page and nothing else. *)
Lemma slot_store m pgdir avoid va pte v :
  pt_ok m pgdir avoid → pte_slot m pgdir va pte →
  pt_ok (st32 m pte v) pgdir avoid ∧
  (∀ d, 0 ≤ d < 1024 → pde (st32 m pte v) pgdir d = pde m pgdir d) ∧
  (∀ va', pt_lookup (st32 m pte v) pgdir va' =
          if vpn va' =? vpn va then u32 v else pt_lookup m pgdir va').
Proof.
  intros Hok Hs. pose proof Hs as [Hp Hpte].
  pose proof (PDX_range va) as Hd. pose proof (PTX_range va) as Ht.
  pose proof (pt_tab_page _ _ _ Hok (PDX va) Hd Hp) as [Hta Htr].
  pose proof (pt_tab_dir _ _ _ Hok (PDX va) Hd Hp) as Hne.
  destruct (pt_dir _ _ _ Hok) as [Hda _].
  assert (∀ x, in_page x pgdir → ld8 (st32 m pte v) x = ld8 m x) as Hdir.
  { intros x Hx. rewrite ld8_st32.
    assert (¬ in_page x (pt_tab m pgdir (PDX va))) as Hnx
      by (intros Hx'; apply Hne; by eapply in_page_disjoint).
    unfold in_page in Hnx. repeat (case_test; try lia); done. }
  assert (∀ d, 0 ≤ d < 1024 → pde (st32 m pte v) pgdir d = pde m pgdir d) as Hpde
    by (intros; by apply pde_ext).
  split_and!; [by eapply pt_ok_ext|done|]. intros va'.
  pose proof (PDX_range va') as Hd'. pose proof (PTX_range va') as Ht'.
  unfold pt_lookup. fold (pde (st32 m pte v) pgdir (PDX va')). rewrite Hpde by done.
  fold (pde m pgdir (PDX va')). destruct (Z.eqb_spec (vpn va') (vpn va)) as [E|E].
  - apply vpn_eq in E as [Ed Et]. rewrite Ed, Hp, Et. fold (pt_tab m pgdir (PDX va)).
    rewrite <- Hpte. apply ld32_st32_eq.
  - destruct (present (pde m pgdir (PDX va'))) eqn:Hp'; [|done].
    fold (pt_tab m pgdir (PDX va')). apply ld32_st32_ne.
    destruct (decide (PDX va' = PDX va)) as [Ed|Ed].
    + rewrite Ed in *. assert (PTX va' ≠ PTX va) by (intros Et; apply E; by apply vpn_eq). lia.
    + pose proof (pt_tab_inj _ _ _ Hok _ _ Hd' Hd Ed Hp' Hp) as Hnt.
      pose proof (pt_tab_page _ _ _ Hok _ Hd' Hp') as [Hta' _].
      pose proof (pages_disjoint _ _ Hta' Hta Hnt). lia.
Qed.

(** ** Walking *)

Lemma walkpgdir_noalloc pgdir va o k :
  walkpgdir pgdir va false o k =
  Ret (if present (pde (k_mem k) pgdir (PDX va))
       then pt_tab (k_mem k) pgdir (PDX va) + 4 * PTX va else 0) o k.
Proof.
  unfold walkpgdir, rd32. rewrite bind_reads. fold (pde (k_mem k) pgdir (PDX va)).
  by destruct (present _).
Qed.

Lemma walkpgdir_present pgdir va alloc o k :
  present (pde (k_mem k) pgdir (PDX va)) = true →
  walkpgdir pgdir va alloc o k = Ret (pt_tab (k_mem k) pgdir (PDX va) + 4 * PTX va) o k.
Proof.
  intros Hp. unfold walkpgdir, rd32. rewrite bind_reads. fold (pde (k_mem k) pgdir (PDX va)).
  by rewrite Hp.
Qed.

(** What installing a fresh, zeroed page table does. *)
Definition walk_st (pgdir va p : Z) (k : K) : K :=
  let k := kalloc_st k in
  set_k_mem (st32 (memset (k_mem k) p 0 PGSIZE) (pgdir + 4 * PDX va) (p - KERNBASE + 7)) k.

Lemma walkpgdir_alloc_run pgdir va o k p l :
  kmem_ready k → free_ok k (p :: l) → present (pde (k_mem k) pgdir (PDX va)) = false →
  walkpgdir pgdir va true o k = Ret (p + 4 * PTX va) o (walk_st pgdir va p k).
Proof.
  intros Hr Hf Hp. unfold walkpgdir, rd32. rewrite bind_reads.
  fold (pde (k_mem k) pgdir (PDX va)). rewrite Hp. cbn [negb].
  kstep_with (kalloc_run o k Hr). destruct Hf as ((-> & _) & Hpk & _).
  apply Forall_cons in Hpk as [Hpk _]. pose proof (page_ok_range _ _ Hpk).
  destruct (Z.eqb_spec p 0); [lia|]. unfold kmemset, wr32. kstep.
  rewrite <- !Z.lor_assoc. change (Z.lor PTE_P (Z.lor PTE_W PTE_U)) with 7.
  by rewrite pte_make by (lia || by eapply page_ok_kpage).
Qed.

Lemma ld8_walk_st pgdir va p k x :
  ¬ (pgdir + 4 * PDX va ≤ x < pgdir + 4 * PDX va + 4) → ¬ in_page x p →
  ld8 (k_mem (walk_st pgdir va p k)) x = ld8 (k_mem k) x.
Proof.
  intros Hx Hp. unfold walk_st, PGSIZE. cbn. rewrite ld8_st32, ld8_memset by lia.
  replace (k_mem (kalloc_st k)) with (k_mem k) by (unfold kalloc_st; by case_test).
  unfold in_page in Hp. repeat (case_test; try lia); done.
Qed.

(** ** The invariant that the operations preserve

    [l] is the free list and [E] are pages owned by somebody else, such as
    the pages mapped for user memory. *)

Record vm_inv (k : K) (pgdir : Z) (E l : list Z) : Prop := {
  vi_ready : kmem_ready k;
  vi_free : free_ok k l;
  vi_pt : pt_ok (k_mem k) pgdir (E ++ l);
  vi_nodup : NoDup (E ++ l);
  vi_own : Forall (page_ok k) E;
  vi_link : KERNLINK ≤ ln_end (k_link k)
}.

(** An operation on the page table [pgdir] that uses the pages [S] changes
    memory and the free list only, and memory only in those pages. *)
Record vm_step (pgdir : Z) (S : list Z) (k k' : K) : Prop := {
  vs_rest : k' = set_k_freelist (k_freelist k') (set_k_mem (k_mem k') k);
  vs_mem x : ¬ in_pt (k_mem k) pgdir x → (∀ p, p ∈ S → ¬ in_page x p) →
    ld8 (k_mem k') x = ld8 (k_mem k) x;
  vs_grow x : in_pt (k_mem k') pgdir x → in_pt (k_mem k) pgdir x ∨ ∃ p, p ∈ S ∧ in_page x p
}.

Lemma vm_step_refl pgdir S k : vm_step pgdir S k k.
Proof. split; [by destruct k|done|auto]. Qed.

Lemma vm_step_trans pgdir S k1 k2 k3 :
  vm_step pgdir S k1 k2 → vm_step pgdir S k2 k3 → vm_step pgdir S k1 k3.
Proof.
  intros [R1 M1 G1] [R2 M2 G2]. split.
  - rewrite R2, R1 at 1. done.
  - intros x Hx HS. rewrite M2; [by apply M1| |done].
    intros [?|(p & ? & ?)]%G1; [done|naive_solver].
  - intros x [Hx|?]%G2; auto.
Qed.

Lemma vm_step_mono pgdir S S' k k' :
  (∀ p, p ∈ S → p ∈ S') → vm_step pgdir S k k' → vm_step pgdir S' k k'.
Proof. intros HS [R M' G]. split; [done|naive_solver|naive_solver]. Qed.

Lemma vm_step_hw pgdir S k k' : vm_step pgdir S k k' → k_hw k' = k_hw k.
Proof. intros [-> _ _]. done. Qed.
Lemma vm_step_link pgdir S k k' : vm_step pgdir S k k' → k_link k' = k_link k.
Proof. intros [-> _ _]. done. Qed.

(** Pages of [E] keep their contents. *)
Lemma vm_step_own pgdir E l k k' p x :
  vm_inv k pgdir E l → vm_step pgdir l k k' → p ∈ E → in_page x p →
  ld8 (k_mem k') x = ld8 (k_mem k) x.
Proof.
  intros [Hr Hf Hpt Hnd Hown Hln] Hs Hp Hx.
  pose proof (proj1 (Forall_forall _ _) Hown p Hp) as Hpp%page_ok_kpage.
  apply (vs_mem _ _ _ _ Hs).
  - intros [Hd|(d & Hd & Hdp & Ht)].
    + apply (pt_dir_avoid _ _ _ Hpt). apply elem_of_app. left.
      rewrite (in_page_disjoint x pgdir p); try done; [apply (pt_dir _ _ _ Hpt)|apply Hpp].
    + apply (pt_tab_avoid _ _ _ Hpt d Hd Hdp). apply elem_of_app. left.
      rewrite (in_page_disjoint x (pt_tab (k_mem k) pgdir d) p); try done;
        [by apply (pt_tab_page _ _ _ Hpt d Hd Hdp)|apply Hpp].
  - intros q Hq Hxq. apply NoDup_app in Hnd as (_ & Hdis & _). apply (Hdis p Hp).
    destruct Hf as (_ & Hfp & _). pose proof (proj1 (Forall_forall _ _) Hfp q Hq) as (Hqa & _).
    rewrite (in_page_disjoint x p q); try done. apply Hpp.
Qed.

Lemma free_ok_tail k p l : free_ok k (p :: l) → free_ok (kalloc_st k) l.
Proof.
  intros (Hf & Hp & Hnd). destruct Hf as [Hf Hf']. unfold kalloc_st. rewrite Hf.
  apply Forall_cons in Hp as [Hpp Hp]. apply NoDup_cons in Hnd as [_ Hnd].
  pose proof (page_ok_range _ _ Hpp). destruct (Z.eqb_spec p 0); [lia|]. done.
Qed.

Lemma kalloc_st_rest k : kalloc_st k = set_k_freelist (k_freelist (kalloc_st k)) k.
Proof. unfold kalloc_st. case_test; by destruct k. Qed.

(** The free list survives stores outside the free pages. *)
Lemma free_ok_mem k m l :
  free_ok k l → (∀ p x, p ∈ l → in_page x p → ld8 m x = ld8 (k_mem k) x) →
  free_ok (set_k_mem m k) l.
Proof.
  intros (Hf & Hp & Hnd) He. split; [|done]. eapply flist_ext; [done|].
  intros p Hpl. apply ld32_ext. intros x Hx. cbn. apply (He p); [done|].
  unfold in_page. lia.
Qed.

Section walk_fresh_table.
Context (pgdir va : Z) (k : K) (p : Z) (l E : list Z).
Hypothesis Hinv : vm_inv k pgdir E (p :: l).
Hypothesis Hnp : present (pde (k_mem k) pgdir (PDX va)) = false.

#[local] Notation wk := (walk_st pgdir va p k).

Lemma walk_page : page_ok k p.
Proof. destruct Hinv as [_ (_ & H%Forall_cons & _) _ _ _ _]. apply H. Qed.

Lemma walk_page_dir : p ≠ pgdir.
Proof. intros ->. apply (pt_dir_avoid _ _ _ (vi_pt _ _ _ _ Hinv)). set_solver. Qed.

Lemma walk_page_disjoint x : in_page x p → ¬ in_page x pgdir.
Proof.
  intros Hx Hx'. apply walk_page_dir. eapply in_page_disjoint; [..|done|done].
  - apply walk_page.
  - apply (pt_dir _ _ _ (vi_pt _ _ _ _ Hinv)).
Qed.

Lemma walk_mem x :
  ¬ (pgdir + 4 * PDX va ≤ x < pgdir + 4 * PDX va + 4) →
  ld8 (k_mem wk) x = if (p <=? x) && (x <? p + 4096) then 0 else ld8 (k_mem k) x.
Proof.
  intros Hx. unfold walk_st, PGSIZE. cbn. rewrite ld8_st32, ld8_memset by lia.
  replace (k_mem (kalloc_st k)) with (k_mem k) by (unfold kalloc_st; by case_test).
  repeat (case_test; try lia); done.
Qed.

Lemma walk_pde_new : pde (k_mem wk) pgdir (PDX va) = p - KERNBASE + 7.
Proof.
  unfold pde, walk_st. cbn. rewrite ld32_st32_eq.
  apply pte_range; [by eapply page_ok_kpage, walk_page|lia].
Qed.

Lemma walk_pde d : 0 ≤ d < 1024 → d ≠ PDX va → pde (k_mem wk) pgdir d = pde (k_mem k) pgdir d.
Proof.
  intros Hd Hne. apply ld32_ext. intros x Hx. pose proof (PDX_range va). rewrite walk_mem by lia.
  assert (¬ in_page x p) as Hnx
    by (intros Hx'; apply (walk_page_disjoint x Hx'); unfold in_page; lia).
  unfold in_page in Hnx. repeat (case_test; try lia); done.
Qed.

Lemma walk_tab_new : pt_tab (k_mem wk) pgdir (PDX va) = p.
Proof. unfold pt_tab. rewrite walk_pde_new. apply pte_frame; [eapply page_ok_kpage, walk_page|lia]. Qed.

Lemma walk_tab d : 0 ≤ d < 1024 → d ≠ PDX va → pt_tab (k_mem wk) pgdir d = pt_tab (k_mem k) pgdir d.
Proof. intros. unfold pt_tab. by rewrite walk_pde. Qed.

Lemma walk_slot : pte_slot (k_mem wk) pgdir va (p + 4 * PTX va).
Proof.
  split; [|by rewrite walk_tab_new]. rewrite walk_pde_new.
  apply pte_present; [eapply page_ok_kpage, walk_page|lia|done].
Qed.

Lemma walk_pt_ok : pt_ok (k_mem wk) pgdir (E ++ l).
Proof.
  destruct (vi_pt _ _ _ _ Hinv) as [H1 H2 H3 H4 H5 H6].
  pose proof (page_ok_kpage _ _ walk_page) as Hp.
  assert (p ∉ E ++ l) as Hpn.
  { pose proof (vi_nodup _ _ _ _ Hinv) as (_ & Hd & [Hpl _]%NoDup_cons)%NoDup_app.
    rewrite elem_of_app. intros [?|?]; [|done]. eapply Hd; [done|left]. }
  split; [done|set_solver| | | |].
  - intros d Hd Hpr. destruct (decide (d = PDX va)) as [->|Hn]; [by rewrite walk_tab_new|].
    rewrite walk_tab by done. apply H3; [done|]. by rewrite <- walk_pde.
  - intros d Hd Hpr. destruct (decide (d = PDX va)) as [->|Hn].
    + rewrite walk_tab_new. apply walk_page_dir.
    + rewrite walk_tab by done. apply H4; [done|]. by rewrite <- walk_pde.
  - intros d Hd Hpr. destruct (decide (d = PDX va)) as [->|Hn]; [by rewrite walk_tab_new|].
    rewrite walk_tab by done. rewrite walk_pde in Hpr by done. specialize (H5 d Hd Hpr). set_solver.
  - intros d d' Hd Hd' Hne Hpr Hpr'.
    destruct (decide (d = PDX va)) as [->|Hn], (decide (d' = PDX va)) as [->|Hn']; [done|..].
    + rewrite walk_tab_new, walk_tab by done. rewrite walk_pde in Hpr' by done.
      intros Heq. apply (H5 d' Hd' Hpr'). rewrite <- Heq. set_solver.
    + rewrite walk_tab_new, walk_tab by done. rewrite walk_pde in Hpr by done.
      intros Heq. apply (H5 d Hd Hpr). rewrite Heq. set_solver.
    + rewrite !walk_tab by done. rewrite !walk_pde in * by done. by apply H6.
Qed.

Lemma walk_lookup va' : pt_lookup (k_mem wk) pgdir va' = pt_lookup (k_mem k) pgdir va'.
Proof.
  pose proof (PDX_range va') as Hd. pose proof (PTX_range va') as Ht.
  unfold pt_lookup. fold (pde (k_mem wk) pgdir (PDX va')) (pde (k_mem k) pgdir (PDX va')).
  destruct (decide (PDX va' = PDX va)) as [Ed|Ed].
  - rewrite Ed, Hnp. destruct walk_slot as [-> _]. fold (pt_tab (k_mem wk) pgdir (PDX va)).
    rewrite walk_tab_new. pose proof (page_ok_kpage _ _ walk_page) as [Hpa _].
    unfold ld32. rewrite !walk_mem; [repeat (case_test; try lia); done|..].
    all: intros Hx; pose proof (PDX_range va);
      match type of Hx with _ ≤ ?x < _ => apply (walk_page_disjoint x) end; unfold in_page; lia.
  - rewrite walk_pde by done. destruct (present (pde (k_mem k) pgdir (PDX va'))) eqn:Hp; [|done].
    fold (pt_tab (k_mem k) pgdir (PDX va')). apply ld32_ext. intros x Hx.
    destruct (vi_pt _ _ _ _ Hinv) as [[Hda _] _ H3 H4 H5 _].
    destruct (H3 _ Hd Hp) as [Hta _]. specialize (H4 _ Hd Hp). specialize (H5 _ Hd Hp).
    assert (in_page x (pt_tab (k_mem k) pgdir (PDX va'))) as Hxt by (unfold in_page; lia).
    assert (¬ in_page x pgdir) as Hxd by (intros ?; apply H4; by eapply in_page_disjoint).
    assert (¬ in_page x p) as Hxp.
    { intros ?. apply H5. rewrite (in_page_disjoint x _ p); [set_solver|done|apply walk_page|done..]. }
    pose proof (PDX_range va). unfold in_page in *. rewrite walk_mem by lia.
    repeat (case_test; try lia); done.
Qed.
End walk_fresh_table.

Lemma walk_inv pgdir va k p l E :
  vm_inv k pgdir E (p :: l) → present (pde (k_mem k) pgdir (PDX va)) = false →
  vm_inv (walk_st pgdir va p k) pgdir E l.
Proof.
  intros Hinv Hnp. pose proof Hinv as [Hr Hf Hpt Hnd Hown Hln].
  assert (k_hw (walk_st pgdir va p k) = k_hw k) as Hhw
    by (unfold walk_st; cbn; rewrite kalloc_st_rest; done).
  assert (k_link (walk_st pgdir va p k) = k_link k) as Hlk
    by (unfold walk_st; cbn; rewrite kalloc_st_rest; done).
  split.
  - unfold kmem_ready. by rewrite Hhw.
  - apply (free_ok_mem (kalloc_st k)); [by eapply free_ok_tail|]. intros q x Hq Hx.
    change (ld8 (k_mem (walk_st pgdir va p k)) x = ld8 (k_mem (kalloc_st k)) x).
    replace (k_mem (kalloc_st k)) with (k_mem k) by (unfold kalloc_st; by case_test).
    assert (page_ok k q ∧ q ≠ p) as [Hqp Hne].
    { destruct Hf as (_ & [_ Hfp]%Forall_cons & [Hn _]%NoDup_cons).
      split; [by apply (proj1 (Forall_forall _ _) Hfp)|]. by intros ->. }
    pose proof (walk_page _ _ _ _ _ Hinv) as Hpp.
    assert (¬ in_page x p) as Hxp by (intros ?; apply Hne; by eapply in_page_disjoint; [apply Hqp|apply Hpp|..]).
    assert (¬ in_page x pgdir) as Hxd.
    { intros ?. apply (pt_dir_avoid _ _ _ Hpt). rewrite (in_page_disjoint x pgdir q); [set_solver|..|done|done];
        [apply (pt_dir _ _ _ Hpt)|apply Hqp]. }
    pose proof (PDX_range va). unfold in_page in *.
    rewrite ld8_walk_st; [done|lia|unfold in_page; lia].
  - exact (walk_pt_ok pgdir va k p l E Hinv Hnp).
  - apply NoDup_app in Hnd as (? & Hd & [_ ?]%NoDup_cons). apply NoDup_app. set_solver.
  - eapply Forall_impl; [done|]. unfold page_ok. by rewrite Hlk.
  - by rewrite Hlk.
Qed.

Lemma walk_step pgdir va k p l E :
  vm_inv k pgdir E (p :: l) → present (pde (k_mem k) pgdir (PDX va)) = false →
  vm_step pgdir (p :: l) k (walk_st pgdir va p k).
Proof.
  intros Hinv Hnp. split.
  - unfold walk_st, kalloc_st. case_test; by destruct k.
  - intros x Hx HS. pose proof (PDX_range va). apply ld8_walk_st.
    + intros ?. apply Hx. left. unfold in_page. lia.
    + apply HS. left.
  - intros x [Hx|(d & Hd & Hp & Hx)]; [by left; left|].
    destruct (decide (d = PDX va)) as [->|Hne].
    + rewrite (walk_tab_new _ _ _ _ _ _ Hinv) in Hx. right. exists p. split; [left|done].
    + rewrite (walk_tab _ _ _ _ _ _ Hinv) in Hx by done.
      rewrite (walk_pde _ _ _ _ _ _ Hinv) in Hp by done. left. right. eauto.
Qed.

(** [walkpgdir] with [alloc]: it finds or makes the slot and changes no
    mapping, or reports that memory ran out. *)
Lemma walkpgdir_spec pgdir va o k E l :
  vm_inv k pgdir E l →
  (l = [] ∧ present (pde (k_mem k) pgdir (PDX va)) = false ∧ walkpgdir pgdir va true o k = Ret 0 o k) ∨
  ∃ pte k' l', walkpgdir pgdir va true o k = Ret pte o k' ∧ vm_inv k' pgdir E l' ∧
    vm_step pgdir l k k' ∧ l' `suffix_of` l ∧ pte_slot (k_mem k') pgdir va pte ∧
    (∀ va', pt_lookup (k_mem k') pgdir va' = pt_lookup (k_mem k) pgdir va').
Proof.
  intros Hinv. destruct (present (pde (k_mem k) pgdir (PDX va))) eqn:Hp.
  { right. eexists _, k, l. split; [by apply walkpgdir_present|].
    split_and!; [done|apply vm_step_refl|done|by split|done]. }
  destruct l as [|p l].
  - left. split_and!; [done..|]. unfold walkpgdir, rd32. rewrite bind_reads.
    fold (pde (k_mem k) pgdir (PDX va)). rewrite Hp. cbn [negb].
    kstep_with (kalloc_run o k (vi_ready _ _ _ _ Hinv)).
    destruct (vi_free _ _ _ _ Hinv) as (Hf & _). cbn in Hf. rewrite Hf. cbn.
    unfold ret, kalloc_st. by rewrite Hf.
  - right. eexists _, (walk_st pgdir va p k), l.
    split; [by eapply walkpgdir_alloc_run; [apply (vi_ready _ _ _ _ Hinv)|apply (vi_free _ _ _ _ Hinv)|]|].
    split_and!; [by apply walk_inv|by eapply walk_step|by exists [p]|by eapply walk_slot|].
    intros va'. by eapply walk_lookup.
Qed.

(** ** Storing an entry *)

Lemma ld8_slot_store m pgdir avoid va pte v x :
  pt_ok m pgdir avoid → pte_slot m pgdir va pte →
  ¬ in_page x (pt_tab m pgdir (PDX va)) → ld8 (st32 m pte v) x = ld8 m x.
Proof.
  intros Hok Hs Hx. rewrite ld8_st32. pose proof (slot_in_tab _ _ _ _ _ x Hok Hs).
  repeat (case_test; [exfalso; apply Hx; apply H; lia|]). done.
Qed.

Lemma vm_store pgdir va pte v k E l :
  vm_inv k pgdir E l → pte_slot (k_mem k) pgdir va pte →
  let k' := set_k_mem (st32 (k_mem k) pte v) k in
  vm_inv k' pgdir E l ∧ vm_step pgdir [] k k' ∧
  (∀ va', pt_lookup (k_mem k') pgdir va' =
          if vpn va' =? vpn va then u32 v else pt_lookup (k_mem k) pgdir va').
Proof.
  intros [Hr Hf Hpt Hnd Hown Hln] Hs k'.
  destruct (slot_store _ _ _ _ _ v Hpt Hs) as (Hpt' & Hpde & Hlk).
  pose proof (PDX_range va) as Hd. pose proof Hs as [Hp _].
  split_and!; [| |done].
  - split; [done| |done|done|done|done].
    apply free_ok_mem; [done|]. intros p x Hpl Hx.
    eapply ld8_slot_store; [done..|]. intros Hx'.
    apply (pt_tab_avoid _ _ _ Hpt _ Hd Hp). apply elem_of_app. right.
    destruct Hf as (_ & Hfp & _). pose proof (proj1 (Forall_forall _ _) Hfp p Hpl) as (Hpa & _).
    rewrite (in_page_disjoint x _ p); [done|by apply (pt_tab_page _ _ _ Hpt _ Hd Hp)|done..].
  - split; [by destruct k| |].
    + intros x Hx _. eapply ld8_slot_store; [done..|]. intros ?. apply Hx. right. eauto.
    + intros x [Hx|(d & Hd' & Hp' & Hx)]; [by left; left|]. left. right. exists d.
      unfold pt_tab in *. cbn in *. rewrite Hpde in Hx, Hp' by done. done.
Qed.

(** ** Mapping a range *)

Definition mp_entry (pa perm i : Z) : Z := u32 (Z.lor (Z.lor (u32 (pa + 4096 * i)) perm) PTE_P).

(** The mapping after [j] pages starting at page [n0] have been entered. *)
Definition mapped_lookup (m : mem) (pgdir n0 j pa perm va : Z) : Z :=
  if (n0 <=? vpn va) && (vpn va <? n0 + j) then mp_entry pa perm (vpn va - n0)
  else pt_lookup m pgdir va.

Lemma vpn_page a i : a mod 4096 = 0 → 0 ≤ a → a + 4096 * i < 4294967296 → 0 ≤ i →
  vpn (a + 4096 * i) = a / 4096 + i.
Proof. intros. unfold vpn. rewrite u32_small by lia. lia_mod. Qed.

Lemma mp_entry_shift pa perm i : mp_entry (u32 (pa + 4096)) perm (i - 1) = mp_entry pa perm i.
Proof. unfold mp_entry. do 3 f_equal. unfold u32. lia_mod. Qed.

(** One turn of the loop of [mappages]. *)
Lemma mappages_loop_turn fuel pgdir a last pa perm o k E l :
  vm_inv k pgdir E l → present (pt_lookup (k_mem k) pgdir a) = false → 0 ≤ pa < 4294967296 →
  (l = [] ∧ mappages_loop fuel pgdir a last pa perm o k = Ret (-1) o k) ∨
  ∃ k' l', vm_inv k' pgdir E l' ∧ vm_step pgdir l k k' ∧ l' `suffix_of` l ∧
    (∀ va, pt_lookup (k_mem k') pgdir va =
           if vpn va =? vpn a then mp_entry pa perm 0 else pt_lookup (k_mem k) pgdir va) ∧
    mappages_loop fuel pgdir a last pa perm o k =
    (if a =? last then ret 0
     else match fuel with
          | O => panic "out of fuel"
          | S fuel => mappages_loop fuel pgdir (u32 (a + PGSIZE)) last (u32 (pa + PGSIZE)) perm
          end) o k'.
Proof.
  intros Hinv Hfree Hpa.
  destruct (walkpgdir_spec pgdir a o k E l Hinv) as
    [(-> & _ & Hw)|(pte & k1 & l1 & Hw & Hinv1 & Hs1 & Hsub & Hslot & Hlk1)].
  { left. split; [done|]. destruct fuel; cbn [mappages_loop]; by kstep_with Hw. }
  right. destruct (vm_store pgdir a pte (Z.lor (Z.lor pa perm) PTE_P) k1 E l1 Hinv1 Hslot)
    as (Hinv2 & Hs2 & Hlk2).
  eexists _, l1. split; [exact Hinv2|]. split_and!.
  - eapply vm_step_trans; [done|]. eapply vm_step_mono; [|done]. set_solver.
  - done.
  - intros va. rewrite Hlk2, Hlk1. unfold mp_entry. rewrite Z.mul_0_r, Z.add_0_r, (u32_small pa) by done.
    done.
  - destruct (slot_pos _ _ _ _ _ (vi_pt _ _ _ _ Hinv1) Hslot) as [Hpos _].
    assert (pte ≠ 0) by (unfold KERNBASE in Hpos; lia).
    destruct fuel; cbn [mappages_loop]; kstep_with Hw; rewrite (proj2 (Z.eqb_neq pte 0)) by done;
      unfold rd32, wr32; rewrite bind_reads, (slot_lookup _ _ _ _ Hslot), Hlk1, Hfree; by kstep.
Qed.

Lemma mappages_loop_first n pgdir a pa perm o k E l :
  vm_inv k pgdir E l → a mod 4096 = 0 → 0 ≤ a → a + 4096 * Z.of_nat n < 4294967296 →
  0 ≤ pa < 4294967296 →
  (∀ i, 0 ≤ i ≤ Z.of_nat n → present (pt_lookup (k_mem k) pgdir (a + 4096 * i)) = false) →
  (∃ r j k' l', mappages_loop n pgdir a (a + 4096 * Z.of_nat n) pa perm o k = Ret r o k' ∧
    vm_inv k' pgdir E l' ∧ vm_step pgdir l k k' ∧ l' `suffix_of` l ∧
    (r = 0 ∧ j = Z.of_nat n + 1 ∨ r = -1 ∧ l' = [] ∧ 0 ≤ j ≤ Z.of_nat n) ∧
    (∀ va, pt_lookup (k_mem k') pgdir va = mapped_lookup (k_mem k) pgdir (a / 4096) j pa perm va)) ∨
  vpn a = a / 4096 ∧ ∃ k' l', vm_inv k' pgdir E l' ∧ vm_step pgdir l k k' ∧ l' `suffix_of` l ∧
    (∀ va, pt_lookup (k_mem k') pgdir va =
           if vpn va =? vpn a then mp_entry pa perm 0 else pt_lookup (k_mem k) pgdir va) ∧
    mappages_loop n pgdir a (a + 4096 * Z.of_nat n) pa perm o k =
    (if a =? a + 4096 * Z.of_nat n then ret 0
     else match n with
          | O => panic "out of fuel"
          | S n => mappages_loop n pgdir (u32 (a + PGSIZE)) (a + 4096 * Z.of_nat (S n))
                     (u32 (pa + PGSIZE)) perm
          end) o k'.
Proof.
  intros Hinv Ha H0 Hend Hpa Hfree.
  assert (present (pt_lookup (k_mem k) pgdir a) = false) as Hf0.
  { specialize (Hfree 0). rewrite Z.mul_0_r, Z.add_0_r in Hfree. apply Hfree. lia. }
  destruct (mappages_loop_turn n pgdir a (a + 4096 * Z.of_nat n) pa perm o k E l Hinv Hf0 Hpa)
    as [(-> & Hrun)|(k1 & l1 & Hinv1 & Hs1 & Hsub1 & Hlk1 & Hrun)].
  - left. eexists (-1), 0, k, []. split; [exact Hrun|].
    split_and!; [done|apply vm_step_refl|done|right; split_and!; [done|done|lia|lia]|].
    intros va. unfold mapped_lookup. repeat case_test; (done || lia).
  - right. split.
    { pose proof (vpn_page a 0 Ha H0 ltac:(lia) ltac:(lia)) as Hv. by rewrite Z.mul_0_r, !Z.add_0_r in Hv. }
    exists k1, l1. split_and!; [done..|]. rewrite Hrun. by destruct n.
Qed.

Lemma mappages_loop_spec n pgdir a pa perm o k E l :
  vm_inv k pgdir E l → a mod 4096 = 0 → 0 ≤ a → a + 4096 * Z.of_nat n < 4294967296 →
  0 ≤ pa < 4294967296 →
  (∀ i, 0 ≤ i ≤ Z.of_nat n → present (pt_lookup (k_mem k) pgdir (a + 4096 * i)) = false) →
  ∃ r j k' l', mappages_loop n pgdir a (a + 4096 * Z.of_nat n) pa perm o k = Ret r o k' ∧
    vm_inv k' pgdir E l' ∧ vm_step pgdir l k k' ∧ l' `suffix_of` l ∧
    (r = 0 ∧ j = Z.of_nat n + 1 ∨ r = -1 ∧ l' = [] ∧ 0 ≤ j ≤ Z.of_nat n) ∧
    (∀ va, pt_lookup (k_mem k') pgdir va = mapped_lookup (k_mem k) pgdir (a / 4096) j pa perm va).
Proof.
  revert a pa k l. induction n as [|n IH]; intros a pa k l Hinv Ha H0 Hend Hpa Hfree.
  - destruct (mappages_loop_first 0 pgdir a pa perm o k E l) as [?|(Hva & k1 & l1 & Hinv1 & Hs1 & Hsub1 & Hlk1 & Hrun)];
      [done..|].
    rewrite Hrun. destruct (Z.eqb_spec a (a + 4096 * Z.of_nat 0)) as [_|?]; [|lia].
    eexists 0, 1, k1, l1. split; [done|]. split_and!; [done|done|done|left; done|].
    intros va. rewrite Hlk1, Hva. unfold mapped_lookup.
    repeat (case_test; try lia); try done. cbn. by replace (vpn va - a / 4096) with 0 by lia.
  - destruct (mappages_loop_first (S n) pgdir a pa perm o k E l) as [?|(Hva & k1 & l1 & Hinv1 & Hs1 & Hsub1 & Hlk1 & Hrun)];
      [done..|].
    rewrite Hrun. destruct (Z.eqb_spec a (a + 4096 * Z.of_nat (S n))) as [?|_]; [lia|].
    unfold PGSIZE. rewrite (u32_small (a + 4096)) by lia.
    destruct (IH (a + 4096) (u32 (pa + 4096)) k1 l1) as (r & j & k' & l' & Hr & Hinv' & Hs' & Hsub' & Hcase & Hlk').
    { done. } { lia_mod. } { lia. } { lia. } { apply u32_range. }
    { intros i Hi. rewrite Hlk1, Hva. replace (a + 4096 + 4096 * i) with (a + 4096 * (i + 1)) by lia.
      rewrite vpn_page by lia. destruct (Z.eqb_spec (a / 4096 + (i + 1)) (a / 4096)); [lia|].
      apply Hfree. lia. }
    replace (a + 4096 * Z.of_nat (S n)) with (a + 4096 + 4096 * Z.of_nat n) by lia.
    eexists r, (j + 1), k', l'. split; [exact Hr|]. split_and!.
    + done.
    + eapply vm_step_trans; [done|]. eapply vm_step_mono; [|done].
      destruct Hsub1 as [t ->]. set_solver.
    + by etrans.
    + destruct Hcase as [[? ?]|(? & ? & ?)]; [left; lia|right; split_and!; [done|done|lia|lia]].
    + intros va. rewrite Hlk'. unfold mapped_lookup.
      replace ((a + 4096) / 4096) with (a / 4096 + 1) by lia_mod.
      assert (0 ≤ j) by (destruct Hcase as [[_ ->]|(_ & _ & ?)]; lia).
      rewrite Hlk1, Hva. replace (vpn va - (a / 4096 + 1)) with (vpn va - a / 4096 - 1) by lia.
      rewrite mp_entry_shift.
      repeat (case_test; try lia); cbn; try done. by replace (vpn va - a / 4096) with 0 by lia.
Qed.

Lemma mappages_eq pgdir va size pa perm :
  0 ≤ va → 0 < size → va + size ≤ 4294967296 →
  mappages pgdir va size pa perm =
  let n := Z.to_nat ((va + size - 1) / 4096 - va / 4096) in
  mappages_loop n pgdir (va - va mod 4096) (va - va mod 4096 + 4096 * Z.of_nat n) pa perm.
Proof.
  intros Hva Hsz Hend. unfold mappages. rewrite !PGROUNDDOWN_eq, u32_idem.
  rewrite (u32_small va), (u32_small (va + size - 1)) by lia. cbn zeta. unfold PGSIZE.
  set (n := Z.to_nat (u32 _ / 4096)). set (n' := Z.to_nat ((va + size - 1) / 4096 - va / 4096)).
  assert (0 ≤ (va + size - 1) / 4096 - va / 4096) by lia_mod.
  assert (va + size - 1 - (va + size - 1) mod 4096 - (va - va mod 4096) =
          4096 * ((va + size - 1) / 4096 - va / 4096)) as Hdiff by lia_mod.
  assert (n = n') as ->.
  { unfold n, n'. rewrite Hdiff, u32_small by lia_mod. f_equal. lia_mod. }
  f_equal. unfold n'. rewrite Z2Nat.id by lia. lia.
Qed.

(** ** Freeing a page that the table does not use *)

Lemma vm_free pgdir p k E l o :
  vm_inv k pgdir (p :: E) l →
  kfree p o k = Ret tt o (kfree_st p k) ∧
  vm_inv (kfree_st p k) pgdir E (p :: l) ∧ vm_step pgdir [p] k (kfree_st p k) ∧
  (∀ x, in_pt (k_mem k) pgdir x → ld8 (k_mem (kfree_st p k)) x = ld8 (k_mem k) x).
Proof.
  intros [Hr Hf Hpt Hnd Hown Hln]. apply Forall_cons in Hown as [Hp Hown].
  cbn [app] in Hnd. apply NoDup_cons in Hnd as [Hpn Hnd].
  assert (p ∉ l) as Hpl by set_solver. destruct (kfree_spec o k l p Hr Hf Hp Hpl) as [Hrun Hf'].
  assert (∀ x, ¬ in_page x p → ld8 (k_mem (kfree_st p k)) x = ld8 (k_mem k) x) as Hm.
  { intros x Hx. apply kfree_st_mem. unfold in_page in Hx. lia. }
  assert (∀ x, in_pt (k_mem k) pgdir x → ¬ in_page x p) as Hdis.
  { pose proof (page_ok_kpage _ _ Hp) as [Hpa _].
    intros x [Hx|(d & Hd & Hdp & Hx)] Hxp.
    - apply (pt_dir_avoid _ _ _ Hpt). rewrite (in_page_disjoint x pgdir p); try done; [left|].
      apply (pt_dir _ _ _ Hpt).
    - apply (pt_tab_avoid _ _ _ Hpt d Hd Hdp).
      rewrite (in_page_disjoint x (pt_tab (k_mem k) pgdir d) p); try done; [left|].
      by apply (pt_tab_page _ _ _ Hpt d Hd Hdp). }
  split_and!; [done| | |auto].
  - split; [done|done| | |done|done].
    + apply (pt_ok_avoid _ _ (p :: E ++ l)); [set_solver|].
      eapply pt_ok_ext; [|done]. intros x Hx. apply Hm, Hdis. by left.
    + apply NoDup_app in Hnd as (? & Hd & ?). apply NoDup_app. split_and!; [done| |by constructor].
      intros q Hq. rewrite not_elem_of_cons. split; [set_solver|auto].
  - split; [by destruct k| |].
    + intros x Hx HS. apply Hm, HS. left.
    + intros x Hx. left. assert (∀ d, 0 ≤ d < 1024 → pde (k_mem (kfree_st p k)) pgdir d = pde (k_mem k) pgdir d)
        as Hpde by (intros; apply pde_ext; [done|]; intros; apply Hm, Hdis; by left).
      destruct Hx as [Hx|(d & Hd & Hdp & Hx)]; [by left|right; exists d].
      unfold pt_tab in *. rewrite Hpde in Hx, Hdp by done. done.
Qed.

(** ** User frames *)

(** The pages the table maps at the addresses [vs]. *)
Definition uframe (m : mem) (pgdir va : Z) : option Z :=
  let e := pt_lookup m pgdir va in if present e then Some (P2V (PTE_ADDR e)) else None.
Definition uframes (m : mem) (pgdir : Z) (vs : list Z) : list Z := omap (uframe m pgdir) vs.

Lemma uframes_ext m m' pgdir vs :
  (∀ va, va ∈ vs → pt_lookup m' pgdir va = pt_lookup m pgdir va) →
  uframes m' pgdir vs = uframes m pgdir vs.
Proof.
  intros He. unfold uframes. induction vs as [|v vs IH]; [done|]. cbn.
  assert (uframe m' pgdir v = uframe m pgdir v) as -> by (unfold uframe; rewrite He; [done|left]).
  fold (omap (M := list) (uframe m' pgdir) vs). rewrite IH; [done|]. intros. apply He. by right.
Qed.

(** Freeing the page mapped at [va] and clearing its entry. *)
Lemma vm_unmap pgdir va pte k E l o p :
  pte_slot (k_mem k) pgdir va pte → uframe (k_mem k) pgdir va = Some p →
  vm_inv k pgdir (p :: E) l →
  let k' := set_k_mem (st32 (k_mem (kfree_st p k)) pte 0) (kfree_st p k) in
  (kfree p ;;; wr32 pte 0) o k = Ret tt o k' ∧
  vm_inv k' pgdir E (p :: l) ∧ vm_step pgdir [p] k k' ∧
  (∀ va', pt_lookup (k_mem k') pgdir va' =
          if vpn va' =? vpn va then 0 else pt_lookup (k_mem k) pgdir va').
Proof.
  intros Hslot Hfr Hinv k'.
  destruct (vm_free pgdir p k E l o Hinv) as (Hrun & Hinv1 & Hs1 & Hm1).
  assert (pte_slot (k_mem (kfree_st p k)) pgdir va pte) as Hslot1.
  { destruct Hslot as [Hp ->]. pose proof (PDX_range va).
    assert (pde (k_mem (kfree_st p k)) pgdir (PDX va) = pde (k_mem k) pgdir (PDX va)) as Hpde
      by (apply pde_ext; [lia|]; intros; apply Hm1; by left).
    split; [by rewrite Hpde|]. unfold pt_tab. by rewrite Hpde. }
  destruct (vm_store pgdir va pte 0 _ E (p :: l) Hinv1 Hslot1) as (Hinv2 & Hs2 & Hlk2).
  split_and!.
  - kstep_with Hrun. done.
  - done.
  - eapply vm_step_trans; [done|]. eapply vm_step_mono; [|done]. set_solver.
  - intros va'. unfold k'. rewrite Hlk2. rewrite (pt_lookup_ext (k_mem k)) by done. done.
Qed.

(** ** Unmapping a range *)

Lemma page_seq_app a i j :
  page_seq a (i + j) = page_seq a i ++ page_seq (a + 4096 * Z.of_nat i) j.
Proof.
  revert a. induction i as [|i IH]; intros a; cbn [page_seq app Nat.add].
  - f_equal. lia.
  - rewrite IH. do 3 f_equal. lia.
Qed.

(** Pages from [a] on that begin below [sz]. *)
Definition npages (a sz : Z) : nat := Z.to_nat ((sz - a + 4095) / 4096).

Definition cleared_lookup (m : mem) (pgdir a sz va : Z) : Z :=
  if (a / 4096 <=? vpn va) && (vpn va <? a / 4096 + Z.of_nat (npages a sz)) &&
     present (pt_lookup m pgdir va)
  then 0 else pt_lookup m pgdir va.

Lemma lookup_absent m pgdir va : present (pde m pgdir (PDX va)) = false → pt_lookup m pgdir va = 0.
Proof. intros Hp. unfold pt_lookup. fold (pde m pgdir (PDX va)). by rewrite Hp. Qed.

Lemma uframes_nil m pgdir vs :
  (∀ va, va ∈ vs → present (pt_lookup m pgdir va) = false) → uframes m pgdir vs = [].
Proof.
  intros H. induction vs as [|v vs IH]; [done|]. unfold uframes in *. cbn. unfold uframe at 1.
  rewrite H by left. apply IH. intros. apply H. by right.
Qed.

(** The next address after a directory entry that is absent. *)
Lemma dir_skip a :
  0 ≤ a < 2147483648 →
  u32 (u32 (PGADDR (PDX a + 1) 0 0 - PGSIZE) + PGSIZE) = (a / 4194304 + 1) * 4194304.
Proof.
  intros Ha. rewrite PDX_eq, (u32_small a) by lia. rewrite PGADDR_eq by lia_mod.
  unfold PGSIZE, u32. lia_mod.
Qed.

(** Every page between [a] and the next directory entry lacks a table. *)
Lemma dir_absent m pgdir a va :
  0 ≤ a < 2147483648 → present (pde m pgdir (PDX a)) = false →
  a / 4096 ≤ vpn va → vpn va < (a / 4194304 + 1) * 1024 → pt_lookup m pgdir va = 0.
Proof.
  intros Ha Hp H1 H2. apply lookup_absent. replace (PDX va) with (PDX a); [done|].
  rewrite !PDX_eq. rewrite (u32_small a) by lia. unfold vpn in *.
  pose proof (u32_range va). lia_mod.
Qed.

Lemma npages_lt a sz : a < sz → npages a sz = S (npages (a + 4096) sz).
Proof. intros. unfold npages. lia_mod. Qed.

Lemma npages_ge a sz : sz ≤ a → npages a sz = O.
Proof. intros. unfold npages. lia_mod. Qed.

Lemma npages_split a a' sz :
  a mod 4096 = 0 → a' mod 4096 = 0 → a ≤ a' → a' ≤ sz →
  npages a sz = (Z.to_nat ((a' - a) / 4096) + npages a' sz)%nat.
Proof. intros. unfold npages. lia_mod. Qed.

Lemma skip_uframes m pgdir a a' sz :
  0 ≤ a < 2147483648 → a mod 4096 = 0 → sz ≤ 2147483648 →
  present (pde m pgdir (PDX a)) = false → a' = (a / 4194304 + 1) * 4194304 → a < sz →
  uframes m pgdir (page_seq a (npages a sz)) = uframes m pgdir (page_seq a' (npages a' sz)).
Proof.
  intros Ha Haa Hsz Hp Ha' Hlt.
  assert (∀ n, a + 4096 * Z.of_nat n ≤ a' →
     uframes m pgdir (page_seq a n) = []) as Hnil.
  { intros n Hn. apply uframes_nil. intros va (i & Hi & ->)%elem_of_page_seq.
    rewrite (dir_absent m pgdir a); [done|done|done|..]; rewrite vpn_page by lia_mod; lia_mod. }
  destruct (decide (a' ≤ sz)) as [Hle|Hgt].
  - rewrite (npages_split a a' sz) by lia_mod. rewrite page_seq_app. unfold uframes in *.
    rewrite omap_app, Hnil by lia_mod. cbn. do 2 f_equal. lia_mod.
  - rewrite (npages_ge a') by lia. apply Hnil. unfold npages. lia_mod.
Qed.

Lemma cleared_skip m pgdir a a' sz va :
  0 ≤ a < 2147483648 → a mod 4096 = 0 → sz ≤ 2147483648 →
  present (pde m pgdir (PDX a)) = false → a' = (a / 4194304 + 1) * 4194304 → a < sz →
  cleared_lookup m pgdir a' sz va = cleared_lookup m pgdir a sz va.
Proof.
  intros Ha Haa Hsz Hp Ha' Hlt. unfold cleared_lookup.
  destruct (decide (a / 4096 ≤ vpn va ∧ vpn va < a' / 4096)) as [[H1 H2]|Hn].
  - rewrite (dir_absent m pgdir a) by (done || lia_mod). rewrite !andb_false_r. done.
  - destruct (present (pt_lookup m pgdir va)); [|by rewrite !andb_false_r].
    unfold npages. repeat case_test; cbn; done || lia_mod.
Qed.

Lemma cleared_step m m' pgdir a sz va :
  a mod 4096 = 0 → 0 ≤ a < 2147483648 → a < sz →
  (∀ va', pt_lookup m' pgdir va' =
     if (vpn va' =? vpn a) && present (pt_lookup m pgdir va') then 0 else pt_lookup m pgdir va') →
  cleared_lookup m' pgdir (a + 4096) sz va = cleared_lookup m pgdir a sz va.
Proof.
  intros Haa Ha Hlt Hlk. unfold cleared_lookup. rewrite Hlk, (npages_lt a sz) by done.
  assert (vpn a = a / 4096) as Hva by (unfold vpn; rewrite u32_small by lia; done).
  replace ((a + 4096) / 4096) with (a / 4096 + 1) by lia_mod. rewrite Hva.
  destruct (present (pt_lookup m pgdir va)) eqn:Hp; [|by rewrite !andb_false_r, Hp, ?andb_false_r].
  rewrite !andb_true_r. destruct (Z.eqb_spec (vpn va) (a / 4096)) as [E|E].
  - change (present 0) with false. rewrite andb_false_r.
    repeat case_test; cbn; done || lia.
  - rewrite Hp, andb_true_r. repeat case_test; cbn; done || lia.
Qed.

Lemma vpn_page_ne a i : a mod 4096 = 0 → 0 ≤ a → a + 4096 * i < 4294967296 → 0 < i →
  vpn (a + 4096 * i) ≠ vpn a.
Proof.
  intros. rewrite vpn_page by lia. unfold vpn. rewrite u32_small by lia. lia.
Qed.

Lemma lookup_same_page m pgdir va va' :
  vpn va' = vpn va → pt_lookup m pgdir va' = pt_lookup m pgdir va.
Proof. intros [Ed Et]%vpn_eq. unfold pt_lookup. by rewrite Ed, Et. Qed.

(** The pages freed for one entry. *)
Definition freed (m : mem) (pgdir va : Z) : list Z :=
  match uframe m pgdir va with Some p => [p] | None => [] end.

Lemma uframes_cons m pgdir v vs : uframes m pgdir (v :: vs) = freed m pgdir v ++ uframes m pgdir vs.
Proof. unfold uframes, freed. cbn. by destruct (uframe m pgdir v). Qed.

(** One entry in a page table that exists. *)
Lemma deallocuvm_turn pgdir a pte k F l o :
  pte_slot (k_mem k) pgdir a pte →
  vm_inv k pgdir (freed (k_mem k) pgdir a ++ F) l →
  ∃ k1, (if present (pt_lookup (k_mem k) pgdir a) then
           if PTE_ADDR (pt_lookup (k_mem k) pgdir a) =? 0 then panic "kfree"
           else kfree (P2V (PTE_ADDR (pt_lookup (k_mem k) pgdir a))) ;;; wr32 pte 0
         else ret tt) o k = Ret tt o k1 ∧
    vm_inv k1 pgdir F (freed (k_mem k) pgdir a ++ l) ∧
    vm_step pgdir (freed (k_mem k) pgdir a) k k1 ∧
    (∀ va, pt_lookup (k_mem k1) pgdir va =
       if (vpn va =? vpn a) && present (pt_lookup (k_mem k) pgdir va) then 0
       else pt_lookup (k_mem k) pgdir va).
Proof.
  intros Hslot. destruct (present (pt_lookup (k_mem k) pgdir a)) eqn:He.
  - assert (uframe (k_mem k) pgdir a = Some (P2V (PTE_ADDR (pt_lookup (k_mem k) pgdir a)))) as Hfr
      by (unfold uframe; by rewrite He).
    unfold freed. rewrite Hfr. set (p := P2V _). cbn [app]. intros Hinv.
    destruct (vm_unmap pgdir a pte k _ l o p Hslot Hfr Hinv) as (Hrun1 & Hinv1 & Hs1 & Hlk1).
    assert (PTE_ADDR (pt_lookup (k_mem k) pgdir a) ≠ 0) as Hpa.
    { intros Hz. pose proof (vi_own _ _ _ _ Hinv) as [(_ & _ & Hend) _]%Forall_cons.
      pose proof (vi_link _ _ _ _ Hinv). unfold p in Hend. rewrite Hz in Hend.
      unfold P2V, KERNLINK, KERNBASE, EXTMEM, u32 in *. lia_mod. }
    rewrite (proj2 (Z.eqb_neq _ 0) Hpa). eexists. split_and!; [exact Hrun1|done|done|].
    intros va. rewrite Hlk1. destruct (Z.eqb_spec (vpn va) (vpn a)) as [E'|]; cbn; [|done].
    rewrite (lookup_same_page _ _ a va) by done. by rewrite He.
  - unfold freed, uframe. rewrite He. intros Hinv. exists k.
    split_and!; [done|done|apply vm_step_refl|].
    intros va. destruct (Z.eqb_spec (vpn va) (vpn a)) as [E'|]; cbn; [|done].
    rewrite (lookup_same_page _ _ a va) by done. by rewrite He.
Qed.

Lemma deallocuvm_loop_spec fuel pgdir a sz E l k o :
  a mod 4096 = 0 → 0 ≤ a ≤ 2147483648 → sz ≤ 2147483648 → (npages a sz ≤ fuel)%nat →
  vm_inv k pgdir (uframes (k_mem k) pgdir (page_seq a (npages a sz)) ++ E) l →
  ∃ k', deallocuvm_loop fuel pgdir a sz o k = Ret tt o k' ∧
    vm_inv k' pgdir E (rev (uframes (k_mem k) pgdir (page_seq a (npages a sz))) ++ l) ∧
    vm_step pgdir (uframes (k_mem k) pgdir (page_seq a (npages a sz))) k k' ∧
    (∀ va, pt_lookup (k_mem k') pgdir va = cleared_lookup (k_mem k) pgdir a sz va).
Proof.
  revert a l k. induction fuel as [|fuel IH]; intros a l k Haa Ha Hsz Hfuel Hinv.
  { assert (sz ≤ a) by (destruct (decide (a < sz)); [rewrite npages_lt in Hfuel by done|]; lia).
    exists k. rewrite npages_ge in * by lia. cbn [deallocuvm_loop].
    destruct (Z.ltb_spec a sz); [lia|]. split_and!; [done|done|apply vm_step_refl|].
    intros va. unfold cleared_lookup. rewrite npages_ge by lia. repeat case_test; cbn; done || lia. }
  cbn [deallocuvm_loop]. destruct (Z.ltb_spec a sz) as [Hlt|Hge].
  2:{ exists k. rewrite npages_ge in * by lia. split_and!; [done|done|apply vm_step_refl|].
      intros va. unfold cleared_lookup. rewrite npages_ge by lia. repeat case_test; cbn; done || lia. }
  kstep_with (walkpgdir_noalloc pgdir a o k).
  destruct (present (pde (k_mem k) pgdir (PDX a))) eqn:Hp.
  2:{ (* no page table: skip to the next directory entry *)
      cbn [Z.eqb]. rewrite dir_skip by lia. set (a' := (a / 4194304 + 1) * 4194304).
      assert (a' mod 4096 = 0 ∧ a < a' ≤ 2147483648) as [??] by (unfold a'; lia_mod).
      pose proof (skip_uframes (k_mem k) pgdir a a' sz ltac:(lia) Haa Hsz Hp eq_refl Hlt) as Hfr.
      rewrite Hfr in *. destruct (IH a' l k) as (k' & Hrun & Hinv' & Hs' & Hlk);
        [done|lia|done|unfold npages in *; lia_mod|done|].
      exists k'. split_and!; [done..|]. intros va. rewrite Hlk.
      apply cleared_skip; done || lia. }
  assert (pte_slot (k_mem k) pgdir a (pt_tab (k_mem k) pgdir (PDX a) + 4 * PTX a)) as Hslot by (by split).
  set (pte := pt_tab _ _ _ + _) in *.
  destruct (slot_pos _ _ _ _ _ (vi_pt _ _ _ _ Hinv) Hslot) as [Hpos _].
  assert (pte ≠ 0) by (unfold KERNBASE in Hpos; lia). rewrite (proj2 (Z.eqb_neq pte 0)) by done.
  unfold rd32. rewrite bind_reads, (slot_lookup _ _ _ _ Hslot).
  unfold PGSIZE. rewrite (u32_small (a + 4096)) by lia.
  rewrite (npages_lt a sz) in * by done. cbn [page_seq] in *. rewrite uframes_cons in *.
  rewrite <- app_assoc in Hinv.
  destruct (deallocuvm_turn pgdir a pte k _ l o Hslot Hinv) as (k1 & Hrun1 & Hinv1 & Hs1 & Hlk1).
  kstep_with Hrun1.
  assert (uframes (k_mem k1) pgdir (page_seq (a + 4096) (npages (a + 4096) sz)) =
          uframes (k_mem k) pgdir (page_seq (a + 4096) (npages (a + 4096) sz))) as Hfr1.
  { apply uframes_ext. intros va (i & Hi & ->)%elem_of_page_seq. rewrite Hlk1.
    replace (a + 4096 + 4096 * i) with (a + 4096 * (i + 1)) by lia.
    by rewrite (proj2 (Z.eqb_neq _ (vpn a))) by (apply vpn_page_ne; unfold npages in Hi; lia_mod). }
  destruct (IH (a + 4096) (freed (k_mem k) pgdir a ++ l) k1) as (k' & Hrun & Hinv' & Hs' & Hlk);
    [lia_mod|lia_mod|done|lia|by rewrite Hfr1|].
  exists k'. rewrite Hfr1 in *. split_and!; [done| | |].
  - rewrite rev_app_distr, <- app_assoc. unfold freed in *. by destruct (uframe (k_mem k) pgdir a).
  - eapply vm_step_trans; (eapply vm_step_mono; [|done]); set_solver.
  - intros va. rewrite Hlk. by apply cleared_step; [done|lia|done|].
Qed.

Lemma vm_inv_perm k pgdir E E' l : E ≡ₚ E' → vm_inv k pgdir E l → vm_inv k pgdir E' l.
Proof.
  intros HE [Hr Hf Hpt Hnd Hown Hln]. split; [done|done| | |by rewrite <- HE|done].
  - eapply pt_ok_avoid; [|done]. intros p. by rewrite HE.
  - by rewrite <- HE.
Qed.

Lemma deallocuvm_spec pgdir oldsz newsz E l k o :
  0 ≤ newsz < oldsz → oldsz ≤ KERNBASE →
  let a := PGROUNDUP newsz in
  let fr := uframes (k_mem k) pgdir (page_seq a (npages a oldsz)) in
  vm_inv k pgdir (fr ++ E) l →
  ∃ k', deallocuvm pgdir oldsz newsz o k = Ret newsz o k' ∧
    vm_inv k' pgdir E (rev fr ++ l) ∧ vm_step pgdir fr k k' ∧
    (∀ va, pt_lookup (k_mem k') pgdir va = cleared_lookup (k_mem k) pgdir a oldsz va).
Proof.
  intros Hn Ho a fr Hinv. unfold KERNBASE in Ho.
  assert (a mod 4096 = 0 ∧ 0 ≤ a ≤ 2147483648) as [Haa Ha]
    by (unfold a; rewrite PGROUNDUP_eq; unfold u32; lia_mod).
  assert (npages a oldsz ≤ Z.to_nat (oldsz / 4096 + 1))%nat by (unfold npages; lia_mod).
  unfold deallocuvm. destruct (Z.leb_spec oldsz newsz); [lia|].
  destruct (deallocuvm_loop_spec (Z.to_nat (oldsz / PGSIZE + 1)) pgdir a oldsz E l k o)
    as (k' & Hrun & ?); [done..|].
  exists k'. split; [|done]. by kstep_with Hrun.
Qed.

(** ** Growing user memory *)

Section grow.
Context (pgdir : Z) (m0 : mem) (n0 : Z) (E : list Z).

(** [ps] have been allocated, zeroed and mapped from page [n0] on, and
    nothing else has been mapped or unmapped. *)
Record grown (ps : list Z) (l : list Z) (k : K) : Prop := {
  gr_inv : vm_inv k pgdir (ps ++ E) l;
  gr_lookup va : pt_lookup (k_mem k) pgdir va =
    if (n0 <=? vpn va) && (vpn va <? n0 + Z.of_nat (length ps))
    then default 0 (ps !! Z.to_nat (vpn va - n0)) - KERNBASE + 7
    else pt_lookup m0 pgdir va;
  gr_zero p x : p ∈ ps → in_page x p → ld8 (k_mem k) x = 0
}.

Lemma vm_inv_put_out s k l E' : vm_inv k pgdir E' l → vm_inv (put_out s k) pgdir E' l.
Proof. intros [Hr Hf Hpt Hnd Hown Hln]. by split. Qed.

Lemma grown_put_out s ps l k : grown ps l k → grown ps l (put_out s k).
Proof. intros [H1 H2 H3]. split; [by apply vm_inv_put_out|done|done]. Qed.

(** The frames of a grown range are the pages that were mapped. *)
Lemma grown_uframes ps l k a :
  grown ps l k → a mod 4096 = 0 → 0 ≤ a → n0 = a / 4096 →
  a + 4096 * Z.of_nat (length ps) ≤ 4294967296 →
  uframes (k_mem k) pgdir (page_seq a (length ps)) = ps.
Proof.
  intros [Hinv Hlk _] Haa Ha Hn0 Hend.
  cut (∀ j, (j ≤ length ps)%nat →
    uframes (k_mem k) pgdir (page_seq (a + 4096 * Z.of_nat j) (length ps - j)) = drop j ps).
  { intros H. specialize (H 0%nat ltac:(lia)). by rewrite Nat.sub_0_r, Z.mul_0_r, Z.add_0_r in H. }
  intros j Hj. remember (length ps - j)%nat as i eqn:Hi. revert j Hj Hi.
  induction i as [|i IH]; intros j Hj Hi; [by rewrite drop_ge by lia|].
  cbn [page_seq]. rewrite uframes_cons. destruct (ps !! j) as [p|] eqn:Hp; [|apply lookup_ge_None in Hp; lia].
  rewrite (drop_S ps p j) by done. unfold freed, uframe. rewrite Hlk, vpn_page by lia.
  rewrite (proj2 (Z.leb_le n0 _)), (proj2 (Z.ltb_lt _ _)) by lia. cbn [andb].
  replace (Z.to_nat (a / 4096 + Z.of_nat j - n0)) with j by lia. rewrite Hp. cbn [default].
  assert (kpage p) as Hkp.
  { eapply page_ok_kpage. eapply (proj1 (Forall_forall _ _) (vi_own _ _ _ _ Hinv)).
    apply elem_of_app. left. by eapply list_elem_of_lookup_2. }
  rewrite pte_present by (done || lia). rewrite pte_frame by (done || lia). cbn [app]. f_equal.
  rewrite <- (IH (S j)) by lia. do 2 f_equal. lia.
Qed.
End grow.

(** Taking a page off the free list. *)
Lemma vm_take pgdir E p l k : vm_inv k pgdir E (p :: l) → vm_inv (kalloc_st k) pgdir (p :: E) l.
Proof.
  intros [Hr Hf Hpt Hnd Hown Hln].
  assert (k_mem (kalloc_st k) = k_mem k) as Hm by (unfold kalloc_st; by case_test).
  assert (page_ok k p) as Hp by (destruct Hf as (_ & [? _]%Forall_cons & _); done).
  split.
  - by rewrite kalloc_st_rest.
  - by eapply free_ok_tail.
  - rewrite Hm. eapply pt_ok_avoid; [|done]. set_solver.
  - apply NoDup_app in Hnd as (? & Hd & [? ?]%NoDup_cons). cbn. apply NoDup_cons. split.
    + rewrite elem_of_app. intros [?|?]; [|done]. eapply Hd; [done|left].
    + apply NoDup_app. set_solver.
  - rewrite kalloc_st_rest. by constructor.
  - by rewrite kalloc_st_rest.
Qed.

(** Writing into an owned page does not disturb the table. *)
Lemma vm_own_write pgdir E l k p m :
  vm_inv k pgdir E l → p ∈ E → (∀ x, ¬ in_page x p → ld8 m x = ld8 (k_mem k) x) →
  vm_inv (set_k_mem m k) pgdir E l ∧
  (∀ va, pt_lookup m pgdir va = pt_lookup (k_mem k) pgdir va).
Proof.
  intros [Hr Hf Hpt Hnd Hown Hln] Hp Hm.
  pose proof (proj1 (Forall_forall _ _) Hown p Hp) as [Hpa _].
  assert (∀ q x, q mod 4096 = 0 → q ≠ p → in_page x q → ld8 m x = ld8 (k_mem k) x) as Hq.
  { intros q x Hqa Hne Hx. apply Hm. intros ?. apply Hne. by eapply in_page_disjoint. }
  assert (∀ x, in_page x pgdir → ld8 m x = ld8 (k_mem k) x) as Hdir.
  { intros x. apply Hq; [apply (pt_dir _ _ _ Hpt)|]. intros ->. apply (pt_dir_avoid _ _ _ Hpt). set_solver. }
  split; [split; [done| | |done|done|done]|].
  - apply free_ok_mem; [done|]. intros q x Hql. apply Hq.
    + destruct Hf as (_ & Hfp & _). apply (proj1 (Forall_forall _ _) Hfp q Hql).
    + intros ->. apply NoDup_app in Hnd as (_ & Hd & _). by eapply Hd.
  - by eapply pt_ok_ext.
  - intros va. apply pt_lookup_ext. intros x [Hx|(d & Hd & Hdp & Hx)]; [auto|].
    apply (Hq (pt_tab (k_mem k) pgdir d)); [by apply (pt_tab_page _ _ _ Hpt d Hd Hdp)| |done].
    intros Heq. apply (pt_tab_avoid _ _ _ Hpt d Hd Hdp). rewrite Heq. set_solver.
Qed.

Lemma vm_own_disjoint pgdir E l k p q x :
  vm_inv k pgdir E l → p ∈ E → q ∈ E → in_page x p → in_page x q → p = q.
Proof.
  intros [_ _ _ _ Hown _] Hp Hq. rewrite Forall_forall in Hown.
  pose proof (Hown p Hp) as [? _]. pose proof (Hown q Hq) as [? _]. by apply in_page_disjoint.
Qed.

Definition zero_page_st (p : Z) (k : K) : K :=
  set_k_mem (memset (k_mem (kalloc_st k)) p 0 PGSIZE) (kalloc_st k).

(** A page taken from the allocator and zeroed, ready to be mapped. *)
Lemma grow_alloc pgdir m0 n0 E ps p l k :
  grown pgdir m0 n0 E ps (p :: l) k →
  vm_inv (zero_page_st p k) pgdir (p :: ps ++ E) l ∧
  (∀ va, pt_lookup (k_mem (zero_page_st p k)) pgdir va = pt_lookup (k_mem k) pgdir va) ∧
  (∀ q x, q ∈ p :: ps → in_page x q → ld8 (k_mem (zero_page_st p k)) x = 0).
Proof.
  intros [Hinv Hlk Hz]. pose proof (vm_take _ _ _ _ _ Hinv) as Hinv1.
  assert (k_mem (kalloc_st k) = k_mem k) as Hm by (unfold kalloc_st; by case_test).
  destruct (vm_own_write pgdir (p :: ps ++ E) l (kalloc_st k) p
    (memset (k_mem (kalloc_st k)) p 0 PGSIZE) Hinv1 ltac:(left)) as [Hinv2 Hlk2].
  { intros x Hx. rewrite ld8_memset by (unfold PGSIZE; lia). unfold in_page, PGSIZE in *.
    repeat (case_test; try lia); done. }
  split; [done|]. split; [intros va; cbn; by rewrite Hlk2, Hm|].
  intros q x Hq Hx. cbn. rewrite ld8_memset by (unfold PGSIZE; lia). unfold PGSIZE.
  destruct (decide (in_page x p)) as [Hxp|Hxp]; unfold in_page in Hxp.
  - repeat (case_test; try lia); done.
  - rewrite Hm. apply elem_of_cons in Hq as [->|Hq]; [done|].
    replace ((p <=? x) && (x <? p + 4096)) with false; [by apply (Hz q)|].
    symmetry. apply andb_false_iff. rewrite Z.leb_gt, Z.ltb_ge. lia.
Qed.

Lemma grown_perm pgdir m0 n0 E E' ps l k :
  E ≡ₚ E' → grown pgdir m0 n0 E ps l k → grown pgdir m0 n0 E' ps l k.
Proof. intros HE [H1 H2 H3]. split; [|done|done]. eapply vm_inv_perm; [|done]. by rewrite HE. Qed.

Lemma user_entry p : kpage p → mp_entry (V2P p) (Z.lor PTE_W PTE_U) 0 = p - KERNBASE + 7.
Proof.
  intros Hp. unfold mp_entry. change (Z.lor PTE_W PTE_U) with 6. rewrite Z.mul_0_r, Z.add_0_r.
  rewrite (u32_small (V2P p)) by (rewrite V2P_kpage by done; destruct Hp; unfold KERNBASE, PHYSTOP in *; lia).
  rewrite <- Z.lor_assoc. change (Z.lor 6 PTE_P) with 7. rewrite pte_make by (done || lia).
  apply u32_small. destruct Hp; unfold KERNBASE, PHYSTOP in *; lia.
Qed.

(** Mapping the zeroed page [p] as the next page of the range. *)
Lemma grow_map pgdir m0 n0 E ps p l k o a :
  grown pgdir m0 n0 E ps (p :: l) k →
  a mod 4096 = 0 → 0 ≤ a → a + 4096 ≤ 4294967296 → a / 4096 = n0 + Z.of_nat (length ps) →
  present (pt_lookup m0 pgdir a) = false →
  ∃ r k' l', mappages pgdir a PGSIZE (V2P p) (Z.lor PTE_W PTE_U) o (zero_page_st p k) = Ret r o k' ∧
    vm_step pgdir l (zero_page_st p k) k' ∧ l' `suffix_of` l ∧
    (r = 0 ∧ grown pgdir m0 n0 E (ps ++ [p]) l' k' ∨
     r = -1 ∧ l' = [] ∧ grown pgdir m0 n0 (p :: E) ps [] k').
Proof.
  intros Hg Ha H0 Hend Hn Habs. destruct (grow_alloc _ _ _ _ _ _ _ _ Hg) as (Hinv & Hlk & Hz).
  assert (kpage p) as Hp by (pose proof (vi_own _ _ _ _ Hinv) as [? _]%Forall_cons; by eapply page_ok_kpage).
  rewrite mappages_eq by (unfold PGSIZE; lia).
  replace (Z.to_nat ((a + PGSIZE - 1) / 4096 - a / 4096)) with O by (unfold PGSIZE; lia_mod).
  cbv zeta. rewrite Ha, Z.sub_0_r. change (Z.of_nat 0) with 0. 
  destruct (mappages_loop_spec 0 pgdir a (V2P p) (Z.lor PTE_W PTE_U) o (zero_page_st p k) (p :: ps ++ E) l)
    as (r & j & k' & l' & Hrun & Hinv' & Hs & Hsuf & Hr & Hlk'); [done|done|done|lia| | |].
  { rewrite V2P_kpage by done. destruct Hp; unfold KERNBASE, PHYSTOP in *; lia. }
  { intros i Hi. replace i with 0 by lia. rewrite Z.mul_0_r, Z.add_0_r, Hlk, (gr_lookup _ _ _ _ _ _ _ Hg).
    unfold vpn. rewrite u32_small by lia. rewrite Hn, (proj2 (Z.ltb_ge _ _)) by lia. by rewrite andb_false_r. }
  exists r, k', l'. split; [done|]. split; [done|]. split; [done|].
  assert (∀ q x, q ∈ p :: ps → in_page x q → ld8 (k_mem k') x = 0) as Hz'.
  { intros q x Hq Hx. rewrite (vm_step_own _ _ _ _ _ q x Hinv Hs) by (done || set_solver). eauto. }
  destruct Hr as [[-> ->]|(-> & -> & Hj)]; [left|right].
  - split; [done|]. split.
    + eapply vm_inv_perm; [|done]. rewrite <- app_assoc. cbn. by rewrite Permutation_middle.
    + intros va. rewrite Hlk'. unfold mapped_lookup. rewrite Hlk, (gr_lookup _ _ _ _ _ _ _ Hg), Hn.
      rewrite length_app. cbn [length].
      repeat (case_test; try lia); try done; cbn [andb].
      * by rewrite lookup_app_l by lia.
      * replace (vpn va - (n0 + Z.of_nat (length ps))) with 0 by lia. rewrite user_entry by done.
        replace (Z.to_nat (vpn va - n0)) with (length ps) by lia.
        by rewrite lookup_app_r, Nat.sub_diag by lia.
    + intros q x Hq. apply Hz'. set_solver.
  - split; [done|]. split; [done|]. split.
    + eapply vm_inv_perm; [|done]. by rewrite Permutation_middle.
    + intros va. rewrite Hlk'. unfold mapped_lookup. replace j with 0 by lia.
      rewrite Hlk, <- (gr_lookup _ _ _ _ _ _ _ Hg). repeat (case_test; try lia); done.
    + intros q x Hq. apply Hz'. set_solver.
Qed.

Section allocuvm.
Context (pgdir oldsz newsz : Z) (m0 : mem) (E : list Z).
#[local] Notation a0 := (PGROUNDUP oldsz).
#[local] Notation n0 := (PGROUNDUP oldsz / 4096).
Hypothesis Hsz : 0 ≤ oldsz ≤ newsz.
Hypothesis Hmax : newsz < KERNBASE.
(** Nothing is mapped above the old size. *)
Hypothesis Hfresh : ∀ va, n0 ≤ vpn va → vpn va < n0 + Z.of_nat (npages a0 newsz) →
  pt_lookup m0 pgdir va = 0.

Lemma a0_page : a0 mod 4096 = 0 ∧ 0 ≤ a0 ≤ 2147483648 ∧ oldsz ≤ a0.
Proof. rewrite PGROUNDUP_eq. unfold KERNBASE in Hmax. unfold u32. lia_mod. Qed.

Lemma range_end : npages a0 newsz = O ∨
  a0 + 4096 * Z.of_nat (npages a0 newsz) ≤ 2147483648.
Proof. pose proof a0_page. unfold npages, KERNBASE in *. lia_mod. Qed.

(** Undoing a partial growth. *)
Lemma grow_undo E' ps l k o :
  grown pgdir m0 n0 E' ps l k → (length ps ≤ npages a0 newsz)%nat → oldsz < newsz →
  ∃ k', deallocuvm pgdir newsz oldsz o k = Ret oldsz o k' ∧
    vm_inv k' pgdir E' (rev ps ++ l) ∧ vm_step pgdir ps k k' ∧
    (∀ va, pt_lookup (k_mem k') pgdir va = pt_lookup m0 pgdir va).
Proof.
  intros Hg Hlen Hlt. destruct a0_page as (Ha & Har & _). pose proof range_end as Hend.
  assert (a0 + 4096 * Z.of_nat (length ps) ≤ 4294967296) by lia.
  pose proof (grown_uframes pgdir m0 n0 E' ps l k a0 Hg Ha ltac:(lia) eq_refl ltac:(done)) as Hfr.
  assert (uframes (k_mem k) pgdir (page_seq a0 (npages a0 newsz)) = ps) as Hall.
  { replace (npages a0 newsz) with (length ps + (npages a0 newsz - length ps))%nat by lia.
    rewrite page_seq_app. unfold uframes. rewrite omap_app. fold (uframes (k_mem k) pgdir (page_seq a0 (length ps))).
    rewrite Hfr. transitivity (ps ++ []); [f_equal|apply app_nil_r]. apply uframes_nil.
    intros va (i & Hi & ->)%elem_of_page_seq. rewrite (gr_lookup _ _ _ _ _ _ _ Hg).
    replace (a0 + 4096 * Z.of_nat (length ps) + 4096 * i) with (a0 + 4096 * (Z.of_nat (length ps) + i)) by lia.
    rewrite vpn_page by lia.
    rewrite (proj2 (Z.ltb_ge _ _)) by lia. rewrite andb_false_r.
    rewrite Hfresh; [done|rewrite vpn_page by lia; lia..]. }
  destruct (deallocuvm_spec pgdir newsz oldsz E' l k o) as (k' & Hrun & Hinv' & Hs' & Hlk');
    [lia|lia|rewrite Hall; apply (gr_inv _ _ _ _ _ _ _ Hg)|].
  rewrite Hall in *. exists k'. split_and!; [done..|]. intros va. rewrite Hlk'.
  unfold cleared_lookup. rewrite (gr_lookup _ _ _ _ _ _ _ Hg).
  destruct (decide (n0 ≤ vpn va ∧ vpn va < n0 + Z.of_nat (npages a0 newsz))) as [[H1 H2]|Hn].
  - rewrite (proj2 (Z.leb_le n0 _)), (proj2 (Z.ltb_lt (vpn va) (n0 + Z.of_nat (npages a0 newsz)))) by lia.
    rewrite Hfresh by done. cbn [andb].
    destruct (Z.ltb_spec (vpn va) (n0 + Z.of_nat (length ps))) as [H3|H3]; [|done].
    destruct (lookup_lt_is_Some_2 ps (Z.to_nat (vpn va - n0)) ltac:(lia)) as [p Hp]. rewrite Hp. cbn [default].
    rewrite pte_present; [done| |lia|done].
    eapply page_ok_kpage, (proj1 (Forall_forall _ _) (vi_own _ _ _ _ (gr_inv _ _ _ _ _ _ _ Hg))).
    apply elem_of_app. left. by eapply list_elem_of_lookup_2.
  - replace ((n0 <=? vpn va) && (vpn va <? n0 + Z.of_nat (npages a0 newsz))) with false
      by (symmetry; apply andb_false_iff; rewrite Z.leb_gt, Z.ltb_ge; lia).
    replace ((n0 <=? vpn va) && (vpn va <? n0 + Z.of_nat (length ps))) with false
      by (symmetry; apply andb_false_iff; rewrite Z.leb_gt, Z.ltb_ge; lia). done.
Qed.

(** What a growth leaves: either every page of the range is mapped to a
    fresh zeroed page, or no address is mapped differently from before. *)
Definition alloc_post (r : Z) (k' : K) : Prop :=
  (r = newsz ∧ ∃ ps l', length ps = npages a0 newsz ∧ grown pgdir m0 n0 E ps l' k') ∨
  (r = 0 ∧ ∃ l', vm_inv k' pgdir E l' ∧ ∀ va, pt_lookup (k_mem k') pgdir va = pt_lookup m0 pgdir va).

Lemma vm_step_cons S k k' : vm_step pgdir S k k' → cons_ready k → cons_ready k'.
Proof. intros [-> _ _]. done. Qed.

Lemma vm_free_lookup p k E' l o :
  vm_inv k pgdir (p :: E') l →
  kfree p o k = Ret tt o (kfree_st p k) ∧ vm_inv (kfree_st p k) pgdir E' (p :: l) ∧
  ∀ va, pt_lookup (k_mem (kfree_st p k)) pgdir va = pt_lookup (k_mem k) pgdir va.
Proof.
  intros Hinv. destruct (vm_free pgdir p k E' l o Hinv) as (Hrun & Hinv' & _ & Hm).
  split_and!; [done..|]. intros va. by apply pt_lookup_ext.
Qed.

Lemma alloc_fail_empty ps k o :
  (length ps ≤ npages a0 newsz)%nat → oldsz < newsz → cons_ready k →
  grown pgdir m0 n0 E ps [] k →
  ∃ k', (cprintf ("allocuvm out of memory" +:+ nl) [] ;;;
         deallocuvm pgdir newsz oldsz ;;; ret 0) o k = Ret 0 o k' ∧ alloc_post 0 k'.
Proof.
  intros Hl Hlt Hc Hg. kstep_with (cprintf_plain ("allocuvm out of memory" +:+ nl) o k ltac:(vm_compute; set_solver) Hc).
  destruct (grow_undo E ps [] _ o (grown_put_out _ _ _ _ (str ("allocuvm out of memory" +:+ nl)) _ _ _ Hg) Hl Hlt)
    as (k' & Hrun & Hinv & _ & Hlk). kstep_with Hrun.
  exists k'. split; [done|]. right. split; [done|]. by eexists.
Qed.

Lemma alloc_fail_table p ps k o :
  (length ps ≤ npages a0 newsz)%nat → oldsz < newsz → cons_ready k →
  grown pgdir m0 n0 (p :: E) ps [] k →
  ∃ k', (cprintf ("allocuvm out of memory (2)" +:+ nl) [] ;;;
         deallocuvm pgdir newsz oldsz ;;; kfree p ;;; ret 0) o k = Ret 0 o k' ∧ alloc_post 0 k'.
Proof.
  intros Hl Hlt Hc Hg. kstep_with (cprintf_plain ("allocuvm out of memory (2)" +:+ nl) o k ltac:(vm_compute; set_solver) Hc).
  destruct (grow_undo (p :: E) ps [] _ o (grown_put_out _ _ _ _ (str ("allocuvm out of memory (2)" +:+ nl)) _ _ _ Hg) Hl Hlt)
    as (k1 & Hrun & Hinv & _ & Hlk). kstep_with Hrun.
  destruct (vm_free_lookup p k1 E _ o Hinv) as (Hrun2 & Hinv2 & Hlk2). kstep_with Hrun2.
  eexists. split; [done|]. right. split; [done|]. eexists. split; [done|]. intros va. by rewrite Hlk2.
Qed.

Lemma allocuvm_loop_spec fuel ps l k o :
  (length ps ≤ npages a0 newsz ≤ length ps + fuel)%nat → cons_ready k → grown pgdir m0 n0 E ps l k →
  ∃ r k', allocuvm_loop fuel pgdir (a0 + 4096 * Z.of_nat (length ps)) oldsz newsz o k = Ret r o k' ∧
    alloc_post r k'.
Proof.
  destruct a0_page as (Ha & Har & Hao). pose proof range_end as Hend.
  revert ps l k. induction fuel as [|fuel IH]; intros ps l k Hf Hc Hg; cbn [allocuvm_loop];
    destruct (Z.ltb_spec (a0 + 4096 * Z.of_nat (length ps)) newsz) as [Hlt|Hge];
    try (exfalso; unfold npages in Hf; clear -Hf Hlt; lia_mod);
    try (eexists _, _; split; [done|]; left; split; [done|]; exists ps, l; split; [|done];
         unfold npages in *; clear -Hf Hge; lia_mod).
  kstep_with (kalloc_run o k (vi_ready _ _ _ _ (gr_inv _ _ _ _ _ _ _ Hg))).
  pose proof (vi_free _ _ _ _ (gr_inv _ _ _ _ _ _ _ Hg)) as (Hfl & Hpl & _).
  destruct l as [|p l]; cbn [flist] in Hfl.
  - rewrite Hfl, Z.eqb_refl. replace (kalloc_st k) with k by (unfold kalloc_st; by rewrite Hfl).
    destruct (alloc_fail_empty ps k o) as (k' & ? & ?); [lia|lia|done|done|]. eauto.
  - destruct Hfl as [-> _]. apply Forall_cons in Hpl as [Hp _].
    rewrite (proj2 (Z.eqb_neq p 0)) by (apply page_ok_range in Hp; lia).
    unfold kmemset. kstep. fold (zero_page_st p k).
    set (a := a0 + 4096 * Z.of_nat (length ps)) in *.
    assert (length ps < npages a0 newsz)%nat by (unfold npages; clear -Hlt a; lia_mod).
    destruct (grow_map pgdir m0 n0 E ps p l k o a Hg) as (r & k1 & l1 & Hrun & Hs & _ & Hr);
      [lia_mod|lia|lia|lia_mod| |].
    { rewrite Hfresh; [done|unfold a; rewrite vpn_page by lia; lia..]. }
    kstep_with Hrun.
    assert (cons_ready k1) as Hc1.
    { eapply vm_step_cons; [done|]. unfold zero_page_st. rewrite kalloc_st_rest. done. }
    destruct Hr as [[-> Hg1]|(-> & -> & Hg1)]; cbn [Z.ltb Z.compare].
    + destruct (IH (ps ++ [p]) l1 k1) as (r & k' & Hrun' & Hpost); [rewrite length_app; cbn; lia|done|done|].
      exists r, k'. split; [|done]. rewrite <- Hrun'. rewrite length_app. cbn [length].
      f_equal. rewrite u32_small; unfold a, PGSIZE; lia.
    + destruct (alloc_fail_table p ps k1 o) as (k' & ? & ?); [lia|lia|done|done|]. eauto.
Qed.

Lemma allocuvm_run l k o :
  cons_ready k → vm_inv k pgdir E l → m0 = k_mem k →
  ∃ r k', allocuvm pgdir oldsz newsz o k = Ret r o k' ∧ alloc_post r k'.
Proof.
  intros Hc Hinv Hm. unfold allocuvm. rewrite (proj2 (Z.leb_gt _ _)), (proj2 (Z.ltb_ge _ _)) by lia.
  destruct (allocuvm_loop_spec (Z.to_nat (newsz / PGSIZE + 1)) [] l k o) as (r & k' & Hrun & Hp).
  - destruct a0_page as (_ & ? & ?). unfold npages, PGSIZE. cbn. lia_mod.
  - done.
  - split; [done| |set_solver]. intros va. cbn [length]. rewrite Hm. repeat (case_test; try lia); done.
  - exists r, k'. split; [|done]. rewrite <- Hrun. f_equal. cbn. lia.
Qed.
End allocuvm.

(** ** Properties *)


(** Two free pages and an empty page directory. *)
Definition demo_pgdir : Z := demo_page.
Definition demo_mem : K := kfree_st (demo_page + 8192) (kfree_st (demo_page + 4096) (K_demo ∅)).

Lemma demo_mem_rest : k_hw demo_mem = k_hw (K_demo ∅) ∧ k_cons demo_mem = k_cons (K_demo ∅).
Proof. unfold demo_mem, kfree_st. done. Qed.

Lemma demo_mem_dir x : in_page x demo_pgdir → ld8 (k_mem demo_mem) x = 0.
Proof.
  unfold in_page, demo_pgdir, demo_mem, demo_page, KERNBASE. intros Hx.
  rewrite !kfree_st_mem by lia. done.
Qed.

Lemma demo_pde d : 0 ≤ d < 1024 → pde (k_mem demo_mem) demo_pgdir d = 0.
Proof.
  intros Hd. unfold pde. transitivity (ld32 ∅ (demo_pgdir + 4 * d)); [|done].
  apply ld32_ext. intros x Hx. rewrite demo_mem_dir by (unfold in_page; lia). reflexivity.
Qed.

Lemma demo_absent d : 0 ≤ d < 1024 → present (pde (k_mem demo_mem) demo_pgdir d) = true → False.
Proof. intros Hd. rewrite demo_pde by done. discriminate. Qed.

Lemma demo_lookup va : pt_lookup (k_mem demo_mem) demo_pgdir va = 0.
Proof. apply lookup_absent. rewrite demo_pde by apply PDX_range. reflexivity. Qed.

Lemma demo_uframes vs : uframes (k_mem demo_mem) demo_pgdir vs = [].
Proof. apply uframes_nil. intros va _. rewrite demo_lookup. reflexivity. Qed.

Lemma demo_vm : vm_inv demo_mem demo_pgdir [] [demo_page + 8192; demo_page + 4096].
Proof.
  assert (∀ k p, k_link k = demo_link → p ∈ [demo_page; demo_page + 4096; demo_page + 8192] → page_ok k p) as Hp.
  { intros k p E Hp. unfold page_ok. rewrite E. repeat (apply elem_of_cons in Hp as [->|Hp]; [vm_compute; split_and!; congruence|]).
    by apply elem_of_nil in Hp. }
  split.
  - unfold kmem_ready. rewrite (proj1 demo_mem_rest). apply demo_kmem_ready.
  - apply kfree_st_free; [apply Hp; [done|set_solver]|by intros [?|?%elem_of_nil]%elem_of_cons|].
    apply kfree_st_free; [apply Hp; [done|set_solver]|by intros ?%elem_of_nil|apply demo_free_ok].
  - split.
    + eapply page_ok_kpage, (Hp (K_demo ∅)); [done|set_solver].
    + by intros [?|[?|?%elem_of_nil]%elem_of_cons]%elem_of_cons.
    + intros d Hd Hp'. by destruct (demo_absent d).
    + intros d Hd Hp'. by destruct (demo_absent d).
    + intros d Hd Hp'. by destruct (demo_absent d).
    + intros d d' Hd _ _ Hp'. by destruct (demo_absent d).
  - repeat constructor; [by intros [?|?%elem_of_nil]%elem_of_cons|by intros ?%elem_of_nil].
  - constructor.
  - vm_compute. congruence.
Qed.


(** C30: [deallocuvm] gives back exactly the pages that were mapped between the
    new and the old size, each once, clears their entries, and changes neither
    another mapping nor the contents of a page that stays mapped. *)
Theorem deallocuvm_frees_range pgdir oldsz newsz E l k o :
  0 ≤ newsz < oldsz → oldsz ≤ KERNBASE →
  let a := PGROUNDUP newsz in
  let fr := uframes (k_mem k) pgdir (page_seq a (npages a oldsz)) in
  vm_inv k pgdir (fr ++ E) l →
  ∃ k', deallocuvm pgdir oldsz newsz o k = Ret newsz o k' ∧
    vm_inv k' pgdir E (rev fr ++ l) ∧ vm_step pgdir fr k k' ∧
    (∀ va, pt_lookup (k_mem k') pgdir va = cleared_lookup (k_mem k) pgdir a oldsz va).
Proof. apply deallocuvm_spec. Qed.

Lemma deallocuvm_frees_range_witness :
  ∃ k', deallocuvm demo_pgdir 8192 0 [] demo_mem = Ret 0 [] k' ∧
    vm_inv k' demo_pgdir [] [demo_page + 8192; demo_page + 4096].
Proof.
  destruct (deallocuvm_frees_range demo_pgdir 8192 0 [] [demo_page + 8192; demo_page + 4096] demo_mem [])
    as (k' & Hrun & Hinv & _).
  - lia.
  - vm_compute. congruence.
  - rewrite demo_uframes. apply demo_vm.
  - exists k'. split; [exact Hrun|]. rewrite demo_uframes in Hinv. exact Hinv.
Defined.
