(* ===== verification/Proc.v ===== *)
(** * Processes: scheduling, sleeping, waiting ([proc.c])

    The process table, the per-process fields and the functions of [proc.c]
    that need neither files nor inodes.  A [struct proc *] is an index of the
    process table.  [swtch] into the scheduler is where the rest of the system
    runs: the code continues in the state the oracle's next entry makes.  The
    trap frame and the context are fields of the process rather than bytes of
    its kernel stack. *)

From stdpp Require Import base numbers list gmap strings.
From S2P Require Import Prelude Mmu Hardware Memory Kernel Spinlock Kalloc Cprintf Vm.

Implicit Types (k : K) (h : hw) (o : oracle).

(** ** Translated code *)

(** Field access through a [struct proc *]. *)
Definition pget {A} (f : proc → A) (p : nat) : M A :=
  reads (λ k, f (default zero_proc (k_ptable k !! p))).
Definition pset (p : nat) (f : proc → proc) : M unit :=
  modify (λ k, set_k_ptable (alter f p (k_ptable k)) k).

(** [myproc()] where the caller dereferences the result. *)
Definition curproc : M nat :=
  let! p := myproc in
  match p with
  | Some p => ret p
  | None => panic "trap"
  end.

Definition pinit : M unit := initlock LPtable.

Definition SIZEOF_TRAPFRAME : Z := 76.

Definition allocproc : M (option nat) :=
  acquire LPtable ;;;
  let! found := reads (λ k, list_find (λ p, p_state p = UNUSED) (k_ptable k)) in
  match found with
  | None => release LPtable ;;; ret None
  | Some (p, _) =>
      pset p (set_p_state EMBRYO) ;;;
      let! pid := reads k_nextpid in
      pset p (set_p_pid pid) ;;;
      modify (set_k_nextpid (s32 (pid + 1))) ;;;
      release LPtable ;;;
      let! kstack := kalloc in
      pset p (set_p_kstack kstack) ;;;
      if kstack =? 0 then pset p (set_p_state UNUSED) ;;; ret None
      else
        let sp := kstack + KSTACKSIZE - SIZEOF_TRAPFRAME - 4 in
        let! trapret := reads (λ k, ln_trapret (k_link k)) in
        wr32 sp trapret ;;;
        let! forkret := reads (λ k, ln_forkret (k_link k)) in
        pset p (set_p_context (mk_ctx 0 0 0 0 forkret)) ;;;
        ret (Some p)
  end.

Definition growproc (n : Z) : M Z :=
  let! cur := curproc in
  let! sz := pget p_sz cur in
  let! pgdir := pget p_pgdir cur in
  let! r :=
    if 0 <? n then allocuvm pgdir sz (u32 (sz + n))
    else if n <? 0 then deallocuvm pgdir sz (u32 (sz + n))
    else ret sz in
  if negb (n =? 0) && (r =? 0) then ret (-1)
  else
    pset cur (set_p_sz r) ;;;
    switchuvm (Some cur) ;;;
    ret 0.

(** Enter the scheduler. *)
Definition sched : M unit :=
  let! p := curproc in
  let! held := holding LPtable in
  if negb held then panic "sched ptable.lock"
  else
    let! c := mycpu in
    let! ncli := cpu_read c_ncli 0 c in
    if negb (ncli =? 1) then panic "sched locks"
    else
      let! st := pget p_state p in
      if bool_decide (st = RUNNING) then panic "sched running"
      else
        let! ie := reads (λ k, h_IF (k_hw k)) in
        if ie : bool then panic "sched interruptible"
        else
          let! c := mycpu in
          let! intena := cpu_read c_intena false c in
          wait_others ;;;
          let! c := mycpu in
          cpu_write (set_c_intena intena) c.

Definition yield : M unit :=
  acquire LPtable ;;;
  let! p := curproc in
  pset p (set_p_state RUNNABLE) ;;;
  sched ;;;
  release LPtable.

Definition sleep (ch : chan) (lk : option lockid) : M unit :=
  let! p := myproc in
  match p with
  | None => panic "sleep"
  | Some p =>
      match lk with
      | None => panic "sleep without lk"
      | Some lk =>
          when (bool_decide (lk ≠ LPtable)) (acquire LPtable ;;; release lk) ;;;
          pset p (set_p_chan (Some ch)) ;;;
          pset p (set_p_state SLEEPING) ;;;
          sched ;;;
          pset p (set_p_chan None) ;;;
          when (bool_decide (lk ≠ LPtable)) (release LPtable ;;; acquire lk)
      end
  end.

(** One turn of the loop of [wakeup1]. *)
Definition wake_proc (ch : chan) (p : proc) : proc :=
  if bool_decide (p_state p = SLEEPING) && bool_decide (p_chan p = Some ch)
  then set_p_state RUNNABLE p else p.

Definition wakeup1 (ch : chan) : M unit :=
  modify (λ k, set_k_ptable (wake_proc ch <$> k_ptable k) k).

Definition wakeup (ch : chan) : M unit :=
  acquire LPtable ;;; wakeup1 ch ;;; release LPtable.

Definition kill_proc (p : proc) : proc :=
  let p := set_p_killed true p in
  if bool_decide (p_state p = SLEEPING) then set_p_state RUNNABLE p else p.

Definition kill (pid : Z) : M Z :=
  acquire LPtable ;;;
  let! found := reads (λ k, list_find (λ p, p_pid p = pid) (k_ptable k)) in
  match found with
  | Some (p, _) => pset p kill_proc ;;; release LPtable ;;; ret 0
  | None => release LPtable ;;; ret (-1)
  end.

(** The scan of the table in [wait]: [havekids], and the first exited child. *)
Fixpoint wait_scan (cur : nat) (p : nat) (l : list proc) (havekids : bool) : bool * option nat :=
  match l with
  | [] => (havekids, None)
  | q :: l =>
      if negb (bool_decide (p_parent q = Some cur)) then wait_scan cur (S p) l havekids
      else if bool_decide (p_state q = ZOMBIE) then (true, Some p)
      else wait_scan cur (S p) l true
  end.

(** Writing 0 to [name[0]]. *)
Definition clear_name (p : proc) : proc := set_p_name (<[0%nat := 0]> (p_name p)) p.

Definition reap (p : nat) : M unit :=
  pset p (set_p_pid 0) ;;;
  pset p (set_p_parent None) ;;;
  pset p clear_name ;;;
  pset p (set_p_killed false) ;;;
  pset p (set_p_state UNUSED).

Definition wait_turn (cur : nat) : M (option Z) :=
  let! scan := reads (λ k, wait_scan cur 0 (k_ptable k) false) in
  match scan with
  | (_, Some p) =>
      let! pid := pget p_pid p in
      let! kstack := pget p_kstack p in
      kfree kstack ;;;
      pset p (set_p_kstack 0) ;;;
      let! pgdir := pget p_pgdir p in
      freevm pgdir ;;;
      reap p ;;;
      release LPtable ;;;
      ret (Some pid)
  | (havekids, None) =>
      let! killed := pget p_killed cur in
      if negb havekids || killed then release LPtable ;;; ret (Some (-1))
      else sleep (CProc cur) (Some LPtable) ;;; ret None
  end.

Definition wait : M Z :=
  let! cur := curproc in
  acquire LPtable ;;;
  forever (wait_turn cur).

(** *** The lottery scheduler *)

Fixpoint tickets_sum (l : list proc) (sum : Z) : Z :=
  match l with
  | [] => sum
  | p :: l =>
      tickets_sum l (if bool_decide (p_state p = RUNNABLE) then s32 (sum + p_tickets p) else sum)
  end.

Definition get_tickets : M Z := reads (λ k, tickets_sum (k_ptable k) 0).

Definition change_tickets (pid tickets : Z) : M Z :=
  cprintf ("process: %d, set tickets to: %d" +:+ nl) [AInt pid; AInt tickets] ;;;
  acquire LPtable ;;;
  let! found := reads (λ k, list_find (λ p, p_pid p = pid) (k_ptable k)) in
  match found with
  | Some (p, _) => pset p (set_p_tickets tickets)
  | None => ret tt
  end ;;;
  release LPtable ;;;
  ret pid.

(** [b = ((z << s1) ^ z) >> s2; z = ((z & mask) << s3) ^ b].  The masks do not
    fit an [int], so the second line is computed in 64 bits and truncated. *)
Definition lfsr (s1 s2 mask s3 z : Z) : Z :=
  let b := Z.shiftr (Z.lxor (s32 (Z.shiftl z s1)) z) s2 in
  s32 (Z.lxor (Z.shiftl (Z.land z mask) s3) b).

Definition lfsr4 (z : Z * Z * Z * Z) : Z * Z * Z * Z :=
  let '(z1, z2, z3, z4) := z in
  (lfsr 6 13 4294967294 18 z1, lfsr 2 27 4294967288 2 z2,
   lfsr 13 21 4294967280 7 z3, lfsr 3 12 4294967168 13 z4).

Definition random (max : Z) : M Z :=
  if max <=? 0 then ret 1
  else
    let! z := reads k_rand in
    let '(z1, z2, z3, z4) := lfsr4 z in
    modify (set_k_rand (z1, z2, z3, z4)) ;;;
    let num := Z.rem (Z.lxor (Z.lxor (Z.lxor z1 z2) z3) z4) max in
    ret (if num <? 0 then s32 (num * -1) else num).

(** The body of the scheduler's loop over the table, on CPU [c]. *)
Definition scheduler_visit (c p : nat) : M unit :=
  let! st := pget p_state p in
  if negb (bool_decide (st = RUNNABLE)) then ret tt
  else
    let! sum := get_tickets in
    let! choice := if 0 <? sum then random sum else ret (-1) in
    let! tickets := pget p_tickets p in
    if tickets <=? choice then ret tt
    else
      cpu_write (set_c_proc (Some p)) c ;;;
      switchuvm (Some p) ;;;
      pset p (set_p_state RUNNING) ;;;
      wait_others ;;;
      switchkvm ;;;
      cpu_write (set_c_proc None) c.

Fixpoint scheduler_pass (n c p : nat) : M unit :=
  match n with
  | O => ret tt
  | S n => scheduler_visit c p ;;; scheduler_pass n c (S p)
  end.

Fixpoint scheduler_rounds (n c : nat) : M unit :=
  match n with
  | O => ret tt
  | S n =>
      sti ;;;
      acquire LPtable ;;;
      scheduler_pass NPROC c 0 ;;;
      release LPtable ;;;
      scheduler_rounds n c
  end.

(** The scheduler loops for ever; [n] is how many rounds are looked at. *)
Definition scheduler (n : nat) : M unit :=
  let! c := mycpu in
  cpu_write (set_c_proc None) c ;;;
  scheduler_rounds n c.

Definition hello_world : M Z := cprintf ("hello world" +:+ nl) [] ;;; ret 1.

(** ** Sleeping and waking *)

Definition proc_at (k : K) (p : nat) : proc := default zero_proc (k_ptable k !! p).

Lemma curproc_spec o k i :
  irq_ok (k_hw k) → hw_proc (k_hw k) = Some i → curproc o k = Ret i o k.
Proof. intros Hok Hp. unfold curproc. kstep_with (myproc_spec o k Hok). by rewrite Hp. Qed.

Definition hw_intena (h : hw) : bool :=
  match hw_cpu h with Some (_, c) => c_intena c | None => false end.

(** What the scheduler promises to a process it switches to: the process runs
    on this CPU, interrupts are off, and the process table's lock is the only
    one the CPU holds. *)
Definition resumed (i : nat) (h : hw) : Prop :=
  ∃ c cp, hw_cpu h = Some (c, cp) ∧ h_IF h = false ∧ c_ncli cp = 1 ∧ c_proc cp = Some i ∧
          h_locks h !! LPtable = Some (Some c).

(** [sched] restores [intena], a property of the thread, on the CPU it returns on. *)
Definition sched_back (b : bool) (k : K) : K := set_k_hw (hw_upd (set_c_intena b) (k_hw k)) k.

Lemma hw_cpu_intena b h c cp :
  hw_cpu h = Some (c, cp) → hw_cpu (hw_upd (set_c_intena b) h) = Some (c, set_c_intena b cp).
Proof. intros Hc. unfold hw_upd. rewrite Hc. by apply (hw_cpu_alter h (set_c_intena b)). Qed.

Lemma resumed_back i b h :
  resumed i h → let h' := hw_upd (set_c_intena b) h in
  irq_ok h' ∧ hw_ncli h' = 1 ∧ hw_proc h' = Some i ∧ hw_holds LPtable h' ∧
  h_locks h' = h_locks h ∧ hw_intena h' = b.
Proof.
  intros (c & cp & Hc & HIF & Hn & Hp & Hl). cbn zeta.
  pose proof (hw_cpu_intena b h c cp Hc) as Hc'.
  assert (h_IF (hw_upd (set_c_intena b) h) = false) as HIF' by (unfold hw_upd; by rewrite Hc).
  assert (h_locks (hw_upd (set_c_intena b) h) = h_locks h) as Hl' by (unfold hw_upd; by rewrite Hc).
  unfold hw_ncli, hw_proc, hw_intena. rewrite Hc'. cbn. split_and!; try done.
  - exists c, (set_c_intena b cp). cbn. split; [done|]. split; [lia|]. split; [lia|done].
  - exists c, (set_c_intena b cp). by rewrite Hl'.
Qed.

Lemma hw_holdsb_true lk h : hw_holds lk h → hw_holdsb lk h = true.
Proof. apply hw_holdsb_spec. Qed.

(** A well-behaved call gets to the switch. *)
Lemma sched_reaches i o k :
  irq_ok (k_hw k) → hw_proc (k_hw k) = Some i → hw_holds LPtable (k_hw k) →
  hw_ncli (k_hw k) = 1 → p_state (proc_at k i) ≠ RUNNING →
  sched o k = (wait_others ;;; let! c := mycpu in cpu_write (set_c_intena (hw_intena (k_hw k))) c) o k.
Proof.
  intros Hok Hp Hh Hn Hs. unfold sched. kstep_with (curproc_spec o k i Hok Hp).
  kstep_with (holding_spec LPtable o k Hok). rewrite hw_holdsb_true by done. cbn [negb].
  pose proof Hok as (c & cp & Hc & _ & _ & HIF).
  unfold hw_ncli in Hn. rewrite Hc in Hn. specialize (HIF ltac:(lia)).
  kstep_with (mycpu_spec o k c cp HIF Hc). unfold cpu_read. kstep.
  rewrite (hw_cpu_lookup _ _ _ Hc), Hn. cbn [Z.eqb negb Pos.eqb]. unfold pget. kstep.
  rewrite bool_decide_eq_false_2 by done. kstep. rewrite HIF.
  kstep_with (mycpu_spec o k c cp HIF Hc). kstep. rewrite (hw_cpu_lookup _ _ _ Hc).
  unfold hw_intena. by rewrite Hc.
Qed.

Lemma sched_spec i env o k :
  irq_ok (k_hw k) → hw_proc (k_hw k) = Some i → hw_holds LPtable (k_hw k) →
  hw_ncli (k_hw k) = 1 → p_state (proc_at k i) ≠ RUNNING → resumed i (k_hw (env k)) →
  sched (env :: o) k = Ret tt o (sched_back (hw_intena (k_hw k)) (env k)).
Proof.
  intros Hok Hp Hh Hn Hs (c & cp & Hc & HIF & _). rewrite (sched_reaches i) by done.
  assert (wait_others (env :: o) k = Ret tt o (env k)) as Hw by done. kstep_with Hw.
  kstep_with (mycpu_spec o (env k) c cp HIF Hc). unfold cpu_write, modify, sched_back, hw_upd.
  by rewrite Hc.
Qed.

(** Entering the scheduler without the process table's lock, with another
    lock held, or while still [RUNNING], panics. *)
Lemma sched_panics i o k :
  irq_ok (k_hw k) → hw_proc (k_hw k) = Some i →
  ¬ hw_holds LPtable (k_hw k) ∨ 1 < hw_ncli (k_hw k) ∨
    hw_holds LPtable (k_hw k) ∧ hw_ncli (k_hw k) = 1 ∧ p_state (proc_at k i) = RUNNING →
  ∃ msg, sched o k = Panic msg k.
Proof.
  intros Hok Hp Hcase. unfold sched. kstep_with (curproc_spec o k i Hok Hp).
  kstep_with (holding_spec LPtable o k Hok).
  destruct (hw_holdsb LPtable (k_hw k)) eqn:Hb; cbn [negb]; [|by eexists].
  apply hw_holdsb_spec in Hb. destruct Hcase as [?|Hcase]; [done|].
  pose proof Hok as (c & cp & Hc & _ & _ & HIF). unfold hw_ncli in Hcase. rewrite Hc in Hcase.
  specialize (HIF ltac:(lia)). kstep_with (mycpu_spec o k c cp HIF Hc). unfold cpu_read. kstep.
  rewrite (hw_cpu_lookup _ _ _ Hc).
  destruct Hcase as [Hgt|(_ & Hn & Hs)].
  - replace (c_ncli cp =? 1) with false by lia. by eexists.
  - rewrite Hn. cbn [Z.eqb Pos.eqb negb]. unfold pget. kstep. rewrite bool_decide_eq_true_2 by done. by eexists.
Qed.

(** The state in which a process that calls [sleep] gives the CPU away: marked
    asleep on [ch] with [lk] released and the table's lock held. *)
Definition fall_asleep (ch : chan) (p : proc) : proc := set_p_state SLEEPING (set_p_chan (Some ch) p).

Definition sleep_out (ch : chan) (lk : lockid) (i : nat) (k : K) : K :=
  let h := k_hw k in
  set_k_ptable (alter (fall_asleep ch) i (k_ptable k))
    (set_k_hw (if bool_decide (lk = LPtable) then h else hw_rel lk (hw_acq LPtable h)) k).

(** The state [sleep] returns in, from the state it is resumed in. *)
Definition sleep_in (b : bool) (lk : lockid) (i : nat) (k : K) : K :=
  let h := hw_upd (set_c_intena b) (k_hw k) in
  set_k_ptable (alter (set_p_chan None) i (k_ptable k))
    (set_k_hw (if bool_decide (lk = LPtable) then h else hw_acq lk (hw_rel LPtable h)) k).

(** [k] is a state in which process [i] may call [sleep] with [lk]. *)
Definition can_sleep (i : nat) (lk : lockid) (k : K) : Prop :=
  irq_ok (k_hw k) ∧ hw_proc (k_hw k) = Some i ∧ hw_holds lk (k_hw k) ∧ hw_ncli (k_hw k) = 1 ∧
  (lk ≠ LPtable → h_locks (k_hw k) !! LPtable = None) ∧ (i < length (k_ptable k))%nat.

Lemma alter_fall_asleep ch i (l : list proc) :
  alter (set_p_state SLEEPING) i (alter (set_p_chan (Some ch)) i l) = alter (fall_asleep ch) i l.
Proof. by rewrite alter_alter_eq. Qed.

(** The hardware state with the table's lock taken and [lk] given up. *)
Lemma swap_locks i lk k :
  can_sleep i lk k → lk ≠ LPtable → let h := hw_rel lk (hw_acq LPtable (k_hw k)) in
  irq_ok h ∧ hw_proc h = Some i ∧ hw_holds LPtable h ∧ hw_ncli h = 1 ∧
  hw_intena h = hw_intena (k_hw k).
Proof.
  intros (Hok & Hp & Hh & Hn & Hfree & _) Hne. cbn zeta.
  assert (irq_ok (hw_acq LPtable (k_hw k))) as Hok1 by auto with kernel.
  assert (hw_ncli (hw_acq LPtable (k_hw k)) = 2) as Hn1 by (rewrite hw_ncli_acq by done; lia).
  split_and!.
  - apply irq_ok_rel; [done|lia].
  - by rewrite hw_proc_rel, hw_proc_acq.
  - apply hw_holds_rel_ne; [done|]. by apply hw_holds_acq.
  - rewrite hw_ncli_rel by done. lia.
  - destruct Hok as (c & cp & Hc & _). unfold hw_intena.
    rewrite (hw_cpu_rel _ _ _ _ (hw_cpu_acq LPtable _ _ _ Hc)), Hc.
    unfold hw_ncli in Hn. rewrite Hc in Hn. unfold cpu_push. by rewrite Hn.
Qed.

Lemma proc_at_alter f k h i :
  (i < length (k_ptable k))%nat →
  proc_at (set_k_ptable (alter f i (k_ptable k)) (set_k_hw h k)) i = f (proc_at k i).
Proof.
  intros [x Hx]%lookup_lt_is_Some_2. unfold proc_at. cbn. by rewrite list_lookup_alter_eq, Hx.
Qed.

Lemma sleep_out_ok i ch lk k :
  can_sleep i lk k → let k' := sleep_out ch lk i k in
  irq_ok (k_hw k') ∧ hw_proc (k_hw k') = Some i ∧ hw_holds LPtable (k_hw k') ∧
  hw_ncli (k_hw k') = 1 ∧ hw_intena (k_hw k') = hw_intena (k_hw k) ∧
  p_state (proc_at k' i) ≠ RUNNING.
Proof.
  intros Hcs. pose proof Hcs as (Hok & Hp & Hh & Hn & Hfree & Hi). cbn zeta. unfold sleep_out.
  rewrite proc_at_alter by done. cbn [k_hw set_k_ptable set_k_hw].
  destruct (bool_decide_reflect (lk = LPtable)) as [->|Hne]; [done|].
  destruct (swap_locks i lk k Hcs Hne) as (? & ? & ? & ? & ?). done.
Qed.

Lemma sleep_reaches i ch lk o k :
  can_sleep i lk k →
  sleep ch (Some lk) o k =
  (sched ;;; pset i (set_p_chan None) ;;;
   when (bool_decide (lk ≠ LPtable)) (release LPtable ;;; acquire lk)) o (sleep_out ch lk i k).
Proof.
  intros Hcs. pose proof Hcs as (Hok & Hp & Hh & Hn & Hfree & Hi). unfold sleep, sleep_out.
  kstep_with (myproc_spec o k Hok). rewrite Hp.
  destruct (bool_decide_reflect (lk = LPtable)) as [->|Hne].
  - rewrite bool_decide_eq_false_2 by auto. unfold pset. kstep. cbn [k_ptable set_k_ptable].
    by rewrite alter_fall_asleep.
  - rewrite bool_decide_eq_true_2 by done. cbn [when]. rewrite bind_assoc.
    kstep_with (acquire_spec LPtable o k Hok (Hfree Hne)).
    rewrite (bind_step _ _ _ _ _ _ _ (release_spec lk o (set_k_hw (hw_acq LPtable (k_hw k)) k)
      (irq_ok_acq LPtable _ Hok) ltac:(rewrite k_hw_set, hw_ncli_acq by done; lia)
      (hw_holds_acq_ne _ _ _ Hok Hne Hh))).
    autorewrite with kernel. unfold pset. kstep. cbn [k_ptable set_k_ptable set_k_hw].
    by rewrite alter_fall_asleep.
Qed.

Lemma sleep_run i ch lk env o k :
  can_sleep i lk k →
  resumed i (k_hw (env (sleep_out ch lk i k))) →
  (lk ≠ LPtable → h_locks (k_hw (env (sleep_out ch lk i k))) !! lk = None) →
  sleep ch (Some lk) (env :: o) k =
  Ret tt o (sleep_in (hw_intena (k_hw k)) lk i (env (sleep_out ch lk i k))).
Proof.
  intros Hcs Hres Hlk. rewrite (sleep_reaches i) by done.
  destruct (sleep_out_ok i ch lk k Hcs) as (Hok & Hp & Hh & Hn & Hb & Hs).
  set (k1 := sleep_out ch lk i k) in *. kstep_with (sched_spec i env o k1 Hok Hp Hh Hn Hs Hres).
  rewrite Hb. set (b := hw_intena (k_hw k)). unfold sleep_in, pset. kstep.
  destruct (resumed_back i b _ Hres) as (Hok3 & Hn3 & Hp3 & Hh3 & Hl3 & _).
  destruct (bool_decide_reflect (lk = LPtable)) as [->|Hne]; [done|].
  rewrite bool_decide_eq_true_2 by done. cbn [when].
  set (k2 := set_k_ptable _ (sched_back b (env k1))).
  kstep_with (release_spec LPtable o k2 Hok3 ltac:(cbn in *; lia) Hh3).
  rewrite acquire_spec; [done| |].
  - rewrite k_hw_set. apply irq_ok_rel; [done|cbn in *; lia].
  - rewrite k_hw_set, h_locks_rel, lookup_delete_ne by done. cbn. rewrite Hl3. auto.
Qed.

(** With nobody to wake it the caller waits for ever. *)
Lemma sleep_blocks i ch lk k :
  can_sleep i lk k → sleep ch (Some lk) [] k = Blocked (sleep_out ch lk i k).
Proof.
  intros Hcs. rewrite (sleep_reaches i) by done.
  destruct (sleep_out_ok i ch lk k Hcs) as (Hok & Hp & Hh & Hn & Hb & Hs).
  unfold bind at 1. by rewrite (sched_reaches i).
Qed.

(** A woken process is again in a state in which it may sleep: it holds the
    lock it called [sleep] with and nothing else. *)
Lemma sleep_in_can i b lk k :
  resumed i (k_hw k) → (lk ≠ LPtable → h_locks (k_hw k) !! lk = None) →
  (i < length (k_ptable k))%nat → can_sleep i lk (sleep_in b lk i k).
Proof.
  intros Hres Hlk Hi. destruct (resumed_back i b _ Hres) as (Hok & Hn & Hp & Hh & Hl & _).
  unfold can_sleep, sleep_in. cbn [k_ptable set_k_ptable k_hw set_k_hw]. rewrite length_alter.
  destruct (bool_decide_reflect (lk = LPtable)) as [->|Hne]; [done|].
  set (h := hw_upd _ _) in *. assert (irq_ok (hw_rel LPtable h)) as Hok' by (apply irq_ok_rel; [done|lia]).
  split_and!; try done.
  - auto with kernel.
  - by rewrite hw_proc_acq, hw_proc_rel.
  - auto with kernel.
  - rewrite hw_ncli_acq, hw_ncli_rel by done. lia.
  - intros _. rewrite h_locks_acq, lookup_insert_ne, h_locks_rel, lookup_delete_eq by done. done.
Qed.

Lemma uses_sched : uses sched.
Proof.
  unfold sched, curproc. apply uses_bind_r; [solve_shrinks|intros p]. apply uses_bind_r; [solve_shrinks|intros held].
  destruct (negb held); [apply uses_panic|]. apply uses_bind_r; [solve_shrinks|intros c].
  apply uses_bind_r; [unfold cpu_read; solve_shrinks|intros n]. destruct (negb (n =? 1)); [apply uses_panic|].
  apply uses_bind_r; [unfold pget; solve_shrinks|intros st]. case_test; [apply uses_panic|].
  apply uses_bind_r; [solve_shrinks|intros []]; [apply uses_panic|].
  apply uses_bind_r; [solve_shrinks|intros c']. apply uses_bind_r; [unfold cpu_read; solve_shrinks|intros b].
  apply uses_bind_l; [apply uses_wait_others|]. intros _. unfold cpu_write. solve_shrinks.
Qed.
#[export] Hint Resolve uses_sched : oracle.

Lemma uses_sleep ch lk : uses (sleep ch lk).
Proof.
  unfold sleep, pset. apply uses_bind_r; [solve_shrinks|intros [p|]]; [|apply uses_panic].
  destruct lk as [lk|]; [|apply uses_panic]. apply uses_bind_r; [solve_shrinks|intros _].
  do 2 (apply uses_bind_r; [solve_shrinks|intros _]). apply uses_bind_l; [apply uses_sched|intros _].
  solve_shrinks.
Qed.
#[export] Hint Resolve uses_sleep : oracle.

(** ** Operations on the table *)

Lemma wakeup_spec ch o k :
  irq_ok (k_hw k) → h_locks (k_hw k) !! LPtable = None →
  wakeup ch o k = Ret tt o (set_k_ptable (wake_proc ch <$> k_ptable k) k).
Proof.
  intros Hok Hl. unfold wakeup, wakeup1. kstep_with (acquire_spec LPtable o k Hok Hl). kstep.
  rewrite (release_acquired LPtable o k); [|done..]. by destruct k.
Qed.

Lemma kill_spec pid o k :
  irq_ok (k_hw k) → h_locks (k_hw k) !! LPtable = None →
  kill pid o k =
  match list_find (λ p, p_pid p = pid) (k_ptable k) with
  | Some (i, _) => Ret 0 o (set_k_ptable (alter kill_proc i (k_ptable k)) k)
  | None => Ret (-1) o k
  end.
Proof.
  intros Hok Hl. unfold kill. kstep_with (acquire_spec LPtable o k Hok Hl). kstep.
  cbn [k_ptable set_k_hw]. destruct (list_find _ (k_ptable k)) as [[i p]|].
  - unfold pset. kstep. set (k1 := set_k_ptable _ _).
    kstep_with (release_acquired LPtable o k k1 Hok Hl eq_refl). by destruct k.
  - kstep_with (release_acquired LPtable o k (set_k_hw (hw_acq LPtable (k_hw k)) k) Hok Hl eq_refl).
    by destruct k.
Qed.

(** *** [allocproc] *)

(** The slot as [allocproc] leaves it. *)
Definition embryo (pid kstack forkret : Z) (p : proc) : proc :=
  set_p_context (mk_ctx 0 0 0 0 forkret)
    (set_p_kstack kstack (set_p_pid pid (set_p_state EMBRYO p))).

Definition allocproc_ok (i : nat) (kstack : Z) (k : K) : K :=
  set_k_ptable (alter (embryo (k_nextpid k) kstack (ln_forkret (k_link k))) i (k_ptable k))
    (set_k_nextpid (s32 (k_nextpid k + 1))
      (set_k_mem (st32 (k_mem k) (kstack + 4016) (ln_trapret (k_link k)))
        (set_k_freelist (ld32 (k_mem k) kstack) k))).

(** Without a page for the kernel stack the slot is unused again; it keeps
    the process id it was given. *)
Definition allocproc_fail (i : nat) (k : K) : K :=
  set_k_ptable (alter (λ p, set_p_kstack 0 (set_p_pid (k_nextpid k) (set_p_state UNUSED p))) i (k_ptable k))
    (set_k_nextpid (s32 (k_nextpid k + 1)) k).

Lemma allocproc_run o k :
  irq_ok (k_hw k) → h_locks (k_hw k) !! LPtable = None → kmem_ready k →
  allocproc o k =
  match list_find (λ p, p_state p = UNUSED) (k_ptable k) with
  | None => Ret None o k
  | Some (i, _) =>
      if k_freelist k =? 0 then Ret None o (allocproc_fail i k)
      else Ret (Some i) o (allocproc_ok i (k_freelist k) k)
  end.
Proof.
  intros Hok Hl Hkm. unfold allocproc. kstep_with (acquire_spec LPtable o k Hok Hl). kstep.
  cbn [k_ptable set_k_hw]. destruct (list_find _ (k_ptable k)) as [[i q]|] eqn:Hf; cycle 1.
  { kstep_with (release_acquired LPtable o k (set_k_hw (hw_acq LPtable (k_hw k)) k) Hok Hl eq_refl).
    by destruct k. }
  unfold pset. kstep. cbn [k_ptable set_k_hw set_k_ptable k_nextpid]. rewrite alter_alter_eq.
  set (k1 := set_k_nextpid _ _).
  kstep_with (release_acquired LPtable o k k1 Hok Hl eq_refl).
  set (k2 := set_k_hw (k_hw k) k1). kstep_with (kalloc_run o k2 Hkm). kstep.
  change (k_freelist k2) with (k_freelist k). unfold kalloc_st.
  change (k_freelist k2) with (k_freelist k).
  destruct (Z.eqb_spec (k_freelist k) 0) as [E|E].
  - kstep. cbn. rewrite !alter_alter_eq. unfold allocproc_fail, ret. cbn. rewrite E. by destruct k.
  - unfold wr32. kstep. cbn. rewrite !alter_alter_eq. unfold allocproc_ok, embryo, ret, KSTACKSIZE, SIZEOF_TRAPFRAME.
    replace (k_freelist k + 4096 - 76 - 4) with (k_freelist k + 4016) by lia. by destruct k.
Qed.

(** *** The process table invariant

    Every slot's process id has been handed out (a stale id in an unused slot
    included), live processes have one, and no two slots share one. *)
Record pids_ok (l : list proc) (next : Z) : Prop := {
  pk_pid i p : l !! i = Some p → 0 ≤ p_pid p < next;
  pk_live i p : l !! i = Some p → p_state p ≠ UNUSED → p_pid p ≠ 0;
  pk_uniq i j p q : l !! i = Some p → l !! j = Some q → p_pid p = p_pid q → p_pid p ≠ 0 → i = j
}.

Definition ptable_ok (k : K) : Prop :=
  length (k_ptable k) = NPROC ∧ 0 < k_nextpid k ∧ pids_ok (k_ptable k) (k_nextpid k).

(** An update of a slot that keeps its process id, or clears it with the
    slot becoming unused. *)
Lemma pids_ok_alter f i l next :
  (∀ p, p_pid (f p) = p_pid p ∧ (p_state p = UNUSED → p_state (f p) = UNUSED) ∨
        p_pid (f p) = 0 ∧ p_state (f p) = UNUSED) →
  pids_ok l next → pids_ok (alter f i l) next.
Proof.
  intros Hf [H1 H2 H3].
  assert (∀ j q, alter f i l !! j = Some q → ∃ p, l !! j = Some p ∧
    (p_pid q = p_pid p ∧ (p_state p = UNUSED → p_state q = UNUSED) ∨ p_pid q = 0 ∧ p_state q = UNUSED)) as Hl.
  { intros j q. destruct (decide (i = j)) as [->|Hne].
    - rewrite list_lookup_alter_eq. destruct (l !! j) as [p|]; [|done]. intros [= <-]. eauto.
    - rewrite list_lookup_alter_ne by done. intros Hq. exists q. eauto. }
  split.
  - intros j q (p & Hp & [[-> _]|[-> _]])%Hl; pose proof (H1 _ _ Hp); lia.
  - intros j q (p & Hp & [[-> Hs]|[_ Hs]])%Hl Hq; [|done]. eapply H2; eauto.
  - intros j j' q q' (p & Hp & Hpq)%Hl (p' & Hp' & Hpq')%Hl E Hq. eapply H3; [done|done|..]; intuition congruence.
Qed.

(** A fresh id in one slot. *)
Lemma pids_ok_fresh f i l next :
  0 < next → (∀ p, p_pid (f p) = next) → pids_ok l next → pids_ok (alter f i l) (next + 1).
Proof.
  intros Hn Hf [H1 H2 H3]. split.
  - intros j q. destruct (decide (i = j)) as [->|Hne].
    + rewrite list_lookup_alter_eq. destruct (l !! j) as [p|]; [|done]. intros [= <-]. rewrite Hf. lia.
    + rewrite list_lookup_alter_ne by done. intros Hq%H1. lia.
  - intros j q. destruct (decide (i = j)) as [->|Hne].
    + rewrite list_lookup_alter_eq. destruct (l !! j) as [p|]; [|done]. intros [= <-] _. rewrite Hf. lia.
    + rewrite list_lookup_alter_ne by done. apply H2.
  - intros j j' q q'. destruct (decide (i = j)) as [E|Hne], (decide (i = j')) as [E'|Hne'];
      subst; try done; rewrite ?list_lookup_alter_eq, ?list_lookup_alter_ne by done.
    + destruct (l !! _) as [p|]; [|done]. intros [= <-] Hq'%H1. rewrite Hf. lia.
    + destruct (l !! j') as [p|]; [|done]. intros Hq%H1 [= <-]. rewrite Hf. lia.
    + apply H3.
Qed.

Lemma pids_ok_fmap f l next :
  (∀ p, p_pid (f p) = p_pid p ∧ (p_state p = UNUSED → p_state (f p) = UNUSED)) →
  pids_ok l next → pids_ok (f <$> l) next.
Proof.
  intros Hf [H1 H2 H3].
  assert (∀ j q, (f <$> l) !! j = Some q → ∃ p, l !! j = Some p ∧ p_pid q = p_pid p ∧
    (p_state p = UNUSED → p_state q = UNUSED)) as Hl.
  { intros j q. rewrite list_lookup_fmap. destruct (l !! j) as [p|]; [|done]. intros [= <-].
    destruct (Hf p). eauto. }
  split.
  - intros j q (p & Hp & -> & _)%Hl. eauto.
  - intros j q (p & Hp & -> & Hs)%Hl Hq. eapply H2; eauto.
  - intros j j' q q' (p & Hp & -> & _)%Hl (p' & Hp' & -> & _)%Hl. eauto.
Qed.

Lemma ptable_ok_wakeup ch k :
  ptable_ok k → ptable_ok (set_k_ptable (wake_proc ch <$> k_ptable k) k).
Proof.
  intros (Hl & Hn & Hp). split_and!; cbn; [by rewrite length_fmap|done|].
  apply pids_ok_fmap; [|done]. intros p. unfold wake_proc.
  destruct (bool_decide_reflect (p_state p = SLEEPING)) as [Hs|], (bool_decide_reflect (p_chan p = Some ch)); cbn; auto.
  rewrite Hs. done.
Qed.

Lemma ptable_ok_kill i k :
  ptable_ok k → ptable_ok (set_k_ptable (alter kill_proc i (k_ptable k)) k).
Proof.
  intros (Hl & Hn & Hp). split_and!; cbn; [by rewrite length_alter|done|].
  apply pids_ok_alter; [|done]. intros p. left. unfold kill_proc. cbn.
  destruct (bool_decide_reflect (p_state p = SLEEPING)) as [Hs|]; cbn; auto. by rewrite Hs.
Qed.

(** The counter does not wrap while it is below [INT_MAX]. *)
Lemma ptable_ok_alloc o k r o' k' :
  irq_ok (k_hw k) → h_locks (k_hw k) !! LPtable = None → kmem_ready k →
  ptable_ok k → k_nextpid k < 2147483647 →
  allocproc o k = Ret r o' k' → ptable_ok k'.
Proof.
  intros Hok Hlk Hkm (Hl & Hn & Hp) Hmax. rewrite allocproc_run by done.
  destruct (list_find _ (k_ptable k)) as [[i q]|]; [|intros [= <- <- <-]; done].
  case_test; intros [= <- <- <-]; split_and!; cbn; rewrite ?length_alter; try done;
    rewrite s32_small by lia; try lia; by apply pids_ok_fresh.
Qed.

(** ** The lottery *)

Definition random_st (max : Z) (k : K) : Z * K :=
  if max <=? 0 then (1, k)
  else
    let '(z1, z2, z3, z4) := lfsr4 (k_rand k) in
    (Z.abs (Z.rem (Z.lxor (Z.lxor (Z.lxor z1 z2) z3) z4) max), set_k_rand (z1, z2, z3, z4) k).

Lemma random_run max o k :
  max < 2147483648 → random max o k = Ret (random_st max k).1 o (random_st max k).2.
Proof.
  intros Hmax. unfold random, random_st. destruct (Z.leb_spec max 0); [done|]. kstep.
  destruct (lfsr4 (k_rand k)) as [[[z1 z2] z3] z4]. kstep. cbn. unfold ret. f_equal.
  set (x := Z.lxor _ _). pose proof (Z.rem_bound_abs x max ltac:(lia)).
  case_test; [rewrite s32_small by lia|]; lia.
Qed.

Lemma random_st_bound max k : 0 < max → 0 ≤ (random_st max k).1 < max.
Proof.
  intros Hmax. unfold random_st. destruct (Z.leb_spec max 0); [lia|].
  destruct (lfsr4 (k_rand k)) as [[[z1 z2] z3] z4]. cbn.
  set (x := Z.lxor _ _). pose proof (Z.rem_bound_abs x max ltac:(lia)). lia.
Qed.

Lemma tickets_sum_range l s : -2147483648 ≤ s < 2147483648 → -2147483648 ≤ tickets_sum l s < 2147483648.
Proof.
  revert s. induction l as [|p l IH]; intros s Hs; cbn [tickets_sum]; [done|].
  apply IH. case_test; [apply s32_range|done].
Qed.

(** [tickets_sum] is the sum over the runnable processes when nothing wraps. *)
Definition runnable_tickets (p : proc) : Z :=
  if bool_decide (p_state p = RUNNABLE) then p_tickets p else 0.

Definition tickets_total (l : list proc) : Z := foldr (λ p s, runnable_tickets p + s) 0 l.

Lemma tickets_total_nonneg l : (∀ p, p ∈ l → 0 ≤ p_tickets p) → 0 ≤ tickets_total l.
Proof.
  induction l as [|p l IH]; intros Hl; cbn; [lia|]. specialize (IH ltac:(set_solver)).
  specialize (Hl p ltac:(set_solver)). unfold tickets_total in IH.
  assert (0 ≤ runnable_tickets p) by (unfold runnable_tickets; case_test; lia). lia.
Qed.

Lemma tickets_sum_spec l s :
  0 ≤ s → (∀ p, p ∈ l → 0 ≤ p_tickets p) → s + tickets_total l < 2147483648 →
  tickets_sum l s = s + tickets_total l.
Proof.
  revert s. induction l as [|p l IH]; intros s Hs Hnn Hmax; [cbn; lia|].
  assert (∀ q, q ∈ l → 0 ≤ p_tickets q) as Hl by set_solver.
  pose proof (tickets_total_nonneg l Hl). specialize (Hnn p ltac:(set_solver)).
  assert (tickets_total (p :: l) = runnable_tickets p + tickets_total l) as E by done. rewrite E in *.
  cbn [tickets_sum]. unfold runnable_tickets in *. case_test; [rewrite s32_small by lia|]; rewrite IH; lia || done.
Qed.

(** The draw made for the process being looked at. *)
Definition draw (k : K) : Z * K :=
  let sum := tickets_sum (k_ptable k) 0 in
  if 0 <? sum then random_st sum k else (-1, k).

(** *** Switching address spaces *)

Lemma hw_pop_push_with f h :
  irq_ok h → (∀ c, c_apicid (f c) = c_apicid c) →
  (∀ c n, f (set_c_ncli n c) = set_c_ncli n (f c)) → (∀ c b, f (set_c_intena b c) = set_c_intena b (f c)) →
  (∀ c, c_ncli (f c) = c_ncli c) → (∀ c, c_intena (f c) = c_intena c) →
  hw_pop (hw_upd f (hw_push h)) = hw_upd f h.
Proof.
  intros Hok Ha Hn Hi Hfn Hfi. rewrite <- (hw_pop_push h Hok) at 2.
  pose proof Hok as (i & c & Hc & _). pose proof (hw_cpu_push _ _ _ Hc) as Hc'.
  set (h' := hw_push h) in *. set (c' := cpu_push _ c) in *. clearbody h' c'.
  assert (hw_upd f h' = set_h_cpus (alter f i (h_cpus h')) h') as Hf by (unfold hw_upd; by rewrite Hc').
  assert (hw_cpu (hw_upd f h') = Some (i, f c')) as Hcf by (rewrite Hf; by apply (hw_cpu_alter h' f)).
  assert (hw_cpu (hw_pop h') = Some (i, set_c_ncli (c_ncli c' - 1) c')) as Hcp by (by apply hw_cpu_pop).
  unfold hw_upd at 2. rewrite Hcp. unfold hw_pop. rewrite Hcf, Hc', Hfn, Hfi.
  assert (hw_upd (λ c, set_c_ncli (c_ncli c - 1) c) h' =
    set_h_cpus (alter (λ c, set_c_ncli (c_ncli c - 1) c) i (h_cpus h')) h') as -> by (unfold hw_upd; by rewrite Hc').
  unfold hw_upd at 1. rewrite Hcf, Hf. destruct h'; unfold set_h_IF, set_h_cpus; cbn in *. f_equal.
  rewrite !alter_alter_eq. eapply alter_ext_at; [by apply hw_cpu_lookup in Hc'|].
  by rewrite Hn, Hfn.
Qed.

Lemma hw_pop_cr3 v h : hw_pop (set_h_cr3 v h) = set_h_cr3 v (hw_pop h).
Proof.
  assert (hw_cpu (set_h_cr3 v h) = hw_cpu h) as Hc by done. unfold hw_pop, hw_upd. rewrite Hc.
  by destruct (hw_cpu h) as [[i c]|].
Qed.

Lemma hw_pop_tr v h : hw_pop (set_h_tr v h) = set_h_tr v (hw_pop h).
Proof.
  assert (hw_cpu (set_h_tr v h) = hw_cpu h) as Hc by done. unfold hw_pop, hw_upd. rewrite Hc.
  by destruct (hw_cpu h) as [[i c]|].
Qed.

Definition hw_switch (ts pgdir esp0 : Z) (h : hw) : hw :=
  set_h_cr3 (V2P pgdir) (set_h_tr (u16 (Z.shiftl SEG_TSS 3)) (hw_upd (load_tss ts esp0) h)).

Lemma switchuvm_spec i c p o k :
  irq_ok (k_hw k) → hw_cpu (k_hw k) = Some (i, c) → (p < length (k_ptable k))%nat →
  p_kstack (proc_at k p) ≠ 0 → p_pgdir (proc_at k p) ≠ 0 →
  switchuvm (Some p) o k =
  Ret tt o (set_k_hw (hw_switch (ts_addr (ln_cpus (k_link k)) i) (p_pgdir (proc_at k p))
    (u32 (p_kstack (proc_at k p) + KSTACKSIZE)) (k_hw k)) k).
Proof.
  intros Hok Hc [q Hq]%lookup_lt_is_Some_2. unfold proc_at. rewrite Hq. cbn [default from_option id]. intros Hks Hpd.
  unfold switchuvm. kstep. rewrite Hq.
  rewrite (proj2 (Z.eqb_neq _ _) Hks), (proj2 (Z.eqb_neq _ _) Hpd).
  kstep_with (pushcli_spec o k i c Hc).
  kstep_with (mycpu_spec o (set_k_hw (hw_push (k_hw k)) k) i _ eq_refl (hw_cpu_push _ _ _ Hc)).
  unfold cpu_write, ltr, lcr3. kstep. cbn [k_link set_k_hw]. set (ts := ts_addr _ i). set (k1 := set_k_hw _ k).
  set (e := u32 _) in *.
  assert (k_hw k1 = set_h_cr3 (V2P (p_pgdir q)) (set_h_tr (u16 (Z.shiftl SEG_TSS 3)) (hw_upd (load_tss ts e) (hw_push (k_hw k))))) as Hk1.
  { unfold k1, hw_upd. rewrite (hw_cpu_push _ _ _ Hc). done. }
  rewrite (popcli_spec o k1 i (load_tss ts e (cpu_push (h_IF (k_hw k)) c))).
  - rewrite Hk1. unfold k1, hw_switch. rewrite set_k_hw_twice.
    rewrite <- (hw_pop_push_with (load_tss ts e) (k_hw k)) by done.
    by rewrite hw_pop_cr3, hw_pop_tr.
  - unfold k1. rewrite k_hw_set.
    apply (hw_cpu_alter (hw_push (k_hw k)) (load_tss ts e)); [done|by apply hw_cpu_push].
  - done.
  - destruct Hok as (i' & c' & Hc' & Hn & _). rewrite Hc in Hc'. simplify_eq. unfold cpu_push. case_test; cbn; lia.
Qed.

(** The state the scheduler hands to the process it has chosen. *)
Definition dispatched (c p : nat) (k : K) : K :=
  let h := set_h_cpus (alter (set_c_proc (Some p)) c (h_cpus (k_hw k))) (k_hw k) in
  set_k_ptable (alter (set_p_state RUNNING) p (k_ptable k))
    (set_k_hw (hw_switch (ts_addr (ln_cpus (k_link k)) c) (p_pgdir (proc_at k p)) (u32 (p_kstack (proc_at k p) + KSTACKSIZE)) h) k).

(** The state in which the scheduler goes on when the process has given the CPU back. *)
Definition undispatched (c : nat) (k : K) : K :=
  set_k_hw (set_h_cpus (alter (set_c_proc None) c (h_cpus (k_hw k)))
    (set_h_cr3 (V2P (k_kpgdir k)) (k_hw k))) k.

Lemma draw_rest k : (draw k).2 = set_k_rand (k_rand (draw k).2) k.
Proof.
  unfold draw, random_st. repeat case_test; try (by destruct k).
  destruct (lfsr4 (k_rand k)) as [[[z1 z2] z3] z4]. done.
Qed.

Lemma scheduler_visit_spec c cp p o k :
  irq_ok (k_hw k) → hw_cpu (k_hw k) = Some (c, cp) → (p < length (k_ptable k))%nat →
  p_kstack (proc_at k p) ≠ 0 → p_pgdir (proc_at k p) ≠ 0 →
  scheduler_visit c p o k =
  if negb (bool_decide (p_state (proc_at k p) = RUNNABLE)) then Ret tt o k
  else if p_tickets (proc_at k p) <=? (draw k).1 then Ret tt o (draw k).2
  else
    match o with
    | [] => Blocked (dispatched c p (draw k).2)
    | env :: o => Ret tt o (undispatched c (env (dispatched c p (draw k).2)))
    end.
Proof.
  intros Hok Hc Hp Hks Hpd. unfold scheduler_visit, pget, get_tickets. kstep.
  change (default zero_proc (k_ptable k !! p)) with (proc_at k p).
  destruct (bool_decide_reflect (p_state (proc_at k p) = RUNNABLE)); cbn [negb]; [|done]. kstep.
  assert ((if 0 <? tickets_sum (k_ptable k) 0 then random (tickets_sum (k_ptable k) 0) else ret (-1)) o k =
    Ret (draw k).1 o (draw k).2) as Hdraw.
  { unfold draw. pose proof (tickets_sum_range (k_ptable k) 0 ltac:(lia)).
    case_test; [|done]. apply random_run. lia. }
  kstep_with Hdraw. set (choice := (draw k).1). pose proof (draw_rest k) as Hk1.
  set (k1 := (draw k).2) in *. kstep.
  replace (default zero_proc (k_ptable k1 !! p)) with (proc_at k p) by (rewrite Hk1; done).
  destruct (Z.leb_spec (p_tickets (proc_at k p)) choice); [done|].
  unfold cpu_write. rewrite bind_modify. set (k2 := set_k_hw _ k1).
  assert (irq_ok (k_hw k2)) as Hok2.
  { destruct Hok as (c' & cp' & Hc' & Hn & H0 & Hpos). assert (c' = c ∧ cp' = cp) as [-> ->] by naive_solver congruence.
    exists c, (set_c_proc (Some p) cp). assert (k_hw k1 = k_hw k) as Hhw by (by rewrite Hk1).
    unfold k2. rewrite k_hw_set, Hhw. split; [|done]. by apply (hw_cpu_alter (k_hw k) (set_c_proc (Some p))). }
  assert (switchuvm (Some p) o k2 = Ret tt o (set_k_hw (hw_switch (ts_addr (ln_cpus (k_link k2)) c) (p_pgdir (proc_at k2 p))
    (u32 (p_kstack (proc_at k2 p) + KSTACKSIZE)) (k_hw k2)) k2)) as Hsw.
  { eapply switchuvm_spec; [done|by apply (hw_cpu_alter (k_hw k1) (set_c_proc (Some p))); [|rewrite Hk1]|unfold k2; rewrite Hk1; done..]. }
  kstep_with Hsw. unfold pset. kstep. unfold wait_others at 1. unfold bind at 1.
  destruct o as [|env o]; [done|]. unfold switchkvm, lcr3. kstep. done.
Qed.

(** ** Waiting for a condition

    [while(cond) sleep(ch, &lk);] is how the kernel waits. *)
Definition sleep_while (cond : K → bool) (ch : chan) (lk : lockid) : M unit :=
  forever (let! b := reads cond in
           if b : bool then sleep ch (Some lk) ;;; ret None else ret (Some tt)).

Lemma sleep_while_waits cond ch lk :
  waits (let! b := reads cond in
         if b : bool then sleep ch (Some lk) ;;; ret None else ret (Some tt)).
Proof.
  apply waits_bind; [solve_shrinks|intros []].
  - apply waits_uses, uses_bind_l; [apply uses_sleep|intros _; solve_shrinks].
  - apply waits_gives. solve_shrinks.
Qed.

(** What process [i] relies on while it sleeps: it is resumed by the
    scheduler, the process table is still there, and [lk] can be taken. *)
Definition env_ok (i : nat) (lk : lockid) (env : K → K) : Prop :=
  ∀ k, resumed i (k_hw (env k)) ∧ length (k_ptable (env k)) = length (k_ptable k) ∧
       (lk ≠ LPtable → h_locks (k_hw (env k)) !! lk = None).

Lemma sleep_turn i ch lk env o k :
  can_sleep i lk k → env_ok i lk env →
  ∃ k', sleep ch (Some lk) (env :: o) k = Ret tt o k' ∧ can_sleep i lk k' ∧
        k' = sleep_in (hw_intena (k_hw k)) lk i (env (sleep_out ch lk i k)).
Proof.
  intros Hk Henv. destruct (Henv (sleep_out ch lk i k)) as (Hres & Hlen & Hlk).
  eexists. split; [by apply sleep_run|]. split; [|done]. apply sleep_in_can; [done|done|].
  rewrite Hlen. unfold sleep_out. cbn. rewrite length_alter. apply Hk.
Qed.

(** The loop as a function of what the rest of the system does. *)
Fixpoint wait_run (cond : K → bool) (ch : chan) (lk : lockid) (i : nat) (o : oracle) (k : K) : res unit :=
  if cond k then
    match o with
    | [] => Blocked (sleep_out ch lk i k)
    | env :: o =>
        wait_run cond ch lk i o (sleep_in (hw_intena (k_hw k)) lk i (env (sleep_out ch lk i k)))
    end
  else Ret tt o k.

Lemma sleep_while_run cond i ch lk o k :
  can_sleep i lk k → Forall (env_ok i lk) o →
  sleep_while cond ch lk o k = wait_run cond ch lk i o k.
Proof.
  revert k. induction o as [|env o IH]; intros k Hk Ho; unfold sleep_while;
    rewrite forever_unfold by apply sleep_while_waits; kstep; cbn [wait_run].
  - destruct (cond k); [|done]. unfold bind. by rewrite (sleep_blocks i ch lk k Hk).
  - apply Forall_cons in Ho as [Henv Ho]. destruct (cond k); [|done].
    destruct (sleep_turn i ch lk env o k Hk Henv) as (k1 & Hrun & Hk1 & E).
    kstep_with Hrun. unfold ret. rewrite <- E. by apply IH.
Qed.

(** One sleep is enough when it ends with the condition false. *)
Lemma sleep_while_once cond i ch lk env o k :
  can_sleep i lk k → cond k = true → resumed i (k_hw (env (sleep_out ch lk i k))) →
  (lk ≠ LPtable → h_locks (k_hw (env (sleep_out ch lk i k))) !! lk = None) →
  let k' := sleep_in (hw_intena (k_hw k)) lk i (env (sleep_out ch lk i k)) in
  cond k' = false → sleep_while cond ch lk (env :: o) k = Ret tt o k'.
Proof.
  intros Hk Hc Hres Hlk k' Hc'. unfold sleep_while. rewrite forever_unfold by apply sleep_while_waits. kstep. rewrite Hc.
  kstep_with (sleep_run i ch lk env o k Hk Hres Hlk). unfold ret. fold k'. rewrite forever_unfold by apply sleep_while_waits. kstep. by rewrite Hc'.
Qed.

(** The loop ends only in a state in which the condition is false, with the
    lock held; and it ends if one of the things others do makes it false. *)
Lemma wait_run_spec cond i ch lk o k :
  can_sleep i lk k → Forall (env_ok i lk) o →
  match wait_run cond ch lk i o k with
  | Ret _ o' k' => cond k' = false ∧ can_sleep i lk k' ∧ o' `suffix_of` o
  | Panic _ _ => False
  | Blocked k' => True
  end.
Proof.
  revert k. induction o as [|env o IH]; intros k Hk Ho; cbn [wait_run];
    destruct (cond k) eqn:Hc; try done.
  apply Forall_cons in Ho as [Henv Ho].
  destruct (sleep_turn i ch lk env o k Hk Henv) as (k1 & _ & Hk1 & E). rewrite <- E.
  specialize (IH k1 Hk1 Ho). destruct (wait_run _ _ _ _ _ k1); try done.
  destruct IH as (? & ? & ?). split_and!; try done. by apply suffix_cons_r.
Qed.

Lemma wait_run_returns cond i ch lk o k :
  (∃ env, env ∈ o ∧ ∀ b k, cond (sleep_in b lk i (env k)) = false) →
  ∃ o' k', wait_run cond ch lk i o k = Ret tt o' k'.
Proof.
  revert k. induction o as [|env o IH]; intros k (e & He & Hc); [by apply elem_of_nil in He|].
  cbn [wait_run]. destruct (cond k); [|eauto].
  apply elem_of_cons in He as [->|He].
  - destruct o; cbn [wait_run]; rewrite Hc; eauto.
  - apply IH. eauto.
Qed.

(** A process that holds no lock and may take one. *)
Definition idle (i : nat) (k : K) : Prop :=
  irq_ok (k_hw k) ∧ hw_proc (k_hw k) = Some i ∧ hw_ncli (k_hw k) = 0 ∧
  h_locks (k_hw k) !! LPtable = None ∧ (i < length (k_ptable k))%nat.

Lemma idle_acquire i lk k :
  idle i k → lk ≠ LPtable → can_sleep i lk (set_k_hw (hw_acq lk (k_hw k)) k).
Proof.
  intros (Hok & Hp & Hn & Hl & Hi) Hne. split_and!; cbn [k_hw set_k_hw k_ptable]; try done.
  - auto with kernel.
  - by rewrite hw_proc_acq.
  - auto with kernel.
  - rewrite hw_ncli_acq by done. lia.
  - intros _. by rewrite h_locks_acq, lookup_insert_ne by done.
Qed.

(** Releasing the lock one may sleep with. *)
Lemma can_sleep_release i lk o k :
  can_sleep i lk k → release lk o k = Ret tt o (set_k_hw (hw_rel lk (k_hw k)) k).
Proof. intros (Hok & _ & Hh & Hn & _). apply release_spec; [done|lia|done]. Qed.

Lemma can_sleep_idle i lk k :
  can_sleep i lk k → lk ≠ LPtable → idle i (set_k_hw (hw_rel lk (k_hw k)) k).
Proof.
  intros (Hok & Hp & Hh & Hn & Hfree & Hi) Hne. split_and!; cbn [k_hw set_k_hw k_ptable]; try done.
  - apply irq_ok_rel; [done|lia].
  - by rewrite hw_proc_rel.
  - rewrite hw_ncli_rel by done. lia.
  - rewrite h_locks_rel, lookup_delete_ne by done. auto.
Qed.

(** [can_sleep] and [idle] look only at the hardware state and at the size of the table. *)
Lemma can_sleep_ext i lk k k' :
  k_hw k' = k_hw k → length (k_ptable k') = length (k_ptable k) → can_sleep i lk k → can_sleep i lk k'.
Proof. unfold can_sleep. by intros -> ->. Qed.

Lemma idle_ext i k k' :
  k_hw k' = k_hw k → length (k_ptable k') = length (k_ptable k) → idle i k → idle i k'.
Proof. unfold idle. by intros -> ->. Qed.

Lemma demo_idle disk : idle 0 (K_demo disk).
Proof. split_and!; [apply demo_irq_ok|done|done|done|cbn; lia]. Qed.

(** ** Properties *)


(** Others run and process 0 is switched to again. *)
Definition demo_env (f : K → K) : K → K := λ k, set_k_hw (hw_acq LPtable (k_hw (K_demo ∅))) (f k).

Lemma demo_env_ok lk f :
  lk ≠ LPtable → (∀ k, length (k_ptable (f k)) = length (k_ptable k)) → env_ok 0 lk (demo_env f).
Proof.
  intros Hlk Hf k. split_and!; [|apply Hf|].
  - exists 0%nat, (set_c_ncli 1 demo_cpu). vm_compute. split_and!; reflexivity.
  - intros _. unfold demo_env. cbn [k_hw set_k_hw]. rewrite h_locks_acq by apply demo_irq_ok.
    by rewrite lookup_insert_ne by done.
Qed.

Lemma demo_can_sleep lk : lk ≠ LPtable → can_sleep 0 lk (set_k_hw (hw_acq lk (k_hw (K_demo ∅))) (K_demo ∅)).
Proof. intros Hlk. apply idle_acquire; [apply demo_idle|done]. Qed.


(** [sleep] gives up the CPU only after it holds [ptable.lock] and has
    released the caller's lock with the process already marked asleep, and it
    returns with the caller's lock held and [chan] cleared; it cannot return
    before another process has made this one run again. *)
Theorem sleep_swaps_locks i ch lk k :
  can_sleep i lk k →
  sleep ch (Some lk) [] k = Blocked (sleep_out ch lk i k) ∧
  ∀ env o, resumed i (k_hw (env (sleep_out ch lk i k))) →
    (lk ≠ LPtable → h_locks (k_hw (env (sleep_out ch lk i k))) !! lk = None) →
    sleep ch (Some lk) (env :: o) k =
    Ret tt o (sleep_in (hw_intena (k_hw k)) lk i (env (sleep_out ch lk i k))).
Proof. intros Hk. split; [by apply sleep_blocks|]. intros env o Hr Hl. by apply sleep_run. Qed.

Lemma sleep_swaps_locks_witness :
  let k := set_k_hw (hw_acq LTicks (k_hw (K_demo ∅))) (K_demo ∅) in
  sleep CTicks (Some LTicks) [] k = Blocked (sleep_out CTicks LTicks 0 k) ∧
  p_state (proc_at (sleep_out CTicks LTicks 0 k) 0) = SLEEPING.
Proof.
  intros k. destruct (sleep_swaps_locks 0 CTicks LTicks k) as [Hb _].
  - by apply demo_can_sleep.
  - split; [exact Hb|reflexivity].
Defined.

(** C33: The process table's invariant (every live process has an id, ids are
    below [nextpid], no two slots share one) is preserved by [allocproc], whether
    it succeeds or fails half way, by [wakeup] and by [kill]. *)
Theorem ptable_invariant o k :
  irq_ok (k_hw k) → h_locks (k_hw k) !! LPtable = None → kmem_ready k →
  ptable_ok k → k_nextpid k < 2147483647 →
  (∃ r k', allocproc o k = Ret r o k' ∧ ptable_ok k' ∧
     (r = None → k_ptable k' = k_ptable k ∨ k_freelist k = 0)) ∧
  (∀ ch, ∃ k', wakeup ch o k = Ret tt o k' ∧ ptable_ok k') ∧
  (∀ pid, ∃ r k', kill pid o k = Ret r o k' ∧ ptable_ok k').
Proof.
  intros Hok Hl Hkm Hpt Hmax. split_and!.
  - pose proof (allocproc_run o k Hok Hl Hkm) as Hrun. pose proof (ptable_ok_alloc o k) as Hinv.
    destruct (list_find _ (k_ptable k)) as [[i q]|]; [destruct (Z.eqb_spec (k_freelist k) 0)|];
      eexists _, _; (split; [exact Hrun|]); (split; [by eapply Hinv|]); auto; done.
  - intros ch. eexists. split; [by apply wakeup_spec|by apply ptable_ok_wakeup].
  - intros pid. rewrite kill_spec by done. destruct (list_find _ (k_ptable k)) as [[i q]|];
      eexists _, _; (split; [done|]); [by apply ptable_ok_kill|done].
Qed.

Lemma demo_ptable_ok disk : ptable_ok (K_demo disk).
Proof.
  assert (∀ i p, k_ptable (K_demo disk) !! i = Some p → i = 0%nat ∧ p = demo_proc ∨ p = zero_proc) as Hp.
  { intros [|i] p Hx; [left; by injection Hx|right]. change (replicate 63 zero_proc !! i = Some p) in Hx.
    by apply lookup_replicate_1 in Hx as [-> _]. }
  split_and!; [done|done|]. split.
  - by intros i p [[_ ->]| ->]%Hp.
  - by intros i p [[_ ->]| ->]%Hp.
  - by intros i j p q [[-> ->]| ->]%Hp [[-> ->]| ->]%Hp.
Qed.

Lemma ptable_invariant_witness : ∃ r k', kill 1 [] (K_demo ∅) = Ret r [] k' ∧ ptable_ok k'.
Proof.
  apply (ptable_invariant [] (K_demo ∅)).
  - apply demo_irq_ok.
  - reflexivity.
  - apply demo_kmem_ready.
  - apply demo_ptable_ok.
  - reflexivity.
Defined.


(** One runnable process with one ticket: it always runs. *)
Definition demo_runnable : K :=
  set_k_ptable [set_p_state RUNNABLE (set_p_pgdir demo_page (set_p_kstack (demo_page + 4096) demo_proc))] (K_demo ∅).

