(* ===== verification/Trapinit.v ===== *)
(** * Setting up traps and segments ([tvinit] and [idtinit] of [trap.c])

    The tables the processor consults when a trap occurs: the interrupt table
    that [tvinit] fills and [idtinit] loads, and the segments that [seginit] and
    [switchuvm] set up.  The theorems are about what the processor reads there. *)

From stdpp Require Import base numbers list gmap strings.
From S2P Require Import Prelude Mmu Hardware Memory Kernel Spinlock Kalloc Cprintf Vm Proc.

Implicit Types (k : K) (o : oracle).

(** ** Translated code *)

(** [vectors[i]]. *)
Definition vector (v : list Z) (i : nat) : Z := default 0 (v !! i).

(** The loop of [tvinit] over the entries [i], ..., [i + n - 1]. *)
Fixpoint set_gates (n i : nat) (v : list Z) (idt : list gatedesc) : list gatedesc :=
  match n with
  | O => idt
  | S n => set_gates n (S i) v (<[i := SETGATE false (Z.shiftl SEG_KCODE 3) (vector v i) 0]> idt)
  end.

Definition tvinit : M unit :=
  let! v := reads (λ k, ln_vectors (k_link k)) in
  modify (λ k, set_k_idt (set_gates 256 0 v (k_idt k)) k) ;;;
  modify (λ k, set_k_idt (<[Z.to_nat T_SYSCALL :=
    SETGATE true (Z.shiftl SEG_KCODE 3) (vector v (Z.to_nat T_SYSCALL)) DPL_USER]> (k_idt k)) k) ;;;
  initlock LTicks.

Definition SIZEOF_GATEDESC : Z := 8.

Definition lidt (p size : Z) : M unit := modify (λ k, set_k_hw (set_h_idtr (u32 p, u16 (size - 1)) (k_hw k)) k).

Definition idtinit : M unit :=
  let! idt := reads (λ k, ln_idt (k_link k)) in
  lidt idt (256 * SIZEOF_GATEDESC).

(** ** The interrupt table *)

Lemma length_set_gates n i v idt : length (set_gates n i v idt) = length idt.
Proof. revert i idt. induction n as [|n IH]; intros i idt; cbn; [done|]. by rewrite IH, length_insert. Qed.

Lemma set_gates_lookup n i v idt j :
  (i + n ≤ length idt)%nat →
  set_gates n i v idt !! j =
  if bool_decide (i ≤ j < i + n)%nat then Some (SETGATE false (Z.shiftl SEG_KCODE 3) (vector v j) 0) else idt !! j.
Proof.
  revert i idt. induction n as [|n IH]; intros i idt Hn; cbn [set_gates].
  - rewrite bool_decide_eq_false_2 by lia. done.
  - rewrite IH by (rewrite length_insert; lia). destruct (decide (i = j)) as [->|Hne].
    + rewrite bool_decide_eq_false_2, bool_decide_eq_true_2 by lia. by rewrite list_lookup_insert_eq by lia.
    + rewrite list_lookup_insert_ne by done. by rewrite (bool_decide_ext (S i ≤ j < S i + n)%nat (i ≤ j < i + S n)%nat) by lia.
Qed.

(** The gate of trap [i]. *)
Definition gate_for (v : list Z) (i : nat) : gatedesc :=
  SETGATE (bool_decide (i = 64%nat)) (Z.shiftl SEG_KCODE 3) (vector v i) (if decide (i = 64%nat) then DPL_USER else 0).

(** C8: Traps enter the kernel where they should.  After [tvinit] the processor
    finds in each of the 256 entries of the interrupt table, read as it reads the
    bits of a gate, a present gate that leads to the vector of this number in the
    kernel's code segment.  Only the gate for system calls can be raised by an
    instruction of a user program, and only it leaves interrupts on. *)
Theorem tvinit_gates o k :
  length (k_idt k) = 256%nat → Forall (λ v, 0 ≤ v < 2 ^ 32) (ln_vectors (k_link k)) → length (ln_vectors (k_link k)) = 256%nat →
  ∃ k', tvinit o k = Ret tt o k' ∧ length (k_idt k') = 256%nat ∧
    ∀ i g, k_idt k' !! i = Some g →
      let z := gatedesc_word g in
      ln_vectors (k_link k) !! i = Some (gate_offset z) ∧ gate_selector z = 8 * SEG_KCODE ∧ gate_present z = 1 ∧ gate_s z = 0 ∧
      gate_dpl z = (if decide (i = 64%nat) then 3 else 0) ∧ gate_type z = (if decide (i = 64%nat) then STS_TG32 else STS_IG32).
Proof.
  intros Hidt Hr Hv. unfold tvinit, initlock. kstep. eexists. split; [done|]. cbn [k_idt set_k_idt set_k_hw].
  split; [by rewrite length_insert, length_set_gates|]. intros i g Hg.
  assert (i < 256)%nat as Hi by (apply lookup_lt_Some in Hg; by rewrite length_insert, length_set_gates, Hidt in Hg).
  assert (g = gate_for (ln_vectors (k_link k)) i) as ->.
  { unfold gate_for. destruct (decide (i = 64%nat)) as [->|Hne].
    - rewrite list_lookup_insert_eq in Hg by (rewrite length_set_gates; change (Z.to_nat T_SYSCALL) with 64%nat; lia). by injection Hg as <-.
    - rewrite list_lookup_insert_ne, set_gates_lookup, bool_decide_eq_true_2 in Hg by (change (Z.to_nat T_SYSCALL) with 64%nat; lia).
      rewrite bool_decide_eq_false_2 by done. by injection Hg as <-. }
  destruct (lookup_lt_is_Some_2 (ln_vectors (k_link k)) i) as [v Hi']; [lia|]. pose proof (Forall_lookup_1 _ _ _ _ Hr Hi') as Hvr. cbn in Hvr.
  unfold gate_for, vector. rewrite Hi'. cbn [default from_option id].
  destruct (SETGATE_reads (bool_decide (i = 64%nat)) (Z.shiftl SEG_KCODE 3) v (if decide (i = 64%nat) then DPL_USER else 0)) as (H1 & H2 & H3 & H4 & H5 & H6).
  { done. }
  { destruct (decide (i = 64%nat)); unfold DPL_USER; lia. }
  rewrite H1, H2, H3, H4, H5, H6. rewrite u32_small by (change 4294967296 with (2 ^ 32); lia).
  split_and!; try done. by destruct (decide (i = 64%nat)); [rewrite bool_decide_eq_true_2|rewrite bool_decide_eq_false_2].
Qed.

Lemma tvinit_gates_witness :
  ∃ k', tvinit [] (K_demo ∅) = Ret tt [] k' ∧
    ∀ g, k_idt k' !! 14%nat = Some g → gate_offset (gatedesc_word g) = KERNLINK + 0x6070 ∧ gate_dpl (gatedesc_word g) = 0.
Proof.
  destruct (tvinit_gates [] (K_demo ∅)) as (k' & Hrun & _ & H).
  - vm_compute. reflexivity.
  - apply (bool_decide_unpack _). vm_compute. exact Logic.I.
  - vm_compute. reflexivity.
  - exists k'. split; [exact Hrun|]. intros g Hg. destruct (H 14%nat g Hg) as (H1 & _ & _ & _ & H5 & _). split; [|exact H5].
    apply (inj Some). rewrite <- H1. vm_compute. reflexivity.
Defined.

(** ** Segments *)

Lemma seginit_run i c o k :
  h_IF (k_hw k) = false → hw_cpu (k_hw k) = Some (i, c) →
  seginit o k = Ret tt o (set_k_hw (set_h_gdtr (u32 (gdt_addr (ln_cpus (k_link k)) i), 47)
    (set_h_cpus (alter (λ r, set_c_gdt (kernel_gdt (c_gdt r)) r) i (h_cpus (k_hw k))) (k_hw k))) k).
Proof. intros HIF Hc. unfold seginit, cpuid. kstep_with (mycpu_spec o k i c HIF Hc). unfold cpu_write, lgdt. kstep. done. Qed.

(** C29: Segments do not restrict addresses, only privileges.  On a CPU on which
    [seginit] and then [switchuvm] have run, the processor finds code and data
    segments that start at 0 and end at the last byte of the 4 GB, two of them for
    the kernel and two for user programs; and a task state of 104 bytes that names
    the process's kernel stack, whose I/O map would start behind its end, so that
    user programs have no access to ports. *)
Theorem segments_set_up i c p o k :
  irq_ok (k_hw k) → h_IF (k_hw k) = false → hw_cpu (k_hw k) = Some (i, c) → length (c_gdt c) = NSEGS → (p < length (k_ptable k))%nat →
  p_kstack (proc_at k p) ≠ 0 → p_pgdir (proc_at k p) ≠ 0 →
  ∃ k' c', (seginit ;;; switchuvm (Some p)) o k = Ret tt o k' ∧ hw_cpu (k_hw k') = Some (i, c') ∧ length (c_gdt c') = NSEGS ∧
    (∀ s g, In s [SEG_KCODE; SEG_KDATA; SEG_UCODE; SEG_UDATA] → c_gdt c' !! Z.to_nat s = Some g →
       let z := segdesc_word g in
       desc_base z = 0 ∧ desc_limit z = 2 ^ 32 - 1 ∧ desc_present z = 1 ∧ desc_s z = 1 ∧
       desc_dpl z = (if decide (s = SEG_UCODE ∨ s = SEG_UDATA) then DPL_USER else 0) ∧
       desc_type z = (if decide (s = SEG_KCODE ∨ s = SEG_UCODE) then Z.lor STA_X STA_R else STA_W)) ∧
    (∀ g, c_gdt c' !! Z.to_nat SEG_TSS = Some g →
       let z := segdesc_word g in
       desc_base z = u32 (ts_addr (ln_cpus (k_link k)) i) ∧ desc_limit z = 103 ∧ desc_type z = STS_T32A ∧ desc_s z = 0 ∧
       desc_dpl z = 0 ∧ desc_present z = 1 ∧ desc_limit z < c_iomb c') ∧
    c_esp0 c' = u32 (p_kstack (proc_at k p) + KSTACKSIZE) ∧ h_tr (k_hw k') = 8 * SEG_TSS ∧ h_cr3 (k_hw k') = V2P (p_pgdir (proc_at k p)).
Proof.
  intros Hok HIF Hc Hg Hp Hks Hpd. kstep_with (seginit_run i c o k HIF Hc).
  set (f := λ r : cpu, set_c_gdt (kernel_gdt (c_gdt r)) r). set (k1 := set_k_hw _ k).
  assert (hw_cpu (k_hw k1) = Some (i, f c)) as Hc1 by (by apply (hw_cpu_alter (k_hw k) f)).
  assert (irq_ok (k_hw k1)) as Hok1.
  { destruct Hok as (i' & c' & Hc' & Hn & H0 & Hpos). rewrite Hc in Hc'. injection Hc' as <- <-. by exists i, (f c). }
  rewrite (switchuvm_spec i (f c) p o k1 Hok1 Hc1 Hp Hks Hpd).
  eexists _, (load_tss (ts_addr (ln_cpus (k_link k)) i) (u32 (p_kstack (proc_at k p) + KSTACKSIZE)) (f c)). split; [done|]. split.
  { unfold hw_switch, hw_upd. cbn [k_hw set_k_hw]. rewrite Hc1.
    exact (hw_cpu_alter (k_hw k1) (load_tss (ts_addr (ln_cpus (k_link k)) i) (u32 (p_kstack (proc_at k p) + KSTACKSIZE))) i (f c) ltac:(done) Hc1). }
  destruct c as [a e n ie pr ss io g st]. cbn in Hg. destruct g as [|g0 [|g1 [|g2 [|g3 [|g4 [|g5 []]]]]]]; try done.
  split; [done|]. split; [|split; [|by unfold hw_switch, hw_upd; rewrite Hc1]].
  - intros s gd Hs Hgd. assert (gd = SEG (if decide (s = SEG_KCODE ∨ s = SEG_UCODE) then Z.lor STA_X STA_R else STA_W) 0 0xffffffff
      (if decide (s = SEG_UCODE ∨ s = SEG_UDATA) then DPL_USER else 0)) as ->.
    { apply (inj Some). rewrite <- Hgd. by destruct Hs as [<-|[<-|[<-|[<-|[]]]]]. }
    clear. destruct (SEG_reads (if decide (s = SEG_KCODE ∨ s = SEG_UCODE) then Z.lor STA_X STA_R else STA_W) 0 0xffffffff
      (if decide (s = SEG_UCODE ∨ s = SEG_UDATA) then DPL_USER else 0)) as (H1 & H2 & H3 & H4 & H5 & H6); [done|by destruct (decide _)..|].
    cbn zeta. by rewrite H1, H2, H3, H4, H5, H6.
  - intros gd Hgd. assert (gd = set_sd_s 0 (SEG16 STS_T32A (ts_addr (ln_cpus (k_link k)) i) (SIZEOF_TASKSTATE - 1) 0)) as -> by (apply (inj Some); by rewrite <- Hgd).
    clear. destruct (SEG16_reads STS_T32A (ts_addr (ln_cpus (k_link k)) i) (SIZEOF_TASKSTATE - 1) 0 0) as (H1 & H2 & H3 & H4 & H5 & H6); [done..|].
    cbn zeta. by rewrite H1, H2, H3, H4, H5, H6.
Qed.

Definition demo_stack : K := let k := K_demo ∅ in
  set_k_hw (set_h_IF false (k_hw k)) (set_k_ptable (<[0%nat := set_p_kstack 0x80200000 (set_p_pgdir 0x80201000 demo_proc)]> (k_ptable k)) k).

Lemma segments_set_up_witness :
  ∃ k' c', (seginit ;;; switchuvm (Some 0%nat)) [] demo_stack = Ret tt [] k' ∧ hw_cpu (k_hw k') = Some (0%nat, c') ∧ c_esp0 c' = 0x80201000.
Proof.
  destruct (segments_set_up 0 demo_cpu 0 [] demo_stack) as (k' & c' & Hrun & Hc & _ & _ & _ & He & _).
  - exact (demo_irq_ok ∅).
  - reflexivity.
  - reflexivity.
  - reflexivity.
  - cbn. lia.
  - discriminate.
  - discriminate.
  - exists k', c'. split; [exact Hrun|]. split; [exact Hc|exact He].
Defined.
