(* ===== verification/Thread.v ===== *)
(** * Threads and their synchronisation ([join], [mutex_*], [barrier_*] of [proc.c])

    A mutex is a slot of [mtable]; the barrier is the pair of globals [count]
    and [proc_count].  ([clone], which needs files and inodes, is modelled with
    [fork].) *)

From stdpp Require Import base numbers list gmap strings.
From S2P Require Import Prelude Mmu Hardware Memory Kernel Spinlock Kalloc Cprintf Vm Proc.

Implicit Types (k : K) (h : hw) (o : oracle).

(** ** [join] *)

(** The scan of the table: the first exited child in the same address space. *)
Definition join_scan (cur : nat) (pgdir : Z) (l : list proc) : option (nat * proc) :=
  list_find (λ q, p_parent q = Some cur ∧ p_pgdir q = pgdir ∧ p_state q = ZOMBIE) l.

(** [*stack = process->ustack] and [*process->refs -= 1] go through the page
    table the kernel runs on, the caller's. *)
Definition join_turn (cur : nat) (stack : Z) : M (option Z) :=
  let! pgdir := pget p_pgdir cur in
  let! scan := reads (λ k, join_scan cur pgdir (k_ptable k)) in
  match scan with
  | Some (p, _) =>
      let! pid := pget p_pid p in
      let! ustack := pget p_ustack p in
      vwr32 stack ustack ;;;
      let! kstack := pget p_kstack p in
      kfree kstack ;;;
      pset p (set_p_kstack 0) ;;;
      reap p ;;;
      let! refs := pget p_refs p in
      let! n := vrd32 refs in
      vwr32 refs (u32 (n - 1)) ;;;
      release LPtable ;;;
      ret (Some pid)
  | None => sleep (CProc cur) (Some LPtable) ;;; ret None
  end.

Definition join (stack : Z) : M Z :=
  let! cur := curproc in
  acquire LPtable ;;;
  forever (join_turn cur stack).

(** ** Mutexes *)

Definition mget (i : nat) : M mutex_struct :=
  reads (λ k, default (mk_mutex 0 LOCKED) (k_mtable k !! i)).
Definition mset (i : nat) (f : mutex_struct → mutex_struct) : M unit :=
  modify (λ k, set_k_mtable (alter f i (k_mtable k)) k).

(** The search loops.  They read the field of the slot after the last one
    before they test for the end of the table, but what they read there makes
    no difference: the end is returned either way. *)
Definition find_locked (l : list mutex_struct) : option nat :=
  fst <$> list_find (λ m, m_state m = LOCKED) l.
Definition find_mutex (mutex_id : Z) (l : list mutex_struct) : option nat :=
  fst <$> list_find (λ m, m_id m = mutex_id) l.

Definition mutex_init : M Z :=
  acquire LMtable ;;;
  let! m := reads (λ k, find_locked (k_mtable k)) in
  match m with
  | None => release LMtable ;;; ret (-1)
  | Some m =>
      let! id := reads k_nextmid in
      mset m (set_m_id id) ;;;
      modify (set_k_nextmid (s32 (id + 1))) ;;;
      mset m (set_m_state UNLOCKED) ;;;
      release LMtable ;;;
      let! m := mget m in
      ret (m_id m)
  end.

Definition mutex_locked (m : nat) (k : K) : bool :=
  bool_decide (m_state (default (mk_mutex 0 LOCKED) (k_mtable k !! m)) = LOCKED).

Definition mutex_lock (mutex_id : Z) : M Z :=
  acquire LMtable ;;;
  let! m := reads (λ k, find_mutex mutex_id (k_mtable k)) in
  match m with
  | None => release LMtable ;;; ret (-1)
  | Some m =>
      sleep_while (mutex_locked m) (CMutex m) LMtable ;;;
      mset m (set_m_state LOCKED) ;;;
      release LMtable ;;;
      ret 0
  end.

(** [wakeup1] is called without [ptable.lock]. *)
Definition mutex_unlock (mutex_id : Z) : M Z :=
  acquire LMtable ;;;
  let! m := reads (λ k, find_mutex mutex_id (k_mtable k)) in
  match m with
  | None => release LMtable ;;; ret (-1)
  | Some m =>
      let! s := mget m in
      if negb (bool_decide (m_state s = LOCKED)) then release LMtable ;;; ret (-1)
      else
        mset m (set_m_state UNLOCKED) ;;;
        wakeup1 (CMutex m) ;;;
        release LMtable ;;;
        ret 0
  end.

(** ** The barrier *)

Definition barrier_init (n : Z) : M Z :=
  modify (set_k_count 0) ;;;
  initlock LBarrier ;;;
  modify (set_k_proc_count n) ;;;
  ret 0.

Definition barrier_lock : M Z :=
  acquire LBarrier ;;;
  let! count := reads k_count in
  modify (set_k_count (s32 (count + 1))) ;;;
  sleep_while (λ k, k_count k <? k_proc_count k) CBarrier LBarrier ;;;
  wakeup CBarrier ;;;
  release LBarrier ;;;
  ret 0.

(** ** The loops end when their conditions do *)

Lemma join_waits cur stack : waits (join_turn cur stack).
Proof.
  unfold join_turn, pget. do 2 (apply waits_bind; [solve_shrinks|intros ?]).
  destruct (_ : option _) as [[p q]|].
  - apply waits_gives. solve_shrinks.
  - apply waits_uses, uses_bind_l; [apply uses_sleep|intros _; solve_shrinks].
Qed.

(** ** Mutexes: what each call does *)

Definition mutex_at (k : K) (m : nat) : mutex_struct := default (mk_mutex 0 LOCKED) (k_mtable k !! m).

Lemma mutex_init_run o k :
  irq_ok (k_hw k) → h_locks (k_hw k) !! LMtable = None →
  mutex_init o k =
  match find_locked (k_mtable k) with
  | None => Ret (-1) o k
  | Some m =>
      Ret (k_nextmid k) o
        (set_k_nextmid (s32 (k_nextmid k + 1))
          (set_k_mtable (<[m := mk_mutex (k_nextmid k) UNLOCKED]> (k_mtable k)) k))
  end.
Proof.
  intros Hok Hl. unfold mutex_init. kstep_with (acquire_spec LMtable o k Hok Hl). kstep.
  cbn [k_mtable set_k_hw]. destruct (find_locked (k_mtable k)) as [m|] eqn:Hf; cycle 1.
  { kstep_with (release_acquired LMtable o k (set_k_hw (hw_acq LMtable (k_hw k)) k) Hok Hl eq_refl).
    by destruct k. }
  unfold mset. kstep. set (k1 := set_k_mtable _ _).
  kstep_with (release_acquired LMtable o k k1 Hok Hl eq_refl).
  unfold find_locked in Hf. destruct (list_find _ _) as [[m' x]|] eqn:Hx; [|done]. cbn in Hf. simplify_eq.
  apply list_find_Some in Hx as (Hx & _ & _).
  assert (k_mtable k1 = <[m := mk_mutex (k_nextmid k) UNLOCKED]> (k_mtable k)) as Hk1.
  { unfold k1. cbn. rewrite alter_alter_eq. apply list_eq. intros j.
    destruct (decide (m = j)) as [->|Hne].
    - rewrite list_lookup_alter_eq, Hx, list_lookup_insert_eq by (by eapply lookup_lt_Some). by destruct x.
    - by rewrite list_lookup_alter_ne, list_lookup_insert_ne by done. }
  unfold mget. kstep. cbn [k_mtable set_k_hw]. rewrite Hk1, list_lookup_insert_eq by (by eapply lookup_lt_Some).
  unfold ret. cbn [default m_id from_option id]. f_equal.
  unfold k1 in *. cbn in Hk1. cbn. rewrite Hk1. by destruct k.
Qed.

Lemma set_k_mtable_hw k v : k_hw (set_k_mtable v k) = k_hw k.
Proof. done. Qed.

(** [mutex_lock] on a known mutex: it never fails, and when it returns there
    was a state, with [mtable.lock] held, in which the mutex was not locked;
    the call made it locked in that state and released [mtable.lock]. *)
Lemma mutex_lock_run i m id o k :
  idle i k → h_locks (k_hw k) !! LMtable = None → find_mutex id (k_mtable k) = Some m →
  Forall (env_ok i LMtable) o →
  match mutex_lock id o k with
  | Ret r o' k' =>
      r = 0 ∧ o' `suffix_of` o ∧ idle i k' ∧ h_locks (k_hw k') !! LMtable = None ∧
      ∃ k0, can_sleep i LMtable k0 ∧ m_state (mutex_at k0 m) = UNLOCKED ∧
            k' = set_k_hw (hw_rel LMtable (k_hw k0))
                   (set_k_mtable (alter (set_m_state LOCKED) m (k_mtable k0)) k0)
  | Panic _ _ => False
  | Blocked k' => True
  end.
Proof.
  intros Hidle Hl Hf Ho. unfold mutex_lock.
  kstep_with (acquire_spec LMtable o k (proj1 Hidle) Hl). kstep. cbn [k_mtable set_k_hw]. rewrite Hf.
  pose proof (idle_acquire i LMtable k Hidle ltac:(done)) as Hcs.
  set (k1 := set_k_hw _ k) in *. unfold bind at 1.
  rewrite (sleep_while_run _ i) by done.
  pose proof (wait_run_spec (mutex_locked m) i (CMutex m) LMtable o k1 Hcs Ho) as Hw.
  destruct (wait_run _ _ _ _ o k1) as [[] o2 k2| |]; [|done|done].
  destruct Hw as (Hc & Hcs2 & Hsuf). unfold mset. kstep. set (k3 := set_k_mtable _ k2).
  assert (can_sleep i LMtable k3) as Hcs3 by (by eapply can_sleep_ext; [..|exact Hcs2]).
  kstep_with (can_sleep_release i LMtable o2 k3 Hcs3). unfold ret.
  split_and!; try done.
  - by apply (can_sleep_idle i LMtable).
  - rewrite k_hw_set, h_locks_rel. apply lookup_delete_eq.
  - exists k2. split_and!; try done. unfold mutex_locked in Hc. apply bool_decide_eq_false in Hc.
    unfold mutex_at. by destruct (m_state _).
Qed.

Lemma mutex_lock_unknown id o k :
  irq_ok (k_hw k) → h_locks (k_hw k) !! LMtable = None → find_mutex id (k_mtable k) = None →
  mutex_lock id o k = Ret (-1) o k.
Proof.
  intros Hok Hl Hf. unfold mutex_lock. kstep_with (acquire_spec LMtable o k Hok Hl). kstep.
  cbn [k_mtable set_k_hw]. rewrite Hf.
  kstep_with (release_acquired LMtable o k (set_k_hw (hw_acq LMtable (k_hw k)) k) Hok Hl eq_refl).
  by destruct k.
Qed.

(** [mutex_unlock] fails, changing nothing, unless the mutex exists and is
    locked; otherwise it unlocks it and makes every process that waits for it
    runnable. *)
Lemma mutex_unlock_run id o k :
  irq_ok (k_hw k) → h_locks (k_hw k) !! LMtable = None →
  mutex_unlock id o k =
  match find_mutex id (k_mtable k) with
  | None => Ret (-1) o k
  | Some m =>
      if mutex_locked m k then
        Ret 0 o (set_k_ptable (wake_proc (CMutex m) <$> k_ptable k)
                  (set_k_mtable (alter (set_m_state UNLOCKED) m (k_mtable k)) k))
      else Ret (-1) o k
  end.
Proof.
  intros Hok Hl. unfold mutex_unlock. kstep_with (acquire_spec LMtable o k Hok Hl). kstep.
  cbn [k_mtable set_k_hw]. destruct (find_mutex id (k_mtable k)) as [m|]; cycle 1.
  { kstep_with (release_acquired LMtable o k (set_k_hw (hw_acq LMtable (k_hw k)) k) Hok Hl eq_refl).
    by destruct k. }
  unfold mget. kstep. cbn [k_mtable set_k_hw]. unfold mutex_locked.
  case_test; cbn [negb].
  - unfold mset, wakeup1. kstep. set (k1 := set_k_ptable _ _).
    kstep_with (release_acquired LMtable o k k1 Hok Hl eq_refl). by destruct k.
  - kstep_with (release_acquired LMtable o k (set_k_hw (hw_acq LMtable (k_hw k)) k) Hok Hl eq_refl).
    by destruct k.
Qed.

(** ** The barrier *)

Lemma barrier_init_run n o k :
  barrier_init n o k =
  Ret 0 o (set_k_proc_count n (set_k_hw (set_h_locks (delete LBarrier (h_locks (k_hw k))) (k_hw k)) (set_k_count 0 k))).
Proof. done. Qed.

(** [barrier_lock] returns only in a state in which at least [proc_count]
    calls have been counted, and then wakes every waiting process. *)
Lemma barrier_lock_run i o k :
  idle i k → h_locks (k_hw k) !! LBarrier = None → Forall (env_ok i LBarrier) o →
  match barrier_lock o k with
  | Ret r o' k' =>
      r = 0 ∧ o' `suffix_of` o ∧ idle i k' ∧
      ∃ k0, can_sleep i LBarrier k0 ∧ k_proc_count k0 ≤ k_count k0 ∧
            k' = set_k_hw (hw_rel LBarrier (k_hw k0))
                   (set_k_ptable (wake_proc CBarrier <$> k_ptable k0) k0)
  | Panic _ _ => False
  | Blocked k' => True
  end.
Proof.
  intros Hidle Hl Ho. unfold barrier_lock.
  kstep_with (acquire_spec LBarrier o k (proj1 Hidle) Hl). kstep. cbn [k_count set_k_hw].
  pose proof (idle_acquire i LBarrier k Hidle ltac:(done)) as Hcs.
  set (k1 := set_k_count _ _). assert (can_sleep i LBarrier k1) as Hcs1 by (by eapply can_sleep_ext; [..|exact Hcs]).
  unfold bind at 1. rewrite (sleep_while_run _ i) by done.
  pose proof (wait_run_spec (λ k, k_count k <? k_proc_count k) i CBarrier LBarrier o k1 Hcs1 Ho) as Hw.
  destruct (wait_run _ _ _ _ o k1) as [[] o2 k2| |]; [|done|done].
  destruct Hw as (Hc & Hcs2 & Hsuf). apply Z.ltb_ge in Hc.
  pose proof Hcs2 as (Hok2 & _ & _ & _ & Hfree & _).
  kstep_with (wakeup_spec CBarrier o2 k2 Hok2 (Hfree ltac:(done))). set (k3 := set_k_ptable _ k2).
  assert (can_sleep i LBarrier k3) as Hcs3
    by (eapply can_sleep_ext; [..|exact Hcs2]; [done|]; cbn; by rewrite length_fmap).
  kstep_with (can_sleep_release i LBarrier o2 k3 Hcs3). unfold ret.
  split_and!; try done; [by apply (can_sleep_idle i LBarrier)|]. by exists k2.
Qed.

(** The last of the [proc_count] calls does not sleep: it goes straight
    through and wakes the others. *)
Lemma barrier_lock_last i o k :
  idle i k → h_locks (k_hw k) !! LBarrier = None → k_count k < 2147483647 →
  k_proc_count k ≤ k_count k + 1 →
  barrier_lock o k =
  Ret 0 o (set_k_ptable (wake_proc CBarrier <$> k_ptable k) (set_k_count (s32 (k_count k + 1)) k)).
Proof.
  intros Hidle Hl Hmax Hn. unfold barrier_lock.
  kstep_with (acquire_spec LBarrier o k (proj1 Hidle) Hl). kstep. cbn [k_count set_k_hw].
  set (k1 := set_k_count _ _).
  assert (sleep_while (λ k, k_count k <? k_proc_count k) CBarrier LBarrier o k1 = Ret tt o k1) as Hw.
  { unfold sleep_while. rewrite forever_unfold by apply sleep_while_waits. kstep.
    replace (k_count k1 <? k_proc_count k1) with false; [done|]. symmetry. apply Z.ltb_ge.
    unfold k1. cbn. unfold s32. lia_mod. }
  kstep_with Hw.
  pose proof (idle_acquire i LBarrier k Hidle ltac:(done)) as (Hok2 & _ & _ & _ & Hfree & _).
  kstep_with (wakeup_spec CBarrier o k1 Hok2 (Hfree ltac:(done))). set (k3 := set_k_ptable _ k1).
  kstep_with (release_acquired LBarrier o k k3 (proj1 Hidle) Hl eq_refl). by destruct k.
Qed.

(** ** Properties *)


(** A table whose first mutex, number 1, is held by somebody else. *)
Definition demo_mutex (s : mutexstate) : K :=
  set_k_nextmid 2 (set_k_mtable [mk_mutex 1 s; mk_mutex 0 LOCKED] (K_demo ∅)).
Definition demo_unlock : K → K := set_k_mtable [mk_mutex 1 UNLOCKED; mk_mutex 0 LOCKED].

Lemma demo_mutex_idle s : idle 0 (demo_mutex s).
Proof. by eapply idle_ext; [..|apply (demo_idle ∅)]. Qed.


(** [mutex_unlock] by anyone unlocks a locked mutex and makes all its
    waiters runnable; on an unknown or an unlocked mutex it fails with -1 and
    changes nothing. *)
Theorem mutex_unlock_releases id o k :
  irq_ok (k_hw k) → h_locks (k_hw k) !! LMtable = None →
  mutex_unlock id o k =
  match find_mutex id (k_mtable k) with
  | None => Ret (-1) o k
  | Some m =>
      if mutex_locked m k then
        Ret 0 o (set_k_ptable (wake_proc (CMutex m) <$> k_ptable k)
                  (set_k_mtable (alter (set_m_state UNLOCKED) m (k_mtable k)) k))
      else Ret (-1) o k
  end.
Proof. apply mutex_unlock_run. Qed.

Lemma mutex_unlock_releases_witness :
  mutex_unlock 1 [] (demo_mutex UNLOCKED) = Ret (-1) [] (demo_mutex UNLOCKED).
Proof.
  rewrite (mutex_unlock_releases 1 [] (demo_mutex UNLOCKED)).
  - reflexivity.
  - apply demo_irq_ok.
  - reflexivity.
Defined.

(** C34: [mutex_init] takes the first slot in state [LOCKED], which may be a
    mutex somebody holds: then that mutex is replaced.  Its holder's
    [mutex_unlock] fails, and its number is not found by [mutex_lock] any more.
    Only slots that are unlocked are safe from it. *)
Theorem mutex_init_takes_held m o k :
  irq_ok (k_hw k) → h_locks (k_hw k) !! LMtable = None →
  find_locked (k_mtable k) = Some m → m_id (mutex_at k m) ≠ k_nextmid k →
  NoDup (m_id <$> k_mtable k) →
  ∃ k', mutex_init o k = Ret (k_nextmid k) o k' ∧
    mutex_unlock (m_id (mutex_at k m)) o k' = Ret (-1) o k' ∧
    mutex_lock (m_id (mutex_at k m)) o k' = Ret (-1) o k'.
Proof.
  intros Hok Hl Hf Hid Hnd. rewrite mutex_init_run, Hf by done. eexists. split; [done|].
  set (k' := set_k_nextmid _ _).
  unfold find_locked in Hf. destruct (list_find _ _) as [[m' x]|] eqn:Hx; [|done]. cbn in Hf. simplify_eq.
  apply list_find_Some in Hx as (Hx & _ & _).
  assert (find_mutex (m_id (mutex_at k m)) (k_mtable k') = None) as Hn.
  { unfold find_mutex. destruct (list_find _ _) as [[j y]|] eqn:Hy; [|done]. exfalso.
    apply list_find_Some in Hy as (Hy & E & _). unfold mutex_at in *. rewrite Hx in *. cbn in E, Hid.
    unfold k' in Hy. cbn in Hy. destruct (decide (m = j)) as [->|Hne].
    - rewrite list_lookup_insert_eq in Hy by (by eapply lookup_lt_Some). by simplify_eq.
    - rewrite list_lookup_insert_ne in Hy by done. apply Hne.
      eapply (NoDup_lookup _ _ _ _ Hnd); rewrite list_lookup_fmap; [by rewrite Hx|by rewrite Hy, <- E]. }
  split; [rewrite mutex_unlock_run by done; by rewrite Hn|by apply mutex_lock_unknown].
Qed.

Lemma mutex_init_takes_held_witness :
  ∃ k', mutex_init [] (demo_mutex LOCKED) = Ret 2 [] k' ∧ mutex_unlock 1 [] k' = Ret (-1) [] k'.
Proof.
  destruct (mutex_init_takes_held 0 [] (demo_mutex LOCKED)) as (k' & Hi & Hu & _).
  - apply demo_irq_ok.
  - reflexivity.
  - reflexivity.
  - vm_compute. discriminate.
  - repeat constructor; [by intros [?|?%elem_of_nil]%elem_of_cons|by intros ?%elem_of_nil].
  - exists k'. split; [exact Hi|exact Hu].
Defined.

(** C32: A process gets past [barrier_lock] only in a state in which at least
    [proc_count] calls have been counted; it then makes all waiters runnable.  It
    stays blocked only as long as nobody brings the count there. *)
Theorem barrier_holds_until_full i o k :
  idle i k → h_locks (k_hw k) !! LBarrier = None → Forall (env_ok i LBarrier) o →
  match barrier_lock o k with
  | Ret r o' k' =>
      r = 0 ∧ o' `suffix_of` o ∧ idle i k' ∧
      ∃ k0, can_sleep i LBarrier k0 ∧ k_proc_count k0 ≤ k_count k0 ∧
            k' = set_k_hw (hw_rel LBarrier (k_hw k0))
                   (set_k_ptable (wake_proc CBarrier <$> k_ptable k0) k0)
  | Panic _ _ => False
  | Blocked _ => k_count k < 2147483647 → k_count k + 1 < k_proc_count k
  end.
Proof.
  intros Hidle Hl Ho. pose proof (barrier_lock_run i o k Hidle Hl Ho) as Hrun.
  destruct (barrier_lock o k) as [| |kb] eqn:E; [done|done|]. intros Hmax.
  destruct (decide (k_count k + 1 < k_proc_count k)) as [|Hn]; [done|].
  rewrite (barrier_lock_last i) in E by (done || lia). done.
Qed.

Definition demo_barrier (count n : Z) : K := set_k_proc_count n (set_k_count count (K_demo ∅)).

Lemma demo_barrier_idle c n : idle 0 (demo_barrier c n).
Proof. by eapply idle_ext; [..|apply (demo_idle ∅)]. Qed.

Lemma barrier_holds_until_full_witness : ∃ o' k', barrier_lock [] (demo_barrier 1 2) = Ret 0 o' k'.
Proof.
  pose proof (barrier_holds_until_full 0 [] (demo_barrier 1 2) (demo_barrier_idle 1 2) eq_refl
    (Forall_nil_2 _)) as Hs.
  destruct (barrier_lock [] (demo_barrier 1 2)) as [r o' k'| |]; [|done|].
  - destruct Hs as (-> & _). eauto.
  - exfalso. vm_compute in Hs. specialize (Hs eq_refl). discriminate.
Defined.

(** C39: The barrier works once: [count] is never reset, so when [proc_count]
    processes have passed, every later call goes straight through without
    waiting for anyone, whatever the others do. *)
Theorem barrier_not_reusable i o k :
  idle i k → h_locks (k_hw k) !! LBarrier = None → 0 ≤ k_count k < 2147483647 →
  k_proc_count k ≤ k_count k →
  barrier_lock o k =
  Ret 0 o (set_k_ptable (wake_proc CBarrier <$> k_ptable k) (set_k_count (k_count k + 1) k)).
Proof.
  intros Hidle Hl Hr Hc. rewrite (barrier_lock_last i) by (done || lia). by rewrite s32_small by lia.
Qed.

(** The third call on a barrier for two. *)
Lemma barrier_not_reusable_witness :
  ∃ k', barrier_lock [] (demo_barrier 2 2) = Ret 0 [] k' ∧ k_count k' = 3.
Proof.
  eexists. split.
  - apply (barrier_not_reusable 0 [] (demo_barrier 2 2)).
    + apply demo_barrier_idle.
    + reflexivity.
    + vm_compute. split; congruence.
    + vm_compute. congruence.
  - reflexivity.
Defined.
