(* ===== verification/Sleeplock.v ===== *)
(** * Sleep-locks ([sleeplock.c])

    A sleep-lock lives in a buffer or in a cached inode. *)

From stdpp Require Import base numbers list gmap strings.
From S2P Require Import Prelude Mmu Hardware Memory Kernel Spinlock Kalloc Cprintf Vm Proc.

Implicit Types (k : K) (h : hw) (o : oracle) (s : slid).

(** ** Translated code *)

Definition sl_get (s : slid) (k : K) : sleeplock :=
  match s with
  | SLBuf b => b_lock (default zero_buf (k_bcache k !! b))
  | SLInode i => i_lock (default zero_inode (k_icache k !! i))
  end.

Definition sl_set (s : slid) (v : sleeplock) (k : K) : K :=
  match s with
  | SLBuf b => set_k_bcache (alter (set_b_lock v) b (k_bcache k)) k
  | SLInode i => set_k_icache (alter (set_i_lock v) i (k_icache k)) k
  end.

Definition initsleeplock (s : slid) : M unit :=
  initlock (LSleep s) ;;; modify (sl_set s (mk_sl false 0)).

Definition acquiresleep (s : slid) : M unit :=
  acquire (LSleep s) ;;;
  sleep_while (λ k, sl_locked (sl_get s k)) (CSleep s) (LSleep s) ;;;
  modify (λ k, sl_set s (set_sl_locked true (sl_get s k)) k) ;;;
  let! p := curproc in
  let! pid := pget p_pid p in
  modify (λ k, sl_set s (set_sl_pid pid (sl_get s k)) k) ;;;
  release (LSleep s).

Definition releasesleep (s : slid) : M unit :=
  acquire (LSleep s) ;;;
  modify (λ k, sl_set s (set_sl_locked false (sl_get s k)) k) ;;;
  modify (λ k, sl_set s (set_sl_pid 0 (sl_get s k)) k) ;;;
  wakeup (CSleep s) ;;;
  release (LSleep s).

Definition holdingsleep (s : slid) : M bool :=
  acquire (LSleep s) ;;;
  let! sl := reads (sl_get s) in
  let! r :=
    if sl_locked sl then
      let! p := curproc in
      let! pid := pget p_pid p in
      ret (sl_pid sl =? pid)
    else ret false in
  release (LSleep s) ;;;
  ret r.

(** ** What the operations do *)

(** The place of the lock exists. *)
Definition sl_valid (s : slid) (k : K) : Prop :=
  match s with
  | SLBuf b => (b < length (k_bcache k))%nat
  | SLInode i => (i < length (k_icache k))%nat
  end.

Lemma sl_get_set s v k : sl_valid s k → sl_get s (sl_set s v k) = v.
Proof.
  destruct s as [b|i]; cbn; intros [x Hx]%lookup_lt_is_Some_2; by rewrite list_lookup_alter_eq, Hx.
Qed.

Lemma sl_valid_set s s' v k : sl_valid s (sl_set s' v k) ↔ sl_valid s k.
Proof. destruct s, s'; cbn; by rewrite ?length_alter. Qed.

Lemma sl_set_twice s v w k : sl_set s v (sl_set s w k) = sl_set s v k.
Proof.
  destruct s as [b|i]; cbn; unfold set_k_bcache, set_k_icache; cbn; f_equal; by rewrite alter_alter_eq.
Qed.

Lemma sl_set_rest s v k : k_hw (sl_set s v k) = k_hw k ∧ k_ptable (sl_set s v k) = k_ptable k.
Proof. by destruct s. Qed.

Lemma can_sleep_set i lk s v k : can_sleep i lk k → can_sleep i lk (sl_set s v k).
Proof. apply can_sleep_ext; by destruct s. Qed.

(** The id of the process that runs. *)
Definition cur_pid (k : K) : Z :=
  match hw_proc (k_hw k) with Some i => p_pid (proc_at k i) | None => 0 end.

Lemma idle_free_acquire i lk o k :
  idle i k → h_locks (k_hw k) !! lk = None → acquire lk o k = Ret tt o (set_k_hw (hw_acq lk (k_hw k)) k).
Proof. intros (Hok & _) Hl. by apply acquire_spec. Qed.

Lemma sl_set_invalid s v k : ¬ sl_valid s k → sl_set s v k = k.
Proof.
  destruct s as [b|i]; cbn; intros Hv; rewrite alter_out by lia; by destruct k.
Qed.

(** The two assignments that mark the lock as held by [pid]. *)
Lemma sl_mark s pid k :
  let k1 := sl_set s (set_sl_locked true (sl_get s k)) k in
  sl_set s (set_sl_pid pid (sl_get s k1)) k1 = sl_set s (mk_sl true pid) k.
Proof.
  cbn zeta. rewrite sl_set_twice.
  assert (sl_valid s k ∨ ¬ sl_valid s k) as [Hv|Hv] by (destruct s; cbn; lia).
  - by rewrite sl_get_set.
  - by rewrite !sl_set_invalid.
Qed.

Lemma sl_unmark s k :
  let k1 := sl_set s (set_sl_locked false (sl_get s k)) k in
  sl_set s (set_sl_pid 0 (sl_get s k1)) k1 = sl_set s (mk_sl false 0) k.
Proof.
  cbn zeta. rewrite sl_set_twice.
  assert (sl_valid s k ∨ ¬ sl_valid s k) as [Hv|Hv] by (destruct s; cbn; lia).
  - by rewrite sl_get_set.
  - by rewrite !sl_set_invalid.
Qed.

Lemma curproc_pid i lk o k {A} (f : Z → M A) :
  can_sleep i lk k →
  (let! p := curproc in let! pid := pget p_pid p in f pid) o k = f (p_pid (proc_at k i)) o k.
Proof.
  intros (Hok & Hp & _). kstep_with (curproc_spec o k i Hok Hp). unfold pget. by kstep.
Qed.

(** [acquiresleep] returns only after a state in which the lock was free and
    the inner spin-lock held; in that state it is marked as held by the caller. *)
Lemma acquiresleep_run i s o k :
  idle i k → h_locks (k_hw k) !! LSleep s = None → Forall (env_ok i (LSleep s)) o →
  match acquiresleep s o k with
  | Ret _ o' k' =>
      o' `suffix_of` o ∧ idle i k' ∧ h_locks (k_hw k') !! LSleep s = None ∧
      ∃ k0, can_sleep i (LSleep s) k0 ∧ sl_locked (sl_get s k0) = false ∧
            k' = set_k_hw (hw_rel (LSleep s) (k_hw k0))
                   (sl_set s (mk_sl true (p_pid (proc_at k0 i))) k0)
  | Panic _ _ => False
  | Blocked _ => True
  end.
Proof.
  intros Hidle Hl Ho. unfold acquiresleep.
  kstep_with (idle_free_acquire i (LSleep s) o k Hidle Hl).
  pose proof (idle_acquire i (LSleep s) k Hidle ltac:(done)) as Hcs.
  set (k1 := set_k_hw _ k) in *. unfold bind at 1. rewrite (sleep_while_run _ i) by done.
  pose proof (wait_run_spec (λ k, sl_locked (sl_get s k)) i (CSleep s) (LSleep s) o k1 Hcs Ho) as Hw.
  destruct (wait_run _ _ _ _ o k1) as [[] o2 k2| |]; [|done|done].
  destruct Hw as (Hc & Hcs2 & Hsuf). rewrite bind_modify.
  rewrite (curproc_pid i (LSleep s)) by (by apply can_sleep_set).
  rewrite bind_modify, sl_mark.
  replace (proc_at (sl_set s _ k2) i) with (proc_at k2 i) by (unfold proc_at; by destruct s).
  set (k3 := sl_set s _ k2). assert (can_sleep i (LSleep s) k3) as Hcs3 by (by apply can_sleep_set).
  rewrite (can_sleep_release i (LSleep s) o2 k3 Hcs3). split_and!; try done.
  - by apply (can_sleep_idle i (LSleep s)).
  - rewrite k_hw_set, h_locks_rel. apply lookup_delete_eq.
  - exists k2. split_and!; try done. unfold k3. by destruct s.
Qed.

(** Without contention. *)
Lemma acquiresleep_free i s o k :
  idle i k → h_locks (k_hw k) !! LSleep s = None → sl_locked (sl_get s k) = false →
  acquiresleep s o k = Ret tt o (sl_set s (mk_sl true (p_pid (proc_at k i))) k).
Proof.
  intros Hidle Hl Hs. unfold acquiresleep.
  kstep_with (idle_free_acquire i (LSleep s) o k Hidle Hl).
  pose proof (idle_acquire i (LSleep s) k Hidle ltac:(done)) as Hcs.
  set (k1 := set_k_hw _ k) in *.
  assert (sleep_while (λ k, sl_locked (sl_get s k)) (CSleep s) (LSleep s) o k1 = Ret tt o k1) as Hw.
  { unfold sleep_while. rewrite forever_unfold by apply sleep_while_waits. kstep.
    replace (sl_get s k1) with (sl_get s k) by (by destruct s). by rewrite Hs. }
  kstep_with Hw. rewrite bind_modify, (curproc_pid i (LSleep s)) by (by apply can_sleep_set).
  rewrite bind_modify, sl_mark. set (k3 := sl_set s _ k1).
  rewrite (release_acquired (LSleep s) o k k3); [|apply Hidle|done|by destruct s].
  unfold k3, k1. f_equal. destruct s, k; done.
Qed.

Lemma releasesleep_free i s o k :
  idle i k → h_locks (k_hw k) !! LSleep s = None →
  releasesleep s o k =
  Ret tt o (set_k_ptable (wake_proc (CSleep s) <$> k_ptable k) (sl_set s (mk_sl false 0) k)).
Proof.
  intros Hidle Hl. unfold releasesleep.
  kstep_with (idle_free_acquire i (LSleep s) o k Hidle Hl).
  pose proof (idle_acquire i (LSleep s) k Hidle ltac:(done)) as (Hok & _ & _ & _ & Hfree & _).
  set (k1 := set_k_hw _ k) in *. rewrite !bind_modify, sl_unmark. set (k2 := sl_set s _ k1).
  assert (k_hw k2 = k_hw k1) as Hhw by (by destruct s).
  assert (wakeup (CSleep s) o k2 = Ret tt o (set_k_ptable (wake_proc (CSleep s) <$> k_ptable k2) k2)) as Hwk
    by (apply wakeup_spec; rewrite Hhw; auto).
  kstep_with Hwk. set (k3 := set_k_ptable _ k2).
  rewrite (release_acquired (LSleep s) o k k3); [|apply Hidle|done|by destruct s].
  unfold k3, k2, k1. f_equal. destruct s, k; done.
Qed.

Definition holdsleep (s : slid) (pid : Z) (k : K) : bool :=
  sl_locked (sl_get s k) && (sl_pid (sl_get s k) =? pid).

Lemma holdingsleep_spec i s o k :
  idle i k → h_locks (k_hw k) !! LSleep s = None →
  holdingsleep s o k = Ret (holdsleep s (p_pid (proc_at k i)) k) o k.
Proof.
  intros Hidle Hl. unfold holdingsleep, holdsleep.
  kstep_with (idle_free_acquire i (LSleep s) o k Hidle Hl). rewrite bind_reads.
  pose proof (idle_acquire i (LSleep s) k Hidle ltac:(done)) as Hcs.
  set (k1 := set_k_hw _ k) in *. replace (sl_get s k1) with (sl_get s k) by (by destruct s).
  assert (release (LSleep s) o k1 = Ret tt o k) as Hr.
  { rewrite (release_acquired (LSleep s) o k k1); [|apply Hidle|done|done]. unfold k1. by destruct k. }
  destruct (sl_locked (sl_get s k)); [|kstep; by kstep_with Hr].
  destruct Hcs as (Hok & Hp & _). rewrite bind_assoc. kstep_with (curproc_spec o k1 i Hok Hp).
  rewrite bind_assoc. unfold pget. kstep. by kstep_with Hr.
Qed.

(** ** Properties *)

(** [acquiresleep] never fails; when it returns, there was a moment at
    which it held the inner spin-lock and the sleep-lock was free, and at that
    moment it took it and recorded the caller.  A free lock is taken at once. *)
Theorem acquiresleep_excludes i s o k :
  idle i k → h_locks (k_hw k) !! LSleep s = None → Forall (env_ok i (LSleep s)) o →
  match acquiresleep s o k with
  | Ret _ o' k' =>
      o' `suffix_of` o ∧ idle i k' ∧ h_locks (k_hw k') !! LSleep s = None ∧
      ∃ k0, can_sleep i (LSleep s) k0 ∧ sl_locked (sl_get s k0) = false ∧
            k' = set_k_hw (hw_rel (LSleep s) (k_hw k0))
                   (sl_set s (mk_sl true (p_pid (proc_at k0 i))) k0)
  | Panic _ _ => False
  | Blocked _ => sl_locked (sl_get s k) = true
  end.
Proof.
  intros Hidle Hl Ho. pose proof (acquiresleep_run i s o k Hidle Hl Ho) as Hrun.
  destruct (acquiresleep s o k) as [| |kb] eqn:E; [done|done|].
  destruct (sl_locked (sl_get s k)) eqn:Es; [done|]. by rewrite (acquiresleep_free i) in E.
Qed.

Lemma acquiresleep_excludes_witness :
  ∃ k', acquiresleep (SLInode 0) [] (K_demo ∅) = Ret tt [] k' ∧ idle 0 k'.
Proof.
  pose proof (acquiresleep_excludes 0 (SLInode 0) [] (K_demo ∅) (demo_idle ∅) eq_refl (Forall_nil_2 _)) as Hs.
  destruct (acquiresleep (SLInode 0) [] (K_demo ∅)) as [[] o' k'| |]; [|done|done].
  destruct Hs as (Ho & Hi & _). apply suffix_nil_inv in Ho as ->. exists k'. split; [reflexivity|exact Hi].
Defined.
