(* ===== verification/Blockdev.v ===== *)
(** * Buffers and the block device they are read from and written to

    The kernel is linked with one of two drivers, [ide.c] or [memide.c].  Both
    export [iderw] and [ideintr], which are the class [BlockDev]; the class
    [BlockDevOk] says what the buffer cache, and through it the log and the file
    system, rely on.  Everything above this file is
    parameterised by an instance. *)

From stdpp Require Import base numbers list gmap strings.
From S2P Require Import Prelude Mmu Hardware Memory Kernel Spinlock Kalloc Cprintf Vm Proc Sleeplock.

Implicit Types (k : K) (o : oracle).

Definition B_VALID : Z := 0x2.
Definition B_DIRTY : Z := 0x4.

Definition valid (x : buf) : bool := negb (Z.land (b_flags x) B_VALID =? 0).
Definition dirty (x : buf) : bool := negb (Z.land (b_flags x) B_DIRTY =? 0).

(** Field access through a [struct buf *]. *)
Definition buf_at (k : K) (b : nat) : buf := default zero_buf (k_bcache k !! b).
Definition bufget {A} (f : buf → A) (b : nat) : M A := reads (λ k, f (buf_at k b)).
Definition bufset (b : nat) (f : buf → buf) : M unit :=
  modify (λ k, set_k_bcache (alter f b (k_bcache k)) k).

(** A block of the disk; blocks never written read as zeroes. *)
Definition zero_block : list Z := replicate (Z.to_nat BSIZE) 0.
Definition block (k : K) (n : Z) : list Z := default zero_block (k_disk k !! n).

(** The disk performs a write. *)
Definition disk_write (n : Z) (d : list Z) (k : K) : K :=
  set_k_writes (k_writes k ++ [(n, d)]) (set_k_disk (<[n := d]> (k_disk k)) k).

(** "If B_DIRTY is set, write buf to disk, clear B_DIRTY, set B_VALID.  Else if
    B_VALID is not set, read buf from disk, set B_VALID." *)
Definition buf_sync (b : nat) (k : K) : K :=
  let x := buf_at k b in
  let x' := set_b_flags (Z.lor (Z.land (b_flags x) (Z.lnot B_DIRTY)) B_VALID) x in
  if dirty x then set_k_bcache (<[b := x']> (k_bcache k)) (disk_write (b_blockno x) (b_data x) k)
  else set_k_bcache (<[b := set_b_data (block k (b_blockno x)) x']> (k_bcache k)) k.

(** A state in which process [i] runs, no CPU holds a spin-lock, no request is
    queued at the disk, and the second disk has been found. *)
Definition quiet (i : nat) (k : K) : Prop :=
  idle i k ∧ h_locks (k_hw k) = ∅ ∧ k_idequeue k = [] ∧ io_havedisk1 (k_io k) = true.

Definition quiet_pid (k : K) (i : nat) : Z := p_pid (proc_at k i).

(** [k'] is [k] but for what a wait for the device may change: the states of
    processes, the CPU the caller runs on, the accesses to devices.  The caller
    goes on as process [i]. *)
Record carried (i : nat) (k k' : K) : Prop := {
  ca_rest : k' = set_k_io (k_io k') (set_k_ptable (k_ptable k') (set_k_hw (k_hw k') k));
  ca_quiet : quiet i k → quiet i k';
  ca_pids : p_pid <$> k_ptable k' = p_pid <$> k_ptable k
}.

Class BlockDev := {
  iderw : nat → M unit;
  ideintr : M unit;
  dev_serves : Z → Z → Prop
}.

(** What the buffer cache relies on. *)
Class BlockDevOk (DEV : BlockDev) : Prop := {
  iderw_spec i b o k :
    quiet i k → (b < length (k_bcache k))%nat →
    holdsleep (SLBuf b) (quiet_pid k i) k = true →
    valid (buf_at k b) && negb (dirty (buf_at k b)) = false →
    dev_serves (b_dev (buf_at k b)) (b_blockno (buf_at k b)) →
    ∃ k', iderw b o k = Ret tt o k' ∧ carried i (buf_sync b k) k';
  iderw_unlocked i b o k :
    quiet i k → holdsleep (SLBuf b) (quiet_pid k i) k = false →
    iderw b o k = Panic "iderw: buf not locked" k
}.

(** ** [carried] *)

Lemma carried_refl i k : carried i k k.
Proof. split; [by destruct k|done|done]. Qed.

Lemma carried_trans i k1 k2 k3 : carried i k1 k2 → carried i k2 k3 → carried i k1 k3.
Proof.
  intros [R1 Q1 P1] [R2 Q2 P2]. split; [|auto|congruence]. rewrite R2, R1 at 1. done.
Qed.

Lemma quiet_free i k lk : quiet i k → h_locks (k_hw k) !! lk = None.
Proof. intros (_ & -> & _). apply lookup_empty. Qed.

Lemma quiet_ext i k k' :
  k_hw k' = k_hw k → length (k_ptable k') = length (k_ptable k) → k_idequeue k' = k_idequeue k →
  io_havedisk1 (k_io k') = io_havedisk1 (k_io k) → quiet i k → quiet i k'.
Proof. intros Hh Hp Hq Hd (Hi & Hl & Hk & H1). split_and!; [by eapply idle_ext|by rewrite Hh|by rewrite Hq|by rewrite Hd]. Qed.

Lemma carried_wake i ch k : carried i k (set_k_ptable (wake_proc ch <$> k_ptable k) k).
Proof.
  split; [by destruct k| |].
  - apply quiet_ext; [done| |done|done]. cbn. by rewrite length_fmap.
  - cbn. rewrite <- list_fmap_compose. apply list_fmap_ext. intros ? p _. cbn. unfold wake_proc.
    by destruct (_ && _).
Qed.

Lemma quiet_pid_carried i k k' : carried i k k' → quiet_pid k' i = quiet_pid k i.
Proof.
  intros [_ _ Hp]. unfold quiet_pid, proc_at. pose proof (f_equal (.!! i) Hp) as H. cbn in H.
  rewrite !list_lookup_fmap in H. by destruct (k_ptable k' !! i), (k_ptable k !! i); cbn in H; simplify_eq.
Qed.

(** ** Flags as bits *)

Lemma valid_bit x : valid x = Z.testbit (b_flags x) 1.
Proof. apply (land_bit _ 1). lia. Qed.
Lemma dirty_bit x : dirty x = Z.testbit (b_flags x) 2.
Proof. apply (land_bit _ 2). lia. Qed.

(** The drivers test both flags with one mask. *)
Lemma flags_test f :
  (Z.land f (Z.lor B_VALID B_DIRTY) =? B_VALID) = Z.testbit f 1 && negb (Z.testbit f 2).
Proof.
  rewrite Z.land_lor_distr_r. change B_VALID with (2 ^ 1). change B_DIRTY with (2 ^ 2).
  rewrite (land_pow2 f 1), (land_pow2 f 2) by lia.
  by destruct (Z.testbit f 1), (Z.testbit f 2).
Qed.

Lemma sync_flags f :
  let f' := Z.lor (Z.land f (Z.lnot B_DIRTY)) B_VALID in Z.testbit f' 1 = true ∧ Z.testbit f' 2 = false.
Proof.
  cbn zeta. unfold B_DIRTY, B_VALID. rewrite !Z.lor_spec, !Z.land_spec, !Z.lnot_spec by lia.
  by rewrite !orb_true_r, !andb_false_r.
Qed.

Lemma buf_at_set b x k : (b < length (k_bcache k))%nat → buf_at (set_k_bcache (<[b := x]> (k_bcache k)) k) b = x.
Proof. intros Hb. unfold buf_at. cbn. by rewrite list_lookup_insert_eq. Qed.

(** An update of an existing buffer is an insertion. *)
Lemma bufset_insert f b k :
  (b < length (k_bcache k))%nat → alter f b (k_bcache k) = <[b := f (buf_at k b)]> (k_bcache k).
Proof.
  intros [x Hx]%lookup_lt_is_Some_2. unfold buf_at. rewrite Hx. apply list_eq. intros j.
  destruct (decide (b = j)) as [->|Hne].
  - rewrite list_lookup_alter_eq, Hx, list_lookup_insert_eq by (by eapply lookup_lt_Some). done.
  - by rewrite list_lookup_alter_ne, list_lookup_insert_ne by done.
Qed.

Lemma demo_quiet disk : quiet 0 (K_demo disk).
Proof. split_and!; [apply demo_idle|done|done|done]. Qed.
