(* ===== verification/Portio.v ===== *)
(** * Device accesses ([inb], [outb], [insl], [outsl] of [x86.h], device registers)

    What a device answers is a function of the accesses made before: the class
    [Machine] is the hardware around the processor.  An access is recorded in the
    kernel state.  The class [AtaDisk] says what the disk drivers rely on. *)

From stdpp Require Import base numbers list gmap strings.
From S2P Require Import Prelude Mmu Hardware Memory Kernel Spinlock Kalloc Cprintf Vm Proc Sleeplock Blockdev.

Implicit Types (k : K) (o : oracle) (t : list ioev).

Class Machine := {
  port_in : list ioev → Z → Z;  (* what [in] gets from a port *)
  data_in : list ioev → gmap Z (list Z) → Z → Z → list Z;  (* what [rep insl] gets, given the root disk, from a port *)
  data_out : list ioev → Z → list Z → option (Z * list Z);  (* the write to the root disk a [rep outsl] to a port makes *)
  reg_in : list ioev → Z → Z;  (* what a load from a device register gets *)
  patience : nat  (* how many times a device can be asked before it is ready *)
}.

Section portio.
Context {MA : Machine}.

Definition io_event (e : ioev) : M unit :=
  modify (λ k, set_k_io (set_io_trace (e :: io_trace (k_io k)) (k_io k)) k).

Definition inb (port : Z) : M Z :=
  let! v := reads (λ k, u8 (port_in (io_trace (k_io k)) port)) in
  io_event (Inb port) ;;;
  ret v.

Definition outb (port v : Z) : M unit := io_event (Outb port (u8 v)).

(** [cnt] words of four bytes. *)
Definition insl (port cnt : Z) : M (list Z) :=
  let! d := reads (λ k, data_in (io_trace (k_io k)) (k_disk k) port cnt) in
  io_event (Insl port cnt) ;;;
  ret d.

Definition outsl (port : Z) (data : list Z) : M unit :=
  let! w := reads (λ k, data_out (io_trace (k_io k)) port data) in
  io_event (Outsl port data) ;;;
  match w with
  | Some (n, d) => modify (disk_write n d)
  | None => ret tt
  end.

(** Loads and stores of device registers. *)
Definition reg_load (a : Z) : M Z :=
  let! v := reads (λ k, u32 (reg_in (io_trace (k_io k)) a)) in
  io_event (Loaded a) ;;;
  ret v.
Definition reg_store (a v : Z) : M unit := io_event (Store a (u32 v)).

(** The code asks a device again and again; when the device is never ready it
    asks for ever. *)
Fixpoint poll (n : nat) (read : M Z) (ready : Z → bool) : M Z :=
  match n with
  | O => λ _ k, Blocked k
  | S n => let! r := read in if ready r then ret r else poll n read ready
  end.

End portio.

(** ** The registers of an IDE controller *)

(** An access that leaves the controller alone, but for reading its status. *)
Definition off_drive (e : ioev) : bool :=
  match e with
  | Outb p _ => negb ((0x1f0 <=? p) && (p <=? 0x1f7)) && negb (p =? 0x3f6)
  | Insl p _ | Outsl p _ => negb (p =? 0x1f0)
  | _ => true
  end.

(** The controller has been given command [cmd] for sector [lba] of disk [dev], and
    nothing since. *)
Definition commanded (t : list ioev) (cmd dev lba : Z) : Prop :=
  ∃ t1 t2, t = t1 ++ Outb 0x1f7 cmd :: t2 ∧ Forall (λ e, off_drive e = true) t1 ∧
    latch t2 0x3f6 = Some 0 ∧ latch t2 0x1f2 = Some 1 ∧
    latch t2 0x1f3 = Some (slice lba 0 8) ∧ latch t2 0x1f4 = Some (slice lba 8 8) ∧
    latch t2 0x1f5 = Some (slice lba 16 8) ∧
    latch t2 0x1f6 = Some (0xe0 + 16 * dev + slice lba 24 4).

Definition ready (r : Z) : bool := Z.land r 0xc0 =? 0x40.

(** A drive as the ATA standard describes it, with the root file system on
    disk 1: the status register says sooner or later that the drive is ready; the
    commands 0x20 and 0x30 transfer a sector, selected by the four registers of its
    address, through the data register. *)
Class AtaDisk (MA : Machine) : Prop := {
  ata_ready t : ∃ n, (n < patience)%nat ∧ ready (u8 (port_in (replicate n (Inb 0x1f7) ++ t) 0x1f7)) = true;
  ata_read t disk lba :
    0 ≤ lba < 2 ^ 28 → commanded t 0x20 1 lba → data_in t disk 0x1f0 (BSIZE / 4) = default zero_block (disk !! lba);
  ata_write t lba d :
    0 ≤ lba < 2 ^ 28 → commanded t 0x30 1 lba → data_out t 0x1f0 d = Some (lba, d)
}.

(** The drive reports no error. *)
Class AtaSound (MA : Machine) : Prop :=
  ata_sound t : Z.land (u8 (port_in t 0x1f7)) 0x21 = 0.

Lemma commanded_off t1 t cmd dev lba :
  Forall (λ e, off_drive e = true) t1 → commanded t cmd dev lba → commanded (t1 ++ t) cmd dev lba.
Proof.
  intros H1 (t2 & t3 & -> & H2 & H). exists (t1 ++ t2), t3. rewrite <- app_assoc. split; [done|]. split; [by apply Forall_app|done].
Qed.

Lemma latch_off t1 t p :
  (0x1f0 ≤ p ≤ 0x1f7 ∨ p = 0x3f6) → Forall (λ e, off_drive e = true) t1 → latch (t1 ++ t) p = latch t p.
Proof.
  intros Hp. induction 1 as [|e t1 He _ IH]; [done|]. destruct e as [q v|q|q d|q n|a v|a]; cbn in *; try done.
  destruct (Z.eqb_spec q p) as [->|]; [|done]. exfalso. destruct Hp as [Hp| ->]; [|done].
  rewrite (proj2 (Z.leb_le _ _)), (proj2 (Z.leb_le _ _)) in He by lia. done.
Qed.

Lemma polls_off n : Forall (λ e, off_drive e = true) (replicate n (Inb 0x1f7)).
Proof. by apply Forall_replicate. Qed.

(** ** A drive for examples *)

(** A register of the controller, as it stood when the last command came. *)
Fixpoint last_command (t : list ioev) : option (Z * list ioev) :=
  match t with
  | [] => None
  | e :: t => match e with
              | Outb p v => if p =? 0x1f7 then Some (v, t) else last_command t
              | _ => last_command t
              end
  end.

Definition lba_of (t : list ioev) : Z :=
  default 0 (latch t 0x1f3) + 2 ^ 8 * default 0 (latch t 0x1f4) + 2 ^ 16 * default 0 (latch t 0x1f5) +
  2 ^ 24 * (default 0 (latch t 0x1f6) mod 16).

(** Always ready, without errors, other devices silent. *)
Definition demo_machine : Machine := {|
  port_in t p := if p =? 0x1f7 then 0x40 else 0;
  data_in t disk p cnt :=
    match last_command t with
    | Some (cmd, t) => default zero_block (disk !! lba_of t)
    | None => []
    end;
  data_out t p d :=
    match last_command t with
    | Some (cmd, t) => Some (lba_of t, d)
    | None => None
    end;
  reg_in t a := 0;
  patience := 1
|}.

Lemma last_command_off t1 t cmd : Forall (λ e, off_drive e = true) t1 → last_command (t1 ++ Outb 0x1f7 cmd :: t) = Some (cmd, t).
Proof.
  induction 1 as [|e t1 He _ IH]; [done|]. cbn. destruct e as [q v|q|q d|q n|a v|a]; try done.
  destruct (Z.eqb_spec q 0x1f7) as [->|]; [done|]. done.
Qed.

(** The four registers hold 28 bits of an address. *)
Lemma lba_split lba dev :
  0 ≤ dev < 2 → slice lba 0 8 + 2 ^ 8 * slice lba 8 8 + 2 ^ 16 * slice lba 16 8 +
  2 ^ 24 * ((0xe0 + 16 * dev + slice lba 24 4) mod 16) = lba mod 2 ^ 28.
Proof.
  intros Hd. unfold slice. change (2 ^ 0) with 1. change (2 ^ 8) with 256. change (2 ^ 16) with 65536. change (2 ^ 24) with 16777216.
  change (2 ^ 28) with 268435456. change (2 ^ 4) with 16. lia_mod.
Qed.

Lemma lba_of_commanded t2 lba :
  0 ≤ lba < 2 ^ 28 → latch t2 0x1f3 = Some (slice lba 0 8) → latch t2 0x1f4 = Some (slice lba 8 8) →
  latch t2 0x1f5 = Some (slice lba 16 8) → latch t2 0x1f6 = Some (0xe0 + 16 * 1 + slice lba 24 4) → lba_of t2 = lba.
Proof. intros Hl H3 H4 H5 H6. unfold lba_of. rewrite H3, H4, H5, H6. cbn [default from_option id]. rewrite (lba_split lba 1) by lia. by apply Z.mod_small. Qed.

#[export] Instance demo_machine_ata : AtaDisk demo_machine.
Proof.
  split.
  - intros t. exists 0%nat. split; [cbn; lia|done].
  - intros t disk lba Hl (t1 & t2 & -> & H1 & _ & _ & H3 & H4 & H5 & H6). cbn. rewrite last_command_off by done. by rewrite (lba_of_commanded t2 lba).
  - intros t lba d Hl (t1 & t2 & -> & H1 & _ & _ & H3 & H4 & H5 & H6). cbn. rewrite last_command_off by done. by rewrite (lba_of_commanded t2 lba).
Qed.

#[export] Instance demo_machine_sound : AtaSound demo_machine.
Proof. intros t. done. Qed.
