(* ===== verification/Apic.v ===== *)
(** * Interrupt controllers and the clock ([ioapic.c], [picirq.c], [lapic.c])

    The I/O APIC is reached through an index and a data register, the local APIC
    through an array of registers in memory, the clock through two ports.  What
    the registers hold is a function of the accesses. *)

From stdpp Require Import base numbers list gmap strings.
From S2P Require Import Prelude Mmu Hardware Memory Kernel Spinlock Kalloc Cprintf Vm Proc Sleeplock Blockdev Portio.

Implicit Types (k : K) (o : oracle).

(** ** Translated code *)

Section apic.
Context {MA : Machine}.

(** *** [ioapic.c] *)

Definition IOAPIC : Z := 0xFEC00000.
Definition REG_ID : Z := 0x00.
Definition REG_VER : Z := 0x01.
Definition REG_TABLE : Z := 0x10.
Definition INT_DISABLED : Z := 0x00010000.

(** The field [data] of [struct ioapic] follows [reg] and twelve bytes of padding. *)
Definition IOAPIC_DATA : Z := IOAPIC + 16.

Definition ioapicread (reg : Z) : M Z := reg_store IOAPIC reg ;;; reg_load IOAPIC_DATA.
Definition ioapicwrite (reg data : Z) : M unit := reg_store IOAPIC reg ;;; reg_store IOAPIC_DATA data.

(** The loop of [ioapicinit]: interrupts [i], ..., [i + n - 1]. *)
Fixpoint ioapic_mask (n : nat) (i : Z) : M unit :=
  match n with
  | O => ret tt
  | S n =>
      ioapicwrite (REG_TABLE + 2 * i) (Z.lor INT_DISABLED (T_IRQ0 + i)) ;;;
      ioapicwrite (REG_TABLE + 2 * i + 1) 0 ;;;
      ioapic_mask n (i + 1)
  end.

Definition ioapicinit : M unit :=
  let! v := ioapicread REG_VER in
  let maxintr := Z.land (Z.shiftr v 16) 0xFF in
  let! v := ioapicread REG_ID in
  let id := Z.shiftr v 24 in
  let! ioapicid := reads (λ k, io_ioapicid (k_io k)) in
  when (negb (id =? ioapicid))
    (cprintf ("ioapicinit: id isn't equal to ioapicid; not a MP" +:+ nl) []) ;;;
  ioapic_mask (Z.to_nat (maxintr + 1)) 0.

Definition ioapicenable (irq cpunum : Z) : M unit :=
  ioapicwrite (REG_TABLE + 2 * irq) (T_IRQ0 + irq) ;;;
  ioapicwrite (REG_TABLE + 2 * irq + 1) (Z.shiftl cpunum 24).

(** *** [picirq.c] *)

Definition IO_PIC1 : Z := 0x20.
Definition IO_PIC2 : Z := 0xA0.

Definition picinit : M unit :=
  outb (IO_PIC1 + 1) 0xFF ;;;
  outb (IO_PIC2 + 1) 0xFF.

(** *** [lapic.c] *)

(** Registers, as indices of an array of words. *)
Definition ID : Z := 0x0020 / 4.
Definition VER : Z := 0x0030 / 4.
Definition TPR : Z := 0x0080 / 4.
Definition EOI : Z := 0x00B0 / 4.
Definition SVR : Z := 0x00F0 / 4.
Definition ENABLE : Z := 0x00000100.
Definition ESR : Z := 0x0280 / 4.
Definition ICRLO : Z := 0x0300 / 4.
Definition INIT : Z := 0x00000500.
Definition STARTUP : Z := 0x00000600.
Definition DELIVS : Z := 0x00001000.
Definition ASSERT : Z := 0x00004000.
Definition LEVEL : Z := 0x00008000.
Definition BCAST : Z := 0x00080000.
Definition ICRHI : Z := 0x0310 / 4.
Definition TIMER : Z := 0x0320 / 4.
Definition X1 : Z := 0x0000000B.
Definition PERIODIC : Z := 0x00020000.
Definition PCINT : Z := 0x0340 / 4.
Definition LINT0 : Z := 0x0350 / 4.
Definition LINT1 : Z := 0x0360 / 4.
Definition ERROR : Z := 0x0370 / 4.
Definition MASKED : Z := 0x00010000.
Definition TICR : Z := 0x0380 / 4.
Definition TDCR : Z := 0x03E0 / 4.

Definition lapic_base : M Z := reads (λ k, io_lapic (k_io k)).

Definition lapicr (index : Z) : M Z := let! a := lapic_base in reg_load (a + 4 * index).

Definition lapicw (index value : Z) : M unit :=
  let! a := lapic_base in
  reg_store (a + 4 * index) value ;;;
  lapicr ID ;;;
  ret tt.

Definition lapicinit : M unit :=
  let! a := lapic_base in
  if a =? 0 then ret tt
  else
    lapicw SVR (Z.lor ENABLE (T_IRQ0 + IRQ_SPURIOUS)) ;;;
    lapicw TDCR X1 ;;;
    lapicw TIMER (Z.lor PERIODIC (T_IRQ0 + IRQ_TIMER)) ;;;
    lapicw TICR 10000000 ;;;
    lapicw LINT0 MASKED ;;;
    lapicw LINT1 MASKED ;;;
    let! ver := lapicr VER in
    when (4 <=? Z.land (Z.shiftr ver 16) 0xFF) (lapicw PCINT MASKED) ;;;
    lapicw ERROR (T_IRQ0 + IRQ_ERROR) ;;;
    lapicw ESR 0 ;;;
    lapicw ESR 0 ;;;
    lapicw EOI 0 ;;;
    lapicw ICRHI 0 ;;;
    lapicw ICRLO (Z.lor (Z.lor BCAST INIT) LEVEL) ;;;
    poll patience (lapicr ICRLO) (λ r, Z.land r DELIVS =? 0) ;;;
    lapicw TPR 0.

Definition lapicid : M Z :=
  let! a := lapic_base in
  if a =? 0 then ret 0
  else let! v := lapicr ID in ret (Z.shiftr v 24).

Definition lapiceoi : M unit :=
  let! a := lapic_base in
  if a =? 0 then ret tt else lapicw EOI 0.

Definition microdelay (us : Z) : M unit := ret tt.

Definition CMOS_PORT : Z := 0x70.
Definition CMOS_RETURN : Z := 0x71.

Definition lapicstartap (apicid addr : Z) : M unit :=
  outb CMOS_PORT 0xF ;;;
  outb (CMOS_PORT + 1) 0x0A ;;;
  let wrv := P2V (Z.lor (Z.shiftl 0x40 4) 0x67) in
  modify (λ k, set_k_mem (st8 (st8 (k_mem k) wrv 0) (wrv + 1) 0) k) ;;;
  let v := u16 (Z.shiftr addr 4) in
  modify (λ k, set_k_mem (st8 (st8 (k_mem k) (wrv + 2) (u8 v)) (wrv + 3) (Z.shiftr v 8)) k) ;;;
  lapicw ICRHI (Z.shiftl apicid 24) ;;;
  lapicw ICRLO (Z.lor (Z.lor INIT LEVEL) ASSERT) ;;;
  microdelay 200 ;;;
  lapicw ICRLO (Z.lor INIT LEVEL) ;;;
  microdelay 100 ;;;
  let startup :=
    lapicw ICRHI (Z.shiftl apicid 24) ;;;
    lapicw ICRLO (Z.lor STARTUP (Z.shiftr addr 12)) ;;;
    microdelay 200 in
  startup ;;;
  startup.

Definition CMOS_STATA : Z := 0x0a.
Definition CMOS_STATB : Z := 0x0b.
Definition CMOS_UIP : Z := Z.shiftl 1 7.
Definition SECS : Z := 0x00.
Definition MINS : Z := 0x02.
Definition HOURS : Z := 0x04.
Definition DAY : Z := 0x07.
Definition MONTH : Z := 0x08.
Definition YEAR : Z := 0x09.

Record rtcdate := mk_date { second : Z; minute : Z; hour : Z; day : Z; month : Z; year : Z }.

#[global] Instance rtcdate_eq_dec : EqDecision rtcdate.
Proof. solve_decision. Defined.

Definition cmos_read (reg : Z) : M Z :=
  outb CMOS_PORT reg ;;;
  microdelay 200 ;;;
  inb CMOS_RETURN.

Definition fill_rtcdate : M rtcdate :=
  let! s := cmos_read SECS in
  let! m := cmos_read MINS in
  let! h := cmos_read HOURS in
  let! d := cmos_read DAY in
  let! mo := cmos_read MONTH in
  let! y := cmos_read YEAR in
  ret (mk_date s m h d mo y).

(** [CONV] of [cmostime]. *)
Definition CONV (x : Z) : Z := u32 (Z.shiftr x 4 * 10 + Z.land x 0xf).

Definition conv_date (d : rtcdate) : rtcdate :=
  mk_date (CONV (second d)) (CONV (minute d)) (CONV (hour d)) (CONV (day d)) (CONV (month d)) (CONV (year d)).

(** Read until no update is under way and two readings agree. *)
Fixpoint cmos_loop (n : nat) : M rtcdate :=
  match n with
  | O => λ _ k, Blocked k
  | S n =>
      let! t1 := fill_rtcdate in
      let! a := cmos_read CMOS_STATA in
      if negb (Z.land a CMOS_UIP =? 0) then cmos_loop n
      else
        let! t2 := fill_rtcdate in
        if bool_decide (t1 = t2) then ret t1 else cmos_loop n
  end.

Definition cmostime : M rtcdate :=
  let! sb := cmos_read CMOS_STATB in
  let bcd := Z.land sb (Z.shiftl 1 2) =? 0 in
  let! t1 := cmos_loop patience in
  let t1 := if bcd then conv_date t1 else t1 in
  ret (mk_date (second t1) (minute t1) (hour t1) (day t1) (month t1) (u32 (year t1 + 2000))).

End apic.

(** ** The redirection table of the I/O APIC *)

(** The register selected, and what a register holds. *)
Fixpoint ioapic_index (t : list ioev) : option Z :=
  match t with
  | [] => None
  | Store a v :: t => if a =? IOAPIC then Some v else ioapic_index t
  | _ :: t => ioapic_index t
  end.

Fixpoint ioapic_reg (t : list ioev) (r : Z) : option Z :=
  match t with
  | [] => None
  | Store a v :: t =>
      if (a =? IOAPIC_DATA) && bool_decide (ioapic_index t = Some r) then Some v else ioapic_reg t r
  | _ :: t => ioapic_reg t r
  end.

(** The state after some accesses. *)
Definition with_io (t : list ioev) (k : K) : K := set_k_io (set_io_trace t (k_io k)) k.

Lemma with_io_twice t t' k : with_io t (with_io t' k) = with_io t k.
Proof. done. Qed.

Lemma io_trace_with t k : io_trace (k_io (with_io t k)) = t.
Proof. done. Qed.

Lemma io_event_run e o k : io_event e o k = Ret tt o (with_io (e :: io_trace (k_io k)) k).
Proof. done. Qed.

Section proofs.
Context {MA : Machine}.

Lemma outb_run p v o k : outb p v o k = Ret tt o (with_io (Outb p (u8 v) :: io_trace (k_io k)) k).
Proof. done. Qed.

Lemma inb_run p o k :
  inb p o k = Ret (u8 (port_in (io_trace (k_io k)) p)) o (with_io (Inb p :: io_trace (k_io k)) k).
Proof. done. Qed.

Definition wrote (r v : Z) (t : list ioev) : list ioev := Store IOAPIC_DATA (u32 v) :: Store IOAPIC (u32 r) :: t.

Lemma ioapicwrite_run r v o k : ioapicwrite r v o k = Ret tt o (with_io (wrote r v (io_trace (k_io k))) k).
Proof. done. Qed.

Lemma ioapicread_run r o k :
  let t := Store IOAPIC (u32 r) :: io_trace (k_io k) in
  ioapicread r o k = Ret (u32 (reg_in t IOAPIC_DATA)) o (with_io (Loaded IOAPIC_DATA :: t) k).
Proof. done. Qed.

(** A write through the two registers changes the one register. *)
Lemma ioapic_reg_wrote r v t r' :
  0 ≤ r < 2 ^ 32 → ioapic_reg (wrote r v t) r' = if r' =? r then Some (u32 v) else ioapic_reg t r'.
Proof.
  intros Hr. unfold wrote. cbn [ioapic_reg ioapic_index]. rewrite !Z.eqb_refl, (u32_small r) by done. cbn [andb].
  change (IOAPIC =? IOAPIC_DATA) with false. cbn [andb]. destruct (Z.eqb_spec r' r) as [->|Hne].
  - by rewrite bool_decide_eq_true_2.
  - rewrite bool_decide_eq_false_2; [done|]. congruence.
Qed.

Lemma ioapic_mask_run n i o k :
  0 ≤ i → i + Z.of_nat n ≤ 256 →
  ∃ t, ioapic_mask n i o k = Ret tt o (with_io t k) ∧
    ∀ r, ioapic_reg t r =
      if (REG_TABLE + 2 * i <=? r) && (r <? REG_TABLE + 2 * (i + Z.of_nat n)) then
        Some (if Z.even r then Z.lor INT_DISABLED (T_IRQ0 + (r - REG_TABLE) / 2) else 0)
      else ioapic_reg (io_trace (k_io k)) r.
Proof.
  revert i k. induction n as [|n IH]; intros i k Hi Hn; cbn [ioapic_mask].
  - exists (io_trace (k_io k)). split; [by destruct k as [????????????????????????????[]]|]. intros r.
    destruct (Z.leb_spec (REG_TABLE + 2 * i) r); cbn [andb]; [|done]. by rewrite (proj2 (Z.ltb_ge _ _)) by lia.
  - rewrite (bind_step _ _ _ _ _ _ _ (ioapicwrite_run _ _ o k)), (bind_step _ _ _ _ _ _ _ (ioapicwrite_run _ _ o _)).
    rewrite with_io_twice, io_trace_with.
    destruct (IH (i + 1) (with_io (wrote (REG_TABLE + 2 * i + 1) 0 (wrote (REG_TABLE + 2 * i) (Z.lor INT_DISABLED (T_IRQ0 + i)) (io_trace (k_io k)))) k) ltac:(lia) ltac:(lia))
      as (t & Hrun & Ht).
    exists t. split; [by rewrite Hrun, with_io_twice|]. intros r. rewrite Ht, io_trace_with, !ioapic_reg_wrote by (unfold REG_TABLE; lia).
    unfold REG_TABLE in *. replace (16 + 2 * (i + 1 + Z.of_nat n)) with (16 + 2 * (i + Z.of_nat (S n))) by lia.
    destruct (Z.leb_spec (16 + 2 * (i + 1)) r), (Z.leb_spec (16 + 2 * i) r), (Z.ltb_spec r (16 + 2 * (i + Z.of_nat (S n)))); cbn [andb]; try lia; try done.
    + rewrite (proj2 (Z.eqb_neq _ _)), (proj2 (Z.eqb_neq _ _)) by lia. done.
    + destruct (Z.eqb_spec r (16 + 2 * i + 1)) as [->|].
      { replace (Z.even (16 + 2 * i + 1)) with false; [done|]. symmetry. rewrite <- Z.negb_odd. replace (16 + 2 * i + 1) with (2 * (8 + i) + 1) by lia.
        by rewrite Z.odd_odd. }
      assert (r = 16 + 2 * i) as -> by lia. rewrite Z.eqb_refl. replace (16 + 2 * i) with (2 * (8 + i)) by lia. rewrite Z.even_even.
      replace ((2 * (8 + i) - 16) / 2) with i by (replace (2 * (8 + i) - 16) with (i * 2) by lia; by rewrite Z.div_mul).
      f_equal. apply u32_small. unfold T_IRQ0. change INT_DISABLED with (Z.shiftl 1 16). rewrite lor_disjoint by lia. lia.
    + rewrite (proj2 (Z.eqb_neq _ _)), (proj2 (Z.eqb_neq _ _)) by lia. done.
Qed.
End proofs.

(** ** Properties *)

(** An I/O APIC with number [id] and interrupts [0], ..., [n], as its data sheet
    describes the registers for version and identification. *)
Class IoApicChip (MA : Machine) (id n : Z) : Prop := {
  chip_ver t : ioapic_index t = Some REG_VER → slice (u32 (reg_in t IOAPIC_DATA)) 16 8 = n;
  chip_id t : ioapic_index t = Some REG_ID → slice (u32 (reg_in t IOAPIC_DATA)) 24 8 = id
}.

Lemma ioapicinit_run {MA : Machine} {id n : Z} `{!IoApicChip MA id n} o k :
  io_ioapicid (k_io k) = id → 0 ≤ n < 256 →
  ∃ t, ioapicinit o k = Ret tt o (with_io t k) ∧
    ∀ i, 0 ≤ i ≤ n → ioapic_reg t (REG_TABLE + 2 * i) = Some (Z.lor INT_DISABLED (T_IRQ0 + i)) ∧ ioapic_reg t (REG_TABLE + 2 * i + 1) = Some 0.
Proof.
  intros Hid Hn. unfold ioapicinit. kstep_with (ioapicread_run REG_VER o k). set (t1 := Store IOAPIC (u32 REG_VER) :: _).
  assert (Z.land (Z.shiftr (u32 (reg_in t1 IOAPIC_DATA)) 16) 0xFF = n) as Hmax.
  { rewrite (land_low_mask _ 8), Z.shiftr_div_pow2 by lia. by apply (chip_ver t1). }
  kstep_with (ioapicread_run REG_ID o (with_io (Loaded IOAPIC_DATA :: t1) k)). rewrite io_trace_with. set (t2 := Store IOAPIC (u32 REG_ID) :: _).
  assert (Z.shiftr (u32 (reg_in t2 IOAPIC_DATA)) 24 = id) as Hid2.
  { rewrite Z.shiftr_div_pow2 by lia. pose proof (chip_id t2 eq_refl) as <-. unfold slice. rewrite Z.mod_small; [done|].
    pose proof (u32_range (reg_in t2 IOAPIC_DATA)). change (2 ^ 24) with 16777216. change (2 ^ 8) with 256. lia_mod. }
  kstep. rewrite Hmax, Hid2. cbn [k_io with_io set_k_io set_io_trace io_ioapicid]. rewrite Hid, Z.eqb_refl. cbn [negb when]. kstep.
  match goal with |- context [ioapic_mask _ 0 o ?k'] => destruct (ioapic_mask_run (Z.to_nat (n + 1)) 0 o k' ltac:(lia) ltac:(lia)) as (t & -> & Ht) end.
  exists t. split; [done|]. intros i Hi. rewrite !Ht. unfold REG_TABLE in *.
  rewrite (proj2 (Z.leb_le _ _)), (proj2 (Z.ltb_lt _ _)), (proj2 (Z.leb_le _ _)), (proj2 (Z.ltb_lt _ _)) by lia. cbn [andb].
  replace (16 + 2 * i) with (2 * (8 + i)) by lia. rewrite Z.even_even, <- (Z.negb_odd (_ + 1)), Z.odd_odd.
  split; [|done]. by replace ((2 * (8 + i) - 16) / 2) with i by (replace (2 * (8 + i) - 16) with (i * 2) by lia; by rewrite Z.div_mul).
Qed.

(** C15: Interrupts arrive where the kernel wants them.  Once [ioapicinit] has run,
    every interrupt the chip has is masked and names the trap number [T_IRQ0] plus
    its own; [ioapicenable(irq, cpu)] then unmasks this interrupt and sends it to
    this CPU, and leaves all others masked. *)
Theorem interrupts_routed {MA : Machine} {id n : Z} `{!IoApicChip MA id n} irq cpu o k :
  io_ioapicid (k_io k) = id → 0 ≤ irq ≤ n → n < 256 → 0 ≤ cpu < 256 →
  ∃ t, (ioapicinit ;;; ioapicenable irq cpu) o k = Ret tt o (with_io t k) ∧
    ∀ i, 0 ≤ i ≤ n →
      ioapic_reg t (REG_TABLE + 2 * i) = Some (if i =? irq then T_IRQ0 + i else Z.lor INT_DISABLED (T_IRQ0 + i)) ∧
      ioapic_reg t (REG_TABLE + 2 * i + 1) = Some (if i =? irq then cpu * 2 ^ 24 else 0).
Proof.
  intros Hid Hirq Hn Hcpu. destruct (ioapicinit_run (id := id) (n := n) o k Hid ltac:(lia)) as (t & Hrun & Ht). kstep_with Hrun.
  unfold ioapicenable. kstep_with (ioapicwrite_run (REG_TABLE + 2 * irq) (T_IRQ0 + irq) o (with_io t k)). rewrite ioapicwrite_run, !with_io_twice, !io_trace_with.
  eexists. split; [done|]. intros i Hi. destruct (Ht i Hi) as [H1 H2].
  rewrite !ioapic_reg_wrote by (unfold REG_TABLE; lia). unfold REG_TABLE, T_IRQ0 in *. rewrite Z.shiftl_mul_pow2 by lia. change (2 ^ 24) with 16777216.
  destruct (Z.eqb_spec i irq) as [->|Hne].
  - rewrite !Z.eqb_refl, (proj2 (Z.eqb_neq (16 + 2 * irq) (16 + 2 * irq + 1))), !u32_small by lia. done.
  - rewrite !(proj2 (Z.eqb_neq _ _)) by lia. done.
Qed.

Definition demo_chip : Machine := {|
  port_in t p := 0; data_in t disk p cnt := []; data_out t p d := None; patience := 1;
  reg_in t a := if bool_decide (ioapic_index t = Some REG_VER) then 23 * 2 ^ 16 else 0
|}.

#[local] Instance demo_chip_ok : IoApicChip demo_chip 0 23.
Proof. split; intros t Ht; cbn; rewrite Ht; done. Qed.

Lemma interrupts_routed_witness :
  ∃ t, (@ioapicinit demo_chip ;;; ioapicenable IRQ_IDE 1) [] (K_demo ∅) = Ret tt [] (with_io t (K_demo ∅)) ∧
    ioapic_reg t (REG_TABLE + 2 * IRQ_IDE) = Some 46 ∧ ioapic_reg t (REG_TABLE + 2 * IRQ_KBD) = Some 0x10021.
Proof.
  destruct (@interrupts_routed demo_chip 0 23 _ IRQ_IDE 1 [] (K_demo ∅) eq_refl ltac:(unfold IRQ_IDE; lia) ltac:(lia) ltac:(lia)) as (t & Hrun & Ht).
  exists t. split; [exact Hrun|]. split; [exact (proj1 (Ht 14 ltac:(lia)))|exact (proj1 (Ht 1 ltac:(lia)))].
Defined.

(** *** The clock *)

Definition bcd (x : Z) : Z := 16 * (x / 10) + x mod 10.

(** A clock that shows [d], years counted from 2000, in decimal digits or in binary
    as bit 2 of its second status register says. *)
Definition clock_reg (d : rtcdate) (binary : bool) (reg : Z) : Z :=
  let enc x := if binary then x else bcd x in
  if reg =? SECS then enc (second d) else if reg =? MINS then enc (minute d) else if reg =? HOURS then enc (hour d)
  else if reg =? DAY then enc (day d) else if reg =? MONTH then enc (month d) else if reg =? YEAR then enc (year d - 2000)
  else if reg =? CMOS_STATB then (if binary then 4 else 0) else 0.

Class Clock (MA : Machine) (d : rtcdate) (binary : bool) : Prop := {
  clock_shows t reg : latch t CMOS_PORT = Some reg → port_in t CMOS_RETURN = clock_reg d binary reg;
  clock_patience : (0 < @patience MA)%nat
}.

Record date_ok (d : rtcdate) : Prop := {
  do_second : 0 ≤ second d < 60; do_minute : 0 ≤ minute d < 60; do_hour : 0 ≤ hour d < 24;
  do_day : 1 ≤ day d ≤ 31; do_month : 1 ≤ month d ≤ 12; do_year : 2000 ≤ year d < 2100
}.

Lemma CONV_bcd x : 0 ≤ x < 100 → CONV (u8 (bcd x)) = x.
Proof.
  intros Hx. unfold CONV, bcd. rewrite u8_small by lia_mod. rewrite Z.shiftr_div_pow2, (land_low_mask _ 4) by lia. change (2 ^ 4) with 16.
  rewrite u32_small; lia_mod.
Qed.

Lemma cmos_read_run {MA : Machine} {d binary} `{!Clock MA d binary} reg o k :
  0 ≤ reg < 256 → ∃ t, cmos_read reg o k = Ret (u8 (clock_reg d binary reg)) o (with_io t k).
Proof.
  intros Hr. unfold cmos_read. kstep_with (outb_run CMOS_PORT reg o k). unfold microdelay. kstep. rewrite inb_run, io_trace_with, with_io_twice.
  eexists. rewrite (clock_shows _ reg); [done|]. cbn. by rewrite (u8_small reg).
Qed.

Ltac cmos_step :=
  match goal with |- context [bind (cmos_read ?r) _ ?o ?k] =>
    let t := fresh "t" in let E := fresh "E" in destruct (cmos_read_run r o k ltac:(done)) as (t & E); kstep_with E; clear E; rewrite ?with_io_twice end.

Lemma fill_rtcdate_run {MA : Machine} {d binary} `{!Clock MA d binary} o k :
  ∃ t, fill_rtcdate o k = Ret (mk_date (u8 (clock_reg d binary SECS)) (u8 (clock_reg d binary MINS)) (u8 (clock_reg d binary HOURS))
    (u8 (clock_reg d binary DAY)) (u8 (clock_reg d binary MONTH)) (u8 (clock_reg d binary YEAR))) o (with_io t k).
Proof. unfold fill_rtcdate. do 6 cmos_step. by eexists. Qed.

(** C36: [cmostime] reads the clock: whether the hardware shows the time in decimal
    digits or in binary, the date it returns is the one the clock shows. *)
Theorem cmostime_reads_clock {MA : Machine} {d binary} `{!Clock MA d binary} o k :
  date_ok d → ∃ t, cmostime o k = Ret d o (with_io t k).
Proof.
  intros [H1 H2 H3 H4 H5 H6]. unfold cmostime. cmos_step. pose proof (clock_patience (MA := MA) (d := d) (binary := binary)) as Hpat. destruct (@patience MA) as [|n]; [lia|]. cbn [cmos_loop].
  rewrite !bind_assoc. destruct (fill_rtcdate_run o (with_io t k)) as (t1 & Hf). kstep_with Hf. clear Hf. rewrite with_io_twice. rewrite !bind_assoc.
  cmos_step. change (negb (Z.land (u8 (clock_reg d binary CMOS_STATA)) CMOS_UIP =? 0)) with false. cbn iota. rewrite !bind_assoc.
  destruct (fill_rtcdate_run o (with_io t0 k)) as (t2 & Hf). kstep_with Hf. clear Hf. rewrite with_io_twice, bool_decide_eq_true_2 by done. kstep.
  exists t2. unfold ret. f_equal. destruct d as [s m h da mo y], binary; cbn in *.
  - change (Z.land (u8 4) (Z.shiftl 1 2) =? 0) with false. cbn. rewrite !u8_small by lia. rewrite u32_small by lia. f_equal. lia.
  - change (Z.land (u8 0) (Z.shiftl 1 2) =? 0) with true. cbn. rewrite !CONV_bcd by lia. rewrite u32_small by lia. f_equal. lia.
Qed.

Definition demo_date : rtcdate := mk_date 59 30 23 28 2 2024.
Definition demo_clock : Machine := {|
  port_in t p := clock_reg demo_date false (default 0 (latch t CMOS_PORT));
  data_in t disk p cnt := []; data_out t p d := None; patience := 1; reg_in t a := 0
|}.

#[local] Instance demo_clock_ok : Clock demo_clock demo_date false.
Proof. split; [|cbn; lia]. intros t reg Ht. cbn. by rewrite Ht. Qed.

Lemma cmostime_reads_clock_witness : ∃ t, @cmostime demo_clock [] (K_demo ∅) = Ret demo_date [] (with_io t (K_demo ∅)).
Proof. apply (@cmostime_reads_clock demo_clock demo_date false _). split; cbn; lia. Defined.
