(* ===== verification/Mp.v ===== *)
(** * Finding the processors ([mp.c], [mp.h])

    [mpinit] looks for the table the firmware leaves in memory, checks it, and
    records the processors, the I/O APIC and the address of the local APICs. *)

From stdpp Require Import base numbers list gmap strings.
From S2P Require Import Prelude Mmu Hardware Memory Kernel Spinlock Kalloc Cprintf Vm Proc Sleeplock Blockdev Portio Apic.

Implicit Types (k : K) (o : oracle) (m : mem).

(** ** Translated code *)

Definition NCPU : nat := 8.

(** Fields of the structures of [mp.h], by their offsets. *)
Definition ld16 (m : mem) (a : Z) : Z := ld8 m a + 256 * ld8 m (a + 1).

Definition SIZEOF_MP : Z := 16.
Definition mp_physaddr (m : mem) (mp : Z) : Z := ld32 m (mp + 4).
Definition mp_imcrp (m : mem) (mp : Z) : Z := ld8 m (mp + 12).

Definition SIZEOF_MPCONF : Z := 44.
Definition mpconf_length (m : mem) (conf : Z) : Z := ld16 m (conf + 4).
Definition mpconf_version (m : mem) (conf : Z) : Z := ld8 m (conf + 6).
Definition mpconf_lapicaddr (m : mem) (conf : Z) : Z := ld32 m (conf + 36).

Definition SIZEOF_MPPROC : Z := 20.
Definition mpproc_apicid (m : mem) (p : Z) : Z := ld8 m (p + 1).
Definition SIZEOF_MPIOAPIC : Z := 8.
Definition mpioapic_apicno (m : mem) (p : Z) : Z := ld8 m (p + 1).

Definition MPPROC : Z := 0x00.
Definition MPBUS : Z := 0x01.
Definition MPIOAPIC : Z := 0x02.
Definition MPIOINTR : Z := 0x03.
Definition MPLINTR : Z := 0x04.

(** The sum of [n] bytes, kept in an [int] and returned as a byte. *)
Fixpoint sum_loop (m : mem) (a : Z) (n : nat) (sum : Z) : Z :=
  match n with
  | O => sum
  | S n => sum_loop m (a + 1) n (s32 (sum + ld8 m a))
  end.
Definition sum (m : mem) (a len : Z) : Z := u8 (sum_loop m a (Z.to_nat len) 0).

(** [memcmp(p, "...", 4) == 0] *)
Definition signed_as (m : mem) (p : Z) (sig : string) : bool :=
  bool_decide ((λ i : nat, ld8 m (p + Z.of_nat i)) <$> seq 0 4 = str sig).

Fixpoint mpsearch1_loop (fuel : nat) (m : mem) (p e : Z) : Z :=
  match fuel with
  | O => 0
  | S fuel =>
      if p <? e then
        if signed_as m p "_MP_" && (sum m p SIZEOF_MP =? 0) then p
        else mpsearch1_loop fuel m (p + SIZEOF_MP) e
      else 0
  end.

(** [len / SIZEOF_MP + 1] turns are enough. *)
Definition mpsearch1 (m : mem) (a len : Z) : Z :=
  let addr := P2V a in
  mpsearch1_loop (Z.to_nat (len / SIZEOF_MP + 1)) m addr (addr + len).

Definition mpsearch (m : mem) : Z :=
  let bda := P2V 0x400 in
  let p := Z.shiftl (Z.lor (Z.shiftl (ld8 m (bda + 0x0F)) 8) (ld8 m (bda + 0x0E))) 4 in
  let mp :=
    if negb (p =? 0) then mpsearch1 m p 1024
    else
      let p := Z.lor (Z.shiftl (ld8 m (bda + 0x14)) 8) (ld8 m (bda + 0x13)) * 1024 in
      mpsearch1 m (u32 (p - 1024)) 1024 in
  if negb (mp =? 0) then mp else mpsearch1 m 0xF0000 0x10000.

(** The structure and the table, or nothing. *)
Definition mpconfig (m : mem) : option (Z * Z) :=
  let mp := mpsearch m in
  if (mp =? 0) || (mp_physaddr m mp =? 0) then None
  else
    let conf := P2V (mp_physaddr m mp) in
    if negb (signed_as m conf "PCMP") then None
    else if negb (mpconf_version m conf =? 1) && negb (mpconf_version m conf =? 4) then None
    else if negb (sum m conf (mpconf_length m conf) =? 0) then None
    else Some (mp, conf).

(** [cpus[ncpu].apicid = apicid; ncpu++;] *)
Definition new_cpu (apicid : Z) : cpu := mk_cpu apicid 0 0 false None 0 0 (replicate NSEGS zero_segdesc) false.
Definition add_cpu (apicid : Z) : M unit :=
  modify (λ k, set_k_hw (set_h_cpus (h_cpus (k_hw k) ++ [new_cpu apicid]) (k_hw k)) k).

(** The loop over the entries of the table, with [ismp].  The [break] of the last
    case leaves the [switch] only, so the loop goes on with the same entry. *)
Fixpoint mp_entries (fuel : nat) (p e : Z) (ismp : bool) : M bool :=
  match fuel with
  | O => λ _ k, Blocked k
  | S fuel =>
      if p <? e then
        let! m := reads k_mem in
        let type := ld8 m p in
        if type =? MPPROC then
          let! ncpu := reads (λ k, length (h_cpus (k_hw k))) in
          when (ncpu <? NCPU)%nat (add_cpu (mpproc_apicid m p)) ;;;
          mp_entries fuel (p + SIZEOF_MPPROC) e ismp
        else if type =? MPIOAPIC then
          modify (λ k, set_k_io (set_io_ioapicid (mpioapic_apicno m p) (k_io k)) k) ;;;
          mp_entries fuel (p + SIZEOF_MPIOAPIC) e ismp
        else if (type =? MPBUS) || (type =? MPIOINTR) || (type =? MPLINTR) then
          mp_entries fuel (p + 8) e ismp
        else mp_entries fuel p e false
      else ret ismp
  end.

(** The length of the table is a bound for the number of its entries. *)
Definition mpinit {MA : Machine} : M unit :=
  let! m := reads k_mem in
  match mpconfig m with
  | None => panic "Expect to run on an SMP"
  | Some (mp, conf) =>
      modify (λ k, set_k_io (set_io_lapic (mpconf_lapicaddr m conf) (k_io k)) k) ;;;
      let! ismp := mp_entries (Z.to_nat (mpconf_length m conf) + 1) (conf + SIZEOF_MPCONF) (conf + mpconf_length m conf) true in
      if negb ismp then panic "Didn't find a suitable machine"
      else
        if negb (mp_imcrp m mp =? 0) then
          outb 0x22 0x70 ;;;
          let! v := inb 0x23 in
          outb 0x23 (Z.lor v 1)
        else ret tt
  end.

(** ** Tables *)

(** The entries a table can have: a processor with its APIC id, an I/O APIC with its
    number, or one of the three kinds the kernel skips. *)
Inductive mpentry := Processor (apicid : Z) | IoApic (apicno : Z) | Skipped (type : Z).

Definition entry_size (e : mpentry) : Z := match e with Processor _ => 20 | _ => 8 end.

Definition entry_at (m : mem) (p : Z) (e : mpentry) : Prop :=
  match e with
  | Processor id => ld8 m p = MPPROC ∧ ld8 m (p + 1) = id
  | IoApic id => ld8 m p = MPIOAPIC ∧ ld8 m (p + 1) = id
  | Skipped t => ld8 m p = t ∧ (t = MPBUS ∨ t = MPIOINTR ∨ t = MPLINTR)
  end.

Fixpoint entries_at (m : mem) (p e : Z) (es : list mpentry) : Prop :=
  match es with
  | [] => p = e
  | x :: es => entry_at m p x ∧ entries_at m (p + entry_size x) e es
  end.

(** What the kernel makes of them. *)
Definition apicids (es : list mpentry) : list Z :=
  omap (λ x, match x with Processor id => Some id | _ => None end) es.
Definition ioapic_of (es : list mpentry) (d : Z) : Z :=
  foldl (λ d x, match x with IoApic id => id | _ => d end) d es.

Definition found (es : list mpentry) (k : K) : K :=
  set_k_io (set_io_ioapicid (ioapic_of es (io_ioapicid (k_io k))) (k_io k))
    (set_k_hw (set_h_cpus (h_cpus (k_hw k) ++ (new_cpu <$> take (NCPU - length (h_cpus (k_hw k))) (apicids es))) (k_hw k)) k).

Lemma entries_le m p e es : entries_at m p e es → p + 8 * Z.of_nat (length es) ≤ e.
Proof. revert p. induction es as [|x es IH]; intros p; cbn [entries_at length]; [lia|]. intros [_ H%IH]. destruct x; cbn [entry_size] in H; lia. Qed.

Lemma found_nil k : found [] k = k.
Proof. unfold found. cbn. rewrite take_nil, app_nil_r. by destruct k as [[] ???????????????????????????[]]. Qed.

Lemma found_skip t es k : found (Skipped t :: es) k = found es k.
Proof. done. Qed.

Lemma found_ioapic id es k : found (IoApic id :: es) k = found es (set_k_io (set_io_ioapicid id (k_io k)) k).
Proof. done. Qed.

Lemma found_processor id es k :
  found (Processor id :: es) k =
  found es (if (length (h_cpus (k_hw k)) <? NCPU)%nat then set_k_hw (set_h_cpus (h_cpus (k_hw k) ++ [new_cpu id]) (k_hw k)) k else k).
Proof.
  unfold found. cbn [apicids omap list_omap ioapic_of foldl]. destruct (Nat.ltb_spec (length (h_cpus (k_hw k))) NCPU) as [H|H].
  - cbn [k_hw k_io set_k_hw set_h_cpus h_cpus]. rewrite length_app. cbn [length].
    replace (NCPU - length (h_cpus (k_hw k)))%nat with (S (NCPU - (length (h_cpus (k_hw k)) + 1))) by lia. cbn [take fmap list_fmap]. by rewrite <- app_assoc.
  - replace (NCPU - length (h_cpus (k_hw k)))%nat with 0%nat by lia. done.
Qed.

Lemma mp_entries_run fuel p e es o k :
  entries_at (k_mem k) p e es → (length es < fuel)%nat → mp_entries fuel p e true o k = Ret true o (found es k).
Proof.
  revert fuel p k. induction es as [|x es IH]; intros fuel p k He Hf; (destruct fuel as [|fuel]; [cbn in Hf; lia|]); cbn [mp_entries].
  - cbn in He. subst. rewrite Z.ltb_irrefl. by rewrite found_nil.
  - pose proof (entries_le _ _ _ _ He) as Hle. cbn [length] in Hle, Hf. rewrite (proj2 (Z.ltb_lt _ _)) by lia. kstep. destruct He as [Hx Hes].
    destruct x as [id|id|t]; cbn [entry_at entry_size] in Hx, Hes.
    + destruct Hx as [-> <-]. cbn [Z.eqb MPPROC]. kstep. rewrite found_processor. unfold add_cpu, mpproc_apicid.
      destruct (length (h_cpus (k_hw k)) <? NCPU)%nat; cbn [when]; kstep; apply IH; try done; lia.
    + destruct Hx as [-> <-]. cbn [Z.eqb MPPROC MPIOAPIC]. kstep. rewrite found_ioapic. apply IH; [done|lia].
    + rewrite found_skip. destruct Hx as [-> [->|[->| ->]]]; cbn; apply IH; done || lia.
Qed.

(** An entry of an unknown kind is never passed. *)
Lemma mp_entries_stuck fuel es p q e ismp o k :
  entries_at (k_mem k) p q es → q < e → 5 ≤ ld8 (k_mem k) q → ∃ k', mp_entries fuel p e ismp o k = Blocked k'.
Proof.
  intros He Hq Ht. revert es p ismp k He Ht. induction fuel as [|fuel IH]; intros es p ismp k He Ht; cbn [mp_entries]; [by eexists|].
  pose proof (entries_le _ _ _ _ He) as Hle. rewrite (proj2 (Z.ltb_lt _ _)) by lia. kstep. destruct es as [|x es].
  - cbn in He. subst q. unfold MPPROC, MPIOAPIC, MPBUS, MPIOINTR, MPLINTR. rewrite !(proj2 (Z.eqb_neq _ _)) by lia. cbn [orb]. by apply (IH []).
  - destruct He as [Hx Hes]. destruct x as [id|id|t]; cbn [entry_at entry_size] in Hx, Hes.
    + destruct Hx as [-> _]. cbn [Z.eqb MPPROC]. kstep. unfold add_cpu.
      destruct (length (h_cpus (k_hw k)) <? NCPU)%nat; cbn [when]; kstep; by apply (IH es).
    + destruct Hx as [-> _]. cbn [Z.eqb MPPROC MPIOAPIC]. kstep. by apply (IH es).
    + destruct Hx as [-> [->|[->| ->]]]; cbn; by apply (IH es).
Qed.

(** A structure that has been accepted is what it should be. *)
Lemma mpsearch1_loop_valid fuel m p e r :
  mpsearch1_loop fuel m p e = r → r ≠ 0 → signed_as m r "_MP_" = true ∧ sum m r SIZEOF_MP = 0.
Proof.
  revert p. induction fuel as [|fuel IH]; intros p; cbn [mpsearch1_loop]; [by intros <-|]. destruct (p <? e); [|by intros <-].
  destruct (signed_as m p "_MP_") eqn:E1; cbn [andb]; [|apply IH]. destruct (Z.eqb_spec (sum m p SIZEOF_MP) 0); [|apply IH]. by intros <-.
Qed.

Lemma mpsearch_valid m : mpsearch m ≠ 0 → signed_as m (mpsearch m) "_MP_" = true ∧ sum m (mpsearch m) SIZEOF_MP = 0.
Proof.
  unfold mpsearch. set (mp := if negb _ then mpsearch1 m _ 1024 else _). destruct (Z.eqb_spec mp 0) as [E|E]; cbn [negb]; intros Hne.
  - by eapply mpsearch1_loop_valid.
  - unfold mp in *. destruct (negb _); by eapply mpsearch1_loop_valid.
Qed.

(** ** Properties *)

(** C14: [mpinit] finds the processors.  It accepts a table only if the structure that
    points to it and the table itself have the right signatures and checksums; and
    when the table lists processors, I/O APICs and the kinds of entries that are
    skipped, the kernel then knows the processors in the order of the table, at
    most eight of them, the I/O APIC named last, and the address of the local
    APICs. *)
Theorem mpinit_finds_cpus {MA : Machine} es mp conf o k :
  mpconfig (k_mem k) = Some (mp, conf) → mp_imcrp (k_mem k) mp = 0 → h_cpus (k_hw k) = [] →
  entries_at (k_mem k) (conf + SIZEOF_MPCONF) (conf + mpconf_length (k_mem k) conf) es →
  (signed_as (k_mem k) mp "_MP_" = true ∧ sum (k_mem k) mp SIZEOF_MP = 0 ∧ conf = P2V (mp_physaddr (k_mem k) mp) ∧
   signed_as (k_mem k) conf "PCMP" = true ∧ sum (k_mem k) conf (mpconf_length (k_mem k) conf) = 0) ∧
  ∃ k', mpinit o k = Ret tt o k' ∧ c_apicid <$> h_cpus (k_hw k') = take NCPU (apicids es) ∧
    io_ioapicid (k_io k') = ioapic_of es (io_ioapicid (k_io k)) ∧ io_lapic (k_io k') = mpconf_lapicaddr (k_mem k) conf.
Proof.
  intros Hc Himcr Hcpus He. split.
  - revert Hc. unfold mpconfig. destruct (Z.eqb_spec (mpsearch (k_mem k)) 0) as [|Hne]; cbn [orb]; [done|]. destruct (_ =? 0); [done|].
    destruct (signed_as (k_mem k) (P2V (mp_physaddr (k_mem k) (mpsearch (k_mem k)))) "PCMP") eqn:E1; cbn [negb]; [|done]. destruct (_ && _); [done|].
    destruct (Z.eqb_spec (sum (k_mem k) (P2V (mp_physaddr (k_mem k) (mpsearch (k_mem k)))) (mpconf_length (k_mem k) (P2V (mp_physaddr (k_mem k) (mpsearch (k_mem k)))))) 0) as [E2|]; cbn [negb]; [|done].
    intros [= <- <-]. destruct (mpsearch_valid _ Hne). done.
  - unfold mpinit. kstep. rewrite Hc. kstep. set (k1 := set_k_io _ k). pose proof (entries_le _ _ _ _ He) as Hle.
    kstep_with (mp_entries_run (Z.to_nat (mpconf_length (k_mem k) conf) + 1) _ _ es o k1 He ltac:(unfold SIZEOF_MPCONF in *; lia)). cbn [negb].
    rewrite Himcr. eexists. split; [done|]. unfold found. cbn [k_hw k_io set_k_io set_k_hw set_h_cpus h_cpus k1 set_io_ioapicid io_ioapicid io_lapic set_io_lapic].
    rewrite Hcpus. cbn [app length]. rewrite Nat.sub_0_r, <- list_fmap_compose. split; [|done]. by rewrite list_fmap_id.
Qed.

(** A table with an entry of an unknown kind stops the kernel for good.  The
    message "Didn't find a suitable machine" is never reached: the loop comes back
    to the unknown entry again and again, however many turns it is given. *)
Theorem mpinit_unknown_entry_spins {MA : Machine} es mp conf q o k :
  mpconfig (k_mem k) = Some (mp, conf) → entries_at (k_mem k) (conf + SIZEOF_MPCONF) q es →
  q < conf + mpconf_length (k_mem k) conf → 5 ≤ ld8 (k_mem k) q →
  (∃ k', mpinit o k = Blocked k') ∧
  ∀ fuel, ∃ k', mp_entries fuel (conf + SIZEOF_MPCONF) (conf + mpconf_length (k_mem k) conf) true o k = Blocked k'.
Proof.
  intros Hc He Hq Ht. split; [|intros fuel; by eapply mp_entries_stuck].
  unfold mpinit. kstep. rewrite Hc. kstep. set (k1 := set_k_io _ k).
  destruct (mp_entries_stuck (Z.to_nat (mpconf_length (k_mem k) conf) + 1) es _ _ _ true o k1 He Hq Ht) as [k' R].
  unfold bind at 1. rewrite R. by eexists.
Qed.

(** *** A machine with two processors *)

Fixpoint put_bytes (a : Z) (l : list Z) (m : mem) : mem :=
  match l with
  | [] => m
  | b :: l => st8 (put_bytes (a + 1) l m) a b
  end.

Definition demo_conf : list Z :=
  [80; 67; 77; 80; 92; 0; 4; 136] ++ replicate 28 0 ++ [0; 0; 224; 254; 0; 0; 0; 0] ++
  [0; 0] ++ replicate 18 0 ++ [0; 1] ++ replicate 18 0 ++ [2; 7; 0; 0; 0; 0; 0; 0].
Definition demo_mp : list Z := [95; 77; 80; 95; 0; 0; 15; 0; 1; 4; 145; 0; 0; 0; 0; 0].
Definition demo_bios : K :=
  let k := K_start demo_link [] ∅ in
  set_k_mem (put_bytes (P2V 0xF0000) demo_conf (put_bytes (P2V 0xF0100) demo_mp ∅)) k.

(** The same table with an entry of kind 9 in place of the I/O APIC's. *)
Definition demo_bios_odd : K :=
  set_k_mem (st8 (st8 (k_mem demo_bios) (P2V 0xF0000 + 84) 9) (P2V 0xF0000 + 7) 129) demo_bios.

Lemma demo_bios_mem :
  mpconfig (k_mem demo_bios) = Some (P2V 0xF0100, P2V 0xF0000) ∧ mp_imcrp (k_mem demo_bios) (P2V 0xF0100) = 0 ∧
  mpconf_length (k_mem demo_bios) (P2V 0xF0000) = 92 ∧ mpconf_lapicaddr (k_mem demo_bios) (P2V 0xF0000) = 0xFEE00000.
Proof. by vm_compute. Qed.

Lemma demo_bios_odd_mem :
  mpconfig (k_mem demo_bios_odd) = Some (P2V 0xF0100, P2V 0xF0000) ∧ mpconf_length (k_mem demo_bios_odd) (P2V 0xF0000) = 92 ∧
  ld8 (k_mem demo_bios_odd) (P2V 0xF0000 + 84) = 9.
Proof. by vm_compute. Qed.

Lemma mpinit_finds_cpus_witness :
  ∃ k', mpinit (MA := demo_machine) [] demo_bios = Ret tt [] k' ∧ c_apicid <$> h_cpus (k_hw k') = [0; 1] ∧
    io_ioapicid (k_io k') = 7 ∧ io_lapic (k_io k') = 0xFEE00000.
Proof.
  destruct demo_bios_mem as (Hc & Hi & Hl & Ha). rewrite <- Ha.
  destruct (mpinit_finds_cpus (MA := demo_machine) [Processor 0; Processor 1; IoApic 7] _ _ [] demo_bios Hc Hi) as [_ H];
    [vm_compute; reflexivity|rewrite Hl; vm_compute; repeat split|exact H].
Defined.

Lemma mpinit_unknown_entry_spins_witness : ∃ k', mpinit (MA := demo_machine) [] demo_bios_odd = Blocked k'.
Proof.
  destruct demo_bios_odd_mem as (Hc & Hl & Ht).
  apply (mpinit_unknown_entry_spins (MA := demo_machine) [Processor 0; Processor 1] _ _ (P2V 0xF0000 + 84) [] demo_bios_odd Hc);
    [vm_compute; repeat split|rewrite Hl; lia|rewrite Ht; lia].
Defined.
