(* ===== verification/Ide.v ===== *)
(** * The IDE disk driver ([ide.c])

    Requests wait in [idequeue]; the drive works on the first.  [iderw] appends a
    buffer, starts the drive when it is idle and sleeps; [ideintr] takes the
    first buffer off the queue, marks it done, wakes its owner and starts the
    next.  The queue, linked through [qnext] in the code, is a list: a buffer
    whose lock the caller of [iderw] holds is not on it. *)

From stdpp Require Import base numbers list gmap strings.
From S2P Require Import Prelude Mmu Hardware Memory Kernel Spinlock Kalloc Cprintf Vm Proc Sleeplock Blockdev Portio Apic.

Implicit Types (k : K) (o : oracle).

(** ** Translated code *)

Section ide.
Context {MA : Machine}.

Definition SECTOR_SIZE : Z := 512.
Definition IDE_BSY : Z := 0x80.
Definition IDE_DRDY : Z := 0x40.
Definition IDE_DF : Z := 0x20.
Definition IDE_ERR : Z := 0x01.
Definition IDE_CMD_READ : Z := 0x20.
Definition IDE_CMD_WRITE : Z := 0x30.
Definition IDE_CMD_RDMUL : Z := 0xc4.
Definition IDE_CMD_WRMUL : Z := 0xc5.

Definition idewait (checkerr : bool) : M Z :=
  let! r := poll patience (inb 0x1f7) (λ r, Z.land r (Z.lor IDE_BSY IDE_DRDY) =? IDE_DRDY) in
  if checkerr && negb (Z.land r (Z.lor IDE_DF IDE_ERR) =? 0) then ret (-1) else ret 0.

(** The loop of [ideinit]: is there an answer within [n] readings? *)
Fixpoint find_disk1 (n : nat) : M unit :=
  match n with
  | O => ret tt
  | S n =>
      let! r := inb 0x1f7 in
      if negb (r =? 0) then modify (λ k, set_k_io (set_io_havedisk1 true (k_io k)) k)
      else find_disk1 n
  end.

Definition ideinit : M unit :=
  initlock LIde ;;;
  let! ncpu := reads (λ k, Z.of_nat (length (h_cpus (k_hw k)))) in
  ioapicenable IRQ_IDE (ncpu - 1) ;;;
  idewait false ;;;
  outb 0x1f6 (Z.lor 0xe0 (Z.shiftl 1 4)) ;;;
  find_disk1 1000 ;;;
  outb 0x1f6 (Z.lor 0xe0 (Z.shiftl 0 4)).

Definition idestart (b : option nat) : M unit :=
  match b with
  | None => panic "idestart"
  | Some b =>
      let! x := bufget id b in
      if FSSIZE <=? b_blockno x then panic "incorrect blockno"
      else
        let sector_per_block := BSIZE / SECTOR_SIZE in
        let sector := s32 (b_blockno x * sector_per_block) in
        let read_cmd := if sector_per_block =? 1 then IDE_CMD_READ else IDE_CMD_RDMUL in
        let write_cmd := if sector_per_block =? 1 then IDE_CMD_WRITE else IDE_CMD_WRMUL in
        if 7 <? sector_per_block then panic "idestart"
        else
          idewait false ;;;
          outb 0x3f6 0 ;;;
          outb 0x1f2 sector_per_block ;;;
          outb 0x1f3 (Z.land sector 0xff) ;;;
          outb 0x1f4 (Z.land (Z.shiftr sector 8) 0xff) ;;;
          outb 0x1f5 (Z.land (Z.shiftr sector 16) 0xff) ;;;
          outb 0x1f6 (Z.lor (Z.lor 0xe0 (Z.shiftl (Z.land (b_dev x) 1) 4)) (Z.land (Z.shiftr sector 24) 0x0f)) ;;;
          if dirty x then
            outb 0x1f7 write_cmd ;;;
            outsl 0x1f0 (b_data x)
          else
            outb 0x1f7 read_cmd
  end.

Definition ide_ideintr : M unit :=
  acquire LIde ;;;
  let! q := reads k_idequeue in
  match q with
  | [] => release LIde
  | b :: q =>
      modify (set_k_idequeue q) ;;;
      let! x := bufget id b in
      (if negb (dirty x) then
         let! r := idewait true in
         when (0 <=? r) (let! d := insl 0x1f0 (BSIZE / 4) in bufset b (set_b_data d))
       else ret tt) ;;;
      bufset b (λ x, set_b_flags (Z.lor (b_flags x) B_VALID) x) ;;;
      bufset b (λ x, set_b_flags (Z.land (b_flags x) (Z.lnot B_DIRTY)) x) ;;;
      wakeup (CBuf b) ;;;
      let! q := reads k_idequeue in
      (match q with
       | [] => ret tt
       | b' :: _ => idestart (Some b')
       end) ;;;
      release LIde
  end.

(** [(b->flags & (B_VALID|B_DIRTY)) != B_VALID] *)
Definition not_synced (b : nat) (k : K) : bool :=
  negb (Z.land (b_flags (buf_at k b)) (Z.lor B_VALID B_DIRTY) =? B_VALID).

Definition ide_iderw (b : nat) : M unit :=
  let! held := holdingsleep (SLBuf b) in
  if negb held then panic "iderw: buf not locked"
  else
    let! x := bufget id b in
    if Z.land (b_flags x) (Z.lor B_VALID B_DIRTY) =? B_VALID then panic "iderw: nothing to do"
    else
      let! havedisk1 := reads (λ k, io_havedisk1 (k_io k)) in
      if negb (b_dev x =? 0) && negb havedisk1 then panic "iderw: ide disk 1 not present"
      else
        acquire LIde ;;;
        modify (λ k, set_k_idequeue (k_idequeue k ++ [b]) k) ;;;
        let! q := reads k_idequeue in
        when (bool_decide (head q = Some b)) (idestart (Some b)) ;;;
        sleep_while (not_synced b) (CBuf b) LIde ;;;
        release LIde.

(** The kernel with this driver. *)
Definition ide_dev : BlockDev := {|
  iderw := ide_iderw;
  ideintr := ide_ideintr;
  dev_serves dev n := dev = 1 ∧ 0 ≤ n < FSSIZE
|}.

End ide.

(** ** Talking to the drive *)

Section drive.
Context {MA : Machine} {AT : AtaDisk MA}.

Lemma poll_run p rd m o k :
  (∃ j, (j < m)%nat ∧ rd (u8 (port_in (replicate j (Inb p) ++ io_trace (k_io k)) p)) = true) →
  ∃ j r, poll m (inb p) rd o k = Ret r o (with_io (replicate j (Inb p) ++ io_trace (k_io k)) k) ∧
    ∃ t, r = u8 (port_in t p).
Proof.
  revert k. induction m as [|m IH]; intros k (j & Hj & Hr); [lia|]. cbn [poll]. kstep_with (inb_run p o k).
  destruct (rd (u8 (port_in (io_trace (k_io k)) p))) eqn:E.
  - exists 1%nat. eexists. split; [done|]. by eexists.
  - destruct j as [|j]; [by cbn in Hr; rewrite E in Hr|]. destruct (IH (with_io (Inb p :: io_trace (k_io k)) k)) as (j' & r & -> & Ht).
    { exists j. split; [lia|]. rewrite io_trace_with. by rewrite replicate_S_end, <- app_assoc in Hr. }
    exists (S j'), r. split; [|done]. by rewrite with_io_twice, io_trace_with, (replicate_S_end j'), <- app_assoc.
Qed.

Lemma idewait_run checkerr o k :
  ∃ n t, idewait checkerr o k =
    Ret (if checkerr && negb (Z.land (u8 (port_in t 0x1f7)) 0x21 =? 0) then -1 else 0) o
      (with_io (replicate n (Inb 0x1f7) ++ io_trace (k_io k)) k).
Proof.
  unfold idewait. destruct (poll_run 0x1f7 (λ r, Z.land r (Z.lor IDE_BSY IDE_DRDY) =? IDE_DRDY) patience o k) as (n & r & E & t & ->).
  { destruct (ata_ready (io_trace (k_io k))) as (n & Hn & Hr). exists n. split; [done|exact Hr]. }
  exists n, t. kstep_with E. change (Z.lor IDE_DF IDE_ERR) with 0x21. by destruct (checkerr && _).
Qed.

Lemma slice_land x n : 0 ≤ n → Z.land (Z.shiftr x n) 0xff = slice x n 8.
Proof. intros Hn. rewrite (land_low_mask _ 8), Z.shiftr_div_pow2 by lia. done. Qed.

Lemma slice_u8 x n : u8 (slice x n 8) = slice x n 8.
Proof. apply u8_small. apply Z.mod_pos_bound. lia. Qed.

(** The register for the disk and the highest bits of the address. *)
Lemma drive_register n : u8 (Z.lor (Z.lor 0xe0 (Z.shiftl (Z.land 1 1) 4)) (Z.land (Z.shiftr n 24) 0x0f)) = 0xe0 + 16 * 1 + slice n 24 4.
Proof.
  change (Z.lor 0xe0 (Z.shiftl (Z.land 1 1) 4)) with (Z.shiftl 15 4). rewrite (land_low_mask _ 4), Z.shiftr_div_pow2 by lia. fold (slice n 24 4).
  assert (0 ≤ slice n 24 4 < 2 ^ 4) by (apply Z.mod_pos_bound; lia). rewrite lor_disjoint by lia. rewrite u8_small; lia.
Qed.

(** The accesses that program a request for sector [n] of disk 1. *)
Definition request (n : Z) (t : list ioev) : list ioev :=
  Outb 0x1f6 (0xe0 + 16 * 1 + slice n 24 4) :: Outb 0x1f5 (slice n 16 8) :: Outb 0x1f4 (slice n 8 8) ::
  Outb 0x1f3 (slice n 0 8) :: Outb 0x1f2 1 :: Outb 0x3f6 0 :: t.

Lemma commanded_request cmd n t : commanded (Outb 0x1f7 cmd :: request n t) cmd 1 n.
Proof. exists [], (request n t). by split_and!; try apply Forall_nil. Qed.

(** What starting the drive on a buffer does: a write is performed at once. *)
Definition performed (x : buf) (k : K) : K :=
  if dirty x then disk_write (b_blockno x) (b_data x) k else k.

(** A request the driver can serve. *)
Record request_ok (x : buf) : Prop := {
  ro_dev : b_dev x = 1;
  ro_blockno : 0 ≤ b_blockno x < FSSIZE
}.

Lemma idestart_run b x o k :
  k_bcache k !! b = Some x → request_ok x →
  ∃ t, idestart (Some b) o k = Ret tt o (with_io t (performed x k)) ∧
    (dirty x = false → commanded t 0x20 1 (b_blockno x)).
Proof.
  intros Hb [Hd Hn]. unfold idestart, bufget, buf_at. kstep. rewrite Hb. cbn [default from_option id]. unfold FSSIZE in Hn.
  rewrite (proj2 (Z.leb_gt FSSIZE (b_blockno x))) by (unfold FSSIZE; lia). change (BSIZE / SECTOR_SIZE) with 1. cbn [Z.ltb Z.compare Pos.compare Pos.compare_cont Z.eqb Pos.eqb].
  rewrite Z.mul_1_r, s32_small by lia. destruct (idewait_run false o k) as (m & t & E). cbn [andb] in E. kstep_with E. clear E t.
  set (n := b_blockno x) in *. rewrite Hd. set (t := replicate m _ ++ _). change (Z.land n 0xff) with (Z.land (Z.shiftr n 0) 0xff). rewrite !slice_land by lia.
  unfold outb at 1 2 3 4 5 6. rewrite !slice_u8, drive_register. change (u8 0) with 0. change (u8 1) with 1.
  do 6 (rewrite (bind_step _ _ _ _ _ _ _ (io_event_run _ o _)), io_trace_with, with_io_twice). fold (request n t).
  unfold performed. destruct (dirty x) eqn:E.
  - kstep_with (outb_run 0x1f7 IDE_CMD_WRITE o (with_io (request n t) k)). rewrite io_trace_with, with_io_twice. change (u8 IDE_CMD_WRITE) with 0x30.
    unfold outsl. kstep. rewrite io_trace_with, (ata_write _ n (b_data x)) by (try apply commanded_request; lia).
    kstep_with (io_event_run (Outsl 0x1f0 (b_data x)) o (with_io (Outb 0x1f7 0x30 :: request n t) k)). by eexists.
  - rewrite outb_run, io_trace_with, with_io_twice. eexists. split; [done|]. intros _. apply commanded_request.
Qed.

End drive.

(** ** Serving the queue *)

Section serve.
Context {MA : Machine} {AT : AtaDisk MA} {AS : AtaSound MA}.

(** The buffer of a request that is done. *)
Definition synced (x : buf) (k : K) : buf :=
  set_b_flags (Z.land (Z.lor (b_flags x) B_VALID) (Z.lnot B_DIRTY))
    (if dirty x then x else set_b_data (block k (b_blockno x)) x).

Definition finished (b : nat) (x : buf) (k : K) : K :=
  set_k_ptable (wake_proc (CBuf b) <$> k_ptable k) (set_k_bcache (<[b := synced x k]> (k_bcache k)) k).

(** The drive starts on the first buffer of the queue. *)
Definition started (q : list nat) (k : K) : K :=
  match q with
  | [] => k
  | b :: _ => performed (buf_at k b) k
  end.

Lemma with_io_id k : with_io (io_trace (k_io k)) k = k.
Proof. by destruct k as [????????????????????????????[]]. Qed.

(** Reading the data, if the request is a read. *)
Lemma ide_transfer b x o k :
  k_bcache k !! b = Some x → request_ok x → (dirty x = false → commanded (io_trace (k_io k)) 0x20 1 (b_blockno x)) →
  ∃ t,
    (if negb (dirty x) then
       let! r := idewait true in
       when (0 <=? r) (let! d := insl 0x1f0 (BSIZE / 4) in bufset b (set_b_data d))
     else ret tt) o k =
    Ret tt o (with_io t (set_k_bcache (<[b := if dirty x then x else set_b_data (block k (b_blockno x)) x]> (k_bcache k)) k)).
Proof.
  intros Hb [_ Hn] Hc. unfold FSSIZE in Hn. destruct (dirty x) eqn:E; cbn [negb].
  - exists (io_trace (k_io k)). rewrite list_insert_id by done. by destruct k as [????????????????????????????[]].
  - destruct (idewait_run true o k) as (m & t & Hw). rewrite (ata_sound t) in Hw. cbn [Z.eqb negb andb] in Hw. kstep_with Hw. cbn [Z.leb Z.compare when].
    unfold insl. rewrite bind_assoc. kstep. rewrite io_trace_with.
    rewrite (ata_read _ _ (b_blockno x)) by (lia || (apply commanded_off; [apply polls_off|auto])). rewrite bind_assoc.
    rewrite (bind_step _ _ _ _ _ _ _ (io_event_run _ o _)). kstep. unfold bufset, modify. eexists. f_equal. cbn [k_bcache with_io set_k_io].
    rewrite (bufset_insert _ b k) by (by eapply lookup_lt_Some). unfold buf_at. rewrite Hb. done.
Qed.

Lemma ideintr_run b q x o k :
  irq_ok (k_hw k) → h_locks (k_hw k) !! LIde = None → h_locks (k_hw k) !! LPtable = None →
  k_idequeue k = b :: q → k_bcache k !! b = Some x → request_ok x →
  (dirty x = false → commanded (io_trace (k_io k)) 0x20 1 (b_blockno x)) →
  (∀ b' q', q = b' :: q' → b' ≠ b ∧ ∃ x', k_bcache k !! b' = Some x' ∧ request_ok x') →
  ∃ t, ide_ideintr o k = Ret tt o (with_io t (started q (finished b x (set_k_idequeue q k)))) ∧
    (∀ b' q' x', q = b' :: q' → k_bcache k !! b' = Some x' → dirty x' = false → commanded t 0x20 1 (b_blockno x')).
Proof.
  intros Hok Hl Hp Hq Hb Hr Hc Hnext. unfold ide_ideintr. kstep_with (acquire_spec LIde o k Hok Hl). kstep.
  cbn [k_idequeue set_k_hw]. rewrite Hq. kstep. set (k1 := set_k_idequeue q _).
  assert (buf_at k1 b = x) as Hx by (unfold buf_at; cbn; by rewrite Hb). unfold bufget, id. kstep. rewrite Hx.
  destruct (ide_transfer b x o k1 Hb Hr Hc) as (t1 & Ht). kstep_with Ht. clear Ht. unfold bufset. kstep.
  cbn [k_bcache set_k_bcache with_io set_k_io]. rewrite alter_alter_eq.
  assert (b < length (k_bcache k))%nat as Hlt by (by eapply lookup_lt_Some).
  match goal with |- context [alter ?f b (<[b := ?y]> ?l)] => assert (alter f b (<[b := y]> l) = <[b := synced x k]> (k_bcache k)) as Hbc end.
  { apply list_eq. intros j. destruct (decide (j = b)) as [->|Hj].
    - rewrite list_lookup_alter_eq, !list_lookup_insert_eq by done. cbn. f_equal. unfold synced. by destruct (dirty x).
    - by rewrite list_lookup_alter_ne, !list_lookup_insert_ne by done. }
  rewrite Hbc. set (k2 := set_k_bcache (<[b := synced x k]> (k_bcache k)) _).
  kstep_with (wakeup_spec (CBuf b) o k2 (irq_ok_acq LIde _ Hok)
    ltac:(cbn; rewrite h_locks_acq, lookup_insert_ne by done; exact Hp)). kstep. set (k3 := set_k_ptable _ k2).
  cbn [k_idequeue set_k_hw set_k_ptable set_k_bcache with_io set_k_io set_k_idequeue k2 k3 k1].
  destruct q as [|b' q'].
  - kstep. rewrite (release_acquired LIde o k k3 Hok Hl eq_refl). by exists t1.
  - destruct (Hnext b' q' eq_refl) as (Hne & x' & Hb' & Hr').
    assert (k_bcache k3 !! b' = Some x') as Hb3 by (cbn; by rewrite list_lookup_insert_ne by done).
    destruct (idestart_run b' x' o k3 Hb3 Hr') as (t2 & Hrun & Hc2). kstep_with Hrun. clear Hrun.
    rewrite (release_acquired LIde o k _ Hok Hl); [|unfold performed; by destruct (dirty x')].
    exists t2. split; [|intros b2 q2 x2 [= <- <-] Hx2; rewrite Hb' in Hx2; simplify_eq; done]. f_equal. unfold started.
    replace (buf_at (finished b x (set_k_idequeue (b' :: q') k)) b') with x' by (unfold buf_at; cbn; by rewrite list_lookup_insert_ne, Hb' by done).
    unfold performed. destruct (dirty x'); by destruct k.
Qed.

(** What is true of the queue whenever [idelock] is free. *)
Record ide_inv (k : K) : Prop := {
  ii_once : NoDup (k_idequeue k);
  ii_bufs b : b ∈ k_idequeue k → ∃ x, k_bcache k !! b = Some x ∧ request_ok x ∧ valid x && negb (dirty x) = false;
  ii_drive b q x : k_idequeue k = b :: q → k_bcache k !! b = Some x →
    if dirty x then block k (b_blockno x) = b_data x else commanded (io_trace (k_io k)) 0x20 1 (b_blockno x)
}.

Lemma synced_flags x k : valid (synced x k) = true ∧ dirty (synced x k) = false.
Proof.
  rewrite valid_bit, dirty_bit. unfold synced, B_DIRTY, B_VALID. cbn [b_flags set_b_flags]. rewrite !Z.land_spec, !Z.lor_spec, !Z.lnot_spec by lia.
  cbn. by rewrite orb_true_r, andb_false_r.
Qed.

Lemma started_rest q k : k_bcache (started q k) = k_bcache k ∧ k_idequeue (started q k) = k_idequeue k ∧ k_hw (started q k) = k_hw k ∧ k_ptable (started q k) = k_ptable k.
Proof. unfold started, performed. destruct q as [|b q]; [done|]. by destruct (dirty _). Qed.
Lemma block_performed x k : dirty x = true → block (performed x k) (b_blockno x) = b_data x.
Proof. intros E. unfold performed, block. rewrite E. cbn. by rewrite lookup_insert_eq. Qed.

Lemma head_request k b q :
  ide_inv k → k_idequeue k = b :: q → b ∉ q ∧ NoDup q ∧ ∀ b', b' ∈ q → b' ≠ b ∧ ∃ x', k_bcache k !! b' = Some x' ∧ request_ok x'.
Proof.
  intros [H1 H2 _] Hq. rewrite Hq in H1, H2. apply NoDup_cons in H1 as [Hn Hd]. split_and!; [done|done|]. intros b' Hb'.
  split; [by intros ->|]. destruct (H2 b' ltac:(by right)) as (x' & ? & ? & _). by exists x'.
Qed.

(** The state the interrupt handler leaves satisfies the invariant again. *)
Lemma ide_inv_next b q x t k :
  ide_inv k → k_idequeue k = b :: q → k_bcache k !! b = Some x →
  (∀ b' q' x', q = b' :: q' → k_bcache k !! b' = Some x' → dirty x' = false → commanded t 0x20 1 (b_blockno x')) →
  ide_inv (with_io t (started q (finished b x (set_k_idequeue q k)))).
Proof.
  intros Hk Hq Hb Hc. destruct (head_request k b q Hk Hq) as (Hn & Hd & Hne). set (k1 := finished b x _).
  destruct (started_rest q k1) as (R1 & R2 & _).
  assert (∀ b', b' ∈ q → k_bcache (with_io t (started q k1)) !! b' = k_bcache k !! b') as Hsame.
  { intros b' Hb'. cbn [k_bcache with_io set_k_io]. rewrite R1. cbn. destruct (Hne b' Hb'). by rewrite list_lookup_insert_ne. }
  assert (k_idequeue (with_io t (started q k1)) = q) as Hq' by exact R2.
  split; rewrite Hq'.
  - done.
  - intros b' Hb'. rewrite Hsame by done. apply (ii_bufs k Hk). rewrite Hq. by right.
  - intros b' q' x' -> Hx'. rewrite Hsame in Hx' by apply list_elem_of_here. destruct (dirty x') eqn:E; [|by eapply Hc].
    unfold started. replace (buf_at k1 b') with x'; [by apply (block_performed x' k1)|].
    unfold buf_at. cbn. destruct (Hne b' (list_elem_of_here _ _)). by rewrite list_lookup_insert_ne, Hx' by done.
Qed.

(** ** Asking for a transfer *)

(** Up to the wait: the request is queued, and started when it is the first. *)
Lemma iderw_enqueues i b x o k :
  idle i k → h_locks (k_hw k) !! LIde = None → h_locks (k_hw k) !! LSleep (SLBuf b) = None →
  holdsleep (SLBuf b) (quiet_pid k i) k = true → k_bcache k !! b = Some x → request_ok x →
  valid x && negb (dirty x) = false → io_havedisk1 (k_io k) = true → ide_inv k → b ∉ k_idequeue k →
  ∃ t, let q := k_idequeue k in
    let k1 := with_io t ((if bool_decide (q = []) then performed x else λ k, k) (set_k_idequeue (q ++ [b]) (set_k_hw (hw_acq LIde (k_hw k)) k))) in
    ide_iderw b o k = (sleep_while (not_synced b) (CBuf b) LIde ;;; release LIde) o k1 ∧ ide_inv k1 ∧ can_sleep i LIde k1 ∧
    not_synced b k1 = true.
Proof.
  intros Hi Hl Hls Hh Hb Hr Hf Hd1 Hk Hnb. unfold ide_iderw. kstep_with (holdingsleep_spec i (SLBuf b) o k Hi Hls). fold (quiet_pid k i). rewrite Hh. cbn [negb].
  assert (buf_at k b = x) as Hx by (unfold buf_at; by rewrite Hb). unfold bufget, id. kstep. rewrite Hx.
  rewrite flags_test, <- valid_bit, <- dirty_bit, Hf. kstep. rewrite Hd1, andb_false_r. kstep_with (idle_free_acquire i LIde o k Hi Hl). kstep.
  cbn [k_idequeue set_k_idequeue set_k_hw]. destruct Hk as [H1 H2 H3]. remember (k_idequeue k) as q0 eqn:Hq0. set (k0 := set_k_idequeue _ _).
  assert (not_synced b k0 = true) as Hns by (unfold not_synced, buf_at; cbn; rewrite Hb; cbn; by rewrite flags_test, <- valid_bit, <- dirty_bit, Hf).
  assert (can_sleep i LIde k0) as Hcs by (eapply can_sleep_ext; [..|by apply (idle_acquire i LIde k)]; done).
  assert (NoDup (q0 ++ [b])) as Hnd.
  { apply NoDup_app. split_and!; [done| |apply NoDup_singleton]. intros c Hc ->%list_elem_of_singleton. done. }
  assert (∀ c, c ∈ q0 ++ [b] → ∃ y, k_bcache k !! c = Some y ∧ request_ok y ∧ valid y && negb (dirty y) = false) as Hall.
  { intros c [Hc| ->%list_elem_of_singleton]%elem_of_app; [by apply H2|]. by exists x. }
  destruct q0 as [|c q]; cbn [app head].
  - rewrite !bool_decide_eq_true_2 by done. cbn [when]. destruct (idestart_run b x o k0 Hb Hr) as (t & Hrun & Hc). kstep_with Hrun.
    assert (k_bcache (performed x k0) = k_bcache k ∧ k_idequeue (performed x k0) = [b] ∧ k_hw (performed x k0) = k_hw k0 ∧ k_ptable (performed x k0) = k_ptable k) as (P1 & P2 & P3 & P4)
      by (unfold performed; by destruct (dirty x)).
    exists t. split; [done|]. split_and!.
    + assert (k_idequeue (with_io t (performed x k0)) = [b]) as Hq' by exact P2. assert (k_bcache (with_io t (performed x k0)) = k_bcache k) as Hb' by exact P1.
      split; rewrite Hq', ?Hb'; [done|by apply Hall|]. intros b' q' x' [= <- <-] Hx'. rewrite Hb in Hx'. injection Hx' as <-.
      destruct (dirty x) eqn:E; [by apply (block_performed x k0)|by apply Hc].
    + eapply can_sleep_ext; [..|exact Hcs]; cbn; [by rewrite P3|by rewrite P4].
    + revert Hns. unfold not_synced, buf_at. cbn [k_bcache with_io set_k_io]. by rewrite P1.
  - rewrite bool_decide_eq_false_2 by (intros [= ->]; apply Hnb; by left). rewrite (bool_decide_eq_false_2 (c :: q = [])) by done. cbn [when]. kstep.
    exists (io_trace (k_io k)). change (with_io (io_trace (k_io k)) k0) with (with_io (io_trace (k_io k0)) k0). rewrite with_io_id.
    split; [done|]. split_and!; [|done|done]. split; [exact Hnd|by apply Hall|]. intros b' q' x' [= <- <-] Hx'. by apply (H3 c q).
Qed.

(** ** A transfer from beginning to end *)

(** While process [i] sleeps the drive interrupts: the scheduler has given up the
    lock of the process table, the handler runs, and the scheduler switches back to
    the process, which has been woken. *)
Definition drive_serves (i : nat) (k : K) : K :=
  match (release LPtable ;;; ide_ideintr ;;; acquire LPtable) [] k with
  | Ret _ _ k' => set_k_ptable (alter (set_p_state RUNNING) i (k_ptable k')) k'
  | _ => k
  end.

Lemma resumed_acq i h :
  irq_ok h → hw_ncli h = 0 → hw_proc h = Some i → resumed i (hw_acq LPtable h).
Proof.
  intros Hok Hn Hp. pose proof Hok as (c & cp & Hc & _). exists c, (cpu_push (h_IF h) cp). split; [by apply hw_cpu_acq|].
  unfold hw_ncli, hw_proc in *. rewrite Hc in Hn, Hp. rewrite h_locks_acq, lookup_insert_eq, Hc by done.
  unfold cpu_push. rewrite Hn. cbn. split_and!; [|done|done|done]. unfold hw_acq. done.
Qed.

(** The hardware state while a process sleeps in [iderw], once the scheduler has
    given up the lock. *)
Lemma asleep_hw i k :
  quiet i k → let h := hw_rel LPtable (hw_rel LIde (hw_acq LPtable (hw_acq LIde (k_hw k)))) in
  irq_ok h ∧ hw_ncli h = 0 ∧ hw_proc h = Some i ∧ h_locks h = ∅.
Proof.
  intros (Hi & Hl & _) h. pose proof (idle_acquire i LIde k Hi ltac:(done)) as Hcs.
  destruct (swap_locks i LIde _ Hcs ltac:(done)) as (H1 & H2 & H3 & H4 & _). cbn [k_hw set_k_hw] in *. unfold h. split_and!.
  - apply irq_ok_rel; [done|lia].
  - rewrite hw_ncli_rel by done. lia.
  - by rewrite hw_proc_rel.
  - destruct Hi as (Hok & _). rewrite !h_locks_rel, !h_locks_acq, Hl by (auto with kernel).
    rewrite insert_empty. apply map_eq. intros lk. rewrite lookup_empty. destruct (decide (lk = LPtable)) as [->|]; [apply lookup_delete_eq|].
    rewrite lookup_delete_ne by done. destruct (decide (lk = LIde)) as [->|]; [apply lookup_delete_eq|].
    by rewrite lookup_delete_ne, lookup_insert_ne, lookup_singleton_ne by done.
Qed.

(** The drive serves the sleeping process: what it finds when it is back. *)
Lemma drive_serves_run i b x k k1 :
  quiet i k → k_hw k1 = hw_acq LIde (k_hw k) → length (k_ptable k1) = length (k_ptable k) →
  k_idequeue k1 = [b] → k_bcache k1 !! b = Some x → request_ok x → ide_inv k1 →
  ∃ t, let k2 := drive_serves i (sleep_out (CBuf b) LIde i k1) in
    k2 = with_io t (set_k_hw (k_hw k2) (set_k_ptable (k_ptable k2) (set_k_bcache (<[b := synced x k1]> (k_bcache k1)) (set_k_idequeue [] k1)))) ∧
    resumed i (k_hw k2) ∧ (∀ lk, lk ≠ LPtable → h_locks (k_hw k2) !! lk = None) ∧ p_pid <$> k_ptable k2 = p_pid <$> k_ptable k1.
Proof.
  intros Hq Hh Hlen Hqu Hb Hr Hk. destruct (asleep_hw i k Hq) as (O1 & O2 & O3 & O4). pose proof (idle_acquire i LIde k (proj1 Hq) ltac:(done)) as Hcs.
  destruct (swap_locks i LIde _ Hcs ltac:(done)) as (H1 & H2 & H3 & H4 & _). cbn [k_hw set_k_hw] in *.
  unfold drive_serves, sleep_out. rewrite bool_decide_eq_false_2 by done. rewrite Hh. set (h1 := hw_rel LIde _) in *. set (k2 := set_k_ptable _ _).
  kstep_with (release_spec LPtable [] k2 H1 ltac:(cbn; lia) H3). cbn [k_hw set_k_hw set_k_ptable k2]. set (h2 := hw_rel LPtable h1) in *. set (k3 := set_k_hw h2 _).
  destruct (ideintr_run b [] x [] k3 O1) as (t & Hrun & _); [cbn; by rewrite O4, lookup_empty|cbn; by rewrite O4, lookup_empty|done|done|done| |done|].
  { intros E. pose proof (ii_drive k1 Hk b [] x Hqu Hb) as Hd. rewrite E in Hd. done. }
  kstep_with Hrun. cbn [started]. set (k4 := with_io t _).
  rewrite (acquire_spec LPtable [] k4 O1 ltac:(cbn; by rewrite O4, lookup_empty)). exists t. cbn zeta. cbn [k_hw set_k_hw set_k_ptable].
  split_and!.
  - done.
  - by apply resumed_acq.
  - intros lk Hlk. change (k_hw k4) with h2. rewrite h_locks_acq, lookup_insert_ne, O4 by done. apply lookup_empty.
  - cbn. rewrite fmap_alter_same, <- list_fmap_compose by done. rewrite <- (fmap_alter_same p_pid (fall_asleep (CBuf b)) i (k_ptable k1)) by done.
    apply list_fmap_ext. intros ? p _. cbn. unfold wake_proc. by destruct (_ && _).
Qed.


Lemma buf_sync_synced b x k : k_bcache k !! b = Some x → buf_sync b k = set_k_bcache (<[b := synced x k]> (k_bcache k)) (performed x k).
Proof.
  intros Hb. unfold buf_sync, synced, performed, buf_at. rewrite Hb. cbn [default from_option id].
  assert (Z.lor (Z.land (b_flags x) (Z.lnot B_DIRTY)) B_VALID = Z.land (Z.lor (b_flags x) B_VALID) (Z.lnot B_DIRTY)) as ->.
  { rewrite Z.land_lor_distr_l. f_equal. }
  by destruct (dirty x).
Qed.

Lemma ide_rest h h1 h2 h3 p2 p3 io1 t B q k k1 k2 :
  k_idequeue k = [] → k1 = set_k_io io1 (set_k_idequeue q (set_k_hw h1 k)) →
  k2 = with_io t (set_k_hw h2 (set_k_ptable p2 (set_k_bcache B (set_k_idequeue [] k1)))) →
  set_k_hw h (set_k_ptable p3 (set_k_hw h3 k2)) = set_k_io (k_io k2) (set_k_ptable p3 (set_k_hw h (set_k_bcache B k))).
Proof. intros Hq -> ->. destruct k. cbn in *. by subst. Qed.

Lemma idle_inv k : k_idequeue k = [] → ide_inv k.
Proof. intros Hq. split; rewrite Hq; [apply NoDup_nil_2|by intros b ?%elem_of_nil|done]. Qed.

Lemma iderw_runs i b x o k :
  quiet i k → k_bcache k !! b = Some x → holdsleep (SLBuf b) (quiet_pid k i) k = true →
  request_ok x → valid x && negb (dirty x) = false →
  ∃ k', ide_iderw b (drive_serves i :: o) k = Ret tt o k' ∧ carried i (buf_sync b k) k'.
Proof.
  intros Hq Hb Hh Hr Hf. pose proof Hq as (Hi & Hl & Hqu & Hd).
  destruct (iderw_enqueues i b x (drive_serves i :: o) k Hi) as (t & Hrun & Hk1 & Hcs & Hns);
    [by rewrite Hl, lookup_empty..|done|done|done|done|done|by apply idle_inv|rewrite Hqu; apply not_elem_of_nil|].
  rewrite Hrun. rewrite Hqu, bool_decide_eq_true_2 in * by done. cbn [app] in *. set (k1 := with_io t _) in *.
  assert (k_hw k1 = hw_acq LIde (k_hw k) ∧ k_ptable k1 = k_ptable k ∧ k_bcache k1 = k_bcache k ∧ k_idequeue k1 = [b] ∧ k_io k1 = set_io_trace t (k_io k) ∧
    k1 = set_k_io (k_io k1) (set_k_idequeue [b] (set_k_hw (k_hw k1) (performed x k))) ∧ synced x k1 = synced x k) as (E1 & E2 & E3 & E4 & E5 & E6 & E7).
  { unfold k1, performed, synced. destruct (dirty x) eqn:E; rewrite ?E; done. }
  clearbody k1. destruct (drive_serves_run i b x k k1 Hq E1 ltac:(by rewrite E2) E4 ltac:(by rewrite E3) Hr Hk1) as (t2 & F1 & F2 & F3 & F4).
  set (k2 := drive_serves i (sleep_out (CBuf b) LIde i k1)) in *. set (k3 := sleep_in (hw_intena (k_hw k1)) LIde i k2).
  assert (b < length (k_bcache k))%nat as Hlt by (by eapply lookup_lt_Some).
  assert (k_bcache k3 = <[b := synced x k]> (k_bcache k)) as G1 by (change (k_bcache k3) with (k_bcache k2); rewrite <- E3, <- E7; by rewrite F1 at 1).
  assert (not_synced b k3 = false) as Hns3.
  { unfold not_synced, buf_at. rewrite G1, list_lookup_insert_eq by done. cbn [default from_option id]. rewrite flags_test, <- valid_bit, <- dirty_bit.
    destruct (synced_flags x k) as [-> ->]. done. }
  kstep_with (sleep_while_once (not_synced b) i (CBuf b) LIde (drive_serves i) o k1 Hcs Hns F2 (F3 LIde) Hns3). fold k2 k3.
  assert (length (k_ptable k2) = length (k_ptable k)) as Hlen.
  { rewrite <- (length_fmap p_pid), F4, length_fmap. by rewrite E2. }
  assert (can_sleep i LIde k3) as Hcs3 by (apply sleep_in_can; [done|by apply F3|]; rewrite Hlen; apply Hi).
  rewrite (can_sleep_release i LIde o k3 Hcs3). eexists. split; [done|]. pose proof (can_sleep_idle i LIde k3 Hcs3 ltac:(done)) as Hi3.
  destruct (resumed_back i (hw_intena (k_hw k1)) _ F2) as (H1 & H2 & _ & _ & H5 & _).
  unfold k3, sleep_in in Hi3 |- *. rewrite bool_decide_eq_false_2 in * by done. clear Hns3 Hcs3 G1 k3. clearbody k2.
  set (p3 := alter _ i _) in *. set (h3 := hw_acq LIde (hw_rel LPtable _)) in *. assert (h_locks (hw_rel LIde h3) = ∅) as Hl3.
  { unfold h3. rewrite hw_rel_acq, h_locks_rel, H5; [|apply irq_ok_rel; [done|lia]|].
    2: { rewrite h_locks_rel, lookup_delete_ne, H5 by done. by apply F3. }
    apply map_eq. intros lk. rewrite lookup_empty. destruct (decide (lk = LPtable)) as [->|]; [apply lookup_delete_eq|]. rewrite lookup_delete_ne by done. by apply F3. }
  assert (p_pid <$> p3 = p_pid <$> k_ptable k) as Hp3 by (unfold p3; rewrite fmap_alter_same by done; by rewrite F4, E2).
  assert (k_idequeue k2 = [] ∧ io_havedisk1 (k_io k2) = true) as [Q1 Q2].
  { rewrite F1. split; [done|]. change (io_havedisk1 (k_io k1) = true). by rewrite E5. }
  clearbody p3 h3. rewrite (buf_sync_synced b x k Hb), <- E3, <- E7. split.
  - refine (ide_rest (hw_rel LIde h3) (k_hw k1) (k_hw k2) h3 (k_ptable k2) p3 (k_io k1) t2 _ [b] (performed x k) k1 k2 _ E6 F1). unfold performed. by destruct (dirty x).
  - intros _. done.
  - cbn. rewrite Hp3. unfold performed. by destruct (dirty x).
Qed.

(** The driver together with a drive that answers each request with an interrupt. *)
Definition served_iderw (b : nat) : M unit := λ o k,
  ide_iderw b (match hw_proc (k_hw k) with Some i => drive_serves i :: o | None => o end) k.

Definition ide_served : BlockDev := {|
  iderw := served_iderw;
  ideintr := ide_ideintr;
  dev_serves dev n := dev = 1 ∧ 0 ≤ n < FSSIZE
|}.

(** So the buffer cache, and what is built on it, can rely on this driver. *)
#[export] Instance ide_served_ok : BlockDevOk ide_served.
Proof.
  split; cbn [iderw dev_serves ide_served].
  - intros i b o k Hq Hb Hh Hf [Hd Hn]. apply lookup_lt_is_Some_2 in Hb as [x Hb]. pose proof Hq as ((_ & Hp & _) & _). unfold served_iderw. rewrite Hp.
    assert (buf_at k b = x) as Hx by (unfold buf_at; by rewrite Hb). rewrite Hx in Hf, Hd, Hn. apply (iderw_runs i b x); done || by split.
  - intros i b o k Hq Hh. unfold served_iderw, ide_iderw.
    match goal with |- bind _ _ ?o' k = _ => kstep_with (holdingsleep_spec i (SLBuf b) o' k (proj1 Hq) (quiet_free i k _ Hq)) end.
    fold (quiet_pid k i). by rewrite Hh.
Qed.

End serve.

(** ** Properties *)

(** C18: [iderw] synchronises a buffer with the disk.  Called for a locked buffer
    that is dirty or not valid, with the drive idle, it programs the controller,
    sleeps, and when the drive has interrupted returns with the buffer valid and
    clean: a dirty buffer has been written to its block, another has the contents of
    its block, and nothing else has changed but the states of processes. *)
Theorem iderw_syncs {MA : Machine} `{!AtaDisk MA} `{!AtaSound MA} i b x o k :
  quiet i k → k_bcache k !! b = Some x → holdsleep (SLBuf b) (quiet_pid k i) k = true →
  request_ok x → valid x && negb (dirty x) = false →
  ∃ k', ide_iderw b (drive_serves i :: o) k = Ret tt o k' ∧ carried i (buf_sync b k) k'.
Proof. apply iderw_runs. Qed.

(** C17: Requests are served in order.  Whenever the interrupt handler runs with
    requests waiting, the first of them is finished: its buffer is valid and clean
    and agrees with its block, and the processes that sleep on it can run.  The
    others stay as they are, in their order, and the drive works on the next: its
    data has been written, or the controller has been told to read its block. *)
Theorem ideintr_serves {MA : Machine} `{!AtaDisk MA} `{!AtaSound MA} b q x o k :
  irq_ok (k_hw k) → h_locks (k_hw k) !! LIde = None → h_locks (k_hw k) !! LPtable = None →
  ide_inv k → k_idequeue k = b :: q → k_bcache k !! b = Some x →
  ∃ k', ide_ideintr o k = Ret tt o k' ∧ ide_inv k' ∧ k_idequeue k' = q ∧ k_hw k' = k_hw k ∧
    k_ptable k' = wake_proc (CBuf b) <$> k_ptable k ∧
    ∃ x', k_bcache k' = <[b := x']> (k_bcache k) ∧ valid x' = true ∧ dirty x' = false ∧ b_data x' = block k (b_blockno x).
Proof.
  intros Hok Hl Hp Hk Hq Hb. destruct (head_request k b q Hk Hq) as (_ & _ & Hne). pose proof (ii_drive k Hk b q x Hq Hb) as Hdr.
  destruct (ii_bufs k Hk b) as (y & Hy & Hr & _); [rewrite Hq; by left|]. rewrite Hb in Hy. injection Hy as <-.
  destruct (ideintr_run b q x o k Hok Hl Hp Hq Hb Hr) as (t & Hrun & Hc).
  { intros E. by rewrite E in Hdr. }
  { intros b' q' ->. apply Hne. by left. }
  set (k1 := finished b x (set_k_idequeue q k)) in *. destruct (started_rest q k1) as (R1 & R2 & R3 & R4).
  exists (with_io t (started q k1)). split; [done|]. split; [by eapply ide_inv_next|]. split; [exact R2|]. split; [exact R3|]. split; [exact R4|].
  exists (synced x k). split; [exact R1|]. destruct (synced_flags x k) as [F1 F2]. split; [done|]. split; [done|].
  unfold synced. cbn [b_data set_b_flags]. destruct (dirty x); [done|]. done.
Qed.

(** Two requests: a read of block 7, which the drive works on, and a write of block 9. *)
Definition demo_ide_buf (n flags v : Z) : buf := mk_buf flags 1 n (mk_sl true 1) 1 (replicate (Z.to_nat BSIZE) v).
Definition demo_ide : K :=
  set_k_bcache [demo_ide_buf 7 0 0; demo_ide_buf 9 4 3]
    (set_k_idequeue [0; 1]%nat (with_io (Outb 0x1f7 0x20 :: request 7 []) (K_demo {[7 := replicate (Z.to_nat BSIZE) 5]}))).

Lemma demo_ide_inv : ide_inv demo_ide.
Proof.
  split.
  - apply (bool_decide_unpack _). vm_compute. exact I.
  - intros b Hb. change (b ∈ [0; 1]%nat) in Hb. apply elem_of_cons in Hb as [->|[->|[]%elem_of_nil]%elem_of_cons].
    + exists (demo_ide_buf 7 0 0). split; [done|]. split; [by split|done].
    + exists (demo_ide_buf 9 4 3). split; [done|]. split; [by split|done].
  - intros b q x Hq Hx. change ([0; 1]%nat = b :: q) in Hq. injection Hq as <- <-. change (Some (demo_ide_buf 7 0 0) = Some x) in Hx. injection Hx as <-.
    apply (commanded_request 0x20 7 []).
Qed.

Lemma ideintr_serves_witness :
  ∃ k' x', @ide_ideintr demo_machine [] demo_ide = Ret tt [] k' ∧ k_idequeue k' = [1%nat] ∧
    k_bcache k' !! 0%nat = Some x' ∧ valid x' = true ∧ b_data x' = replicate (Z.to_nat BSIZE) 5.
Proof.
  destruct (@ideintr_serves demo_machine _ _ 0 [1%nat] (demo_ide_buf 7 0 0) [] demo_ide (demo_irq_ok _) eq_refl eq_refl demo_ide_inv eq_refl eq_refl)
    as (k' & Hrun & _ & Hq & _ & _ & x' & Hb & Hv & _ & Hd).
  exists k', x'. split; [exact Hrun|]. split; [exact Hq|]. split; [rewrite Hb; reflexivity|]. split; [exact Hv|exact Hd].
Defined.

Definition demo_ide_idle : K := set_k_bcache [demo_ide_buf 7 0 0] (K_demo {[7 := replicate (Z.to_nat BSIZE) 5]}).

Lemma iderw_syncs_witness :
  ∃ k', @ide_iderw demo_machine 0 [@drive_serves demo_machine 0] demo_ide_idle = Ret tt [] k' ∧
    carried 0 (buf_sync 0 demo_ide_idle) k'.
Proof.
  apply (@iderw_syncs demo_machine _ _ 0 0 (demo_ide_buf 7 0 0) [] demo_ide_idle).
  - by apply (quiet_ext 0 (K_demo {[7 := replicate (Z.to_nat BSIZE) 5]})), demo_quiet.
  - reflexivity.
  - reflexivity.
  - by split.
  - reflexivity.
Defined.

(** C35: A failed read goes unnoticed.  When the drive reports an error on a read,
    [ideintr] transfers nothing and yet marks the buffer valid, so that [bread]
    hands out whatever the buffer held before. *)
Theorem ide_error_ignored {MA : Machine} `{!AtaDisk MA} b x o k :
  (∀ t, Z.land (u8 (port_in t 0x1f7)) 0x21 ≠ 0) →
  irq_ok (k_hw k) → h_locks (k_hw k) !! LIde = None → h_locks (k_hw k) !! LPtable = None →
  k_idequeue k = [b] → k_bcache k !! b = Some x → dirty x = false →
  ∃ k' x', ide_ideintr o k = Ret tt o k' ∧ k_bcache k' = <[b := x']> (k_bcache k) ∧ valid x' = true ∧ b_data x' = b_data x.
Proof.
  intros Herr Hok Hl Hp Hq Hb Hd. unfold ide_ideintr. kstep_with (acquire_spec LIde o k Hok Hl). kstep.
  cbn [k_idequeue set_k_hw]. rewrite Hq. kstep. set (k1 := set_k_idequeue [] _).
  assert (buf_at k1 b = x) as Hx by (unfold buf_at; cbn; by rewrite Hb). unfold bufget, id. kstep. rewrite Hx, Hd. cbn [negb]. rewrite bind_assoc.
  destruct (idewait_run true o k1) as (m & t & Hw). rewrite (proj2 (Z.eqb_neq _ _) (Herr t)) in Hw. cbn [negb andb] in Hw. kstep_with Hw. clear Hw.
  cbn [Z.leb Z.compare when]. unfold bufset. kstep. cbn [k_bcache set_k_bcache with_io set_k_io k1 set_k_idequeue set_k_hw].
  rewrite alter_alter_eq, (bufset_insert _ b k) by (by eapply lookup_lt_Some). replace (buf_at k b) with x by exact (eq_sym Hx).
  set (x' := set_b_flags _ _). set (k2 := set_k_bcache _ _).
  kstep_with (wakeup_spec (CBuf b) o k2 (irq_ok_acq LIde _ Hok) ltac:(cbn; rewrite h_locks_acq, lookup_insert_ne by done; exact Hp)). kstep.
  cbn [k_idequeue set_k_hw set_k_ptable set_k_bcache with_io set_k_io set_k_idequeue k2 k1]. kstep.
  rewrite (release_acquired LIde o k _ Hok Hl) by done. eexists _, x'. split; [done|]. split; [done|]. split; [|done].
  destruct (synced_flags x k) as [Hv _]. revert Hv. rewrite !valid_bit. done.
Qed.

Definition broken_machine : Machine := {|
  port_in t p := 0x41; data_in t disk p cnt := @data_in demo_machine t disk p cnt;
  data_out t p d := @data_out demo_machine t p d; reg_in t a := 0; patience := 1
|}.

#[local] Instance broken_machine_ata : AtaDisk broken_machine.
Proof.
  split.
  - intros t. exists 0%nat. split; [cbn; lia|done].
  - intros t disk lba. apply (@ata_read demo_machine _).
  - intros t lba d. apply (@ata_write demo_machine _).
Qed.

Lemma ide_error_ignored_witness :
  ∃ k' x', @ide_ideintr broken_machine [] (set_k_idequeue [0%nat] demo_ide) = Ret tt [] k' ∧
    k_bcache k' = <[0%nat := x']> (k_bcache demo_ide) ∧ valid x' = true ∧ b_data x' = replicate (Z.to_nat BSIZE) 0.
Proof.
  apply (@ide_error_ignored broken_machine _ 0 (demo_ide_buf 7 0 0) [] (set_k_idequeue [0%nat] demo_ide)).
  - intros t. vm_compute. discriminate.
  - exact (demo_irq_ok _).
  - reflexivity.
  - reflexivity.
  - reflexivity.
  - reflexivity.
  - reflexivity.
Defined.
