(* ===== verification/Memide.v ===== *)
(** * The memory disk ([memide.c])

    [iderw] copies between the buffer and the image in memory, without waiting.
    The image and its size are what [ideinit] reads from the linker symbols. *)

From stdpp Require Import base numbers list gmap strings.
From S2P Require Import Prelude Mmu Hardware Memory Kernel Spinlock Kalloc Cprintf Vm Proc Sleeplock Blockdev.

Implicit Types (k : K) (o : oracle).

Section memide.
Context (disksize : Z).

Definition mem_iderw (b : nat) : M unit :=
  let! held := holdingsleep (SLBuf b) in
  if negb held then panic "iderw: buf not locked"
  else
    let! x := bufget id b in
    if Z.land (b_flags x) (Z.lor B_VALID B_DIRTY) =? B_VALID then panic "iderw: nothing to do"
    else if negb (b_dev x =? 1) then panic "iderw: request not for disk 1"
    else if disksize <=? b_blockno x then panic "iderw: block out of range"
    else
      (if dirty x then
         bufset b (λ x, set_b_flags (Z.land (b_flags x) (Z.lnot B_DIRTY)) x) ;;;
         modify (disk_write (b_blockno x) (b_data x))
       else
         let! d := reads (λ k, block k (b_blockno x)) in
         bufset b (set_b_data d)) ;;;
      bufset b (λ x, set_b_flags (Z.lor (b_flags x) B_VALID) x).

(** Interrupt handler: no-op. *)
Definition mem_ideintr : M unit := ret tt.

Lemma mem_iderw_unlocked i b o k :
  quiet i k → holdsleep (SLBuf b) (quiet_pid k i) k = false →
  mem_iderw b o k = Panic "iderw: buf not locked" k.
Proof.
  intros Hq Hh. unfold mem_iderw.
  kstep_with (holdingsleep_spec i (SLBuf b) o k (proj1 Hq) (quiet_free i k _ Hq)).
  fold (quiet_pid k i). by rewrite Hh.
Qed.

Lemma mem_iderw_run i b o k :
  quiet i k → (b < length (k_bcache k))%nat → holdsleep (SLBuf b) (quiet_pid k i) k = true →
  valid (buf_at k b) && negb (dirty (buf_at k b)) = false →
  b_dev (buf_at k b) = 1 ∧ b_blockno (buf_at k b) < disksize →
  mem_iderw b o k = Ret tt o (buf_sync b k).
Proof.
  intros Hq Hb Hh Hf [Hd Hn]. unfold mem_iderw.
  kstep_with (holdingsleep_spec i (SLBuf b) o k (proj1 Hq) (quiet_free i k _ Hq)).
  fold (quiet_pid k i). rewrite Hh. cbn [negb]. unfold bufget, bufset. kstep. unfold id.
  rewrite flags_test, <- valid_bit, <- dirty_bit, Hf, Hd, (proj2 (Z.leb_gt _ _)) by lia.
  cbn [Z.eqb Pos.eqb negb]. unfold buf_sync. set (x := buf_at k b) in *.
  destruct (dirty x) eqn:Hx.
  - rewrite bind_assoc. kstep. unfold modify. cbn [k_bcache set_k_bcache disk_write set_k_writes set_k_disk].
    rewrite alter_alter_eq. rewrite bufset_insert by done. done.
  - rewrite bind_assoc. kstep. unfold modify. cbn [k_bcache set_k_bcache].
    rewrite alter_alter_eq, bufset_insert by done. fold x.
    assert (Z.land (b_flags x) (Z.lnot B_DIRTY) = b_flags x) as Hfl.
    { apply Z.bits_inj'. intros j Hj. rewrite Z.land_spec, Z.lnot_spec by done. unfold B_DIRTY.
      change 4 with (2 ^ 2). rewrite Z.pow2_bits_eqb by lia. destruct (Z.eqb_spec 2 j) as [<-|]; [|by rewrite andb_true_r].
      rewrite dirty_bit in Hx. by rewrite Hx. }
    by rewrite Hfl.
Qed.

Lemma mem_iderw_ok i b o k :
  quiet i k → (b < length (k_bcache k))%nat → holdsleep (SLBuf b) (quiet_pid k i) k = true →
  valid (buf_at k b) && negb (dirty (buf_at k b)) = false →
  b_dev (buf_at k b) = 1 ∧ b_blockno (buf_at k b) < disksize →
  ∃ k', mem_iderw b o k = Ret tt o k' ∧ carried i (buf_sync b k) k'.
Proof. intros. exists (buf_sync b k). split; [by eapply mem_iderw_run|apply carried_refl]. Qed.

#[global] Instance memide_dev : BlockDev := {
  iderw := mem_iderw;
  ideintr := mem_ideintr;
  dev_serves dev n := dev = 1 ∧ n < disksize
}.

#[global] Instance memide_ok : BlockDevOk memide_dev := {
  iderw_spec := mem_iderw_ok;
  iderw_unlocked := mem_iderw_unlocked
}.
End memide.
