(* ===== verification/Bio.v ===== *)
(** * The buffer cache ([bio.c])

    The doubly linked list through the buffers is the list [k_lru] of buffer
    indices, most recently used first. *)

From stdpp Require Import base numbers list gmap strings.
From S2P Require Import Prelude Mmu Hardware Memory Kernel Spinlock Kalloc Cprintf Vm Proc Sleeplock Blockdev Memide.

Implicit Types (k : K) (o : oracle) (b : nat).

(** ** Translated code *)

(** The loop of [binit] puts each buffer at the head of the list. *)
Fixpoint binit_loop (bs : list nat) : M unit :=
  match bs with
  | [] => ret tt
  | b :: bs =>
      initsleeplock (SLBuf b) ;;;
      modify (λ k, set_k_lru (b :: k_lru k) k) ;;;
      binit_loop bs
  end.

Definition binit : M unit :=
  initlock LBcache ;;;
  modify (set_k_lru []) ;;;
  binit_loop (seq 0 NBUF).

(** The two searches of [bget]: forwards for the block, backwards for a
    buffer to recycle. *)
Definition bcached (k : K) (dev blockno : Z) : option nat :=
  snd <$> list_find (λ b, b_dev (buf_at k b) = dev ∧ b_blockno (buf_at k b) = blockno) (k_lru k).
Definition brecycle (k : K) : option nat :=
  snd <$> list_find (λ b, b_refcnt (buf_at k b) = 0 ∧ dirty (buf_at k b) = false) (reverse (k_lru k)).

Definition bget (dev blockno : Z) : M nat :=
  acquire LBcache ;;;
  let! found := reads (λ k, bcached k dev blockno) in
  match found with
  | Some b =>
      bufset b (λ x, set_b_refcnt (u32 (b_refcnt x + 1)) x) ;;;
      release LBcache ;;;
      acquiresleep (SLBuf b) ;;;
      ret b
  | None =>
      let! free := reads brecycle in
      match free with
      | Some b =>
          bufset b (set_b_dev dev) ;;;
          bufset b (set_b_blockno blockno) ;;;
          bufset b (set_b_flags 0) ;;;
          bufset b (set_b_refcnt 1) ;;;
          release LBcache ;;;
          acquiresleep (SLBuf b) ;;;
          ret b
      | None => panic "bget: no buffers"
      end
  end.

Section bio.
Context {DEV : BlockDev}.

Definition bread (dev blockno : Z) : M nat :=
  let! b := bget dev blockno in
  let! v := bufget valid b in
  when (negb v) (iderw b) ;;;
  ret b.

Definition bwrite (b : nat) : M unit :=
  let! held := holdingsleep (SLBuf b) in
  if negb held then panic "bwrite"
  else
    bufset b (λ x, set_b_flags (Z.lor (b_flags x) B_DIRTY) x) ;;;
    iderw b.
End bio.

Definition brelse (b : nat) : M unit :=
  let! held := holdingsleep (SLBuf b) in
  if negb held then panic "brelse"
  else
    releasesleep (SLBuf b) ;;;
    acquire LBcache ;;;
    bufset b (λ x, set_b_refcnt (u32 (b_refcnt x - 1)) x) ;;;
    let! n := bufget b_refcnt b in
    when (n =? 0) (modify (λ k, set_k_lru (b :: filter (.≠ b) (k_lru k)) k)) ;;;
    release LBcache.

(** ** The cache invariant

    [H] is the set of buffers process [i] has locked; nobody else holds any. *)

Definition root (x : buf) : Prop := b_dev x = ROOTDEV.

Record bio_inv (i : nat) (H : gset nat) (k : K) : Prop := {
  bi_quiet : quiet i k;
  bi_len : length (k_bcache k) = NBUF;
  bi_lru : k_lru k ≡ₚ seq 0 NBUF;
  bi_dom b : b ∈ H → (b < NBUF)%nat;
  bi_data b x : k_bcache k !! b = Some x → length (b_data x) = Z.to_nat BSIZE;
  (* a block is in at most one buffer *)
  bi_uniq b b' x x' : k_bcache k !! b = Some x → k_bcache k !! b' = Some x' →
    root x → root x' → b_blockno x = b_blockno x' → b = b';
  bi_dirty b x : k_bcache k !! b = Some x → dirty x = true → valid x = true ∧ root x;
  (* a buffer in nobody's hands has the disk's contents unless it is dirty *)
  bi_coh b x : k_bcache k !! b = Some x → b ∉ H → valid x = true → root x →
    dirty x = false → b_data x = block k (b_blockno x);
  bi_free b x : k_bcache k !! b = Some x → b ∉ H → b_lock x = mk_sl false 0 ∧ b_refcnt x = 0;
  bi_held b x : k_bcache k !! b = Some x → b ∈ H →
    b_lock x = mk_sl true (quiet_pid k i) ∧ b_refcnt x = 1 ∧ valid x = true ∧ root x
}.

(** The contents a block has for the kernel: those of its buffer, or of the disk. *)
Definition holds_block (n : Z) (x : buf) : Prop := b_dev x = ROOTDEV ∧ b_blockno x = n ∧ valid x = true.
#[global] Instance holds_block_dec n x : Decision (holds_block n x).
Proof. unfold holds_block. apply _. Defined.

Definition view (k : K) (n : Z) : list Z :=
  match list_find (holds_block n) (k_bcache k) with
  | Some (_, x) => b_data x
  | None => block k n
  end.

(** What the operations of the cache may change. *)
Record bio_frame (k k' : K) : Prop := {
  bf_rest : k' = set_k_ptable (k_ptable k') (set_k_hw (k_hw k') (set_k_bcache (k_bcache k')
    (set_k_lru (k_lru k') (set_k_disk (k_disk k') (set_k_writes (k_writes k') (set_k_io (k_io k') k))))));
  bf_pids : p_pid <$> k_ptable k' = p_pid <$> k_ptable k
}.

Lemma bio_frame_refl k : bio_frame k k.
Proof. split; [by destruct k|done]. Qed.

Lemma bio_frame_trans k1 k2 k3 : bio_frame k1 k2 → bio_frame k2 k3 → bio_frame k1 k3.
Proof. intros [R1 P1] [R2 P2]. split; [|congruence]. rewrite R2, R1 at 1. done. Qed.

Lemma bio_frame_carried i k k' : carried i k k' → bio_frame k k'.
Proof. intros [R _ P]. split; [|done]. rewrite R. by destruct k. Qed.

Lemma bio_frame_bcache k l : bio_frame k (set_k_bcache l k).
Proof. split; [by destruct k|done]. Qed.

Lemma bio_frame_pid k k' i : bio_frame k k' → quiet_pid k' i = quiet_pid k i.
Proof.
  intros [_ Hp]. unfold quiet_pid, proc_at. pose proof (f_equal (.!! i) Hp) as E. cbn in E.
  rewrite !list_lookup_fmap in E. by destruct (k_ptable k' !! i), (k_ptable k !! i); cbn in E; simplify_eq.
Qed.

(** *** Views *)

Lemma view_cached i H k b x n :
  bio_inv i H k → k_bcache k !! b = Some x → holds_block n x → view k n = b_data x.
Proof.
  intros Hinv Hb Hx. unfold view.
  destruct (list_find (holds_block n) (k_bcache k)) as [[b' x']|] eqn:E.
  - apply list_find_Some in E as (Hb' & (Hr' & Hn' & _) & _). destruct Hx as (Hr & Hn & _).
    assert (b = b') as -> by (eapply (bi_uniq _ _ _ Hinv); [exact Hb|exact Hb'|done|done|congruence]).
    congruence.
  - apply list_find_None in E. rewrite Forall_forall in E. exfalso. eapply E; [|done]. by eapply list_elem_of_lookup_2.
Qed.

Lemma view_uncached k n :
  (∀ b x, k_bcache k !! b = Some x → ¬ holds_block n x) → view k n = block k n.
Proof.
  intros Hn. unfold view. destruct (list_find (holds_block n) (k_bcache k)) as [[b x]|] eqn:E; [|done].
  apply list_find_Some in E as (Hb & Hx & _). by apply Hn in Hb.
Qed.

Lemma view_cases i H k n :
  bio_inv i H k →
  (∃ b x, k_bcache k !! b = Some x ∧ holds_block n x ∧ view k n = b_data x) ∨
  (∀ b x, k_bcache k !! b = Some x → ¬ holds_block n x) ∧ view k n = block k n.
Proof.
  intros Hinv. unfold view. destruct (list_find (holds_block n) (k_bcache k)) as [[b x]|] eqn:E.
  - left. apply list_find_Some in E as (Hb & Hx & _). eauto.
  - right. apply list_find_None in E. rewrite Forall_forall in E. split; [|done].
    intros b x Hb. apply E. by eapply list_elem_of_lookup_2.
Qed.

(** Two states with the same disk whose caches agree on the valid buffers of
    block [n] give it the same contents. *)
Lemma view_ext i H i' H' k k' n :
  bio_inv i H k → bio_inv i' H' k' → block k' n = block k n →
  (∀ b x, k_bcache k !! b = Some x → holds_block n x →
     ∃ b' x', k_bcache k' !! b' = Some x' ∧ holds_block n x' ∧ b_data x' = b_data x) →
  (∀ b x, k_bcache k' !! b = Some x → holds_block n x →
     (∃ b' x', k_bcache k !! b' = Some x' ∧ holds_block n x') ∨ b_data x = block k n) →
  view k' n = view k n.
Proof.
  intros Hinv Hinv' Hd H1 H2. destruct (view_cases _ _ _ n Hinv) as [(b & x & Hb & Hx & ->)|[Hno ->]].
  - destruct (H1 _ _ Hb Hx) as (b' & x' & Hb' & Hx' & <-). by eapply view_cached.
  - destruct (view_cases _ _ _ n Hinv') as [(b & x & Hb & Hx & ->)|[_ ->]]; [|done].
    destruct (H2 _ _ Hb Hx) as [(b' & x' & Hb' & Hx')|?]; [|done]. by apply Hno in Hb'.
Qed.

Lemma view_length i H k n :
  bio_inv i H k → (∀ d, k_disk k !! n = Some d → length d = Z.to_nat BSIZE) →
  length (view k n) = Z.to_nat BSIZE.
Proof.
  intros Hinv Hd. destruct (view_cases _ _ _ n Hinv) as [(b & x & Hb & _ & ->)|[_ ->]].
  - by eapply (bi_data _ _ _ Hinv).
  - unfold block. destruct (k_disk k !! n) as [d|] eqn:E; [by apply Hd|]. apply length_replicate.
Qed.

(** *** Finding a buffer *)

(** There is a buffer to recycle. *)
Definition avail (H : gset nat) (k : K) : Prop :=
  ∃ b x, k_bcache k !! b = Some x ∧ b ∉ H ∧ dirty x = false.

Definition cached (k : K) (n : Z) : Prop :=
  ∃ b x, k_bcache k !! b = Some x ∧ root x ∧ b_blockno x = n.

(** Block [n] is in none of the buffers of [H]. *)
Definition not_held (H : gset nat) (k : K) (n : Z) : Prop :=
  ∀ b x, b ∈ H → k_bcache k !! b = Some x → b_blockno x ≠ n.

Lemma lru_elem i H k b : bio_inv i H k → b ∈ k_lru k ↔ (b < length (k_bcache k))%nat.
Proof.
  intros Hinv. rewrite (bi_lru _ _ _ Hinv), elem_of_seq, (bi_len _ _ _ Hinv). lia.
Qed.

Lemma buf_at_lookup k b x : k_bcache k !! b = Some x → buf_at k b = x.
Proof. unfold buf_at. by intros ->. Qed.

Lemma bcached_some i H k n b :
  bio_inv i H k → bcached k ROOTDEV n = Some b →
  ∃ x, k_bcache k !! b = Some x ∧ root x ∧ b_blockno x = n.
Proof.
  intros Hinv Hb. unfold bcached in Hb. destruct (list_find _ (k_lru k)) as [[j b']|] eqn:E; [|done].
  cbn in Hb. simplify_eq. apply list_find_Some in E as (Hj & Hx & _).
  apply list_elem_of_lookup_2, (lru_elem _ _ _ _ Hinv), lookup_lt_is_Some_2 in Hj as [x Hbx].
  exists x. by rewrite (buf_at_lookup _ _ _ Hbx) in Hx.
Qed.

Lemma bcached_none i H k n :
  bio_inv i H k → bcached k ROOTDEV n = None → ¬ cached k n.
Proof.
  intros Hinv Hb (b & x & Hbx & Hr & Hn). unfold bcached in Hb.
  destruct (list_find _ (k_lru k)) as [[j b']|] eqn:E; [done|].
  apply list_find_None in E. rewrite Forall_forall in E. apply (E b).
  - apply (lru_elem _ _ _ _ Hinv). by eapply lookup_lt_Some.
  - by rewrite (buf_at_lookup _ _ _ Hbx).
Qed.

Lemma brecycle_some i H k :
  bio_inv i H k → avail H k →
  ∃ b x, brecycle k = Some b ∧ k_bcache k !! b = Some x ∧ b ∉ H ∧ dirty x = false.
Proof.
  intros Hinv (b & x & Hb & HbH & Hd). unfold brecycle.
  destruct (list_find _ (reverse (k_lru k))) as [[j b']|] eqn:E.
  - apply list_find_Some in E as (Hj & (Hr & Hd') & _).
    apply list_elem_of_lookup_2 in Hj. rewrite elem_of_reverse in Hj.
    apply (lru_elem _ _ _ _ Hinv), lookup_lt_is_Some_2 in Hj as [x' Hbx'].
    rewrite (buf_at_lookup _ _ _ Hbx') in Hr, Hd'. exists b', x'. split_and!; try done.
    intros HbH'. destruct (bi_held _ _ _ Hinv _ _ Hbx' HbH') as (_ & Hr' & _). congruence.
  - exfalso. apply list_find_None in E. rewrite Forall_forall in E. apply (E b).
    + rewrite elem_of_reverse. apply (lru_elem _ _ _ _ Hinv). by eapply lookup_lt_Some.
    + rewrite (buf_at_lookup _ _ _ Hb). split; [|done]. by destruct (bi_free _ _ _ Hinv _ _ Hb HbH).
Qed.

(** The buffer as [bget] hands it out. *)
Definition fetched (n : Z) (x : buf) : buf :=
  if decide (b_dev x = ROOTDEV ∧ b_blockno x = n) then x
  else set_b_flags 0 (set_b_blockno n (set_b_dev ROOTDEV x)).
Definition got (pid n : Z) (x : buf) : buf := set_b_lock (mk_sl true pid) (set_b_refcnt 1 (fetched n x)).

Lemma bget_run i H n o k :
  bio_inv i H k → not_held H k n → cached k n ∨ avail H k →
  ∃ b x, b ∉ H ∧ k_bcache k !! b = Some x ∧
    (root x ∧ b_blockno x = n ∨ ¬ cached k n ∧ dirty x = false) ∧
    bget ROOTDEV n o k = Ret b o (set_k_bcache (<[b := got (quiet_pid k i) n x]> (k_bcache k)) k).
Proof.
  intros Hinv Hnh Hav. pose proof (bi_quiet _ _ _ Hinv) as Hq. pose proof Hq as (Hidle & Hlk & Hde).
  pose proof (quiet_free i k LBcache Hq) as Hfree.
  assert (∃ b x, b ∉ H ∧ k_bcache k !! b = Some x ∧
    (root x ∧ b_blockno x = n ∨ ¬ cached k n ∧ dirty x = false) ∧
    bget ROOTDEV n o k = (acquiresleep (SLBuf b) ;;; ret b) o
      (set_k_bcache (<[b := set_b_refcnt 1 (fetched n x)]> (k_bcache k)) k)) as (b & x & HbH & Hb & Hc & Hrun).
  { unfold bget. kstep_with (idle_free_acquire i LBcache o k Hidle Hfree). kstep.
    set (k1 := set_k_hw _ k). change (bcached k1 ROOTDEV n) with (bcached k ROOTDEV n).
    destruct (bcached k ROOTDEV n) as [b|] eqn:E.
    - destruct (bcached_some _ _ _ _ _ Hinv E) as (x & Hb & Hr & Hn).
      assert (b ∉ H) as HbH by (intros HbH; by eapply Hnh in Hb).
      destruct (bi_free _ _ _ Hinv _ _ Hb HbH) as [Hl Hrc].
      exists b, x. split_and!; [done|done|by left|]. unfold bufset. kstep. set (k2 := set_k_bcache _ k1).
      kstep_with (release_acquired LBcache o k k2 (proj1 Hidle) Hfree eq_refl). f_equal.
      unfold k2, k1. cbn. rewrite bufset_insert by (by eapply lookup_lt_Some).
      rewrite (buf_at_lookup _ _ _ Hb), Hrc. unfold fetched. rewrite decide_True by done. by destruct k.
    - pose proof (bcached_none _ _ _ _ Hinv E) as Hnc. destruct Hav as [?|Hav]; [done|].
      destruct (brecycle_some _ _ _ Hinv Hav) as (b & x & Hrec & Hb & HbH & Hd).
      kstep. change (brecycle k1) with (brecycle k). rewrite Hrec.
      exists b, x. split_and!; [done|done|by right|]. unfold bufset. kstep. cbn [k_bcache set_k_bcache].
      rewrite !alter_alter_eq. set (k2 := set_k_bcache _ _).
      kstep_with (release_acquired LBcache o k k2 (proj1 Hidle) Hfree eq_refl). f_equal.
      unfold k2, k1. cbn. rewrite bufset_insert by (by eapply lookup_lt_Some).
      rewrite (buf_at_lookup _ _ _ Hb). unfold fetched. rewrite decide_False; [by destruct k|].
      intros [? ?]. apply Hnc. by exists b, x. }
  exists b, x. split_and!; [done|done|done|]. rewrite Hrun. set (k1 := set_k_bcache _ k).
  assert (b < length (k_bcache k))%nat as Hlt by (by eapply lookup_lt_Some).
  assert (acquiresleep (SLBuf b) o k1 = Ret tt o (sl_set (SLBuf b) (mk_sl true (p_pid (proc_at k1 i))) k1)) as Has.
  { apply acquiresleep_free; [done|by apply (quiet_free i k)|]. unfold k1. cbn.
    rewrite list_lookup_insert_eq by done. cbn.
    destruct (bi_free _ _ _ Hinv _ _ Hb HbH) as [Hl _]. unfold fetched. case_decide; cbn; by rewrite Hl. }
  kstep_with Has. unfold ret. f_equal.
  change (sl_set (SLBuf b) (mk_sl true (p_pid (proc_at k1 i))) k1) with
    (set_k_bcache (alter (set_b_lock (mk_sl true (quiet_pid k i))) b (k_bcache k1)) k1).
  rewrite bufset_insert by (cbn; by rewrite length_insert). 
  replace (buf_at k1 b) with (set_b_refcnt 1 (fetched n x)) by (symmetry; by apply buf_at_set).
  unfold k1. cbn. by rewrite list_insert_insert_eq.
Qed.

(** *** Updating one buffer *)

(** What a buffer must satisfy, alone. *)
Definition buf_ok (i : nat) (held : bool) (k : K) (x : buf) : Prop :=
  length (b_data x) = Z.to_nat BSIZE ∧
  (dirty x = true → valid x = true ∧ root x) ∧
  if held then b_lock x = mk_sl true (quiet_pid k i) ∧ b_refcnt x = 1 ∧ valid x = true ∧ root x
  else b_lock x = mk_sl false 0 ∧ b_refcnt x = 0 ∧
       (valid x = true → root x → dirty x = false → b_data x = block k (b_blockno x)).

Lemma bio_inv_insert i H H' b x x' k k' :
  bio_inv i H k → k_bcache k !! b = Some x →
  quiet i k' → k_bcache k' = <[b := x']> (k_bcache k) → k_lru k' ≡ₚ k_lru k →
  quiet_pid k' i = quiet_pid k i →
  (∀ b', b' ≠ b → b' ∈ H' ↔ b' ∈ H) →
  (∀ b' y, b' ≠ b → k_bcache k !! b' = Some y → root y → root x' → b_blockno y ≠ b_blockno x') →
  (∀ b' y, b' ≠ b → k_bcache k !! b' = Some y → root y →
     block k' (b_blockno y) = block k (b_blockno y)) →
  buf_ok i (bool_decide (b ∈ H')) k' x' →
  bio_inv i H' k'.
Proof.
  intros Hinv Hb Hq Hbc Hlru Hpid HH Huniq Hblk (Hlen & Hdirty & Hok).
  assert (b < length (k_bcache k))%nat as Hlt by (by eapply lookup_lt_Some).
  assert (∀ b' y, k_bcache k' !! b' = Some y → b' = b ∧ y = x' ∨ b' ≠ b ∧ k_bcache k !! b' = Some y) as Hl.
  { intros b' y. rewrite Hbc. destruct (decide (b = b')) as [<-|Hne].
    - rewrite list_lookup_insert_eq by done. intros [= <-]. by left.
    - rewrite list_lookup_insert_ne by done. auto. }
  split; try done.
  - by rewrite Hbc, length_insert, (bi_len _ _ _ Hinv).
  - by rewrite Hlru, (bi_lru _ _ _ Hinv).
  - intros b' Hb'. destruct (decide (b' = b)) as [->|Hne]; [by rewrite <- (bi_len _ _ _ Hinv)|].
    apply (bi_dom _ _ _ Hinv). by apply HH.
  - intros b' y [[-> ->]|[_ Hy]]%Hl; [done|]. by eapply (bi_data _ _ _ Hinv).
  - intros b1 b2 y1 y2 [[-> ->]|[H1 Hy1]]%Hl [[-> ->]|[H2 Hy2]]%Hl Hr1 Hr2 Hn; try done.
    + exfalso. by eapply Huniq.
    + exfalso. by eapply Huniq.
    + by eapply (bi_uniq _ _ _ Hinv).
  - intros b' y [[-> ->]|[_ Hy]]%Hl; [done|]. by eapply (bi_dirty _ _ _ Hinv).
  - intros b' y [[-> ->]|[Hne Hy]]%Hl HbH Hv Hr Hd.
    + rewrite bool_decide_eq_false_2 in Hok by done. naive_solver.
    + rewrite (Hblk b' y) by done. eapply (bi_coh _ _ _ Hinv); try done. by rewrite <- HH.
  - intros b' y [[-> ->]|[Hne Hy]]%Hl HbH.
    + rewrite bool_decide_eq_false_2 in Hok by done. naive_solver.
    + eapply (bi_free _ _ _ Hinv); [done|]. by rewrite <- HH.
  - intros b' y [[-> ->]|[Hne Hy]]%Hl HbH.
    + by rewrite bool_decide_eq_true_2 in Hok by done.
    + rewrite Hpid. eapply (bi_held _ _ _ Hinv); [done|]. by rewrite <- HH.
Qed.

Lemma quiet_bcache i l k : quiet i (set_k_bcache l k) ↔ quiet i k.
Proof. split; apply quiet_ext; done. Qed.

Lemma fetched_root n x : root (fetched n x) ∧ b_blockno (fetched n x) = n.
Proof. unfold fetched, root. case_decide as E; [done|done]. Qed.

Lemma fetched_data n x : b_data (fetched n x) = b_data x.
Proof. unfold fetched. by case_decide. Qed.

(** The state of a buffer that has been read, or was there already. *)
Definition filled (d : list Z) (x : buf) : buf :=
  if valid x then x
  else set_b_data d (set_b_flags (Z.lor (Z.land (b_flags x) (Z.lnot B_DIRTY)) B_VALID) x).

Lemma filled_valid d x : valid (filled d x) = true.
Proof.
  unfold filled. destruct (valid x) eqn:E; [done|]. rewrite valid_bit. cbn. by destruct (sync_flags (b_flags x)).
Qed.

Lemma filled_root d x : b_dev (filled d x) = b_dev x ∧ b_blockno (filled d x) = b_blockno x ∧
  b_lock (filled d x) = b_lock x ∧ b_refcnt (filled d x) = b_refcnt x.
Proof. unfold filled. by destruct (valid x). Qed.

Lemma filled_dirty d x : (dirty x = true → valid x = true) → dirty (filled d x) = dirty x.
Proof.
  unfold filled. destruct (valid x); [done|]. intros Hd. destruct (dirty x) eqn:E; [by specialize (Hd eq_refl)|].
  rewrite dirty_bit. cbn. by destruct (sync_flags (b_flags x)).
Qed.

Definition dirty_block (k : K) (n : Z) : Prop :=
  ∃ b x, k_bcache k !! b = Some x ∧ root x ∧ b_blockno x = n ∧ dirty x = true.

(** What [bread] gives: block [n] in the buffer [b], now held. *)
Record read_post (i : nat) (H : gset nat) (k : K) (n : Z) (b : nat) (k' : K) : Prop := {
  rp_inv : bio_inv i ({[b]} ∪ H) k';
  rp_new : b ∉ H;
  rp_buf : ∃ x, k_bcache k' !! b = Some x ∧ b_blockno x = n ∧ b_data x = view k n ∧
                (dirty x = false → view k n = block k n);
  rp_view m : view k' m = view k m;
  rp_other b' : b' ≠ b → k_bcache k' !! b' = k_bcache k !! b';
  rp_dirty m : dirty_block k' m ↔ dirty_block k m;
  rp_clean b' : dirty (buf_at k' b') = true → dirty (buf_at k b') = true;
  rp_frame : bio_frame k k';
  rp_disk : k_disk k' = k_disk k;
  rp_writes : k_writes k' = k_writes k
}.

(** *** The buffer [bread] hands out *)

Lemma got_filled d pid n x :
  let x' := filled d (got pid n x) in
  root x' ∧ b_blockno x' = n ∧ b_lock x' = mk_sl true pid ∧ b_refcnt x' = 1 ∧ valid x' = true.
Proof.
  cbn zeta. destruct (filled_root d (got pid n x)) as (E1 & E2 & E3 & E4).
  unfold root. rewrite E1, E2, E3, E4, filled_valid. destruct (fetched_root n x). split_and!; done.
Qed.

Lemma got_dirty d pid n x :
  (dirty x = true → valid x = true) → dirty (filled d (got pid n x)) = true →
  dirty x = true ∧ root x ∧ b_blockno x = n.
Proof.
  intros Hdv. rewrite filled_dirty; unfold got, fetched; case_decide as E; try done.
Qed.

(** A buffer that held block [n] keeps its flags. *)
Lemma got_same d pid n x :
  root x → b_blockno x = n → valid x = true →
  filled d (got pid n x) = set_b_lock (mk_sl true pid) (set_b_refcnt 1 x).
Proof.
  intros Hr Hn Hv. unfold got, fetched. rewrite decide_True by done. unfold filled.
  change (valid (set_b_lock _ (set_b_refcnt 1 x))) with (valid x). by rewrite Hv.
Qed.

Lemma got_other d pid n x :
  ¬ (root x ∧ b_blockno x = n) ∨ valid x = false → b_data (filled d (got pid n x)) = d.
Proof.
  intros Hx. unfold filled. replace (valid (got pid n x)) with false; [done|]. symmetry.
  unfold got, fetched. case_decide as E; [|done].
  change (valid (set_b_lock _ (set_b_refcnt 1 x))) with (valid x). naive_solver.
Qed.

(** [bget]'s choice: the buffer of block [n], or a clean one when there is none. *)
Definition choice (H : gset nat) (k : K) (n : Z) (b : nat) (x : buf) : Prop :=
  b ∉ H ∧ k_bcache k !! b = Some x ∧ (root x ∧ b_blockno x = n ∨ ¬ cached k n ∧ dirty x = false).

Lemma choice_others i H k n b x b' y :
  bio_inv i H k → choice H k n b x → b' ≠ b → k_bcache k !! b' = Some y → root y → b_blockno y ≠ n.
Proof.
  intros Hinv (_ & Hb & Hc) Hne Hy Hr Hn. destruct Hc as [[Hrx Hnx]|[Hnc _]].
  - apply Hne. eapply (bi_uniq _ _ _ Hinv); [exact Hy|exact Hb|done|done|congruence].
  - apply Hnc. by exists b', y.
Qed.

(** The buffer gets the contents the block has for the kernel. *)
Lemma choice_data i H k n b x pid :
  bio_inv i H k → choice H k n b x →
  let x' := filled (block k n) (got pid n x) in
  b_data x' = view k n ∧ (dirty x' = false → view k n = block k n).
Proof.
  intros Hinv Hch. cbn zeta. pose proof Hch as (HbH & Hb & Hc).
  destruct (decide ((root x ∧ b_blockno x = n) ∧ valid x = true)) as [[[Hr Hn] Hv]|Hno].
  - rewrite got_same by done. assert (view k n = b_data x) as -> by (by eapply view_cached).
    split; [done|]. intros Hd. rewrite <- Hn. by eapply (bi_coh _ _ _ Hinv).
  - assert (¬ (root x ∧ b_blockno x = n) ∨ valid x = false) as Hx by (destruct (valid x); tauto).
    assert (view k n = block k n) as ->; [|split; [by apply got_other|done]].
    apply view_uncached. intros b' y Hy (Hry & Hny & Hvy).
    destruct (decide (b' = b)) as [->|Hne]; [naive_solver congruence|].
    by eapply (choice_others _ _ _ _ _ _ _ _ Hinv Hch Hne).
Qed.

Section fill.
Context (i : nat) (H : gset nat) (n : Z) (b : nat) (x : buf) (k k' : K).
#[local] Notation x' := (filled (block k n) (got (quiet_pid k i) n x)).
Hypothesis Hinv : bio_inv i H k.
Hypothesis Hch : choice H k n b x.
Hypothesis Hq : quiet i k'.
Hypothesis Hbc : k_bcache k' = <[b := x']> (k_bcache k).
Hypothesis Hlru : k_lru k' = k_lru k.
Hypothesis Hdisk : k_disk k' = k_disk k.
Hypothesis Hfr : bio_frame k k'.
Hypothesis Hlen : ∀ d, k_disk k !! n = Some d → length d = Z.to_nat BSIZE.

Lemma fill_block m : block k' m = block k m.
Proof. unfold block. by rewrite Hdisk. Qed.

Lemma fill_at : k_bcache k' !! b = Some x'.
Proof. destruct Hch as (_ & Hb & _). rewrite Hbc. apply list_lookup_insert_eq. by eapply lookup_lt_Some. Qed.

Lemma fill_other b' : b' ≠ b → k_bcache k' !! b' = k_bcache k !! b'.
Proof. intros Hne. rewrite Hbc. by rewrite list_lookup_insert_ne. Qed.

Lemma fill_inv : bio_inv i ({[b]} ∪ H) k'.
Proof.
  destruct Hch as (HbH & Hb & Hc). destruct (got_filled (block k n) (quiet_pid k i) n x) as (Hr & Hn & Hl & Hrc & Hv).
  eapply (bio_inv_insert i H _ b x x'); try done; [by rewrite Hlru|by apply bio_frame_pid|set_solver| | |].
  - intros b' y Hne Hy Hry _. rewrite Hn. by eapply choice_others.
  - intros. apply fill_block.
  - rewrite bool_decide_eq_true_2 by set_solver. split_and!; try done.
    + destruct (choice_data i H k n b x (quiet_pid k i) Hinv Hch) as [-> _]. by eapply view_length.
    + by rewrite (bio_frame_pid _ _ _ Hfr).
Qed.

Lemma fill_view m : view k' m = view k m.
Proof.
  destruct (got_filled (block k n) (quiet_pid k i) n x) as (Hr & Hn & _ & _ & Hv).
  destruct (choice_data i H k n b x (quiet_pid k i) Hinv Hch) as [Hdata _].
  destruct (decide (m = n)) as [->|Hne].
  { rewrite <- Hdata. eapply view_cached; [apply fill_inv|apply fill_at|done]. }
  destruct Hch as (HbH & Hb & Hc).
  destruct (decide (holds_block m x)) as [Hx|Hx].
  - (* the buffer of another block was recycled: it was clean *)
    assert (dirty x = false) as Hd by (destruct Hc as [[_ ?]|[_ ?]], Hx as (_ & ? & _); congruence).
    assert (view k m = b_data x) as -> by (by eapply view_cached).
    destruct Hx as (Hrx & Hmx & Hvx).
    rewrite (bi_coh _ _ _ Hinv _ _ Hb HbH Hvx Hrx Hd), Hmx, <- fill_block. apply view_uncached.
    intros b' y Hy (Hry & Hmy & Hvy). destruct (decide (b' = b)) as [->|Hbb].
    + rewrite fill_at in Hy. simplify_eq. congruence.
    + rewrite fill_other in Hy by done. apply Hbb.
      eapply (bi_uniq _ _ _ Hinv); [exact Hy|exact Hb|done|done|congruence].
  - eapply view_ext; [exact Hinv|apply fill_inv|apply fill_block| |].
    + intros b' y Hy Hhy. exists b', y. split_and!; try done. rewrite fill_other; [done|].
      intros ->. congruence.
    + intros b' y Hy Hhy. left. exists b', y. split; [|done]. rewrite <- fill_other; [done|].
      intros ->. rewrite fill_at in Hy. simplify_eq. destruct Hhy as (_ & ? & _). congruence.
Qed.

Lemma fill_dirty m : dirty_block k' m ↔ dirty_block k m.
Proof.
  destruct Hch as (HbH & Hb & Hc).
  assert (dirty x = true → valid x = true) as Hdv by (intros; by eapply (bi_dirty _ _ _ Hinv)).
  split; intros (b' & y & Hy & Hr & Hm & Hd).
  - destruct (decide (b' = b)) as [->|Hne]; [|rewrite fill_other in Hy by done; by exists b', y].
    rewrite fill_at in Hy. simplify_eq. apply got_dirty in Hd as (Hd & Hrx & Hnx); [|done].
    exists b, x. split_and!; try done. by destruct (got_filled (block k n) (quiet_pid k i) n x) as (_ & -> & _).
  - destruct (decide (b' = b)) as [->|Hne]; [|rewrite <- fill_other in Hy by done; by exists b', y].
    simplify_eq. destruct Hc as [[Hrx Hnx]|[_ ?]]; [|congruence].
    exists b, x'. split_and!; [apply fill_at|..]; try (rewrite got_same by auto; done).
Qed.

Lemma fill_clean b' : dirty (buf_at k' b') = true → dirty (buf_at k b') = true.
Proof.
  destruct Hch as (HbH & Hb & Hc). unfold buf_at. destruct (decide (b' = b)) as [->|Hne].
  - rewrite fill_at, Hb. cbn. intros Hd%got_dirty; [by destruct Hd|]. intros. by eapply (bi_dirty _ _ _ Hinv).
  - by rewrite fill_other.
Qed.

Lemma fill_post : k_writes k' = k_writes k → read_post i H k n b k'.
Proof.
  intros Hwr. pose proof fill_inv. pose proof fill_view. pose proof fill_dirty. pose proof fill_clean.
  pose proof fill_other. split; try done; [apply Hch|].
  exists x'. split; [apply fill_at|]. split; [by destruct (got_filled (block k n) (quiet_pid k i) n x) as (_ & ? & _)|].
  by apply (choice_data i H k n b x (quiet_pid k i)).
Qed.
End fill.

(** ** The operations of the cache *)

Section ops.
Context {DEV : BlockDev} {DEVOK : BlockDevOk DEV}.

Lemma bread_spec i H n o k :
  bio_inv i H k → not_held H k n → cached k n ∨ avail H k → dev_serves ROOTDEV n →
  (∀ d, k_disk k !! n = Some d → length d = Z.to_nat BSIZE) →
  ∃ b k', bread ROOTDEV n o k = Ret b o k' ∧ read_post i H k n b k'.
Proof.
  intros Hinv Hnh Hav Hdev Hlen.
  destruct (bget_run i H n o k Hinv Hnh Hav) as (b & x & HbH & Hb & Hc & Hrun).
  assert (choice H k n b x) as Hch by done. exists b. unfold bread. kstep_with Hrun.
  assert (b < length (k_bcache k))%nat as Hlt by (by eapply lookup_lt_Some).
  set (g := got (quiet_pid k i) n x) in *. set (k1 := set_k_bcache (<[b := g]> (k_bcache k)) k).
  assert (buf_at k1 b = g) as Hg by (by apply buf_at_set).
  unfold bufget. kstep. rewrite Hg.
  assert (∀ k', carried i (set_k_bcache (<[b := filled (block k n) g]> (k_bcache k)) k) k' →
                read_post i H k n b k') as Hpost.
  { intros k' Hca. apply (fill_post i H n b x k k'); try done;
      pose proof (bio_frame_carried _ _ _ Hca) as Hfr; destruct Hca as [Hrest Hq _].
    - apply Hq, quiet_bcache, (bi_quiet _ _ _ Hinv).
    - by rewrite Hrest.
    - by rewrite Hrest.
    - by rewrite Hrest.
    - eapply bio_frame_trans; [apply bio_frame_bcache|exact Hfr].
    - by rewrite Hrest. }
  destruct (valid g) eqn:Hv; cbn [negb when]; kstep.
  - eexists. split; [done|]. apply Hpost. unfold filled. rewrite Hv. apply carried_refl.
  - assert (dirty g = false) as Hd.
    { destruct (dirty g) eqn:E; [|done]. assert (valid g = true); [|congruence].
      unfold g, got, fetched in E |- *. case_decide; [|done].
      change (valid x = true). by eapply (bi_dirty _ _ _ Hinv). }
    destruct (fetched_root n x) as [Hr Hn].
    destruct (iderw_spec i b o k1) as (k' & Hio & Hca).
    + apply quiet_bcache, (bi_quiet _ _ _ Hinv).
    + unfold k1. cbn. by rewrite length_insert.
    + unfold holdsleep, sl_get. fold (buf_at k1 b). rewrite Hg. cbn. by rewrite Z.eqb_refl.
    + by rewrite Hg, Hv.
    + rewrite Hg. unfold g. cbn. by rewrite Hr, Hn.
    + kstep_with Hio. exists k'. split; [done|]. apply Hpost.
      unfold buf_sync in Hca. rewrite Hg, Hd in Hca.
      assert (b_blockno g = n) as E by done. rewrite E in Hca. unfold filled. rewrite Hv.
      unfold k1 in Hca. cbn in Hca. rewrite list_insert_insert_eq in Hca. exact Hca.
Qed.

(** Reading a block when every buffer is held or dirty panics. *)
Lemma bread_full i H n o k :
  bio_inv i H k → ¬ cached k n → ¬ avail H k →
  ∃ k', bread ROOTDEV n o k = Panic "bget: no buffers" k'.
Proof.
  intros Hinv Hnc Hna. pose proof (bi_quiet _ _ _ Hinv) as Hq. unfold bread, bget.
  rewrite !bind_assoc. kstep_with (idle_free_acquire i LBcache o k (proj1 Hq) (quiet_free i k _ Hq)).
  rewrite !bind_assoc. kstep. set (k1 := set_k_hw _ k).
  change (bcached k1 ROOTDEV n) with (bcached k ROOTDEV n).
  destruct (bcached k ROOTDEV n) as [b|] eqn:E.
  { exfalso. apply Hnc. destruct (bcached_some _ _ _ _ _ Hinv E) as (x & ? & ? & ?). by exists b, x. }
  rewrite bind_assoc. kstep. change (brecycle k1) with (brecycle k).
  destruct (brecycle k) as [b|] eqn:E'; [|by eexists].
  exfalso. apply Hna. unfold brecycle in E'. destruct (list_find _ _) as [[j b']|] eqn:Ef; [|done].
  cbn in E'. simplify_eq. apply list_find_Some in Ef as (Hj & (Hr & Hd) & _).
  apply list_elem_of_lookup_2 in Hj. rewrite elem_of_reverse in Hj.
  apply (lru_elem _ _ _ _ Hinv), lookup_lt_is_Some_2 in Hj as [x Hx].
  rewrite (buf_at_lookup _ _ _ Hx) in Hr, Hd. exists b, x. split_and!; try done.
  intros HbH. destruct (bi_held _ _ _ Hinv _ _ Hx HbH) as (_ & ? & _). congruence.
Qed.

(** *** Writing *)

(** The holder changes the data of its buffer. *)
Lemma data_inv i H b x d k :
  bio_inv i H k → b ∈ H → k_bcache k !! b = Some x → length d = Z.to_nat BSIZE →
  let k' := set_k_bcache (<[b := set_b_data d x]> (k_bcache k)) k in
  bio_inv i H k' ∧ (∀ m, view k' m = if m =? b_blockno x then d else view k m) ∧
  (∀ m, dirty_block k' m ↔ dirty_block k m).
Proof.
  intros Hinv HbH Hb Hlen. cbn zeta. set (k' := set_k_bcache _ k).
  assert (b < length (k_bcache k))%nat as Hlt by (by eapply lookup_lt_Some).
  destruct (bi_held _ _ _ Hinv _ _ Hb HbH) as (Hl & Hrc & Hv & Hr).
  assert (bio_inv i H k') as Hinv'.
  { eapply (bio_inv_insert i H H b x (set_b_data d x)); try done.
    - apply quiet_bcache, (bi_quiet _ _ _ Hinv).
    - intros b' y Hne Hy Hry _ E. apply Hne. by eapply (bi_uniq _ _ _ Hinv).
    - rewrite bool_decide_eq_true_2 by done. split_and!; done. }
  assert (k_bcache k' !! b = Some (set_b_data d x)) as Hb' by (by apply list_lookup_insert_eq).
  assert (∀ b', b' ≠ b → k_bcache k' !! b' = k_bcache k !! b') as Hoth
    by (intros b' Hne; unfold k'; cbn; by rewrite list_lookup_insert_ne).
  split_and!; [done| |].
  - intros m. destruct (Z.eqb_spec m (b_blockno x)) as [->|Hne].
    + change d with (b_data (set_b_data d x)). by eapply view_cached.
    + eapply view_ext; [exact Hinv|exact Hinv'|done| |].
      * intros b' y Hy Hhy. exists b', y. split_and!; try done. rewrite Hoth; [done|].
        intros ->. destruct Hhy as (_ & ? & _). congruence.
      * intros b' y Hy Hhy. left. exists b', y. split; [|done]. rewrite <- Hoth; [done|].
        intros ->. rewrite Hb' in Hy. simplify_eq. by destruct Hhy as (_ & ? & _).
  - intros m. split; intros (b' & y & Hy & Hr' & Hm & Hd).
    + destruct (decide (b' = b)) as [->|Hne]; [|rewrite Hoth in Hy by done; by exists b', y].
      rewrite Hb' in Hy. simplify_eq. by exists b, x.
    + destruct (decide (b' = b)) as [->|Hne]; [|rewrite <- Hoth in Hy by done; by exists b', y].
      simplify_eq. by exists b, (set_b_data d x).
Qed.

(** [bwrite] writes the buffer through to the disk. *)
Record write_post (i : nat) (H : gset nat) (k : K) (b : nat) (x : buf) (k' : K) : Prop := {
  wp_inv : bio_inv i H k';
  wp_buf : ∃ x', k_bcache k' !! b = Some x' ∧ b_blockno x' = b_blockno x ∧ b_data x' = b_data x ∧ dirty x' = false;
  wp_view m : view k' m = view k m;
  wp_other b' : b' ≠ b → k_bcache k' !! b' = k_bcache k !! b';
  wp_dirty m : dirty_block k' m ↔ m ≠ b_blockno x ∧ dirty_block k m;
  wp_clean b' : dirty (buf_at k' b') = true → dirty (buf_at k b') = true;
  wp_frame : bio_frame k k';
  wp_disk : k_disk k' = <[b_blockno x := b_data x]> (k_disk k);
  wp_writes : k_writes k' = k_writes k ++ [(b_blockno x, b_data x)]
}.

Lemma written_post i H b x k k' f :
  bio_inv i H k → b ∈ H → k_bcache k !! b = Some x → Z.testbit f 1 = true → Z.testbit f 2 = false →
  carried i (set_k_bcache (<[b := set_b_flags f x]> (k_bcache k)) (disk_write (b_blockno x) (b_data x) k)) k' →
  write_post i H k b x k'.
Proof.
  intros Hinv HbH Hb Hf1 Hf2 Hca. set (x' := set_b_flags f x) in *.
  assert (b < length (k_bcache k))%nat as Hlt by (by eapply lookup_lt_Some).
  destruct (bi_held _ _ _ Hinv _ _ Hb HbH) as (Hl & Hrc & Hv & Hr).
  assert (valid x' = true) as Hv' by (by rewrite valid_bit). assert (dirty x' = false) as Hd' by (by rewrite dirty_bit).
  assert (bio_frame k k') as Hfr.
  { eapply bio_frame_trans; [|by eapply bio_frame_carried]. split; [by destruct k|done]. }
  pose proof (ca_quiet _ _ _ Hca) as Hq. destruct Hca as [Hrest _ _].
  assert (k_bcache k' = <[b := x']> (k_bcache k)) as Hbc by (by rewrite Hrest).
  assert (k_disk k' = <[b_blockno x := b_data x]> (k_disk k)) as Hdisk by (by rewrite Hrest).
  assert (∀ m, m ≠ b_blockno x → block k' m = block k m) as Hblk
    by (intros m Hm; unfold block; by rewrite Hdisk, lookup_insert_ne).
  assert (∀ b' y, b' ≠ b → k_bcache k !! b' = Some y → root y → b_blockno y ≠ b_blockno x) as Hu
    by (intros b' y Hne Hy Hry E; apply Hne; by eapply (bi_uniq _ _ _ Hinv)).
  assert (bio_inv i H k') as Hinv'.
  { eapply (bio_inv_insert i H H b x x'); try done.
    - apply Hq. eapply quiet_ext; [..|apply (bi_quiet _ _ _ Hinv)]; done.
    - by rewrite Hrest.
    - by apply bio_frame_pid.
    - intros b' y Hne Hy Hry _. by eapply Hu.
    - intros b' y Hne Hy Hry. apply Hblk. by eapply Hu.
    - rewrite bool_decide_eq_true_2 by done. split_and!; try done; [by apply (bi_data _ _ _ Hinv b x)|].
      cbn. by rewrite (bio_frame_pid _ _ _ Hfr). }
  assert (k_bcache k' !! b = Some x') as Hb' by (rewrite Hbc; by apply list_lookup_insert_eq).
  assert (∀ b', b' ≠ b → k_bcache k' !! b' = k_bcache k !! b') as Hoth
    by (intros b' Hne; rewrite Hbc; by rewrite list_lookup_insert_ne).
  split; try done.
  - exists x'. done.
  - intros m. destruct (decide (m = b_blockno x)) as [->|Hne].
    { assert (view k (b_blockno x) = b_data x) as -> by (by eapply view_cached). change (b_data x) with (b_data x').
      by eapply view_cached. }
    eapply view_ext; [exact Hinv|exact Hinv'|by apply Hblk| |].
    + intros b' y Hy Hhy. exists b', y. split_and!; try done. rewrite Hoth; [done|].
      intros ->. destruct Hhy as (_ & ? & _). congruence.
    + intros b' y Hy Hhy. left. exists b', y. split; [|done]. rewrite <- Hoth; [done|].
      intros ->. rewrite Hb' in Hy. simplify_eq. by destruct Hhy as (_ & ? & _).
  - intros m. split.
    + intros (b' & y & Hy & Hry & Hm & Hd). destruct (decide (b' = b)) as [->|Hne].
      { rewrite Hb' in Hy. simplify_eq. congruence. }
      rewrite Hoth in Hy by done. split; [rewrite <- Hm; by eapply Hu|by exists b', y].
    + intros [Hm (b' & y & Hy & Hry & Hmy & Hd)]. exists b', y. split_and!; try done.
      rewrite Hoth; [done|]. intros ->. congruence.
  - intros b'. unfold buf_at. destruct (decide (b' = b)) as [->|Hne]; [|by rewrite Hoth].
    rewrite Hb'. cbn. congruence.
  - by rewrite Hrest.
Qed.

Lemma bwrite_spec i H b x o k :
  bio_inv i H k → b ∈ H → k_bcache k !! b = Some x → dev_serves ROOTDEV (b_blockno x) →
  ∃ k', bwrite b o k = Ret tt o k' ∧ write_post i H k b x k'.
Proof.
  intros Hinv HbH Hb Hdev. pose proof (bi_quiet _ _ _ Hinv) as Hq.
  assert (b < length (k_bcache k))%nat as Hlt by (by eapply lookup_lt_Some).
  destruct (bi_held _ _ _ Hinv _ _ Hb HbH) as (Hl & Hrc & Hv & Hr). unfold bwrite.
  kstep_with (holdingsleep_spec i (SLBuf b) o k (proj1 Hq) (quiet_free i k _ Hq)).
  replace (holdsleep (SLBuf b) (p_pid (proc_at k i)) k) with true
    by (unfold holdsleep, sl_get; rewrite Hb; cbn; rewrite Hl; cbn; by rewrite Z.eqb_refl).
  cbn [negb]. unfold bufset. kstep. rewrite bufset_insert, (buf_at_lookup _ _ _ Hb) by done.
  set (x1 := set_b_flags _ x). set (k1 := set_k_bcache _ k).
  assert (buf_at k1 b = x1) as Hb1 by (by apply buf_at_set).
  assert (dirty x1 = true) as Hd1.
  { rewrite dirty_bit. cbn [b_flags x1 set_b_flags]. rewrite Z.lor_spec. apply orb_true_r. }
  destruct (iderw_spec i b o k1) as (k' & Hio & Hca).
  - by apply quiet_bcache.
  - unfold k1. cbn. by rewrite length_insert.
  - unfold holdsleep, sl_get. fold (buf_at k1 b). rewrite Hb1. cbn. rewrite Hl. cbn. by rewrite Z.eqb_refl.
  - rewrite Hb1, Hd1. apply andb_false_r.
  - rewrite Hb1. cbn. by rewrite Hr.
  - exists k'. split; [done|]. unfold buf_sync in Hca. rewrite Hb1, Hd1 in Hca.
    eapply (written_post i H b x k k' (Z.lor (Z.land (b_flags x1) (Z.lnot B_DIRTY)) B_VALID)); try done.
    + by destruct (sync_flags (b_flags x1)).
    + by destruct (sync_flags (b_flags x1)).
    + unfold k1 in Hca. cbn in Hca. rewrite list_insert_insert_eq in Hca. exact Hca.
Qed.

(** [brelse] gives up a buffer whose contents are on the disk or pinned by
    being dirty. *)
Record release_post (i : nat) (H : gset nat) (k : K) (b : nat) (k' : K) : Prop := {
  lp_inv : bio_inv i (H ∖ {[b]}) k';
  lp_view m : view k' m = view k m;
  lp_other b' : b' ≠ b → k_bcache k' !! b' = k_bcache k !! b';
  lp_dirty m : dirty_block k' m ↔ dirty_block k m;
  lp_clean b' : dirty (buf_at k' b') = true → dirty (buf_at k b') = true;
  lp_frame : bio_frame k k';
  lp_disk : k_disk k' = k_disk k;
  lp_writes : k_writes k' = k_writes k
}.

Lemma released_post i H b x k k' :
  bio_inv i H k → b ∈ H → k_bcache k !! b = Some x →
  (dirty x = true ∨ b_data x = block k (b_blockno x)) → quiet i k' → bio_frame k k' →
  k_bcache k' = <[b := set_b_refcnt 0 (set_b_lock (mk_sl false 0) x)]> (k_bcache k) →
  k_lru k' ≡ₚ k_lru k → k_disk k' = k_disk k → k_writes k' = k_writes k →
  release_post i H k b k'.
Proof.
  intros Hinv HbH Hb Hc Hq Hfr Hbc Hlru Hdisk Hwr. set (x' := set_b_refcnt 0 _) in *.
  assert (b < length (k_bcache k))%nat as Hlt by (by eapply lookup_lt_Some).
  destruct (bi_held _ _ _ Hinv _ _ Hb HbH) as (Hl & Hrc & Hv & Hr).
  assert (∀ m, block k' m = block k m) as Hblk by (intros m; unfold block; by rewrite Hdisk).
  assert (bio_inv i (H ∖ {[b]}) k') as Hinv'.
  { eapply (bio_inv_insert i H _ b x x'); try done; [by apply bio_frame_pid|set_solver| |].
    - intros b' y Hne Hy Hry _ E. apply Hne. by eapply (bi_uniq _ _ _ Hinv).
    - rewrite bool_decide_eq_false_2 by set_solver. split_and!; try done; [by apply (bi_data _ _ _ Hinv b x)|].
      intros _ _ Hd. rewrite Hblk. destruct Hc as [Hd'|?]; [|done]. unfold dirty in *. cbn in Hd. congruence. }
  assert (k_bcache k' !! b = Some x') as Hb' by (rewrite Hbc; by apply list_lookup_insert_eq).
  assert (∀ b', b' ≠ b → k_bcache k' !! b' = k_bcache k !! b') as Hoth
    by (intros b' Hne; rewrite Hbc; by rewrite list_lookup_insert_ne).
  split; try done.
  - intros m. eapply view_ext; [exact Hinv|exact Hinv'|apply Hblk| |]; intros b' y Hy Hhy;
      (destruct (decide (b' = b)) as [->|Hne]).
    + simplify_eq. by exists b, x'.
    + exists b', y. by rewrite Hoth.
    + rewrite Hb' in Hy. simplify_eq. left. by exists b, x.
    + rewrite Hoth in Hy by done. left. by exists b', y.
  - intros m. split; intros (b' & y & Hy & Hr' & Hm & Hd); (destruct (decide (b' = b)) as [->|Hne]).
    + rewrite Hb' in Hy. simplify_eq. by exists b, x.
    + rewrite Hoth in Hy by done. by exists b', y.
    + simplify_eq. by exists b, x'.
    + exists b', y. by rewrite Hoth.
  - intros b'. unfold buf_at. destruct (decide (b' = b)) as [->|Hne]; [|by rewrite Hoth].
    by rewrite Hb', Hb.
Qed.

(** Moving a buffer to the front is a permutation of the list. *)
Lemma lru_front b l : NoDup l → b ∈ l → b :: filter (.≠ b) l ≡ₚ l.
Proof.
  intros Hnd Hin. apply NoDup_Permutation; [|done|].
  - apply NoDup_cons. split; [rewrite list_elem_of_filter; naive_solver|by apply NoDup_filter].
  - intros y. rewrite elem_of_cons, list_elem_of_filter. destruct (decide (y = b)); naive_solver.
Qed.

Lemma brelse_spec i H b x o k :
  bio_inv i H k → b ∈ H → k_bcache k !! b = Some x →
  (dirty x = true ∨ b_data x = block k (b_blockno x)) →
  ∃ k', brelse b o k = Ret tt o k' ∧ release_post i H k b k'.
Proof.
  intros Hinv HbH Hb Hc. pose proof (bi_quiet _ _ _ Hinv) as Hq. pose proof Hq as (Hidle & _).
  assert (b < length (k_bcache k))%nat as Hlt by (by eapply lookup_lt_Some).
  destruct (bi_held _ _ _ Hinv _ _ Hb HbH) as (Hl & Hrc & Hv & Hr). unfold brelse.
  kstep_with (holdingsleep_spec i (SLBuf b) o k Hidle (quiet_free i k _ Hq)).
  replace (holdsleep (SLBuf b) (p_pid (proc_at k i)) k) with true
    by (unfold holdsleep, sl_get; rewrite Hb; cbn; rewrite Hl; cbn; by rewrite Z.eqb_refl).
  cbn [negb]. kstep_with (releasesleep_free i (SLBuf b) o k Hidle (quiet_free i k _ Hq)).
  set (k1 := set_k_ptable _ _).
  assert (quiet i k1) as Hq1 by (eapply quiet_ext; [..|exact Hq]; [done|by cbn; rewrite length_fmap|done|done]).
  kstep_with (idle_free_acquire i LBcache o k1 (proj1 Hq1) (quiet_free i k1 _ Hq1)).
  unfold bufset, bufget. kstep. set (k2 := set_k_bcache _ _).
  assert (k_bcache k2 = <[b := set_b_refcnt 0 (set_b_lock (mk_sl false 0) x)]> (k_bcache k)) as Hbc.
  { unfold k2, k1. cbn [k_bcache set_k_bcache set_k_hw set_k_ptable sl_set].
    rewrite alter_alter_eq. rewrite (bufset_insert _ b k) by done. rewrite (buf_at_lookup _ _ _ Hb). cbn. by rewrite Hrc. }
  assert (buf_at k2 b = set_b_refcnt 0 (set_b_lock (mk_sl false 0) x)) as Hb2.
  { unfold buf_at. rewrite Hbc. by rewrite list_lookup_insert_eq. }
  rewrite Hb2. cbn [b_refcnt set_b_refcnt Z.eqb when]. kstep. set (k3 := set_k_lru _ k2).
  rewrite (release_acquired LBcache o k1 k3 (proj1 (proj1 Hq1)) (quiet_free i k1 _ Hq1) eq_refl).
  eexists. split; [done|]. eapply (released_post i H b x); try done.
  - split; [by destruct k|]. cbn. rewrite <- list_fmap_compose. apply list_fmap_ext. intros ? p _.
    cbn. unfold wake_proc. by destruct (_ && _).
  - apply lru_front.
    + rewrite (bi_lru _ _ _ Hinv). apply NoDup_seq.
    + apply (lru_elem _ _ _ _ Hinv). done.
Qed.
End ops.

(** ** The initial cache *)

Lemma binit_loop_run bs o k :
  h_locks (k_hw k) = ∅ → (∀ b, b ∈ bs → b_lock (buf_at k b) = mk_sl false 0) →
  binit_loop bs o k = Ret tt o (set_k_lru (reverse bs ++ k_lru k) k).
Proof.
  revert k. induction bs as [|b bs IH]; intros k Hl Hb; cbn [binit_loop]; [by destruct k|].
  unfold initsleeplock, initlock. rewrite bind_assoc. kstep. cbn [sl_set].
  rewrite Hl, delete_empty. set (k1 := set_k_lru _ _).
  assert (k1 = set_k_lru (b :: k_lru k) k) as ->.
  { unfold k1. cbn. rewrite <- Hl. replace (alter _ b (k_bcache k)) with (k_bcache k).
    - destruct k as [h]. by destruct h.
    - destruct (decide (b < length (k_bcache k))%nat) as [Hlt|Hge]; [|by rewrite alter_out by lia].
      destruct (lookup_lt_is_Some_2 _ _ Hlt) as [x Hx]. symmetry. eapply alter_id_at; [done|].
      specialize (Hb b ltac:(left)). rewrite (buf_at_lookup _ _ _ Hx) in Hb. destruct x. cbn in *. unfold set_b_lock. cbn. congruence. }
  rewrite IH; [|done|intros b' Hb'; apply Hb; by right].
  rewrite reverse_cons, <- app_assoc. done.
Qed.

(** A cache in which no buffer has been used. *)
Lemma bio_inv_unused i k :
  quiet i k → length (k_bcache k) = NBUF → k_lru k ≡ₚ seq 0 NBUF →
  (∀ b x, k_bcache k !! b = Some x → x = zero_buf) → bio_inv i ∅ k.
Proof.
  intros Hq Hlen Hlru Hx. split; try done.
  - intros b x ->%Hx. done.
  - intros b b' x x' ->%Hx. done.
  - intros b x ->%Hx. done.
  - intros b x ->%Hx _ _. done.
  - intros b x ->%Hx _. done.
Qed.

Lemma binit_run i o k :
  quiet i k → k_bcache k = replicate NBUF zero_buf →
  ∃ k', binit o k = Ret tt o k' ∧ bio_inv i ∅ k' ∧ k' = set_k_lru (k_lru k') k.
Proof.
  intros Hq Hbc. pose proof Hq as (_ & Hl & _). unfold binit, initlock. kstep. rewrite Hl, delete_empty.
  set (k1 := set_k_lru [] _). assert (k1 = set_k_lru [] k) as ->.
  { unfold k1. rewrite <- Hl. destruct k as [h]. by destruct h. }
  rewrite binit_loop_run; [|done|].
  - eexists. split; [done|]. split; [|done]. apply bio_inv_unused.
    + by eapply quiet_ext; [..|exact Hq].
    + cbn -[NBUF]. by rewrite Hbc, length_replicate.
    + cbn -[NBUF]. rewrite app_nil_r. apply reverse_Permutation.
    + cbn -[NBUF]. rewrite Hbc. intros b x Hb. by apply lookup_replicate_1 in Hb as [-> _].
  - intros b _. unfold buf_at. cbn -[NBUF]. rewrite Hbc. destruct (replicate NBUF zero_buf !! b) as [x|] eqn:E; [|done].
    by apply lookup_replicate_1 in E as [-> _].
Qed.

(** ** Properties *)

(** C25: Reading a block through the cache gives the block's current contents
    (those of a cached buffer, dirty or not, else the disk's), locks the buffer
    for the caller, and changes the contents of no block.  It succeeds whenever
    the block is cached or some buffer is free and clean. *)
Theorem bread_reads_block {DEV : BlockDev} {DEVOK : BlockDevOk DEV} i H n o k :
  bio_inv i H k → not_held H k n → cached k n ∨ avail H k → dev_serves ROOTDEV n →
  (∀ d, k_disk k !! n = Some d → length d = Z.to_nat BSIZE) →
  ∃ b k', bread ROOTDEV n o k = Ret b o k' ∧ b ∉ H ∧ bio_inv i ({[b]} ∪ H) k' ∧
    b_blockno (buf_at k' b) = n ∧ b_data (buf_at k' b) = view k n ∧ (∀ m, view k' m = view k m).
Proof.
  intros Hinv Hnh Hav Hdev Hlen. destruct (bread_spec i H n o k Hinv Hnh Hav Hdev Hlen) as (b & k' & Hrun & Hp).
  destruct (rp_buf _ _ _ _ _ _ Hp) as (x & Hx & Hn & Hd & _). exists b, k'.
  rewrite (buf_at_lookup _ _ _ Hx). split_and!; try done; apply Hp.
Qed.

Definition demo_bio : K := set_k_lru (seq 0 NBUF) (K_demo {[7 := replicate (Z.to_nat BSIZE) 5]}).

Lemma demo_bio_inv : bio_inv 0 ∅ demo_bio.
Proof.
  apply bio_inv_unused; try done.
  - by eapply quiet_ext; [..|apply (demo_quiet {[7 := replicate (Z.to_nat BSIZE) 5]})].
  - intros b x Hb. by apply (lookup_replicate_1 NBUF) in Hb as [-> _].
Qed.

Lemma bread_reads_block_witness :
  ∃ b k', @bread (memide_dev FSSIZE) ROOTDEV 7 [] demo_bio = Ret b [] k' ∧
          b_data (buf_at k' b) = replicate (Z.to_nat BSIZE) 5.
Proof.
  destruct (@bread_reads_block (memide_dev FSSIZE) _ 0 ∅ 7 [] demo_bio) as (b & k' & Hrun & _ & _ & _ & Hd & _).
  - apply demo_bio_inv.
  - intros b x Hb. set_solver.
  - right. exists 0%nat, zero_buf. split_and!; [reflexivity|set_solver|reflexivity].
  - split; reflexivity.
  - intros d Hd. vm_compute in Hd. injection Hd as <-. reflexivity.
  - exists b, k'. split; [exact Hrun|]. rewrite Hd. vm_compute. reflexivity.
Defined.

(** [bwrite] makes the contents of a held buffer durable: the disk's block
    becomes the buffer's data, exactly one disk write happens, the buffer is
    clean, and no block's contents change for the kernel. *)
Theorem bwrite_writes_through {DEV : BlockDev} {DEVOK : BlockDevOk DEV} i H b x o k :
  bio_inv i H k → b ∈ H → k_bcache k !! b = Some x → dev_serves ROOTDEV (b_blockno x) →
  ∃ k', bwrite b o k = Ret tt o k' ∧ bio_inv i H k' ∧
    block k' (b_blockno x) = b_data x ∧ k_writes k' = k_writes k ++ [(b_blockno x, b_data x)] ∧
    (∀ m, m ≠ b_blockno x → block k' m = block k m) ∧ (∀ m, view k' m = view k m) ∧
    dirty (buf_at k' b) = false.
Proof.
  intros Hinv HbH Hb Hdev. destruct (bwrite_spec i H b x o k Hinv HbH Hb Hdev) as (k' & Hrun & Hp).
  exists k'. destruct (wp_buf _ _ _ _ _ _ Hp) as (x' & Hx' & _ & _ & Hd).
  split_and!; try (by apply Hp); [done| | |by rewrite (buf_at_lookup _ _ _ Hx')].
  - unfold block. by rewrite (wp_disk _ _ _ _ _ _ Hp), lookup_insert_eq.
  - intros m Hm. unfold block. by rewrite (wp_disk _ _ _ _ _ _ Hp), lookup_insert_ne.
Qed.

(** Block 9 read, filled with sixes, and written. *)
Definition demo_held : K :=
  set_k_bcache (<[0%nat := mk_buf 2 ROOTDEV 9 (mk_sl true 1) 1 (replicate (Z.to_nat BSIZE) 6)]> (k_bcache demo_bio))
    demo_bio.

Lemma demo_held_inv : bio_inv 0 {[0%nat]} demo_held.
Proof.
  eapply (bio_inv_insert 0 ∅ {[0%nat]} 0 zero_buf _ demo_bio); try done.
  - apply demo_bio_inv.
  - by eapply quiet_ext; [..|apply (demo_quiet {[7 := replicate (Z.to_nat BSIZE) 5]})].
  - intros b Hb. set_solver.
  - intros b' y _ Hy Hr. by apply (lookup_replicate_1 NBUF) in Hy as [-> _].
Qed.

Lemma bwrite_writes_through_witness :
  ∃ k', @bwrite (memide_dev FSSIZE) 0 [] demo_held = Ret tt [] k' ∧
        block k' 9 = replicate (Z.to_nat BSIZE) 6 ∧ block k' 7 = replicate (Z.to_nat BSIZE) 5.
Proof.
  destruct (@bwrite_writes_through (memide_dev FSSIZE) _ 0 {[0%nat]} 0
    (mk_buf 2 ROOTDEV 9 (mk_sl true 1) 1 (replicate (Z.to_nat BSIZE) 6)) [] demo_held) as (k' & Hrun & _ & H9 & _ & Ho & _).
  - apply demo_held_inv.
  - by apply elem_of_singleton.
  - reflexivity.
  - split; reflexivity.
  - exists k'. split; [exact Hrun|]. split; [exact H9|]. rewrite Ho by discriminate. vm_compute. reflexivity.
Defined.
