(* ===== verification/Log.v ===== *)
(** * The write-ahead log ([log.c])

    The translation of the logging system, and its crash safety: whatever
    prefix of the disk writes of a commit has reached the disk, recovery
    restores the state before the transaction or the state after it. *)

From stdpp Require Import base numbers list gmap strings.
From S2P Require Import Prelude Mmu Hardware Memory Bytes Kernel Spinlock Kalloc Cprintf Vm Proc Sleeplock Blockdev Memide Bio.

Implicit Types (k : K) (o : oracle).

(** ** Translated code *)

Definition logget {A} (f : log_t → A) : M A := reads (λ k, f (k_log k)).
Definition logset (f : log_t → log_t) : M unit := modify (λ k, set_k_log (f (k_log k)) k).

(** [struct logheader] in a block: [n], then the block numbers. *)
Definition hdr_n (d : list Z) : Z := s32 (get32 d 0).
Definition hdr_block (d : list Z) (j : nat) : Z := s32 (get32 d (4 + 4 * j)).

(** [log.lh.block[j] = v]. *)
Definition set_lh_block (j : nat) (v : Z) (l : log_t) : log_t := set_lg_block (<[j := v]> (lg_block l)) l.
Definition lh_block (l : log_t) (j : nat) : Z := default 0 (lg_block l !! j).

Section log.
Context {DEV : BlockDev}.

Definition readsb (dev : Z) : M superblock :=
  let! bp := bread dev 1 in
  let! d := bufget b_data bp in
  brelse bp ;;;
  ret (mk_sb (get32 d 0) (get32 d 4) (get32 d 8) (get32 d 12) (get32 d 16) (get32 d 20) (get32 d 24)).

(** The body of the loop of [install_trans]. *)
Definition install_one (tail : Z) : M unit :=
  let! dev := logget lg_dev in
  let! start := logget lg_start in
  let! lbuf := bread dev (u32 (start + tail + 1)) in
  let! dst := logget (λ l, lh_block l (Z.to_nat tail)) in
  let! dbuf := bread dev (u32 dst) in
  let! d := bufget b_data lbuf in
  bufset dbuf (set_b_data d) ;;;
  bwrite dbuf ;;;
  brelse lbuf ;;;
  brelse dbuf.

Fixpoint install_loop (fuel : nat) (tail : Z) : M unit :=
  let! n := logget lg_n in
  if tail <? n then
    match fuel with
    | O => panic "out of fuel"
    | S fuel => install_one tail ;;; install_loop fuel (tail + 1)
    end
  else ret tt.

Definition install_trans : M unit :=
  let! n := logget lg_n in install_loop (Z.to_nat n) 0.

(** [for (i = 0; i < log.lh.n; i++) log.lh.block[i] = lh->block[i];] *)
Fixpoint read_blocks (n : nat) (i : nat) (d : list Z) : M unit :=
  match n with
  | O => ret tt
  | S n => logset (set_lh_block i (hdr_block d i)) ;;; read_blocks n (S i) d
  end.

Definition read_head : M unit :=
  let! dev := logget lg_dev in
  let! start := logget lg_start in
  let! buf := bread dev (u32 start) in
  let! d := bufget b_data buf in
  logset (set_lg_n (hdr_n d)) ;;;
  let! n := logget lg_n in
  read_blocks (Z.to_nat n) 0 d ;;;
  brelse buf.

(** [for (i = 0; i < log.lh.n; i++) hb->block[i] = log.lh.block[i];] *)
Fixpoint put_blocks (n : nat) (i : nat) (l : log_t) (d : list Z) : list Z :=
  match n with
  | O => d
  | S n => put_blocks n (S i) l (put32 d (4 + 4 * i) (lh_block l i))
  end.
Definition put_header (l : log_t) (d : list Z) : list Z :=
  put_blocks (Z.to_nat (lg_n l)) 0 l (put32 d 0 (lg_n l)).

Definition write_head : M unit :=
  let! dev := logget lg_dev in
  let! start := logget lg_start in
  let! buf := bread dev (u32 start) in
  let! l := logget id in
  bufset buf (λ x, set_b_data (put_header l (b_data x)) x) ;;;
  bwrite buf ;;;
  brelse buf.

Definition recover_from_log : M unit :=
  read_head ;;;
  install_trans ;;;
  logset (set_lg_n 0) ;;;
  write_head.

Definition initlog (dev : Z) : M unit :=
  if BSIZE <=? 4 + 4 * Z.of_nat LOGSIZE then panic "initlog: too big logheader"
  else
    initlock LLog ;;;
    let! sb := readsb dev in
    logset (set_lg_start (sb_logstart sb)) ;;;
    logset (set_lg_size (sb_nlog sb)) ;;;
    logset (set_lg_dev dev) ;;;
    recover_from_log.

(** The condition under which [begin_op] sleeps. *)
Definition log_busy (k : K) : bool :=
  let l := k_log k in
  lg_committing l ||
  (Z.of_nat LOGSIZE <? lg_n l + (lg_outstanding l + 1) * Z.of_nat MAXOPBLOCKS).

Definition begin_op : M unit :=
  acquire LLog ;;;
  sleep_while log_busy CLog LLog ;;;
  logset (λ l, set_lg_outstanding (lg_outstanding l + 1) l) ;;;
  release LLog.

Definition write_log_one (tail : Z) : M unit :=
  let! dev := logget lg_dev in
  let! start := logget lg_start in
  let! to := bread dev (u32 (start + tail + 1)) in
  let! src := logget (λ l, lh_block l (Z.to_nat tail)) in
  let! from := bread dev (u32 src) in
  let! d := bufget b_data from in
  bufset to (set_b_data d) ;;;
  bwrite to ;;;
  brelse from ;;;
  brelse to.

Fixpoint write_log_loop (fuel : nat) (tail : Z) : M unit :=
  let! n := logget lg_n in
  if tail <? n then
    match fuel with
    | O => panic "out of fuel"
    | S fuel => write_log_one tail ;;; write_log_loop fuel (tail + 1)
    end
  else ret tt.

Definition write_log : M unit :=
  let! n := logget lg_n in write_log_loop (Z.to_nat n) 0.

Definition commit : M unit :=
  let! n := logget lg_n in
  when (0 <? n)
    (write_log ;;;
     write_head ;;;
     install_trans ;;;
     logset (set_lg_n 0) ;;;
     write_head).

Definition end_op : M unit :=
  acquire LLog ;;;
  logset (λ l, set_lg_outstanding (lg_outstanding l - 1) l) ;;;
  let! committing := logget lg_committing in
  if committing : bool then panic "log.committing"
  else
    let! outstanding := logget lg_outstanding in
    let do_commit := outstanding =? 0 in
    (if do_commit then logset (set_lg_committing true) else wakeup CLog) ;;;
    release LLog ;;;
    when do_commit
      (commit ;;;
       acquire LLog ;;;
       logset (set_lg_committing false) ;;;
       wakeup CLog ;;;
       release LLog).

(** The search for the block among the logged ones, then the update. *)
Definition log_slot (l : log_t) (blockno : Z) : nat :=
  match list_find (λ v, v = blockno) (take (Z.to_nat (lg_n l)) (lg_block l)) with
  | Some (j, _) => j
  | None => Z.to_nat (lg_n l)
  end.

Definition log_write (b : nat) : M unit :=
  let! l := logget id in
  if (Z.of_nat LOGSIZE <=? lg_n l) || (lg_size l - 1 <=? lg_n l) then panic "too big a transaction"
  else if lg_outstanding l <? 1 then panic "log_write outside of trans"
  else
    acquire LLog ;;;
    let! l := logget id in
    let! blockno := bufget b_blockno b in
    let j := log_slot l (s32 blockno) in
    logset (set_lh_block j (s32 blockno)) ;;;
    when (Z.of_nat j =? lg_n l) (logset (λ l, set_lg_n (lg_n l + 1) l)) ;;;
    bufset b (λ x, set_b_flags (Z.lor (b_flags x) B_DIRTY) x) ;;;
    release LLog.
End log.

(** ** One block written through the cache *)

Definition disk_wf (k : K) : Prop := ∀ n d, k_disk k !! n = Some d → length d = Z.to_nat BSIZE.

(** Two buffers can be recycled. *)
Definition avail2 (k : K) : Prop :=
  ∃ b1 b2 x1 x2, b1 ≠ b2 ∧ k_bcache k !! b1 = Some x1 ∧ k_bcache k !! b2 = Some x2 ∧
                 dirty x1 = false ∧ dirty x2 = false.

Lemma avail_clean k k' :
  length (k_bcache k') = length (k_bcache k) →
  (∀ b, dirty (buf_at k' b) = true → dirty (buf_at k b) = true) → avail ∅ k → avail ∅ k'.
Proof.
  intros Hlen Hcl (b & x & Hb & _ & Hd).
  destruct (lookup_lt_is_Some_2 (k_bcache k') b) as [x' Hx']; [rewrite Hlen; by eapply lookup_lt_Some|].
  exists b, x'. split_and!; [done|set_solver|]. specialize (Hcl b).
  rewrite (buf_at_lookup _ _ _ Hb), (buf_at_lookup _ _ _ Hx'), Hd in Hcl. destruct (dirty x'); naive_solver.
Qed.

Lemma avail2_clean k k' :
  length (k_bcache k') = length (k_bcache k) →
  (∀ b, dirty (buf_at k' b) = true → dirty (buf_at k b) = true) → avail2 k → avail2 k'.
Proof.
  intros Hlen Hcl (b1 & b2 & x1 & x2 & Hne & Hb1 & Hb2 & Hd1 & Hd2).
  destruct (lookup_lt_is_Some_2 (k_bcache k') b1) as [y1 Hy1]; [rewrite Hlen; by eapply lookup_lt_Some|].
  destruct (lookup_lt_is_Some_2 (k_bcache k') b2) as [y2 Hy2]; [rewrite Hlen; by eapply lookup_lt_Some|].
  pose proof (Hcl b1) as C1. pose proof (Hcl b2) as C2.
  rewrite (buf_at_lookup _ _ _ Hb1), (buf_at_lookup _ _ _ Hy1), Hd1 in C1.
  rewrite (buf_at_lookup _ _ _ Hb2), (buf_at_lookup _ _ _ Hy2), Hd2 in C2.
  exists b1, b2, y1, y2. split_and!; try done; [destruct (dirty y1)|destruct (dirty y2)]; naive_solver.
Qed.

(** The effect of writing [d] to block [n], with no buffer held before or after. *)
Record wrote (i : nat) (k : K) (n : Z) (d : list Z) (k' : K) : Prop := {
  wr_len : length d = Z.to_nat BSIZE;
  wr_inv : bio_inv i ∅ k';
  wr_view m : view k' m = if m =? n then d else view k m;
  wr_dirty m : dirty_block k' m ↔ m ≠ n ∧ dirty_block k m;
  wr_clean b : dirty (buf_at k' b) = true → dirty (buf_at k b) = true;
  wr_frame : bio_frame k k';
  wr_disk : k_disk k' = <[n := d]> (k_disk k);
  wr_writes : k_writes k' = k_writes k ++ [(n, d)]
}.

Section steps.
Context {DEV : BlockDev} {DEVOK : BlockDevOk DEV}.

(** Storing [d] in a held buffer and writing it. *)
Lemma store_spec i H b x d o k {A} (f : M A) :
  bio_inv i H k → b ∈ H → k_bcache k !! b = Some x → length d = Z.to_nat BSIZE →
  dev_serves ROOTDEV (b_blockno x) →
  ∃ k' x', (bufset b (set_b_data d) ;;; bwrite b ;;; f) o k = f o k' ∧
    bio_inv i H k' ∧ k_bcache k' !! b = Some x' ∧ b_blockno x' = b_blockno x ∧ b_data x' = d ∧
    (∀ m, view k' m = if m =? b_blockno x then d else view k m) ∧
    (∀ b', b' ≠ b → k_bcache k' !! b' = k_bcache k !! b') ∧
    (∀ m, dirty_block k' m ↔ m ≠ b_blockno x ∧ dirty_block k m) ∧
    (∀ b', dirty (buf_at k' b') = true → dirty (buf_at k b') = true) ∧
    bio_frame k k' ∧ k_disk k' = <[b_blockno x := d]> (k_disk k) ∧
    k_writes k' = k_writes k ++ [(b_blockno x, d)].
Proof.
  intros Hinv HbH Hb Hlen Hdev. assert (b < length (k_bcache k))%nat as Hlt by (by eapply lookup_lt_Some).
  destruct (data_inv i H b x d k Hinv HbH Hb Hlen) as (Hinv1 & Hv1 & Hd1).
  unfold bufset. kstep. rewrite bufset_insert, (buf_at_lookup _ _ _ Hb) by done. set (k1 := set_k_bcache _ k) in *.
  assert (k_bcache k1 !! b = Some (set_b_data d x)) as Hb1 by (by apply list_lookup_insert_eq).
  destruct (bwrite_spec i H b (set_b_data d x) o k1 Hinv1 HbH Hb1 Hdev) as (k' & Hrun & Hw).
  kstep_with Hrun. destruct (wp_buf _ _ _ _ _ _ Hw) as (x' & Hb' & Hn' & Hdt & _).
  exists k', x'. split; [done|]. split_and!; try done.
  - apply (wp_inv _ _ _ _ _ _ Hw).
  - intros m. by rewrite (wp_view _ _ _ _ _ _ Hw), Hv1.
  - intros b' Hne. rewrite (wp_other _ _ _ _ _ _ Hw) by done. unfold k1. cbn. by rewrite list_lookup_insert_ne.
  - intros m. by rewrite (wp_dirty _ _ _ _ _ _ Hw), Hd1.
  - intros b' Hd%(wp_clean _ _ _ _ _ _ Hw). unfold buf_at in *. destruct (decide (b' = b)) as [->|Hne].
    + rewrite Hb1 in Hd. by rewrite Hb.
    + unfold k1 in Hd. cbn in Hd. by rewrite list_lookup_insert_ne in Hd by done.
  - eapply bio_frame_trans; [apply bio_frame_bcache|apply (wp_frame _ _ _ _ _ _ Hw)].
  - apply (wp_disk _ _ _ _ _ _ Hw).
  - apply (wp_writes _ _ _ _ _ _ Hw).
Qed.

Lemma store_release_two i H s t xs xt d o k :
  bio_inv i H k → H = {[s]} ∪ {[t]} → s ≠ t →
  k_bcache k !! s = Some xs → k_bcache k !! t = Some xt →
  (dirty xs = true ∨ b_data xs = block k (b_blockno xs)) →
  length d = Z.to_nat BSIZE → dev_serves ROOTDEV (b_blockno xt) →
  ∃ k', (bufset t (set_b_data d) ;;; bwrite t ;;; brelse s ;;; brelse t) o k = Ret tt o k' ∧
        wrote i k (b_blockno xt) d k'.
Proof.
  intros Hinv HH Hne Hs Ht Hc Hlen Hdev.
  destruct (store_spec i H t xt d o k (brelse s ;;; brelse t)) as
    (k1 & xt' & Hrun & Hinv1 & Ht1 & Hn1 & Hdt1 & Hv1 & Ho1 & Hd1 & Hcl1 & Hf1 & Hdisk1 & Hw1);
    [done|set_solver|done|done|done|].
  rewrite Hrun. assert (b_blockno xs ≠ b_blockno xt) as Hnn.
  { intros E. apply Hne. eapply (bi_uniq _ _ _ Hinv); [exact Hs|exact Ht|..|done];
      eapply (bi_held _ _ _ Hinv); try done; set_solver. }
  assert (k_bcache k1 !! s = Some xs) as Hs1 by (by rewrite Ho1).
  destruct (brelse_spec i H s xs o k1) as (k2 & Hrun2 & Hp2); [done|set_solver|done| |].
  { destruct Hc as [?|Hc]; [by left|right]. rewrite Hc. unfold block. by rewrite Hdisk1, lookup_insert_ne. }
  kstep_with Hrun2.
  assert (k_bcache k2 !! t = Some xt') as Ht2 by (by rewrite (lp_other _ _ _ _ _ Hp2)).
  destruct (brelse_spec i (H ∖ {[s]}) t xt' o k2) as (k3 & Hrun3 & Hp3);
    [apply (lp_inv _ _ _ _ _ Hp2)|set_solver|done| |].
  { right. rewrite Hdt1, Hn1. unfold block. by rewrite (lp_disk _ _ _ _ _ Hp2), Hdisk1, lookup_insert_eq. }
  exists k3. split; [done|]. split.
  - done.
  - replace ∅ with (H ∖ {[s]} ∖ {[t]}) by set_solver. apply (lp_inv _ _ _ _ _ Hp3).
  - intros m. by rewrite (lp_view _ _ _ _ _ Hp3), (lp_view _ _ _ _ _ Hp2).
  - intros m. by rewrite (lp_dirty _ _ _ _ _ Hp3), (lp_dirty _ _ _ _ _ Hp2).
  - intros b Hb. by apply Hcl1, (lp_clean _ _ _ _ _ Hp2), (lp_clean _ _ _ _ _ Hp3).
  - eapply bio_frame_trans; [exact Hf1|]. eapply bio_frame_trans; [apply (lp_frame _ _ _ _ _ Hp2)|apply (lp_frame _ _ _ _ _ Hp3)].
  - by rewrite (lp_disk _ _ _ _ _ Hp3), (lp_disk _ _ _ _ _ Hp2).
  - by rewrite (lp_writes _ _ _ _ _ Hp3), (lp_writes _ _ _ _ _ Hp2).
Qed.

(** Reading two different blocks, the second dirty or with room for both. *)
Lemma bread_two i n m o k :
  bio_inv i ∅ k → disk_wf k → n ≠ m → cached k n ∨ avail ∅ k → dirty_block k m ∨ avail2 k →
  dev_serves ROOTDEV n → dev_serves ROOTDEV m →
  ∃ a b xa xb k1 k', bread ROOTDEV n o k = Ret a o k1 ∧ k_log k1 = k_log k ∧ bread ROOTDEV m o k1 = Ret b o k' ∧
    bio_inv i ({[a]} ∪ {[b]}) k' ∧ a ≠ b ∧
    k_bcache k' !! a = Some xa ∧ b_blockno xa = n ∧ b_data xa = view k n ∧
      (dirty xa = true ∨ b_data xa = block k' n) ∧
    k_bcache k' !! b = Some xb ∧ b_blockno xb = m ∧ b_data xb = view k m ∧
      (dirty xb = true ∨ b_data xb = block k' m) ∧
    (∀ m, view k' m = view k m) ∧ (∀ m, dirty_block k' m ↔ dirty_block k m) ∧
    (∀ b', dirty (buf_at k' b') = true → dirty (buf_at k b') = true) ∧
    bio_frame k k' ∧ k_disk k' = k_disk k ∧ k_writes k' = k_writes k.
Proof.
  intros Hinv Hwf Hne Hc1 Hc2 Hs1 Hs2.
  destruct (bread_spec i ∅ n o k) as (a & k1 & Hrun1 & R1); [done|done|done|done|by apply Hwf|].
  destruct (rp_buf _ _ _ _ _ _ R1) as (xa & Ha & Hna & Hda & Hca).
  assert (not_held ({[a]} ∪ ∅) k1 m) as Hnh.
  { intros b' y Hb' Hy. assert (b' = a) as -> by set_solver. simplify_eq. congruence. }
  assert (cached k1 m ∨ avail ({[a]} ∪ ∅) k1) as Hc2'.
  { destruct Hc2 as [Hd|(b1 & b2 & x1 & x2 & Hbb & Hb1 & Hb2 & Hd1 & Hd2)].
    - left. apply (rp_dirty _ _ _ _ _ _ R1) in Hd as (b & x & ? & ? & ? & _). by exists b, x.
    - right. destruct (decide (b1 = a)) as [->|Hb1a].
      + exists b2, x2. rewrite (rp_other _ _ _ _ _ _ R1) by done. split_and!; [done|set_solver|done].
      + exists b1, x1. rewrite (rp_other _ _ _ _ _ _ R1) by done. split_and!; [done|set_solver|done]. }
  destruct (bread_spec i ({[a]} ∪ ∅) m o k1) as (b & k2 & Hrun2 & R2);
    [apply (rp_inv _ _ _ _ _ _ R1)|done|done|done|rewrite (rp_disk _ _ _ _ _ _ R1); apply Hwf|].
  destruct (rp_buf _ _ _ _ _ _ R2) as (xb & Hb & Hnb & Hdb & Hcb).
  assert (a ≠ b) as Hab by (pose proof (rp_new _ _ _ _ _ _ R2); set_solver).
  assert (k_disk k2 = k_disk k) as Hdisk by (by rewrite (rp_disk _ _ _ _ _ _ R2), (rp_disk _ _ _ _ _ _ R1)).
  assert (∀ m, view k1 m = view k m) as Hv1 by apply (rp_view _ _ _ _ _ _ R1).
  exists a, b, xa, xb, k1, k2. split; [done|].
  split; [by rewrite (bf_rest _ _ (rp_frame _ _ _ _ _ _ R1))|]. split_and!; try done.
  - replace ({[a]} ∪ {[b]} : gset nat) with ({[b]} ∪ ({[a]} ∪ ∅) : gset nat) by set_solver.
    apply (rp_inv _ _ _ _ _ _ R2).
  - by rewrite (rp_other _ _ _ _ _ _ R2).
  - destruct (dirty xa); [by left|right]. rewrite Hda, Hca by done. unfold block. by rewrite Hdisk.
  - by rewrite Hdb, Hv1.
  - destruct (dirty xb); [by left|right]. rewrite Hdb, Hcb by done. unfold block.
    by rewrite Hdisk, (rp_disk _ _ _ _ _ _ R1).
  - intros m'. by rewrite (rp_view _ _ _ _ _ _ R2).
  - intros m'. by rewrite (rp_dirty _ _ _ _ _ _ R2), (rp_dirty _ _ _ _ _ _ R1).
  - intros b' Hd. by apply (rp_clean _ _ _ _ _ _ R1), (rp_clean _ _ _ _ _ _ R2).
  - eapply bio_frame_trans; [apply (rp_frame _ _ _ _ _ _ R1)|apply (rp_frame _ _ _ _ _ _ R2)].
  - by rewrite (rp_writes _ _ _ _ _ _ R2), (rp_writes _ _ _ _ _ _ R1).
Qed.
End steps.

(** ** The log on the disk *)

(** The blocks of the current transaction. *)
Definition logged (l : log_t) : list Z := take (Z.to_nat (lg_n l)) (lg_block l).

Definition in_log (st sz m : Z) : Prop := st ≤ m < st + sz.

(** The in-memory log: where it is on the disk, and blocks to be written that
    are different, on the disk and outside the log. *)
Record log_ok (st sz : Z) (l : log_t) : Prop := {
  lo_start : lg_start l = st;
  lo_size : lg_size l = sz;
  lo_dev : lg_dev l = ROOTDEV;
  lo_n : 0 ≤ lg_n l < sz;
  lo_max : lg_n l ≤ Z.of_nat LOGSIZE;
  lo_len : length (lg_block l) = LOGSIZE;
  lo_range m : m ∈ logged l → 0 ≤ m < FSSIZE ∧ ¬ in_log st sz m;
  lo_nodup : NoDup (logged l)
}.

Lemma logged_lookup st sz l t :
  log_ok st sz l → 0 ≤ t < lg_n l → logged l !! Z.to_nat t = Some (lh_block l (Z.to_nat t)).
Proof.
  intros Hl Ht. unfold logged, lh_block. rewrite lookup_take_lt by lia.
  destruct (lookup_lt_is_Some_2 (lg_block l) (Z.to_nat t)) as [v ->]; [|done].
  rewrite (lo_len _ _ _ Hl). pose proof (lo_max _ _ _ Hl). lia.
Qed.

Lemma logged_length st sz l : log_ok st sz l → length (logged l) = Z.to_nat (lg_n l).
Proof.
  intros Hl. unfold logged. rewrite length_take, (lo_len _ _ _ Hl). pose proof (lo_max _ _ _ Hl).
  pose proof (lo_n _ _ _ Hl). lia.
Qed.

(** [wrote] after steps that only read. *)
Lemma wrote_after i k k1 n d k' :
  (∀ m, view k1 m = view k m) → (∀ m, dirty_block k1 m ↔ dirty_block k m) →
  (∀ b, dirty (buf_at k1 b) = true → dirty (buf_at k b) = true) →
  bio_frame k k1 → k_disk k1 = k_disk k → k_writes k1 = k_writes k →
  wrote i k1 n d k' → wrote i k n d k'.
Proof.
  intros Hv Hd Hcl Hf Hdisk Hw [W0 W1 W2 W3 W4 W5 W6 W7]. split.
  - done.
  - done.
  - intros m. by rewrite W2, Hv.
  - intros m. by rewrite W3, Hd.
  - auto.
  - by eapply bio_frame_trans.
  - by rewrite W6, Hdisk.
  - by rewrite W7, Hw.
Qed.

(** *** Sequences of writes *)

Definition apply_writes (ws : list (Z * list Z)) (d : gmap Z (list Z)) : gmap Z (list Z) :=
  foldl (λ d w, <[w.1 := w.2]> d) d ws.

(** The contents of a block after the writes [ws]. *)
Definition overlay (ws : list (Z * list Z)) (f : Z → list Z) (m : Z) : list Z :=
  foldl (λ c w, if m =? w.1 then w.2 else c) (f m) ws.

(** No buffer is held, one can be recycled, and the disk holds blocks. *)
Definition ready (i : nat) (k : K) : Prop := bio_inv i ∅ k ∧ disk_wf k ∧ avail ∅ k.

Record wrote_all (i : nat) (k : K) (ws : list (Z * list Z)) (k' : K) : Prop := {
  wa_ready : ready i k';
  wa_view m : view k' m = overlay ws (view k) m;
  wa_dirty m : dirty_block k' m ↔ m ∉ ws.*1 ∧ dirty_block k m;
  wa_clean b : dirty (buf_at k' b) = true → dirty (buf_at k b) = true;
  wa_frame : bio_frame k k';
  wa_disk : k_disk k' = apply_writes ws (k_disk k);
  wa_writes : k_writes k' = k_writes k ++ ws
}.

Lemma wrote_ready i k n d k' : ready i k → wrote i k n d k' → ready i k'.
Proof.
  intros (Hinv & Hwf & Hav) Hw. split_and!.
  - apply (wr_inv _ _ _ _ _ Hw).
  - intros m e. rewrite (wr_disk _ _ _ _ _ Hw). destruct (decide (n = m)) as [->|Hne].
    + rewrite lookup_insert_eq. intros [= <-]. apply (wr_len _ _ _ _ _ Hw).
    + rewrite lookup_insert_ne by done. apply Hwf.
  - eapply avail_clean; [|apply (wr_clean _ _ _ _ _ Hw)|done].
    by rewrite (bi_len _ _ _ (wr_inv _ _ _ _ _ Hw)), (bi_len _ _ _ Hinv).
Qed.

Lemma wrote_all_nil i k : ready i k → wrote_all i k [] k.
Proof.
  intros Hr. split; try done.
  - intros m. cbn. split; [intros; split; [by apply not_elem_of_nil|done]|by intros [_ ?]].
  - apply bio_frame_refl.
  - by rewrite app_nil_r.
Qed.

Lemma wrote_all_app i k ws k1 ws' k' :
  wrote_all i k ws k1 → wrote_all i k1 ws' k' → wrote_all i k (ws ++ ws') k'.
Proof.
  intros W V. split.
  - apply V.
  - intros m. rewrite (wa_view _ _ _ _ V). unfold overlay. by rewrite foldl_app, (wa_view _ _ _ _ W).
  - intros m. rewrite (wa_dirty _ _ _ _ V), (wa_dirty _ _ _ _ W), fmap_app, not_elem_of_app. tauto.
  - intros b Hb. by apply (wa_clean _ _ _ _ W), (wa_clean _ _ _ _ V).
  - eapply bio_frame_trans; [apply W|apply V].
  - rewrite (wa_disk _ _ _ _ V), (wa_disk _ _ _ _ W). unfold apply_writes. by rewrite foldl_app.
  - by rewrite (wa_writes _ _ _ _ V), (wa_writes _ _ _ _ W), app_assoc.
Qed.

Lemma wrote_all_one i k n d k' : ready i k → wrote i k n d k' → wrote_all i k [(n, d)] k'.
Proof.
  intros Hr Hw. split; try apply Hw.
  - by eapply wrote_ready.
  - intros m. rewrite (wr_dirty _ _ _ _ _ Hw). cbn. rewrite list_elem_of_singleton. done.
Qed.

Lemma overlay_out ws f m : m ∉ ws.*1 → overlay ws f m = f m.
Proof.
  unfold overlay. generalize (f m). induction ws as [|[n d] ws IH]; intros c Hm; cbn; [done|].
  cbn in Hm. rewrite not_elem_of_cons in Hm. destruct Hm as [Hn Hm].
  rewrite IH by done. by rewrite (proj2 (Z.eqb_neq m n)).
Qed.

Lemma overlay_const ws f m c :
  (∀ d, (m, d) ∈ ws → d = c) → m ∈ ws.*1 ∨ f m = c → overlay ws f m = c.
Proof.
  intros Hc Hm. unfold overlay.
  assert (f m = c ∨ m ∈ ws.*1) as Hm' by tauto. clear Hm. generalize (f m) as e, Hm'. clear Hm'.
  induction ws as [|[n d] ws IH]; intros e He; cbn.
  - destruct He as [?|?%elem_of_nil]; done.
  - apply IH; [intros; apply Hc; by right|]. destruct (Z.eqb_spec m n) as [->|Hne].
    + left. apply Hc. by left.
    + destruct He as [?|He]; [by left|right]. cbn in He. apply elem_of_cons in He as [?|?]; done.
Qed.

Lemma apply_writes_out ws d m : m ∉ ws.*1 → apply_writes ws d !! m = d !! m.
Proof.
  revert d. induction ws as [|[n e] ws IH]; intros d Hm; cbn; [done|].
  cbn in Hm. rewrite not_elem_of_cons in Hm. destruct Hm as [Hn Hm].
  unfold apply_writes in IH. rewrite IH by done. by rewrite lookup_insert_ne.
Qed.

Lemma wrote_all_log i k ws k' : wrote_all i k ws k' → k_log k' = k_log k.
Proof. intros W. by rewrite (bf_rest _ _ (wa_frame _ _ _ _ W)). Qed.

Section disk_log.
Context {DEV : BlockDev} {DEVOK : BlockDevOk DEV} (st sz : Z).
Hypothesis Hst : 0 ≤ st.
Hypothesis Hsz : st + sz ≤ FSSIZE.
Hypothesis Hserve : ∀ m, 0 ≤ m < FSSIZE → dev_serves ROOTDEV m.

Lemma write_log_one_spec i t o k :
  bio_inv i ∅ k → disk_wf k → avail ∅ k → log_ok st sz (k_log k) → 0 ≤ t < lg_n (k_log k) →
  (∀ m, dirty_block k m ↔ m ∈ logged (k_log k)) →
  ∃ k', write_log_one t o k = Ret tt o k' ∧
        wrote i k (st + t + 1) (view k (lh_block (k_log k) (Z.to_nat t))) k'.
Proof.
  intros Hinv Hwf Hav Hl Ht Hd. pose proof (lo_n _ _ _ Hl).
  pose proof (logged_lookup _ _ _ t Hl Ht) as Hlk. apply list_elem_of_lookup_2 in Hlk.
  destruct (lo_range _ _ _ Hl _ Hlk) as [Hr Hout]. set (src := lh_block (k_log k) (Z.to_nat t)) in *.
  unfold in_log in Hout. unfold FSSIZE in *.
  destruct (bread_two i (st + t + 1) src o k)
    as (a & b & xa & xb & k1 & k2 & Hrun1 & Hlog1 & Hrun2 & Hinv2 & Hab & Ha & Hna & Hda & Hca & Hb & Hnb & Hdb & Hcb &
        Hv2 & Hd2 & Hcl2 & Hf2 & Hdisk2 & Hw2);
    [done|done|lia|by right|left; by apply Hd|apply Hserve; unfold FSSIZE; lia|apply Hserve; unfold FSSIZE; lia|].
  unfold write_log_one, logget. kstep. rewrite (lo_dev _ _ _ Hl), (lo_start _ _ _ Hl), u32_small by lia.
  kstep_with Hrun1. kstep. rewrite Hlog1. fold src. rewrite u32_small by lia. kstep_with Hrun2.
  unfold bufget. kstep. rewrite (buf_at_lookup _ _ _ Hb), Hdb.
  destruct (store_release_two i ({[a]} ∪ {[b]}) b a xb xa (view k src) o k2) as (k' & Hrun & Hw);
    [done|set_solver|done|done|done|by rewrite Hnb| |rewrite Hna; apply Hserve; unfold FSSIZE; lia|].
  { eapply view_length; [exact Hinv|apply Hwf]. }
  exists k'. split; [done|]. rewrite Hna in Hw. by eapply wrote_after.
Qed.

Lemma install_one_spec i t o k :
  bio_inv i ∅ k → disk_wf k → avail ∅ k → log_ok st sz (k_log k) → 0 ≤ t < lg_n (k_log k) →
  let dst := lh_block (k_log k) (Z.to_nat t) in
  dirty_block k dst ∨ avail2 k →
  ∃ k', install_one t o k = Ret tt o k' ∧ wrote i k dst (view k (st + t + 1)) k'.
Proof.
  intros Hinv Hwf Hav Hl Ht dst Hd. pose proof (lo_n _ _ _ Hl).
  pose proof (logged_lookup _ _ _ t Hl Ht) as Hlk. apply list_elem_of_lookup_2 in Hlk.
  destruct (lo_range _ _ _ Hl _ Hlk) as [Hr Hout]. fold dst in Hr, Hout, Hlk.
  unfold in_log in Hout. unfold FSSIZE in *.
  destruct (bread_two i (st + t + 1) dst o k)
    as (a & b & xa & xb & k1 & k2 & Hrun1 & Hlog1 & Hrun2 & Hinv2 & Hab & Ha & Hna & Hda & Hca & Hb & Hnb & Hdb & Hcb &
        Hv2 & Hd2 & Hcl2 & Hf2 & Hdisk2 & Hw2);
    [done|done|lia|by right|done|apply Hserve; unfold FSSIZE; lia|apply Hserve; unfold FSSIZE; lia|].
  unfold install_one, logget. kstep. rewrite (lo_dev _ _ _ Hl), (lo_start _ _ _ Hl), u32_small by lia.
  kstep_with Hrun1. kstep. rewrite Hlog1. fold dst. rewrite u32_small by lia. kstep_with Hrun2.
  unfold bufget. kstep. rewrite (buf_at_lookup _ _ _ Ha), Hda.
  destruct (store_release_two i ({[a]} ∪ {[b]}) a b xa xb (view k (st + t + 1)) o k2) as (k' & Hrun & Hw);
    [done|set_solver|done|done|done|by rewrite Hna| |rewrite Hnb; apply Hserve; unfold FSSIZE; lia|].
  { eapply view_length; [exact Hinv|apply Hwf]. }
  exists k'. split; [done|]. rewrite Hnb in Hw. by eapply wrote_after.
Qed.

Lemma length_put_blocks n i l d : length (put_blocks n i l d) = length d.
Proof. revert i d. induction n as [|n IH]; intros i d; cbn [put_blocks]; [done|]. by rewrite IH, length_put32. Qed.

Lemma length_put_header l d : length (put_header l d) = length d.
Proof. unfold put_header. by rewrite length_put_blocks, length_put32. Qed.

Lemma write_head_spec i o k :
  bio_inv i ∅ k → disk_wf k → avail ∅ k → log_ok st sz (k_log k) →
  ∃ k', write_head o k = Ret tt o k' ∧ wrote i k st (put_header (k_log k) (view k st)) k'.
Proof.
  intros Hinv Hwf Hav Hl. pose proof (lo_n _ _ _ Hl). unfold FSSIZE in *.
  assert (dev_serves ROOTDEV st) as Hss by (apply Hserve; unfold FSSIZE; lia).
  destruct (bread_spec i ∅ st o k) as (b & k1 & Hrun1 & R1); [done|done|by right|done|apply Hwf|].
  unfold write_head, logget. kstep. rewrite (lo_dev _ _ _ Hl), (lo_start _ _ _ Hl), u32_small by lia.
  kstep_with Hrun1. kstep. replace (k_log k1) with (k_log k) by (by rewrite (bf_rest _ _ (rp_frame _ _ _ _ _ _ R1))).
  unfold id. set (l := k_log k). destruct (rp_buf _ _ _ _ _ _ R1) as (x & Hb & Hn & Hdt & _).
  set (d := put_header l (view k st)).
  assert (length d = Z.to_nat BSIZE) as Hlen.
  { unfold d. rewrite length_put_header. eapply view_length; [exact Hinv|apply Hwf]. }
  assert (bufset b (λ x, set_b_data (put_header l (b_data x)) x) o k1 = bufset b (set_b_data d) o k1) as Hset.
  { unfold bufset, modify. do 2 f_equal. eapply alter_ext_at; [exact Hb|]. by rewrite Hdt. }
  unfold bind at 1. rewrite Hset.
  destruct (store_spec i ({[b]} ∪ ∅) b x d o k1 (brelse b)) as
    (k2 & x' & Hrun & Hinv2 & Hb2 & Hn2 & Hdt2 & Hv2 & Ho2 & Hd2 & Hcl2 & Hf2 & Hdisk2 & Hw2);
    [apply (rp_inv _ _ _ _ _ _ R1)|set_solver|done|done|by rewrite Hn|].
  unfold bind at 1 in Hrun. rewrite Hrun. rewrite Hn in *.
  destruct (brelse_spec i ({[b]} ∪ ∅) b x' o k2) as (k3 & Hrun3 & R3); [done|set_solver|done| |].
  { right. rewrite Hdt2, Hn2. unfold block. by rewrite Hdisk2, lookup_insert_eq. }
  exists k3. split; [done|]. apply (wrote_after i k k1); try apply R1. split.
  - done.
  - replace ∅ with (({[b]} ∪ ∅) ∖ {[b]} : gset nat) by set_solver. apply (lp_inv _ _ _ _ _ R3).
  - intros m. by rewrite (lp_view _ _ _ _ _ R3).
  - intros m. by rewrite (lp_dirty _ _ _ _ _ R3).
  - intros b' Hb'. by apply Hcl2, (lp_clean _ _ _ _ _ R3).
  - eapply bio_frame_trans; [exact Hf2|apply (lp_frame _ _ _ _ _ R3)].
  - by rewrite (lp_disk _ _ _ _ _ R3).
  - by rewrite (lp_writes _ _ _ _ _ R3).
Qed.

(** *** The writes of a commit *)

(** The [n] logged blocks from the [t]-th on, copied to the log. *)
Fixpoint log_writes (V : Z → list Z) (l : log_t) (n : nat) (t : Z) : list (Z * list Z) :=
  match n with
  | O => []
  | S n => (st + t + 1, V (lh_block l (Z.to_nat t))) :: log_writes V l n (t + 1)
  end.

(** The same blocks, with the contents [D], written to their home locations. *)
Fixpoint home_writes (D : Z → list Z) (l : log_t) (n : nat) (t : Z) : list (Z * list Z) :=
  match n with
  | O => []
  | S n => (lh_block l (Z.to_nat t), D t) :: home_writes D l n (t + 1)
  end.

Lemma elem_of_log_writes V l n t w :
  w ∈ log_writes V l n t ↔
  ∃ u, t ≤ u < t + Z.of_nat n ∧ w = (st + u + 1, V (lh_block l (Z.to_nat u))).
Proof.
  revert t. induction n as [|n IH]; intros t; cbn [log_writes].
  - split; [by intros ?%elem_of_nil|intros (u & ? & _); lia].
  - rewrite elem_of_cons, IH. split.
    + intros [->|(u & Hu & ->)]; [exists t|exists u]; split; try done; lia.
    + intros (u & Hu & ->). destruct (decide (u = t)) as [->|]; [by left|right; exists u; split; [lia|done]].
Qed.

Lemma elem_of_home_writes D l n t w :
  w ∈ home_writes D l n t ↔
  ∃ u, t ≤ u < t + Z.of_nat n ∧ w = (lh_block l (Z.to_nat u), D u).
Proof.
  revert t. induction n as [|n IH]; intros t; cbn [home_writes].
  - split; [by intros ?%elem_of_nil|intros (u & ? & _); lia].
  - rewrite elem_of_cons, IH. split.
    + intros [->|(u & Hu & ->)]; [exists t|exists u]; split; try done; lia.
    + intros (u & Hu & ->). destruct (decide (u = t)) as [->|]; [by left|right; exists u; split; [lia|done]].
Qed.

Lemma log_writes_ext V V' l n t :
  (∀ u, t ≤ u < t + Z.of_nat n → V (lh_block l (Z.to_nat u)) = V' (lh_block l (Z.to_nat u))) →
  log_writes V l n t = log_writes V' l n t.
Proof.
  revert t. induction n as [|n IH]; intros t He; cbn [log_writes]; [done|].
  rewrite He by lia. f_equal. apply IH. intros u Hu. apply He. lia.
Qed.

Lemma home_writes_ext D D' l n t :
  (∀ u, t ≤ u < t + Z.of_nat n → D u = D' u) → home_writes D l n t = home_writes D' l n t.
Proof.
  revert t. induction n as [|n IH]; intros t He; cbn [home_writes]; [done|].
  rewrite He by lia. f_equal. apply IH. intros u Hu. apply He. lia.
Qed.

(** A home location is not in the log. *)
Lemma home_out l t : log_ok st sz l → 0 ≤ t < lg_n l → ¬ in_log st sz (lh_block l (Z.to_nat t)).
Proof.
  intros Hl Ht. pose proof (logged_lookup _ _ _ t Hl Ht) as Hlk. apply list_elem_of_lookup_2 in Hlk.
  by apply (lo_range _ _ _ Hl).
Qed.

Lemma write_log_loop_spec i n t o k :
  ready i k → log_ok st sz (k_log k) → 0 ≤ t → t + Z.of_nat n = lg_n (k_log k) →
  (∀ m, dirty_block k m ↔ m ∈ logged (k_log k)) →
  ∃ k', write_log_loop n t o k = Ret tt o k' ∧ wrote_all i k (log_writes (view k) (k_log k) n t) k'.
Proof.
  revert t k. induction n as [|n IH]; intros t k Hr Hl Ht Hn Hd; cbn [write_log_loop]; unfold logget; kstep.
  - rewrite (proj2 (Z.ltb_ge _ _)) by lia. exists k. split; [done|by apply wrote_all_nil].
  - rewrite (proj2 (Z.ltb_lt _ _)) by lia. pose proof Hr as (Hinv & Hwf & Hav).
    destruct (write_log_one_spec i t o k) as (k1 & Hrun1 & W1); [done..|lia|done|]. kstep_with Hrun1.
    pose proof (wrote_all_one i k _ _ _ Hr W1) as A1. pose proof (wrote_all_log _ _ _ _ A1) as Hlog.
    pose proof (lo_n _ _ _ Hl).
    destruct (IH (t + 1) k1) as (k' & Hrun' & A'); rewrite ?Hlog; [apply A1|done|lia|lia| |].
    { intros m. rewrite (wr_dirty _ _ _ _ _ W1), Hd. split; [by intros [_ ?]|]. intros Hm. split; [|done].
      intros ->. destruct (lo_range _ _ _ Hl _ Hm) as [_ Hout]. unfold in_log in Hout. lia. }
    exists k'. split; [done|]. cbn [log_writes]. rewrite Hlog in A'.
    rewrite (log_writes_ext (view k) (view k1)); [apply (wrote_all_app _ _ _ _ _ _ A1 A')|].
    intros u Hu. rewrite (wr_view _ _ _ _ _ W1). pose proof (home_out _ u Hl ltac:(lia)) as Hout.
    unfold in_log in Hout. rewrite (proj2 (Z.eqb_neq _ _)) by lia. done.
Qed.

Lemma logged_distinct l t u :
  log_ok st sz l → 0 ≤ t < lg_n l → 0 ≤ u < lg_n l →
  lh_block l (Z.to_nat t) = lh_block l (Z.to_nat u) → t = u.
Proof.
  intros Hl Ht Hu E. pose proof (logged_lookup _ _ _ t Hl Ht) as H1. pose proof (logged_lookup _ _ _ u Hl Hu) as H2.
  rewrite E in H1. pose proof (NoDup_lookup _ _ _ _ (lo_nodup _ _ _ Hl) H1 H2). lia.
Qed.

Lemma install_loop_spec i n t o k :
  ready i k → log_ok st sz (k_log k) → 0 ≤ t → t + Z.of_nat n = lg_n (k_log k) →
  (∀ u, t ≤ u < lg_n (k_log k) → dirty_block k (lh_block (k_log k) (Z.to_nat u))) ∨ avail2 k →
  ∃ k', install_loop n t o k = Ret tt o k' ∧ wrote_all i k (home_writes (λ u, view k (st + u + 1)) (k_log k) n t) k'.
Proof.
  revert t k. induction n as [|n IH]; intros t k Hr Hl Ht Hn Hd; cbn [install_loop]; unfold logget; kstep.
  - rewrite (proj2 (Z.ltb_ge _ _)) by lia. exists k. split; [done|by apply wrote_all_nil].
  - rewrite (proj2 (Z.ltb_lt _ _)) by lia. pose proof Hr as (Hinv & Hwf & Hav). pose proof (lo_n _ _ _ Hl).
    destruct (install_one_spec i t o k) as (k1 & Hrun1 & W1); [done..|lia| |].
    { destruct Hd as [Hd|?]; [left; apply Hd; lia|by right]. }
    kstep_with Hrun1.
    pose proof (wrote_all_one i k _ _ _ Hr W1) as A1. pose proof (wrote_all_log _ _ _ _ A1) as Hlog.
    destruct (IH (t + 1) k1) as (k' & Hrun' & A'); rewrite ?Hlog; [apply A1|done|lia|lia| |].
    { destruct Hd as [Hd|Hd].
      - left. intros u Hu. apply (wr_dirty _ _ _ _ _ W1). split; [|apply Hd; lia].
        intros E%(logged_distinct _ _ _ Hl); lia.
      - right. eapply avail2_clean; [|apply (wr_clean _ _ _ _ _ W1)|done].
        by rewrite (bi_len _ _ _ (wr_inv _ _ _ _ _ W1)), (bi_len _ _ _ Hinv). }
    exists k'. split; [done|]. cbn [home_writes]. rewrite Hlog in A'.
    rewrite (home_writes_ext _ (λ u, view k1 (st + u + 1))); [apply (wrote_all_app _ _ _ _ _ _ A1 A')|].
    intros u Hu. rewrite (wr_view _ _ _ _ _ W1). pose proof (home_out _ t Hl ltac:(lia)) as Hout.
    unfold in_log in Hout. rewrite (proj2 (Z.eqb_neq _ _)) by lia. done.
Qed.

(** *** [commit] *)

Definition commit_log (l : log_t) : nat := Z.to_nat (lg_n l).

(** The header block as written by the commit, over its old contents [h]. *)
Definition commit_writes (V : Z → list Z) (l : log_t) : list (Z * list Z) :=
  log_writes V l (commit_log l) 0 ++
  [(st, put_header l (V st))] ++
  home_writes (λ u, V (lh_block l (Z.to_nat u))) l (commit_log l) 0 ++
  [(st, put32 (put_header l (V st)) 0 0)].

Lemma overlay_log V l n t f u :
  t ≤ u < t + Z.of_nat n → overlay (log_writes V l n t) f (st + u + 1) = V (lh_block l (Z.to_nat u)).
Proof.
  revert t f. induction n as [|n IH]; intros t f Hu; [lia|]. cbn [log_writes].
  destruct (decide (u = t)) as [->|Hne].
  - change (overlay _ f (st + t + 1)) with
      (overlay (log_writes V l n (t + 1)) (λ m, if m =? st + t + 1 then V (lh_block l (Z.to_nat t)) else f m) (st + t + 1)).
    rewrite overlay_out; [by rewrite Z.eqb_refl|].
    intros ([m d] & E & Hin)%list_elem_of_fmap. apply elem_of_log_writes in Hin as (v & Hv & [= -> _]). cbn in E. lia.
  - change (overlay _ f (st + u + 1)) with
      (overlay (log_writes V l n (t + 1)) (λ m, if m =? st + t + 1 then V (lh_block l (Z.to_nat t)) else f m) (st + u + 1)).
    apply IH. lia.
Qed.

Lemma log_writes_keys V l n t m : m ∈ (log_writes V l n t).*1 → ∃ u, t ≤ u < t + Z.of_nat n ∧ m = st + u + 1.
Proof.
  intros ([m' d] & -> & Hin)%list_elem_of_fmap. apply elem_of_log_writes in Hin as (u & Hu & [= -> _]). by exists u.
Qed.

Lemma home_writes_keys D l n t m :
  m ∈ (home_writes D l n t).*1 ↔ ∃ u, t ≤ u < t + Z.of_nat n ∧ m = lh_block l (Z.to_nat u).
Proof.
  rewrite list_elem_of_fmap. split.
  - intros ([m' d] & -> & Hin). apply elem_of_home_writes in Hin as (u & Hu & [= -> _]). by exists u.
  - intros (u & Hu & ->). exists (lh_block l (Z.to_nat u), D u). split; [done|]. apply elem_of_home_writes. by exists u.
Qed.

Lemma logged_index l m :
  log_ok st sz l → m ∈ logged l ↔ ∃ u, 0 ≤ u < lg_n l ∧ m = lh_block l (Z.to_nat u).
Proof.
  intros Hl. rewrite list_elem_of_lookup. split.
  - intros [j Hj]. exists (Z.of_nat j). pose proof (lookup_lt_Some _ _ _ Hj) as Hlt.
    rewrite (logged_length _ _ _ Hl) in Hlt. pose proof (logged_lookup _ _ _ (Z.of_nat j) Hl ltac:(lia)) as E.
    rewrite Nat2Z.id in *. split; [lia|]. congruence.
  - intros (u & Hu & ->). exists (Z.to_nat u). by apply (logged_lookup st sz).
Qed.

Lemma put_header_zero l d : put_header (set_lg_n 0 l) d = put32 d 0 0.
Proof. done. Qed.

Lemma log_ok_clear l : log_ok st sz l → log_ok st sz (set_lg_n 0 l).
Proof.
  intros [H1 H2 H3 H4 H5 H6 H7 H8]. split; try done; cbn [lg_n set_lg_n].
  - lia.
  - by intros m ?%elem_of_nil.
  - constructor.
Qed.

Lemma commit_log_phase i o k {A} (f : M A) :
  ready i k → log_ok st sz (k_log k) → (∀ m, dirty_block k m ↔ m ∈ logged (k_log k)) →
  let l := k_log k in
  ∃ k', (write_log ;;; write_head ;;; f) o k = f o k' ∧
    wrote_all i k (log_writes (view k) l (commit_log l) 0 ++ [(st, put_header l (view k st))]) k'.
Proof.
  intros Hr Hl Hd l. pose proof (lo_n _ _ _ Hl). unfold write_log, logget. rewrite bind_assoc. kstep. fold l. fold (commit_log l).
  destruct (write_log_loop_spec i (commit_log l) 0 o k) as (k1 & Hrun1 & A1);
    [done|done|lia|unfold commit_log; fold l; fold l in H; lia|done|].
  fold l in A1. kstep_with Hrun1. pose proof (wrote_all_log _ _ _ _ A1) as Hlog1. fold l in Hlog1.
  destruct (wa_ready _ _ _ _ A1) as (Hinv1 & Hwf1 & Hav1).
  destruct (write_head_spec i o k1) as (k2 & Hrun2 & W2); [done|done|done|by rewrite Hlog1|].
  kstep_with Hrun2. rewrite Hlog1 in W2. exists k2. split; [done|].
  assert (view k st = view k1 st) as ->.
  { rewrite (wa_view _ _ _ _ A1). symmetry. apply overlay_out. intros (u & Hu & ?)%log_writes_keys. lia. }
  eapply wrote_all_app; [exact A1|]. apply wrote_all_one; [apply A1|done].
Qed.

Lemma overlay_app ws ws' f m : overlay (ws ++ ws') f m = overlay ws' (overlay ws f) m.
Proof. unfold overlay. by rewrite foldl_app. Qed.

(** After that phase the log has the contents of the logged blocks. *)
Lemma log_phase_view V l h u :
  0 ≤ u < lg_n l →
  overlay (log_writes V l (commit_log l) 0 ++ [(st, h)]) V (st + u + 1) = V (lh_block l (Z.to_nat u)).
Proof.
  intros Hu. rewrite overlay_app, overlay_out; [|cbn; rewrite list_elem_of_singleton; lia].
  apply overlay_log. unfold commit_log. lia.
Qed.

Lemma log_phase_keys V l h m :
  log_ok st sz l → m ∈ (log_writes V l (commit_log l) 0 ++ [(st, h)]).*1 → in_log st sz m.
Proof.
  intros Hl. pose proof (lo_n _ _ _ Hl). rewrite fmap_app, elem_of_app. unfold in_log, commit_log.
  intros [(u & Hu & ->)%log_writes_keys|Hm]; [lia|]. cbn in Hm. apply list_elem_of_singleton in Hm. lia.
Qed.

(** Changing the in-memory log does not affect the cache. *)
Lemma bio_inv_log i H l k : bio_inv i H k → bio_inv i H (set_k_log l k).
Proof. intros []. by split. Qed.

Lemma bio_frame_set_log l k k' : bio_frame k k' → bio_frame (set_k_log l k) (set_k_log l k').
Proof. intros [R P]. split; [|done]. exact (f_equal (set_k_log l) R). Qed.

Lemma wrote_all_set_log i l k ws k' :
  wrote_all i k ws k' → wrote_all i (set_k_log l k) ws (set_k_log l k').
Proof.
  intros [(Hinv & Hwf & Hav) Hv Hd Hc Hf Hdisk Hw]. split; try done.
  - split_and!; [by apply bio_inv_log|done|done].
  - by apply bio_frame_set_log.
Qed.

Lemma commit_run i o k :
  ready i k → log_ok st sz (k_log k) → 0 < lg_n (k_log k) →
  (∀ m, dirty_block k m ↔ m ∈ logged (k_log k)) →
  ∃ k', commit o k = Ret tt o k' ∧
    wrote_all i (set_k_log (set_lg_n 0 (k_log k)) k) (commit_writes (view k) (k_log k)) k'.
Proof.
  intros Hr Hl Hn Hd. set (l := k_log k) in *. unfold commit, logget. kstep. fold l.
  rewrite (proj2 (Z.ltb_lt _ _)) by done. cbn [when].
  destruct (commit_log_phase i o k (install_trans ;;; logset (set_lg_n 0) ;;; write_head)) as (k2 & Hrun2 & A2); [done..|].
  rewrite Hrun2. fold l in A2. pose proof (wrote_all_log _ _ _ _ A2) as Hlog2. fold l in Hlog2.
  unfold install_trans, logget. rewrite bind_assoc. kstep. rewrite Hlog2. fold (commit_log l).
  destruct (install_loop_spec i (commit_log l) 0 o k2) as (k3 & Hrun3 & A3);
    [apply A2|by rewrite Hlog2|lia|rewrite Hlog2; unfold commit_log; lia| |].
  { left. rewrite Hlog2. intros u Hu. apply (wa_dirty _ _ _ _ A2). split.
    - intros Hin%(log_phase_keys _ _ _ _ Hl). by apply (home_out _ u Hl Hu).
    - apply Hd, logged_index; [done|]. by exists u. }
  kstep_with Hrun3. unfold logset. kstep.
  rewrite Hlog2, (home_writes_ext _ (λ u, view k (lh_block l (Z.to_nat u)))) in A3
    by (intros u Hu; rewrite (wa_view _ _ _ _ A2); apply log_phase_view; unfold commit_log in Hu; lia).
  pose proof (wrote_all_app _ _ _ _ _ _ A2 A3) as A4. pose proof (wrote_all_log _ _ _ _ A4) as Hlog3. fold l in Hlog3.
  rewrite Hlog3. set (l0 := set_lg_n 0 l). pose proof (wrote_all_set_log i l0 _ _ _ A4) as A5.
  destruct (wa_ready _ _ _ _ A5) as (Hinv5 & Hwf5 & Hav5).
  destruct (write_head_spec i o (set_k_log l0 k3)) as (k4 & Hrun4 & W4); [done|done|done| |].
  { by apply log_ok_clear. }
  exists k4. split; [done|].
  assert (view (set_k_log l0 k3) st = put_header l (view k st)) as Hvst.
  { rewrite (wa_view _ _ _ _ A5). change (view (set_k_log l0 k)) with (view k). rewrite overlay_app.
    rewrite overlay_out; [|intros (u & Hu & E)%home_writes_keys; pose proof (home_out _ u Hl) as Hout;
      unfold commit_log, in_log in *; pose proof (lo_n _ _ _ Hl); lia].
    rewrite overlay_app. unfold overlay at 1. cbn. by rewrite Z.eqb_refl. }
  rewrite Hvst in W4. cbn [k_log set_k_log] in W4. unfold l0 in W4 at 2. rewrite put_header_zero in W4.
  pose proof (wrote_all_app _ _ _ _ _ _ A5 (wrote_all_one _ _ _ _ _ (wa_ready _ _ _ _ A5) W4)) as A6.
  unfold commit_writes. rewrite <- !app_assoc in A6. exact A6.
Qed.

(** *** Recovery *)

(** The in-memory log after [read_head] has read the header [h]. *)
Fixpoint load_blocks (n i : nat) (h : list Z) (l : log_t) : log_t :=
  match n with
  | O => l
  | S n => load_blocks n (S i) h (set_lh_block i (hdr_block h i) l)
  end.
Definition load_head (h : list Z) (l : log_t) : log_t :=
  load_blocks (Z.to_nat (hdr_n h)) 0 h (set_lg_n (hdr_n h) l).

Lemma read_blocks_run n i h o k :
  read_blocks n i h o k = Ret tt o (set_k_log (load_blocks n i h (k_log k)) k).
Proof.
  revert i k. induction n as [|n IH]; intros i k; cbn [read_blocks load_blocks]; [by destruct k|].
  unfold logset. kstep. by rewrite IH.
Qed.

Lemma read_head_run i o k :
  ready i k → lg_dev (k_log k) = ROOTDEV → lg_start (k_log k) = st → (∀ m, ¬ dirty_block k m) → 0 < sz →
  ∃ k', read_head o k = Ret tt o k' ∧
    wrote_all i (set_k_log (load_head (view k st) (k_log k)) k) [] k'.
Proof.
  intros (Hinv & Hwf & Hav) Hdev Hstart Hnd Hsz0. unfold FSSIZE in *.
  assert (dev_serves ROOTDEV st) as Hss by (apply Hserve; unfold FSSIZE; lia).
  destruct (bread_spec i ∅ st o k) as (b & k1 & Hrun1 & R1); [done|done|by right|done|apply Hwf|].
  unfold read_head, logget, bufget. kstep. rewrite Hdev, Hstart, u32_small by lia. kstep_with Hrun1. kstep.
  destruct (rp_buf _ _ _ _ _ _ R1) as (x & Hb & Hn & Hdt & Hcl). rewrite (buf_at_lookup _ _ _ Hb), Hdt.
  set (h := view k st) in *. unfold logset. kstep. kstep_with (read_blocks_run (Z.to_nat (hdr_n h)) 0 h o
    (set_k_log (set_lg_n (hdr_n h) (k_log k1)) k1)).
  assert (k_log k1 = k_log k) as Hlog by (by rewrite (bf_rest _ _ (rp_frame _ _ _ _ _ _ R1))).
  cbn [k_log set_k_log]. rewrite Hlog. fold (load_head h (k_log k)). set (l' := load_head h (k_log k)).
  set (k2 := set_k_log l' _).
  assert (bio_inv i ({[b]} ∪ ∅) k2) as Hinv2 by (apply bio_inv_log, bio_inv_log, R1).
  assert (dirty x = false) as Hdx.
  { destruct (dirty x) eqn:E; [|done]. exfalso. apply (Hnd st), (rp_dirty _ _ _ _ _ _ R1). exists b, x.
    split_and!; try done. eapply (bi_held _ _ _ (rp_inv _ _ _ _ _ _ R1)); [done|set_solver]. }
  destruct (brelse_spec i ({[b]} ∪ ∅) b x o k2) as (k3 & Hrun3 & R3); [done|set_solver|done| |].
  { right. rewrite Hdt, Hn, (Hcl Hdx). unfold block. cbn. by rewrite (rp_disk _ _ _ _ _ _ R1). }
  exists k3. split; [done|].
  assert (∀ m, dirty_block k3 m ↔ dirty_block k m) as Hd3.
  { intros m. rewrite (lp_dirty _ _ _ _ _ R3). apply (rp_dirty _ _ _ _ _ _ R1). }
  assert (∀ b, dirty (buf_at k3 b) = true → dirty (buf_at k b) = true) as Hc3.
  { intros b' Hb'. by apply (rp_clean _ _ _ _ _ _ R1), (lp_clean _ _ _ _ _ R3 b'). }
  assert (k_disk k3 = k_disk k) as Hdisk3.
  { rewrite (lp_disk _ _ _ _ _ R3). apply (rp_disk _ _ _ _ _ _ R1). }
  assert (bio_inv i ∅ k3) as Hinv3.
  { replace ∅ with (({[b]} ∪ ∅) ∖ {[b]} : gset nat) by set_solver. apply (lp_inv _ _ _ _ _ R3). }
  split.
  - split_and!; [done|intros m d; rewrite Hdisk3; apply Hwf|]. eapply avail_clean; [|exact Hc3|done].
    by rewrite (bi_len _ _ _ Hinv3), (bi_len _ _ _ Hinv).
  - intros m. rewrite (lp_view _ _ _ _ _ R3). apply (rp_view _ _ _ _ _ _ R1).
  - intros m. rewrite Hd3. cbn. split; [intros ?; split; [by apply not_elem_of_nil|done]|by intros [_ ?]].
  - done.
  - eapply bio_frame_trans; [|apply (lp_frame _ _ _ _ _ R3)]. exact (bio_frame_set_log l' _ _ (rp_frame _ _ _ _ _ _ R1)).
  - done.
  - rewrite (lp_writes _ _ _ _ _ R3), app_nil_r. apply (rp_writes _ _ _ _ _ _ R1).
Qed.

(** The writes of a recovery. *)
Definition recover_writes (V : Z → list Z) (l : log_t) : list (Z * list Z) :=
  home_writes (λ u, V (st + u + 1)) l (commit_log l) 0 ++ [(st, put32 (V st) 0 0)].

Lemma recover_run i o k :
  ready i k → avail2 k → (∀ m, ¬ dirty_block k m) →
  lg_dev (k_log k) = ROOTDEV → lg_start (k_log k) = st →
  let l := load_head (view k st) (k_log k) in
  log_ok st sz l →
  ∃ k', recover_from_log o k = Ret tt o k' ∧
    wrote_all i (set_k_log (set_lg_n 0 l) k) (recover_writes (view k) l) k'.
Proof.
  intros Hr Hav2 Hnd Hdev Hstart l Hl. pose proof (lo_n _ _ _ Hl) as Hn. unfold recover_from_log.
  destruct (read_head_run i o k Hr Hdev Hstart Hnd ltac:(lia)) as (k1 & Hrun1 & A1). fold l in A1. kstep_with Hrun1.
  pose proof (wrote_all_log _ _ _ _ A1) as Hlog1. cbn in Hlog1.
  unfold install_trans, logget. rewrite bind_assoc. kstep. rewrite Hlog1. fold (commit_log l).
  destruct (install_loop_spec i (commit_log l) 0 o k1) as (k2 & Hrun2 & A2);
    [apply A1|by rewrite Hlog1|lia|rewrite Hlog1; unfold commit_log; lia| |].
  { right. eapply avail2_clean; [|apply (wa_clean _ _ _ _ A1)|exact Hav2].
    transitivity NBUF; [apply (bi_len _ _ _ (proj1 (wa_ready _ _ _ _ A1)))|symmetry; apply (bi_len _ _ _ (proj1 Hr))]. }
  kstep_with Hrun2. rewrite Hlog1 in A2. pose proof (wrote_all_app _ _ _ _ _ _ A1 A2) as A3. cbn [app] in A3.
  unfold logset. kstep. pose proof (wrote_all_log _ _ _ _ A3) as Hlog2. cbn in Hlog2. rewrite Hlog2.
  set (l0 := set_lg_n 0 l). pose proof (wrote_all_set_log i l0 _ _ _ A3) as A4. cbn in A4.
  destruct (wa_ready _ _ _ _ A4) as (Hinv4 & Hwf4 & Hav4).
  destruct (write_head_spec i o (set_k_log l0 k2)) as (k3 & Hrun3 & W3); [done|done|done|by apply log_ok_clear|].
  exists k3. split; [done|].
  assert (∀ m, view k1 m = view k m) as Hv1 by (intros m; apply (wa_view _ _ _ _ A1)).
  assert (view (set_k_log l0 k2) st = view k st) as Hvst.
  { rewrite (wa_view _ _ _ _ A4). apply overlay_out. intros (u & Hu & E)%home_writes_keys.
    pose proof (home_out _ u Hl) as Hout. unfold commit_log, in_log in *. lia. }
  rewrite Hvst in W3. cbn [k_log set_k_log] in W3. unfold l0 in W3 at 2. rewrite put_header_zero in W3.
  pose proof (wrote_all_app _ _ _ _ _ _ A4 (wrote_all_one _ _ _ _ _ (wa_ready _ _ _ _ A4) W3)) as A5.
  unfold recover_writes. rewrite (home_writes_ext _ (λ u, view k1 (st + u + 1))) by (intros u _; by rewrite Hv1).
  exact A5.
Qed.

(** *** The header round trip *)

Lemma get32_put_blocks_low n i l d j :
  (j + 4 ≤ 4 + 4 * i)%nat → get32 (put_blocks n i l d) j = get32 d j.
Proof.
  revert i d. induction n as [|n IH]; intros i d Hj; cbn [put_blocks]; [done|].
  rewrite IH by lia. apply get32_put32_ne. lia.
Qed.

Lemma get32_put_blocks n i l d j :
  (4 + 4 * (i + n) ≤ length d)%nat → (i ≤ j < i + n)%nat →
  get32 (put_blocks n i l d) (4 + 4 * j) = u32 (lh_block l j).
Proof.
  revert i d. induction n as [|n IH]; intros i d Hl Hj; [lia|]. cbn [put_blocks].
  destruct (decide (j = i)) as [->|Hne].
  - rewrite get32_put_blocks_low by lia. apply get32_put32_eq. lia.
  - apply IH; [rewrite length_put32|]; lia.
Qed.

Lemma header_n l d :
  log_ok st sz l → length d = Z.to_nat BSIZE → hdr_n (put_header l d) = lg_n l.
Proof.
  intros Hl Hd. pose proof (lo_n _ _ _ Hl). pose proof (lo_max _ _ _ Hl) as Hmax.
  change (Z.of_nat LOGSIZE) with 30 in Hmax. change (Z.to_nat BSIZE) with 512%nat in Hd.
  unfold hdr_n, put_header. rewrite get32_put_blocks_low, get32_put32_eq by lia.
  rewrite s32_u32. apply s32_small. lia.
Qed.

Lemma header_block l d j :
  log_ok st sz l → length d = Z.to_nat BSIZE → (j < commit_log l)%nat →
  hdr_block (put_header l d) j = lh_block l j.
Proof.
  intros Hl Hd Hj. pose proof (lo_n _ _ _ Hl). pose proof (lo_max _ _ _ Hl) as Hmax.
  change (Z.of_nat LOGSIZE) with 30 in Hmax. change (Z.to_nat BSIZE) with 512%nat in Hd. unfold commit_log in Hj.
  unfold hdr_block, put_header. rewrite get32_put_blocks by (rewrite ?length_put32; lia).
  rewrite s32_u32. apply s32_small. pose proof (logged_lookup _ _ _ (Z.of_nat j) Hl ltac:(lia)) as Hlk.
  apply list_elem_of_lookup_2, (lo_range _ _ _ Hl) in Hlk as [Hr _]. rewrite Nat2Z.id in Hr. unfold FSSIZE in Hr. lia.
Qed.

Lemma load_blocks_rest n i h l :
  let l' := load_blocks n i h l in
  lg_start l' = lg_start l ∧ lg_size l' = lg_size l ∧ lg_dev l' = lg_dev l ∧ lg_n l' = lg_n l ∧
  length (lg_block l') = length (lg_block l).
Proof.
  revert i l. induction n as [|n IH]; intros i l; cbn [load_blocks]; [done|].
  specialize (IH (S i) (set_lh_block i (hdr_block h i) l)). cbn in IH. rewrite length_insert in IH. exact IH.
Qed.

Lemma lh_block_load n i h l j :
  (i + n ≤ length (lg_block l))%nat →
  lh_block (load_blocks n i h l) j = if bool_decide (i ≤ j < i + n)%nat then hdr_block h j else lh_block l j.
Proof.
  revert i l. induction n as [|n IH]; intros i l Hl; cbn [load_blocks].
  - rewrite bool_decide_eq_false_2 by lia. done.
  - rewrite IH by (cbn; rewrite length_insert; lia). unfold lh_block at 1, set_lh_block. cbn.
    destruct (decide (j = i)) as [->|Hne].
    + rewrite bool_decide_eq_false_2, bool_decide_eq_true_2 by lia.
      by rewrite list_lookup_insert_eq by lia.
    + rewrite list_lookup_insert_ne by done. fold (lh_block l j).
      destruct (decide (S i ≤ j < S i + n)%nat); [rewrite !bool_decide_eq_true_2 by lia; done|].
      rewrite !bool_decide_eq_false_2 by lia. done.
Qed.

(** A log structure as it is at boot, before the header is read. *)
Definition log_boot (l : log_t) : Prop :=
  lg_start l = st ∧ lg_size l = sz ∧ lg_dev l = ROOTDEV ∧ length (lg_block l) = LOGSIZE.

Lemma load_empty h l : log_boot l → hdr_n h = 0 → 0 < sz → log_ok st sz (load_head h l) ∧ lg_n (load_head h l) = 0.
Proof.
  intros (H1 & H2 & H3 & H4) Hn Hsz0. unfold load_head. rewrite Hn. cbn. split; [|done]. split; try done; cbn.
  - by intros m ?%elem_of_nil.
  - constructor.
Qed.

Lemma load_written l lb d :
  log_ok st sz l → log_boot lb → length d = Z.to_nat BSIZE →
  let l' := load_head (put_header l d) lb in
  log_ok st sz l' ∧ lg_n l' = lg_n l ∧
  (∀ j, (j < commit_log l)%nat → lh_block l' j = lh_block l j).
Proof.
  intros Hl (H1 & H2 & H3 & H4) Hd. cbn zeta. unfold load_head. rewrite (header_n l d Hl Hd).
  fold (commit_log l). set (lb' := set_lg_n (lg_n l) lb).
  destruct (load_blocks_rest (commit_log l) 0 (put_header l d) lb') as (E1 & E2 & E3 & E4 & E5).
  set (l' := load_blocks _ _ _ lb') in *. cbn in E1, E2, E3, E4, E5.
  pose proof (lo_n _ _ _ Hl). pose proof (lo_max _ _ _ Hl).
  assert (∀ j, (j < commit_log l)%nat → lh_block l' j = lh_block l j) as Hlh.
  { intros j Hj. unfold l'. rewrite lh_block_load by (cbn; rewrite H4; unfold commit_log; lia).
    rewrite bool_decide_eq_true_2 by lia. by apply header_block. }
  assert (logged l' = logged l) as Hlog.
  { apply list_eq. intros j. unfold logged. rewrite E4.
    destruct (decide (j < Z.to_nat (lg_n l))%nat) as [Hj|Hj]; [|rewrite !lookup_take_ge by lia; done].
    rewrite !lookup_take_lt by lia. specialize (Hlh j Hj). unfold lh_block in Hlh.
    destruct (lookup_lt_is_Some_2 (lg_block l') j) as [v Hv]; [rewrite E5, H4; lia|].
    destruct (lookup_lt_is_Some_2 (lg_block l) j) as [w Hw]; [rewrite (lo_len _ _ _ Hl); lia|].
    rewrite Hv, Hw in Hlh |- *. cbn in Hlh. by rewrite Hlh. }
  split_and!; [|done|done]. split; rewrite ?E1, ?E2, ?E3, ?E4, ?E5, ?Hlog; try done; apply Hl.
Qed.

(** *** Crashes *)

Definition blk (d : gmap Z (list Z)) (m : Z) : list Z := default zero_block (d !! m).

Lemma blk_apply ws d m : blk (apply_writes ws d) m = overlay ws (blk d) m.
Proof.
  unfold overlay. change (blk d m) with (blk d m). revert d.
  induction ws as [|[n e] ws IH]; intros d; cbn; [done|].
  unfold apply_writes in IH. rewrite IH. f_equal. unfold blk. case_test.
  - subst. by rewrite lookup_insert_eq.
  - by rewrite lookup_insert_ne.
Qed.

Lemma view_clean i k m : bio_inv i ∅ k → ¬ dirty_block k m → view k m = block k m.
Proof.
  intros Hinv Hnd. destruct (view_cases _ _ _ m Hinv) as [(b & x & Hb & (Hr & Hm & Hv) & ->)|[_ ?]]; [|done].
  rewrite <- Hm. eapply (bi_coh _ _ _ Hinv); try done. destruct (dirty x) eqn:E; [|done].
  exfalso. apply Hnd. by exists b, x.
Qed.

Lemma prefix_app_cases {A} (p l1 l2 : list A) :
  p `prefix_of` l1 ++ l2 → p `prefix_of` l1 ∨ ∃ q, p = l1 ++ q ∧ q `prefix_of` l2.
Proof.
  revert p. induction l1 as [|a l1 IH]; intros p Hp; cbn in Hp; [right; by exists p|].
  destruct p as [|b p]; [left; apply prefix_nil|].
  pose proof (prefix_cons_inv_1 _ _ _ _ Hp) as ->. apply prefix_cons_inv_2 in Hp.
  destruct (IH p Hp) as [?|(q & -> & ?)]; [left; by apply prefix_cons|right; by exists q].
Qed.

Section crash.
Context (i ib : nat) (k kb k' : K) (o : oracle) (p : list (Z * list Z)).
#[local] Notation l := (k_log k).
#[local] Notation V := (view k).
Hypothesis Hr : ready i k.
Hypothesis Hl : log_ok st sz l.
Hypothesis Hd : ∀ m, dirty_block k m ↔ m ∈ logged l.
(** The log on the disk is empty when the commit begins. *)
Hypothesis Hclear : hdr_n (block k st) = 0.
(** The writes [p] reach the disk, then the machine reboots. *)
Hypothesis Hp : p `prefix_of` commit_writes V l.
Hypothesis Hdisk : k_disk kb = apply_writes p (k_disk k).
Hypothesis Hrb : ready ib kb.
Hypothesis Hndb : ∀ m, ¬ dirty_block kb m.
Hypothesis Hlb : log_boot (k_log kb).

Lemma clean_view m : m ∉ logged l → V m = block k m.
Proof. intros Hm. apply (view_clean i); [apply Hr|]. by rewrite Hd. Qed.

Lemma start_view : V st = block k st.
Proof. apply clean_view. intros Hm. apply (lo_range _ _ _ Hl) in Hm as [_ Hm]. pose proof (lo_n _ _ _ Hl). unfold in_log in Hm. lia. Qed.

Lemma boot_view m : view kb m = overlay p (block k) m.
Proof.
  rewrite (view_clean ib kb m (proj1 Hrb) (Hndb m)). unfold block at 1. rewrite Hdisk.
  change (blk (apply_writes p (k_disk k)) m = overlay p (blk (k_disk k)) m). apply blk_apply.
Qed.

(** Values written outside the log are the new ones. *)
Lemma commit_value m d : (m, d) ∈ commit_writes V l → ¬ in_log st sz m → d = V m.
Proof.
  intros Hin Hm. pose proof (lo_n _ _ _ Hl). unfold commit_writes in Hin. unfold in_log in Hm.
  rewrite !elem_of_app, !list_elem_of_singleton in Hin. destruct Hin as [Hin|[Hin|[Hin|Hin]]].
  - apply elem_of_log_writes in Hin as (u & Hu & [= -> _]). unfold commit_log in Hu. lia.
  - injection Hin as -> _. lia.
  - apply elem_of_home_writes in Hin as (u & Hu & [= -> ->]). done.
  - injection Hin as -> _. lia.
Qed.

Lemma prefix_value m d : (m, d) ∈ p → ¬ in_log st sz m → d = V m.
Proof. intros Hin. apply commit_value. destruct Hp as [q ->]. apply elem_of_app. by left. Qed.

(** What recovery makes of a block outside the log when the header on the
    disk says the log is empty. *)
Lemma recovered_empty m :
  hdr_n (view kb st) = 0 → ¬ in_log st sz m →
  blk (apply_writes (recover_writes (view kb) (load_head (view kb st) (k_log kb))) (k_disk kb)) m = view kb m.
Proof.
  intros Hn Hm. pose proof (lo_n _ _ _ Hl). destruct (load_empty _ _ Hlb Hn ltac:(lia)) as [_ Hn'].
  rewrite blk_apply. unfold recover_writes, commit_log. rewrite Hn'. change (Z.to_nat 0) with O. cbn [home_writes app].
  rewrite overlay_out by (cbn; rewrite list_elem_of_singleton; unfold in_log in Hm; lia).
  symmetry. apply (view_clean ib kb m (proj1 Hrb) (Hndb m)).
Qed.

(** And when it is the header of the transaction. *)
Lemma recovered_full m :
  view kb st = put_header l (V st) →
  (∀ u, 0 ≤ u < lg_n l → view kb (st + u + 1) = V (lh_block l (Z.to_nat u))) →
  (∀ m, m ∉ logged l → ¬ in_log st sz m → view kb m = V m) → ¬ in_log st sz m →
  blk (apply_writes (recover_writes (view kb) (load_head (view kb st) (k_log kb))) (k_disk kb)) m = V m.
Proof.
  intros Hst' Hlogv Hrest Hm. rewrite Hst'. destruct (load_written l (k_log kb) (V st) Hl Hlb) as (Hl' & Hn' & Hlh).
  { eapply view_length; [apply Hr|apply Hr]. }
  set (l' := load_head _ _) in *. rewrite blk_apply. unfold recover_writes.
  rewrite overlay_app, overlay_out by (cbn; rewrite list_elem_of_singleton; pose proof (lo_n _ _ _ Hl); unfold in_log in Hm; lia).
  assert (commit_log l' = commit_log l) as Hc by (unfold commit_log; by rewrite Hn').
  apply overlay_const.
  - intros d Hin. apply elem_of_home_writes in Hin as (u & Hu & [= -> ->]). rewrite Hc in Hu. unfold commit_log in Hu.
    rewrite Hlh by (unfold commit_log; lia). apply Hlogv. lia.
  - destruct (decide (m ∈ logged l)) as [Hin|Hout].
    + left. apply home_writes_keys. apply logged_index in Hin as (u & Hu & ->); [|done].
      exists u. rewrite Hc. unfold commit_log. split; [lia|]. symmetry. apply Hlh. unfold commit_log. lia.
    + right. change (blk (k_disk kb) m) with (block kb m). rewrite <- (view_clean ib kb m (proj1 Hrb) (Hndb m)). by apply Hrest.
Qed.

Lemma length_log_writes W n t : length (log_writes W l n t) = n.
Proof. revert t. induction n as [|n IH]; intros t; cbn; [done|]. by rewrite IH. Qed.

(** Before the header is written nothing but the log has changed. *)
Lemma crash_before :
  (length p ≤ commit_log l)%nat →
  hdr_n (view kb st) = 0 ∧ ∀ m, ¬ in_log st sz m → view kb m = block k m.
Proof.
  intros Hlen. pose proof (lo_n _ _ _ Hl).
  assert (p `prefix_of` log_writes V l (commit_log l) 0) as [q Hq].
  { unfold commit_writes in Hp. apply prefix_app_cases in Hp as [?|(q & Hq & _)]; [done|].
    assert (q = []) as -> by (destruct q; [done|]; rewrite Hq, length_app, length_log_writes in Hlen; cbn in Hlen; lia).
    rewrite app_nil_r in Hq. by rewrite Hq. }
  assert (∀ m, m ∈ p.*1 → st < m < st + sz) as Hk.
  { intros m Hm. assert (m ∈ (log_writes V l (commit_log l) 0).*1) as (u & Hu & ->)%log_writes_keys.
    - rewrite Hq, fmap_app, elem_of_app. by left.
    - unfold commit_log in Hu. lia. }
  split.
  - rewrite boot_view, overlay_out; [done|]. intros Hm%Hk. lia.
  - intros m Hm. rewrite boot_view. apply overlay_out. intros Hm'%Hk. unfold in_log in Hm. lia.
Qed.

(** From the header write on, the log or the home locations have the new contents. *)
Lemma crash_after :
  (commit_log l < length p)%nat →
  (view kb st = put_header l (V st) ∧
   (∀ u, 0 ≤ u < lg_n l → view kb (st + u + 1) = V (lh_block l (Z.to_nat u))) ∧
   (∀ m, m ∉ logged l → ¬ in_log st sz m → view kb m = V m)) ∨
  (hdr_n (view kb st) = 0 ∧ ∀ m, ¬ in_log st sz m → view kb m = V m).
Proof.
  intros Hlen. pose proof (lo_n _ _ _ Hl). pose proof Hp as Hp'. unfold commit_writes in Hp'.
  apply prefix_app_cases in Hp' as [Hp'%prefix_length|(q & Hq & Hp')]; [rewrite length_log_writes in Hp'; lia|].
  assert (length (put_header l (V st)) = Z.to_nat BSIZE) as Hhl
    by (rewrite length_put_header; eapply view_length; [apply Hr|apply Hr]).
  destruct q as [|w q]; [rewrite Hq, app_nil_r, length_log_writes in Hlen; lia|].
  pose proof (prefix_cons_inv_1 _ _ _ _ Hp') as ->. apply prefix_cons_inv_2 in Hp'.
  assert (∀ m, m ∉ logged l → ¬ in_log st sz m → view kb m = V m) as Hrest.
  { intros m Hm Hm'. rewrite boot_view. apply overlay_const; [intros d Hin; by apply prefix_value|right].
    symmetry. by apply clean_view. }
  assert (∀ ws, (∀ m, m ∈ ws.*1 → ¬ in_log st sz m) → p = log_writes V l (commit_log l) 0 ++ [(st, put_header l (V st))] ++ ws →
    view kb st = put_header l (V st) ∧
    ∀ u, 0 ≤ u < lg_n l → view kb (st + u + 1) = V (lh_block l (Z.to_nat u))) as Hfull.
  { intros ws Hws Hpe. split; [|intros u Hu]; rewrite boot_view, Hpe, app_assoc, overlay_app, overlay_out.
    - rewrite overlay_app. unfold overlay at 1. cbn. by rewrite Z.eqb_refl.
    - intros Hm%Hws. apply Hm. unfold in_log. lia.
    - rewrite overlay_app, overlay_out by (cbn; rewrite list_elem_of_singleton; lia).
      apply overlay_log. unfold commit_log. lia.
    - intros Hm%Hws. apply Hm. unfold in_log. lia. }
  assert (∀ m, m ∈ (home_writes (λ u, V (lh_block l (Z.to_nat u))) l (commit_log l) 0).*1 → ¬ in_log st sz m) as Hhome.
  { intros m (u & Hu & ->)%home_writes_keys. apply home_out; [done|]. unfold commit_log in Hu. lia. }
  apply prefix_app_cases in Hp' as [[q' Hq']|(q' & -> & Hp')].
  - left. destruct (Hfull q) as [? ?]; [|done|done]. intros m Hm. apply Hhome. rewrite Hq', fmap_app, elem_of_app. by left.
  - destruct q' as [|w q'].
    { left. rewrite app_nil_r in Hq. destruct (Hfull _ Hhome Hq) as [? ?]. done. }
    pose proof (prefix_cons_inv_1 _ _ _ _ Hp') as ->. apply prefix_cons_inv_2, prefix_nil_inv in Hp' as ->.
    right. split.
    + rewrite boot_view, Hq, overlay_app, app_comm_cons, overlay_app. unfold overlay at 1.
      cbn [foldl fst snd]. rewrite Z.eqb_refl.
      unfold hdr_n. rewrite get32_put32_eq by (rewrite Hhl; change (Z.to_nat BSIZE) with 512%nat; lia). done.
    + intros m Hm. rewrite boot_view. apply overlay_const; [intros d Hin; by apply prefix_value|].
      destruct (decide (m ∈ logged l)) as [Hin|Hout]; [left|right; symmetry; by apply clean_view].
      rewrite Hq, fmap_app, elem_of_app, fmap_cons, elem_of_cons, fmap_app, elem_of_app. do 2 right. left.
      apply logged_index in Hin as (u & Hu & ->); [|done].
      apply home_writes_keys. exists u. unfold commit_log. split; [lia|done].
Qed.

(** The log a reboot finds is one the recovery code can process. *)
Lemma crash_log_ok : log_ok st sz (load_head (view kb st) (k_log kb)).
Proof.
  pose proof (lo_n _ _ _ Hl).
  destruct (decide (length p ≤ commit_log l)%nat) as [Hlen|Hlen].
  - destruct (crash_before Hlen) as [Hn _]. by apply load_empty; [..|lia].
  - destruct (crash_after ltac:(lia)) as [(-> & _)|[Hn _]].
    + apply load_written; [done..|]. eapply view_length; [apply Hr|apply Hr].
    + by apply load_empty; [..|lia].
Qed.

Lemma crash_recovered m :
  ¬ in_log st sz m →
  blk (apply_writes (recover_writes (view kb) (load_head (view kb st) (k_log kb))) (k_disk kb)) m =
  if decide (length p ≤ commit_log l)%nat then block k m else V m.
Proof.
  intros Hm. case_decide as Hlen.
  - destruct (crash_before Hlen) as [Hn Hv]. rewrite recovered_empty by done. by apply Hv.
  - destruct (crash_after ltac:(lia)) as [(H1 & H2 & H3)|[Hn Hv]].
    + by apply recovered_full.
    + rewrite recovered_empty by done. by apply Hv.
Qed.
End crash.
End disk_log.

(** ** Transactions *)

(** The invariant between file-system operations: the dirty buffers are those
    of the logged blocks. *)
Record log_inv (st sz : Z) (i : nat) (H : gset nat) (k : K) : Prop := {
  li_bio : bio_inv i H k;
  li_wf : disk_wf k;
  li_log : log_ok st sz (k_log k);
  li_dirty m : dirty_block k m ↔ m ∈ logged (k_log k)
}.

(** With fewer blocks logged than there are buffers, one can be recycled. *)
Lemma log_avail st sz i k :
  log_inv st sz i ∅ k → lg_n (k_log k) < Z.of_nat NBUF → avail ∅ k.
Proof.
  intros [Hinv Hwf Hl Hd] Hn.
  destruct (decide (Exists (λ x, dirty x = false) (k_bcache k))) as [Hex|Hno].
  { apply Exists_exists in Hex as (x & [b Hb]%list_elem_of_lookup & Hx). exists b, x. split_and!; [done|set_solver|done]. }
  exfalso. rewrite <- Forall_Exists_neg in Hno.
  assert (∀ b x, k_bcache k !! b = Some x → dirty x = true ∧ root x) as Hall.
  { intros b x Hb. pose proof (proj1 (Forall_lookup _ _) Hno b x Hb) as Hx. cbn in Hx.
    destruct (dirty x) eqn:E; [|done]. split; [done|]. by apply (bi_dirty _ _ _ Hinv b x). }
  assert (NoDup (b_blockno <$> k_bcache k)) as Hnd.
  { apply NoDup_alt. intros b b' n. rewrite !list_lookup_fmap.
    destruct (k_bcache k !! b) as [x|] eqn:Hb, (k_bcache k !! b') as [x'|] eqn:Hb'; cbn; try done.
    intros [= <-] [= E]. destruct (Hall _ _ Hb), (Hall _ _ Hb'). by eapply (bi_uniq _ _ _ Hinv). }
  assert (b_blockno <$> k_bcache k ⊆+ logged (k_log k)) as Hsub.
  { apply NoDup_submseteq; [done|]. intros n Hin. apply list_elem_of_fmap in Hin as (x & -> & [b Hb]%list_elem_of_lookup).
    apply Hd. exists b, x. by destruct (Hall _ _ Hb). }
  apply submseteq_length in Hsub. rewrite length_fmap, (bi_len _ _ _ Hinv), (logged_length _ _ _ Hl) in Hsub.
  pose proof (lo_n _ _ _ Hl). lia.
Qed.

Lemma log_ready st sz i k :
  log_inv st sz i ∅ k → sz ≤ Z.of_nat NBUF → ready i k.
Proof.
  intros Hli Hsz. pose proof Hli as [Hinv Hwf Hl Hd]. split_and!; [done|done|].
  eapply log_avail; [done|]. pose proof (lo_n _ _ _ Hl). lia.
Qed.

(** *** [log_write] *)

Lemma log_slot_spec st sz l n :
  log_ok st sz l →
  (n ∈ logged l ∧ (log_slot l n < Z.to_nat (lg_n l))%nat ∧ lg_block l !! log_slot l n = Some n) ∨
  (n ∉ logged l ∧ log_slot l n = Z.to_nat (lg_n l)).
Proof.
  intros Hl. unfold log_slot. fold (logged l).
  destruct (list_find (λ v, v = n) (logged l)) as [[j v]|] eqn:E.
  - left. apply list_find_Some in E as (Hj & -> & _). split; [by eapply list_elem_of_lookup_2|].
    pose proof (lookup_lt_Some _ _ _ Hj) as Hlt. rewrite (logged_length _ _ _ Hl) in Hlt.
    split; [done|]. unfold logged in Hj. by rewrite lookup_take_lt in Hj by done.
  - right. apply list_find_None in E. rewrite Forall_forall in E. split; [|done]. intros Hin. by apply (E n).
Qed.

(** The log after block [n] has been recorded. *)
Definition log_record (n : Z) (l : log_t) : log_t :=
  if decide (n ∈ logged l) then l
  else set_lg_n (lg_n l + 1) (set_lh_block (Z.to_nat (lg_n l)) n l).

Lemma logged_record st sz l n :
  log_ok st sz l → lg_n l < Z.of_nat LOGSIZE → n ∉ logged l →
  logged (log_record n l) = logged l ++ [n].
Proof.
  intros Hl Hmax Hn. unfold log_record. rewrite decide_False by done. unfold logged. cbn.
  pose proof (lo_n _ _ _ Hl). pose proof (lo_len _ _ _ Hl).
  replace (Z.to_nat (lg_n l + 1)) with (S (Z.to_nat (lg_n l))) by lia.
  rewrite (take_S_r _ _ n) by (apply list_lookup_insert_eq; lia).
  by rewrite take_insert_ge by lia.
Qed.

Lemma log_ok_record st sz l n :
  log_ok st sz l → lg_n l < Z.of_nat LOGSIZE → lg_n l < sz - 1 →
  0 ≤ n < FSSIZE → ¬ in_log st sz n → log_ok st sz (log_record n l).
Proof.
  intros Hl Hmax Hn Hr Hout. destruct (decide (n ∈ logged l)) as [Hin|Hin].
  { unfold log_record. by rewrite decide_True. }
  pose proof (logged_record _ _ _ _ Hl Hmax Hin) as Hlog. unfold log_record in *. rewrite decide_False in * by done.
  destruct Hl as [H1 H2 H3 H4 H5 H6 H7 H8]. split; try done; cbn -[logged LOGSIZE].
  - lia.
  - lia.
  - by rewrite length_insert.
  - intros m. rewrite Hlog, elem_of_app, list_elem_of_singleton. intros [?| ->]; auto.
  - rewrite Hlog. apply NoDup_app. split_and!; [done|set_solver|apply NoDup_singleton].
Qed.

Section log_write.
Context (st sz : Z) (i : nat).

Lemma log_write_run H b x o k :
  log_inv st sz i H k → b ∈ H → k_bcache k !! b = Some x →
  lg_n (k_log k) < Z.of_nat LOGSIZE → lg_n (k_log k) < sz - 1 → 1 ≤ lg_outstanding (k_log k) →
  0 ≤ b_blockno x < FSSIZE →
  log_write b o k = Ret tt o
    (set_k_bcache (<[b := set_b_flags (Z.lor (b_flags x) B_DIRTY) x]> (k_bcache k))
      (set_k_log (log_record (b_blockno x) (k_log k)) k)).
Proof.
  intros Hli HbH Hb Hmax Hn Hout Hr. pose proof Hli as [Hinv Hwf Hl Hd].
  pose proof (bi_quiet _ _ _ Hinv) as Hq. pose proof (lo_n _ _ _ Hl) as Hn0.
  unfold log_write, logget, bufget, logset, bufset. kstep. unfold id.
  rewrite (lo_size _ _ _ Hl), (proj2 (Z.leb_gt _ _)), (proj2 (Z.leb_gt _ _)), (proj2 (Z.ltb_ge _ _)) by lia. cbn [orb].
  kstep_with (idle_free_acquire i LLog o k (proj1 Hq) (quiet_free i k _ Hq)). kstep.
  change (buf_at (set_k_hw _ k) b) with (buf_at k b). rewrite (buf_at_lookup _ _ _ Hb).
  cbn [k_log set_k_hw]. rewrite s32_small by (unfold FSSIZE in *; lia). set (n := b_blockno x) in *. set (l := k_log k) in *.
  assert ((if Z.of_nat (log_slot l n) =? lg_n l
           then set_lg_n (lg_n l + 1) (set_lh_block (log_slot l n) n l)
           else set_lh_block (log_slot l n) n l) = log_record n l) as Hrec.
  { unfold log_record. destruct (log_slot_spec _ _ l n Hl) as [(Hin & Hlt & Hs)|(Hin & ->)].
    - rewrite (proj2 (Z.eqb_neq _ _)), decide_True by (done || lia). unfold set_lh_block.
      rewrite list_insert_id by done. by destruct l.
    - rewrite (proj2 (Z.eqb_eq _ _)), decide_False by (done || lia). done. }
  set (kl := set_k_log _ _).
  assert (when (Z.of_nat (log_slot l n) =? lg_n l)
    (modify (λ k, set_k_log (set_lg_n (lg_n (k_log k) + 1) (k_log k)) k)) o kl =
    Ret tt o (set_k_log (log_record n l) (set_k_hw (hw_acq LLog (k_hw k)) k))) as Hw.
  { rewrite <- Hrec. destruct (Z.of_nat (log_slot l n) =? lg_n l); done. }
  kstep_with Hw. kstep. set (k2 := set_k_bcache _ _).
  rewrite (release_acquired LLog o k k2 (proj1 (proj1 Hq)) (quiet_free i k _ Hq) eq_refl). f_equal.
  unfold k2. cbn [k_bcache set_k_log set_k_hw]. rewrite bufset_insert by (by eapply lookup_lt_Some).
  rewrite (buf_at_lookup _ _ _ Hb). by destruct k.
Qed.

(** What [log_write] leaves: the same contents, the block recorded and pinned. *)
Record logged_post (H : gset nat) (k : K) (b : nat) (x : buf) (k' : K) : Prop := {
  gp_inv : log_inv st sz i H k';
  gp_view m : view k' m = view k m;
  gp_buf : ∃ x', k_bcache k' !! b = Some x' ∧ b_blockno x' = b_blockno x ∧ b_data x' = b_data x ∧ dirty x' = true;
  gp_other b' : b' ≠ b → k_bcache k' !! b' = k_bcache k !! b';
  gp_log : k_log k' = log_record (b_blockno x) (k_log k);
  gp_rest : k' = set_k_bcache (k_bcache k') (set_k_log (k_log k') k)
}.

Lemma log_write_spec H b x o k :
  log_inv st sz i H k → b ∈ H → k_bcache k !! b = Some x →
  lg_n (k_log k) < Z.of_nat LOGSIZE → lg_n (k_log k) < sz - 1 → 1 ≤ lg_outstanding (k_log k) →
  0 ≤ b_blockno x < FSSIZE → ¬ in_log st sz (b_blockno x) →
  ∃ k', log_write b o k = Ret tt o k' ∧ logged_post H k b x k'.
Proof.
  intros Hli HbH Hb Hmax Hn Hout Hr Hnl. eexists. split; [by apply (log_write_run H b x)|].
  pose proof Hli as [Hinv Hwf Hl Hd]. set (x' := set_b_flags _ x). set (k' := set_k_bcache _ _).
  assert (b < length (k_bcache k))%nat as Hlt by (by eapply lookup_lt_Some).
  destruct (bi_held _ _ _ Hinv _ _ Hb HbH) as (Hlk & Hrc & Hv & Hrt).
  assert (valid x' = true) as Hv' by (rewrite valid_bit in *; cbn [b_flags x' set_b_flags]; by rewrite Z.lor_spec, Hv).
  assert (dirty x' = true) as Hd' by (rewrite dirty_bit; cbn [b_flags x' set_b_flags]; rewrite Z.lor_spec; apply orb_true_r).
  assert (k_bcache k' !! b = Some x') as Hb' by (by apply list_lookup_insert_eq).
  assert (∀ b', b' ≠ b → k_bcache k' !! b' = k_bcache k !! b') as Hoth
    by (intros b' Hne; unfold k'; cbn; by rewrite list_lookup_insert_ne).
  assert (bio_inv i H k') as Hinv'.
  { eapply (bio_inv_insert i H H b x x' k k'); try done.
    - eapply quiet_ext; [..|apply (bi_quiet _ _ _ Hinv)]; done.
    - intros b' y Hne Hy Hry _ E. apply Hne. by eapply (bi_uniq _ _ _ Hinv).
    - rewrite bool_decide_eq_true_2 by done. split_and!; try done. by apply (bi_data _ _ _ Hinv b x). }
  split; try done.
  - split; [done|done|by apply log_ok_record|]. intros m.
    assert (m ∈ logged (k_log k') ↔ m ∈ logged (k_log k) ∨ m = b_blockno x) as ->.
    { unfold k'. cbn [k_log set_k_bcache set_k_log]. destruct (decide (b_blockno x ∈ logged (k_log k))) as [Hin|Hin].
      - unfold log_record. rewrite decide_True by done. naive_solver.
      - rewrite (logged_record st sz) by done. rewrite elem_of_app, list_elem_of_singleton. done. }
    rewrite <- Hd. split.
    + intros (b' & y & Hy & Hry & Hm & Hdy). destruct (decide (b' = b)) as [->|Hne].
      * rewrite Hb' in Hy. simplify_eq. by right.
      * rewrite Hoth in Hy by done. left. by exists b', y.
    + intros [(b' & y & Hy & Hry & Hm & Hdy)| ->]; [|by exists b, x'].
      destruct (decide (b' = b)) as [->|Hne]; [|exists b', y; by rewrite Hoth]. simplify_eq. by exists b, x'.
  - intros m. eapply view_ext; [exact Hinv|exact Hinv'|done| |]; intros b' y Hy Hhy;
      (destruct (decide (b' = b)) as [->|Hne]).
    + simplify_eq. exists b, x'. split_and!; try done. by destruct Hhy as (? & ? & _).
    + exists b', y. by rewrite Hoth.
    + rewrite Hb' in Hy. simplify_eq. left. exists b, x. split; [done|]. by destruct Hhy as (? & ? & _).
    + rewrite Hoth in Hy by done. left. by exists b', y.
  - by exists x'.
Qed.
End log_write.

(** *** [begin_op] and [end_op] *)

Lemma begin_op_run i o k :
  quiet i k → log_busy k = false →
  begin_op o k = Ret tt o (set_k_log (set_lg_outstanding (lg_outstanding (k_log k) + 1) (k_log k)) k).
Proof.
  intros Hq Hb. unfold begin_op, logset.
  kstep_with (idle_free_acquire i LLog o k (proj1 Hq) (quiet_free i k _ Hq)). set (k1 := set_k_hw _ k).
  assert (sleep_while log_busy CLog LLog o k1 = Ret tt o k1) as Hw.
  { unfold sleep_while. rewrite forever_unfold by apply sleep_while_waits. kstep.
    change (log_busy k1) with (log_busy k). by rewrite Hb. }
  kstep_with Hw. kstep. set (k2 := set_k_log _ k1).
  rewrite (release_acquired LLog o k k2 (proj1 (proj1 Hq)) (quiet_free i k _ Hq) eq_refl). by destruct k.
Qed.

(** With the log full or a commit going on, [begin_op] waits; it returns in
    a state where there is room for its blocks. *)
Lemma begin_op_waits i o k :
  idle i k → h_locks (k_hw k) !! LLog = None → Forall (env_ok i LLog) o →
  match begin_op o k with
  | Ret _ o' k' =>
      ∃ k0, log_busy k0 = false ∧
        k_log k' = set_lg_outstanding (lg_outstanding (k_log k0) + 1) (k_log k0) ∧ idle i k'
  | Panic _ _ => False
  | Blocked _ => True
  end.
Proof.
  intros Hidle Hl Ho. unfold begin_op, logset. kstep_with (idle_free_acquire i LLog o k Hidle Hl).
  pose proof (idle_acquire i LLog k Hidle ltac:(done)) as Hcs. set (k1 := set_k_hw _ k) in *.
  unfold bind at 1. rewrite (sleep_while_run _ i) by done.
  pose proof (wait_run_spec log_busy i CLog LLog o k1 Hcs Ho) as Hw.
  destruct (wait_run _ _ _ _ o k1) as [[] o2 k2| |]; [|done|done]. destruct Hw as (Hc & Hcs2 & _). kstep.
  set (k3 := set_k_log _ k2). assert (can_sleep i LLog k3) as Hcs3 by (by eapply can_sleep_ext; [..|exact Hcs2]).
  rewrite (can_sleep_release i LLog o2 k3 Hcs3). exists k2. split_and!; try done.
  by apply (can_sleep_idle i LLog).
Qed.

Section end_op.
Context {DEV : BlockDev} {DEVOK : BlockDevOk DEV} (st sz : Z).
Hypothesis Hst : 0 ≤ st.
Hypothesis Hsz : st + sz ≤ FSSIZE.
Hypothesis Hbuf : sz ≤ Z.of_nat NBUF.
Hypothesis Hserve : ∀ m, 0 ≤ m < FSSIZE → dev_serves ROOTDEV m.

(** After a commit every block outside the log is on the disk as the kernel
    sees it, and the log is empty. *)
Record committed (i : nat) (k k' : K) : Prop := {
  cm_inv : log_inv st sz i ∅ k';
  cm_log : k_log k' = set_lg_n 0 (k_log k);
  cm_view m : ¬ in_log st sz m → view k' m = view k m;
  cm_disk m : ¬ in_log st sz m → block k' m = view k m;
  cm_frame : bio_frame (set_k_log (k_log k') k) k'
}.

Lemma commit_spec i o k :
  log_inv st sz i ∅ k → ∃ k', commit o k = Ret tt o k' ∧ committed i k k'.
Proof.
  intros Hli. pose proof (log_ready _ _ _ _ Hli Hbuf) as Hr. pose proof Hli as [Hinv Hwf Hl Hd].
  pose proof (lo_n _ _ _ Hl) as Hn. destruct (decide (lg_n (k_log k) = 0)) as [E|Hne].
  { exists k. unfold commit, logget. kstep. rewrite E. split; [done|].
    assert (∀ m, ¬ dirty_block k m) as Hnd.
    { intros m Hm. apply Hd in Hm. unfold logged in Hm. rewrite E in Hm. by apply elem_of_nil in Hm. }
    assert (k_log k = set_lg_n 0 (k_log k)) as Hlog by (destruct (k_log k) eqn:El; cbn in *; unfold set_lg_n; cbn; congruence).
    split; try done.
    - intros m _. symmetry. by apply (view_clean i).
    - split; [by destruct k|done]. }
  destruct (commit_run st sz Hst Hsz Hserve i o k) as (k' & Hrun & A); [done|done|lia|done|].
  exists k'. split; [done|]. pose proof (wrote_all_log _ _ _ _ A) as Hlog. cbn in Hlog.
  assert (∀ m, ¬ in_log st sz m → view k' m = view k m) as Hv.
  { intros m Hm. rewrite (wa_view _ _ _ _ A). change (view (set_k_log _ k)) with (view k).
    apply overlay_const; [|by right]. intros d Hin. by eapply (commit_value st sz k). }
  assert (∀ m, ¬ dirty_block k' m) as Hnd.
  { intros m [Hnin Hm]%(wa_dirty _ _ _ _ A). apply Hnin.
    assert (m ∈ logged (k_log k)) as Hin by (by apply Hd).
    apply (logged_index st sz) in Hin as (u & Hu & ->); [|done].
    unfold commit_writes. rewrite !fmap_app, !elem_of_app. do 2 right. left. apply home_writes_keys.
    exists u. unfold commit_log. split; [lia|done]. }
  destruct (wa_ready _ _ _ _ A) as (Hinv' & Hwf' & _). split; try done.
  - split; [done|done|rewrite Hlog; by apply log_ok_clear|]. intros m. rewrite Hlog.
    split; [by intros ?%Hnd|]. unfold logged. cbn. by intros ?%elem_of_nil.
  - intros m Hm. rewrite <- (view_clean i k' m Hinv' (Hnd m)). by apply Hv.
  - rewrite Hlog. apply (wa_frame _ _ _ _ A).
Qed.

Lemma log_ok_ext l l' :
  lg_start l' = lg_start l → lg_size l' = lg_size l → lg_dev l' = lg_dev l → lg_n l' = lg_n l →
  lg_block l' = lg_block l → log_ok st sz l → log_ok st sz l'.
Proof.
  intros E1 E2 E3 E4 E5 []. assert (logged l' = logged l) as E by (unfold logged; by rewrite E4, E5).
  split; rewrite ?E1, ?E2, ?E3, ?E4, ?E5, ?E; done.
Qed.

Lemma log_inv_ext i H k l' :
  lg_start l' = lg_start (k_log k) → lg_size l' = lg_size (k_log k) → lg_dev l' = lg_dev (k_log k) →
  lg_n l' = lg_n (k_log k) → lg_block l' = lg_block (k_log k) →
  log_inv st sz i H k → log_inv st sz i H (set_k_log l' k).
Proof.
  intros E1 E2 E3 E4 E5 [Hinv Hwf Hl Hd]. split; [by apply bio_inv_log|done|by eapply log_ok_ext|].
  intros m. cbn [k_log set_k_log]. unfold logged. rewrite E4, E5. apply Hd.
Qed.

(** A state change that leaves the cache, the disk and the log alone. *)
Lemma log_inv_wake i H ch k :
  log_inv st sz i H k → log_inv st sz i H (set_k_ptable (wake_proc ch <$> k_ptable k) k).
Proof.
  intros [Hinv Hwf Hl Hd]. pose proof (carried_wake i ch k) as Hca. split; try done.
  destruct Hinv as [H0 H1 H2 H3 H4 H5 H6 H7 H8 H9]. split; try done; [by apply Hca|].
  intros b x Hb HbH. rewrite (quiet_pid_carried _ _ _ Hca). by apply H9 with b.
Qed.

Lemma bio_frame_log k k3 l l' pt :
  bio_frame (set_k_log l k) k3 → p_pid <$> pt = p_pid <$> k_ptable k3 →
  bio_frame (set_k_log l' k) (set_k_ptable pt (set_k_log l' k3)).
Proof.
  intros [R P] Hpt. split; [|by rewrite P in Hpt]. clear P Hpt. destruct k3, k. cbn in R |- *. injection R. intros. subst. reflexivity.
Qed.

Definition end_log (l : log_t) : log_t :=
  set_lg_committing false (set_lg_n 0 (set_lg_outstanding (lg_outstanding l - 1) l)).

Lemma end_op_spec i o k :
  log_inv st sz i ∅ k → lg_outstanding (k_log k) = 1 → lg_committing (k_log k) = false →
  ∃ k', end_op o k = Ret tt o k' ∧ log_inv st sz i ∅ k' ∧ k_log k' = end_log (k_log k) ∧
    (∀ m, ¬ in_log st sz m → view k' m = view k m ∧ block k' m = view k m) ∧
    bio_frame (set_k_log (k_log k') k) k'.
Proof.
  intros Hli Hout Hcom. pose proof (li_bio _ _ _ _ _ Hli) as Hinv. pose proof (bi_quiet _ _ _ Hinv) as Hq.
  unfold end_op, logset, logget. kstep_with (idle_free_acquire i LLog o k (proj1 Hq) (quiet_free i k _ Hq)). kstep.
  cbn [k_log set_k_log set_k_hw lg_committing set_lg_outstanding lg_outstanding]. rewrite Hcom. kstep.
  cbn [k_log set_k_log set_k_hw lg_committing set_lg_outstanding lg_outstanding]. rewrite Hout.
  change (1 - 1 =? 0) with true. cbn [when]. kstep. cbn [k_log set_k_log set_k_hw].
  set (l2 := set_lg_committing true _). set (k2 := set_k_log l2 _).
  kstep_with (release_acquired LLog o k k2 (proj1 (proj1 Hq)) (quiet_free i k _ Hq) eq_refl).
  replace (set_k_hw (k_hw k) k2) with (set_k_log l2 k) by (by destruct k).
  assert (log_inv st sz i ∅ (set_k_log l2 k)) as Hli2 by (by apply log_inv_ext).
  destruct (commit_spec i o _ Hli2) as (k3 & Hrun3 & [C1 C2 C3 C4 C5]). kstep_with Hrun3.
  pose proof (bi_quiet _ _ _ (li_bio _ _ _ _ _ C1)) as Hq3.
  kstep_with (idle_free_acquire i LLog o k3 (proj1 Hq3) (quiet_free i k3 _ Hq3)). kstep.
  cbn [k_log set_k_hw]. rewrite C2. cbn [k_log set_k_log]. set (k4 := set_k_log _ _).
  pose proof (idle_acquire i LLog k3 (proj1 Hq3) ltac:(done)) as (Hok4 & _ & _ & _ & Hfree4 & _).
  kstep_with (wakeup_spec CLog o k4 Hok4 (Hfree4 ltac:(done))). set (k5 := set_k_ptable _ k4).
  rewrite (release_acquired LLog o k3 k5 (proj1 (proj1 Hq3)) (quiet_free i k3 _ Hq3) eq_refl).
  eexists. split; [done|]. set (l5 := set_lg_committing false (set_lg_n 0 l2)) in *.
  replace (set_k_hw (k_hw k3) k5) with (set_k_ptable (wake_proc CLog <$> k_ptable k3) (set_k_log l5 k3)) by (by destruct k3).
  assert (log_inv st sz i ∅ (set_k_log l5 k3)) as Hli5.
  { apply log_inv_ext; try done; rewrite C2; done. }
  split; [by apply (log_inv_wake i ∅ CLog (set_k_log l5 k3))|]. split.
  { cbn [k_log set_k_ptable set_k_log]. unfold end_log, l5, l2. rewrite Hout. by destruct (k_log k). }
  split.
  - intros m Hm. split; [apply (C3 m Hm)|apply (C4 m Hm)].
  - apply (bio_frame_log k k3 (k_log k3) l5); [done|]. rewrite <- list_fmap_compose. apply list_fmap_ext.
    intros ? q _. cbn. unfold wake_proc. by destruct (_ && _).
Qed.
End end_op.

(** ** Crash safety *)

(** A machine that has just booted: nothing of the old cache is left. *)
Definition booted (st sz : Z) (i : nat) (k : K) : Prop :=
  ready i k ∧ avail2 k ∧ (∀ m, ¬ dirty_block k m) ∧ log_boot st sz (k_log k).

(** C1: Let the machine crash at any point of a commit, so that only a prefix
    [p] of the commit's block writes is on the disk, and reboot.  Recovery
    terminates, clears the log, and leaves every block outside the log with the
    contents it had before the transaction (when the header had not been
    written yet) or with the contents the transaction gave it (when it had):
    never a mixture. *)
Theorem commit_crash_safe {DEV : BlockDev} {DEVOK : BlockDevOk DEV} st sz i o k :
  0 ≤ st → st + sz ≤ FSSIZE → sz ≤ Z.of_nat NBUF →
  (∀ m, 0 ≤ m < FSSIZE → dev_serves ROOTDEV m) →
  log_inv st sz i ∅ k → 0 < lg_n (k_log k) → hdr_n (block k st) = 0 →
  ∃ k1 ws, commit o k = Ret tt o k1 ∧ k_writes k1 = k_writes k ++ ws ∧
    k_disk k1 = apply_writes ws (k_disk k) ∧
    ∀ p ib kb ob, p `prefix_of` ws → k_disk kb = apply_writes p (k_disk k) → booted st sz ib kb →
      ∃ k', recover_from_log ob kb = Ret tt ob k' ∧ hdr_n (block k' st) = 0 ∧
        ∀ m, ¬ in_log st sz m →
          block k' m = if decide (length p ≤ Z.to_nat (lg_n (k_log k)))%nat then block k m else view k m.
Proof.
  intros Hst Hsz Hbuf Hserve Hli Hn Hclear. pose proof (log_ready _ _ _ _ Hli Hbuf) as Hr.
  pose proof Hli as [Hinv Hwf Hl Hd].
  destruct (commit_run st sz Hst Hsz Hserve i o k Hr Hl Hn Hd) as (k1 & Hrun & A).
  exists k1, (commit_writes st (view k) (k_log k)).
  split; [done|]. split; [apply A|]. split; [apply A|]. intros p ib kb ob Hp Hdisk (Hrb & Hav2 & Hndb & Hlb).
  assert (log_ok st sz (load_head (view kb st) (k_log kb))) as Hok by (by eapply (crash_log_ok st sz i ib k kb p)).
  destruct (recover_run st sz Hst Hsz Hserve ib ob kb Hrb Hav2 Hndb) as (k' & Hrun' & A');
    [apply Hlb..|done|].
  exists k'. split; [done|]. unfold block. rewrite (wa_disk _ _ _ _ A'). cbn [k_disk set_k_log]. split.
  - fold (blk (apply_writes (recover_writes st (view kb) (load_head (view kb st) (k_log kb))) (k_disk kb)) st).
    rewrite blk_apply. unfold recover_writes. rewrite overlay_app. unfold overlay at 1. cbn [foldl fst snd].
    rewrite Z.eqb_refl. unfold hdr_n. rewrite get32_put32_eq; [done|].
    rewrite (view_length ib ∅ kb st (proj1 Hrb) (proj1 (proj2 Hrb) st)). change (Z.to_nat BSIZE) with 512%nat. lia.
  - intros m Hm. by apply (crash_recovered st sz i ib k kb p).
Qed.

(** A transaction that has changed block 100, and the machine rebooted. *)
Definition demo_dirty : buf := mk_buf 6 ROOTDEV 100 (mk_sl false 0) 0 (replicate (Z.to_nat BSIZE) 7).
Definition demo_pending : K :=
  set_k_bcache (<[0%nat := demo_dirty]> (replicate NBUF zero_buf))
    (set_k_lru (seq 0 NBUF)
      (set_k_log (mk_log 2 30 1 false ROOTDEV 1 (100 :: replicate 29 0)) (K_demo ∅))).
Definition demo_boot : K :=
  set_k_lru (seq 0 NBUF)
    (set_k_log (mk_log 2 30 0 false ROOTDEV 0 (replicate LOGSIZE 0)) (K_demo ∅)).

Lemma demo_boot_inv : bio_inv 0 ∅ demo_boot.
Proof.
  apply bio_inv_unused; try done.
  - by eapply quiet_ext; [..|apply (demo_quiet ∅)].
  - intros b x Hb. by apply (lookup_replicate_1 NBUF) in Hb as [-> _].
Qed.

Lemma demo_boot_booted : booted 2 30 0 demo_boot.
Proof.
  split_and!.
  - split_and!; [apply demo_boot_inv|done|]. exists 0%nat, zero_buf. split_and!; [done|set_solver|done].
  - exists 0%nat, 1%nat, zero_buf, zero_buf. done.
  - intros m (b & x & Hb & Hr & _). apply (lookup_replicate_1 NBUF) in Hb as [-> _]. done.
  - done.
Qed.

Lemma demo_pending_inv : log_inv 2 30 0 ∅ demo_pending.
Proof.
  assert (∀ b x, k_bcache demo_pending !! b = Some x → b = 0%nat ∧ x = demo_dirty ∨ x = zero_buf) as Hb.
  { intros [|b] x Hx; [left; by injection Hx|right]. change (replicate 29 zero_buf !! b = Some x) in Hx.
    by apply lookup_replicate_1 in Hx as [-> _]. }
  split.
  - split; try done.
    + by eapply quiet_ext; [..|apply (demo_quiet ∅)].
    + by intros b x [[_ ->]| ->]%Hb.
    + intros b b' x x' [[-> ->]| ->]%Hb [[-> ->]| ->]%Hb; done.
    + by intros b x [[_ ->]| ->]%Hb.
    + by intros b x [[_ ->]| ->]%Hb _ _.
    + by intros b x [[_ ->]| ->]%Hb _.
  - done.
  - split; try done.
    + intros m [->|?%elem_of_nil]%elem_of_cons; [|done]. unfold FSSIZE, in_log. lia.
    + apply NoDup_singleton.
  - intros m. split.
    + intros (b & x & [[_ ->]| ->]%Hb & Hr & <- & Hd); [by left|done].
    + intros [->|?%elem_of_nil]%elem_of_cons; [|done]. by exists 0%nat, demo_dirty.
Qed.

(** The commit of the pending transaction runs; after a crash before its first
    write, recovery leaves block 100 as it was on the disk. *)
Lemma commit_crash_safe_witness :
  ∃ k1 ws, @commit (memide_dev FSSIZE) [] demo_pending = Ret tt [] k1 ∧ k_writes k1 = ws ∧
    ∃ k', @recover_from_log (memide_dev FSSIZE) [] demo_boot = Ret tt [] k' ∧ block k' 100 = zero_block.
Proof.
  destruct (@commit_crash_safe (memide_dev FSSIZE) _ 2 30 0 [] demo_pending) as (k1 & ws & Hrun & Hw & _ & Hcrash).
  - done.
  - done.
  - done.
  - cbn. intros m Hm. split; [done|lia].
  - apply demo_pending_inv.
  - reflexivity.
  - vm_compute. reflexivity.
  - exists k1, ws. split; [exact Hrun|]. split; [exact Hw|].
    destruct (Hcrash [] 0%nat demo_boot [] (prefix_nil _) eq_refl demo_boot_booted) as (k' & Hrun' & _ & Hm).
    exists k'. split; [exact Hrun'|]. rewrite Hm; [done|]. unfold in_log. lia.
Defined.

(** C16: The [end_op] of the last running operation commits: afterwards the
    disk holds, for every block outside the log, exactly what the kernel saw
    before the call, the log is empty, and no operation is counted. *)
Theorem end_op_durable {DEV : BlockDev} {DEVOK : BlockDevOk DEV} st sz i o k :
  0 ≤ st → st + sz ≤ FSSIZE → sz ≤ Z.of_nat NBUF →
  (∀ m, 0 ≤ m < FSSIZE → dev_serves ROOTDEV m) →
  log_inv st sz i ∅ k → lg_outstanding (k_log k) = 1 → lg_committing (k_log k) = false →
  ∃ k', end_op o k = Ret tt o k' ∧ log_inv st sz i ∅ k' ∧
    lg_n (k_log k') = 0 ∧ lg_outstanding (k_log k') = 0 ∧ lg_committing (k_log k') = false ∧
    ∀ m, ¬ in_log st sz m → view k' m = view k m ∧ block k' m = view k m.
Proof.
  intros Hst Hsz Hbuf Hserve Hli Hout Hc.
  destruct (end_op_spec st sz Hst Hsz Hbuf Hserve i o k Hli Hout Hc) as (k' & Hrun & Hli' & Hl & Hv & _).
  exists k'. rewrite Hl. cbn. rewrite Hout. done.
Qed.

Lemma end_op_durable_witness :
  ∃ k', @end_op (memide_dev FSSIZE) [] demo_pending = Ret tt [] k' ∧ block k' 100 = replicate (Z.to_nat BSIZE) 7.
Proof.
  destruct (@end_op_durable (memide_dev FSSIZE) _ 2 30 0 [] demo_pending) as (k' & Hrun & _ & _ & _ & _ & Hm).
  - done.
  - done.
  - done.
  - cbn. intros m Hm. split; [done|lia].
  - apply demo_pending_inv.
  - reflexivity.
  - reflexivity.
  - exists k'. split; [exact Hrun|]. destruct (Hm 100) as [_ ->]; [unfold in_log; lia|]. vm_compute. reflexivity.
Defined.

(** [log_write] on a held buffer records its block in the log header,
    once however often the block is written in the transaction (absorption),
    pins the buffer by marking it dirty, keeps the log's invariant and changes no
    block's contents. *)
Theorem log_write_records st sz i H b x o k :
  log_inv st sz i H k → b ∈ H → k_bcache k !! b = Some x →
  lg_n (k_log k) < Z.of_nat LOGSIZE → lg_n (k_log k) < sz - 1 → 1 ≤ lg_outstanding (k_log k) →
  0 ≤ b_blockno x < FSSIZE → ¬ in_log st sz (b_blockno x) →
  ∃ k', log_write b o k = Ret tt o k' ∧ log_inv st sz i H k' ∧
    logged (k_log k') =
      (if decide (b_blockno x ∈ logged (k_log k)) then logged (k_log k)
       else logged (k_log k) ++ [b_blockno x]) ∧
    dirty (buf_at k' b) = true ∧ ∀ m, view k' m = view k m.
Proof.
  intros Hli HbH Hb Hmax Hn Hout Hr Hnl.
  destruct (log_write_spec st sz i H b x o k Hli HbH Hb Hmax Hn Hout Hr Hnl) as (k' & Hrun & Hp).
  exists k'. split; [done|]. split; [apply Hp|]. rewrite (gp_log _ _ _ _ _ _ _ _ Hp).
  destruct (gp_buf _ _ _ _ _ _ _ _ Hp) as (x' & Hx' & _ & _ & Hd). split_and!.
  - destruct (decide (b_blockno x ∈ logged (k_log k))) as [Hin|Hin].
    + unfold log_record. by rewrite decide_True.
    + eapply logged_record; [apply Hli|done|done].
  - by rewrite (buf_at_lookup _ _ _ Hx').
  - apply Hp.
Qed.

(** A transaction that has changed nothing yet and holds block 9. *)
Definition demo_txn : K := set_k_log (mk_log 2 6 1 false ROOTDEV 0 (replicate LOGSIZE 0)) demo_held.

Lemma demo_txn_inv : log_inv 2 6 0 {[0%nat]} demo_txn.
Proof.
  split.
  - apply bio_inv_log, demo_held_inv.
  - intros n d. cbn. intros [<- <-]%lookup_singleton_Some. done.
  - split; try done; [by intros m ?%elem_of_nil|apply NoDup_nil_2].
  - intros m. split; [|by intros ?%elem_of_nil]. intros (b & x & Hb & Hr & _ & Hd). exfalso.
    destruct b as [|b]; [by injection Hb as <-|]. change (replicate 29 zero_buf !! b = Some x) in Hb.
    by apply lookup_replicate_1 in Hb as [-> _].
Qed.

Lemma log_write_records_witness :
  ∃ k', log_write 0 [] demo_txn = Ret tt [] k' ∧ logged (k_log k') = [9].
Proof.
  destruct (log_write_records 2 6 0 {[0%nat]} 0
    (mk_buf 2 ROOTDEV 9 (mk_sl true 1) 1 (replicate (Z.to_nat BSIZE) 6)) [] demo_txn) as (k' & Hrun & _ & Hl & _).
  - apply demo_txn_inv.
  - by apply elem_of_singleton.
  - reflexivity.
  - reflexivity.
  - reflexivity.
  - vm_compute. discriminate.
  - split; [discriminate|reflexivity].
  - unfold in_log. cbn. lia.
  - exists k'. split; [exact Hrun|]. rewrite Hl. reflexivity.
Defined.
