(* ===== verification/Txn.v ===== *)
(** * Block updates inside a transaction

    How the routines of [fs.c] use the cache and the log: read a block, change
    it, [log_write] and release it.  [changed k ws k'] says that the kernel's view
    of the disk went from [k] to [k'] by the block updates [ws], all of them
    recorded in the log; it composes, so that the specifications of the file
    system are lists of block updates. *)

From stdpp Require Import base numbers list gmap strings.
From S2P Require Import Prelude Mmu Hardware Memory Bytes Kernel Spinlock Kalloc Cprintf Vm Proc Sleeplock Blockdev Memide Bio Log.

Implicit Types (k : K) (o : oracle).

(** What block updates in a transaction may change: the cache, the log in
    memory, the states of processes that wait for a lock and the accesses to the
    disk. *)
Record fs_frame (k k' : K) : Prop := {
  ff_rest : k' = set_k_ptable (k_ptable k') (set_k_hw (k_hw k') (set_k_bcache (k_bcache k')
    (set_k_lru (k_lru k') (set_k_log (k_log k') (set_k_io (k_io k') k)))));
  ff_pids : p_pid <$> k_ptable k' = p_pid <$> k_ptable k;
  ff_log : set_lg_n 0 (set_lg_block [] (k_log k')) = set_lg_n 0 (set_lg_block [] (k_log k))
}.

Lemma fs_frame_refl k : fs_frame k k.
Proof. split; [by destruct k|done|done]. Qed.

Lemma fs_frame_trans k1 k2 k3 : fs_frame k1 k2 → fs_frame k2 k3 → fs_frame k1 k3.
Proof. intros [R1 P1 L1] [R2 P2 L2]. split; [|congruence|congruence]. rewrite R2, R1 at 1. done. Qed.

Lemma fs_frame_bio k k' : bio_frame k k' → k_disk k' = k_disk k → k_writes k' = k_writes k → fs_frame k k'.
Proof.
  intros [R P] Hd Hw. assert (k_log k' = k_log k) as Hl by (by rewrite R). split; [|done|by rewrite Hl].
  rewrite R at 1. rewrite Hd, Hw, Hl. by destruct k.
Qed.

Lemma fs_frame_outstanding k k' : fs_frame k k' → lg_outstanding (k_log k') = lg_outstanding (k_log k).
Proof. intros [_ _ L]. apply (f_equal lg_outstanding) in L. exact L. Qed.

Lemma fs_frame_icache k k' : fs_frame k k' → k_icache k' = k_icache k ∧ k_sb k' = k_sb k ∧ k_disk k' = k_disk k.
Proof. intros [-> _ _]. done. Qed.

(** With [n] blocks logged and the buffers of [H] held, another can be found. *)
Lemma held_avail st sz i H k :
  log_inv st sz i H k → lg_n (k_log k) + Z.of_nat (size H) < Z.of_nat NBUF → avail H k.
Proof.
  intros [Hinv Hwf Hl Hd] Hn.
  destruct (decide (Exists (λ b, b ∉ H ∧ dirty (buf_at k b) = false) (seq 0 NBUF))) as [Hex|Hno].
  { apply Exists_exists in Hex as (b & [_ Hb]%elem_of_seq & HbH & Hx).
    destruct (lookup_lt_is_Some_2 (k_bcache k) b) as [x Hbx]; [rewrite (bi_len _ _ _ Hinv); lia|].
    exists b, x. by rewrite (buf_at_lookup _ _ _ Hbx) in Hx. }
  exfalso. rewrite <- Forall_Exists_neg in Hno.
  set (bs := filter (.∉ H) (seq 0 NBUF)).
  assert (∀ b, b ∈ bs → ∃ x, k_bcache k !! b = Some x ∧ dirty x = true ∧ root x) as Hall.
  { intros b [HbH Hb]%list_elem_of_filter. rewrite Forall_forall in Hno. specialize (Hno b Hb). cbn in Hno.
    apply elem_of_seq in Hb. destruct (lookup_lt_is_Some_2 (k_bcache k) b) as [x Hbx]; [rewrite (bi_len _ _ _ Hinv); lia|].
    rewrite (buf_at_lookup _ _ _ Hbx) in Hno. exists x. assert (dirty x = true) as Hdx by (destruct (dirty x); naive_solver).
    split_and!; [done|done|]. by apply (bi_dirty _ _ _ Hinv b x). }
  assert ((λ b, b_blockno (buf_at k b)) <$> bs ⊆+ logged (k_log k)) as Hsub.
  { apply NoDup_submseteq.
    - apply NoDup_fmap_2_strong; [|apply NoDup_filter, NoDup_seq]. intros b b' Hb Hb' E.
      destruct (Hall _ Hb) as (x & Hx & _ & Hr), (Hall _ Hb') as (x' & Hx' & _ & Hr').
      rewrite (buf_at_lookup _ _ _ Hx), (buf_at_lookup _ _ _ Hx') in E. by eapply (bi_uniq _ _ _ Hinv).
    - intros n (b & -> & Hb)%list_elem_of_fmap. apply Hd. destruct (Hall _ Hb) as (x & Hx & Hdx & Hr).
      rewrite (buf_at_lookup _ _ _ Hx). by exists b, x. }
  apply submseteq_length in Hsub. rewrite length_fmap, (logged_length _ _ _ Hl) in Hsub.
  assert (NBUF ≤ length bs + size H)%nat; [|pose proof (lo_n _ _ _ Hl); lia].
  assert (list_to_set (C := gset nat) (seq 0 NBUF) ⊆ list_to_set bs ∪ H) as Hcov.
  { intros b Hb%elem_of_list_to_set. apply elem_of_union. destruct (decide (b ∈ H)); [by right|left].
    by apply elem_of_list_to_set, list_elem_of_filter. }
  apply subseteq_size in Hcov. rewrite size_list_to_set, length_seq in Hcov by apply NoDup_seq.
  etrans; [exact Hcov|]. rewrite size_union_alt, size_list_to_set by (apply NoDup_filter, NoDup_seq).
  apply Nat.add_le_mono_l, subseteq_size. set_solver.
Qed.

(** The device serves every block of the file system. *)
Definition disk_served {DEV : BlockDev} : Prop := ∀ m, 0 ≤ m < FSSIZE → dev_serves ROOTDEV m.

Section txn.
Context {DEV : BlockDev} {DEVOK : BlockDevOk DEV} (st sz : Z) (i : nat).

(** The blocks of the running transactions. *)
Definition lset (k : K) : gset Z := list_to_set (logged (k_log k)).

(** An operation is going on that may log the blocks of [S] and [r] others:
    they fit in the log and, with the buffers of [H] held, in the cache. *)
Record budget (S : gset Z) (r : Z) (H : gset nat) (k : K) : Prop := {
  bg_op : 1 ≤ lg_outstanding (k_log k);
  bg_pos : 0 ≤ r;
  bg_log : Z.of_nat (size (S ∪ lset k)) + r < sz - 1;
  bg_cache : Z.of_nat (size (S ∪ lset k)) + r + Z.of_nat (size H) < Z.of_nat NBUF
}.

(** A buffer is left for a block that is only read. *)
Definition spare (H : gset nat) (k : K) : Prop := lg_n (k_log k) + Z.of_nat (size H) < Z.of_nat NBUF.

(** A block of the file system outside the log. *)
Definition fs_block (n : Z) : Prop := 0 ≤ n < FSSIZE ∧ ¬ in_log st sz n.

(** The block updates [ws] took [k] to [k'], the buffers of [H] untouched. *)
Record changed (H : gset nat) (k : K) (ws : list (Z * list Z)) (k' : K) : Prop := {
  ch_inv : log_inv st sz i H k';
  ch_view m : view k' m = overlay ws (view k) m;
  ch_logged m : m ∈ logged (k_log k') ↔ m ∈ logged (k_log k) ∨ m ∈ ws.*1;
  ch_held b : b ∈ H → k_bcache k' !! b = k_bcache k !! b;
  ch_frame : fs_frame k k'
}.

Lemma changed_refl H k : log_inv st sz i H k → changed H k [] k.
Proof. intros Hk. split; [done|done|set_solver|done|apply fs_frame_refl]. Qed.

Lemma changed_trans H k ws k1 ws' k2 :
  changed H k ws k1 → changed H k1 ws' k2 → changed H k (ws ++ ws') k2.
Proof.
  intros [T1 V1 L1 H1 F1] [T2 V2 L2 H2 F2]. split.
  - done.
  - intros m. rewrite V2, overlay_app. unfold overlay at 1 3. by rewrite V1.
  - intros m. rewrite L2, L1, fmap_app, elem_of_app. tauto.
  - intros b Hb. by rewrite H2, H1.
  - by eapply fs_frame_trans.
Qed.

(** *** Room in the log *)

Lemma lset_size H k : log_inv st sz i H k → Z.of_nat (size (lset k)) = lg_n (k_log k).
Proof.
  intros Hli. pose proof (li_log _ _ _ _ _ Hli) as Hl. unfold lset.
  rewrite size_list_to_set by apply (lo_nodup _ _ _ Hl). rewrite (logged_length _ _ _ Hl).
  pose proof (lo_n _ _ _ Hl). lia.
Qed.

Lemma budget_n S r H k : log_inv st sz i H k → budget S r H k → lg_n (k_log k) + r < sz - 1 ∧ spare H k.
Proof.
  intros Hli [_ Hp Hl Hc]. rewrite <- (lset_size H k Hli) in *. unfold spare. rewrite <- (lset_size H k Hli).
  assert (size (lset k) ≤ size (S ∪ lset k))%nat by (apply subseteq_size; set_solver). lia.
Qed.

Lemma changed_lset H k ws k' : changed H k ws k' → lset k' = lset k ∪ list_to_set ws.*1.
Proof.
  intros Hc. apply set_eq. intros m. unfold lset. rewrite elem_of_union, !elem_of_list_to_set. apply Hc.
Qed.

(** Updating blocks of [S] costs nothing more. *)
Lemma changed_budget H k ws k' S r :
  changed H k ws k' → (∀ m, m ∈ ws.*1 → m ∈ S) → budget S r H k → budget S r H k'.
Proof.
  intros Hc Hws [Ho Hp Hl Hca].
  assert (S ∪ lset k' = S ∪ lset k) as E.
  { rewrite (changed_lset _ _ _ _ Hc). apply set_eq. intros m. rewrite !elem_of_union, elem_of_list_to_set.
    specialize (Hws m). tauto. }
  split; [|done|by rewrite E|by rewrite E]. by rewrite (fs_frame_outstanding _ _ (ch_frame _ _ _ _ Hc)).
Qed.

Lemma changed_spare H k k' : log_inv st sz i H k → changed H k [] k' → spare H k → spare H k'.
Proof.
  intros Hli Hc. unfold spare. rewrite <- (lset_size H k), <- (lset_size H k') by (done || apply Hc).
  rewrite (changed_lset _ _ _ _ Hc). cbn [fmap list_fmap list_to_set]. by rewrite (right_id_L ∅ (∪)).
Qed.

(** One of the other blocks becomes known. *)
Lemma budget_take n S r H k : budget S (r + 1) H k → 0 ≤ r → budget ({[n]} ∪ S) r H k.
Proof.
  intros [Ho Hp Hl Hc] Hr.
  assert (size ({[n]} ∪ S ∪ lset k) ≤ size (S ∪ lset k) + 1)%nat.
  { replace ({[n]} ∪ S ∪ lset k) with ({[n]} ∪ (S ∪ lset k)) by set_solver.
    rewrite size_union_alt, size_singleton. rewrite Nat.add_comm. apply Nat.add_le_mono_r, subseteq_size. set_solver. }
  split; [done|done|lia|lia].
Qed.

Lemma budget_mono S S' r r' H k : S' ⊆ S → 0 ≤ r' ≤ r → budget S r H k → budget S' r' H k.
Proof.
  intros HS Hr [Ho Hp Hl Hc]. assert (size (S' ∪ lset k) ≤ size (S ∪ lset k))%nat by (apply subseteq_size; set_solver).
  split; [done|lia|lia|lia].
Qed.

Lemma changed_not_held H k ws k' n : changed H k ws k' → not_held H k n → not_held H k' n.
Proof. intros Hc Hn b x Hb Hx. rewrite (ch_held _ _ _ _ Hc) in Hx by done. by apply (Hn b). Qed.

Lemma view_wf H k n : log_inv st sz i H k → length (view k n) = Z.to_nat BSIZE.
Proof. intros Hli. eapply view_length; [apply Hli|]. intros d Hd. by eapply (li_wf _ _ _ _ _ Hli). Qed.

(** ** The three steps *)

(** The buffer [b], not in [H], holds block [n]; the view is that of [k]. *)
Record loaded (H : gset nat) (k : K) (n : Z) (b : nat) (x : buf) (k' : K) : Prop := {
  ld_inv : log_inv st sz i ({[b]} ∪ H) k';
  ld_new : b ∉ H;
  ld_buf : k_bcache k' !! b = Some x;
  ld_block : b_blockno x = n;
  ld_data : b_data x = view k n;
  ld_coh : dirty x = true ∨ b_data x = block k n;
  ld_view m : view k' m = view k m;
  ld_log : k_log k' = k_log k;
  ld_held b' : b' ≠ b → k_bcache k' !! b' = k_bcache k !! b';
  ld_frame : fs_frame k k'
}.

Lemma txn_bread (Hserve : disk_served) H n o k :
  log_inv st sz i H k → not_held H k n → spare H k → fs_block n →
  ∃ b x k', bread ROOTDEV n o k = Ret b o k' ∧ loaded H k n b x k'.
Proof.
  intros Hli Hnh Hroom [Hn _]. pose proof Hli as [Hinv Hwf Hl Hd].
  destruct (bread_spec i H n o k Hinv Hnh) as (b & k' & Hrun & Hp).
  - right. by eapply held_avail.
  - by apply Hserve.
  - apply Hwf.
  - destruct (rp_buf _ _ _ _ _ _ Hp) as (x & Hx & Hxn & Hxd & Hxc).
    pose proof (fs_frame_bio k k' (rp_frame _ _ _ _ _ _ Hp) (rp_disk _ _ _ _ _ _ Hp) (rp_writes _ _ _ _ _ _ Hp)) as Hff.
    assert (k_log k' = k_log k) as Hlog by (by rewrite (bf_rest _ _ (rp_frame _ _ _ _ _ _ Hp))).
    exists b, x, k'. split; [done|]. split; try done; try apply Hp.
    + split; [apply Hp| |by rewrite Hlog|].
      * intros m d. rewrite (rp_disk _ _ _ _ _ _ Hp). apply Hwf.
      * intros m. by rewrite (rp_dirty _ _ _ _ _ _ Hp), Hlog.
    + destruct (dirty x); [by left|right]. rewrite Hxd. by apply Hxc.
Qed.

Lemma txn_brelse H k0 k n b x o :
  log_inv st sz i ({[b]} ∪ H) k → b ∉ H → k_bcache k !! b = Some x → b_blockno x = n →
  (dirty x = true ∨ b_data x = block k n) → fs_frame k0 k →
  ∃ k', brelse b o k = Ret tt o k' ∧ log_inv st sz i H k' ∧ (∀ m, view k' m = view k m) ∧ k_log k' = k_log k ∧
    (∀ b', b' ≠ b → k_bcache k' !! b' = k_bcache k !! b') ∧ fs_frame k0 k'.
Proof.
  intros Hli Hb Hx <- Hc Hf. pose proof Hli as [Hinv Hwf Hl Hd].
  destruct (brelse_spec i ({[b]} ∪ H) b x o k Hinv ltac:(set_solver) Hx Hc) as (k' & Hrun & Hp).
  assert (k_log k' = k_log k) as Hlog by (by rewrite (bf_rest _ _ (lp_frame _ _ _ _ _ Hp))).
  exists k'. split; [done|]. split_and!; try done; try apply Hp.
  - split; [|intros m d; rewrite (lp_disk _ _ _ _ _ Hp); apply Hwf|by rewrite Hlog|].
    + replace H with (({[b]} ∪ H) ∖ {[b]}) by set_solver. apply Hp.
    + intros m. by rewrite (lp_dirty _ _ _ _ _ Hp), Hlog.
  - eapply fs_frame_trans; [exact Hf|]. apply fs_frame_bio; apply Hp.
Qed.

(** What changing the data of a held buffer and logging it does. *)
Record stored (H : gset nat) (k : K) (n : Z) (d : list Z) (b : nat) (x' : buf) (k' : K) : Prop := {
  so_inv : log_inv st sz i ({[b]} ∪ H) k';
  so_buf : k_bcache k' !! b = Some x';
  so_block : b_blockno x' = n;
  so_data : b_data x' = d;
  so_dirty : dirty x' = true;
  so_view m : view k' m = if m =? n then d else view k m;
  so_logged m : m ∈ logged (k_log k') ↔ m ∈ logged (k_log k) ∨ m = n;
  so_held b' : b' ≠ b → k_bcache k' !! b' = k_bcache k !! b';
  so_frame : fs_frame k k'
}.

Lemma txn_write H k n b x d (g : buf → buf) o :
  log_inv st sz i ({[b]} ∪ H) k → b ∉ H → k_bcache k !! b = Some x → b_blockno x = n → fs_block n →
  lg_n (k_log k) < sz - 1 → spare H k → 1 ≤ lg_outstanding (k_log k) →
  g x = set_b_data d x → length d = Z.to_nat BSIZE →
  ∃ k' x', (bufset b g ;;; log_write b) o k = Ret tt o k' ∧ stored H k n d b x' k'.
Proof.
  intros Hli Hb Hx Hn [Hr Hnl] R1 R2 Hout Hg Hd. pose proof Hli as [Hinv Hwf Hl Hdi].
  assert (b < length (k_bcache k))%nat as Hlt by (by eapply lookup_lt_Some).
  destruct (data_inv i ({[b]} ∪ H) b x d k Hinv ltac:(set_solver) Hx Hd) as (Hinv1 & Hv1 & Hd1).
  unfold bufset. kstep. rewrite bufset_insert, (buf_at_lookup _ _ _ Hx), Hg by done. set (k1 := set_k_bcache _ k) in *.
  assert (k_bcache k1 !! b = Some (set_b_data d x)) as Hb1 by (by apply list_lookup_insert_eq).
  assert (log_inv st sz i ({[b]} ∪ H) k1) as Hli1 by (split; try done; intros m; by rewrite Hd1).
  unfold spare in R2. change (k_log k) with (k_log k1) in *. pose proof (lo_n _ _ _ Hl) as Hn0.
  destruct (log_write_spec st sz i ({[b]} ∪ H) b (set_b_data d x) o k1 Hli1 ltac:(set_solver) Hb1)
    as (k' & Hrun & Hp); [unfold LOGSIZE, NBUF in *; lia|lia|done|cbn; congruence|cbn; congruence|].
  destruct (gp_buf _ _ _ _ _ _ _ _ Hp) as (x' & Hx' & Hn' & Hd' & Hdx).
  pose proof (gp_log _ _ _ _ _ _ _ _ Hp) as Hlog. cbn in Hlog. rewrite Hn in Hlog. change (k_log k) with (k_log k1) in Hlog.
  exists k', x'. split; [done|]. split; try done.
  - apply Hp.
  - cbn in Hn'. congruence.
  - intros m. rewrite (gp_view _ _ _ _ _ _ _ _ Hp), Hv1. by rewrite Hn.
  - intros m. rewrite Hlog. unfold log_record. destruct (decide (n ∈ logged (k_log k1))) as [Hin|Hin].
    + split; [intros Hm; by left|by intros [Hm| ->]].
    + pose proof (logged_record st sz (k_log k1) n Hl ltac:(unfold LOGSIZE, NBUF in *; lia) Hin) as E.
      unfold log_record in E. rewrite decide_False in E by done. rewrite E, elem_of_app, list_elem_of_singleton. done.
  - intros b' Hne. rewrite (gp_other _ _ _ _ _ _ _ _ Hp) by done. unfold k1. cbn. by rewrite list_lookup_insert_ne.
  - split.
    + rewrite (gp_rest _ _ _ _ _ _ _ _ Hp). unfold k1. by destruct k.
    + by rewrite (gp_rest _ _ _ _ _ _ _ _ Hp).
    + rewrite Hlog. unfold log_record. by destruct (decide _).
Qed.

(** Releasing a stored buffer completes an update. *)
Lemma txn_stored_brelse H k n d b x k1 o :
  b ∉ H → stored H k n d b x k1 → (∀ b', b' ∈ H → k_bcache k1 !! b' = k_bcache k !! b') →
  ∃ k', brelse b o k1 = Ret tt o k' ∧ changed H k [(n, d)] k'.
Proof.
  intros Hb [S1 S2 S3 S4 S5 S6 S7 S8 S9] Hh.
  destruct (txn_brelse H k k1 n b x o) as (k2 & Hrun & T2 & V2 & L2 & H2 & F2); try done; [by left|].
  exists k2. split; [done|]. split; try done.
  - intros m. rewrite V2, S6. unfold overlay. done.
  - intros m. rewrite L2, S7. cbn. rewrite list_elem_of_singleton. done.
  - intros b' Hb'. assert (b' ≠ b) by (intros ->; done). by rewrite H2, Hh.
Qed.

(** A loaded block changed, logged and released. *)
Lemma txn_store H k n b x k1 (f : list Z → list Z) (g : buf → buf) o S r :
  loaded H k n b x k1 → budget S r H k → log_inv st sz i H k → fs_block n →
  (∀ x, g x = set_b_data (f (b_data x)) x) → length (f (view k n)) = Z.to_nat BSIZE →
  ∃ k', (bufset b g ;;; log_write b ;;; brelse b) o k1 = Ret tt o k' ∧ changed H k [(n, f (view k n))] k'.
Proof.
  intros [L1 L2 L3 L4 L5 L6 L7 L8 L9 L10] Hbg Hli Hn Hg Hlen. destruct (budget_n _ _ _ _ Hli Hbg) as [R1 R2].
  destruct (txn_write H k1 n b x (f (view k n)) g o) as (k2 & x2 & Hrun & [S1 S2 S3 S4 S5 S6 S7 S8 S9]);
    try done; [pose proof (bg_pos _ _ _ _ Hbg); rewrite L8; lia|unfold spare; by rewrite L8|rewrite L8; apply Hbg|by rewrite Hg, L5|].
  destruct (txn_stored_brelse H k n (f (view k n)) b x2 k2 o) as (k3 & Hrun3 & C3); [done|split; try done| |].
  - intros m. by rewrite S6, L7.
  - intros m. by rewrite S7, L8.
  - intros b' Hb'. by rewrite S8, L9.
  - by eapply fs_frame_trans.
  - intros b' Hb'. assert (b' ≠ b) by (intros ->; done). by rewrite S8, L9.
  - exists k3. split; [rewrite (bind_prefix2 _ _ (λ _, brelse b) o k1 tt o k2 Hrun); done|done].
Qed.

(** A loaded block released unchanged. *)
Lemma txn_release H k n b x k1 o :
  loaded H k n b x k1 → ∃ k', brelse b o k1 = Ret tt o k' ∧ changed H k [] k'.
Proof.
  intros [L1 L2 L3 L4 L5 L6 L7 L8 L9 L10].
  destruct (txn_brelse H k k1 n b x o) as (k3 & Hrun3 & T3 & V3 & Lg3 & H3 & F3); try done.
  { unfold block. destruct (fs_frame_icache _ _ L10) as (_ & _ & ->). done. }
  exists k3. split; [done|]. split; try done.
  - intros m. by rewrite V3, L7.
  - intros m. rewrite Lg3, L8. cbn. rewrite elem_of_nil. tauto.
  - intros b' Hb'. assert (b' ≠ b) by (intros ->; done). by rewrite H3, L9.
Qed.
End txn.
