(* ===== verification/Fs.v ===== *)
(** * The file system ([fs.c])

    Blocks, inodes, files as byte sequences, directories and path names.  The
    disk structures are read from and written to the data of buffers; the inode
    cache is the list [k_icache].  [readi] and [writei] copy to and from an
    address that may be in the kernel or in user memory: the destination is an
    action that takes the bytes, the source one that yields them.

    Devices are reached through the switch [devsw], which the drivers fill:
    the class [Devsw] is the interface, and everything here is relative to it. *)

From stdpp Require Import base numbers list gmap strings.
From S2P Require Import Prelude Mmu Hardware Memory Bytes Kernel Spinlock Kalloc Cprintf Vm Proc Sleeplock Blockdev Memide Bio Log.

Implicit Types (k : K) (o : oracle).

Definition IPB : Z := 8.
Definition BPB : Z := BSIZE * 8.

(** Where copied bytes go ([dst + tot]), and where they come from. *)
Definition sink := Z → list Z → M unit.
Definition source := Z → Z → M (list Z).

(** A local variable of the caller: the bytes are the result of [readi]. *)
Definition kernel_sink : sink := λ _ _, ret tt.
Definition kernel_source (l : list Z) : source :=
  λ tot m, ret (take (Z.to_nat m) (drop (Z.to_nat tot) l)).

(** The device switch: [devsw[major].read] and [.write], null for a device
    without a driver.  Reading gives the bytes delivered too. *)
Class Devsw := {
  dev_read : Z → option (nat → sink → Z → M (Z * list Z));
  dev_write : Z → option (nat → source → Z → M Z)
}.

(** ** Disk structures *)

(** Field [off] of inode [inum] in its block. *)
Definition ioff (inum : Z) : nat := Z.to_nat (64 * (inum mod IPB)).
Definition IBLOCK (inum : Z) (sb : superblock) : Z := u32 (inum / IPB + sb_inodestart sb).
Definition BBLOCK (b : Z) (sb : superblock) : Z := u32 (b / BPB + sb_bmapstart sb).

Definition dip_type (d : list Z) (inum : Z) : Z := s16 (get16 d (ioff inum)).
Definition dip_major (d : list Z) (inum : Z) : Z := s16 (get16 d (ioff inum + 2)).
Definition dip_minor (d : list Z) (inum : Z) : Z := s16 (get16 d (ioff inum + 4)).
Definition dip_nlink (d : list Z) (inum : Z) : Z := s16 (get16 d (ioff inum + 6)).
Definition dip_size (d : list Z) (inum : Z) : Z := get32 d (ioff inum + 8).
Definition dip_addr (d : list Z) (inum : Z) (j : nat) : Z := get32 d (ioff inum + 12 + 4 * j).
Definition dip_addrs (d : list Z) (inum : Z) : list Z := dip_addr d inum <$> seq 0 13.

(** [memmove(dip->addrs, ip->addrs, sizeof(ip->addrs))]. *)
Fixpoint put_addrs (d : list Z) (off : nat) (addrs : list Z) : list Z :=
  match addrs with
  | [] => d
  | a :: addrs => put_addrs (put32 d off a) (off + 4) addrs
  end.

(** The assignments to [*dip] in [iupdate]. *)
Definition put_dinode (d : list Z) (inum : Z) (ip : inode) : list Z :=
  let d := put16 d (ioff inum) (i_type ip) in
  let d := put16 d (ioff inum + 2) (i_major ip) in
  let d := put16 d (ioff inum + 4) (i_minor ip) in
  let d := put16 d (ioff inum + 6) (i_nlink ip) in
  let d := put32 d (ioff inum + 8) (i_size ip) in
  put_addrs d (ioff inum + 12) (i_addrs ip).

(** [struct dirent]. *)
Record dirent := mk_de { de_inum : Z; de_name : list Z }.
Definition dirent_of (l : list Z) : dirent := mk_de (get16 l 0) (take DIRSIZ (drop 2 l)).
Definition dirent_bytes (de : dirent) : list Z := bytes16 (de_inum de) ++ de_name de.
Definition SIZEOF_DIRENT : Z := 16.

(** ** Inodes *)

Definition inode_at (k : K) (ip : nat) : inode := default zero_inode (k_icache k !! ip).
Definition inoget {A} (f : inode → A) (ip : nat) : M A := reads (λ k, f (inode_at k ip)).
Definition inoset (ip : nat) (f : inode → inode) : M unit :=
  modify (λ k, set_k_icache (alter f ip (k_icache k)) k).

Fixpoint iinit_locks (l : list nat) : M unit :=
  match l with
  | [] => ret tt
  | i :: l => initsleeplock (SLInode i) ;;; iinit_locks l
  end.

Definition iget_found (dev inum : Z) (ip : inode) : Prop :=
  0 < i_ref ip ∧ i_dev ip = dev ∧ i_inum ip = inum.
#[global] Instance iget_found_dec dev inum ip : Decision (iget_found dev inum ip).
Proof. unfold iget_found. apply _. Defined.

(** The search keeps the first free entry in case the inode is not there. *)
Definition iget (dev inum : Z) : M nat :=
  acquire LIcache ;;;
  let! found := reads (λ k, list_find (iget_found dev inum) (k_icache k)) in
  match found with
  | Some (ip, _) =>
      inoset ip (λ x, set_i_ref (i_ref x + 1) x) ;;;
      release LIcache ;;;
      ret ip
  | None =>
      let! empty := reads (λ k, list_find (λ x, i_ref x = 0) (k_icache k)) in
      match empty with
      | None => panic "iget: no inodes"
      | Some (ip, _) =>
          inoset ip (set_i_dev dev) ;;;
          inoset ip (set_i_inum inum) ;;;
          inoset ip (set_i_ref 1) ;;;
          inoset ip (set_i_valid false) ;;;
          release LIcache ;;;
          ret ip
      end
  end.

(** Following a pointer: a null pointer faults in the kernel, and [trap] panics. *)
Definition deref {A} (p : option nat) (f : nat → M A) : M A :=
  match p with
  | Some p => f p
  | None => panic "trap"
  end.

Definition idup (ip : option nat) : M (option nat) :=
  acquire LIcache ;;;
  deref ip (λ i, inoset i (λ x, set_i_ref (i_ref x + 1) x)) ;;;
  release LIcache ;;;
  ret ip.

Definition iunlock (ip : option nat) : M unit :=
  match ip with
  | None => panic "iunlock"
  | Some ip =>
      let! held := holdingsleep (SLInode ip) in
      let! ref := inoget i_ref ip in
      if negb held || (ref <? 1) then panic "iunlock"
      else releasesleep (SLInode ip)
  end.

Section fs.
Context {DEV : BlockDev}.

Definition bzero (dev bno : Z) : M unit :=
  let! bp := bread dev (u32 bno) in
  bufset bp (set_b_data zero_block) ;;;
  log_write bp ;;;
  brelse bp.

(** *** Blocks *)

Definition bit_clear (d : list Z) (bi : Z) : bool :=
  Z.land (byte_at d (Z.to_nat (bi / 8))) (Z.shiftl 1 (bi mod 8)) =? 0.
Definition set_bit (d : list Z) (bi : Z) : list Z :=
  <[Z.to_nat (bi / 8) := u8 (Z.lor (byte_at d (Z.to_nat (bi / 8))) (Z.shiftl 1 (bi mod 8)))]> d.
Definition clear_bit (d : list Z) (bi : Z) : list Z :=
  <[Z.to_nat (bi / 8) := u8 (Z.land (byte_at d (Z.to_nat (bi / 8))) (Z.lnot (Z.shiftl 1 (bi mod 8))))]> d.

(** The inner loop of [balloc]: the first free block of a bitmap block. *)
Fixpoint find_clear (n : nat) (d : list Z) (bi b size : Z) : option Z :=
  match n with
  | O => None
  | S n =>
      if b + bi <? size then
        if bit_clear d bi then Some bi else find_clear n d (bi + 1) b size
      else None
  end.

Fixpoint balloc_loop (fuel : nat) (dev b : Z) : M Z :=
  let! sb := reads k_sb in
  if b <? sb_size sb then
    match fuel with
    | O => panic "out of fuel"
    | S fuel =>
        let! bp := bread dev (BBLOCK b sb) in
        let! d := bufget b_data bp in
        match find_clear (Z.to_nat BPB) d 0 b (sb_size sb) with
        | Some bi =>
            bufset bp (λ x, set_b_data (set_bit (b_data x) bi) x) ;;;
            log_write bp ;;;
            brelse bp ;;;
            bzero dev (b + bi) ;;;
            ret (b + bi)
        | None => brelse bp ;;; balloc_loop fuel dev (b + BPB)
        end
    end
  else panic "balloc: out of blocks".

Definition balloc (dev : Z) : M Z :=
  let! sb := reads k_sb in
  balloc_loop (Z.to_nat (sb_size sb / BPB + 1)) dev 0.

Definition bfree (dev b : Z) : M unit :=
  let! sb := reads k_sb in
  let! bp := bread dev (BBLOCK b sb) in
  let bi := b mod BPB in
  let! d := bufget b_data bp in
  if bit_clear d bi then panic "freeing free block"
  else
    bufset bp (λ x, set_b_data (clear_bit (b_data x) bi) x) ;;;
    log_write bp ;;;
    brelse bp.

(** *** Inodes on the disk *)

Definition iinit (dev : Z) : M unit :=
  initlock LIcache ;;;
  iinit_locks (seq 0 NINODE) ;;;
  let! sb := readsb dev in
  modify (set_k_sb sb) ;;;
  cprintf ("sb: size %d nblocks %d ninodes %d nlog %d logstart %d inodestart %d bmap start %d" +:+ nl)
    [AInt (sb_size sb); AInt (sb_nblocks sb); AInt (sb_ninodes sb); AInt (sb_nlog sb);
     AInt (sb_logstart sb); AInt (sb_inodestart sb); AInt (sb_bmapstart sb)].

Fixpoint ialloc_loop (fuel : nat) (dev type inum : Z) : M nat :=
  let! sb := reads k_sb in
  if inum <? sb_ninodes sb then
    match fuel with
    | O => panic "out of fuel"
    | S fuel =>
        let! bp := bread dev (IBLOCK inum sb) in
        let! d := bufget b_data bp in
        if dip_type d inum =? 0 then
          let d := list_inserts (ioff inum) (replicate 64 0) d in
          bufset bp (set_b_data (put16 d (ioff inum) type)) ;;;
          log_write bp ;;;
          brelse bp ;;;
          iget dev inum
        else brelse bp ;;; ialloc_loop fuel dev type (inum + 1)
    end
  else panic "ialloc: no inodes".

Definition ialloc (dev type : Z) : M nat :=
  let! sb := reads k_sb in
  ialloc_loop (Z.to_nat (sb_ninodes sb)) dev type 1.

Definition iupdate (ip : nat) : M unit :=
  let! x := inoget id ip in
  let! sb := reads k_sb in
  let! bp := bread (i_dev x) (IBLOCK (i_inum x) sb) in
  let! x := inoget id ip in
  bufset bp (λ b, set_b_data (put_dinode (b_data b) (i_inum x) x) b) ;;;
  log_write bp ;;;
  brelse bp.

(** The fields of an inode read from its block. *)
Definition load_dinode (d : list Z) (x : inode) : inode :=
  set_i_addrs (dip_addrs d (i_inum x))
    (set_i_size (dip_size d (i_inum x))
      (set_i_nlink (dip_nlink d (i_inum x))
        (set_i_minor (dip_minor d (i_inum x))
          (set_i_major (dip_major d (i_inum x))
            (set_i_type (dip_type d (i_inum x)) x))))).

Definition ilock (ip : option nat) : M unit :=
  match ip with
  | None => panic "ilock"
  | Some ip =>
      let! ref := inoget i_ref ip in
      if ref <? 1 then panic "ilock"
      else
        acquiresleep (SLInode ip) ;;;
        let! x := inoget id ip in
        when (negb (i_valid x))
          (let! sb := reads k_sb in
           let! bp := bread (i_dev x) (IBLOCK (i_inum x) sb) in
           let! d := bufget b_data bp in
           inoset ip (load_dinode d) ;;;
           brelse bp ;;;
           inoset ip (set_i_valid true) ;;;
           let! type := inoget i_type ip in
           when (type =? 0) (panic "ilock: no type"))
  end.

(** *** File contents *)

Definition addr_at (x : inode) (j : nat) : Z := default 0 (i_addrs x !! j).
Definition set_addr (j : nat) (a : Z) (x : inode) : inode := set_i_addrs (<[j := a]> (i_addrs x)) x.

Definition bmap (ip : nat) (bn : Z) : M Z :=
  let! dev := inoget i_dev ip in
  if bn <? NDIRECT then
    let! addr := inoget (λ x, addr_at x (Z.to_nat bn)) ip in
    if addr =? 0 then
      let! addr := balloc dev in
      inoset ip (set_addr (Z.to_nat bn) addr) ;;;
      ret addr
    else ret addr
  else
    let bn := bn - NDIRECT in
    if bn <? NINDIRECT then
      let! addr := inoget (λ x, addr_at x (Z.to_nat NDIRECT)) ip in
      let! addr :=
        if addr =? 0 then
          let! addr := balloc dev in
          inoset ip (set_addr (Z.to_nat NDIRECT) addr) ;;;
          ret addr
        else ret addr in
      let! bp := bread dev addr in
      let! d := bufget b_data bp in
      let addr := get32 d (Z.to_nat (4 * bn)) in
      let! addr :=
        if addr =? 0 then
          let! addr := balloc dev in
          bufset bp (λ b, set_b_data (put32 (b_data b) (Z.to_nat (4 * bn)) addr) b) ;;;
          log_write bp ;;;
          ret addr
        else ret addr in
      brelse bp ;;;
      ret addr
    else panic "bmap: out of range".

(** The loop of [itrunc] over the direct blocks. *)
Fixpoint itrunc_direct (n : nat) (ip : nat) (i : nat) : M unit :=
  match n with
  | O => ret tt
  | S n =>
      let! a := inoget (λ x, addr_at x i) ip in
      let! dev := inoget i_dev ip in
      when (negb (a =? 0)) (bfree dev a ;;; inoset ip (set_addr i 0)) ;;;
      itrunc_direct n ip (S i)
  end.

(** And over the entries of the indirect block held in [bp]. *)
Fixpoint itrunc_indirect (n : nat) (ip bp : nat) (j : nat) : M unit :=
  match n with
  | O => ret tt
  | S n =>
      let! d := bufget b_data bp in
      let! dev := inoget i_dev ip in
      let a := get32 d (4 * j) in
      when (negb (a =? 0)) (bfree dev a) ;;;
      itrunc_indirect n ip bp (S j)
  end.

Definition itrunc (ip : nat) : M unit :=
  itrunc_direct (Z.to_nat NDIRECT) ip 0 ;;;
  let! a := inoget (λ x, addr_at x (Z.to_nat NDIRECT)) ip in
  let! dev := inoget i_dev ip in
  when (negb (a =? 0))
    (let! bp := bread dev a in
     itrunc_indirect (Z.to_nat NINDIRECT) ip bp 0 ;;;
     brelse bp ;;;
     bfree dev a ;;;
     inoset ip (set_addr (Z.to_nat NDIRECT) 0)) ;;;
  inoset ip (set_i_size 0) ;;;
  iupdate ip.

Definition iput (ip : nat) : M unit :=
  acquiresleep (SLInode ip) ;;;
  let! x := inoget id ip in
  when (i_valid x && (i_nlink x =? 0))
    (acquire LIcache ;;;
     let! r := inoget i_ref ip in
     release LIcache ;;;
     when (r =? 1)
       (itrunc ip ;;;
        inoset ip (set_i_type 0) ;;;
        iupdate ip ;;;
        inoset ip (set_i_valid false))) ;;;
  releasesleep (SLInode ip) ;;;
  acquire LIcache ;;;
  inoset ip (λ x, set_i_ref (i_ref x - 1) x) ;;;
  release LIcache.

Definition iunlockput (ip : nat) : M unit := iunlock (Some ip) ;;; iput ip.

(** [struct stat]. *)
Record stat := mk_stat { st_type : Z; st_dev : Z; st_ino : Z; st_nlink : Z; st_size : Z }.
Definition stati (ip : nat) : M stat :=
  let! x := inoget id ip in
  ret (mk_stat (i_type x) (s32 (i_dev x)) (i_inum x) (i_nlink x) (i_size x)).

Context {DSW : Devsw}.

(** [m = min(n - tot, BSIZE - off%BSIZE)]. *)
Definition chunk (off n tot : Z) : Z := Z.min (n - tot) (BSIZE - off mod BSIZE).

Fixpoint readi_loop (fuel : nat) (ip : nat) (dst : sink) (off n tot : Z) : M (list Z) :=
  if tot <? n then
    match fuel with
    | O => panic "out of fuel"
    | S fuel =>
        let! addr := bmap ip (off / BSIZE) in
        let! dev := inoget i_dev ip in
        let! bp := bread dev addr in
        let m := chunk off n tot in
        let! d := bufget b_data bp in
        let bytes := take (Z.to_nat m) (drop (Z.to_nat (off mod BSIZE)) d) in
        dst tot bytes ;;;
        brelse bp ;;;
        let! rest := readi_loop fuel ip dst (off + m) n (tot + m) in
        ret (bytes ++ rest)
    end
  else ret [].

(** The number of bytes read, and the bytes. *)
Definition readi (ip : nat) (dst : sink) (off n : Z) : M (Z * list Z) :=
  let! x := inoget id ip in
  if i_type x =? T_DEV then
    if (i_major x <? 0) || (NDEV <=? i_major x) then ret (-1, [])
    else
      match dev_read (i_major x) with
      | None => ret (-1, [])
      | Some rd => rd ip dst (s32 n)
      end
  else if (i_size x <? off) || (u32 (off + n) <? off) then ret (-1, [])
  else
    let n := if i_size x <? off + n then i_size x - off else n in
    let! l := readi_loop (Z.to_nat n) ip dst off n 0 in
    ret (s32 n, l).

Fixpoint writei_loop (fuel : nat) (ip : nat) (src : source) (off n tot : Z) : M Z :=
  if tot <? n then
    match fuel with
    | O => panic "out of fuel"
    | S fuel =>
        let! addr := bmap ip (off / BSIZE) in
        let! dev := inoget i_dev ip in
        let! bp := bread dev addr in
        let m := chunk off n tot in
        let! bytes := src tot m in
        bufset bp (λ b, set_b_data (list_inserts (Z.to_nat (off mod BSIZE)) bytes (b_data b)) b) ;;;
        log_write bp ;;;
        brelse bp ;;;
        writei_loop fuel ip src (off + m) n (tot + m)
    end
  else ret off.

Definition writei (ip : nat) (src : source) (off n : Z) : M Z :=
  let! x := inoget id ip in
  if i_type x =? T_DEV then
    if (i_major x <? 0) || (NDEV <=? i_major x) then ret (-1)
    else
      match dev_write (i_major x) with
      | None => ret (-1)
      | Some wr => wr ip src (s32 n)
      end
  else if (i_size x <? off) || (u32 (off + n) <? off) then ret (-1)
  else if MAXFILE * BSIZE <? u32 (off + n) then ret (-1)
  else
    let! off := writei_loop (Z.to_nat n) ip src off n 0 in
    let! size := inoget i_size ip in
    when ((0 <? n) && (size <? off)) (inoset ip (set_i_size off) ;;; iupdate ip) ;;;
    ret (s32 n).

(** *** Directories *)

(** Both arguments are arrays of [DIRSIZ] bytes. *)
Definition namecmp (s t : list Z) : M Z :=
  match strncmp s t DIRSIZ with
  | Some r => ret r
  | None => panic "read past the end of a name"
  end.

(** Reading the entry at [off] into the local [de]. *)
Definition read_dirent (dp : nat) (off : Z) (msg : string) : M dirent :=
  let! r := readi dp kernel_sink off SIZEOF_DIRENT in
  let '(n, bytes) := r in
  if n =? SIZEOF_DIRENT then ret (dirent_of bytes) else panic msg.

(** The inode found and, for [*poff], where its entry is. *)
Fixpoint dirlookup_loop (fuel : nat) (dp : nat) (name : list Z) (off : Z) : M (option (nat * Z)) :=
  let! size := inoget i_size dp in
  if off <? size then
    match fuel with
    | O => panic "out of fuel"
    | S fuel =>
        let! de := read_dirent dp off "dirlookup read" in
        if de_inum de =? 0 then dirlookup_loop fuel dp name (off + SIZEOF_DIRENT)
        else
          let! c := namecmp name (de_name de) in
          if c =? 0 then
            let! dev := inoget i_dev dp in
            let! ip := iget dev (de_inum de) in
            ret (Some (ip, off))
          else dirlookup_loop fuel dp name (off + SIZEOF_DIRENT)
    end
  else ret None.

Definition dirlookup (dp : nat) (name : list Z) : M (option (nat * Z)) :=
  let! x := inoget id dp in
  if i_type x =? T_DIR then
    dirlookup_loop (Z.to_nat (i_size x / SIZEOF_DIRENT + 1)) dp name 0
  else panic "dirlookup not DIR".

(** The offset of the first empty entry, or the end. *)
Fixpoint dirlink_loop (fuel : nat) (dp : nat) (off : Z) : M Z :=
  let! size := inoget i_size dp in
  if off <? size then
    match fuel with
    | O => panic "out of fuel"
    | S fuel =>
        let! de := read_dirent dp off "dirlink read" in
        if de_inum de =? 0 then ret off else dirlink_loop fuel dp (off + SIZEOF_DIRENT)
    end
  else ret off.

Definition dirlink (dp : nat) (name : list Z) (inum : Z) : M Z :=
  let! found := dirlookup dp name in
  match found with
  | Some (ip, _) => iput ip ;;; ret (-1)
  | None =>
      let! size := inoget i_size dp in
      let! off := dirlink_loop (Z.to_nat (size / SIZEOF_DIRENT + 1)) dp 0 in
      match strncpy (replicate DIRSIZ 0) name DIRSIZ with
      | None => panic "read past the end of a name"
      | Some nm =>
          let de := mk_de (u16 inum) nm in
          let! n := writei dp (kernel_source (dirent_bytes de)) off SIZEOF_DIRENT in
          if n =? SIZEOF_DIRENT then ret 0 else panic "dirlink"
      end
  end.

(** *** Path names *)

Definition SLASH : Z := 47.

(** The loops over slashes. *)
Fixpoint skip_slashes (path : list Z) : list Z :=
  match path with
  | c :: path' => if c =? SLASH then skip_slashes path' else path
  | [] => []
  end.

(** The loop over an element, with the bytes passed over. *)
Fixpoint span_elem (path : list Z) : list Z * list Z :=
  match path with
  | c :: path' =>
      if c =? SLASH then ([], path) else let '(s, rest) := span_elem path' in (c :: s, rest)
  | [] => ([], [])
  end.

(** A path is the bytes before its NUL; [name] is the caller's array. *)
Definition skipelem (path name : list Z) : option (list Z * list Z) :=
  match skip_slashes path with
  | [] => None
  | path =>
      let '(s, path) := span_elem path in
      let name :=
        if (DIRSIZ <=? length s)%nat then list_inserts 0 (take DIRSIZ s) name
        else list_inserts 0 (s ++ [0]) name in
      Some (skip_slashes path, name)
  end.

(** The result is the inode and the contents of [name]. *)
Fixpoint namex_loop (fuel : nat) (path : list Z) (nameiparent : bool) (name : list Z) (ip : nat) :
    M (option nat * list Z) :=
  match skipelem path name with
  | None =>
      if nameiparent then iput ip ;;; ret (None, name) else ret (Some ip, name)
  | Some (path, name) =>
      match fuel with
      | O => panic "out of fuel"
      | S fuel =>
          ilock (Some ip) ;;;
          let! type := inoget i_type ip in
          if negb (type =? T_DIR) then iunlockput ip ;;; ret (None, name)
          else if nameiparent && bool_decide (path = []) then
            iunlock (Some ip) ;;; ret (Some ip, name)
          else
            let! next := dirlookup ip name in
            match next with
            | None => iunlockput ip ;;; ret (None, name)
            | Some (next, _) => iunlockput ip ;;; namex_loop fuel path nameiparent name next
            end
      end
  end.

Definition namex (path : list Z) (nameiparent : bool) (name : list Z) : M (option nat * list Z) :=
  let! ip :=
    match path with
    | c :: _ =>
        if c =? SLASH then let! ip := iget ROOTDEV ROOTINO in ret (Some ip)
        else let! cur := curproc in let! cwd := pget p_cwd cur in idup cwd
    | [] => let! cur := curproc in let! cwd := pget p_cwd cur in idup cwd
    end in
  deref ip (namex_loop (length path) path nameiparent name).

(** The local array of [namei] starts out with whatever is on the stack; the
    bytes after the NUL of a name are never looked at. *)
Definition namei (path : list Z) : M (option nat) :=
  let! r := namex path false (replicate DIRSIZ 0) in ret (fst r).

Definition nameiparent (path name : list Z) : M (option nat * list Z) := namex path true name.
End fs.

(** ** Path names *)

(** The elements of a path: what is between slashes, empty ones left out. *)
Fixpoint split_slash (path : list Z) : list (list Z) :=
  match path with
  | [] => [[]]
  | c :: path =>
      if c =? SLASH then [] :: split_slash path
      else
        match split_slash path with
        | e :: es => (c :: e) :: es
        | [] => [[c]]
        end
  end.
Definition path_elems (path : list Z) : list (list Z) := filter (.≠ []) (split_slash path).

Lemma path_elems_slash path : path_elems (SLASH :: path) = path_elems path.
Proof. unfold path_elems. cbn [split_slash]. rewrite Z.eqb_refl. rewrite filter_cons_False; [done|tauto]. Qed.

Lemma skip_slashes_spec path :
  path_elems (skip_slashes path) = path_elems path ∧ head (skip_slashes path) ≠ Some SLASH ∧
  (length (skip_slashes path) ≤ length path)%nat.
Proof.
  induction path as [|c path (IH1 & IH2 & IH3)]; cbn [skip_slashes]; [done|].
  destruct (Z.eqb_spec c SLASH) as [->|Hc]; [|split_and!; [done|cbn; congruence|done]].
  rewrite path_elems_slash. split_and!; [done|done|cbn; lia].
Qed.

Lemma span_elem_spec path s rest :
  span_elem path = (s, rest) →
  path = s ++ rest ∧ SLASH ∉ s ∧ (rest = [] ∨ ∃ rest', rest = SLASH :: rest').
Proof.
  revert s. induction path as [|c path IH]; intros s; cbn [span_elem].
  - intros [= <- <-]. split_and!; [done|by intros ?%elem_of_nil|by left].
  - destruct (Z.eqb_spec c SLASH) as [->|Hc].
    + intros [= <- <-]. split_and!; [done|by intros ?%elem_of_nil|right; eauto].
    + destruct (span_elem path) as [s' rest'] eqn:E. intros [= <- <-].
      destruct (IH s' eq_refl) as (-> & Hs & Hr). split_and!; [done| |done].
      rewrite not_elem_of_cons. done.
Qed.

Lemma split_slash_elem s rest :
  SLASH ∉ s → split_slash (s ++ SLASH :: rest) = s :: split_slash rest ∧ split_slash s = [s].
Proof.
  induction s as [|c s IH]; intros Hs; cbn [app split_slash].
  - by rewrite Z.eqb_refl.
  - rewrite not_elem_of_cons in Hs. destruct Hs as [Hc Hs]. destruct (IH Hs) as [-> ->].
    by rewrite (proj2 (Z.eqb_neq c SLASH)).
Qed.

Lemma path_elems_app s rest :
  SLASH ∉ s → s ≠ [] → (rest = [] ∨ ∃ rest', rest = SLASH :: rest') →
  path_elems (s ++ rest) = s :: path_elems rest.
Proof.
  intros Hs Hne [->|(rest' & ->)]; unfold path_elems.
  - rewrite app_nil_r. destruct (split_slash_elem s [] Hs) as [_ ->]. by rewrite filter_cons_True.
  - destruct (split_slash_elem s rest' Hs) as [-> _]. rewrite filter_cons_True by done. cbn [split_slash].
    rewrite Z.eqb_refl. rewrite (filter_cons_False _ []); [done|tauto].
Qed.

(** Overwriting the front of an array. *)
Lemma inserts_front (s l : list Z) : (length s ≤ length l)%nat → list_inserts 0 s l = s ++ drop (length s) l.
Proof.
  intros Hl. rewrite <- (take_drop (length s) l) at 1. apply list_inserts_0_r. by rewrite length_take_le.
Qed.

(** The array [name] is used as the string before its NUL, or all of it. *)
Definition elem_name (elem : list Z) : list Z := cstr DIRSIZ elem.

Lemma cstr_front n s rest : cstr n (s ++ 0 :: rest) = cstr n s.
Proof.
  revert s. induction n as [|n IH]; intros [|c s]; cbn; try done. destruct (c =? 0); [done|]. by rewrite IH.
Qed.

Lemma cstr_take n s rest : (n ≤ length s)%nat → cstr n (take n s ++ rest) = cstr n s.
Proof.
  revert s. induction n as [|n IH]; intros [|c s] Hn; cbn in *; try done; [lia|].
  destruct (c =? 0); [done|]. rewrite IH by lia. done.
Qed.

Lemma skipelem_spec path name :
  length name = DIRSIZ →
  match skipelem path name with
  | None => path_elems path = []
  | Some (path', name') =>
      ∃ e, path_elems path = e :: path_elems path' ∧ cstr DIRSIZ name' = elem_name e ∧
        length name' = DIRSIZ ∧ head path' ≠ Some SLASH ∧ (length path' < length path)%nat
  end.
Proof.
  intros Hname. unfold skipelem. destruct (skip_slashes_spec path) as (Hp & Hh & Hlen).
  destruct (skip_slashes path) as [|c p1]; [done|]. destruct (span_elem (c :: p1)) as [e rest] eqn:E.
  destruct (span_elem_spec _ _ _ E) as (Hcat & He & Hr).
  assert (e ≠ []) as Hne.
  { intros ->. cbn in Hcat. subst rest. destruct Hr as [?|(r & [= -> ->])]; [done|]. by cbn in Hh. }
  destruct (skip_slashes_spec rest) as (Hp' & Hh' & Hlen').
  exists e. rewrite <- Hp, Hcat, Hp'. split_and!; [by apply path_elems_app| | |done|].
  - unfold elem_name. destruct (Nat.leb_spec DIRSIZ (length e)) as [Hd|Hd].
    + rewrite inserts_front by (rewrite length_take; lia). by rewrite cstr_take.
    + rewrite inserts_front by (rewrite length_app; cbn; lia). rewrite <- app_assoc. apply cstr_front.
  - by destruct (_ <=? _)%nat; rewrite length_inserts.
  - rewrite Hcat in Hlen. rewrite length_app in Hlen. destruct e; [done|]. cbn in Hlen. lia.
Qed.

(** The fuel of [namex_loop] is enough: more makes no difference. *)
Lemma namex_loop_fuel {DEV : BlockDev} {DSW : Devsw} n m path b name ip o k :
  length name = DIRSIZ → (length path ≤ n)%nat → (length path ≤ m)%nat →
  namex_loop n path b name ip o k = namex_loop m path b name ip o k.
Proof.
  revert m path name ip o k. induction n as [|n IH]; intros m path name ip o k Hname Hn Hm.
  - destruct path; [|cbn in Hn; lia]. by destruct m.
  - destruct m as [|m]; [destruct path; [done|cbn in Hm; lia]|]. cbn [namex_loop].
    pose proof (skipelem_spec path name Hname) as Hs.
    destruct (skipelem path name) as [[path' name']|]; [|done].
    destruct Hs as (e & _ & _ & Hname' & _ & Hlt).
    do 2 (apply bind_ext; intros ???). destruct (negb _); [done|]. destruct (b && _); [done|].
    apply bind_ext. intros [[next off]|] ??; [|done]. apply bind_ext. intros [] ??. apply IH; [done|lia|lia].
Qed.

(** ** Inodes on the disk *)

(** Where field [off] of inode [inum] is, and that inodes do not overlap. *)
Lemma ioff_range inum : 0 ≤ inum → (ioff inum + 64 ≤ 512)%nat.
Proof. intros Hi. unfold ioff, IPB. lia_mod. Qed.

Lemma ioff_disjoint i j :
  0 ≤ i → 0 ≤ j → i mod IPB ≠ j mod IPB → (ioff i + 64 ≤ ioff j ∨ ioff j + 64 ≤ ioff i)%nat.
Proof. intros Hi Hj Hij. unfold ioff, IPB in *. lia_mod. Qed.

Lemma length_put_addrs d off l : length (put_addrs d off l) = length d.
Proof. revert d off. induction l as [|a l IH]; intros d off; cbn [put_addrs]; [done|]. by rewrite IH, length_put32. Qed.

Lemma length_put_dinode d inum x : length (put_dinode d inum x) = length d.
Proof. unfold put_dinode. by rewrite length_put_addrs, length_put32, !length_put16. Qed.

Lemma get32_put_addrs_out d off l j :
  (j + 4 ≤ off ∨ off + 4 * length l ≤ j)%nat → get32 (put_addrs d off l) j = get32 d j.
Proof.
  revert d off. induction l as [|a l IH]; intros d off Hj; cbn [put_addrs length] in *; [done|].
  rewrite IH by lia. apply get32_put32_ne. lia.
Qed.

Lemma get16_put_addrs_out d off l j :
  (j + 2 ≤ off ∨ off + 4 * length l ≤ j)%nat → get16 (put_addrs d off l) j = get16 d j.
Proof.
  revert d off. induction l as [|a l IH]; intros d off Hj; cbn [put_addrs length] in *; [done|].
  rewrite IH by lia. apply get16_put32_ne. lia.
Qed.

Lemma get32_put_addrs d off l j a :
  (off + 4 * length l ≤ length d)%nat → l !! j = Some a →
  get32 (put_addrs d off l) (off + 4 * j) = u32 a.
Proof.
  revert d off j. induction l as [|b l IH]; intros d off j Hd Hj; [done|]. cbn [put_addrs length] in *.
  destruct j as [|j]; cbn in Hj; simplify_eq.
  - rewrite get32_put_addrs_out by lia. replace (off + 4 * 0)%nat with off by lia. apply get32_put32_eq. lia.
  - replace (off + 4 * S j)%nat with (off + 4 + 4 * j)%nat by lia. apply IH; [|done]. rewrite length_put32. lia.
Qed.

(** The fields of an inode have the widths of [struct inode]. *)
Record inode_wf (x : inode) : Prop := {
  iw_type : -32768 ≤ i_type x < 32768;
  iw_major : -32768 ≤ i_major x < 32768;
  iw_minor : -32768 ≤ i_minor x < 32768;
  iw_nlink : -32768 ≤ i_nlink x < 32768;
  iw_size : 0 ≤ i_size x < 4294967296;
  iw_addrs : Forall (λ a, 0 ≤ a < 4294967296) (i_addrs x);
  iw_len : length (i_addrs x) = 13%nat
}.

Lemma s16_u16 x : -32768 ≤ x < 32768 → s16 (u16 x) = x.
Proof. intros Hx. unfold s16, u16. lia_mod. Qed.

(** What [iupdate] writes, [ilock] reads back. *)
Lemma dinode_roundtrip d inum x :
  length d = 512%nat → 0 ≤ inum → inode_wf x →
  let d' := put_dinode d inum x in
  dip_type d' inum = i_type x ∧ dip_major d' inum = i_major x ∧ dip_minor d' inum = i_minor x ∧
  dip_nlink d' inum = i_nlink x ∧ dip_size d' inum = i_size x ∧ dip_addrs d' inum = i_addrs x.
Proof.
  intros Hd Hi [H1 H2 H3 H4 H5 H6 H7] d'. pose proof (ioff_range inum Hi) as Ho.
  unfold d', put_dinode, dip_type, dip_major, dip_minor, dip_nlink, dip_size.
  split_and!.
  1-4: rewrite get16_put_addrs_out by lia; rewrite get16_put32_ne by lia;
    rewrite ?(get16_put16_ne _ (ioff inum + 6)) by lia; rewrite ?(get16_put16_ne _ (ioff inum + 4)) by lia;
    rewrite ?(get16_put16_ne _ (ioff inum + 2)) by lia; rewrite get16_put16_eq by (rewrite ?length_put16; lia);
    by apply s16_u16.
  - rewrite get32_put_addrs_out by lia. rewrite get32_put32_eq by (rewrite !length_put16; lia). by apply u32_small.
  - apply list_eq. intros j. unfold dip_addrs. rewrite list_lookup_fmap.
    destruct (decide (j < 13)%nat) as [Hj|Hj].
    + rewrite lookup_seq_lt by done. destruct (lookup_lt_is_Some_2 (i_addrs x) j) as [a Ha]; [lia|].
      cbn [fmap option_fmap option_map]. unfold dip_addr. rewrite (get32_put_addrs _ _ _ _ a); [|rewrite length_put32, !length_put16; lia|done].
      rewrite Ha. f_equal. apply u32_small. by eapply (Forall_lookup_1 _ _ _ _ H6).
    + rewrite lookup_seq_ge by lia. cbn. symmetry. apply lookup_ge_None. lia.
Qed.

(** The other inodes of the block are left alone. *)
Lemma put_dinode_other d inum inum' x off :
  0 ≤ inum → 0 ≤ inum' → inum mod IPB ≠ inum' mod IPB → length (i_addrs x) = 13%nat → (off + 4 ≤ 64)%nat →
  get32 (put_dinode d inum x) (ioff inum' + off) = get32 d (ioff inum' + off).
Proof.
  intros Hi Hi' Hne Hl Hoff. pose proof (ioff_disjoint inum inum' Hi Hi' Hne). unfold put_dinode.
  rewrite get32_put_addrs_out, get32_put32_ne, !get32_put16_ne by lia. done.
Qed.

(** ** The free bitmap *)

Lemma bit_clear_testbit d bi :
  0 ≤ bi → bit_clear d bi = negb (Z.testbit (byte_at d (Z.to_nat (bi / 8))) (bi mod 8)).
Proof.
  intros Hb. unfold bit_clear. rewrite Z.shiftl_1_l, <- land_bit by lia_mod. by rewrite negb_involutive.
Qed.

Lemma byte_at_insert (d : list Z) i j v :
  (i < length d)%nat → byte_at (<[i := v]> d) j = if decide (i = j) then u8 v else byte_at d j.
Proof.
  intros Hi. unfold byte_at. destruct (decide (i = j)) as [->|Hne].
  - by rewrite list_lookup_insert_eq.
  - by rewrite list_lookup_insert_ne.
Qed.

Lemma testbit_u8 x n : 0 ≤ n < 8 → Z.testbit (u8 x) n = Z.testbit x n.
Proof. intros Hn. unfold u8. change 256 with (2 ^ 8). by rewrite Z.mod_pow2_bits_low by lia. Qed.

(** Setting or clearing a bit changes that bit only. *)
Lemma bit_clear_update d bi bj v (c : bool) :
  0 ≤ bi → 0 ≤ bj → (Z.to_nat (bi / 8) < length d)%nat →
  (∀ n, 0 ≤ n < 8 → Z.testbit v n = if n =? bi mod 8 then c else Z.testbit (byte_at d (Z.to_nat (bi / 8))) n) →
  bit_clear (<[Z.to_nat (bi / 8) := u8 v]> d) bj = if bj =? bi then negb c else bit_clear d bj.
Proof.
  intros Hi Hj Hd Hv. rewrite !bit_clear_testbit by done. rewrite byte_at_insert by done.
  destruct (decide (Z.to_nat (bi / 8) = Z.to_nat (bj / 8))) as [E|E].
  - rewrite u8_idem, testbit_u8, Hv by lia_mod. destruct (Z.eqb_spec bj bi) as [->|Hne].
    + by rewrite Z.eqb_refl.
    + rewrite (proj2 (Z.eqb_neq _ _)) by lia_mod. by rewrite E.
  - rewrite (proj2 (Z.eqb_neq bj bi)) by (intros ->; done). done.
Qed.

Lemma set_bit_spec d bi bj :
  0 ≤ bi → 0 ≤ bj → (Z.to_nat (bi / 8) < length d)%nat →
  bit_clear (set_bit d bi) bj = if bj =? bi then false else bit_clear d bj.
Proof.
  intros Hi Hj Hd. unfold set_bit. apply (bit_clear_update d bi bj _ true); [done..|]. intros n Hn.
  rewrite Z.lor_spec, Z.shiftl_1_l, Z.pow2_bits_eqb by lia_mod. rewrite (Z.eqb_sym n).
  destruct (bi mod 8 =? n); [apply orb_true_r|apply orb_false_r].
Qed.

Lemma clear_bit_spec d bi bj :
  0 ≤ bi → 0 ≤ bj → (Z.to_nat (bi / 8) < length d)%nat →
  bit_clear (clear_bit d bi) bj = if bj =? bi then true else bit_clear d bj.
Proof.
  intros Hi Hj Hd. unfold clear_bit. apply (bit_clear_update d bi bj _ false); [done..|]. intros n Hn.
  rewrite Z.land_spec, Z.lnot_spec, Z.shiftl_1_l, Z.pow2_bits_eqb by lia_mod. rewrite (Z.eqb_sym n).
  destruct (bi mod 8 =? n); [apply andb_false_r|apply andb_true_r].
Qed.

Lemma length_set_bit d bi : length (set_bit d bi) = length d.
Proof. apply length_insert. Qed.
Lemma length_clear_bit d bi : length (clear_bit d bi) = length d.
Proof. apply length_insert. Qed.

(** The scan finds the first clear bit. *)
Lemma find_clear_spec n d bi b size :
  match find_clear n d bi b size with
  | Some bi' => bi ≤ bi' < bi + Z.of_nat n ∧ b + bi' < size ∧ bit_clear d bi' = true ∧
                ∀ j, bi ≤ j < bi' → bit_clear d j = false
  | None => ∀ j, bi ≤ j < bi + Z.of_nat n → b + j < size → bit_clear d j = false
  end.
Proof.
  revert bi. induction n as [|n IH]; intros bi; cbn [find_clear]; [lia|].
  destruct (Z.ltb_spec (b + bi) size) as [Hs|Hs]; [|lia].
  destruct (bit_clear d bi) eqn:E.
  - split_and!; [lia|lia|done|done|lia].
  - specialize (IH (bi + 1)). destruct (find_clear n d (bi + 1) b size) as [bi'|].
    + destruct IH as (? & ? & ? & Hlt). split_and!; [lia|lia|done|done|]. intros j Hj.
      destruct (decide (j = bi)) as [->|]; [done|]. apply Hlt. lia.
    + intros j Hj Hjs. destruct (decide (j = bi)) as [->|]; [done|]. apply IH; lia.
Qed.

(** ** Walking a path *)

(** The names [namex] sees, one call of [skipelem] after the other. *)
Fixpoint path_walk (fuel : nat) (path name : list Z) : option (list (list Z)) :=
  match skipelem path name with
  | None => Some []
  | Some (path', name') =>
      match fuel with
      | O => None
      | S fuel => cons (cstr DIRSIZ name') <$> path_walk fuel path' name'
      end
  end.

(** Calling [skipelem] until it returns 0, as [namex] does, ends after at
    most as many calls as the path has bytes and yields the elements of the path
    in order, each cut to [DIRSIZ] bytes; repeated, leading and trailing slashes
    make no element. *)
Theorem skipelem_splits_path path name :
  length name = DIRSIZ → path_walk (length path) path name = Some (elem_name <$> path_elems path).
Proof.
  assert (∀ fuel path name, length name = DIRSIZ → (length path ≤ fuel)%nat →
    path_walk fuel path name = Some (elem_name <$> path_elems path)) as Hall; [|by intros; apply Hall].
  clear. induction fuel as [|fuel IH]; intros path name Hn Hf.
  - destruct path; [done|cbn in Hf; lia].
  - cbn [path_walk]. pose proof (skipelem_spec path name Hn) as Hs. destruct (skipelem path name) as [[path' name']|]; [|by rewrite Hs].
    destruct Hs as (e & -> & Hc & Hn' & _ & Hlt). rewrite IH by (done || lia). cbn [fmap option_fmap option_map list_fmap]. by rewrite Hc.
Qed.

(** The path //a/bc/ . *)
Lemma skipelem_splits_path_witness :
  path_walk 7 [47; 47; 97; 47; 98; 99; 47] (replicate DIRSIZ 0) = Some [[97]; [98; 99]].
Proof. apply (skipelem_splits_path [47; 47; 97; 47; 98; 99; 47] (replicate DIRSIZ 0)). reflexivity. Defined.


