(* ===== verification/FsBlocks.v ===== *)
(** * Allocation of disk blocks

    The free bitmap and the layout of the disk, and what [bzero], [balloc] and
    [bfree] do to them inside a transaction.  A block is free when its bit in the
    bitmap is clear; everything below the data blocks (the boot block, the super
    block, the log, the inodes and the bitmap itself) is marked in use. *)

From stdpp Require Import base numbers list gmap strings.
From S2P Require Import Prelude Mmu Hardware Memory Bytes Kernel Spinlock Kalloc Cprintf Vm Proc Sleeplock Blockdev Memide Bio Log Txn Fs.

Implicit Types (k : K) (o : oracle).

(** The areas of the disk, in the order in which [mkfs] lays them out; with
    [FSSIZE] blocks the bitmap is one block. *)
Record fs_layout (st sz : Z) (sb : superblock) : Prop := {
  ly_log : 0 ≤ st;
  ly_logsize : 0 ≤ sz;
  ly_inodes : st + sz ≤ sb_inodestart sb;
  ly_count : 0 ≤ sb_ninodes sb;
  ly_bmap : sb_inodestart sb + sb_ninodes sb / IPB < sb_bmapstart sb;
  ly_data : sb_bmapstart sb < sb_size sb;
  ly_size : sb_size sb ≤ FSSIZE
}.

Definition bmap_block (k : K) : Z := sb_bmapstart (k_sb k).

Definition is_free (k : K) (b : Z) : Prop :=
  0 ≤ b < sb_size (k_sb k) ∧ bit_clear (view k (bmap_block k)) b = true.

(** Only data blocks are free. *)
Definition alloc_inv (st sz : Z) (k : K) : Prop :=
  fs_layout st sz (k_sb k) ∧ ∀ b, is_free k b → bmap_block k < b.

(** There are at least [n] free blocks. *)
Definition enough (n : Z) (k : K) : Prop :=
  ∃ X : gset Z, n ≤ Z.of_nat (size X) ∧ ∀ b, b ∈ X → is_free k b.

#[global] Instance is_free_dec k b : Decision (is_free k b).
Proof. unfold is_free. apply _. Defined.

Section blocks.
Context {DEV : BlockDev} {DEVOK : BlockDevOk DEV} (st sz : Z) (i : nat).

Lemma layout_block sb b : fs_layout st sz sb → sb_inodestart sb ≤ b < sb_size sb → fs_block st sz b.
Proof.
  intros [L1 L1' L2 L3 L4 L5 L6] Hb. unfold fs_block, in_log, IPB in *. split; lia_mod.
Qed.

Lemma bmap_fs_block k : alloc_inv st sz k → fs_block st sz (bmap_block k).
Proof.
  intros [Hl _]. apply (layout_block (k_sb k)); [done|]. destruct Hl. unfold bmap_block, IPB in *. lia_mod.
Qed.

Lemma BBLOCK_eq sb b : fs_layout st sz sb → 0 ≤ b < sb_size sb → BBLOCK b sb = sb_bmapstart sb.
Proof.
  intros [L1 L1' L2 L3 L4 L5 L6] Hb. unfold BBLOCK, BPB, BSIZE, FSSIZE, IPB in *. rewrite Z.div_small by lia.
  apply u32_small. lia_mod.
Qed.

Lemma block_num sb b : fs_layout st sz sb → 0 ≤ b < sb_size sb → u32 b = b.
Proof. intros [L1 L1' L2 L3 L4 L5 L6] Hb. apply u32_small. unfold FSSIZE in *. lia. Qed.

Lemma enough_free n k : 1 ≤ n → enough n k → ∃ b, is_free k b.
Proof.
  intros Hn (X & HX & Hf). destruct (set_choose_or_empty X) as [[b Hb]|HE]; [exists b; auto|].
  apply leibniz_equiv in HE. subst X. rewrite size_empty in HX. lia.
Qed.

Lemma enough_mono n n' k : n' ≤ n → enough n k → enough n' k.
Proof. intros Hn (X & HX & Hf). exists X. split; [lia|done]. Qed.

Lemma enough_ext n k k' : (∀ b, is_free k' b ↔ is_free k b) → enough n k → enough n k'.
Proof. intros Hf (X & HX & HF). exists X. split; [done|]. intros b Hb. by apply Hf, HF. Qed.

Lemma free_bit k b : alloc_inv st sz k → is_free k b → (Z.to_nat (b / 8) < 512)%nat.
Proof. intros [Hl _] [Hb _]. destruct Hl. unfold FSSIZE in *. lia_mod. Qed.

(** The state after the bits or the data of some blocks changed: [f] gives the
    bitmap. *)
Lemma changed_free H k ws k' b :
  changed st sz i H k ws k' →
  is_free k' b ↔ 0 ≤ b < sb_size (k_sb k) ∧ bit_clear (overlay ws (view k) (bmap_block k)) b = true.
Proof.
  intros Hc. destruct (fs_frame_icache _ _ (ch_frame _ _ _ _ _ _ _ Hc)) as (_ & Hsb & _).
  unfold is_free, bmap_block. by rewrite Hsb, (ch_view _ _ _ _ _ _ _ Hc).
Qed.

(** ** Zeroing a block *)

Lemma bzero_spec (Hserve : disk_served) H n o k S r :
  log_inv st sz i H k → not_held H k n → budget sz S r H k → fs_block st sz n →
  ∃ k', bzero ROOTDEV n o k = Ret tt o k' ∧ changed st sz i H k [(n, zero_block)] k'.
Proof.
  intros Hli Hnh Hbg Hn. destruct (budget_n st sz i S r H k Hli Hbg) as [_ Hsp]. unfold bzero.
  rewrite u32_small by (destruct Hn; unfold FSSIZE in *; lia).
  destruct (txn_bread st sz i Hserve H n o k Hli Hnh Hsp Hn) as (b & x & k1 & Hrun & Hld).
  kstep_with Hrun. destruct (txn_store st sz i H k n b x k1 (λ _, zero_block) (set_b_data zero_block) o S r Hld Hbg Hli Hn)
    as (k2 & Hrun2 & Hc); [done|apply length_replicate|]. exists k2. split; [exact Hrun2|exact Hc].
Qed.

(** ** Allocating *)

(** The block updates of an allocation of [b]. *)
Definition alloc_updates (k : K) (b : Z) : list (Z * list Z) :=
  [(bmap_block k, set_bit (view k (bmap_block k)) b); (b, zero_block)].

Lemma balloc_run (Hserve : disk_served) H o k S r :
  log_inv st sz i H k → alloc_inv st sz k → bmap_block k ∈ S → budget sz S (r + 1) H k → 0 ≤ r →
  not_held H k (bmap_block k) → (∀ b, is_free k b → not_held H k b) → (∃ b, is_free k b) →
  ∃ b k', balloc ROOTDEV o k = Ret b o k' ∧ is_free k b ∧ changed st sz i H k (alloc_updates k b) k'.
Proof.
  intros Hli Hal HS Hbg Hr Hnb Hnd [b0 Hb0]. pose proof Hal as [Hly Hfree].
  destruct (budget_n st sz i S _ H k Hli Hbg) as [_ Hsp]. pose proof (bmap_fs_block k Hal) as Hbm.
  pose proof (ly_size _ _ _ Hly) as Hsz. pose proof (ly_data _ _ _ Hly) as Hsz0. destruct Hb0 as [Hr0 Hc0].
  unfold balloc. kstep. replace (Z.to_nat (sb_size (k_sb k) / BPB + 1)) with 1%nat
    by (unfold BPB, BSIZE, FSSIZE in *; rewrite Z.div_small by lia; done).
  cbn [balloc_loop]. kstep. rewrite (proj2 (Z.ltb_lt _ _)) by lia.
  rewrite (BBLOCK_eq _ 0 Hly) by lia. fold (bmap_block k).
  destruct (txn_bread st sz i Hserve H (bmap_block k) o k Hli Hnb Hsp Hbm) as (bp & x & k1 & Hrun & Hld).
  kstep_with Hrun. unfold bufget. kstep. rewrite (buf_at_lookup _ _ _ (ld_buf _ _ _ _ _ _ _ _ _ Hld)), (ld_data _ _ _ _ _ _ _ _ _ Hld).
  pose proof (find_clear_spec (Z.to_nat BPB) (view k (bmap_block k)) 0 0 (sb_size (k_sb k))) as Hfc.
  destruct (find_clear _ _ _ _ _) as [bi|].
  2:{ rewrite Hfc in Hc0; [done| |lia]. unfold BPB, BSIZE, FSSIZE in *. lia. }
  destruct Hfc as (Hbi & Hbs & Hbc & _). assert (is_free k bi) as Hbf by (split; [lia|done]).
  destruct (txn_store st sz i H k (bmap_block k) bp x k1 (λ d, set_bit d bi)
    (λ x, set_b_data (set_bit (b_data x) bi) x) o S (r + 1) Hld Hbg Hli Hbm) as (k2 & Hrun2 & Hc2);
    [done|rewrite length_set_bit; by eapply view_wf|].
  rewrite (bind_prefix3 _ _ _ _ _ _ _ _ _ Hrun2).
  assert (budget sz S r H k2) as Hbg2.
  { eapply budget_mono; [reflexivity| |eapply changed_budget; [exact Hc2|set_solver|exact Hbg]]. lia. }
  rewrite Z.add_0_l. specialize (Hfree bi Hbf). unfold bmap_block in *. destruct (bzero_spec Hserve H bi o k2 S r) as (k3 & Hrun3 & Hc3); try done.
  - apply Hc2.
  - eapply changed_not_held; [exact Hc2|by apply Hnd].
  - apply (layout_block (k_sb k)); [done|]. destruct Hly. unfold IPB in *. split; [lia_mod|lia].
  - kstep_with Hrun3. exists bi, k3. split; [done|]. split; [done|]. exact (changed_trans _ _ _ _ _ _ _ _ _ Hc2 Hc3).
Qed.

(** What an allocation means: block [b] is in use and zero, nothing else is
    different. *)
Record allocated (H : gset nat) (k : K) (b : Z) (k' : K) : Prop := {
  at_free : is_free k b;
  at_changed : changed st sz i H k (alloc_updates k b) k';
  at_inv : alloc_inv st sz k';
  at_frees b' : is_free k' b' ↔ is_free k b' ∧ b' ≠ b;
  at_zero : view k' b = zero_block;
  at_other m : m ≠ b → m ≠ bmap_block k → view k' m = view k m;
  at_sb : k_sb k' = k_sb k
}.

Lemma alloc_meaning H k b k' :
  alloc_inv st sz k → log_inv st sz i H k → is_free k b → changed st sz i H k (alloc_updates k b) k' →
  allocated H k b k'.
Proof.
  intros Hal Hli Hb Hc. pose proof (proj2 Hal b Hb) as Hlt.
  destruct (fs_frame_icache _ _ (ch_frame _ _ _ _ _ _ _ Hc)) as (_ & Hsb & _).
  assert (∀ b', is_free k' b' ↔ is_free k b' ∧ b' ≠ b) as Hf.
  { intros b'. rewrite (changed_free _ _ _ _ b' Hc). unfold overlay, alloc_updates. cbn [foldl fst snd].
    rewrite Z.eqb_refl, (proj2 (Z.eqb_neq _ b)) by lia. unfold is_free.
    split.
    - intros [Hr Hbc]. rewrite set_bit_spec in Hbc; [|destruct Hb; lia|lia|].
      2:{ rewrite (view_wf st sz i H) by done. by apply (free_bit k). }
      destruct (Z.eqb_spec b' b); [done|]. done.
    - intros [[Hr Hbc] Hne]. split; [done|]. rewrite set_bit_spec; [|destruct Hb; lia|lia|].
      2:{ rewrite (view_wf st sz i H) by done. by apply (free_bit k). }
      by rewrite (proj2 (Z.eqb_neq b' b)). }
  split; try done.
  - split; [by rewrite Hsb; apply Hal|]. intros b' Hb'. unfold bmap_block. rewrite Hsb. apply Hal. by apply Hf in Hb' as [? _].
  - rewrite (ch_view _ _ _ _ _ _ _ Hc). unfold overlay. cbn. by rewrite Z.eqb_refl.
  - intros m Hm Hmb. rewrite (ch_view _ _ _ _ _ _ _ Hc). unfold overlay. cbn.
    by rewrite (proj2 (Z.eqb_neq m b)), (proj2 (Z.eqb_neq m (bmap_block k))).
Qed.

Lemma balloc_spec (Hserve : disk_served) H o k S r :
  log_inv st sz i H k → alloc_inv st sz k → bmap_block k ∈ S → budget sz S (r + 1) H k → 0 ≤ r →
  not_held H k (bmap_block k) → (∀ b, is_free k b → not_held H k b) → (∃ b, is_free k b) →
  ∃ b k', balloc ROOTDEV o k = Ret b o k' ∧ allocated H k b k' ∧ budget sz ({[b]} ∪ S) r H k'.
Proof.
  intros Hli Hal HS Hbg Hr Hnb Hnd Hex.
  destruct (balloc_run Hserve H o k S r) as (b & k' & Hrun & Hb & Hc); try done.
  exists b, k'. split; [done|]. split; [by apply alloc_meaning|].
  eapply changed_budget; [exact Hc| |apply budget_take; [exact Hbg|done]]. cbn. set_solver.
Qed.

Lemma balloc_enough H k b k' n : allocated H k b k' → enough n k → enough (n - 1) k'.
Proof.
  intros Ha (X & HX & Hf). exists (X ∖ {[b]}). split.
  - assert (size X ≤ size (X ∖ {[b]}) + 1)%nat; [|lia].
    transitivity (size ({[b]} ∪ X ∖ {[b]})); [apply subseteq_size; intros y Hy; destruct (decide (y = b)); set_solver|].
    rewrite size_union by set_solver. rewrite size_singleton. lia.
  - intros b' [Hb' Hne]%elem_of_difference. apply (at_frees _ _ _ _ Ha). set_solver.
Qed.

(** A full disk. *)
Lemma balloc_full (Hserve : disk_served) H o k :
  log_inv st sz i H k → alloc_inv st sz k → spare H k →
  not_held H k (bmap_block k) → (∀ b, ¬ is_free k b) →
  ∃ k', balloc ROOTDEV o k = Panic "balloc: out of blocks" k' ∧ ∀ m, view k' m = view k m.
Proof.
  intros Hli Hal Hsp Hnb Hno. pose proof Hal as [Hly Hfree]. pose proof (bmap_fs_block k Hal) as Hbm.
  pose proof (ly_size _ _ _ Hly) as Hsz. pose proof Hly as [Q1 Q2 Q3 Q4 Q5 Q6 _].
  assert (0 < sb_size (k_sb k)) as Hpos by (unfold IPB in *; lia_mod).
  unfold balloc. kstep. replace (Z.to_nat (sb_size (k_sb k) / BPB + 1)) with 1%nat
    by (unfold BPB, BSIZE, FSSIZE in *; rewrite Z.div_small by lia; done).
  cbn [balloc_loop]. kstep. rewrite (proj2 (Z.ltb_lt _ _)) by lia.
  rewrite (BBLOCK_eq _ 0 Hly) by lia. fold (bmap_block k).
  destruct (txn_bread st sz i Hserve H (bmap_block k) o k Hli Hnb Hsp Hbm) as (bp & x & k1 & Hrun & Hld).
  kstep_with Hrun. unfold bufget. kstep. rewrite (buf_at_lookup _ _ _ (ld_buf _ _ _ _ _ _ _ _ _ Hld)), (ld_data _ _ _ _ _ _ _ _ _ Hld).
  pose proof (find_clear_spec (Z.to_nat BPB) (view k (bmap_block k)) 0 0 (sb_size (k_sb k))) as Hfc.
  destruct (find_clear _ _ _ _ _) as [bi|].
  { destruct (Hno bi). split; [lia|tauto]. }
  destruct (txn_release st sz i H k (bmap_block k) bp x k1 o Hld) as (k2 & Hrun2 & Hc2). kstep_with Hrun2. kstep.
  destruct (fs_frame_icache _ _ (ch_frame _ _ _ _ _ _ _ Hc2)) as (_ & -> & _).
  rewrite (proj2 (Z.ltb_ge _ _)) by (unfold BPB, BSIZE, FSSIZE in *; lia).
  exists k2. split; [done|]. intros m. by rewrite (ch_view _ _ _ _ _ _ _ Hc2).
Qed.

(** ** Freeing *)

Lemma bfree_run (Hserve : disk_served) H b o k S r :
  log_inv st sz i H k → alloc_inv st sz k → budget sz S r H k → not_held H k (bmap_block k) →
  0 ≤ b < sb_size (k_sb k) → ¬ is_free k b →
  ∃ k', bfree ROOTDEV b o k = Ret tt o k' ∧
    changed st sz i H k [(bmap_block k, clear_bit (view k (bmap_block k)) b)] k'.
Proof.
  intros Hli Hal Hbg Hnb Hb Hnf. pose proof Hal as [Hly _]. pose proof (bmap_fs_block k Hal) as Hbm.
  destruct (budget_n st sz i S _ H k Hli Hbg) as [_ Hsp]. unfold bfree. kstep.
  rewrite (BBLOCK_eq _ b Hly) by done. fold (bmap_block k).
  destruct (txn_bread st sz i Hserve H (bmap_block k) o k Hli Hnb Hsp Hbm) as (bp & x & k1 & Hrun & Hld).
  kstep_with Hrun. unfold bufget. kstep. rewrite (buf_at_lookup _ _ _ (ld_buf _ _ _ _ _ _ _ _ _ Hld)), (ld_data _ _ _ _ _ _ _ _ _ Hld).
  rewrite (Z.mod_small b BPB) by (destruct Hly; unfold BPB, BSIZE, FSSIZE in *; lia).
  destruct (bit_clear (view k (bmap_block k)) b) eqn:E; [by destruct Hnf|].
  destruct (txn_store st sz i H k (bmap_block k) bp x k1 (λ d, clear_bit d b)
    (λ x, set_b_data (clear_bit (b_data x) b) x) o S r Hld Hbg Hli Hbm) as (k2 & Hrun2 & Hc2);
    [done|rewrite length_clear_bit; by eapply view_wf|]. exists k2. split; [exact Hrun2|exact Hc2].
Qed.

(** What freeing [b] means. *)
Lemma free_meaning H k b k' :
  alloc_inv st sz k → log_inv st sz i H k → bmap_block k < b < sb_size (k_sb k) →
  changed st sz i H k [(bmap_block k, clear_bit (view k (bmap_block k)) b)] k' →
  alloc_inv st sz k' ∧ (∀ b', is_free k' b' ↔ is_free k b' ∨ b' = b) ∧
  (∀ m, m ≠ bmap_block k → view k' m = view k m).
Proof.
  intros Hal Hli Hb Hc. pose proof Hal as [Hly _].
  destruct (fs_frame_icache _ _ (ch_frame _ _ _ _ _ _ _ Hc)) as (_ & Hsb & _).
  assert (0 < bmap_block k) as H0 by (destruct Hly; unfold bmap_block, IPB in *; lia_mod).
  assert (Z.to_nat (b / 8) < length (view k (bmap_block k)))%nat as Hlen.
  { rewrite (view_wf st sz i H) by done. change (Z.to_nat BSIZE) with 512%nat. destruct Hly. unfold FSSIZE in *. lia_mod. }
  assert (∀ b', is_free k' b' ↔ is_free k b' ∨ b' = b) as Hf.
  { intros b'. rewrite (changed_free _ _ _ _ b' Hc). unfold overlay. cbn [foldl fst snd]. rewrite Z.eqb_refl. unfold is_free.
    split.
    - intros [Hr Hbc]. rewrite clear_bit_spec in Hbc by (done || lia). destruct (Z.eqb_spec b' b); [by right|by left].
    - intros [[Hr Hbc]| ->]; (split; [lia|]); rewrite clear_bit_spec by (done || lia); [by destruct (b' =? b)|].
      by rewrite Z.eqb_refl. }
  split_and!; [|done|].
  - split; [by rewrite Hsb|]. intros b' Hb'. unfold bmap_block. rewrite Hsb. apply Hf in Hb' as [?| ->]; [by apply Hal|]. apply Hb.
  - intros m Hm. rewrite (ch_view _ _ _ _ _ _ _ Hc). unfold overlay. cbn. by rewrite (proj2 (Z.eqb_neq m (bmap_block k))).
Qed.

Lemma bfree_free H b o k :
  disk_served → log_inv st sz i H k → alloc_inv st sz k → spare H k → not_held H k (bmap_block k) → is_free k b →
  ∃ k', bfree ROOTDEV b o k = Panic "freeing free block" k'.
Proof.
  intros Hserve Hli Hal Hsp Hnb [Hb Hc]. pose proof Hal as [Hly _]. pose proof (bmap_fs_block k Hal) as Hbm.
  unfold bfree. kstep. rewrite (BBLOCK_eq _ b Hly) by done. fold (bmap_block k).
  destruct (txn_bread st sz i Hserve H (bmap_block k) o k Hli Hnb Hsp Hbm) as (bp & x & k1 & Hrun & Hld).
  kstep_with Hrun. unfold bufget. kstep. rewrite (buf_at_lookup _ _ _ (ld_buf _ _ _ _ _ _ _ _ _ Hld)), (ld_data _ _ _ _ _ _ _ _ _ Hld).
  rewrite (Z.mod_small b BPB) by (destruct Hly; unfold BPB, BSIZE, FSSIZE in *; lia). rewrite Hc. by exists k1.
Qed.
End blocks.

(** C24: [balloc] in a transaction with room for the bitmap and one more block:
    if the disk has a free block, it returns one, which is then in use and all
    zero, and neither the state of another block nor the contents of any block
    but this and the bitmap change; if there is none, it panics. *)
Theorem balloc_allocates {DEV : BlockDev} {DEVOK : BlockDevOk DEV} st sz i o k :
  disk_served → log_inv st sz i ∅ k → alloc_inv st sz k → budget sz {[bmap_block k]} 1 ∅ k →
  ((∃ b, is_free k b) →
     ∃ b k', balloc ROOTDEV o k = Ret b o k' ∧ is_free k b ∧ view k' b = zero_block ∧
       log_inv st sz i ∅ k' ∧ alloc_inv st sz k' ∧ (∀ b', is_free k' b' ↔ is_free k b' ∧ b' ≠ b) ∧
       (∀ m, m ≠ b → m ≠ bmap_block k → view k' m = view k m)) ∧
  ((∀ b, ¬ is_free k b) → ∃ k', balloc ROOTDEV o k = Panic "balloc: out of blocks" k').
Proof.
  intros Hserve Hli Hal Hbg. assert (∀ n, not_held ∅ k n) as Hnh by (intros n b x Hb; set_solver). split.
  - intros Hex. destruct (balloc_spec st sz i Hserve ∅ o k {[bmap_block k]} 0) as (b & k' & Hrun & Ha & _); try done; [set_solver|].
    exists b, k'. split_and!; try done; try apply Ha.
  - intros Hno. destruct (budget_n st sz i _ _ ∅ k Hli Hbg) as [_ Hsp].
    destruct (balloc_full st sz i Hserve ∅ o k) as (k' & Hrun & _); try done. by exists k'.
Qed.

(** A file system of 1000 blocks as [mkfs] lays it out, with no file, in a
    transaction that has logged nothing. *)
Definition demo_sb : superblock := mk_sb 1000 941 200 30 2 32 58.
Definition demo_bitmap : list Z := replicate 7 255 ++ [7] ++ replicate 504 0.
Definition demo_state (disk : gmap Z (list Z)) : K :=
  set_k_sb demo_sb (set_k_lru (seq 0 NBUF)
    (set_k_log (mk_log 2 30 1 false ROOTDEV 0 (replicate LOGSIZE 0)) (K_demo disk))).
Definition demo_fs : K := demo_state {[58 := demo_bitmap]}.

Lemma demo_state_inv disk :
  map_Forall (λ _ d, length d = Z.to_nat BSIZE) disk → log_inv 2 30 0 ∅ (demo_state disk).
Proof.
  intros Hd. split.
  - apply bio_inv_unused; try done.
    + by eapply quiet_ext; [..|apply (demo_quiet disk)].
    + intros b x Hb. by apply (lookup_replicate_1 NBUF) in Hb as [-> _].
  - exact Hd.
  - split; try done; [by intros m ?%elem_of_nil|apply NoDup_nil_2].
  - intros m. split; [|by intros ?%elem_of_nil]. intros (b & x & Hb & Hr & _).
    by apply (lookup_replicate_1 NBUF) in Hb as [-> _].
Qed.

Lemma demo_fs_inv : log_inv 2 30 0 ∅ demo_fs.
Proof. apply demo_state_inv, map_Forall_singleton. done. Qed.

Lemma demo_bitmap_used b : 0 ≤ b → bit_clear demo_bitmap b = true → 58 < b.
Proof.
  intros H0 Hb. destruct (decide (58 < b)) as [|Hn]; [done|]. exfalso.
  assert (Forall (λ b, bit_clear demo_bitmap b = false) (seqZ 0 59)) as HF by (apply Forall_fold_right; vm_compute; tauto).
  rewrite Forall_forall in HF. rewrite HF in Hb; [done|]. apply elem_of_seqZ. lia.
Qed.

Lemma demo_fs_view : view demo_fs 58 = demo_bitmap.
Proof. vm_compute. reflexivity. Qed.

Lemma demo_fs_alloc : alloc_inv 2 30 demo_fs.
Proof.
  split; [split; done|]. intros b [Hb Hc]. change (bmap_block demo_fs) with 58 in *. rewrite demo_fs_view in Hc.
  apply demo_bitmap_used; [lia|done].
Qed.

Lemma demo_served : @disk_served (memide_dev FSSIZE).
Proof. intros m Hm. split; [done|lia]. Qed.

Lemma balloc_allocates_witness :
  ∃ b k', @balloc (memide_dev FSSIZE) ROOTDEV [] demo_fs = Ret b [] k' ∧ 58 < b ∧ ¬ is_free k' b.
Proof.
  destruct (@balloc_allocates (memide_dev FSSIZE) _ 2 30 0 [] demo_fs) as [Hb _].
  - apply demo_served.
  - apply demo_fs_inv.
  - apply demo_fs_alloc.
  - split; [done|done|reflexivity|reflexivity].
  - destruct Hb as (b & k' & Hrun & Hf & _ & _ & _ & Hfr & _).
    + exists 59. split; [done|]. change (bmap_block demo_fs) with 58. rewrite demo_fs_view. vm_compute. reflexivity.
    + exists b, k'. split; [exact Hrun|]. split; [by apply demo_fs_alloc|]. rewrite Hfr. intros [_ Hne]. exact (Hne eq_refl).
Defined.

(** [bfree] of a data block in use makes exactly that block free and changes
    no block but the bitmap; freeing a block that is free is caught. *)
Theorem bfree_frees {DEV : BlockDev} {DEVOK : BlockDevOk DEV} st sz i b o k :
  disk_served → log_inv st sz i ∅ k → alloc_inv st sz k → budget sz {[bmap_block k]} 0 ∅ k →
  (bmap_block k < b < sb_size (k_sb k) → ¬ is_free k b →
     ∃ k', bfree ROOTDEV b o k = Ret tt o k' ∧ log_inv st sz i ∅ k' ∧ alloc_inv st sz k' ∧
       (∀ b', is_free k' b' ↔ is_free k b' ∨ b' = b) ∧ (∀ m, m ≠ bmap_block k → view k' m = view k m)) ∧
  (is_free k b → ∃ k', bfree ROOTDEV b o k = Panic "freeing free block" k').
Proof.
  intros Hserve Hli Hal Hbg. assert (∀ n, not_held ∅ k n) as Hnh by (intros n c x Hb; set_solver). split.
  - intros Hb Hnf. assert (0 < bmap_block k) as H0 by (destruct Hal as [[] _]; unfold bmap_block, IPB in *; lia_mod).
    destruct (bfree_run st sz i Hserve ∅ b o k {[bmap_block k]} 0) as (k' & Hrun & Hc); try done; [lia|].
    exists k'. split; [done|]. split; [apply Hc|]. by apply (free_meaning st sz i ∅).
  - intros Hf. apply (bfree_free st sz i ∅); try done. by eapply budget_n.
Qed.

(** Block 59 is free on the disk above. *)
Lemma bfree_frees_witness : ∃ k', @bfree (memide_dev FSSIZE) ROOTDEV 59 [] demo_fs = Panic "freeing free block" k'.
Proof.
  apply (@bfree_frees (memide_dev FSSIZE) _ 2 30 0 59 [] demo_fs).
  - apply demo_served.
  - apply demo_fs_inv.
  - apply demo_fs_alloc.
  - split; [done|done|reflexivity|reflexivity].
  - split; [done|]. change (bmap_block demo_fs) with 58. rewrite demo_fs_view. vm_compute. reflexivity.
Defined.
