(* ===== verification/FsData.v ===== *)
(** * File contents

    [bmap], [iupdate], [readi] and [writei] against the contents of a file.  The
    addresses of a file's blocks are one list, direct ones first, then those in
    the indirect block; a block without an address counts as zeros.  The
    invariant says that the blocks of a file are different data blocks in use. *)

From stdpp Require Import base numbers list gmap strings.
From S2P Require Import Prelude Mmu Hardware Memory Bytes Kernel Spinlock Kalloc Cprintf Vm Proc Sleeplock Blockdev Memide Bio Log Txn Fs FsBlocks.

Implicit Types (k : K) (o : oracle).

(** [lia] with the sizes of a file. *)
Ltac lia_fs :=
  change NDIRECT with 12 in *; change NINDIRECT with 128 in *; change MAXFILE with 140 in *;
  change BSIZE with 512 in *; lia.

(** ** The blocks of a file *)

Definition ind_addr (x : inode) : Z := addr_at x (Z.to_nat NDIRECT).
Definition entries (d : list Z) : list Z := (λ j, get32 d (4 * j)) <$> seq 0 (Z.to_nat NINDIRECT).

Definition addrs_of (k : K) (x : inode) : list Z :=
  take (Z.to_nat NDIRECT) (i_addrs x) ++
  (if ind_addr x =? 0 then replicate (Z.to_nat NINDIRECT) 0 else entries (view k (ind_addr x))).

Definition block_addr (k : K) (x : inode) (bn : nat) : Z := default 0 (addrs_of k x !! bn).

(** The blocks the file occupies. *)
Definition owned (k : K) (x : inode) : list Z := filter (.≠ 0) (ind_addr x :: addrs_of k x).

Definition fblock (k : K) (x : inode) (bn : nat) : list Z :=
  if block_addr k x bn =? 0 then zero_block else view k (block_addr k x bn).

(** The bytes a file can have, and those it has. *)
Definition fbytes (k : K) (x : inode) : list Z := concat (fblock k x <$> seq 0 (Z.to_nat MAXFILE)).
Definition contents (k : K) (x : inode) : list Z := take (Z.to_nat (i_size x)) (fbytes k x).

Record inode_ok (k : K) (x : inode) : Prop := {
  io_dev : i_dev x = ROOTDEV;
  io_inum : 0 ≤ i_inum x < sb_ninodes (k_sb k);
  io_wf : inode_wf x;
  io_nodup : NoDup (owned k x);
  io_used b : b ∈ owned k x → bmap_block k < b < sb_size (k_sb k) ∧ ¬ is_free k b
}.

Lemma length_entries d : length (entries d) = Z.to_nat NINDIRECT.
Proof. unfold entries. by rewrite length_fmap, length_seq. Qed.

Lemma length_addrs_of k x : inode_wf x → length (addrs_of k x) = Z.to_nat MAXFILE.
Proof.
  intros Hx. unfold addrs_of. rewrite length_app, length_take, (iw_len _ Hx).
  destruct (_ =? 0); rewrite ?length_replicate, ?length_entries; done.
Qed.

Lemma entries_zero : entries zero_block = replicate (Z.to_nat NINDIRECT) 0.
Proof. vm_compute. reflexivity. Qed.

Lemma entries_put d j a :
  length d = Z.to_nat BSIZE → (j < Z.to_nat NINDIRECT)%nat → 0 ≤ a < 4294967296 →
  entries (put32 d (4 * j) a) = <[j := a]> (entries d).
Proof.
  intros Hd Hj Ha. change (Z.to_nat NINDIRECT) with 128%nat in *. change (Z.to_nat BSIZE) with 512%nat in *.
  apply list_eq. intros n. unfold entries. change (Z.to_nat NINDIRECT) with 128%nat.
  destruct (decide (n < 128)%nat) as [Hn|Hn].
  - rewrite list_lookup_fmap, lookup_seq_lt by done. cbn [fmap option_fmap option_map].
    destruct (decide (n = j)) as [->|Hne].
    + rewrite list_lookup_insert_eq by (by rewrite length_fmap, length_seq). f_equal.
      rewrite get32_put32_eq by lia. by apply u32_small.
    + rewrite list_lookup_insert_ne, list_lookup_fmap, lookup_seq_lt by done. cbn [fmap option_fmap option_map]. f_equal.
      apply get32_put32_ne. lia.
  - rewrite !lookup_ge_None_2; [done|by rewrite length_insert, length_fmap, length_seq; lia|by rewrite length_fmap, length_seq; lia].
Qed.

(** The indices of the two kinds. *)
Lemma block_addr_direct k x bn :
  inode_wf x → (bn < Z.to_nat NDIRECT)%nat → block_addr k x bn = addr_at x bn.
Proof.
  intros Hx Hb. unfold block_addr, addrs_of, addr_at. change (Z.to_nat NDIRECT) with 12%nat in *.
  rewrite lookup_app_l by (rewrite length_take, (iw_len _ Hx); lia). by rewrite lookup_take_lt.
Qed.

Lemma block_addr_indirect k x j :
  inode_wf x → (j < Z.to_nat NINDIRECT)%nat →
  block_addr k x (Z.to_nat NDIRECT + j) =
  if ind_addr x =? 0 then 0 else get32 (view k (ind_addr x)) (4 * j).
Proof.
  intros Hx Hj. unfold block_addr, addrs_of. change (Z.to_nat NDIRECT) with 12%nat in *.
  assert (length (take 12 (i_addrs x)) = 12%nat) as Hl by (rewrite length_take, (iw_len _ Hx); lia).
  rewrite lookup_app_r by lia. replace (12 + j - length (take 12 (i_addrs x)))%nat with j by lia.
  destruct (_ =? 0); [by rewrite lookup_replicate_2|]. unfold entries. rewrite list_lookup_fmap, lookup_seq_lt by done. done.
Qed.

Lemma elem_of_owned k x b : b ∈ owned k x ↔ b ≠ 0 ∧ (b = ind_addr x ∨ b ∈ addrs_of k x).
Proof. unfold owned. by rewrite list_elem_of_filter, elem_of_cons. Qed.

Lemma block_addr_owned k x bn : block_addr k x bn ≠ 0 → block_addr k x bn ∈ owned k x.
Proof.
  unfold block_addr. destruct (addrs_of k x !! bn) as [a|] eqn:E; cbn; [|done]. intros Ha.
  apply elem_of_owned. split; [done|right]. by eapply list_elem_of_lookup_2.
Qed.

Lemma ind_owned k x : ind_addr x ≠ 0 → ind_addr x ∈ owned k x.
Proof. intros Hn. apply elem_of_owned. auto. Qed.

(** ** States that differ where a file does not *)

(** The contents of the blocks of the file are the same. *)
Lemma addrs_of_ext k k' x : (ind_addr x ≠ 0 → view k' (ind_addr x) = view k (ind_addr x)) → addrs_of k' x = addrs_of k x.
Proof. intros Hv. unfold addrs_of. destruct (Z.eqb_spec (ind_addr x) 0) as [|Hn]; [done|]. by rewrite Hv. Qed.

Lemma fblock_ext k k' x :
  (∀ m, m ∈ owned k x → view k' m = view k m) → ∀ bn, fblock k' x bn = fblock k x bn.
Proof.
  intros Hv bn. unfold fblock. assert (addrs_of k' x = addrs_of k x) as E by (apply addrs_of_ext; intros Hn; by apply Hv, ind_owned).
  unfold block_addr. rewrite E. fold (block_addr k x bn). destruct (Z.eqb_spec (block_addr k x bn) 0) as [|Hn]; [done|].
  apply Hv. by apply block_addr_owned.
Qed.

Lemma inode_ok_ext k k' x :
  k_sb k' = k_sb k → (∀ b, b ∈ owned k x → view k' b = view k b) → (∀ b, is_free k' b → is_free k b) →
  inode_ok k x → inode_ok k' x.
Proof.
  intros Hsb Hv Hf [I1 I2 I3 I4 I5].
  assert (owned k' x = owned k x) as E.
  { unfold owned. rewrite (addrs_of_ext k k'); [done|]. intros Hn. by apply Hv, ind_owned. }
  split; [done|by rewrite Hsb|done|by rewrite E|]. rewrite E. unfold bmap_block. rewrite Hsb. intros b Hb.
  destruct (I5 b Hb) as [? Hnf]. split; [done|]. intros ?%Hf. done.
Qed.

(** ** A new block for a file *)

Definition slots (k : K) (x : inode) : list Z := ind_addr x :: addrs_of k x.

Lemma filter_insert_new (l : list Z) n a :
  l !! n = Some 0 → a ≠ 0 → filter (.≠ 0) (<[n := a]> l) ≡ₚ a :: filter (.≠ 0) l.
Proof.
  intros Hn Ha. assert (n < length l)%nat as Hlt by (by eapply lookup_lt_Some).
  rewrite <- (take_drop_middle l n 0 Hn) at 2. rewrite insert_take_drop by done.
  rewrite !filter_app, filter_cons_True, filter_cons_False by (done || tauto). by rewrite Permutation_middle.
Qed.

Lemma owned_new k x k' x' m a :
  slots k x !! m = Some 0 → slots k' x' = <[m := a]> (slots k x) → a ≠ 0 → owned k' x' ≡ₚ a :: owned k x.
Proof. intros Hm Hs Ha. unfold owned. fold (slots k' x') (slots k x). rewrite Hs. by apply filter_insert_new. Qed.

Lemma inode_ok_new k x k' x' m a :
  inode_ok k x → slots k x !! m = Some 0 → slots k' x' = <[m := a]> (slots k x) → a ≠ 0 →
  bmap_block k < a → is_free k a → (∀ b, is_free k' b ↔ is_free k b ∧ b ≠ a) → k_sb k' = k_sb k →
  inode_wf x' → i_dev x' = i_dev x → i_inum x' = i_inum x → inode_ok k' x'.
Proof.
  intros [I1 I2 I3 I4 I5] Hm Hs Ha Hba Hfa Hf Hsb Hwf Hd Hi.
  pose proof (owned_new k x k' x' m a Hm Hs Ha) as Hp. split; [congruence|by rewrite Hi, Hsb|done| |].
  - rewrite Hp. apply NoDup_cons. split; [|done]. intros Hin. by apply (I5 a Hin).
  - unfold bmap_block. rewrite Hsb. intros b. rewrite Hp, elem_of_cons, Hf. intros [->|Hb].
    + split; [destruct Hfa; unfold bmap_block in *; lia|tauto].
    + destruct (I5 b Hb). split; [done|tauto].
Qed.

Lemma fblock_new k x k' x' bn a :
  addrs_of k x !! bn = Some 0 → addrs_of k' x' = <[bn := a]> (addrs_of k x) → a ≠ 0 →
  view k' a = zero_block → (∀ b, b ∈ addrs_of k x → b ≠ 0 → view k' b = view k b) →
  ∀ j, fblock k' x' j = fblock k x j.
Proof.
  intros Hbn Hs Ha Hz Hv j. unfold fblock, block_addr. rewrite Hs. destruct (decide (j = bn)) as [->|Hne].
  - rewrite list_lookup_insert_eq by (by eapply lookup_lt_Some). rewrite Hbn. cbn [default from_option id].
    by rewrite (proj2 (Z.eqb_neq a 0)), Z.eqb_refl.
  - rewrite list_lookup_insert_ne by done. destruct (addrs_of k x !! j) as [b|] eqn:E; cbn [default from_option id]; [|done].
    destruct (Z.eqb_spec b 0); [done|]. apply Hv; [by eapply list_elem_of_lookup_2|done].
Qed.

Lemma fblock_same k x k' x' :
  addrs_of k' x' = addrs_of k x → (∀ b, b ∈ addrs_of k x → b ≠ 0 → view k' b = view k b) →
  ∀ j, fblock k' x' j = fblock k x j.
Proof.
  intros Hs Hv j. unfold fblock, block_addr. rewrite Hs. destruct (addrs_of k x !! j) as [b|] eqn:E; cbn [default from_option id]; [|done].
  destruct (Z.eqb_spec b 0); [done|]. apply Hv; [by eapply list_elem_of_lookup_2|done].
Qed.

Lemma set_addr_wf x j a : inode_wf x → 0 ≤ a < 4294967296 → inode_wf (set_addr j a x).
Proof.
  intros [W1 W2 W3 W4 W5 W6 W7] Ha. split; try done; [by apply Forall_insert|]. cbn. by rewrite length_insert.
Qed.

Lemma addrs_of_direct k x bn a :
  inode_wf x → (bn < Z.to_nat NDIRECT)%nat → addrs_of k (set_addr bn a x) = <[bn := a]> (addrs_of k x).
Proof.
  intros Hx Hb. unfold addrs_of. change (Z.to_nat NDIRECT) with 12%nat in *.
  assert (ind_addr (set_addr bn a x) = ind_addr x) as ->.
  { unfold ind_addr, addr_at. cbn. change (Z.to_nat NDIRECT) with 12%nat. by rewrite list_lookup_insert_ne by lia. }
  rewrite insert_app_l by (rewrite length_take, (iw_len _ Hx); lia). f_equal. cbn. by rewrite take_insert_lt.
Qed.

Lemma ind_addr_direct x bn a : (bn < Z.to_nat NDIRECT)%nat → ind_addr (set_addr bn a x) = ind_addr x.
Proof.
  intros Hb. unfold ind_addr, addr_at. change (Z.to_nat NDIRECT) with 12%nat in *. cbn. by rewrite list_lookup_insert_ne by lia.
Qed.

Lemma ind_addr_set x a : inode_wf x → ind_addr (set_addr (Z.to_nat NDIRECT) a x) = a.
Proof.
  intros Hx. unfold ind_addr, addr_at. change (Z.to_nat NDIRECT) with 12%nat. cbn.
  by rewrite list_lookup_insert_eq by (rewrite (iw_len _ Hx); lia).
Qed.

Lemma addrs_of_ind k k' x a :
  inode_wf x → ind_addr x = 0 → a ≠ 0 → view k' a = zero_block →
  addrs_of k' (set_addr (Z.to_nat NDIRECT) a x) = addrs_of k x.
Proof.
  intros Hx H0 Ha Hz. unfold addrs_of. rewrite (ind_addr_set x a Hx), H0, (proj2 (Z.eqb_neq a 0)), Hz, entries_zero by done.
  cbn [Z.eqb]. f_equal. cbn [set_addr set_i_addrs i_addrs]. rewrite take_insert_ge by lia. done.
Qed.

Lemma addrs_of_entry k k' x j a :
  inode_wf x → ind_addr x ≠ 0 → (j < Z.to_nat NINDIRECT)%nat → 0 ≤ a < 4294967296 →
  length (view k (ind_addr x)) = Z.to_nat BSIZE →
  view k' (ind_addr x) = put32 (view k (ind_addr x)) (4 * j) a →
  addrs_of k' x = <[(Z.to_nat NDIRECT + j)%nat := a]> (addrs_of k x).
Proof.
  intros Hx H0 Hj Ha Hlen Hv. unfold addrs_of. rewrite (proj2 (Z.eqb_neq _ 0)), Hv, entries_put by done.
  assert (length (take (Z.to_nat NDIRECT) (i_addrs x)) = Z.to_nat NDIRECT) as Hl.
  { rewrite length_take, (iw_len _ Hx). done. }
  rewrite insert_app_r_alt by lia. do 2 f_equal. lia.
Qed.

Lemma log_inv_icache st sz i H c k : log_inv st sz i H k → log_inv st sz i H (set_k_icache c k).
Proof. intros [[] W L D]. split; [by split|done|done|done]. Qed.

Lemma fs_frame_set_icache c k k' : fs_frame k k' → fs_frame (set_k_icache c k) (set_k_icache c k').
Proof. intros [R P L]. split; [|done|done]. rewrite R at 1. by destruct k. Qed.

Section files.
Context {DEV : BlockDev} {DEVOK : BlockDevOk DEV} (st sz : Z) (i : nat).

(** ** Changing a file

    From [k] to [k'] only the file of the inode [ip] may change, from [x] to
    [x']: it may get blocks that were free.  Blocks of other files and the rest
    of the kernel's state stay. *)
Record fchange (ip : nat) (k : K) (x : inode) (k' : K) (x' : inode) : Prop := {
  fc_inv : log_inv st sz i ∅ k';
  fc_alloc : alloc_inv st sz k';
  fc_ok : inode_ok k' x';
  fc_icache : k_icache k' = <[ip := x']> (k_icache k);
  fc_same : set_i_addrs [] (set_i_size 0 x') = set_i_addrs [] (set_i_size 0 x);
  fc_grows b : b ∈ owned k x → b ∈ owned k' x';
  fc_owned b : b ∈ owned k' x' → b ∈ owned k x ∨ is_free k b;
  fc_free b : is_free k' b ↔ is_free k b ∧ b ∉ owned k' x';
  fc_other m : ¬ is_free k m → m ≠ bmap_block k → m ∉ owned k x → view k' m = view k m;
  fc_frame : fs_frame k (set_k_icache (k_icache k) k')
}.

Lemma fchange_sb ip k x k' x' : fchange ip k x k' x' → k_sb k' = k_sb k ∧ i_inum x' = i_inum x ∧ i_dev x' = i_dev x ∧ i_type x' = i_type x.
Proof.
  intros Hc. destruct (fs_frame_icache _ _ (fc_frame _ _ _ _ _ Hc)) as (_ & Hsb & _). cbn in Hsb.
  pose proof (fc_same _ _ _ _ _ Hc) as E. pose proof (f_equal i_inum E). pose proof (f_equal i_dev E). pose proof (f_equal i_type E). done.
Qed.

Lemma fchange_refl ip k x :
  log_inv st sz i ∅ k → alloc_inv st sz k → inode_ok k x → k_icache k !! ip = Some x → fchange ip k x k x.
Proof.
  intros Hli Hal Hok Hx. split; try done.
  - by rewrite list_insert_id.
  - by left.
  - intros b. split; [|tauto]. intros Hf. split; [done|]. intros Hb. by apply (io_used _ _ Hok) in Hb as [_ ?].
Qed.

Lemma fchange_trans ip k x k1 x1 k2 x2 :
  fchange ip k x k1 x1 → fchange ip k1 x1 k2 x2 → fchange ip k x k2 x2.
Proof.
  intros Hc1 Hc2. destruct (fchange_sb _ _ _ _ _ Hc1) as (Hsb & _).
  destruct Hc1 as [A1 A2 A3 A4 A5 A6 A7 A8 A9 A10], Hc2 as [B1 B2 B3 B4 B5 B6 B7 B8 B9 B10].
  split; try done.
  - by rewrite B4, A4, list_insert_insert_eq.
  - congruence.
  - auto.
  - intros b [Hb|Hb]%B7; [by apply A7|]. right. by apply A8 in Hb as [? _].
  - intros b. rewrite B8, A8. split; [tauto|]. intros [Hf Hb]. split; [|done]. split; [done|]. auto.
  - intros m Hf Hm Ho. rewrite B9; [by apply A9|rewrite A8; tauto|unfold bmap_block; by rewrite Hsb|].
    intros [?|?]%A7; done.
  - eapply fs_frame_trans; [exact A10|]. apply (fs_frame_set_icache (k_icache k)) in B10. exact B10.
Qed.

(** Updates that change neither the bitmap nor the indirect block. *)
Lemma changed_read ip k x k' :
  changed st sz i ∅ k [] k' → alloc_inv st sz k → inode_ok k x → k_icache k !! ip = Some x →
  fchange ip k x k' x ∧ (∀ m, view k' m = view k m).
Proof.
  intros Hc Hal Hok Hx. destruct (fs_frame_icache _ _ (ch_frame _ _ _ _ _ _ _ Hc)) as (Hic & Hsb & _).
  assert (∀ m, view k' m = view k m) as Hv by (intros m; by rewrite (ch_view _ _ _ _ _ _ _ Hc)).
  assert (∀ b, is_free k' b ↔ is_free k b) as Hf by (intros b; unfold is_free, bmap_block; by rewrite Hsb, Hv).
  assert (owned k' x = owned k x) as Eo by (unfold owned; rewrite (addrs_of_ext k k'); [done|intros _; apply Hv]).
  split; [|done]. split; try done.
  - apply Hc.
  - destruct Hal as [Hl Hb]. split; [by rewrite Hsb|]. unfold bmap_block. rewrite Hsb. intros b ?%Hf. by apply Hb.
  - apply (inode_ok_ext k); try done. intros b. apply Hf.
  - rewrite Hic. by rewrite list_insert_id.
  - by rewrite Eo.
  - rewrite Eo. by left.
  - intros b. rewrite Hf, Eo. split; [|tauto]. intros Hfr. split; [done|]. intros Hb. by apply (io_used _ _ Hok) in Hb as [_ ?].
  - pose proof (ch_frame _ _ _ _ _ _ _ Hc) as Hfr. rewrite <- Hic. destruct k'; exact Hfr.
Qed.

Lemma new_fchange ip k x k' x' m a :
  alloc_inv st sz k → inode_ok k x → log_inv st sz i ∅ k' → is_free k a →
  (∀ b, is_free k' b ↔ is_free k b ∧ b ≠ a) →
  (∀ n, n ∉ owned k x → n ≠ a → n ≠ bmap_block k → view k' n = view k n) →
  slots k x !! m = Some 0 → slots k' x' = <[m := a]> (slots k x) → inode_wf x' →
  set_i_addrs [] (set_i_size 0 x') = set_i_addrs [] (set_i_size 0 x) →
  k_icache k' = <[ip := x']> (k_icache k) → fs_frame k (set_k_icache (k_icache k) k') →
  fchange ip k x k' x'.
Proof.
  intros Hal Hok Hli Ha Hf Hv Hm Hs Hwf Hsame Hic Hfr.
  destruct (fs_frame_icache _ _ Hfr) as (_ & Hsb & _). cbn in Hsb. pose proof (proj2 Hal a Ha) as Hba.
  assert (a ≠ 0) as Ha0 by (destruct Hal as [[] _]; unfold bmap_block, IPB in *; lia_mod).
  pose proof (owned_new k x k' x' m a Hm Hs Ha0) as Hp.
  pose proof (f_equal i_dev Hsame) as Hd. pose proof (f_equal i_inum Hsame) as Hin. cbn in Hd, Hin.
  assert (∀ b, is_free k b → b ∉ owned k x) as Hfo by (intros b Hb Ho; by apply (io_used _ _ Hok) in Ho as [_ ?]).
  split; try done.
  - split; [rewrite Hsb; apply Hal|]. unfold bmap_block. rewrite Hsb. intros b [Hb _]%Hf. by apply Hal.
  - by apply (inode_ok_new k x k' x' m a).
  - intros b Hb. rewrite Hp, elem_of_cons. by right.
  - intros b. rewrite Hp, elem_of_cons. intros [->|?]; [by right|by left].
  - intros b. rewrite Hf, Hp, not_elem_of_cons. split; [|tauto]. intros [Hb Hne]. auto.
  - intros n Hn Hnb Hno. apply Hv; [done|congruence|done].
Qed.

(** ** [bmap] *)

Lemma owned_fs_block k x b : alloc_inv st sz k → inode_ok k x → b ∈ owned k x → fs_block st sz b.
Proof.
  intros Hal Hok Hb. destruct (io_used _ _ Hok b Hb) as [Hr _]. apply (layout_block st sz (k_sb k)); [apply Hal|].
  destruct Hal as [[] _]. unfold bmap_block, IPB in *. lia_mod.
Qed.

Lemma inode_at_lookup k ip x : k_icache k !! ip = Some x → inode_at k ip = x.
Proof. unfold inode_at. by intros ->. Qed.

Lemma not_held_empty k n : not_held ∅ k n.
Proof. intros b x Hb. by apply elem_of_empty in Hb. Qed.

(** A block the file has is found, and nothing changes. *)
Lemma bmap_read (Hserve : disk_served) ip bn o k x :
  log_inv st sz i ∅ k → alloc_inv st sz k → inode_ok k x → k_icache k !! ip = Some x → spare ∅ k →
  0 ≤ bn < MAXFILE → block_addr k x (Z.to_nat bn) ≠ 0 →
  ∃ k', bmap ip bn o k = Ret (block_addr k x (Z.to_nat bn)) o k' ∧ changed st sz i ∅ k [] k'.
Proof.
  intros Hli Hal Hok Hx Hsp Hbn Ha. pose proof (io_wf _ _ Hok) as Hwf. unfold bmap, inoget. kstep.
  rewrite (inode_at_lookup k ip x Hx).
  destruct (Z.ltb_spec bn NDIRECT) as [Hd|Hd].
  - kstep. rewrite (inode_at_lookup k ip x Hx). rewrite block_addr_direct in * by (done || lia).
    rewrite (proj2 (Z.eqb_neq _ 0)) by done. exists k. split; [done|]. by apply changed_refl.
  - assert (Z.to_nat bn = (Z.to_nat NDIRECT + Z.to_nat (bn - NDIRECT))%nat) as Ebn by lia_fs.
    rewrite (proj2 (Z.ltb_lt _ _)) by lia_fs.
    rewrite Ebn, block_addr_indirect in * by (done || lia_fs).
    destruct (Z.eqb_spec (ind_addr x) 0) as [|Hi]; [done|]. kstep. rewrite (inode_at_lookup k ip x Hx).
    fold (ind_addr x). rewrite (proj2 (Z.eqb_neq _ 0)) by done. kstep. rewrite (io_dev _ _ Hok).
    destruct (txn_bread st sz i Hserve ∅ (ind_addr x) o k Hli) as (b & y & k1 & Hrun & Hld);
      [apply not_held_empty|done|apply (owned_fs_block k x); [done..|by apply ind_owned]|].
    kstep_with Hrun. unfold bufget. kstep.
    rewrite (buf_at_lookup _ _ _ (ld_buf _ _ _ _ _ _ _ _ _ Hld)), (ld_data _ _ _ _ _ _ _ _ _ Hld).
    replace (Z.to_nat (4 * (bn - NDIRECT))) with (4 * Z.to_nat (bn - NDIRECT))%nat by lia.
    rewrite (proj2 (Z.eqb_neq _ 0)) by done. kstep.
    destruct (txn_release st sz i ∅ k (ind_addr x) b y k1 o Hld) as (k2 & Hrun2 & Hc2). kstep_with Hrun2. by exists k2.
Qed.

(** *** Getting a block *)

Definition need (x : inode) : Z := if ind_addr x =? 0 then 1 else 0.

(** [r] more blocks, and the indirect block if there is none, can be allocated
    and logged besides the blocks of [S]. *)
Record res (S : gset Z) (r : Z) (k : K) (x : inode) : Prop := {
  rs_bmap : bmap_block k ∈ S;
  rs_ind : ind_addr x ≠ 0 → ind_addr x ∈ S;
  rs_pos : 0 ≤ r;
  rs_budget : budget sz S (r + need x) ∅ k;
  rs_enough : enough (r + need x) k
}.

(** The address of a new block stored in the inode. *)
Definition balloc_to (ip j : nat) : M Z :=
  let! addr := balloc ROOTDEV in
  inoset ip (set_addr j addr) ;;;
  ret addr.

Lemma alter_inode (l : list inode) ip (f : inode → inode) x : l !! ip = Some x → alter f ip l = <[ip := f x]> l.
Proof.
  intros Hx. apply list_eq. intros n. destruct (decide (n = ip)) as [->|Hne].
  - rewrite list_lookup_alter_eq, Hx, list_lookup_insert_eq by (by eapply lookup_lt_Some). done.
  - by rewrite list_lookup_alter_ne, list_lookup_insert_ne.
Qed.

Lemma alloc_slot (Hserve : disk_served) ip o k x j m S r :
  log_inv st sz i ∅ k → alloc_inv st sz k → inode_ok k x → k_icache k !! ip = Some x → bmap_block k ∈ S →
  budget sz S (r + 1) ∅ k → 0 ≤ r → enough 1 k → slots k x !! m = Some 0 →
  (∀ a k', a ≠ 0 → view k' a = zero_block → (∀ b, b ∈ owned k x → view k' b = view k b) →
     slots k' (set_addr j a x) = <[m := a]> (slots k x)) →
  ∃ a k', balloc_to ip j o k = Ret a o k' ∧ fchange ip k x k' (set_addr j a x) ∧ a ≠ 0 ∧
    view k' a = zero_block ∧ (∀ b, b ∈ owned k x → view k' b = view k b) ∧
    budget sz ({[a]} ∪ S) r ∅ k' ∧ (∀ n, enough n k → enough (n - 1) k').
Proof.
  intros Hli Hal Hok Hx HS Hbg Hr Hen Hm Hs. pose proof (enough_free 1 k ltac:(lia) Hen) as Hex.
  destruct (balloc_spec st sz i Hserve ∅ o k S r Hli Hal HS Hbg Hr) as (a & k1 & Hrun & Ha & Hbg1);
    [apply not_held_empty|intros; apply not_held_empty|done|].
  pose proof (ch_frame _ _ _ _ _ _ _ (at_changed _ _ _ _ _ _ _ Ha)) as Hfr.
  destruct (fs_frame_icache _ _ Hfr) as (Hic & Hsb & _). pose proof (at_free _ _ _ _ _ _ _ Ha) as Hfa.
  pose proof (proj2 Hal a Hfa) as Hba. pose proof (proj1 Hal) as Hly.
  assert (0 < a < 4294967296) as Har.
  { destruct Hfa as [Hr1 _]. destruct Hly. unfold bmap_block, FSSIZE, IPB in *. split; lia_mod. }
  assert (∀ b, b ∈ owned k x → view k1 b = view k b) as Hv.
  { intros b Hb. destruct (io_used _ _ Hok b Hb) as [Hb1 Hb2]. apply Ha; [congruence|lia]. }
  set (k2 := set_k_icache (<[ip := set_addr j a x]> (k_icache k)) k1).
  exists a, k2. split_and!.
  - unfold balloc_to, inoset. kstep_with Hrun. kstep. unfold k2. rewrite Hic, (alter_inode _ ip _ x) by done. done.
  - apply (new_fchange ip k x k2 _ m a); try done.
    + apply log_inv_icache, Ha.
    + apply Ha.
    + intros n Hn Hna Hnb. by apply Ha.
    + apply (Hs a k2); [lia|apply Ha|done].
    + apply set_addr_wf; [apply Hok|lia].
    + unfold k2. cbn. rewrite <- Hic. destruct k1; exact Hfr.
  - lia.
  - apply Ha.
  - done.
  - destruct Hbg1. by split.
  - intros n Hn. exact (balloc_enough st sz i ∅ k a k1 n Ha Hn).
Qed.

Lemma slots_zero k x bn :
  inode_wf x → (bn < Z.to_nat MAXFILE)%nat → block_addr k x bn = 0 → addrs_of k x !! bn = Some 0.
Proof.
  intros Hx Hb. unfold block_addr. destruct (lookup_lt_is_Some_2 (addrs_of k x) bn) as [a ->]; [by rewrite length_addrs_of|].
  by intros <-.
Qed.

(** What getting block [bn] of a file means: the file has it, and its contents
    are the same. *)
Record gotten (ip : nat) (bn : nat) (k : K) (x : inode) (a : Z) (k' : K) (x' : inode) : Prop := {
  gt_change : fchange ip k x k' x';
  gt_fblock j : fblock k' x' j = fblock k x j;
  gt_addr : block_addr k' x' bn = a;
  gt_nz : a ≠ 0;
  gt_size : i_size x' = i_size x;
  gt_keep : block_addr k x bn ≠ 0 → x' = x;
  gt_mono j : block_addr k x j ≠ 0 → block_addr k' x' j = block_addr k x j
}.

Lemma addr_new_mono k x k' x' bn a j :
  addrs_of k x !! bn = Some 0 → addrs_of k' x' = <[bn := a]> (addrs_of k x) →
  block_addr k x j ≠ 0 → block_addr k' x' j = block_addr k x j.
Proof.
  intros H0 Hs. unfold block_addr. rewrite Hs. destruct (decide (j = bn)) as [->|Hne]; [by rewrite H0|].
  by rewrite list_lookup_insert_ne.
Qed.

Lemma bmap_direct (Hserve : disk_served) ip o k x bn S r :
  log_inv st sz i ∅ k → alloc_inv st sz k → inode_ok k x → k_icache k !! ip = Some x → res S (r + 1) k x → 0 ≤ r →
  (bn < Z.to_nat NDIRECT)%nat → addr_at x bn = 0 →
  ∃ a k' x', balloc_to ip bn o k = Ret a o k' ∧ gotten ip bn k x a k' x' ∧ res ({[a]} ∪ S) r k' x'.
Proof.
  intros Hli Hal Hok Hx [R1 R2 R3 R4 R5] Hr Hbn Ha. pose proof (io_wf _ _ Hok) as Hwf.
  assert (0 ≤ need x) by (unfold need; by destruct (_ =? 0)).
  assert (addrs_of k x !! bn = Some 0) as Hz.
  { apply slots_zero; [done|lia_fs|]. by rewrite block_addr_direct. }
  assert (∀ a k', (∀ b, b ∈ owned k x → view k' b = view k b) → addrs_of k' (set_addr bn a x) = <[bn := a]> (addrs_of k x)) as Hs.
  { intros a k' Hv. rewrite addrs_of_direct by done. rewrite (addrs_of_ext k k'); [done|]. intros Hn. by apply Hv, ind_owned. }
  destruct (alloc_slot Hserve ip o k x bn (1 + bn)%nat S (r + need x)) as (a & k' & Hrun & Hc & Hnz & Hva & Hv & Hbg & Hen);
    try done; [by replace (r + need x + 1) with (r + 1 + need x) by lia|lia|eapply enough_mono; [|exact R5]; lia| |].
  { intros a k' _ _ Hv. unfold slots. rewrite (ind_addr_direct x bn a Hbn), Hs by done. done. }
  exists a, k', (set_addr bn a x). pose proof (ind_addr_direct x bn a Hbn) as Ei.
  destruct (fchange_sb _ _ _ _ _ Hc) as (Hsb & _). split; [done|]. split.
  - split; try done.
    + apply (fblock_new k x k' _ bn a); [done|by apply Hs|done|done|]. intros b Hb Hb0. apply Hv, elem_of_owned. auto.
    + unfold block_addr. rewrite Hs, list_lookup_insert_eq by (done || by eapply lookup_lt_Some). done.
    + by rewrite block_addr_direct.
    + intros j. apply (addr_new_mono k x k' _ bn a); [done|by apply Hs].
  - assert (need (set_addr bn a x) = need x) as En by (unfold need; by rewrite Ei). split; rewrite ?En, ?Ei; try done.
    + unfold bmap_block. rewrite Hsb. apply elem_of_union_r, R1.
    + intros Hn. apply elem_of_union_r. auto.
    + replace (r + need x) with (r + 1 + need x - 1) by lia. by apply Hen.
Qed.

Lemma bmap_ind (Hserve : disk_served) ip o k x S r :
  log_inv st sz i ∅ k → alloc_inv st sz k → inode_ok k x → k_icache k !! ip = Some x → res S r k x →
  ind_addr x = 0 →
  ∃ a k' x', balloc_to ip (Z.to_nat NDIRECT) o k = Ret a o k' ∧ ind_addr x' = a ∧ a ≠ 0 ∧ fchange ip k x k' x' ∧
    (∀ j, fblock k' x' j = fblock k x j) ∧ addrs_of k' x' = addrs_of k x ∧ i_size x' = i_size x ∧ res ({[a]} ∪ S) r k' x'.
Proof.
  intros Hli Hal Hok Hx [R1 R2 R3 R4 R5] Ha. pose proof (io_wf _ _ Hok) as Hwf. unfold need in *.
  rewrite Ha in R4, R5. cbn [Z.eqb] in R4, R5.
  destruct (alloc_slot Hserve ip o k x (Z.to_nat NDIRECT) 0 S r) as (a & k' & Hrun & Hc & Hnz & Hva & Hv & Hbg & Hen);
    try done; [eapply enough_mono; [|exact R5]; lia|unfold slots; cbn; by rewrite Ha| |].
  { intros a k' Hn Hz _. unfold slots. by rewrite ind_addr_set, (addrs_of_ind k k' x a) by done. }
  exists a, k', (set_addr (Z.to_nat NDIRECT) a x). pose proof (ind_addr_set x a Hwf) as Ei.
  pose proof (addrs_of_ind k k' x a Hwf Ha Hnz Hva) as Es. destruct (fchange_sb _ _ _ _ _ Hc) as (Hsb & _).
  split_and!; try done.
  - apply fblock_same; [done|]. intros b Hb Hb0. apply Hv, elem_of_owned. auto.
  - assert (need (set_addr (Z.to_nat NDIRECT) a x) = 0) as En by (unfold need; by rewrite Ei, (proj2 (Z.eqb_neq a 0))).
    split; rewrite ?En, ?Ei; try done.
    + unfold bmap_block. rewrite Hsb. apply elem_of_union_r, R1.
    + intros _. by apply elem_of_union_l, elem_of_singleton.
    + by rewrite Z.add_0_r.
    + replace (r + 0) with (r + 1 - 1) by lia. by apply Hen.
Qed.

(** The part of [bmap] that uses the indirect block [ind]. *)
Definition bmap_indirect (ind bn : Z) : M Z :=
  let! bp := bread ROOTDEV ind in
  let! d := bufget b_data bp in
  let addr := get32 d (Z.to_nat (4 * bn)) in
  let! addr :=
    if addr =? 0 then
      let! addr := balloc ROOTDEV in
      bufset bp (λ b, set_b_data (put32 (b_data b) (Z.to_nat (4 * bn)) addr) b) ;;;
      log_write bp ;;;
      ret addr
    else ret addr in
  brelse bp ;;;
  ret addr.

Lemma budget_hold S r b k k' :
  sz ≤ Z.of_nat NBUF → budget sz S r ∅ k → k_log k' = k_log k → budget sz S r ({[b]} ∪ ∅) k'.
Proof.
  intros Hsz [B1 B2 B3 B4] Hl. split; unfold lset in *; rewrite ?Hl; try done.
  rewrite (right_id_L ∅ (∪)), size_singleton. lia.
Qed.

Lemma budget_drop S r H k : budget sz S r H k → budget sz S r ∅ k.
Proof. intros [B1 B2 B3 B4]. split; try done. rewrite size_empty. lia. Qed.

(** The state after the entry for the new block [a] is in the indirect block. *)
Record entered (k : K) (x : inode) (j : nat) (a : Z) (k' : K) : Prop := {
  en_inv : log_inv st sz i ∅ k';
  en_free : is_free k a;
  en_frees b : is_free k' b ↔ is_free k b ∧ b ≠ a;
  en_ind : view k' (ind_addr x) = put32 (view k (ind_addr x)) (4 * j) a;
  en_zero : view k' a = zero_block;
  en_other m : m ≠ a → m ≠ bmap_block k → m ≠ ind_addr x → view k' m = view k m;
  en_frame : fs_frame k k'
}.

Lemma enter_store k x bn o S r b y k1 a k2 :
  log_inv st sz i ∅ k → alloc_inv st sz k → inode_ok k x → ind_addr x ≠ 0 → ind_addr x ∈ S →
  loaded st sz i ∅ k (ind_addr x) b y k1 → allocated st sz i ({[b]} ∪ ∅) k1 a k2 →
  budget sz ({[a]} ∪ S) r ({[b]} ∪ ∅) k2 →
  ∃ k', (let! addr := (bufset b (λ b, set_b_data (put32 (b_data b) (4 * Z.to_nat bn) a) b) ;;; log_write b ;;; ret a) in
         brelse b ;;; ret addr) o k2 = Ret a o k' ∧
    entered k x (Z.to_nat bn) a k' ∧ budget sz ({[a]} ∪ S) r ∅ k' ∧ (∀ n, enough n k → enough (n - 1) k').
Proof.
  intros Hli Hal Hok Hi HS [L1 L2 L3 L4 L5 L6 L7 L8 L9 L10] Ha Hbg2.
  destruct (io_used _ _ Hok _ (ind_owned k x Hi)) as [Hir Hif]. destruct (fs_frame_icache _ _ L10) as (_ & Hsb1 & _).
  assert (∀ c, is_free k1 c ↔ is_free k c) as Hf1 by (intros c; unfold is_free, bmap_block; by rewrite Hsb1, L7).
  assert (bmap_block k1 = bmap_block k) as Hbm1 by (unfold bmap_block; by rewrite Hsb1).
  pose proof (at_changed _ _ _ _ _ _ _ Ha) as Hc2. assert (is_free k a) as Hfa by (apply Hf1, Ha).
  destruct (fs_frame_icache _ _ (ch_frame _ _ _ _ _ _ _ Hc2)) as (_ & Hsb2 & _).
  destruct (budget_n st sz i _ _ _ _ (ch_inv _ _ _ _ _ _ _ Hc2) Hbg2) as [Hn2 Hsp2]. pose proof (bg_pos _ _ _ _ _ Hbg2) as Hr.
  destruct (txn_write st sz i ∅ k2 (ind_addr x) b y (put32 (view k (ind_addr x)) (4 * Z.to_nat bn) a)
    (λ b, set_b_data (put32 (b_data b) (4 * Z.to_nat bn) a) b) o) as (k3 & y' & Hrun3 & Hst); try done.
  - apply Hc2.
  - rewrite (ch_held _ _ _ _ _ _ _ Hc2); [done|]. by apply elem_of_union_l, elem_of_singleton.
  - apply (owned_fs_block k x _ Hal Hok). by apply ind_owned.
  - lia.
  - unfold spare in *. rewrite size_empty. lia.
  - apply Hbg2.
  - by rewrite <- L5.
  - rewrite length_put32. by eapply view_wf.
  - kstep_with (bind_prefix2 _ _ (λ _, ret a) _ _ _ _ _ Hrun3).
    destruct (txn_stored_brelse st sz i ∅ k2 _ _ b y' k3 o L2 Hst) as (k4 & Hrun4 & Hc4); [by intros c ?%elem_of_empty|].
    kstep_with Hrun4. exists k4. split; [done|].
    destruct (fs_frame_icache _ _ (ch_frame _ _ _ _ _ _ _ Hc4)) as (_ & Hsb4 & _).
    assert (∀ m, view k4 m = if m =? ind_addr x then put32 (view k (ind_addr x)) (4 * Z.to_nat bn) a else view k2 m) as Hv4.
    { intros m. by rewrite (ch_view _ _ _ _ _ _ _ Hc4). }
    assert (∀ c, is_free k4 c ↔ is_free k2 c) as Hf4.
    { intros c. unfold is_free, bmap_block. rewrite Hsb4, Hv4, (proj2 (Z.eqb_neq _ _)); [done|].
      rewrite Hsb2, Hsb1. unfold bmap_block in Hir. lia. }
    split_and!.
    + split; try done.
      * apply Hc4.
      * intros c. by rewrite Hf4, (at_frees _ _ _ _ _ _ _ Ha), Hf1.
      * by rewrite Hv4, Z.eqb_refl.
      * rewrite Hv4, (proj2 (Z.eqb_neq a _)) by congruence. apply Ha.
      * intros m Hm Hmb Hmi. rewrite Hv4, (proj2 (Z.eqb_neq m _)) by done.
        rewrite (at_other _ _ _ _ _ _ _ Ha) by (done || by rewrite Hbm1). apply L7.
      * eapply fs_frame_trans; [exact L10|]. eapply fs_frame_trans; [apply Hc2|apply Hc4].
    + eapply changed_budget; [exact Hc4| |by eapply budget_drop]. cbn. set_solver.
    + intros n Hn. eapply enough_ext; [|eapply balloc_enough; [exact Ha|eapply enough_ext; [|exact Hn]]]; [apply Hf4|apply Hf1].
Qed.

Lemma bmap_enter (Hserve : disk_served) k x bn o S r :
  sz ≤ Z.of_nat NBUF → log_inv st sz i ∅ k → alloc_inv st sz k → inode_ok k x → 0 ≤ bn < NINDIRECT →
  ind_addr x ≠ 0 → get32 (view k (ind_addr x)) (4 * Z.to_nat bn) = 0 →
  bmap_block k ∈ S → ind_addr x ∈ S → budget sz S (r + 1) ∅ k → 0 ≤ r → enough 1 k →
  ∃ a k', bmap_indirect (ind_addr x) bn o k = Ret a o k' ∧ entered k x (Z.to_nat bn) a k' ∧
    budget sz ({[a]} ∪ S) r ∅ k' ∧ (∀ n, enough n k → enough (n - 1) k').
Proof.
  intros Hsz Hli Hal Hok Hbn Hi Hz HS1 HS2 Hbg Hr Hen.
  pose proof (owned_fs_block k x _ Hal Hok (ind_owned k x Hi)) as Hfi.
  destruct (io_used _ _ Hok _ (ind_owned k x Hi)) as [Hir Hif]. destruct (budget_n st sz i _ _ _ _ Hli Hbg) as [_ Hsp].
  unfold bmap_indirect. destruct (txn_bread st sz i Hserve ∅ (ind_addr x) o k Hli (not_held_empty _ _) Hsp Hfi)
    as (b & y & k1 & Hrun & Hld). pose proof Hld as [L1 L2 L3 L4 L5 L6 L7 L8 L9 L10].
  kstep_with Hrun. unfold bufget. kstep. rewrite (buf_at_lookup _ _ _ L3), L5.
  replace (Z.to_nat (4 * bn)) with (4 * Z.to_nat bn)%nat by lia. rewrite Hz. cbn [Z.eqb]. rewrite bind_assoc.
  destruct (fs_frame_icache _ _ L10) as (_ & Hsb1 & _).
  assert (∀ c, is_free k1 c ↔ is_free k c) as Hf1 by (intros c; unfold is_free, bmap_block; by rewrite Hsb1, L7).
  assert (bmap_block k1 = bmap_block k) as Hbm1 by (unfold bmap_block; by rewrite Hsb1).
  assert (∀ n, n ≠ ind_addr x → not_held ({[b]} ∪ ∅) k1 n) as Hnh.
  { intros n Hn c z [Hc|Hc]%elem_of_union Hz'; [|by apply elem_of_empty in Hc]. apply elem_of_singleton in Hc as ->. congruence. }
  destruct (balloc_spec st sz i Hserve ({[b]} ∪ ∅) o k1 S r) as (a & k2 & Hrun2 & Ha & Hbg2).
  - done.
  - destruct Hal as [Hly Hb]. split; [by rewrite Hsb1|]. rewrite Hbm1. intros c ?%Hf1. by apply Hb.
  - by rewrite Hbm1.
  - by apply (budget_hold S (r + 1) b k).
  - done.
  - apply Hnh. rewrite Hbm1. lia.
  - intros c Hc. apply Hnh. intros ->. by apply Hif, Hf1.
  - destruct (enough_free 1 k ltac:(lia) Hen) as [c Hc]. exists c. by apply Hf1.
  - kstep_with Hrun2. destruct (enter_store k x bn o S r b y k1 a k2) as (k' & Hrun' & Hrest); try done. by exists a, k'.
Qed.

Lemma enter_gotten ip k x j a k' :
  alloc_inv st sz k → log_inv st sz i ∅ k → inode_ok k x → k_icache k !! ip = Some x →
  ind_addr x ≠ 0 → (j < Z.to_nat NINDIRECT)%nat → get32 (view k (ind_addr x)) (4 * j) = 0 →
  entered k x j a k' → gotten ip (Z.to_nat NDIRECT + j) k x a k' x.
Proof.
  intros Hal Hli Hok Hx Hi Hj Hz [E1 E2 E3 E4 E5 E6 E7]. pose proof (io_wf _ _ Hok) as Hwf.
  destruct (fs_frame_icache _ _ E7) as (Hic & Hsb & _). pose proof (proj2 Hal a E2) as Hba.
  assert (0 < a < 4294967296) as Har.
  { destruct E2 as [Hr1 _]. destruct Hal as [[] _]. unfold bmap_block, FSSIZE, IPB in *. split; lia_mod. }
  assert (addrs_of k' x = <[(Z.to_nat NDIRECT + j)%nat := a]> (addrs_of k x)) as Hs.
  { apply addrs_of_entry; try done; [lia|]. by eapply view_wf. }
  assert (addrs_of k x !! (Z.to_nat NDIRECT + j)%nat = Some 0) as H0.
  { apply slots_zero; [done|lia_fs|]. rewrite block_addr_indirect by done. by rewrite (proj2 (Z.eqb_neq _ 0)). }
  split; [|apply (fblock_new k x k' x (Z.to_nat NDIRECT + j) a); try done; [lia|]| |lia|done|done|intros m; by apply (addr_new_mono k x k' x (Z.to_nat NDIRECT + j) a)].
  - apply (new_fchange ip k x k' x (1 + (Z.to_nat NDIRECT + j)) a); try done.
    + intros n Hn Hna Hnb. apply E6; [done|done|]. intros ->. by apply Hn, ind_owned.
    + unfold slots. rewrite Hs. done.
    + rewrite Hic. by rewrite list_insert_id.
    + rewrite <- Hic. destruct k'; exact E7.
  - intros b Hb Hb0. assert (b ∈ owned k x) as Ho by (apply elem_of_owned; auto).
    destruct (io_used _ _ Hok b Ho) as [Hb1 Hb2]. apply E6; [congruence|lia|]. intros ->.
    pose proof (io_nodup _ _ Hok) as Hnd. unfold owned in Hnd. rewrite filter_cons_True in Hnd by done.
    apply NoDup_cons in Hnd as [Hnd _]. by apply Hnd, list_elem_of_filter.
  - unfold block_addr. rewrite Hs, list_lookup_insert_eq by (by eapply lookup_lt_Some). done.
Qed.

Lemma gotten_trans ip bn k x k1 x1 a k2 x2 :
  block_addr k x bn = 0 → fchange ip k x k1 x1 → (∀ j, fblock k1 x1 j = fblock k x j) → i_size x1 = i_size x → addrs_of k1 x1 = addrs_of k x →
  gotten ip bn k1 x1 a k2 x2 → gotten ip bn k x a k2 x2.
Proof.
  intros H0 Hc Hf Hs Ha [G1 G2 G3 G4 G5 G6 G7].
  assert (∀ j, block_addr k1 x1 j = block_addr k x j) as Hb by (intros j; unfold block_addr; by rewrite Ha).
  split; [by eapply fchange_trans|intros j; by rewrite G2|done|done|congruence|done|].
  intros j Hj. rewrite G7, Hb; [done|by rewrite Hb].
Qed.

Lemma bmap_get_indirect (Hserve : disk_served) ip k x bn o S r :
  sz ≤ Z.of_nat NBUF → log_inv st sz i ∅ k → alloc_inv st sz k → inode_ok k x → k_icache k !! ip = Some x →
  res S (r + 1) k x → 0 ≤ r → 0 ≤ bn < NINDIRECT → ind_addr x ≠ 0 →
  get32 (view k (ind_addr x)) (4 * Z.to_nat bn) = 0 →
  ∃ a k', bmap_indirect (ind_addr x) bn o k = Ret a o k' ∧
    gotten ip (Z.to_nat NDIRECT + Z.to_nat bn) k x a k' x ∧ res ({[a]} ∪ S) r k' x.
Proof.
  intros Hsz Hli Hal Hok Hx [R1 R2 R3 R4 R5] Hr Hbn Hi Hz.
  assert (need x = 0) as Hn by (unfold need; by rewrite (proj2 (Z.eqb_neq _ 0))). rewrite Hn, Z.add_0_r in R4, R5.
  destruct (bmap_enter Hserve k x bn o S r) as (a & k' & Hrun & He & Hbg & Hen); try done; [by apply R2|eapply enough_mono; [|exact R5]; lia|].
  exists a, k'. split; [done|]. split; [apply enter_gotten; try done; lia|].
  destruct (fs_frame_icache _ _ (en_frame _ _ _ _ _ He)) as (_ & Hsb & _).
  split; rewrite ?Hn, ?Z.add_0_r; try done.
  - unfold bmap_block. rewrite Hsb. by apply elem_of_union_r.
  - intros _. by apply elem_of_union_r, R2.
  - replace r with (r + 1 - 1) by lia. by apply Hen.
Qed.

(** A block the file has costs the block in the log. *)
Lemma bmap_have (Hserve : disk_served) ip k x bn o S r :
  log_inv st sz i ∅ k → alloc_inv st sz k → inode_ok k x → k_icache k !! ip = Some x →
  res S (r + 1) k x → 0 ≤ r → 0 ≤ bn < MAXFILE → block_addr k x (Z.to_nat bn) ≠ 0 →
  ∃ a k' x' S', bmap ip bn o k = Ret a o k' ∧ gotten ip (Z.to_nat bn) k x a k' x' ∧ S ⊆ S' ∧ a ∈ S' ∧ res S' r k' x'.
Proof.
  intros Hli Hal Hok Hx Hres Hr Hbn Hne.
  destruct Hres as [R1 R2 R3 R4 R5]. destruct (budget_n st sz i _ _ _ _ Hli R4) as [_ Hsp].
  destruct (bmap_read Hserve ip bn o k x) as (k' & Hrun & Hc); try done.
  destruct (changed_read ip k x k' Hc Hal Hok Hx) as [Hfc Hv]. set (a := block_addr k x (Z.to_nat bn)) in *.
  destruct (fchange_sb _ _ _ _ _ Hfc) as (Hsb & _).
  exists a, k', x, ({[a]} ∪ S). split; [done|]. split_and!; [|set_solver|set_solver|].
  - assert (addrs_of k' x = addrs_of k x) as Ea by (apply addrs_of_ext; intros _; apply Hv).
    split; [done|by apply fblock_ext| |done|done|done|]; unfold block_addr; by rewrite Ea.
  - assert (0 ≤ need x) by (unfold need; by destruct (_ =? 0)). split; try done.
    + unfold bmap_block. rewrite Hsb. set_solver.
    + intros Hi. apply elem_of_union_r. auto.
    + eapply changed_budget; [exact Hc|set_solver|]. apply budget_take; [|lia]. by replace (r + need x + 1) with (r + 1 + need x) by lia.
    + eapply (enough_ext _ k); [intros b; unfold is_free, bmap_block; by rewrite Hsb, Hv|]. eapply enough_mono; [|exact R5]. lia.
Qed.

(** [bmap] gives the address of block [bn] of the file, which it allocates if
    the file does not have it; the contents of the file do not change. *)
Lemma bmap_spec (Hserve : disk_served) ip k x bn o S r :
  sz ≤ Z.of_nat NBUF → log_inv st sz i ∅ k → alloc_inv st sz k → inode_ok k x → k_icache k !! ip = Some x →
  res S (r + 1) k x → 0 ≤ r → 0 ≤ bn < MAXFILE →
  ∃ a k' x' S', bmap ip bn o k = Ret a o k' ∧ gotten ip (Z.to_nat bn) k x a k' x' ∧ S ⊆ S' ∧ a ∈ S' ∧ res S' r k' x'.
Proof.
  intros Hsz Hli Hal Hok Hx Hres Hr Hbn. pose proof (io_wf _ _ Hok) as Hwf.
  destruct (Z.eq_dec (block_addr k x (Z.to_nat bn)) 0) as [H0|Hne].
  - unfold bmap, inoget. kstep. rewrite (inode_at_lookup k ip x Hx), (io_dev _ _ Hok).
    destruct (Z.ltb_spec bn NDIRECT) as [Hd|Hd].
    + kstep. rewrite (inode_at_lookup k ip x Hx). rewrite block_addr_direct in H0 by (done || lia). rewrite H0. cbn [Z.eqb].
      destruct (bmap_direct Hserve ip o k x (Z.to_nat bn) S r) as (a & k' & x' & Hrun & Hg & Hres'); try done; [lia|].
      exists a, k', x', ({[a]} ∪ S). split; [exact Hrun|]. split_and!; try done; set_solver.
    + rewrite (proj2 (Z.ltb_lt _ _)) by lia_fs. kstep. rewrite (inode_at_lookup k ip x Hx).
      change (default 0 (i_addrs x !! Z.to_nat NDIRECT)) with (ind_addr x). fold (ind_addr x).
      assert (Z.to_nat bn = (Z.to_nat NDIRECT + Z.to_nat (bn - NDIRECT))%nat) as Ebn by lia_fs. rewrite Ebn in *.
      assert ((Z.to_nat (bn - NDIRECT) < Z.to_nat NINDIRECT)%nat ∧ 0 ≤ bn - NDIRECT < NINDIRECT) as [Hj Hj'] by lia_fs.
      destruct (Z.eqb_spec (ind_addr x) 0) as [Hi|Hi].
      * destruct (bmap_ind Hserve ip o k x S (r + 1)) as (d & k1 & x1 & Hrun & Hd1 & Hnz & Hc & Hf & Hs & Hsz1 & Hres1); try done.
        kstep_with Hrun. fold (bmap_indirect d (bn - NDIRECT)). destruct Hc as [C1 C2 C3 C4 C5 C6 C7 C8 C9 C10] eqn:HE. clear HE.
        assert (k_icache k1 !! ip = Some x1) as Hx1 by (rewrite C4; apply list_lookup_insert_eq; by eapply lookup_lt_Some).
        assert (get32 (view k1 (ind_addr x1)) (4 * Z.to_nat (bn - NDIRECT)) = 0) as Hz.
        { unfold block_addr in H0. rewrite <- Hs in H0. fold (block_addr k1 x1 (Z.to_nat NDIRECT + Z.to_nat (bn - NDIRECT))) in H0.
          rewrite block_addr_indirect in H0 by (done || apply C3). rewrite Hd1, (proj2 (Z.eqb_neq d 0)) in H0 by done. by rewrite Hd1. }
        destruct (bmap_get_indirect Hserve ip k1 x1 (bn - NDIRECT) o ({[d]} ∪ S) r) as (a & k2 & Hrun2 & Hg & Hres2); try done; [congruence|].
        rewrite Hd1 in Hrun2. exists a, k2, x1, ({[a]} ∪ ({[d]} ∪ S)). split; [exact Hrun2|].
        split_and!; [by eapply gotten_trans|set_solver|set_solver|done].
      * kstep. fold (bmap_indirect (ind_addr x) (bn - NDIRECT)).
        rewrite block_addr_indirect, (proj2 (Z.eqb_neq _ 0)) in H0 by done.
        destruct (bmap_get_indirect Hserve ip k x (bn - NDIRECT) o S r) as (a & k2 & Hrun2 & Hg & Hres2); try done.
        exists a, k2, x, ({[a]} ∪ S). split; [exact Hrun2|]. split_and!; [done|set_solver|set_solver|done].
  - by apply bmap_have.
Qed.
End files.
