(* ===== verification/FsFiles.v ===== *)
(** * Reading and writing files

    [readi] returns a part of the contents of a file and changes nothing;
    [writei] overwrites or extends the contents and leaves every other file
    alone; [iupdate] and [ilock] carry the inode to the disk and back. *)

From stdpp Require Import base numbers list gmap strings.
From S2P Require Import Prelude Mmu Hardware Memory Bytes Kernel Spinlock Kalloc Cprintf Vm Proc Sleeplock Blockdev Memide Bio Log Txn Fs FsBlocks FsData.

Implicit Types (k : K) (o : oracle).

(** ** Sequences of blocks *)

Lemma concat_blocks_lookup (f : nat → list Z) s n j :
  (∀ b, length (f b) = 512%nat) →
  concat (f <$> seq s n) !! j =
  if (j <? n * 512)%nat then f (s + j / 512)%nat !! (j mod 512)%nat else None.
Proof.
  intros Hf. revert s j. induction n as [|n IH]; intros s j.
  - cbn. by destruct (Nat.ltb_spec j 0); [lia|].
  - cbn [seq fmap list_fmap concat]. destruct (decide (j < 512)%nat) as [Hj|Hj].
    + rewrite lookup_app_l by (by rewrite Hf). rewrite Nat.div_small, Nat.mod_small by done.
      rewrite (proj2 (Nat.ltb_lt _ _)) by lia. by rewrite Nat.add_0_r.
    + rewrite lookup_app_r, Hf, IH by (rewrite Hf; lia).
      assert (j / 512 = S ((j - 512) / 512))%nat as Hd.
      { replace j with ((j - 512) + 1 * 512)%nat at 1 by lia. rewrite Nat.div_add by lia. lia. }
      assert (j mod 512 = (j - 512) mod 512)%nat as Hm.
      { replace j with ((j - 512) + 1 * 512)%nat at 1 by lia. by rewrite Nat.Div0.mod_add. }
      rewrite Hd, Hm. replace (s + S ((j - 512) / 512))%nat with (S s + (j - 512) / 512)%nat by lia.
      by destruct (Nat.ltb_spec (j - 512) (n * 512)), (Nat.ltb_spec j (S n * 512)); try lia.
Qed.

Lemma length_blocks (f : nat → list Z) s n :
  (∀ b, length (f b) = 512%nat) → length (concat (f <$> seq s n)) = (n * 512)%nat.
Proof.
  intros Hf. revert s. induction n as [|n IH]; intros s; [done|]. cbn [seq fmap list_fmap concat].
  rewrite length_app, Hf, IH. lia.
Qed.

Lemma inserts_lookup_ne (l s : list Z) c j :
  (j < c ∨ c + length s ≤ j)%nat → list_inserts c s l !! j = l !! j.
Proof. intros [Hj|Hj]; [by apply list_lookup_inserts_lt|by apply list_lookup_inserts_ge]. Qed.

(** A chunk of one block. *)
Lemma chunk_blocks (f : nat → list Z) n bn c m :
  (∀ b, length (f b) = 512%nat) → (bn < n)%nat → (c + m ≤ 512)%nat →
  take m (drop c (f bn)) = take m (drop (bn * 512 + c) (concat (f <$> seq 0 n))).
Proof.
  intros Hf Hbn Hc. apply list_eq. intros j. destruct (decide (j < m)%nat) as [Hj|Hj].
  - rewrite !lookup_take_lt, !lookup_drop, concat_blocks_lookup by done.
    rewrite (proj2 (Nat.ltb_lt _ _)) by nia.
    replace (bn * 512 + c + j)%nat with (c + j + bn * 512)%nat by lia.
    rewrite Nat.div_add, Nat.Div0.mod_add, Nat.div_small, Nat.mod_small by lia. done.
  - by rewrite !lookup_take_ge by lia.
Qed.

(** Overwriting a chunk of one block. *)
Lemma write_blocks (f g : nat → list Z) n bn c s :
  (∀ b, length (f b) = 512%nat) → (∀ b, length (g b) = 512%nat) → (bn < n)%nat → (c + length s ≤ 512)%nat →
  (∀ b, g b = if decide (b = bn) then list_inserts c s (f bn) else f b) →
  concat (g <$> seq 0 n) = list_inserts (bn * 512 + c) s (concat (f <$> seq 0 n)).
Proof.
  intros Hf Hg Hbn Hc Hgf. apply list_eq. intros j.
  pose proof (length_blocks f 0 n Hf) as Hlen.
  rewrite concat_blocks_lookup by done. destruct (Nat.ltb_spec j (n * 512)) as [Hj|Hj].
  2:{ symmetry. apply lookup_ge_None_2. rewrite length_inserts. lia. }
  rewrite Nat.add_0_l, Hgf. pose proof (Nat.div_mod_eq j 512) as Hdm. pose proof (Nat.mod_upper_bound j 512 ltac:(lia)) as Hmb.
  destruct (decide (bn * 512 + c ≤ j < bn * 512 + c + length s)%nat) as [Hin|Hout].
  - rewrite decide_True by nia. rewrite !list_lookup_inserts by (rewrite ?Hf; nia). f_equal. nia.
  - rewrite (inserts_lookup_ne _ _ (bn * 512 + c)) by lia. rewrite concat_blocks_lookup, (proj2 (Nat.ltb_lt _ _)), Nat.add_0_l by done.
    destruct (decide (j / 512 = bn)%nat) as [E|E]; [|done]. rewrite E. apply inserts_lookup_ne. nia.
Qed.

(** ** Memory as a destination *)

(** Copying to [dst] changes memory only. *)
Definition sink_ok (dst : sink) : Prop := ∀ tot bs o k, ∃ m, dst tot bs o k = Ret tt o (set_k_mem m k).

Lemma kernel_sink_ok : sink_ok kernel_sink.
Proof. intros tot bs o k. exists (k_mem k). by destruct k. Qed.

Lemma log_inv_mem st sz i H m k : log_inv st sz i H k → log_inv st sz i H (set_k_mem m k).
Proof. intros [[] W L D]. split; [by split|done|done|done]. Qed.

Lemma fs_frame_mem m k k' : fs_frame k k' → fs_frame (set_k_mem m k) (set_k_mem m k').
Proof. intros [R P L]. split; [|done|done]. rewrite R at 1. by destruct k. Qed.

Lemma changed_mem st sz i H k ws k' m :
  changed st sz i H k ws k' → changed st sz i H (set_k_mem m k) ws (set_k_mem m k').
Proof. intros [C1 C2 C3 C4 C5]. split; try done; [by apply log_inv_mem|by apply fs_frame_mem]. Qed.

Lemma loaded_mem st sz i H k n b x k' m :
  loaded st sz i H k n b x k' → loaded st sz i H (set_k_mem m k) n b x (set_k_mem m k').
Proof. intros [L1 L2 L3 L4 L5 L6 L7 L8 L9 L10]. split; try done; [by apply log_inv_mem|by apply fs_frame_mem]. Qed.

(** Every block below the size of a file is there. *)
Definition no_holes (k : K) (x : inode) : Prop :=
  ∀ bn, 0 ≤ bn → bn * BSIZE < i_size x → block_addr k x (Z.to_nat bn) ≠ 0.

Lemma fblock_length st sz i H k x bn : log_inv st sz i H k → length (fblock k x bn) = 512%nat.
Proof. intros Hli. unfold fblock. destruct (_ =? 0); [apply length_replicate|]. by eapply view_wf. Qed.

Section files.
Context {DEV : BlockDev} {DEVOK : BlockDevOk DEV} {DSW : Devsw} (st sz : Z) (i : nat).

(** From [k] to [k'] blocks were only read, and memory written. *)
Definition read_only (k k' : K) : Prop := changed st sz i ∅ (set_k_mem (k_mem k') k) [] k'.

Lemma read_only_refl k : log_inv st sz i ∅ k → read_only k k.
Proof. intros Hli. unfold read_only. replace (set_k_mem (k_mem k) k) with k by (by destruct k). by apply changed_refl. Qed.

Lemma read_only_trans k k1 k2 : read_only k k1 → read_only k1 k2 → read_only k k2.
Proof.
  unfold read_only. intros H1 H2. apply (changed_mem _ _ _ _ _ _ _ (k_mem k2)) in H1.
  exact (changed_trans _ _ _ _ _ _ _ _ _ H1 H2).
Qed.

Lemma changed_read_only k k' : changed st sz i ∅ k [] k' → read_only k k'.
Proof.
  intros Hc. unfold read_only. assert (k_mem k' = k_mem k) as -> by (rewrite (ff_rest _ _ (ch_frame _ _ _ _ _ _ _ Hc)); done).
  by replace (set_k_mem (k_mem k) k) with k by (by destruct k).
Qed.

Lemma read_only_view k k' : read_only k k' →
  log_inv st sz i ∅ k' ∧ (∀ m, view k' m = view k m) ∧ k_icache k' = k_icache k ∧ k_sb k' = k_sb k ∧ (∀ m, m ∈ logged (k_log k') ↔ m ∈ logged (k_log k)).
Proof.
  intros Hc. destruct (fs_frame_icache _ _ (ch_frame _ _ _ _ _ _ _ Hc)) as (Hi & Hs & _). split_and!; try done.
  - apply Hc.
  - intros m. by rewrite (ch_view _ _ _ _ _ _ _ Hc).
  - intros m. rewrite (ch_logged _ _ _ _ _ _ _ Hc). cbn. rewrite elem_of_nil. tauto.
Qed.

(** What readers rely on. *)
Record readable (ip : nat) (k : K) (x : inode) : Prop := {
  rd_inv : log_inv st sz i ∅ k;
  rd_alloc : alloc_inv st sz k;
  rd_ok : inode_ok k x;
  rd_ino : k_icache k !! ip = Some x;
  rd_spare : spare ∅ k
}.

Lemma readable_read_only ip k x k' : readable ip k x → read_only k k' → readable ip k' x ∧ fbytes k' x = fbytes k x ∧
  (∀ bn, block_addr k' x bn = block_addr k x bn).
Proof.
  intros [R1 R2 R3 R4 R5] Hr. destruct (read_only_view k k' Hr) as (Hli & Hv & Hic & Hsb & Hlg).
  assert (∀ b, is_free k' b ↔ is_free k b) as Hf by (intros b; unfold is_free, bmap_block; by rewrite Hsb, Hv).
  assert (addrs_of k' x = addrs_of k x) as Ea by (apply addrs_of_ext; intros _; apply Hv).
  split_and!.
  - split; try done.
    + destruct R2 as [Hl Hb]. split; [by rewrite Hsb|]. unfold bmap_block. rewrite Hsb. intros b ?%Hf. by apply Hb.
    + apply (inode_ok_ext k); try done. intros b. apply Hf.
    + by rewrite Hic.
    + unfold spare in *. rewrite <- (lset_size st sz i ∅ k') by done. rewrite <- (lset_size st sz i ∅ k) in R5 by done.
      assert (lset k' = lset k) as ->; [|done]. apply set_eq. intros m. unfold lset. by rewrite !elem_of_list_to_set.
  - unfold fbytes. f_equal. apply list_fmap_ext. intros _ bn _. by apply fblock_ext.
  - intros bn. unfold block_addr. by rewrite Ea.
Qed.

(** ** [readi] *)

Lemma chunk_pos off n tot : 0 ≤ off → tot < n → 0 < chunk off n tot ≤ n - tot ∧ off mod BSIZE + chunk off n tot ≤ BSIZE.
Proof. intros Ho Ht. unfold chunk, BSIZE in *. split; lia_mod. Qed.

Lemma chunk_fbytes k x off m :
  log_inv st sz i ∅ k → 0 ≤ off → off / BSIZE < MAXFILE → 0 ≤ m → off mod BSIZE + m ≤ BSIZE →
  block_addr k x (Z.to_nat (off / BSIZE)) ≠ 0 →
  take (Z.to_nat m) (drop (Z.to_nat (off mod BSIZE)) (view k (block_addr k x (Z.to_nat (off / BSIZE))))) =
  take (Z.to_nat m) (drop (Z.to_nat off) (fbytes k x)).
Proof.
  intros Hli Ho Hb Hm Hc Ha. unfold fbytes.
  replace (Z.to_nat off) with (Z.to_nat (off / BSIZE) * 512 + Z.to_nat (off mod BSIZE))%nat by (unfold BSIZE in *; lia_mod).
  rewrite <- chunk_blocks.
  - unfold fblock. by rewrite (proj2 (Z.eqb_neq _ 0)).
  - intros b. by eapply fblock_length.
  - unfold BSIZE in *. lia_fs.
  - unfold BSIZE in *. lia_mod.
Qed.

Lemma readi_loop_spec (Hserve : disk_served) ip dst x fuel off n tot o k :
  sink_ok dst → readable ip k x → 0 ≤ off → 0 ≤ tot ≤ n → off + (n - tot) ≤ i_size x → i_size x ≤ MAXFILE * BSIZE →
  no_holes k x → (Z.to_nat (n - tot) ≤ fuel)%nat →
  ∃ k', readi_loop fuel ip dst off n tot o k =
        Ret (take (Z.to_nat (n - tot)) (drop (Z.to_nat off) (fbytes k x))) o k' ∧ read_only k k'.
Proof.
  intros Hdst. revert off tot k. induction fuel as [|fuel IH]; intros off tot k Hk Ho Ht Hs Hmax Hnh Hf; cbn [readi_loop].
  - assert (tot = n) as -> by lia. rewrite Z.ltb_irrefl, Z.sub_diag. exists k. split; [done|]. apply read_only_refl, Hk.
  - destruct (Z.ltb_spec tot n) as [Hlt|Hge].
    2:{ assert (tot = n) as -> by lia. rewrite Z.sub_diag. exists k. split; [done|]. apply read_only_refl, Hk. }
    destruct (chunk_pos off n tot Ho Hlt) as [Hm Hc]. set (m := chunk off n tot) in *.
    assert (off / BSIZE < MAXFILE ∧ 0 ≤ off / BSIZE ∧ off / BSIZE * BSIZE < i_size x) as (Hb & Hb0 & Hbs).
    { change BSIZE with 512 in *. change MAXFILE with 140 in *. lia_mod. }
    pose proof (Hnh (off / BSIZE) Hb0 Hbs) as Ha. pose proof Hk as [R1 R2 R3 R4 R5].
    destruct (bmap_read st sz i Hserve ip (off / BSIZE) o k x) as (k1 & Hrun1 & Hc1); try done.
    kstep_with Hrun1. unfold inoget. kstep. pose proof (changed_read_only _ _ Hc1) as Hr1.
    destruct (readable_read_only ip k x k1 Hk Hr1) as (Hk1 & Hfb1 & Hba1). pose proof Hk1 as [Q1 Q2 Q3 Q4 Q5].
    rewrite (inode_at_lookup k1 ip x Q4), (io_dev _ _ Q3).
    set (a := block_addr k x (Z.to_nat (off / BSIZE))) in *.
    destruct (txn_bread st sz i Hserve ∅ a o k1 Q1 (not_held_empty _ _) Q5) as (b & y & k2 & Hrun2 & Hld).
    { apply (owned_fs_block st sz k x); [done|done|by apply block_addr_owned]. }
    kstep_with Hrun2. unfold bufget. kstep. rewrite (buf_at_lookup _ _ _ (ld_buf _ _ _ _ _ _ _ _ _ Hld)), (ld_data _ _ _ _ _ _ _ _ _ Hld).
    assert (view k1 a = view k a) as -> by (destruct (read_only_view k k1 Hr1) as (_ & Hv & _); apply Hv).
    unfold a. rewrite chunk_fbytes by (done || lia). set (bytes := take (Z.to_nat m) _).
    destruct (Hdst tot bytes o k2) as (mem & Hd). kstep_with Hd. apply (loaded_mem _ _ _ _ _ _ _ _ _ mem) in Hld.
    destruct (txn_release st sz i ∅ _ _ b y _ o Hld) as (k3 & Hrun3 & Hc3). kstep_with Hrun3.
    assert (k_mem k3 = mem) as Hm3 by (rewrite (ff_rest _ _ (ch_frame _ _ _ _ _ _ _ Hc3)); done).
    assert (read_only k1 k3) as Hr3 by (unfold read_only; by rewrite Hm3).
    pose proof (read_only_trans _ _ _ Hr1 Hr3) as Hr. destruct (readable_read_only ip k x k3 Hk Hr) as (Hk3 & Hfb3 & Hba3).
    destruct (IH (off + m) (tot + m) k3) as (k4 & Hrun4 & Hr4); [done|lia|lia|lia|done| |lia|].
    { intros bn Hbn Hs'. rewrite Hba3. by apply Hnh. }
    kstep_with Hrun4. exists k4. split; [|by eapply read_only_trans]. unfold ret. f_equal. unfold bytes. rewrite Hfb3.
    replace (Z.to_nat (n - tot)) with (Z.to_nat m + Z.to_nat (n - (tot + m)))%nat by lia.
    rewrite <- take_take_drop, drop_drop. do 3 f_equal. lia.
Qed.

Lemma contents_part k x off m :
  0 ≤ off → 0 ≤ m → off + m ≤ i_size x →
  take (Z.to_nat m) (drop (Z.to_nat off) (contents k x)) = take (Z.to_nat m) (drop (Z.to_nat off) (fbytes k x)).
Proof.
  intros Ho Hm Hs. unfold contents. rewrite !take_drop_commute, take_take. do 2 f_equal. lia.
Qed.

Lemma readi_spec (Hserve : disk_served) ip dst x off n o k :
  sink_ok dst → readable ip k x → no_holes k x → i_size x ≤ MAXFILE * BSIZE → i_type x ≠ T_DEV →
  0 ≤ off < 4294967296 → 0 ≤ n < 4294967296 →
  ∃ k', read_only k k' ∧
    readi ip dst off n o k =
      if (i_size x <? off) || (4294967296 <=? off + n) then Ret (-1, []) o k'
      else Ret (Z.min n (i_size x - off),
                take (Z.to_nat (Z.min n (i_size x - off))) (drop (Z.to_nat off) (contents k x))) o k'.
Proof.
  intros Hdst Hk Hnh Hmax Hty Ho Hn. unfold readi, inoget. kstep. unfold id.
  rewrite (inode_at_lookup k ip x (rd_ino _ _ _ Hk)), (proj2 (Z.eqb_neq _ _)) by done.
  assert ((u32 (off + n) <? off) = (4294967296 <=? off + n)) as ->.
  { unfold u32. destruct (Z.ltb_spec ((off + n) mod 4294967296) off), (Z.leb_spec 4294967296 (off + n)); try done; lia_mod. }
  destruct (Z.ltb_spec (i_size x) off) as [Hs|Hs]; [exists k; split; [apply read_only_refl, Hk|done]|].
  destruct (Z.leb_spec 4294967296 (off + n)) as [Hov|Hov]; [exists k; split; [apply read_only_refl, Hk|done]|].
  cbn [orb]. set (m := Z.min n (i_size x - off)).
  assert ((if i_size x <? off + n then i_size x - off else n) = m) as ->.
  { unfold m. destruct (Z.ltb_spec (i_size x) (off + n)); lia. }
  destruct (readi_loop_spec Hserve ip dst x (Z.to_nat m) off m 0 o k) as (k' & Hrun & Hr); try done; try lia.
  kstep_with Hrun. exists k'. split; [done|]. unfold ret. rewrite Z.sub_0_r.
  rewrite s32_small by (unfold m; change (MAXFILE * BSIZE) with 71680 in *; lia). by rewrite contents_part by lia.
Qed.

(** ** [iupdate] *)

Lemma iblock_range k x : alloc_inv st sz k → inode_ok k x →
  IBLOCK (i_inum x) (k_sb k) = i_inum x / IPB + sb_inodestart (k_sb k) ∧
  fs_block st sz (IBLOCK (i_inum x) (k_sb k)) ∧ IBLOCK (i_inum x) (k_sb k) < bmap_block k.
Proof.
  intros [Hly Hf] Hok. pose proof (io_inum _ _ Hok) as Hi. pose proof Hly as [L1 L2 L3 L4 L5 L6 L7].
  assert (IBLOCK (i_inum x) (k_sb k) = i_inum x / IPB + sb_inodestart (k_sb k)) as E.
  { unfold IBLOCK. apply u32_small. unfold FSSIZE, IPB in *. lia_mod. }
  rewrite E. split; [done|]. unfold bmap_block. split; [|unfold IPB in *; lia_mod].
  apply (layout_block st sz (k_sb k)); [done|]. unfold IPB in *. lia_mod.
Qed.

Lemma iupdate_spec (Hserve : disk_served) ip x o k S r :
  log_inv st sz i ∅ k → alloc_inv st sz k → inode_ok k x → k_icache k !! ip = Some x → budget sz S r ∅ k →
  ∃ k', iupdate ip o k = Ret tt o k' ∧
    changed st sz i ∅ k [(IBLOCK (i_inum x) (k_sb k), put_dinode (view k (IBLOCK (i_inum x) (k_sb k))) (i_inum x) x)] k'.
Proof.
  intros Hli Hal Hok Hx Hbg. destruct (budget_n st sz i _ _ _ _ Hli Hbg) as [_ Hsp].
  destruct (iblock_range k x Hal Hok) as (_ & Hfb & _). unfold iupdate, inoget. kstep. unfold id.
  rewrite (inode_at_lookup k ip x Hx), (io_dev _ _ Hok).
  destruct (txn_bread st sz i Hserve ∅ _ o k Hli (not_held_empty _ _) Hsp Hfb) as (b & y & k1 & Hrun & Hld).
  kstep_with Hrun. kstep. destruct (fs_frame_icache _ _ (ld_frame _ _ _ _ _ _ _ _ _ Hld)) as (Hic & _).
  rewrite (inode_at_lookup k1 ip x) by (by rewrite Hic).
  destruct (txn_store st sz i ∅ k _ b y k1 (λ d, put_dinode d (i_inum x) x)
    (λ b, set_b_data (put_dinode (b_data b) (i_inum x) x) b) o S r Hld Hbg Hli Hfb) as (k2 & Hrun2 & Hc);
    [done|rewrite length_put_dinode; by eapply view_wf|]. exists k2. split; [exact Hrun2|exact Hc].
Qed.

(** ** [writei] *)

Lemma NoDup_filter_lookup (l : list Z) n m a :
  NoDup (filter (.≠ 0) l) → l !! n = Some a → l !! m = Some a → a ≠ 0 → n = m.
Proof.
  revert n m. induction l as [|b l IH]; intros n m Hnd Hn Hm Ha; [done|].
  assert (∀ j, l !! j = Some a → a ∈ filter (.≠ 0) l) as Hin.
  { intros j Hj. apply list_elem_of_filter. split; [done|]. by eapply list_elem_of_lookup_2. }
  destruct (decide (b = 0)) as [->|Hb].
  - rewrite filter_cons_False in Hnd by tauto. destruct n, m; cbn in *; simplify_eq. f_equal. by apply IH.
  - rewrite filter_cons_True in Hnd by done. apply NoDup_cons in Hnd as [Hnb Hnd].
    destruct n, m; cbn in *; simplify_eq; [done|destruct Hnb; by eapply Hin|destruct Hnb; by eapply Hin|f_equal; by apply IH].
Qed.

Lemma block_addr_nodup k x n m :
  NoDup (owned k x) → block_addr k x n = block_addr k x m → block_addr k x n ≠ 0 → n = m ∧ block_addr k x n ≠ ind_addr x.
Proof.
  intros Hnd. unfold owned in Hnd. unfold block_addr.
  destruct (addrs_of k x !! n) as [a|] eqn:En; cbn [default from_option id]; [|done].
  destruct (addrs_of k x !! m) as [b|] eqn:Em; cbn [default from_option id]; intros -> Ha; [|done]. split.
  - assert (S n = S m) as E; [|by injection E]. by apply (NoDup_filter_lookup _ (S n) (S m) b Hnd).
  - intros E. assert (S n = 0)%nat; [|done]. apply (NoDup_filter_lookup _ (S n) 0 b Hnd); [done| |done]. cbn. by rewrite E.
Qed.

Lemma block_addr_inj k x n m :
  inode_ok k x → block_addr k x n = block_addr k x m → block_addr k x n ≠ 0 → n = m ∧ block_addr k x n ≠ ind_addr x.
Proof. intros Hok. apply block_addr_nodup, Hok. Qed.

(** Writing a data block of the file. *)
Lemma data_fchange ip k x bn d k' :
  alloc_inv st sz k → inode_ok k x → k_icache k !! ip = Some x → block_addr k x bn ≠ 0 →
  changed st sz i ∅ k [(block_addr k x bn, d)] k' →
  fchange st sz i ip k x k' x ∧ (∀ j, block_addr k' x j = block_addr k x j) ∧
  (∀ j, fblock k' x j = if decide (j = bn) then d else fblock k x j).
Proof.
  intros Hal Hok Hx Ha Hc. destruct (fs_frame_icache _ _ (ch_frame _ _ _ _ _ _ _ Hc)) as (Hic & Hsb & _).
  set (a := block_addr k x bn) in *. pose proof (block_addr_owned k x bn Ha) as Hao.
  destruct (io_used _ _ Hok a Hao) as [Har Haf]. destruct (block_addr_inj k x bn bn Hok eq_refl Ha) as [_ Hai].
  assert (∀ m, m ≠ a → view k' m = view k m) as Hv.
  { intros m Hm. rewrite (ch_view _ _ _ _ _ _ _ Hc). unfold overlay. cbn. by rewrite (proj2 (Z.eqb_neq m a)). }
  assert (view k' a = d) as Hva by (rewrite (ch_view _ _ _ _ _ _ _ Hc); unfold overlay; cbn; by rewrite Z.eqb_refl).
  assert (addrs_of k' x = addrs_of k x) as Ea by (apply addrs_of_ext; intros _; by apply Hv).
  assert (owned k' x = owned k x) as Eo by (unfold owned; by rewrite Ea).
  assert (∀ b, is_free k' b ↔ is_free k b) as Hf.
  { intros b. unfold is_free, bmap_block. rewrite Hsb, Hv; [done|]. unfold bmap_block in Har. lia. }
  split_and!.
  - split; rewrite ?Eo; try done.
    + apply Hc.
    + destruct Hal as [Hl Hb]. split; [by rewrite Hsb|]. unfold bmap_block. rewrite Hsb. intros b ?%Hf. by apply Hb.
    + destruct Hok as [I1 I2 I3 I4 I5]. split; rewrite ?Eo, ?Hsb; try done. intros b Hb. unfold bmap_block. rewrite Hsb, Hf. by apply I5.
    + rewrite Hic. by rewrite list_insert_id.
    + by left.
    + intros b. rewrite Hf. split; [|tauto]. intros Hb. split; [done|]. intros Ho. by apply (io_used _ _ Hok) in Ho as [_ ?].
    + intros m _ _ Hm. apply Hv. by intros ->.
    + rewrite <- Hic. pose proof (ch_frame _ _ _ _ _ _ _ Hc) as Hfr. destruct k'; exact Hfr.
  - intros j. unfold block_addr. by rewrite Ea.
  - intros j. unfold fblock, block_addr. rewrite Ea. fold (block_addr k x j). destruct (decide (j = bn)) as [->|Hne].
    + fold a. by rewrite (proj2 (Z.eqb_neq a 0)).
    + destruct (Z.eqb_spec (block_addr k x j) 0) as [|Hj]; [done|]. apply Hv. intros E.
      by destruct (block_addr_inj k x j bn Hok E Hj).
Qed.

(** The blocks that [n] bytes from [off] touch. *)
Definition nblk (off n : Z) : Z := if 0 <? n then (off + n - 1) / BSIZE - off / BSIZE + 1 else 0.

Lemma nblk_step off n tot :
  0 ≤ off → tot < n →
  nblk off (n - tot) = nblk (off + chunk off n tot) (n - (tot + chunk off n tot)) + 1.
Proof.
  intros Ho Ht. unfold nblk, chunk, BSIZE. rewrite (proj2 (Z.ltb_lt 0 (n - tot))) by lia.
  destruct (Z.ltb_spec 0 (n - (tot + Z.min (n - tot) (512 - off mod 512)))); lia_mod.
Qed.

Lemma nblk_pos off n : 0 ≤ off → 0 ≤ nblk off n.
Proof. intros Ho. unfold nblk, BSIZE. destruct (Z.ltb_spec 0 n); lia_mod. Qed.

(** [src] yields the bytes of [l], in every state the file system may reach. *)
Definition source_ok (src : source) (l : list Z) (k : K) : Prop :=
  ∀ tot m o k', fs_frame k (set_k_icache (k_icache k) k') → 0 ≤ tot → 0 ≤ m →
    src tot m o k' = Ret (take (Z.to_nat m) (drop (Z.to_nat tot) l)) o k'.

Lemma kernel_source_ok l k : source_ok (kernel_source l) l k.
Proof. intros tot m o k' _ _ _. done. Qed.

(** Block [bn] holds some of the [n] bytes from [off]. *)
Definition touches (off n bn : Z) : Prop := 0 < n ∧ 0 ≤ bn ∧ off < (bn + 1) * BSIZE ∧ bn * BSIZE < off + n.

Record written (ip : nat) (off : Z) (s : list Z) (k : K) (x : inode) (k' : K) (x' : inode) : Prop := {
  wr_change : fchange st sz i ip k x k' x';
  wr_bytes : fbytes k' x' = list_inserts (Z.to_nat off) s (fbytes k x);
  wr_size : i_size x' = i_size x;
  wr_mono j : block_addr k x j ≠ 0 → block_addr k' x' j ≠ 0;
  wr_have bn : touches off (Z.of_nat (length s)) bn → block_addr k' x' (Z.to_nat bn) ≠ 0;
  wr_keep : (∀ bn, touches off (Z.of_nat (length s)) bn → block_addr k x (Z.to_nat bn) ≠ 0) → x' = x
}.

Lemma written_nil ip off k x :
  log_inv st sz i ∅ k → alloc_inv st sz k → inode_ok k x → k_icache k !! ip = Some x → written ip off [] k x k x.
Proof. intros Hli Hal Hok Hx. split; try done; [by apply fchange_refl|]. intros bn [? _]. cbn in *. lia. Qed.

Lemma written_app ip off s s' k x k1 x1 k2 x2 :
  0 ≤ off → written ip off s k x k1 x1 → written ip (off + Z.of_nat (length s)) s' k1 x1 k2 x2 →
  written ip off (s ++ s') k x k2 x2.
Proof.
  intros Ho [A1 A2 A3 A4 A5 A6] [B1 B2 B3 B4 B5 B6].
  assert (∀ bn, touches off (Z.of_nat (length (s ++ s'))) bn ↔
    touches off (Z.of_nat (length s)) bn ∨ touches (off + Z.of_nat (length s)) (Z.of_nat (length s')) bn) as Ht.
  { intros bn. rewrite length_app. unfold touches, BSIZE. lia. }
  split.
  - by eapply fchange_trans.
  - rewrite B2, A2, list_inserts_app_l. f_equal. lia.
  - congruence.
  - auto.
  - intros bn [Hb|Hb]%Ht; auto.
  - intros Hall. assert (x1 = x) as -> by (apply A6; intros bn Hb; apply Hall, Ht; by left).
    apply B6. intros bn Hb. apply A4, Hall, Ht. by right.
Qed.

(** One turn of the loop: block [off / BSIZE] got, and part of it written. *)
Lemma written_chunk ip off s k x a k1 x1 k' :
  0 ≤ off → off / BSIZE < MAXFILE → off mod BSIZE + Z.of_nat (length s) ≤ BSIZE → s ≠ [] → log_inv st sz i ∅ k →
  gotten st sz i ip (Z.to_nat (off / BSIZE)) k x a k1 x1 → k_icache k1 !! ip = Some x1 →
  changed st sz i ∅ k1 [(a, list_inserts (Z.to_nat (off mod BSIZE)) s (view k1 a))] k' →
  written ip off s k x k' x1.
Proof.
  intros Ho Hbn Hc Hs Hli [G1 G2 G3 G4 G5 G6 G7] Hx1 Hch. set (bn := Z.to_nat (off / BSIZE)) in *.
  assert (length s ≠ 0%nat) as Hs0 by (by destruct s). rewrite <- G3 in *.
  destruct (data_fchange ip k1 x1 bn _ k' (fc_alloc _ _ _ _ _ _ _ _ G1) (fc_ok _ _ _ _ _ _ _ _ G1) Hx1 G4 Hch) as (Hf & Hb & Hfb).
  assert (∀ b, touches off (Z.of_nat (length s)) b ↔ b = off / BSIZE) as Ht.
  { intros b. unfold touches. change BSIZE with 512 in *. clearbody bn. clear -Ho Hc Hs0. split; intros; lia_mod. }
  split.
  - by eapply fchange_trans.
  - unfold fbytes. replace (Z.to_nat off) with (bn * 512 + Z.to_nat (off mod BSIZE))%nat
      by (unfold bn; change BSIZE with 512; clear -Ho; lia_mod).
    apply write_blocks.
    + intros b. by eapply fblock_length.
    + intros b. eapply fblock_length. apply Hf.
    + unfold bn. change BSIZE with 512 in *. clear -Hbn Ho. lia_fs.
    + change BSIZE with 512 in *. clear -Hc Ho. lia_mod.
    + intros b. rewrite Hfb. destruct (decide (b = bn)); [|apply G2].
      rewrite <- G2. unfold fblock at 1. by rewrite (proj2 (Z.eqb_neq _ 0)).
  - done.
  - intros j Hj. rewrite Hb, G7; done.
  - intros b ->%Ht. by rewrite Hb.
  - intros Hall. apply G6. apply Hall, Ht. done.
Qed.

Lemma source_frame ip k0 x0 k1 x1 n b y k2 :
  fchange st sz i ip k0 x0 k1 x1 → loaded st sz i ∅ k1 n b y k2 → fs_frame k0 (set_k_icache (k_icache k0) k2).
Proof.
  intros Hc Hld. eapply fs_frame_trans; [apply Hc|]. exact (fs_frame_set_icache (k_icache k0) _ _ (ld_frame _ _ _ _ _ _ _ _ _ Hld)).
Qed.

Lemma res_changed k x a d k' S r :
  changed st sz i ∅ k [(a, d)] k' → a ∈ S → a ≠ bmap_block k → res sz S r k x → res sz S r k' x.
Proof.
  intros Hc Ha Hb [R1 R2 R3 R4 R5]. destruct (fs_frame_icache _ _ (ch_frame _ _ _ _ _ _ _ Hc)) as (_ & Hsb & _).
  split; try done.
  - unfold bmap_block. by rewrite Hsb.
  - eapply changed_budget; [exact Hc| |exact R4]. cbn. set_solver.
  - eapply enough_ext; [|exact R5]. intros b. unfold is_free, bmap_block. rewrite Hsb, (ch_view _ _ _ _ _ _ _ Hc). unfold overlay. cbn.
    rewrite (proj2 (Z.eqb_neq _ a)); [done|]. unfold bmap_block in Hb. congruence.
Qed.

(** The body of the loop of [writei], up to the next turn. *)
Definition write_turn (ip : nat) (src : source) (off m tot : Z) (next : M Z) : M Z :=
  let! addr := bmap ip (off / BSIZE) in
  let! dev := inoget i_dev ip in
  let! bp := bread dev addr in
  let! bytes := src tot m in
  bufset bp (λ b, set_b_data (list_inserts (Z.to_nat (off mod BSIZE)) bytes (b_data b)) b) ;;;
  log_write bp ;;;
  brelse bp ;;;
  next.

Lemma write_turn_spec (Hserve : disk_served) ip src l k0 x0 off m tot next o k x S r :
  sz ≤ Z.of_nat NBUF → source_ok src l k0 → fchange st sz i ip k0 x0 k x → k_icache k !! ip = Some x →
  0 ≤ off → 0 ≤ tot → tot + m ≤ Z.of_nat (length l) → 0 < m → off mod BSIZE + m ≤ BSIZE → off / BSIZE < MAXFILE →
  res sz S (r + 1) k x → 0 ≤ r →
  ∃ k' x' S', write_turn ip src off m tot next o k = next o k' ∧
    written ip off (take (Z.to_nat m) (drop (Z.to_nat tot) l)) k x k' x' ∧ S ⊆ S' ∧ res sz S' r k' x'.
Proof.
  intros Hsz Hsrc Hc0 Hx Ho Ht Hl Hm Hc Hbn Hres Hr. unfold write_turn.
  assert (0 ≤ off / BSIZE) as Hbn0 by (apply Z.div_pos; [done|]; unfold BSIZE; lia).
  destruct (bmap_spec st sz i Hserve ip k x (off / BSIZE) o S r) as (a & k1 & x1 & S1 & Hrun1 & Hg & HS1 & Ha & Hres1);
    try done; try apply Hc0.
  kstep_with Hrun1. unfold inoget. kstep. pose proof Hg as [G1 G2 G3 G4 G5 G6 G7].
  assert (k_icache k1 !! ip = Some x1) as Hx1.
  { rewrite (fc_icache _ _ _ _ _ _ _ _ G1). apply list_lookup_insert_eq. by eapply lookup_lt_Some. }
  pose proof (fc_inv _ _ _ _ _ _ _ _ G1) as Hli1. pose proof (fc_ok _ _ _ _ _ _ _ _ G1) as Hok1.
  rewrite (inode_at_lookup k1 ip x1 Hx1), (io_dev _ _ Hok1).
  assert (a ∈ owned k1 x1) as Hao by (rewrite <- G3; apply block_addr_owned; by rewrite G3).
  pose proof (owned_fs_block st sz k1 x1 a (fc_alloc _ _ _ _ _ _ _ _ G1) Hok1 Hao) as Hfa.
  destruct (budget_n st sz i _ _ _ _ Hli1 (rs_budget _ _ _ _ _ Hres1)) as [_ Hsp].
  destruct (txn_bread st sz i Hserve ∅ a o k1 Hli1 (not_held_empty _ _) Hsp Hfa) as (b & y & k2 & Hrun2 & Hld).
  kstep_with Hrun2.
  kstep_with (Hsrc tot m o k2 (source_frame _ _ _ _ _ _ _ _ _ (fchange_trans _ _ _ _ _ _ _ _ _ _ Hc0 G1) Hld) Ht ltac:(lia)).
  set (bytes := take (Z.to_nat m) (drop (Z.to_nat tot) l)).
  assert (Z.of_nat (length bytes) = m) as Hbl by (unfold bytes; rewrite length_take, length_drop; lia).
  destruct (txn_store st sz i ∅ k1 a b y k2 (list_inserts (Z.to_nat (off mod BSIZE)) bytes)
    (λ b, set_b_data (list_inserts (Z.to_nat (off mod BSIZE)) bytes (b_data b)) b) o S1 _ Hld (rs_budget _ _ _ _ _ Hres1) Hli1 Hfa)
    as (k3 & Hrun3 & Hc3); [done|rewrite length_inserts; by eapply view_wf|].
  rewrite (bind_prefix3 _ _ _ _ _ _ _ _ _ Hrun3). exists k3, x1, S1. split_and!; [done| |done|].
  - apply (written_chunk ip off bytes k x a k1 x1 k3); try done; [lia|intros E; rewrite E in Hbl; cbn in Hbl; lia|apply Hc0].
  - apply (res_changed k1 x1 a _ k3 S1 r Hc3); [done| |done]. destruct (io_used _ _ Hok1 a Hao) as [? _]. lia.
Qed.

Lemma writei_loop_spec (Hserve : disk_served) ip src l k0 x0 :
  sz ≤ Z.of_nat NBUF → source_ok src l k0 → ∀ fuel off tot o k x S,
  fchange st sz i ip k0 x0 k x → k_icache k !! ip = Some x → 0 ≤ off → 0 ≤ tot ≤ Z.of_nat (length l) →
  off + (Z.of_nat (length l) - tot) ≤ MAXFILE * BSIZE → res sz S (nblk off (Z.of_nat (length l) - tot)) k x →
  (Z.to_nat (Z.of_nat (length l) - tot) ≤ fuel)%nat →
  ∃ k' x' S', writei_loop fuel ip src off (Z.of_nat (length l)) tot o k = Ret (off + (Z.of_nat (length l) - tot)) o k' ∧
    written ip off (drop (Z.to_nat tot) l) k x k' x' ∧ S ⊆ S' ∧ res sz S' 0 k' x'.
Proof.
  intros Hsz Hsrc. set (n := Z.of_nat (length l)).
  assert (∀ off o k x S, fchange st sz i ip k0 x0 k x → k_icache k !! ip = Some x → res sz S (nblk off (n - n)) k x →
    ∃ k' x' S', Ret off o k = Ret (off + (n - n)) o k' ∧ written ip off (drop (Z.to_nat n) l) k x k' x' ∧ S ⊆ S' ∧ res sz S' 0 k' x') as Hend.
  { intros off o k x S Hc0 Hx Hres. rewrite Z.sub_diag, Z.add_0_r in *. exists k, x, S. rewrite drop_ge by lia.
    split_and!; [done|apply written_nil; try done; apply Hc0|done|done]. }
  induction fuel as [|fuel IH]; intros off tot o k x S Hc0 Hx Ho Ht Hmax Hres Hf; cbn [writei_loop].
  { assert (tot = n) as -> by lia. rewrite Z.ltb_irrefl. by apply Hend. }
  destruct (Z.ltb_spec tot n) as [Hlt|Hge]; [|assert (tot = n) as -> by lia; by apply Hend].
  destruct (chunk_pos off n tot Ho Hlt) as [Hm Hc]. rewrite (nblk_step off n tot Ho Hlt) in Hres. set (m := chunk off n tot) in *.
  assert (off / BSIZE < MAXFILE) as Hbn.
  { change BSIZE with 512 in *. change MAXFILE with 140 in *. clear -Hmax Ho Hlt. lia_mod. }
  fold (write_turn ip src off m tot (writei_loop fuel ip src (off + m) n (tot + m))).
  destruct (write_turn_spec Hserve ip src l k0 x0 off m tot (writei_loop fuel ip src (off + m) n (tot + m)) o k x S
    (nblk (off + m) (n - (tot + m)))) as (k3 & x3 & S3 & -> & Hw & HS3 & Hres3); try done; try lia; [apply nblk_pos; lia|].
  assert (length (take (Z.to_nat m) (drop (Z.to_nat tot) l)) = Z.to_nat m) as Hbl by (rewrite length_take, length_drop; lia).
  destruct (IH (off + m) (tot + m) o k3 x3 S3) as (k4 & x4 & S4 & -> & Hw4 & HS4 & Hres4); try done; try lia.
  - eapply fchange_trans; [exact Hc0|apply Hw].
  - rewrite (fc_icache _ _ _ _ _ _ _ _ (wr_change _ _ _ _ _ _ _ Hw)). apply list_lookup_insert_eq. by eapply lookup_lt_Some.
  - exists k4, x4, S4. split_and!; [f_equal; lia| |set_solver|done].
    rewrite <- (take_drop (Z.to_nat m) (drop (Z.to_nat tot) l)). rewrite drop_drop.
    eapply written_app; [done|exact Hw|]. rewrite Hbl, Z2Nat.id by lia.
    replace (Z.to_nat tot + Z.to_nat m)%nat with (Z.to_nat (tot + m)) by lia. done.
Qed.

(** The inode on the disk is the one in memory. *)
Definition synced (k : K) (x : inode) : Prop := load_dinode (view k (IBLOCK (i_inum x) (k_sb k))) x = x.

(** Updating an inode block affects no file's contents. *)
Lemma meta_changed k n d k' :
  changed st sz i ∅ k [(n, d)] k' → alloc_inv st sz k → n < bmap_block k →
  alloc_inv st sz k' ∧ (∀ b, is_free k' b ↔ is_free k b) ∧
  ∀ y, inode_ok k y → inode_ok k' y ∧ fbytes k' y = fbytes k y ∧ addrs_of k' y = addrs_of k y.
Proof.
  intros Hc Hal Hn. destruct (fs_frame_icache _ _ (ch_frame _ _ _ _ _ _ _ Hc)) as (_ & Hsb & _).
  assert (∀ m, m ≠ n → view k' m = view k m) as Hv.
  { intros m Hm. rewrite (ch_view _ _ _ _ _ _ _ Hc). unfold overlay. cbn. by rewrite (proj2 (Z.eqb_neq m n)). }
  assert (∀ b, is_free k' b ↔ is_free k b) as Hf.
  { intros b. unfold is_free, bmap_block. rewrite Hsb, Hv; [done|]. unfold bmap_block in Hn. lia. }
  split_and!; [|done|].
  - destruct Hal as [Hl Hb]. split; [by rewrite Hsb|]. unfold bmap_block. rewrite Hsb. intros b ?%Hf. by apply Hb.
  - intros y Hok. assert (∀ b, b ∈ owned k y → view k' b = view k b) as Hvy.
    { intros b Hb. destruct (io_used _ _ Hok b Hb) as [? _]. apply Hv. lia. }
    split_and!.
    + apply (inode_ok_ext k); try done. intros b. apply Hf.
    + unfold fbytes. f_equal. apply list_fmap_ext. intros _ bn _. by apply fblock_ext.
    + apply addrs_of_ext. intros Hi. by apply Hvy, ind_owned.
Qed.

(** Another file. *)
Lemma fchange_file ip k x k' x' y :
  fchange st sz i ip k x k' x' → inode_ok k y → (∀ b, b ∈ owned k y → b ∉ owned k x) →
  inode_ok k' y ∧ fbytes k' y = fbytes k y.
Proof.
  intros Hc Hok Hd. destruct (fchange_sb _ _ _ _ _ _ _ _ Hc) as (Hsb & _).
  assert (∀ b, b ∈ owned k y → view k' b = view k b) as Hv.
  { intros b Hb. destruct (io_used _ _ Hok b Hb) as [? ?]. apply Hc; [done|lia|auto]. }
  split; [apply (inode_ok_ext k); try done; intros b ?%(fc_free _ _ _ _ _ _ _ _ Hc); tauto|].
  unfold fbytes. f_equal. apply list_fmap_ext. intros _ bn _. by apply fblock_ext.
Qed.

Lemma fchange_size ip k x k1 x1 v :
  fchange st sz i ip k x k1 x1 → 0 ≤ v < 4294967296 → (ip < length (k_icache k))%nat →
  let x2 := set_i_size v x1 in let k2 := set_k_icache (<[ip := x2]> (k_icache k1)) k1 in
  fchange st sz i ip k x k2 x2.
Proof.
  intros [C1 C2 C3 C4 C5 C6 C7 C8 C9 C10] Hv Hip x2 k2. split; try done.
  - by apply log_inv_icache.
  - destruct C3 as [I1 I2 I3 I4 I5]. split; try done. destruct I3. by split.
  - unfold k2. cbn. by rewrite C4, list_insert_insert_eq.
Qed.

(** Overwriting part of a sequence that may grow. *)
Lemma inserts_contents (l F : list Z) off size :
  (off ≤ size ≤ length F)%nat → (off + length l ≤ length F)%nat →
  take (size `max` (off + length l)) (list_inserts off l F) =
  take off (take size F) ++ l ++ drop (off + length l) (take size F).
Proof.
  intros Hs Hl. apply list_eq. intros j. rewrite take_take, Nat.min_l by lia.
  destruct (decide (j < off)%nat) as [H1|H1].
  { rewrite lookup_take_lt, inserts_lookup_ne, lookup_app_l by (rewrite ?length_take; lia). by rewrite lookup_take_lt. }
  rewrite (lookup_app_r (take off F)) by (rewrite length_take; lia). rewrite length_take, Nat.min_l by lia.
  destruct (decide (j < off + length l)%nat) as [H2|H2].
  { rewrite lookup_take_lt, list_lookup_inserts, lookup_app_l by lia. done. }
  rewrite lookup_app_r, lookup_drop by lia. replace (off + length l + (j - off - length l))%nat with j by lia.
  destruct (decide (j < size)%nat) as [H3|H3].
  - rewrite !lookup_take_lt by lia. apply inserts_lookup_ne. lia.
  - by rewrite !lookup_take_ge by lia.
Qed.

(** The file of [ip] got the bytes [l] at [off]; the other files are the same. *)
Record file_written (ip : nat) (off : Z) (l : list Z) (k : K) (x : inode) (k' : K) (x' : inode) : Prop := {
  fw_inv : log_inv st sz i ∅ k';
  fw_alloc : alloc_inv st sz k';
  fw_ok : inode_ok k' x';
  fw_icache : k_icache k' = <[ip := x']> (k_icache k);
  fw_same : set_i_addrs [] (set_i_size 0 x') = set_i_addrs [] (set_i_size 0 x);
  fw_holes : no_holes k' x';
  fw_size : i_size x' = Z.max (i_size x) (off + Z.of_nat (length l));
  fw_contents : contents k' x' = take (Z.to_nat off) (contents k x) ++ l ++ drop (Z.to_nat off + length l) (contents k x);
  fw_synced : synced k x → synced k' x';
  fw_others y : inode_ok k y → (∀ b, b ∈ owned k y → b ∉ owned k x) → inode_ok k' y ∧ contents k' y = contents k y
}.

Lemma length_fbytes k x : log_inv st sz i ∅ k → length (fbytes k x) = Z.to_nat (MAXFILE * BSIZE).
Proof. intros Hli. unfold fbytes. rewrite length_blocks by (intros b; by eapply fblock_length). done. Qed.

(** The last step when the file did not grow: the inode is as it was. *)
Lemma written_within ip off l k x k' x' :
  log_inv st sz i ∅ k → alloc_inv st sz k → inode_ok k x → no_holes k x → i_size x ≤ MAXFILE * BSIZE → 0 ≤ off ≤ i_size x →
  off + Z.of_nat (length l) ≤ i_size x → written ip off l k x k' x' → file_written ip off l k x k' x'.
Proof.
  intros Hli Hal Hok Hnh Hmax Ho Hn [W1 W2 W3 W4 W5 W6]. destruct (fchange_sb _ _ _ _ _ _ _ _ W1) as (Hsb & _).
  assert (x' = x) as ->.
  { apply W6. intros bn (H1 & H2 & H3 & H4). apply Hnh; [done|]. change BSIZE with 512 in *. lia. }
  pose proof (length_fbytes k x Hli) as HF. pose proof (iw_size _ (io_wf _ _ Hok)) as Hs0.
  split; try apply W1.
  - intros bn Hb Hs. apply W4. by apply Hnh.
  - lia.
  - unfold contents. rewrite W2. rewrite <- inserts_contents by lia. f_equal. lia.
  - unfold synced. rewrite Hsb. destruct (iblock_range k x Hal Hok) as (_ & _ & Hlt).
    rewrite (fc_other _ _ _ _ _ _ _ _ W1); [done|intros Hf%Hal; lia|lia|]. intros Hb%(io_used _ _ Hok). lia.
  - intros y Hy Hd. destruct (fchange_file ip k x k' x y W1 Hy Hd) as [? Hfb]. split; [done|]. unfold contents. by rewrite Hfb.
Qed.

(** And when it grew: the inode gets the new size and is written to the disk. *)
Lemma written_beyond ip off l k x k1 x1 k3 :
  let x2 := set_i_size (off + Z.of_nat (length l)) x1 in
  let k2 := set_k_icache (<[ip := x2]> (k_icache k1)) k1 in
  let n := IBLOCK (i_inum x2) (k_sb k2) in
  log_inv st sz i ∅ k → inode_ok k x → no_holes k x → 0 ≤ off ≤ i_size x →
  i_size x < off + Z.of_nat (length l) → off + Z.of_nat (length l) ≤ MAXFILE * BSIZE → k_icache k !! ip = Some x →
  written ip off l k x k1 x1 → changed st sz i ∅ k2 [(n, put_dinode (view k2 n) (i_inum x2) x2)] k3 →
  file_written ip off l k x k3 x2.
Proof.
  intros x2 k2 n Hli Hok Hnh Ho Hgrow Hmax Hx [W1 W2 W3 W4 W5 W6] Hc.
  assert (0 ≤ off + Z.of_nat (length l) < 4294967296) as Hsz by (change (MAXFILE * BSIZE) with 71680 in *; lia).
  pose proof (fchange_size ip k x k1 x1 _ W1 Hsz ltac:(by eapply lookup_lt_Some)) as Hf2. fold x2 k2 in Hf2.
  destruct (fchange_sb _ _ _ _ _ _ _ _ Hf2) as (Hsb & _). pose proof (fc_ok _ _ _ _ _ _ _ _ Hf2) as Hok2.
  destruct (iblock_range k2 x2 (fc_alloc _ _ _ _ _ _ _ _ Hf2) Hok2) as (_ & _ & Hlt).
  destruct (meta_changed k2 n _ k3 Hc (fc_alloc _ _ _ _ _ _ _ _ Hf2) Hlt) as (Hal3 & Hf3 & Hy3).
  destruct (Hy3 x2 Hok2) as (Hok3 & Hfb3 & Had3). destruct (fs_frame_icache _ _ (ch_frame _ _ _ _ _ _ _ Hc)) as (Hic & Hsb3 & _).
  pose proof (length_fbytes k x Hli) as HF.
  assert (∀ bn, block_addr k3 x2 bn = block_addr k1 x1 bn) as Hba by (intros bn; unfold block_addr; by rewrite Had3).
  split; try done.
  - apply Hc.
  - rewrite Hic. apply Hf2.
  - apply Hf2.
  - intros bn Hb Hs. rewrite Hba. cbn in Hs. destruct (decide (bn * BSIZE < i_size x)) as [Hin|Hin]; [by apply W4, Hnh|].
    apply W5. unfold touches. change BSIZE with 512 in *. lia.
  - cbn. lia.
  - unfold contents. rewrite Hfb3. change (fbytes k2 x2) with (fbytes k1 x1). rewrite W2, <- inserts_contents by lia.
    f_equal. cbn. lia.
  - intros _. unfold synced. rewrite Hsb3. fold n. rewrite (ch_view _ _ _ _ _ _ _ Hc). unfold overlay. cbn [foldl fst snd]. rewrite Z.eqb_refl.
    destruct (dinode_roundtrip (view k2 n) (i_inum x2) x2) as (D1 & D2 & D3 & D4 & D5 & D6);
      [by eapply view_wf; apply Hf2|apply Hok2|apply Hok2|].
    unfold load_dinode. rewrite D1, D2, D3, D4, D5, D6. by destruct x2.
  - intros y Hy Hd. destruct (fchange_file ip k x k2 x2 y Hf2 Hy Hd) as [Hoky Hfby]. destruct (Hy3 y Hoky) as (? & Hfb & _).
    split; [done|]. unfold contents. by rewrite Hfb, Hfby.
Qed.

(** Room for the blocks a write may log: the data blocks, the bitmap, the inode
    and the indirect block. *)
Lemma write_res k x off n :
  sz ≤ Z.of_nat NBUF → log_inv st sz i ∅ k → 0 ≤ off → 1 ≤ lg_outstanding (k_log k) →
  lg_n (k_log k) + nblk off n + 3 < sz - 1 → enough (nblk off n + 1) k →
  ∃ S, IBLOCK (i_inum x) (k_sb k) ∈ S ∧ res sz S (nblk off n) k x.
Proof.
  intros Hsz Hli Ho Hop Hlog Hen. pose proof (nblk_pos off n Ho) as Hp.
  set (S := {[bmap_block k; IBLOCK (i_inum x) (k_sb k)]} : gset Z).
  assert (Z.of_nat (size (S ∪ lset k)) ≤ lg_n (k_log k) + 2) as HS.
  { rewrite <- (lset_size st sz i ∅ k Hli). rewrite size_union_alt.
    assert (size S ≤ 2)%nat by (unfold S; rewrite size_union_alt, !size_singleton; apply le_n_S; transitivity (size ({[IBLOCK (i_inum x) (k_sb k)]} : gset Z)); [apply subseteq_size; set_solver|by rewrite size_singleton]).
    assert (size (lset k ∖ S) ≤ size (lset k))%nat by (apply subseteq_size; set_solver). lia. }
  assert (budget sz S (nblk off n + 1) ∅ k) as Hbg by (split; rewrite ?size_empty; try done; lia).
  unfold need. destruct (Z.eqb_spec (ind_addr x) 0) as [Hi|Hi].
  - exists S. split; [set_solver|]. unfold need. split; unfold need; rewrite ?Hi; cbn [Z.eqb]; try done. set_solver.
  - exists ({[ind_addr x]} ∪ S). split; [set_solver|]. split; unfold need; rewrite ?(proj2 (Z.eqb_neq _ 0)), ?Z.add_0_r by done; try done.
    + set_solver.
    + set_solver.
    + by apply budget_take.
    + eapply enough_mono; [|exact Hen]. lia.
Qed.

Lemma writei_spec (Hserve : disk_served) ip src l x off o k :
  sz ≤ Z.of_nat NBUF → log_inv st sz i ∅ k → alloc_inv st sz k → inode_ok k x → k_icache k !! ip = Some x →
  no_holes k x → i_size x ≤ MAXFILE * BSIZE → i_type x ≠ T_DEV → source_ok src l k →
  0 ≤ off ≤ i_size x → off + Z.of_nat (length l) ≤ MAXFILE * BSIZE →
  1 ≤ lg_outstanding (k_log k) → lg_n (k_log k) + nblk off (Z.of_nat (length l)) + 3 < sz - 1 →
  enough (nblk off (Z.of_nat (length l)) + 1) k →
  ∃ k' x', writei ip src off (Z.of_nat (length l)) o k = Ret (Z.of_nat (length l)) o k' ∧ file_written ip off l k x k' x'.
Proof.
  intros Hsz Hli Hal Hok Hx Hnh Hmax Hty Hsrc Ho Hn Hop Hlog Hen. set (n := Z.of_nat (length l)) in *.
  change (MAXFILE * BSIZE) with 71680 in *. destruct (write_res k x off n) as (S & HSi & Hres); try done; [lia|].
  unfold writei, inoget. kstep. unfold id. rewrite (inode_at_lookup k ip x Hx), (proj2 (Z.eqb_neq _ _)) by done.
  rewrite (u32_small (off + n)), (proj2 (Z.ltb_ge (i_size x) off)), (proj2 (Z.ltb_ge (off + n) off)) by lia. cbn [orb].
  change (MAXFILE * BSIZE) with 71680. rewrite (proj2 (Z.ltb_ge 71680 (off + n))) by lia.
  destruct (writei_loop_spec Hserve ip src l k x Hsz Hsrc (Z.to_nat n) off 0 o k x S) as (k1 & x1 & S1 & Hrun & Hw & HS1 & Hres1);
    try done; [by apply fchange_refl|lia|lia|change (MAXFILE * BSIZE) with 71680; lia|by rewrite Z.sub_0_r|lia|].
  fold n in Hrun. rewrite Z.sub_0_r in Hrun. kstep_with Hrun. kstep. rewrite drop_0 in Hw.
  pose proof (wr_change _ _ _ _ _ _ _ Hw) as Hc1. assert (ip < length (k_icache k))%nat as Hip by (by eapply lookup_lt_Some).
  assert (k_icache k1 !! ip = Some x1) as Hx1 by (rewrite (fc_icache _ _ _ _ _ _ _ _ Hc1); by apply list_lookup_insert_eq).
  rewrite (inode_at_lookup k1 ip x1 Hx1), (wr_size _ _ _ _ _ _ _ Hw), (s32_small n) by lia.
  destruct (Z.ltb_spec (i_size x) (off + n)) as [Hg|Hg].
  - rewrite (proj2 (Z.ltb_lt 0 n)) by lia. cbn [andb when]. unfold inoset. rewrite bind_assoc. kstep.
    rewrite (alter_inode _ ip _ x1 Hx1). set (x2 := set_i_size (off + n) x1). set (k2 := set_k_icache _ k1).
    assert (0 ≤ off + n < 4294967296) as Hr by lia.
    pose proof (fchange_size ip k x k1 x1 (off + n) Hc1 Hr Hip) as Hf2. fold x2 k2 in Hf2.
    destruct (iupdate_spec Hserve ip x2 o k2 S1 (0 + need x1)) as (k3 & Hrun3 & Hc3); try apply Hf2.
    + unfold k2. cbn. apply list_lookup_insert_eq. by eapply lookup_lt_Some.
    + destruct (rs_budget _ _ _ _ _ Hres1). by split.
    + kstep_with Hrun3. exists k3, x2. split; [done|].
      apply (written_beyond ip off l k x k1 x1 k3); try done.
  - rewrite andb_false_r. kstep. exists k1, x1. split; [done|]. by apply written_within.
Qed.
End files.

(** C27: [readi] on a file without holes returns exactly the part of the file's
    contents that was asked for, cut at the end of the file, and changes no block
    and no inode; a start beyond the end, or a range that wraps around, is refused
    with -1. *)
Theorem readi_reads {DEV : BlockDev} {DEVOK : BlockDevOk DEV} {DSW : Devsw} st sz i ip dst x off n o k :
  disk_served → sink_ok dst → readable st sz i ip k x → no_holes k x → i_size x ≤ MAXFILE * BSIZE → i_type x ≠ T_DEV →
  0 ≤ off < 4294967296 → 0 ≤ n < 4294967296 →
  ∃ k', (∀ m, view k' m = view k m) ∧ k_icache k' = k_icache k ∧ readable st sz i ip k' x ∧
    readi ip dst off n o k =
      if (i_size x <? off) || (4294967296 <=? off + n) then Ret (-1, []) o k'
      else Ret (Z.min n (i_size x - off),
                take (Z.to_nat (Z.min n (i_size x - off))) (drop (Z.to_nat off) (contents k x))) o k'.
Proof.
  intros Hserve Hdst Hk Hnh Hmax Hty Ho Hn.
  destruct (readi_spec st sz i Hserve ip dst x off n o k) as (k' & Hr & Hrun); try done.
  destruct (read_only_view _ _ _ _ _ Hr) as (_ & Hv & Hic & _). exists k'. split_and!; try done.
  by eapply readable_read_only.
Qed.

(** A file of five bytes in block 60, and an empty one. *)
Definition demo_file : inode := mk_inode ROOTDEV 2 1 (mk_sl false 0) true T_FILE 0 0 1 5 (60 :: replicate 12 0).
Definition demo_empty : inode := mk_inode ROOTDEV 3 1 (mk_sl false 0) true T_FILE 0 0 1 0 (replicate 13 0).
Definition demo_hello : list Z := [104; 101; 108; 108; 111] ++ replicate 507 0.
Definition demo_bits : list Z := <[7%nat := 23]> demo_bitmap.
Definition demo_files : K :=
  set_k_icache (demo_file :: demo_empty :: replicate 48 zero_inode)
    (demo_state (<[60 := demo_hello]> {[58 := demo_bits]})).

Lemma demo_files_inv : log_inv 2 30 0 ∅ demo_files.
Proof.
  apply log_inv_icache, demo_state_inv. apply map_Forall_insert_2; [done|]. by apply map_Forall_singleton.
Qed.

Lemma demo_files_bits : view demo_files 58 = demo_bits.
Proof. vm_compute. reflexivity. Qed.

Lemma demo_bits_used b : 0 ≤ b → bit_clear demo_bits b = true → 58 < b ∧ b ≠ 60.
Proof.
  intros H0 Hb. split.
  - destruct (decide (58 < b)) as [|Hn]; [done|]. exfalso.
    assert (Forall (λ b, bit_clear demo_bits b = false) (seqZ 0 59)) as HF by (apply Forall_fold_right; vm_compute; tauto).
    rewrite Forall_forall in HF. rewrite HF in Hb; [done|]. apply elem_of_seqZ. lia.
  - intros ->. by vm_compute in Hb.
Qed.

Lemma demo_files_alloc : alloc_inv 2 30 demo_files.
Proof.
  split; [split; done|]. intros b [Hb Hc]. change (bmap_block demo_files) with 58 in *. rewrite demo_files_bits in Hc.
  apply demo_bits_used; [lia|done].
Qed.

Lemma demo_file_ok : inode_ok demo_files demo_file.
Proof.
  assert (owned demo_files demo_file = [60]) as E by (vm_compute; reflexivity).
  split; rewrite ?E; try done.
  - split; try done. by repeat constructor.
  - apply NoDup_singleton.
  - intros b ->%list_elem_of_singleton. change (bmap_block demo_files) with 58. split; [done|].
    intros [_ Hc]. change (bmap_block demo_files) with 58 in Hc. rewrite demo_files_bits in Hc. by vm_compute in Hc.
Qed.

Lemma demo_empty_ok : inode_ok demo_files demo_empty.
Proof.
  assert (owned demo_files demo_empty = []) as E by (vm_compute; reflexivity).
  split; rewrite ?E; try done.
  - split; try done. by repeat constructor.
  - apply NoDup_nil_2.
  - by intros b ?%elem_of_nil.
Qed.

Lemma demo_readable : readable 2 30 0 0 demo_files demo_file.
Proof. split; [apply demo_files_inv|apply demo_files_alloc|apply demo_file_ok|done|done]. Qed.

Lemma demo_file_holes : no_holes demo_files demo_file.
Proof. intros bn Hb Hs. change (i_size demo_file) with 5 in Hs. unfold BSIZE in Hs. assert (bn = 0) as -> by lia. done. Qed.

(** Without devices. *)
Definition no_devsw : Devsw := {| dev_read := λ _, None; dev_write := λ _, None |}.

(** Three bytes from the second. *)
Lemma readi_reads_witness :
  ∃ k', @readi (memide_dev FSSIZE) no_devsw 0 kernel_sink 1 3 [] demo_files = Ret (3, [101; 108; 108]) [] k'.
Proof.
  destruct (@readi_reads (memide_dev FSSIZE) _ no_devsw 2 30 0 0 kernel_sink demo_file 1 3 [] demo_files) as (k' & _ & _ & _ & Hrun).
  - apply demo_served.
  - apply kernel_sink_ok.
  - apply demo_readable.
  - apply demo_file_holes.
  - done.
  - done.
  - done.
  - done.
  - exists k'. etrans; [exact Hrun|]. vm_compute. reflexivity.
Defined.

(** C4: [writei] in a transaction puts the bytes at the offset, also when that
    needs new blocks or the indirect block: the contents afterwards are the old
    ones with the bytes overwritten or appended, the size is the larger of the
    two, the file still has no holes and blocks of its own, an inode that agreed
    with the disk still does, and the contents of every other file are the same.
    It needs room in the log for the data blocks and three more, and as many free
    blocks; a start beyond the end or an end beyond the largest file is refused
    with -1 and changes nothing. *)
Theorem writei_writes {DEV : BlockDev} {DEVOK : BlockDevOk DEV} {DSW : Devsw} st sz i ip src l x off o k :
  let n := Z.of_nat (length l) in
  disk_served → sz ≤ Z.of_nat NBUF → log_inv st sz i ∅ k → alloc_inv st sz k → inode_ok k x →
  k_icache k !! ip = Some x → no_holes k x → i_size x ≤ MAXFILE * BSIZE → i_type x ≠ T_DEV → source_ok src l k →
  1 ≤ lg_outstanding (k_log k) → lg_n (k_log k) + nblk off n + 3 < sz - 1 → enough (nblk off n + 1) k →
  0 ≤ off → off + n < 4294967296 →
  (off ≤ i_size x → off + n ≤ MAXFILE * BSIZE →
     ∃ k' x', writei ip src off n o k = Ret n o k' ∧ file_written st sz i ip off l k x k' x') ∧
  (i_size x < off ∨ MAXFILE * BSIZE < off + n → writei ip src off n o k = Ret (-1) o k).
Proof.
  intros n Hserve Hsz Hli Hal Hok Hx Hnh Hmax Hty Hsrc Hop Hlog Hen Ho Hov. split.
  - intros Hs Hn. by apply writei_spec.
  - intros Hbad. unfold writei, inoget. kstep. unfold id. rewrite (inode_at_lookup k ip x Hx), (proj2 (Z.eqb_neq _ _)) by done.
    rewrite (u32_small (off + n)) by lia. destruct (Z.ltb_spec (i_size x) off); [done|].
    rewrite (proj2 (Z.ltb_ge (off + n) off)) by lia. cbn [orb]. rewrite (proj2 (Z.ltb_lt _ _)) by lia. done.
Qed.

(** Two bytes written to the empty file. *)
Lemma writei_writes_witness :
  ∃ k' x', @writei (memide_dev FSSIZE) no_devsw 1 (kernel_source [104; 105]) 0 2 [] demo_files = Ret 2 [] k' ∧
    contents k' x' = [104; 105] ∧ k_icache k' !! 1%nat = Some x'.
Proof.
  destruct (@writei_writes (memide_dev FSSIZE) _ no_devsw 2 30 0 1 (kernel_source [104; 105]) [104; 105] demo_empty 0 [] demo_files)
    as [Hw _].
  - apply demo_served.
  - done.
  - apply demo_files_inv.
  - apply demo_files_alloc.
  - apply demo_empty_ok.
  - done.
  - intros bn Hb Hs. change (i_size demo_empty) with 0 in Hs. unfold BSIZE in Hs. lia.
  - done.
  - done.
  - apply kernel_source_ok.
  - done.
  - done.
  - exists {[61; 62]}. split; [done|]. intros b Hb.
    assert (bit_clear (view demo_files 58) b = true ∧ 0 ≤ b < 1000) as [? ?]; [|by split].
    rewrite demo_files_bits. apply elem_of_union in Hb as [->%elem_of_singleton| ->%elem_of_singleton]; by vm_compute.
  - done.
  - done.
  - destruct Hw as (k' & x' & Hrun & Hf); [done|done|]. exists k', x'. split; [exact Hrun|].
    split; [rewrite (fw_contents _ _ _ _ _ _ _ _ _ _ Hf); vm_compute; reflexivity|].
    rewrite (fw_icache _ _ _ _ _ _ _ _ _ _ Hf). reflexivity.
Defined.
