(* ===== verification/FsDir.v ===== *)
(** * The inode cache and directories

    [iget] keeps at most one entry per inode; [dirlookup] finds the first entry
    with the name, and what [dirlink] enters [dirlookup] finds. *)

From stdpp Require Import base numbers list gmap strings.
From S2P Require Import Prelude Mmu Hardware Memory Bytes Kernel Spinlock Kalloc Cprintf Vm Proc Sleeplock Blockdev Memide Bio Log Txn Fs FsBlocks FsData FsFiles.

Implicit Types (k : K) (o : oracle).

(** ** The inode cache *)

(** An inode is in at most one entry in use. *)
Record icache_ok (l : list inode) : Prop := {
  ic_ref a x : l !! a = Some x → 0 ≤ i_ref x;
  ic_uniq a b x y : l !! a = Some x → l !! b = Some y → 0 < i_ref x → 0 < i_ref y →
    i_dev x = i_dev y → i_inum x = i_inum y → a = b
}.

(** What [iget] does to the cache. *)
Definition iget_cache (dev inum : Z) (l : list inode) : option (nat * list inode) :=
  match list_find (iget_found dev inum) l with
  | Some (ip, x) => Some (ip, <[ip := set_i_ref (i_ref x + 1) x]> l)
  | None =>
      match list_find (λ x, i_ref x = 0) l with
      | Some (ip, x) =>
          Some (ip, <[ip := set_i_valid false (set_i_ref 1 (set_i_inum inum (set_i_dev dev x)))]> l)
      | None => None
      end
  end.

Lemma iget_run dev inum o k :
  irq_ok (k_hw k) → h_locks (k_hw k) !! LIcache = None →
  match iget_cache dev inum (k_icache k) with
  | Some (ip, l) => iget dev inum o k = Ret ip o (set_k_icache l k)
  | None => ∃ k', iget dev inum o k = Panic "iget: no inodes" k'
  end.
Proof.
  intros Hok Hl. unfold iget_cache, iget. kstep_with (acquire_spec LIcache o k Hok Hl). kstep. cbn [k_icache set_k_hw].
  destruct (list_find (iget_found dev inum) (k_icache k)) as [[ip x]|] eqn:E1.
  - apply list_find_Some in E1 as (Hx & _). unfold inoset. kstep. cbn [k_icache set_k_hw set_k_icache].
    rewrite (alter_inode _ ip _ x Hx). kstep_with (release_acquired LIcache o k (set_k_icache
      (<[ip := set_i_ref (i_ref x + 1) x]> (k_icache k)) (set_k_hw (hw_acq LIcache (k_hw k)) k)) Hok Hl eq_refl). by destruct k.
  - kstep. cbn [k_icache set_k_hw]. destruct (list_find (λ x, i_ref x = 0) (k_icache k)) as [[ip x]|] eqn:E2; [|by eexists].
    apply list_find_Some in E2 as (Hx & _). unfold inoset. kstep. cbn [k_icache set_k_hw set_k_icache].
    rewrite !alter_alter_eq, (alter_inode _ ip _ x Hx).
    set (l' := <[ip := _]> (k_icache k)).
    kstep_with (release_acquired LIcache o k (set_k_icache l' (set_k_hw (hw_acq LIcache (k_hw k)) k)) Hok Hl eq_refl). by destruct k.
Qed.

(** [iget] gives a reference to the one cache entry of the inode: if the
    inode is cached, that entry with one more reference, otherwise an entry that
    was free, for it alone and not read yet.  No other entry changes and no inode
    is ever in two entries; with every entry in use it panics. *)
Theorem iget_unique dev inum o k :
  irq_ok (k_hw k) → h_locks (k_hw k) !! LIcache = None → icache_ok (k_icache k) →
  (∃ ip x l, iget dev inum o k = Ret ip o (set_k_icache l k) ∧ icache_ok l ∧ l = <[ip := x]> (k_icache k) ∧
     (ip < length (k_icache k))%nat ∧ i_dev x = dev ∧ i_inum x = inum ∧
     (∀ a y, k_icache k !! a = Some y → iget_found dev inum y → a = ip ∧ x = set_i_ref (i_ref y + 1) y) ∧
     ((∀ a y, k_icache k !! a = Some y → ¬ iget_found dev inum y) → i_ref x = 1 ∧ i_valid x = false)) ∨
  (∀ a y, k_icache k !! a = Some y → 0 < i_ref y ∧ ¬ iget_found dev inum y) ∧
  ∃ k', iget dev inum o k = Panic "iget: no inodes" k'.
Proof.
  intros Hok Hl [Hr Hu]. pose proof (iget_run dev inum o k Hok Hl) as Hrun. unfold iget_cache in Hrun.
  destruct (list_find (iget_found dev inum) (k_icache k)) as [[ip x]|] eqn:E1.
  - apply list_find_Some in E1 as (Hx & (Hx1 & Hx2 & Hx3) & _). left.
    assert (ip < length (k_icache k))%nat as Hip by (by eapply lookup_lt_Some).
    exists ip, (set_i_ref (i_ref x + 1) x), (<[ip := set_i_ref (i_ref x + 1) x]> (k_icache k)). split_and!; try done.
    + split.
      * intros a y [(<- & <- & _)|(_ & Hy)]%list_lookup_insert_Some; [cbn; lia|by eapply Hr].
      * intros a b y z [(<- & <- & _)|(Hn & Hy)]%list_lookup_insert_Some [(<- & <- & _)|(Hn' & Hz)]%list_lookup_insert_Some;
          cbn; intros; [done|by eapply (Hu ip b x z)|by eapply (Hu a ip y x)|by eapply (Hu a b y z)].
    + intros a y Hy (H1 & H2 & H3). assert (a = ip) as -> by (eapply (Hu a ip y x); try done; congruence).
      rewrite Hx in Hy. by injection Hy as ->.
    + intros Hno. by destruct (Hno ip x Hx).
  - apply list_find_None in E1. rewrite Forall_lookup in E1.
    destruct (list_find (λ x, i_ref x = 0) (k_icache k)) as [[ip x]|] eqn:E2.
    + apply list_find_Some in E2 as (Hx & Hx0 & _). left. assert (ip < length (k_icache k))%nat as Hip by (by eapply lookup_lt_Some).
      set (x' := set_i_valid false (set_i_ref 1 (set_i_inum inum (set_i_dev dev x)))) in *.
      assert (∀ b y, k_icache k !! b = Some y → 0 < i_ref y → dev = i_dev y → inum = i_inum y → False) as Hnew.
      { intros b y Hy H1 H2 H3. by destruct (E1 b y Hy). }
      exists ip, x', (<[ip := x']> (k_icache k)). split_and!; try done.
      * split.
        -- intros a y [(<- & <- & _)|(_ & Hy)]%list_lookup_insert_Some; [cbn; lia|by eapply Hr].
        -- intros a b y z [(<- & <- & _)|(Hn & Hy)]%list_lookup_insert_Some [(<- & <- & _)|(Hn' & Hz)]%list_lookup_insert_Some;
             cbn; intros; [done|by destruct (Hnew b z)|by destruct (Hnew a y)|by eapply (Hu a b y z)].
      * intros a y Hy Hf. by destruct (E1 a y Hy).
    + apply list_find_None in E2. rewrite Forall_lookup in E2. right. split; [|done]. intros a y Hy.
      pose proof (Hr a y Hy). pose proof (E2 a y Hy). split; [lia|by eapply E1].
Qed.

(** An empty cache. *)
Lemma iget_unique_witness :
  ∃ ip k', iget ROOTDEV 7 [] (K_demo ∅) = Ret ip [] k' ∧ i_inum (inode_at k' ip) = 7.
Proof.
  destruct (iget_unique ROOTDEV 7 [] (K_demo ∅)) as [(ip & x & l & Hrun & _ & -> & Hip & _ & Hi & _)|[Hall _]].
  - apply demo_irq_ok.
  - vm_compute. reflexivity.
  - split.
    + intros a x Hx. apply (lookup_replicate_1 NINODE) in Hx as [-> _]. done.
    + intros a b x y Hx _ Hr. apply (lookup_replicate_1 NINODE) in Hx as [-> _]. by vm_compute in Hr.
  - exists ip. eexists. split; [exact Hrun|]. unfold inode_at. cbn [k_icache set_k_icache]. rewrite list_lookup_insert_eq by exact Hip. exact Hi.
  - destruct (Hall 0%nat zero_inode) as [Hr _]; [vm_compute; reflexivity|]. by vm_compute in Hr.
Defined.

(** ** Directories *)

(** The entries of a directory. *)
Definition dent (k : K) (x : inode) (j : nat) : dirent := dirent_of (take 16 (drop (16 * j) (contents k x))).
Definition dents (k : K) (x : inode) : list dirent := dent k x <$> seq 0 (Z.to_nat (i_size x / SIZEOF_DIRENT)).

Definition de_matches (name : list Z) (de : dirent) : Prop := de_inum de ≠ 0 ∧ cstr DIRSIZ name = cstr DIRSIZ (de_name de).
#[global] Instance de_matches_dec name de : Decision (de_matches name de).
Proof. unfold de_matches. apply _. Defined.

Lemma strncmp_total p q n : (n ≤ length p)%nat → (n ≤ length q)%nat → ∃ r, strncmp p q n = Some r.
Proof.
  revert p q. induction n as [|n IH]; intros [|a p] [|b q] Hp Hq; cbn in *; try lia; try by eexists.
  destruct (negb (a =? 0) && (a =? b)); [apply IH; lia|by eexists].
Qed.

Lemma length_contents st sz i H k x :
  log_inv st sz i H k → 0 ≤ i_size x ≤ MAXFILE * BSIZE → length (contents k x) = Z.to_nat (i_size x).
Proof.
  intros Hli Hs. unfold contents, fbytes. rewrite length_take, length_blocks; [|intros b; by eapply fblock_length].
  change MAXFILE with 140 in *. change BSIZE with 512 in *. lia.
Qed.

(** The entries in a sequence of bytes. *)
Definition dents_of (C : list Z) : list dirent :=
  (λ j, dirent_of (take 16 (drop (16 * j) C))) <$> seq 0 (length C / 16).

Lemma dents_of_lookup C n j :
  length C = (16 * n)%nat →
  dents_of C !! j = if (j <? n)%nat then Some (dirent_of (take 16 (drop (16 * j) C))) else None.
Proof.
  intros HC. unfold dents_of. rewrite HC, (Nat.mul_comm 16), Nat.div_mul by lia.
  destruct (Nat.ltb_spec j n) as [Hj|Hj].
  - by rewrite list_lookup_fmap, lookup_seq_lt by done.
  - rewrite lookup_ge_None_2; [done|]. by rewrite length_fmap, length_seq.
Qed.

(** Replacing or appending an entry. *)
Lemma dents_of_put C n slot s :
  length C = (16 * n)%nat → length s = 16%nat → (slot ≤ n)%nat →
  dents_of (take (16 * slot) C ++ s ++ drop (16 * slot + 16) C) =
  take slot (dents_of C) ++ dirent_of s :: drop (S slot) (dents_of C).
Proof.
  intros HC Hs Hn. set (C' := take (16 * slot) C ++ s ++ drop (16 * slot + 16) C).
  assert (length C' = 16 * (n `max` S slot))%nat as HC'.
  { unfold C'. rewrite !length_app, length_take, length_drop. lia. }
  assert (∀ m, m ≤ 16 * slot → take m C' = take m C)%nat as Hlow.
  { intros m Hm. unfold C'. rewrite take_app_le, take_take, Nat.min_l by (rewrite ?length_take; lia). done. }
  assert (∀ m, 16 * slot + 16 ≤ m → drop m C' = drop m C)%nat as Hhigh.
  { intros m Hm. unfold C'. rewrite drop_app_ge by (rewrite length_take; lia). rewrite length_take, Nat.min_l by lia.
    rewrite drop_app_ge, drop_drop by lia. f_equal. lia. }
  assert (length (dents_of C) = n) as Hl by (unfold dents_of; rewrite length_fmap, length_seq, HC, (Nat.mul_comm 16), Nat.div_mul; lia).
  apply list_eq. intros j. rewrite (dents_of_lookup C' (n `max` S slot)) by done.
  destruct (decide (j < slot)%nat) as [H1|H1].
  { rewrite lookup_app_l by (rewrite length_take; lia). rewrite lookup_take_lt, (dents_of_lookup C n) by done.
    rewrite !(proj2 (Nat.ltb_lt _ _)) by lia. do 2 f_equal. rewrite !take_drop_commute. by rewrite Hlow by lia. }
  rewrite lookup_app_r by (rewrite length_take; lia). rewrite length_take, Hl, Nat.min_l by lia.
  destruct (decide (j = slot)) as [->|H2].
  { rewrite Nat.sub_diag, (proj2 (Nat.ltb_lt _ _)) by lia. cbn. do 2 f_equal. unfold C'.
    rewrite drop_app_length' by (rewrite length_take; lia). by rewrite take_app_length'. }
  destruct (j - slot)%nat as [|m] eqn:Em; [lia|].
  change ((dirent_of s :: drop (S slot) (dents_of C)) !! S m) with (drop (S slot) (dents_of C) !! m).
  rewrite lookup_drop, (dents_of_lookup C n) by done. replace (S slot + m)%nat with j by lia.
  destruct (Nat.ltb_spec j n) as [H3|H3]; [|by rewrite (proj2 (Nat.ltb_ge _ _)) by lia].
  rewrite (proj2 (Nat.ltb_lt _ _)) by lia. by rewrite Hhigh by lia.
Qed.

Lemma dirent_roundtrip de :
  0 ≤ de_inum de < 65536 → length (de_name de) = DIRSIZ → dirent_of (dirent_bytes de) = de.
Proof.
  intros Hi Hn. unfold dirent_of, dirent_bytes. destruct de as [v nm]; cbn [de_inum de_name] in *. f_equal.
  - unfold get16, byte_at, bytes16. cbn. rewrite !u8_idem. unfold u8. lia_mod.
  - change (drop 2 (bytes16 v ++ nm)) with nm. apply take_ge. by rewrite Hn.
Qed.

(** An entry that matches changes the first match, one that does not, nothing. *)
Lemma find_put_match (P : dirent → Prop) `{!∀ d, Decision (P d)} D slot de :
  list_find P D = None → P de → (slot ≤ length D)%nat →
  list_find P (take slot D ++ de :: drop (S slot) D) = Some (slot, de).
Proof.
  intros Hn%list_find_None HP Hs. apply list_find_Some. split_and!; [|done|].
  - rewrite lookup_app_r by (rewrite length_take; lia). by rewrite length_take, Nat.min_l, Nat.sub_diag by lia.
  - intros j y Hy Hj. rewrite lookup_app_l in Hy by (rewrite length_take; lia). rewrite lookup_take_lt in Hy by done.
    by apply (Forall_lookup_1 _ _ _ _ Hn Hy).
Qed.

Lemma find_put_other (P : dirent → Prop) `{!∀ d, Decision (P d)} D slot de :
  ¬ P de → (∀ d, D !! slot = Some d → ¬ P d) → (slot ≤ length D)%nat →
  list_find P (take slot D ++ de :: drop (S slot) D) = list_find P D.
Proof.
  revert slot. induction D as [|d D IH]; intros slot Hde Hs Hl.
  - cbn in Hl. assert (slot = 0)%nat as -> by lia. cbn. by rewrite decide_False.
  - destruct slot as [|slot]; cbn [take drop app list_find].
    + rewrite !decide_False; [done|by apply Hs|done].
    + destruct (decide (P d)); [done|]. rewrite IH; [done|done|done|cbn in Hl; lia].
Qed.

Section dirs.
Context {DEV : BlockDev} {DEVOK : BlockDevOk DEV} {DSW : Devsw} (st sz : Z) (i : nat).

(** A directory that can be read: a whole number of entries, no holes. *)
Record is_dir (dp : nat) (k : K) (x : inode) : Prop := {
  id_read : readable st sz i dp k x;
  id_type : i_type x = T_DIR;
  id_holes : no_holes k x;
  id_max : i_size x ≤ MAXFILE * BSIZE;
  id_size : i_size x mod SIZEOF_DIRENT = 0
}.

Lemma is_dir_read_only dp k x k' : is_dir dp k x → read_only st sz i k k' → is_dir dp k' x ∧ contents k' x = contents k x.
Proof.
  intros [D1 D2 D3 D4 D5] Hr. destruct (readable_read_only st sz i dp k x k' D1 Hr) as (Hk & Hf & Ha).
  split; [|unfold contents; by rewrite Hf]. split; try done. intros bn Hb Hs. rewrite Ha. by apply D3.
Qed.

Lemma read_dirent_spec (Hserve : disk_served) dp x j msg o k :
  is_dir dp k x → 0 ≤ j → SIZEOF_DIRENT * j < i_size x →
  ∃ k', read_dirent dp (SIZEOF_DIRENT * j) msg o k = Ret (dent k x (Z.to_nat j)) o k' ∧ read_only st sz i k k'.
Proof.
  intros [D1 D2 D3 D4 D5] Hj Hs. change (MAXFILE * BSIZE) with 71680 in D4. unfold SIZEOF_DIRENT in *.
  destruct (readi_spec st sz i Hserve dp kernel_sink x (16 * j) 16 o k) as (k' & Hr & Hrun); try done; try lia;
    [apply kernel_sink_ok|by rewrite D2|].
  rewrite (proj2 (Z.ltb_ge _ _)), (proj2 (Z.leb_gt _ _)) in Hrun by lia. cbn [orb] in Hrun.
  rewrite Z.min_l in Hrun by (clear -Hj Hs D5; lia_mod). unfold read_dirent. change SIZEOF_DIRENT with 16. kstep_with Hrun.
  exists k'. split; [|done]. cbn [Z.eqb Pos.eqb]. unfold ret, dent. do 4 f_equal. lia.
Qed.

Lemma dent_name_length k x j :
  log_inv st sz i ∅ k → 0 ≤ i_size x ≤ MAXFILE * BSIZE → Z.of_nat (16 * j + 16) ≤ i_size x →
  length (de_name (dent k x j)) = DIRSIZ.
Proof.
  intros Hli Hs Hj. unfold dent, dirent_of. cbn [de_name]. rewrite length_take, length_drop, length_take, length_drop.
  rewrite (length_contents st sz i ∅) by done. unfold DIRSIZ. lia.
Qed.

(** The search from entry [j] on. *)
Lemma dirlookup_loop_spec (Hserve : disk_served) dp x name fuel j o k :
  (DIRSIZ ≤ length name)%nat → is_dir dp k x → 0 ≤ j ≤ i_size x / SIZEOF_DIRENT →
  (Z.to_nat (i_size x / SIZEOF_DIRENT - j) < fuel)%nat →
  ∃ k', read_only st sz i k k' ∧
    dirlookup_loop fuel dp name (SIZEOF_DIRENT * j) o k =
    match list_find (de_matches name) (drop (Z.to_nat j) (dents k x)) with
    | None => Ret None o k'
    | Some (n, de) => (let! ip := iget ROOTDEV (de_inum de) in ret (Some (ip, SIZEOF_DIRENT * (j + Z.of_nat n)))) o k'
    end.
Proof.
  intros Hname. revert j k. induction fuel as [|fuel IH]; intros j k Hd Hj Hf; [lia|].
  pose proof Hd as [D1 D2 D3 D4 D5]. pose proof (iw_size _ (io_wf _ _ (rd_ok _ _ _ _ _ _ D1))) as Hs0.
  pose proof (rd_ino _ _ _ _ _ _ D1) as Hx. cbn [dirlookup_loop]. unfold inoget. kstep. rewrite (inode_at_lookup k dp x Hx).
  destruct (Z.ltb_spec (SIZEOF_DIRENT * j) (i_size x)) as [Hlt|Hge].
  2:{ exists k. split; [apply read_only_refl, D1|]. rewrite drop_ge; [done|].
    unfold dents. rewrite length_fmap, length_seq. unfold SIZEOF_DIRENT in *. clear -Hge Hj Hs0. lia_mod. }
  assert (j < i_size x / SIZEOF_DIRENT) as Hjn by (unfold SIZEOF_DIRENT in *; clear -Hlt Hj D5; lia_mod).
  destruct (read_dirent_spec Hserve dp x j "dirlookup read" o k Hd (proj1 Hj) Hlt) as (k1 & Hrun & Hr1). kstep_with Hrun.
  destruct (is_dir_read_only dp k x k1 Hd Hr1) as [Hd1 Hcon].
  assert (drop (Z.to_nat j) (dents k x) = dent k x (Z.to_nat j) :: drop (Z.to_nat (j + 1)) (dents k x)) as Hdrop.
  { replace (Z.to_nat (j + 1)) with (S (Z.to_nat j)) by lia. apply drop_S. unfold dents.
    rewrite list_lookup_fmap, lookup_seq_lt by (clear -Hjn Hj; lia). done. }
  assert (dents k1 x = dents k x) as Hde by (unfold dents, dent; by rewrite Hcon).
  destruct (IH (j + 1) k1 Hd1 ltac:(lia) ltac:(lia)) as (k2 & Hr2 & Hrun2). rewrite Hde in Hrun2.
  replace (SIZEOF_DIRENT * (j + 1)) with (SIZEOF_DIRENT * j + SIZEOF_DIRENT) in Hrun2 by lia.
  pose proof (read_only_trans _ _ _ _ _ _ Hr1 Hr2) as Hr12.
  assert (¬ de_matches name (dent k x (Z.to_nat j)) → dirlookup_loop fuel dp name (SIZEOF_DIRENT * j + SIZEOF_DIRENT) o k1 =
    match list_find (de_matches name) (drop (Z.to_nat j) (dents k x)) with
    | None => Ret None o k2
    | Some (n, de) => (let! ip := iget ROOTDEV (de_inum de) in ret (Some (ip, SIZEOF_DIRENT * (j + Z.of_nat n)))) o k2
    end) as Hskip.
  { intros Hno. rewrite Hrun2, Hdrop. cbn [list_find]. rewrite decide_False by done.
    destruct (list_find (de_matches name) (drop (Z.to_nat (j + 1)) (dents k x))) as [[n de]|]; [|done]. cbn [fmap option_fmap option_map prod_map fst snd id].
    replace (j + Z.of_nat (S n)) with (j + 1 + Z.of_nat n) by lia. done. }
  destruct (Z.eqb_spec (de_inum (dent k x (Z.to_nat j))) 0) as [Hz|Hnz].
  { exists k2. split; [done|]. apply Hskip. by intros [? _]. }
  assert (length (de_name (dent k x (Z.to_nat j))) = DIRSIZ) as Hlen.
  { apply dent_name_length; [apply D1|lia|]. unfold SIZEOF_DIRENT in *. clear -Hlt Hj D5. lia_mod. }
  destruct (strncmp_total name (de_name (dent k x (Z.to_nat j))) DIRSIZ) as [c Hc]; [done|by rewrite Hlen|].
  unfold namecmp. rewrite Hc. kstep. pose proof (strncmp_zero _ _ _ _ Hc) as Hc0.
  destruct (Z.eqb_spec c 0) as [->|Hcn].
  - kstep. destruct Hd1 as [E1 _ _ _ _]. rewrite (inode_at_lookup k1 dp x (rd_ino _ _ _ _ _ _ E1)), (io_dev _ _ (rd_ok _ _ _ _ _ _ E1)).
    exists k1. split; [done|]. rewrite Hdrop. cbn [list_find]. rewrite decide_True by (split; [done|by apply Hc0]). by rewrite Z.add_0_r.
  - exists k2. split; [done|]. apply Hskip. intros [_ ?]. by apply Hcn, Hc0.
Qed.

Lemma dirlookup_spec (Hserve : disk_served) dp x name o k :
  (DIRSIZ ≤ length name)%nat → is_dir dp k x →
  ∃ k', read_only st sz i k k' ∧
    dirlookup dp name o k =
    match list_find (de_matches name) (dents k x) with
    | None => Ret None o k'
    | Some (n, de) => (let! ip := iget ROOTDEV (de_inum de) in ret (Some (ip, SIZEOF_DIRENT * Z.of_nat n))) o k'
    end.
Proof.
  intros Hname Hd. pose proof Hd as [D1 D2 D3 D4 D5]. pose proof (iw_size _ (io_wf _ _ (rd_ok _ _ _ _ _ _ D1))) as Hs0.
  unfold dirlookup, inoget. kstep. unfold id. rewrite (inode_at_lookup k dp x (rd_ino _ _ _ _ _ _ D1)), D2, Z.eqb_refl.
  destruct (dirlookup_loop_spec Hserve dp x name (Z.to_nat (i_size x / SIZEOF_DIRENT + 1)) 0 o k) as (k' & Hr & Hrun); try done.
  - unfold SIZEOF_DIRENT. clear -Hs0. lia_mod.
  - unfold SIZEOF_DIRENT. clear -Hs0. lia_mod.
  - exists k'. split; [done|]. rewrite Z.mul_0_r, drop_0 in Hrun. exact Hrun.
Qed.

(** *** Entering a name *)

Lemma dents_contents dp k x :
  is_dir dp k x → dents k x = dents_of (contents k x) ∧
  length (contents k x) = (16 * Z.to_nat (i_size x / SIZEOF_DIRENT))%nat ∧ length (dents k x) = Z.to_nat (i_size x / SIZEOF_DIRENT).
Proof.
  intros [D1 D2 D3 D4 D5]. pose proof (iw_size _ (io_wf _ _ (rd_ok _ _ _ _ _ _ D1))) as Hs0.
  assert (length (contents k x) = 16 * Z.to_nat (i_size x / SIZEOF_DIRENT))%nat as HC.
  { rewrite (length_contents st sz i ∅) by (apply D1 || lia). unfold SIZEOF_DIRENT in *. clear -D5 Hs0. lia_mod. }
  split_and!; [|done|unfold dents; by rewrite length_fmap, length_seq].
  unfold dents, dents_of. by rewrite HC, (Nat.mul_comm 16), Nat.div_mul by lia.
Qed.

Definition free_slot (D : list dirent) : nat :=
  match list_find (λ de, de_inum de = 0) D with
  | Some (j, _) => j
  | None => length D
  end.

Lemma free_slot_spec D : (free_slot D ≤ length D)%nat ∧ ∀ d, D !! free_slot D = Some d → de_inum d = 0.
Proof.
  unfold free_slot. destruct (list_find (λ de, de_inum de = 0) D) as [[j e]|] eqn:E.
  - apply list_find_Some in E as (He & H0 & _). split; [apply Nat.lt_le_incl; by eapply lookup_lt_Some|].
    intros d Hd. rewrite He in Hd. by injection Hd as <-.
  - split; [done|]. intros d Hd%lookup_lt_Some. lia.
Qed.

Lemma dirlink_loop_spec (Hserve : disk_served) dp x fuel j o k :
  is_dir dp k x → 0 ≤ j ≤ i_size x / SIZEOF_DIRENT → (Z.to_nat (i_size x / SIZEOF_DIRENT - j) < fuel)%nat →
  ∃ k', read_only st sz i k k' ∧
    dirlink_loop fuel dp (SIZEOF_DIRENT * j) o k =
    Ret (SIZEOF_DIRENT * (j + Z.of_nat (free_slot (drop (Z.to_nat j) (dents k x))))) o k'.
Proof.
  revert j k. induction fuel as [|fuel IH]; intros j k Hd Hj Hf; [lia|]. destruct (dents_contents dp k x Hd) as (_ & _ & Hlen).
  pose proof Hd as [D1 D2 D3 D4 D5]. pose proof (iw_size _ (io_wf _ _ (rd_ok _ _ _ _ _ _ D1))) as Hs0.
  cbn [dirlink_loop]. unfold inoget. kstep. rewrite (inode_at_lookup k dp x (rd_ino _ _ _ _ _ _ D1)).
  destruct (Z.ltb_spec (SIZEOF_DIRENT * j) (i_size x)) as [Hlt|Hge].
  2:{ exists k. split; [apply read_only_refl, D1|]. rewrite drop_ge; [by rewrite Z.add_0_r|].
    rewrite Hlen. unfold SIZEOF_DIRENT in *. clear -Hge Hj Hs0. lia_mod. }
  assert (j < i_size x / SIZEOF_DIRENT) as Hjn by (unfold SIZEOF_DIRENT in *; clear -Hlt Hj D5; lia_mod).
  destruct (read_dirent_spec Hserve dp x j "dirlink read" o k Hd (proj1 Hj) Hlt) as (k1 & Hrun & Hr1). kstep_with Hrun.
  destruct (is_dir_read_only dp k x k1 Hd Hr1) as [Hd1 Hcon].
  assert (drop (Z.to_nat j) (dents k x) = dent k x (Z.to_nat j) :: drop (Z.to_nat (j + 1)) (dents k x)) as ->.
  { replace (Z.to_nat (j + 1)) with (S (Z.to_nat j)) by lia. apply drop_S. unfold dents.
    rewrite list_lookup_fmap, lookup_seq_lt by (clear -Hjn Hj; lia). done. }
  unfold free_slot. cbn [list_find]. destruct (Z.eqb_spec (de_inum (dent k x (Z.to_nat j))) 0) as [Hz|Hnz].
  - exists k1. split; [done|]. rewrite decide_True by done. by rewrite Z.add_0_r.
  - destruct (IH (j + 1) k1 Hd1 ltac:(lia) ltac:(lia)) as (k2 & Hr2 & Hrun2). exists k2. split; [by eapply read_only_trans|].
    assert (dents k1 x = dents k x) as Hde by (unfold dents, dent; by rewrite Hcon). rewrite Hde in Hrun2.
    replace (SIZEOF_DIRENT * j + SIZEOF_DIRENT) with (SIZEOF_DIRENT * (j + 1)) by lia. rewrite Hrun2, decide_False by done.
    unfold free_slot. destruct (list_find _ (drop (Z.to_nat (j + 1)) (dents k x))) as [[n e]|]; cbn [fmap option_fmap option_map prod_map fst snd length];
      do 2 f_equal; lia.
Qed.

Lemma cstr_full l : Forall (λ c, c ≠ 0) l → cstr (length l) l = l.
Proof. induction 1 as [|c l Hc Hl IH]; [done|]. cbn. by rewrite (proj2 (Z.eqb_neq c 0)), IH. Qed.

(** The name as [dirlink] stores it. *)
Definition stored_name (name : list Z) : list Z :=
  cstr DIRSIZ name ++ replicate (DIRSIZ - length (cstr DIRSIZ name)) 0.

Lemma stored_name_spec name : length (stored_name name) = DIRSIZ ∧ cstr DIRSIZ (stored_name name) = cstr DIRSIZ name.
Proof.
  unfold stored_name. pose proof (cstr_length DIRSIZ name) as Hl. split; [rewrite length_app, length_replicate; lia|].
  destruct (DIRSIZ - length (cstr DIRSIZ name))%nat as [|n] eqn:E.
  - cbn [replicate]. rewrite app_nil_r. assert (length (cstr DIRSIZ name) = DIRSIZ) as El by lia.
    rewrite <- El at 1. apply cstr_full, cstr_no_nul.
  - pose proof (cstr_app_pad DIRSIZ name n []) as Hp. by rewrite app_nil_r in Hp.
Qed.

Lemma read_only_room k k' :
  log_inv st sz i ∅ k → read_only st sz i k k' →
  lg_n (k_log k') = lg_n (k_log k) ∧ lg_outstanding (k_log k') = lg_outstanding (k_log k) ∧
  (∀ b, is_free k' b ↔ is_free k b).
Proof.
  intros Hli Hr. destruct (read_only_view st sz i k k' Hr) as (Hli' & Hv & _ & Hsb & Hlg). split_and!.
  - rewrite <- (lset_size st sz i ∅ k), <- (lset_size st sz i ∅ k') by done.
    assert (lset k' = lset k) as ->; [|done]. apply set_eq. intros m. unfold lset. by rewrite !elem_of_list_to_set.
  - exact (fs_frame_outstanding _ _ (ch_frame _ _ _ _ _ _ _ Hr)).
  - intros b. unfold is_free, bmap_block. by rewrite Hsb, Hv.
Qed.

Lemma read_only_file k k' y :
  read_only st sz i k k' → inode_ok k y → inode_ok k' y ∧ contents k' y = contents k y ∧ owned k' y = owned k y.
Proof.
  intros Hr Hok. destruct (read_only_view st sz i k k' Hr) as (_ & Hv & _ & Hsb & _).
  split_and!.
  - apply (inode_ok_ext k); try done. intros b. unfold is_free, bmap_block. by rewrite Hsb, Hv.
  - unfold contents, fbytes. do 2 f_equal. apply list_fmap_ext. intros _ bn _. by apply fblock_ext.
  - unfold owned. rewrite (addrs_of_ext k k'); [done|intros _; apply Hv].
Qed.

(** What entering [name] in the directory does. *)
Record linked (dp : nat) (name : list Z) (inum : Z) (k : K) (x : inode) (k' : K) (x' : inode) : Prop := {
  lk_dir : is_dir dp k' x';
  lk_dents : dents k' x' = take (free_slot (dents k x)) (dents k x) ++
    mk_de inum (stored_name name) :: drop (S (free_slot (dents k x))) (dents k x);
  lk_others y : inode_ok k y → (∀ b, b ∈ owned k y → b ∉ owned k x) → contents k' y = contents k y
}.

Lemma linked_written dp name inum k x k' x' :
  sz ≤ Z.of_nat NBUF → is_dir dp k x → i_size x + SIZEOF_DIRENT ≤ MAXFILE * BSIZE → 0 ≤ inum < 65536 →
  file_written st sz i dp (SIZEOF_DIRENT * Z.of_nat (free_slot (dents k x)))
    (dirent_bytes (mk_de inum (stored_name name))) k x k' x' →
  linked dp name inum k x k' x'.
Proof.
  intros Hsz Hd Hmax Hi [F1 F2 F3 F4 F5 F6 F7 F8 F9 F10]. pose proof Hd as [D1 D2 D3 D4 D5].
  destruct (dents_contents dp k x Hd) as (Ed & HC & Hlen). destruct (free_slot_spec (dents k x)) as [Hslot _].
  set (slot := free_slot (dents k x)) in *. set (de := mk_de inum (stored_name name)) in *.
  assert (length (dirent_bytes de) = 16%nat) as Hdl by (unfold de, dirent_bytes; rewrite length_app; cbn [de_name length bytes16]; by rewrite (proj1 (stored_name_spec name))).
  pose proof (iw_size _ (io_wf _ _ (rd_ok _ _ _ _ _ _ D1))) as Hs0. rewrite Hdl in F7, F8. unfold SIZEOF_DIRENT in *.
  assert (is_dir dp k' x') as Hd'.
  { split.
    - split; try done.
      + rewrite F4. apply list_lookup_insert_eq. eapply lookup_lt_Some. apply D1.
      + unfold spare. rewrite size_empty. pose proof (lo_n _ _ _ (li_log _ _ _ _ _ F1)). lia.
    - pose proof (f_equal i_type F5) as E. cbn in E. by rewrite E.
    - done.
    - rewrite F7. clear -Hslot Hlen D5 Hs0 Hmax D4. change (MAXFILE * BSIZE) with 71680 in *. lia_mod.
    - rewrite F7. unfold SIZEOF_DIRENT. clear -D5. lia_mod. }
  split; [done| |].
  - destruct (dents_contents dp k' x' Hd') as (-> & _ & _). rewrite Ed. rewrite F8.
    replace (Z.to_nat (16 * Z.of_nat slot)) with (16 * slot)%nat by lia.
    rewrite (dents_of_put _ (Z.to_nat (i_size x / 16)) slot _ HC Hdl) by (by rewrite <- Hlen).
    rewrite dirent_roundtrip; [unfold slot, de; by rewrite Ed|exact Hi|]. apply stored_name_spec.
  - intros y Hy Hdis. by apply F10.
Qed.

Lemma dirlink_spec (Hserve : disk_served) dp x name inum o k :
  sz ≤ Z.of_nat NBUF → is_dir dp k x → length name = DIRSIZ → list_find (de_matches name) (dents k x) = None →
  0 ≤ inum < 65536 → i_size x + SIZEOF_DIRENT ≤ MAXFILE * BSIZE →
  1 ≤ lg_outstanding (k_log k) → lg_n (k_log k) + 4 < sz - 1 → enough 2 k →
  ∃ k' x', dirlink dp name inum o k = Ret 0 o k' ∧ linked dp name inum k x k' x'.
Proof.
  intros Hsz Hd Hname Hno Hi Hmax Hop Hlog Hen. pose proof (rd_inv _ _ _ _ _ _ (id_read _ _ _ Hd)) as Hli.
  unfold dirlink. destruct (dirlookup_spec Hserve dp x name o k ltac:(lia) Hd) as (k1 & Hr1 & Hrun1). rewrite Hno in Hrun1.
  kstep_with Hrun1. destruct (is_dir_read_only dp k x k1 Hd Hr1) as [Hd1 Hcon1]. unfold inoget. kstep.
  rewrite (inode_at_lookup k1 dp x (rd_ino _ _ _ _ _ _ (id_read _ _ _ Hd1))).
  pose proof (iw_size _ (io_wf _ _ (rd_ok _ _ _ _ _ _ (id_read _ _ _ Hd1)))) as Hs0.
  destruct (dirlink_loop_spec Hserve dp x (Z.to_nat (i_size x / SIZEOF_DIRENT + 1)) 0 o k1 Hd1) as (k2 & Hr2 & Hrun2).
  { unfold SIZEOF_DIRENT. clear -Hs0. lia_mod. } { unfold SIZEOF_DIRENT. clear -Hs0. lia_mod. }
  rewrite Z.mul_0_r, drop_0, Z.add_0_l in Hrun2. kstep_with Hrun2.
  pose proof (read_only_trans _ _ _ _ _ _ Hr1 Hr2) as Hr. destruct (is_dir_read_only dp k x k2 Hd Hr) as [Hd2 Hcon2].
  assert (dents k1 x = dents k x ∧ dents k2 x = dents k x) as [-> Hde2] by (unfold dents, dent; by rewrite Hcon1, Hcon2).
  rewrite strncpy_spec by (rewrite ?length_replicate; lia). rewrite drop_ge, app_nil_r by (by rewrite length_replicate).
  change (cstr DIRSIZ name ++ replicate (DIRSIZ - length (cstr DIRSIZ name)) 0) with (stored_name name).
  assert (u16 inum = inum) as -> by (by apply Z.mod_small). set (de := mk_de inum (stored_name name)).
  assert (length (dirent_bytes de) = 16%nat) as Hdl by (unfold de, dirent_bytes; rewrite length_app; cbn [de_name length bytes16]; by rewrite (proj1 (stored_name_spec name))).
  destruct (dents_contents dp k x Hd) as (_ & _ & Hlen). destruct (free_slot_spec (dents k x)) as [Hslot _].
  destruct (read_only_room k k2 Hli Hr) as (Hn2 & Ho2 & Hf2). pose proof Hd2 as [E1 E2 E3 E4 E5]. pose proof E1 as [Q1 Q2 Q3 Q4 Q5].
  set (slot := free_slot (dents k x)) in *.
  assert (SIZEOF_DIRENT * Z.of_nat slot ≤ i_size x) as Hoff by (unfold SIZEOF_DIRENT in *; clear -Hslot Hlen E5 Hs0; lia_mod).
  assert (nblk (SIZEOF_DIRENT * Z.of_nat slot) (Z.of_nat (length (dirent_bytes de))) = 1) as Hnb.
  { rewrite Hdl. unfold nblk, SIZEOF_DIRENT, BSIZE. change (Z.of_nat 16) with 16. change (0 <? 16) with true. cbn match. clear. lia_mod. }
  destruct (writei_spec st sz i Hserve dp (kernel_source (dirent_bytes de)) (dirent_bytes de) x (SIZEOF_DIRENT * Z.of_nat slot) o k2)
    as (k3 & x3 & Hrun3 & Hw); try done; rewrite ?Hn2, ?Ho2, ?Hnb, ?E2; try done.
  - unfold SIZEOF_DIRENT in *. lia.
  - rewrite Hdl. unfold SIZEOF_DIRENT in *. lia.
  - lia.
  - by eapply enough_ext.
  - rewrite Hdl in Hrun3. change SIZEOF_DIRENT with 16 at 2. change 16 with (Z.of_nat 16). kstep_with Hrun3. cbn [Z.of_nat Pos.of_succ_nat Pos.succ].
    exists k3, x3. split; [done|].
    assert (linked dp name inum k2 x k3 x3) as [L1 L2 L3] by (apply linked_written; rewrite ?Hde2; done).
    split; [done|by rewrite Hde2 in L2|]. intros y Hy Hdis. destruct (read_only_file k k2 y Hr Hy) as (Hy2 & Hc2 & Ho).
    destruct (read_only_file k k2 x Hr (rd_ok _ _ _ _ _ _ (id_read _ _ _ Hd))) as (_ & _ & Hox).
    rewrite <- Hc2. apply L3; [done|]. by rewrite Ho, Hox.
Qed.
End dirs.

(** [dirlookup] in a directory finds the first entry in use whose name is
    the one asked for (as far as names go, up to a NUL or [DIRSIZ] bytes), gives
    a reference to its inode and the entry's offset; without such an entry it
    gives none.  Nothing on the disk changes. *)
Theorem dirlookup_finds {DEV : BlockDev} {DEVOK : BlockDevOk DEV} {DSW : Devsw} st sz i dp x name o k :
  disk_served → (DIRSIZ ≤ length name)%nat → is_dir st sz i dp k x →
  ∃ k', (∀ m, view k' m = view k m) ∧ k_icache k' = k_icache k ∧
    dirlookup dp name o k =
    match list_find (de_matches name) (dents k x) with
    | None => Ret None o k'
    | Some (n, de) => (let! ip := iget ROOTDEV (de_inum de) in ret (Some (ip, SIZEOF_DIRENT * Z.of_nat n))) o k'
    end.
Proof.
  intros Hserve Hname Hd. destruct (dirlookup_spec st sz i Hserve dp x name o k Hname Hd) as (k' & Hr & Hrun).
  destruct (read_only_view _ _ _ _ _ Hr) as (_ & Hv & Hic & _). by exists k'.
Qed.

(** A directory with the entry [5, "ab"] in block 60. *)
Definition demo_dir : inode := mk_inode ROOTDEV 1 1 (mk_sl false 0) true T_DIR 0 0 1 16 (60 :: replicate 12 0).
Definition demo_dirs : K :=
  set_k_icache (demo_dir :: replicate 49 zero_inode)
    (demo_state (<[60 := [5; 0; 97; 98] ++ replicate 508 0]> {[58 := demo_bits]})).
Definition demo_name (c : Z) : list Z := [c; 98] ++ replicate 12 0.

Lemma demo_dirs_bits : view demo_dirs 58 = demo_bits.
Proof. vm_compute. reflexivity. Qed.

Lemma demo_is_dir : is_dir 2 30 0 0 demo_dirs demo_dir.
Proof.
  assert (owned demo_dirs demo_dir = [60]) as E by (vm_compute; reflexivity).
  split; try done.
  - split; try done.
    + apply log_inv_icache, demo_state_inv. apply map_Forall_insert_2; [done|]. by apply map_Forall_singleton.
    + split; [split; done|]. intros b [Hb Hc]. change (bmap_block demo_dirs) with 58 in *. rewrite demo_dirs_bits in Hc.
      apply demo_bits_used; [lia|done].
    + split; rewrite ?E; try done.
      * split; try done. by repeat constructor.
      * apply NoDup_singleton.
      * intros b ->%list_elem_of_singleton. change (bmap_block demo_dirs) with 58. split; [done|].
        intros [_ Hc]. change (bmap_block demo_dirs) with 58 in Hc. rewrite demo_dirs_bits in Hc. by vm_compute in Hc.
  - intros bn Hb Hs. change (i_size demo_dir) with 16 in Hs. unfold BSIZE in Hs. assert (bn = 0) as -> by lia. done.
Qed.

Lemma dirlookup_finds_witness :
  ∃ k', @dirlookup (memide_dev FSSIZE) no_devsw 0 (demo_name 97) [] demo_dirs =
    (let! ip := iget ROOTDEV 5 in ret (Some (ip, 0))) [] k'.
Proof.
  destruct (@dirlookup_finds (memide_dev FSSIZE) _ no_devsw 2 30 0 0 demo_dir (demo_name 97) [] demo_dirs) as (k' & _ & _ & Hrun).
  - apply demo_served.
  - vm_compute. lia.
  - apply demo_is_dir.
  - exists k'. rewrite Hrun. replace (list_find (de_matches (demo_name 97)) (dents demo_dirs demo_dir))
      with (Some (0%nat, mk_de 5 (demo_name 97))) by (vm_compute; reflexivity). reflexivity.
Defined.

(** C7: [dirlink] of a name the directory does not have enters it: it returns
    0, the directory stays well formed, [dirlookup] of the name then gives the
    inode entered, every other name is found or not found as before, and no other
    file changes.  The transaction needs room for four blocks. *)
Theorem dirlink_enters {DEV : BlockDev} {DEVOK : BlockDevOk DEV} {DSW : Devsw} st sz i dp x name inum o k :
  disk_served → sz ≤ Z.of_nat NBUF → is_dir st sz i dp k x → length name = DIRSIZ →
  list_find (de_matches name) (dents k x) = None → 0 < inum < 65536 → i_size x + SIZEOF_DIRENT ≤ MAXFILE * BSIZE →
  1 ≤ lg_outstanding (k_log k) → lg_n (k_log k) + 4 < sz - 1 → enough 2 k →
  ∃ k' x', dirlink dp name inum o k = Ret 0 o k' ∧ is_dir st sz i dp k' x' ∧
    (∃ k2 off, dirlookup dp name o k' = (let! ip := iget ROOTDEV inum in ret (Some (ip, off))) o k2) ∧
    (∀ name', cstr DIRSIZ name' ≠ cstr DIRSIZ name →
       list_find (de_matches name') (dents k' x') = list_find (de_matches name') (dents k x)) ∧
    (∀ y, inode_ok k y → (∀ b, b ∈ owned k y → b ∉ owned k x) → contents k' y = contents k y).
Proof.
  intros Hserve Hsz Hd Hname Hno Hi Hmax Hop Hlog Hen.
  destruct (dirlink_spec st sz i Hserve dp x name inum o k) as (k' & x' & Hrun & [L1 L2 L3]); try done; [lia|].
  destruct (free_slot_spec (dents k x)) as [Hslot H0]. pose proof (proj2 (stored_name_spec name)) as Hst.
  exists k', x'. split_and!; try done.
  - destruct (dirlookup_spec st sz i Hserve dp x' name o k') as (k2 & _ & Hrun2); [lia|done|]. rewrite L2, find_put_match in Hrun2; try done.
    + eexists k2, _. exact Hrun2.
    + split; cbn [de_inum de_name]; [lia|done].
  - intros name' Hne. rewrite L2. apply find_put_other; [|intros d Hd0 [Hn _]; by apply Hn, H0|done].
    intros [_ E]. cbn [de_name] in E. congruence.
Qed.

Lemma dirlink_enters_witness :
  ∃ k', @dirlink (memide_dev FSSIZE) no_devsw 0 (demo_name 99) 7 [] demo_dirs = Ret 0 [] k'.
Proof.
  destruct (@dirlink_enters (memide_dev FSSIZE) _ no_devsw 2 30 0 0 demo_dir (demo_name 99) 7 [] demo_dirs) as (k' & x' & Hrun & _).
  - apply demo_served.
  - done.
  - apply demo_is_dir.
  - done.
  - vm_compute. reflexivity.
  - done.
  - done.
  - done.
  - done.
  - exists {[61; 62]}. split; [done|]. intros b Hb.
    assert (bit_clear (view demo_dirs 58) b = true ∧ 0 ≤ b < 1000) as [? ?]; [|by split].
    rewrite demo_dirs_bits. apply elem_of_union in Hb as [->%elem_of_singleton| ->%elem_of_singleton]; by vm_compute.
  - exists k'. exact Hrun.
Defined.
