(* ===== verification/Pipe.v ===== *)
(** * Pipes ([pipeclose], [pipewrite], [piperead] of [pipe.c])

    A pipe is a page from the allocator; its contents are the record kept in
    [k_pipes] under the page's address.  [pipealloc], which needs the file table,
    is in [File]. *)

From stdpp Require Import base numbers list gmap strings.
From S2P Require Import Prelude Mmu Hardware Memory Bytes Kernel Spinlock Kalloc Cprintf Vm Proc Sleeplock Blockdev Bio Log Fs FsFiles.

Implicit Types (k : K) (o : oracle).

Definition PIPESIZE : Z := 512.

(** ** Translated code *)

Definition zero_pipe : pipe := mk_pipe (replicate (Z.to_nat PIPESIZE) 0) 0 0 false false.
Definition pipe_at (k : K) (p : Z) : pipe := default zero_pipe (k_pipes k !! p).
Definition piget {A} (f : pipe → A) (p : Z) : M A := reads (λ k, f (pipe_at k p)).
Definition piset (p : Z) (f : pipe → pipe) : M unit :=
  modify (λ k, set_k_pipes (alter f p (k_pipes k)) k).

Definition pipeclose (p : Z) (writable : bool) : M unit :=
  acquire (LPipe p) ;;;
  (if writable then piset p (set_pi_writeopen false) ;;; wakeup (CPipeR p)
   else piset p (set_pi_readopen false) ;;; wakeup (CPipeW p)) ;;;
  let! x := piget id p in
  if negb (pi_readopen x) && negb (pi_writeopen x) then
    release (LPipe p) ;;;
    (* the page is no longer a pipe *)
    modify (λ k, set_k_pipes (delete p (k_pipes k)) k) ;;;
    kfree p
  else release (LPipe p).

Definition pipe_full (x : pipe) : bool := pi_nwrite x =? u32 (pi_nread x + PIPESIZE).

(** One turn of the loop that waits for room: [Some false] when the write fails. *)
Definition pipewrite_turn (p : Z) : M (option bool) :=
  let! x := piget id p in
  if pipe_full x then
    let! failed :=
      if negb (pi_readopen x) then ret true else let! cur := curproc in pget p_killed cur in
    if failed then release (LPipe p) ;;; ret (Some false)
    else
      wakeup (CPipeR p) ;;;
      sleep (CPipeW p) (Some (LPipe p)) ;;;
      ret None
  else ret (Some true).

(** [p->data[p->nwrite++ % PIPESIZE] = c] *)
Definition pipe_put (c : Z) (x : pipe) : pipe :=
  set_pi_nwrite (u32 (pi_nwrite x + 1))
    (set_pi_data (<[Z.to_nat (pi_nwrite x mod PIPESIZE) := c]> (pi_data x)) x).

Fixpoint pipewrite_loop (n : nat) (p : Z) (addr : source) (i : Z) : M bool :=
  match n with
  | O => ret true
  | S n =>
      let! ok := forever (pipewrite_turn p) in
      if ok then
        let! c := addr i 1 in
        piset p (pipe_put (default 0 (c !! 0%nat))) ;;;
        pipewrite_loop n p addr (i + 1)
      else ret false
  end.

Definition pipewrite (p : Z) (addr : source) (n : Z) : M Z :=
  acquire (LPipe p) ;;;
  let! ok := pipewrite_loop (Z.to_nat n) p addr 0 in
  if ok then
    wakeup (CPipeR p) ;;;
    release (LPipe p) ;;;
    ret n
  else ret (-1).

Definition pipe_empty (x : pipe) : bool := pi_nread x =? pi_nwrite x.

(** One turn of the loop that waits for data: [Some false] when the reader was killed. *)
Definition piperead_turn (p : Z) : M (option bool) :=
  let! x := piget id p in
  if pipe_empty x && pi_writeopen x then
    let! cur := curproc in
    let! killed := pget p_killed cur in
    if killed then release (LPipe p) ;;; ret (Some false)
    else sleep (CPipeR p) (Some (LPipe p)) ;;; ret None
  else ret (Some true).

(** [p->data[p->nread % PIPESIZE]] *)
Definition pipe_peek (x : pipe) : Z :=
  default 0 (pi_data x !! Z.to_nat (pi_nread x mod PIPESIZE)).

(** The copy loop, with the bytes copied. *)
Fixpoint piperead_loop (n : nat) (p : Z) (addr : sink) (i : Z) : M (list Z) :=
  match n with
  | O => ret []
  | S n =>
      let! x := piget id p in
      if pipe_empty x then ret []
      else
        piset p (λ x, set_pi_nread (u32 (pi_nread x + 1)) x) ;;;
        addr i [pipe_peek x] ;;;
        let! l := piperead_loop n p addr (i + 1) in
        ret (pipe_peek x :: l)
  end.

Definition piperead (p : Z) (addr : sink) (n : Z) : M (Z * list Z) :=
  acquire (LPipe p) ;;;
  let! ok := forever (piperead_turn p) in
  if ok then
    let! l := piperead_loop (Z.to_nat n) p addr 0 in
    wakeup (CPipeW p) ;;;
    release (LPipe p) ;;;
    ret (Z.of_nat (length l), l)
  else ret (-1, []).

(** ** A pipe is a queue *)

(** The ring buffer holds the bytes [q], oldest first. *)
Record pipe_rep (x : pipe) (q : list Z) : Prop := {
  pr_data : length (pi_data x) = Z.to_nat PIPESIZE;
  pr_read : 0 ≤ pi_nread x < 4294967296;
  pr_len : Z.of_nat (length q) ≤ PIPESIZE;
  pr_write : pi_nwrite x = u32 (pi_nread x + Z.of_nat (length q));
  pr_byte j c : q !! j = Some c → pi_data x !! Z.to_nat ((pi_nread x + Z.of_nat j) mod PIPESIZE) = Some c
}.

Lemma pipe_full_spec x q : pipe_rep x q → pipe_full x = (Z.of_nat (length q) =? PIPESIZE).
Proof.
  intros [P1 P2 P3 P4 P5]. unfold pipe_full. rewrite P4. unfold u32, PIPESIZE in *.
  destruct (Z.eqb_spec ((pi_nread x + Z.of_nat (length q)) mod 4294967296) ((pi_nread x + 512) mod 4294967296)),
    (Z.eqb_spec (Z.of_nat (length q)) 512); try done; exfalso; clear -P2 P3 e n; lia_mod.
Qed.

Lemma pipe_empty_spec x q : pipe_rep x q → pipe_empty x = bool_decide (q = []).
Proof.
  intros [P1 P2 P3 P4 P5]. unfold pipe_empty. rewrite P4. unfold u32, PIPESIZE in *.
  destruct q as [|c q].
  - rewrite bool_decide_eq_true_2 by done. apply Z.eqb_eq. cbn. clear -P2. lia_mod.
  - rewrite bool_decide_eq_false_2 by done. apply Z.eqb_neq. cbn [length] in *. clear -P2 P3. lia_mod.
Qed.

Lemma ring_wrap a : (a mod 4294967296) mod PIPESIZE = a mod PIPESIZE.
Proof. unfold PIPESIZE. lia_mod. Qed.

Lemma pipe_put_spec x q c :
  pipe_rep x q → Z.of_nat (length q) < PIPESIZE → pipe_rep (pipe_put c x) (q ++ [c]).
Proof.
  intros [P1 P2 P3 P4 P5] Hl. unfold pipe_put. split; cbn [pi_data pi_nread pi_nwrite set_pi_data set_pi_nwrite].
  - by rewrite length_insert.
  - done.
  - rewrite length_app. cbn. lia.
  - rewrite P4, length_app. cbn [length]. unfold u32. lia_mod.
  - rewrite P4. unfold u32. rewrite ring_wrap. intros j d [Hj|[Hj Hd]]%lookup_app_Some.
    + assert (j < length q)%nat as Hjl by (by eapply lookup_lt_Some). rewrite list_lookup_insert_ne; [by apply P5|].
      unfold PIPESIZE in *. clear -Hjl Hl P2. lia_mod.
    + destruct (j - length q)%nat as [|m] eqn:E; [|done]. injection Hd as ->. assert (j = length q) as -> by lia.
      apply list_lookup_insert_eq. rewrite P1. unfold PIPESIZE. lia_mod.
Qed.

Lemma pipe_get_spec x q c :
  pipe_rep x (c :: q) → pipe_peek x = c ∧ pipe_rep (set_pi_nread (u32 (pi_nread x + 1)) x) q.
Proof.
  intros [P1 P2 P3 P4 P5]. split.
  - unfold pipe_peek. specialize (P5 0%nat c eq_refl). rewrite Z.add_0_r in P5. by rewrite P5.
  - split; cbn [pi_data pi_nread pi_nwrite set_pi_nread].
    + done.
    + apply u32_range.
    + cbn [length] in P3. lia.
    + rewrite P4. cbn [length]. unfold u32. lia_mod.
    + intros j d Hd. specialize (P5 (S j) d Hd). rewrite <- P5. do 2 f_equal. unfold u32, PIPESIZE. lia_mod.
Qed.

(** [src] yields the bytes of [l] while memory and page table stay. *)
Definition mem_source (src : source) (l : list Z) (k : K) : Prop :=
  ∀ tot m o k', k_mem k' = k_mem k → h_cr3 (k_hw k') = h_cr3 (k_hw k) → 0 ≤ tot → 0 ≤ m →
    src tot m o k' = Ret (take (Z.to_nat m) (drop (Z.to_nat tot) l)) o k'.

Lemma pipe_at_lookup k p x : k_pipes k !! p = Some x → pipe_at k p = x.
Proof. unfold pipe_at. by intros ->. Qed.

Lemma alter_pipe (m : gmap Z pipe) p (f : pipe → pipe) x : m !! p = Some x → alter f p m = <[p := f x]> m.
Proof. intros Hx. apply map_eq. intros j. destruct (decide (j = p)) as [->|Hne]; simplify_map_eq; done. Qed.

(** Both ends as they were. *)
Definition same_ends (x x' : pipe) : Prop := pi_readopen x' = pi_readopen x ∧ pi_writeopen x' = pi_writeopen x.

Lemma pipewrite_loop_spec src l k0 p n i o k x q :
  mem_source src l k0 → k_mem k = k_mem k0 → h_cr3 (k_hw k) = h_cr3 (k_hw k0) →
  k_pipes k !! p = Some x → pipe_rep x q → Z.of_nat (length q + n) ≤ PIPESIZE → 0 ≤ i →
  (Z.to_nat i + n = length l)%nat →
  ∃ x', pipewrite_loop n p src i o k = Ret true o (set_k_pipes (<[p := x']> (k_pipes k)) k) ∧
    pipe_rep x' (q ++ drop (Z.to_nat i) l) ∧ same_ends x x'.
Proof.
  intros Hsrc. revert i k x q. induction n as [|n IH]; intros i k x q Hm Hc Hx Hq Hl Hi Hn.
  - exists x. cbn [pipewrite_loop]. rewrite insert_id, drop_ge, app_nil_r by (done || lia). split; [by destruct k|done].
  - cbn [pipewrite_loop].
    assert (forever (pipewrite_turn p) o k = Ret true o k) as Ht.
    { apply forever_once. unfold pipewrite_turn, piget. kstep. unfold id. rewrite (pipe_at_lookup k p x Hx), (pipe_full_spec x q Hq).
      rewrite (proj2 (Z.eqb_neq _ _)) by lia. done. }
    kstep_with Ht. rewrite (bind_step _ _ _ _ _ _ _ (Hsrc i 1 o k Hm Hc Hi ltac:(lia))).
    destruct (drop (Z.to_nat i) l) as [|c rest] eqn:Ed.
    { apply (f_equal length) in Ed. rewrite length_drop in Ed. cbn in Ed. lia. }
    change (take (Z.to_nat 1) (c :: rest)) with [c]. cbn [lookup list_lookup default from_option id]. unfold piset. kstep.
    rewrite (alter_pipe _ p _ x Hx). set (k1 := set_k_pipes _ k).
    destruct (IH (i + 1) k1 (pipe_put c x) (q ++ [c])) as (x' & Hrun & Hrep & He); try done.
    + unfold k1. cbn. by rewrite lookup_insert_eq.
    + apply pipe_put_spec; [done|lia].
    + rewrite length_app. cbn. lia.
    + lia.
    + lia.
    + exists x'. rewrite Hrun. unfold k1. cbn [k_pipes set_k_pipes]. rewrite insert_insert_eq. split; [by destruct k|]. split; [|done].
      rewrite <- app_assoc in Hrep. replace (Z.to_nat (i + 1)) with (S (Z.to_nat i)) in Hrep by lia.
      assert (drop (S (Z.to_nat i)) l = rest) as Er by (rewrite <- Nat.add_1_r, <- drop_drop, Ed; done). by rewrite Er in Hrep.
Qed.

Lemma piperead_loop_spec dst p n i o k x q :
  sink_ok dst → k_pipes k !! p = Some x → pipe_rep x q →
  ∃ x' m, piperead_loop n p dst i o k = Ret (take n q) o (set_k_mem m (set_k_pipes (<[p := x']> (k_pipes k)) k)) ∧
    pipe_rep x' (drop n q) ∧ same_ends x x'.
Proof.
  intros Hdst. revert i k x q. induction n as [|n IH]; intros i k x q Hx Hq.
  - exists x, (k_mem k). cbn [piperead_loop]. rewrite insert_id by done. split; [by destruct k|done].
  - cbn [piperead_loop]. unfold piget. kstep. unfold id. rewrite (pipe_at_lookup k p x Hx), (pipe_empty_spec x q Hq).
    destruct q as [|c q].
    + rewrite bool_decide_eq_true_2 by done. exists x, (k_mem k). rewrite insert_id by done. split; [by destruct k|done].
    + rewrite bool_decide_eq_false_2 by done. destruct (pipe_get_spec x q c Hq) as [-> Hq']. unfold piset. kstep.
      rewrite (alter_pipe _ p _ x Hx). set (k1 := set_k_pipes _ k). destruct (Hdst i [c] o k1) as (m & Hd). kstep_with Hd.
      destruct (IH (i + 1) (set_k_mem m k1) _ q ltac:(unfold k1; cbn; by rewrite lookup_insert_eq) Hq') as (x' & m' & Hrun & Hrep & He).
      kstep_with Hrun. exists x', m'. split; [|done]. unfold k1, ret. cbn [k_pipes set_k_pipes set_k_mem]. rewrite insert_insert_eq.
      by destruct k.
Qed.

(** ** The operations *)

(** No lock the operations need is held on this CPU. *)
Record pipe_idle (p : Z) (k : K) : Prop := {
  pd_irq : irq_ok (k_hw k);
  pd_lock : h_locks (k_hw k) !! LPipe p = None;
  pd_table : h_locks (k_hw k) !! LPtable = None
}.

Lemma hw_acq_cr3 lk h : h_cr3 (hw_acq lk h) = h_cr3 h.
Proof. unfold hw_acq, hw_push, hw_upd. destruct h; cbn. by destruct (hw_cpu _) as [[? ?]|]. Qed.

(** The end of both operations: the other end is woken and the lock released. *)
Lemma pipe_finish p ch o k k1 :
  pipe_idle p k → k_hw k1 = hw_acq (LPipe p) (k_hw k) →
  (wakeup ch ;;; release (LPipe p)) o k1 =
  Ret tt o (set_k_hw (k_hw k) (set_k_ptable (wake_proc ch <$> k_ptable k1) k1)).
Proof.
  intros [I1 I2 I3] H1. rewrite (bind_step _ _ _ _ _ _ _ (wakeup_spec ch o k1
    ltac:(rewrite H1; by apply irq_ok_acq) ltac:(rewrite H1, h_locks_acq, lookup_insert_ne; done))).
  by rewrite (release_acquired (LPipe p) o k).
Qed.

Lemma pipewrite_run src l p o k x q :
  pipe_idle p k → mem_source src l k → k_pipes k !! p = Some x → pipe_rep x q →
  Z.of_nat (length q + length l) ≤ PIPESIZE →
  ∃ x', pipewrite p src (Z.of_nat (length l)) o k =
      Ret (Z.of_nat (length l)) o (set_k_ptable (wake_proc (CPipeR p) <$> k_ptable k) (set_k_pipes (<[p := x']> (k_pipes k)) k)) ∧
    pipe_rep x' (q ++ l) ∧ same_ends x x'.
Proof.
  intros Hi Hsrc Hx Hq Hl. unfold pipewrite. kstep_with (acquire_spec (LPipe p) o k (pd_irq _ _ Hi) (pd_lock _ _ Hi)).
  destruct (pipewrite_loop_spec src l k p (length l) 0 o (set_k_hw (hw_acq (LPipe p) (k_hw k)) k) x q) as (x' & Hrun & Hrep & He);
    try done; [apply hw_acq_cr3|].
  rewrite Nat2Z.id. kstep_with Hrun. exists x'. split; [|done].
  erewrite bind_prefix2; [|by eapply pipe_finish]. by destruct k.
Qed.

Lemma piperead_run dst n p o k x q :
  pipe_idle p k → sink_ok dst → k_pipes k !! p = Some x → pipe_rep x q → q ≠ [] ∨ pi_writeopen x = false →
  ∃ x' m, piperead p dst n o k =
      Ret (Z.of_nat (length (take (Z.to_nat n) q)), take (Z.to_nat n) q) o
        (set_k_mem m (set_k_ptable (wake_proc (CPipeW p) <$> k_ptable k) (set_k_pipes (<[p := x']> (k_pipes k)) k))) ∧
    pipe_rep x' (drop (Z.to_nat n) q) ∧ same_ends x x'.
Proof.
  intros Hi Hdst Hx Hq Hne. unfold piperead. kstep_with (acquire_spec (LPipe p) o k (pd_irq _ _ Hi) (pd_lock _ _ Hi)).
  set (k1 := set_k_hw (hw_acq (LPipe p) (k_hw k)) k).
  assert (forever (piperead_turn p) o k1 = Ret true o k1) as Ht.
  { apply forever_once. unfold piperead_turn, piget. kstep. unfold id. rewrite (pipe_at_lookup k1 p x Hx), (pipe_empty_spec x q Hq).
    destruct Hne as [Hne|Hne]; [by rewrite bool_decide_eq_false_2|]. by rewrite Hne, andb_false_r. }
  kstep_with Ht. destruct (piperead_loop_spec dst p (Z.to_nat n) 0 o k1 x q Hdst Hx Hq) as (x' & m & Hrun & Hrep & He).
  kstep_with Hrun. exists x', m. split; [|done].
  erewrite bind_prefix2; [|by eapply pipe_finish]. by destruct k.
Qed.

(** ** Refinement *)

Inductive pipe_op :=
| PWrite (l : list Z)
| PRead (n : Z).

(** What a queue of at most [PIPESIZE] bytes answers; [None] when the operation
    would have to wait. *)
Definition queue_op (op : pipe_op) (q : list Z) : option (Z * list Z * list Z) :=
  match op with
  | PWrite l =>
      if Z.of_nat (length q + length l) <=? PIPESIZE then Some (Z.of_nat (length l), [], q ++ l) else None
  | PRead n =>
      match q with
      | [] => None
      | _ => Some (Z.of_nat (length (take (Z.to_nat n) q)), take (Z.to_nat n) q, drop (Z.to_nat n) q)
      end
  end.

Fixpoint queue_ops (ops : list pipe_op) (q : list Z) : option (list (Z * list Z) * list Z) :=
  match ops with
  | [] => Some ([], q)
  | op :: ops =>
      match queue_op op q with
      | None => None
      | Some (r, l, q') =>
          match queue_ops ops q' with
          | None => None
          | Some (rs, q'') => Some ((r, l) :: rs, q'')
          end
      end
  end.

(** The same operations on a pipe. *)
Definition run_pipe_op (p : Z) (op : pipe_op) : M (Z * list Z) :=
  match op with
  | PWrite l => let! r := pipewrite p (kernel_source l) (Z.of_nat (length l)) in ret (r, [])
  | PRead n => piperead p kernel_sink n
  end.

Fixpoint run_pipe_ops (p : Z) (ops : list pipe_op) : M (list (Z * list Z)) :=
  match ops with
  | [] => ret []
  | op :: ops =>
      let! r := run_pipe_op p op in
      let! rs := run_pipe_ops p ops in
      ret (r :: rs)
  end.

Lemma run_pipe_op_spec p op o k x q r l q' :
  pipe_idle p k → k_pipes k !! p = Some x → pipe_rep x q → queue_op op q = Some (r, l, q') →
  ∃ k' x', run_pipe_op p op o k = Ret (r, l) o k' ∧ pipe_idle p k' ∧ k_pipes k' = <[p := x']> (k_pipes k) ∧ pipe_rep x' q' ∧ same_ends x x'.
Proof.
  intros Hi Hx Hq. destruct op as [w|n]; cbn [queue_op run_pipe_op].
  - destruct (Z.leb_spec (Z.of_nat (length q + length w)) PIPESIZE) as [Hl|]; [|done]. intros [= <- <- <-].
    destruct (pipewrite_run (kernel_source w) w p o k x q) as (x' & Hrun & Hrep & He); try done.
    kstep_with Hrun. eexists _, x'. split; [done|]. split_and!; try done. destruct Hi. by split.
  - destruct q as [|c q]; [done|]. intros [= <- <- <-].
    destruct (piperead_run kernel_sink n p o k x (c :: q)) as (x' & m & Hrun & Hrep & He); try done; [apply kernel_sink_ok|by left|].
    eexists _, x'. split; [exact Hrun|]. split_and!; try done. destruct Hi. by split.
Qed.

(** C13: A pipe implements a queue of bytes: every sequence of writes and reads
    that does not have to wait gives the answers of the abstract queue, so that
    bytes come out once, in the order in which they were put in, however the ring
    buffer and the 32-bit counters wrap around. *)
Theorem pipe_refines_queue p ops o k x q rs q' :
  pipe_idle p k → k_pipes k !! p = Some x → pipe_rep x q → queue_ops ops q = Some (rs, q') →
  ∃ k' x', run_pipe_ops p ops o k = Ret rs o k' ∧ k_pipes k' = <[p := x']> (k_pipes k) ∧ pipe_rep x' q' ∧ same_ends x x'.
Proof.
  revert k x q rs. induction ops as [|op ops IH]; intros k x q rs Hi Hx Hq; cbn [queue_ops run_pipe_ops].
  - intros [= <- <-]. exists k, x. by rewrite insert_id.
  - destruct (queue_op op q) as [[[r l] q1]|] eqn:E1; [|done]. destruct (queue_ops ops q1) as [[rs1 q2]|] eqn:E2; [|done]. intros [= <- <-].
    destruct (run_pipe_op_spec p op o k x q r l q1 Hi Hx Hq E1) as (k1 & x1 & Hrun & Hi1 & Hp1 & Hq1 & [He1 He2]). kstep_with Hrun.
    destruct (IH k1 x1 q1 rs1) as (k2 & x2 & Hrun2 & Hp2 & Hq2 & [He3 He4]); try done; [by rewrite Hp1, lookup_insert_eq|].
    kstep_with Hrun2. exists k2, x2. split; [done|]. split_and!; [by rewrite Hp2, Hp1, insert_insert_eq|done|split; congruence].
Qed.

(** A pipe whose counters are about to wrap around. *)
Definition demo_pipe : pipe := mk_pipe (replicate (Z.to_nat PIPESIZE) 0) 4294967295 4294967295 true true.

Lemma demo_pipe_rep : pipe_rep demo_pipe [].
Proof. split; try done. Qed.

Lemma pipe_refines_queue_witness :
  ∃ k', run_pipe_ops 4096 [PWrite [1; 2; 3]; PRead 2; PRead 5] [] (set_k_pipes {[4096 := demo_pipe]} (K_demo ∅)) =
    Ret [(3, []); (2, [1; 2]); (1, [3])] [] k'.
Proof.
  destruct (pipe_refines_queue 4096 [PWrite [1; 2; 3]; PRead 2; PRead 5] [] (set_k_pipes {[4096 := demo_pipe]} (K_demo ∅))
    demo_pipe [] [(3, []); (2, [1; 2]); (1, [3])] []) as (k' & x' & Hrun & _).
  - split; [apply demo_irq_ok|vm_compute; reflexivity|vm_compute; reflexivity].
  - reflexivity.
  - apply demo_pipe_rep.
  - reflexivity.
  - exists k'. exact Hrun.
Defined.

(** The ends of a pipe: when the writers are gone, a reader gets what is
    left, and nothing once the pipe is empty, without waiting; when the readers
    are gone, writing to a full pipe fails with -1 and changes nothing. *)
Theorem pipe_ends p src dst n o k x q :
  pipe_idle p k → sink_ok dst → k_pipes k !! p = Some x → pipe_rep x q →
  (pi_writeopen x = false → ∃ k', piperead p dst n o k = Ret (Z.of_nat (length (take (Z.to_nat n) q)), take (Z.to_nat n) q) o k') ∧
  (pi_readopen x = false → Z.of_nat (length q) = PIPESIZE → 0 < n → pipewrite p src n o k = Ret (-1) o k).
Proof.
  intros Hi Hdst Hx Hq. split.
  - intros Hw. destruct (piperead_run dst n p o k x q) as (x' & m & Hrun & _); try done; [by right|]. by eexists.
  - intros Hr Hl Hn. unfold pipewrite. kstep_with (acquire_spec (LPipe p) o k (pd_irq _ _ Hi) (pd_lock _ _ Hi)).
    destruct (Z.to_nat n) as [|m] eqn:En; [lia|]. cbn [pipewrite_loop]. set (k1 := set_k_hw (hw_acq (LPipe p) (k_hw k)) k).
    assert (forever (pipewrite_turn p) o k1 = Ret false o k) as Ht.
    { apply forever_once. unfold pipewrite_turn, piget. kstep. unfold id. rewrite (pipe_at_lookup k1 p x Hx), (pipe_full_spec x q Hq).
      rewrite Hl, Z.eqb_refl, Hr. cbn [negb]. kstep.
      kstep_with (release_acquired (LPipe p) o k k1 (pd_irq _ _ Hi) (pd_lock _ _ Hi) eq_refl). by destruct k. }
    rewrite bind_assoc. by kstep_with Ht.
Qed.

(** The empty pipe with its writers gone. *)
Lemma pipe_ends_witness :
  ∃ k', piperead 4096 kernel_sink 9 [] (set_k_pipes {[4096 := set_pi_writeopen false demo_pipe]} (K_demo ∅)) = Ret (0, []) [] k'.
Proof.
  destruct (pipe_ends 4096 (kernel_source []) kernel_sink 9 [] (set_k_pipes {[4096 := set_pi_writeopen false demo_pipe]} (K_demo ∅))
    (set_pi_writeopen false demo_pipe) []) as [Hread _].
  - split; [apply demo_irq_ok|vm_compute; reflexivity|vm_compute; reflexivity].
  - apply kernel_sink_ok.
  - reflexivity.
  - destruct demo_pipe_rep. by split.
  - exact (Hread eq_refl).
Defined.
