(* ===== verification/File.v ===== *)
(** * Open files ([file.c], and [pipealloc] of [pipe.c])

    The file table is the list [k_ftable]; a [struct file *] is an index. *)

From stdpp Require Import base numbers list gmap strings.
From S2P Require Import Prelude Mmu Hardware Memory Bytes Kernel Spinlock Kalloc Cprintf Vm Proc Sleeplock Blockdev Bio Log Fs Pipe.

Implicit Types (k : K) (o : oracle).

(** ** Translated code *)

Definition file_at (k : K) (f : nat) : file := default zero_file (k_ftable k !! f).
Definition fget {A} (g : file → A) (f : nat) : M A := reads (λ k, g (file_at k f)).
Definition fset (f : nat) (g : file → file) : M unit :=
  modify (λ k, set_k_ftable (alter g f (k_ftable k)) k).

Definition fileinit : M unit := initlock LFtable.

Definition filealloc : M (option nat) :=
  acquire LFtable ;;;
  let! found := reads (λ k, list_find (λ f, f_ref f = 0) (k_ftable k)) in
  match found with
  | Some (f, _) =>
      fset f (set_f_ref 1) ;;;
      release LFtable ;;;
      ret (Some f)
  | None => release LFtable ;;; ret None
  end.

Definition filedup (f : nat) : M nat :=
  acquire LFtable ;;;
  let! r := fget f_ref f in
  if r <? 1 then panic "filedup"
  else
    fset f (λ x, set_f_ref (f_ref x + 1) x) ;;;
    release LFtable ;;;
    ret f.

Section file.
Context {DEV : BlockDev}.

Definition fileclose (f : nat) : M unit :=
  acquire LFtable ;;;
  let! r := fget f_ref f in
  if r <? 1 then panic "fileclose"
  else
    fset f (λ x, set_f_ref (f_ref x - 1) x) ;;;
    let! ff := fget id f in
    if 0 <? f_ref ff then release LFtable
    else
      fset f (set_f_ref 0) ;;;
      fset f (set_f_type FD_NONE) ;;;
      release LFtable ;;;
      match f_type ff with
      | FD_PIPE => pipeclose (f_pipe ff) (f_writable ff)
      | FD_INODE => begin_op ;;; deref (f_ip ff) iput ;;; end_op
      | FD_NONE => ret tt
      end.

(** [0] and the [struct stat] filled in, or [-1]. *)
Definition filestat (f : nat) : M (option stat) :=
  let! ff := fget id f in
  match f_type ff with
  | FD_INODE =>
      ilock (f_ip ff) ;;;
      let! st := deref (f_ip ff) stati in
      iunlock (f_ip ff) ;;;
      ret (Some st)
  | _ => ret None
  end.

(** The bytes of the page a new pipe gets, where [data] is in [struct pipe]. *)
Definition pipe_junk (k : K) (p : Z) : list Z :=
  (λ j, ld8 (k_mem k) (p + 52 + Z.of_nat j)) <$> seq 0 (Z.to_nat PIPESIZE).

Definition pipealloc : M (option (nat * nat)) :=
  let! f0 := filealloc in
  match f0 with
  | None => ret None
  | Some f0 =>
      let! f1 := filealloc in
      match f1 with
      | None => fileclose f0 ;;; ret None
      | Some f1 =>
          let! p := kalloc in
          if p =? 0 then fileclose f0 ;;; fileclose f1 ;;; ret None
          else
            modify (λ k, set_k_pipes (<[p := mk_pipe (pipe_junk k p) 0 0 true true]> (k_pipes k)) k) ;;;
            initlock (LPipe p) ;;;
            fset f0 (λ x, set_f_pipe p (set_f_writable false (set_f_readable true (set_f_type FD_PIPE x)))) ;;;
            fset f1 (λ x, set_f_pipe p (set_f_writable true (set_f_readable false (set_f_type FD_PIPE x)))) ;;;
            ret (Some (f0, f1))
      end
  end.

Context {DSW : Devsw}.

Definition fileread (f : nat) (addr : sink) (n : Z) : M (Z * list Z) :=
  let! ff := fget id f in
  if negb (f_readable ff) then ret (-1, [])
  else
    match f_type ff with
    | FD_PIPE => piperead (f_pipe ff) addr n
    | FD_INODE =>
        ilock (f_ip ff) ;;;
        let! off := fget f_off f in
        let! r := deref (f_ip ff) (λ ip, readi ip addr off (u32 n)) in
        when (0 <? fst r) (fset f (λ x, set_f_off (u32 (f_off x + fst r)) x)) ;;;
        iunlock (f_ip ff) ;;;
        ret r
    | FD_NONE => panic "fileread"
    end.

(** The most bytes one transaction may write. *)
Definition max_chunk : Z := (Z.of_nat MAXOPBLOCKS - 1 - 1 - 2) / 2 * 512.

(** The bytes from [addr + i]. *)
Definition source_at (addr : source) (i : Z) : source := λ tot m, addr (i + tot) m.

Fixpoint filewrite_loop (fuel : nat) (f : nat) (ip : option nat) (addr : source) (n i : Z) : M Z :=
  if i <? n then
    match fuel with
    | O => panic "out of fuel"
    | S fuel =>
        let n1 := Z.min (n - i) max_chunk in
        begin_op ;;;
        ilock ip ;;;
        let! off := fget f_off f in
        let! r := deref ip (λ ip, writei ip (source_at addr i) off n1) in
        when (0 <? r) (fset f (λ x, set_f_off (u32 (f_off x + r)) x)) ;;;
        iunlock ip ;;;
        end_op ;;;
        if r <? 0 then ret i
        else if negb (r =? n1) then panic "short filewrite"
        else filewrite_loop fuel f ip addr n (i + r)
    end
  else ret i.

Definition filewrite (f : nat) (addr : source) (n : Z) : M Z :=
  let! ff := fget id f in
  if negb (f_writable ff) then ret (-1)
  else
    match f_type ff with
    | FD_PIPE => pipewrite (f_pipe ff) addr n
    | FD_INODE =>
        let! i := filewrite_loop (Z.to_nat n) f (f_ip ff) addr n 0 in
        ret (if i =? n then n else -1)
    | FD_NONE => panic "filewrite"
    end.
End file.
