(* ===== verification/ProcLife.v ===== *)
(** * Life and death of processes ([userinit], [fork], [clone], [exit],
      [forkret], [procdump] of [proc.c])

    The part of [proc.c] that handles the open files and the current
    directory of a process. *)

From stdpp Require Import base numbers list gmap strings.
From S2P Require Import Prelude Mmu Hardware Memory Bytes Kernel Spinlock Kalloc Cprintf Vm Proc Thread Sleeplock Blockdev Bio Log Fs Pipe File.

Implicit Types (k : K) (o : oracle).

Definition DEFAULT_TICKETS : Z := 1.
Definition FL_IF : Z := 0x200.

(** ** Translated code *)

(** [p->ofile[fd] = v]. *)
Definition set_ofile (fd : nat) (v : option nat) (p : proc) : proc :=
  set_p_ofile (<[fd := v]> (p_ofile p)) p.
Definition ofile_at (fd : nat) (p : proc) : option nat := default None (p_ofile p !! fd).

(** [safestrcpy(p->name, t, sizeof(p->name))]. *)
Definition set_name (p : nat) (t : list Z) : M unit :=
  let! name := pget p_name p in
  match safestrcpy name t 16 with
  | Some name => pset p (set_p_name name)
  | None => panic "read past the end of a name"
  end.

(** The loop that gives the new process the open files of the current one. *)
Fixpoint dup_files (n : nat) (cur np : nat) (i : nat) : M unit :=
  match n with
  | O => ret tt
  | S n =>
      let! f := pget (ofile_at i) cur in
      match f with
      | Some f => let! f := filedup f in pset np (set_ofile i (Some f))
      | None => ret tt
      end ;;;
      dup_files n cur np (S i)
  end.

Definition fork : M Z :=
  let! cur := curproc in
  let! np := allocproc in
  match np with
  | None => ret (-1)
  | Some np =>
      let! c := pget id cur in
      let! pgdir := copyuvm (p_pgdir c) (p_sz c) in
      pset np (set_p_pgdir pgdir) ;;;
      if pgdir =? 0 then
        let! kstack := pget p_kstack np in
        kfree kstack ;;;
        pset np (set_p_kstack 0) ;;;
        pset np (set_p_state UNUSED) ;;;
        ret (-1)
      else
        let! c := pget id cur in
        pset np (set_p_sz (p_sz c)) ;;;
        pset np (set_p_parent (Some cur)) ;;;
        pset np (set_p_tf (set_tf_eax 0 (p_tf c))) ;;;
        pset np (set_p_tickets DEFAULT_TICKETS) ;;;
        dup_files NOFILE cur np 0 ;;;
        let! cwd := pget p_cwd cur in
        let! cwd := idup cwd in
        pset np (set_p_cwd cwd) ;;;
        let! name := pget p_name cur in
        set_name np name ;;;
        let! pid := pget p_pid np in
        acquire LPtable ;;;
        pset np (set_p_state RUNNABLE) ;;;
        release LPtable ;;;
        ret pid
  end.

(** [getcallerpcs], on the memory it walks. *)
Fixpoint caller_pcs (n : nat) (m : mem) (ebp : Z) : list Z :=
  match n with
  | O => []
  | S n =>
      if (ebp =? 0) || (ebp <? KERNBASE) || (ebp =? 0xffffffff) then replicate (S n) 0
      else ld32 m (ebp + 4) :: caller_pcs n m (ld32 m ebp)
  end.
Definition getcallerpcs (m : mem) (v : Z) : list Z := caller_pcs 10 m (u32 (v - 8)).

Definition state_name (s : procstate) : string :=
  match s with
  | UNUSED => "unused" | EMBRYO => "embryo" | SLEEPING => "sleep " | RUNNABLE => "runble"
  | RUNNING => "run   " | ZOMBIE => "zombie"
  end.

Fixpoint print_pcs (pcs : list Z) : M unit :=
  match pcs with
  | [] => ret tt
  | pc :: pcs => if pc =? 0 then ret tt else cprintf " %p" [AInt pc] ;;; print_pcs pcs
  end.

Fixpoint procdump_loop (n p : nat) : M unit :=
  match n with
  | O => ret tt
  | S n =>
      let! q := pget id p in
      when (bool_decide (p_state q ≠ UNUSED))
        (cprintf "%d %s %s"
           [AInt (p_pid q); AStr (Some (str (state_name (p_state q)))); AStr (Some (cstr 16 (p_name q)))] ;;;
         when (bool_decide (p_state q = SLEEPING))
           (let! pcs := reads (λ k, getcallerpcs (k_mem k) (x_ebp (p_context q) + 8)) in
            print_pcs pcs) ;;;
         cprintf nl []) ;;;
      procdump_loop n (S p)
  end.

Definition procdump : M unit := procdump_loop NPROC 0.

Section life.
Context {DEV : BlockDev}.

(** Closing the descriptors from [fd] on. *)
Fixpoint close_files (n : nat) (cur fd : nat) : M unit :=
  match n with
  | O => ret tt
  | S n =>
      let! f := pget (ofile_at fd) cur in
      match f with
      | Some f => fileclose f ;;; pset cur (set_ofile fd None)
      | None => ret tt
      end ;;;
      close_files n cur (S fd)
  end.

(** [wakeup1] on a process pointer; no process sleeps on the null pointer. *)
Definition wakeup_proc (p : option nat) : M unit :=
  match p with
  | Some p => wakeup1 (CProc p)
  | None => ret tt
  end.

(** Passing abandoned children to init. *)
Fixpoint reparent (n : nat) (cur p : nat) : M unit :=
  match n with
  | O => ret tt
  | S n =>
      let! q := pget id p in
      when (bool_decide (p_parent q = Some cur))
        (let! initproc := reads k_initproc in
         pset p (set_p_parent initproc) ;;;
         when (bool_decide (p_state q = ZOMBIE)) (wakeup_proc initproc)) ;;;
      reparent n cur (S p)
  end.

Definition exit {A} : M A :=
  let! cur := curproc in
  let! initproc := reads k_initproc in
  if bool_decide (initproc = Some cur) then panic "init exiting"
  else
    close_files NOFILE cur 0 ;;;
    begin_op ;;;
    let! cwd := pget p_cwd cur in
    deref cwd iput ;;;
    end_op ;;;
    pset cur (set_p_cwd None) ;;;
    acquire LPtable ;;;
    let! parent := pget p_parent cur in
    wakeup_proc parent ;;;
    reparent NPROC cur 0 ;;;
    pset cur (set_p_state ZOMBIE) ;;;
    sched ;;;
    panic "zombie exit".

Definition forkret : M unit :=
  release LPtable ;;;
  let! first := reads k_first in
  when first (modify (set_k_first false) ;;; iinit ROOTDEV ;;; initlog ROOTDEV).

Definition clone (function arg stack : Z) : M Z :=
  let! cur := curproc in
  let! c := pget id cur in
  when ((p_sz c <? u32 (stack + PGSIZE)) || negb (stack mod PGSIZE =? 0)) exit ;;;
  let! np := allocproc in
  match np with
  | None => ret (-1)
  | Some np =>
      let! pid := pget p_pid np in
      let! c := pget id cur in
      pset np (set_p_pgdir (p_pgdir c)) ;;;
      pset np (set_p_sz (p_sz c)) ;;;
      pset np (set_p_parent (Some cur)) ;;;
      pset np (set_p_tf (set_tf_eax 0 (p_tf c))) ;;;
      pset np (set_p_ustack stack) ;;;
      let stack_bottom := u32 (stack + PGSIZE) in
      vwr32 (u32 (stack_bottom - 4)) arg ;;;
      vwr32 (u32 (stack_bottom - 8)) 0xffffffff ;;;
      pset np (λ p, set_p_tf (set_tf_esp (u32 (stack_bottom - 8)) (p_tf p)) p) ;;;
      pset np (λ p, set_p_tf (set_tf_eip function (p_tf p)) p) ;;;
      dup_files NOFILE cur np 0 ;;;
      let! cwd := pget p_cwd cur in
      let! cwd := idup cwd in
      pset np (set_p_cwd cwd) ;;;
      let! name := pget p_name cur in
      set_name np name ;;;
      acquire LPtable ;;;
      let! parent := pget p_parent np in
      deref parent (λ q, let! t := pget p_tickets q in pset np (set_p_tickets t)) ;;;
      pset np (set_p_state RUNNABLE) ;;;
      release LPtable ;;;
      (* increment thread count by one *)
      let! refs := pget p_refs cur in
      pset np (set_p_refs refs) ;;;
      let! n := vrd32 refs in
      vwr32 refs (u32 (n + 1)) ;;;
      let! name := pget p_name cur in
      set_name np name ;;;
      ret pid
  end.

Context {DSW : Devsw}.

(** [initcode] is the program the build embeds in the kernel. *)
Definition userinit (initcode : list Z) : M unit :=
  let! p := allocproc in
  modify (set_k_initproc p) ;;;
  deref p (λ p,
    let! pgdir := setupkvm in
    pset p (set_p_pgdir pgdir) ;;;
    if pgdir =? 0 then panic "userinit: out of memory?"
    else
      inituvm pgdir initcode ;;;
      pset p (set_p_sz PGSIZE) ;;;
      let cs := Z.lor (Z.shiftl SEG_UCODE 3) DPL_USER in
      let ds := Z.lor (Z.shiftl SEG_UDATA 3) DPL_USER in
      pset p (set_p_tf
        (set_tf_eip 0 (set_tf_esp PGSIZE (set_tf_eflags FL_IF (set_tf_ss ds (set_tf_es ds
          (set_tf_ds ds (set_tf_cs cs zero_tf)))))))) ;;;
      pset p (set_p_tickets DEFAULT_TICKETS) ;;;
      set_name p (str "initcode" ++ [0]) ;;;
      let! cwd := namei (str "/") in
      pset p (set_p_cwd cwd) ;;;
      acquire LPtable ;;;
      pset p (set_p_state RUNNABLE) ;;;
      release LPtable).
End life.
