(* ===== verification/Console.v ===== *)
(** * Console input and the console device ([consoleintr], [consoleread],
      [consolewrite], [consoleinit] of [console.c])

    The ring buffer [input] is edited by the interrupt handler and read by
    processes.  The console fills the device switch the file system uses. *)

From stdpp Require Import base numbers list gmap strings.
From S2P Require Import Prelude Mmu Hardware Memory Bytes Kernel Spinlock Kalloc Cprintf Vm Proc Sleeplock Blockdev Memide Bio Log Fs FsFiles Pipe File Thread ProcLife.

Implicit Types (k : K) (o : oracle).

Definition INPUT_BUF : Z := 128.
Definition CONSOLE : Z := 1.
Definition NEWLINE : Z := 10.
(** [C('D')], [C('H')], [C('P')], [C('U')]. *)
Definition ctrl_D : Z := 4.
Definition ctrl_H : Z := 8.
Definition ctrl_P : Z := 16.
Definition ctrl_U : Z := 21.
Definition DELETE : Z := 127.

(** ** Translated code *)

Definition cget {A} (f : console → A) : M A := reads (λ k, f (k_cons k)).
Definition cset (f : console → console) : M unit := modify (λ k, set_k_cons (f (k_cons k)) k).

Definition in_at (c : console) (i : Z) : Z := default 0 (in_buf c !! Z.to_nat (i mod INPUT_BUF)).

(** [input.e--; consputc(BACKSPACE);] *)
Definition rub_out : M unit :=
  cset (λ c, set_in_e (u32 (in_e c - 1)) c) ;;; consputc BACKSPACE.

(** The loop that kills a line. *)
Fixpoint kill_line (fuel : nat) : M unit :=
  let! c := cget id in
  if negb (in_e c =? in_w c) && negb (in_at c (u32 (in_e c - 1)) =? NEWLINE) then
    match fuel with
    | O => panic "out of fuel"
    | S fuel => rub_out ;;; kill_line fuel
    end
  else ret tt.

Definition type_char (c : Z) : M unit :=
  let! x := cget id in
  when (negb (c =? 0) && (u32 (in_e x - in_r x) <? INPUT_BUF))
    (let c := if c =? 13 then NEWLINE else c in
     cset (λ x, set_in_buf (<[Z.to_nat (in_e x mod INPUT_BUF) := u8 c]> (in_buf x)) x) ;;;
     cset (λ x, set_in_e (u32 (in_e x + 1)) x) ;;;
     consputc c ;;;
     let! x := cget id in
     when ((c =? NEWLINE) || (c =? ctrl_D) || (in_e x =? u32 (in_r x + INPUT_BUF)))
       (cset (λ x, set_in_w (in_e x) x) ;;; wakeup CInput)).

(** One character; the result says whether a process listing was asked for. *)
Definition console_char (c : Z) (doprocdump : bool) : M bool :=
  if c =? ctrl_P then ret true
  else if c =? ctrl_U then
    let! x := cget id in kill_line (Z.to_nat (u32 (in_e x - in_w x))) ;;; ret doprocdump
  else if (c =? ctrl_H) || (c =? DELETE) then
    let! x := cget id in
    when (negb (in_e x =? in_w x)) rub_out ;;;
    ret doprocdump
  else type_char c ;;; ret doprocdump.

Fixpoint console_chars (cs : list Z) (doprocdump : bool) : M bool :=
  match cs with
  | [] => ret doprocdump
  | c :: cs => let! d := console_char c doprocdump in console_chars cs d
  end.

(** [cs] is what [getc] gives before its first negative result. *)
Definition consoleintr (cs : list Z) : M unit :=
  acquire LCons ;;;
  let! doprocdump := console_chars cs false in
  release LCons ;;;
  when doprocdump procdump.

Definition consoleinit : M unit :=
  initlock LCons ;;;
  cset (set_cons_locking true).

Section console.
Context {DEV : BlockDev}.

(** One turn of the loop that waits for a line: [Some false] when killed. *)
Definition consoleread_turn (ip : nat) : M (option bool) :=
  let! c := cget id in
  if in_r c =? in_w c then
    let! cur := curproc in
    let! killed := pget p_killed cur in
    if killed then release LCons ;;; ilock (Some ip) ;;; ret (Some false)
    else sleep CInput (Some LCons) ;;; ret None
  else ret (Some true).

(** The outer loop with [n] bytes wanted still of [target]: the bytes
    delivered, or [None] when the process was killed. *)
Fixpoint consoleread_loop (n : nat) (ip : nat) (dst : sink) (tot : Z) : M (option (list Z)) :=
  match n with
  | O => ret (Some [])
  | S n =>
      let! ok := forever (consoleread_turn ip) in
      if ok then
        let! c := cget (λ x, in_at x (in_r x)) in
        cset (λ x, set_in_r (u32 (in_r x + 1)) x) ;;;
        if c =? ctrl_D then
          when (0 <? tot) (cset (λ x, set_in_r (u32 (in_r x - 1)) x)) ;;;
          ret (Some [])
        else
          dst tot [c] ;;;
          if c =? NEWLINE then ret (Some [c])
          else
            let! l := consoleread_loop n ip dst (tot + 1) in
            ret (cons c <$> l)
      else ret None
  end.

Definition consoleread (ip : nat) (dst : sink) (n : Z) : M (Z * list Z) :=
  iunlock (Some ip) ;;;
  acquire LCons ;;;
  let! l := consoleread_loop (Z.to_nat n) ip dst 0 in
  match l with
  | None => ret (-1, [])
  | Some l =>
      release LCons ;;;
      ilock (Some ip) ;;;
      ret (Z.of_nat (length l), l)
  end.

(** [buf[i]] is read with the lock of the console held. *)
Fixpoint consolewrite_loop (n : nat) (buf : source) (i : Z) : M unit :=
  match n with
  | O => ret tt
  | S n =>
      let! c := buf i 1 in
      consputc (default 0 (c !! 0%nat)) ;;;
      consolewrite_loop n buf (i + 1)
  end.

Definition consolewrite (ip : nat) (buf : source) (n : Z) : M Z :=
  iunlock (Some ip) ;;;
  acquire LCons ;;;
  consolewrite_loop (Z.to_nat n) buf 0 ;;;
  release LCons ;;;
  ilock (Some ip) ;;;
  ret n.

(** [devsw] as [consoleinit] leaves it. *)
#[global] Instance console_devsw : Devsw := {
  dev_read major := if major =? CONSOLE then Some consoleread else None;
  dev_write major := if major =? CONSOLE then Some consolewrite else None
}.
End console.

(** ** The line editor

    What the ring buffer stands for: the input [l] that is ready for readers
    (from [r] to [w]) and the line [e] that is still edited (from [w] to [e]). *)

Record input_rep (c : console) (l e : list Z) : Prop := {
  ir_buf : length (in_buf c) = Z.to_nat INPUT_BUF;
  ir_read : 0 ≤ in_r c < 4294967296;
  ir_len : Z.of_nat (length l + length e) ≤ INPUT_BUF;
  ir_write : in_w c = u32 (in_r c + Z.of_nat (length l));
  ir_edit : in_e c = u32 (in_r c + Z.of_nat (length l + length e));
  ir_byte j b : (l ++ e) !! j = Some b → in_buf c !! Z.to_nat ((in_r c + Z.of_nat j) mod INPUT_BUF) = Some b;
  ir_line : NEWLINE ∉ e
}.

(** What one character does to the ready input and the edited line. *)
Definition edit_char (c : Z) (s : list Z * list Z) : list Z * list Z :=
  let '(l, e) := s in
  if c =? ctrl_P then (l, e)
  else if c =? ctrl_U then (l, [])
  else if (c =? ctrl_H) || (c =? DELETE) then (l, take (length e - 1) e)
  else if (c =? 0) || (INPUT_BUF <=? Z.of_nat (length l + length e)) then (l, e)
  else
    let c := if c =? 13 then NEWLINE else c in
    if (c =? NEWLINE) || (c =? ctrl_D) || (Z.of_nat (length l + length e) + 1 =? INPUT_BUF)
    then (l ++ e ++ [c], [])
    else (l, e ++ [c]).

Definition edit_chars (cs : list Z) (s : list Z * list Z) : list Z * list Z := foldl (λ s c, edit_char c s) s cs.

Lemma input_ring_wrap a : (a mod 4294967296) mod INPUT_BUF = a mod INPUT_BUF.
Proof. unfold INPUT_BUF. lia_mod. Qed.

(** The edited line is empty exactly when [e] has caught up with [w]. *)
Lemma edit_empty c l e : input_rep c l e → (in_e c =? in_w c) = bool_decide (e = []).
Proof.
  intros [P1 P2 P3 P4 P5 P6 P7]. rewrite P4, P5. unfold u32, INPUT_BUF in *. destruct e as [|x e].
  - rewrite bool_decide_eq_true_2 by done. apply Z.eqb_eq. f_equal. cbn. lia.
  - rewrite bool_decide_eq_false_2 by done. apply Z.eqb_neq. cbn [length] in *. clear -P2 P3. lia_mod.
Qed.

Lemma edit_size c l e : input_rep c l e → u32 (in_e c - in_r c) = Z.of_nat (length l + length e).
Proof. intros [P1 P2 P3 P4 P5 P6 P7]. rewrite P5. unfold u32, INPUT_BUF in *. clear -P2 P3. lia_mod. Qed.

Lemma edit_pending c l e : input_rep c l e → u32 (in_e c - in_w c) = Z.of_nat (length e).
Proof. intros [P1 P2 P3 P4 P5 P6 P7]. rewrite P4, P5. unfold u32, INPUT_BUF in *. clear -P2 P3. lia_mod. Qed.

Lemma ready_empty c l e : input_rep c l e → (in_r c =? in_w c) = bool_decide (l = []).
Proof.
  intros [P1 P2 P3 P4 P5 P6 P7]. rewrite P4. unfold u32, INPUT_BUF in *. destruct l as [|x l].
  - rewrite bool_decide_eq_true_2 by done. apply Z.eqb_eq. cbn. clear -P2. lia_mod.
  - rewrite bool_decide_eq_false_2 by done. apply Z.eqb_neq. cbn [length] in *. clear -P2 P3. lia_mod.
Qed.

(** Rubbing out the last character of the edited line. *)
Lemma rub_rep c l e x out :
  input_rep c l (e ++ [x]) → input_rep (set_cons_out out (set_in_e (u32 (in_e c - 1)) c)) l e.
Proof.
  intros [P1 P2 P3 P4 P5 P6 P7]. rewrite length_app in P3, P5. cbn [length] in P3, P5.
  split; cbn [in_buf in_r in_w in_e set_cons_out set_in_e]; try done.
  - lia.
  - rewrite P5. unfold u32. clear -P2. lia_mod.
  - intros j b Hj. apply P6. rewrite app_assoc. by apply lookup_app_l_Some.
  - set_solver.
Qed.

(** The bytes of the buffer when one is added at its end. *)
Lemma ring_put c l e x j b :
  input_rep c l e → Z.of_nat (length l + length e) < INPUT_BUF → (l ++ e ++ [x]) !! j = Some b →
  <[Z.to_nat (in_e c mod INPUT_BUF) := x]> (in_buf c) !! Z.to_nat ((in_r c + Z.of_nat j) mod INPUT_BUF) = Some b.
Proof.
  intros [P1 P2 P3 P4 P5 P6 P7] Hl. rewrite P5. unfold u32. rewrite input_ring_wrap, app_assoc. intros [Hj|[Hj Hb]]%lookup_app_Some.
  - assert (j < length l + length e)%nat as Hjl by (rewrite <- length_app; by eapply lookup_lt_Some).
    rewrite list_lookup_insert_ne; [by apply P6|]. unfold INPUT_BUF in *. clear -Hjl Hl P2. lia_mod.
  - rewrite length_app in *. destruct (j - (length l + length e))%nat as [|m] eqn:E; [|done]. injection Hb as ->.
    assert (j = length l + length e)%nat as -> by lia.
    apply list_lookup_insert_eq. rewrite P1. unfold INPUT_BUF. lia_mod.
Qed.

(** Typing a character. *)
Lemma put_rep c l e x out :
  input_rep c l e → Z.of_nat (length l + length e) < INPUT_BUF → x ≠ NEWLINE →
  input_rep (set_cons_out out (set_in_e (u32 (in_e c + 1))
    (set_in_buf (<[Z.to_nat (in_e c mod INPUT_BUF) := x]> (in_buf c)) c))) l (e ++ [x]).
Proof.
  intros Hc Hl Hx. destruct (id Hc) as [P1 P2 P3 P4 P5 P6 P7]. split; cbn [in_buf in_r in_w in_e set_cons_out set_in_e set_in_buf]; try done.
  - by rewrite length_insert.
  - rewrite length_app. cbn [length]. lia.
  - rewrite P5, length_app. cbn [length]. unfold u32. clear -P2. lia_mod.
  - intros j b Hj. by eapply ring_put.
  - set_solver.
Qed.

(** The edited line, with its last character, becomes ready. *)
Lemma commit_rep c l e x out :
  input_rep c l e → Z.of_nat (length l + length e) < INPUT_BUF →
  let c1 := set_cons_out out (set_in_e (u32 (in_e c + 1)) (set_in_buf (<[Z.to_nat (in_e c mod INPUT_BUF) := x]> (in_buf c)) c)) in
  input_rep (set_in_w (in_e c1) c1) (l ++ e ++ [x]) [].
Proof.
  intros Hc Hl. destruct (id Hc) as [P1 P2 P3 P4 P5 P6 P7]. split; cbn [in_buf in_r in_w in_e set_cons_out set_in_e set_in_buf set_in_w]; try done.
  - by rewrite length_insert.
  - rewrite !length_app. cbn [length]. lia.
  - rewrite P5, !length_app. cbn [length]. unfold u32. clear -P2. lia_mod.
  - rewrite P5, !length_app. cbn [length]. unfold u32. clear -P2. lia_mod.
  - rewrite app_nil_r. intros j b Hj. by eapply ring_put.
  - set_solver.
Qed.

(** *** Running the handler *)

(** What the handler leaves: a new console, and the readers woken when input
    became ready. *)
Definition handled (l l' : list Z) (c' : console) (k k' : K) : Prop :=
  ∃ pt, k' = set_k_cons c' (set_k_ptable pt k) ∧
    ((pt = k_ptable k ∧ l' = l) ∨ pt = wake_proc CInput <$> k_ptable k) ∧ cons_panicked c' = false.

Lemma wake_proc_idem ch p : wake_proc ch (wake_proc ch p) = wake_proc ch p.
Proof.
  unfold wake_proc at 2 3. destruct (_ && _) eqn:E; [|unfold wake_proc; by rewrite E].
  unfold wake_proc. by destruct p.
Qed.

Lemma handled_trans l1 l2 l3 c2 c3 k1 k2 k3 : handled l1 l2 c2 k1 k2 → handled l2 l3 c3 k2 k3 → handled l1 l3 c3 k1 k3.
Proof.
  intros (pt & -> & H1 & _) (pt' & -> & H2 & ?). exists pt'. split; [by destruct k1|]. split; [|done].
  cbn in H2. destruct H1 as [[-> ->]| ->]; [done|]. right. destruct H2 as [[-> _]| ->]; [done|].
  rewrite <- list_fmap_compose. apply list_fmap_ext. intros; apply wake_proc_idem.
Qed.

Lemma handled_same l c' k k' : k' = set_k_cons c' k → cons_panicked c' = false → handled l l c' k k'.
Proof. intros -> ?. exists (k_ptable k). split; [by destruct k|]. split; [by left|done]. Qed.

Lemma consputc_run c o k :
  cons_panicked (k_cons k) = false →
  consputc c o k = Ret tt o (set_k_cons (set_cons_out (cons_out (k_cons k) ++ [c]) (k_cons k)) k).
Proof. intros Hp. unfold consputc. by rewrite Hp. Qed.

Lemma rub_out_run o k :
  cons_panicked (k_cons k) = false →
  ∃ out, rub_out o k = Ret tt o (set_k_cons (set_cons_out out (set_in_e (u32 (in_e (k_cons k) - 1)) (k_cons k))) k).
Proof. intros Hp. eexists. unfold rub_out, cset. kstep. unfold consputc. cbn. rewrite Hp. by destruct k. Qed.

Lemma kill_line_spec o k l e :
  input_rep (k_cons k) l e → cons_panicked (k_cons k) = false →
  ∃ c', kill_line (length e) o k = Ret tt o (set_k_cons c' k) ∧ input_rep c' l [] ∧ cons_panicked c' = false.
Proof.
  revert k. induction e as [|x e IH] using rev_ind; intros k Hr Hp.
  - exists (k_cons k). cbn [kill_line length]. unfold cget. kstep. unfold id. rewrite (edit_empty _ _ _ Hr). cbn. by destruct k.
  - rewrite length_app, Nat.add_1_r. cbn [kill_line]. unfold cget. kstep. unfold id. rewrite (edit_empty _ _ _ Hr).
    rewrite bool_decide_eq_false_2 by (by destruct e). destruct (id Hr) as [P1 P2 P3 P4 P5 P6 P7].
    assert (in_at (k_cons k) (u32 (in_e (k_cons k) - 1)) = x) as Hx.
    { unfold in_at. rewrite P5, length_app. cbn [length].
      replace (u32 _ mod INPUT_BUF) with ((in_r (k_cons k) + Z.of_nat (length l + length e)) mod INPUT_BUF)
        by (unfold u32, INPUT_BUF; clear; lia_mod).
      rewrite (P6 _ x); [done|]. rewrite app_assoc, <- length_app. by apply list_lookup_middle. }
    rewrite Hx, (proj2 (Z.eqb_neq x NEWLINE)) by set_solver. cbn [negb andb].
    destruct (rub_out_run o k Hp) as [out Hrun]. kstep_with Hrun.
    destruct (IH (set_k_cons (set_cons_out out (set_in_e (u32 (in_e (k_cons k) - 1)) (k_cons k))) k)) as (c' & Hk & Hr' & Hp').
    + by eapply rub_rep.
    + done.
    + exists c'. rewrite Hk. by destruct k.
Qed.

(** The handler can run: interrupts are in order, the process table is free
    and no other CPU has panicked. *)
Definition can_handle (k : K) : Prop :=
  irq_ok (k_hw k) ∧ h_locks (k_hw k) !! LPtable = None ∧ cons_panicked (k_cons k) = false.

Lemma handled_can_handle l l' c' k k' : handled l l' c' k k' → can_handle k → can_handle k'.
Proof. intros (pt & -> & _ & ?) (? & ? & ?). by destruct k. Qed.

Lemma handled_cons l l' c' k k' : handled l l' c' k k' → k_cons k' = c'.
Proof. intros (pt & -> & _). by destruct k. Qed.

Lemma type_char_spec c o k l e :
  can_handle k → input_rep (k_cons k) l e → 0 ≤ c < 256 →
  c ≠ ctrl_P → c ≠ ctrl_U → c ≠ ctrl_H → c ≠ DELETE →
  ∃ c' k', type_char c o k = Ret tt o k' ∧ handled l (edit_char c (l, e)).1 c' k k' ∧
    input_rep c' (edit_char c (l, e)).1 (edit_char c (l, e)).2.
Proof.
  intros (Hok & Hl & Hp) Hr Hc N1 N2 N3 N4. unfold edit_char, type_char, cget. kstep. unfold id.
  rewrite (proj2 (Z.eqb_neq _ _) N1), (proj2 (Z.eqb_neq _ _) N2), (proj2 (Z.eqb_neq _ _) N3), (proj2 (Z.eqb_neq _ _) N4). cbn [orb]. rewrite (edit_size _ _ _ Hr), Z.ltb_antisym.
  destruct (Z.eqb_spec c 0) as [->|Hc0]; cbn [negb andb orb when].
  { exists (k_cons k), k. split; [done|]. split; [|done]. apply handled_same; [by destruct k|done]. }
  destruct (Z.leb_spec INPUT_BUF (Z.of_nat (length l + length e))) as [Hfull|Hroom]; cbn [negb when].
  { exists (k_cons k), k. split; [done|]. split; [|done]. apply handled_same; [by destruct k|done]. }
  set (d := if c =? 13 then NEWLINE else c).
  assert (u8 d = d) as Hd by (apply u8_small; unfold d, NEWLINE; case_test; lia).
  unfold cset. kstep. rewrite Hd. match goal with |- context [bind (consputc d) _ o ?k1] => kstep_with (consputc_run d o k1 Hp) end.
  kstep. cbn [k_cons set_k_cons set_cons_out set_in_e set_in_buf in_e in_r].
  assert ((u32 (in_e (k_cons k) + 1) =? u32 (in_r (k_cons k) + INPUT_BUF)) = (Z.of_nat (length l + length e) + 1 =? INPUT_BUF)) as ->.
  { destruct (id Hr) as [P1 P2 P3 P4 P5 P6 P7]. rewrite P5. unfold u32, INPUT_BUF in *.
    destruct (Z.eqb_spec (Z.of_nat (length l + length e) + 1) 128) as [Hn|Hn]; [apply Z.eqb_eq|apply Z.eqb_neq];
      clear -P2 P3 Hn Hroom; lia_mod. }
  destruct ((d =? NEWLINE) || _ || _) eqn:Et; cbn [when].
  - kstep. erewrite wakeup_spec by done. do 2 eexists. split; [done|]. split.
    + eexists. split; [by destruct k|]. split; [by right|done].
    + by apply (commit_rep _ _ _ d (cons_out (k_cons k) ++ [d])).
  - do 2 eexists. split; [done|]. split; [by apply handled_same; [destruct k|]|].
    apply (put_rep _ _ _ d (cons_out (k_cons k) ++ [d])); try done. intros ->. done.
Qed.

Lemma console_char_spec c d o k l e :
  can_handle k → input_rep (k_cons k) l e → 0 ≤ c < 256 → c ≠ ctrl_P →
  ∃ c' k', console_char c d o k = Ret d o k' ∧ handled l (edit_char c (l, e)).1 c' k k' ∧
    input_rep c' (edit_char c (l, e)).1 (edit_char c (l, e)).2.
Proof.
  intros Hk Hr Hc N1. destruct (id Hk) as (Hok & Hl & Hp). unfold console_char.
  rewrite (proj2 (Z.eqb_neq _ _) N1). destruct (Z.eqb_spec c ctrl_U) as [->|N2].
  { unfold cget. kstep. unfold id. rewrite (edit_pending _ _ _ Hr), Nat2Z.id.
    destruct (kill_line_spec o k l e Hr Hp) as (c' & Hrun & Hr' & Hp'). kstep_with Hrun. exists c', (set_k_cons c' k).
    split; [done|]. split; [by apply handled_same|done]. }
  destruct (Z.eqb_spec c ctrl_H) as [E|N3]; [|destruct (Z.eqb_spec c DELETE) as [E|N4]]; cbn [orb]; cycle 2.
  { destruct (type_char_spec c o k l e) as (c' & k' & Hrun & Hh & Hr'); try done. kstep_with Hrun. by exists c', k'. }
  all: assert (edit_char c (l, e) = (l, take (length e - 1) e)) as -> by (by rewrite E).
  all: unfold cget; kstep; unfold id; rewrite (edit_empty _ _ _ Hr).
  all: destruct e as [|x e _] using rev_ind;
    [exists (k_cons k), k; cbn; split; [done|]; split; [|done]; apply handled_same; [by destruct k|done]|].
  all: rewrite bool_decide_eq_false_2 by (by destruct e); cbn [negb when];
    destruct (rub_out_run o k Hp) as [out Hrun]; kstep_with Hrun; do 2 eexists; split; [done|]; split; [by apply handled_same|];
    rewrite length_app, Nat.add_sub, take_app_length; by eapply rub_rep.
Qed.

Lemma console_chars_spec cs d o k l e :
  can_handle k → input_rep (k_cons k) l e → Forall (λ c, 0 ≤ c < 256) cs → ctrl_P ∉ cs →
  ∃ c' k', console_chars cs d o k = Ret d o k' ∧ handled l (edit_chars cs (l, e)).1 c' k k' ∧
    input_rep c' (edit_chars cs (l, e)).1 (edit_chars cs (l, e)).2.
Proof.
  revert k l e. induction cs as [|c cs IH]; intros k l e Hk Hr Hcs Hn; cbn [console_chars].
  - exists (k_cons k), k. split; [done|]. split; [|done]. apply handled_same; [by destruct k|apply Hk].
  - apply Forall_cons in Hcs as [Hc Hcs]. rewrite not_elem_of_cons in Hn. destruct Hn as [Hn1 Hn].
    destruct (console_char_spec c d o k l e) as (c1 & k1 & Hrun & Hh1 & Hr1); try done. kstep_with Hrun.
    cbn [edit_chars foldl]. fold (edit_chars cs (edit_char c (l, e))). destruct (edit_char c (l, e)) as [l1 e1]. cbn [fst snd] in *.
    destruct (IH k1 l1 e1) as (c2 & k2 & Hrun2 & Hh2 & Hr2); try done.
    + by eapply handled_can_handle.
    + by rewrite (handled_cons _ _ _ _ _ Hh1).
    + exists c2, k2. split; [done|]. split; [|done]. by eapply handled_trans.
Qed.

(** C21: The console interrupt is a line editor: backspace takes back the last
    character typed, control-U the whole line, and neither reaches input that
    is ready already; a line becomes ready when it is ended by a newline or
    control-D or when the buffer is full; characters beyond the buffer are
    dropped.  Whenever input becomes ready, the readers are woken. *)
Theorem console_edits_line cs o k l e :
  can_handle k → h_locks (k_hw k) !! LCons = None → input_rep (k_cons k) l e →
  Forall (λ c, 0 ≤ c < 256) cs → ctrl_P ∉ cs →
  ∃ c' k', consoleintr cs o k = Ret tt o k' ∧ handled l (edit_chars cs (l, e)).1 c' k k' ∧
    input_rep c' (edit_chars cs (l, e)).1 (edit_chars cs (l, e)).2.
Proof.
  intros (Hok & Hl & Hp) Hfree Hr Hcs Hn. set (k1 := set_k_hw (hw_acq LCons (k_hw k)) k).
  destruct (console_chars_spec cs false o k1 l e) as (c' & k' & Hrun & Hh & Hr'); try done.
  { split_and!; [by apply irq_ok_acq| |done]. cbn. by rewrite h_locks_acq, lookup_insert_ne. }
  destruct (id Hh) as (pt & -> & Hpt & Hp'). exists c', (set_k_cons c' (set_k_ptable pt k)). split; [|split; [|done]].
  - unfold consoleintr. erewrite (critical_section LCons (console_chars cs false) _ o k false o (set_k_cons c' (set_k_ptable pt k)));
      [|done|done|etrans; [exact Hrun|by destruct k]]. cbn [when]. unfold ret. by destruct k.
  - exists pt. split; [done|]. by destruct k.
Qed.

(** Indices about to wrap around; "la^Hs\n" and the beginning of a second line. *)
Definition demo_console : console := mk_cons (replicate (Z.to_nat INPUT_BUF) 0) 4294967294 4294967294 4294967294 true false [].

Lemma demo_console_rep : input_rep demo_console [] [].
Proof. split; try done. set_solver. Qed.

Lemma console_edits_line_witness :
  ∃ c' k', consoleintr [108; 97; 8; 115; 13; 99; 100] [] (set_k_cons demo_console (K_demo ∅)) = Ret tt [] k' ∧
    k_cons k' = c' ∧ input_rep c' [108; 115; 10] [99; 100].
Proof.
  destruct (console_edits_line [108; 97; 8; 115; 13; 99; 100] [] (set_k_cons demo_console (K_demo ∅)) [] [])
    as (c' & k' & Hrun & Hh & Hr).
  - split; [apply demo_irq_ok|]. split; [vm_compute; reflexivity|vm_compute; reflexivity].
  - vm_compute; reflexivity.
  - exact demo_console_rep.
  - repeat (apply Forall_cons; split; [lia|]). by apply Forall_nil.
  - unfold ctrl_P. rewrite !not_elem_of_cons. split_and!; try lia. apply not_elem_of_nil.
  - exists c', k'. split; [exact Hrun|]. split; [exact (handled_cons _ _ _ _ _ Hh)|exact Hr].
Defined.

(** ** Reading a line *)

(** What a read of [n] bytes takes from the ready input: up to and with a
    newline, or up to control-D, which is left for the next read unless it is
    the first; [None] when it would have to wait. *)
Fixpoint take_line (n : nat) (first : bool) (l : list Z) : option (list Z * list Z) :=
  match n, l with
  | O, _ => Some ([], l)
  | S _, [] => None
  | S n, c :: l' =>
      if c =? ctrl_D then Some ([], if first then l' else l)
      else if c =? NEWLINE then Some ([c], l')
      else (λ '(a, b), (c :: a, b)) <$> take_line n false l'
  end.

Lemma get_rep c x l e :
  input_rep c (x :: l) e → in_at c (in_r c) = x ∧ input_rep (set_in_r (u32 (in_r c + 1)) c) l e.
Proof.
  intros [P1 P2 P3 P4 P5 P6 P7]. split.
  - unfold in_at. specialize (P6 0%nat x eq_refl). rewrite Z.add_0_r in P6. by rewrite P6.
  - cbn [length] in *. split; cbn [in_buf in_r in_w in_e set_in_r]; try done.
    + apply u32_range.
    + lia.
    + rewrite P4. unfold u32. clear. lia_mod.
    + rewrite P5. unfold u32. clear. lia_mod.
    + intros j b Hj. specialize (P6 (S j) b Hj). rewrite <- P6. f_equal. unfold u32, INPUT_BUF. clear. f_equal. lia_mod.
Qed.

Section reading.
Context {DEV : BlockDev}.

(** A read from the console delivers the ready input in the order it was
    typed, at most one line of it: it stops after a newline, at control-D (the
    end of the input, reported as an empty read) or when the caller's buffer is
    full, and leaves the rest for the next read. *)
Theorem console_reads_line ip dst n tot o k l e a l' :
  sink_ok dst → 0 ≤ tot → input_rep (k_cons k) l e → take_line n (tot =? 0) l = Some (a, l') →
  ∃ c' m, consoleread_loop n ip dst tot o k = Ret (Some a) o (set_k_mem m (set_k_cons c' k)) ∧ input_rep c' l' e.
Proof.
  intros Hdst. revert tot k l a. induction n as [|n IH]; intros tot k l a Ht Hr Hl; cbn [consoleread_loop take_line] in *.
  - injection Hl as <- <-. exists (k_cons k), (k_mem k). split; [by destruct k|done].
  - destruct l as [|c l]; [done|]. destruct (get_rep _ _ _ _ Hr) as [Hc Hr1].
    assert (forever (consoleread_turn ip) o k = Ret true o k) as Hturn.
    { apply forever_once. unfold consoleread_turn, cget. kstep. unfold id. by rewrite (ready_empty _ _ _ Hr). }
    kstep_with Hturn. unfold cget, cset. kstep. rewrite Hc. destruct (Z.eqb_spec c ctrl_D) as [->|Nd].
    + injection Hl as <- <-. rewrite Z.ltb_antisym.
      destruct (Z.eqb_spec tot 0) as [->|Htot].
      * do 2 eexists. split; [|exact Hr1]. by destruct k.
      * rewrite (proj2 (Z.leb_gt _ _)) by lia. cbn [negb when]. kstep.
        exists (k_cons k), (k_mem k). split; [|done]. unfold ret. cbn [k_cons set_k_cons set_in_r in_r].
        pose proof (ir_read _ _ _ Hr) as Hin.
        assert (u32 (u32 (in_r (k_cons k) + 1) - 1) = in_r (k_cons k)) as -> by (unfold u32; clear -Hin; lia_mod).
        f_equal. destruct k. cbn. f_equal. by match goal with c : console |- _ => destruct c end.
    + destruct (Hdst tot [c] o (set_k_cons (set_in_r (u32 (in_r (k_cons k) + 1)) (k_cons k)) k)) as [m Hm]. kstep_with Hm.
      destruct (Z.eqb_spec c NEWLINE) as [->|Nn].
      * injection Hl as <- <-. do 2 eexists. by split.
      * destruct (take_line n false l) as [[a1 b1]|] eqn:El; [|done]. injection Hl as <- <-.
        rewrite <- (proj2 (Z.eqb_neq (tot + 1) 0)) in El by lia.
        destruct (IH (tot + 1) (set_k_mem m (set_k_cons (set_in_r (u32 (in_r (k_cons k) + 1)) (k_cons k)) k)) _ _ ltac:(lia) ltac:(exact Hr1) El) as (c' & m' & Hrun & Hr'). kstep_with Hrun.
        exists c', m'. split; [by destruct k|done].
Qed.
End reading.

(** "ls" and the rest of the first line are read; the second stays. *)
Lemma console_reads_line_witness :
  ∃ c' m, @consoleread_loop (memide_dev FSSIZE) 10 0 kernel_sink 0 []
      (set_k_cons (mk_cons ([10; 99; 10] ++ replicate 123 0 ++ [108; 115]) 4294967294 1 1 true false []) (K_demo ∅)) =
    Ret (Some [108; 115; 10]) [] (set_k_mem m (set_k_cons c' (K_demo ∅))) ∧ input_rep c' [] [].
Proof.
  destruct (@console_reads_line (memide_dev FSSIZE) 0 kernel_sink 10 0 []
    (set_k_cons (mk_cons ([10; 99; 10] ++ replicate 123 0 ++ [108; 115]) 4294967294 1 1 true false []) (K_demo ∅))
    [108; 115; 10] [] [108; 115; 10] []) as (c' & m & Hrun & Hr).
  - apply kernel_sink_ok.
  - lia.
  - split; try done; [|set_solver]. intros [|[|[|j]]] b Hb; [injection Hb as <-; reflexivity..|discriminate Hb].
  - reflexivity.
  - exists c', m. split; [exact Hrun|exact Hr].
Defined.
