(* ===== verification/Sysfile.v ===== *)
(** * System-call arguments and file system calls ([syscall.c], [sysfile.c])

    The arguments of a system call are words above the saved user stack
    pointer, read through the page table of the process.  A string argument is
    taken as the bytes it has when [fetchstr] walks over it. *)

From stdpp Require Import base numbers list gmap strings.
From S2P Require Import Prelude Mmu Hardware Memory Bytes Kernel Spinlock Kalloc Cprintf Vm Proc Sleeplock Blockdev Bio Log Fs Pipe File ProcLife.

Implicit Types (k : K) (o : oracle).

(** ** Arguments *)

Definition fetchint (addr : Z) : M (option Z) :=
  let! cur := curproc in
  let! sz := pget p_sz cur in
  if (sz <=? addr) || (sz <? u32 (addr + 4)) then ret None
  else let! v := vrd32 addr in ret (Some (s32 v)).

(** The bytes from [s] up to a NUL before [s + n]. *)
Fixpoint scan_str (n : nat) (s : Z) : M (option (list Z)) :=
  match n with
  | O => ret None
  | S n =>
      let! c := vrd8 s in
      if c =? 0 then ret (Some [])
      else let! l := scan_str n (s + 1) in ret (cons c <$> l)
  end.

Definition fetchstr (addr : Z) : M (option (list Z)) :=
  let! cur := curproc in
  let! sz := pget p_sz cur in
  if sz <=? addr then ret None else scan_str (Z.to_nat (sz - addr)) addr.

Definition argint (n : Z) : M (option Z) :=
  let! cur := curproc in
  let! tf := pget p_tf cur in
  fetchint (u32 (tf_esp tf + 4 + 4 * n)).

Definition argptr (n size : Z) : M (option Z) :=
  let! cur := curproc in
  let! i := argint n in
  match i with
  | None => ret None
  | Some i =>
      let! sz := pget p_sz cur in
      if (size <? 0) || (sz <=? u32 i) || (sz <? u32 (u32 i + size)) then ret None
      else ret (Some (u32 i))
  end.

Definition argstr (n : Z) : M (option (list Z)) :=
  let! addr := argint n in
  match addr with
  | None => ret None
  | Some addr => fetchstr (u32 addr)
  end.

(** The descriptor and the file. *)
Definition argfd (n : Z) : M (option (nat * nat)) :=
  let! fd := argint n in
  match fd with
  | None => ret None
  | Some fd =>
      if (fd <? 0) || (Z.of_nat NOFILE <=? fd) then ret None
      else
        let! cur := curproc in
        let! f := pget (ofile_at (Z.to_nat fd)) cur in
        ret (pair (Z.to_nat fd) <$> f)
  end.

Definition fdalloc (f : nat) : M (option nat) :=
  let! cur := curproc in
  let! l := pget p_ofile cur in
  match list_find (λ x, x = None) l with
  | Some (fd, _) => pset cur (set_ofile fd (Some f)) ;;; ret (Some fd)
  | None => ret None
  end.

(** User memory as the destination and the source of transfers. *)
Fixpoint vwr_bytes (va : Z) (l : list Z) : M unit :=
  match l with
  | [] => ret tt
  | c :: l => vwr8 va c ;;; vwr_bytes (va + 1) l
  end.
Fixpoint vrd_bytes (n : nat) (va : Z) : M (list Z) :=
  match n with
  | O => ret []
  | S n => let! c := vrd8 va in let! l := vrd_bytes n (va + 1) in ret (c :: l)
  end.
Definition user_sink (p : Z) : sink := λ tot l, vwr_bytes (p + tot) l.
Definition user_source (p : Z) : source := λ tot m, vrd_bytes (Z.to_nat m) (p + tot).

Section sysfile.
Context {DEV : BlockDev} {DSW : Devsw}.

(** ** Descriptors *)

Definition sys_dup : M Z :=
  let! a := argfd 0 in
  match a with
  | None => ret (-1)
  | Some (_, f) =>
      let! fd := fdalloc f in
      match fd with
      | None => ret (-1)
      | Some fd => filedup f ;;; ret (Z.of_nat fd)
      end
  end.

(** The arguments of [read] and [write]: file, buffer, length. *)
Definition rw_args : M (option (nat * Z * Z)) :=
  let! a := argfd 0 in
  match a with
  | None => ret None
  | Some (_, f) =>
      let! n := argint 2 in
      match n with
      | None => ret None
      | Some n =>
          let! p := argptr 1 n in
          match p with
          | None => ret None
          | Some p => ret (Some (f, p, n))
          end
      end
  end.

Definition sys_read : M Z :=
  let! a := rw_args in
  match a with
  | None => ret (-1)
  | Some (f, p, n) => let! r := fileread f (user_sink p) n in ret (fst r)
  end.

Definition sys_write : M Z :=
  let! a := rw_args in
  match a with
  | None => ret (-1)
  | Some (f, p, n) => filewrite f (user_source p) n
  end.

Definition sys_close : M Z :=
  let! a := argfd 0 in
  match a with
  | None => ret (-1)
  | Some (fd, f) =>
      let! cur := curproc in
      pset cur (set_ofile fd None) ;;;
      fileclose f ;;;
      ret 0
  end.

Definition SIZEOF_STAT : Z := 20.

(** The fields of [struct stat] in memory; the padding is not written. *)
Definition put_stat (p : Z) (st : stat) : M unit :=
  vwr_bytes p (bytes16 (st_type st)) ;;;
  vwr_bytes (p + 4) (bytes32 (st_dev st)) ;;;
  vwr_bytes (p + 8) (bytes32 (st_ino st)) ;;;
  vwr_bytes (p + 12) (bytes16 (st_nlink st)) ;;;
  vwr_bytes (p + 16) (bytes32 (st_size st)).

Definition sys_fstat : M Z :=
  let! a := argfd 0 in
  match a with
  | None => ret (-1)
  | Some (_, f) =>
      let! p := argptr 1 SIZEOF_STAT in
      match p with
      | None => ret (-1)
      | Some p =>
          let! st := filestat f in
          match st with
          | None => ret (-1)
          | Some st => put_stat p st ;;; ret 0
          end
      end
  end.

(** ** Links *)

(** [ip->nlink += d]. *)
Definition add_link (ip : nat) (d : Z) : M unit :=
  inoset ip (λ x, set_i_nlink (s16 (i_nlink x + d)) x) ;;; iupdate ip.

(** The error exit of [sys_link]. *)
Definition link_bad (ip : nat) : M Z :=
  ilock (Some ip) ;;;
  add_link ip (-1) ;;;
  iunlockput ip ;;;
  end_op ;;;
  ret (-1).

Definition link_to (ip : nat) (new : list Z) : M Z :=
  let! r := nameiparent new (replicate DIRSIZ 0) in
  match r with
  | (None, _) => link_bad ip
  | (Some dp, name) =>
      ilock (Some dp) ;;;
      let! ddev := inoget i_dev dp in
      let! x := inoget id ip in
      let! linked :=
        if negb (ddev =? i_dev x) then ret false
        else let! r := dirlink dp name (i_inum x) in ret (negb (r <? 0)) in
      if linked then
        iunlockput dp ;;;
        iput ip ;;;
        end_op ;;;
        ret 0
      else iunlockput dp ;;; link_bad ip
  end.

Definition sys_link : M Z :=
  let! old := argstr 0 in
  match old with
  | None => ret (-1)
  | Some old =>
      let! new := argstr 1 in
      match new with
      | None => ret (-1)
      | Some new =>
          begin_op ;;;
          let! ip := namei old in
          match ip with
          | None => end_op ;;; ret (-1)
          | Some ip =>
              ilock (Some ip) ;;;
              let! type := inoget i_type ip in
              if type =? T_DIR then iunlockput ip ;;; end_op ;;; ret (-1)
              else
                add_link ip 1 ;;;
                iunlock (Some ip) ;;;
                link_to ip new
          end
      end
  end.

Fixpoint isdirempty_loop (fuel : nat) (dp : nat) (off : Z) : M bool :=
  let! size := inoget i_size dp in
  if off <? size then
    match fuel with
    | O => panic "out of fuel"
    | S fuel =>
        let! de := read_dirent dp off "isdirempty: readi" in
        if negb (de_inum de =? 0) then ret false else isdirempty_loop fuel dp (off + SIZEOF_DIRENT)
    end
  else ret true.

Definition isdirempty (dp : nat) : M bool :=
  let! size := inoget i_size dp in
  isdirempty_loop (Z.to_nat (size / SIZEOF_DIRENT + 1)) dp (2 * SIZEOF_DIRENT).

(** The error exit of [sys_unlink]. *)
Definition unlink_bad (dp : nat) : M Z := iunlockput dp ;;; end_op ;;; ret (-1).

(** [sys_unlink] once the entry of [ip] was found at [off] in [dp]. *)
Definition unlink_entry (dp ip : nat) (off : Z) : M Z :=
  ilock (Some ip) ;;;
  let! x := inoget id ip in
  if i_nlink x <? 1 then panic "unlink: nlink < 1"
  else
    let! empty := if i_type x =? T_DIR then isdirempty ip else ret true in
    if negb empty then iunlockput ip ;;; unlink_bad dp
    else
      let! n := writei dp (kernel_source (replicate (Z.to_nat SIZEOF_DIRENT) 0)) off SIZEOF_DIRENT in
      if negb (n =? SIZEOF_DIRENT) then panic "unlink: writei"
      else
        let! type := inoget i_type ip in
        when (type =? T_DIR) (add_link dp (-1)) ;;;
        iunlockput dp ;;;
        add_link ip (-1) ;;;
        iunlockput ip ;;;
        end_op ;;;
        ret 0.

Definition sys_unlink : M Z :=
  let! path := argstr 0 in
  match path with
  | None => ret (-1)
  | Some path =>
      begin_op ;;;
      let! r := nameiparent path (replicate DIRSIZ 0) in
      match r with
      | (None, _) => end_op ;;; ret (-1)
      | (Some dp, name) =>
          ilock (Some dp) ;;;
          let! c := namecmp name [46; 0] in
          let! dots := if c =? 0 then ret true
                       else let! c := namecmp name [46; 46; 0] in ret (c =? 0) in
          if dots : bool then unlink_bad dp
          else
            let! r := dirlookup dp name in
            match r with
            | None => unlink_bad dp
            | Some (ip, off) => unlink_entry dp ip off
            end
      end
  end.

(** ** Creating *)

(** The inode that [create] finds under the name. *)
Definition create_found (dp ip : nat) (type : Z) : M (option nat) :=
  iunlockput dp ;;;
  ilock (Some ip) ;;;
  let! t := inoget i_type ip in
  if (type =? T_FILE) && (t =? T_FILE) then ret (Some ip)
  else iunlockput ip ;;; ret None.

(** The entries "." and ".." of a new directory [ip]. *)
Definition create_dots (dp ip : nat) : M unit :=
  add_link dp 1 ;;;
  let! x := inoget id ip in
  let! r := dirlink ip [46; 0] (i_inum x) in
  if r <? 0 then panic "create dots"
  else
    let! d := inoget id dp in
    let! r := dirlink ip [46; 46; 0] (i_inum d) in
    when (r <? 0) (panic "create dots").

Definition create (path : list Z) (type major minor : Z) : M (option nat) :=
  let! r := nameiparent path (replicate DIRSIZ 0) in
  match r with
  | (None, _) => ret None
  | (Some dp, name) =>
      ilock (Some dp) ;;;
      let! found := dirlookup dp name in
      match found with
      | Some (ip, _) => create_found dp ip type
      | None =>
          let! dev := inoget i_dev dp in
          let! ip := ialloc dev type in
          ilock (Some ip) ;;;
          inoset ip (λ x, set_i_nlink 1 (set_i_minor minor (set_i_major major x))) ;;;
          iupdate ip ;;;
          when (type =? T_DIR) (create_dots dp ip) ;;;
          let! x := inoget id ip in
          let! r := dirlink dp name (i_inum x) in
          if r <? 0 then panic "create: dirlink"
          else iunlockput dp ;;; ret (Some ip)
      end
  end.

(** The inode [sys_open] opens, locked. *)
Definition open_inode (path : list Z) (omode : Z) : M (option nat) :=
  if negb (Z.land omode O_CREATE =? 0) then create path T_FILE 0 0
  else
    let! ip := namei path in
    match ip with
    | None => ret None
    | Some ip =>
        ilock (Some ip) ;;;
        let! type := inoget i_type ip in
        if (type =? T_DIR) && negb (omode =? O_RDONLY) then iunlockput ip ;;; ret None
        else ret (Some ip)
    end.

(** A new [struct file] with a descriptor. *)
Definition open_file : M (option (nat * nat)) :=
  let! f := filealloc in
  match f with
  | None => ret None
  | Some f =>
      let! fd := fdalloc f in
      match fd with
      | None => fileclose f ;;; ret None
      | Some fd => ret (Some (f, fd))
      end
  end.

Definition sys_open : M Z :=
  let! path := argstr 0 in
  match path with
  | None => ret (-1)
  | Some path =>
      let! omode := argint 1 in
      match omode with
      | None => ret (-1)
      | Some omode =>
          begin_op ;;;
          let! ip := open_inode path omode in
          match ip with
          | None => end_op ;;; ret (-1)
          | Some ip =>
              let! r := open_file in
              match r with
              | None => iunlockput ip ;;; end_op ;;; ret (-1)
              | Some (f, fd) =>
                  iunlock (Some ip) ;;;
                  end_op ;;;
                  fset f (set_f_type FD_INODE) ;;;
                  fset f (set_f_ip (Some ip)) ;;;
                  fset f (set_f_off 0) ;;;
                  fset f (set_f_readable (Z.land omode O_WRONLY =? 0)) ;;;
                  fset f (set_f_writable
                    (negb (Z.land omode O_WRONLY =? 0) || negb (Z.land omode O_RDWR =? 0))) ;;;
                  ret (Z.of_nat fd)
              end
          end
      end
  end.

(** The end of [sys_mkdir] and [sys_mknod]. *)
Definition made (ip : option nat) : M Z :=
  match ip with
  | None => end_op ;;; ret (-1)
  | Some ip => iunlockput ip ;;; end_op ;;; ret 0
  end.

Definition sys_mkdir : M Z :=
  begin_op ;;;
  let! path := argstr 0 in
  let! ip := match path with
             | None => ret None
             | Some path => create path T_DIR 0 0
             end in
  made ip.

Definition sys_mknod : M Z :=
  begin_op ;;;
  let! path := argstr 0 in
  let! ip :=
    match path with
    | None => ret None
    | Some path =>
        let! major := argint 1 in
        match major with
        | None => ret None
        | Some major =>
            let! minor := argint 2 in
            match minor with
            | None => ret None
            | Some minor => create path T_DEV (s16 major) (s16 minor)
            end
        end
    end in
  made ip.

Definition sys_chdir : M Z :=
  let! cur := curproc in
  begin_op ;;;
  let! path := argstr 0 in
  let! ip := match path with
             | None => ret None
             | Some path => namei path
             end in
  match ip with
  | None => end_op ;;; ret (-1)
  | Some ip =>
      ilock (Some ip) ;;;
      let! type := inoget i_type ip in
      if negb (type =? T_DIR) then iunlockput ip ;;; end_op ;;; ret (-1)
      else
        iunlock (Some ip) ;;;
        let! cwd := pget p_cwd cur in
        deref cwd iput ;;;
        end_op ;;;
        pset cur (set_p_cwd (Some ip)) ;;;
        ret 0
  end.

Definition sys_pipe : M Z :=
  let! fd := argptr 0 8 in
  match fd with
  | None => ret (-1)
  | Some fd =>
      let! r := pipealloc in
      match r with
      | None => ret (-1)
      | Some (rf, wf) =>
          let! fd0 := fdalloc rf in
          match fd0 with
          | None => fileclose rf ;;; fileclose wf ;;; ret (-1)
          | Some fd0 =>
              let! fd1 := fdalloc wf in
              match fd1 with
              | None =>
                  let! cur := curproc in
                  pset cur (set_ofile fd0 None) ;;;
                  fileclose rf ;;;
                  fileclose wf ;;;
                  ret (-1)
              | Some fd1 =>
                  vwr32 fd (Z.of_nat fd0) ;;;
                  vwr32 (fd + 4) (Z.of_nat fd1) ;;;
                  ret 0
              end
          end
      end
  end.
End sysfile.

(** ** Arguments are checked *)

(** Process [i] runs, and all of its memory is mapped. *)
Record user_ok (i : nat) (k : K) : Prop := {
  us_irq : irq_ok (k_hw k);
  us_proc : hw_proc (k_hw k) = Some i;
  us_size : 0 ≤ p_sz (proc_at k i) ≤ KERNBASE;
  us_mapped va : 0 ≤ va < p_sz (proc_at k i) → is_Some (translate k va)
}.

(** The byte at a user address. *)
Definition ubyte (k : K) (va : Z) : Z := default 0 (ld8 (k_mem k) <$> translate k va).

Lemma vrd8_ok i va o k : user_ok i k → 0 ≤ va < p_sz (proc_at k i) → vrd8 va o k = Ret (ubyte k va) o k.
Proof. intros Hu Hva. unfold vrd8, ubyte. kstep. by destruct (us_mapped _ _ Hu va Hva) as [a ->]. Qed.

Definition uword (k : K) (va : Z) : Z :=
  ubyte k va + 256 * ubyte k (va + 1) + 65536 * ubyte k (va + 2) + 16777216 * ubyte k (va + 3).

Lemma fetchint_spec i addr o k :
  user_ok i k → 0 ≤ addr < 4294967296 →
  fetchint addr o k =
  Ret (if addr + 4 <=? p_sz (proc_at k i) then Some (s32 (uword k addr)) else None) o k.
Proof.
  intros Hu Ha. pose proof (us_size _ _ Hu) as Hs. unfold fetchint.
  kstep_with (curproc_spec o k i (us_irq _ _ Hu) (us_proc _ _ Hu)). unfold pget. kstep. fold (proc_at k i).
  destruct (Z.leb_spec (p_sz (proc_at k i)) addr) as [H1|H1].
  { rewrite (proj2 (Z.leb_gt _ _)) by lia. done. }
  rewrite u32_small by (unfold KERNBASE in *; lia). cbn [orb].
  destruct (Z.ltb_spec (p_sz (proc_at k i)) (addr + 4)) as [H2|H2]; [by rewrite (proj2 (Z.leb_gt _ _)) by lia|].
  rewrite (proj2 (Z.leb_le _ _)) by lia. unfold vrd32.
  rewrite !bind_assoc. kstep_with (vrd8_ok i addr o k Hu ltac:(lia)).
  rewrite !bind_assoc. kstep_with (vrd8_ok i (addr + 1) o k Hu ltac:(lia)).
  rewrite !bind_assoc. kstep_with (vrd8_ok i (addr + 2) o k Hu ltac:(lia)).
  rewrite !bind_assoc. kstep_with (vrd8_ok i (addr + 3) o k Hu ltac:(lia)). done.
Qed.

Lemma argint_spec i n o k :
  user_ok i k → ∃ r, argint n o k = Ret r o k ∧ ∀ v, r = Some v → -2147483648 ≤ v < 2147483648.
Proof.
  intros Hu. unfold argint. kstep_with (curproc_spec o k i (us_irq _ _ Hu) (us_proc _ _ Hu)). unfold pget. kstep.
  rewrite (fetchint_spec i) by (done || apply u32_range). eexists. split; [done|]. intros v.
  destruct (_ <=? _); [|done]. intros [= <-]. apply s32_range.
Qed.

(** The user bytes from [a] are [s], and then a NUL, all in the process's memory. *)
Definition ustring (k : K) (i : nat) (a : Z) (s : list Z) : Prop :=
  0 ≤ a ∧ a + Z.of_nat (length s) < p_sz (proc_at k i) ∧ Forall (λ c, c ≠ 0) s ∧
  (∀ j c, s !! j = Some c → ubyte k (a + Z.of_nat j) = c) ∧ ubyte k (a + Z.of_nat (length s)) = 0.

Lemma scan_str_spec i n a o k :
  user_ok i k → 0 ≤ a → a + Z.of_nat n ≤ p_sz (proc_at k i) →
  ∃ r, scan_str n a o k = Ret r o k ∧
    match r with
    | Some s => ustring k i a s
    | None => ∀ j, a ≤ j < a + Z.of_nat n → ubyte k j ≠ 0
    end.
Proof.
  intros Hu. revert a. induction n as [|n IH]; intros a Ha Hn; cbn [scan_str]; [exists None; split; [done|lia]|].
  kstep_with (vrd8_ok i a o k Hu ltac:(lia)). destruct (Z.eqb_spec (ubyte k a) 0) as [E|E].
  - exists (Some []). split; [done|]. split_and!; cbn; try done; try lia. by rewrite Z.add_0_r.
  - destruct (IH (a + 1)) as (r & Hrun & Hr); [lia|lia|]. kstep_with Hrun. eexists. split; [done|]. destruct r as [s|]; cbn.
    + destruct Hr as (R1 & R2 & R3 & R4 & R5). split_and!; cbn [length]; try done; try lia.
      * by constructor.
      * intros [|j] c; cbn; [intros [= <-]; by rewrite Z.add_0_r|]. intros Hj. rewrite <- (R4 j c Hj). f_equal. lia.
      * rewrite <- R5. f_equal. lia.
    + intros j Hj. destruct (decide (j = a)) as [->|]; [done|]. apply Hr. lia.
Qed.

(** C19: The kernel trusts no argument of a system call.  In a process whose
    memory is mapped, fetching an argument never faults and changes nothing, and
    what is accepted is safe to use: a pointer together with its length lies
    inside the process's memory, also when the sum wraps around; a string has its
    NUL inside it; a descriptor is an open file of the process. *)
Theorem arguments_checked i n size o k :
  user_ok i k →
  (∃ r, argptr n size o k = Ret r o k ∧
     ∀ p, r = Some p → size < 2147483648 → 0 ≤ p < p_sz (proc_at k i) ∧ 0 ≤ size ∧ p + size ≤ p_sz (proc_at k i)) ∧
  (∃ r, argstr n o k = Ret r o k ∧ ∀ s, r = Some s → ∃ a, ustring k i a s) ∧
  (∃ r, argfd n o k = Ret r o k ∧
     ∀ fd f, r = Some (fd, f) → (fd < NOFILE)%nat ∧ ofile_at fd (proc_at k i) = Some f).
Proof.
  intros Hu. pose proof (us_size _ _ Hu) as Hs. destruct (argint_spec i n o k Hu) as (v & Hrun & Hv).
  pose proof (curproc_spec o k i (us_irq _ _ Hu) (us_proc _ _ Hu)) as Hcur. unfold KERNBASE in *. split_and!.
  - unfold argptr. kstep_with Hcur. kstep_with Hrun. destruct v as [v|]; [|by exists None].
    unfold pget. kstep. fold (proc_at k i). pose proof (u32_range v) as Hr.
    destruct (Z.ltb_spec size 0); [by exists None|]. destruct (Z.leb_spec (p_sz (proc_at k i)) (u32 v)); [by exists None|].
    destruct (Z.ltb_spec (p_sz (proc_at k i)) (u32 (u32 v + size))) as [|Hle]; [by exists None|].
    exists (Some (u32 v)). split; [done|]. intros p [= <-] Hsz. rewrite (u32_small (u32 v + size)) in Hle by lia. lia.
  - unfold argstr. kstep_with Hrun. destruct v as [v|]; [|by exists None]. unfold fetchstr. kstep_with Hcur. unfold pget. kstep.
    fold (proc_at k i). pose proof (u32_range v) as Hr. destruct (Z.leb_spec (p_sz (proc_at k i)) (u32 v)); [by exists None|].
    destruct (scan_str_spec i (Z.to_nat (p_sz (proc_at k i) - u32 v)) (u32 v) o k Hu) as (r & Hrun2 & Hr2); [lia|lia|].
    exists r. split; [done|]. intros s ->. by exists (u32 v).
  - unfold argfd. kstep_with Hrun. destruct v as [v|]; [|by exists None].
    destruct (Z.ltb_spec v 0); [by exists None|]. destruct (Z.leb_spec (Z.of_nat NOFILE) v); [by exists None|]. cbn [orb].
    kstep_with Hcur. unfold pget. kstep. fold (proc_at k i). eexists. split; [done|]. intros fd f.
    destruct (ofile_at (Z.to_nat v) (proc_at k i)) as [g|] eqn:E; [|done]. intros [= <- <-]. split; [lia|done].
Qed.

(** A process with one page, all zero but for a word that points to byte 8. *)
Definition demo_user : K :=
  set_k_mem (list_to_map [(KERNBASE, 7); (KERNBASE + 1, 0x10); (KERNBASE + 0x1000, 7); (KERNBASE + 0x1001, 0x20); (KERNBASE + 0x2004, 8)])
    (set_k_ptable (<[0%nat := set_p_sz 4096 demo_proc]> (k_ptable (K_demo ∅))) (K_demo ∅)).

Lemma demo_user_ok : user_ok 0 demo_user.
Proof.
  split.
  - apply demo_irq_ok.
  - vm_compute. reflexivity.
  - vm_compute. split; congruence.
  - intros va Hva. change (p_sz (proc_at demo_user 0)) with 4096 in Hva. unfold translate, KERNBASE.
    rewrite (proj2 (Z.leb_gt _ _)) by lia.
    assert (vpn va = vpn 0) as [Ed Et]%vpn_eq by (unfold vpn; rewrite !u32_small by lia; clear -Hva; lia_mod).
    assert (pt_lookup (k_mem demo_user) (P2V (h_cr3 (k_hw demo_user))) va = 0x2007) as ->.
    { unfold pt_lookup. rewrite Ed, Et. vm_compute. reflexivity. }
    by eexists.
Qed.

Lemma arguments_checked_witness :
  ∃ r, argptr 0 100 [] demo_user = Ret r [] demo_user ∧ ∀ p, r = Some p → p + 100 ≤ 4096.
Proof.
  destruct (arguments_checked 0 0 100 [] demo_user) as [(r & Hrun & Hr) _].
  - apply demo_user_ok.
  - exists r. split; [exact Hrun|]. intros p Hp. change 4096 with (p_sz (proc_at demo_user 0)).
    destruct (Hr p Hp) as (_ & _ & Hle); [reflexivity|exact Hle].
Defined.
