(* ===== verification/Exec.v ===== *)
(** * Program loading ([exec.c], [loaduvm] of [vm.c], [sys_exec] of [sysfile.c])

    The path and the argument strings are user memory of the caller; they are
    taken as the strings [sys_exec] found there. *)

From stdpp Require Import base numbers list gmap strings.
From S2P Require Import Prelude Mmu Hardware Memory Bytes Kernel Spinlock Kalloc Cprintf Vm Proc Sleeplock Blockdev Bio Log Fs Pipe File ProcLife Sysfile.

Implicit Types (k : K) (o : oracle).

Definition ELF_MAGIC : Z := 0x464C457F.
Definition ELF_PROG_LOAD : Z := 1.
Definition SIZEOF_ELFHDR : Z := 52.
Definition SIZEOF_PROGHDR : Z := 32.

(** [struct elfhdr] and [struct proghdr], the fields that are used. *)
Record elfhdr := mk_elf { elf_magic : Z; elf_entry : Z; elf_phoff : Z; elf_phnum : Z }.
Definition elfhdr_of (l : list Z) : elfhdr :=
  mk_elf (get32 l 0) (get32 l 24) (get32 l 28) (get16 l 44).

Record proghdr := mk_ph { ph_type : Z; ph_off : Z; ph_vaddr : Z; ph_filesz : Z; ph_memsz : Z }.
Definition proghdr_of (l : list Z) : proghdr :=
  mk_ph (get32 l 0) (get32 l 4) (get32 l 8) (get32 l 16) (get32 l 20).

(** Kernel memory as the destination of a transfer. *)
Definition mem_sink (a : Z) : sink := λ tot l, modify (λ k, set_k_mem (st_bytes (k_mem k) (a + tot) l) k).

Section exec.
Context {DEV : BlockDev} {DSW : Devsw}.

Fixpoint loaduvm_loop (fuel : nat) (pgdir addr : Z) (ip : nat) (offset sz i : Z) : M Z :=
  if i <? sz then
    match fuel with
    | O => panic "out of fuel"
    | S fuel =>
        let! pte := walkpgdir pgdir (u32 (addr + i)) false in
        if pte =? 0 then panic "loaduvm: address should exist"
        else
          let! e := rd32 pte in
          let pa := PTE_ADDR e in
          let n := if sz - i <? PGSIZE then sz - i else PGSIZE in
          let! r := readi ip (mem_sink (P2V pa)) (u32 (offset + i)) n in
          if negb (u32 (fst r) =? n) then ret (-1)
          else loaduvm_loop fuel pgdir addr ip offset sz (i + PGSIZE)
    end
  else ret 0.

Definition loaduvm (pgdir addr : Z) (ip : nat) (offset sz : Z) : M Z :=
  if negb (addr mod PGSIZE =? 0) then panic "loaduvm: addr must be page aligned"
  else loaduvm_loop (Z.to_nat (sz / PGSIZE + 1)) pgdir addr ip offset sz 0.

(** One program header: the new size, or [None] for the error exit. *)
Definition load_segment (pgdir : Z) (ip : nat) (off sz : Z) : M (option Z) :=
  let! r := readi ip kernel_sink (u32 off) SIZEOF_PROGHDR in
  let '(n, bytes) := r in
  if negb (n =? SIZEOF_PROGHDR) then ret None
  else
    let ph := proghdr_of bytes in
    if negb (ph_type ph =? ELF_PROG_LOAD) then ret (Some sz)
    else if ph_memsz ph <? ph_filesz ph then ret None
    else if u32 (ph_vaddr ph + ph_memsz ph) <? ph_vaddr ph then ret None
    else
      let! sz := allocuvm pgdir sz (u32 (ph_vaddr ph + ph_memsz ph)) in
      if sz =? 0 then ret None
      else if negb (ph_vaddr ph mod PGSIZE =? 0) then ret None
      else
        let! r := loaduvm pgdir (ph_vaddr ph) ip (ph_off ph) (ph_filesz ph) in
        if r <? 0 then ret None else ret (Some sz).

Fixpoint load_segments (n : nat) (pgdir : Z) (ip : nat) (off sz : Z) : M (option Z) :=
  match n with
  | O => ret (Some sz)
  | S n =>
      let! r := load_segment pgdir ip off sz in
      match r with
      | None => ret None
      | Some sz => load_segments n pgdir ip (off + SIZEOF_PROGHDR) sz
      end
  end.

(** The error exit; [pgdir] is 0 while there is none, [ip] null once it was put. *)
Definition exec_bad (pgdir : Z) (ip : option nat) : M Z :=
  when (negb (pgdir =? 0)) (freevm pgdir) ;;;
  match ip with
  | Some ip => iunlockput ip ;;; end_op
  | None => ret tt
  end ;;;
  ret (-1).

(** Pushing the argument strings: the stack pointer and the pointers pushed. *)
Fixpoint push_args (argv : list (list Z)) (pgdir argc sp : Z) (ustack : list Z) :
    M (option (Z * list Z)) :=
  match argv with
  | [] => ret (Some (sp, ustack))
  | s :: argv =>
      if Z.of_nat MAXARG <=? argc then ret None
      else
        let sp := Z.land (u32 (sp - (Z.of_nat (length s) + 1))) (u32 (Z.lnot 3)) in
        let! r := copyout pgdir sp (s ++ [0]) in
        if r <? 0 then ret None
        else push_args argv pgdir (argc + 1) sp (ustack ++ [sp])
  end.

(** The program's name: what follows the last slash. *)
Fixpoint last_elem (s last : list Z) : list Z :=
  match s with
  | [] => last
  | c :: s => last_elem s (if c =? SLASH then s else last)
  end.

(** From the commit to the user image on. *)
Definition exec_commit (cur : nat) (path : list Z) (pgdir sz entry sp : Z) : M Z :=
  set_name cur (last_elem path path ++ [0]) ;;;
  let! oldpgdir := pget p_pgdir cur in
  pset cur (set_p_pgdir pgdir) ;;;
  pset cur (set_p_sz sz) ;;;
  pset cur (λ p, set_p_tf (set_tf_eip entry (p_tf p)) p) ;;;
  pset cur (λ p, set_p_tf (set_tf_esp sp (p_tf p)) p) ;;;
  switchuvm (Some cur) ;;;
  freevm oldpgdir ;;;
  ret 0.

(** The user stack of the new image. *)
Definition exec_stack (cur : nat) (path : list Z) (argv : list (list Z)) (pgdir sz entry : Z) : M Z :=
  let sz := PGROUNDUP sz in
  let! sz := allocuvm pgdir sz (u32 (sz + 2 * PGSIZE)) in
  if sz =? 0 then exec_bad pgdir None
  else
    clearpteu pgdir (u32 (sz - 2 * PGSIZE)) ;;;
    let! r := push_args argv pgdir 0 sz [] in
    match r with
    | None => exec_bad pgdir None
    | Some (sp, args) =>
        let argc := Z.of_nat (length argv) in
        let ustack := [0xffffffff; argc; u32 (sp - (argc + 1) * 4)] ++ args ++ [0] in
        let sp := u32 (sp - (3 + argc + 1) * 4) in
        let! r := copyout pgdir sp (mjoin (bytes32 <$> ustack)) in
        if r <? 0 then exec_bad pgdir None
        else exec_commit cur path pgdir sz entry sp
    end.

Definition exec (path : list Z) (argv : list (list Z)) : M Z :=
  let! cur := curproc in
  begin_op ;;;
  let! ip := namei path in
  match ip with
  | None => end_op ;;; cprintf ("exec: fail" +:+ nl) [] ;;; ret (-1)
  | Some ip =>
      ilock (Some ip) ;;;
      let! r := readi ip kernel_sink 0 SIZEOF_ELFHDR in
      let '(n, bytes) := r in
      if negb (n =? SIZEOF_ELFHDR) then exec_bad 0 (Some ip)
      else
        let elf := elfhdr_of bytes in
        if negb (elf_magic elf =? ELF_MAGIC) then exec_bad 0 (Some ip)
        else
          let! pgdir := setupkvm in
          if pgdir =? 0 then exec_bad 0 (Some ip)
          else
            let! r := load_segments (Z.to_nat (elf_phnum elf)) pgdir ip (elf_phoff elf) 0 in
            match r with
            | None => exec_bad pgdir (Some ip)
            | Some sz =>
                iunlockput ip ;;;
                end_op ;;;
                exec_stack cur path argv pgdir sz (elf_entry elf)
            end
  end.

(** The loop of [sys_exec]; [n] more entries fit in [argv]. *)
Fixpoint exec_args (n : nat) (uargv i : Z) : M (option (list (list Z))) :=
  match n with
  | O => ret None
  | S n =>
      let! uarg := fetchint (u32 (uargv + 4 * i)) in
      match uarg with
      | None => ret None
      | Some uarg =>
          if uarg =? 0 then ret (Some [])
          else
            let! s := fetchstr (u32 uarg) in
            match s with
            | None => ret None
            | Some s => let! l := exec_args n uargv (i + 1) in ret (cons s <$> l)
            end
      end
  end.

Definition sys_exec : M Z :=
  let! path := argstr 0 in
  match path with
  | None => ret (-1)
  | Some path =>
      let! uargv := argint 1 in
      match uargv with
      | None => ret (-1)
      | Some uargv =>
          let! argv := exec_args MAXARG uargv 0 in
          match argv with
          | None => ret (-1)
          | Some argv => exec path argv
          end
      end
  end.
End exec.
