(* ===== verification/Syscall.v ===== *)
(** * System calls and traps ([sysproc.c], [syscall] of [syscall.c], [trap.c])

    The interrupt controller and the gate descriptors are not modelled; what
    the keyboard, the serial line and the register [cr2] hold when a trap is
    handled is an input of [trap]. *)

From stdpp Require Import base numbers list gmap strings.
From S2P Require Import Prelude Mmu Hardware Memory Bytes Kernel Spinlock Kalloc Cprintf Vm Proc Thread Sleeplock Blockdev Bio Log Fs Pipe File ProcLife Console Sysfile Exec.

Implicit Types (k : K) (o : oracle).

(** ** [sysproc.c] *)

(** A system call with integer arguments: [-1] when one cannot be fetched. *)
Definition with_arg (n : Z) (f : Z → M Z) : M Z :=
  let! a := argint n in
  match a with
  | Some a => f a
  | None => ret (-1)
  end.

Definition sys_wait : M Z := wait.
Definition sys_kill : M Z := with_arg 0 kill.
Definition sys_getpid : M Z := let! cur := curproc in pget p_pid cur.

Definition sys_sbrk : M Z :=
  with_arg 0 (λ n,
    let! cur := curproc in
    let! addr := pget p_sz cur in
    let! r := growproc n in
    if r <? 0 then ret (-1) else ret (s32 addr)).

(** The condition of the loop: [n] is converted to unsigned. *)
Definition sleeping (ticks0 n : Z) (k : K) : bool := u32 (k_ticks k - ticks0) <? u32 n.

Definition sleep_tick (ticks0 n : Z) : M (option Z) :=
  let! go := reads (sleeping ticks0 n) in
  if go : bool then
    let! cur := curproc in
    let! killed := pget p_killed cur in
    if killed then release LTicks ;;; ret (Some (-1))
    else sleep CTicks (Some LTicks) ;;; ret None
  else release LTicks ;;; ret (Some 0).

Definition sys_sleep : M Z :=
  with_arg 0 (λ n,
    acquire LTicks ;;;
    let! ticks0 := reads k_ticks in
    forever (sleep_tick ticks0 n)).

Definition sys_uptime : M Z :=
  acquire LTicks ;;;
  let! xticks := reads k_ticks in
  release LTicks ;;;
  ret (s32 xticks).

Definition sys_hello_world : M Z := hello_world.

Definition sys_join : M Z :=
  let! stack := argptr 0 4 in
  match stack with
  | None => ret (-1)
  | Some stack => join stack
  end.

Definition sys_change_tickets : M Z :=
  with_arg 0 (λ pid, with_arg 1 (λ tickets, change_tickets pid tickets)).

Definition sys_mutex_init : M Z := mutex_init.
Definition sys_mutex_lock : M Z := with_arg 0 mutex_lock.
Definition sys_mutex_unlock : M Z := with_arg 0 mutex_unlock.
Definition sys_barrier_init : M Z := with_arg 0 barrier_init.
Definition sys_barrier_lock : M Z := barrier_lock.

Definition sys_fork : M Z := fork.

Section syscall.
Context {DEV : BlockDev}.

Definition sys_exit : M Z := exit.

Definition sys_clone : M Z :=
  with_arg 1 (λ arg, with_arg 2 (λ stack,
    let! function := argptr 0 4 in
    match function with
    | None => ret (-1)
    | Some function =>
        let! cur := curproc in
        let! sz := pget p_sz cur in
        if negb (u32 stack mod PGSIZE =? 0) || (u32 (sz - u32 stack) =? PGSIZE / 2) then ret (-1)
        else clone function (u32 arg) (u32 stack)
    end)).

Context {DSW : Devsw}.

(** The table [syscalls]. *)
Definition syscalls : list (option (M Z)) :=
  [ None; Some sys_fork; Some sys_exit; Some sys_wait; Some sys_pipe; Some sys_read; Some sys_kill;
    Some sys_exec; Some sys_fstat; Some sys_chdir; Some sys_dup; Some sys_getpid; Some sys_sbrk;
    Some sys_sleep; Some sys_uptime; Some sys_open; Some sys_write; Some sys_mknod; Some sys_unlink;
    Some sys_link; Some sys_mkdir; Some sys_close; Some sys_hello_world; Some sys_clone;
    Some sys_join; Some sys_change_tickets; Some sys_mutex_init; Some sys_mutex_lock;
    Some sys_mutex_unlock; Some sys_barrier_init; Some sys_barrier_lock ].

(** The entry for a call number, if it is one. *)
Definition syscall_entry (num : Z) : option (M Z) :=
  if (0 <? num) && (num <? Z.of_nat (length syscalls)) then default None (syscalls !! Z.to_nat num)
  else None.

Definition set_eax (v : Z) (p : proc) : proc := set_p_tf (set_tf_eax (u32 v) (p_tf p)) p.

Definition syscall : M unit :=
  let! cur := curproc in
  let! p := pget id cur in
  let num := s32 (tf_eax (p_tf p)) in
  match syscall_entry num with
  | Some f =>
      let! r := f in
      pset cur (set_eax r)
  | None =>
      cprintf ("%d %s: unknown sys call %d" +:+ nl)
        [AInt (p_pid p); AStr (Some (cstr 16 (p_name p))); AInt num] ;;;
      pset cur (set_eax (-1))
  end.

(** ** [trap] *)

(** What the devices give the handler: the characters [kbdgetc] and
    [uartgetc] return, and [cr2]. *)
Record trap_input := mk_ti { ti_kbd : list Z; ti_uart : list Z; ti_cr2 : Z }.

(** [myproc()->killed], false without a process. *)
Definition killed_now : M bool :=
  let! p := myproc in
  match p with
  | None => ret false
  | Some p => pget p_killed p
  end.

Definition from_user (tf : trapframe) : bool := Z.land (tf_cs tf) 3 =? DPL_USER.
Definition from_kernel (tf : trapframe) : bool := Z.land (tf_cs tf) 3 =? 0.

Definition exit_if_killed (tf : trapframe) : M unit :=
  let! killed := killed_now in
  when (killed && from_user tf) exit.

(** The timer's interrupt: CPU 0 counts the ticks. *)
Definition timer_tick : M unit :=
  let! c := cpuid in
  when (bool_decide (c = 0%nat))
    (acquire LTicks ;;;
     modify (λ k, set_k_ticks (u32 (k_ticks k + 1)) k) ;;;
     wakeup CTicks ;;;
     release LTicks).

(** A trap nobody expects: a bug of the kernel, or of the process. *)
Definition trap_default (input : trap_input) (tf : trapframe) : M unit :=
  let! p := myproc in
  match p with
  | Some p =>
      if from_kernel tf then
        let! c := cpuid in
        cprintf ("unexpected trap %d from cpu %d eip %x (cr2=0x%x)" +:+ nl)
          [AInt (tf_trapno tf); AInt (Z.of_nat c); AInt (tf_eip tf); AInt (ti_cr2 input)] ;;;
        panic "trap"
      else
        let! q := pget id p in
        let! c := cpuid in
        cprintf ("pid %d %s: trap %d err %d on cpu %d eip 0x%x addr 0x%x--kill proc" +:+ nl)
          [AInt (p_pid q); AStr (Some (cstr 16 (p_name q))); AInt (tf_trapno tf); AInt (tf_err tf);
           AInt (Z.of_nat c); AInt (tf_eip tf); AInt (ti_cr2 input)] ;;;
        pset p (set_p_killed true)
  | None =>
      let! c := cpuid in
      cprintf ("unexpected trap %d from cpu %d eip %x (cr2=0x%x)" +:+ nl)
        [AInt (tf_trapno tf); AInt (Z.of_nat c); AInt (tf_eip tf); AInt (ti_cr2 input)] ;;;
      panic "trap"
  end.

(** The [switch] on the trap number. *)
Definition trap_dispatch (input : trap_input) (tf : trapframe) : M unit :=
  let n := tf_trapno tf in
  if n =? T_IRQ0 + IRQ_TIMER then timer_tick
  else if n =? T_IRQ0 + IRQ_IDE then ideintr
  else if n =? T_IRQ0 + IRQ_IDE + 1 then ret tt
  else if n =? T_IRQ0 + IRQ_KBD then consoleintr (ti_kbd input)
  else if n =? T_IRQ0 + IRQ_COM1 then consoleintr (ti_uart input)
  else if (n =? T_IRQ0 + 7) || (n =? T_IRQ0 + IRQ_SPURIOUS) then
    let! c := cpuid in
    cprintf ("cpu%d: spurious interrupt at %x:%x" +:+ nl)
      [AInt (Z.of_nat c); AInt (tf_cs tf); AInt (tf_eip tf)]
  else trap_default input tf.

(** [yield] on a clock tick. *)
Definition yield_on_tick (tf : trapframe) : M unit :=
  let! p := myproc in
  match p with
  | None => ret tt
  | Some p =>
      let! s := pget p_state p in
      when (bool_decide (s = RUNNING) && (tf_trapno tf =? T_IRQ0 + IRQ_TIMER)) yield
  end.

Definition trap (input : trap_input) (tf : trapframe) : M unit :=
  if tf_trapno tf =? T_SYSCALL then
    let! cur := curproc in
    let! killed := pget p_killed cur in
    when killed exit ;;;
    pset cur (set_p_tf tf) ;;;
    syscall ;;;
    let! cur := curproc in
    let! killed := pget p_killed cur in
    when killed exit
  else
    trap_dispatch input tf ;;;
    exit_if_killed tf ;;;
    yield_on_tick tf ;;;
    exit_if_killed tf.
End syscall.
