(* ===== verification/Frame.v ===== *)
(** * What kernel code leaves alone, and the resources it takes and gives back

    A program logic for the kernel's monad.  The state is described by a family of
    predicates [J] over the list of scopes that the code has open: interrupts
    turned off ([pushcli]), spin-locks, sleep-locks, and transactions of the log.
    A family is a [Frame] when it follows the primitives that open and close
    scopes, and survives what any code may do to any process: changing its
    scheduling state, as long as it stays alive, its channel, its [killed] flag, its
    parent and its tickets.

    [framed L m Q] says that [m], started in the scopes [L], follows every frame to
    the scopes [Q a] when it returns [a], provided the rest of the system respects
    the frame while [m] waits.  Most code is [neutral]: it ends in the scopes it
    started in.  The functions that create, change or end a process, and the frames
    with the theorems they give, are in [Isolation]. *)

From stdpp Require Import base numbers list gmap strings.
From S2P Require Import Prelude Mmu Hardware Memory Bytes Kernel Spinlock Kalloc Cprintf Kbd Vm Proc Thread Sleeplock Blockdev Portio Memide Apic Ide Bio Log Fs Pipe File ProcLife Console Sysfile Exec Syscall.

Implicit Types (k : K) (h : hw) (o : oracle).

(** ** Frames *)

(** [Spin] and [Cli] are inside [acquire] and [pushcli], [Sleep] inside
    [acquiresleep], [Op] inside [begin_op]. *)
Inductive scope := Cli | Spin (lk : lockid) | Sleep (s : slid) | Op.
Notation scopes := (list scope).

(** A process that exists and has not ended. *)
Definition alive (p : proc) : bool :=
  match p_state p with UNUSED | ZOMBIE => false | _ => true end.

(** What a process owns in its entry of the table: memory, registers, open files,
    directory, name, thread stack and count. *)
Definition image (p : proc) :=
  (p_sz p, p_pgdir p, p_kstack p, p_pid p, p_tf p, p_context p, p_ofile p, p_cwd p, p_name p, p_ustack p, p_refs p).

Definition harmless (f : proc → proc) : Prop :=
  ∀ p, image (f p) = image p ∧ (alive p = true → alive (f p) = true).

(** What the rest of the system does respects the family. *)
Definition respects (J : scopes → K → Prop) o : Prop := Forall (λ env, ∀ L k, J L k → J L (env k)) o.

(** From the scopes [L], [m] returns in the scopes [Q a] with a result that
    satisfies [R], or stops in a state that satisfies [E]. *)
Definition through (J : scopes → K → Prop) (E : K → Prop) (L : scopes) {A} (m : M A) (Q : A → scopes) (R : A → Prop) : Prop :=
  ∀ o k, J L k → respects J o →
  match m o k with
  | Ret a o' k' => J (Q a) k' ∧ respects J o' ∧ R a
  | Panic _ k' | Blocked k' => E k'
  end.

(** A frame holds of the states in which the code stops, as [E]. *)
Class Stops (J : scopes → K → Prop) (E : K → Prop) : Prop := stops L k : J L k → E k.

(** Nothing is changed that a scope or a process stands for. *)
Definition unrelated k k' : Prop :=
  k_hw k' = k_hw k ∧ k_ptable k' = k_ptable k ∧ k_use_lock k' = k_use_lock k ∧
  lg_outstanding (k_log k') = lg_outstanding (k_log k) ∧ ∀ s, sl_get s k' = sl_get s k.

Class Frame (J : scopes → K → Prop) (E : K → Prop) : Prop := {
  fr_stop :: Stops J E;
  fr_perm L L' k : L ≡ₚ L' → J L k → J L' k;
  fr_use_lock L k : J L k → k_use_lock k = true;
  fr_rest L k k' : unrelated k k' → J L k → J L k';
  fr_cr3 L k v : J L k → J L (set_k_hw (set_h_cr3 v (k_hw k)) k);
  fr_tr L k v : J L k → J L (set_k_hw (set_h_tr v (k_hw k)) k);
  fr_cpu L k c f : (∀ x, c_apicid (f x) = c_apicid x ∧ c_ncli (f x) = c_ncli x ∧ c_proc (f x) = c_proc x) →
    J L k → J L (set_k_hw (set_h_cpus (alter f c (h_cpus (k_hw k))) (k_hw k)) k);
  fr_initlock L k lk : Spin lk ∉ L → J L k → J L (set_k_hw (set_h_locks (delete lk (h_locks (k_hw k))) (k_hw k)) k);
  fr_proc L k p f : harmless f → J L k → J L (set_k_ptable (alter f p (k_ptable k)) k);
  fr_procs L k f : harmless f → J L k → J L (set_k_ptable (f <$> k_ptable k) k);
  fr_pushcli L : through J E L pushcli (λ _, Cli :: L) (λ _, True);
  fr_popcli L : through J E (Cli :: L) popcli (λ _, L) (λ _, True);
  fr_acquire L lk : through J E L (acquire lk) (λ _, Spin lk :: L) (λ _, True);
  fr_release L lk : through J E (Spin lk :: L) (release lk) (λ _, L) (λ _, True);
  fr_sl_open L k s : J L k → J (Sleep s :: L) k;
  fr_sl_set L k s v : Sleep s ∈ L → J L k → J L (sl_set s v k);
  fr_sl_close L k s : sl_locked (sl_get s k) = false → J (Sleep s :: L) k → J L k;
  fr_begin L k : J L k → J (Op :: L) (set_k_log (set_lg_outstanding (lg_outstanding (k_log k) + 1) (k_log k)) k);
  fr_end L k : J (Op :: L) k → J L (set_k_log (set_lg_outstanding (lg_outstanding (k_log k) - 1) (k_log k)) k)
}.

Definition framed (L : scopes) {A} (m : M A) (Q : A → scopes) : Prop :=
  ∀ J E, Frame J E → through J E L m Q (λ _, True).

Notation neutral m := (∀ L, framed L m (λ _, L)).

(** ** The rules *)

Section rules.
Context {J : scopes → K → Prop} {E : K → Prop} {ST : Stops J E}.

Lemma through_ret {A} L (a : A) Q R : Q a = L → R a → through J E L (ret a) Q R.
Proof. intros HQ HR o k Hk Ho. cbn. by rewrite HQ. Qed.

Lemma through_panic {A} L msg Q R : through J E L (@panic A msg) Q R.
Proof. intros o k Hk Ho. cbn. by apply (stops L). Qed.

Lemma through_reads {A} L (f : K → A) (R : A → Prop) : (∀ k, J L k → R (f k)) → through J E L (reads f) (λ _, L) R.
Proof. intros HR o k Hk Ho. cbn. auto. Qed.

Lemma through_modify L f : (∀ k, J L k → J L (f k)) → through J E L (modify f) (λ _, L) (λ _, True).
Proof. intros Hf o k Hk Ho. cbn. auto. Qed.

Lemma through_bind {A B} L (m : M A) (f : A → M B) Q1 R1 Q R :
  through J E L m Q1 R1 → (∀ a, R1 a → through J E (Q1 a) (f a) Q R) → through J E L (bind m f) Q R.
Proof.
  intros Hm Hf o k Hk Ho. unfold bind. specialize (Hm o k Hk Ho).
  destruct (m o k) as [a o' k'| |]; [|done|done]. destruct Hm as (Hk' & Ho' & HP). by apply Hf.
Qed.

Lemma through_wait_others L : through J E L wait_others (λ _, L) (λ _, True).
Proof.
  intros [|env o] k Hk Ho; [by apply (stops L)|]. apply Forall_cons in Ho as [He Ho]. cbn. auto.
Qed.

Lemma through_forever {A} L (body : M (option A)) Q :
  through J E L body (λ r, match r with Some a => Q a | None => L end) (λ _, True) →
  through J E L (forever body) Q (λ _, True).
Proof.
  intros Hb o k Hk Ho. unfold forever. generalize (S (length o)). intros n. revert o k Hk Ho.
  induction n as [|n IH]; cbn [loop_n]; [by apply through_panic|].
  eapply through_bind; [exact Hb|]. intros [a|] _; [by apply through_ret|done].
Qed.

End rules.

Lemma through_use_lock {J E} `{!Frame J E} {B} L (f : bool → M B) Q R :
  through J E L (f true) Q R → through J E L (bind (reads k_use_lock) f) Q R.
Proof. intros Hf o k Hk Ho. unfold bind, reads. rewrite (fr_use_lock L) by done. by apply Hf. Qed.

Lemma framed_ret {A} L (a : A) Q : Q a = L → framed L (ret a) Q.
Proof. intros HQ J E F. by apply through_ret. Qed.
Lemma framed_panic {A} L msg Q : framed L (@panic A msg) Q.
Proof. intros J E F. by apply through_panic. Qed.
Lemma framed_reads {A} (f : K → A) : neutral (reads f).
Proof. intros L J E F. by apply through_reads. Qed.
Lemma framed_bind {A B} L (m : M A) (f : A → M B) Q1 Q :
  framed L m Q1 → (∀ a, framed (Q1 a) (f a) Q) → framed L (bind m f) Q.
Proof. intros Hm Hf J E F. eapply through_bind; [by apply Hm|]. intros a _. by apply Hf. Qed.
Lemma framed_wait_others : neutral wait_others.
Proof. intros L J E F. by apply through_wait_others. Qed.
Lemma framed_forever {A} L (body : M (option A)) Q :
  framed L body (λ r, match r with Some a => Q a | None => L end) → framed L (forever body) Q.
Proof. intros Hb J E F. by apply through_forever, Hb. Qed.
Lemma framed_use_lock {B} L (f : bool → M B) Q : framed L (f true) Q → framed L (bind (reads k_use_lock) f) Q.
Proof. intros Hf J E F. by apply through_use_lock, Hf. Qed.

Lemma framed_perm {A} L L' (m : M A) Q : L ≡ₚ L' → framed L' m Q → framed L m Q.
Proof. intros HL Hm J E F o k Hk Ho. apply (Hm J E F o k); [by apply (fr_perm L)|done]. Qed.
Lemma framed_perm_post {A} L (m : M A) Q Q' : (∀ a, Q a ≡ₚ Q' a) → framed L m Q → framed L m Q'.
Proof.
  intros HQ Hm J E F o k Hk Ho. specialize (Hm J E F o k Hk Ho). destruct (m o k) as [a o' k'| |]; [|done|done].
  destruct Hm as (H1 & H2 & _). split; [by apply (fr_perm (Q a))|done].
Qed.
Lemma framed_swap {A} L x y (m : M A) Q : framed (y :: x :: L) m Q → framed (x :: y :: L) m Q.
Proof. apply framed_perm, Permutation_swap. Qed.

(** A null pointer is not locked. *)
Lemma framed_ilock_null {DEV : BlockDev} {A} L (f : unit → M A) Q : framed L (bind (ilock None) f) Q.
Proof. intros J E F. apply (through_panic L "ilock"). Qed.

(** *** Changes of the state *)

Lemma framed_modify f : (∀ k, unrelated k (f k)) → neutral (modify f).
Proof. intros Hf L J E F. apply through_modify. intros k. apply fr_rest, Hf. Qed.
Lemma framed_pset p f : harmless f → neutral (pset p f).
Proof. intros Hf L J E F. apply through_modify. intros k. by apply fr_proc. Qed.
Lemma framed_bufset b f : (∀ x, b_lock (f x) = b_lock x) → neutral (bufset b f).
Proof.
  intros Hf. apply framed_modify. intros k. split_and!; try done. intros [b'|i]; [|done]. cbn.
  destruct (decide (b = b')) as [->|Hb]; [rewrite list_lookup_alter_eq|by rewrite list_lookup_alter_ne].
  destruct (k_bcache k !! b'); cbn; [by rewrite Hf|done].
Qed.
Lemma framed_inoset ip f : (∀ x, i_lock (f x) = i_lock x) → neutral (inoset ip f).
Proof.
  intros Hf. apply framed_modify. intros k. split_and!; try done. intros [b|i]; [done|]. cbn.
  destruct (decide (ip = i)) as [->|Hi]; [rewrite list_lookup_alter_eq|by rewrite list_lookup_alter_ne].
  destruct (k_icache k !! i); cbn; [by rewrite Hf|done].
Qed.
Lemma framed_logset f : (∀ l, lg_outstanding (f l) = lg_outstanding l) → neutral (logset f).
Proof. intros Hf. apply framed_modify. intros k. split_and!; try done. apply Hf. Qed.

Lemma framed_lcr3 v : neutral (lcr3 v).
Proof. intros L J E F. apply through_modify. intros k. apply fr_cr3. Qed.
Lemma framed_ltr v : neutral (ltr v).
Proof. intros L J E F. apply through_modify. intros k. apply fr_tr. Qed.
Lemma framed_cpu_write f c :
  (∀ x, c_apicid (f x) = c_apicid x ∧ c_ncli (f x) = c_ncli x ∧ c_proc (f x) = c_proc x) → neutral (cpu_write f c).
Proof. intros Hf L J E F. apply through_modify. intros k. by apply fr_cpu. Qed.
Lemma framed_initlock L lk : Spin lk ∉ L → framed L (initlock lk) (λ _, L).
Proof. intros Hl J E F. apply through_modify. intros k. by apply fr_initlock. Qed.
Lemma framed_pushcli L : framed L pushcli (λ _, Cli :: L).
Proof. intros J E F. apply fr_pushcli. Qed.
Lemma framed_popcli L : framed (Cli :: L) popcli (λ _, L).
Proof. intros J E F. apply fr_popcli. Qed.
Lemma framed_acquire L lk : framed L (acquire lk) (λ _, Spin lk :: L).
Proof. intros J E F. apply fr_acquire. Qed.
Lemma framed_release L lk : framed (Spin lk :: L) (release lk) (λ _, L).
Proof. intros J E F. apply fr_release. Qed.

Create HintDb frame.
#[export] Hint Resolve framed_panic framed_reads framed_wait_others framed_lcr3 framed_ltr framed_pushcli framed_popcli framed_acquire framed_release : frame.
#[export] Hint Extern 2 (framed _ (cpu_write _ _) _) => apply framed_cpu_write; done : frame.
#[export] Hint Extern 2 (framed _ (bufset _ _) _) => apply framed_bufset; done : frame.
#[export] Hint Extern 2 (framed _ (inoset _ _) _) => apply framed_inoset; done : frame.
#[export] Hint Extern 2 (framed _ (logset _) _) => apply framed_logset; done : frame.
#[export] Hint Extern 3 (framed (_ :: _ :: _) (release _) _) => apply framed_swap, framed_release : frame.

(** Whether a scope is open. *)
Ltac scope_in := repeat first [apply list_elem_of_here | apply list_elem_of_further | assumption].
#[export] Hint Extern 1 (_ ∈ _) => solve [scope_in] : frame.

(** One step into the code: a sequence, a choice, a known call, or the body of a
    function. *)
Ltac unfold_head m := match m with ?f _ => unfold_head f | ?f => unfold f end.
Ltac frame_bind :=
  lazymatch goal with
  | |- framed ?L (bind _ _) _ =>
      first [ eapply framed_bind; [solve [eauto 4 with frame nocore]|intros ?; cbv beta]
            | apply (framed_bind L _ _ (λ _, L)); [|intros ?] ]
  end.
Ltac frame_step :=
  lazymatch goal with
  | |- framed _ (bind (reads k_use_lock) _) _ => apply framed_use_lock
  | |- framed _ (bind (ilock ?ip) _) _ =>
      lazymatch ip with Some _ => frame_bind | None => apply framed_ilock_null | _ => destruct ip end
  | |- framed _ (bind _ _) _ => frame_bind
  | |- framed _ (when _ _) _ => unfold when
  | |- framed _ (forever _) _ => apply framed_forever
  | |- framed _ (if ?b then _ else _) _ => destruct b
  | |- framed _ (match ?x with _ => _ end) _ => destruct x eqn:?
  | |- framed _ (ret _) _ => apply framed_ret; reflexivity
  | |- framed _ _ _ =>
      first [solve [eauto 4 with frame nocore] | lazymatch goal with
        | |- framed _ (modify _) _ => apply framed_modify; intros ?; split_and!; reflexivity
        | |- framed _ (pset _ _) _ => apply framed_pset; first [solve [eauto with frame nocore] | intros ?; split; [reflexivity|by cbn]]
        | |- framed _ ?m _ => unfold_head m
        end]
  | |- ∀ _, _ => intros ?
  end.
Ltac frame := intros; repeat frame_step.
Tactic Notation "frame_ind" constr(n) reference(f) := induction n; intros; cbn [f]; frame.


(** ** Spin-locks *)

Lemma framed_myproc : neutral myproc.
Proof. frame. Qed.
#[export] Hint Resolve framed_myproc : frame.
Lemma framed_holding lk : neutral (holding lk).
Proof. frame. Qed.
#[export] Hint Resolve framed_holding : frame.

(** ** The page allocator *)

Lemma framed_kfree v : neutral (kfree v).
Proof. frame. Qed.
#[export] Hint Resolve framed_kfree : frame.
Lemma framed_kalloc : neutral kalloc.
Proof. frame. Qed.
#[export] Hint Resolve framed_kalloc : frame.

(** ** Printing *)

Lemma framed_consputc c : neutral (consputc c).
Proof.
  intros L J E F o k Hk Ho. unfold consputc. destruct (cons_panicked _); [by apply (stops L)|].
  split; [|done]. by apply (fr_rest L k).
Qed.
#[export] Hint Resolve framed_consputc : frame.
Lemma framed_consputs s : neutral (consputs s).
Proof. frame_ind s consputs. Qed.
#[export] Hint Resolve framed_consputs : frame.
Lemma framed_printint xx base sign : neutral (printint xx base sign).
Proof. frame. Qed.
#[export] Hint Resolve framed_printint : frame.
Lemma framed_cprintf_loop fmt : ∀ args, neutral (cprintf_loop fmt args).
Proof.
  induction fmt as [fmt IH] using (induction_ltof1 _ length). unfold ltof in IH. intros args L.
  destruct fmt as [|c [|d fmt]]; cbn [cprintf_loop]; repeat first [apply framed_bind with (Q1 := λ _, L); [frame|intros ?]; apply IH; cbn; lia | apply IH; cbn; lia | frame_step].
Qed.
#[export] Hint Resolve framed_cprintf_loop : frame.
Lemma framed_cprintf fmt args : neutral (cprintf fmt args).
Proof. intros L. unfold cprintf. eapply framed_bind; [apply framed_reads|]. intros []; frame. Qed.
#[export] Hint Resolve framed_cprintf : frame.

(** ** Virtual memory *)

Lemma framed_rd32 a : neutral (rd32 a).
Proof. frame. Qed.
#[export] Hint Resolve framed_rd32 : frame.
Lemma framed_wr32 a v : neutral (wr32 a v).
Proof. frame. Qed.
#[export] Hint Resolve framed_wr32 : frame.
Lemma framed_kmemset a c n : neutral (kmemset a c n).
Proof. frame. Qed.
#[export] Hint Resolve framed_kmemset : frame.
Lemma framed_kmemmove d s n : neutral (kmemmove d s n).
Proof. frame. Qed.
#[export] Hint Resolve framed_kmemmove : frame.
Lemma framed_walkpgdir pgdir va alloc : neutral (walkpgdir pgdir va alloc).
Proof. frame. Qed.
#[export] Hint Resolve framed_walkpgdir : frame.
Lemma framed_mappages_loop fuel : ∀ pgdir a last pa perm, neutral (mappages_loop fuel pgdir a last pa perm).
Proof. frame_ind fuel mappages_loop. Qed.
#[export] Hint Resolve framed_mappages_loop : frame.
Lemma framed_mappages pgdir va size pa perm : neutral (mappages pgdir va size pa perm).
Proof. frame. Qed.
#[export] Hint Resolve framed_mappages : frame.
Lemma framed_deallocuvm_loop fuel : ∀ pgdir a oldsz, neutral (deallocuvm_loop fuel pgdir a oldsz).
Proof. frame_ind fuel deallocuvm_loop. Qed.
#[export] Hint Resolve framed_deallocuvm_loop : frame.
Lemma framed_deallocuvm pgdir oldsz newsz : neutral (deallocuvm pgdir oldsz newsz).
Proof. frame. Qed.
#[export] Hint Resolve framed_deallocuvm : frame.
Lemma framed_allocuvm_loop fuel : ∀ pgdir a oldsz newsz, neutral (allocuvm_loop fuel pgdir a oldsz newsz).
Proof. frame_ind fuel allocuvm_loop. Qed.
#[export] Hint Resolve framed_allocuvm_loop : frame.
Lemma framed_allocuvm pgdir oldsz newsz : neutral (allocuvm pgdir oldsz newsz).
Proof. frame. Qed.
#[export] Hint Resolve framed_allocuvm : frame.
Lemma framed_freevm_tables n : ∀ pgdir i, neutral (freevm_tables n pgdir i).
Proof. frame_ind n freevm_tables. Qed.
#[export] Hint Resolve framed_freevm_tables : frame.
Lemma framed_freevm pgdir : neutral (freevm pgdir).
Proof. frame. Qed.
#[export] Hint Resolve framed_freevm : frame.
Lemma framed_setupkvm_loop l : ∀ pgdir, neutral (setupkvm_loop l pgdir).
Proof. frame_ind l setupkvm_loop. Qed.
#[export] Hint Resolve framed_setupkvm_loop : frame.
Lemma framed_setupkvm : neutral setupkvm.
Proof. frame. Qed.
#[export] Hint Resolve framed_setupkvm : frame.
Lemma framed_switchuvm p : neutral (switchuvm p).
Proof. frame. Qed.
#[export] Hint Resolve framed_switchuvm : frame.
Lemma framed_clearpteu pgdir uva : neutral (clearpteu pgdir uva).
Proof. frame. Qed.
#[export] Hint Resolve framed_clearpteu : frame.
Lemma framed_copyuvm_loop fuel : ∀ pgdir d i sz, neutral (copyuvm_loop fuel pgdir d i sz).
Proof. frame_ind fuel copyuvm_loop. Qed.
#[export] Hint Resolve framed_copyuvm_loop : frame.
Lemma framed_copyuvm pgdir sz : neutral (copyuvm pgdir sz).
Proof. frame. Qed.
#[export] Hint Resolve framed_copyuvm : frame.
Lemma framed_vrd8 va : neutral (vrd8 va).
Proof. frame. Qed.
#[export] Hint Resolve framed_vrd8 : frame.
Lemma framed_vwr8 va v : neutral (vwr8 va v).
Proof. frame. Qed.
#[export] Hint Resolve framed_vwr8 : frame.
Lemma framed_vrd32 va : neutral (vrd32 va).
Proof. frame. Qed.
#[export] Hint Resolve framed_vrd32 : frame.
Lemma framed_vwr32 va v : neutral (vwr32 va v).
Proof. frame. Qed.
#[export] Hint Resolve framed_vwr32 : frame.
Lemma framed_uva2ka pgdir uva : neutral (uva2ka pgdir uva).
Proof. frame. Qed.
#[export] Hint Resolve framed_uva2ka : frame.
Lemma framed_copyout_loop fuel : ∀ pgdir va buf, neutral (copyout_loop fuel pgdir va buf).
Proof. frame_ind fuel copyout_loop. Qed.
#[export] Hint Resolve framed_copyout_loop : frame.
Lemma framed_copyout pgdir va buf : neutral (copyout pgdir va buf).
Proof. frame. Qed.
#[export] Hint Resolve framed_copyout : frame.

(** ** Processes *)

Lemma framed_curproc : neutral curproc.
Proof. frame. Qed.
#[export] Hint Resolve framed_curproc : frame.
Lemma framed_sched : neutral sched.
Proof. frame. Qed.
#[export] Hint Resolve framed_sched : frame.
Lemma framed_yield : neutral yield.
Proof. frame. Qed.
#[export] Hint Resolve framed_yield : frame.
Lemma harmless_wake ch : harmless (wake_proc ch).
Proof. intros p. unfold wake_proc. destruct (_ && _) eqn:E; split; try done. Qed.
Lemma harmless_kill : harmless kill_proc.
Proof. intros p. unfold kill_proc. cbn zeta. case_bool_decide; split; done. Qed.
#[export] Hint Resolve harmless_kill : frame.

Lemma framed_wakeup1 ch : neutral (wakeup1 ch).
Proof. intros L J E F. apply through_modify. intros k. apply fr_procs, harmless_wake. Qed.
#[export] Hint Resolve framed_wakeup1 : frame.
Lemma framed_wakeup ch : neutral (wakeup ch).
Proof. frame. Qed.
#[export] Hint Resolve framed_wakeup : frame.
Lemma framed_kill pid : neutral (kill pid).
Proof. frame. Qed.
#[export] Hint Resolve framed_kill : frame.

(** [sleep] gives up its lock and takes it again. *)
Lemma framed_sleep L ch lk : framed (Spin lk :: L) (sleep ch (Some lk)) (λ _, Spin lk :: L).
Proof.
  unfold sleep. eapply framed_bind; [apply framed_myproc|]. intros [p|]; cbv beta; [|frame].
  destruct (decide (lk = LPtable)) as [->|Hl].
  - rewrite !bool_decide_eq_false_2 by tauto. frame.
  - rewrite !bool_decide_eq_true_2 by done. apply (framed_bind _ _ _ (λ _, Spin LPtable :: L)); frame.
Qed.
#[export] Hint Resolve framed_sleep : frame.
Lemma framed_sleep_while L cond ch lk : framed (Spin lk :: L) (sleep_while cond ch lk) (λ _, Spin lk :: L).
Proof. frame. Qed.
#[export] Hint Resolve framed_sleep_while : frame.
Lemma framed_change_tickets pid tickets : neutral (change_tickets pid tickets).
Proof. frame. Qed.
#[export] Hint Resolve framed_change_tickets : frame.

(** ** Mutexes and the barrier *)

Lemma framed_mget i : neutral (mget i).
Proof. frame. Qed.
#[export] Hint Resolve framed_mget : frame.
Lemma framed_mset i f : neutral (mset i f).
Proof. frame. Qed.
#[export] Hint Resolve framed_mset : frame.
Lemma framed_mutex_init : neutral mutex_init.
Proof. frame. Qed.
#[export] Hint Resolve framed_mutex_init : frame.
Lemma framed_mutex_lock mutex_id : neutral (mutex_lock mutex_id).
Proof. frame. Qed.
#[export] Hint Resolve framed_mutex_lock : frame.
Lemma framed_mutex_unlock mutex_id : neutral (mutex_unlock mutex_id).
Proof. frame. Qed.
#[export] Hint Resolve framed_mutex_unlock : frame.
Lemma framed_barrier_lock : neutral barrier_lock.
Proof. frame. Qed.
#[export] Hint Resolve framed_barrier_lock : frame.
Lemma framed_barrier_init n : framed [] (barrier_init n) (λ _, []).
Proof.
  unfold barrier_init. frame_step; [frame|]. eapply framed_bind; [apply framed_initlock, not_elem_of_nil|]. frame.
Qed.
#[export] Hint Resolve framed_barrier_init : frame.

(** ** Sleep-locks *)

Lemma framed_open {A} L s (m : M A) Q : framed (Sleep s :: L) m Q → framed L m Q.
Proof. intros Hm J E F o k Hk Ho. apply (Hm J E F o k); [by apply fr_sl_open|done]. Qed.
Lemma framed_sl_set L s v : Sleep s ∈ L → framed L (modify (λ k, sl_set s (v k) k)) (λ _, L).
Proof. intros HL J E F. apply through_modify. intros k. by apply fr_sl_set. Qed.

Lemma framed_acquiresleep L s : framed L (acquiresleep s) (λ _, Sleep s :: L).
Proof.
  unfold acquiresleep. do 2 frame_step. apply (framed_open _ s).
  assert (∀ v, framed (Sleep s :: Spin (LSleep s) :: L) (modify (λ k, sl_set s (v k) k)) (λ _, Sleep s :: Spin (LSleep s) :: L)) as Hset
    by (intros v; apply framed_sl_set, list_elem_of_here).
  eapply framed_bind; [apply Hset|intros ?; cbv beta]. do 2 frame_step. eapply framed_bind; [apply Hset|intros ?; cbv beta]. frame.
Qed.
#[export] Hint Resolve framed_acquiresleep : frame.

Lemma sl_locked_set s v k : sl_locked v = false → sl_locked (sl_get s (sl_set s v k)) = false.
Proof.
  intros Hv. destruct s as [b|i]; cbn; rewrite list_lookup_alter_eq; [destruct (k_bcache k !! b)|destruct (k_icache k !! i)]; done.
Qed.

(** Once the fields are cleared the lock is closed. *)
Lemma framed_sl_clear {A} L s (m : M A) Q :
  framed L m Q →
  framed (Sleep s :: L)
    (modify (λ k, sl_set s (set_sl_locked false (sl_get s k)) k) ;;; modify (λ k, sl_set s (set_sl_pid 0 (sl_get s k)) k) ;;; m) Q.
Proof.
  intros Hm J E F o k Hk Ho. unfold bind, modify. apply (Hm J E F); [|done]. apply (fr_sl_close L _ s).
  - apply sl_locked_set. cbn. by apply sl_locked_set.
  - do 2 (apply fr_sl_set; [apply list_elem_of_here|]). done.
Qed.

Lemma framed_releasesleep L s : framed (Sleep s :: L) (releasesleep s) (λ _, L).
Proof. unfold releasesleep. frame_step. apply framed_swap, framed_sl_clear. frame. Qed.
#[export] Hint Resolve framed_releasesleep : frame.
#[export] Hint Extern 3 (framed (_ :: _ :: _) (releasesleep _) _) => apply framed_swap, framed_releasesleep : frame.
Lemma framed_holdingsleep s : neutral (holdingsleep s).
Proof. frame. Qed.
#[export] Hint Resolve framed_holdingsleep : frame.

(** ** Disk, buffers and log *)

Lemma framed_bufget {A} (g : buf → A) b : neutral (bufget g b).
Proof. frame. Qed.
#[export] Hint Resolve framed_bufget : frame.

(** The disk's driver and the device switch are to be neutral themselves. *)
Class FramedDev (DEV : BlockDev) : Prop := {
  framed_iderw b : neutral (iderw b);
  framed_ideintr : neutral ideintr
}.
#[export] Hint Extern 1 (framed _ (iderw _) _) => apply framed_iderw : frame.
#[export] Hint Extern 1 (framed _ ideintr _) => apply framed_ideintr : frame.

Lemma framed_mem_iderw disksize b : neutral (mem_iderw disksize b).
Proof. frame. Qed.

#[export] Instance memide_framed disksize : FramedDev (memide_dev disksize).
Proof. split; [intros b; apply framed_mem_iderw|intros L; by apply framed_ret]. Qed.

Lemma framed_inb {MA : Machine} p : neutral (inb p).
Proof. frame. Qed.
#[export] Hint Resolve framed_inb : frame.
Lemma framed_outb p v : neutral (outb p v).
Proof. frame. Qed.
#[export] Hint Resolve framed_outb : frame.
Lemma framed_insl {MA : Machine} p n : neutral (insl p n).
Proof. frame. Qed.
#[export] Hint Resolve framed_insl : frame.
Lemma framed_outsl {MA : Machine} p d : neutral (outsl p d).
Proof. frame. Qed.
#[export] Hint Resolve framed_outsl : frame.
Lemma framed_poll n read rd : neutral read → neutral (poll n read rd).
Proof. intros Hr. induction n; intros L; [intros J E F o k Hk Ho; by apply (stops L)|]. cbn [poll]. frame. Qed.
Lemma framed_idewait {MA : Machine} c : neutral (idewait c).
Proof.
  intros L. unfold idewait. eapply framed_bind; [apply framed_poll; intros ?; apply framed_inb|]. frame.
Qed.
#[export] Hint Resolve framed_idewait : frame.
Lemma framed_idestart {MA : Machine} b : neutral (idestart b).
Proof. frame. Qed.
#[export] Hint Resolve framed_idestart : frame.
Lemma framed_ide_ideintr {MA : Machine} : neutral ide_ideintr.
Proof. frame. Qed.
Lemma framed_ide_iderw {MA : Machine} b : neutral (ide_iderw b).
Proof. frame. Qed.

#[export] Instance ide_framed {MA : Machine} : FramedDev ide_dev.
Proof. split; cbn [iderw ideintr ide_dev]; [exact framed_ide_iderw|exact framed_ide_ideintr]. Qed.

(** A buffer is locked from [bread] to [brelse]. *)
Lemma framed_bget L dev n : framed L (bget dev n) (λ b, Sleep (SLBuf b) :: L).
Proof. frame. Qed.
#[export] Hint Resolve framed_bget : frame.
Lemma framed_bread `{!FramedDev DEV} L dev n : framed L (bread dev n) (λ b, Sleep (SLBuf b) :: L).
Proof. frame. Qed.
#[export] Hint Resolve framed_bread : frame.
Lemma framed_brelse L b : framed (Sleep (SLBuf b) :: L) (brelse b) (λ _, L).
Proof. frame. Qed.
#[export] Hint Resolve framed_brelse : frame.
#[export] Hint Extern 3 (framed (_ :: _ :: _) (brelse _) _) => apply framed_swap, framed_brelse : frame.
Lemma framed_bwrite `{!FramedDev DEV} b : neutral (bwrite b).
Proof. frame. Qed.
#[export] Hint Resolve framed_bwrite : frame.
Lemma framed_logget {A} (g : log_t → A)  : neutral (logget g).
Proof. frame. Qed.
#[export] Hint Resolve framed_logget : frame.
Lemma framed_install_one `{!FramedDev DEV} tail : neutral (install_one tail).
Proof. frame. Qed.
#[export] Hint Resolve framed_install_one : frame.
Lemma framed_install_loop `{!FramedDev DEV} fuel : ∀ tail, neutral (install_loop fuel tail).
Proof. frame_ind fuel install_loop. Qed.
#[export] Hint Resolve framed_install_loop : frame.
Lemma framed_install_trans `{!FramedDev DEV} : neutral install_trans.
Proof. frame. Qed.
#[export] Hint Resolve framed_install_trans : frame.
#[local] Opaque install_trans.
Lemma framed_write_head `{!FramedDev DEV} : neutral write_head.
Proof. frame. Qed.
#[export] Hint Resolve framed_write_head : frame.
Lemma framed_begin_op L : framed L begin_op (λ _, Op :: L).
Proof.
  unfold begin_op. do 2 frame_step.
  apply (framed_bind _ _ _ (λ _, Op :: Spin LLog :: L)); [|frame]. intros J E F o k Hk Ho. cbn. split; [|done]. by apply fr_begin.
Qed.
#[export] Hint Resolve framed_begin_op : frame.
Lemma framed_write_log_one `{!FramedDev DEV} tail : neutral (write_log_one tail).
Proof. frame. Qed.
#[export] Hint Resolve framed_write_log_one : frame.
Lemma framed_write_log_loop `{!FramedDev DEV} fuel : ∀ tail, neutral (write_log_loop fuel tail).
Proof. frame_ind fuel write_log_loop. Qed.
#[export] Hint Resolve framed_write_log_loop : frame.
Lemma framed_write_log `{!FramedDev DEV} : neutral write_log.
Proof. frame. Qed.
#[export] Hint Resolve framed_write_log : frame.
Lemma framed_commit `{!FramedDev DEV} : neutral commit.
Proof. frame. Qed.
#[export] Hint Resolve framed_commit : frame.
Lemma framed_end_op `{!FramedDev DEV} L : framed (Op :: L) end_op (λ _, L).
Proof.
  unfold end_op. frame_step.
  apply (framed_bind _ _ _ (λ _, Spin LLog :: L)); [|frame]. apply framed_swap. intros J E F o k Hk Ho. cbn. split; [|done]. by apply fr_end.
Qed.
#[export] Hint Resolve framed_end_op : frame.
#[export] Hint Extern 3 (framed (_ :: _ :: _) end_op _) => apply framed_swap, framed_end_op : frame.
Lemma framed_log_write b : neutral (log_write b).
Proof. frame. Qed.
#[export] Hint Resolve framed_log_write : frame.

(** ** The file system *)

(** A driver is called with the inode locked. *)
Class FramedDevsw (DSW : Devsw) : Prop := {
  framed_dev_read major f : dev_read major = Some f →
    ∀ L ip dst n, Sleep (SLInode ip) ∈ L → (∀ t l, neutral (dst t l)) → framed L (f ip dst n) (λ _, L);
  framed_dev_write major f : dev_write major = Some f →
    ∀ L ip src n, Sleep (SLInode ip) ∈ L → (∀ t m, neutral (src t m)) → framed L (f ip src n) (λ _, L)
}.

Lemma framed_kernel_sink t l : neutral (kernel_sink t l).
Proof. intros L. by apply framed_ret. Qed.
Lemma framed_kernel_source b t m : neutral (kernel_source b t m).
Proof. intros L. by apply framed_ret. Qed.
Lemma framed_deref {A} p (f : nat → M A) : (∀ i, neutral (f i)) → neutral (deref p f).
Proof. frame. Qed.
#[export] Hint Resolve framed_kernel_sink framed_kernel_source framed_deref : frame.
Lemma framed_inoget {A} (g : inode → A) ip : neutral (inoget g ip).
Proof. frame. Qed.
#[export] Hint Resolve framed_inoget : frame.
Lemma framed_iget dev inum : neutral (iget dev inum).
Proof. frame. Qed.
#[export] Hint Resolve framed_iget : frame.
Lemma framed_idup ip : neutral (idup ip).
Proof. frame. Qed.
#[export] Hint Resolve framed_idup : frame.
Lemma framed_iunlock L ip : framed (Sleep (SLInode ip) :: L) (iunlock (Some ip)) (λ _, L).
Proof. frame. Qed.
#[export] Hint Resolve framed_iunlock : frame.
#[export] Hint Extern 3 (framed (_ :: _ :: _) (iunlock _) _) => apply framed_swap, framed_iunlock : frame.
Lemma framed_bzero `{!FramedDev DEV} dev bno : neutral (bzero dev bno).
Proof. frame. Qed.
#[export] Hint Resolve framed_bzero : frame.
Lemma framed_balloc_loop `{!FramedDev DEV} fuel : ∀ dev b, neutral (balloc_loop fuel dev b).
Proof. frame_ind fuel balloc_loop. Qed.
#[export] Hint Resolve framed_balloc_loop : frame.
Lemma framed_balloc `{!FramedDev DEV} dev : neutral (balloc dev).
Proof. frame. Qed.
#[export] Hint Resolve framed_balloc : frame.
Lemma framed_bfree `{!FramedDev DEV} dev b : neutral (bfree dev b).
Proof. frame. Qed.
#[export] Hint Resolve framed_bfree : frame.
Lemma framed_ialloc_loop `{!FramedDev DEV} fuel : ∀ dev type inum, neutral (ialloc_loop fuel dev type inum).
Proof. frame_ind fuel ialloc_loop. Qed.
#[export] Hint Resolve framed_ialloc_loop : frame.
Lemma framed_ialloc `{!FramedDev DEV} dev type : neutral (ialloc dev type).
Proof. frame. Qed.
#[export] Hint Resolve framed_ialloc : frame.
Lemma framed_iupdate `{!FramedDev DEV} ip : neutral (iupdate ip).
Proof. frame. Qed.
#[export] Hint Resolve framed_iupdate : frame.
Lemma framed_ilock `{!FramedDev DEV} L ip : framed L (ilock (Some ip)) (λ _, Sleep (SLInode ip) :: L).
Proof. frame. Qed.
#[export] Hint Resolve framed_ilock : frame.
Lemma framed_bmap `{!FramedDev DEV} ip bn : neutral (bmap ip bn).
Proof. frame. Qed.
#[export] Hint Resolve framed_bmap : frame.
Lemma framed_itrunc_direct `{!FramedDev DEV} n : ∀ ip i, neutral (itrunc_direct n ip i).
Proof. frame_ind n itrunc_direct. Qed.
#[export] Hint Resolve framed_itrunc_direct : frame.
Lemma framed_itrunc_indirect `{!FramedDev DEV} n : ∀ ip bp j, neutral (itrunc_indirect n ip bp j).
Proof. frame_ind n itrunc_indirect. Qed.
#[export] Hint Resolve framed_itrunc_indirect : frame.
Lemma framed_itrunc `{!FramedDev DEV} ip : neutral (itrunc ip).
Proof. frame. Qed.
#[export] Hint Resolve framed_itrunc : frame.
Lemma framed_iput `{!FramedDev DEV} ip : neutral (iput ip).
Proof. frame. Qed.
#[export] Hint Resolve framed_iput : frame.
Lemma framed_iunlockput `{!FramedDev DEV} L ip : framed (Sleep (SLInode ip) :: L) (iunlockput ip) (λ _, L).
Proof. frame. Qed.
#[export] Hint Resolve framed_iunlockput : frame.
#[export] Hint Extern 3 (framed (_ :: _ :: _) (iunlockput _) _) => apply framed_swap, framed_iunlockput : frame.
Lemma framed_stati ip : neutral (stati ip).
Proof. frame. Qed.
#[export] Hint Resolve framed_stati : frame.
Lemma framed_readi_loop `{!FramedDev DEV} fuel : ∀ ip dst off n tot, (∀ t l, neutral (dst t l)) → neutral (readi_loop fuel ip dst off n tot).
Proof. frame_ind fuel readi_loop. Qed.
#[export] Hint Resolve framed_readi_loop : frame.
Lemma framed_readi `{!FramedDev DEV} `{!FramedDevsw DSW} L ip dst off n :
  Sleep (SLInode ip) ∈ L → (∀ t l, neutral (dst t l)) → framed L (readi ip dst off n) (λ _, L).
Proof. frame. by eapply framed_dev_read. Qed.
#[export] Hint Resolve framed_readi : frame.
Lemma framed_writei_loop `{!FramedDev DEV} fuel : ∀ ip src off n tot, (∀ t m, neutral (src t m)) → neutral (writei_loop fuel ip src off n tot).
Proof. frame_ind fuel writei_loop. Qed.
#[export] Hint Resolve framed_writei_loop : frame.
Lemma framed_writei `{!FramedDev DEV} `{!FramedDevsw DSW} L ip src off n :
  Sleep (SLInode ip) ∈ L → (∀ t m, neutral (src t m)) → framed L (writei ip src off n) (λ _, L).
Proof. frame. by eapply framed_dev_write. Qed.
#[export] Hint Resolve framed_writei : frame.
Lemma framed_namecmp s t : neutral (namecmp s t).
Proof. frame. Qed.
#[export] Hint Resolve framed_namecmp : frame.
Lemma framed_read_dirent `{!FramedDev DEV} `{!FramedDevsw DSW} dp off msg L : Sleep (SLInode dp) ∈ L → framed L (read_dirent dp off msg) (λ _, L).
Proof. frame. Qed.
#[export] Hint Resolve framed_read_dirent : frame.
Lemma framed_dirlookup_loop `{!FramedDev DEV} `{!FramedDevsw DSW} fuel : ∀ dp name off L, Sleep (SLInode dp) ∈ L → framed L (dirlookup_loop fuel dp name off) (λ _, L).
Proof. frame_ind fuel dirlookup_loop. Qed.
#[export] Hint Resolve framed_dirlookup_loop : frame.
Lemma framed_dirlookup `{!FramedDev DEV} `{!FramedDevsw DSW} dp name L : Sleep (SLInode dp) ∈ L → framed L (dirlookup dp name) (λ _, L).
Proof. frame. Qed.
#[export] Hint Resolve framed_dirlookup : frame.
Lemma framed_dirlink_loop `{!FramedDev DEV} `{!FramedDevsw DSW} fuel : ∀ dp off L, Sleep (SLInode dp) ∈ L → framed L (dirlink_loop fuel dp off) (λ _, L).
Proof. frame_ind fuel dirlink_loop. Qed.
#[export] Hint Resolve framed_dirlink_loop : frame.
Lemma framed_dirlink `{!FramedDev DEV} `{!FramedDevsw DSW} dp name inum L : Sleep (SLInode dp) ∈ L → framed L (dirlink dp name inum) (λ _, L).
Proof. frame. Qed.
#[export] Hint Resolve framed_dirlink : frame.
Lemma framed_namex_loop `{!FramedDev DEV} `{!FramedDevsw DSW} fuel : ∀ path nameiparent name ip, neutral (namex_loop fuel path nameiparent name ip).
Proof. frame_ind fuel namex_loop. Qed.
#[export] Hint Resolve framed_namex_loop : frame.
Lemma framed_namex `{!FramedDev DEV} `{!FramedDevsw DSW} path nameiparent name : neutral (namex path nameiparent name).
Proof. frame. Qed.
#[export] Hint Resolve framed_namex : frame.
Lemma framed_namei `{!FramedDev DEV} `{!FramedDevsw DSW} path : neutral (namei path).
Proof. frame. Qed.
#[export] Hint Resolve framed_namei : frame.
Lemma framed_nameiparent `{!FramedDev DEV} `{!FramedDevsw DSW} path name : neutral (nameiparent path name).
Proof. frame. Qed.
#[export] Hint Resolve framed_nameiparent : frame.

(** ** Pipes and files *)

Lemma framed_piget {A} (g : pipe → A) p : neutral (piget g p).
Proof. frame. Qed.
#[export] Hint Resolve framed_piget : frame.
Lemma framed_piset p f : neutral (piset p f).
Proof. frame. Qed.
#[export] Hint Resolve framed_piset : frame.
Lemma framed_pipeclose p writable : neutral (pipeclose p writable).
Proof. frame. Qed.
#[export] Hint Resolve framed_pipeclose : frame.
(** Waiting for room: when the write fails the lock has been released. *)
Lemma framed_pipewrite_turn p L :
  framed (Spin (LPipe p) :: L) (pipewrite_turn p)
    (λ r, match r with Some b => if b then Spin (LPipe p) :: L else L | None => Spin (LPipe p) :: L end).
Proof. frame. Qed.
#[export] Hint Resolve framed_pipewrite_turn : frame.
Lemma framed_pipewrite_loop p addr L n : (∀ t m, neutral (addr t m)) → ∀ i,
  framed (Spin (LPipe p) :: L) (pipewrite_loop n p addr i) (λ b, if b then Spin (LPipe p) :: L else L).
Proof.
  intros Ha. induction n as [|n IH]; intros i; cbn [pipewrite_loop]; [frame|].
  eapply framed_bind; [apply framed_forever, framed_pipewrite_turn|]. intros []; frame.
Qed.
#[export] Hint Resolve framed_pipewrite_loop : frame.
Lemma framed_pipewrite p addr n : (∀ t m, neutral (addr t m)) → neutral (pipewrite p addr n).
Proof.
  intros Ha L. unfold pipewrite. frame_step. eapply framed_bind; [by apply framed_pipewrite_loop|]. intros []; frame.
Qed.
#[export] Hint Resolve framed_pipewrite : frame.
Lemma framed_piperead_turn p L :
  framed (Spin (LPipe p) :: L) (piperead_turn p)
    (λ r, match r with Some b => if b then Spin (LPipe p) :: L else L | None => Spin (LPipe p) :: L end).
Proof. frame. Qed.
Lemma framed_piperead_loop n : ∀ p addr i, (∀ t l, neutral (addr t l)) → neutral (piperead_loop n p addr i).
Proof. frame_ind n piperead_loop. Qed.
#[export] Hint Resolve framed_piperead_loop : frame.
Lemma framed_piperead p addr n : (∀ t l, neutral (addr t l)) → neutral (piperead p addr n).
Proof.
  intros Ha L. unfold piperead. frame_step. eapply framed_bind; [apply framed_forever, framed_piperead_turn|]. intros []; frame.
Qed.
#[export] Hint Resolve framed_piperead : frame.
Lemma framed_fget {A} (g : file → A) f : neutral (fget g f).
Proof. frame. Qed.
#[export] Hint Resolve framed_fget : frame.
Lemma framed_fset f g : neutral (fset f g).
Proof. frame. Qed.
#[export] Hint Resolve framed_fset : frame.
Lemma framed_filealloc : neutral filealloc.
Proof. frame. Qed.
#[export] Hint Resolve framed_filealloc : frame.
Lemma framed_filedup f : neutral (filedup f).
Proof. frame. Qed.
#[export] Hint Resolve framed_filedup : frame.
Lemma framed_fileclose `{!FramedDev DEV} f : neutral (fileclose f).
Proof. frame. Qed.
#[export] Hint Resolve framed_fileclose : frame.
Lemma framed_pipealloc `{!FramedDev DEV} : framed [] pipealloc (λ _, []).
Proof.
  assert (∀ p, framed [] (initlock p) (λ _, [])) by (intros; apply framed_initlock, not_elem_of_nil). frame.
Qed.
#[export] Hint Resolve framed_pipealloc : frame.
Lemma framed_filestat `{!FramedDev DEV} f : neutral (filestat f).
Proof. frame. Qed.
#[export] Hint Resolve framed_filestat : frame.
Lemma framed_fileread `{!FramedDev DEV} `{!FramedDevsw DSW} f addr n : (∀ t l, neutral (addr t l)) → neutral (fileread f addr n).
Proof. frame. Qed.
#[export] Hint Resolve framed_fileread : frame.
Lemma framed_source_at addr i t m : (∀ t m, neutral (addr t m)) → neutral (source_at addr i t m).
Proof. unfold source_at. auto. Qed.
#[export] Hint Resolve framed_source_at : frame.
Lemma framed_filewrite_loop `{!FramedDev DEV} `{!FramedDevsw DSW} fuel : ∀ f ip addr n i, (∀ t m, neutral (addr t m)) → neutral (filewrite_loop fuel f ip addr n i).
Proof. frame_ind fuel filewrite_loop. Qed.
#[export] Hint Resolve framed_filewrite_loop : frame.
Lemma framed_filewrite `{!FramedDev DEV} `{!FramedDevsw DSW} f addr n : (∀ t m, neutral (addr t m)) → neutral (filewrite f addr n).
Proof. frame. Qed.
#[export] Hint Resolve framed_filewrite : frame.

(** ** Dumping the processes *)

Lemma framed_print_pcs pcs : neutral (print_pcs pcs).
Proof. frame_ind pcs print_pcs. Qed.
#[export] Hint Resolve framed_print_pcs : frame.
Lemma framed_procdump_loop n : ∀ p, neutral (procdump_loop n p).
Proof. frame_ind n procdump_loop. Qed.
#[export] Hint Resolve framed_procdump_loop : frame.
Lemma framed_procdump : neutral procdump.
Proof. frame. Qed.
#[export] Hint Resolve framed_procdump : frame.
Lemma framed_wakeup_proc p : neutral (wakeup_proc p).
Proof. frame. Qed.
#[export] Hint Resolve framed_wakeup_proc : frame.
Lemma framed_reparent n : ∀ cur p, neutral (reparent n cur p).
Proof. frame_ind n reparent. Qed.
#[export] Hint Resolve framed_reparent : frame.

(** ** The console *)

Lemma framed_cget {A} (g : console → A)  : neutral (cget g).
Proof. frame. Qed.
#[export] Hint Resolve framed_cget : frame.
Lemma framed_cset f : neutral (cset f).
Proof. frame. Qed.
#[export] Hint Resolve framed_cset : frame.
Lemma framed_rub_out : neutral rub_out.
Proof. frame. Qed.
#[export] Hint Resolve framed_rub_out : frame.
Lemma framed_kill_line fuel : neutral (kill_line fuel).
Proof. frame_ind fuel kill_line. Qed.
#[export] Hint Resolve framed_kill_line : frame.
Lemma framed_type_char c : neutral (type_char c).
Proof. frame. Qed.
#[export] Hint Resolve framed_type_char : frame.
Lemma framed_console_char c doprocdump : neutral (console_char c doprocdump).
Proof. frame. Qed.
#[export] Hint Resolve framed_console_char : frame.
Lemma framed_console_chars cs : ∀ doprocdump, neutral (console_chars cs doprocdump).
Proof. frame_ind cs console_chars. Qed.
#[export] Hint Resolve framed_console_chars : frame.
Lemma framed_consoleintr cs : neutral (consoleintr cs).
Proof. frame. Qed.
#[export] Hint Resolve framed_consoleintr : frame.
Lemma framed_consolewrite_loop n : ∀ buf i, (∀ t m, neutral (buf t m)) → neutral (consolewrite_loop n buf i).
Proof. frame_ind n consolewrite_loop. Qed.
#[export] Hint Resolve framed_consolewrite_loop : frame.

(** Reading and writing the console, with the inode unlocked while waiting. *)
Lemma framed_consoleread_turn `{!FramedDev DEV} ip L :
  framed (Spin LCons :: L) (consoleread_turn ip)
    (λ r, match r with Some b => if b then Spin LCons :: L else Sleep (SLInode ip) :: L | None => Spin LCons :: L end).
Proof. frame. Qed.
Lemma framed_consoleread_loop `{!FramedDev DEV} ip dst L n : (∀ t l, neutral (dst t l)) → ∀ tot,
  framed (Spin LCons :: L) (consoleread_loop n ip dst tot)
    (λ r, match r with Some _ => Spin LCons :: L | None => Sleep (SLInode ip) :: L end).
Proof.
  intros Ha. induction n as [|n IH]; intros tot; cbn [consoleread_loop]; [frame|].
  eapply framed_bind; [apply framed_forever, framed_consoleread_turn|]. intros []; [|frame].
  do 2 (frame_step; [frame..|]). frame_step; [frame|]. frame_step. frame_step; [frame|].
  eapply framed_bind; [apply IH|]. intros [l|]; frame.
Qed.

(** An open scope may be closed and opened again. *)
Lemma framed_reopen {A} L x (m : M A) : (∀ L', framed (x :: L') m (λ _, x :: L')) → x ∈ L → framed L m (λ _, L).
Proof.
  intros Hm (L' & HL)%elem_of_Permutation. apply (framed_perm _ (x :: L')); [done|]. by apply (framed_perm_post _ _ (λ _, x :: L')).
Qed.
Lemma framed_consoleread `{!FramedDev DEV} ip dst n L :
  (∀ t l, neutral (dst t l)) → Sleep (SLInode ip) ∈ L → framed L (consoleread ip dst n) (λ _, L).
Proof.
  intros Ha. apply framed_reopen. intros L'. unfold consoleread. do 2 frame_step.
  eapply framed_bind; [by apply framed_consoleread_loop|]. intros [l|]; frame.
Qed.
Lemma framed_consolewrite `{!FramedDev DEV} ip buf n L :
  (∀ t m, neutral (buf t m)) → Sleep (SLInode ip) ∈ L → framed L (consolewrite ip buf n) (λ _, L).
Proof. intros Ha. apply framed_reopen. frame. Qed.

#[export] Instance console_framed `{!FramedDev DEV} : FramedDevsw console_devsw.
Proof.
  split; intros major f; cbn; case_match; intros ?; simplify_eq; intros; [by apply framed_consoleread|by apply framed_consolewrite].
Qed.

(** ** System calls *)

Lemma framed_fetchint addr : neutral (fetchint addr).
Proof. frame. Qed.
#[export] Hint Resolve framed_fetchint : frame.
Lemma framed_scan_str n : ∀ s, neutral (scan_str n s).
Proof. frame_ind n scan_str. Qed.
#[export] Hint Resolve framed_scan_str : frame.
Lemma framed_fetchstr addr : neutral (fetchstr addr).
Proof. frame. Qed.
#[export] Hint Resolve framed_fetchstr : frame.
Lemma framed_argint n : neutral (argint n).
Proof. frame. Qed.
#[export] Hint Resolve framed_argint : frame.
Lemma framed_argptr n size : neutral (argptr n size).
Proof. frame. Qed.
#[export] Hint Resolve framed_argptr : frame.
Lemma framed_argstr n : neutral (argstr n).
Proof. frame. Qed.
#[export] Hint Resolve framed_argstr : frame.
Lemma framed_argfd n : neutral (argfd n).
Proof. frame. Qed.
#[export] Hint Resolve framed_argfd : frame.
Lemma framed_vwr_bytes l : ∀ va, neutral (vwr_bytes va l).
Proof. frame_ind l vwr_bytes. Qed.
#[export] Hint Resolve framed_vwr_bytes : frame.
Lemma framed_vrd_bytes n : ∀ va, neutral (vrd_bytes n va).
Proof. frame_ind n vrd_bytes. Qed.
#[export] Hint Resolve framed_vrd_bytes : frame.
Lemma framed_user_sink p t l : neutral (user_sink p t l).
Proof. apply framed_vwr_bytes. Qed.
Lemma framed_user_source p t m : neutral (user_source p t m).
Proof. apply framed_vrd_bytes. Qed.
#[export] Hint Resolve framed_user_sink framed_user_source : frame.
Lemma framed_rw_args : neutral rw_args.
Proof. frame. Qed.
#[export] Hint Resolve framed_rw_args : frame.
Lemma framed_sys_read `{!FramedDev DEV} `{!FramedDevsw DSW} : neutral sys_read.
Proof. frame. Qed.
#[export] Hint Resolve framed_sys_read : frame.
Lemma framed_sys_write `{!FramedDev DEV} `{!FramedDevsw DSW} : neutral sys_write.
Proof. frame. Qed.
#[export] Hint Resolve framed_sys_write : frame.
Lemma framed_put_stat p st : neutral (put_stat p st).
Proof. frame. Qed.
#[export] Hint Resolve framed_put_stat : frame.
Lemma framed_sys_fstat `{!FramedDev DEV} : neutral sys_fstat.
Proof. frame. Qed.
#[export] Hint Resolve framed_sys_fstat : frame.
Lemma framed_add_link `{!FramedDev DEV} ip d : neutral (add_link ip d).
Proof. frame. Qed.
#[export] Hint Resolve framed_add_link : frame.

(** System calls that work on inodes; the scopes are those they are entered in. *)
Lemma framed_link_bad `{!FramedDev DEV} L ip : framed (Op :: L) (link_bad ip) (λ _, L).
Proof. frame. Qed.
#[export] Hint Resolve framed_link_bad : frame.
Lemma framed_link_to `{!FramedDev DEV} `{!FramedDevsw DSW} L ip new : framed (Op :: L) (link_to ip new) (λ _, L).
Proof. frame. Qed.
#[export] Hint Resolve framed_link_to : frame.
Lemma framed_isdirempty_loop `{!FramedDev DEV} `{!FramedDevsw DSW} fuel : ∀ dp off L, Sleep (SLInode dp) ∈ L → framed L (isdirempty_loop fuel dp off) (λ _, L).
Proof. frame_ind fuel isdirempty_loop. Qed.
#[export] Hint Resolve framed_isdirempty_loop : frame.
Lemma framed_isdirempty `{!FramedDev DEV} `{!FramedDevsw DSW} dp L : Sleep (SLInode dp) ∈ L → framed L (isdirempty dp) (λ _, L).
Proof. frame. Qed.
#[export] Hint Resolve framed_isdirempty : frame.
Lemma framed_unlink_bad `{!FramedDev DEV} L dp : framed (Sleep (SLInode dp) :: Op :: L) (unlink_bad dp) (λ _, L).
Proof. frame. Qed.
#[export] Hint Resolve framed_unlink_bad : frame.
Lemma framed_unlink_entry `{!FramedDev DEV} `{!FramedDevsw DSW} L dp ip off : framed (Sleep (SLInode dp) :: Op :: L) (unlink_entry dp ip off) (λ _, L).
Proof. frame. Qed.
#[export] Hint Resolve framed_unlink_entry : frame.
Lemma framed_create_found `{!FramedDev DEV} L dp ip type :
  framed (Sleep (SLInode dp) :: L) (create_found dp ip type) (λ r, match r with Some ip => Sleep (SLInode ip) :: L | None => L end).
Proof. frame. Qed.
#[export] Hint Resolve framed_create_found : frame.
Lemma framed_create_dots `{!FramedDev DEV} `{!FramedDevsw DSW} dp ip L : Sleep (SLInode ip) ∈ L → framed L (create_dots dp ip) (λ _, L).
Proof. frame. Qed.
#[export] Hint Resolve framed_create_dots : frame.
Lemma framed_create `{!FramedDev DEV} `{!FramedDevsw DSW} L path type major minor : framed L (create path type major minor) (λ r, match r with Some ip => Sleep (SLInode ip) :: L | None => L end).
Proof. frame. Qed.
#[export] Hint Resolve framed_create : frame.
Lemma framed_open_inode `{!FramedDev DEV} `{!FramedDevsw DSW} L path omode : framed L (open_inode path omode) (λ r, match r with Some ip => Sleep (SLInode ip) :: L | None => L end).
Proof. frame. Qed.
#[export] Hint Resolve framed_open_inode : frame.
Lemma framed_made `{!FramedDev DEV} L r : framed (match r with Some ip => Sleep (SLInode ip) :: Op :: L | None => Op :: L end) (made r) (λ _, L).
Proof. destruct r; frame. Qed.
#[export] Hint Resolve framed_made : frame.
Lemma framed_sys_mkdir `{!FramedDev DEV} `{!FramedDevsw DSW} : neutral sys_mkdir.
Proof.
  intros L. unfold sys_mkdir. do 2 frame_step. eapply framed_bind; [|intros r; apply framed_made]. frame.
Qed.
#[export] Hint Resolve framed_sys_mkdir : frame.
Lemma framed_sys_mknod `{!FramedDev DEV} `{!FramedDevsw DSW} : neutral sys_mknod.
Proof.
  intros L. unfold sys_mknod. do 2 frame_step. eapply framed_bind; [|intros r; apply framed_made]. frame.
Qed.
#[export] Hint Resolve framed_sys_mknod : frame.
Lemma framed_sys_link `{!FramedDev DEV} `{!FramedDevsw DSW} : neutral sys_link.
Proof. frame. Qed.
#[export] Hint Resolve framed_sys_link : frame.
Lemma framed_sys_unlink `{!FramedDev DEV} `{!FramedDevsw DSW} : neutral sys_unlink.
Proof. frame. Qed.
#[export] Hint Resolve framed_sys_unlink : frame.

(** ** Loading a program *)

Lemma framed_mem_sink a t l : neutral (mem_sink a t l).
Proof. unfold mem_sink. frame. Qed.
#[export] Hint Resolve framed_mem_sink : frame.
Lemma framed_loaduvm_loop `{!FramedDev DEV} `{!FramedDevsw DSW} fuel : ∀ pgdir addr ip offset sz i L, Sleep (SLInode ip) ∈ L → framed L (loaduvm_loop fuel pgdir addr ip offset sz i) (λ _, L).
Proof. frame_ind fuel loaduvm_loop. Qed.
#[export] Hint Resolve framed_loaduvm_loop : frame.
Lemma framed_loaduvm `{!FramedDev DEV} `{!FramedDevsw DSW} pgdir addr ip offset sz L : Sleep (SLInode ip) ∈ L → framed L (loaduvm pgdir addr ip offset sz) (λ _, L).
Proof. frame. Qed.
#[export] Hint Resolve framed_loaduvm : frame.
Lemma framed_load_segment `{!FramedDev DEV} `{!FramedDevsw DSW} pgdir ip off sz L : Sleep (SLInode ip) ∈ L → framed L (load_segment pgdir ip off sz) (λ _, L).
Proof. frame. Qed.
#[export] Hint Resolve framed_load_segment : frame.
Lemma framed_load_segments `{!FramedDev DEV} `{!FramedDevsw DSW} n : ∀ pgdir ip off sz L, Sleep (SLInode ip) ∈ L → framed L (load_segments n pgdir ip off sz) (λ _, L).
Proof. frame_ind n load_segments. Qed.
#[export] Hint Resolve framed_load_segments : frame.

(** The error exit puts the inode and ends the transaction if it has to. *)
Lemma framed_exec_bad_inode `{!FramedDev DEV} L pgdir ip : framed (Sleep (SLInode ip) :: Op :: L) (exec_bad pgdir (Some ip)) (λ _, L).
Proof. unfold exec_bad. frame_step; [frame|]. apply (framed_bind _ _ _ (λ _, L)); frame. Qed.
Lemma framed_exec_bad `{!FramedDev DEV} pgdir : neutral (exec_bad pgdir None).
Proof. frame. Qed.
#[export] Hint Resolve framed_exec_bad_inode framed_exec_bad : frame.
Lemma framed_push_args argv : ∀ pgdir argc sp ustack, neutral (push_args argv pgdir argc sp ustack).
Proof. frame_ind argv push_args. Qed.
#[export] Hint Resolve framed_push_args : frame.
Lemma framed_exec_args n : ∀ uargv i, neutral (exec_args n uargv i).
Proof. frame_ind n exec_args. Qed.
#[export] Hint Resolve framed_exec_args : frame.

(** ** System calls and traps *)

Lemma framed_with_arg L n f : (∀ x, framed L (f x) (λ _, L)) → framed L (with_arg n f) (λ _, L).
Proof. frame. Qed.
#[export] Hint Resolve framed_with_arg : frame.
Lemma framed_sys_kill : neutral sys_kill.
Proof. frame. Qed.
#[export] Hint Resolve framed_sys_kill : frame.
Lemma framed_sys_getpid : neutral sys_getpid.
Proof. frame. Qed.
#[export] Hint Resolve framed_sys_getpid : frame.
Lemma framed_sleep_tick ticks0 n L :
  framed (Spin LTicks :: L) (sleep_tick ticks0 n) (λ r, match r with Some _ => L | None => Spin LTicks :: L end).
Proof. frame. Qed.
#[export] Hint Resolve framed_sleep_tick : frame.
Lemma framed_sys_sleep : neutral sys_sleep.
Proof. frame. Qed.
#[export] Hint Resolve framed_sys_sleep : frame.
Lemma framed_sys_uptime : neutral sys_uptime.
Proof. frame. Qed.
#[export] Hint Resolve framed_sys_uptime : frame.
Lemma framed_sys_change_tickets : neutral sys_change_tickets.
Proof. frame. Qed.
#[export] Hint Resolve framed_sys_change_tickets : frame.
Lemma framed_sys_mutex_init : neutral sys_mutex_init.
Proof. frame. Qed.
#[export] Hint Resolve framed_sys_mutex_init : frame.
Lemma framed_sys_mutex_lock : neutral sys_mutex_lock.
Proof. frame. Qed.
#[export] Hint Resolve framed_sys_mutex_lock : frame.
Lemma framed_sys_mutex_unlock : neutral sys_mutex_unlock.
Proof. frame. Qed.
#[export] Hint Resolve framed_sys_mutex_unlock : frame.
Lemma framed_sys_barrier_lock : neutral sys_barrier_lock.
Proof. frame. Qed.
#[export] Hint Resolve framed_sys_barrier_lock : frame.
Lemma framed_killed_now : neutral killed_now.
Proof. frame. Qed.
#[export] Hint Resolve framed_killed_now : frame.
Lemma framed_timer_tick : neutral timer_tick.
Proof. frame. Qed.
#[export] Hint Resolve framed_timer_tick : frame.
Lemma framed_trap_default input tf : neutral (trap_default input tf).
Proof. frame. Qed.
#[export] Hint Resolve framed_trap_default : frame.
Lemma framed_yield_on_tick tf : neutral (yield_on_tick tf).
Proof. frame. Qed.
#[export] Hint Resolve framed_yield_on_tick : frame.
