(* ===== verification/Isolation.v ===== *)
(** * System calls keep to their own process and give back what they take

    The functions that create, change or end processes do so to the current
    process, to the slot they have just allocated, or to a child that has ended;
    [Owner] says which processes a frame lets them write.  With that every trap,
    and so every system call, follows every such frame.  Two frames give the
    theorems about traps: [isolated], a process other than the current one that is
    alive is not touched; and [tidy], the locks and transactions this CPU and its
    process hold.  A third, for the part of [exec] before the new program is
    committed to, gives that a failed [exec] changes nothing of its caller. *)

From stdpp Require Import base numbers list gmap strings.
From S2P Require Import Prelude Mmu Hardware Memory Bytes Kernel Spinlock Kalloc Cprintf Kbd Vm Proc Thread Sleeplock Blockdev Memide Bio Log Fs Pipe File ProcLife Console Sysfile Exec Syscall Frame.

Implicit Types (k : K) (h : hw) (o : oracle).

(** ** The functions that change processes *)

Class Owner (J : scopes → K → Prop) (own : nat → Prop) : Prop := {
  ow_write L k p f : own p → J L k → J L (set_k_ptable (alter f p (k_ptable k)) k);
  ow_cur L k p : hw_proc (k_hw k) = Some p → J L k → own p;
  ow_dead L k p q : k_ptable k !! p = Some q → alive q = false → J L k → own p
}.

(** The process pointer [myproc] reads is the one of the executing CPU. *)
Lemma mycpu_proc {B} (f : option nat → M B) o k :
  (let! c := mycpu in let! p := cpu_read c_proc None c in f p) o k =
  (let! _ := mycpu in f (hw_proc (k_hw k))) o k.
Proof.
  unfold mycpu, bind, reads, hw_proc. destruct (h_IF _); [done|]. destruct (hw_cpu (k_hw k)) as [[c cp]|] eqn:E; [|done].
  cbn. by rewrite (hw_cpu_lookup _ _ _ E).
Qed.

Lemma wait_scan_zombie cur n l b p :
  (wait_scan cur n l b).2 = Some p → ∃ q, l !! (p - n)%nat = Some q ∧ (n ≤ p)%nat ∧ alive q = false.
Proof.
  revert n b. induction l as [|q l IH]; intros n b; cbn; [done|].
  assert (∀ b, (wait_scan cur (S n) l b).2 = Some p → ∃ q', (q :: l) !! (p - n)%nat = Some q' ∧ (n ≤ p)%nat ∧ alive q' = false) as Hnext.
  { intros b' (q' & H1 & H2 & H3)%IH. exists q'. replace (p - n)%nat with (S (p - S n)) by lia. cbn. split; [done|split; [lia|done]]. }
  destruct (negb _); [apply Hnext|]. case_bool_decide as Hz; [|apply Hnext]. cbn. intros [= <-]. exists q.
  rewrite Nat.sub_diag. split; [done|split; [lia|]]. unfold alive. by rewrite Hz.
Qed.

Section owner.
Context {J : scopes → K → Prop} {E : K → Prop} {own : nat → Prop} {F : Frame J E} {W : Owner J own}.

(** From the scopes [L] back to them, with a result that satisfies [R]. *)
Notation back L m R := (through J E L m (λ _, L) R) (L in scope list_scope).
Notation comes_back L m := (through J E L m (λ _, L) (λ _, True)) (L in scope list_scope).

Lemma own_framed {A} L (m : M A) Q : framed L m Q → through J E L m Q (λ _, True).
Proof. intros Hm. by apply Hm, _. Qed.

Lemma own_pset L p f : own p → comes_back L (pset p f).
Proof. intros Hp. apply through_modify. intros k. by apply ow_write. Qed.

Lemma own_myproc L : back L myproc (λ p, ∀ i, p = Some i → own i).
Proof.
  unfold myproc. eapply through_bind; [apply own_framed, framed_pushcli|]. intros [] _ o k Hk Ho. rewrite mycpu_proc.
  assert (∀ i, hw_proc (k_hw k) = Some i → own i) as Hp by (intros i Hi; by apply (ow_cur (Cli :: L) k)).
  refine (through_bind (Cli :: L) _ _ (λ _, Cli :: L) (λ _, True) (λ _, L) _ _ _ o k Hk Ho); [apply own_framed; frame|]. intros c _.
  eapply through_bind; [apply own_framed, framed_popcli|]. intros [] _. by apply through_ret.
Qed.

Lemma own_curproc L : back L curproc own.
Proof.
  unfold curproc. eapply through_bind; [apply own_myproc|]. intros [p|] Hp; [apply through_ret; auto|apply through_panic].
Qed.

(** One step: the current process, a change of a process that is owned, framed code,
    or the body of a function. *)
Create HintDb own.
#[local] Hint Resolve own_pset : own.
Ltac own_step :=
  lazymatch goal with
  | |- through _ _ _ (bind curproc _) _ _ => eapply through_bind; [apply own_curproc|intros ? ?; cbv beta in *]
  | |- through _ _ ?L (bind _ _) _ _ =>
      first [ eapply through_bind; [apply own_framed; solve [eauto 4 with frame nocore]|intros ? _; cbv beta]
            | apply (through_bind L _ _ (λ _, L) (λ _, True)); [|intros ? _] ]
  | |- through _ _ _ (if ?b then _ else _) _ _ => destruct b
  | |- through _ _ _ (match ?x with _ => _ end) _ _ => destruct x eqn:?
  | |- through _ _ _ (when _ _) _ _ => unfold when
  | |- through _ _ _ (ret _) _ _ => apply through_ret; [reflexivity|first [exact Logic.I|congruence]]
  | |- through _ _ _ (panic _) _ _ => apply through_panic
  | |- through _ _ _ ?m _ _ =>
      first [solve [eauto 3 with own nocore] | apply own_framed; solve [frame] | unfold_head m]
  | |- ∀ _, _ => intros ?
  end.
Ltac own := intros; repeat own_step.

Lemma own_allocproc L : back L allocproc (λ r, ∀ p, r = Some p → own p).
Proof.
  unfold allocproc. own_step. apply (through_bind _ _ _ (λ _, Spin LPtable :: L) (λ r, ∀ p, fst <$> r = Some p → own p)).
  - apply through_reads. intros k Hk p Hp. destruct (list_find _ _) as [[j q]|] eqn:Ef; cbn in Hp; simplify_eq.
    apply list_find_Some in Ef as (Ef & Hs & _). apply (ow_dead (Spin LPtable :: L) k p q Ef); [|done]. unfold alive. by rewrite Hs.
  - intros [[p q]|] Hp; [specialize (Hp p eq_refl)|]; own.
Qed.

Lemma own_growproc L n : comes_back L (growproc n).
Proof. own. Qed.

Lemma own_reap L p : own p → comes_back L (reap p).
Proof. own. Qed.
#[local] Hint Resolve own_growproc own_reap : own.

Lemma own_wait L : comes_back L wait.
Proof.
  unfold wait. do 2 own_step. apply through_forever. unfold wait_turn.
  apply (through_bind _ _ _ (λ _, Spin LPtable :: L) (λ r, ∀ p, r.2 = Some p → own p)).
  - apply through_reads. intros k Hk p (q & Hq & _ & Ha)%wait_scan_zombie. rewrite Nat.sub_0_r in Hq. by apply (ow_dead (Spin LPtable :: L) k p q).
  - intros [b [p|]] Hp; [specialize (Hp p eq_refl)|]; own.
Qed.

Lemma own_join L stack : comes_back L (join stack).
Proof.
  unfold join. do 2 own_step. apply through_forever. unfold join_turn. own_step.
  apply (through_bind _ _ _ (λ _, Spin LPtable :: L) (λ r, ∀ p, fst <$> r = Some p → own p)).
  - apply through_reads. intros k Hk p Hp. unfold join_scan in Hp. destruct (list_find _ _) as [[j q]|] eqn:Ef; cbn in Hp; simplify_eq.
    apply list_find_Some in Ef as (Ef & (_ & _ & Hs) & _). apply (ow_dead (Spin LPtable :: L) k p q Ef); [|done]. unfold alive. by rewrite Hs.
  - intros [[p q]|] Hp; [specialize (Hp p eq_refl)|]; own.
Qed.

Lemma own_set_name L p t : own p → comes_back L (set_name p t).
Proof. own. Qed.
#[local] Hint Resolve own_wait own_join own_set_name : own.

Lemma own_dup_files L n cur np : own np → ∀ fd, comes_back L (dup_files n cur np fd).
Proof. intros Hnp. induction n as [|n IH]; intros fd; cbn [dup_files]; own. Qed.
#[local] Hint Resolve own_dup_files : own.

Lemma own_fork L : comes_back L fork.
Proof.
  unfold fork. own_step. eapply through_bind; [apply own_allocproc|]. intros [np|] Hnp; [specialize (Hnp np eq_refl)|]; own.
Qed.
#[local] Hint Resolve own_fork : own.

Context {DEV : BlockDev} {FD : FramedDev DEV}.

Lemma own_close_files L n cur : own cur → ∀ fd, comes_back L (close_files n cur fd).
Proof. intros Hc. induction n as [|n IH]; intros fd; cbn [close_files]; own. Qed.
#[local] Hint Resolve own_close_files : own.

(** [exit] does not return. *)
Lemma own_exit {A} L Q R : through J E L (@exit DEV A) Q R.
Proof. own. Qed.
#[local] Hint Resolve own_exit : own.

Lemma own_clone L function arg stack : comes_back L (clone function arg stack).
Proof.
  unfold clone. do 3 (own_step; [own..|]). eapply through_bind; [apply own_allocproc|].
  intros [np|] Hnp; [specialize (Hnp np eq_refl)|]; own.
Qed.

Lemma own_with_arg L n f : (∀ x, comes_back L (f x)) → comes_back L (with_arg n f).
Proof. own. Qed.
#[local] Hint Resolve own_clone own_with_arg : own.

Lemma own_fdalloc L f : comes_back L (fdalloc f).
Proof. own. Qed.
#[local] Hint Resolve own_fdalloc : own.

Context {DSW : Devsw} {FS : FramedDevsw DSW}.

Lemma own_exec L path argv : comes_back L (exec path argv).
Proof. own. Qed.
#[local] Hint Resolve own_exec : own.

Lemma own_syscall_entry num f : syscall_entry num = Some f → comes_back [] f.
Proof.
  unfold syscall_entry. destruct (_ && _); [|done]. intros Ee.
  assert (Forall (λ e, ∀ f, e = Some f → comes_back [] f) syscalls) as HF.
  { unfold syscalls. repeat (apply Forall_cons; split; [intros ? [= <-]; own|]). by apply Forall_nil. }
  destruct (syscalls !! Z.to_nat num) as [e|] eqn:El; cbn in Ee; [|done]. exact (Forall_lookup_1 _ _ _ _ HF El f Ee).
Qed.
#[local] Hint Resolve own_syscall_entry : own.

Lemma own_syscall : comes_back [] syscall.
Proof. own. Qed.
#[local] Hint Resolve own_syscall : own.

Lemma own_trap input tf : comes_back [] (trap input tf).
Proof. own. Qed.

End owner.

(** ** Frames that ignore the scopes

    For a property of the processes on the CPUs and of the process table, what
    [pushcli], [popcli], [acquire] and [release] do is immaterial. *)

(** The same processes on the same CPUs, and the same CPU executing. *)
Definition same_procs h h' : Prop :=
  h_apicid h' = h_apicid h ∧ c_apicid <$> h_cpus h' = c_apicid <$> h_cpus h ∧ c_proc <$> h_cpus h' = c_proc <$> h_cpus h.

Lemma same_procs_cpus h h' : h_apicid h' = h_apicid h → h_cpus h' = h_cpus h → same_procs h h'.
Proof. intros H1 H2. unfold same_procs. by rewrite H1, H2. Qed.

Section process_frame.
Context (I : K → Prop).
Hypothesis I_use_lock : ∀ k, I k → k_use_lock k = true.
Hypothesis I_rest : ∀ k k', k_hw k' = k_hw k → k_ptable k' = k_ptable k → k_use_lock k' = k_use_lock k → I k → I k'.
Hypothesis I_hw : ∀ k h, same_procs (k_hw k) h → I k → I (set_k_hw h k).
Hypothesis I_proc : ∀ k p f, harmless f → I k → I (set_k_ptable (alter f p (k_ptable k)) k).
Hypothesis I_procs : ∀ k f, harmless f → I k → I (set_k_ptable (f <$> k_ptable k) k).

Notation J := (λ _ : scopes, I).
#[local] Instance process_stops : Stops J I.
Proof. by intros L k. Qed.

Lemma hw_cpu_write L f c :
  (∀ x, c_apicid (f x) = c_apicid x ∧ c_proc (f x) = c_proc x) → through J I L (cpu_write f c) (λ _, L) (λ _, True).
Proof.
  intros Hf. apply through_modify. intros k. apply I_hw. unfold same_procs. cbn. by rewrite !fmap_alter_same by apply Hf.
Qed.

Lemma hw_modify L f :
  (∀ k, ∃ h, f k = set_k_hw h k ∧ same_procs (k_hw k) h) → through J I L (modify f) (λ _, L) (λ _, True).
Proof. intros Hf. apply through_modify. intros k. destruct (Hf k) as (h & -> & Hh). by apply I_hw. Qed.

Lemma hw_spin L lk : through J I L (spin lk) (λ _, L) (λ _, True).
Proof.
  intros o. induction o as [|env o IH]; intros k Hk Ho; cbn [spin]; destruct (_ !! lk).
  - done.
  - split; [|done]. apply I_hw; [|done]. by apply same_procs_cpus.
  - apply Forall_cons in Ho as [He Ho]. apply IH; [by apply (He L)|done].
  - split; [|done]. apply I_hw; [|done]. by apply same_procs_cpus.
Qed.

(** All scopes being alike, a sequence is followed step by step. *)
Ltac hw_step :=
  lazymatch goal with
  | |- through _ _ ?L (bind _ _) _ _ => apply (through_bind L _ _ (λ _, L) (λ _, True)); [|intros ? _]
  | |- through _ _ _ (if ?b then _ else _) _ _ => destruct b
  | |- through _ _ _ (match ?x with _ => _ end) _ _ => destruct x
  | |- through _ _ _ (ret _) _ _ => by apply through_ret
  | |- through _ _ _ (panic _) _ _ => apply through_panic
  | |- through _ _ _ (reads _) _ _ => by apply through_reads
  | |- through _ _ _ (cpu_write _ _) _ _ => by apply hw_cpu_write
  | |- through _ _ _ (spin _) _ _ => apply hw_spin
  | |- through _ _ _ (modify _) _ _ => apply hw_modify; intros ?; eexists; split; [reflexivity|by apply same_procs_cpus]
  | |- through _ _ _ ?m _ _ => unfold_head m
  end.

Lemma hw_any {A} (m : M A) L L' Q : through J I L m (λ _, L) (λ _, True) → through J I L' m Q (λ _, True).
Proof. intros Hm o k Hk Ho. exact (Hm o k Hk Ho). Qed.

Lemma sl_set_process s v k : k_hw (sl_set s v k) = k_hw k ∧ k_ptable (sl_set s v k) = k_ptable k ∧ k_use_lock (sl_set s v k) = k_use_lock k.
Proof. by destruct s. Qed.

Lemma process_frame : Frame J I.
Proof.
  split.
  - apply _.
  - done.
  - intros _. apply I_use_lock.
  - intros _ k k' (H1 & H2 & H3 & _). by apply I_rest.
  - intros _ k v. apply I_hw. by apply same_procs_cpus.
  - intros _ k v. apply I_hw. by apply same_procs_cpus.
  - intros _ k c f Hf. apply I_hw. unfold same_procs. cbn. by rewrite !fmap_alter_same by apply Hf.
  - intros _ k lk _. apply I_hw. by apply same_procs_cpus.
  - intros _. apply I_proc.
  - intros _. apply I_procs.
  - intros L. apply (hw_any _ L). repeat hw_step.
  - intros L. apply (hw_any _ L). repeat hw_step.
  - intros L lk. apply (hw_any _ L). repeat hw_step.
  - intros L lk. apply (hw_any _ L). repeat hw_step.
  - done.
  - intros _ k s v _. by apply I_rest; apply sl_set_process.
  - done.
  - intros _ k. by apply I_rest.
  - intros _ k. by apply I_rest.
Qed.
End process_frame.

(** ** Isolation *)

Definition isolated (i : nat) (P : _ → Prop) k : Prop :=
  k_use_lock k = true ∧ hw_proc (k_hw k) ≠ Some i ∧ ∃ p, k_ptable k !! i = Some p ∧ alive p = true ∧ P (image p).

Lemma find_cpu_same a l l' :
  c_apicid <$> l' = c_apicid <$> l → c_proc <$> l' = c_proc <$> l →
  c_proc ∘ snd <$> list_find (λ c, c_apicid c = a) l' = c_proc ∘ snd <$> list_find (λ c, c_apicid c = a) l.
Proof.
  revert l. induction l' as [|x l' IH]; intros [|y l]; cbn; try done. intros [= H1 H2] [= H3 H4].
  rewrite H1. case_decide; cbn; [by rewrite H3|]. rewrite <- !option_fmap_compose. specialize (IH l H2 H4).
  destruct (list_find _ l') as [[??]|], (list_find _ l) as [[??]|]; done.
Qed.

Lemma hw_proc_same h h' : same_procs h h' → hw_proc h' = hw_proc h.
Proof.
  intros (H1 & H2 & H3). unfold hw_proc, hw_cpu. rewrite H1. pose proof (find_cpu_same (h_apicid h) _ _ H2 H3) as H.
  destruct (list_find _ (h_cpus h')) as [[??]|], (list_find _ (h_cpus h)) as [[??]|]; cbn in H; congruence.
Qed.

#[export] Instance isolated_frame i P : Frame (λ _, isolated i P) (isolated i P).
Proof.
  apply process_frame.
  - by intros k [H _].
  - intros k k' Hh Hp Hu (H1 & H2 & H3). unfold isolated. by rewrite Hh, Hp, Hu.
  - intros k h Hh (H1 & H2 & H3). split; [done|]. cbn. by rewrite (hw_proc_same _ _ Hh).
  - intros k j f Hf (H1 & H2 & p & H3 & H4 & H5). split; [done|split; [done|]]. cbn. destruct (Hf p) as [E Ha]. destruct (decide (j = i)) as [->|Hj].
    + exists (f p). rewrite list_lookup_alter_eq, H3, E. auto.
    + exists p. by rewrite list_lookup_alter_ne.
  - intros k f Hf (H1 & H2 & p & H3 & H4 & H5). split; [done|split; [done|]]. exists (f p). cbn. destruct (Hf p) as [E Ha].
    rewrite list_lookup_fmap, H3, E. auto.
Qed.

#[export] Instance isolated_owner i P : Owner (λ _, isolated i P) (.≠ i).
Proof.
  split.
  - intros _ k p f Hp (H1 & H2 & q & H3 & H4). split; [done|split; [done|]]. exists q. cbn. by rewrite list_lookup_alter_ne.
  - intros _ k p Hp (_ & H & _) ->. done.
  - intros _ k p q Hq Ha (_ & _ & r & Hr & Hal & _) ->. congruence.
Qed.

(** ** Locks and transactions

    *** Spin-locks *)

(** The CPU that executes has opened exactly the scopes [S], one for each
    [pushcli], with the lock if it belongs to an [acquire]: so deep is its nesting
    of [pushcli], interrupts are off inside it, and the locks marked as held by
    this CPU are those of [S]. *)
Record owns (S : list (option lockid)) k : Prop := {
  os_nodup : NoDup (omap id S);
  os_cpu : ∃ c cp, hw_cpu (k_hw k) = Some (c, cp) ∧ c_ncli cp = Z.of_nat (length S) ∧
    (S ≠ [] → h_IF (k_hw k) = false) ∧ ∀ lk, h_locks (k_hw k) !! lk = Some (Some c) ↔ Some lk ∈ S
}.

Lemma omap_id_elem (S : list (option lockid)) lk : lk ∈ omap id S ↔ Some lk ∈ S.
Proof. rewrite list_elem_of_omap. cbn. naive_solver. Qed.

Lemma owns_perm S S' k : S ≡ₚ S' → owns S k → owns S' k.
Proof.
  intros HS [Hd (c & cp & Hc & Hn & HI & Hl)]. split; [by rewrite <- HS|]. exists c, cp. split_and!; [done|by rewrite <- (Permutation_length HS)| |].
  - intros HS'. apply HI. intros ->. by apply HS', Permutation_nil.
  - intros lk. by rewrite <- HS.
Qed.

Lemma cpu_push_ncli b c : c_ncli (cpu_push b c) = c_ncli c + 1.
Proof. unfold cpu_push. by case_test. Qed.

Lemma owns_push S o k : owns S k → ∃ h, pushcli o k = Ret tt o (set_k_hw h k) ∧ owns (None :: S) (set_k_hw h k).
Proof.
  intros [Hd (c & cp & Hc & Hn & HI & Hl)]. rewrite (pushcli_spec o k c cp Hc). eexists. split; [done|].
  split; [done|]. exists c, (cpu_push (h_IF (k_hw k)) cp). cbn [k_hw set_k_hw]. rewrite (hw_cpu_push _ _ _ Hc), cpu_push_ncli, h_locks_push, Hn.
  split_and!; [done|cbn [length]; lia|done|]. intros lk. rewrite Hl, elem_of_cons. naive_solver.
Qed.

Lemma owns_pop S o k : owns (None :: S) k → ∃ h, popcli o k = Ret tt o (set_k_hw h k) ∧ owns S (set_k_hw h k).
Proof.
  intros [Hd (c & cp & Hc & Hn & HI & Hl)]. cbn [length] in Hn. rewrite (popcli_spec o k c cp Hc) by (done || lia || by apply HI).
  eexists. split; [done|]. split; [done|]. exists c, (set_c_ncli (c_ncli cp - 1) cp). cbn [k_hw set_k_hw].
  unfold hw_pop, hw_upd. rewrite Hc, hw_cpu_set_IF. rewrite (hw_cpu_alter _ (λ c, set_c_ncli (c_ncli c - 1) c) _ _ ltac:(done) Hc).
  cbn. split_and!; [done|lia| |].
  - intros HS. destruct S; [done|]. cbn [length] in Hn. by rewrite (proj2 (Z.eqb_neq _ _)) by lia.
  - intros lk. rewrite Hl, elem_of_cons. naive_solver.
Qed.

Lemma owns_holding S lk o k :
  owns S k → ∃ h, holding lk o k = Ret (bool_decide (Some lk ∈ S)) o (set_k_hw h k) ∧ owns S (set_k_hw h k).
Proof.
  intros Hk. unfold holding. destruct (owns_push S o k Hk) as (h1 & Hpush & Hk1). kstep_with Hpush. set (k1 := set_k_hw h1 k) in *.
  pose proof Hk1 as [_ (c & cp & Hc & _ & HI & Hl)]. specialize (HI ltac:(done)). rewrite bind_reads.
  destruct (owns_pop S o k1 Hk1) as (h2 & Hpop & Hk2). exists h2. split; [|done].
  assert (∀ b, b = bool_decide (Some lk ∈ S) → (popcli ;;; ret b) o k1 = Ret (bool_decide (Some lk ∈ S)) o (set_k_hw h2 k)) as Hend
    by (intros b ->; by kstep_with Hpop).
  specialize (Hl lk). rewrite elem_of_cons in Hl. destruct (h_locks (k_hw k1) !! lk) as [w|] eqn:Ew.
  - rewrite bind_assoc. kstep_with (mycpu_spec o k1 c cp HI Hc). rewrite bind_ret. apply Hend, bool_decide_ext. naive_solver.
  - rewrite bind_ret. apply Hend. symmetry. apply bool_decide_eq_false_2. naive_solver.
Qed.

Lemma owns_take S lk c cp k :
  owns (None :: S) k → Some lk ∉ S → hw_cpu (k_hw k) = Some (c, cp) →
  owns (Some lk :: S) (set_k_hw (set_h_locks (<[lk := Some c]> (<[lk := None]> (h_locks (k_hw k)))) (k_hw k)) k).
Proof.
  intros [Hd (c' & cp' & Hc' & Hn & HI & Hl)] Hlk Hc. assert (c' = c ∧ cp' = cp) as [-> ->] by (split; congruence). split.
  - cbn. apply NoDup_cons. split; [by rewrite omap_id_elem|done].
  - exists c, cp. cbn. split_and!; [done|done|intros _; by apply HI|]. intros lk'. rewrite elem_of_cons.
    destruct (decide (lk' = lk)) as [->|Hne]; [rewrite lookup_insert_eq; naive_solver|].
    rewrite !lookup_insert_ne, Hl, elem_of_cons by done. naive_solver.
Qed.

Lemma owns_drop S lk k :
  owns (Some lk :: S) k → owns (None :: S) (set_k_hw (set_h_locks (delete lk (h_locks (k_hw k))) (k_hw k)) k).
Proof.
  intros [Hd (c & cp & Hc & Hn & HI & Hl)]. cbn in Hd. apply NoDup_cons in Hd as [Hlk Hd]. rewrite omap_id_elem in Hlk.
  split; [done|]. exists c, cp. cbn. split_and!; [done|done|intros _; by apply HI|].
  intros lk'. rewrite elem_of_cons. destruct (decide (lk' = lk)) as [->|Hne]; [rewrite lookup_delete_eq; naive_solver|].
  rewrite lookup_delete_ne, Hl, elem_of_cons by done. naive_solver.
Qed.

Lemma list_find_alter_any {A} (P : A → Prop) `{!∀ x, Decision (P x)} (f : A → A) (l : list A) i j x :
  (∀ x, P (f x) ↔ P x) → list_find P l = Some (i, x) → list_find P (alter f j l) = Some (i, if decide (j = i) then f x else x).
Proof.
  intros Hf Hl. case_decide as Hj; [subst j; by apply list_find_alter|]. apply list_find_Some in Hl as (Hi & HP & Hb). apply list_find_Some. split_and!.
  - by rewrite list_lookup_alter_ne.
  - done.
  - intros n y Hy Hn. destruct (decide (j = n)) as [->|]; [|rewrite list_lookup_alter_ne in Hy by done; eauto].
    rewrite list_lookup_alter_eq in Hy. destruct (l !! n) as [z|] eqn:E; [|done]. cbn in Hy. simplify_eq. rewrite Hf. eauto.
Qed.

Lemma owns_cpu S k j f :
  (∀ x, c_apicid (f x) = c_apicid x ∧ c_ncli (f x) = c_ncli x ∧ c_proc (f x) = c_proc x) →
  owns S k → owns S (set_k_hw (set_h_cpus (alter f j (h_cpus (k_hw k))) (k_hw k)) k).
Proof.
  intros Hf [Hd (c & cp & Hc & Hn & HI & Hl)]. split; [done|]. cbn.
  exists c, (if decide (j = c) then f cp else cp). split_and!; [|by case_decide; [rewrite (proj1 (proj2 (Hf cp)))|]|done|done].
  apply list_find_alter_any; [|done]. intros x. by rewrite (proj1 (Hf x)).
Qed.

(** *** All scopes *)

Definition spin_of (x : scope) : option (option lockid) :=
  match x with Cli => Some None | Spin lk => Some (Some lk) | _ => None end.
Definition spins (L : scopes) : list (option lockid) := omap spin_of L.
Definition op_of (x : scope) : option unit := match x with Op => Some tt | _ => None end.
Definition ops (L : scopes) : Z := Z.of_nat (length (omap op_of L)).

Lemma spins_elem L lk : Some lk ∈ spins L ↔ Spin lk ∈ L.
Proof. unfold spins. rewrite list_elem_of_omap. split; [intros ([]&?&?)|exists (Spin lk)]; naive_solver. Qed.

(** This CPU and the process with the number [pid] hold what [L] says: the CPU owns
    the spin-locks of [L], the sleep-locks taken in the name of [pid] are among
    those of [L], and apart from the transactions of [L] the count of the log
    satisfies [P]. *)
Record tidy (pid : Z) (P : Z → Prop) (L : scopes) k : Prop := {
  ti_use_lock : k_use_lock k = true;
  ti_spins : owns (spins L) k;
  ti_sleeps s : sl_locked (sl_get s k) = true → sl_pid (sl_get s k) = pid → Sleep s ∈ L;
  ti_ops : P (lg_outstanding (k_log k) - ops L)
}.

Lemma sl_get_set_ne s s' v k : s' ≠ s → sl_get s' (sl_set s v k) = sl_get s' k.
Proof. intros Hs. destruct s as [b|i], s' as [b'|i']; cbn; try done; by rewrite list_lookup_alter_ne by congruence. Qed.

Section tidy.
Context (pid : Z) (P : Z → Prop).

Lemma tidy_hw L L' h k :
  tidy pid P L k → owns (spins L') (set_k_hw h k) → (∀ s, Sleep s ∈ L → Sleep s ∈ L') → ops L' = ops L → tidy pid P L' (set_k_hw h k).
Proof.
  intros [H1 H2 H3 H4] Ho Hs Hp. split; [done|done| |by rewrite Hp]. intros s Hl Hpid. apply Hs, H3; by destruct s.
Qed.

Lemma tidy_cli L s : Sleep s ∈ Cli :: L ↔ Sleep s ∈ L.
Proof. rewrite elem_of_cons. naive_solver. Qed.
Lemma tidy_spin L lk s : Sleep s ∈ Spin lk :: L ↔ Sleep s ∈ L.
Proof. rewrite elem_of_cons. naive_solver. Qed.

Lemma tidy_spin_loop L lk o k :
  tidy pid P L k → respects (tidy pid P) o →
  match spin lk o k with
  | Ret _ o' k' => ∃ k1, k' = set_k_hw (set_h_locks (<[lk := None]> (h_locks (k_hw k1))) (k_hw k1)) k1 ∧ tidy pid P L k1 ∧ respects (tidy pid P) o'
  | _ => True
  end.
Proof.
  revert k. induction o as [|env o IH]; intros k Hk Ho; cbn [spin]; destruct (_ !! lk); [done|eauto| |eauto].
  apply Forall_cons in Ho as [He Ho]. apply IH; [by apply He|done].
Qed.

Lemma tidy_acquire L lk : through (tidy pid P) (λ _, True) L (acquire lk) (λ _, Spin lk :: L) (λ _, True).
Proof.
  intros o k Hk Ho. unfold acquire. destruct (owns_push _ o k (ti_spins _ _ _ _ Hk)) as (h1 & Hpush & Hk1). kstep_with Hpush.
  apply (tidy_hw L (Cli :: L)) in Hk1; [|done|by intros s; rewrite tidy_cli|done].
  destruct (owns_holding _ lk o _ (ti_spins _ _ _ _ Hk1)) as (h2 & Hh & Hk2). kstep_with Hh. case_bool_decide as Hin; [done|].
  apply (tidy_hw (Cli :: L) (Cli :: L)) in Hk2; [|done..].
  pose proof (tidy_spin_loop _ lk o _ Hk2 Ho) as Hs. unfold bind at 1. destruct (spin lk o _) as [[] o' k3| |]; [|done|done].
  destruct Hs as (k4 & -> & Hk4 & Ho'). pose proof (ti_spins _ _ _ _ Hk4) as Hs. pose proof Hs as [_ (c & cp & Hc & _ & HI & _)].
  kstep_with (mycpu_spec o' (set_k_hw (set_h_locks (<[lk:=None]> (h_locks (k_hw k4))) (k_hw k4)) k4) c cp (HI ltac:(done)) Hc).
  unfold modify. split; [|done].
  apply (tidy_hw (Cli :: L) (Spin lk :: L) (set_h_locks (<[lk := Some c]> (<[lk := None]> (h_locks (k_hw k4)))) (k_hw k4)) k4 Hk4);
    [|intros s; by rewrite tidy_cli, tidy_spin|done].
  apply (owns_take (spins L) lk c cp k4 Hs); [|done]. intros Hl. apply Hin. by right.
Qed.

Lemma tidy_release L lk : through (tidy pid P) (λ _, True) (Spin lk :: L) (release lk) (λ _, L) (λ _, True).
Proof.
  intros o k Hk Ho. unfold release. destruct (owns_holding _ lk o k (ti_spins _ _ _ _ Hk)) as (h1 & Hh & Hk1). kstep_with Hh.
  rewrite bool_decide_eq_true_2 by (cbn; left). rewrite bind_modify. apply owns_drop in Hk1.
  destruct (owns_pop _ o _ Hk1) as (h2 & -> & Hk2). split; [|done].
  apply (tidy_hw (Spin lk :: L) L h2 k Hk Hk2); [intros s; by rewrite tidy_spin|done].
Qed.

#[export] Instance tidy_frame : Frame (tidy pid P) (λ _, True).
Proof.
  split.
  - done.
  - intros L L' k HL [H1 H2 H3 H4]. split; [done|eapply owns_perm; [|done]; by apply omap_Permutation| |].
    + intros s Hl Hp. rewrite <- HL. auto.
    + unfold ops in *. by rewrite <- HL.
  - by intros L k [].
  - intros L k k' (Hh & Hp & Hu & Hlg & Hsl) [H1 [Hd Hc] H3 H4]. split; [congruence|split; [done|by rewrite Hh]| |by rewrite Hlg].
    intros s. rewrite !Hsl. apply H3.
  - intros L k v Hk. eapply tidy_hw; [done| |done|done]. by destruct (ti_spins _ _ _ _ Hk).
  - intros L k v Hk. eapply tidy_hw; [done| |done|done]. by destruct (ti_spins _ _ _ _ Hk).
  - intros L k c f Hf Hk. eapply tidy_hw; [done| |done|done]. apply owns_cpu; [done|apply Hk].
  - intros L k lk Hlk Hk. eapply tidy_hw; [done| |done|done]. destruct (ti_spins _ _ _ _ Hk) as [Hd (c & cp & Hc & Hn & HI & Hl)].
    split; [done|]. exists c, cp. cbn. split_and!; [done..|]. intros lk'.
    destruct (decide (lk' = lk)) as [->|]; [rewrite lookup_delete_eq, spins_elem; naive_solver|by rewrite lookup_delete_ne].
  - intros L k p f _ [H1 H2 H3 H4]. split; [done|by destruct H2| |done]. intros []; apply (H3 (SLBuf _)) || apply (H3 (SLInode _)).
  - intros L k f _ [H1 H2 H3 H4]. split; [done|by destruct H2| |done]. intros []; apply (H3 (SLBuf _)) || apply (H3 (SLInode _)).
  - intros L o k Hk Ho. destruct (owns_push _ o k (ti_spins _ _ _ _ Hk)) as (h & -> & Hk'). split; [|done].
    eapply tidy_hw; [done|exact Hk'|intros s; by rewrite tidy_cli|done].
  - intros L o k Hk Ho. destruct (owns_pop (spins L) o k (ti_spins _ _ _ _ Hk)) as (h & -> & Hk'). split; [|done].
    eapply tidy_hw; [done|exact Hk'|intros s; by rewrite tidy_cli|done].
  - apply tidy_acquire.
  - apply tidy_release.
  - intros L k s [H1 H2 H3 H4]. split; [done|done|intros s' Hl Hp; right; auto|done].
  - intros L k s v Hs [H1 H2 H3 H4]. split; [by destruct s|by destruct s, H2| |by destruct s]. intros s' Hl Hp.
    destruct (decide (s' = s)) as [->|Hne]; [done|]. rewrite sl_get_set_ne in Hl, Hp by done. auto.
  - intros L k s Hf [H1 H2 H3 H4]. split; [done|done| |done]. intros s' Hl Hp. destruct (elem_of_cons L (Sleep s') (Sleep s)) as [Hin _].
    destruct (Hin (H3 s' Hl Hp)) as [[= ->]|]; [congruence|done].
  - intros L k [H1 H2 H3 H4]. split; [done|by destruct H2|intros s Hl Hp; right; apply H3; by destruct s|].
    unfold ops in *. cbn. rewrite Nat2Z.inj_succ. by replace (_ + 1 - Z.succ _) with (lg_outstanding (k_log k) - Z.of_nat (length (omap op_of L))) by lia.
  - intros L k [H1 H2 H3 H4]. split; [done|by destruct H2| |].
    + intros s Hl Hp. destruct (elem_of_cons L (Sleep s) Op) as [Hin _]. destruct (Hin (H3 s ltac:(by destruct s) ltac:(by destruct s))); done.
    + unfold ops in *. cbn in *. rewrite Nat2Z.inj_succ in H4. by replace (_ - 1 - _) with (lg_outstanding (k_log k) - Z.succ (Z.of_nat (length (omap op_of L)))) by lia.
Qed.

#[export] Instance tidy_owner : Owner (tidy pid P) (λ _, True).
Proof. split; [|done..]. intros L k p f _ [H1 H2 H3 H4]. split; [done|by destruct H2| |done]. intros []; apply (H3 (SLBuf _)) || apply (H3 (SLInode _)). Qed.
End tidy.

(** ** A failed [exec] *)

(** What process [i] owns satisfies [P]. *)
Definition has_image (i : nat) (P : _ → Prop) k : Prop :=
  k_use_lock k = true ∧ ∃ p, k_ptable k !! i = Some p ∧ P (image p).

#[export] Instance has_image_frame i P : Frame (λ _, has_image i P) (has_image i P).
Proof.
  apply process_frame.
  - by intros k [H _].
  - intros k k' Hh Hp Hu (H1 & H2). unfold has_image. by rewrite Hp, Hu.
  - by intros k h Hh (H1 & H2).
  - intros k j f Hf (H1 & p & H2 & H3). split; [done|]. cbn. destruct (Hf p) as [E _]. destruct (decide (j = i)) as [->|Hj].
    + exists (f p). by rewrite list_lookup_alter_eq, H2, E.
    + exists p. by rewrite list_lookup_alter_ne.
  - intros k f Hf (H1 & p & H2 & H3). split; [done|]. exists (f p). cbn. destruct (Hf p) as [E _]. by rewrite list_lookup_fmap, H2, E.
Qed.

(** When [m] returns [-1], the frame has been followed. *)
Definition clean (I : K → Prop) (m : M Z) : Prop :=
  ∀ o k, I k → respects (λ _, I) o → match m o k with Ret r _ k' => r = -1 → I k' | _ => True end.

Section clean.
Context {I : K → Prop} {F : Frame (λ _, I) I}.

Lemma clean_framed L m Q : framed L m Q → clean I m.
Proof.
  intros Hm o k Hk Ho. pose proof (Hm _ _ F o k Hk Ho) as H. destruct (m o k); [|done|done]. naive_solver.
Qed.
Lemma clean_bind {A} L (m : M A) f Q : framed L m Q → (∀ a, clean I (f a)) → clean I (bind m f).
Proof.
  intros Hm Hf o k Hk Ho. unfold bind. pose proof (Hm _ _ F o k Hk Ho) as H.
  destruct (m o k); [|done|done]. apply Hf; tauto.
Qed.
Lemma clean_returns m : (∀ o k r o' k', m o k = Ret r o' k' → r ≠ -1) → clean I m.
Proof. intros Hm o k Hk Ho. destruct (m o k) eqn:E; [|done|done]. intros ->. by apply Hm in E. Qed.
End clean.

(** A sequence that ends in [ret a] returns [a]. *)
Lemma bind_returns {A B} (m : M A) (f : A → M B) (R : B → Prop) :
  (∀ a o k b o' k', f a o k = Ret b o' k' → R b) → ∀ o k b o' k', bind m f o k = Ret b o' k' → R b.
Proof. intros Hf o k b o' k'. unfold bind. destruct (m o k); [apply Hf|done|done]. Qed.

Lemma exec_commit_returns cur path pgdir sz entry sp o k r o' k' :
  exec_commit cur path pgdir sz entry sp o k = Ret r o' k' → r ≠ -1.
Proof.
  revert o k r o' k'. unfold exec_commit. repeat (apply (bind_returns _ _ (λ r, r ≠ -1)); intros ?).
  intros o k r o' k'. unfold ret. congruence.
Qed.

(** A step of the code up to the commit, and an error exit. *)
Ltac clean_step L := eapply (clean_bind L); [solve [eauto 4 with frame nocore]|intros ?].
Ltac clean_exit L := apply (clean_framed L _ (λ _, [])); solve [frame].

Lemma exec_clean {DEV : BlockDev} {DSW : Devsw} `{!FramedDev DEV} `{!FramedDevsw DSW} i P path argv :
  clean (has_image i P) (exec path argv).
Proof.
  assert (∀ cur sz pgdir entry, clean (has_image i P) (exec_stack cur path argv pgdir sz entry)) as Hst.
  { intros. unfold exec_stack. cbn zeta. clean_step ([] : scopes). destruct (_ =? 0); [clean_exit ([] : scopes)|].
    do 2 clean_step ([] : scopes). destruct (_ : option _) as [[sp args]|]; [|clean_exit ([] : scopes)]. clean_step ([] : scopes).
    destruct (_ <? 0); [clean_exit ([] : scopes)|]. apply clean_returns, exec_commit_returns. }
  unfold exec. do 2 clean_step ([] : scopes). clean_step [Op]. destruct (_ : option nat) as [ip|]; [|clean_exit [Op]].
  clean_step [Op]. clean_step [Sleep (SLInode ip); Op]. destruct (_ : Z * list Z) as [n bytes].
  do 2 (destruct (negb _); [clean_exit [Sleep (SLInode ip); Op]|]). clean_step [Sleep (SLInode ip); Op].
  destruct (_ =? 0); [clean_exit [Sleep (SLInode ip); Op]|]. clean_step [Sleep (SLInode ip); Op].
  destruct (_ : option Z) as [sz|]; [|clean_exit [Sleep (SLInode ip); Op]]. clean_step [Sleep (SLInode ip); Op]. clean_step [Op]. apply Hst.
Qed.

(** ** The theorems

    The kernel is linked with [memide.c] and the console. *)

(** The kernel with the disk driver [DEV]. *)
Notation ktrap DEV := (@trap DEV (@console_devsw DEV)).
Notation kexec DEV := (@exec DEV (@console_devsw DEV)).


(** C3: Every lock is released and every transaction ended.  Take a trap handled by
    a CPU that holds no spin-lock, for a process (with number [pid]) in whose name
    no sleep-lock is held.  With whatever system call and on whatever path, errors
    included, the handler returns with no spin-lock held and no [pushcli] left
    open, no sleep-lock of a buffer or inode held in the name of the process, and
    no transaction of the log left open; provided that others do not take or
    release locks in the name of this CPU and process, and keep [P] of the count of
    open transactions. *)
Theorem trap_tidies_up {DEV : BlockDev} `{!FramedDev DEV} pid P input tf o k u o' k' :
  tidy pid P [] k → respects (tidy pid P) o →
  ktrap DEV input tf o k = Ret u o' k' → tidy pid P [] k'.
Proof.
  intros Hk Ho E.
  pose proof (own_trap (J := tidy pid P) (DEV := DEV) (DSW := @console_devsw DEV) input tf o k Hk Ho) as H.
  rewrite E in H. exact (proj1 H).
Qed.


(** Process 0 runs, process 1 sleeps; the root directory is in the inode cache. *)
Definition demo_sleeper : proc := set_p_state SLEEPING (set_p_pid 2 zero_proc).
Definition demo_two : K :=
  let k := K_demo ∅ in
  set_k_use_lock true (set_k_ptable (<[1%nat := demo_sleeper]> (k_ptable k))
    (set_k_icache (mk_inode ROOTDEV 1 1 (mk_sl false 0) true T_DIR 0 0 1 16 (60 :: replicate 12 0) :: replicate 49 zero_inode)
      (set_k_lru (seq 0 NBUF) (set_k_log (mk_log 2 30 0 false ROOTDEV 0 (replicate LOGSIZE 0)) k)))).
Definition demo_input : trap_input := mk_ti [] [] 0.
(** The process calls [getpid]. *)
Definition demo_tf : trapframe := set_tf_eax 11 (set_tf_trapno T_SYSCALL zero_tf).

Definition returned {A} (r : res A) : bool := match r with Ret _ _ _ => true | _ => false end.


Lemma demo_two_unlocked s : sl_locked (sl_get s demo_two) = false.
Proof.
  assert (Forall (λ x, sl_locked (b_lock x) = false) (k_bcache demo_two) ∧ Forall (λ x, sl_locked (i_lock x) = false) (k_icache demo_two)) as [Hb Hi]
    by (split; apply (bool_decide_unpack _); vm_compute; exact Logic.I).
  unfold sl_get. destruct s as [b|i].
  - destruct (k_bcache demo_two !! b) as [x|] eqn:E; [exact (Forall_lookup_1 _ _ _ _ Hb E)|done].
  - destruct (k_icache demo_two !! i) as [x|] eqn:E; [exact (Forall_lookup_1 _ _ _ _ Hi E)|done].
Qed.

Lemma demo_two_tidy : tidy 1 (.= 0) [] demo_two.
Proof.
  split; [reflexivity| |intros s; by rewrite demo_two_unlocked|reflexivity]. split; [by apply NoDup_nil|]. exists 0%nat, demo_cpu.
  split; [reflexivity|]. split; [reflexivity|]. split; [done|]. intros lk.
  change (h_locks (k_hw demo_two)) with (∅ : gmap lockid (option nat)). rewrite lookup_empty, elem_of_nil. done.
Qed.

Lemma trap_tidies_up_witness : ∃ k', ktrap (memide_dev 1000) demo_input demo_tf [] demo_two = Ret tt [] k' ∧ tidy 1 (.= 0) [] k'.
Proof.
  destruct (ktrap (memide_dev 1000) demo_input demo_tf [] demo_two) as [[] o k'| |] eqn:E.
  - exists k'. split.
    + f_equal. revert E. vm_compute. congruence.
    + apply (trap_tidies_up (DEV := memide_dev 1000) 1 (.= 0) demo_input demo_tf [] demo_two tt o k'); [exact demo_two_tidy|by apply Forall_nil|exact E].
  - exfalso. revert E. vm_compute. congruence.
  - exfalso. revert E. vm_compute. congruence.
Defined.

