(* ===== verification/Ulock.v ===== *)
(** * Locks for user threads ([lock_acquire], [lock_release], [ticket_acquire],
      [ticket_release] of [ulib.c]; [test_and_set], [read_and_increment] of [x86.h])

    The threads of a process share the [struct lock] in its memory and run in
    any interleaving of their accesses to it.  Each function is the sequence of
    its accesses; a schedule is a list of thread indices, each of which performs
    the next access of that thread. *)

From stdpp Require Import base numbers list sets.
From S2P Require Import Prelude.

Record lock := mk_lock {
  locked : Z;
  next_ticket : Z;
  now_serving : Z
}.

Definition set_locked (v : Z) (l : lock) : lock := mk_lock v (next_ticket l) (now_serving l).
Definition set_next_ticket (v : Z) (l : lock) : lock := mk_lock (locked l) v (now_serving l).
Definition set_now_serving (v : Z) (l : lock) : lock := mk_lock (locked l) (next_ticket l) v.

(** The lock as a zeroed global variable. *)
Definition zero_lock : lock := mk_lock 0 0 0.

(** ** Translated code *)

(** Atomic: the result and the new contents of the word. *)
Definition test_and_set (x : Z) : Z * Z := (x, 1).
Definition read_and_increment (x : Z) : Z * Z := (x, u32 (x + 1)).

(** Where a thread is with respect to a spinning lock. *)
Inductive spin_pc := SIdle | SAcquire | SHeld.

#[global] Instance spin_pc_eq_dec : EqDecision spin_pc.
Proof. solve_decision. Defined.

(** One test of the loop. *)
Definition lock_acquire (l : lock) : spin_pc * lock :=
  let '(r, v) := test_and_set (locked l) in
  (if r =? 1 then SAcquire else SHeld, set_locked v l).

Definition lock_release (l : lock) : spin_pc * lock := (SIdle, set_locked 0 l).

Definition spin_access (pc : spin_pc) (l : lock) : spin_pc * lock :=
  match pc with
  | SIdle => (SAcquire, l)
  | SAcquire => lock_acquire l
  | SHeld => lock_release l
  end.

(** Where a thread is with respect to a ticket lock: the release reads
    [now_serving] and stores it, incremented, in two accesses. *)
Inductive ticket_pc := TIdle | TWait (me : Z) | THeld | TRelease (v : Z).

#[global] Instance ticket_pc_eq_dec : EqDecision ticket_pc.
Proof. solve_decision. Defined.

Definition ticket_take (l : lock) : ticket_pc * lock :=
  let '(r, v) := read_and_increment (next_ticket l) in (TWait (s32 r), set_next_ticket v l).

Definition ticket_spin (me : Z) (l : lock) : ticket_pc * lock :=
  (if now_serving l =? me then THeld else TWait me, l).

Definition ticket_acquire (pc : ticket_pc) (l : lock) : ticket_pc * lock :=
  match pc with
  | TWait me => ticket_spin me l
  | _ => ticket_take l
  end.

Definition ticket_release (pc : ticket_pc) (l : lock) : ticket_pc * lock :=
  match pc with
  | TRelease v => (TIdle, set_now_serving (s32 (v + 1)) l)
  | _ => (TRelease (now_serving l), l)
  end.

Definition ticket_access (pc : ticket_pc) (l : lock) : ticket_pc * lock :=
  match pc with
  | TIdle | TWait _ => ticket_acquire pc l
  | THeld | TRelease _ => ticket_release pc l
  end.

(** ** Schedules *)

Section schedule.
Context {pc : Type} (access : pc → lock → pc * lock).

Definition thread_step (s : lock * list pc) (t : nat) : lock * list pc :=
  match s.2 !! t with
  | Some p => let '(p', l') := access p s.1 in (l', <[t := p']> s.2)
  | None => s
  end.

Definition run_threads (sched : list nat) (s : lock * list pc) : lock * list pc := foldl thread_step s sched.

Lemma run_threads_inv (P : lock * list pc → Prop) sched s :
  P s → (∀ s t, P s → P (thread_step s t)) → P (run_threads sched s).
Proof. intros Hs Hstep. revert s Hs. induction sched as [|t sched IH]; intros s Hs; [done|]. apply IH. by apply Hstep. Qed.

Lemma run_threads_snoc sched t s : run_threads (sched ++ [t]) s = thread_step (run_threads sched s) t.
Proof. unfold run_threads. by rewrite foldl_app. Qed.
End schedule.

(** ** The spinning lock *)

Record spin_inv (s : lock * list spin_pc) : Prop := {
  si_word : locked s.1 = 0 ∨ locked s.1 = 1;
  si_held : locked s.1 = 1 ↔ ∃ t, s.2 !! t = Some SHeld;
  si_one t u : s.2 !! t = Some SHeld → s.2 !! u = Some SHeld → t = u
}.

Lemma insert_other_held (ps : list spin_pc) t p u :
  (t < length ps)%nat → p ≠ SHeld → (<[t := p]> ps) !! u = Some SHeld → u ≠ t ∧ ps !! u = Some SHeld.
Proof. intros Ht Hp. destruct (decide (u = t)) as [->|Hne]; [rewrite list_lookup_insert_eq by done|rewrite list_lookup_insert_ne by done]; naive_solver. Qed.

Lemma spin_inv_step s t : spin_inv s → spin_inv (thread_step spin_access s t).
Proof.
  destruct s as [l ps]. intros [H1 H2 H3]. unfold thread_step. cbn [fst snd] in *. destruct (ps !! t) as [p|] eqn:E; [|done].
  assert (t < length ps)%nat as Ht by (by eapply lookup_lt_Some). destruct p; cbn [spin_access].
  - split; cbn [fst snd]; [done| |].
    + rewrite H2. split; intros [u Hu].
      * exists u. rewrite list_lookup_insert_ne; [done|]. congruence.
      * exists u. by apply insert_other_held in Hu as [_ Hu].
    + intros u v Hu%insert_other_held Hv%insert_other_held; try done. apply H3; tauto.
  - unfold lock_acquire, test_and_set. destruct (Z.eqb_spec (locked l) 1) as [Hl|Hl].
    + rewrite list_insert_id by done. split; cbn; [by right| |done]. split; [|done]. intros _. by apply H2.
    + assert (¬ ∃ u, ps !! u = Some SHeld) as Hno by (by rewrite <- H2). split; cbn; [by right| |].
      * split; [|done]. intros _. exists t. by apply list_lookup_insert_eq.
      * assert (∀ u, <[t := SHeld]> ps !! u = Some SHeld → u = t) as Hu; [|intros u v Hu1%Hu Hu2%Hu; congruence].
        intros u. destruct (decide (u = t)) as [|Hne]; [done|]. rewrite list_lookup_insert_ne by done. naive_solver.
  - unfold lock_release. split; cbn; [by left| |].
    + split; [done|]. intros [u Hu]. apply insert_other_held in Hu as [Hne Hu]; [|done..]. destruct Hne. by eapply H3.
    + intros u v Hu%insert_other_held Hv%insert_other_held; try done. apply H3; tauto.
Qed.

(** The spinning lock excludes: in every interleaving of any number of
    threads that acquire and release it, at most one thread is between the two,
    and the word is 1 exactly while one is; when none is, the next thread that
    tries gets the lock. *)
Theorem lock_acquire_excludes n sched :
  let s := run_threads spin_access sched (zero_lock, replicate n SIdle) in
  (∀ t u, s.2 !! t = Some SHeld → s.2 !! u = Some SHeld → t = u) ∧
  (locked s.1 = 1 ↔ ∃ t, s.2 !! t = Some SHeld) ∧
  (∀ t, s.2 !! t = Some SAcquire → (∀ u, s.2 !! u ≠ Some SHeld) → (thread_step spin_access s t).2 !! t = Some SHeld).
Proof.
  intros s. assert (spin_inv s) as [H1 H2 H3].
  { apply run_threads_inv; [|apply spin_inv_step]. split; cbn; [by left| |].
    - split; [done|]. intros [t Ht%lookup_replicate]. naive_solver.
    - intros t u Ht%lookup_replicate. naive_solver. }
  split; [done|]. split; [done|]. intros t Ht Hno. unfold thread_step. rewrite Ht. cbn [spin_access].
  unfold lock_acquire, test_and_set. destruct (Z.eqb_spec (locked s.1) 1) as [Hl|Hl].
  - apply H2 in Hl as [u Hu]. by destruct (Hno u).
  - cbn. apply list_lookup_insert_eq. by eapply lookup_lt_Some.
Qed.

Lemma lock_acquire_excludes_witness :
  let s := run_threads spin_access [0%nat; 1%nat; 0%nat; 1%nat; 0%nat] (zero_lock, replicate 2 SIdle) in
  s.2 = [SIdle; SAcquire] ∧ (thread_step spin_access s 1%nat).2 !! 1%nat = Some SHeld.
Proof.
  split; [reflexivity|]. apply (lock_acquire_excludes 2 [0%nat; 1%nat; 0%nat; 1%nat; 0%nat]); [reflexivity|].
  intros [|[|u]]; vm_compute; discriminate.
Defined.

(** ** The ticket lock *)

(** The threads that took a ticket and have not finished their release, in the
    order in which they took it. *)
Definition queue_step (t : nat) (p : ticket_pc) (q : list nat) : list nat :=
  match p with
  | TIdle => q ++ [t]
  | TRelease _ => drop 1 q
  | _ => q
  end.

Definition ticket_queue_step (x : (lock * list ticket_pc) * list nat) (t : nat) : (lock * list ticket_pc) * list nat :=
  (thread_step ticket_access x.1 t, match x.1.2 !! t with Some p => queue_step t p x.2 | None => x.2 end).

Definition ticket_run (sched : list nat) (n : nat) : (lock * list ticket_pc) * list nat :=
  foldl ticket_queue_step ((zero_lock, replicate n TIdle), []) sched.

Lemma ticket_run_threads sched n : (ticket_run sched n).1 = run_threads ticket_access sched (zero_lock, replicate n TIdle).
Proof.
  assert (∀ sched x, (foldl ticket_queue_step x sched).1 = foldl (thread_step ticket_access) x.1 sched) as H; [|apply H].
  clear. intros sched. induction sched as [|t sched IH]; intros x; [done|]. cbn [foldl]. by rewrite IH.
Qed.

Record ticket_inv (n : nat) (s : lock * list ticket_pc) (q : list nat) : Prop := {
  ti_threads : length s.2 = n;
  ti_serving : -2147483648 ≤ now_serving s.1 < 2147483648;
  ti_next : next_ticket s.1 = u32 (now_serving s.1 + Z.of_nat (length q));
  ti_nodup : NoDup q;
  ti_queue t p : s.2 !! t = Some p → (t ∈ q ↔ p ≠ TIdle);
  ti_bound t : t ∈ q → (t < n)%nat;
  ti_wait j t me : q !! j = Some t → s.2 !! t = Some (TWait me) → me = s32 (now_serving s.1 + Z.of_nat j);
  ti_held j t : q !! j = Some t → s.2 !! t = Some THeld → j = 0%nat;
  ti_release j t v : q !! j = Some t → s.2 !! t = Some (TRelease v) → j = 0%nat ∧ v = now_serving s.1
}.

(** A thread waits at the head of the queue exactly when its ticket is served:
    tickets of different threads differ although they wrap around. *)
Lemma ticket_inv_served n s q j t me :
  Z.of_nat n < 4294967296 → ticket_inv n s q → q !! j = Some t → s.2 !! t = Some (TWait me) →
  now_serving s.1 = me ↔ j = 0%nat.
Proof.
  intros Hn [] Hj Ht. rewrite (ti_wait0 j t me Hj Ht).
  assert (length q ≤ length (seq 0 n))%nat as Hq.
  { apply submseteq_length, NoDup_submseteq; [done|].
    intros x Hx%ti_bound0. apply elem_of_seq. lia. }
  rewrite length_seq in Hq. apply lookup_lt_Some in Hj. unfold s32. split; [|intros ->; lia_mod].
  intros E. clear -E Hq Hj Hn ti_serving0. lia_mod.
Qed.

(** Each access keeps the queue. *)
Lemma ticket_inv_take n s q t :
  ticket_inv n s q → s.2 !! t = Some TIdle → ticket_inv n (thread_step ticket_access s t) (q ++ [t]).
Proof.
  destruct s as [l ps]. intros [T1 T2 T3 T4 T5 T6 T7 T8 T9] Ht. unfold thread_step. cbn [fst snd] in *. rewrite Ht. cbn.
  assert (t ∉ q) as Hnq by (rewrite (T5 t TIdle Ht); naive_solver).
  assert (∀ j u p, (q ++ [t]) !! j = Some u → <[t := TWait (s32 (next_ticket l))]> ps !! u = Some p →
    (q !! j = Some u ∧ ps !! u = Some p) ∨ (j = length q ∧ p = TWait (s32 (next_ticket l)))) as Hcase.
  { intros j u p [Hj|[Hj1 Hj2]]%lookup_app_Some Hu.
    - left. split; [done|]. rewrite list_lookup_insert_ne in Hu; [done|]. intros ->. apply Hnq. by eapply list_elem_of_lookup_2.
    - right. apply list_lookup_singleton_Some in Hj2 as [? <-]. rewrite list_lookup_insert_eq in Hu by (by eapply lookup_lt_Some).
      injection Hu as <-. split; [lia|done]. }
  split; cbn [fst snd set_next_ticket now_serving next_ticket].
  - by rewrite length_insert.
  - done.
  - rewrite T3, length_app. cbn. unfold u32. lia_mod.
  - apply NoDup_app. split_and!; [done|set_solver|apply NoDup_singleton].
  - intros u p Hu. destruct (decide (u = t)) as [->|Hne].
    + rewrite list_lookup_insert_eq in Hu by (by eapply lookup_lt_Some). injection Hu as <-. set_solver.
    + rewrite list_lookup_insert_ne in Hu by done. rewrite <- (T5 u p Hu). set_solver.
  - intros u [Hu| ->%list_elem_of_singleton]%elem_of_app; [by apply T6|]. rewrite <- T1. by eapply lookup_lt_Some.
  - intros j u me Hj Hu. destruct (Hcase _ _ _ Hj Hu) as [[Hj' Hu']|[-> [= ->]]]; [by eapply T7|]. rewrite T3. by autorewrite with wrap.
  - intros j u Hj Hu. destruct (Hcase _ _ _ Hj Hu) as [[Hj' Hu']|[_ ?]]; [by eapply T8|done].
  - intros j u v Hj Hu. destruct (Hcase _ _ _ Hj Hu) as [[Hj' Hu']|[_ ?]]; [by eapply T9|done].
Qed.

(** A change of the pc of a thread in the queue that keeps [ti_*] at it. *)
Lemma ticket_inv_move n l ps q t p p' :
  ticket_inv n (l, ps) q → ps !! t = Some p → p ≠ TIdle → p' ≠ TIdle →
  (∀ me, p' = TWait me → p = p') → (p' = THeld ∨ (p' = TRelease (now_serving l)) → head q = Some t) →
  (∀ v, p' = TRelease v → v = now_serving l) → ticket_inv n (l, <[t := p']> ps) q.
Proof.
  intros [T1 T2 T3 T4 T5 T6 T7 T8 T9] Ht Hp Hp' Hw Hh Hv. cbn [fst snd] in *.
  assert (∀ u r, <[t := p']> ps !! u = Some r → ps !! u = Some r ∨ (u = t ∧ r = p')) as Hcase.
  { intros u r. destruct (decide (u = t)) as [->|Hne].
    - rewrite list_lookup_insert_eq by (by eapply lookup_lt_Some). naive_solver.
    - rewrite list_lookup_insert_ne by done. naive_solver. }
  assert (∀ j, q !! j = Some t → head q = Some t → j = 0%nat) as H0.
  { intros j Hj Hhd. rewrite head_lookup in Hhd. by eapply NoDup_lookup. }
  split; cbn [fst snd]; try done.
  - by rewrite length_insert.
  - intros u r [Hu|[-> ->]]%Hcase; [by apply T5|]. rewrite (T5 t p Ht). tauto.
  - intros j u me Hj [Hu|[-> E]]%Hcase; [by eapply T7|]. subst p'. rewrite (Hw me eq_refl) in Ht. by eapply T7.
  - intros j u Hj [Hu|[-> <-]]%Hcase; [by eapply T8|]. eapply H0; [done|]. apply Hh. by left.
  - intros j u v Hj [Hu|[-> E]]%Hcase; [by eapply T9|]. symmetry in E. pose proof (Hv v E) as ->. split; [|done].
    eapply H0; [done|]. apply Hh. by right.
Qed.

(** The store that ends a release passes the lock on. *)
Lemma ticket_inv_pass n s q t v :
  ticket_inv n s q → s.2 !! t = Some (TRelease v) → ticket_inv n (thread_step ticket_access s t) (drop 1 q).
Proof.
  destruct s as [l ps]. intros [T1 T2 T3 T4 T5 T6 T7 T8 T9] Ht. unfold thread_step. cbn [fst snd] in *. rewrite Ht. cbn.
  assert (t ∈ q) as [j Hj]%list_elem_of_lookup by (by apply (T5 _ _ Ht)). destruct (T9 j t v Hj Ht) as [-> ->].
  destruct q as [|t' q]; [done|]. cbn in Hj. injection Hj as ->. change (drop 1 (t :: q)) with q. cbn [length] in *. apply NoDup_cons in T4 as [Hnt T4].
  assert (∀ u r, u ∈ q → <[t := TIdle]> ps !! u = Some r → ps !! u = Some r) as Hne.
  { intros u r Hu. rewrite list_lookup_insert_ne; [done|]. by intros ->. }
  assert (∀ j u, q !! j = Some u → u ∈ q) as Hin by (intros; by eapply list_elem_of_lookup_2).
  split; cbn [fst snd set_now_serving now_serving next_ticket].
  - by rewrite length_insert.
  - apply s32_range.
  - rewrite T3. unfold u32, s32. lia_mod.
  - done.
  - intros u p Hu. destruct (decide (u = t)) as [->|Hut].
    + rewrite list_lookup_insert_eq in Hu by (by eapply lookup_lt_Some). naive_solver.
    + rewrite list_lookup_insert_ne in Hu by done. rewrite <- (T5 u p Hu). set_solver.
  - intros u Hu. apply T6. set_solver.
  - intros j u me Hj Hu. rewrite (T7 (S j) u me Hj) by (by apply Hne, Hu; eapply Hin).
    unfold s32. lia_mod.
  - intros j u Hj Hu. exfalso. assert (S j = 0%nat) as [=]. eapply T8; [exact Hj|]. apply Hne, Hu. by eapply Hin.
  - intros j u v Hj Hu. exfalso. destruct (T9 (S j) u v Hj) as [[=] _]. apply Hne, Hu. by eapply Hin.
Qed.

Lemma ticket_inv_step n s q t :
  Z.of_nat n < 4294967296 → ticket_inv n s q →
  ticket_inv n (ticket_queue_step (s, q) t).1 (ticket_queue_step (s, q) t).2.
Proof.
  intros Hn Hi. unfold ticket_queue_step. cbn [fst snd]. destruct (s.2 !! t) as [p|] eqn:E.
  2: { unfold thread_step. by rewrite E. }
  assert (p ≠ TIdle → ∃ j, q !! j = Some t) as Hq.
  { intros Hp. apply list_elem_of_lookup. by apply (ti_queue _ _ _ Hi t p E). }
  destruct p as [|me| |v]; cbn [queue_step].
  - by apply ticket_inv_take.
  - destruct (Hq ltac:(done)) as [j Hj]. pose proof (ticket_inv_served n s q j t me Hn Hi Hj E) as Hserve.
    unfold thread_step. rewrite E. cbn. destruct s as [l ps]. unfold ticket_spin. cbn [fst snd] in *.
    destruct (Z.eqb_spec (now_serving l) me) as [Hs|Hs]; eapply ticket_inv_move; try done.
    + intros _. rewrite head_lookup. by rewrite (proj1 Hserve Hs) in Hj.
    + intros [?|?]; done.
  - destruct (Hq ltac:(done)) as [j Hj]. unfold thread_step. rewrite E. cbn. destruct s as [l ps].
    pose proof (ti_held _ _ _ Hi j t Hj E) as ->. eapply ticket_inv_move; try done; [by rewrite head_lookup|naive_solver].
  - by eapply ticket_inv_pass.
Qed.

Lemma ticket_run_inv n sched :
  Z.of_nat n < 4294967296 → ticket_inv n (ticket_run sched n).1 (ticket_run sched n).2.
Proof.
  intros Hn. unfold ticket_run.
  assert (∀ x, ticket_inv n x.1 x.2 → ticket_inv n (foldl ticket_queue_step x sched).1 (foldl ticket_queue_step x sched).2) as H.
  { induction sched as [|t sched IH]; intros x Hx; [done|]. apply IH. destruct x as [s q]. by apply ticket_inv_step. }
  apply H. split; cbn; try done.
  - apply length_replicate.
  - apply NoDup_nil_2.
  - intros t p Ht%lookup_replicate. set_solver.
  - set_solver.
Qed.

(** C23: The ticket lock excludes and is fair: in every interleaving of threads,
    fewer than 2^32 of them, the lock is held only by the thread at the head of
    the queue of those that took a ticket, in the order they took it, also when
    tickets wrap around; a waiting thread gets the lock at its next look exactly
    when it is at the head, so nobody overtakes and nobody is skipped. *)
Theorem ticket_lock_fifo n sched :
  Z.of_nat n < 4294967296 →
  let s := run_threads ticket_access sched (zero_lock, replicate n TIdle) in
  let q := (ticket_run sched n).2 in
  NoDup q ∧ (∀ t p, s.2 !! t = Some p → (t ∈ q ↔ p ≠ TIdle)) ∧
  (∀ t, s.2 !! t = Some THeld ∨ (∃ v, s.2 !! t = Some (TRelease v)) → head q = Some t) ∧
  (∀ t me, s.2 !! t = Some (TWait me) → (thread_step ticket_access s t).2 !! t = Some THeld ↔ head q = Some t).
Proof.
  intros Hn s q. pose proof (ticket_run_inv n sched Hn) as Hi. rewrite ticket_run_threads in Hi. fold s q in Hi.
  destruct (id Hi) as [T1 T2 T3 T4 T5 T6 T7 T8 T9].
  assert (∀ t p, s.2 !! t = Some p → p ≠ TIdle → ∃ j, q !! j = Some t) as Hq.
  { intros t p Ht Hp. apply list_elem_of_lookup. by apply (T5 t p Ht). }
  split_and!; [done|done| |].
  - intros t [Ht|[v Ht]]; destruct (Hq _ _ Ht ltac:(done)) as [j Hj]; rewrite head_lookup.
    + by rewrite (T8 j t Hj Ht) in Hj.
    + by destruct (T9 j t v Hj Ht) as [-> _].
  - intros t me Ht. destruct (Hq _ _ Ht ltac:(done)) as [j Hj]. pose proof (ticket_inv_served n s q j t me Hn Hi Hj Ht) as Hs.
    unfold thread_step. rewrite Ht. cbn. rewrite list_lookup_insert_eq by (by eapply lookup_lt_Some). rewrite head_lookup.
    destruct (Z.eqb_spec (now_serving s.1) me) as [E|E].
    + by rewrite (proj1 Hs E) in Hj.
    + split; [done|]. intros H0. destruct E. apply Hs. by eapply NoDup_lookup.
Qed.

(** Three threads take tickets in the order 2, 0, 1; thread 2 is served first. *)
Lemma ticket_lock_fifo_witness :
  let s := run_threads ticket_access [2%nat; 0%nat; 1%nat; 0%nat; 2%nat; 1%nat] (zero_lock, replicate 3 TIdle) in
  s.2 !! 2%nat = Some THeld ∧ head (ticket_run [2%nat; 0%nat; 1%nat; 0%nat; 2%nat; 1%nat] 3).2 = Some 2%nat.
Proof.
  split; [reflexivity|].
  apply (ticket_lock_fifo 3 [2%nat; 0%nat; 1%nat; 0%nat; 2%nat; 1%nat]); [lia|]. left. reflexivity.
Defined.
