(* ===== verification/Umalloc.v ===== *)
(** * The user-space allocator ([umalloc.c])

    [malloc] and [free] keep a circular list of free blocks, ordered by address,
    in the headers of the blocks themselves.  Memory is the user memory of the
    process, byte by byte; the static variable [base] is a header at a fixed
    address below the heap.  A function is [None] when its loop does not end
    within the bound, which the theorems exclude. *)

From stdpp Require Import base numbers list gmap sorting.
From S2P Require Import Prelude Mmu Hardware Memory.

(** ** Translated code *)

Record ustate := mk_ustate {
  u_mem : mem;
  u_freep : Z;
  u_brk : Z;  (* the size of the process *)
  u_grant : list bool  (* whether the kernel finds memory, for each time it is asked *)
}.

Definition set_u_mem (m : mem) (s : ustate) : ustate := mk_ustate m (u_freep s) (u_brk s) (u_grant s).
Definition set_u_freep (p : Z) (s : ustate) : ustate := mk_ustate (u_mem s) p (u_brk s) (u_grant s).

Definition SIZEOF_HEADER : Z := 8.

(** [p->s.ptr], [p->s.size], [p + n]. *)
Definition hptr (s : ustate) (p : Z) : Z := ld32 (u_mem s) p.
Definition hsize (s : ustate) (p : Z) : Z := ld32 (u_mem s) (p + 4).
Definition set_hptr (p v : Z) (s : ustate) : ustate := set_u_mem (st32 (u_mem s) p v) s.
Definition set_hsize (p v : Z) (s : ustate) : ustate := set_u_mem (st32 (u_mem s) (p + 4) v) s.
Definition hadd (p n : Z) : Z := u32 (p + SIZEOF_HEADER * n).

(** What the system call does to the size of the process, with [n] as an [int]:
    the old size, or -1 as a pointer. *)
Definition sbrk (n : Z) (s : ustate) : Z * ustate :=
  let newsz := u32 (u_brk s + s32 n) in
  if 0 <? s32 n then
    if (KERNBASE <=? newsz) || negb (default false (head (u_grant s))) then
      (4294967295, mk_ustate (u_mem s) (u_freep s) (u_brk s) (drop 1 (u_grant s)))
    else (u_brk s, mk_ustate (u_mem s) (u_freep s) (if newsz <? u_brk s then u_brk s else newsz) (drop 1 (u_grant s)))
  else if (s32 n <? 0) && (newsz <? u_brk s) then
    if newsz =? 0 then (4294967295, s) else (u_brk s, mk_ustate (u_mem s) (u_freep s) newsz (u_grant s))
  else (u_brk s, s).

(** More turns than any of the loops takes: every node of the list occupies
    eight bytes. *)
Definition turns (s : ustate) : nat := Z.to_nat (u_brk s) + 10.

Fixpoint free_search (fuel : nat) (bp p : Z) (s : ustate) : option Z :=
  match fuel with
  | O => None
  | S fuel =>
      let q := hptr s p in
      if (p <? bp) && (bp <? q) then Some p
      else if (q <=? p) && ((p <? bp) || (bp <? q)) then Some p
      else free_search fuel bp q s
  end.

(** The two halves of [free] after the search. *)
Definition join_upper (bp p : Z) (s : ustate) : ustate :=
  if hadd bp (hsize s bp) =? hptr s p then
    let s := set_hsize bp (u32 (hsize s bp + hsize s (hptr s p))) s in
    set_hptr bp (hptr s (hptr s p)) s
  else set_hptr bp (hptr s p) s.

Definition join_lower (bp p : Z) (s : ustate) : ustate :=
  if hadd p (hsize s p) =? bp then
    let s := set_hsize p (u32 (hsize s p + hsize s bp)) s in
    set_hptr p (hptr s bp) s
  else set_hptr p bp s.

Definition free (ap : Z) (s : ustate) : option ustate :=
  let bp := hadd ap (-1) in
  p ← free_search (turns s) bp (u_freep s) s;
  Some (set_u_freep p (join_lower bp p (join_upper bp p s))).

Definition morecore (nu : Z) (s : ustate) : option (Z * ustate) :=
  let nu := if nu <? 4096 then 4096 else nu in
  let '(p, s) := sbrk (u32 (nu * SIZEOF_HEADER)) s in
  if p =? 4294967295 then Some (0, s)
  else
    let s := set_hsize p nu s in
    s ← free (hadd p 1) s;
    Some (u_freep s, s).

Definition nunits_of (nbytes : Z) : Z := u32 (u32 (nbytes + SIZEOF_HEADER - 1) / SIZEOF_HEADER + 1).

(** What is done with a block [p] that is large enough. *)
Definition take_block (nunits prevp p : Z) (s : ustate) : Z * ustate :=
  if hsize s p =? nunits then
    let s := set_hptr prevp (hptr s p) s in
    (hadd p 1, set_u_freep prevp s)
  else
    let s := set_hsize p (u32 (hsize s p - nunits)) s in
    let p := hadd p (hsize s p) in
    let s := set_hsize p nunits s in
    (hadd p 1, set_u_freep prevp s).

Fixpoint malloc_loop (fuel : nat) (nunits prevp p : Z) (s : ustate) : option (Z * ustate) :=
  match fuel with
  | O => None
  | S fuel =>
      if nunits <=? hsize s p then Some (take_block nunits prevp p s)
      else if p =? u_freep s then
        '(p, s) ← morecore nunits s;
        if p =? 0 then Some (0, s) else malloc_loop fuel nunits p (hptr s p) s
      else malloc_loop fuel nunits p (hptr s p) s
  end.

Section umalloc.
(** The address of [base]. *)
Context (base : Z).

Definition malloc (nbytes : Z) (s : ustate) : option (Z * ustate) :=
  let nunits := nunits_of nbytes in
  let s :=
    if u_freep s =? 0 then set_hsize base 0 (set_hptr base base (set_u_freep base s)) else s in
  let prevp := u_freep s in
  malloc_loop (turns s) nunits prevp (hptr s prevp) s.
End umalloc.

(** ** The free list

    A block is its address and its size in units of a header.  [chain m ns nx]:
    the headers of the blocks [ns] are linked in this order, the last to [nx]. *)

Notation block := (Z * Z)%type.

Definition first_addr (ns : list block) (nx : Z) : Z :=
  match ns with
  | x :: _ => x.1
  | [] => nx
  end.

Fixpoint chain (m : mem) (ns : list block) (nx : Z) : Prop :=
  match ns with
  | [] => True
  | x :: ns => ld32 m x.1 = first_addr ns nx ∧ ld32 m (x.1 + 4) = x.2 ∧ chain m ns nx
  end.

Lemma first_addr_app l1 l2 nx : first_addr (l1 ++ l2) nx = first_addr l1 (first_addr l2 nx).
Proof. by destruct l1. Qed.

Lemma chain_app m l1 l2 nx : chain m (l1 ++ l2) nx ↔ chain m l1 (first_addr l2 nx) ∧ chain m l2 nx.
Proof. induction l1 as [|x l1 IH]; cbn [chain app]; [tauto|]. rewrite IH, first_addr_app. tauto. Qed.

(** Two memories that differ at most in the header at [h]. *)
Definition same_but (h : Z) (m m' : mem) : Prop := ∀ x, x < h ∨ h + 8 ≤ x → ld8 m' x = ld8 m x.

Lemma same_but_trans h m1 m2 m3 : same_but h m1 m2 → same_but h m2 m3 → same_but h m1 m3.
Proof. intros H1 H2 x Hx. by rewrite H2, H1. Qed.

Lemma same_but_ptr h v m : same_but h m (st32 m h v).
Proof. intros x Hx. rewrite ld8_st32. repeat (case_test; try lia). Qed.

Lemma same_but_size h v m : same_but h m (st32 m (h + 4) v).
Proof. intros x Hx. rewrite ld8_st32. repeat (case_test; try lia). Qed.

Lemma same_but_ld32 h m m' a : same_but h m m' → a + 4 ≤ h ∨ h + 8 ≤ a → ld32 m' a = ld32 m a.
Proof. intros H Ha. apply ld32_ext. intros x Hx. apply H. lia. Qed.

Lemma chain_frame h m m' ns nx :
  same_but h m m' → (∀ x, x ∈ ns → x.1 + 8 ≤ h ∨ h + 8 ≤ x.1) → chain m ns nx → chain m' ns nx.
Proof.
  intros Hs. induction ns as [|x ns IH]; [done|]. intros Hd (H1 & H2 & H3). cbn [chain].
  pose proof (Hd x ltac:(left)) as Hx. rewrite !(same_but_ld32 h m m') by (done || lia). split_and!; [done|done|].
  apply IH; [|done]. intros y Hy. apply Hd. by right.
Qed.

(** In the list a block ends strictly before the next one begins. *)
Definition node_lt (x y : block) : Prop := x.1 + 8 * x.2 < y.1 ∧ x.1 + 8 ≤ y.1.

Notation ordered := (StronglySorted node_lt).

Lemma ordered_app l1 l2 :
  ordered (l1 ++ l2) ↔ ordered l1 ∧ ordered l2 ∧ ∀ x y, x ∈ l1 → y ∈ l2 → node_lt x y.
Proof.
  induction l1 as [|x l1 IH]; cbn [app].
  - split; [|tauto]. intros. split_and!; [constructor|done|]. intros x y Hx. by apply not_elem_of_nil in Hx.
  - split.
    + intros [H1 H2]%StronglySorted_inv. apply IH in H1 as (H3 & H4 & H5). rewrite Forall_app, !Forall_forall in H2. destruct H2 as [H2 H6].
      split_and!; [constructor; [done|by apply Forall_forall]|done|]. intros y z [->|Hy]%elem_of_cons Hz; auto.
    + intros ([H1 H2]%StronglySorted_inv & H3 & H4). constructor.
      * apply IH. split_and!; [done|done|]. intros; apply H4; [by right|done].
      * apply Forall_app. split; [done|]. apply Forall_forall. intros y Hy. apply H4; [by left|done].
Qed.

Lemma ordered_cons x l : ordered (x :: l) ↔ ordered l ∧ ∀ y, y ∈ l → node_lt x y.
Proof.
  split.
  - intros [H1 H2]%StronglySorted_inv. rewrite Forall_forall in H2. done.
  - intros [H1 H2]. constructor; [done|]. by apply Forall_forall.
Qed.

(** Every node takes eight bytes. *)
Lemma ordered_length x l top :
  ordered (x :: l) → (∀ y, y ∈ x :: l → y.1 < top) → x.1 + 8 * Z.of_nat (length l) < top.
Proof.
  revert x. induction l as [|y l IH]; intros x [Ho Hx]%ordered_cons Ht; [cbn; specialize (Ht x ltac:(left)); lia|].
  specialize (IH y Ho). destruct (Hx y ltac:(left)) as [_ H8]. cbn [length].
  assert (y.1 + 8 * Z.of_nat (length l) < top) by (apply IH; intros z Hz; apply Ht; by right). lia.
Qed.

(** A position for an address in the list. *)
Lemma ordered_split x l bp :
  ordered (x :: l) → x.1 < bp → (∀ y, y ∈ l → y.1 ≠ bp) →
  ∃ l1 z l2, x :: l = l1 ++ z :: l2 ∧ z.1 < bp ∧ ∀ y, y ∈ l2 → bp < y.1.
Proof.
  revert x. induction l as [|y l IH]; intros x Ho Hx Hne.
  - exists [], x, []. split; [done|]. split; [done|]. intros y Hy. by apply not_elem_of_nil in Hy.
  - apply ordered_cons in Ho as [Ho Hxy]. destruct (Z.lt_ge_cases y.1 bp) as [Hy|Hy].
    + destruct (IH y Ho Hy) as (l1 & z & l2 & E & Hz & Hl2); [intros; apply Hne; by right|].
      exists (x :: l1), z, l2. split; [by rewrite E|done].
    + exists [], x, (y :: l). split; [done|]. split; [done|]. specialize (Hne y ltac:(left)).
      intros w [->|Hw]%elem_of_cons; [lia|]. apply ordered_cons in Ho as [_ Ho]. destruct (Ho w Hw). lia.
Qed.

(** ** The search in [free] *)

Lemma free_search_more fuel fuel' bp p s r :
  free_search fuel bp p s = Some r → (fuel ≤ fuel')%nat → free_search fuel' bp p s = Some r.
Proof.
  revert fuel' p. induction fuel as [|fuel IH]; intros fuel' p; [done|]. destruct fuel' as [|fuel']; [lia|].
  cbn [free_search]. repeat (case_match; try done). intros ? ?. apply IH; [done|lia].
Qed.

(** Blocks below, all followed by one that is still below. *)
Lemma free_search_below fuel bp s seg y rest nx :
  chain (u_mem s) (seg ++ y :: rest) nx → ordered (seg ++ y :: rest) → y.1 < bp →
  free_search (length seg + fuel) bp (first_addr (seg ++ y :: rest) nx) s = free_search fuel bp y.1 s.
Proof.
  revert fuel. induction seg as [|x seg IH]; intros fuel; [done|]. cbn [app chain length Nat.add free_search first_addr].
  intros (H1 & _ & Hc) [Ho Hx]%ordered_cons Hy. unfold hptr at 1 2 3 4. rewrite H1.
  assert (x.1 < first_addr (seg ++ y :: rest) nx ≤ y.1) as Hq.
  { destruct seg as [|z seg]; cbn [app first_addr].
    - destruct (Hx y ltac:(left)). lia.
    - destruct (Hx z ltac:(left)). apply ordered_cons in Ho as [_ Ho]. destruct (Ho y) as [_ ?]; [|lia].
      apply elem_of_app. right. left. }
  rewrite (proj2 (Z.ltb_ge bp (first_addr (seg ++ y :: rest) nx))), andb_false_r, (proj2 (Z.leb_gt (first_addr (seg ++ y :: rest) nx) x.1)) by lia. cbn [andb].
  replace (hptr s x.1) with (first_addr (seg ++ y :: rest) nx) by (symmetry; exact H1). by apply IH.
Qed.

(** Blocks above, up to the end of the list. *)
Lemma free_search_above fuel bp s seg nx :
  chain (u_mem s) seg nx → ordered seg → (∀ x, x ∈ seg → bp < x.1) → nx < bp →
  free_search (length seg + fuel) bp (first_addr seg nx) s = free_search fuel bp nx s.
Proof.
  revert fuel. induction seg as [|x seg IH]; intros fuel; [done|]. cbn [chain length Nat.add free_search first_addr].
  intros (H1 & _ & Hc) [Ho Hx]%ordered_cons Ha Hnx. unfold hptr at 1 2 3 4. rewrite H1.
  pose proof (Ha x ltac:(left)) as Hbx. rewrite (proj2 (Z.ltb_ge x.1 bp)) by lia. cbn [andb orb].
  assert ((first_addr seg nx <=? x.1) && (bp <? first_addr seg nx) = false) as ->.
  { destruct seg as [|z seg]; cbn [first_addr].
    - rewrite (proj2 (Z.ltb_ge bp nx)) by lia. apply andb_false_r.
    - destruct (Hx z ltac:(left)). by rewrite (proj2 (Z.leb_gt z.1 x.1)) by lia. }
  replace (hptr s x.1) with (first_addr seg nx) by (symmetry; exact H1). apply IH; try done. intros; apply Ha; by right.
Qed.

(** The search from any block of the circular list ends at the block after
    which [bp] belongs. *)
Lemma free_search_spec s bp l1 z l2 nx f :
  let ns := l1 ++ z :: l2 in
  chain (u_mem s) ns nx → ordered ns → nx = first_addr ns nx → nx < bp → z.1 < bp → (∀ y, y ∈ l2 → bp < y.1) →
  f ∈ ns → free_search (length ns) bp f.1 s = Some z.1.
Proof.
  intros ns Hc Ho Hnx Hb Hz Hl2 Hf.
  assert (∀ fuel, free_search (S fuel) bp z.1 s = Some z.1) as Hhere.
  { intros fuel. cbn [free_search]. apply chain_app in Hc as [_ (H1 & _)]. unfold hptr. rewrite H1.
    rewrite (proj2 (Z.ltb_lt z.1 bp)) by lia. cbn [andb orb]. destruct l2 as [|y l2]; cbn [first_addr].
    - assert (nx ≤ z.1) as Hle.
      { rewrite Hnx. unfold ns. destruct l1 as [|w l1]; cbn [app first_addr]; [lia|].
        apply ordered_cons in Ho as [_ Ho]. destruct (Ho z); [apply elem_of_app; right; left|lia]. }
      rewrite (proj2 (Z.leb_le nx z.1)) by done. by case_test.
    - by rewrite (proj2 (Z.ltb_lt bp y.1)) by (apply Hl2; left). }
  assert (∀ fuel p1 f' p2, l1 ++ [z] = p1 ++ f' :: p2 → free_search (length l1 + S fuel) bp f'.1 s = Some z.1) as Hfrom.
  { intros fuel p1 f' p2 E. destruct (decide (p2 = [])) as [->|Hp2].
    - apply app_inj_tail in E as [_ <-]. by apply free_search_more with (fuel := S fuel); [|lia].
    - destruct (exists_last Hp2) as (p3 & w & ->). rewrite app_comm_cons, app_assoc in E. apply app_inj_tail in E as [-> <-].
      unfold ns in *. rewrite <- app_assoc in Hc, Ho. apply chain_app in Hc as [_ Hc]. apply ordered_app in Ho as (_ & Ho & _).
      pose proof (free_search_below (S fuel) bp s (f' :: p3) z l2 nx Hc Ho Hz) as E. cbn [app first_addr] in E.
      eapply free_search_more; [rewrite E; apply Hhere|]. rewrite length_app. cbn [length]. lia. }
  unfold ns in Hf. rewrite cons_middle, app_assoc in Hf. apply elem_of_app in Hf as [Hf|Hf].
  - apply list_elem_of_split in Hf as (p1 & p2 & E). eapply free_search_more; [by apply (Hfrom 0%nat p1 f p2)|].
    unfold ns. rewrite length_app. cbn. lia.
  - apply list_elem_of_split in Hf as (p1 & p2 & ->). unfold ns in Hc, Ho.
    pose proof (proj1 (chain_app _ _ _ _) Hc) as [_ Hc2]. rewrite app_comm_cons in Hc2. apply chain_app in Hc2 as [_ Hc2].
    pose proof (proj1 (ordered_app _ _) Ho) as (_ & Ho2 & _). rewrite app_comm_cons in Ho2. apply ordered_app in Ho2 as (_ & Ho2 & _).
    pose proof (free_search_above (length l1 + 1) bp s (f :: p2) nx Hc2 Ho2) as E. cbn [first_addr] in E.
    eapply free_search_more.
    + rewrite E; [|intros; apply Hl2; apply elem_of_app; by right|done]. rewrite Hnx. unfold ns. destruct l1 as [|w l1]; cbn [app first_addr].
      * apply (Hfrom 0%nat [] z []). done.
      * apply (Hfrom 0%nat [] w (l1 ++ [z])). done.
    + unfold ns. rewrite !length_app. cbn [length]. rewrite length_app. cbn [length]. lia.
Qed.

(** ** Joining neighbours *)

(** [x] in front of [l], joined with the first block when they touch. *)
Definition put_front (x : block) (l : list block) : list block :=
  match l with
  | y :: r => if x.1 + 8 * x.2 =? y.1 then (x.1, x.2 + y.2) :: r else x :: l
  | [] => [x]
  end.

(** A block that fits in user memory. *)
Definition in_range (x : block) : Prop := 0 ≤ x.1 ∧ 0 ≤ x.2 ∧ x.1 + 8 * x.2 < 2147483648.

Lemma hadd_range x : in_range x → hadd x.1 x.2 = x.1 + 8 * x.2.
Proof. intros (? & ? & ?). unfold hadd, SIZEOF_HEADER. apply u32_small. lia. Qed.

Lemma header_apart_ptr m h v : ld32 (st32 m h v) (h + 4) = ld32 m (h + 4).
Proof. apply ld32_st32_ne. lia. Qed.

Lemma header_apart_size m h v : ld32 (st32 m (h + 4) v) h = ld32 m h.
Proof. apply ld32_st32_ne. lia. Qed.

Lemma join_upper_spec b p l nx s :
  hsize s b.1 = b.2 → hptr s p = first_addr l nx → chain (u_mem s) l nx → in_range b → Forall in_range l →
  (∀ y, y ∈ l → b.1 + 8 ≤ y.1) → p + 8 ≤ b.1 → b.1 + 8 * b.2 ≠ nx → 0 ≤ nx < 4294967296 → ordered l →
  ∃ m', join_upper b.1 p s = set_u_mem m' s ∧ chain m' (put_front b l) nx ∧ same_but b.1 (u_mem s) m'.
Proof.
  intros Hb Hp Hc Rb Rl Hl Hpb Hnx Rnx Ho. unfold join_upper. rewrite Hb, Hp, hadd_range by done.
  destruct l as [|y r]; cbn [first_addr put_front].
  - rewrite (proj2 (Z.eqb_neq _ _)) by done. eexists. split; [done|]. split; [|apply same_but_ptr]. cbn [chain first_addr].
    rewrite ld32_st32_eq, header_apart_ptr. split_and!; [by apply u32_small|done|done].
  - cbn [chain] in Hc. destruct Hc as (Hy1 & Hy2 & Hr). apply Forall_cons in Rl as [Ry Rr]. pose proof (Hl y ltac:(left)) as Hby.
    destruct (Z.eqb_spec (b.1 + 8 * b.2) y.1) as [E|E].
    + unfold set_hptr, set_hsize, hptr, hsize, set_u_mem in *. cbn [u_mem u_freep u_brk u_grant] in *.
      rewrite (ld32_st32_ne _ _ _ p), Hp by lia. cbn [first_addr]. rewrite (ld32_st32_ne _ _ _ y.1), Hy1, Hy2 by lia.
      eexists. split; [done|]. split.
      * cbn [chain fst snd]. rewrite ld32_st32_eq, header_apart_ptr, ld32_st32_eq, u32_idem. split_and!.
        -- apply u32_small. destruct r as [|w r]; [done|]. cbn [first_addr]. apply Forall_cons in Rr as [(? & ? & ?) _]. lia.
        -- apply u32_small. destruct Rb as (? & ? & ?), Ry as (? & ? & ?). lia.
        -- eapply chain_frame, chain_frame; [apply (same_but_ptr b.1)| |apply (same_but_size b.1)| |done];
             intros w Hw; right; apply Hl; by right.
      * eapply same_but_trans; [apply same_but_size|apply same_but_ptr].
    + eexists. split; [done|]. split; [|apply same_but_ptr]. cbn [chain first_addr]. rewrite ld32_st32_eq, header_apart_ptr.
      split_and!; [apply u32_small; destruct Ry as (? & ? & ?); lia|done| | |].
      * rewrite ld32_st32_ne by lia. done.
      * rewrite ld32_st32_ne by lia. done.
      * eapply chain_frame; [apply same_but_ptr| |done]. intros w Hw; right; apply Hl; by right.
Qed.

Lemma join_lower_spec z b r nx s :
  hsize s z.1 = z.2 → chain (u_mem s) (b :: r) nx → in_range z → Forall in_range (b :: r) → z.1 + 8 ≤ b.1 →
  (∀ y, y ∈ r → b.1 + 8 ≤ y.1) → 0 ≤ nx < 4294967296 →
  ∃ m', join_lower b.1 z.1 s = set_u_mem m' s ∧ chain m' (put_front z (b :: r)) nx ∧ same_but z.1 (u_mem s) m'.
Proof.
  intros Hz Hc Rz Rl Hzb Hr Rnx. unfold join_lower. rewrite Hz, hadd_range by done. cbn [put_front].
  cbn [chain] in Hc. destruct Hc as (Hb1 & Hb2 & Hc). apply Forall_cons in Rl as [Rb Rr].
  destruct (Z.eqb_spec (z.1 + 8 * z.2) b.1) as [E|E].
  - unfold set_hptr, set_hsize, hptr, hsize, set_u_mem in *. cbn [u_mem u_freep u_brk u_grant] in *.
    rewrite (ld32_st32_ne _ _ _ b.1), Hb1, Hb2 by lia. eexists. split; [done|]. split.
    + cbn [chain fst snd]. rewrite ld32_st32_eq, header_apart_ptr, ld32_st32_eq, u32_idem. split_and!.
      * apply u32_small. destruct r as [|w r]; [done|]. cbn [first_addr]. apply Forall_cons in Rr as [(? & ? & ?) _]. lia.
      * apply u32_small. destruct Rb as (? & ? & ?), Rz as (? & ? & ?). lia.
      * eapply chain_frame, chain_frame; [apply (same_but_ptr z.1)| |apply (same_but_size z.1)| |done];
          intros w Hw; right; specialize (Hr w Hw); lia.
    + eapply same_but_trans; [apply same_but_size|apply same_but_ptr].
  - eexists. split; [done|]. split; [|apply same_but_ptr]. cbn [chain first_addr]. rewrite ld32_st32_eq, header_apart_ptr.
    split_and!; [apply u32_small; destruct Rb as (? & ? & ?); lia|done| | |].
    + by rewrite ld32_st32_ne by lia.
    + by rewrite ld32_st32_ne by lia.
    + eapply chain_frame; [apply same_but_ptr| |done]. intros w Hw; right; specialize (Hr w Hw); lia.
Qed.

(** *** What joining does to the list of blocks *)

Definition apart (x y : block) : Prop := x.1 + 8 * x.2 ≤ y.1 ∨ y.1 + 8 * y.2 ≤ x.1.

Lemma put_front_ordered x l : ordered l → (∀ y, y ∈ l → x.1 + 8 * x.2 ≤ y.1 ∧ x.1 + 8 ≤ y.1) → ordered (put_front x l).
Proof.
  intros Ho Hx. destruct l as [|y r]; cbn [put_front]; [constructor; constructor|].
  apply ordered_cons in Ho as [Ho Hy]. destruct (Z.eqb_spec (x.1 + 8 * x.2) y.1) as [E|E].
  - apply ordered_cons. split; [done|]. intros w Hw. destruct (Hy w Hw), (Hx w ltac:(by right)). split; cbn [fst snd]; lia.
  - apply ordered_cons. split; [by apply ordered_cons|]. intros w [->|Hw]%elem_of_cons.
    + destruct (Hx y ltac:(left)). split; lia.
    + destruct (Hx w ltac:(by right)), (Hx y ltac:(left)), (Hy w Hw). split; lia.
Qed.

(** What is apart from the blocks is apart from the joined ones. *)
Lemma put_front_apart x l y :
  1 ≤ y.2 → apart x y → (∀ w, w ∈ l → apart w y) → ∀ w, w ∈ put_front x l → apart w y.
Proof.
  intros Hy Hx Hl. destruct l as [|v r]; cbn [put_front]; [by intros w ->%list_elem_of_singleton|].
  destruct (Z.eqb_spec (x.1 + 8 * x.2) v.1) as [E|E]; intros w [->|Hw]%elem_of_cons; auto.
  - pose proof (Hl v ltac:(left)) as Hv. unfold apart in *. cbn [fst snd]. lia.
  - apply Hl. by right.
Qed.

(** The properties of blocks carry over. *)
Definition block_in (lo top : Z) (x : block) : Prop := lo ≤ x.1 ∧ 1 ≤ x.2 ∧ x.1 + 8 * x.2 ≤ top.

Lemma put_front_in x l lo top : Forall (block_in lo top) (x :: l) → Forall (block_in lo top) (put_front x l).
Proof.
  intros H. destruct l as [|v r]; cbn [put_front]; [done|].
  destruct (Z.eqb_spec (x.1 + 8 * x.2) v.1) as [E|E]; [|done]. rewrite !Forall_cons in H. destruct H as ((? & ? & ?) & (? & ? & ?) & ?).
  apply Forall_cons. split; [|done]. unfold block_in. cbn [fst snd]. lia.
Qed.

Lemma put_front_length x l : (length (put_front x l) ≤ S (length l))%nat.
Proof. destruct l as [|v r]; cbn [put_front]; [done|]. case_test; cbn; lia. Qed.

Lemma put_front_cons x l : ∃ n r, put_front x l = (x.1, n) :: r ∧ (∀ y, y ∈ r → y ∈ l).
Proof.
  destruct l as [|v r]; cbn [put_front]; [exists x.2, []; by destruct x|].
  destruct (Z.eqb_spec (x.1 + 8 * x.2) v.1) as [E|E].
  - exists (x.2 + v.2), r. split; [done|]. intros; by right.
  - exists x.2, (v :: r). by destruct x.
Qed.

(** The addresses in a list of blocks. *)
Definition covers (l : list block) (a : Z) : Prop := ∃ w, w ∈ l ∧ w.1 ≤ a < w.1 + 8 * w.2.

Lemma covers_cons x l a : covers (x :: l) a ↔ x.1 ≤ a < x.1 + 8 * x.2 ∨ covers l a.
Proof. unfold covers. set_solver. Qed.

Lemma covers_app l1 l2 a : covers (l1 ++ l2) a ↔ covers l1 a ∨ covers l2 a.
Proof. unfold covers. set_solver. Qed.

Lemma put_front_covers x l a : (∀ y, y ∈ x :: l → 0 ≤ y.2) → covers (put_front x l) a ↔ covers (x :: l) a.
Proof.
  intros H. destruct l as [|v r]; cbn [put_front]; [done|].
  destruct (Z.eqb_spec (x.1 + 8 * x.2) v.1) as [E|E]; [|done]. rewrite !covers_cons. cbn [fst snd].
  pose proof (H x ltac:(left)). pose proof (H v ltac:(right; left)).
  assert (x.1 ≤ a < x.1 + 8 * (x.2 + v.2) ↔ x.1 ≤ a < x.1 + 8 * x.2 ∨ v.1 ≤ a < v.1 + 8 * v.2) by lia. tauto.
Qed.

(** ** The heap *)

Section heap.
Context (base : Z).

(** The free blocks [F], in order, and the blocks [A] that are in use. *)
Record heap_ok (s : ustate) (F A : list block) : Prop := {
  ho_base : 0 < base ∧ base + 8 ≤ u_brk s ∧ u_brk s < 2147483648;
  ho_chain : chain (u_mem s) ((base, 0) :: F) base;
  ho_ordered : ordered ((base, 0) :: F);
  ho_freep : ∃ f, f ∈ (base, 0) :: F ∧ f.1 = u_freep s;
  ho_free : Forall (block_in (base + 8) (u_brk s)) F;
  ho_used : Forall (block_in (base + 8) (u_brk s)) A;
  ho_size x : x ∈ A → ld32 (u_mem s) (x.1 + 4) = x.2;
  ho_apart x y : x ∈ F → y ∈ A → apart x y;
  ho_used_apart : ForallOrdPairs apart A
}.

(** The bytes of the blocks in use are the same. *)
Definition keeps (A : list block) (m m' : mem) : Prop :=
  ∀ x a, x ∈ A → x.1 ≤ a < x.1 + 8 * x.2 → ld8 m' a = ld8 m a.

Lemma keeps_size A m m' x : keeps A m m' → x ∈ A → 1 ≤ x.2 → ld32 m' (x.1 + 4) = ld32 m (x.1 + 4).
Proof. intros Hk Hx H1. apply ld32_ext. intros a Ha. eapply Hk; [done|lia]. Qed.

Lemma keeps_trans A m1 m2 m3 : keeps A m1 m2 → keeps A m2 m3 → keeps A m1 m3.
Proof. intros H1 H2 x a Hx Ha. rewrite (H2 x a Hx Ha). by apply H1 with x. Qed.

Lemma keeps_header A h m m' : same_but h m m' → (∀ x, x ∈ A → x.1 + 8 * x.2 ≤ h ∨ h + 8 ≤ x.1) → keeps A m m'.
Proof. intros Hs Hd x a Hx Ha. apply Hs. specialize (Hd x Hx). lia. Qed.

Lemma ordpairs_middle A1 x A2 :
  ForallOrdPairs apart (A1 ++ x :: A2) → ForallOrdPairs apart (A1 ++ A2) ∧ ∀ y, y ∈ A1 ++ A2 → apart x y.
Proof.
  induction A1 as [|w A1 IH]; cbn [app]; intros H; inversion H as [|? ? H1 H2]; subst.
  - split; [done|]. by apply Forall_forall.
  - destruct (IH H2) as [H3 H4]. rewrite Forall_app, Forall_cons in H1. destruct H1 as (H5 & H6 & H7). split.
    + constructor; [by apply Forall_app|done].
    + intros y [->|Hy]%elem_of_cons; [|by apply H4]. unfold apart in *. lia.
Qed.

(** The list with a block entered between [z] and [l2]. *)
Lemma entered_list F l1 z l2 b top :
  (base, 0) :: F = l1 ++ z :: l2 → ordered ((base, 0) :: F) → Forall (block_in (base + 8) top) F →
  block_in (base + 8) top b → (∀ y, y ∈ F → apart y b) → z.1 < b.1 → (∀ y, y ∈ l2 → b.1 < y.1) →
  ∃ F', l1 ++ put_front z (put_front b l2) = (base, 0) :: F' ∧ ordered ((base, 0) :: F') ∧
    Forall (block_in (base + 8) top) F' ∧ (∀ a, covers F' a ↔ covers F a ∨ b.1 ≤ a < b.1 + 8 * b.2) ∧
    (∀ y, 1 ≤ y.2 → apart b y → (∀ w, w ∈ F → apart w y) → ∀ w, w ∈ F' → apart w y).
Proof.
  intros E Ho HF Hb Hap Hz Hl2. set (U := put_front b l2).
  assert (∀ y, y ∈ l2 → y ∈ F) as HlF.
  { intros y Hy. destruct l1 as [|w l1]; injection E as E1 E2; subst; [done|]. apply elem_of_app. right. by right. }
  rewrite Forall_forall in HF. destruct Hb as (Hb1 & Hb2 & Hb3).
  assert (∀ y, y ∈ l2 → b.1 + 8 * b.2 ≤ y.1 ∧ b.1 + 8 ≤ y.1) as Hbl.
  { intros y Hy. specialize (Hl2 y Hy). destruct (Hap y (HlF y Hy)); destruct (HF y (HlF y Hy)) as (? & ? & ?); lia. }
  assert (ordered U) as HoU.
  { apply put_front_ordered; [|done]. rewrite E in Ho. apply ordered_app in Ho as (_ & Ho & _). by apply ordered_cons in Ho as [Ho _]. }
  assert (Forall (block_in (base + 8) top) U) as HU.
  { apply put_front_in, Forall_cons. split; [done|]. apply Forall_forall. intros y Hy. by apply HF, HlF. }
  assert (∀ a, covers U a ↔ covers (b :: l2) a) as HcU.
  { intros a. apply put_front_covers. intros y [->|Hy]%elem_of_cons; [lia|]. destruct (HF y (HlF y Hy)) as (? & ? & ?). lia. }
  assert (∀ y, 1 ≤ y.2 → apart b y → (∀ w, w ∈ F → apart w y) → ∀ w, w ∈ U → apart w y) as HaU.
  { intros y Hy Hby HFy. apply put_front_apart; [done|done|]. intros w Hw. by apply HFy, HlF. }
  destruct (put_front_cons b l2) as (n & r & EU & Hr). fold U in EU.
  destruct l1 as [|w l1]; injection E as E1 E2.
  - subst z l2. exists U. assert (put_front (base, 0) U = (base, 0) :: U) as ->.
    { rewrite EU. cbn [put_front fst snd]. by rewrite (proj2 (Z.eqb_neq _ _)) by lia. }
    split; [done|]. split_and!; [|done| |done].
    + apply ordered_cons. split; [done|]. intros y Hy. rewrite Forall_forall in HU. destruct (HU y Hy) as (? & ? & ?). split; cbn [fst snd]; lia.
    + intros a. rewrite HcU, covers_cons. tauto.
  - subst w F. exists (l1 ++ put_front z U). split; [done|].
    assert (block_in (base + 8) top z) as Hzin by (apply HF; apply elem_of_app; right; left).
    assert (∀ y, y ∈ U → z.1 + 8 * z.2 ≤ y.1 ∧ z.1 + 8 ≤ y.1) as HzU.
    { destruct Hzin as (? & ? & ?). intros y Hy. rewrite EU in Hy. apply elem_of_cons in Hy as [->|Hy]; cbn [fst].
      - destruct (Hap z ltac:(apply elem_of_app; right; left)); lia.
      - specialize (Hbl y (Hr y Hy)). destruct (Hap z ltac:(apply elem_of_app; right; left)); lia. }
    apply ordered_cons in Ho as [Ho Hbase]. apply ordered_app in Ho as (Ho1 & Ho2 & Ho12).
    assert (∀ y, y ∈ put_front z U → z.1 ≤ y.1) as Hge.
    { destruct (put_front_cons z U) as (k & r' & -> & Hr'). intros y [->|Hy]%elem_of_cons; [done|]. specialize (HzU y (Hr' y Hy)). lia. }
    split_and!.
    + apply ordered_cons. split.
      * apply ordered_app. split_and!; [done|by apply put_front_ordered|]. intros x y Hx Hy.
        destruct (Ho12 x z Hx ltac:(left)). specialize (Hge y Hy). split; lia.
      * intros y [Hy|Hy]%elem_of_app; [apply Hbase; apply elem_of_app; by left|]. specialize (Hge y Hy).
        destruct (Hbase z ltac:(apply elem_of_app; right; left)). split; lia.
    + apply Forall_app. split; [apply Forall_forall; intros; apply HF; apply elem_of_app; by left|].
      by apply put_front_in, Forall_cons.
    + intros a. rewrite !covers_app, put_front_covers, !covers_cons, HcU, covers_cons; [tauto|].
      intros y [->|Hy]%elem_of_cons; [destruct Hzin as (? & ? & ?); lia|]. rewrite Forall_forall in HU. destruct (HU y Hy) as (? & ? & ?). lia.
    + intros y Hy Hby HFy v [Hv|Hv]%elem_of_app; [apply HFy; apply elem_of_app; by left|].
      apply (put_front_apart z U y); try done; [|by apply HaU]. apply HFy. apply elem_of_app. right. left.
Qed.

Lemma block_in_range top x : 0 < base → top < 2147483648 → block_in (base + 8) top x → in_range x.
Proof. intros ? ? (? & ? & ?). unfold in_range. lia. Qed.

(** The number of nodes is below the bound of the loops. *)
Lemma heap_turns s F A : heap_ok s F A → (8 * S (length F) < Z.to_nat (u_brk s) + 8)%nat.
Proof.
  intros Hh. destruct (ho_base _ _ _ Hh) as (? & ? & ?). pose proof (ordered_length _ _ (u_brk s) (ho_ordered _ _ _ Hh)) as Hl.
  cbn [fst] in Hl. assert (base + 8 * Z.of_nat (length F) < u_brk s); [|lia]. apply Hl. pose proof (ho_free _ _ _ Hh) as HF.
  rewrite Forall_forall in HF. intros y [->|Hy]%elem_of_cons; cbn; [lia|]. destruct (HF y Hy) as (? & ? & ?). lia.
Qed.

(** What the two halves of [free] do to a list that has its place at [z]. *)
Lemma join_run s l1 z l2 b :
  chain (u_mem s) (l1 ++ z :: l2) base → ordered (l1 ++ z :: l2) → hsize s b.1 = b.2 → 0 < base < b.1 →
  Forall in_range (b :: z :: l2) → (∀ y, y ∈ l2 → b.1 + 8 ≤ y.1 ∧ b.1 + 8 * b.2 ≤ y.1) → z.1 + 8 ≤ b.1 →
  ∃ m', join_lower b.1 z.1 (join_upper b.1 z.1 s) = set_u_mem m' s ∧ chain m' (l1 ++ put_front z (put_front b l2)) base ∧
    ∃ m1, same_but b.1 (u_mem s) m1 ∧ same_but z.1 m1 m'.
Proof.
  intros Hc Ho Hb Hbase HR Hl2 Hzb. rewrite !Forall_cons in HR. destruct HR as (Rb & Rz & Rl).
  apply chain_app in Hc as [Hc1 (Hz1 & Hz2 & Hc2)]. cbn [first_addr] in Hc1. apply ordered_app in Ho as (Ho1 & Ho2 & Ho12).
  apply ordered_cons in Ho2 as [Ho2 Hz]. assert (0 ≤ base < 4294967296) as Hb32 by (destruct Rb as (? & ? & ?); lia).
  destruct (join_upper_spec b z.1 l2 base s) as (m1 & -> & Hu & Hs1); try done.
  { intros y Hy. by apply Hl2. } { destruct Rb as (? & ? & ?). lia. }
  destruct (put_front_cons b l2) as (n & r & EU & Hr). rewrite EU in *.
  assert (in_range (b.1, n) ∧ Forall in_range r) as [Rn Rr].
  { revert EU. destruct l2 as [|y l2]; cbn [put_front].
    - intros [= <- <-]. split; [by destruct b|done].
    - apply Forall_cons in Rl as [Ry Rl]. destruct (Z.eqb_spec (b.1 + 8 * b.2) y.1) as [E|E]; intros EU.
      + injection EU as <- <-. split; [|done]. destruct Rb as (? & ? & ?), Ry as (? & ? & ?). unfold in_range. cbn [fst snd]. lia.
      + injection EU as EU1 <-. split; [by rewrite <- EU1|by apply Forall_cons]. }
  destruct (join_lower_spec z (b.1, n) r base (set_u_mem m1 s)) as (m2 & Hrun & Hl & Hs2); try done.
  { unfold hsize. cbn [u_mem set_u_mem]. rewrite (same_but_ld32 b.1 (u_mem s)) by (done || lia). done. }
  { by apply Forall_cons. } { intros y Hy. cbn [fst]. by apply Hl2, Hr. }
  cbn [fst] in Hrun. exists m2. split; [by rewrite Hrun|]. split; [|by exists m1].
  apply chain_app. split; [|done]. destruct (put_front_cons z ((b.1, n) :: r)) as (k & r' & -> & _). cbn [first_addr fst].
  eapply chain_frame; [done| |eapply chain_frame; [done| |done]]; intros x Hx; left; destruct (Ho12 x z Hx ltac:(left)); lia.
Qed.

(** [free] of a block in use. *)
Lemma free_run s F A1 b A2 :
  heap_ok s F (A1 ++ b :: A2) →
  ∃ F' m' z, free (b.1 + 8) s = Some (set_u_freep z (set_u_mem m' s)) ∧
    heap_ok (set_u_freep z (set_u_mem m' s)) F' (A1 ++ A2) ∧ keeps (A1 ++ A2) (u_mem s) m' ∧
    (∀ a, covers F' a ↔ covers F a ∨ b.1 ≤ a < b.1 + 8 * b.2) ∧ (length F' ≤ S (length F))%nat.
Proof.
  intros Hh. pose proof (heap_turns _ _ _ Hh) as Hturns. destruct Hh as [(B1 & B2 & B3) Hc Ho (f & Hf & Hfp) HF HA Hsz Hap Hpairs].
  apply Forall_app in HA as [HA1 [Hb HA2]%Forall_cons]. destruct (ordpairs_middle _ _ _ Hpairs) as [Hpairs' HbA].
  assert (b ∈ A1 ++ b :: A2) as HbIn by (apply elem_of_app; right; left).
  pose proof Hb as (Hb1 & Hb2 & Hb3). rewrite Forall_forall in HF.
  destruct (ordered_split (base, 0) F b.1) as (l1 & z & l2 & E & Hz & Hl2); [done|cbn [fst]; lia| |].
  { intros y Hy Heq. destruct (HF y Hy) as (? & ? & ?), (Hap y b Hy HbIn); lia. }
  destruct (entered_list F l1 z l2 b (u_brk s)) as (F' & EF & Ho' & HF' & Hcov & Hapart); try done.
  { by apply Forall_forall. } { intros y Hy. by apply Hap. }
  assert (∀ y, y ∈ l2 → y ∈ F) as HlF.
  { intros y Hy. destruct l1 as [|w l1]; injection E as E1 E2; subst; [done|]. apply elem_of_app. right. by right. }
  assert (z = (base, 0) ∨ z ∈ F) as HzF.
  { apply elem_of_cons. rewrite E. apply elem_of_app. right. left. }
  assert (z.1 + 8 ≤ b.1) as Hz8.
  { destruct HzF as [->|HzF]; [cbn; lia|]. destruct (HF z HzF) as (? & ? & ?), (Hap z b HzF HbIn); lia. }
  destruct (join_run s l1 z l2 b) as (m' & Hrun & Hc' & m1 & Hs1 & Hs2); try done; try (by rewrite <- E).
  { by apply Hsz. } { lia. }
  { rewrite !Forall_cons. split_and!; [by eapply block_in_range| |].
    - destruct HzF as [->|HzF]; [unfold in_range; cbn; lia|]. eapply block_in_range; [done|done|by apply HF].
    - apply Forall_forall. intros y Hy. eapply block_in_range; [done|done|by apply HF, HlF]. }
  { intros y Hy. specialize (Hl2 y Hy). destruct (HF y (HlF y Hy)) as (? & ? & ?), (Hap y b (HlF y Hy) HbIn); lia. }
  assert (∀ x, x ∈ A1 ++ A2 → x ∈ A1 ++ b :: A2) as HA12 by (intros x; rewrite !elem_of_app, elem_of_cons; tauto).
  assert (keeps (A1 ++ A2) (u_mem s) m') as Hk.
  { assert (∀ x, x ∈ A1 ++ A2 → block_in (base + 8) (u_brk s) x) as HAin by (apply Forall_forall; by apply Forall_app).
    eapply keeps_trans; eapply keeps_header; [exact Hs1| |exact Hs2|]; intros x Hx; destruct (HAin x Hx) as (? & ? & ?).
    - destruct (HbA x Hx); lia.
    - destruct HzF as [->|HzF]; [cbn; lia|]. destruct (HF z HzF) as (? & ? & ?), (Hap z x HzF (HA12 x Hx)); lia. }
  assert (length F' ≤ S (length F))%nat as Hlen.
  { apply (f_equal length) in E, EF. rewrite length_app in E, EF. cbn [length] in E, EF.
    pose proof (put_front_length b l2). pose proof (put_front_length z (put_front b l2)). lia. }
  exists F', m', z.1. split_and!; [| |done|done|done].
  - unfold free. replace (hadd (b.1 + 8) (-1)) with b.1 by (unfold hadd, SIZEOF_HEADER; rewrite u32_small; lia).
    rewrite <- Hfp. erewrite free_search_more; [cbn; by rewrite Hrun| |].
    + apply (free_search_spec s b.1 l1 z l2 base); try done; try (by rewrite <- E). lia.
    + rewrite <- E. cbn [length]. unfold turns. lia.
  - split; cbn [u_mem u_brk u_freep set_u_freep set_u_mem]; try done.
    + by rewrite <- EF.
    + destruct (put_front_cons z (put_front b l2)) as (k & r & Ek & _). exists (z.1, k). split; [|done].
      rewrite <- EF, Ek. apply elem_of_app. right. left.
    + by apply Forall_app.
    + intros x Hx. rewrite (keeps_size _ _ _ _ Hk) by (done || (rewrite Forall_forall in HA1, HA2;
        apply elem_of_app in Hx as [Hx|Hx]; [destruct (HA1 x Hx) as (? & ? & ?)|destruct (HA2 x Hx) as (? & ? & ?)]; lia)).
      by apply Hsz, HA12.
    + intros x y Hx Hy. apply (Hapart y); [|by apply HbA| |done].
      * rewrite Forall_forall in HA1, HA2. apply elem_of_app in Hy as [Hy|Hy]; [destruct (HA1 y Hy) as (? & ? & ?)|destruct (HA2 y Hy) as (? & ? & ?)]; lia.
      * intros w Hw. by apply Hap, HA12.
Qed.

(** ** The walk of [malloc] *)

Definition last_addr (pr : Z) (l : list block) : Z := default pr (fst <$> last l).

Lemma last_addr_cons pr x l : last_addr pr (x :: l) = last_addr x.1 l.
Proof. unfold last_addr. rewrite last_cons. by destruct (last l). Qed.

Lemma last_addr_app pr l1 l2 : last_addr pr (l1 ++ l2) = last_addr (last_addr pr l1) l2.
Proof. revert pr. induction l1 as [|x l1 IH]; intros pr; [done|]. cbn [app]. by rewrite !last_addr_cons, IH. Qed.

Lemma last_addr_default pr pr' l : l ≠ [] → last_addr pr l = last_addr pr' l.
Proof. destruct l as [|x l]; [done|]. by rewrite !last_addr_cons. Qed.

Lemma malloc_loop_more fuel fuel' n pr p s r :
  malloc_loop fuel n pr p s = Some r → (fuel ≤ fuel')%nat → malloc_loop fuel' n pr p s = Some r.
Proof.
  revert fuel' pr p s. induction fuel as [|fuel IH]; intros fuel' pr p s; [done|]. destruct fuel' as [|fuel']; [lia|].
  cbn [malloc_loop]. intros H Hf. destruct (n <=? hsize s p); [done|]. destruct (p =? u_freep s); [|apply IH; [done|lia]].
  destruct (morecore n s) as [[p' s']|]; [|done]. cbn in *. destruct (p' =? 0); [done|]. apply IH; [done|lia].
Qed.

(** Blocks that are too small. *)
Lemma malloc_skip fuel n pr s seg rest nx :
  chain (u_mem s) (seg ++ rest) nx → (∀ x, x ∈ seg → x.2 < n ∧ x.1 ≠ u_freep s) →
  malloc_loop (length seg + fuel) n pr (first_addr (seg ++ rest) nx) s =
  malloc_loop fuel n (last_addr pr seg) (first_addr rest nx) s.
Proof.
  revert pr. induction seg as [|x seg IH]; intros pr; [done|]. cbn [app chain length Nat.add malloc_loop first_addr].
  intros (H1 & H2 & Hc) Hx. destruct (Hx x ltac:(left)) as [Hs Hf]. unfold hsize, hptr. rewrite H1, H2.
  rewrite (proj2 (Z.leb_gt n x.2)), (proj2 (Z.eqb_neq x.1 (u_freep s))) by done. rewrite last_addr_cons.
  apply IH; [done|]. intros; apply Hx; by right.
Qed.

Lemma first_fit n (l : list block) :
  (∀ x, x ∈ l → x.2 < n) ∨ ∃ d y e, l = d ++ y :: e ∧ n ≤ y.2 ∧ ∀ x, x ∈ d → x.2 < n.
Proof.
  induction l as [|x l [IH|(d & y & e & -> & Hy & Hd)]].
  - left. intros x Hx. by apply not_elem_of_nil in Hx.
  - destruct (Z.lt_ge_cases x.2 n).
    + left. intros y [->|Hy]%elem_of_cons; auto.
    + right. exists [], x, l. split; [done|]. split; [done|]. intros y Hy. by apply not_elem_of_nil in Hy.
  - right. destruct (Z.lt_ge_cases x.2 n).
    + exists (x :: d), y, e. split; [done|]. split; [done|]. intros w [->|Hw]%elem_of_cons; auto.
    + exists [], x, (d ++ y :: e). split; [done|]. split; [done|]. intros w Hw. by apply not_elem_of_nil in Hw.
Qed.

(** The list seen from the block [freep] points to. *)
Lemma heap_at_freep s F A :
  heap_ok s F A →
  ∃ l1 f l2, (base, 0) :: F = l1 ++ f :: l2 ∧ f.1 = u_freep s ∧ hptr s (u_freep s) = first_addr l2 base ∧ hsize s f.1 = f.2 ∧
    chain (u_mem s) l2 base ∧ chain (u_mem s) (l1 ++ f :: l2) base ∧ (∀ x, x ∈ l1 ∨ x ∈ l2 → x.1 ≠ u_freep s).
Proof.
  intros Hh. destruct (ho_freep _ _ _ Hh) as (f & Hf & Hfp). apply list_elem_of_split in Hf as (l1 & l2 & E).
  pose proof (ho_chain _ _ _ Hh) as Hc. pose proof (ho_ordered _ _ _ Hh) as Ho. rewrite E in Hc, Ho. exists l1, f, l2.
  pose proof Hc as [_ (H1 & H2 & H3)]%chain_app. rewrite <- Hfp. split_and!; try done.
  apply ordered_app in Ho as (_ & [_ Ho2]%ordered_cons & Ho12).
  intros x [Hx|Hx]; [destruct (Ho12 x f Hx ltac:(left))|destruct (Ho2 x Hx)]; lia.
Qed.

(** If a block is large enough, the first one after [freep] is taken. *)
Lemma malloc_fits s F A n w :
  heap_ok s F A → 1 ≤ n → w ∈ F → n ≤ w.2 →
  ∃ p y q, (base, 0) :: F = p ++ y :: q ∧ p ≠ [] ∧ n ≤ y.2 ∧
    malloc_loop (length F + 2) n (u_freep s) (hptr s (u_freep s)) s = Some (take_block n (last_addr base p) y.1 s).
Proof.
  intros Hh Hn Hw Hwn. destruct (heap_at_freep s F A Hh) as (l1 & f & l2 & E & Hf & Hp & Hfs & Hc2 & Hc & Hne). rewrite Hp.
  assert (length l1 + length l2 = length F)%nat as Hlen.
  { apply (f_equal length) in E. rewrite length_app in E. cbn in E. lia. }
  assert (∀ fuel pr y, hsize s y.1 = y.2 → n ≤ y.2 → malloc_loop (S fuel) n pr y.1 s = Some (take_block n pr y.1 s)) as Htake.
  { intros fuel pr y Hy Hyn. cbn [malloc_loop]. by rewrite Hy, (proj2 (Z.leb_le n y.2)). }
  destruct (first_fit n l2) as [Hno2|(d & y & e & -> & Hy & Hd)]; cycle 1.
  { exists (l1 ++ f :: d), y, e. split; [by rewrite E, <- app_assoc|]. split; [by destruct l1|]. split; [done|].
    eapply malloc_loop_more; [rewrite (malloc_skip 1)|]; [|exact Hc2| |].
    - rewrite last_addr_app, last_addr_cons, Hf. apply Htake; [|done]. apply chain_app in Hc2 as [_ (_ & Hs & _)]. exact Hs.
    - intros x Hx. split; [by apply Hd|]. apply Hne. right. apply elem_of_app. by left.
    - rewrite length_app in Hlen. cbn in Hlen. lia. }
  assert (∀ fuel pr, malloc_loop (length l2 + fuel) n pr (first_addr l2 base) s =
    malloc_loop fuel n (last_addr pr l2) (first_addr (l1 ++ f :: l2) base) s) as Hskip.
  { intros fuel pr. pose proof (malloc_skip fuel n pr s l2 [] base) as Hs. rewrite app_nil_r in Hs. rewrite Hs; [by rewrite <- E|done|].
    intros x Hx. split; [by apply Hno2|]. apply Hne. by right. }
  destruct (first_fit n l1) as [Hno1|(c & y & e & -> & Hy & Hd)]; cycle 1.
  { exists c, y, (e ++ f :: l2). rewrite <- app_assoc in E, Hc, Hskip. assert (c ≠ []) as Hc0.
    { intros ->. injection E as <- _. cbn in Hy. lia. }
    split; [exact E|]. split; [done|]. split; [done|]. eapply malloc_loop_more.
    - rewrite Hskip. cbn [app] in *. rewrite (malloc_skip 1); [|exact Hc|].
      + rewrite (last_addr_default _ base) by done. apply Htake; [|done]. apply chain_app in Hc as [_ (_ & Hs & _)]. exact Hs.
      + intros x Hx. split; [by apply Hd|]. apply Hne. left. apply elem_of_app. by left.
    - rewrite length_app in Hlen. cbn in Hlen. lia. }
  assert (l1 ≠ []) as Hl1.
  { intros ->. injection E as _ ->. specialize (Hno2 w Hw). lia. }
  assert (w = f) as ->.
  { assert (w ∈ (base, 0) :: F) as Hw' by (by right). rewrite E in Hw'. apply elem_of_app in Hw' as [Hw'|[Hw'|Hw']%elem_of_cons];
      [specialize (Hno1 w Hw'); lia|done|specialize (Hno2 w Hw'); lia]. }
  exists l1, f, l2. split_and!; try done. eapply malloc_loop_more.
  - rewrite Hskip, (malloc_skip 1); [|exact Hc|].
    + rewrite (last_addr_default _ base) by done. by apply Htake.
    + intros x Hx. split; [by apply Hno1|]. apply Hne. by left.
  - lia.
Qed.

(** If none is, the walk comes back to [freep] and asks for memory. *)
Lemma malloc_none fuel s F A n :
  heap_ok s F A → 1 ≤ n → (∀ x, x ∈ F → x.2 < n) →
  malloc_loop (length F + S fuel) n (u_freep s) (hptr s (u_freep s)) s =
  ('(p, s) ← morecore n s; if p =? 0 then Some (0, s) else malloc_loop fuel n p (hptr s p) s).
Proof.
  intros Hh Hn Hno. destruct (heap_at_freep s F A Hh) as (l1 & f & l2 & E & Hf & Hp & Hfs & Hc2 & Hc & Hne). rewrite Hp.
  assert (length l1 + length l2 = length F)%nat as Hlen.
  { apply (f_equal length) in E. rewrite length_app in E. cbn in E. lia. }
  assert (∀ x, x ∈ l1 ++ f :: l2 → x.2 < n) as Hall.
  { rewrite <- E. intros x [->|Hx]%elem_of_cons; [cbn; lia|by apply Hno]. }
  replace (length F + S fuel)%nat with (length l2 + (length l1 + S fuel))%nat by lia.
  pose proof (malloc_skip (length l1 + S fuel) n (u_freep s) s l2 [] base) as Hs. rewrite app_nil_r in Hs. rewrite Hs; [|done|].
  2: { intros x Hx. split; [apply Hall; apply elem_of_app; right; by right|]. apply Hne. by right. }
  change (first_addr [] base) with (first_addr ((base, 0) :: F) base). rewrite E, malloc_skip; [|done|].
  2: { intros x Hx. split; [apply Hall; apply elem_of_app; by left|]. apply Hne. by left. }
  cbn [malloc_loop first_addr]. rewrite Hfs, Hf, Z.eqb_refl, (proj2 (Z.leb_gt n f.2)); [done|].
  apply Hall. apply elem_of_app. right. left.
Qed.

(** ** Taking a block *)

Lemma ordpairs_cons x l : ForallOrdPairs apart l → (∀ y, y ∈ l → apart x y) → ForallOrdPairs apart (x :: l).
Proof. intros Hl Hx. constructor; [by apply Forall_forall|done]. Qed.

(** Removing a whole block from the list. *)
Lemma unlink_chain m p0 w y q nx :
  chain m (p0 ++ w :: y :: q) nx → ordered (p0 ++ w :: y :: q) → 0 ≤ first_addr q nx < 4294967296 →
  chain (st32 m w.1 (first_addr q nx)) (p0 ++ w :: q) nx.
Proof.
  intros [H1 (_ & H2 & _ & _ & H3)]%chain_app (Ho1 & [Ho2 Hw]%ordered_cons & Ho12)%ordered_app Hq.
  apply chain_app. split.
  - eapply chain_frame; [apply (same_but_ptr w.1)| |exact H1]. intros x Hx. left. destruct (Ho12 x w Hx ltac:(left)). lia.
  - cbn [chain]. rewrite ld32_st32_eq, header_apart_ptr. split_and!; [by apply u32_small|done|].
    eapply chain_frame; [apply (same_but_ptr w.1)| |exact H3]. intros x Hx. right. destruct (Hw x ltac:(by right)). lia.
Qed.

(** Cutting a block short. *)
Lemma shrink_chain m p y q k nx :
  chain m (p ++ y :: q) nx → ordered (p ++ y :: q) → 0 ≤ k < 4294967296 → chain (st32 m (y.1 + 4) k) (p ++ (y.1, k) :: q) nx.
Proof.
  intros [H1 (H2 & _ & H3)]%chain_app (Ho1 & [Ho2 Hy]%ordered_cons & Ho12)%ordered_app Hk. apply chain_app. split.
  - eapply chain_frame; [apply (same_but_size y.1)| |exact H1]. intros x Hx. left. destruct (Ho12 x y Hx ltac:(left)). lia.
  - cbn [chain fst snd]. rewrite header_apart_size, ld32_st32_eq. split_and!; [done|by apply u32_small|].
    eapply chain_frame; [apply (same_but_size y.1)| |exact H3]. intros x Hx. right. destruct (Hy x Hx). lia.
Qed.

Lemma split_base F (p q : list block) y : (base, 0) :: F = p ++ y :: q → p ≠ [] → ∃ p', p = (base, 0) :: p' ∧ F = p' ++ y :: q.
Proof. intros E Hp. destruct p as [|x p']; [done|]. injection E as <- ->. by exists p'. Qed.

Lemma ordered_shrink p y q k : 0 ≤ k ≤ y.2 → ordered (p ++ y :: q) → ordered (p ++ (y.1, k) :: q).
Proof.
  intros Hk (Ho1 & [Ho2 Hy]%ordered_cons & Ho12)%ordered_app. apply ordered_app. split_and!; [done| |].
  - apply ordered_cons. split; [done|]. intros x Hx. destruct (Hy x Hx). split; cbn [fst snd]; lia.
  - intros x z Hx [->|Hz]%elem_of_cons; [by destruct (Ho12 x y Hx ltac:(left))|]. apply Ho12; [done|by right].
Qed.

Lemma ordered_remove p y q : ordered (p ++ y :: q) → ordered (p ++ q).
Proof.
  intros (Ho1 & [Ho2 Hy]%ordered_cons & Ho12)%ordered_app. apply ordered_app. split_and!; [done|done|].
  intros x z Hx Hz. apply Ho12; [done|by right].
Qed.

(** The heap after part [b] of the free block [y] was taken and [ys] is left of it. *)
Lemma taken_heap s F A p' y q b ys m' pr :
  heap_ok s F A → F = p' ++ y :: q → chain m' ((base, 0) :: p' ++ ys ++ q) base → ordered ((base, 0) :: p' ++ ys ++ q) →
  (∃ f, f ∈ (base, 0) :: p' ∧ f.1 = pr) → block_in y.1 (y.1 + 8 * y.2) b →
  (∀ z, z ∈ ys → block_in y.1 (y.1 + 8 * y.2) z ∧ apart z b) → keeps A (u_mem s) m' → ld32 m' (b.1 + 4) = b.2 →
  heap_ok (set_u_freep pr (set_u_mem m' s)) (p' ++ ys ++ q) (b :: A).
Proof.
  intros [(B1 & B2 & B3) Hc Ho Hf HF HA Hsz Hap Hpairs] -> Hc' Ho' (f & Hf1 & Hf2) Hb Hys Hk Hbs.
  rewrite Forall_forall in HF, HA.
  assert (block_in (base + 8) (u_brk s) y) as (Y1 & Y2 & Y3) by (apply HF; apply elem_of_app; right; left).
  destruct Hb as (Hb1 & Hb2 & Hb3). apply ordered_cons in Ho as [(Ho1 & [Ho2 Hy]%ordered_cons & Ho12)%ordered_app _].
  assert (∀ z, z ∈ p' ++ ys ++ q → z ∈ ys ∨ (z ∈ p' ++ y :: q ∧ apart z y)) as Hcase.
  { intros z. rewrite !elem_of_app. intros [Hz|[Hz|Hz]]; [|by left|]; right; (split; [rewrite ?elem_of_cons; tauto|]).
    - left. destruct (Ho12 z y Hz ltac:(left)). lia.
    - right. destruct (Hy z Hz). lia. }
  assert (y ∈ p' ++ y :: q) as HyF by (apply elem_of_app; right; left).
  split; cbn [u_mem u_brk u_freep set_u_freep set_u_mem]; try done.
  - exists f. split; [|done]. rewrite app_comm_cons. apply elem_of_app. by left.
  - apply Forall_forall. intros z [Hz|[Hz _]]%Hcase; [|by apply HF]. destruct (Hys z Hz) as [(? & ? & ?) _]. split_and!; lia.
  - apply Forall_cons. split; [split_and!; lia|by apply Forall_forall].
  - intros x [->|Hx]%elem_of_cons; [done|]. destruct (HA x Hx) as (? & ? & ?). rewrite (keeps_size A (u_mem s)) by (done || lia). by apply Hsz.
  - intros x z Hx [->|Hz]%elem_of_cons.
    + apply Hcase in Hx as [Hx|[Hx Hxy]]; [by apply Hys|]. destruct (HF x Hx) as (? & ? & ?). unfold apart in *. lia.
    + apply Hcase in Hx as [Hx|[Hx _]]; [|by apply Hap]. destruct (Hys x Hx) as [(? & ? & ?) _], (HA z Hz) as (? & ? & ?).
      pose proof (Hap y z HyF Hz). unfold apart in *. lia.
  - apply ordpairs_cons; [done|]. intros z Hz. destruct (HA z Hz) as (? & ? & ?). pose proof (Hap y z HyF Hz). unfold apart in *. lia.
Qed.

(** The block before [y] in the list is not in use. *)
Lemma before_free s F A p' y q w :
  heap_ok s F A → F = p' ++ y :: q → w ∈ (base, 0) :: p' → ∀ x, x ∈ A → x.1 + 8 * x.2 ≤ w.1 ∨ w.1 + 8 ≤ x.1.
Proof.
  intros Hh EF Hw x Hx. pose proof (ho_used _ _ _ Hh) as HA. pose proof (ho_free _ _ _ Hh) as HF.
  rewrite Forall_forall in HA, HF. destruct (HA x Hx) as (? & ? & ?). apply elem_of_cons in Hw as [->|Hw]; [cbn; lia|].
  assert (w ∈ F) as HwF by (rewrite EF; apply elem_of_app; by left).
  destruct (HF w HwF) as (? & ? & ?), (ho_apart _ _ _ Hh w x HwF Hx); lia.
Qed.

Lemma last_addr_in (x : block) l : ∃ p0 w, x :: l = p0 ++ [w] ∧ w ∈ x :: l ∧ last_addr base (x :: l) = w.1.
Proof.
  destruct (exists_last (l := x :: l)) as (p0 & w & E); [done|]. exists p0, w. split; [done|]. rewrite E.
  split; [apply elem_of_app; right; left|]. by rewrite last_addr_app.
Qed.

(** A block of the size asked for is taken out of the list. *)
Lemma take_whole s F A p' y q :
  heap_ok s F A → F = p' ++ y :: q → let pr := last_addr base ((base, 0) :: p') in
  ∃ m', take_block y.2 pr y.1 s = (y.1 + 8, set_u_freep pr (set_u_mem m' s)) ∧
    heap_ok (set_u_freep pr (set_u_mem m' s)) (p' ++ q) (y :: A) ∧ keeps A (u_mem s) m'.
Proof.
  intros Hh EF pr. pose proof (ho_chain _ _ _ Hh) as Hc. pose proof (ho_ordered _ _ _ Hh) as Ho. rewrite EF in Hc, Ho.
  pose proof (ho_base _ _ _ Hh) as (B1 & B2 & B3). pose proof (ho_free _ _ _ Hh) as HF. rewrite Forall_forall in HF.
  destruct (HF y) as (Y1 & Y2 & Y3); [rewrite EF; apply elem_of_app; right; left|].
  destruct (last_addr_in (base, 0) p') as (p0 & w & Ew & Hw & Hlast). fold pr in Hlast.
  rewrite app_comm_cons in Hc, Ho. pose proof Hc as [_ (Hy1 & Hy2 & _)]%chain_app.
  set (m' := st32 (u_mem s) w.1 (first_addr q base)). exists m'.
  assert (keeps A (u_mem s) m') as Hk.
  { apply (keeps_header A w.1); [apply same_but_ptr|]. by eapply before_free. }
  assert (w.1 + 8 ≤ y.1) as Hwy.
  { apply ordered_app in Ho as (_ & _ & Ho). destruct (Ho w y Hw ltac:(left)). lia. }
  split; [|split; [|done]].
  - unfold take_block. replace (hsize s y.1) with y.2 by (symmetry; exact Hy2). rewrite Z.eqb_refl. unfold hptr. rewrite Hy1, Hlast.
    unfold hadd, SIZEOF_HEADER. rewrite u32_small by lia. done.
  - apply (taken_heap s F A p' y q y [] m' pr); try done; cbn [app].
    + rewrite app_comm_cons, Ew, <- app_assoc. rewrite Ew, <- app_assoc in Hc, Ho. cbn [app] in *.
      apply unlink_chain with y; [done|done|]. rewrite <- Hy1. apply ld32_range.
    + rewrite app_comm_cons. by apply ordered_remove with y.
    + by exists w.
    + intros z Hz. by apply not_elem_of_nil in Hz.
    + unfold m'. rewrite ld32_st32_ne by lia. done.
Qed.

(** Of a larger block the upper end is taken. *)
Lemma take_part s F A p' y q n :
  heap_ok s F A → F = p' ++ y :: q → 1 ≤ n < y.2 → let pr := last_addr base ((base, 0) :: p') in let b := (y.1 + 8 * (y.2 - n), n) in
  ∃ m', take_block n pr y.1 s = (b.1 + 8, set_u_freep pr (set_u_mem m' s)) ∧
    heap_ok (set_u_freep pr (set_u_mem m' s)) (p' ++ (y.1, y.2 - n) :: q) (b :: A) ∧ keeps A (u_mem s) m'.
Proof.
  intros Hh EF Hn pr b. pose proof (ho_chain _ _ _ Hh) as Hc. pose proof (ho_ordered _ _ _ Hh) as Ho. rewrite EF in Hc, Ho.
  pose proof (ho_base _ _ _ Hh) as (B1 & B2 & B3). pose proof (ho_free _ _ _ Hh) as HF. rewrite Forall_forall in HF.
  assert (y ∈ F) as HyF by (rewrite EF; apply elem_of_app; right; left). destruct (HF y HyF) as (Y1 & Y2 & Y3).
  destruct (last_addr_in (base, 0) p') as (p0 & w & Ew & Hw & Hlast). fold pr in Hlast.
  rewrite app_comm_cons in Hc, Ho. pose proof Hc as [_ (Hy1 & Hy2 & _)]%chain_app.
  set (m1 := st32 (u_mem s) (y.1 + 4) (y.2 - n)). set (m' := st32 m1 (b.1 + 4) n). exists m'.
  pose proof (ho_used _ _ _ Hh) as HA. rewrite Forall_forall in HA.
  assert (same_but y.1 (u_mem s) m1) as S1 by apply same_but_size. assert (same_but b.1 m1 m') as S2 by apply same_but_size.
  assert (keeps A (u_mem s) m') as Hk.
  { apply keeps_trans with m1; eapply keeps_header; [exact S1| |exact S2|]; intros x Hx; destruct (HA x Hx) as (? & ? & ?);
      pose proof (ho_apart _ _ _ Hh y x HyF Hx) as Hyx; unfold apart in Hyx; unfold b; cbn [fst]; lia. }
  split; [|split; [|done]].
  - unfold take_block. replace (hsize s y.1) with y.2 by (symmetry; exact Hy2). rewrite (proj2 (Z.eqb_neq _ _)) by lia.
    rewrite (u32_small (y.2 - n)) by lia. unfold set_hsize, hsize, set_u_freep, set_u_mem. cbn [u_mem u_freep u_brk u_grant].
    rewrite ld32_st32_eq, (u32_small (y.2 - n)) by lia. replace (hadd y.1 (y.2 - n)) with b.1; [|unfold hadd, SIZEOF_HEADER, b; cbn; rewrite u32_small; lia].
    replace (hadd b.1 1) with (b.1 + 8); [done|]. unfold hadd, SIZEOF_HEADER, b; cbn. rewrite u32_small; lia.
  - apply (taken_heap s F A p' y q b [(y.1, y.2 - n)] m' pr); try done; cbn [app].
    + rewrite app_comm_cons. eapply chain_frame; [exact S2| |apply shrink_chain; [exact Hc|exact Ho|lia]].
      apply ordered_app in Ho as (_ & [_ Ho2]%ordered_cons & Ho12). unfold b. cbn [fst].
      intros x [Hx|[->|Hx]%elem_of_cons]%elem_of_app; [destruct (Ho12 x y Hx ltac:(left))|cbn [fst]|destruct (Ho2 x Hx)]; lia.
    + rewrite app_comm_cons. apply ordered_shrink; [lia|done].
    + by exists w.
    + unfold b, block_in. cbn [fst snd]. lia.
    + intros z ->%list_elem_of_singleton. unfold b, block_in, apart. cbn [fst snd]. lia.
    + unfold m'. rewrite ld32_st32_eq. cbn. apply u32_small. lia.
Qed.

Lemma take_run s F A p y q n :
  heap_ok s F A → (base, 0) :: F = p ++ y :: q → p ≠ [] → 1 ≤ n ≤ y.2 →
  ∃ F' a m' pr, take_block n (last_addr base p) y.1 s = (a + 8, set_u_freep pr (set_u_mem m' s)) ∧
    heap_ok (set_u_freep pr (set_u_mem m' s)) F' ((a, n) :: A) ∧ keeps A (u_mem s) m' ∧
    (∀ x, covers F x ↔ covers F' x ∨ a ≤ x < a + 8 * n).
Proof.
  intros Hh E Hp Hn. destruct (split_base _ _ _ _ E Hp) as (p' & -> & EF). destruct (decide (n = y.2)) as [->|Hne].
  - destruct (take_whole s F A p' y q Hh EF) as (m' & Hrun & Hh' & Hk). do 4 eexists. split; [exact Hrun|].
    split; [destruct y; exact Hh'|]. split; [done|]. intros x. rewrite EF, !covers_app, covers_cons. tauto.
  - destruct (take_part s F A p' y q n Hh EF ltac:(lia)) as (m' & Hrun & Hh' & Hk). do 4 eexists. split; [exact Hrun|].
    split; [exact Hh'|]. split; [done|]. intros x. rewrite EF, !covers_app, !covers_cons. cbn [fst snd].
    assert (y.1 ≤ x < y.1 + 8 * y.2 ↔ y.1 ≤ x < y.1 + 8 * (y.2 - n) ∨ y.1 + 8 * (y.2 - n) ≤ x < y.1 + 8 * (y.2 - n) + 8 * n) by lia. tauto.
Qed.

(** ** Asking for memory *)

Lemma ordered_trichotomy l x y : ordered l → x ∈ l → y ∈ l → x = y ∨ node_lt x y ∨ node_lt y x.
Proof.
  induction l as [|w l IH]; [intros _ Hx; by apply not_elem_of_nil in Hx|]. intros [Ho Hw]%ordered_cons.
  intros [->|Hx]%elem_of_cons [->|Hy]%elem_of_cons; auto.
Qed.

(** A stretch of free addresses lies in one block. *)
Lemma covers_one s F A a n :
  heap_ok s F A → 1 ≤ n → (∀ x, a ≤ x < a + 8 * n → covers F x) → ∃ w, w ∈ F ∧ n ≤ w.2.
Proof.
  intros Hh Hn Hcov. destruct (Hcov a ltac:(lia)) as (w & Hw & Hwa). exists w. split; [done|].
  destruct (Z.lt_ge_cases w.2 n) as [Hlt|]; [|done]. exfalso.
  destruct (Hcov (w.1 + 8 * w.2) ltac:(lia)) as (v & Hv & Hva).
  destruct (ordered_trichotomy F w v) as [->|[[? ?]|[? ?]]]; try done; try lia.
  by apply (ordered_cons (base, 0)), (ho_ordered s F A).
Qed.

(** New memory is a block in use until it is freed. *)
Lemma heap_grow s F A nu brk g :
  heap_ok s F A → 1 ≤ nu → brk = u_brk s + 8 * nu → brk < 2147483648 →
  let s1 := set_hsize (u_brk s) nu (mk_ustate (u_mem s) (u_freep s) brk g) in
  heap_ok s1 F ((u_brk s, nu) :: A) ∧ keeps A (u_mem s) (u_mem s1).
Proof.
  intros [(B1 & B2 & B3) Hc Ho (f & Hf1 & Hf2) HF HA Hsz Hap Hpairs] Hnu -> Hbrk s1. rewrite Forall_forall in HF, HA.
  assert (keeps A (u_mem s) (u_mem s1)) as Hk.
  { apply (keeps_header A (u_brk s)); [apply same_but_size|]. intros x Hx. destruct (HA x Hx) as (? & ? & ?). lia. }
  split; [|done]. split; cbn [u_brk u_freep s1 set_hsize set_u_mem]; try done.
  - lia.
  - eapply chain_frame; [apply (same_but_size (u_brk s))| |exact Hc]. intros x [->|Hx]%elem_of_cons; cbn [fst]; [lia|].
    destruct (HF x Hx) as (? & ? & ?). lia.
  - by exists f.
  - apply Forall_forall. intros x Hx. destruct (HF x Hx) as (? & ? & ?). unfold block_in. lia.
  - apply Forall_cons. split; [unfold block_in; cbn [fst snd]; lia|]. apply Forall_forall. intros x Hx. destruct (HA x Hx) as (? & ? & ?).
    unfold block_in. lia.
  - intros x [->|Hx]%elem_of_cons; [cbn; rewrite ld32_st32_eq; apply u32_small; lia|]. destruct (HA x Hx) as (? & ? & ?).
    rewrite (keeps_size A (u_mem s)) by (done || lia). by apply Hsz.
  - intros x y Hx [->|Hy]%elem_of_cons; [|by apply Hap]. destruct (HF x Hx) as (? & ? & ?). unfold apart. cbn [fst snd]. lia.
  - apply ordpairs_cons; [done|]. intros x Hx. destruct (HA x Hx) as (? & ? & ?). unfold apart. cbn [fst snd]. lia.
Qed.

(** The kernel does not give the memory a request for [n] units takes. *)
Definition refused (n : Z) (s : ustate) : Prop :=
  head (u_grant s) ≠ Some true ∨ KERNBASE ≤ u_brk s + 8 * Z.max 4096 n.

Lemma sbrk_cases n s :
  1 ≤ n ≤ 134217729 → 0 ≤ u_brk s < 2147483648 → let nu := Z.max 4096 n in
  (refused n s ∧ sbrk (u32 (nu * SIZEOF_HEADER)) s = (4294967295, mk_ustate (u_mem s) (u_freep s) (u_brk s) (drop 1 (u_grant s)))) ∨
  (u_brk s + 8 * nu < 2147483648 ∧
   sbrk (u32 (nu * SIZEOF_HEADER)) s = (u_brk s, mk_ustate (u_mem s) (u_freep s) (u_brk s + 8 * nu) (drop 1 (u_grant s)))).
Proof.
  intros Hn Hb nu. unfold sbrk, SIZEOF_HEADER. rewrite s32_u32, s32_small by lia. rewrite (u32_small (u_brk s + nu * 8)) by lia.
  rewrite (proj2 (Z.ltb_lt _ _)) by lia. destruct (Z.leb_spec KERNBASE (u_brk s + nu * 8)) as [Hk|Hk]; cbn [orb].
  { left. split; [right; lia|done]. }
  destruct (head (u_grant s)) as [[]|] eqn:Eg; cbn [default negb].
  - right. change KERNBASE with 2147483648 in Hk. split; [lia|]. rewrite (proj2 (Z.ltb_ge _ _)) by lia. by rewrite (Z.mul_comm nu).
  - left. split; [left; congruence|done].
  - left. split; [left; congruence|done].
Qed.

Lemma morecore_run s F A n :
  heap_ok s F A → 1 ≤ n ≤ 134217729 →
  (refused n s ∧ morecore n s = Some (0, mk_ustate (u_mem s) (u_freep s) (u_brk s) (drop 1 (u_grant s)))) ∨
  ∃ F' s' w, morecore n s = Some (u_freep s', s') ∧ u_freep s' ≠ 0 ∧ heap_ok s' F' A ∧ keeps A (u_mem s) (u_mem s') ∧
    w ∈ F' ∧ n ≤ w.2 ∧ (length F' ≤ S (length F))%nat ∧ (∀ x, covers F' x ↔ covers F x ∨ u_brk s ≤ x < u_brk s').
Proof.
  intros Hh Hn. pose proof (ho_base _ _ _ Hh) as (B1 & B2 & B3). unfold morecore.
  replace (if n <? 4096 then 4096 else n) with (Z.max 4096 n) by (destruct (Z.ltb_spec n 4096); lia).
  destruct (sbrk_cases n s Hn ltac:(lia)) as [[Hr ->]|[Hk ->]]; [by left|]. right. rewrite (proj2 (Z.eqb_neq _ _)) by lia.
  set (s1 := set_hsize _ _ _).
  destruct (heap_grow s F A (Z.max 4096 n) (u_brk s + 8 * Z.max 4096 n) (drop 1 (u_grant s))) as [Hh1 Hk1]; try done; [lia|]. fold s1 in Hh1, Hk1.
  destruct (free_run s1 F [] (u_brk s, Z.max 4096 n) A Hh1) as (F' & m' & z & Hrun & Hh' & Hk' & Hcov & Hlen). cbn [fst snd app] in *.
  replace (hadd (u_brk s) 1) with (u_brk s + 8) by (unfold hadd, SIZEOF_HEADER; rewrite u32_small; lia). rewrite Hrun. cbn [mbind option_bind].
  destruct (covers_one _ _ _ (u_brk s) (Z.max 4096 n) Hh') as (w & Hw & Hwn); [lia|intros x Hx; apply Hcov; by right|].
  exists F', (set_u_freep z (set_u_mem m' s1)), w. split; [done|]. split_and!; [|done|by eapply keeps_trans|done|lia|done|exact Hcov].
  destruct (ho_freep _ _ _ Hh') as (f & Hf & <-). pose proof (ho_free _ _ _ Hh') as HF. rewrite Forall_forall in HF.
  apply elem_of_cons in Hf as [->|Hf]; [cbn; lia|]. destruct (HF f Hf) as (? & ? & ?). lia.
Qed.

(** ** The allocator *)

(** Also before the first call, when [freep] is 0. *)
Definition heap (s : ustate) (F A : list block) : Prop :=
  heap_ok s F A ∨ (u_freep s = 0 ∧ F = [] ∧ A = [] ∧ 0 < base ∧ base + 8 ≤ u_brk s < 2147483648).

Lemma malloc_start nbytes s F A :
  heap s F A →
  ∃ s0, heap_ok s0 F A ∧ keeps A (u_mem s) (u_mem s0) ∧ u_brk s0 = u_brk s ∧ u_grant s0 = u_grant s ∧
    malloc base nbytes s = malloc_loop (turns s0) (nunits_of nbytes) (u_freep s0) (hptr s0 (u_freep s0)) s0.
Proof.
  intros [Hh|(Hf & -> & -> & Hb & Hbrk)]; unfold malloc.
  - exists s. rewrite (proj2 (Z.eqb_neq _ _)); [done|]. destruct (ho_freep _ _ _ Hh) as (f & Hf & <-).
    destruct (ho_base _ _ _ Hh) as (? & ? & ?). pose proof (ho_free _ _ _ Hh) as HF. rewrite Forall_forall in HF.
    apply elem_of_cons in Hf as [->|Hf]; [cbn; lia|]. destruct (HF f Hf) as (? & ? & ?). lia.
  - rewrite Hf, Z.eqb_refl. set (s0 := set_hsize _ _ _). exists s0.
    split_and!; try done; [|intros x a Hx; by apply not_elem_of_nil in Hx].
    split; cbn [u_mem u_brk u_freep s0 set_hsize set_hptr set_u_mem set_u_freep]; try done.
    + cbn [chain first_addr fst snd]. rewrite header_apart_size, !ld32_st32_eq. split_and!; [apply u32_small; lia|done|done].
    + constructor; constructor.
    + exists (base, 0). split; [left|done].
    + intros x Hx. by apply not_elem_of_nil in Hx.
    + intros x y Hx. by apply not_elem_of_nil in Hx.
    + constructor.
Qed.

Lemma heap_ok_grant s F A g : heap_ok s F A → heap_ok (mk_ustate (u_mem s) (u_freep s) (u_brk s) g) F A.
Proof. intros []. by split. Qed.

Lemma malloc_run nbytes s F A n :
  heap s F A → nunits_of nbytes = n → 1 ≤ n ≤ 134217729 →
  ∃ p s', malloc base nbytes s = Some (p, s') ∧ keeps A (u_mem s) (u_mem s') ∧
    ((p = 0 ∧ refused n s ∧ heap_ok s' F A ∧ u_brk s' = u_brk s) ∨
     ∃ F', heap_ok s' F' ((p - 8, n) :: A) ∧
       ∀ x, covers F' x ∨ p - 8 ≤ x < p - 8 + 8 * n ↔ covers F x ∨ u_brk s ≤ x < u_brk s').
Proof.
  intros Hh Hnu Hn. destruct (malloc_start nbytes s F A Hh) as (s0 & Hh0 & Hk0 & Hb0 & Hg0 & ->). rewrite Hnu, <- Hb0.
  pose proof (heap_turns _ _ _ Hh0) as Hturns.
  assert (∀ fuel s1 F1 w, (length F1 + 2 ≤ fuel)%nat → heap_ok s1 F1 A → keeps A (u_mem s) (u_mem s1) → w ∈ F1 → n ≤ w.2 →
    (∀ x, covers F1 x ↔ covers F x ∨ u_brk s0 ≤ x < u_brk s1) →
    ∃ p s', malloc_loop fuel n (u_freep s1) (hptr s1 (u_freep s1)) s1 = Some (p, s') ∧ keeps A (u_mem s) (u_mem s') ∧
      ∃ F', heap_ok s' F' ((p - 8, n) :: A) ∧ ∀ x, covers F' x ∨ p - 8 ≤ x < p - 8 + 8 * n ↔ covers F x ∨ u_brk s0 ≤ x < u_brk s') as Hfound.
  { intros fuel s1 F1 w Hfuel Hh1 Hk1 Hw Hwn Hcov1.
    destruct (malloc_fits s1 F1 A n w) as (p & y & q & E & Hp & Hy & Hrun); try done; [lia|].
    destruct (take_run s1 F1 A p y q n) as (F' & a & m' & pr & Htk & Hh' & Hk' & Hcov'); try done; [lia|].
    eexists _, _. split; [eapply malloc_loop_more; [by rewrite Hrun, Htk|done]|]. split; [by eapply keeps_trans|].
    exists F'. rewrite Z.add_simpl_r. split; [done|]. intros x. cbn [u_brk set_u_freep set_u_mem]. rewrite <- Hcov1, Hcov'. tauto. }
  destruct (first_fit n F) as [Hno|(d & w & e & EF & Hw & _)].
  - replace (turns s0) with (length F + S (turns s0 - length F - 1))%nat by (unfold turns; lia).
    rewrite (malloc_none _ s0 F A) by (done || lia).
    destruct (morecore_run s0 F A n Hh0 Hn) as [[Hr ->]|(F1 & s1 & w & -> & Hf & Hh1 & Hk1 & Hw & Hwn & Hlen & Hcov)]; cbn [mbind option_bind].
    + eexists 0, _. split; [done|]. split; [done|]. left. split_and!; try done; [|by apply heap_ok_grant].
      unfold refused in *. by rewrite <- Hg0, <- Hb0.
    + rewrite (proj2 (Z.eqb_neq _ _)) by done. destruct (Hfound (turns s0 - length F - 1)%nat s1 F1 w) as (p & s' & Hrun & Hk' & HF'); try done.
      * unfold turns. lia.
      * by eapply keeps_trans.
      * exists p, s'. split; [done|]. split; [done|]. by right.
  - destruct (Hfound (turns s0) s0 F w) as (p & s' & Hrun & Hk' & HF'); try done.
    + unfold turns. lia.
    + rewrite EF. apply elem_of_app. right. left.
    + intros x. split; [tauto|]. intros [?|?]; [done|lia].
    + exists p, s'. split; [done|]. split; [done|]. by right.
Qed.
End heap.

Section claims.
Context (base : Z).

(** C22: [malloc] of up to 2^30 bytes always ends.  It returns a block that is
    large enough, by less than two headers, inside the memory of the process and
    apart from every block in use and every free one, whose contents are left
    alone; free addresses and the new block together are what was free before and
    what the kernel added.  It returns 0 only when no free block is large enough
    and the kernel refuses memory, and then nothing changes. *)
Theorem malloc_allocates nbytes s F A :
  heap base s F A → 0 ≤ nbytes ≤ 1073741824 →
  ∃ p s', malloc base nbytes s = Some (p, s') ∧ keeps A (u_mem s) (u_mem s') ∧
    ((p = 0 ∧ refused (nunits_of nbytes) s ∧ heap_ok base s' F A ∧ u_brk s' = u_brk s) ∨
     ∃ F' n, nbytes + 8 ≤ 8 * n < nbytes + 16 ∧ heap_ok base s' F' ((p - 8, n) :: A) ∧
       ∀ x, covers F' x ∨ p - 8 ≤ x < p - 8 + 8 * n ↔ covers F x ∨ u_brk s ≤ x < u_brk s').
Proof.
  intros Hh Hn. assert (nunits_of nbytes = (nbytes + 7) / 8 + 1) as E.
  { unfold nunits_of, SIZEOF_HEADER. rewrite (u32_small (nbytes + 8 - 1)) by lia. rewrite u32_small; lia_mod. }
  destruct (malloc_run base nbytes s F A _ Hh E) as (p & s' & Hrun & Hk & H); [lia_mod|].
  exists p, s'. split; [done|]. split; [done|]. rewrite E. destruct H as [H|(F' & H1 & H2)]; [by left|right].
  exists F', ((nbytes + 7) / 8 + 1). split; [lia_mod|done].
Qed.

(** [free] of a block in use always ends and makes exactly its addresses
    free; neighbouring free blocks are joined, so that no two free blocks touch,
    and the contents of the other blocks in use are left alone. *)
Theorem free_releases s F A1 b A2 :
  heap_ok base s F (A1 ++ b :: A2) →
  ∃ F' s', free (b.1 + 8) s = Some s' ∧ heap_ok base s' F' (A1 ++ A2) ∧ u_brk s' = u_brk s ∧
    keeps (A1 ++ A2) (u_mem s) (u_mem s') ∧
    (∀ a, covers F' a ↔ covers F a ∨ b.1 ≤ a < b.1 + 8 * b.2) ∧
    (∀ x y, x ∈ F' → y ∈ F' → x.1 + 8 * x.2 ≠ y.1).
Proof.
  intros Hh. destruct (free_run base s F A1 b A2 Hh) as (F' & m' & z & Hrun & Hh' & Hk & Hcov & _).
  exists F', (set_u_freep z (set_u_mem m' s)). split_and!; try done. intros x y Hx Hy E.
  destruct (ordered_trichotomy F' x y) as [->|[[? ?]|[? ?]]]; try done; try lia.
  - by apply (ordered_cons (base, 0)), (ho_ordered base _ _ _ Hh').
  - pose proof (ho_free _ _ _ _ Hh') as HF. rewrite Forall_forall in HF. destruct (HF y Hy) as (? & ? & ?). lia.
  - pose proof (ho_free _ _ _ _ Hh') as HF. rewrite Forall_forall in HF. destruct (HF x Hx) as (? & ? & ?), (HF y Hy) as (? & ? & ?). lia.
Qed.

(** The size asked for is rounded up in 32 bits: for the last seven sizes the
    sum wraps around, and the block has no room at all. *)
Lemma malloc_wraps nbytes s F A :
  heap base s F A → 4294967289 ≤ nbytes < 4294967296 →
  ∃ p s', malloc base nbytes s = Some (p, s') ∧ (p = 0 ∨ ∃ F', heap_ok base s' F' ((p - 8, 1) :: A)).
Proof.
  intros Hh Hn. destruct (malloc_run base nbytes s F A 1 Hh) as (p & s' & Hrun & _ & H); [|lia|].
  { unfold nunits_of, u32, SIZEOF_HEADER. lia_mod. }
  exists p, s'. split; [done|]. destruct H as [(H & _)|(F' & H & _)]; [by left|right; by exists F'].
Qed.
End claims.

(** The first call: the kernel gives 32768 bytes, the block is cut off their end. *)
Lemma malloc_allocates_witness :
  ∃ s', malloc 4000 100 (mk_ustate ∅ 0 12288 [true]) = Some (44952, s') ∧ keeps [] ∅ (u_mem s').
Proof.
  destruct (malloc_allocates 4000 100 (mk_ustate ∅ 0 12288 [true]) [] []) as (p & s' & Hrun & Hk & _).
  - right. split_and!; try reflexivity; done.
  - lia.
  - exists s'. split; [|exact Hk]. assert (p = 44952) as ->; [|exact Hrun].
    assert (fst <$> malloc 4000 100 (mk_ustate ∅ 0 12288 [true]) = Some 44952) as E by (vm_compute; reflexivity).
    rewrite Hrun in E. by injection E.
Defined.

(** A heap with one free block between two blocks in use. *)
Definition demo_heap : ustate :=
  mk_ustate (st32 (st32 (st32 (st32 (st32 (st32 ∅ 4000 8208) 4004 0) 8208 4000) 8212 1) 8196 2) 8220 3) 4000 12288 [].

Lemma demo_heap_ok : heap_ok 4000 demo_heap [(8208, 1)] [(8192, 2); (8216, 3)].
Proof.
  split; cbn [u_brk u_freep demo_heap]; try done.
  - repeat constructor; cbn; lia.
  - exists (4000, 0). split; [left|done].
  - repeat constructor; cbn; lia.
  - repeat constructor; cbn; lia.
  - intros x [->|[->|Hx%not_elem_of_nil]%elem_of_cons]%elem_of_cons; [vm_compute; reflexivity..|done].
  - intros x y ->%list_elem_of_singleton [->|[->|Hx%not_elem_of_nil]%elem_of_cons]%elem_of_cons; unfold apart; cbn; lia || done.
  - repeat constructor; cbn; unfold apart; cbn; lia.
Qed.

(** Freeing the upper block joins it with the free one. *)
Lemma free_releases_witness :
  ∃ F' s', free 8224 demo_heap = Some s' ∧ heap_ok 4000 s' F' [(8192, 2)] ∧ covers F' 8230.
Proof.
  destruct (free_releases 4000 demo_heap [(8208, 1)] [(8192, 2)] (8216, 3) []) as (F' & s' & Hrun & Hh & _ & _ & Hc & _).
  - exact demo_heap_ok.
  - exists F', s'. split; [exact Hrun|]. split; [exact Hh|]. apply Hc. right. cbn. lia.
Defined.
