(* ===== verification/Mkfs.v ===== *)
(** * The file-system builder ([mkfs.c])

    [mkfs] runs on the host and writes the image the kernel boots from.  The
    image is a map from block numbers to blocks; reading a block the image does
    not have, and a failed assertion, end the program ([None]).  Input and output
    of the host are assumed to succeed otherwise, and the host to be little
    endian.  A [struct dinode] is the record of the kernel's inodes, of which
    only the fields on the disk count. *)

From stdpp Require Import base numbers list gmap strings.
From S2P Require Import Prelude Mmu Hardware Memory Bytes Kernel Spinlock Kalloc Cprintf Vm Proc Sleeplock Blockdev Memide Bio Log Txn Fs FsBlocks FsData FsFiles FsDir.

(** ** Translated code *)

Definition NINODES : Z := 200.
Definition nbitmap : Z := FSSIZE / (BSIZE * 8) + 1.
Definition ninodeblocks : Z := NINODES / IPB + 1.
Definition nlog : Z := Z.of_nat LOGSIZE.
Definition nmeta : Z := 2 + nlog + ninodeblocks + nbitmap.
Definition nblocks : Z := FSSIZE - nmeta.

(** The globals of the program. *)
Record mkfs := mk_mkfs {
  img : gmap Z (list Z);
  img_sb : superblock;
  freeinode : Z;
  freeblock : Z
}.

Definition set_img (v : gmap Z (list Z)) (s : mkfs) : mkfs := mk_mkfs v (img_sb s) (freeinode s) (freeblock s).
Definition set_freeinode (v : Z) (s : mkfs) : mkfs := mk_mkfs (img s) (img_sb s) v (freeblock s).
Definition set_freeblock (v : Z) (s : mkfs) : mkfs := mk_mkfs (img s) (img_sb s) (freeinode s) v.

(** The value whose bytes in memory are those of [x] in Intel order. *)
Definition xshort (x : Z) : Z := get16 [u8 x; u8 (Z.shiftr x 8)] 0.
Definition xint (x : Z) : Z := get32 [u8 x; u8 (Z.shiftr x 8); u8 (Z.shiftr x 16); u8 (Z.shiftr x 24)] 0.

Definition wsect (sec : Z) (buf : list Z) (s : mkfs) : mkfs := set_img (<[sec := buf]> (img s)) s.
Definition rsect (sec : Z) (s : mkfs) : option (list Z) := img s !! sec.

Definition winode (inum : Z) (ip : inode) (s : mkfs) : option mkfs :=
  let bn := IBLOCK inum (img_sb s) in
  buf ← rsect bn s;
  Some (wsect bn (put_dinode buf inum ip) s).

(** The fields of the inode are read into [struct dinode]. *)
Definition dinode_slot (inum : Z) : inode := mk_inode ROOTDEV inum 0 (mk_sl false 0) false 0 0 0 0 0 (replicate 13 0).

Definition rinode (inum : Z) (s : mkfs) : option inode :=
  buf ← rsect (IBLOCK inum (img_sb s)) s;
  Some (load_dinode buf (dinode_slot inum)).

Definition mkfs_ialloc (type : Z) (s : mkfs) : option (Z * mkfs) :=
  let inum := freeinode s in
  let s := set_freeinode (u32 (inum + 1)) s in
  let din := set_i_size (xint 0) (set_i_nlink (xshort 1) (set_i_type (xshort type) (dinode_slot inum))) in
  s ← winode inum din s;
  Some (inum, s).

(** [for(i = 0; i < used; i++)] *)
Fixpoint mark_used (n : nat) (i : Z) (buf : list Z) : list Z :=
  match n with
  | O => buf
  | S n => mark_used n (i + 1) (set_bit buf i)
  end.

Definition mkfs_balloc (used : Z) (s : mkfs) : option mkfs :=
  if used <? BSIZE * 8 then
    Some (wsect (sb_bmapstart (img_sb s)) (mark_used (Z.to_nat used) 0 zero_block) s)
  else None.

(** [xint(freeblock++)] as the address [j] of the inode, if it has none. *)
Definition new_addr (j : nat) (din : inode) (s : mkfs) : inode * mkfs :=
  if xint (addr_at din j) =? 0 then
    (set_addr j (xint (freeblock s)) din, set_freeblock (u32 (freeblock s + 1)) s)
  else (din, s).

(** The entry for block [fbn] in the indirect block of the inode. *)
Definition indirect_addr (fbn : Z) (din : inode) (s : mkfs) : option (Z * inode * mkfs) :=
  let ind := xint (addr_at din (Z.to_nat NDIRECT)) in
  let j := (4 * Z.to_nat (fbn - NDIRECT))%nat in
  indirect ← rsect ind s;
  if get32 indirect j =? 0 then
    let indirect := put32 indirect j (xint (freeblock s)) in
    let s := wsect ind indirect (set_freeblock (u32 (freeblock s + 1)) s) in
    Some (xint (get32 indirect j), din, s)
  else Some (xint (get32 indirect j), din, s).

(** The block of the file that has number [fbn], allocated if need be. *)
Definition iappend_block (fbn : Z) (din : inode) (s : mkfs) : option (Z * inode * mkfs) :=
  if fbn <? NDIRECT then
    let '(din, s) := new_addr (Z.to_nat fbn) din s in
    Some (xint (addr_at din (Z.to_nat fbn)), din, s)
  else
    let '(din, s) := new_addr (Z.to_nat NDIRECT) din s in
    indirect_addr fbn din s.

(** [fuel] is at least the number of bytes left. *)
Fixpoint iappend_loop (fuel : nat) (p : list Z) (off : Z) (din : inode) (s : mkfs) : option (Z * inode * mkfs) :=
  match p with
  | [] => Some (off, din, s)
  | _ =>
      match fuel with
      | O => None
      | S fuel =>
          let fbn := off / BSIZE in
          if fbn <? MAXFILE then
            '(x, din, s) ← iappend_block fbn din s;
            let n1 := Z.min (Z.of_nat (length p)) ((fbn + 1) * BSIZE - off) in
            buf ← rsect x s;
            let s := wsect x (list_inserts (Z.to_nat (off - fbn * BSIZE)) (take (Z.to_nat n1) p) buf) s in
            iappend_loop fuel (drop (Z.to_nat n1) p) (off + n1) din s
          else None
      end
  end.

Definition iappend (inum : Z) (p : list Z) (s : mkfs) : option mkfs :=
  din ← rinode inum s;
  '(off, din, s) ← iappend_loop (length p) p (xint (i_size din)) din s;
  winode inum (set_i_size (xint off) din) s.

(** [strcpy] and [strncpy] into the zeroed name of a directory entry. *)
Definition name_bytes (name : list Z) : list Z := take DIRSIZ (name ++ replicate DIRSIZ 0).

Definition append_entry (dir inum : Z) (name : list Z) (s : mkfs) : option mkfs :=
  iappend dir (dirent_bytes (mk_de (xshort inum) (name_bytes name))) s.

Fixpoint append_chunks (inum : Z) (chunks : list (list Z)) (s : mkfs) : option mkfs :=
  match chunks with
  | [] => Some s
  | c :: chunks => s ← iappend inum c s; append_chunks inum chunks s
  end.

(** One file of the command line: its name and what [read] returns for it. *)
Definition add_file (f : list Z * list (list Z)) (s : mkfs) : option mkfs :=
  let '(name, chunks) := f in
  if bool_decide (SLASH ∈ name) then None
  else
    let name := match name with 95 :: name => name | _ => name end in
    '(inum, s) ← mkfs_ialloc T_FILE s;
    s ← append_entry ROOTINO inum name s;
    append_chunks inum chunks s.

Fixpoint add_files (fs : list (list Z * list (list Z))) (s : mkfs) : option mkfs :=
  match fs with
  | [] => Some s
  | f :: fs => s ← add_file f s; add_files fs s
  end.

Definition the_sb : superblock :=
  mk_sb (xint FSSIZE) (xint nblocks) (xint NINODES) (xint nlog) (xint 2) (xint (2 + nlog)) (xint (2 + nlog + ninodeblocks)).

Definition sb_bytes (sb : superblock) : list Z :=
  bytes32 (sb_size sb) ++ bytes32 (sb_nblocks sb) ++ bytes32 (sb_ninodes sb) ++ bytes32 (sb_nlog sb) ++
  bytes32 (sb_logstart sb) ++ bytes32 (sb_inodestart sb) ++ bytes32 (sb_bmapstart sb).

Fixpoint zero_sects (n : nat) (i : Z) (s : mkfs) : mkfs :=
  match n with
  | O => s
  | S n => zero_sects n (i + 1) (wsect i zero_block s)
  end.

(** The image before anything is put into it. *)
Definition mkfs_start : mkfs :=
  let s := mk_mkfs ∅ the_sb 1 nmeta in
  let s := zero_sects (Z.to_nat FSSIZE) 0 s in
  wsect 1 (list_inserts 0 (sb_bytes the_sb) zero_block) s.

(** The size of the root directory is rounded up to the next block. *)
Definition fix_root (s : mkfs) : option mkfs :=
  din ← rinode ROOTINO s;
  let off := xint (i_size din) in
  let off := u32 ((off / BSIZE + 1) * BSIZE) in
  winode ROOTINO (set_i_size (xint off) din) s.

Definition mkfs_main (files : list (list Z * list (list Z))) : option mkfs :=
  let s := mkfs_start in
  '(rootino, s) ← mkfs_ialloc T_DIR s;
  if rootino =? ROOTINO then
    s ← append_entry rootino rootino [46] s;
    s ← append_entry rootino rootino [46; 46] s;
    s ← add_files files s;
    s ← fix_root s;
    mkfs_balloc (freeblock s) s
  else None.

(** ** The image as the kernel sees it *)

Lemma xint_id x : 0 ≤ x < 4294967296 → xint x = x.
Proof.
  intros Hx. unfold xint, get32, byte_at. cbn. rewrite !u8_idem, !Z.shiftr_div_pow2 by lia. unfold u8. lia_mod.
Qed.

Lemma xshort_id x : 0 ≤ x < 65536 → xshort x = x.
Proof. intros Hx. unfold xshort, get16, byte_at. cbn. rewrite !u8_idem, !Z.shiftr_div_pow2 by lia. unfold u8. lia_mod. Qed.

(** A kernel with an empty cache and this disk. *)
Definition boot (s : mkfs) : K := set_k_sb (img_sb s) (set_k_bcache [] (K_demo (img s))).

Lemma view_boot s n : view (boot s) n = default zero_block (img s !! n).
Proof. done. Qed.

Lemma view_boot_some s n d : img s !! n = Some d → view (boot s) n = d.
Proof. intros E. by rewrite view_boot, E. Qed.

(** What holds of the image all the time: it has exactly the blocks of the file
    system, and those not handed out are zero. *)
Record image (s : mkfs) : Prop := {
  im_sb : img_sb s = the_sb;
  im_blocks b : 0 ≤ b < FSSIZE → ∃ d, img s !! b = Some d ∧ length d = 512%nat;
  im_free : nmeta ≤ freeblock s ≤ FSSIZE;
  im_zero b : freeblock s ≤ b < FSSIZE → img s !! b = Some zero_block
}.

(** The file of [x] has the blocks a file of [n] bytes needs, and they are its own. *)
Record file_blocks (s : mkfs) (x : inode) (n : Z) : Prop := {
  fb_wf : inode_wf x;
  fb_size : 0 ≤ n ≤ MAXFILE * BSIZE;
  fb_addr bn : block_addr (boot s) x bn ≠ 0 ↔ Z.of_nat bn * BSIZE < n;
  fb_ind : ind_addr x ≠ 0 ↔ NDIRECT * BSIZE < n;
  fb_nodup : NoDup (owned (boot s) x);
  fb_range b : b ∈ owned (boot s) x → nmeta ≤ b < freeblock s
}.

(** The number of blocks a file of [n] bytes occupies. *)
Definition blocks_of (n : Z) : Z := (n + BSIZE - 1) / BSIZE + (if NDIRECT * BSIZE <? n then 1 else 0).

(** A block is handed out as the value of slot [m]. *)
Lemma new_slot s x s' x' m :
  NoDup (owned (boot s) x) → (∀ b, b ∈ owned (boot s) x → nmeta ≤ b < freeblock s) → nmeta ≤ freeblock s →
  slots (boot s) x !! m = Some 0 → slots (boot s') x' = <[m := freeblock s]> (slots (boot s) x) →
  freeblock s' = freeblock s + 1 →
  NoDup (owned (boot s') x') ∧ (∀ b, b ∈ owned (boot s') x' ↔ b = freeblock s ∨ b ∈ owned (boot s) x) ∧
  (∀ b, b ∈ owned (boot s') x' → nmeta ≤ b < freeblock s').
Proof.
  intros Hnd Hr Hf Hm Hs Hf'. assert (freeblock s ≠ 0) as Ha by (change nmeta with 59 in *; lia).
  pose proof (owned_new (boot s) x (boot s') x' m (freeblock s) Hm Hs Ha) as Hp.
  assert (∀ b, b ∈ owned (boot s') x' ↔ b = freeblock s ∨ b ∈ owned (boot s) x) as Hin by (intros b; by rewrite Hp, elem_of_cons).
  split_and!; [|done|].
  - rewrite Hp. apply NoDup_cons. split; [|done]. intros Hb%Hr. lia.
  - intros b [->|Hb%Hr]%Hin; lia.
Qed.

(** ** A block for the next byte *)

(** From [s] and [x] to [s'] and [x'] the file got the block for byte [n]. *)
Record allotted (s : mkfs) (x : inode) (n a : Z) (s' : mkfs) (x' : inode) : Prop := {
  al_image : image s';
  al_blocks : file_blocks s' x' (n + 1);
  al_addr : a = block_addr (boot s') x' (Z.to_nat (n / BSIZE));
  al_fblock j : fblock (boot s') x' j = fblock (boot s) x j;
  al_owned b : b ∈ owned (boot s') x' → b ∈ owned (boot s) x ∨ freeblock s ≤ b;
  al_free : freeblock s' = freeblock s + (blocks_of (n + 1) - blocks_of n);
  al_frame b : b < freeblock s → b ∉ owned (boot s) x → img s' !! b = img s !! b;
  al_same : x' = set_i_addrs (i_addrs x') x;
  al_inodes : freeinode s' = freeinode s
}.

Lemma set_freeblock_image s v : image s → freeblock s ≤ v ≤ FSSIZE → image (set_freeblock v s).
Proof. intros [I1 I2 I3 I4] Hv. split; cbn; try done; [lia|]. intros b Hb. apply I4. lia. Qed.

Lemma slots_addr k x bn : slots k x !! S bn = addrs_of k x !! bn.
Proof. done. Qed.

Lemma addrs_of_lookup k x bn : inode_wf x → (bn < Z.to_nat MAXFILE)%nat → addrs_of k x !! bn = Some (block_addr k x bn).
Proof.
  intros Hx Hb. unfold block_addr. destruct (addrs_of k x !! bn) as [a|] eqn:E; [done|].
  apply lookup_ge_None_1 in E. rewrite length_addrs_of in E by done. lia.
Qed.

(** A file that has the block already. *)
Lemma allotted_have s x n :
  image s → file_blocks s x n → 0 < n < MAXFILE * BSIZE → n mod BSIZE ≠ 0 →
  allotted s x n (block_addr (boot s) x (Z.to_nat (n / BSIZE))) s x.
Proof.
  intros Hi [F1 F2 F3 F4 F5 F6] Hn Hm. change BSIZE with 512 in *. change NDIRECT with 12 in *. change MAXFILE with 140 in *.
  split; try done; [|by left| |by destruct x].
  - split; try done; change BSIZE with 512 in *; change NDIRECT with 12 in *; change MAXFILE with 140 in *.
    + lia.
    + intros bn. rewrite F3. lia_mod.
    + rewrite F4. lia_mod.
  - unfold blocks_of. change BSIZE with 512 in *. change NDIRECT with 12 in *.
    destruct (Z.ltb_spec (12 * 512) n), (Z.ltb_spec (12 * 512) (n + 1)); lia_mod.
Qed.

(** A new direct block. *)
Lemma allotted_direct s x n :
  image s → file_blocks s x n → 0 ≤ n < NDIRECT * BSIZE → n mod BSIZE = 0 → freeblock s < FSSIZE →
  allotted s x n (freeblock s) (set_freeblock (freeblock s + 1) s) (set_addr (Z.to_nat (n / BSIZE)) (freeblock s) x).
Proof.
  intros Hi [F1 F2 F3 F4 F5 F6] Hn Hm Hfree. set (bn := Z.to_nat (n / BSIZE)). set (a := freeblock s). set (s' := set_freeblock (a + 1) s).
  change BSIZE with 512 in *. change NDIRECT with 12 in *. change MAXFILE with 140 in *. change FSSIZE with 1000 in *.
  assert (bn < 12)%nat as Hbn by (unfold bn; lia_mod).
  pose proof (im_free _ Hi) as Hf. change nmeta with 59 in *. change FSSIZE with 1000 in Hf.
  assert (block_addr (boot s) x bn = 0) as H0.
  { destruct (decide (block_addr (boot s) x bn = 0)) as [|Hne]; [done|]. apply F3 in Hne. unfold bn in Hne. lia_mod. }
  assert (addrs_of (boot s') (set_addr bn a x) = <[bn := a]> (addrs_of (boot s) x)) as Ha.
  { rewrite addrs_of_direct by done. done. }
  assert (addrs_of (boot s) x !! bn = Some 0) as Hl by (rewrite <- H0; apply addrs_of_lookup; [done|change (Z.to_nat MAXFILE) with 140%nat; lia]).
  assert (slots (boot s') (set_addr bn a x) = <[S bn := a]> (slots (boot s) x)) as Hs.
  { unfold slots. rewrite Ha, ind_addr_direct by done. done. }
  destruct (new_slot s x s' (set_addr bn a x) (S bn)) as (N1 & N2 & N3); try done; [change nmeta with 59; lia|].
  assert (view (boot s') a = zero_block) as Hz.
  { apply view_boot_some. apply (im_zero _ Hi). change FSSIZE with 1000. unfold a. lia. }
  split.
  - apply set_freeblock_image; [done|]. change FSSIZE with 1000. unfold a. lia.
  - split; try done.
    + apply set_addr_wf; [done|unfold a; lia].
    + change BSIZE with 512. change MAXFILE with 140. lia.
    + intros j. change BSIZE with 512. unfold block_addr. rewrite Ha. destruct (decide (j = bn)) as [->|Hne].
      * rewrite list_lookup_insert_eq by (by eapply lookup_lt_Some). cbn. unfold bn. split; [lia_mod|unfold a; lia].
      * rewrite list_lookup_insert_ne by done. fold (block_addr (boot s) x j). rewrite F3. unfold bn in Hne. lia_mod.
    + rewrite ind_addr_direct, F4 by done. change BSIZE with 512. change NDIRECT with 12. lia.
  - unfold block_addr. fold bn. rewrite Ha, list_lookup_insert_eq by (by eapply lookup_lt_Some). done.
  - apply (fblock_new (boot s) x (boot s') (set_addr bn a x) bn a); try done. unfold a. lia.
  - intros b [->|Hb]%N2; [right; unfold a; lia|by left].
  - cbn. unfold blocks_of. change BSIZE with 512. change NDIRECT with 12.
    destruct (Z.ltb_spec (12 * 512) n), (Z.ltb_spec (12 * 512) (n + 1)); unfold a; lia_mod.
  - done.
  - done.
  - done.
Qed.

Lemma wsect_image s b d :
  image s → 0 ≤ b < freeblock s → length d = 512%nat → image (wsect b d s).
Proof.
  intros [I1 I2 I3 I4] Hb Hd. split; cbn; try done.
  - intros c Hc. destruct (decide (c = b)) as [->|Hne]; [rewrite lookup_insert_eq; by exists d|rewrite lookup_insert_ne by done; by apply I2].
  - intros c Hc. rewrite lookup_insert_ne by lia. by apply I4.
Qed.

Lemma view_wsect s b d m : view (boot (wsect b d s)) m = if decide (m = b) then d else view (boot s) m.
Proof.
  rewrite !view_boot. cbn. destruct (decide (m = b)) as [->|Hne]; [by rewrite lookup_insert_eq|by rewrite lookup_insert_ne].
Qed.

(** A file all of whose blocks are data, with an indirect block ready. *)
Record ind_ready (s : mkfs) (x : inode) (n : Z) : Prop := {
  ir_wf : inode_wf x;
  ir_addr bn : block_addr (boot s) x bn ≠ 0 ↔ Z.of_nat bn * BSIZE < n;
  ir_ind : ind_addr x ≠ 0;
  ir_nodup : NoDup (owned (boot s) x);
  ir_range b : b ∈ owned (boot s) x → nmeta ≤ b < freeblock s
}.

(** A new entry in the indirect block. *)
Lemma allotted_entry s x n :
  image s → ind_ready s x n → NDIRECT * BSIZE ≤ n < MAXFILE * BSIZE → n mod BSIZE = 0 → freeblock s < FSSIZE →
  let j := Z.to_nat (n / BSIZE - NDIRECT) in
  let s' := wsect (ind_addr x) (put32 (view (boot s) (ind_addr x)) (4 * j) (freeblock s)) (set_freeblock (freeblock s + 1) s) in
  image s' ∧ file_blocks s' x (n + 1) ∧ block_addr (boot s') x (Z.to_nat (n / BSIZE)) = freeblock s ∧
  get32 (put32 (view (boot s) (ind_addr x)) (4 * j) (freeblock s)) (4 * j) = freeblock s ∧
  get32 (view (boot s) (ind_addr x)) (4 * j) = 0 ∧
  (∀ bn, fblock (boot s') x bn = fblock (boot s) x bn) ∧ (∀ b, b ∈ owned (boot s') x → b ∈ owned (boot s) x ∨ freeblock s ≤ b) ∧
  (∀ b, b ∉ owned (boot s) x → img s' !! b = img s !! b).
Proof.
  intros Hi [F1 F3 F4 F5 F6] Hn Hm Hfree j s'. set (a := freeblock s) in *. set (ind := ind_addr x) in *.
  change BSIZE with 512 in *. change NDIRECT with 12 in *. change MAXFILE with 140 in *. change FSSIZE with 1000 in *.
  assert (j < 128)%nat as Hj by (unfold j; lia_mod). pose proof (im_free _ Hi) as Hf. change nmeta with 59 in *. change FSSIZE with 1000 in Hf.
  assert (Z.to_nat (n / 512) = 12 + j)%nat as Ebn by (unfold j; lia_mod).
  pose proof (ind_owned (boot s) x F4) as Hio. pose proof (F6 _ Hio) as Hir. fold ind in Hio, Hir.
  destruct (im_blocks _ Hi ind) as (d & Hd & Hlen); [change FSSIZE with 1000; lia|]. rewrite (view_boot_some _ _ _ Hd) in *.
  pose proof (block_addr_indirect (boot s) x j F1 ltac:(change (Z.to_nat NINDIRECT) with 128%nat; lia)) as Hba.
  change (Z.to_nat NDIRECT) with 12%nat in Hba. fold ind in Hba. rewrite (proj2 (Z.eqb_neq _ _) F4) in Hba. rewrite (view_boot_some _ _ _ Hd) in Hba.
  assert (get32 d (4 * j) = 0) as H0.
  { destruct (decide (get32 d (4 * j) = 0)) as [|Hne]; [done|]. rewrite <- Hba in Hne. apply F3 in Hne. unfold j in Hne. lia_mod. }
  assert (get32 (put32 d (4 * j) a) (4 * j) = a) as Hput by (rewrite get32_put32_eq by lia; apply u32_small; unfold a; lia).
  assert (addrs_of (boot s') x = <[(12 + j)%nat := a]> (addrs_of (boot s) x)) as Ha.
  { apply (addrs_of_entry (boot s) (boot s')); try done.
    - unfold a. lia.
    - fold ind. by rewrite (view_boot_some _ _ _ Hd).
    - unfold s'. rewrite view_wsect. fold ind. rewrite decide_True by done. by rewrite ?(view_boot_some _ _ _ Hd). }
  assert (addrs_of (boot s) x !! (12 + j)%nat = Some 0) as Hl.
  { rewrite addrs_of_lookup by (done || (change (Z.to_nat MAXFILE) with 140%nat; lia)). by rewrite Hba, H0. }
  destruct (new_slot s x s' x (S (12 + j))) as (N1 & N2 & N3); try done; [change nmeta with 59; lia|unfold slots; by rewrite Ha|].
  assert (∀ m, m ≠ ind → view (boot s') m = view (boot s) m) as Hv.
  { intros m Hne. unfold s'. rewrite view_wsect, decide_False by done. done. }
  split_and!; try done.
  - apply wsect_image; [|cbn [freeblock set_freeblock]; unfold a; lia|by rewrite length_put32, ?(view_boot_some _ _ _ Hd)]. apply set_freeblock_image; [done|]. change FSSIZE with 1000. unfold a. lia.
  - split; try done.
    + change BSIZE with 512. change MAXFILE with 140. lia.
    + intros bn. change BSIZE with 512. unfold block_addr. rewrite Ha. destruct (decide (bn = (12 + j)%nat)) as [->|Hne].
      * rewrite list_lookup_insert_eq by (by eapply lookup_lt_Some). cbn. split; [lia_mod|unfold a; lia].
      * rewrite list_lookup_insert_ne by done. fold (block_addr (boot s) x bn). rewrite F3. lia_mod.
    + change BSIZE with 512. change NDIRECT with 12. fold ind. split; [lia|done].
  - unfold block_addr. rewrite Ebn, Ha, list_lookup_insert_eq by (by eapply lookup_lt_Some). done.
  - apply (fblock_new (boot s) x (boot s') x (12 + j) a); try done; [unfold a; lia| |].
    + rewrite Hv by (unfold a; lia). apply view_boot_some. apply (im_zero _ Hi). change FSSIZE with 1000. unfold a. lia.
    + intros b Hb Hb0. apply Hv. intros ->. apply list_elem_of_lookup in Hb as [m Hm'].
      unfold owned in F5. assert (S m = 0)%nat; [|done]. by apply (NoDup_filter_lookup _ (S m) 0 ind F5).
  - intros b [->|Hb]%N2; [right; unfold a; lia|by left].
  - intros b Hb. cbn. apply lookup_insert_ne. intros <-. done.
Qed.

(** A new indirect block. *)
Lemma new_indirect s x n :
  image s → file_blocks s x n → n = NDIRECT * BSIZE → freeblock s < FSSIZE →
  let s1 := set_freeblock (freeblock s + 1) s in let x1 := set_addr (Z.to_nat NDIRECT) (freeblock s) x in
  image s1 ∧ ind_ready s1 x1 n ∧ ind_addr x1 = freeblock s ∧ view (boot s1) (freeblock s) = zero_block ∧
  (∀ j, fblock (boot s1) x1 j = fblock (boot s) x j) ∧ (∀ b, b ∈ owned (boot s1) x1 ↔ b = freeblock s ∨ b ∈ owned (boot s) x).
Proof.
  intros Hi [F1 F2 F3 F4 F5 F6] Hn Hfree s1 x1. set (a := freeblock s) in *. pose proof (im_free _ Hi) as Hf.
  change FSSIZE with 1000 in *. change nmeta with 59 in *.
  assert (ind_addr x = 0) as H0.
  { destruct (decide (ind_addr x = 0)) as [|Hne]; [done|]. apply F4 in Hne. lia. }
  assert (view (boot s1) a = zero_block) as Hz.
  { apply view_boot_some. apply (im_zero _ Hi). change FSSIZE with 1000. unfold a. lia. }
  assert (addrs_of (boot s1) x1 = addrs_of (boot s) x) as Ha by (apply (addrs_of_ind (boot s) (boot s1)); try done; unfold a; lia).
  assert (ind_addr x1 = a) as Hia by (by apply ind_addr_set).
  destruct (new_slot s x s1 x1 0) as (N1 & N2 & N3); try done; [change nmeta with 59; lia|unfold slots; cbn; by rewrite H0| |].
  { unfold slots. rewrite Ha, Hia. done. }
  split_and!; try done.
  - apply set_freeblock_image; [done|]. change FSSIZE with 1000. unfold a. lia.
  - split; try done.
    + apply set_addr_wf; [done|unfold a; lia].
    + intros bn. unfold block_addr. rewrite Ha. apply F3.
    + rewrite Hia. unfold a. lia.
  - apply fblock_same; [done|]. done.
Qed.

Lemma addr_at_range x j : inode_wf x → 0 ≤ addr_at x j < 4294967296.
Proof.
  intros Hx. unfold addr_at. destruct (i_addrs x !! j) as [a|] eqn:E; cbn; [|lia]. by eapply (Forall_lookup_1 _ _ _ _ (iw_addrs _ Hx)).
Qed.

Lemma addr_at_set x j a : inode_wf x → (j < 13)%nat → addr_at (set_addr j a x) j = a.
Proof. intros Hx Hj. unfold addr_at. cbn. by rewrite list_lookup_insert_eq by (by rewrite (iw_len _ Hx)). Qed.

Lemma iappend_direct s x n :
  image s → file_blocks s x n → 0 ≤ n < NDIRECT * BSIZE → freeblock s + (blocks_of (n + 1) - blocks_of n) ≤ FSSIZE →
  ∃ a s' x', iappend_block (n / BSIZE) x s = Some (a, x', s') ∧ allotted s x n a s' x'.
Proof.
  intros Hi Hfb Hn Hroom. pose proof (fb_wf _ _ _ Hfb) as Hx. pose proof (im_free _ Hi) as Hf. change FSSIZE with 1000 in *. change nmeta with 59 in *.
  change BSIZE with 512 in *. change NDIRECT with 12 in *. unfold iappend_block. change NDIRECT with 12.
  rewrite (proj2 (Z.ltb_lt _ _)) by lia_mod. unfold new_addr. set (bn := Z.to_nat (n / 512)).
  assert (bn < 12)%nat as Hbn by (unfold bn; lia_mod). rewrite xint_id by (by apply addr_at_range).
  pose proof (block_addr_direct (boot s) x bn Hx ltac:(change (Z.to_nat NDIRECT) with 12%nat; lia)) as Hba.
  pose proof (fb_addr _ _ _ Hfb bn) as Hiff. change BSIZE with 512 in Hiff. rewrite Hba in Hiff.
  destruct (Z.eqb_spec (addr_at x bn) 0) as [E|E].
  - assert (n mod 512 = 0) as Hm by (destruct (decide (n mod 512 = 0)); [done|]; exfalso; apply (proj2 Hiff); [unfold bn; lia_mod|done]).
    assert (freeblock s < 1000) as Hlt.
    { unfold blocks_of in Hroom. change BSIZE with 512 in *. change NDIRECT with 12 in *.
      destruct (Z.ltb_spec (12 * 512) n), (Z.ltb_spec (12 * 512) (n + 1)); lia_mod. }
    rewrite (xint_id (freeblock s)), (u32_small (freeblock s + 1)), addr_at_set, (xint_id (freeblock s)) by (done || lia). do 3 eexists. split; [done|].
    pose proof (allotted_direct s x n) as H. change BSIZE with 512 in H. change FSSIZE with 1000 in H. by apply H.
  - assert (n mod 512 ≠ 0) as Hm by (apply Hiff in E; unfold bn in E; lia_mod).
    do 3 eexists. split; [rewrite xint_id by (by apply addr_at_range); done|]. rewrite <- Hba.
    apply (allotted_have s x n); try done. change BSIZE with 512. change MAXFILE with 140. lia_mod.
Qed.

(** The second half of [iappend_block] for the blocks behind the indirect block. *)
Lemma indirect_entry s x n :
  image s → ind_ready s x n → NDIRECT * BSIZE ≤ n < MAXFILE * BSIZE →
  let ind := ind_addr x in let j := (4 * Z.to_nat (n / BSIZE - NDIRECT))%nat in
  ∃ d, rsect ind s = Some d ∧ view (boot s) ind = d ∧ length d = 512%nat ∧
    get32 d j = block_addr (boot s) x (Z.to_nat (n / BSIZE)).
Proof.
  intros Hi Hr Hn ind j. pose proof (im_free _ Hi) as Hf. pose proof (ir_range _ _ _ Hr _ (ind_owned (boot s) x (ir_ind _ _ _ Hr))) as Hind.
  change FSSIZE with 1000 in *. change nmeta with 59 in *. change BSIZE with 512 in *. change NDIRECT with 12 in *. change MAXFILE with 140 in *.
  destruct (im_blocks _ Hi ind) as (d & Hd & Hlen); [change FSSIZE with 1000; unfold ind; lia|]. exists d.
  split_and!; [done|by apply view_boot_some|done|].
  pose proof (block_addr_indirect (boot s) x (Z.to_nat (n / 512 - 12)) (ir_wf _ _ _ Hr)) as Hba.
  change (Z.to_nat NINDIRECT) with 128%nat in Hba. change (Z.to_nat NDIRECT) with 12%nat in Hba.
  replace (Z.to_nat (n / 512)) with (12 + Z.to_nat (n / 512 - 12))%nat by lia_mod. rewrite Hba by lia_mod.
  rewrite (proj2 (Z.eqb_neq _ _) (ir_ind _ _ _ Hr)). fold ind. by rewrite (view_boot_some _ _ _ Hd).
Qed.

(** What the first half, which sees to the indirect block, leaves. *)
Record ind_prepared (s : mkfs) (x : inode) (n : Z) (s1 : mkfs) (x1 : inode) : Prop := {
  ip_image : image s1;
  ip_ready : ind_ready s1 x1 n;
  ip_new : n mod BSIZE = 0 → freeblock s1 < FSSIZE ∧ freeblock s1 + 1 = freeblock s + (blocks_of (n + 1) - blocks_of n);
  ip_old : n mod BSIZE ≠ 0 → s1 = s ∧ x1 = x;
  ip_fblock j : fblock (boot s1) x1 j = fblock (boot s) x j;
  ip_owned b : b ∈ owned (boot s1) x1 → b ∈ owned (boot s) x ∨ freeblock s ≤ b;
  ip_frame b : b < freeblock s → img s1 !! b = img s !! b;
  ip_same : x1 = set_i_addrs (i_addrs x1) x;
  ip_inodes : freeinode s1 = freeinode s;
  ip_mono : freeblock s ≤ freeblock s1
}.

Lemma indirect_addr_spec s x n s1 x1 :
  file_blocks s x n → image s → NDIRECT * BSIZE ≤ n < MAXFILE * BSIZE → ind_prepared s x n s1 x1 →
  ∃ a s' x', indirect_addr (n / BSIZE) x1 s1 = Some (a, x', s') ∧ allotted s x n a s' x'.
Proof.
  intros Hfb Hi Hn [Hi1 Hr1 Hnew Hold Hfbl Hown Hfr Hx1 Hfi Hmono].
  destruct (indirect_entry s1 x1 n Hi1 Hr1 Hn) as (d & Hrs & Hvd & Hlen & Hget). pose proof (im_free _ Hi1) as Hf1.
  unfold indirect_addr. fold (ind_addr x1). rewrite (xint_id (ind_addr x1)) by (apply addr_at_range, Hr1). rewrite Hrs. cbn [mbind option_bind].
  change FSSIZE with 1000 in *. change nmeta with 59 in *. destruct (decide (n mod BSIZE = 0)) as [Hm|Hm].
  - destruct (Hnew Hm) as [Hroom Hfree].
    destruct (allotted_entry s1 x1 n Hi1 Hr1 Hn Hm Hroom) as (E1 & E2 & E3 & E4 & E5 & E6 & E7 & E8). rewrite Hvd in *.
    rewrite E5. cbn [Z.eqb]. rewrite (xint_id (freeblock s1)), (u32_small (freeblock s1 + 1)), E4, (xint_id (freeblock s1)) by lia.
    do 3 eexists. split; [done|]. split; try done.
    + intros j. by rewrite E6, Hfbl.
    + intros b [Hb|Hb]%E7; [by apply Hown|lia].
    + intros b Hb Hno. rewrite E8; [by apply Hfr|]. intros [?|?]%Hown; [done|lia].
  - destruct (Hold Hm) as [-> ->]. rewrite Hget.
    assert (block_addr (boot s) x (Z.to_nat (n / BSIZE)) ≠ 0) as Hne.
    { apply (fb_addr _ _ _ Hfb). change BSIZE with 512 in *. change NDIRECT with 12 in *. lia_mod. }
    rewrite (proj2 (Z.eqb_neq _ _) Hne), xint_id.
    + do 3 eexists. split; [done|]. apply allotted_have; try done. change BSIZE with 512 in *. change NDIRECT with 12 in *. lia_mod.
    + pose proof (fb_range _ _ _ Hfb _ (block_addr_owned _ _ _ Hne)). change nmeta with 59 in *. lia.
Qed.

(** The blocks the next byte takes. *)
Lemma blocks_of_step n :
  0 ≤ n → blocks_of (n + 1) - blocks_of n = (if n mod BSIZE =? 0 then 1 else 0) + (if n =? NDIRECT * BSIZE then 1 else 0).
Proof.
  intros Hn. unfold blocks_of. change BSIZE with 512. change NDIRECT with 12.
  destruct (Z.ltb_spec (12 * 512) n), (Z.ltb_spec (12 * 512) (n + 1)), (Z.eqb_spec (n mod 512) 0), (Z.eqb_spec n (12 * 512)); lia_mod.
Qed.

Lemma iappend_indirect s x n :
  image s → file_blocks s x n → NDIRECT * BSIZE ≤ n < MAXFILE * BSIZE → freeblock s + (blocks_of (n + 1) - blocks_of n) ≤ FSSIZE →
  ∃ a s' x', iappend_block (n / BSIZE) x s = Some (a, x', s') ∧ allotted s x n a s' x'.
Proof.
  intros Hi Hfb Hn Hroom. pose proof (fb_wf _ _ _ Hfb) as Hx. pose proof (im_free _ Hi) as Hf.
  unfold iappend_block. rewrite (proj2 (Z.ltb_ge _ _)) by (apply Z.div_le_lower_bound; change BSIZE with 512 in *; lia).
  unfold new_addr. fold (ind_addr x). rewrite (xint_id (ind_addr x)) by (by apply addr_at_range).
  pose proof (blocks_of_step n ltac:(change BSIZE with 512 in *; change NDIRECT with 12 in *; lia)) as Hcost.
  destruct (Z.eqb_spec (ind_addr x) 0) as [E|E].
  - assert (n = NDIRECT * BSIZE) as Hn0.
    { destruct (decide (n = NDIRECT * BSIZE)) as [|Hne]; [done|]. exfalso. apply (proj2 (fb_ind _ _ _ Hfb)); [lia|done]. }
    assert (blocks_of (n + 1) - blocks_of n = 2) as E2 by (rewrite Hcost, Hn0; done).
    destruct (new_indirect s x n Hi Hfb Hn0) as (I1 & I2 & I3 & I4 & I5 & I6); [lia|].
    change FSSIZE with 1000 in *. change nmeta with 59 in *. rewrite (xint_id (freeblock s)), (u32_small (freeblock s + 1)) by lia.
    apply indirect_addr_spec; try done. split; try done; cbn.
    + intros _. change FSSIZE with 1000. lia.
    + by rewrite Hn0.
    + intros b [->|Hb]%I6; [right; lia|by left].
    + lia.
  - apply indirect_addr_spec; try done. split; try done; [by destruct Hfb; split| |by left|by destruct x].
    intros Hm. rewrite Hcost, Hm in *. cbn in *. destruct (Z.eqb_spec n (NDIRECT * BSIZE)) as [->|]; [|lia].
    exfalso. apply (fb_ind _ _ _ Hfb) in E. lia.
Qed.

Lemma iappend_block_spec s x n :
  image s → file_blocks s x n → 0 ≤ n < MAXFILE * BSIZE → freeblock s + (blocks_of (n + 1) - blocks_of n) ≤ FSSIZE →
  ∃ a s' x', iappend_block (n / BSIZE) x s = Some (a, x', s') ∧ allotted s x n a s' x'.
Proof.
  intros Hi Hfb Hn Hroom. destruct (Z.lt_ge_cases n (NDIRECT * BSIZE)); [apply iappend_direct|apply iappend_indirect]; auto with lia.
Qed.

(** ** Appending *)

Lemma fblock_len s x n bn : image s → file_blocks s x n → length (fblock (boot s) x bn) = 512%nat.
Proof.
  intros Hi Hfb. unfold fblock. destruct (Z.eqb_spec (block_addr (boot s) x bn) 0) as [|Hne]; [done|].
  pose proof (fb_range _ _ _ Hfb _ (block_addr_owned _ _ _ Hne)) as Hr. pose proof (im_free _ Hi). change nmeta with 59 in *.
  destruct (im_blocks _ Hi (block_addr (boot s) x bn)) as (d & Hd & Hl); [lia|]. by rewrite (view_boot_some _ _ _ Hd).
Qed.

(** From [s] and [x] to [s'] and [x'] the bytes [p] were put at offset [n] of the
    file, the end of what it has. *)
Record grown (s : mkfs) (x : inode) (n : Z) (p : list Z) (s' : mkfs) (x' : inode) : Prop := {
  gr_image : image s';
  gr_blocks : file_blocks s' x' (n + Z.of_nat (length p));
  gr_bytes : fbytes (boot s') x' = list_inserts (Z.to_nat n) p (fbytes (boot s) x);
  gr_owned b : b ∈ owned (boot s') x' → b ∈ owned (boot s) x ∨ freeblock s ≤ b;
  gr_free : freeblock s' = freeblock s + (blocks_of (n + Z.of_nat (length p)) - blocks_of n);
  gr_frame b : b < freeblock s → b ∉ owned (boot s) x → img s' !! b = img s !! b;
  gr_same : x' = set_i_addrs (i_addrs x') x;
  gr_inodes : freeinode s' = freeinode s
}.

Lemma blocks_of_same n m : 0 ≤ n → 1 ≤ m → n mod BSIZE + m ≤ BSIZE → blocks_of (n + m) = blocks_of (n + 1).
Proof.
  intros Hn Hm Hb. unfold blocks_of. change BSIZE with 512 in *. change NDIRECT with 12.
  destruct (Z.ltb_spec (12 * 512) (n + m)), (Z.ltb_spec (12 * 512) (n + 1)); lia_mod.
Qed.

Lemma blocks_of_mono n m : 0 ≤ n ≤ m → blocks_of n ≤ blocks_of m.
Proof.
  intros Hn. unfold blocks_of. change BSIZE with 512 in *. change NDIRECT with 12.
  destruct (Z.ltb_spec (12 * 512) n), (Z.ltb_spec (12 * 512) m); lia_mod.
Qed.

(** The bytes of one turn go into one block. *)
Lemma write_chunk s x n a s1 x1 p :
  allotted s x n a s1 x1 → 0 ≤ n → (1 ≤ length p)%nat → n mod BSIZE + Z.of_nat (length p) ≤ BSIZE → n + Z.of_nat (length p) ≤ MAXFILE * BSIZE →
  ∃ d, rsect a s1 = Some d ∧ grown s x n p (wsect a (list_inserts (Z.to_nat (n mod BSIZE)) p d) s1) x1.
Proof.
  intros [Hi Hfb -> Hfbl Hown Hfree Hframe Hsame Hino] Hn Hp Hc Hmax. set (bn := Z.to_nat (n / BSIZE)). set (a := block_addr (boot s1) x1 bn).
  set (c := Z.to_nat (n mod BSIZE)). change BSIZE with 512 in *. change MAXFILE with 140 in *.
  assert (a ≠ 0) as Ha by (apply (fb_addr _ _ _ Hfb); unfold bn; change BSIZE with 512; lia_mod).
  pose proof (block_addr_owned _ _ _ Ha) as Hao. fold a in Hao. pose proof (fb_range _ _ _ Hfb _ Hao) as Har.
  pose proof (im_free _ Hi) as Hf. change nmeta with 59 in *.
  destruct (im_blocks _ Hi a) as (d & Hd & Hlen); [lia|]. exists d. split; [done|]. set (s2 := wsect a _ s1).
  pose proof (fb_nodup _ _ _ Hfb) as Hnd. destruct (block_addr_nodup _ _ bn bn Hnd eq_refl Ha) as [_ Hai]. fold a in Hai.
  assert (∀ m, view (boot s2) m = if decide (m = a) then list_inserts c p d else view (boot s1) m) as Hv by (intros m; apply view_wsect).
  assert (addrs_of (boot s2) x1 = addrs_of (boot s1) x1) as Ea.
  { apply addrs_of_ext. intros _. rewrite Hv. by rewrite decide_False by done. }
  assert (owned (boot s2) x1 = owned (boot s1) x1) as Eo by (unfold owned; by rewrite Ea).
  assert (∀ j, fblock (boot s2) x1 j = if decide (j = bn) then list_inserts c p (fblock (boot s1) x1 bn) else fblock (boot s1) x1 j) as Hblk.
  { intros j. unfold fblock, block_addr. rewrite Ea. fold (block_addr (boot s1) x1 j) (block_addr (boot s1) x1 bn) a.
    rewrite (proj2 (Z.eqb_neq a 0) Ha), (view_boot_some _ _ _ Hd). destruct (decide (j = bn)) as [->|Hne].
    - fold a. rewrite (proj2 (Z.eqb_neq a 0) Ha), Hv. by rewrite decide_True by done.
    - destruct (Z.eqb_spec (block_addr (boot s1) x1 j) 0) as [|Hj]; [done|]. rewrite Hv, decide_False; [done|].
      intros E. by destruct (block_addr_nodup _ _ j bn Hnd E Hj). }
  assert (image s2) as Hi2 by (apply wsect_image; [done|lia|by rewrite length_inserts]).
  assert (file_blocks s2 x1 (n + Z.of_nat (length p))) as Hfb2.
  { destruct Hfb as [F1 F2 F3 F4 F5 F6]. split; rewrite ?Eo; try done; change BSIZE with 512 in *; change MAXFILE with 140 in *; change NDIRECT with 12 in *.
    - lia.
    - intros j. unfold block_addr. rewrite Ea. fold (block_addr (boot s1) x1 j). rewrite F3. lia_mod.
    - rewrite F4. lia_mod. }
  split; try done.
  - unfold fbytes. assert (fblock (boot s1) x1 <$> seq 0 (Z.to_nat MAXFILE) = fblock (boot s) x <$> seq 0 (Z.to_nat MAXFILE)) as <-.
    { apply list_fmap_ext. intros; apply Hfbl. }
    rewrite (write_blocks (fblock (boot s1) x1) (fblock (boot s2) x1) _ bn c p).
    + f_equal. unfold bn, c. lia_mod.
    + intros b. by eapply fblock_len.
    + intros b. by eapply fblock_len.
    + change (Z.to_nat MAXFILE) with 140%nat. unfold bn. lia_mod.
    + unfold c. lia_mod.
    + done.
  - rewrite Eo. done.
  - cbn. rewrite Hfree, (blocks_of_same n (Z.of_nat (length p))) by (change BSIZE with 512; lia). done.
  - intros b Hb Hno. cbn. rewrite lookup_insert_ne; [by apply Hframe|]. intros <-. destruct (Hown a Hao); [done|lia].
Qed.

(** Appending in two parts. *)
Lemma grown_app s x n p q s1 x1 s2 x2 :
  0 ≤ n → grown s x n p s1 x1 → grown s1 x1 (n + Z.of_nat (length p)) q s2 x2 → grown s x n (p ++ q) s2 x2.
Proof.
  intros Hn [A1 A2 A3 A4 A5 A6 A7 A8] [B1 B2 B3 B4 B5 B6 B7 B8].
  assert (Z.of_nat (length (p ++ q)) = Z.of_nat (length p) + Z.of_nat (length q)) as El by (rewrite length_app; lia).
  pose proof (fb_size _ _ _ A2) as Hs1. pose proof (fb_size _ _ _ B2) as Hs2.
  assert (freeblock s ≤ freeblock s1) as Hmono.
  { pose proof (blocks_of_mono n (n + Z.of_nat (length p)) ltac:(lia)). lia. }
  split; rewrite ?El, ?Z.add_assoc; try done.
  - rewrite B3, A3, list_inserts_app_l. f_equal. lia.
  - intros b [Hb|Hb]%B4; [by apply A4|lia].
  - rewrite B5, A5. lia.
  - intros b Hb Hno. rewrite B6, A6; [done|done|done|lia|]. intros [?|?]%A4; [done|lia].
  - rewrite B7, A7. done.
  - by rewrite B8.
Qed.

Lemma iappend_loop_spec fuel p n x s :
  image s → file_blocks s x n → (length p ≤ fuel)%nat → n + Z.of_nat (length p) ≤ MAXFILE * BSIZE →
  freeblock s + (blocks_of (n + Z.of_nat (length p)) - blocks_of n) ≤ FSSIZE →
  ∃ x' s', iappend_loop fuel p n x s = Some (n + Z.of_nat (length p), x', s') ∧ grown s x n p s' x'.
Proof.
  revert p n x s. induction fuel as [|fuel IH]; intros p n x s Hi Hfb Hfuel Hmax Hroom;
    (destruct p as [|c0 p0]; [exists x, s; cbn; split; [by rewrite Z.add_0_r|]|]).
  2: { cbn in Hfuel. lia. }
  1, 2: split; cbn; rewrite ?Z.add_0_r; try done; [by left|lia|by destruct x].
  set (p := c0 :: p0) in *. pose proof (fb_size _ _ _ Hfb) as Hsz. cbn [iappend_loop]. fold p.
  assert (1 ≤ length p)%nat as Hp1 by (unfold p; cbn; lia).
  change BSIZE with 512 in *. change MAXFILE with 140 in *. rewrite (proj2 (Z.ltb_lt _ _)) by lia_mod.
  pose proof (blocks_of_mono (n + 1) (n + Z.of_nat (length p)) ltac:(lia)) as Hmono.
  destruct (iappend_block_spec s x n) as (a & s1 & x1 & Hblk & Hal); try done; [change BSIZE with 512; change MAXFILE with 140; lia|lia|].
  change BSIZE with 512 in Hblk. rewrite Hblk. cbn [mbind option_bind].
  set (n1 := Z.min (Z.of_nat (length p)) ((n / 512 + 1) * 512 - n)).
  assert (1 ≤ n1 ≤ Z.of_nat (length p) ∧ n mod 512 + n1 ≤ 512) as [Hn1 Hn2] by (unfold n1; lia_mod).
  set (q := take (Z.to_nat n1) p). assert (length q = Z.to_nat n1) as Hq by (unfold q; rewrite length_take; lia).
  destruct (write_chunk s x n a s1 x1 q) as (d & Hrd & Hg); try done; try (change BSIZE with 512 || change MAXFILE with 140); try lia.
  { change BSIZE with 512. change MAXFILE with 140. lia. }
  rewrite Hrd. cbn [mbind option_bind]. replace (n - n / 512 * 512) with (n mod 512) by lia_mod. change BSIZE with 512 in Hg.
  set (s2 := wsect a _ s1) in *.
  assert (n + Z.of_nat (length q) = n + n1) as Eq by lia.
  pose proof (gr_blocks _ _ _ _ _ _ Hg) as Hfb2. rewrite Eq in Hfb2.
  assert (Z.of_nat (length (drop (Z.to_nat n1) p)) = Z.of_nat (length p) - n1) as Hd by (rewrite length_drop; lia).
  destruct (IH (drop (Z.to_nat n1) p) (n + n1) x1 s2) as (x' & s' & Hrun & Hg'); rewrite ?Hd; try done.
  - apply Hg.
  - rewrite length_drop. lia.
  - change BSIZE with 512. change MAXFILE with 140. lia.
  - replace (n + n1 + (Z.of_nat (length p) - n1)) with (n + Z.of_nat (length p)) by lia. rewrite (gr_free _ _ _ _ _ _ Hg), Eq. lia.
  - exists x', s'. split.
    + rewrite Hrun, Hd. do 3 f_equal. lia.
    + rewrite <- (take_drop (Z.to_nat n1) p). fold q. eapply grown_app; [lia|exact Hg|]. by rewrite Eq.
Qed.

(** ** Inodes on the image *)

(** The fields of [x] that are not on the disk are those [rinode] leaves. *)
Definition is_slot (inum : Z) (x : inode) : Prop :=
  x = mk_inode ROOTDEV inum 0 (mk_sl false 0) false (i_type x) (i_major x) (i_minor x) (i_nlink x) (i_size x) (i_addrs x).

Lemma load_put_same d inum x :
  length d = 512%nat → 0 ≤ inum → inode_wf x → is_slot inum x → load_dinode (put_dinode d inum x) (dinode_slot inum) = x.
Proof.
  intros Hd Hi Hx Hs. destruct (dinode_roundtrip d inum x Hd Hi Hx) as (R1 & R2 & R3 & R4 & R5 & R6).
  unfold load_dinode. change (i_inum (dinode_slot inum)) with inum. rewrite R1, R2, R3, R4, R5, R6. symmetry. exact Hs.
Qed.

Lemma get16_put_dinode_other d inum inum' x off :
  0 ≤ inum → 0 ≤ inum' → inum mod IPB ≠ inum' mod IPB → length (i_addrs x) = 13%nat → (off + 2 ≤ 64)%nat →
  get16 (put_dinode d inum x) (ioff inum' + off) = get16 d (ioff inum' + off).
Proof.
  intros Hi Hi' Hne Hl Hoff. pose proof (ioff_disjoint inum inum' Hi Hi' Hne). unfold put_dinode.
  rewrite get16_put_addrs_out, get16_put32_ne, !get16_put16_ne by lia. done.
Qed.

Lemma load_put_other d inum inum' x :
  0 ≤ inum → 0 ≤ inum' → inum mod IPB ≠ inum' mod IPB → length (i_addrs x) = 13%nat →
  load_dinode (put_dinode d inum x) (dinode_slot inum') = load_dinode d (dinode_slot inum').
Proof.
  intros Hi Hi' Hne Hl.
  pose proof (λ off, get16_put_dinode_other d inum inum' x off Hi Hi' Hne Hl) as H16.
  pose proof (λ off, put_dinode_other d inum inum' x off Hi Hi' Hne Hl) as H32.
  assert (dip_addrs (put_dinode d inum x) inum' = dip_addrs d inum') as Ha.
  { unfold dip_addrs. apply list_fmap_ext. intros j b Hj. apply lookup_seq in Hj. unfold dip_addr. rewrite <- Nat.add_assoc. apply H32. lia. }
  unfold load_dinode. cbn [i_inum dinode_slot]. rewrite Ha. unfold dip_type, dip_major, dip_minor, dip_nlink, dip_size.
  pose proof (H16 0%nat) as H0. rewrite Nat.add_0_r in H0. by rewrite H0, !H16, H32 by lia.
Qed.

Lemma mkfs_iblock_range inum : 0 ≤ inum < NINODES → IBLOCK inum the_sb = inum / IPB + 32 ∧ 32 ≤ IBLOCK inum the_sb < 57.
Proof.
  intros Hi. change NINODES with 200 in Hi. unfold IBLOCK, IPB. change (sb_inodestart the_sb) with 32. rewrite u32_small by lia_mod. lia_mod.
Qed.

(** Writing an inode changes that inode only, and no block behind the inodes. *)
Lemma winode_spec s inum x :
  image s → 0 ≤ inum < NINODES → inode_wf x → is_slot inum x →
  ∃ s', winode inum x s = Some s' ∧ image s' ∧ rinode inum s' = Some x ∧
    (∀ j, 0 ≤ j < NINODES → j ≠ inum → rinode j s' = rinode j s) ∧
    freeblock s' = freeblock s ∧ freeinode s' = freeinode s ∧ (∀ b, b < 32 ∨ 57 ≤ b → img s' !! b = img s !! b).
Proof.
  intros Hi Hn Hx Hs. destruct (mkfs_iblock_range inum Hn) as [Ei Hr]. pose proof (im_free _ Hi) as Hf. pose proof (im_sb _ Hi) as Hsb.
  destruct (im_blocks _ Hi (IBLOCK inum the_sb)) as (d & Hd & Hl); [change FSSIZE with 1000; lia|].
  unfold winode, rinode. rewrite Hsb. unfold rsect. rewrite Hd. cbn [mbind option_bind]. eexists. split; [done|].
  assert (length (put_dinode d inum x) = 512%nat) as Hlen.
  { unfold put_dinode. by rewrite length_put_addrs, length_put32, !length_put16. }
  split_and!; try done.
  - apply wsect_image; [done| |done]. change nmeta with 59 in *. lia.
  - cbn. rewrite Hsb, lookup_insert_eq. cbn. f_equal. apply load_put_same; try done. lia.
  - intros j Hj Hne. destruct (mkfs_iblock_range j Hj) as [Ej _]. cbn. rewrite Hsb. destruct (decide (IBLOCK j the_sb = IBLOCK inum the_sb)) as [E|E].
    + rewrite E, lookup_insert_eq, Hd. cbn. f_equal. apply load_put_other; [lia|lia| |apply Hx].
      rewrite Ei, Ej in E. unfold IPB in *. lia_mod.
    + by rewrite lookup_insert_ne by done.
  - intros b Hb. cbn. rewrite lookup_insert_ne; [done|]. lia.
Qed.

(** A file is not affected by what happens outside of its blocks. *)
Lemma file_blocks_frame s s' x n :
  (∀ b, b ∈ owned (boot s) x → img s' !! b = img s !! b) → freeblock s ≤ freeblock s' → file_blocks s x n →
  file_blocks s' x n ∧ fbytes (boot s') x = fbytes (boot s) x ∧ owned (boot s') x = owned (boot s) x.
Proof.
  intros Him Hf [F1 F2 F3 F4 F5 F6].
  assert (∀ b, b ∈ owned (boot s) x → view (boot s') b = view (boot s) b) as Hv by (intros b Hb; by rewrite !view_boot, Him).
  assert (addrs_of (boot s') x = addrs_of (boot s) x) as Ea by (apply addrs_of_ext; intros Hne; by apply Hv, ind_owned).
  assert (owned (boot s') x = owned (boot s) x) as Eo by (unfold owned; by rewrite Ea). split_and!; [| |done].
  - split; rewrite ?Eo; try done.
    + intros bn. unfold block_addr. rewrite Ea. apply F3.
    + intros b Hb%F6. lia.
  - unfold fbytes. f_equal. apply list_fmap_ext. intros j b _. by apply fblock_ext.
Qed.

(** ** The file system on the image *)

(** The contents followed by the zeros up to the size of the largest file. *)
Definition padded (C : list Z) : list Z := C ++ replicate (Z.to_nat (MAXFILE * BSIZE) - length C) 0.

(** The inodes handed out, from number 1 on, with the contents of their files. *)
Record filesys (s : mkfs) (L : list (inode * list Z)) : Prop := {
  fy_image : image s;
  fy_count : freeinode s = 1 + Z.of_nat (length L);
  fy_limit : 1 + Z.of_nat (length L) ≤ NINODES;
  fy_inode i x C : L !! i = Some (x, C) → rinode (1 + Z.of_nat i) s = Some x ∧ is_slot (1 + Z.of_nat i) x ∧ i_size x = Z.of_nat (length C);
  fy_file i x C : L !! i = Some (x, C) → file_blocks s x (Z.of_nat (length C)) ∧ fbytes (boot s) x = padded C;
  fy_apart i j x y C D b : L !! i = Some (x, C) → L !! j = Some (y, D) → b ∈ owned (boot s) x → b ∈ owned (boot s) y → i = j;
  fy_super : img s !! 1 = Some (list_inserts 0 (sb_bytes the_sb) zero_block)
}.

(** What an operation on entry [i] may do to the others. *)
Lemma filesys_update s L s' i x C x' C' :
  filesys s L → L !! i = Some (x, C) → image s' → freeinode s' = freeinode s → freeblock s ≤ freeblock s' →
  rinode (1 + Z.of_nat i) s' = Some x' → is_slot (1 + Z.of_nat i) x' → i_size x' = Z.of_nat (length C') →
  file_blocks s' x' (Z.of_nat (length C')) → fbytes (boot s') x' = padded C' →
  (∀ b, b ∈ owned (boot s') x' → b ∈ owned (boot s) x ∨ freeblock s ≤ b) →
  (∀ j, 0 ≤ j < NINODES → j ≠ 1 + Z.of_nat i → rinode j s' = rinode j s) →
  (∀ b, nmeta ≤ b < freeblock s → b ∉ owned (boot s) x → img s' !! b = img s !! b) → img s' !! 1 = img s !! 1 →
  filesys s' (<[i := (x', C')]> L).
Proof.
  intros [Y1 Y2 Y3 Y4 Y5 Y6 Y7] Hi Him Hfi Hfb Hri Hsl Hsz Hblk Hct Hown Hino Hfr H1.
  assert (i < length L)%nat as Hlt by (by eapply lookup_lt_Some).
  assert (∀ j y D, j ≠ i → L !! j = Some (y, D) → file_blocks s' y (Z.of_nat (length D)) ∧ fbytes (boot s') y = fbytes (boot s) y ∧ owned (boot s') y = owned (boot s) y) as Hoth.
  { intros j y D Hne Hj. destruct (Y5 j y D Hj) as [Hy _]. apply file_blocks_frame; [|done|done]. intros b Hb.
    apply Hfr; [by apply (fb_range _ _ _ Hy)|]. intros Hbx. apply Hne. by eapply Y6. }
  assert (∀ j y D, <[i := (x', C')]> L !! j = Some (y, D) → (j = i ∧ y = x' ∧ D = C') ∨ (j ≠ i ∧ L !! j = Some (y, D))) as Hcase.
  { intros j y D. destruct (decide (j = i)) as [->|Hne]; [rewrite list_lookup_insert_eq by done|rewrite list_lookup_insert_ne by done]; naive_solver. }
  assert (∀ j y D b, j ≠ i → L !! j = Some (y, D) → b ∈ owned (boot s') x' → b ∈ owned (boot s') y → False) as Hdis.
  { intros j y D b Hne Hj Hb Hby. destruct (Hoth j y D Hne Hj) as (_ & _ & E). rewrite E in Hby. destruct (Hown b Hb) as [Hbx|Hge].
    - apply Hne. by eapply Y6.
    - destruct (Y5 j y D Hj) as [Hy _]. apply (fb_range _ _ _ Hy) in Hby. lia. }
  split; rewrite ?length_insert; try done.
  - by rewrite Hfi.
  - intros j y D [(-> & -> & ->)|[Hne Hj]]%Hcase; [done|]. destruct (Y4 j y D Hj) as (Hr & Hs & Hz). split; [|done]. rewrite Hino; [done| |lia].
    apply lookup_lt_Some in Hj. lia.
  - intros j y D [(-> & -> & ->)|[Hne Hj]]%Hcase; [done|]. destruct (Hoth j y D Hne Hj) as (Hf & Hb & _). split; [done|]. rewrite Hb. by apply (Y5 j y D).
  - intros j1 j2 y z D E b [(-> & -> & ->)|[Hne1 Hj1]]%Hcase [(-> & -> & ->)|[Hne2 Hj2]]%Hcase Hb1 Hb2; [done| | |].
    + exfalso. by eapply Hdis.
    + exfalso. by eapply Hdis.
    + destruct (Hoth _ _ _ Hne1 Hj1) as (_ & _ & E1), (Hoth _ _ _ Hne2 Hj2) as (_ & _ & E2). rewrite E1 in Hb1. rewrite E2 in Hb2. by eapply Y6.
  - by rewrite H1.
Qed.

Lemma padded_inserts (C p : list Z) :
  Z.of_nat (length C + length p) ≤ MAXFILE * BSIZE → list_inserts (length C) p (padded C) = padded (C ++ p).
Proof.
  intros Hl. unfold padded. rewrite <- (Nat.add_0_r (length C)) at 1. rewrite list_inserts_app_r, length_app, <- app_assoc. f_equal.
  replace (Z.to_nat (MAXFILE * BSIZE) - length C)%nat with (length p + (Z.to_nat (MAXFILE * BSIZE) - (length C + length p)))%nat by lia.
  rewrite replicate_add, list_inserts_0_r by (by rewrite length_replicate). done.
Qed.

Lemma iappend_spec s L i x C p :
  filesys s L → L !! i = Some (x, C) → Z.of_nat (length C + length p) ≤ MAXFILE * BSIZE →
  freeblock s + (blocks_of (Z.of_nat (length C + length p)) - blocks_of (Z.of_nat (length C))) ≤ FSSIZE →
  ∃ x' s', iappend (1 + Z.of_nat i) p s = Some s' ∧ filesys s' (<[i := (x', C ++ p)]> L) ∧
    freeblock s' = freeblock s + (blocks_of (Z.of_nat (length C + length p)) - blocks_of (Z.of_nat (length C))) ∧
    i_type x' = i_type x ∧ i_nlink x' = i_nlink x.
Proof.
  intros Hy Hi Hmax Hroom. destruct (fy_inode _ _ Hy i x C Hi) as (Hr & Hs & Hsz). destruct (fy_file _ _ Hy i x C Hi) as [Hb Hct].
  rewrite !Nat2Z.inj_add in *. change MAXFILE with 140 in *. change BSIZE with 512 in *.
  destruct (iappend_loop_spec (length p) p (Z.of_nat (length C)) x s) as (x1 & s1 & Hrun & Hg); try done; [apply Hy|].
  unfold iappend. rewrite Hr. cbn [mbind option_bind]. rewrite Hsz, (xint_id (Z.of_nat (length C))), Hrun by lia. cbn [mbind option_bind].
  rewrite (xint_id (Z.of_nat (length C) + Z.of_nat (length p))) by lia.
  destruct Hg as [G1 G2 G3 G4 G5 G6 G7 G8]. set (x2 := set_i_size _ x1).
  assert (inode_wf x2) as Hwf.
  { destruct (fb_wf _ _ _ G2). split; try done. cbn. lia. }
  assert (is_slot (1 + Z.of_nat i) x2) as Hs2 by (unfold is_slot, x2; rewrite G7, Hs; done).
  pose proof (lookup_lt_Some _ _ _ Hi) as Hlt. pose proof (fy_limit _ _ Hy) as Hlim.
  destruct (winode_spec s1 (1 + Z.of_nat i) x2) as (s2 & Hw & W1 & W2 & W3 & W4 & W5 & W6); try done; [lia|].
  assert (∀ b, b ∈ owned (boot s1) x2 → img s2 !! b = img s1 !! b) as Him.
  { intros b Hbo. apply W6. pose proof (fb_range _ _ _ G2 b Hbo). change nmeta with 59 in *. lia. }
  destruct (file_blocks_frame s1 s2 x2 (Z.of_nat (length C) + Z.of_nat (length p))) as (Hfb2 & Hbytes & Ho2); [done|lia|by destruct G2; split|].
  assert (∀ inum, 0 ≤ inum < NINODES → rinode inum s1 = rinode inum s) as Hrs.
  { intros inum Hinum. unfold rinode, rsect. rewrite (im_sb _ G1), (im_sb _ (fy_image _ _ Hy)), G6; [done| |].
    - destruct (mkfs_iblock_range inum Hinum) as [_ ?]. pose proof (im_free _ (fy_image _ _ Hy)). change nmeta with 59 in *. lia.
    - intros Ho. pose proof (fb_range _ _ _ Hb _ Ho). destruct (mkfs_iblock_range inum Hinum) as [_ ?]. change nmeta with 59 in *. lia. }
  exists x2, s2. split; [done|]. pose proof (blocks_of_mono (Z.of_nat (length C)) (Z.of_nat (length C) + Z.of_nat (length p)) ltac:(lia)).
  split_and!; [|by rewrite W4, G5|unfold x2; cbn; by rewrite G7|unfold x2; cbn; by rewrite G7].
  apply (filesys_update s L s2 i x C x2 (C ++ p)); rewrite ?length_app, ?Nat2Z.inj_add; try done.
  - by rewrite W5, G8.
  - rewrite W4, G5. lia.
  - rewrite Hbytes. change (fbytes (boot s1) x2) with (fbytes (boot s1) x1). rewrite G3, Nat2Z.id, Hct.
    apply padded_inserts. change MAXFILE with 140 in *. change BSIZE with 512 in *. lia.
  - intros b Hbo. rewrite Ho2 in Hbo. by apply G4.
  - intros j Hj Hne. rewrite W3 by done. by apply Hrs.
  - intros b Hbr Hno. rewrite W6 by (change nmeta with 59 in *; lia). apply G6; [lia|done].
  - rewrite W6 by lia. apply G6; [pose proof (im_free _ (fy_image _ _ Hy)); change nmeta with 59 in *; lia|].
    intros Ho. pose proof (fb_range _ _ _ Hb _ Ho). change nmeta with 59 in *. lia.
Qed.

(** *** A new inode *)

Lemma concat_zero n : concat (replicate n zero_block) = replicate (n * 512) 0.
Proof.
  induction n as [|n IH]; [done|]. cbn [replicate concat]. rewrite IH. change zero_block with (replicate 512 0). by rewrite <- replicate_add.
Qed.

Definition new_inode (inum type : Z) : inode := set_i_nlink 1 (set_i_type type (dinode_slot inum)).

Lemma new_inode_blocks s inum type :
  image s → 0 ≤ type < 32768 → file_blocks s (new_inode inum type) 0 ∧ fbytes (boot s) (new_inode inum type) = padded [].
Proof.
  intros Hi Ht. set (x := new_inode inum type).
  assert (addrs_of (boot s) x = replicate (Z.to_nat MAXFILE) 0) as Ea by reflexivity.
  assert (∀ bn, block_addr (boot s) x bn = 0) as E0.
  { intros bn. unfold block_addr. rewrite Ea. destruct (replicate _ 0 !! bn) as [a|] eqn:E; [|done]. by apply lookup_replicate in E as [-> _]. }
  assert (owned (boot s) x = []) as Eo by reflexivity. split.
  - split; rewrite ?Eo.
    + split; cbn; try lia. change (Forall (λ a, 0 ≤ a < 4294967296) (replicate 13 0)). apply Forall_replicate. lia.
    + change MAXFILE with 140. change BSIZE with 512. lia.
    + intros bn. rewrite E0. change BSIZE with 512. split; [done|lia].
    + split; [done|]. change NDIRECT with 12. change BSIZE with 512. lia.
    + apply NoDup_nil_2.
    + intros b Hb. by apply not_elem_of_nil in Hb.
  - unfold fbytes, padded. cbn [app length]. rewrite Nat.sub_0_r.
    assert (fblock (boot s) x <$> seq 0 (Z.to_nat MAXFILE) = replicate (Z.to_nat MAXFILE) zero_block) as ->.
    { apply list_eq. intros j. rewrite list_lookup_fmap. destruct (decide (j < Z.to_nat MAXFILE)%nat) as [Hj|Hj].
      - rewrite lookup_seq_lt, lookup_replicate_2 by done. cbn [fmap option_fmap option_map]. f_equal. unfold fblock. by rewrite E0.
      - rewrite lookup_seq_ge by lia. symmetry. apply lookup_ge_None_2. rewrite length_replicate. lia. }
    rewrite concat_zero. apply (f_equal (λ n, replicate n 0)). change MAXFILE with 140. change BSIZE with 512. lia.
Qed.

Lemma ialloc_spec s L type :
  filesys s L → 2 + Z.of_nat (length L) ≤ NINODES → 0 ≤ type < 32768 →
  ∃ s', mkfs_ialloc type s = Some (1 + Z.of_nat (length L), s') ∧
    filesys s' (L ++ [(new_inode (1 + Z.of_nat (length L)) type, [])]) ∧ freeblock s' = freeblock s.
Proof.
  intros [Y1 Y2 Y3 Y4 Y5 Y6 Y7] Hlim Ht. unfold mkfs_ialloc. change NINODES with 200 in *.
  rewrite Y2, (u32_small (1 + Z.of_nat (length L) + 1)), (xshort_id type) by lia. set (inum := 1 + Z.of_nat (length L)).
  change (set_i_size (xint 0) (set_i_nlink (xshort 1) (set_i_type type (dinode_slot inum)))) with (new_inode inum type).
  set (s1 := set_freeinode (inum + 1) s). assert (image s1) as Hi1 by (destruct Y1; by split).
  destruct (new_inode_blocks s1 inum type Hi1 Ht) as [Hb1 _].
  destruct (winode_spec s1 inum (new_inode inum type)) as (s2 & -> & W1 & W2 & W3 & W4 & W5 & W6); try done.
  { change NINODES with 200. unfold inum. lia. } { apply Hb1. }
  cbn [mbind option_bind]. eexists. split; [done|]. split; [|done].
  pose proof (new_inode_blocks s2 inum type W1 Ht) as Hnew.
  assert (∀ i x C, L !! i = Some (x, C) → file_blocks s2 x (Z.of_nat (length C)) ∧ fbytes (boot s2) x = fbytes (boot s) x ∧ owned (boot s2) x = owned (boot s) x) as Hold.
  { intros i x C Hi. destruct (Y5 i x C Hi) as [Hx _]. apply file_blocks_frame; [|by rewrite W4|done]. intros b Hb. rewrite W6; [done|].
    pose proof (fb_range _ _ _ Hx b Hb). change nmeta with 59 in *. lia. }
  assert (∀ j (z : inode * list Z), (L ++ [(new_inode inum type, [])]) !! j = Some z → L !! j = Some z ∨ (j = length L ∧ z = (new_inode inum type, []))) as Hcase.
  { intros j z [Hj|[Hj1 Hj2]]%lookup_app_Some; [by left|right]. apply list_lookup_singleton_Some in Hj2 as [? <-]. split; [lia|done]. }
  split; rewrite ?length_app; cbn [length].
  - done.
  - rewrite W5. cbn. unfold inum. lia.
  - change NINODES with 200. lia.
  - intros j x C [Hj|[-> [= -> ->]]]%Hcase; [|split_and!; [exact W2|reflexivity|reflexivity]]. destruct (Y4 j x C Hj) as (R1 & R2 & R3). split; [|done].
    pose proof (lookup_lt_Some _ _ _ Hj). rewrite W3; [done|change NINODES with 200; lia|unfold inum; lia].
  - intros j x C [Hj|[-> [= -> ->]]]%Hcase; [|exact Hnew]. destruct (Hold j x C Hj) as (R1 & R2 & _). split; [exact R1|]. rewrite R2. apply (Y5 j x C Hj).
  - intros j1 j2 x y C D b [Hj1|[-> [= -> ->]]]%Hcase [Hj2|[-> [= -> ->]]]%Hcase Hb1' Hb2'; [|by apply not_elem_of_nil in Hb2'|by apply not_elem_of_nil in Hb1'|done].
    destruct (Hold _ _ _ Hj1) as (_ & _ & E1), (Hold _ _ _ Hj2) as (_ & _ & E2). rewrite E1 in Hb1'. rewrite E2 in Hb2'. by eapply Y6.
  - rewrite W6 by lia. done.
Qed.

(** ** The command line *)

Lemma append_chunks_spec chunks s L i x C :
  filesys s L → L !! i = Some (x, C) → Z.of_nat (length C + length (concat chunks)) ≤ MAXFILE * BSIZE →
  freeblock s + (blocks_of (Z.of_nat (length C + length (concat chunks))) - blocks_of (Z.of_nat (length C))) ≤ FSSIZE →
  ∃ x' s', append_chunks (1 + Z.of_nat i) chunks s = Some s' ∧ filesys s' (<[i := (x', C ++ concat chunks)]> L) ∧
    freeblock s' = freeblock s + (blocks_of (Z.of_nat (length C + length (concat chunks))) - blocks_of (Z.of_nat (length C))) ∧
    i_type x' = i_type x ∧ i_nlink x' = i_nlink x.
Proof.
  revert s L x C. induction chunks as [|c chunks IH]; intros s L x C Hy Hi Hmax Hroom; cbn [append_chunks concat length] in *.
  - exists x, s. rewrite app_nil_r, Nat.add_0_r, list_insert_id by done. split; [done|]. split; [exact Hy|]. split; [lia|done].
  - rewrite length_app in *. pose proof (lookup_lt_Some _ _ _ Hi) as Hlt.
    pose proof (blocks_of_mono (Z.of_nat (length C + length c)) (Z.of_nat (length C + (length c + length (concat chunks)))) ltac:(lia)) as Hm.
    destruct (iappend_spec s L i x C c) as (x1 & s1 & -> & Hy1 & Hf1 & Ht1 & Hn1); [done|done|lia|lia|]. cbn [mbind option_bind].
    destruct (IH s1 (<[i := (x1, C ++ c)]> L) x1 (C ++ c)) as (x2 & s2 & -> & Hy2 & Hf2 & Ht2 & Hn2).
    + exact Hy1.
    + by rewrite list_lookup_insert_eq.
    + rewrite length_app. lia.
    + rewrite length_app, <- Nat.add_assoc, Hf1. lia.
    + exists x2, s2. rewrite list_insert_insert_eq, <- app_assoc in Hy2. rewrite length_app, <- Nat.add_assoc in Hf2.
      split; [done|]. split; [exact Hy2|]. split; [lia|]. split; congruence.
Qed.

(** The entry of a file in the root directory. *)
Definition entry (inum : Z) (name : list Z) : list Z := dirent_bytes (mk_de inum (name_bytes name)).

Definition stripped (name : list Z) : list Z := match name with 95 :: name => name | _ => name end.

Lemma length_entry inum name : length (entry inum name) = 16%nat.
Proof. unfold entry, dirent_bytes, name_bytes, bytes16. cbn [de_inum de_name app length]. rewrite length_take, length_app, length_replicate. unfold DIRSIZ. lia. Qed.

Definition file := (list Z * list (list Z))%type.

Definition file_bytes (f : file) : list Z := concat f.2.

(** The blocks one more file and its entry take, with [n] entries in the root. *)
Definition file_cost (n : Z) (f : file) : Z :=
  blocks_of (Z.of_nat (length (concat f.2))) + (blocks_of (16 * (n + 1)) - blocks_of (16 * n)).

Definition good_file (f : file) : Prop := SLASH ∉ f.1 ∧ Z.of_nat (length (concat f.2)) ≤ MAXFILE * BSIZE.

Lemma add_file_spec f s r D Ls :
  filesys s ((r, D) :: Ls) → good_file f → 3 + Z.of_nat (length Ls) ≤ NINODES → length D = (16 * (2 + length Ls))%nat →
  freeblock s + file_cost (2 + Z.of_nat (length Ls)) f ≤ FSSIZE →
  ∃ r' x s', add_file f s = Some s' ∧
    filesys s' ((r', D ++ entry (2 + Z.of_nat (length Ls)) (stripped f.1)) :: Ls ++ [(x, concat f.2)]) ∧
    freeblock s' = freeblock s + file_cost (2 + Z.of_nat (length Ls)) f ∧
    i_type x = T_FILE ∧ i_nlink x = 1 ∧ i_type r' = i_type r ∧ i_nlink r' = i_nlink r.
Proof.
  intros Hy [Hg1 Hg2] Hlim HD Hroom. destruct f as [name chunks]. cbn [fst snd] in *. unfold file_cost in *. cbn [fst snd] in *.
  unfold add_file. rewrite bool_decide_eq_false_2 by done. fold (stripped name). change NINODES with 200 in *.
  destruct (ialloc_spec s ((r, D) :: Ls) T_FILE) as (s1 & -> & Hy1 & Hf1); [done|cbn [length]; change NINODES with 200; lia|done|].
  cbn [mbind option_bind]. set (inum := 1 + Z.of_nat (length ((r, D) :: Ls))) in *.
  assert (inum = 2 + Z.of_nat (length Ls)) as Einum by (unfold inum; cbn [length]; lia).
  unfold append_entry, ROOTINO. rewrite (xshort_id inum) by lia. fold (entry inum (stripped name)).
  pose proof (length_entry inum (stripped name)) as Hle.
  assert (Z.of_nat (length D + length (entry inum (stripped name))) = 16 * (2 + Z.of_nat (length Ls) + 1) ∧ Z.of_nat (length D) = 16 * (2 + Z.of_nat (length Ls))) as [E1 E2] by lia.
  assert (0 ≤ blocks_of (Z.of_nat (length (concat chunks)))) as Hb0 by (pose proof (blocks_of_mono 0 (Z.of_nat (length (concat chunks))) ltac:(lia)); done).
  destruct (iappend_spec s1 (((r, D) :: Ls) ++ [(new_inode inum T_FILE, [])]) 0 r D (entry inum (stripped name))) as (r2 & s2 & Hrun2 & Hy2 & Hf2 & Ht2 & Hn2).
  { exact Hy1. } { done. } { rewrite E1. change MAXFILE with 140. change BSIZE with 512. lia. } { rewrite E1, E2, Hf1. lia. }
  change (1 + Z.of_nat 0) with 1 in Hrun2. rewrite Hrun2. cbn [mbind option_bind app] in *. rewrite E1, E2 in Hf2.
  destruct (append_chunks_spec chunks s2 ((r2, D ++ entry inum (stripped name)) :: Ls ++ [(new_inode inum T_FILE, [])]) (S (length Ls))
    (new_inode inum T_FILE) []) as (x3 & s3 & Hrun3 & Hy3 & Hf3 & Ht3 & Hn3).
  { exact Hy2. } { cbn. by apply list_lookup_middle. } { done. } { cbn [length]. rewrite Nat.add_0_l. change (blocks_of (Z.of_nat 0)) with 0. lia. }
  replace (1 + Z.of_nat (S (length Ls))) with inum in Hrun3 by lia. rewrite Hrun3. cbn [length app] in *. rewrite Nat.add_0_l in Hf3.
  change (blocks_of (Z.of_nat 0)) with 0 in Hf3. exists r2, x3, s3. split; [done|]. split.
  - change (<[S (length Ls) := (x3, concat chunks)]> ((r2, D ++ entry inum (stripped name)) :: Ls ++ [(new_inode inum T_FILE, [])]))
      with ((r2, D ++ entry inum (stripped name)) :: <[length Ls := (x3, concat chunks)]> (Ls ++ [(new_inode inum T_FILE, [])])) in Hy3.
    rewrite <- (Nat.add_0_r (length Ls)), insert_app_r in Hy3. rewrite <- Einum. exact Hy3.
  - split; [lia|]. split_and!; [exact Ht3|exact Hn3|exact Ht2|exact Hn2].
Qed.

Fixpoint files_cost (n : Z) (fs : list file) : Z :=
  match fs with
  | [] => 0
  | f :: fs => file_cost n f + files_cost (n + 1) fs
  end.

Fixpoint entries_of (inum : Z) (fs : list file) : list Z :=
  match fs with
  | [] => []
  | f :: fs => entry inum (stripped f.1) ++ entries_of (inum + 1) fs
  end.

Lemma files_cost_pos n fs : 0 ≤ n → 0 ≤ files_cost n fs.
Proof.
  revert n. induction fs as [|f fs IH]; intros n Hn; cbn [files_cost]; [done|]. specialize (IH (n + 1) ltac:(lia)). unfold file_cost.
  pose proof (blocks_of_mono 0 (Z.of_nat (length (concat f.2))) ltac:(lia)) as H1. pose proof (blocks_of_mono (16 * n) (16 * (n + 1)) ltac:(lia)).
  change (blocks_of 0) with 0 in H1. lia.
Qed.

Lemma add_files_spec fs s r D Ls :
  filesys s ((r, D) :: Ls) → Forall good_file fs → 2 + Z.of_nat (length Ls + length fs) ≤ NINODES → length D = (16 * (2 + length Ls))%nat →
  freeblock s + files_cost (2 + Z.of_nat (length Ls)) fs ≤ FSSIZE →
  ∃ r' xs s', add_files fs s = Some s' ∧ length xs = length fs ∧
    filesys s' ((r', D ++ entries_of (2 + Z.of_nat (length Ls)) fs) :: Ls ++ zip xs (file_bytes <$> fs)) ∧
    Forall (λ x, i_type x = T_FILE ∧ i_nlink x = 1) xs ∧ i_type r' = i_type r ∧ i_nlink r' = i_nlink r.
Proof.
  revert s r D Ls. induction fs as [|f fs IH]; intros s r D Ls Hy Hg Hlim HD Hroom; cbn [add_files files_cost entries_of length] in *.
  - exists r, [], s. rewrite !app_nil_r. split; [done|]. split; [done|]. split; [exact Hy|]. done.
  - apply Forall_cons in Hg as [Hg1 Hg]. pose proof (files_cost_pos (2 + Z.of_nat (length Ls) + 1) fs ltac:(lia)) as Hpos.
    destruct (add_file_spec f s r D Ls) as (r1 & x & s1 & -> & Hy1 & Hf1 & Hx1 & Hx2 & Hr1 & Hr2); [done|done|lia|done|lia|].
    cbn [mbind option_bind].
    destruct (IH s1 r1 (D ++ entry (2 + Z.of_nat (length Ls)) (stripped f.1)) (Ls ++ [(x, concat f.2)])) as (r2 & xs & s2 & -> & Hl & Hy2 & Hxs & Hr3 & Hr4).
    + exact Hy1.
    + exact Hg.
    + rewrite length_app. cbn [length]. lia.
    + rewrite !length_app, length_entry. cbn [length]. lia.
    + rewrite length_app, Hf1. cbn [length]. replace (2 + Z.of_nat (length Ls + 1)) with (2 + Z.of_nat (length Ls) + 1) by lia. lia.
    + rewrite length_app in Hy2. cbn [length] in Hy2. rewrite <- !app_assoc in Hy2.
      replace (2 + Z.of_nat (length Ls + 1)) with (2 + Z.of_nat (length Ls) + 1) in Hy2 by lia.
      exists r2, (x :: xs), s2. split; [done|]. split; [cbn; lia|]. split; [exact Hy2|]. split; [by apply Forall_cons|]. split; congruence.
Qed.

(** ** The beginning and the end *)

Lemma zero_sects_spec n i s b :
  img (zero_sects n i s) !! b = (if (i <=? b) && (b <? i + Z.of_nat n) then Some zero_block else img s !! b) ∧
  img_sb (zero_sects n i s) = img_sb s ∧ freeinode (zero_sects n i s) = freeinode s ∧ freeblock (zero_sects n i s) = freeblock s.
Proof.
  revert i s. induction n as [|n IH]; intros i s; cbn [zero_sects].
  - destruct (Z.leb_spec i b), (Z.ltb_spec b (i + Z.of_nat 0)); cbn [andb]; try done; lia.
  - destruct (IH (i + 1) (wsect i zero_block s)) as (-> & -> & -> & ->). split; [|done]. cbn [img wsect set_img].
    destruct (decide (b = i)) as [->|Hne].
    + rewrite lookup_insert_eq. destruct (Z.leb_spec i i), (Z.ltb_spec i (i + Z.of_nat (S n))), (Z.leb_spec (i + 1) i); cbn [andb]; done || lia.
    + rewrite lookup_insert_ne by done.
      destruct (Z.leb_spec i b), (Z.ltb_spec b (i + Z.of_nat (S n))), (Z.leb_spec (i + 1) b), (Z.ltb_spec b (i + 1 + Z.of_nat n)); cbn [andb]; done || lia.
Qed.

Lemma start_spec n d s b :
  let s' := wsect 1 d (zero_sects n 0 s) in
  img s' !! b = (if b =? 1 then Some d else if (0 <=? b) && (b <? Z.of_nat n) then Some zero_block else img s !! b) ∧
  img_sb s' = img_sb s ∧ freeinode s' = freeinode s ∧ freeblock s' = freeblock s.
Proof.
  cbn [img img_sb freeinode freeblock wsect set_img]. destruct (zero_sects_spec n 0 s b) as (Hb & -> & -> & ->). split; [|done].
  destruct (Z.eqb_spec b 1) as [->|Hne]; [by rewrite lookup_insert_eq|]. by rewrite lookup_insert_ne, Hb by done.
Qed.

Lemma start_block b :
  img mkfs_start !! b = if b =? 1 then Some (list_inserts 0 (sb_bytes the_sb) zero_block)
    else if (0 <=? b) && (b <? FSSIZE) then Some zero_block else None.
Proof. exact (proj1 (start_spec (Z.to_nat FSSIZE) _ (mk_mkfs ∅ the_sb 1 nmeta) b)). Qed.

Lemma start_fields : img_sb mkfs_start = the_sb ∧ freeinode mkfs_start = 1 ∧ freeblock mkfs_start = nmeta.
Proof. exact (proj2 (start_spec (Z.to_nat FSSIZE) _ (mk_mkfs ∅ the_sb 1 nmeta) 0)). Qed.

#[local] Opaque mkfs_start.

Lemma start_image : image mkfs_start.
Proof.
  destruct start_fields as (H1 & _ & H3). split.
  - exact H1.
  - intros b Hb. rewrite start_block. destruct (Z.eqb_spec b 1); [eexists; split; [done|by rewrite length_inserts]|].
    exists zero_block. rewrite (proj2 (Z.leb_le 0 b)), (proj2 (Z.ltb_lt b FSSIZE)) by lia. by clear.
  - by rewrite H3; clear.
  - rewrite H3. clear. change nmeta with 59. intros b Hb.
    rewrite start_block, (proj2 (Z.eqb_neq b 1)), (proj2 (Z.leb_le 0 b)), (proj2 (Z.ltb_lt b FSSIZE)) by lia. done.
Qed.

Lemma start_filesys : filesys mkfs_start [].
Proof.
  split.
  - exact start_image.
  - exact (proj1 (proj2 start_fields)).
  - done.
  - by intros.
  - by intros.
  - by intros.
  - exact (start_block 1).
Qed.

(** The first [n] bits are set. *)
Lemma mark_used_spec n i buf b :
  0 ≤ i → i + Z.of_nat n ≤ 4096 → length buf = 512%nat → 0 ≤ b < 4096 →
  length (mark_used n i buf) = 512%nat ∧
  bit_clear (mark_used n i buf) b = (if (i <=? b) && (b <? i + Z.of_nat n) then false else bit_clear buf b).
Proof.
  revert i buf. induction n as [|n IH]; intros i buf Hi Hn Hl Hb; cbn [mark_used].
  - split; [done|]. destruct (Z.leb_spec i b), (Z.ltb_spec b (i + Z.of_nat 0)); cbn [andb]; done || lia.
  - destruct (IH (i + 1) (set_bit buf i)) as [-> ->]; [lia|lia|by rewrite length_set_bit|done|]. split; [done|].
    rewrite set_bit_spec by (lia || (rewrite Hl; lia_mod)).
    destruct (Z.eqb_spec b i), (Z.leb_spec i b), (Z.ltb_spec b (i + Z.of_nat (S n))), (Z.leb_spec (i + 1) b), (Z.ltb_spec b (i + 1 + Z.of_nat n));
      cbn [andb]; done || lia.
Qed.

Lemma bit_clear_zero b : 0 ≤ b < 4096 → bit_clear zero_block b = true.
Proof.
  intros Hb. rewrite bit_clear_testbit by lia. unfold byte_at, zero_block. rewrite lookup_replicate_2 by (change (Z.to_nat BSIZE) with 512%nat; lia_mod).
  cbn. by rewrite Z.bits_0.
Qed.

(** ** The kernel on the image *)

(** [k] has booted from the image: it sees its blocks, and has read the super
    block ([readsb]). *)
Definition sb_read (d : list Z) : superblock :=
  mk_sb (get32 d 0) (get32 d 4) (get32 d 8) (get32 d 12) (get32 d 16) (get32 d 20) (get32 d 24).

Definition booted (s : mkfs) (k : K) : Prop :=
  k_sb k = sb_read (view k 1) ∧ ∀ n, view k n = default zero_block (img s !! n).

(** What [ilock] reads for inode [inum]. *)
Definition on_disk (k : K) (inum : Z) (x : inode) : Prop :=
  load_dinode (view k (IBLOCK inum (k_sb k))) (dinode_slot inum) = x.

Lemma booted_sb s k : booted s k → img s !! 1 = Some (list_inserts 0 (sb_bytes the_sb) zero_block) → k_sb k = the_sb.
Proof. intros [Hsb Hv] H1. rewrite Hsb, Hv, H1. reflexivity. Qed.

Lemma booted_file s k x :
  booted s k → addrs_of k x = addrs_of (boot s) x ∧ owned k x = owned (boot s) x ∧ fbytes k x = fbytes (boot s) x ∧
    (∀ bn, block_addr k x bn = block_addr (boot s) x bn).
Proof.
  intros [_ Hv]. assert (∀ n, view k n = view (boot s) n) as Hv' by (intros n; by rewrite Hv, view_boot).
  assert (addrs_of k x = addrs_of (boot s) x) as Ea by (apply addrs_of_ext; intros _; apply Hv').
  split; [done|]. split; [unfold owned; by rewrite Ea|]. split; [|intros bn; unfold block_addr; by rewrite Ea].
  unfold fbytes. f_equal. apply list_fmap_ext. intros j b _. apply fblock_ext. intros; apply Hv'.
Qed.

(** The bitmap says which blocks were handed out. *)
Lemma booted_free s k d :
  booted s k → k_sb k = the_sb → img s !! 58 = Some d → (∀ b, 0 ≤ b < 4096 → bit_clear d b = (freeblock s <=? b)) →
  ∀ b, is_free k b ↔ 0 ≤ b ∧ freeblock s ≤ b < FSSIZE.
Proof.
  intros [_ Hv] Hsb Hd Hbits b. unfold is_free, bmap_block. rewrite Hsb. change (sb_bmapstart the_sb) with 58. change (sb_size the_sb) with FSSIZE.
  rewrite Hv, Hd. cbn [default from_option id]. change FSSIZE with 1000. split.
  - intros [Hb Hc]. rewrite Hbits in Hc by lia. apply Z.leb_le in Hc. lia.
  - intros (Hb & Hf & Hlt). split; [lia|]. rewrite Hbits by lia. apply Z.leb_le. lia.
Qed.

Lemma booted_inode_ok s k x n inum :
  booted s k → k_sb k = the_sb → (∀ b, is_free k b ↔ 0 ≤ b ∧ freeblock s ≤ b < FSSIZE) → freeblock s ≤ FSSIZE →
  file_blocks s x n → is_slot inum x → 0 ≤ inum < NINODES → inode_ok k x.
Proof.
  intros Hb Hsb Hfree Hf [F1 F2 F3 F4 F5 F6] Hs Hi. destruct (booted_file s k x Hb) as (_ & Eo & _ & _).
  split; rewrite ?Eo; try done.
  - by rewrite Hs.
  - rewrite Hs, Hsb. exact Hi.
  - intros b Hbo. pose proof (F6 b Hbo) as Hr. unfold bmap_block. rewrite Hsb. change (sb_bmapstart the_sb) with 58. change (sb_size the_sb) with FSSIZE.
    change nmeta with 59 in *. rewrite Hfree. split; lia.
Qed.

Lemma padded_contents s k x C :
  booted s k → fbytes (boot s) x = padded C → Z.of_nat (length C) ≤ i_size x ≤ MAXFILE * BSIZE →
  contents k x = C ++ replicate (Z.to_nat (i_size x) - length C) 0.
Proof.
  intros Hb Hc Hs. destruct (booted_file s k x Hb) as (_ & _ & Ef & _). unfold contents. rewrite Ef, Hc. unfold padded.
  rewrite take_app, take_ge by lia. f_equal. rewrite take_replicate. f_equal. lia.
Qed.

Lemma rinode_on_disk s k inum x : booted s k → k_sb k = the_sb → img_sb s = the_sb → rinode inum s = Some x → on_disk k inum x.
Proof.
  intros [_ Hv] Hsb Hs. unfold rinode, rsect, on_disk. rewrite Hsb, Hs, Hv. destruct (img s !! _); cbn; [|done]. by intros [= <-].
Qed.

(** The last two steps: the size of the root and the bitmap. *)
Definition root_size (n : Z) : Z := (n / BSIZE + 1) * BSIZE.

Lemma finish_spec s r D Ls :
  filesys s ((r, D) :: Ls) → Z.of_nat (length D) < NDIRECT * BSIZE →
  ∃ s', (s1 ← fix_root s; mkfs_balloc (freeblock s1) s1) = Some s' ∧ img_sb s' = the_sb ∧ freeblock s' = freeblock s ∧
    img s' !! 1 = img s !! 1 ∧ rinode 1 s' = Some (set_i_size (root_size (Z.of_nat (length D))) r) ∧
    (∀ j, 0 ≤ j < NINODES → j ≠ 1 → rinode j s' = rinode j s) ∧ (∀ b, nmeta ≤ b → img s' !! b = img s !! b) ∧
    ∃ d, img s' !! 58 = Some d ∧ ∀ b, 0 ≤ b < 4096 → bit_clear d b = (freeblock s <=? b).
Proof.
  intros Hy HD. destruct (fy_inode _ _ Hy 0 r D eq_refl) as (Hr & Hs & Hsz). destruct (fy_file _ _ Hy 0 r D eq_refl) as [Hb _].
  pose proof (im_free _ (fy_image _ _ Hy)) as Hf. change (1 + Z.of_nat 0) with 1 in *.
  set (n := Z.of_nat (length D)) in *. assert (0 ≤ n) as Hn by (unfold n; lia).
  assert (root_size n = (n / 512 + 1) * 512 ∧ 0 ≤ root_size n ≤ 6144) as [En Hrs].
  { unfold root_size. change BSIZE with 512 in *. change NDIRECT with 12 in *. lia_mod. }
  unfold fix_root, ROOTINO. rewrite Hr. cbn [mbind option_bind]. rewrite Hsz, (xint_id n) by (change NDIRECT with 12 in *; change BSIZE with 512 in *; lia).
  fold (root_size n). rewrite (u32_small (root_size n)), (xint_id (root_size n)) by lia. set (r' := set_i_size (root_size n) r).
  assert (inode_wf r') as Hwf by (destruct (fb_wf _ _ _ Hb); split; try done; cbn; lia).
  assert (is_slot 1 r') as Hs' by (unfold is_slot, r'; rewrite Hs; done).
  destruct (winode_spec s 1 r') as (s1 & -> & W1 & W2 & W3 & W4 & W5 & W6); try done; [apply Hy|]. cbn [mbind option_bind].
  unfold mkfs_balloc. rewrite W4. change FSSIZE with 1000 in *. change nmeta with 59 in *. change BSIZE with 512.
  rewrite (proj2 (Z.ltb_lt _ _)) by lia. rewrite (im_sb _ W1). change (sb_bmapstart the_sb) with 58. eexists. split; [done|].
  cbn [img_sb freeblock wsect set_img]. set (d := mark_used _ _ _). split_and!.
  - exact (im_sb _ W1).
  - exact W4.
  - cbn [img wsect set_img]. rewrite lookup_insert_ne by done. apply W6. lia.
  - rewrite <- W2. unfold rinode, rsect. cbn [img img_sb set_img wsect]. rewrite (im_sb _ W1). by rewrite lookup_insert_ne by done.
  - intros j Hj Hne. rewrite <- W3 by done. unfold rinode, rsect. cbn [img img_sb set_img wsect]. rewrite (im_sb _ W1).
    destruct (mkfs_iblock_range j Hj) as [_ ?]. by rewrite lookup_insert_ne by lia.
  - intros b Hbr. cbn [img wsect set_img]. rewrite lookup_insert_ne by lia. apply W6. lia.
  - exists d. cbn [img wsect set_img]. rewrite lookup_insert_eq. split; [done|]. intros b Hbr.
    destruct (mark_used_spec (Z.to_nat (freeblock s)) 0 zero_block b) as [_ E]; [lia|lia|done|done|]. unfold d. rewrite E, bit_clear_zero, Z2Nat.id by lia.
    destruct (Z.leb_spec 0 b), (Z.ltb_spec b (0 + freeblock s)), (Z.leb_spec (freeblock s) b); cbn [andb]; done || lia.
Qed.

(** The contents of the root directory. *)
Definition root_bytes (files : list file) : list Z := entry 1 [46] ++ entry 1 [46; 46] ++ entries_of 2 files.

Lemma length_entries_of inum fs : length (entries_of inum fs) = (16 * length fs)%nat.
Proof. revert inum. induction fs as [|f fs IH]; intros inum; cbn [entries_of length]; [done|]. rewrite length_app, length_entry, IH. lia. Qed.

(** Everything up to the last two steps. *)
Lemma build_spec files :
  Forall good_file files → 2 + Z.of_nat (length files) ≤ NINODES → nmeta + 1 + files_cost 2 files ≤ FSSIZE →
  ∃ s r xs, filesys s ((r, root_bytes files) :: zip xs (file_bytes <$> files)) ∧ length xs = length files ∧
    Forall (λ x, i_type x = T_FILE ∧ i_nlink x = 1) xs ∧ i_type r = T_DIR ∧ i_nlink r = 1 ∧
    mkfs_main files = (s1 ← fix_root s; mkfs_balloc (freeblock s1) s1).
Proof.
  intros Hg Hlim Hroom. pose proof (files_cost_pos 2 files ltac:(lia)) as Hpos.
  destruct (ialloc_spec mkfs_start [] T_DIR start_filesys) as (s0 & Hrun0 & Hy0 & Hf0); [done|done|].
  cbn [length app] in *. change (1 + Z.of_nat 0) with 1 in *.
  destruct start_fields as (_ & _ & Hfs).
  destruct (iappend_spec s0 [(new_inode 1 T_DIR, [])] 0 (new_inode 1 T_DIR) [] (entry 1 [46])) as (r1 & s1 & Hrun1 & Hy1 & Hf1 & Ht1 & Hn1).
  { exact Hy0. } { done. } { rewrite length_entry. done. } { rewrite length_entry, Hf0, Hfs. change (blocks_of _ - _) with 1. change nmeta with 59 in *. change FSSIZE with 1000 in *. lia. }
  rewrite length_entry in Hf1. change (blocks_of _ - _) with 1 in Hf1.
  destruct (iappend_spec s1 [(r1, entry 1 [46])] 0 r1 (entry 1 [46]) (entry 1 [46; 46])) as (r2 & s2 & Hrun2 & Hy2 & Hf2 & Ht2 & Hn2).
  { exact Hy1. } { done. } { rewrite !length_entry. done. } { rewrite !length_entry, Hf1, Hf0, Hfs. change (blocks_of _ - _) with 0. change nmeta with 59 in *. change FSSIZE with 1000 in *. lia. }
  rewrite !length_entry in Hf2. change (blocks_of _ - _) with 0 in Hf2. change (1 + Z.of_nat 0) with 1 in *.
  destruct (add_files_spec files s2 r2 (entry 1 [46] ++ entry 1 [46; 46]) []) as (r3 & xs & s3 & Hrun3 & Hl & Hy3 & Hxs & Ht3 & Hn3).
  { exact Hy2. } { done. } { cbn [length]. lia. } { by rewrite length_app, !length_entry. } { rewrite Hf2, Hf1, Hf0, Hfs. cbn [length]. change (2 + Z.of_nat 0) with 2. lia. }
  exists s3, r3, xs. split; [unfold root_bytes; rewrite app_assoc; exact Hy3|]. split; [done|]. split; [done|].
  split; [by rewrite Ht3, Ht2, Ht1|]. split; [by rewrite Hn3, Hn2, Hn1|].
  unfold mkfs_main. rewrite Hrun0. cbn [mbind option_bind]. unfold ROOTINO. rewrite Z.eqb_refl. unfold append_entry.
  change (xshort 1) with 1. fold (entry 1 [46]) (entry 1 [46; 46]). rewrite Hrun1. cbn [mbind option_bind]. rewrite Hrun2. cbn [mbind option_bind]. by rewrite Hrun3.
Qed.

Lemma booted_alloc s k :
  k_sb k = the_sb → (∀ b, is_free k b ↔ 0 ≤ b ∧ freeblock s ≤ b < FSSIZE) → nmeta ≤ freeblock s → alloc_inv 2 30 k.
Proof.
  intros Hsb Hfree Hf. split; [rewrite Hsb; by split|]. intros b Hb%Hfree. unfold bmap_block. rewrite Hsb.
  change (sb_bmapstart the_sb) with 58. change nmeta with 59 in *. lia.
Qed.

(** C12: [mkfs] builds the file system it was asked for.  For files without a
    slash in their names that fit on the disk, and not too many of them, it
    succeeds, and a kernel that boots from the image finds: the layout in the
    super block; free exactly the blocks that were not handed out, all of them
    data blocks; in inode 1 a directory with the entries ".", ".." and one for
    each file, followed by empty entries; and for each file an inode of its own
    with its contents, no holes, and blocks that are marked in use. *)
Theorem mkfs_builds files :
  Forall good_file files → 2 + Z.of_nat (length files) ≤ NINODES → nmeta + 1 + files_cost 2 files ≤ FSSIZE →
  ∃ s, mkfs_main files = Some s ∧ ∀ k, booted s k →
    alloc_inv 2 30 k ∧ (∀ b, is_free k b ↔ 0 ≤ b ∧ freeblock s ≤ b < FSSIZE) ∧
    (∃ r, on_disk k 1 r ∧ inode_ok k r ∧ i_type r = T_DIR ∧
       contents k r = root_bytes files ++ replicate (Z.to_nat (i_size r) - length (root_bytes files)) 0) ∧
    (∀ i f, files !! i = Some f → ∃ x, on_disk k (2 + Z.of_nat i) x ∧ inode_ok k x ∧ i_type x = T_FILE ∧ i_nlink x = 1 ∧
       no_holes k x ∧ contents k x = file_bytes f).
Proof.
  intros Hg Hlim Hroom. destruct (build_spec files Hg Hlim Hroom) as (s & r & xs & Hy & Hl & Hxs & Hrt & Hrn & ->).
  assert (Z.of_nat (length (root_bytes files)) = 16 * (2 + Z.of_nat (length files))) as HD.
  { unfold root_bytes. rewrite !length_app, !length_entry, length_entries_of. lia. }
  destruct (finish_spec s r (root_bytes files) _ Hy) as (s' & -> & Hsb & Hfb & H1 & Hr1 & Hrj & Hdata & d & Hd & Hbits).
  { rewrite HD. change NDIRECT with 12. change BSIZE with 512. change NINODES with 200 in *. lia. }
  exists s'. split; [done|]. intros k Hk. rewrite <- Hfb in Hbits. rewrite (fy_super _ _ Hy) in H1.
  pose proof (booted_sb s' k Hk H1) as Hksb. pose proof (booted_free s' k d Hk Hksb Hd Hbits) as Hfree.
  pose proof (im_free _ (fy_image _ _ Hy)) as Hf. rewrite <- Hfb in Hf.
  assert (∀ x n, file_blocks s x n → file_blocks s' x n ∧ fbytes (boot s') x = fbytes (boot s) x) as Hkeep.
  { intros x n Hx. destruct (file_blocks_frame s s' x n) as (? & ? & _); [|by rewrite Hfb|done|by split].
    intros b Hb. apply Hdata. by apply (fb_range _ _ _ Hx). }
  split; [apply (booted_alloc s'); [done|done|lia]|]. split; [done|]. split.
  - destruct (fy_inode _ _ Hy 0 _ _ eq_refl) as (_ & Hs & Hsz). destruct (fy_file _ _ Hy 0 _ _ eq_refl) as [Hb Hc].
    set (r' := set_i_size (root_size (Z.of_nat (length (root_bytes files)))) r) in *.
    assert (Z.of_nat (length (root_bytes files)) ≤ i_size r' ≤ 6144) as Hsize.
    { unfold r', root_size. cbn [i_size set_i_size]. rewrite HD. change BSIZE with 512. change NINODES with 200 in *. lia_mod. }
    assert (file_blocks s r' (Z.of_nat (length (root_bytes files)))) as Hb'.
    { destruct Hb as [F1 F2 F3 F4 F5 F6]. split; try done. destruct F1. split; try done. cbn. unfold r' in Hsize. cbn in Hsize. lia. }
    destruct (Hkeep r' _ Hb') as [Hb2 Hc2]. exists r'. split; [by eapply rinode_on_disk|]. split; [|split; [exact Hrt|]].
    + eapply (booted_inode_ok s' k r' _ 1); try done; [lia|]. unfold is_slot, r'. rewrite Hs. done.
    + eapply (padded_contents s'); [done| |change MAXFILE with 140; change BSIZE with 512; lia]. rewrite Hc2. exact Hc.
  - intros i f Hi. destruct (lookup_lt_is_Some_2 xs i) as [x Hx]; [rewrite Hl; by eapply lookup_lt_Some|].
    assert (((r, root_bytes files) :: zip xs (file_bytes <$> files)) !! S i = Some (x, file_bytes f)) as HL.
    { change (zip xs (file_bytes <$> files) !! i = Some (x, file_bytes f)). rewrite lookup_zip_with, Hx, list_lookup_fmap, Hi. done. }
    destruct (fy_inode _ _ Hy _ _ _ HL) as (Hr & Hs & Hsz). destruct (fy_file _ _ Hy _ _ _ HL) as [Hb Hc].
    replace (1 + Z.of_nat (S i)) with (2 + Z.of_nat i) in * by lia. destruct (Hkeep x _ Hb) as [Hb2 Hc2].
    pose proof (lookup_lt_Some _ _ _ Hi) as Hlt. change NINODES with 200 in *. rewrite Forall_lookup in Hxs. destruct (Hxs i x Hx) as [Ht Hn].
    exists x. split; [eapply (rinode_on_disk s'); try done; rewrite Hrj; [done|change NINODES with 200; lia|lia]|].
    split; [eapply (booted_inode_ok s' k x _ (2 + Z.of_nat i)); try done; [lia|change NINODES with 200; lia]|]. split; [exact Ht|]. split; [exact Hn|]. split.
    + intros bn Hbn Hlt'. destruct (booted_file s' k x Hk) as (_ & _ & _ & ->). apply (fb_addr _ _ _ Hb2). rewrite Z2Nat.id by done. lia.
    + rewrite (padded_contents s' k x (file_bytes f) Hk).
      * rewrite Hsz, Nat2Z.id, Nat.sub_diag. cbn. apply app_nil_r.
      * rewrite Hc2. exact Hc.
      * pose proof (fb_size _ _ _ Hb). lia.
Qed.

(** Two files, the second of 600 bytes read in two parts. *)
Definition demo_args : list file := [([95; 99; 97; 116], [[1; 2; 3]]); ([97], [replicate 512 7; replicate 88 8])].

Lemma mkfs_builds_witness :
  ∃ s, mkfs_main demo_args = Some s ∧ ∀ k, booted s k →
    ∃ x, on_disk k 3 x ∧ i_type x = T_FILE ∧ contents k x = replicate 512 7 ++ replicate 88 8.
Proof.
  destruct (mkfs_builds demo_args) as (s & Hrun & Hk).
  - unfold demo_args. repeat (apply Forall_cons; split); [| |by apply Forall_nil]; (split; [by apply (bool_decide_unpack _)|vm_compute; discriminate]).
  - vm_compute. discriminate.
  - vm_compute. discriminate.
  - exists s. split; [exact Hrun|]. intros k Hb. destruct (Hk k Hb) as (_ & _ & _ & Hf).
    destruct (Hf 1%nat _ eq_refl) as (x & Hx & _ & Ht & _ & _ & Hc). exists x. split; [exact Hx|]. split; [exact Ht|]. rewrite Hc. reflexivity.
Defined.
