(* ===== verification/User.v ===== *)
(** * User programs ([user.h], [fcntl.h])

    A user program is a function that makes system calls.  What it runs on is the
    class [Os]: a state and a function that answers a call.  A program does not
    depend on the instance; what is proved of a program names the promises it
    needs of the answers.  The instance [stdio] answers the calls on files as the
    manual says. *)

From stdpp Require Import base numbers list gmap.
From S2P Require Import Prelude Mmu Hardware Memory.

Declare Scope user_scope.
Delimit Scope user_scope with user.

(** The system calls of [user.h]; strings and buffers are passed by their
    contents, functions by their addresses. *)
Inductive call :=
| CFork | CExit | CWait | CPipe
| CWrite (fd : Z) (buf : list Z)
| CRead (fd n : Z)
| CClose (fd : Z)
| CKill (pid : Z)
| CExec (path : list Z) (argv : list (list Z))
| COpen (path : list Z) (mode : Z)
| CMknod (path : list Z) (major minor : Z)
| CUnlink (path : list Z)
| CFstat (fd : Z)
| CLink (old new : list Z)
| CMkdir (path : list Z)
| CChdir (path : list Z)
| CDup (fd : Z)
| CGetpid
| CSbrk (n : Z)
| CSleep (n : Z)
| CUptime
| CClone (function arg stack : Z)
| CJoin
| CChange_tickets (pid tickets : Z)
| CMutex_init
| CMutex_lock (id : Z)
| CMutex_unlock (id : Z)
| CBarrier_init (n : Z)
| CBarrier_lock.

(** The value a call returns, and what it stores through its pointer: the bytes
    read, the two descriptors of a pipe, the fields of a [struct stat], the stack
    of the thread joined. *)
Record answer := mk_answer { a_ret : Z; a_data : list Z }.

Class Os (S : Type) := sys : call → S → answer * S.

(** ** The monad *)

(** A program returns, has exited, has done something undefined, or is still
    running after the number of loop turns it was given. *)
Inductive ures (S A : Type) :=
| URet (a : A) (s : S)
| UExit (s : S)
| UFault (s : S)
| UMore (s : S).
Arguments URet {S A} a s.
Arguments UExit {S A} s.
Arguments UFault {S A} s.
Arguments UMore {S A} s.

Definition U (S A : Type) := S → ures S A.

Definition uret {S A} (a : A) : U S A := λ s, URet a s.

Definition ubind {S A B} (m : U S A) (f : A → U S B) : U S B := λ s,
  match m s with
  | URet a s => f a s
  | UExit s => UExit s
  | UFault s => UFault s
  | UMore s => UMore s
  end.

Notation "'let!' x ':=' m 'in' f" := (ubind m (λ x, f))
  (at level 200, x binder, right associativity) : user_scope.
Notation "m ;;; f" := (ubind m (λ _, f))
  (at level 100, right associativity) : user_scope.

Definition ufault {S A} : U S A := λ s, UFault s.

Definition uwhen {S} (b : bool) (m : U S unit) : U S unit := if b then m else uret tt.

(** An access that is undefined when it is [None]. *)
Definition uget {S A} (x : option A) : U S A :=
  match x with Some a => uret a | None => ufault end.

(** [for(;;)], [while] and [do]: the body says how to go on ([inl]) or what the
    loop gives ([inr]). *)
Fixpoint uloop {S X A} (fuel : nat) (body : X → U S (X + A)) (x : X) : U S A :=
  match fuel with
  | O => λ s, UMore s
  | S fuel =>
      ubind (body x) (λ r, match r with inl x => uloop fuel body x | inr a => uret a end)
  end.

Section calls.
Context {S : Type} `{Os S}.

Definition ucall (c : call) : U S answer := λ s, let '(a, s') := sys c s in URet a s'.
Definition usys (c : call) : U S Z := ubind (ucall c) (λ a, uret (a_ret a)).
Definition exit {A} : U S A := λ s, UExit (sys CExit s).2.

(** [exec] returns only when it fails; otherwise the program is no longer there. *)
Definition exec (path : list Z) (argv : list (list Z)) : U S Z := λ s,
  let '(a, s') := sys (CExec path argv) s in
  if a_ret a <? 0 then URet (a_ret a) s' else UExit s'.

End calls.

(** ** Facts *)

Lemma ubind_ret {S A B} (a : A) (f : A → U S B) s : ubind (uret a) f s = f a s.
Proof. done. Qed.

Lemma ubind_step {S A B} (m : U S A) (f : A → U S B) s a s' :
  m s = URet a s' → ubind m f s = f a s'.
Proof. unfold ubind. by intros ->. Qed.

Lemma ubind_assoc {S A B C} (m : U S A) (f : A → U S B) (g : B → U S C) s :
  ubind (ubind m f) g s = ubind m (λ x, ubind (f x) g) s.
Proof. unfold ubind. by destruct (m s). Qed.

Lemma ubind_ext {S A B} (m : U S A) (f g : A → U S B) s :
  (∀ a s, f a s = g a s) → ubind m f s = ubind m g s.
Proof. intros E. unfold ubind. by destruct (m s). Qed.

Lemma ubind_ucall {S B} `{Os S} c (f : answer → U S B) s a s' :
  sys c s = (a, s') → ubind (ucall c) f s = f a s'.
Proof. unfold ubind, ucall. by intros ->. Qed.

Lemma ubind_usys {S B} `{Os S} c (f : Z → U S B) s a s' :
  sys c s = (a, s') → ubind (usys c) f s = f (a_ret a) s'.
Proof. unfold ubind, usys, ucall, ubind. by intros ->. Qed.

(** A loop whose body goes on from [x] to [x']. *)
Lemma uloop_next {S X A} fuel (body : X → U S (X + A)) x s x' s' :
  body x s = URet (inl x') s' → uloop (1 + fuel) body x s = uloop fuel body x' s'.
Proof. cbn [uloop Nat.add]. unfold ubind. by intros ->. Qed.

Lemma uloop_done {S X A} fuel (body : X → U S (X + A)) x s a s' :
  body x s = URet (inr a) s' → uloop (1 + fuel) body x s = URet a s'.
Proof. cbn [uloop Nat.add]. unfold ubind. by intros ->. Qed.

(** More turns do no harm. *)
Lemma uloop_more {S X A} n m (body : X → U S (X + A)) x s a s' :
  uloop n body x s = URet a s' → (n ≤ m)%nat → uloop m body x s = URet a s'.
Proof.
  revert m x s. induction n as [|n IH]; intros m x s E Hm; [done|]. destruct m as [|m]; [lia|].
  cbn [uloop] in *. unfold ubind in *. destruct (body x s) as [[x1|a1] s1| | |]; try done. apply IH; [done|lia].
Qed.

(** ** Files, as a process sees them *)

(** The named files, what is left to read of each open descriptor, how much each
    coming [read] gives at most (a file gives all there is; a pipe or the
    console may give less), and what was written to which descriptor. *)
Record stdio := mk_stdio {
  io_files : gmap (list Z) (list Z);
  io_open : gmap Z (list Z);
  io_short : list nat;
  io_out : list (Z * list Z)
}.

Definition set_io_open (v : gmap Z (list Z)) (s : stdio) : stdio := mk_stdio (io_files s) v (io_short s) (io_out s).

(** The descriptor a new file gets: the lowest that is not in use, of the sixteen
    there are. *)
Definition lowest_fd {A} (t : gmap Z A) : option Z := head (filter (λ fd, t !! fd = None) (seqZ 0 16)).

Definition stdio_sys (c : call) (s : stdio) : answer * stdio :=
  match c with
  | CWrite fd buf => (mk_answer (Z.of_nat (length buf)) [], mk_stdio (io_files s) (io_open s) (io_short s) (io_out s ++ [(fd, buf)]))
  | CRead fd n =>
      match io_open s !! fd with
      | Some data =>
          let m := Nat.min (Z.to_nat n) (default (Z.to_nat n) (head (io_short s))) in
          (mk_answer (Z.of_nat (length (take m data))) (take m data),
           mk_stdio (io_files s) (<[fd := drop m data]> (io_open s)) (drop 1 (io_short s)) (io_out s))
      | None => (mk_answer (-1) [], s)
      end
  | COpen path _ =>
      match io_files s !! path, lowest_fd (io_open s) with
      | Some data, Some fd => (mk_answer fd [], set_io_open (<[fd := data]> (io_open s)) s)
      | _, _ => (mk_answer (-1) [], s)
      end
  | CClose fd =>
      match io_open s !! fd with
      | Some _ => (mk_answer 0 [], set_io_open (delete fd (io_open s)) s)
      | None => (mk_answer (-1) [], s)
      end
  | CExit => (mk_answer 0 [], s)
  | _ => (mk_answer (-1) [], s)
  end.

#[export] Instance stdio_os : Os stdio := stdio_sys.

(** What was written to [fd]. *)
Definition written (fd : Z) (s : stdio) : list Z :=
  concat (omap (λ w, if w.1 =? fd then Some w.2 else None) (io_out s)).
