(* ===== verification/Ulib.v ===== *)
(** * The user library ([ulib.c], [printf.c])

    Strings and buffers are arrays of bytes; a function is [None] when it would
    leave its array.  [strlen] is the kernel's ([Memory.strlen]), whose code is
    the same.  [malloc] and [free] are in [Umalloc], the locks in [Ulock]. *)

From stdpp Require Import base numbers list gmap strings.
From S2P Require Import Prelude Mmu Hardware Memory Cprintf Umalloc User.

#[local] Open Scope user_scope.

(** ** Strings *)

Fixpoint strcpy (s t : list Z) : option (list Z) :=
  match s, t with
  | _ :: s, c :: t => cons c <$> (if c =? 0 then Some s else strcpy s t)
  | _, _ => None
  end.

Fixpoint strcmp (p q : list Z) : option Z :=
  match p, q with
  | a :: p, b :: q => if negb (a =? 0) && (a =? b) then strcmp p q else Some (u8 a - u8 b)
  | _, _ => None
  end.

(** The index of the byte found, or [None] for the null pointer. *)
Fixpoint strchr (s : list Z) (c : Z) : option (option nat) :=
  match s with
  | [] => None
  | x :: s => if x =? 0 then Some None else if x =? c then Some (Some O) else (λ r : option nat, S <$> r) <$> strchr s c
  end.

Fixpoint atoi_loop (s : list Z) (n : Z) : option Z :=
  match s with
  | [] => None
  | c :: s => if (48 <=? c) && (c <=? 57) then atoi_loop s (s32 (n * 10 + c - 48)) else Some n
  end.

Definition atoi (s : list Z) : option Z := atoi_loop s 0.

(** [memset] and [memmove] on user memory; this [memmove] copies upwards only. *)
Definition memset (m : mem) (dst c n : Z) : mem := stosb m dst c (Z.to_nat (u32 n)).

Definition memmove (m : mem) (vdst vsrc n : Z) : mem := copy_forward m vdst vsrc (Z.to_nat n).

(** ** Functions that make system calls *)

Section ulib.
Context {S : Type} `{Os S}.

(** One turn of the loop of [gets]; [i] bytes are in [buf]. *)
Definition gets_char (max : Z) (st : list Z * Z) : U S ((list Z * Z) + (list Z * Z)) :=
  let '(buf, i) := st in
  if i + 1 <? max then
    let! a := ucall (CRead 0 1) in
    if a_ret a <? 1 then uret (inr (buf, i))
    else
      let c := default 0 (head (a_data a)) in
      let st := (<[Z.to_nat i := c]> buf, i + 1) in
      if (c =? 10) || (c =? 13) then uret (inr st) else uret (inl st)
  else uret (inr (buf, i)).

(** At most [max] turns; [buf] has at least [max] bytes. *)
Definition gets (buf : list Z) (max : Z) : U S (list Z) :=
  let! st := uloop (Z.to_nat max + 1) (gets_char max) (buf, 0) in
  let '(buf, i) := st in
  if (Z.to_nat i <? length buf)%nat then uret (<[Z.to_nat i := 0]> buf) else ufault.

(** The result and the fields of the [struct stat]. *)
Definition stat (n : list Z) : U S (Z * list Z) :=
  let! fd := usys (COpen n O_RDONLY) in
  if fd <? 0 then uret (-1, [])
  else
    let! r := ucall (CFstat fd) in
    usys (CClose fd) ;;;
    uret (a_ret r, a_data r).

(** ** [printf] *)

Definition putc (fd c : Z) : U S unit := usys (CWrite fd [u8 c]) ;;; uret tt.

Fixpoint puts (fd : Z) (s : list Z) : U S unit :=
  match s with
  | [] => uret tt
  | c :: s => putc fd c ;;; puts fd s
  end.

Definition udigits : list Z := str "0123456789ABCDEF".

Definition uprintint (fd xx base : Z) (sgn : bool) : U S unit :=
  let neg := sgn && (xx <? 0) in
  let x := u32 (if neg then - xx else xx) in
  let buf := int_digits udigits 32 x base ++ (if neg then [45] else []) in
  puts fd (rev buf).

(** The loop over the format; [state] is set after a percent sign.  Using an
    argument at the wrong type or past the last one is undefined. *)
Fixpoint printf_loop (fd : Z) (fmt : list Z) (state : bool) (ap : list carg) : U S unit :=
  match fmt with
  | [] => uret tt
  | c :: fmt =>
      if negb state then
        if c =? 37 then printf_loop fd fmt true ap
        else putc fd c ;;; printf_loop fd fmt false ap
      else if c =? 100 then
        match ap with
        | AInt x :: ap => uprintint fd (s32 x) 10 true ;;; printf_loop fd fmt false ap
        | _ => ufault
        end
      else if (c =? 120) || (c =? 112) then
        match ap with
        | AInt x :: ap => uprintint fd (s32 x) 16 false ;;; printf_loop fd fmt false ap
        | _ => ufault
        end
      else if c =? 115 then
        match ap with
        | AStr s :: ap => puts fd (default (str "(null)") s) ;;; printf_loop fd fmt false ap
        | _ => ufault
        end
      else if c =? 99 then
        match ap with
        | AInt x :: ap => putc fd x ;;; printf_loop fd fmt false ap
        | _ => ufault
        end
      else if c =? 37 then putc fd c ;;; printf_loop fd fmt false ap
      else putc fd 37 ;;; putc fd c ;;; printf_loop fd fmt false ap
  end.

Definition printf (fd : Z) (fmt : string) (args : list carg) : U S unit :=
  printf_loop fd (str fmt) false args.

End ulib.

(** ** Threads *)

Section threads.
Context {S : Type} `{Os S} (base : Z).

(** [malloc] works on the memory of the process, which the call passes on. *)
Definition thread_create (function arg : Z) (us : ustate) : U S (Z * ustate) :=
  let! r := uget (malloc base (PGSIZE * 2) us) in
  let '(stack, us) := r in
  if stack =? 0 then exit
  else
    let stack := if stack mod PGSIZE =? 0 then stack else u32 (stack + (PGSIZE - stack mod PGSIZE)) in
    let! pid := usys (CClone function arg stack) in
    uret (pid, us).

Definition thread_join (us : ustate) : U S (Z * ustate) :=
  let! a := ucall CJoin in
  if negb (a_ret a =? -1) then
    let! us := uget (free (default 0 (head (a_data a))) us) in
    uret (a_ret a, us)
  else uret (a_ret a, us).

End threads.

(** ** Facts about strings *)

Lemma strcpy_spec s t rest :
  0 ∉ t → (length t < length s)%nat → strcpy s (t ++ 0 :: rest) = Some (t ++ 0 :: drop (Datatypes.S (length t)) s).
Proof.
  revert s. induction t as [|c t IH]; intros [|x s] Ht Hl; cbn in *; try lia; [done|].
  rewrite not_elem_of_cons in Ht. destruct Ht as [Hc Ht]. rewrite (proj2 (Z.eqb_neq c 0)) by done.
  rewrite IH by (done || lia). done.
Qed.

(** The comparison is zero exactly for equal strings. *)
Lemma strcmp_zero p q rp rq :
  Forall (λ c, 0 < c < 256) p → Forall (λ c, 0 < c < 256) q →
  ∃ d, strcmp (p ++ 0 :: rp) (q ++ 0 :: rq) = Some d ∧ (d = 0 ↔ p = q).
Proof.
  revert q. induction p as [|a p IH]; intros [|b q] Hp Hq; cbn [app strcmp].
  - by exists 0.
  - rewrite Forall_cons in Hq. destruct Hq as [Hb _]. cbn [Z.eqb negb andb]. eexists. split; [done|]. rewrite !u8_small by lia. split; [lia|done].
  - rewrite Forall_cons in Hp. destruct Hp as [Ha _]. rewrite (proj2 (Z.eqb_neq a 0)) by lia. cbn [negb andb].
    eexists. split; [done|]. rewrite !u8_small by lia. split; [lia|done].
  - rewrite Forall_cons in Hp, Hq. destruct Hp as [Ha Hp], Hq as [Hb Hq]. rewrite (proj2 (Z.eqb_neq a 0)) by lia. cbn [negb andb].
    destruct (Z.eqb_spec a b) as [->|Hne].
    + destruct (IH q Hp Hq) as (d & -> & Hd). exists d. split; [done|]. rewrite Hd. split; congruence.
    + eexists. split; [done|]. rewrite !u8_small by lia. split; [lia|congruence].
Qed.

(** [strchr] finds the first occurrence. *)
Lemma strchr_spec s rest c :
  0 ∉ s → c ≠ 0 → strchr (s ++ 0 :: rest) c = Some (fst <$> list_find (c =.) s).
Proof.
  intros Hs Hc. induction s as [|x s IH]; cbn [app strchr list_find].
  - done.
  - rewrite not_elem_of_cons in Hs. destruct Hs as [Hx Hs]. rewrite (proj2 (Z.eqb_neq x 0)) by done.
    rewrite IH by done. case_decide as E; [subst; by rewrite Z.eqb_refl|]. rewrite (proj2 (Z.eqb_neq x c)) by congruence.
    cbn. by destruct (list_find (c =.) s) as [[]|].
Qed.

(** *** Numbers *)

Lemma atoi_loop_snoc s rest n :
  Forall (λ c, 48 ≤ c ≤ 57) s → -2147483648 ≤ n < 2147483648 →
  atoi_loop (s ++ rest) n = atoi_loop rest (foldl (λ n c, s32 (n * 10 + c - 48)) n s).
Proof.
  revert n. induction s as [|c s IH]; intros n Hs Hn; cbn [app atoi_loop foldl]; [done|].
  rewrite Forall_cons in Hs. destruct Hs as [Hc Hs]. rewrite (proj2 (Z.leb_le 48 c)), (proj2 (Z.leb_le c 57)) by lia. cbn [andb].
  apply IH; [done|apply s32_range].
Qed.

(** The digits of a number, most significant first, fold back to it. *)
Lemma digits_fold fuel x :
  0 ≤ x < 2147483648 → x < 10 ^ Z.of_nat fuel →
  let ds := rev (int_digits udigits fuel x 10) in
  Forall (λ c, 48 ≤ c ≤ 57) ds ∧ (x ≠ 0 ∨ fuel ≠ O → ds ≠ []) ∧ foldl (λ n c, s32 (n * 10 + c - 48)) 0 ds = x.
Proof.
  revert x. induction fuel as [|fuel IH]; intros x Hx Hf; cbn [int_digits rev].
  - rewrite Z.pow_0_r in Hf. replace x with 0 by lia. split; [by apply Forall_nil|]. split; [lia|done].
  - assert (default 0 (udigits !! Z.to_nat (x mod 10)) = 48 + x mod 10) as ->.
    { pose proof (Z.mod_pos_bound x 10 ltac:(lia)) as Hm. remember (Z.to_nat (x mod 10)) as d eqn:E.
      replace (x mod 10) with (Z.of_nat d) by lia. assert (d < 10)%nat as Hd by lia. clear -Hd.
      do 10 (destruct d as [|d]; [done|]). lia. }
    rewrite Nat2Z.inj_succ, Z.pow_succ_r in Hf by lia.
    assert (Forall (λ c, 48 ≤ c ≤ 57) [48 + x mod 10]) as H1 by (apply Forall_singleton; lia_mod).
    destruct (Z.eqb_spec (x / 10) 0) as [E|E]; cbn [rev app foldl].
    + split; [done|]. split; [done|]. rewrite s32_small; lia_mod.
    + destruct (IH (x / 10)) as (I1 & _ & I3); [lia_mod|lia_mod|]. split; [by apply Forall_app|].
      split; [intros _ E1; by apply app_nil in E1 as [_ E1]|]. rewrite foldl_app, I3. cbn [foldl]. rewrite s32_small; lia_mod.
Qed.

(** *** Output *)

(** What [fd] was given, byte by byte. *)
Definition io_put (fd : Z) (bs : list Z) (s : stdio) : stdio :=
  mk_stdio (io_files s) (io_open s) (io_short s) (io_out s ++ ((λ c, (fd, [u8 c])) <$> bs)).

Lemma puts_stdio fd bs (s : stdio) : puts fd bs s = URet tt (io_put fd bs s).
Proof.
  revert s. induction bs as [|c bs IH]; intros s; cbn [puts].
  - unfold uret, io_put. cbn. rewrite app_nil_r. by destruct s.
  - erewrite ubind_step by reflexivity. rewrite IH. unfold io_put. cbn. by rewrite <- app_assoc.
Qed.

Lemma written_io_put fd fd' bs s :
  written fd (io_put fd' bs s) = written fd s ++ (if fd' =? fd then u8 <$> bs else []).
Proof.
  unfold written, io_put. cbn [io_out]. rewrite omap_app, concat_app. f_equal.
  induction bs as [|c bs IH]; cbn; [by destruct (fd' =? fd)|]. destruct (fd' =? fd); cbn; [by rewrite IH|done].
Qed.

(** ** [printf] against the text it stands for *)

(** The text of a number. *)
Definition number (x base : Z) (sgn : bool) : list Z :=
  if sgn && (x <? 0) then 45 :: rev (int_digits udigits 32 (- x) base) else rev (int_digits udigits 32 (u32 x) base).

(** One directive with its argument; [None] when there is none that fits. *)
Definition render_one (c : Z) (args : list carg) : option (list Z * list carg) :=
  if c =? 100 then match args with AInt x :: args => Some (number (s32 x) 10 true, args) | _ => None end
  else if (c =? 120) || (c =? 112) then match args with AInt x :: args => Some (number x 16 false, args) | _ => None end
  else if c =? 115 then match args with AStr s :: args => Some (default (str "(null)") s, args) | _ => None end
  else if c =? 99 then match args with AInt x :: args => Some ([x], args) | _ => None end
  else if c =? 37 then Some ([37], args)
  else Some ([37; c], args).

Fixpoint render (fmt : list Z) (args : list carg) : option (list Z) :=
  match fmt with
  | [] => Some []
  | c :: fmt =>
      if c =? 37 then
        match fmt with
        | [] => Some []
        | d :: fmt =>
            '(out, args) ← render_one d args;
            app out <$> render fmt args
        end
      else cons c <$> render fmt args
  end.

Section printf.
Context {S : Type} `{Os S}.

Lemma puts_app fd a b (s : S) : puts fd (a ++ b) s = ubind (puts fd a) (λ _, puts fd b) s.
Proof.
  revert s. induction a as [|c a IH]; intros s; cbn [app puts]; [done|]. rewrite ubind_assoc. apply ubind_ext. intros _ s1. apply IH.
Qed.

Lemma uprintint_puts fd x base sgn : -2147483648 ≤ x < 2147483648 → uprintint fd x base sgn = puts fd (number x base sgn).
Proof.
  intros Hx. unfold uprintint, number. destruct sgn, (Z.ltb_spec x 0); cbn [andb]; rewrite ?app_nil_r; [|done..].
  rewrite rev_app_distr, u32_small by lia. done.
Qed.

Lemma printf_directive fd c fmt args out args' (s : S) :
  render_one c args = Some (out, args') →
  printf_loop fd (c :: fmt) true args s = ubind (puts fd out) (λ _, printf_loop fd fmt false args') s.
Proof.
  unfold render_one. cbn [printf_loop negb]. intros E.
  destruct (c =? 100).
  { destruct args as [|[x|] args]; simplify_eq. by rewrite uprintint_puts by apply s32_range. }
  destruct ((c =? 120) || (c =? 112)).
  { destruct args as [|[x|] args]; simplify_eq. rewrite uprintint_puts by apply s32_range. unfold number. cbn [andb]. by rewrite u32_s32. }
  destruct (c =? 115); [by destruct args as [|[] args]; simplify_eq|].
  destruct (c =? 99); [destruct args as [|[] args]; simplify_eq; cbn [puts]; rewrite ubind_assoc; done|].
  destruct (Z.eqb_spec c 37) as [->|_]; simplify_eq; cbn [puts]; rewrite !ubind_assoc; [done|].
  apply ubind_ext. intros _ s1. by rewrite ubind_assoc.
Qed.

Lemma printf_loop_puts fd fmt args out (s : S) :
  render fmt args = Some out → printf_loop fd fmt false args s = puts fd out s.
Proof.
  remember (length fmt) as n eqn:En. revert fmt args out s En. induction n as [n IH] using lt_wf_ind. intros [|c fmt] args out s En E.
  { by simplify_eq/=. }
  cbn [render] in E. cbn [printf_loop negb]. destruct (Z.eqb_spec c 37) as [->|Hc].
  - destruct fmt as [|d fmt]; [by simplify_eq/=|]. apply bind_Some in E as ([o1 args1] & E1 & E).
    apply fmap_Some in E as (o2 & E2 & ->). rewrite (printf_directive _ _ _ _ _ _ _ E1), puts_app. apply ubind_ext.
    intros _ s1. cbn [length] in En. eapply IH; [|reflexivity|done]. lia.
  - apply fmap_Some in E as (o2 & E2 & ->). cbn [puts]. apply ubind_ext. intros _ s1. cbn [length] in En. eapply IH; [|reflexivity|done]. lia.
Qed.

(** [printf] writes the text its format and arguments stand for, byte by byte. *)
Lemma printf_puts fd fmt args out (s : S) : render (str fmt) args = Some out → printf fd fmt args s = puts fd out s.
Proof. apply printf_loop_puts. Qed.

End printf.

Lemma printf_stdio fd fmt args out (s : stdio) :
  render (str fmt) args = Some out → printf fd fmt args s = URet tt (io_put fd out s).
Proof. intros E. rewrite (printf_puts _ _ _ _ _ E). apply puts_stdio. Qed.

Lemma u8_bytes l : Forall (λ c, 0 ≤ c < 256) l → u8 <$> l = l.
Proof. induction 1 as [|c l Hc _ IH]; [done|]. rewrite fmap_cons, IH, u8_small by lia. done. Qed.

Lemma number_bytes x base sgn : Forall (λ c, 0 ≤ c < 256) (number x base sgn).
Proof.
  assert (∀ fuel y, Forall (λ c, 0 ≤ c < 256) (rev (int_digits udigits fuel y base))) as H.
  { intros fuel y. apply Forall_rev. revert y. induction fuel as [|fuel IH]; intros y; cbn [int_digits]; [by apply Forall_nil|].
    apply Forall_cons. split; [|destruct (y / base =? 0); [by apply Forall_nil|apply IH]].
    destruct (udigits !! Z.to_nat (y mod base)) as [d|] eqn:E; [|cbn; lia]. cbn.
    assert (Forall (λ c, 0 ≤ c < 256) udigits) as Hd by (apply (bool_decide_unpack _); vm_compute; exact I).
    exact (Forall_lookup_1 _ _ _ _ Hd E). }
  unfold number. destruct (sgn && (x <? 0)); [apply Forall_cons; split; [lia|]|]; apply H.
Qed.

(** ** Reading a line *)

(** The bytes [gets] takes of its input: up to the end of the line, at most
    [n]. *)
Fixpoint first_line (n : nat) (data : list Z) : list Z :=
  match n, data with
  | Datatypes.S n, c :: data => c :: (if (c =? 10) || (c =? 13) then [] else first_line n data)
  | _, _ => []
  end.

Lemma first_line_prefix n data : first_line n data = take (length (first_line n data)) data.
Proof.
  revert data. induction n as [|n IH]; intros [|c data]; cbn; try done. f_equal. destruct ((c =? 10) || (c =? 13)); [done|apply IH].
Qed.

Lemma first_line_length n data : (length (first_line n data) ≤ n)%nat.
Proof.
  revert data. induction n as [|n IH]; intros [|c data]; cbn; try lia. specialize (IH data). destruct ((c =? 10) || (c =? 13)); cbn; lia.
Qed.

(** The terminal after [gets] has read [n] bytes with as many calls. *)
Lemma read_one (s : stdio) data :
  io_open s !! 0 = Some data → Forall (λ n, 1 ≤ n)%nat (io_short s) →
  ∃ s', sys (CRead 0 1) s = (mk_answer (Z.of_nat (length (take 1 data))) (take 1 data), s') ∧
    io_open s' !! 0 = Some (drop 1 data) ∧ Forall (λ n, 1 ≤ n)%nat (io_short s') ∧
    io_out s' = io_out s ∧ io_files s' = io_files s ∧ ∀ fd, fd ≠ 0 → io_open s' !! fd = io_open s !! fd.
Proof.
  intros Hd Hs. unfold sys, stdio_os. cbn [stdio_sys]. rewrite Hd.
  assert (Nat.min (Z.to_nat 1) (default (Z.to_nat 1) (head (io_short s))) = 1%nat) as ->.
  { destruct (io_short s) as [|n l]; [done|]. rewrite Forall_cons in Hs. cbn. lia. }
  eexists. split; [done|]. cbn. rewrite lookup_insert_eq. split_and!; try done; [by apply Forall_drop|].
  intros fd Hfd. by rewrite lookup_insert_ne.
Qed.

Lemma gets_loop_spec max data buf i (s : stdio) fuel :
  io_open s !! 0 = Some data → Forall (λ n, 1 ≤ n)%nat (io_short s) → 0 ≤ i → max ≤ Z.of_nat (length buf) →
  (Z.to_nat (max - i) < fuel)%nat →
  let line := first_line (Z.to_nat (max - 1 - i)) data in
  ∃ s', uloop fuel (gets_char max) (buf, i) s = URet (list_inserts (Z.to_nat i) line buf, i + Z.of_nat (length line)) s' ∧
    io_open s' !! 0 = Some (drop (length line) data) ∧ io_out s' = io_out s ∧ io_files s' = io_files s.
Proof.
  revert data buf i s. induction fuel as [|fuel IH]; intros data buf i s Hd Hs Hi Hl Hf line; [lia|].
  cbn [uloop]. unfold ubind at 1, gets_char at 1. destruct (Z.ltb_spec (i + 1) max) as [Hm|Hm].
  2: { subst line. replace (Z.to_nat (max - 1 - i)) with O by lia. cbn. exists s. by rewrite Z.add_0_r. }
  destruct (read_one s data Hd Hs) as (s1 & Hrun & Hd1 & Hs1 & Ho1 & Hf1 & _).
  rewrite (ubind_ucall _ _ _ _ _ Hrun). cbn [a_ret a_data]. subst line.
  destruct (Z.to_nat (max - 1 - i)) as [|n] eqn:En; [lia|]. destruct data as [|c data]; cbn in Hd1 |- *.
  { exists s1. by rewrite Z.add_0_r. }
  rewrite take_0. cbn [length]. change (Z.of_nat 1 <? 1) with false. cbn iota.
  destruct ((c =? 10) || (c =? 13)) eqn:Ec; cbn.
  { exists s1. rewrite drop_0. done. }
  rewrite drop_0 in Hd1. destruct (IH data (<[Z.to_nat i := c]> buf) (i + 1) s1 Hd1 Hs1) as (s' & Hl1 & Hd' & Ho' & Hf'); [lia|by rewrite length_insert|lia|].
  replace (Z.to_nat (max - 1 - (i + 1))) with n in * by lia. exists s'. rewrite Hl1.
  split; [|split; [done|split; congruence]]. f_equal. f_equal; [|lia].
  replace (Z.to_nat (i + 1)) with (Datatypes.S (Z.to_nat i)) by lia. rewrite <- list_insert_inserts_lt by lia. done.
Qed.

(** [gets] reads one line.  With [data] waiting on the standard input, however
    little each read gives, it stores the bytes up to the end of the line or of
    the input, but no more than leave room for the NUL that it puts after them; it
    takes exactly these bytes from the input and leaves the rest of the array. *)
Theorem gets_reads_line buf max data (s : stdio) :
  io_open s !! 0 = Some data → Forall (λ n, 1 ≤ n)%nat (io_short s) → 1 ≤ max ≤ Z.of_nat (length buf) →
  let line := first_line (Z.to_nat (max - 1)) data in
  ∃ s', gets buf max s = URet (line ++ 0 :: drop (Datatypes.S (length line)) buf) s' ∧
    io_open s' !! 0 = Some (drop (length line) data) ∧ io_out s' = io_out s ∧
    data = line ++ drop (length line) data.
Proof.
  intros Hd Hs Hmax line. destruct (gets_loop_spec max data buf 0 s (Z.to_nat max + 1) Hd Hs) as (s' & Hrun & Hd' & Ho & _); [lia|lia|lia|].
  rewrite Z.sub_0_r in *. fold line in Hrun, Hd'. pose proof (first_line_length (Z.to_nat (max - 1)) data) as Hl. fold line in Hl.
  exists s'. split; [|split; [done|split; [done|]]].
  - unfold gets. rewrite (ubind_step _ _ _ _ _ Hrun). rewrite Z.add_0_l, Nat2Z.id, length_inserts.
    rewrite (proj2 (Nat.ltb_lt _ _)) by lia. unfold uret. f_equal. change (Z.to_nat 0) with O.
    rewrite <- (take_drop (length line) buf) at 1. rewrite list_inserts_0_r by (rewrite length_take; lia).
    rewrite insert_app_r_alt, Nat.sub_diag by lia. f_equal.
    destruct (drop (length line) buf) as [|x l] eqn:E; [apply (f_equal length) in E; rewrite length_drop in E; cbn in E; lia|].
    cbn. f_equal. rewrite <- Nat.add_1_r, <- drop_drop, E. done.
  - pose proof (first_line_prefix (Z.to_nat (max - 1)) data) as E. fold line in E. rewrite E at 1. symmetry. apply take_drop.
Qed.

Definition demo_stdio : stdio := mk_stdio ∅ {[0 := str "ls" ++ [10] ++ str "wc"]} [1%nat] [].

Lemma gets_reads_line_witness :
  ∃ s', gets (replicate 8 7) 8 demo_stdio = URet [108; 115; 10; 0; 7; 7; 7; 7] s' ∧ io_open s' !! 0 = Some (str "wc").
Proof.
  destruct (gets_reads_line (replicate 8 7) 8 (str "ls" ++ [10] ++ str "wc") demo_stdio) as (s' & Hrun & Hd & _).
  - reflexivity.
  - apply Forall_singleton. lia.
  - cbn. lia.
  - exists s'. split; [exact Hrun|exact Hd].
Defined.

(** [atoi] reads what [printf] writes: the text that [printf] puts out for a
    non-negative [int], followed by anything but a digit, is converted back to the
    number. *)
Theorem atoi_reads_number fd x c rest (s : stdio) :
  0 ≤ x < 2147483648 → ¬ 48 ≤ c ≤ 57 →
  ∃ text s', printf fd "%d" [AInt x] s = URet tt s' ∧ written fd s' = written fd s ++ text ∧
    atoi (text ++ c :: rest) = Some x.
Proof.
  intros Hx Hc. set (text := rev (int_digits udigits 32 x 10)).
  assert (render (str "%d") [AInt x] = Some text) as E.
  { change (Some (number (s32 x) 10 true ++ []) = Some text). rewrite s32_small by lia. unfold number.
    rewrite (proj2 (Z.ltb_ge x 0)), u32_small by lia. cbn [andb]. by rewrite app_nil_r. }
  exists text, (io_put fd text s). split; [by apply printf_stdio|]. split.
  - rewrite written_io_put, Z.eqb_refl. f_equal. apply u8_bytes.
    replace text with (number x 10 true); [apply number_bytes|]. unfold number, text.
    by rewrite (proj2 (Z.ltb_ge x 0)), u32_small by lia.
  - unfold atoi. destruct (digits_fold 32 x Hx) as (H1 & _ & H3); [eapply Z.lt_trans; [apply Hx|vm_compute; reflexivity]|].
    unfold text. rewrite atoi_loop_snoc, H3 by (done || lia). cbn [atoi_loop].
    destruct (Z.leb_spec 48 c), (Z.leb_spec c 57); done || lia.
Qed.

Lemma atoi_reads_number_witness :
  ∃ text s', printf 1 "%d" [AInt 1234] demo_stdio = URet tt s' ∧ written 1 s' = text ∧ atoi (text ++ [0]) = Some 1234.
Proof.
  destruct (atoi_reads_number 1 1234 0 [] demo_stdio) as (text & s' & H1 & H2 & H3); [lia|lia|].
  exists text, s'. split; [exact H1|split; [exact H2|exact H3]].
Defined.

(** [thread_create] gives the new thread a stack of its own.  When it does not
    run out of memory, it makes one call of [clone], with a page-aligned stack
    whose page lies inside a block that [malloc] took from the free memory of the
    process, away from every block in use; the blocks in use keep their contents.
    Out of memory it exits without calling [clone]. *)
Theorem thread_create_stack {S} `{Os S} base function arg us F A (s : S) :
  heap base us F A →
  (∃ us' stack F' b n a s', thread_create base function arg us s = URet (a_ret a, us') s' ∧
     sys (CClone function arg stack) s = (a, s') ∧ stack mod PGSIZE = 0 ∧ b + 8 ≤ stack ∧ stack + PGSIZE ≤ b + 8 * n ∧
     heap_ok base us' F' ((b, n) :: A) ∧ keeps A (u_mem us) (u_mem us')) ∨
  (thread_create base function arg us s = UExit (sys CExit s).2 ∧ refused (nunits_of (PGSIZE * 2)) us).
Proof.
  intros Hh. destruct (malloc_run base (PGSIZE * 2) us F A 1025 Hh eq_refl) as (p & us' & Hrun & Hk & Hp); [lia|].
  unfold thread_create. rewrite Hrun. cbn [uget]. rewrite ubind_ret. cbn iota beta.
  destruct Hp as [(-> & Hr & _)|(F' & Hok & _)].
  { right. split; [done|exact Hr]. }
  left. pose proof (ho_used _ _ _ _ Hok) as Hu. rewrite Forall_cons in Hu. destruct Hu as [(H1 & H2 & H3) _]. cbn [fst snd] in *.
  pose proof (ho_base _ _ _ _ Hok) as (B1 & B2 & B3). rewrite (proj2 (Z.eqb_neq p 0)) by lia.
  set (stack := if p mod PGSIZE =? 0 then p else u32 (p + (PGSIZE - p mod PGSIZE))).
  assert (stack mod PGSIZE = 0 ∧ p ≤ stack < p + PGSIZE) as [Hal Hst].
  { subst stack. change PGSIZE with 4096. destruct (Z.eqb_spec (p mod 4096) 0); [lia|]. rewrite u32_small by lia_mod. lia_mod. }
  destruct (sys (CClone function arg stack) s) as [a s'] eqn:Ec. exists us', stack, F', (p - 8), 1025, a, s'.
  rewrite (ubind_usys _ _ _ _ _ Ec). change PGSIZE with 4096 in *. split_and!; try done; lia.
Qed.

(** The call of [clone] is refused, and the allocated page is known by its address. *)
Lemma thread_create_stack_witness :
  heap 4000 (mk_ustate ∅ 0 12288 [true]) [] [] ∧
  ∃ us', thread_create 4000 7 9 (mk_ustate ∅ 0 12288 [true]) demo_stdio = URet (-1, us') demo_stdio.
Proof.
  assert (heap 4000 (mk_ustate ∅ 0 12288 [true]) [] []) as Hh by (right; split_and!; try reflexivity; done).
  split; [exact Hh|].
  destruct (thread_create_stack 4000 7 9 (mk_ustate ∅ 0 12288 [true]) [] [] demo_stdio Hh) as [(us' & stack & F' & b & n & a & s' & Hrun & Hsys & _)|[_ [Hr|Hr]]].
  - exists us'. rewrite Hrun. cbn in Hsys. injection Hsys as <- <-. reflexivity.
  - cbn in Hr. congruence.
  - vm_compute in Hr. by destruct Hr.
Defined.
