(* ===== verification/Grep.v ===== *)
(** * grep ([grep.c])

    The regular-expression matcher, against the language of the expression, and
    the loop that cuts the input into lines.  The pattern and a line are strings,
    lists of bytes without their NUL; [buf] is the array of the program, which the
    loop cuts into strings by overwriting newlines. *)

From stdpp Require Import base numbers list gmap strings.
From S2P Require Import Prelude Mmu Hardware Memory Cprintf User Ulib.

#[local] Open Scope user_scope.

(** ** The matcher *)

(** [matchstar c re text], where [here] is [matchhere re]. *)
Fixpoint matchstar (here : list Z → bool) (c : Z) (text : list Z) : bool :=
  here text ||
  match text with
  | [] => false
  | x :: text => if (x =? c) || (c =? 46) then matchstar here c text else false
  end.

Fixpoint matchhere (re text : list Z) {struct re} : bool :=
  match re with
  | [] => true
  | c :: re1 =>
      let plain :=
        if (c =? 36) && bool_decide (re1 = []) then bool_decide (text = [])
        else
          match text with
          | x :: text => if (c =? 46) || (c =? x) then matchhere re1 text else false
          | [] => false
          end in
      match re1 with
      | d :: re2 => if d =? 42 then matchstar (matchhere re2) c text else plain
      | [] => plain
      end
  end.

Fixpoint match_anywhere (re text : list Z) : bool :=
  matchhere re text || match text with [] => false | _ :: text => match_anywhere re text end.

Definition match_ (re text : list Z) : bool :=
  match re with
  | c :: re1 => if c =? 94 then matchhere re1 text else match_anywhere re text
  | [] => match_anywhere re text
  end.

(** ** The program *)

(** [memmove(buf + d, buf + s, n)] within one array: upwards, byte by byte. *)
Fixpoint copy_within (d s n : nat) (buf : list Z) : list Z :=
  match n with
  | O => buf
  | S n => copy_within (S d) (S s) n (<[d := default 0 (buf !! s)]> buf)
  end.

Section grep.
Context {S : Type} `{Os S}.

Definition SIZEOF_BUF : nat := 1024.

(** A turn of the inner loop: the next line, from [p] to [q]. *)
Definition grep_line (pattern : list Z) (st : nat * list Z) : U S ((nat * list Z) + (nat * list Z)) :=
  let '(p, buf) := st in
  let! r := uget (strchr (drop p buf) 10) in
  match r with
  | None => uret (inr (p, buf))
  | Some d =>
      let q := (p + d)%nat in
      let buf := <[q := 0]> buf in
      if match_ pattern (cstr (length buf) (drop p buf)) then
        let buf := <[q := 10]> buf in
        usys (CWrite 1 (take (q + 1 - p) (drop p buf))) ;;;
        uret (inl ((q + 1)%nat, buf))
      else uret (inl ((q + 1)%nat, buf))
  end.

(** A turn of the outer loop, with [m] bytes of an unfinished line in [buf]. *)
Definition grep_read (pattern : list Z) (fd : Z) (st : nat * list Z) : U S ((nat * list Z) + list Z) :=
  let '(m, buf) := st in
  let! a := ucall (CRead fd (Z.of_nat SIZEOF_BUF - Z.of_nat m - 1)) in
  if a_ret a <=? 0 then uret (inr buf)
  else
    let buf := list_inserts m (a_data a) buf in
    let m := (m + Z.to_nat (a_ret a))%nat in
    let buf := <[m := 0]> buf in
    let! st := uloop (SIZEOF_BUF + 1) (grep_line pattern) (0%nat, buf) in
    let '(p, buf) := st in
    let m := if (p =? 0)%nat then 0%nat else m in
    if (0 <? m)%nat then
      let m := (m - p)%nat in
      uret (inl (m, copy_within 0 p m buf))
    else uret (inl (m, buf)).

Definition grep (fuel : nat) (pattern : list Z) (fd : Z) (buf : list Z) : U S (list Z) :=
  uloop fuel (grep_read pattern fd) (0%nat, buf).

(** The files named by the arguments, from the second on. *)
Fixpoint grep_files (fuel : nat) (pattern : list Z) (argv : list (list Z)) (buf : list Z) : U S unit :=
  match argv with
  | [] => exit
  | name :: argv =>
      let! fd := usys (COpen name 0) in
      if fd <? 0 then
        printf 1 ("grep: cannot open %s" +:+ nl) [AStr (Some name)] ;;;
        exit
      else
        let! buf := grep fuel pattern fd buf in
        usys (CClose fd) ;;;
        grep_files fuel pattern argv buf
  end.

Definition grep_main (fuel : nat) (argv : list (list Z)) : U S unit :=
  let buf := replicate SIZEOF_BUF 0 in
  match argv with
  | _ :: pattern :: files =>
      match files with
      | [] => grep fuel pattern 0 buf ;;; exit
      | _ => grep_files fuel pattern files buf
      end
  | _ => printf 2 ("usage: grep pattern [file ...]" +:+ nl) [] ;;; exit
  end.

End grep.

(** ** The language of a pattern *)

Inductive item := One (c : Z) | Star (c : Z).

(** The items of a pattern without its caret, and whether it ends in a dollar. *)
Fixpoint items (re : list Z) : list item * bool :=
  match re with
  | [] => ([], false)
  | c :: re1 =>
      match re1 with
      | [] => if c =? 36 then ([], true) else ([One c], false)
      | d :: re2 =>
          if d =? 42 then let '(l, e) := items re2 in (Star c :: l, e)
          else let '(l, e) := items re1 in (One c :: l, e)
      end
  end.

Definition fits (c x : Z) : Prop := c = 46 ∨ c = x.

Inductive lang : list item → list Z → Prop :=
| lang_nil : lang [] []
| lang_one c x l u : fits c x → lang l u → lang (One c :: l) (x :: u)
| lang_star c v l u : Forall (fits c) v → lang l u → lang (Star c :: l) (v ++ u).

(** A text begins with a word of the language, and ends with it if it must. *)
Definition begins (p : list item * bool) (text : list Z) : Prop :=
  ∃ u v, text = u ++ v ∧ lang p.1 u ∧ (p.2 = true → v = []).

Lemma matchstar_spec here c text :
  matchstar here c text = true ↔ ∃ v w, text = v ++ w ∧ Forall (fits c) v ∧ here w = true.
Proof.
  induction text as [|x text IH]; cbn [matchstar].
  - rewrite orb_false_r. split; [intros E; by exists [], []|]. intros (v & w & Ev & _ & E). by destruct v, w.
  - rewrite orb_true_iff. split.
    + intros [E|E]; [by exists [], (x :: text)|]. destruct ((x =? c) || (c =? 46)) eqn:Ex; [|done].
      apply IH in E as (v & w & -> & Hv & Hw). exists (x :: v), w. split; [done|]. split; [|done]. apply Forall_cons. split; [|done].
      apply orb_true_iff in Ex as [Ex|Ex]; apply Z.eqb_eq in Ex as ->; [by right|by left].
    + intros (v & w & Ev & Hv & Hw). destruct v as [|y v]; [left; cbn in Ev; by subst|]. right. cbn in Ev. simplify_eq.
      rewrite Forall_cons in Hv. destruct Hv as [Hf Hv].
      assert ((y =? c) || (c =? 46) = true) as ->.
      { destruct Hf as [-> | ->]; [apply orb_true_r|by rewrite Z.eqb_refl]. }
      apply IH. by exists v, w.
Qed.

Lemma begins_one c l e text :
  begins (One c :: l, e) text ↔ ∃ x text', text = x :: text' ∧ fits c x ∧ begins (l, e) text'.
Proof.
  split.
  - intros (u & v & -> & Hu & Hv). inversion Hu; subst. eexists _, _. split; [done|]. split; [done|]. by eexists _, _.
  - intros (x & text' & -> & Hf & u & v & -> & Hu & Hv). exists (x :: u), v. split; [done|]. split; [by constructor|done].
Qed.

Lemma begins_star c l e text :
  begins (Star c :: l, e) text ↔ ∃ v w, text = v ++ w ∧ Forall (fits c) v ∧ begins (l, e) w.
Proof.
  split.
  - intros (u & v & -> & Hu & Hv). inversion Hu as [| |? v0 ? u0]; subst. exists v0, (u0 ++ v). split; [by rewrite app_assoc|].
    split; [done|]. by exists u0, v.
  - intros (v & w & -> & Hf & u & v' & -> & Hu & Hv). exists (v ++ u), v'. split; [by rewrite app_assoc|]. split; [by constructor|done].
Qed.

(** A pattern that starts with an item that is not starred. *)
Lemma match_one_spec c (here : list Z → bool) p text :
  (∀ w, here w = true ↔ begins p w) →
  match text with x :: text => if (c =? 46) || (c =? x) then here text else false | [] => false end = true ↔
  begins (One c :: p.1, p.2) text.
Proof.
  intros Hh. rewrite begins_one. destruct text as [|x text]; [split; [done|by intros (? & ? & ? & _)]|].
  destruct ((c =? 46) || (c =? x)) eqn:E.
  - rewrite Hh. split; [|intros (? & ? & ? & _ & ?); simplify_eq; by destruct p]. intros H. exists x, text. split; [done|]. split; [|by destruct p].
    apply orb_true_iff in E as [E|E]; apply Z.eqb_eq in E; [by left|by right].
  - split; [done|]. intros (x' & t' & ? & Hf & _). simplify_eq. apply orb_false_iff in E as [E1%Z.eqb_neq E2%Z.eqb_neq]. by destruct Hf.
Qed.

Lemma matchhere_spec re text : matchhere re text = true ↔ begins (items re) text.
Proof.
  remember (length re) as n eqn:En. revert re text En. induction n as [n IH] using lt_wf_ind. intros [|c [|d re]] text En.
  - split; [|done]. intros _. exists [], text. split; [done|]. split; [constructor|done].
  - cbn [matchhere items]. rewrite bool_decide_eq_true_2 by done. rewrite andb_true_r. destruct (c =? 36).
    + rewrite bool_decide_eq_true. split.
      * intros ->. exists [], []. split; [done|]. split; [constructor|done].
      * intros (u & v & -> & Hu & Hv). inversion Hu. by rewrite Hv.
    + apply (match_one_spec c (λ _, true) ([], false)). intros w. split; [|done]. intros _. exists [], w. split; [done|]. split; [constructor|done].
  - assert (∀ r, (length r < n)%nat → ∀ x, matchhere r x = true ↔ begins (items r) x) as IH' by (intros r Hr x; by eapply IH).
    cbn [length] in En. change (items (c :: d :: re)) with
      (if d =? 42 then let '(l, e) := items re in (Star c :: l, e) else let '(l, e) := items (d :: re) in (One c :: l, e)).
    change (matchhere (c :: d :: re) text) with (if d =? 42 then matchstar (matchhere re) c text else
      if (c =? 36) && bool_decide (d :: re = []) then bool_decide (text = []) else
      match text with x :: text => if (c =? 46) || (c =? x) then matchhere (d :: re) text else false | [] => false end).
    destruct (d =? 42).
    + destruct (items re) as [l e] eqn:E. rewrite matchstar_spec, begins_star. rewrite <- E. setoid_rewrite (IH' re); [done|lia].
    + rewrite bool_decide_eq_false_2, andb_false_r by done. specialize (IH' (d :: re) ltac:(cbn; lia)).
      destruct (items (d :: re)) as [l e]. by apply (match_one_spec c (matchhere (d :: re)) (l, e)).
Qed.

(** The word a pattern asks for, and whether it is held to the beginning. *)
Definition anchored (re : list Z) : bool := bool_decide (head re = Some 94).
Definition body (re : list Z) : list item * bool := items (if anchored re then tail re else re).

Lemma match_anywhere_spec re text :
  match_anywhere re text = true ↔ ∃ pre rest, text = pre ++ rest ∧ begins (items re) rest.
Proof.
  induction text as [|x text IH]; cbn [match_anywhere]; rewrite orb_true_iff, matchhere_spec.
  - split; [intros [H|H]; [by exists [], []|done]|]. intros (pre & rest & E & H). left. by destruct pre, rest.
  - rewrite IH. split.
    + intros [H|(pre & rest & -> & H)]; [by exists [], (x :: text)|by exists (x :: pre), rest].
    + intros ([|y pre] & rest & E & H); cbn in E; subst; [by left|]. simplify_eq. right. by exists pre, rest.
Qed.

(** C26: The matcher of grep decides the language of its pattern: it says yes
    exactly when the text contains a word of the language of the pattern's items
    (a character, a dot, or one of these starred), at the beginning of the text if
    the pattern starts with a caret, and at its end if it ends with a dollar. *)
Theorem match_decides re text :
  match_ re text = true ↔
  ∃ pre word post, text = pre ++ word ++ post ∧ lang (body re).1 word ∧
    (anchored re = true → pre = []) ∧ ((body re).2 = true → post = []).
Proof.
  unfold body, anchored, match_. destruct re as [|c re].
  { rewrite match_anywhere_spec. cbn. split.
    - intros (pre & rest & -> & u & v & -> & Hu & Hv). by exists pre, u, v.
    - intros (pre & u & v & -> & Hu & _ & Hv). exists pre, (u ++ v). split; [done|]. by exists u, v. }
  cbn [head tail]. destruct (Z.eqb_spec c 94) as [->|Hc].
  - rewrite bool_decide_eq_true_2, matchhere_spec by done. split.
    + intros (u & v & -> & Hu & Hv). by exists [], u, v.
    + intros (pre & u & v & -> & Hu & Hp & Hv). rewrite Hp by done. by exists u, v.
  - rewrite bool_decide_eq_false_2, match_anywhere_spec by congruence. split.
    + intros (pre & rest & -> & u & v & -> & Hu & Hv). by exists pre, u, v.
    + intros (pre & u & v & -> & Hu & _ & Hv). exists pre, (u ++ v). split; [done|]. by exists u, v.
Qed.

(** ** The lines of the input *)

(** The lines that end, without their newlines, and what comes after the last. *)
Fixpoint split_lines (data : list Z) : list (list Z) * list Z :=
  match data with
  | [] => ([], [])
  | c :: data =>
      let '(ls, rest) := split_lines data in
      if c =? 10 then ([] :: ls, rest)
      else match ls with [] => ([], c :: rest) | l :: ls => ((c :: l) :: ls, rest) end
  end.

(** What grep is to print. *)
Definition matching (pattern data : list Z) : list (list Z) :=
  filter (λ l, match_ pattern l = true) (split_lines data).1.

Lemma split_lines_none data : 10 ∉ data → split_lines data = ([], data).
Proof.
  induction data as [|c data IH]; [done|]. intros [Hc Hd]%not_elem_of_cons. cbn. rewrite IH by done.
  by rewrite (proj2 (Z.eqb_neq c 10)) by congruence.
Qed.

Lemma split_lines_first l data : 10 ∉ l → split_lines (l ++ 10 :: data) = (l :: (split_lines data).1, (split_lines data).2).
Proof.
  induction l as [|c l IH]; intros Hl.
  - cbn. by destruct (split_lines data).
  - apply not_elem_of_cons in Hl as [Hc Hl]. cbn. rewrite IH by done. by rewrite (proj2 (Z.eqb_neq c 10)) by congruence.
Qed.

(** The unfinished line of a prefix goes on in what follows. *)
Lemma split_lines_app a b :
  split_lines (a ++ b) = ((split_lines a).1 ++ (split_lines ((split_lines a).2 ++ b)).1, (split_lines ((split_lines a).2 ++ b)).2).
Proof.
  induction a as [|c a IH]; cbn [app split_lines].
  - cbn. by destruct (split_lines b).
  - rewrite IH. destruct (split_lines a) as [ls rest] eqn:Ea. cbn [fst snd]. destruct (Z.eqb_spec c 10) as [->|Hc].
    + done.
    + destruct ls as [|l ls]; cbn [fst snd app]; [|done]. cbn [split_lines]. destruct (split_lines (rest ++ b)) as [[|l2 ls2] r2];
        rewrite (proj2 (Z.eqb_neq c 10)) by done; done.
Qed.

Lemma split_lines_rest data : 10 ∉ (split_lines data).2 ∧ (∀ l, l ∈ (split_lines data).1 → 10 ∉ l).
Proof.
  induction data as [|c data [IH1 IH2]]; cbn [split_lines]; [split; set_solver|].
  destruct (split_lines data) as [ls rest]. cbn [fst snd] in *. destruct (Z.eqb_spec c 10) as [->|Hc]; cbn [fst snd].
  - split; [done|]. intros l [->|Hl]%elem_of_cons; [set_solver|by apply IH2].
  - destruct ls as [|l0 ls]; cbn [fst snd]; [split; set_solver|]. split; [done|].
    intros l [->|Hl]%elem_of_cons; [|apply IH2; set_solver]. apply not_elem_of_cons. split; [congruence|]. apply IH2. set_solver.
Qed.

Lemma split_lines_concat data : data = concat ((λ l, l ++ [10]) <$> (split_lines data).1) ++ (split_lines data).2.
Proof.
  induction data as [|c data IH]; cbn [split_lines]; [done|]. destruct (split_lines data) as [ls rest]. cbn [fst snd] in *.
  destruct (Z.eqb_spec c 10) as [->|Hc]; cbn [fst snd].
  - cbn. by rewrite <- IH.
  - destruct ls as [|l0 ls]; cbn in *; by rewrite <- IH.
Qed.

(** ** The loops *)

Lemma strchr_hit l c X : 0 ∉ l → c ∉ l → c ≠ 0 → strchr (l ++ c :: X) c = Some (Some (length l)).
Proof.
  intros H0 Hc Hnz. induction l as [|x l IH]; cbn [app strchr].
  - by rewrite (proj2 (Z.eqb_neq c 0)), Z.eqb_refl by done.
  - apply not_elem_of_cons in H0 as [? H0], Hc as [? Hc].
    rewrite (proj2 (Z.eqb_neq x 0)), (proj2 (Z.eqb_neq x c)), IH by congruence. done.
Qed.

Lemma strchr_miss l c X : 0 ∉ l → c ∉ l → strchr (l ++ 0 :: X) c = Some None.
Proof.
  intros H0 Hc. induction l as [|x l IH]; cbn [app strchr]; [done|].
  apply not_elem_of_cons in H0 as [? H0], Hc as [? Hc].
  rewrite (proj2 (Z.eqb_neq x 0)), (proj2 (Z.eqb_neq x c)), IH by congruence. done.
Qed.

(** The state after the lines [ls] have been printed. *)
Definition print_lines (ls : list (list Z)) (s : stdio) : stdio :=
  mk_stdio (io_files s) (io_open s) (io_short s) (io_out s ++ ((λ l, (1, l ++ [10])) <$> ls)).

Lemma print_lines_app a b s : print_lines b (print_lines a s) = print_lines (a ++ b) s.
Proof. unfold print_lines. cbn. by rewrite fmap_app, app_assoc. Qed.

Lemma print_lines_nil s : print_lines [] s = s.
Proof. unfold print_lines. cbn. rewrite app_nil_r. by destruct s. Qed.

(** The inner loop handles the next line. *)
Lemma grep_line_next pattern pre l X (s : stdio) :
  0 ∉ l → 10 ∉ l →
  ∃ pre', grep_line pattern (length pre, pre ++ l ++ 10 :: X) s =
      URet (inl (length pre', pre' ++ X)) (print_lines (if match_ pattern l then [l] else []) s) ∧
    length pre' = (length pre + length l + 1)%nat.
Proof.
  intros H0 H10. unfold grep_line. rewrite drop_app_length, strchr_hit by done. cbn [uget]. rewrite ubind_ret. cbn iota zeta.
  rewrite insert_middle, drop_app_length, cstr_stop by (done || rewrite !length_app; cbn; lia).
  rewrite insert_middle, drop_app_length. destruct (match_ pattern l).
  - exists (pre ++ l ++ [10]). rewrite !length_app. cbn [length]. split; [|lia]. erewrite ubind_usys by reflexivity.
    replace (length pre + length l + 1 - length pre)%nat with (length (l ++ [10])) by (rewrite length_app; cbn; lia).
    replace (take (length (l ++ [10])) (l ++ 10 :: X)) with (l ++ [10]) by (by rewrite (cons_middle 10 l X), app_assoc, take_app_length). unfold uret. f_equal. f_equal. f_equal; [lia|by rewrite <- !app_assoc].
  - exists (pre ++ l ++ [0]). rewrite !length_app. cbn [length]. split; [|lia]. unfold uret. rewrite print_lines_nil.
    f_equal. f_equal. f_equal; [lia|by rewrite <- !app_assoc].
Qed.

Lemma grep_line_last pattern pre X rest (s : stdio) :
  0 ∉ X → 10 ∉ X → grep_line pattern (length pre, pre ++ X ++ 0 :: rest) s = URet (inr (length pre, pre ++ X ++ 0 :: rest)) s.
Proof. intros H0 H10. unfold grep_line. rewrite drop_app_length, strchr_miss by done. done. Qed.

(** The inner loop prints the matching lines of [X] and stops at its rest. *)
Lemma grep_lines pattern X rest fuel pre (s : stdio) :
  0 ∉ X → (length X < fuel)%nat →
  ∃ pre', uloop fuel (grep_line pattern) (length pre, pre ++ X ++ 0 :: rest) s =
      URet (length pre', pre' ++ (split_lines X).2 ++ 0 :: rest) (print_lines (matching pattern X) s) ∧
    (length pre' + length (split_lines X).2 = length pre + length X)%nat.
Proof.
  revert fuel pre s. remember (length X) as n eqn:En. revert X En. induction n as [n IH] using lt_wf_ind.
  intros X -> [|fuel] pre s H0 Hf; [lia|]. destruct (decide (10 ∈ X)) as [H10|H10].
  - apply list_elem_of_split_l in H10 as (l & X' & -> & Hl). rewrite not_elem_of_app, not_elem_of_cons in H0. destruct H0 as (H0l & _ & H0).
    rewrite length_app in Hf, IH. cbn [length] in Hf, IH. rewrite <- app_assoc, <- app_comm_cons.
    destruct (grep_line_next pattern pre l (X' ++ 0 :: rest) s H0l Hl) as (pre1 & Hrun & Hp1).
    rewrite (uloop_next _ _ _ _ _ _ Hrun).
    destruct (IH (length X') ltac:(lia) X' eq_refl fuel pre1 (print_lines (if match_ pattern l then [l] else []) s) H0 ltac:(lia)) as (pre' & -> & Hp').
    exists pre'. unfold matching. rewrite split_lines_first by done. cbn [fst snd]. rewrite print_lines_app. split.
    + f_equal. f_equal. rewrite filter_cons. by destruct (match_ pattern l).
    + rewrite length_app. cbn [length]. lia.
  - exists pre. unfold matching. rewrite split_lines_none by done. cbn [fst snd]. rewrite filter_nil, print_lines_nil.
    split; [|done]. apply uloop_done. by apply grep_line_last.
Qed.

(** Copying towards the front is what it should be. *)
Lemma copy_within_lookup n d s buf i :
  (d ≤ s)%nat → (s + n ≤ length buf)%nat →
  copy_within d s n buf !! i = if decide (d ≤ i < d + n)%nat then buf !! (s + (i - d))%nat else buf !! i.
Proof.
  revert d s buf. induction n as [|n IH]; intros d s buf Hd Hl; cbn [copy_within]; [case_decide; [lia|done]|].
  rewrite IH by (rewrite ?length_insert; lia). destruct (lookup_lt_is_Some_2 buf s) as [x Hx]; [lia|]. rewrite Hx. cbn [default from_option id].
  case_decide as H1; case_decide as H2; try lia.
  - rewrite list_lookup_insert_ne by lia. f_equal. lia.
  - assert (i = d) as -> by lia. rewrite list_lookup_insert_eq by lia. rewrite Nat.sub_diag, Nat.add_0_r. done.
  - by rewrite list_lookup_insert_ne by lia.
Qed.

Lemma copy_within_length n d s buf : length (copy_within d s n buf) = length buf.
Proof. revert d s buf. induction n as [|n IH]; intros d s buf; cbn [copy_within]; [done|]. by rewrite IH, length_insert. Qed.

Lemma copy_within_front pre X rest :
  take (length X) (copy_within 0 (length pre) (length X) (pre ++ X ++ rest)) = X.
Proof.
  apply list_eq. intros i. destruct (decide (i < length X)%nat) as [Hi|Hi].
  - rewrite lookup_take_lt, copy_within_lookup by (rewrite ?length_app; lia). rewrite decide_True by lia.
    rewrite Nat.sub_0_r, lookup_app_r, lookup_app_l by lia. f_equal. lia.
  - rewrite lookup_take_ge, lookup_ge_None_2 by lia. done.
Qed.

(** What is in the buffer after a read into it. *)
Lemma buffer_filled buf L c :
  take (length L) buf = L → (length L + length c < length buf)%nat →
  ∃ rest, <[(length L + length c)%nat := 0]> (list_inserts (length L) c buf) = (L ++ c) ++ 0 :: rest.
Proof.
  intros HL Hl. destruct (lookup_lt_is_Some_2 buf (length L + length c)) as [x Hx]; [done|].
  set (cc := take (length c) (drop (length L) buf)). exists (drop (S (length L + length c)) buf).
  assert (length cc = length c) as Hcc by (unfold cc; rewrite length_take, length_drop; lia).
  assert (buf = L ++ cc ++ x :: drop (S (length L + length c)) buf) as E.
  { rewrite <- (drop_S _ _ _ Hx), <- drop_drop. unfold cc. rewrite take_drop.
    transitivity (take (length L) buf ++ drop (length L) buf); [by rewrite take_drop|by rewrite HL]. }
  rewrite E at 1. rewrite <- (Nat.add_0_r (length L)) at 2. rewrite list_inserts_app_r, list_inserts_0_r by done.
  rewrite insert_middle. apply app_assoc.
Qed.

Lemma read_file (s : stdio) fd n data :
  io_open s !! fd = Some data → io_short s = [] →
  sys (CRead fd (Z.of_nat n)) s =
    (mk_answer (Z.of_nat (length (take n data))) (take n data), set_io_open (<[fd := drop n data]> (io_open s)) s).
Proof.
  intros Hd Hs. unfold sys, stdio_os. cbn [stdio_sys]. rewrite Hd, Hs, Nat2Z.id. cbn [head default]. rewrite Nat.min_id.
  unfold set_io_open. by rewrite Hs.
Qed.

(** The bound on the lines rules out a full buffer without a newline. *)
Lemma no_newline_rest X R :
  10 ∉ X → Forall (λ l, length l ≤ 1022)%nat (split_lines (X ++ R)).1 → (1023 ≤ length X)%nat ∨ R = [] → 10 ∉ X ++ R.
Proof.
  intros HX HF [Hl| ->]; [|by rewrite app_nil_r]. rewrite not_elem_of_app. split; [done|]. intros H10.
  apply list_elem_of_split_l in H10 as (l & R' & -> & Hl'). rewrite app_assoc, split_lines_first in HF by (rewrite not_elem_of_app; done).
  cbn [fst] in HF. rewrite Forall_cons, length_app in HF. lia.
Qed.

Lemma matching_app pattern a b :
  matching pattern (a ++ b) = matching pattern a ++ matching pattern ((split_lines a).2 ++ b).
Proof. unfold matching. rewrite split_lines_app. cbn [fst]. apply filter_app. Qed.

Lemma matching_none pattern X : 10 ∉ X → matching pattern X = [].
Proof. intros HX. unfold matching. by rewrite split_lines_none by done. Qed.

(** One read: the unfinished line is kept, or the buffer given up. *)
Lemma grep_read_step pattern fd buf L R (s : stdio) :
  take (length L) buf = L → length buf = SIZEOF_BUF → (length L ≤ 1022)%nat → 0 ∉ L → 10 ∉ L → 0 ∉ R → R ≠ [] →
  io_open s !! fd = Some R → io_short s = [] → Forall (λ l, length l ≤ 1022)%nat (split_lines (L ++ R)).1 →
  ∃ L' buf' R' out, grep_read pattern fd (length L, buf) s =
      URet (inl (length L', buf')) (print_lines out (set_io_open (<[fd := R']> (io_open s)) s)) ∧
    take (length L') buf' = L' ∧ length buf' = SIZEOF_BUF ∧ (length L' ≤ 1022)%nat ∧ 0 ∉ L' ∧ 10 ∉ L' ∧ 0 ∉ R' ∧
    (length R' < length R)%nat ∧ Forall (λ l, length l ≤ 1022)%nat (split_lines (L' ++ R')).1 ∧
    matching pattern (L ++ R) = out ++ matching pattern (L' ++ R').
Proof.
  intros HL Hb Hm H0 H10 H0R HR Hd Hs HF. set (n := (1023 - length L)%nat). set (c := take n R). set (R' := drop n R).
  assert (length c ≤ n)%nat as Hcl by (unfold c; rewrite length_take; lia).
  assert (0 < length c)%nat as Hc by (unfold c; rewrite length_take; destruct R; [done|cbn; lia]).
  assert (R = c ++ R') as ER by (unfold c, R'; by rewrite take_drop).
  assert (0 ∉ L ++ c ∧ 0 ∉ R') as [H0c H0R'] by (rewrite ER in H0R; set_solver).
  assert (length R' < length R)%nat as HR' by (rewrite ER, length_app; lia).
  assert (1023 ≤ length (L ++ c) ∨ R' = [])%nat as Hfull.
  { unfold c, R', n. rewrite length_app, length_take. destruct (decide (1023 - length L ≤ length R)%nat); [left; lia|right; apply drop_ge; lia]. }
  unfold grep_read. change (Z.of_nat SIZEOF_BUF) with 1024. replace (1024 - Z.of_nat (length L) - 1) with (Z.of_nat n) by lia.
  rewrite (ubind_ucall _ _ _ _ _ (read_file s fd n R Hd Hs)). cbn [a_ret a_data]. fold c R'.
  rewrite (proj2 (Z.leb_gt _ _)), Nat2Z.id by lia. cbn zeta.
  destruct (buffer_filled buf L c HL ltac:(rewrite Hb; unfold SIZEOF_BUF; lia)) as (rest & Hbuf). rewrite Hbuf.
  assert (length ((L ++ c) ++ 0 :: rest) = SIZEOF_BUF) as Hbl by (by rewrite <- Hbuf, length_insert, length_inserts).
  destruct (grep_lines pattern (L ++ c) rest (SIZEOF_BUF + 1) [] (set_io_open (<[fd := R']> (io_open s)) s) H0c) as (pre & Hrun & Hpre).
  { rewrite length_app. unfold SIZEOF_BUF. lia. }
  cbn [length app] in Hrun, Hpre. rewrite (ubind_step _ _ _ _ _ Hrun). set (T := (split_lines (L ++ c)).2) in *.
  rewrite Nat.add_0_l in Hpre. pose proof (split_lines_concat (L ++ c)) as HX. fold T in HX.
  assert (0 ∉ T) as HT0 by (intros Ht; apply H0c; rewrite HX, elem_of_app; by right).
  destruct (split_lines_rest (L ++ c)) as [HT10 _]. fold T in HT10. rewrite length_app in Hpre.
  assert (split_lines (L ++ R) = split_lines ((L ++ c) ++ R')) as ELR by (by rewrite <- app_assoc, <- ER).
  destruct (Nat.eqb_spec (length pre) 0) as [Hz|Hz]; cbn zeta.
  - assert (L ++ c = T) as EX.
    { assert (length (concat ((λ l, l ++ [10]) <$> (split_lines (L ++ c)).1)) = O) as E by (apply (f_equal length) in HX; rewrite !length_app in HX; lia).
      apply nil_length_inv in E. by rewrite E in HX. }
    assert (10 ∉ (L ++ c) ++ R') as Hnone by (apply no_newline_rest; [by rewrite EX|by rewrite <- ELR|done]).
    exists [], (pre ++ T ++ 0 :: rest), R', (matching pattern (L ++ c)).
    rewrite EX in Hbl. destruct pre; [|done]. cbn [length app]. destruct (proj1 (not_elem_of_app _ _ _) Hnone) as [HnX HnR].
    split_and!; try done; [lia|apply not_elem_of_nil|apply not_elem_of_nil| |].
    + rewrite split_lines_none by exact HnR. by apply Forall_nil.
    + rewrite ER, app_assoc, !matching_none by done. done.
  - rewrite (proj2 (Nat.ltb_lt _ _)) by lia. replace (length L + length c - length pre)%nat with (length T) by lia.
    exists T, (copy_within 0 (length pre) (length T) (pre ++ T ++ 0 :: rest)), R', (matching pattern (L ++ c)).
    split_and!; try done.
    + apply copy_within_front.
    + rewrite copy_within_length, <- Hbl, !length_app. cbn [length]. lia.
    + rewrite ELR, split_lines_app in HF. lia.
    + rewrite ELR, split_lines_app in HF. cbn [fst] in HF. by apply Forall_app in HF as [_ HF].
    + rewrite ER, app_assoc. apply matching_app.
Qed.

Lemma grep_loop pattern fd fuel buf L R (s : stdio) :
  take (length L) buf = L → length buf = SIZEOF_BUF → (length L ≤ 1022)%nat → 0 ∉ L → 10 ∉ L → 0 ∉ R →
  io_open s !! fd = Some R → io_short s = [] → Forall (λ l, length l ≤ 1022)%nat (split_lines (L ++ R)).1 →
  (length R < fuel)%nat →
  ∃ buf', length buf' = SIZEOF_BUF ∧ uloop fuel (grep_read pattern fd) (length L, buf) s =
    URet buf' (print_lines (matching pattern (L ++ R)) (set_io_open (<[fd := []]> (io_open s)) s)).
Proof.
  revert buf L R s. induction fuel as [|fuel IH]; intros buf L R s HL Hb Hm H0 H10 H0R Hd Hs HF Hf; [lia|].
  destruct (decide (R = [])) as [->|HR].
  - exists buf. split; [done|]. apply uloop_done. unfold grep_read. change (Z.of_nat SIZEOF_BUF) with 1024.
    replace (1024 - Z.of_nat (length L) - 1) with (Z.of_nat (1023 - length L)) by lia.
    rewrite (ubind_ucall _ _ _ _ _ (read_file s fd _ [] Hd Hs)). rewrite take_nil, drop_nil. cbn [a_ret length Z.of_nat Z.leb Z.compare].
    unfold uret. rewrite app_nil_r, matching_none, print_lines_nil by done. done.
  - destruct (grep_read_step pattern fd buf L R s HL Hb Hm H0 H10 H0R HR Hd Hs HF)
      as (L' & buf' & R' & out & Hrun & HL' & Hb' & Hm' & H0' & H10' & H0R' & HR' & HF' & Eq).
    rewrite (uloop_next _ _ _ _ _ _ Hrun).
    destruct (IH buf' L' R' (print_lines out (set_io_open (<[fd := R']> (io_open s)) s))) as (buf2 & Hb2 & Hrun2); try done.
    { cbn. apply lookup_insert_eq. } { lia. }
    exists buf2. split; [done|]. rewrite Hrun2. f_equal. rewrite Eq, <- print_lines_app. unfold print_lines, set_io_open. cbn. by rewrite insert_insert_eq.
Qed.

(** C31: [grep] prints the lines that match, in order and nothing else.  For a file
    without NUL bytes whose lines have at most 1022 characters it reads the file
    to its end, in as many reads as it has bytes at most, and writes each line that
    the pattern matches, with its newline.  A last line that does not end in a
    newline is not looked at. *)
Theorem grep_prints_matching pattern fd fuel buf data (s : stdio) :
  io_open s !! fd = Some data → io_short s = [] → length buf = SIZEOF_BUF → 0 ∉ data →
  Forall (λ l, length l ≤ 1022)%nat (split_lines data).1 → (length data < fuel)%nat →
  ∃ buf' s', grep fuel pattern fd buf s = URet buf' s' ∧ io_open s' = <[fd := []]> (io_open s) ∧
    io_out s' = io_out s ++ ((λ l, (1, l ++ [10])) <$> filter (λ l, match_ pattern l = true) (split_lines data).1).
Proof.
  intros Hd Hs Hb H0 HF Hf. destruct (grep_loop pattern fd fuel buf [] data s) as (buf' & _ & Hrun); try done; [cbn; lia|set_solver..|].
  eexists buf', _. split; [exact Hrun|]. done.
Qed.

Definition grep_demo : stdio := mk_stdio ∅ {[0 := str "one" ++ [10] ++ str "two" ++ [10] ++ str "three" ++ [10] ++ str "no"]} [] [].

Lemma grep_prints_matching_witness :
  ∃ buf' s', grep 100 (str "^t.*e$") 0 (replicate SIZEOF_BUF 0) grep_demo = URet buf' s' ∧ io_out s' = [(1, str "three" ++ [10])].
Proof.
  destruct (grep_prints_matching (str "^t.*e$") 0 100 (replicate SIZEOF_BUF 0) (str "one" ++ [10] ++ str "two" ++ [10] ++ str "three" ++ [10] ++ str "no") grep_demo)
    as (buf' & s' & Hrun & _ & Hout).
  - reflexivity.
  - reflexivity.
  - apply length_replicate.
  - apply (bool_decide_unpack _). vm_compute. exact I.
  - apply (bool_decide_unpack _). vm_compute. exact I.
  - cbn. lia.
  - exists buf', s'. split; [exact Hrun|]. rewrite Hout. vm_compute. reflexivity.
Defined.

(** When a read ends within a line, as reads from a pipe or the console may, the
    part of the line that was read is lost. *)
Lemma grep_loses_split_line :
  match grep 100 (str "one") 0 (replicate SIZEOF_BUF 0) (mk_stdio ∅ {[0 := str "one" ++ [10]]} [2%nat] []) with
  | URet _ s => io_out s = []
  | _ => False
  end.
Proof. vm_compute. reflexivity. Qed.
