(* ===== verification/Utils.v ===== *)
(** * The small user programs

    [wc.c], [ls.c], [echo.c], [kill.c], [ln.c], [mkdir.c], [rm.c], [zombie.c]
    and [init.c].  The arguments are given as strings, [argv[0]] included.  A loop
    that reads to the end of a file, or for ever, takes the number of its turns. *)

From stdpp Require Import base numbers list gmap strings.
From S2P Require Import Prelude Mmu Hardware Memory Bytes Cprintf Umalloc User Ulib.

#[local] Open Scope user_scope.

(** ** wc *)

(** [l], [w], [c] and [inword]. *)
Notation counts := (Z * Z * Z * bool)%type.

Definition is_space (x : Z) : bool :=
  match strchr ([32; 13; 9; 10; 11] ++ [0]) x with Some (Some _) => true | _ => false end.

Definition wc_char (st : counts) (x : Z) : counts :=
  let '(l, w, c, inword) := st in
  let c := s32 (c + 1) in
  let l := if x =? 10 then s32 (l + 1) else l in
  if is_space x then (l, w, c, false)
  else if negb inword then (l, s32 (w + 1), c, true)
  else (l, w, c, inword).

Section programs.
Context {S : Type} `{Os S}.

Definition wc_read (fd : Z) (st : counts) : U S (counts + (counts * Z)) :=
  let! a := ucall (CRead fd 512) in
  if 0 <? a_ret a then uret (inl (foldl wc_char st (take (Z.to_nat (a_ret a)) (a_data a))))
  else uret (inr (st, a_ret a)).

Definition wc (fuel : nat) (fd : Z) (name : list Z) : U S unit :=
  let! r := uloop fuel (wc_read fd) (0, 0, 0, false) in
  let '(l, w, c, _, n) := r in
  if n <? 0 then
    printf 1 ("wc: read error" +:+ nl) [] ;;;
    exit
  else printf 1 ("%d %d %d %s" +:+ nl) [AInt l; AInt w; AInt c; AStr (Some name)].

Fixpoint wc_files (fuel : nat) (argv : list (list Z)) : U S unit :=
  match argv with
  | [] => exit
  | name :: argv =>
      let! fd := usys (COpen name 0) in
      if fd <? 0 then
        printf 1 ("wc: cannot open %s" +:+ nl) [AStr (Some name)] ;;;
        exit
      else
        wc fuel fd name ;;;
        usys (CClose fd) ;;;
        wc_files fuel argv
  end.

Definition wc_main (fuel : nat) (argv : list (list Z)) : U S unit :=
  match argv with
  | _ :: name :: files => wc_files fuel (name :: files)
  | _ => wc fuel 0 [] ;;; exit
  end.

(** ** echo, kill, ln, mkdir, rm, zombie *)

Fixpoint echo_args (args : list (list Z)) : U S unit :=
  match args with
  | [] => exit
  | a :: args =>
      printf 1 "%s%s" [AStr (Some a); AStr (Some (match args with [] => [10] | _ => [32] end))] ;;;
      echo_args args
  end.

Definition echo_main (argv : list (list Z)) : U S unit := echo_args (tail argv).

Fixpoint kill_args (args : list (list Z)) : U S unit :=
  match args with
  | [] => exit
  | a :: args =>
      let! pid := uget (atoi (a ++ [0])) in
      usys (CKill pid) ;;;
      kill_args args
  end.

Definition kill_main (argv : list (list Z)) : U S unit :=
  match argv with
  | _ :: a :: args => kill_args (a :: args)
  | _ => printf 2 ("usage: kill pid..." +:+ nl) [] ;;; exit
  end.

Definition ln_main (argv : list (list Z)) : U S unit :=
  match argv with
  | [_; old; new] =>
      let! r := usys (CLink old new) in
      uwhen (r <? 0) (printf 2 ("link %s %s: failed" +:+ nl) [AStr (Some old); AStr (Some new)]) ;;;
      exit
  | _ => printf 2 ("Usage: ln old new" +:+ nl) [] ;;; exit
  end.

(** The first argument that fails ends the loop. *)
Fixpoint mkdir_args (args : list (list Z)) : U S unit :=
  match args with
  | [] => exit
  | a :: args =>
      let! r := usys (CMkdir a) in
      if r <? 0 then
        printf 2 ("mkdir: %s failed to create" +:+ nl) [AStr (Some a)] ;;;
        exit
      else mkdir_args args
  end.

Definition mkdir_main (argv : list (list Z)) : U S unit :=
  match argv with
  | _ :: a :: args => mkdir_args (a :: args)
  | _ => printf 2 ("Usage: mkdir files..." +:+ nl) [] ;;; exit
  end.

Fixpoint rm_args (args : list (list Z)) : U S unit :=
  match args with
  | [] => exit
  | a :: args =>
      let! r := usys (CUnlink a) in
      if r <? 0 then
        printf 2 ("rm: %s failed to delete" +:+ nl) [AStr (Some a)] ;;;
        exit
      else rm_args args
  end.

Definition rm_main (argv : list (list Z)) : U S unit :=
  match argv with
  | _ :: a :: args => rm_args (a :: args)
  | _ => printf 2 ("Usage: rm files..." +:+ nl) [] ;;; exit
  end.

Definition zombie_main : U S unit :=
  let! pid := usys CFork in
  uwhen (0 <? pid) (usys (CSleep 5) ;;; uret tt) ;;;
  exit.

(** ** ls *)

(** [p] is [path + i - 1], the last character looked at, or before [path]. *)
Fixpoint fmtname_scan (path : list Z) (i : nat) : nat :=
  match i with
  | O => O
  | Datatypes.S j => if default 0 (path !! j) =? 47 then i else fmtname_scan path j
  end.

Definition fmtname (path : list Z) : list Z :=
  let p := drop (fmtname_scan path (length path)) path in
  if (DIRSIZ <=? length p)%nat then p else p ++ replicate (DIRSIZ - length p) 32.

Definition ls_line (name : list Z) (st : list Z) : U S unit :=
  printf 1 ("%s %d %d %d" +:+ nl)
    [AStr (Some (fmtname name)); AInt (default 0 (st !! 0%nat)); AInt (default 0 (st !! 2%nat)); AInt (default 0 (st !! 4%nat))].

(** The name of a directory entry in [buf] after the path and a slash: the
    fourteen bytes are copied to [p] and [p[DIRSIZ]] is cleared. *)
Definition ls_name (buf : list Z) (p : nat) (name : list Z) : list Z :=
  <[(p + DIRSIZ)%nat := 0]> (list_inserts p name buf).

Definition ls_entry (fd : Z) (p : nat) (buf : list Z) : U S (list Z + unit) :=
  let! a := ucall (CRead fd 16) in
  if a_ret a =? 16 then
    if get16 (a_data a) 0 =? 0 then uret (inl buf)
    else
      let buf := ls_name buf p (take DIRSIZ (drop 2 (a_data a))) in
      let path := cstr (length buf) buf in
      let! st := stat path in
      if st.1 <? 0 then
        printf 1 ("ls: cannot stat %s" +:+ nl) [AStr (Some path)] ;;;
        uret (inl buf)
      else
        ls_line path st.2 ;;;
        uret (inl buf)
  else uret (inr tt).

(** [buf] is not initialised; [junk] is what it holds. *)
Definition ls (fuel : nat) (junk : list Z) (path : list Z) : U S unit :=
  let! fd := usys (COpen path 0) in
  if fd <? 0 then printf 2 ("ls: cannot open %s" +:+ nl) [AStr (Some path)]
  else
    let! r := ucall (CFstat fd) in
    if a_ret r <? 0 then
      printf 2 ("ls: cannot stat %s" +:+ nl) [AStr (Some path)] ;;;
      usys (CClose fd) ;;;
      uret tt
    else
      let type := default 0 (a_data r !! 0%nat) in
      (if type =? T_FILE then ls_line path (a_data r)
       else if type =? T_DIR then
         if (512 <? length path + 1 + DIRSIZ + 1)%nat then printf 1 ("ls: path too long" +:+ nl) []
         else
           let! buf := uget (strcpy junk (path ++ [0])) in
           let buf := <[length path := 47]> buf in
           uloop fuel (ls_entry fd (length path + 1)) buf
       else uret tt) ;;;
      usys (CClose fd) ;;;
      uret tt.

Fixpoint ls_args (fuel : nat) (junk : list Z) (args : list (list Z)) : U S unit :=
  match args with
  | [] => exit
  | a :: args => ls fuel junk a ;;; ls_args fuel junk args
  end.

Definition ls_main (fuel : nat) (junk : list Z) (argv : list (list Z)) : U S unit :=
  match argv with
  | _ :: a :: args => ls_args fuel junk (a :: args)
  | _ => ls fuel junk (str ".") ;;; exit
  end.

(** ** init *)

(** Waits for the shell; other children that end here are zombies. *)
Definition init_wait (pid : Z) (_ : unit) : U S (unit + unit) :=
  let! wpid := usys CWait in
  if (0 <=? wpid) && negb (wpid =? pid) then
    printf 1 ("zombie!" +:+ nl) [] ;;;
    uret (inl tt)
  else uret (inr tt).

Definition init_turn (fuel : nat) (_ : unit) : U S (unit + unit) :=
  printf 1 ("init: starting sh" +:+ nl) [] ;;;
  let! pid := usys CFork in
  if pid <? 0 then
    printf 1 ("init: fork failed" +:+ nl) [] ;;;
    exit
  else if pid =? 0 then
    exec (str "sh") [str "sh"] ;;;
    printf 1 ("init: exec sh failed" +:+ nl) [] ;;;
    exit
  else
    uloop fuel (init_wait pid) tt ;;;
    uret (inl tt).

Definition init_main (fuel : nat) : U S unit :=
  let! fd := usys (COpen (str "console") O_RDWR) in
  uwhen (fd <? 0)
    (usys (CMknod (str "console") 1 1) ;;;
     usys (COpen (str "console") O_RDWR) ;;;
     uret tt) ;;;
  usys (CDup 0) ;;;
  usys (CDup 0) ;;;
  uloop fuel (init_turn fuel) tt.

End programs.

(** ** What wc counts *)

(** The pieces between white space, empty ones included. *)
Fixpoint pieces (data : list Z) : list Z * list (list Z) :=
  match data with
  | [] => ([], [])
  | x :: data =>
      let '(p, ps) := pieces data in
      if is_space x then ([], p :: ps) else (x :: p, ps)
  end.

Definition words (data : list Z) : list (list Z) :=
  filter (λ p, p ≠ []) ((pieces data).1 :: (pieces data).2).

Definition count_lines (data : list Z) : Z := Z.of_nat (length (filter (λ x, x = 10) data)).
Definition count_words (data : list Z) : Z := Z.of_nat (length (words data)).

(** The words that begin in [data], when a word is going on before it. *)
Definition more_words (inword : bool) (data : list Z) : Z :=
  if inword then Z.of_nat (length (filter (λ p, p ≠ []) (pieces data).2)) else count_words data.

Lemma more_words_cons inword x data :
  more_words inword (x :: data) =
    if is_space x then more_words false data
    else more_words true data + (if inword then 0 else 1).
Proof.
  unfold more_words, count_words, words. cbn [pieces]. destruct (pieces data) as [p ps] eqn:E, (is_space x), inword; cbn [fst snd].
  - by rewrite filter_cons.
  - by rewrite (filter_cons _ []), decide_False by (intros H; by apply H).
  - lia.
  - rewrite (filter_cons _ (x :: p)), decide_True by done. cbn [length]. lia.
Qed.

Lemma count_lines_cons x data : count_lines (x :: data) = count_lines data + (if x =? 10 then 1 else 0).
Proof.
  unfold count_lines. rewrite filter_cons. destruct (Z.eqb_spec x 10); [rewrite decide_True by done; cbn [length]|rewrite decide_False by done]; lia.
Qed.

Lemma counts_bound data b :
  0 ≤ count_lines data ≤ Z.of_nat (length data) ∧ 0 ≤ more_words b data ≤ Z.of_nat (length data).
Proof.
  revert b. induction data as [|x data IH]; intros b.
  - destruct b; (split; split; vm_compute; discriminate).
  - rewrite count_lines_cons, more_words_cons. cbn [length]. destruct (IH false) as [H1 H2], (IH true) as [_ H3], (x =? 10), (is_space x), b; lia.
Qed.

(** Is the last byte inside a word? *)
Definition in_word (b : bool) (data : list Z) : bool := match last data with Some x => negb (is_space x) | None => b end.

Lemma in_word_cons b x data : in_word b (x :: data) = in_word (negb (is_space x)) data.
Proof. unfold in_word. rewrite last_cons. by destruct (last data). Qed.

Lemma wc_fold data l w c b :
  0 ≤ l → 0 ≤ w → 0 ≤ c →
  l + Z.of_nat (length data) < 2147483648 → w + Z.of_nat (length data) < 2147483648 → c + Z.of_nat (length data) < 2147483648 →
  foldl wc_char (l, w, c, b) data = (l + count_lines data, w + more_words b data, c + Z.of_nat (length data), in_word b data).
Proof.
  revert l w c b. induction data as [|x data IH]; intros l w c b Hl Hw Hc Bl Bw Bc.
  - cbn [foldl]. assert (count_lines [] = 0 ∧ more_words b [] = 0 ∧ in_word b [] = b) as (-> & -> & ->) by by destruct b.
    cbn [length]. by rewrite !Z.add_0_r.
  - cbn [foldl length] in *. rewrite count_lines_cons, more_words_cons, in_word_cons.
    assert (wc_char (l, w, c, b) x = (l + (if x =? 10 then 1 else 0), w + (if is_space x then 0 else if b then 0 else 1), c + 1, negb (is_space x))) as ->.
    { unfold wc_char. rewrite s32_small by lia. destruct (x =? 10), (is_space x), b; cbn [negb]; rewrite ?s32_small by lia; rewrite !pair_equal_spec; split_and!; done || lia. }
    rewrite IH by (destruct (x =? 10), (is_space x), b; lia). destruct (is_space x); cbn [negb]; rewrite !pair_equal_spec; split_and!; try done; destruct b; lia.
Qed.

Lemma more_words_app b a d : more_words b (a ++ d) = more_words b a + more_words (in_word b a) d.
Proof.
  revert b. induction a as [|x a IH]; intros b.
  - cbn [app]. assert (more_words b [] = 0 ∧ in_word b [] = b) as [-> ->] by by destruct b. lia.
  - cbn [app]. rewrite !more_words_cons, !IH, in_word_cons. destruct (is_space x); cbn [negb]; lia.
Qed.

Lemma count_lines_app a d : count_lines (a ++ d) = count_lines a + count_lines d.
Proof. unfold count_lines. rewrite filter_app, length_app. lia. Qed.

Lemma in_word_app b a d : in_word b (a ++ d) = in_word (in_word b a) d.
Proof. unfold in_word. rewrite last_app. by destruct (last d). Qed.

(** A read of up to [n] bytes, with short reads possible. *)
Lemma read_some (s : stdio) fd n data :
  io_open s !! fd = Some data → Forall (λ n, 1 ≤ n)%nat (io_short s) → 0 < n →
  ∃ m s', sys (CRead fd n) s = (mk_answer (Z.of_nat (length (take m data))) (take m data), s') ∧ (1 ≤ m)%nat ∧
    io_open s' = <[fd := drop m data]> (io_open s) ∧ Forall (λ n, 1 ≤ n)%nat (io_short s') ∧
    io_out s' = io_out s ∧ io_files s' = io_files s.
Proof.
  intros Hd Hs Hn. unfold sys, stdio_os. cbn [stdio_sys]. rewrite Hd. eexists _, _. split; [done|]. cbn. split_and!; try done.
  - destruct (io_short s) as [|k l]; cbn; [lia|]. rewrite Forall_cons in Hs. lia.
  - by apply Forall_drop.
Qed.

(** The reads add up: what was counted before, [old], and what is still to come. *)
Lemma wc_loop fd fuel (s : stdio) data old :
  io_open s !! fd = Some data → Forall (λ n, 1 ≤ n)%nat (io_short s) → (length data < fuel)%nat →
  Z.of_nat (length (old ++ data)) < 2147483648 →
  let st x := (count_lines x, count_words x, Z.of_nat (length x), in_word false x) in
  ∃ s', uloop fuel (wc_read fd) (st old) s = URet (st (old ++ data), 0) s' ∧
    io_out s' = io_out s ∧ io_open s' = <[fd := []]> (io_open s) ∧ io_files s' = io_files s.
Proof.
  revert s data old. induction fuel as [|fuel IH]; intros s data old Hd Hs Hf Hb st; [lia|].
  destruct (read_some s fd 512 data Hd Hs) as (m & s1 & Hrun & Hm & Ho & Hs1 & Hout & Hfiles); [lia|].
  cbn [uloop]. unfold ubind at 1, wc_read at 1. rewrite (ubind_ucall _ _ _ _ _ Hrun). cbn [a_ret a_data].
  destruct data as [|x data].
  { rewrite take_nil, drop_nil in *. cbn. exists s1. by rewrite app_nil_r. }
  set (d := x :: data) in *. assert (1 ≤ length (take m d))%nat as Hl by (rewrite length_take; subst d; cbn; lia).
  rewrite (proj2 (Z.ltb_lt 0 _)), Nat2Z.id, take_ge by lia. cbn iota.
  rewrite length_app in Hb. pose proof (counts_bound old false) as [B1 B2].
  unfold st at 1. unfold uret at 1. change (count_words old) with (more_words false old).
  assert (length (take m d) ≤ length d)%nat as Hl' by (rewrite length_take; lia).
  rewrite wc_fold by lia. rewrite <- more_words_app, <- Nat2Z.inj_add, <- length_app.
  destruct (IH s1 (drop m d) (old ++ take m d)) as (s' & Hrun' & Ho' & Hop' & Hf'); try done.
  { by rewrite Ho, lookup_insert_eq. } { rewrite length_drop. lia. } { rewrite <- app_assoc, take_drop, length_app. lia. }
  exists s'. rewrite count_lines_app, in_word_app, <- app_assoc, take_drop in Hrun'. split; [|split_and!; try congruence; by rewrite Hop', Ho, insert_insert_eq].
  exact Hrun'.
Qed.

(** The text of the counts. *)
Definition wc_text (data name : list Z) : list Z :=
  number (count_lines data) 10 true ++ [32] ++ number (count_words data) 10 true ++ [32] ++
  number (Z.of_nat (length data)) 10 true ++ [32] ++ name ++ [10].

(** [wc] counts the lines, words and bytes of its input.  Whatever pieces the
    reads give, for less than 2^31 bytes it reads to the end and prints the number
    of newlines, the number of words (the maximal sequences of bytes that are not
    white space) and the number of bytes of the whole, followed by the name. *)
Theorem wc_counts fuel fd name data (s : stdio) :
  io_open s !! fd = Some data → Forall (λ n, 1 ≤ n)%nat (io_short s) → Forall (λ c, 0 ≤ c < 256) name →
  Z.of_nat (length data) < 2147483648 → (length data < fuel)%nat →
  ∃ s', wc fuel fd name s = URet tt s' ∧ written 1 s' = written 1 s ++ wc_text data name ∧ io_open s' = <[fd := []]> (io_open s).
Proof.
  intros Hd Hs Hn Hl Hf. destruct (wc_loop fd fuel s data [] Hd Hs Hf Hl) as (s1 & Hrun & Ho & Hop & _). cbn [app] in Hrun.
  destruct (counts_bound data false) as [B1 B2]. change (more_words false data) with (count_words data) in B2.
  exists (io_put 1 (wc_text data name) s1). split; [|split].
  - unfold wc. rewrite (ubind_step _ _ _ _ _ Hrun). cbn iota beta. change (0 <? 0) with false. cbn iota. apply printf_stdio.
    change (render (str ("%d %d %d %s" +:+ nl)) [AInt (count_lines data); AInt (count_words data); AInt (Z.of_nat (length data)); AStr (Some name)])
      with (Some (number (s32 (count_lines data)) 10 true ++ 32 :: number (s32 (count_words data)) 10 true ++ 32 ::
        number (s32 (Z.of_nat (length data))) 10 true ++ 32 :: name ++ [10])).
    by rewrite !s32_small by lia.
  - rewrite written_io_put. change (1 =? 1) with true. cbn iota. f_equal; [unfold written; by rewrite Ho|]. apply u8_bytes.
    unfold wc_text. repeat (apply Forall_app; split); try apply number_bytes; try done; apply Forall_singleton; lia.
  - exact Hop.
Qed.

Lemma wc_counts_witness :
  ∃ s', wc 20 3 (str "f") (mk_stdio ∅ {[3 := str "two words" ++ [10]]} [4%nat; 1%nat] []) = URet tt s' ∧ written 1 s' = str "1 2 10 f" ++ [10].
Proof.
  destruct (wc_counts 20 3 (str "f") (str "two words" ++ [10]) (mk_stdio ∅ {[3 := str "two words" ++ [10]]} [4%nat; 1%nat] [])) as (s' & Hrun & Hw & _).
  - reflexivity.
  - apply (bool_decide_unpack _). vm_compute. exact I.
  - apply (bool_decide_unpack _). vm_compute. exact I.
  - cbn. lia.
  - cbn. lia.
  - exists s'. split; [exact Hrun|]. rewrite Hw. vm_compute. reflexivity.
Defined.

(** ** echo *)

(** echo prints its arguments, separated by blanks, and a newline. *)
Lemma echo_args_spec a args (s : stdio) :
  echo_args (a :: args) s = UExit (io_put 1 (a ++ concat ((λ b, 32 :: b) <$> args) ++ [10]) s).
Proof.
  revert a s. induction args as [|b args IH]; intros a s.
  - cbn [echo_args]. erewrite ubind_step by (apply printf_stdio; reflexivity). reflexivity.
  - change (echo_args (a :: b :: args) s) with (ubind (printf 1 "%s%s" [AStr (Some a); AStr (Some [32])]) (λ _, echo_args (b :: args)) s).
    erewrite ubind_step by (apply printf_stdio; reflexivity). rewrite IH. f_equal. unfold io_put. cbn [io_out io_files io_open io_short]. f_equal.
    rewrite <- app_assoc, <- fmap_app. do 2 f_equal. cbn. by rewrite <- !app_assoc.
Qed.

(** ** ls *)

Lemma fmtname_scan_spec path i :
  (i ≤ length path)%nat → (fmtname_scan path i ≤ i)%nat ∧ 47 ∉ take (i - fmtname_scan path i) (drop (fmtname_scan path i) path) ∧
    (fmtname_scan path i = O ∨ path !! (fmtname_scan path i - 1)%nat = Some 47).
Proof.
  induction i as [|i IH]; intros Hi; cbn [fmtname_scan]; [split_and!; [lia|set_solver|by left]|].
  destruct (lookup_lt_is_Some_2 path i) as [x Hx]; [lia|]. rewrite Hx. cbn [default from_option id]. destruct (Z.eqb_spec x 47) as [->|Hne].
  - rewrite Nat.sub_diag, take_0. split_and!; [lia|set_solver|right; by rewrite Nat.sub_succ, Nat.sub_0_r].
  - destruct (IH ltac:(lia)) as (H1 & H2 & H3). split_and!; [lia| |done].
    replace (Datatypes.S i - fmtname_scan path i)%nat with (Datatypes.S (i - fmtname_scan path i)) by lia.
    rewrite (take_S_r _ _ x) by (rewrite lookup_drop; rewrite <- Hx; f_equal; lia). set_solver.
Qed.

(** [fmtname] gives the part of a path after its last slash, with blanks up to
    the width of a directory entry. *)
Lemma fmtname_spec path :
  ∃ dir base, path = dir ++ base ∧ 47 ∉ base ∧ (dir = [] ∨ last dir = Some 47) ∧
    fmtname path = base ++ replicate (DIRSIZ - length base) 32.
Proof.
  destruct (fmtname_scan_spec path (length path) (Nat.le_refl _)) as (H1 & H2 & H3). set (i := fmtname_scan path (length path)) in *.
  exists (take i path), (drop i path). split; [by rewrite take_drop|]. split; [by rewrite take_ge in H2 by (rewrite length_drop; lia)|]. split.
  - clearbody i. destruct (Nat.eq_dec i 0%nat) as [->|Hi]; [by left|]. right. destruct H3 as [|H3]; [done|].
    replace i with (Datatypes.S (i - 1)) by lia. by rewrite (take_S_r _ _ _ H3), last_snoc.
  - unfold fmtname. fold i. destruct (Nat.leb_spec DIRSIZ (length (drop i path))) as [Hl|Hl]; [|done].
    replace (DIRSIZ - length (drop i path))%nat with O by lia. by rewrite app_nil_r.
Qed.

(** The path ls builds for a directory entry fits in its buffer, and is the path,
    a slash and the name. *)
Lemma ls_name_spec path junk name :
  0 ∉ path → length junk = 512%nat → length name = DIRSIZ → (length path + 1 + DIRSIZ + 1 ≤ 512)%nat →
  ∃ buf, strcpy junk (path ++ [0]) = Some buf ∧
    let buf' := ls_name (<[length path := 47]> buf) (length path + 1) name in
    length buf' = 512%nat ∧ cstr 512 buf' = path ++ 47 :: cstr DIRSIZ name.
Proof.
  intros H0 Hj Hn Hl. rewrite strcpy_spec by (done || lia). eexists. split; [done|]. unfold ls_name.
  set (rest := drop (Datatypes.S (length path)) junk). assert (length rest = 511 - length path)%nat as Hr by (unfold rest; rewrite length_drop; lia).
  rewrite insert_app_r_alt, Nat.sub_diag by lia. cbn [insert list_insert].
  rewrite <- (take_drop DIRSIZ rest), (cons_middle 47 path), app_assoc.
  replace (length path + 1)%nat with (length (path ++ [47%Z]) + 0)%nat by (rewrite length_app; cbn; lia).
  rewrite list_inserts_app_r, list_inserts_0_r by (rewrite length_take; unfold DIRSIZ in *; lia).
  destruct (drop DIRSIZ rest) as [|x tl] eqn:E.
  { apply (f_equal length) in E. rewrite length_drop in E. unfold DIRSIZ in *. cbn in E. lia. }
  replace (length (path ++ [47%Z]) + 0 + DIRSIZ)%nat with (length (path ++ [47%Z]) + length name)%nat by lia. rewrite insert_middle. split.
  - apply (f_equal length) in E. rewrite length_drop in E. rewrite !length_app. cbn [length] in *. unfold DIRSIZ in *. lia.
  - rewrite <- app_assoc, cstr_app by (done || lia). f_equal. cbn [app]. replace (512 - length path)%nat with (Datatypes.S (511 - length path)) by lia.
    cbn [cstr Z.eqb]. f_equal. rewrite <- Hn. apply cstr_field. unfold DIRSIZ in *. lia.
Qed.
