(* ===== verification/Sh.v ===== *)
(** * The shell ([sh.c])

    The parser, [nulterminate], [runcmd] and the command loop.  A pointer into the
    line is its index; a pointer that is advanced ([*ps]) is the rest of the line
    from it on, of which [es] is the end.  [malloc] of a command is taken to
    succeed.  A command that is parsed is a tree of the five [struct]s. *)

From stdpp Require Import base numbers list gmap strings.
From S2P Require Import Prelude Mmu Hardware Memory Cprintf User Ulib.

(** ** Commands *)

Definition MAXARGS : nat := 10.

(** [argv] and [eargv] up to the null pointer; the file of a redirection from
    [file] to [efile]. *)
Inductive cmd :=
| execcmd (argv : list (nat * nat))
| redircmd (c : cmd) (file efile : nat) (mode fd : Z)
| pipecmd (left right : cmd)
| listcmd (left right : cmd)
| backcmd (c : cmd).

(** ** Parsing *)

(** A parser returns what it read and the rest of the line, or the shell panics,
    or the parser is still running after the steps it was given. *)
Inductive pres (A : Type) := POk (a : A) (ps : list Z) | PPanic (msg : string) | PMore.
Arguments POk {A} a ps.
Arguments PPanic {A} msg.
Arguments PMore {A}.

Definition pbind {A B} (r : pres A) (f : A → list Z → pres B) : pres B :=
  match r with
  | POk a ps => f a ps
  | PPanic msg => PPanic msg
  | PMore => PMore
  end.

Definition whitespace : list Z := [32; 9; 13; 10; 11].
Definition symbols : list Z := str "<|>&;()".

Definition is_in (set : list Z) (c : Z) : bool :=
  match strchr (set ++ [0]) c with Some (Some _) => true | _ => false end.

Fixpoint skip_space (s : list Z) : list Z :=
  match s with
  | c :: s' => if is_in whitespace c then skip_space s' else s
  | [] => []
  end.

Fixpoint skip_word (s : list Z) : list Z :=
  match s with
  | c :: s' => if negb (is_in whitespace c) && negb (is_in symbols c) then skip_word s' else s
  | [] => []
  end.

(** The token at [s], which is not white space, and what follows it. *)
Definition token_at (s : list Z) : Z * list Z :=
  match s with
  | [] => (0, [])
  | c :: s1 =>
      if is_in (str "|();&<") c then (c, s1)
      else if c =? 62 then
        match s1 with
        | d :: s2 => if d =? 62 then (43, s2) else (62, s1)
        | [] => (62, s1)
        end
      else (97, skip_word s)
  end.

Section parser.
(** The length of the line: [es - s]. *)
Context (n : nat).

(** The index of the pointer whose rest of the line is [s]. *)
Definition at_ (s : list Z) : nat := n - length s.

(** The token, [q] and [eq], and the new [*ps]. *)
Definition gettoken (ps : list Z) : Z * (nat * nat) * list Z :=
  let q := skip_space ps in
  let '(tok, eq) := token_at q in
  (tok, (at_ q, at_ eq), skip_space eq).

Definition peek (ps : list Z) (toks : list Z) : bool * list Z :=
  let s := skip_space ps in
  (match s with c :: _ => is_in toks c | [] => false end, s).

(** A redirection: the file, its end, the mode and the descriptor. *)
Notation redir := (nat * nat * Z * Z)%type.

Definition redir_of (tok : Z) (file : nat * nat) : redir :=
  if tok =? 60 then (file, O_RDONLY, 0)
  else if tok =? 62 then (file, Z.lor O_WRONLY O_CREATE, 1)
  else (file, Z.lor O_WRONLY O_CREATE, 1).

Definition add_redir (c : cmd) (r : redir) : cmd :=
  let '(file, efile, mode, fd) := r in redircmd c file efile mode fd.

(** The loop of [parseredirs]; the redirections are put around the command from
    the inside out. *)
Fixpoint parseredirs_loop (fuel : nat) (rs : list redir) (ps : list Z) : pres (list redir) :=
  match fuel with
  | O => PMore
  | S fuel =>
      let '(b, ps) := peek ps (str "<>") in
      if b then
        let '(tok, _, ps) := gettoken ps in
        let '(tok2, file, ps) := gettoken ps in
        if negb (tok2 =? 97) then PPanic "missing file for redirection"
        else parseredirs_loop fuel (rs ++ [redir_of tok file]) ps
      else POk rs ps
  end.

Definition parseredirs (ps : list Z) : pres (list redir) := parseredirs_loop (S (length ps)) [] ps.

(** The loop of [parseexec].  The redirections so far are around the command
    whose arguments are still being added. *)
Fixpoint parseargs (fuel : nat) (argv : list (nat * nat)) (rs : list redir) (ps : list Z) : pres (list (nat * nat) * list redir) :=
  match fuel with
  | O => PMore
  | S fuel =>
      let '(b, ps) := peek ps (str "|)&;") in
      if b then POk (argv, rs) ps
      else
        let '(tok, arg, ps) := gettoken ps in
        if tok =? 0 then POk (argv, rs) ps
        else if negb (tok =? 97) then PPanic "syntax"
        else
          let argv := argv ++ [arg] in
          if (MAXARGS <=? length argv)%nat then PPanic "too many args"
          else pbind (parseredirs ps) (λ rs' ps, parseargs fuel argv (rs ++ rs') ps)
  end.

(** [while(peek(ps, es, "&"))] of [parseline]. *)
Fixpoint parseback (fuel : nat) (c : cmd) (ps : list Z) : pres cmd :=
  match fuel with
  | O => PMore
  | S fuel =>
      let '(b, ps) := peek ps (str "&") in
      if b then let '(_, _, ps) := gettoken ps in parseback fuel (backcmd c) ps
      else POk c ps
  end.

Fixpoint parseline (fuel : nat) (ps : list Z) {struct fuel} : pres cmd :=
  match fuel with
  | O => PMore
  | S fuel =>
      pbind (parsepipe fuel ps) (λ c ps,
      pbind (parseback (S (length ps)) c ps) (λ c ps,
      let '(b, ps) := peek ps (str ";") in
      if b then
        let '(_, _, ps) := gettoken ps in
        pbind (parseline fuel ps) (λ d ps, POk (listcmd c d) ps)
      else POk c ps))
  end
with parsepipe (fuel : nat) (ps : list Z) {struct fuel} : pres cmd :=
  match fuel with
  | O => PMore
  | S fuel =>
      pbind (parseexec fuel ps) (λ c ps,
      let '(b, ps) := peek ps (str "|") in
      if b then
        let '(_, _, ps) := gettoken ps in
        pbind (parsepipe fuel ps) (λ d ps, POk (pipecmd c d) ps)
      else POk c ps)
  end
with parseexec (fuel : nat) (ps : list Z) {struct fuel} : pres cmd :=
  match fuel with
  | O => PMore
  | S fuel =>
      let '(b, ps) := peek ps (str "(") in
      if b then parseblock fuel ps
      else
        pbind (parseredirs ps) (λ rs ps,
        pbind (parseargs (S (length ps)) [] rs ps) (λ r ps,
        POk (foldl add_redir (execcmd r.1) r.2) ps))
  end
with parseblock (fuel : nat) (ps : list Z) {struct fuel} : pres cmd :=
  match fuel with
  | O => PMore
  | S fuel =>
      let '(b, ps) := peek ps (str "(") in
      if negb b then PPanic "parseblock"
      else
        let '(_, _, ps) := gettoken ps in
        pbind (parseline fuel ps) (λ c ps,
        let '(b, ps) := peek ps (str ")") in
        if negb b then PPanic "syntax - missing )"
        else
          let '(_, _, ps) := gettoken ps in
          pbind (parseredirs ps) (λ rs ps, POk (foldl add_redir c rs) ps))
  end.

End parser.

(** Clears the byte after every string of the command. *)
Fixpoint nulterminate (c : cmd) (buf : list Z) : list Z :=
  match c with
  | execcmd argv => foldl (λ buf a, <[a.2 := 0]> buf) buf argv
  | redircmd c _ efile _ _ => <[efile := 0]> (nulterminate c buf)
  | pipecmd c d | listcmd c d => nulterminate d (nulterminate c buf)
  | backcmd c => nulterminate c buf
  end.

(** The steps a line of [n] bytes takes at most. *)
Definition parse_fuel (n : nat) : nat := 4 * n + 4.

(** A command with the line it points into, or a syntax error, which says what
    was left over when the command was complete before the line was. *)
Inductive parsed :=
| Parsed (c : cmd) (buf : list Z)
| SyntaxError (leftovers : option (list Z)) (msg : string)
| Unfinished.

(** [parsecmd] on the string [s], without its NUL. *)
Definition parsecmd (s : list Z) : parsed :=
  match parseline (length s) (parse_fuel (length s)) s with
  | POk c ps =>
      let '(_, ps) := peek ps [] in
      match ps with
      | [] => Parsed c (nulterminate c (s ++ [0]))
      | _ => SyntaxError (Some ps) "syntax"
      end
  | PPanic msg => SyntaxError None msg
  | PMore => Unfinished
  end.

(** ** Tokens *)

Inductive token := Sym (c : Z) | Word (w : nat * nat).

Definition mk_token (tok : Z) (w : nat * nat) : token := if tok =? 97 then Word w else Sym tok.

Fixpoint lex (n fuel : nat) (s : list Z) : list token :=
  match fuel with
  | O => []
  | S fuel =>
      let '(tok, w, s) := gettoken n s in
      if tok =? 0 then [] else mk_token tok w :: lex n fuel s
  end.

(** The tokens of (the rest of) a line. *)
Definition tokens (n : nat) (s : list Z) : list token := lex n (S (length s)) s.

(** The tokens start with a symbol that is one of the characters [toks]. *)
Definition starts (toks : list Z) (ts : list token) : bool :=
  match ts with
  | Sym c :: _ => is_in toks (if c =? 43 then 62 else c)
  | _ => false
  end.

Lemma skip_space_length s : (length (skip_space s) ≤ length s)%nat.
Proof. induction s as [|c s IH]; cbn; [lia|]. destruct (is_in whitespace c); cbn; lia. Qed.

Lemma skip_word_length s : (length (skip_word s) ≤ length s)%nat.
Proof. induction s as [|c s IH]; cbn [skip_word]; [done|]. destruct (negb (is_in whitespace c) && negb (is_in symbols c)); cbn; lia. Qed.

Lemma skip_space_idem s : skip_space (skip_space s) = skip_space s.
Proof. induction s as [|c s IH]; cbn; [done|]. destruct (is_in whitespace c) eqn:E; [done|]. cbn. by rewrite E. Qed.

Lemma skip_space_head s c s' : skip_space s = c :: s' → is_in whitespace c = false.
Proof. induction s as [|d s IH]; cbn; [done|]. destruct (is_in whitespace d) eqn:E; [done|]. by intros [= -> ->]. Qed.

Lemma is_in_spec set c : 0 ∉ set → c ≠ 0 → is_in set c = bool_decide (c ∈ set).
Proof.
  intros H0 Hc. unfold is_in. rewrite strchr_spec by done. destruct (list_find (c =.) set) as [[i x]|] eqn:E; cbn.
  - apply list_find_Some in E as (Hi & -> & _). symmetry. apply bool_decide_eq_true. by eapply list_elem_of_lookup_2.
  - apply list_find_None in E. symmetry. apply bool_decide_eq_false. intros Hin. rewrite Forall_forall in E. by apply (E c Hin).
Qed.

Lemma is_in_zero set : 0 ∉ set → is_in set 0 = false.
Proof.
  intros H0. unfold is_in. induction set as [|x set IH]; cbn [app strchr]; [done|]. apply not_elem_of_cons in H0 as [Hx H0].
  rewrite (proj2 (Z.eqb_neq x 0)) by congruence. specialize (IH H0). by destruct (strchr (set ++ [0]) 0) as [[i|]|].
Qed.

Lemma is_in_subset a b c : 0 ∉ a → 0 ∉ b → a ⊆ b → is_in b c = false → is_in a c = false.
Proof.
  intros Ha Hb Hab. destruct (decide (c = 0)) as [->|Hc]; [intros _; by apply is_in_zero|]. rewrite !is_in_spec by done.
  rewrite !bool_decide_eq_false. set_solver.
Qed.

Lemma symbols_split c : is_in symbols c = is_in (str "|();&<") c || (c =? 62).
Proof.
  destruct (decide (c = 0)) as [->|Hc]; [done|]. rewrite !is_in_spec by (done || (apply (bool_decide_unpack _); vm_compute; exact I)).
  cbn [symbols str]. destruct (Z.eqb_spec c 62) as [->|H]; [done|]. rewrite orb_false_r. apply bool_decide_ext.
  rewrite !elem_of_cons. vm_compute Z.of_N. intuition.
Qed.

(** What a token is, by its first character. *)
Lemma token_at_cons c s tok eq :
  token_at (c :: s) = (tok, eq) → is_in whitespace c = false → c ≠ 0 →
  (length eq ≤ length s)%nat ∧ tok ≠ 0 ∧
  (if is_in symbols c then tok ≠ 97 ∧ (if tok =? 43 then 62 else tok) = c else tok = 97 ∧ eq = skip_word s).
Proof.
  intros E Hw Hc. rewrite symbols_split. cbn [token_at] in E. destruct (is_in (str "|();&<") c) eqn:E1; cbn [orb].
  - injection E as <- <-. split; [done|]. split; [done|]. rewrite is_in_spec in E1 by (done || (apply (bool_decide_unpack _); vm_compute; exact I)).
    apply bool_decide_eq_true in E1. cbn [str] in E1. repeat (apply elem_of_cons in E1 as [->|E1]; [done|]). by apply not_elem_of_nil in E1.
  - destruct (Z.eqb_spec c 62) as [->|H62].
    + destruct s as [|d s]; [by injection E as <- <-|]. destruct (d =? 62); injection E as <- <-; cbn [length]; (split; [lia|done]).
    + injection E as <- <-. cbn [skip_word]. rewrite Hw, symbols_split, E1, (proj2 (Z.eqb_neq c 62)) by done. cbn [negb andb orb].
      split; [apply skip_word_length|done].
Qed.

(** The characters of a line are not NUL. *)
Definition cline (s : list Z) : Prop := 0 ∉ s.

Lemma cline_suffix s t : cline s → t `suffix_of` s → cline t.
Proof. unfold cline. intros Hs [u ->]. set_solver. Qed.

Lemma skip_space_suffix s : skip_space s `suffix_of` s.
Proof. induction s as [|c s IH]; cbn; [done|]. destruct (is_in whitespace c); [by apply suffix_cons_r|done]. Qed.

Lemma skip_word_suffix s : skip_word s `suffix_of` s.
Proof. induction s as [|c s IH]; cbn [skip_word]; [done|]. destruct (negb _ && negb _); [by apply suffix_cons_r|done]. Qed.

Lemma token_at_suffix s : (token_at s).2 `suffix_of` s.
Proof.
  destruct s as [|c s]; cbn [token_at snd]; [done|]. destruct (is_in (str "|();&<") c); [by apply suffix_cons_r|].
  destruct (c =? 62); [|apply skip_word_suffix]. destruct s as [|d s]; [by apply suffix_cons_r|]. destruct (d =? 62); cbn [snd]; [by do 2 apply suffix_cons_r|by apply suffix_cons_r].
Qed.

Section tokens.
Context (n : nat).
Notation tokens := (tokens n).

Lemma gettoken_suffix s tok w s' : gettoken n s = (tok, w, s') → s' `suffix_of` s.
Proof.
  unfold gettoken. pose proof (token_at_suffix (skip_space s)) as H. destruct (token_at (skip_space s)) as [t eq]. intros [= <- <- <-].
  etrans; [apply skip_space_suffix|]. etrans; [exact H|]. apply skip_space_suffix.
Qed.

(** The two cases of the next token. *)
Lemma gettoken_cases s tok w s' :
  cline s → gettoken n s = (tok, w, s') →
  (skip_space s = [] ∧ tok = 0 ∧ s' = []) ∨
  (∃ c q, skip_space s = c :: q ∧ tok ≠ 0 ∧ (length s' < length s)%nat ∧
     if is_in symbols c then tok ≠ 97 ∧ (if tok =? 43 then 62 else tok) = c
     else tok = 97 ∧ w = (at_ n (c :: q), at_ n (skip_word q))).
Proof.
  unfold gettoken. intros Hs E. destruct (token_at (skip_space s)) as [t eq] eqn:Et. injection E as <- <- <-.
  pose proof (skip_space_length s) as H1. pose proof (skip_space_length eq) as H2. destruct (skip_space s) as [|c q] eqn:Eq.
  { left. by injection Et as <- <-. }
  right. assert (c ≠ 0) as Hc. { intros ->. apply Hs. eapply (elem_of_suffix (skip_space s)); [|apply skip_space_suffix]. rewrite Eq. by left. }
  destruct (token_at_cons c q t eq Et (skip_space_head s c q Eq) Hc) as (H3 & H4 & H5). exists c, q. cbn [length] in H1.
  split; [done|]. split; [done|]. split; [lia|]. destruct (is_in symbols c); [done|]. by destruct H5 as [-> ->].
Qed.

Lemma lex_fuel f f' s : cline s → (length s < f)%nat → (length s < f')%nat → lex n f s = lex n f' s.
Proof.
  revert f' s. induction f as [|f IH]; intros [|f'] s Hs Hf Hf'; try lia. cbn [lex].
  destruct (gettoken n s) as [[tok w] s'] eqn:E. destruct (Z.eqb_spec tok 0) as [Hz|Hz]; [done|]. f_equal.
  pose proof (gettoken_suffix _ _ _ _ E) as Hsuf. destruct (gettoken_cases s tok w s' Hs E) as [(_ & ? & _)|(_ & _ & _ & _ & Hl & _)]; [done|].
  apply IH; [by eapply cline_suffix|lia|lia].
Qed.

Lemma tokens_unfold s tok w s' :
  cline s → gettoken n s = (tok, w, s') → tokens s = if tok =? 0 then [] else mk_token tok w :: tokens s'.
Proof.
  intros Hs E. change (tokens s) with (lex n (S (length s)) s). cbn [lex]. rewrite E. destruct (Z.eqb_spec tok 0) as [Hz|Hz]; [done|]. f_equal.
  pose proof (gettoken_suffix _ _ _ _ E) as Hsuf. destruct (gettoken_cases s tok w s' Hs E) as [(_ & ? & _)|(_ & _ & _ & _ & Hl & _)]; [done|].
  apply lex_fuel; [by eapply cline_suffix|lia|lia].
Qed.

Lemma tokens_skip s : cline s → tokens (skip_space s) = tokens s.
Proof.
  intros Hs. destruct (gettoken n s) as [[tok w] s'] eqn:E. rewrite (tokens_unfold s tok w s' Hs E).
  apply (tokens_unfold _ tok w s'); [eapply cline_suffix; [exact Hs|apply skip_space_suffix]|].
  unfold gettoken in *. by rewrite skip_space_idem.
Qed.

(** [peek] looks at the next token. *)
Lemma peek_tokens s toks b s' :
  cline s → bool_decide (Forall (λ c, c ∈ symbols) toks) = true → peek s toks = (b, s') →
  b = starts toks (tokens s) ∧ tokens s' = tokens s ∧ cline s' ∧ (s' = [] ↔ tokens s = []).
Proof.
  intros Hs Hsub E. apply bool_decide_eq_true in Hsub. rewrite Forall_forall in Hsub.
  assert (0 ∉ toks) as H0 by (intros H0; apply Hsub in H0; revert H0; apply (bool_decide_unpack _); vm_compute; exact I).
  unfold peek in E. injection E as <- <-. split; [|split; [by apply tokens_skip|split]].
  - destruct (gettoken n s) as [[tok w] s'] eqn:E. rewrite (tokens_unfold s tok w s' Hs E).
    destruct (gettoken_cases s tok w s' Hs E) as [(-> & -> & _)|(c & q & -> & Hz & _ & Hc)]; [done|].
    rewrite (proj2 (Z.eqb_neq tok 0)) by done. unfold mk_token. destruct (is_in symbols c) eqn:Ec.
    + destruct Hc as [H97 Hc]. rewrite (proj2 (Z.eqb_neq tok 97)) by done. cbn [starts]. by rewrite Hc.
    + destruct Hc as [-> _]. cbn. eapply is_in_subset; [done| |done|done]. apply (bool_decide_unpack _). vm_compute. exact I.
  - eapply cline_suffix; [exact Hs|apply skip_space_suffix].
  - destruct (gettoken n s) as [[tok w] s'] eqn:E. rewrite (tokens_unfold s tok w s' Hs E).
    destruct (gettoken_cases s tok w s' Hs E) as [(-> & -> & _)|(c & q & -> & Hz & _ & Hc)]; [done|].
    by rewrite (proj2 (Z.eqb_neq tok 0)) by done.
Qed.

(** [gettoken] takes the next token. *)
Lemma gettoken_tokens s tok w s' :
  cline s → gettoken n s = (tok, w, s') →
  cline s' ∧ ((tok = 0 ∧ tokens s = [] ∧ tokens s' = []) ∨ (tok ≠ 0 ∧ tokens s = mk_token tok w :: tokens s')).
Proof.
  intros Hs E. split; [eapply cline_suffix; [exact Hs|by eapply gettoken_suffix]|]. rewrite (tokens_unfold s tok w s' Hs E).
  destruct (gettoken_cases s tok w s' Hs E) as [(_ & -> & ->)|(c & q & _ & Hz & _)]; [by left|right].
  by rewrite (proj2 (Z.eqb_neq tok 0)) by done.
Qed.

Lemma tokens_length s : cline s → (length (tokens s) ≤ length s)%nat.
Proof.
  remember (length s) as m eqn:Em. revert s Em. induction m as [m IH] using lt_wf_ind. intros s -> Hs.
  destruct (gettoken n s) as [[tok w] s'] eqn:E. rewrite (tokens_unfold s tok w s' Hs E). pose proof (gettoken_suffix _ _ _ _ E) as Hsuf.
  destruct (gettoken_cases s tok w s' Hs E) as [(_ & -> & _)|(c & q & _ & Hz & Hl & _)]; [cbn; lia|].
  rewrite (proj2 (Z.eqb_neq tok 0)) by done. cbn [length]. specialize (IH (length s') Hl s' eq_refl (cline_suffix _ _ Hs Hsuf)). lia.
Qed.

(** ** The grammar

    What a sequence of tokens means, as a command. *)

Inductive g_redirs : list token → list (nat * nat * Z * Z) → Prop :=
| redirs_nil : g_redirs [] []
| redirs_cons t f ts rs :
    t ∈ [60; 62; 43] → g_redirs ts rs → g_redirs (Sym t :: Word f :: ts) (redir_of t f :: rs).

Inductive g_args : list token → list (nat * nat) → list (nat * nat * Z * Z) → Prop :=
| args_nil : g_args [] [] []
| args_cons a ts1 rs1 ts2 args rs2 :
    g_redirs ts1 rs1 → g_args ts2 args rs2 → g_args (Word a :: ts1 ++ ts2) (a :: args) (rs1 ++ rs2).

(** [k] ampersands. *)
Definition amps (k : nat) : list token := replicate k (Sym 38).

Inductive g_line : list token → cmd → Prop :=
| line_one ts c k : g_pipe ts c → g_line (ts ++ amps k) (Nat.iter k backcmd c)
| line_list ts c k ts2 d :
    g_pipe ts c → g_line ts2 d → g_line (ts ++ amps k ++ Sym 59 :: ts2) (listcmd (Nat.iter k backcmd c) d)
with g_pipe : list token → cmd → Prop :=
| pipe_one ts c : g_exec ts c → g_pipe ts c
| pipe_more ts c ts2 d : g_exec ts c → g_pipe ts2 d → g_pipe (ts ++ Sym 124 :: ts2) (pipecmd c d)
with g_exec : list token → cmd → Prop :=
| exec_args ts1 rs1 ts2 args rs2 :
    g_redirs ts1 rs1 → g_args ts2 args rs2 → (length args < MAXARGS)%nat →
    g_exec (ts1 ++ ts2) (foldl add_redir (execcmd args) (rs1 ++ rs2))
| exec_block ts c ts2 rs :
    g_line ts c → g_redirs ts2 rs → g_exec (Sym 40 :: ts ++ Sym 41 :: ts2) (foldl add_redir c rs).

Scheme g_line_mut := Induction for g_line Sort Prop
with g_pipe_mut := Induction for g_pipe Sort Prop
with g_exec_mut := Induction for g_exec Sort Prop.
Combined Scheme grammar_ind from g_line_mut, g_pipe_mut, g_exec_mut.

(** *** Every command that is parsed is one of the grammar *)

Ltac peek_next b ps' Hc :=
  match goal with
  | H : cline ?ps, E : context [peek ?ps ?toks] |- _ =>
      let P := fresh in destruct (peek ps toks) as [b ps'] eqn:P;
      let Ht := fresh "Ht" in
      destruct (peek_tokens ps toks b ps' H eq_refl P) as (-> & Ht & Hc & _); clear P
  end.

Ltac get_next tok w ps' Hc G :=
  match goal with
  | H : cline ?ps, E : context [gettoken n ?ps] |- _ =>
      let P := fresh in destruct (gettoken n ps) as [[tok w] ps'] eqn:P;
      destruct (gettoken_tokens ps tok w ps' H P) as [Hc G]; clear P
  end.

(** A symbol that was seen by [peek] is what [gettoken] takes. *)
Lemma sym_taken toks ps ps1 tok w ps2 :
  starts toks (tokens ps) = true → tokens ps1 = tokens ps →
  (tok = 0 ∧ tokens ps1 = [] ∧ tokens ps2 = []) ∨ (tok ≠ 0 ∧ tokens ps1 = mk_token tok w :: tokens ps2) →
  tokens ps = Sym tok :: tokens ps2 ∧ is_in toks (if tok =? 43 then 62 else tok) = true.
Proof.
  intros Hst E G. rewrite E in G. destruct G as [(-> & G & _)|[_ G]]; rewrite G in *; [done|].
  unfold mk_token in *. by destruct (tok =? 97).
Qed.

Lemma redir_sym tok : is_in (str "<>") (if tok =? 43 then 62 else tok) = true → tok ∈ [60; 62; 43].
Proof.
  destruct (Z.eqb_spec tok 43) as [->|H]; [intros _; apply (bool_decide_unpack _); exact I|].
  destruct (decide (tok = 0)) as [->|Hz]; [done|]. rewrite is_in_spec by (done || (apply (bool_decide_unpack _); exact I)).
  intros Hin%bool_decide_eq_true. apply elem_of_cons in Hin as [->|Hin]; [by left|]. apply list_elem_of_singleton in Hin as ->. by right; left.
Qed.

Lemma one_sym c tok : c ∈ str "|();&" → is_in [c] (if tok =? 43 then 62 else tok) = true → tok = c.
Proof.
  intros Hc. assert (c ≠ 0 ∧ c ≠ 62) as [H0 H62] by (cbn in Hc; rewrite !elem_of_cons, elem_of_nil in Hc; vm_compute Z.of_N in Hc; lia).
  destruct (Z.eqb_spec tok 43) as [->|H].
  - rewrite is_in_spec by (done || set_solver). intros Hin%bool_decide_eq_true. set_solver.
  - destruct (decide (tok = 0)) as [->|Hz]; [by rewrite is_in_zero by set_solver|]. rewrite is_in_spec by (done || set_solver).
    intros Hin%bool_decide_eq_true. set_solver.
Qed.

Lemma parseredirs_sound fuel rs ps rs' ps' :
  cline ps → parseredirs_loop n fuel rs ps = POk rs' ps' →
  ∃ ts rs2, rs' = rs ++ rs2 ∧ tokens ps = ts ++ tokens ps' ∧ g_redirs ts rs2 ∧ cline ps'.
Proof.
  revert rs ps. induction fuel as [|fuel IH]; intros rs ps Hs E; cbn [parseredirs_loop] in E; [done|].
  peek_next b ps1 Hc1. destruct (starts (str "<>") (tokens ps)) eqn:Eb.
  - get_next tok w ps2 Hc2 G2. get_next tok3 f ps3 Hc3 G3.
    destruct (Z.eqb_spec tok3 97) as [->|]; cbn [negb] in E; [|done]. destruct G3 as [(? & _)|[_ G3]]; [done|].
    destruct (sym_taken _ _ _ _ _ _ Eb Ht G2) as [G4 Hin%redir_sym].
    destruct (IH _ _ Hc3 E) as (ts & rs2 & -> & Ht3 & Hg & Hc'). exists (Sym tok :: Word f :: ts), (redir_of tok f :: rs2).
    split; [by rewrite <- app_assoc|]. split; [by rewrite G4, G3, Ht3|]. split; [by constructor|done].
  - injection E as <- <-. exists [], []. split; [by rewrite app_nil_r|]. split; [by rewrite Ht|]. split; [constructor|done].
Qed.

Lemma parseargs_sound fuel argv rs ps argv' rs' ps' :
  cline ps → parseargs n fuel argv rs ps = POk (argv', rs') ps' → (length argv < MAXARGS)%nat →
  ∃ ts args rs2, argv' = argv ++ args ∧ rs' = rs ++ rs2 ∧ tokens ps = ts ++ tokens ps' ∧ g_args ts args rs2 ∧
    (length argv' < MAXARGS)%nat ∧ cline ps'.
Proof.
  revert argv rs ps. induction fuel as [|fuel IH]; intros argv rs ps Hs E Hl; cbn [parseargs] in E; [done|].
  assert (∀ ps0, cline ps0 → tokens ps = tokens ps0 → ∃ ts args rs2, argv = argv ++ args ∧ rs = rs ++ rs2 ∧
    tokens ps = ts ++ tokens ps0 ∧ g_args ts args rs2 ∧ (length argv < MAXARGS)%nat ∧ cline ps0) as Hstop.
  { intros ps0 Hc0 E0. exists [], [], []. rewrite !app_nil_r. split_and!; try done. constructor. }
  peek_next b ps1 Hc1. destruct (starts (str "|)&;") (tokens ps)) eqn:Eb.
  { injection E as <- <- <-. by apply Hstop. }
  get_next tok w ps2 Hc2 G2. destruct (Z.eqb_spec tok 0) as [->|Hz].
  { injection E as <- <- <-. apply Hstop; [done|]. destruct G2 as [(_ & G1 & ->)|[? _]]; [by rewrite <- Ht|done]. }
  destruct (Z.eqb_spec tok 97) as [->|]; cbn [negb] in E; [|done]. destruct G2 as [(? & _)|[_ G2]]; [done|].
  destruct (Nat.leb_spec MAXARGS (length (argv ++ [w]))) as [|Hl2]; [done|].
  unfold parseredirs in E. destruct (parseredirs_loop n (S (length ps2)) [] ps2) as [rs1 ps3| |] eqn:Er; cbn [pbind] in E; [|done|done].
  destruct (parseredirs_sound _ _ _ _ _ Hc2 Er) as (ts1 & rs2 & -> & Ht2 & Hg1 & Hc3). cbn [app] in E.
  destruct (IH _ _ _ Hc3 E Hl2) as (ts2 & args & rs3 & -> & -> & Ht3 & Hg2 & Hl3 & Hc').
  exists (Word w :: ts1 ++ ts2), (w :: args), (rs2 ++ rs3). rewrite <- !app_assoc. split_and!; try done; [|by constructor|by rewrite <- app_assoc in Hl3].
  rewrite <- Ht, G2, Ht2, Ht3. cbn. by rewrite <- app_assoc.
Qed.

Lemma parseback_sound fuel c ps c' ps' :
  cline ps → parseback n fuel c ps = POk c' ps' →
  ∃ k, c' = Nat.iter k backcmd c ∧ tokens ps = amps k ++ tokens ps' ∧ cline ps'.
Proof.
  revert c ps. induction fuel as [|fuel IH]; intros c ps Hs E; cbn [parseback] in E; [done|].
  peek_next b ps1 Hc1. destruct (starts (str "&") (tokens ps)) eqn:Eb.
  - get_next tok w ps2 Hc2 G2. destruct (sym_taken _ _ _ _ _ _ Eb Ht G2) as [G4 Hin]. apply one_sym in Hin as ->; [|apply (bool_decide_unpack _); exact I].
    destruct (IH _ _ Hc2 E) as (k & -> & Ht2 & Hc'). exists (S k). split; [by rewrite Nat.iter_succ_r|]. split; [|done]. by rewrite G4, Ht2.
  - injection E as <- <-. exists O. split; [done|]. split; [by rewrite Ht|done].
Qed.

(** What a parser that succeeds has read. *)
Definition sound (parse : list Z → pres cmd) (g : list token → cmd → Prop) : Prop :=
  ∀ ps c ps', cline ps → parse ps = POk c ps' → ∃ ts, tokens ps = ts ++ tokens ps' ∧ g ts c ∧ cline ps'.

Lemma parseline_sound fuel :
  sound (parseline n fuel) g_line → sound (parsepipe n fuel) g_pipe → sound (parseline n (S fuel)) g_line.
Proof.
  intros IHl IHp ps c ps' Hs E. cbn [parseline] in E.
  destruct (parsepipe n fuel ps) as [c1 ps1| |] eqn:E1; cbn [pbind] in E; [|done|done].
  destruct (IHp _ _ _ Hs E1) as (ts1 & Ht1 & Hg1 & Hc1).
  destruct (parseback n (S (length ps1)) c1 ps1) as [c2 ps2| |] eqn:E2; cbn [pbind] in E; [|done|done].
  destruct (parseback_sound _ _ _ _ _ Hc1 E2) as (k & -> & Ht2 & Hc2).
  peek_next b ps3 Hc3. destruct (starts (str ";") (tokens ps2)) eqn:Eb.
  - get_next tok w ps4 Hc4 G4. destruct (sym_taken _ _ _ _ _ _ Eb Ht G4) as [G5 Hin]. apply one_sym in Hin as ->; [|apply (bool_decide_unpack _); exact I].
    destruct (parseline n fuel ps4) as [d ps5| |] eqn:E5; cbn [pbind] in E; [|done|done]. injection E as <- <-.
    destruct (IHl _ _ _ Hc4 E5) as (ts5 & Ht5 & Hg5 & Hc5). exists (ts1 ++ amps k ++ Sym 59 :: ts5). split; [|split; [by constructor|done]].
    rewrite Ht1, Ht2, G5, Ht5. by rewrite <- !app_assoc.
  - injection E as <- <-. exists (ts1 ++ amps k). split; [by rewrite Ht1, Ht2, Ht, app_assoc|]. split; [by constructor|done].
Qed.

Lemma parsepipe_sound fuel :
  sound (parsepipe n fuel) g_pipe → sound (parseexec n fuel) g_exec → sound (parsepipe n (S fuel)) g_pipe.
Proof.
  intros IHp IHe ps c ps' Hs E. cbn [parsepipe] in E.
  destruct (parseexec n fuel ps) as [c1 ps1| |] eqn:E1; cbn [pbind] in E; [|done|done].
  destruct (IHe _ _ _ Hs E1) as (ts1 & Ht1 & Hg1 & Hc1).
  peek_next b ps3 Hc3. destruct (starts (str "|") (tokens ps1)) eqn:Eb.
  - get_next tok w ps4 Hc4 G4. destruct (sym_taken _ _ _ _ _ _ Eb Ht G4) as [G5 Hin]. apply one_sym in Hin as ->; [|apply (bool_decide_unpack _); exact I].
    destruct (parsepipe n fuel ps4) as [d ps5| |] eqn:E5; cbn [pbind] in E; [|done|done]. injection E as <- <-.
    destruct (IHp _ _ _ Hc4 E5) as (ts5 & Ht5 & Hg5 & Hc5). exists (ts1 ++ Sym 124 :: ts5). split; [|split; [by constructor|done]].
    rewrite Ht1, G5, Ht5. by rewrite <- !app_assoc.
  - injection E as <- <-. exists ts1. split; [by rewrite Ht1, Ht|]. split; [by constructor|done].
Qed.

Lemma parseexec_sound fuel : sound (parseblock n fuel) g_exec → sound (parseexec n (S fuel)) g_exec.
Proof.
  intros IHb ps c ps' Hs E. cbn [parseexec] in E. peek_next b ps1 Hc1. destruct (starts (str "(") (tokens ps)) eqn:Eb.
  { destruct (IHb _ _ _ Hc1 E) as (ts & Ht1 & ? & ?). exists ts. by rewrite <- Ht. }
  unfold parseredirs in E. destruct (parseredirs_loop n (S (length ps1)) [] ps1) as [rs1 ps2| |] eqn:Er; cbn [pbind] in E; [|done|done].
  destruct (parseredirs_sound _ _ _ _ _ Hc1 Er) as (ts1 & rs2 & -> & Ht2 & Hg1 & Hc2). cbn [app] in E.
  destruct (parseargs n (S (length ps2)) [] rs2 ps2) as [[args rs3] ps3| |] eqn:Ea; cbn [pbind] in E; [|done|done]. injection E as <- <-.
  destruct (parseargs_sound _ _ _ _ _ _ _ Hc2 Ea) as (ts2 & args2 & rs4 & -> & -> & Ht3 & Hg2 & Hl & Hc3); [unfold MAXARGS; cbn; lia|].
  exists (ts1 ++ ts2). split; [by rewrite <- Ht, Ht2, Ht3, app_assoc|]. split; [by constructor|done].
Qed.

Lemma parseblock_sound fuel : sound (parseline n fuel) g_line → sound (parseblock n (S fuel)) g_exec.
Proof.
  intros IHl ps c ps' Hs E. cbn [parseblock] in E. peek_next b ps1 Hc1. destruct (starts (str "(") (tokens ps)) eqn:Eb; cbn [negb] in E; [|done].
  get_next tok w ps2 Hc2 G2. destruct (sym_taken _ _ _ _ _ _ Eb Ht G2) as [G3 Hin]. apply one_sym in Hin as ->; [|apply (bool_decide_unpack _); exact I].
  destruct (parseline n fuel ps2) as [c1 ps3| |] eqn:E1; cbn [pbind] in E; [|done|done]. destruct (IHl _ _ _ Hc2 E1) as (ts1 & Ht1 & Hg1 & Hc3).
  peek_next b4 ps4 Hc4. destruct (starts (str ")") (tokens ps3)) eqn:Eb4; cbn [negb] in E; [|done].
  get_next tok5 w5 ps5 Hc5 G5. destruct (sym_taken _ _ _ _ _ _ Eb4 Ht0 G5) as [G6 Hin]. apply one_sym in Hin as ->; [|apply (bool_decide_unpack _); exact I].
  unfold parseredirs in E. destruct (parseredirs_loop n (S (length ps5)) [] ps5) as [rs1 ps6| |] eqn:Er; cbn [pbind] in E; [|done|done]. injection E as <- <-.
  destruct (parseredirs_sound _ _ _ _ _ Hc5 Er) as (ts2 & rs2 & -> & Ht6 & Hg2 & Hc6).
  exists (Sym 40 :: ts1 ++ Sym 41 :: ts2). split; [|split; [by constructor|done]]. rewrite G3, Ht1, G6, Ht6. cbn. by rewrite <- app_assoc.
Qed.

Lemma parse_sound fuel :
  sound (parseline n fuel) g_line ∧ sound (parsepipe n fuel) g_pipe ∧ sound (parseexec n fuel) g_exec ∧ sound (parseblock n fuel) g_exec.
Proof.
  induction fuel as [|fuel (IH1 & IH2 & IH3 & IH4)]; [by split_and!; intros ps c ps' _ E|].
  split_and!; [by apply parseline_sound|by apply parsepipe_sound|by apply parseexec_sound|by apply parseblock_sound].
Qed.

(** *** The parser always ends *)

Lemma parseredirs_total fuel rs ps : cline ps → (length (tokens ps) < fuel)%nat → parseredirs_loop n fuel rs ps ≠ PMore.
Proof.
  revert rs ps. induction fuel as [|fuel IH]; intros rs ps Hs Hf E; cbn [parseredirs_loop] in E; [lia|].
  peek_next b ps1 Hc1. destruct (starts (str "<>") (tokens ps)) eqn:Eb; [|done].
  get_next tok w ps2 Hc2 G2. get_next tok3 f ps3 Hc3 G3. destruct (sym_taken _ _ _ _ _ _ Eb Ht G2) as [G4 _].
  destruct (Z.eqb_spec tok3 97) as [->|]; cbn [negb] in E; [|done]. destruct G3 as [(? & _)|[_ G3]]; [done|].
  eapply (IH _ ps3); [done| |exact E]. rewrite G4, G3 in Hf. cbn [length] in Hf. lia.
Qed.

Lemma parseredirs_fuel ps : cline ps → parseredirs n ps ≠ PMore.
Proof. intros Hs. apply parseredirs_total; [done|]. pose proof (tokens_length ps Hs). lia. Qed.

Lemma parseargs_total fuel argv rs ps : cline ps → (length (tokens ps) < fuel)%nat → parseargs n fuel argv rs ps ≠ PMore.
Proof.
  revert argv rs ps. induction fuel as [|fuel IH]; intros argv rs ps Hs Hf E; cbn [parseargs] in E; [lia|].
  peek_next b ps1 Hc1. destruct (starts (str "|)&;") (tokens ps)) eqn:Eb; [done|].
  get_next tok w ps2 Hc2 G2. destruct (Z.eqb_spec tok 0) as [->|Hz]; [done|]. destruct G2 as [(? & _)|[_ G2]]; [done|].
  destruct (Z.eqb_spec tok 97) as [->|]; cbn [negb] in E; [|done]. destruct (Nat.leb_spec MAXARGS (length (argv ++ [w]))); [done|].
  destruct (parseredirs n ps2) as [rs1 ps3| |] eqn:Er; cbn [pbind] in E; [|done|by apply (parseredirs_fuel ps2)].
  destruct (parseredirs_sound _ _ _ _ _ Hc2 Er) as (ts1 & rs2 & _ & Ht2 & _ & Hc3).
  eapply (IH _ _ ps3); [done| |exact E]. rewrite <- Ht, G2, Ht2 in Hf. cbn [length] in Hf. rewrite length_app in Hf. lia.
Qed.

Lemma parseback_total fuel c ps : cline ps → (length (tokens ps) < fuel)%nat → parseback n fuel c ps ≠ PMore.
Proof.
  revert c ps. induction fuel as [|fuel IH]; intros c ps Hs Hf E; cbn [parseback] in E; [lia|].
  peek_next b ps1 Hc1. destruct (starts (str "&") (tokens ps)) eqn:Eb; [|done].
  get_next tok w ps2 Hc2 G2. destruct (sym_taken _ _ _ _ _ _ Eb Ht G2) as [G4 _].
  eapply (IH _ ps2); [done| |exact E]. rewrite G4 in Hf. cbn [length] in Hf. lia.
Qed.

(** [parse] ends with [4 * t + k] steps, [t] being the number of tokens. *)
Definition total (k fuel : nat) (parse : list Z → pres cmd) : Prop :=
  ∀ ps, cline ps → (4 * length (tokens ps) + k ≤ fuel)%nat → parse ps ≠ PMore.

Lemma tokens_fuel ps : cline ps → (length (tokens ps) < S (length ps))%nat.
Proof. intros Hs. pose proof (tokens_length ps Hs). lia. Qed.

Lemma parse_total fuel :
  total 4 fuel (parseline n fuel) ∧ total 3 fuel (parsepipe n fuel) ∧ total 2 fuel (parseexec n fuel) ∧ total 1 fuel (parseblock n fuel).
Proof.
  induction fuel as [|fuel (IH1 & IH2 & IH3 & IH4)]; [split_and!; intros ps _ Hf; lia|].
  destruct (parse_sound fuel) as (Sl & Sp & Se & _). split_and!; intros ps Hs Hf E.
  - cbn [parseline] in E. destruct (parsepipe n fuel ps) as [c1 ps1| |] eqn:E1; cbn [pbind] in E; [|done|by eapply (IH2 ps); [done|lia|]].
    destruct (Sp _ _ _ Hs E1) as (ts1 & Ht1 & _ & Hc1). destruct (parseback n (S (length ps1)) c1 ps1) as [c2 ps2| |] eqn:E2; cbn [pbind] in E;
      [|done|by eapply parseback_total; [exact Hc1|by apply tokens_fuel|]].
    destruct (parseback_sound _ _ _ _ _ Hc1 E2) as (k & -> & Ht2 & Hc2). peek_next b ps3 Hc3. destruct (starts (str ";") (tokens ps2)) eqn:Eb; [|done].
    get_next tok w ps4 Hc4 G4. destruct (sym_taken _ _ _ _ _ _ Eb Ht G4) as [G5 _].
    destruct (parseline n fuel ps4) as [d ps5| |] eqn:E5; cbn [pbind] in E; [done|done|]. eapply (IH1 ps4); [done| |done].
    rewrite Ht1, Ht2, G5, !length_app in Hf. cbn [length] in Hf. lia.
  - cbn [parsepipe] in E. destruct (parseexec n fuel ps) as [c1 ps1| |] eqn:E1; cbn [pbind] in E; [|done|by eapply (IH3 ps); [done|lia|]].
    destruct (Se _ _ _ Hs E1) as (ts1 & Ht1 & _ & Hc1). peek_next b ps3 Hc3. destruct (starts (str "|") (tokens ps1)) eqn:Eb; [|done].
    get_next tok w ps4 Hc4 G4. destruct (sym_taken _ _ _ _ _ _ Eb Ht G4) as [G5 _].
    destruct (parsepipe n fuel ps4) as [d ps5| |] eqn:E5; cbn [pbind] in E; [done|done|]. eapply (IH2 ps4); [done| |done].
    rewrite Ht1, G5, !length_app in Hf. cbn [length] in Hf. lia.
  - cbn [parseexec] in E. peek_next b ps1 Hc1. destruct (starts (str "(") (tokens ps)) eqn:Eb; [by eapply (IH4 ps1); [done|rewrite Ht; lia|]|].
    destruct (parseredirs n ps1) as [rs1 ps2| |] eqn:Er; cbn [pbind] in E; [|done|by apply (parseredirs_fuel ps1)].
    destruct (parseredirs_sound _ _ _ _ _ Hc1 Er) as (ts1 & rs2 & _ & _ & _ & Hc2).
    destruct (parseargs n (S (length ps2)) [] rs1 ps2) as [r ps3| |] eqn:Ea; cbn [pbind] in E; [done|done|].
    by eapply parseargs_total; [exact Hc2|by apply tokens_fuel|].
  - cbn [parseblock] in E. peek_next b ps1 Hc1. destruct (starts (str "(") (tokens ps)) eqn:Eb; cbn [negb] in E; [|done].
    get_next tok w ps2 Hc2 G2. destruct (sym_taken _ _ _ _ _ _ Eb Ht G2) as [G3 _]. rewrite G3 in Hf. cbn [length] in Hf.
    destruct (parseline n fuel ps2) as [c1 ps3| |] eqn:E1; cbn [pbind] in E; [|done|by eapply (IH1 ps2); [done|lia|]].
    destruct (Sl _ _ _ Hc2 E1) as (ts1 & _ & _ & Hc3). peek_next b4 ps4 Hc4. destruct (starts (str ")") (tokens ps3)) eqn:Eb4; cbn [negb] in E; [|done].
    get_next tok5 w5 ps5 Hc5 G5. destruct (parseredirs n ps5) as [rs1 ps6| |] eqn:Er; cbn [pbind] in E; [done|done|by apply (parseredirs_fuel ps5)].
Qed.

(** *** Every command of the grammar is parsed *)

(** The tokens that may follow a command. *)
Definition follows (toks : list Z) (ts : list token) : Prop := ts = [] ∨ starts toks ts = true.

(** The parser reads what the grammar derives, up to what follows it. *)
Definition complete (k : nat) (parse : nat → list Z → pres cmd) (toks : list Z) (ts : list token) (c : cmd) : Prop :=
  ∀ fuel ps rest, cline ps → tokens ps = ts ++ rest → follows toks rest → (4 * length (tokens ps) + k ≤ fuel)%nat →
    ∃ ps', parse fuel ps = POk c ps' ∧ tokens ps' = rest ∧ cline ps'.

Ltac peek_goal ps' Hc Ht :=
  match goal with
  | H : cline ?ps |- context [peek ?ps ?toks] =>
      let b := fresh in let P := fresh in destruct (peek ps toks) as [b ps'] eqn:P;
      destruct (peek_tokens ps toks b ps' H eq_refl P) as (-> & Ht & Hc & _); clear P
  end.

Lemma gettoken_sym ps c ts :
  cline ps → tokens ps = Sym c :: ts → ∃ w ps', gettoken n ps = (c, w, ps') ∧ tokens ps' = ts ∧ cline ps'.
Proof.
  intros Hs E. destruct (gettoken n ps) as [[tok w] ps'] eqn:P. destruct (gettoken_tokens ps tok w ps' Hs P) as [Hc [(_ & G & _)|[_ G]]]; rewrite E in G; [done|].
  exists w, ps'. unfold mk_token in G. destruct (tok =? 97); simplify_eq. done.
Qed.

Lemma gettoken_word ps w ts :
  cline ps → tokens ps = Word w :: ts → ∃ ps', gettoken n ps = (97, w, ps') ∧ tokens ps' = ts ∧ cline ps'.
Proof.
  intros Hs E. destruct (gettoken n ps) as [[tok w'] ps'] eqn:P. destruct (gettoken_tokens ps tok w' ps' Hs P) as [Hc [(_ & G & _)|[_ G]]]; rewrite E in G; [done|].
  exists ps'. unfold mk_token in G. destruct (Z.eqb_spec tok 97); simplify_eq. done.
Qed.

Lemma gettoken_end ps : cline ps → tokens ps = [] → ∃ w ps', gettoken n ps = (0, w, ps') ∧ tokens ps' = [] ∧ cline ps'.
Proof.
  intros Hs E. destruct (gettoken n ps) as [[tok w'] ps'] eqn:P. destruct (gettoken_tokens ps tok w' ps' Hs P) as [Hc [(-> & _ & G)|[_ G]]]; [|by rewrite E in G].
  by exists w', ps'.
Qed.

Lemma parseredirs_complete ts rs2 : g_redirs ts rs2 → ∀ fuel rs ps rest,
  cline ps → tokens ps = ts ++ rest → starts (str "<>") rest = false → (length (tokens ps) < fuel)%nat →
  ∃ ps', parseredirs_loop n fuel rs ps = POk (rs ++ rs2) ps' ∧ tokens ps' = rest ∧ cline ps'.
Proof.
  induction 1 as [|t f ts rs2 Ht Hg IH]; intros [|fuel] rs ps rest Hs E Hr Hf; try lia; cbn [parseredirs_loop]; peek_goal ps1 Hc1 Ht1; rewrite E in *.
  - cbn [app] in *. rewrite Hr. exists ps1. by rewrite app_nil_r.
  - assert (starts (str "<>") ((Sym t :: Word f :: ts) ++ rest) = true) as ->.
    { cbn [app starts]. repeat (apply elem_of_cons in Ht as [->|Ht]; [done|]). by apply not_elem_of_nil in Ht. }
    destruct (gettoken_sym ps1 t (Word f :: ts ++ rest) Hc1 Ht1) as (w & ps2 & -> & Ht2 & Hc2). destruct (gettoken_word ps2 f (ts ++ rest) Hc2 Ht2) as (ps3 & -> & Ht3 & Hc3).
    cbn [Z.eqb Pos.eqb negb]. destruct (IH fuel (rs ++ [redir_of t f]) ps3 rest Hc3 Ht3 Hr) as (ps' & Hrun & ? & ?).
    { rewrite Ht3. cbn [length app] in Hf. lia. }
    exists ps'. rewrite Hrun, <- app_assoc. done.
Qed.

Lemma g_args_start ts args rs rest : g_args ts args rs → starts (str "<>") rest = false → starts (str "<>") (ts ++ rest) = false.
Proof. by destruct 1. Qed.

Lemma follows_redir toks rest : follows toks rest → is_in toks 60 = false → is_in toks 62 = false → starts (str "<>") rest = false.
Proof.
  intros [->|H] H60 H62; [done|]. destruct rest as [|[c|w] rest]; try done. cbn [starts] in *. destruct (is_in (str "<>") (if c =? 43 then 62 else c)) eqn:E; [|done].
  apply redir_sym in E. repeat (apply elem_of_cons in E as [->|E]; [cbn [Z.eqb Pos.eqb] in H; congruence|]). by apply not_elem_of_nil in E.
Qed.

Lemma parseargs_complete ts args rs2 : g_args ts args rs2 → ∀ fuel argv rs ps rest,
  cline ps → tokens ps = ts ++ rest → follows (str "|)&;") rest → (length (tokens ps) < fuel)%nat → (length (argv ++ args) < MAXARGS)%nat →
  ∃ ps', parseargs n fuel argv rs ps = POk (argv ++ args, rs ++ rs2) ps' ∧ tokens ps' = rest ∧ cline ps'.
Proof.
  induction 1 as [|a ts1 rs1 ts2 args rs2 Hg1 Hg2 IH]; intros [|fuel] argv rs ps rest Hs E Hr Hf Hl; try lia; cbn [parseargs]; peek_goal ps1 Hc1 Ht1; rewrite E in *.
  - rewrite !app_nil_r. cbn [app] in *. destruct Hr as [->|Hr]; [|rewrite Hr; by exists ps1]. cbn [starts].
    destruct (gettoken_end ps1 Hc1 Ht1) as (w & ps2 & -> & Ht2 & Hc2). by exists ps2.
  - cbn [app starts]. cbn [app] in Ht1. rewrite <- app_assoc in Ht1. destruct (gettoken_word ps1 a (ts1 ++ ts2 ++ rest) Hc1 Ht1) as (ps2 & -> & Ht2 & Hc2).
    cbn [Z.eqb Pos.eqb negb]. cbn [length app] in Hf. rewrite !length_app in Hf.
    rewrite length_app in Hl. cbn [length] in Hl. rewrite (proj2 (Nat.leb_gt _ _)) by (rewrite length_app; cbn [length]; lia).
    destruct (parseredirs_complete _ _ Hg1 (S (length ps2)) [] ps2 (ts2 ++ rest) Hc2 Ht2) as (ps3 & Hrun3 & Ht3 & Hc3).
    { eapply g_args_start; [done|]. by eapply follows_redir. } { by apply tokens_fuel. }
    unfold parseredirs. rewrite Hrun3. cbn [pbind app].
    destruct (IH fuel (argv ++ [a]) (rs ++ rs1) ps3 rest Hc3 Ht3 Hr) as (ps' & Hrun & ? & ?).
    { rewrite Ht3, length_app. lia. } { rewrite !length_app. cbn [length]. lia. }
    exists ps'. rewrite Hrun, <- !app_assoc. done.
Qed.

Lemma parseback_complete k fuel c ps rest :
  cline ps → tokens ps = amps k ++ rest → starts (str "&") rest = false → (length (tokens ps) < fuel)%nat →
  ∃ ps', parseback n fuel c ps = POk (Nat.iter k backcmd c) ps' ∧ tokens ps' = rest ∧ cline ps'.
Proof.
  revert fuel c ps. induction k as [|k IH]; intros [|fuel] c ps Hs E Hr Hf; try lia; cbn [parseback]; peek_goal ps1 Hc1 Ht1; rewrite E in *.
  - cbn [app amps replicate] in *. rewrite Hr. by exists ps1.
  - change (starts (str "&") (amps (S k) ++ rest)) with true. destruct (gettoken_sym ps1 38 (amps k ++ rest) Hc1 Ht1) as (w & ps2 & -> & Ht2 & Hc2).
    destruct (IH fuel (backcmd c) ps2 Hc2 Ht2 Hr) as (ps' & Hrun & ? & ?); [rewrite Ht2; cbn [amps replicate length app] in Hf; rewrite length_app in *; unfold amps; lia|].
    exists ps'. rewrite Hrun, Nat.iter_succ_r. done.
Qed.

Lemma follows_not toks rest c : follows toks rest → c ≠ 0 → is_in toks c = false → starts [c] rest = false.
Proof.
  intros [->|H] Hc Hn; [done|]. destruct rest as [|[x|w] rest]; try done. cbn [starts] in *. set (y := if x =? 43 then 62 else x) in *.
  destruct (decide (y = 0)) as [->|Hy]; [by apply is_in_zero; set_solver|]. rewrite is_in_spec by set_solver.
  apply bool_decide_eq_false. intros ->%list_elem_of_singleton. congruence.
Qed.

Lemma follows_sub toks toks' rest :
  follows toks rest → bool_decide (0 ∉ toks ∧ 0 ∉ toks' ∧ Forall (λ c, c ∈ toks') toks) = true → follows toks' rest.
Proof.
  intros [->|H] Hsub; [by left|]. apply bool_decide_eq_true in Hsub as (H1 & H2 & Hsub). right. destruct rest as [|[x|w] rest]; try done. cbn [starts] in *.
  destruct (is_in toks' (if x =? 43 then 62 else x)) eqn:E; [done|]. rewrite Forall_forall in Hsub. by rewrite (is_in_subset toks toks') in H.
Qed.

(** A list of redirections and arguments does not start with a parenthesis. *)
Lemma not_block ts1 rs1 ts2 args rs2 rest :
  g_redirs ts1 rs1 → g_args ts2 args rs2 → starts (str "(") rest = false → starts (str "(") (ts1 ++ ts2 ++ rest) = false.
Proof.
  intros [|t f ts rs Ht _] Hg Hr; cbn [app]; [by destruct Hg|]. cbn [starts].
  repeat (apply elem_of_cons in Ht as [->|Ht]; [done|]). by apply not_elem_of_nil in Ht.
Qed.

Lemma exec_args_complete ts1 rs1 ts2 args rs2 :
  g_redirs ts1 rs1 → g_args ts2 args rs2 → (length args < MAXARGS)%nat →
  complete 2 (parseexec n) (str "|)&;") (ts1 ++ ts2) (foldl add_redir (execcmd args) (rs1 ++ rs2)).
Proof.
  intros Hg1 Hg2 Hl [|fuel] ps rest Hs E Hr Hf; [lia|]. cbn [parseexec]. peek_goal ps1 Hc1 Ht1. rewrite E, <- app_assoc in *.
  rewrite (not_block ts1 rs1 ts2 args rs2 rest Hg1 Hg2) by (by eapply follows_not). unfold parseredirs.
  destruct (parseredirs_complete _ _ Hg1 (S (length ps1)) [] ps1 (ts2 ++ rest) Hc1 Ht1) as (ps2 & -> & Ht2 & Hc2).
  { eapply g_args_start; [done|]. by eapply follows_redir. } { by apply tokens_fuel. }
  cbn [pbind app]. destruct (parseargs_complete _ _ _ Hg2 (S (length ps2)) [] rs1 ps2 rest Hc2 Ht2 Hr) as (ps3 & -> & Ht3 & Hc3); [by apply tokens_fuel|done|].
  by exists ps3.
Qed.

Lemma exec_block_complete ts c ts2 rs :
  complete 4 (parseline n) (str ")") ts c → g_redirs ts2 rs →
  complete 2 (parseexec n) (str "|)&;") (Sym 40 :: ts ++ Sym 41 :: ts2) (foldl add_redir c rs).
Proof.
  intros Hl Hg [|[|fuel]] ps rest Hs E Hr Hf; [lia|lia|]. cbn [app] in E. rewrite <- app_assoc in E. cbn [app] in E.
  cbn [parseexec]. peek_goal ps1 Hc1 Ht1. rewrite E in *. change (starts (str "(") (Sym 40 :: ts ++ Sym 41 :: ts2 ++ rest)) with true.
  cbn [parseblock]. peek_goal ps2 Hc2 Ht2. rewrite Ht1 in *. change (starts (str "(") (Sym 40 :: ts ++ Sym 41 :: ts2 ++ rest)) with true. cbn [negb].
  destruct (gettoken_sym ps2 40 (ts ++ Sym 41 :: ts2 ++ rest) Hc2 Ht2) as (w & ps3 & -> & Ht3 & Hc3).
  destruct (Hl fuel ps3 (Sym 41 :: ts2 ++ rest) Hc3 Ht3) as (ps4 & -> & Ht4 & Hc4); [by right|rewrite Ht3; cbn [length] in Hf; lia|]. cbn [pbind].
  peek_goal ps5 Hc5 Ht5. rewrite Ht4 in *. change (starts (str ")") (Sym 41 :: ts2 ++ rest)) with true. cbn [negb].
  destruct (gettoken_sym ps5 41 (ts2 ++ rest) Hc5 Ht5) as (w6 & ps6 & -> & Ht6 & Hc6). unfold parseredirs.
  destruct (parseredirs_complete _ _ Hg (S (length ps6)) [] ps6 rest Hc6 Ht6) as (ps7 & -> & Ht7 & Hc7); [by eapply follows_redir|by apply tokens_fuel|].
  by exists ps7.
Qed.

Lemma pipe_one_complete ts c :
  complete 2 (parseexec n) (str "|)&;") ts c → complete 3 (parsepipe n) (str ")&;") ts c.
Proof.
  intros He [|fuel] ps rest Hs E Hr Hf; [lia|]. cbn [parsepipe].
  destruct (He fuel ps rest Hs E) as (ps1 & -> & Ht1 & Hc1); [by eapply follows_sub|lia|]. cbn [pbind].
  peek_goal ps2 Hc2 Ht2. rewrite Ht1 in *. assert (starts (str "|") rest = false) as -> by (by apply (follows_not _ _ 124 Hr)). by exists ps2.
Qed.

Lemma pipe_more_complete ts c ts2 d :
  complete 2 (parseexec n) (str "|)&;") ts c → complete 3 (parsepipe n) (str ")&;") ts2 d →
  complete 3 (parsepipe n) (str ")&;") (ts ++ Sym 124 :: ts2) (pipecmd c d).
Proof.
  intros He Hp [|fuel] ps rest Hs E Hr Hf; [lia|]. cbn [parsepipe]. rewrite <- app_assoc in E. cbn [app] in E.
  destruct (He fuel ps (Sym 124 :: ts2 ++ rest) Hs E) as (ps1 & -> & Ht1 & Hc1); [by right|lia|]. cbn [pbind].
  peek_goal ps2 Hc2 Ht2. rewrite Ht1 in *. change (starts (str "|") (Sym 124 :: ts2 ++ rest)) with true.
  destruct (gettoken_sym ps2 124 (ts2 ++ rest) Hc2 Ht2) as (w & ps3 & -> & Ht3 & Hc3).
  destruct (Hp fuel ps3 rest Hc3 Ht3 Hr) as (ps4 & -> & Ht4 & Hc4); [|by exists ps4].
  rewrite Ht3. rewrite E, length_app in Hf. cbn [length] in Hf. lia.
Qed.

(** The part of [parseline] up to the semicolon. *)
Lemma line_start_complete ts c k fuel ps rest :
  complete 3 (parsepipe n) (str ")&;") ts c → cline ps → tokens ps = ts ++ amps k ++ rest → follows (str ");") rest →
  (4 * length (tokens ps) + 3 ≤ fuel)%nat →
  ∃ ps1 ps2, parsepipe n fuel ps = POk c ps1 ∧ parseback n (S (length ps1)) c ps1 = POk (Nat.iter k backcmd c) ps2 ∧
    tokens ps2 = rest ∧ cline ps2.
Proof.
  intros Hp Hs E Hr Hf. destruct (Hp fuel ps (amps k ++ rest) Hs E) as (ps1 & Hrun1 & Ht1 & Hc1); [|lia|].
  { destruct k; [by eapply follows_sub|by right]. }
  destruct (parseback_complete k (S (length ps1)) c ps1 rest Hc1 Ht1) as (ps2 & Hrun2 & Ht2 & Hc2); [by eapply follows_not|by apply tokens_fuel|].
  by exists ps1, ps2.
Qed.

Lemma line_one_complete ts c k :
  complete 3 (parsepipe n) (str ")&;") ts c → complete 4 (parseline n) (str ")") (ts ++ amps k) (Nat.iter k backcmd c).
Proof.
  intros Hp [|fuel] ps rest Hs E Hr Hf; [lia|]. cbn [parseline]. rewrite <- app_assoc in E.
  destruct (line_start_complete ts c k fuel ps rest Hp Hs E) as (ps1 & ps2 & -> & Hrun2 & Ht2 & Hc2); [by eapply follows_sub|lia|].
  cbn [pbind]. rewrite Hrun2. cbn [pbind]. peek_goal ps3 Hc3 Ht3. rewrite Ht2 in *. assert (starts (str ";") rest = false) as -> by (by apply (follows_not _ _ 59 Hr)). by exists ps3.
Qed.

Lemma line_list_complete ts c k ts2 d :
  complete 3 (parsepipe n) (str ")&;") ts c → complete 4 (parseline n) (str ")") ts2 d →
  complete 4 (parseline n) (str ")") (ts ++ amps k ++ Sym 59 :: ts2) (listcmd (Nat.iter k backcmd c) d).
Proof.
  intros Hp Hl [|fuel] ps rest Hs E Hr Hf; [lia|]. cbn [parseline]. rewrite <- !app_assoc in E. cbn [app] in E.
  destruct (line_start_complete ts c k fuel ps (Sym 59 :: ts2 ++ rest) Hp Hs E) as (ps1 & ps2 & -> & Hrun2 & Ht2 & Hc2); [by right|lia|].
  cbn [pbind]. rewrite Hrun2. cbn [pbind]. peek_goal ps3 Hc3 Ht3. rewrite Ht2 in *. change (starts (str ";") (Sym 59 :: ts2 ++ rest)) with true.
  destruct (gettoken_sym ps3 59 (ts2 ++ rest) Hc3 Ht3) as (w & ps4 & -> & Ht4 & Hc4).
  destruct (Hl fuel ps4 rest Hc4 Ht4 Hr) as (ps5 & -> & Ht5 & Hc5); [|by exists ps5].
  rewrite Ht4. rewrite E, !length_app in Hf. cbn [length] in Hf. lia.
Qed.

Lemma parse_complete :
  (∀ ts c, g_line ts c → complete 4 (parseline n) (str ")") ts c) ∧
  (∀ ts c, g_pipe ts c → complete 3 (parsepipe n) (str ")&;") ts c) ∧
  (∀ ts c, g_exec ts c → complete 2 (parseexec n) (str "|)&;") ts c).
Proof.
  apply grammar_ind; intros.
  - by apply line_one_complete.
  - by apply line_list_complete.
  - by apply pipe_one_complete.
  - by apply pipe_more_complete.
  - by apply exec_args_complete.
  - by apply exec_block_complete.
Qed.

End tokens.

Lemma parsecmd_sound s c buf :
  cline s → parsecmd s = Parsed c buf → g_line (tokens (length s) s) c ∧ buf = nulterminate c (s ++ [0]).
Proof.
  intros Hs E. unfold parsecmd in E. set (n := length s) in *.
  destruct (parseline n (parse_fuel n) s) as [c1 ps1| |] eqn:E1; [|done|done].
  destruct (proj1 (parse_sound n (parse_fuel n)) s c1 ps1 Hs E1) as (ts & Ht & Hg & Hc1).
  destruct (peek ps1 []) as [b ps2] eqn:Ep. destruct (peek_tokens n ps1 [] b ps2 Hc1 eq_refl Ep) as (_ & _ & _ & Hnil).
  destruct ps2; [|done]. injection E as -> <-. rewrite Ht, (proj1 Hnil eq_refl), app_nil_r. done.
Qed.

(** C11: The shell's parser implements the grammar of its commands.  For every line
    it ends, with a command or with a syntax error; it returns a command exactly
    when the grammar derives that command from the tokens of the whole line, and
    so at most one; and it hands on the line with every string of the command
    terminated. *)
Theorem parsecmd_grammar s :
  cline s →
  parsecmd s ≠ Unfinished ∧
  ∀ c buf, parsecmd s = Parsed c buf ↔ g_line (tokens (length s) s) c ∧ buf = nulterminate c (s ++ [0]).
Proof.
  intros Hs. split.
  - unfold parsecmd. set (n := length s).
    destruct (parse_total n (parse_fuel n)) as [Htot _]. specialize (Htot s Hs).
    destruct (parseline n (parse_fuel n) s) as [c ps| |]; [|done|].
    + destruct (peek ps []) as [b ps1]. by destruct ps1.
    + exfalso. apply Htot; [|done]. pose proof (tokens_length n s Hs). unfold parse_fuel. lia.
  - intros c buf. split; [by apply parsecmd_sound|]. intros [Hg ->]. unfold parsecmd. set (n := length s) in *.
    destruct (proj1 (parse_complete n) _ c Hg (parse_fuel n) s [] Hs) as (ps1 & -> & Ht1 & Hc1);
      [by rewrite app_nil_r|by left|pose proof (tokens_length n s Hs); unfold parse_fuel; lia|].
    destruct (peek ps1 []) as [b ps2] eqn:Ep. destruct (peek_tokens n ps1 [] b ps2 Hc1 eq_refl Ep) as (_ & _ & _ & Hnil).
    by rewrite (proj2 Hnil Ht1).
Qed.

Lemma parsecmd_grammar_witness :
  parsecmd (str "ls|wc>f") ≠ Unfinished ∧
  g_line (tokens 7 (str "ls|wc>f")) (pipecmd (execcmd [(0, 2)%nat]) (redircmd (execcmd [(3, 5)%nat]) 6 7 513 1)).
Proof.
  destruct (parsecmd_grammar (str "ls|wc>f")) as [H1 H2].
  - apply (bool_decide_unpack _). vm_compute. exact I.
  - split; [exact H1|]. refine (proj1 (proj1 (H2 _ [108; 115; 0; 119; 99; 0; 102; 0]) _)). vm_compute. reflexivity.
Defined.

(** ** The strings of a command *)

Definition word_char (c : Z) : bool := negb (is_in whitespace c) && negb (is_in symbols c).

(** The part of the line from [w.1] to [w.2] is a whole word. *)
Definition is_word (s : list Z) (w : nat * nat) : Prop :=
  (w.1 < w.2 ≤ length s)%nat ∧ (∀ i, (w.1 ≤ i < w.2)%nat → ∃ c, s !! i = Some c ∧ word_char c = true) ∧
  (∀ c, s !! w.2 = Some c → word_char c = false).

Lemma skip_word_spec s :
  ∃ u, s = u ++ skip_word s ∧ Forall (λ c, word_char c = true) u ∧ (∀ c, head (skip_word s) = Some c → word_char c = false).
Proof.
  induction s as [|c s (u & IH1 & IH2 & IH3)]; cbn [skip_word]; [by exists []|]. fold (word_char c). destruct (word_char c) eqn:E.
  - exists (c :: u). split; [cbn; by rewrite <- IH1|]. split; [by apply Forall_cons|done].
  - exists []. split; [done|]. split; [by apply Forall_nil|]. intros d [= <-]. done.
Qed.

Lemma gettoken_is_word s ps w ps' :
  cline s → ps `suffix_of` s → gettoken (length s) ps = (97, w, ps') → is_word s w.
Proof.
  intros Hs Hps E. destruct (gettoken_cases (length s) ps 97 w ps' (cline_suffix _ _ Hs Hps) E) as [(_ & ? & _)|(c & q & Eq & _ & _ & Hc)]; [done|].
  destruct (is_in symbols c) eqn:Ec; [by destruct Hc|]. destruct Hc as [_ ->].
  assert (word_char c = true) as Hw by (unfold word_char; by rewrite (skip_space_head _ _ _ Eq), Ec).
  destruct (skip_word_spec q) as (u & Hq & Hu & Hh). assert (c :: q `suffix_of` s) as [pre ->] by (etrans; [|exact Hps]; rewrite <- Eq; apply skip_space_suffix).
  unfold is_word, at_. cbn [fst snd]. set (r := skip_word q) in *. clearbody r. subst q. rewrite !length_app. cbn [length]. rewrite !length_app.
  replace (length pre + S (length u + length r) - S (length u + length r))%nat with (length pre) by lia.
  replace (length pre + S (length u + length r) - length r)%nat with (length pre + S (length u))%nat by lia. split; [lia|]. split.
  - intros i Hi. rewrite lookup_app_r by lia. destruct (decide (i = length pre)) as [->|Hne]; [rewrite Nat.sub_diag; by exists c|].
    rewrite lookup_cons_ne_0, lookup_app_l by lia.
    destruct (lookup_lt_is_Some_2 u (Nat.pred (i - length pre))) as [x Hx]; [lia|]. exists x. split; [done|]. exact (Forall_lookup_1 _ _ _ _ Hu Hx).
  - intros x Hx. rewrite lookup_app_r in Hx by lia. replace (length pre + S (length u) - length pre)%nat with (S (length u)) in Hx by lia.
    rewrite lookup_cons_ne_0 in Hx by lia. cbn [Nat.pred] in Hx. rewrite lookup_app_r, Nat.sub_diag in Hx by lia. apply Hh. by destruct r.
Qed.

Lemma tokens_words s ps w : cline s → ps `suffix_of` s → Word w ∈ tokens (length s) ps → is_word s w.
Proof.
  intros Hs. remember (length ps) as m eqn:Em. revert ps Em. induction m as [m IH] using lt_wf_ind. intros ps -> Hps Hin.
  pose proof (cline_suffix _ _ Hs Hps) as Hc. destruct (gettoken (length s) ps) as [[tok w'] ps'] eqn:E.
  rewrite (tokens_unfold _ _ _ _ _ Hc E) in Hin. destruct (Z.eqb_spec tok 0) as [Hz|Hz]; [by apply not_elem_of_nil in Hin|].
  pose proof (gettoken_suffix _ _ _ _ _ E) as Hsuf. apply elem_of_cons in Hin as [Hin|Hin].
  - unfold mk_token in Hin. destruct (Z.eqb_spec tok 97) as [->|]; [|done]. injection Hin as ->. by eapply gettoken_is_word.
  - destruct (gettoken_cases _ ps tok w' ps' Hc E) as [(_ & ? & _)|(_ & _ & _ & _ & Hl & _)]; [done|].
    eapply (IH (length ps')); [done|done|by etrans|done].
Qed.

(** The strings a command points to. *)
Fixpoint strings_of (c : cmd) : list (nat * nat) :=
  match c with
  | execcmd argv => argv
  | redircmd c file efile _ _ => strings_of c ++ [(file, efile)]
  | pipecmd c d | listcmd c d => strings_of c ++ strings_of d
  | backcmd c => strings_of c
  end.

Lemma strings_iter k c : strings_of (Nat.iter k backcmd c) = strings_of c.
Proof. induction k as [|k IH]; [done|]. exact IH. Qed.

Lemma strings_redirs ts rs c w : g_redirs ts rs → w ∈ strings_of (foldl add_redir c rs) → w ∈ strings_of c ∨ Word w ∈ ts.
Proof.
  intros Hg. revert c. induction Hg as [|t f ts rs Ht Hg IH]; intros c Hw; [by left|]. cbn [foldl] in Hw. apply IH in Hw as [Hw|Hw]; [|right; set_solver].
  assert (strings_of (add_redir c (redir_of t f)) = strings_of c ++ [f]) as E.
  { unfold redir_of, add_redir. destruct f, (t =? 60), (t =? 62); done. }
  rewrite E in Hw. set_solver.
Qed.

Lemma args_words ts args rs a : g_args ts args rs → a ∈ args → Word a ∈ ts.
Proof. induction 1; set_solver. Qed.

Lemma strings_args ts args rs c w :
  g_args ts args rs → w ∈ strings_of (foldl add_redir c rs) → w ∈ strings_of c ∨ Word w ∈ ts.
Proof.
  intros Hg. revert c. induction Hg as [|a ts1 rs1 ts2 args rs2 Hg1 Hg2 IH]; intros c Hw; [by left|]. rewrite foldl_app in Hw.
  apply IH in Hw as [Hw|Hw]; [|set_solver]. apply (strings_redirs ts1) in Hw as [Hw|Hw]; [by left|set_solver|done].
Qed.

Lemma strings_tokens :
  (∀ ts c, g_line ts c → ∀ w, w ∈ strings_of c → Word w ∈ ts) ∧
  (∀ ts c, g_pipe ts c → ∀ w, w ∈ strings_of c → Word w ∈ ts) ∧
  (∀ ts c, g_exec ts c → ∀ w, w ∈ strings_of c → Word w ∈ ts).
Proof.
  apply grammar_ind.
  - intros ts c k _ IH w Hw. rewrite strings_iter in Hw. set_solver.
  - intros ts c k ts2 d _ IH1 _ IH2 w Hw. cbn [strings_of] in Hw. rewrite strings_iter in Hw. set_solver.
  - done.
  - intros ts c ts2 d _ IH1 _ IH2 w Hw. cbn [strings_of] in Hw. set_solver.
  - intros ts1 rs1 ts2 args rs2 Hg1 Hg2 _ w Hw. rewrite foldl_app in Hw. apply (strings_args ts2 args) in Hw as [Hw|Hw]; [|set_solver|done].
    apply (strings_redirs ts1) in Hw as [Hw|Hw]; [|set_solver|done]. apply (args_words ts2 args rs2) in Hw; [set_solver|done].
  - intros ts c ts2 rs _ IH Hg w Hw. apply (strings_redirs ts2) in Hw as [Hw|Hw]; [|set_solver|done]. set_solver.
Qed.

(** [nulterminate] clears exactly the bytes after the strings. *)
Lemma clear_lookup (es : list nat) (buf : list Z) (i : nat) :
  foldl (λ buf e, <[e := 0]> buf) buf es !! i = if decide (i ∈ es) then (λ _, 0) <$> buf !! i else buf !! i.
Proof.
  revert buf. induction es as [|e es IH]; intros buf; cbn [foldl]; [done|]. rewrite IH, list_lookup_insert.
  destruct (decide (i = e)) as [->|Hne].
  - rewrite (decide_True (P := e ∈ e :: es)) by by left. destruct (decide (e = e ∧ _)) as [[_ Hl]|Hl].
    + destruct (lookup_lt_is_Some_2 buf e Hl) as [x ->]. by case_decide.
    + rewrite lookup_ge_None_2 by lia. by case_decide.
  - rewrite (decide_False (P := e = i ∧ _)) by (intros [? _]; congruence). repeat case_decide; set_solver.
Qed.

Lemma clear_length (es : list nat) (buf : list Z) : length (foldl (λ buf e, <[e := 0]> buf) buf es) = length buf.
Proof. revert buf. induction es as [|e es IH]; intros buf; cbn [foldl]; [done|]. by rewrite IH, length_insert. Qed.

Lemma nulterminate_clear c buf : nulterminate c buf = foldl (λ buf e, <[e := 0]> buf) buf (strings_of c).*2.
Proof.
  revert buf. induction c as [argv|c IH f e m d|c IH1 d IH2|c IH1 d IH2|c IH]; intros buf; cbn [nulterminate strings_of].
  - revert buf. induction argv as [|a argv IH]; intros buf; [done|]. apply IH.
  - by rewrite fmap_app, foldl_app, IH.
  - by rewrite fmap_app, foldl_app, IH1, IH2.
  - by rewrite fmap_app, foldl_app, IH1, IH2.
  - apply IH.
Qed.

(** The bytes from one index to another, when they are not NUL and the next is. *)
Lemma cstr_slice n (buf : list Z) (i j : nat) :
  (i ≤ j < length buf)%nat → (length buf ≤ n)%nat → (∀ k, (i ≤ k < j)%nat → buf !! k ≠ Some 0) → buf !! j = Some 0 →
  cstr n (drop i buf) = take (j - i) (drop i buf).
Proof.
  intros Hij Hn Hnz Hz. rewrite <- (take_drop (j - i) (drop i buf)) at 1. rewrite drop_drop. replace (i + (j - i))%nat with j by lia.
  rewrite (drop_S _ _ _ Hz). apply cstr_stop.
  - intros (k & Hk)%list_elem_of_lookup. rewrite lookup_take, lookup_drop in Hk. case_decide; [|done]. apply (Hnz (i + k)%nat); [lia|done].
  - rewrite length_take, length_drop. lia.
Qed.

(** The strings of a parsed command are the words of the line.  Whatever
    command the parser returns, each of its arguments and files is a maximal run
    of characters that are neither white space nor symbols, and after
    [nulterminate] the C string that its pointer designates is exactly that word,
    however close the words and symbols stand. *)
Theorem nulterminate_strings s c buf :
  cline s → parsecmd s = Parsed c buf →
  ∀ w, w ∈ strings_of c → is_word s w ∧ cstr (length buf) (drop w.1 buf) = take (w.2 - w.1) (drop w.1 s).
Proof.
  intros Hs E. destruct (parsecmd_sound s c buf Hs E) as [Hg ->].
  assert (∀ w, w ∈ strings_of c → is_word s w) as Hall.
  { intros w Hw. apply (tokens_words s s); [done|done|]. by apply (proj1 strings_tokens _ c). }
  assert (∀ i, nulterminate c (s ++ [0]) !! i = if decide (i ∈ (strings_of c).*2) then (λ _, 0) <$> (s ++ [0]) !! i else (s ++ [0]) !! i) as Hbuf.
  { intros i. rewrite nulterminate_clear. apply clear_lookup. }
  assert (length (nulterminate c (s ++ [0])) = S (length s)) as Hlen.
  { rewrite nulterminate_clear, clear_length, length_app. cbn. lia. }
  intros w Hw. destruct (Hall w Hw) as (H1 & H2 & H3). split; [done|].
  assert (∀ k, (w.1 ≤ k < w.2)%nat → nulterminate c (s ++ [0]) !! k = s !! k) as Hin.
  { intros k Hk. destruct (H2 k Hk) as (x & Hx & Hwx). rewrite Hbuf, decide_False; [by rewrite lookup_app_l by lia|].
    intros ([a e] & -> & Hae)%list_elem_of_fmap. destruct (Hall _ Hae) as (_ & _ & H). by rewrite (H x Hx) in Hwx. }
  rewrite (cstr_slice _ _ w.1 w.2).
  - apply list_eq. intros i. rewrite !lookup_take, !lookup_drop. case_decide; [|done]. apply Hin. lia.
  - lia.
  - lia.
  - intros k Hk Hz. rewrite Hin in Hz by done. apply Hs. by eapply list_elem_of_lookup_2.
  - rewrite Hbuf, decide_True by (apply list_elem_of_fmap; by exists w).
    destruct (lookup_lt_is_Some_2 (s ++ [0]) w.2) as [x ->]; [rewrite length_app; cbn; lia|done].
Qed.

Lemma nulterminate_strings_witness :
  is_word (str "ls|wc>f") (3, 5)%nat ∧
  cstr 8 (drop 3 [108; 115; 0; 119; 99; 0; 102; 0]) = take 2 (drop 3 (str "ls|wc>f")).
Proof.
  apply (nulterminate_strings (str "ls|wc>f") (pipecmd (execcmd [(0, 2)%nat]) (redircmd (execcmd [(3, 5)%nat]) 6 7 513 1))
    [108; 115; 0; 119; 99; 0; 102; 0]) with (w := (3, 5)%nat).
  - apply (bool_decide_unpack _). vm_compute. exact I.
  - vm_compute. reflexivity.
  - apply (bool_decide_unpack _). vm_compute. exact I.
Defined.
