(* ===== verification/Runcmd.v ===== *)
(** * Running commands ([runcmd], [getcmd], [main] of [sh.c])

    A process is followed through its own calls: [fork] answers 0 in the child and
    the process id in the parent, and the program goes on as the one or the other.
    The instance [fdtab] answers the calls on descriptors as the kernel does, each
    new one being the lowest that is free. *)

From stdpp Require Import base numbers list gmap strings.
From S2P Require Import Prelude Mmu Hardware Memory Cprintf User Ulib Sh.

#[local] Open Scope user_scope.

Section run.
Context {S : Type} `{Os S}.

Definition sh_panic {A} (s : string) : U S A :=
  printf 2 ("%s" +:+ nl) [AStr (Some (str s))] ;;;
  exit.

Definition fork1 : U S Z :=
  let! pid := usys CFork in
  if pid =? -1 then sh_panic "fork" else uret pid.

(** The C string at index [i] of the line. *)
Definition string_at (buf : list Z) (i : nat) : list Z := cstr (length buf) (drop i buf).

Definition runexec (buf : list Z) (argv : list (nat * nat)) : U S unit :=
  match argv with
  | [] => exit
  | a :: _ =>
      exec (string_at buf a.1) ((λ w, string_at buf w.1) <$> argv) ;;;
      printf 2 ("exec %s failed" +:+ nl) [AStr (Some (string_at buf a.1))] ;;;
      exit
  end.

Fixpoint runcmd (buf : list Z) (c : cmd) : U S unit :=
  match c with
  | execcmd argv => runexec buf argv
  | redircmd c file _ mode fd =>
      usys (CClose fd) ;;;
      let! r := usys (COpen (string_at buf file) mode) in
      if r <? 0 then
        printf 2 ("open %s failed" +:+ nl) [AStr (Some (string_at buf file))] ;;;
        exit
      else
        runcmd buf c ;;;
        exit
  | listcmd l r =>
      let! pid := fork1 in
      uwhen (pid =? 0) (runcmd buf l) ;;;
      usys CWait ;;;
      runcmd buf r ;;;
      exit
  | pipecmd l r =>
      let! p := ucall CPipe in
      if a_ret p <? 0 then sh_panic "pipe"
      else
        let p0 := default 0 (a_data p !! 0%nat) in
        let p1 := default 0 (a_data p !! 1%nat) in
        let! pid := fork1 in
        uwhen (pid =? 0)
          (usys (CClose 1) ;;;
           usys (CDup p1) ;;;
           usys (CClose p0) ;;;
           usys (CClose p1) ;;;
           runcmd buf l) ;;;
        let! pid := fork1 in
        uwhen (pid =? 0)
          (usys (CClose 0) ;;;
           usys (CDup p0) ;;;
           usys (CClose p0) ;;;
           usys (CClose p1) ;;;
           runcmd buf r) ;;;
        usys (CClose p0) ;;;
        usys (CClose p1) ;;;
        usys CWait ;;;
        usys CWait ;;;
        exit
  | backcmd c =>
      let! pid := fork1 in
      uwhen (pid =? 0) (runcmd buf c) ;;;
      exit
  end.

(** ** The command loop *)

(** [buf] after reading a line, or nothing at the end of the input. *)
Definition getcmd (buf : list Z) : U S (Z * list Z) :=
  printf 2 "$ " [] ;;;
  let! buf := gets (replicate (length buf) 0) (Z.of_nat (length buf)) in
  uret (if default 0 (buf !! 0%nat) =? 0 then -1 else 0, buf).

(** [runcmd(parsecmd(buf))]. *)
Definition run_line (buf : list Z) : U S unit :=
  match parsecmd (string_at buf 0) with
  | Parsed c line => runcmd line c
  | SyntaxError leftovers msg =>
      match leftovers with
      | Some s => printf 2 ("leftovers: %s" +:+ nl) [AStr (Some s)]
      | None => uret tt
      end ;;;
      sh_panic msg
  | Unfinished => λ s, UMore s
  end.

Definition is_cd (buf : list Z) : bool :=
  (default 0 (buf !! 0%nat) =? 99) && (default 0 (buf !! 1%nat) =? 100) && (default 0 (buf !! 2%nat) =? 32).

Definition sh_turn (buf : list Z) : U S (list Z + unit) :=
  let! r := getcmd buf in
  let '(n, buf) := r in
  if n <? 0 then uret (inr tt)
  else if is_cd buf then
    let buf := <[(length (string_at buf 0) - 1)%nat := 0]> buf in
    let! r := usys (CChdir (string_at buf 3)) in
    uwhen (r <? 0) (printf 2 ("cannot cd %s" +:+ nl) [AStr (Some (string_at buf 3))]) ;;;
    uret (inl buf)
  else
    let! pid := fork1 in
    uwhen (pid =? 0) (run_line buf) ;;;
    usys CWait ;;;
    uret (inl buf).

(** Three descriptors are to be open. *)
Definition open_console (_ : unit) : U S (unit + unit) :=
  let! fd := usys (COpen (str "console") O_RDWR) in
  if 0 <=? fd then
    if 3 <=? fd then usys (CClose fd) ;;; uret (inr tt) else uret (inl tt)
  else uret (inr tt).

Definition sh_main (fuel : nat) : U S unit :=
  uloop fuel open_console tt ;;;
  uloop fuel sh_turn (replicate 100 0) ;;;
  exit.

(** ** [runcmd] never returns *)

(** Neither does anything that ends in it. *)
Definition never_returns {A} (m : U S A) : Prop := ∀ s a s', m s ≠ URet a s'.

Lemma exit_never {A} : never_returns (exit (A := A)).
Proof. by intros s a s'. Qed.

Lemma bind_never {A B} (m : U S A) (f : A → U S B) : (∀ a, never_returns (f a)) → never_returns (ubind m f).
Proof. intros Hf s b s'. unfold ubind. destruct (m s); [apply Hf|done|done|done]. Qed.

Lemma runcmd_never buf c : never_returns (runcmd buf c).
Proof.
  induction c as [argv|c IH f e m d|c IH1 d IH2|c IH1 d IH2|c IH]; cbn [runcmd].
  - unfold runexec. destruct argv; [apply exit_never|]. repeat (apply bind_never; intros ?). apply exit_never.
  - repeat (apply bind_never; intros ?). destruct (_ <? 0); repeat (apply bind_never; intros ?); apply exit_never.
  - repeat (apply bind_never; intros ?). destruct (_ <? 0); repeat (apply bind_never; intros ?); apply exit_never.
  - repeat (apply bind_never; intros ?). apply exit_never.
  - repeat (apply bind_never; intros ?). apply exit_never.
Qed.

(** What comes after it does not matter. *)
Lemma never_bind (m : U S unit) (f : unit → U S unit) s : never_returns m → ubind m f s = m s.
Proof. intros Hm. unfold ubind. destruct (m s) as [a s'| | |] eqn:E; try done. by destruct (Hm s a s'). Qed.

End run.

(** ** Descriptors *)

Inductive fobj := FConsole | FPipe (id : nat) (writable : bool) | FFile (path : list Z) (mode : Z).

(** The descriptors of the process, the pipes made so far, the answers of the
    coming calls of [fork], the calls of [wait], and the program it became. *)
Record fdtab := mk_fdtab {
  ft_fds : gmap Z fobj;
  ft_pipes : nat;
  ft_forks : list Z;
  ft_waits : nat;
  ft_exec : option (list Z * list (list Z))
}.

Definition set_ft_fds (t : gmap Z fobj) (s : fdtab) : fdtab := mk_fdtab t (ft_pipes s) (ft_forks s) (ft_waits s) (ft_exec s).

Definition fdtab_sys (c : call) (s : fdtab) : answer * fdtab :=
  match c with
  | CPipe =>
      match lowest_fd (ft_fds s) with
      | Some r =>
          let t := <[r := FPipe (ft_pipes s) false]> (ft_fds s) in
          match lowest_fd t with
          | Some w =>
              (mk_answer 0 [r; w],
               mk_fdtab (<[w := FPipe (ft_pipes s) true]> t) (Datatypes.S (ft_pipes s)) (ft_forks s) (ft_waits s) (ft_exec s))
          | None => (mk_answer (-1) [], s)
          end
      | None => (mk_answer (-1) [], s)
      end
  | CClose fd =>
      match ft_fds s !! fd with
      | Some _ => (mk_answer 0 [], set_ft_fds (delete fd (ft_fds s)) s)
      | None => (mk_answer (-1) [], s)
      end
  | CDup fd =>
      match ft_fds s !! fd, lowest_fd (ft_fds s) with
      | Some x, Some fd' => (mk_answer fd' [], set_ft_fds (<[fd' := x]> (ft_fds s)) s)
      | _, _ => (mk_answer (-1) [], s)
      end
  | COpen path mode =>
      match lowest_fd (ft_fds s) with
      | Some fd => (mk_answer fd [], set_ft_fds (<[fd := FFile path mode]> (ft_fds s)) s)
      | None => (mk_answer (-1) [], s)
      end
  | CFork => (mk_answer (default (-1) (head (ft_forks s))) [], mk_fdtab (ft_fds s) (ft_pipes s) (tail (ft_forks s)) (ft_waits s) (ft_exec s))
  | CWait => (mk_answer 1 [], mk_fdtab (ft_fds s) (ft_pipes s) (ft_forks s) (Datatypes.S (ft_waits s)) (ft_exec s))
  | CExec path argv => (mk_answer 0 [], mk_fdtab (ft_fds s) (ft_pipes s) (ft_forks s) (ft_waits s) (Some (path, argv)))
  | CWrite fd buf => (mk_answer (Z.of_nat (length buf)) [], s)
  | _ => (mk_answer 0 [], s)
  end.

#[export] Instance fdtab_os : Os fdtab := fdtab_sys.

Lemma lowest_0 {A} (t : gmap Z A) : t !! 0 = None → lowest_fd t = Some 0.
Proof. intros H0. unfold lowest_fd. change (seqZ 0 16) with (0 :: seqZ 1 15). rewrite filter_cons. by rewrite decide_True by done. Qed.

Lemma lowest_1 {A} (t : gmap Z A) : is_Some (t !! 0) → t !! 1 = None → lowest_fd t = Some 1.
Proof.
  intros [x H0] H1. unfold lowest_fd. change (seqZ 0 16) with (0 :: 1 :: seqZ 2 14). rewrite filter_cons, decide_False by (by rewrite H0).
  rewrite filter_cons. by rewrite decide_True by done.
Qed.

Lemma lowest_free {A} (t : gmap Z A) fd : lowest_fd t = Some fd → t !! fd = None.
Proof.
  unfold lowest_fd. intros E. destruct (filter _ (seqZ 0 16)) as [|x l] eqn:Ef; [done|]. injection E as ->.
  assert (fd ∈ filter (λ fd, t !! fd = None) (seqZ 0 16)) as Hin by (rewrite Ef; by left). by apply list_elem_of_filter in Hin as [? _].
Qed.

Lemma close_fd s fd x (f : Z → U fdtab unit) :
  ft_fds s !! fd = Some x → ubind (usys (CClose fd)) f s = f 0 (set_ft_fds (delete fd (ft_fds s)) s).
Proof. intros Hx. apply (ubind_usys _ f s (mk_answer 0 [])). unfold sys, fdtab_os. cbn [fdtab_sys]. by rewrite Hx. Qed.

Lemma dup_fd s fd fd' x (f : Z → U fdtab unit) :
  ft_fds s !! fd = Some x → lowest_fd (ft_fds s) = Some fd' →
  ubind (usys (CDup fd)) f s = f fd' (set_ft_fds (<[fd' := x]> (ft_fds s)) s).
Proof. intros Hx Hl. apply (ubind_usys _ f s (mk_answer fd' [])). unfold sys, fdtab_os. cbn [fdtab_sys]. by rewrite Hx, Hl. Qed.

Lemma fork1_fd s pid forks (f : Z → U fdtab unit) :
  ft_forks s = pid :: forks → pid ≠ -1 →
  ubind fork1 f s = f pid (mk_fdtab (ft_fds s) (ft_pipes s) forks (ft_waits s) (ft_exec s)).
Proof.
  intros Hf Hp. unfold fork1. rewrite ubind_assoc.
  rewrite (ubind_usys _ _ s (mk_answer pid []) (mk_fdtab (ft_fds s) (ft_pipes s) forks (ft_waits s) (ft_exec s))) by (unfold sys, fdtab_os; cbn [fdtab_sys]; by rewrite Hf).
  cbn [a_ret default head from_option id]. by rewrite (proj2 (Z.eqb_neq pid (-1))) by done.
Qed.

(** The descriptors of a process that is about to run a command: the standard
    ones are open, and two are free for the ends of a pipe. *)
Record ready (s : fdtab) (r w : Z) : Prop := {
  rd_in : is_Some (ft_fds s !! 0);
  rd_out : is_Some (ft_fds s !! 1);
  rd_read : lowest_fd (ft_fds s) = Some r;
  rd_write : lowest_fd (<[r := FPipe (ft_pipes s) false]> (ft_fds s)) = Some w
}.

Lemma ready_fds s r w : ready s r w → ft_fds s !! r = None ∧ ft_fds s !! w = None ∧ r ≠ w ∧ r ≠ 0 ∧ r ≠ 1 ∧ w ≠ 0 ∧ w ≠ 1.
Proof.
  intros [[x0 H0] [x1 H1] Hr%lowest_free Hw%lowest_free]. assert (r ≠ w) as Hne by (intros <-; by rewrite lookup_insert_eq in Hw).
  rewrite lookup_insert_ne in Hw by done. split_and!; try done; intros ->; congruence.
Qed.

(** The state after [pipe] and the answers of [fork]. *)
Definition after (t : gmap Z fobj) (forks : list Z) (s : fdtab) : fdtab :=
  mk_fdtab t (Datatypes.S (ft_pipes s)) forks (ft_waits s) (ft_exec s).

(** The table while both ends of the pipe are open. *)
Definition piped (s : fdtab) (r w : Z) : gmap Z fobj :=
  <[w := FPipe (ft_pipes s) true]> (<[r := FPipe (ft_pipes s) false]> (ft_fds s)).

Lemma pipe_fd s r w (f : answer → U fdtab unit) :
  ready s r w → ubind (ucall CPipe) f s = f (mk_answer 0 [r; w]) (after (piped s r w) (ft_forks s) s).
Proof.
  intros [_ _ Hr Hw]. apply ubind_ucall. unfold sys, fdtab_os. cbn [fdtab_sys]. by rewrite Hr, Hw.
Qed.

(** Moving an end of the pipe to a standard descriptor, as the children do. *)
Lemma move_end s (r w d : Z) (x : bool) (fds : Z) forks (m : U fdtab unit) :
  ready s r w → d = 0 ∨ d = 1 → fds = (if x then w else r) →
  ubind (usys (CClose d)) (λ _ : Z, ubind (usys (CDup fds)) (λ _ : Z, ubind (usys (CClose r)) (λ _ : Z, ubind (usys (CClose w)) (λ _ : Z, m))))
    (after (piped s r w) forks s) = m (after (<[d := FPipe (ft_pipes s) x]> (ft_fds s)) forks s).
Proof.
  intros Hrd Hd ->. destruct (ready_fds s r w Hrd) as (Hr & Hw & Hrw & Hr0 & Hr1 & Hw0 & Hw1). destruct Hrd as [[x0 H0] [x1 H1] _ _].
  assert (is_Some (piped s r w !! 0) ∧ is_Some (piped s r w !! 1)) as [[y0 P0] [y1 P1]] by (unfold piped; rewrite !lookup_insert_ne by done; by rewrite H0, H1).
  assert (∃ y, piped s r w !! d = Some y) as [y Hy] by (destruct Hd as [-> | ->]; eauto).
  assert (d ≠ r ∧ d ≠ w) as [Hdr Hdw] by (destruct Hd as [-> | ->]; done).
  rewrite (close_fd _ d y) by done. cbn [ft_fds after set_ft_fds].
  assert (lowest_fd (delete d (piped s r w)) = Some d) as Hlow.
  { destruct Hd as [-> | ->]; [apply lowest_0, lookup_delete_eq|]. apply lowest_1; [by rewrite lookup_delete_ne, P0|apply lookup_delete_eq]. }
  assert (piped s r w !! r = Some (FPipe (ft_pipes s) false) ∧ piped s r w !! w = Some (FPipe (ft_pipes s) true)) as [Er Ew].
  { unfold piped. split; [by rewrite lookup_insert_ne, lookup_insert_eq by done|by rewrite lookup_insert_eq]. }
  rewrite (dup_fd _ _ d (FPipe (ft_pipes s) x)); [|destruct x; cbn [ft_fds set_ft_fds]; by rewrite lookup_delete_ne|exact Hlow].
  rewrite (close_fd _ r (FPipe (ft_pipes s) false)) by (cbn [ft_fds set_ft_fds]; by rewrite lookup_insert_ne, lookup_delete_ne).
  rewrite (close_fd _ w (FPipe (ft_pipes s) true)) by (cbn [ft_fds set_ft_fds]; by rewrite lookup_delete_ne, lookup_insert_ne, lookup_delete_ne).
  unfold set_ft_fds, after. cbn [ft_fds ft_pipes ft_forks ft_waits ft_exec]. f_equal. f_equal. apply map_eq. intros i.
  unfold piped. destruct (decide (i = w)) as [->|]; [by rewrite lookup_delete_eq, lookup_insert_ne by done|].
  rewrite lookup_delete_ne by done. destruct (decide (i = r)) as [->|]; [by rewrite lookup_delete_eq, lookup_insert_ne by done|].
  rewrite lookup_delete_ne by done. destruct (decide (i = d)) as [->|]; [by rewrite !lookup_insert_eq|].
  by rewrite lookup_insert_ne, lookup_delete_ne, !lookup_insert_ne by done.
Qed.

(** The parent gives up both ends. *)
Lemma close_both s r w forks (m : U fdtab unit) :
  ready s r w →
  ubind (usys (CClose r)) (λ _ : Z, ubind (usys (CClose w)) (λ _ : Z, m)) (after (piped s r w) forks s) = m (after (ft_fds s) forks s).
Proof.
  intros Hrd. destruct (ready_fds s r w Hrd) as (Hr & Hw & Hrw & _).
  rewrite (close_fd _ r (FPipe (ft_pipes s) false)) by (cbn [ft_fds after]; unfold piped; by rewrite lookup_insert_ne, lookup_insert_eq by done).
  rewrite (close_fd _ w (FPipe (ft_pipes s) true)) by (cbn [ft_fds after set_ft_fds]; unfold piped; by rewrite lookup_delete_ne, lookup_insert_eq by done).
  unfold set_ft_fds, after, piped. cbn [ft_fds ft_pipes ft_forks ft_waits ft_exec]. f_equal. f_equal. apply map_eq. intros i.
  destruct (decide (i = w)) as [->|]; [by rewrite lookup_delete_eq|]. rewrite lookup_delete_ne by done.
  destruct (decide (i = r)) as [->|]; [by rewrite lookup_delete_eq|]. by rewrite lookup_delete_ne, !lookup_insert_ne by done.
Qed.

(** C20: The shell connects a pipeline.  With the standard descriptors open, running
    [l | r] goes on in the first child as [l] with the write end of a new pipe as
    its standard output, in the second child as [r] with the read end as its
    standard input, every other descriptor of theirs being as before and no other
    descriptor open on the pipe; and in the parent it waits for both children
    with both ends closed, and exits. *)
Theorem runcmd_pipeline buf l r s rd wr p1 p2 forks :
  ready s rd wr → p1 ≠ -1 → p1 ≠ 0 → p2 ≠ -1 → p2 ≠ 0 →
  (ft_forks s = 0 :: forks → runcmd buf (pipecmd l r) s = runcmd buf l (after (<[1 := FPipe (ft_pipes s) true]> (ft_fds s)) forks s)) ∧
  (ft_forks s = p1 :: 0 :: forks → runcmd buf (pipecmd l r) s = runcmd buf r (after (<[0 := FPipe (ft_pipes s) false]> (ft_fds s)) forks s)) ∧
  (ft_forks s = p1 :: p2 :: forks →
     runcmd buf (pipecmd l r) s = UExit (mk_fdtab (ft_fds s) (S (ft_pipes s)) forks (2 + ft_waits s) (ft_exec s))).
Proof.
  intros Hrd H1 H2 H3 H4. cbn [runcmd]. split_and!; intros Hf; rewrite (pipe_fd s rd wr) by done; cbn [a_ret a_data Z.ltb Z.compare lookup list_lookup default from_option id].
  - rewrite (fork1_fd _ 0 forks) by done. cbn [Z.eqb uwhen]. rewrite never_bind by (repeat (apply bind_never; intros ?); apply runcmd_never).
    apply (move_end s rd wr 1 true wr); [done|by right|done].
  - rewrite (fork1_fd _ p1 (0 :: forks)) by done. rewrite (proj2 (Z.eqb_neq p1 0)) by done. cbn [uwhen]. rewrite ubind_ret.
    rewrite (fork1_fd _ 0 forks) by done. cbn [Z.eqb uwhen]. rewrite never_bind by (repeat (apply bind_never; intros ?); apply runcmd_never).
    apply (move_end s rd wr 0 false rd); [done|by left|done].
  - rewrite (fork1_fd _ p1 (p2 :: forks)) by done. rewrite (proj2 (Z.eqb_neq p1 0)) by done. cbn [uwhen]. rewrite ubind_ret.
    rewrite (fork1_fd _ p2 forks) by done. rewrite (proj2 (Z.eqb_neq p2 0)) by done. cbn [uwhen]. rewrite ubind_ret.
    etrans; [apply (close_both s rd wr forks (ubind (usys CWait) (λ _, ubind (usys CWait) (λ _, exit))) Hrd)|]. reflexivity.
Qed.

Definition demo_tab : fdtab := mk_fdtab {[0 := FConsole; 1 := FConsole; 2 := FConsole]} 0 [0] 0 None.

Lemma runcmd_pipeline_witness :
  runcmd [108; 0; 119; 0] (pipecmd (execcmd [(0, 1)%nat]) (execcmd [(2, 3)%nat])) demo_tab =
  UExit (mk_fdtab {[0 := FConsole; 1 := FPipe 0 true; 2 := FConsole]} 1 [] 0 (Some ([108], [[108]]))).
Proof.
  assert (ready demo_tab 3 4) as Hr.
  { split; [by eexists|by eexists|vm_compute; reflexivity|vm_compute; reflexivity]. }
  destruct (runcmd_pipeline [108; 0; 119; 0] (execcmd [(0, 1)%nat]) (execcmd [(2, 3)%nat]) demo_tab 3 4 7 8 [] Hr) as (H1 & _ & _); [done|done|done|done|].
  rewrite H1 by reflexivity. vm_compute. reflexivity.
Defined.

(** A redirection of a standard descriptor runs the command with the file in its
    place. *)
Lemma runcmd_redirects buf c file efile mode fd s :
  is_Some (ft_fds s !! 0) → is_Some (ft_fds s !! 1) → fd = 0 ∨ fd = 1 →
  runcmd buf (redircmd c file efile mode fd) s = runcmd buf c (set_ft_fds (<[fd := FFile (string_at buf file) mode]> (ft_fds s)) s).
Proof.
  intros [x0 H0] [x1 H1] Hfd. cbn [runcmd]. rewrite (close_fd s fd (if fd =? 0 then x0 else x1)) by (by destruct Hfd as [-> | ->]).
  assert (lowest_fd (delete fd (ft_fds s)) = Some fd) as Hlow.
  { destruct Hfd as [-> | ->]; [apply lowest_0, lookup_delete_eq|]. apply lowest_1; [by rewrite lookup_delete_ne, H0|apply lookup_delete_eq]. }
  rewrite (ubind_usys _ _ _ (mk_answer fd []) (set_ft_fds (<[fd := FFile (string_at buf file) mode]> (delete fd (ft_fds s))) s)).
  - cbn [a_ret]. rewrite (proj2 (Z.ltb_ge fd 0)) by lia. rewrite never_bind by apply runcmd_never. by rewrite insert_delete_eq.
  - unfold sys, fdtab_os. cbn [fdtab_sys ft_fds set_ft_fds]. by rewrite Hlow.
Qed.
